(* ===== verification/_CoqProject ===== *)
-Q . S2P
Prelude.v
PyStr.v
Uuid.v
PyTime.v
Json.v
JsonText.v
Enums.v
Schemas.v
Models.v
ChatTargets.v
BotState.v
World.v
Settings.v
TimeZone.v
StatusPolicies.v
Samples.v
SignalRepo.v
SignalHelper.v
SignalService.v
SignalSafety.v
SignalFlow.v
Webhook.v
Deferred.v
SignalWorker.v
RetryJob.v
BroadcastRepo.v
CycleLog.v
CycleFlow.v
BroadcastService.v
Dispatcher.v
DispatchSafety.v
DispatchFlow.v
DispatchLive.v
DispatchSweep.v
EndToEnd.v
Migrations.v
MigrationFlow.v
ChangeListener.v
DispatchClose.v
CycleLock.v
Notices.v
MessageBody.v
TradeRepo.v
TradeFlow.v
AccountRepo.v
AccountFlow.v
AccountTables.v
AccountLinks.v
Notifications.v
AccountSettings.v
AdminApi.v
SystemConsumer.v
AdminFlow.v
Handshake.v
TradeConsumer.v
TradeCards.v
CardFlow.v
TelegramApi.v
BotClient.v
BotTable.v
BotText.v
CardText.v
BotCore.v
BotUser.v
BotAdmin.v
BotApp.v
TelegramFlow.v
BotRun.v
BotSafety.v
BotMenu.v
TelegramCases.v
AdminCases.v
BotInvite.v
BotCases.v
BotCards.v
BotExamples.v
DemoSignal.v
ErrorLog.v
Lifespan.v
Status.v
