(* ===== verification/Prelude.v ===== *)
(** * Algo Trading Broker: verification library

    A Rocq model of the broker ([src/broker]), of its Telegram bot ([src/bot]) and of
    its schema history ([src/alembic]): the path of a trading signal from the webhook
    to the workers, the Telegram broadcast of each trade, the workers' reports on the
    trades they opened, the accounts those workers trade, what the accounts' users see
    and command over Telegram, and what an administrator sets over HTTP or in the bot.

    ** The program

    A TradingView alert reaches the webhook, which checks its token and puts it on
    a JetStream subject; when JetStream does not accept it in time it waits on an
    in-memory backlog.  A pull worker takes it from the stream, writes one
    [signals] row and fans it out: a SIGNAL (or FLAT) message for the workers, a
    record on the trade's broadcast cycle, and the row's status.  Failures leave
    the row QUEUED for a retry job with a bounded number of attempts.  The
    broadcast cycle is a row of its own with an append-only write log; a trigger
    notifies a listener of each entry, and a dispatcher, woken by the listener or by
    its own sweep, turns the log's pending entries into new or edited Telegram
    messages, one per chat and trade, and reply notices under them.  Workers report
    every change of a position on a second stream; a consumer applies each report
    to the row of its trade and records it on the cycle it belongs to.

    An account is created by an administrator or by the first report or handshake
    of its worker.  A user claims it with an invite token, may hold several
    accounts and drives one of them; through the bot's API the user switches
    between them, blocks signals, caps the open orders, closes a trade, and opts in
    to trade cards: one Telegram message per trade and subscriber that follows the
    trade's status.  A worker that connects shakes hands on the SYSTEM subject: it
    announces itself and is sent its settings, the magic numbers of its strategies,
    its leverage block and the signals it missed.

    An administrator with the API key registers accounts, changes the broker's
    settings and orders FLATs; a changed setting is stored, announced on the admin
    channel and, for the leverage block and the cap, pushed to every worker.  Notices
    leave through a bounded queue in front of their channel; ERROR records of the
    log leave through a queue of their own.

    The bot is a second process: it keeps conversations and the command menus it set,
    and asks the broker over HTTP for everything else.  The broker's process starts
    its services in order on an exit stack and unwinds it; [make status] probes the
    links from outside; alembic brings the database to the schema the code expects.

    ** The model

    Code is a program ([World.prog]) over one explicit [World]: the tables, what
    was sent, and what the environment still has in store for each database
    commit, NATS call and Bot API call ([outcome], [tg_result]).  A program is a
    tree of atomic actions; [run] executes it, [texec] executes it among
    arbitrary steps of the rest of the system and may stop it anywhere (a crash).
    [wp] and [always] are the proof rules: every action of a program is a step of
    a given relation.  A database session is one action: it commits as a whole,
    has no effect, or commits and loses its answer ([outcome]); where the code's
    transaction holds no lock while it decides ([record_event] of an absent
    cycle) the model splits it.  Where an unordered query may find several rows,
    which one comes first is the server's choice (class [RowChoice]).  Tasks that
    interleave within one process are step relations of their own ([CycleLock],
    [ErrorLog], [ChangeListener]); the statements of the migrations are data
    ([Migrations.stmt]) with an execution on a schema and one on its rows.

    ** Files

    - [PyStr], [Uuid], [PyTime], [Json], [JsonText]: Python's strings, uuids,
      timestamps, decoded JSON, [json.loads] and [json.dumps], [float] of a text and
      the shortest text of a float, as far as the code uses them;
    - [Enums], [Schemas], [Models], [ChatTargets]: enumerations, payloads, ORM rows
      with their unique constraints, chat targets ([schemas/], [db/models.py]);
    - [World]: the world, programs, executions, proof rules; [get_session] of
      [db/engine.py] is [session_step]; [Settings]: configuration and the stored
      settings ([settings.py], [constants.py], [db/repository/setting.py]);
    - [TimeZone]: [helpers/timezone_helper.py] over a model of the proleptic
      Gregorian calendar; [StatusPolicies]: the two modules of [domain/];
    - [Samples]: concrete inputs on which the theorems are exercised;
    - [SignalRepo], [BroadcastRepo], [TradeRepo], [AccountRepo]: the repositories of
      [db/repository/], one definition per method;
    - [SignalHelper]: [helpers/signal_helper.py], [helpers/timeframe_helper.py]
      and the publishers of [services/nats_service.py];
    - [SignalService], [Deferred], [SignalWorker], [RetryJob]: the processing
      service, its deferred backlog, the JetStream pull worker with its handler of
      signals, and the retry job ([services/signal_processing_service.py],
      [services/jetstream_service.py], [services/signal_retry_job.py]), written
      against the classes [Notifier] and [SignalBroadcaster]; [SignalSafety],
      [SignalFlow]: theorems on that pipeline;
    - [Webhook]: [api/webhook.py] with the exception handlers and the middleware of
      [app.py], and [security/redaction.py];
    - [CycleLog], [CycleFlow]: the invariant of the write log, what recording,
      claiming and closing do, and the abstract specification of a cycle (the list of
      what it was told) that [record_event] refines;
    - [BroadcastService]: the writer half of [services/broadcast_service.py], the
      instance of [SignalBroadcaster] the pipeline is used with;
    - [Dispatcher]: the Bot API calls of [services/notification_service.py] and the
      dispatcher half of [services/broadcast_service.py]; [DispatchSafety],
      [DispatchFlow], [DispatchLive], [DispatchSweep], [DispatchClose]: what a dispatch
      may send, what its success means, that it completes, that sweeps make good what
      nobody heard, how it closes its changes, what parking and failed reads do;
    - [EndToEnd]: webhook, worker, writer and sweeper put together;
    - [ChangeListener]: [db/listener.py] and the trigger's payload; [CycleLock]: the
      table of per-cycle locks around a dispatch; both as step relations;
    - [Notices], [MessageBody]: the reply notices and the body of a cycle's message in
      [helpers/message_formatter.py], and who may read what in it;
    - [Migrations], [MigrationFlow]: the revisions of [alembic/versions] with
      [alembic/env.py], and the schema they lead to beside the one the ORM classes
      declare;
    - [TradeFlow]: the life of a trade over any reports; [TradeConsumer]:
      [TradeEventConsumer] of [services/nats_service.py], against the class
      [TradeCards];
    - [AccountTables], [AccountLinks], [AccountFlow]: the account tables stay well
      formed, what each call gives and takes, and what nobody can do after a rotation;
    - [Notifications]: the channels of [services/notification_service.py] and the
      queue in front of them; [ErrorLog]: [TelegramLogHandler] of the same module,
      as a step relation of logging threads, event loop and worker task;
    - [AccountSettings]: [services/account_settings_service.py] and the publishers
      of settings, ACKs and directives; [SystemConsumer], [Handshake]:
      [SystemEventConsumer] of [services/nats_service.py] and what it answers;
    - [TradeCards], [CardFlow], [CardText]: [services/trade_card_service.py] with its
      two repositories, notifier and keyboard, the instance of [TradeCards] the
      consumer is used with; what one turn of it does; and the card's text
      ([helpers/trade_card.py]) beside the one the bot draws;
    - [TelegramApi]: the routes of [api/telegram.py] and the listings of
      [api/api.py]; [TelegramFlow], [TelegramCases]: what they may send, and how
      settings reach the worker;
    - [AdminApi]: the routes of [api/admin.py] behind
      [security/ensure_api_key.py]; [AdminFlow], [AdminCases]: what changing a
      setting may send, and what its new value does to the workers;
    - [BotState], [BotClient], [BotTable], [BotText], [BotCore], [BotUser],
      [BotAdmin], [BotApp]: the bot: what it keeps, its HTTP client with the broker's
      routes behind it, pages, texts and keyboards, menus and invite codes, the
      handlers, and the middlewares and routers in front of them; [BotRun],
      [BotSafety], [BotMenu], [BotInvite], [BotCases], [BotCards], [BotExamples]:
      what an update can and does bring about;
    - [DemoSignal]: [services/demo_signal_service.py]; [Lifespan]: the [lifespan] of
      [app.py] and the connection of [nats.py]; [Status]: [status.py].

    ** What the theorems show

    Signals: one message yields one [signal_id] however often it is delivered; an
    ack accounts for its signal; a redelivery of a handled message sends nothing;
    the block gate fails closed; attempts bound the retries and a retry tick
    touches only rows that are due; the backlog drains, in order and within its
    size, and shutdown counts what it loses.  The webhook answers whatever is posted,
    with [Connection: close] but for errors that no JSON can hold, and neither its
    answers nor its log depend on the secret, but for one window and what follows a quote in it.
    Over working services an alert reaches the workers as one command and every
    destination as a shown change, from the POST to the sweep.

    Broadcasts: the write log is complete and append-only under every
    interleaving; a recorded event is on the trade's one message and a replay is
    free; a change has one deliverer and its attempts add up; one dispatch at a
    time is inside a cycle; a dispatch sends only the current body to chats that
    are behind, DELIVERED means shown, an unanswered message is not posted twice,
    and over working services a pass completes; the changes heard are dispatched in
    order, and those nobody heard the sweeps make good; notices head the status their
    own event led to.

    Trades: a report is acked only with its trade's row stored; a trade never moves
    back; any order of the same reports ends in the same rank, and a replayed
    report changes nothing.

    Accounts: the tables keep their unique and foreign keys; a live token links its presenter to one
    account and nothing else; after a rotation only the new secret opens the
    account.  Handshakes: at most one answer, complete when it is an ACK, and the
    settings in it are those the owner set.  Cards: one message per subscriber and
    trade, edited exactly when the status moved, and drawn alike by broker and bot.
    Commands: a directive goes to an account the caller holds, and only after what it
    announces is stored.

    The bot: a user who is no administrator moves nothing but the user's own links and
    the accounts the user holds; a card's buttons close the trade the card shows;
    invite links open the account they were made for; menus follow the links while
    no answer of Telegram is lost; a
    confirmation publishes what was picked, and what it does after a switch.

    Administration: a setting is stored before anyone hears of it; a new cap reaches
    every worker as the settings its next handshake would carry; a stored strategy
    map is served as it was written, through its JSON text; a new account answers
    the one invite that opens it.  Notices: each leaves once and in order, none
    reaches a muted channel; an error is told once per window, unless the
    queue was full, and the send path's own errors never are; a drill commands nobody.  The posted body: what the
    public may read depends on no strategy, input or account, and opens with the
    status the reply under it opens with.

    The process: services that started are stopped once, in reverse order, whatever
    raises; [make status] succeeds exactly when every link is up.  The schema: in
    either order of its branches the history builds the declared schema, up to a
    stated list of differences; from any revision it keeps every row and value,
    but for the rounding of fifteen columns;
    each downgrade takes its upgrade back; narrower keys refuse what would clash.

    Statements of the form "a failed read ...", "a last attempt ...", "an unrenderable
    cycle ...", "mixed gateways ...", "a legacy row ...", "a lost answer ...", "a forged button ..." and "cards
    nobody may press" show behaviour that
    contradicts what the code documents.

    ** Bounds

    Loops of the code are structural recursions over the list they walk
    ([for_each], [notify_loop], [process] over the inline delays, [record_event]
    over its two attempts).  Loops that never end take the number of their turns, or
    what each turn finds: the deferred loop is [run_loop n], and [backlog_drains]
    gives the [n] that empties any backlog; the sweeper is [sweep_loop n], and
    [sweeps_catch_up] gives the [n] that leaves nothing outstanding; [pull_run] and
    [job_run] end where they see their stop flag.  [upgrade_orders] has one unit of
    fuel per revision, and each of its steps applies one.  Integers are unbounded as
    in Python; Postgres' column widths are not modelled outside [Migrations].

    ** Not modelled

    Logging and its configuration, the OpenAPI text, time-outs and pauses (a
    timed-out call is a call that failed or lost its answer) and, outside the step
    relations, task cancellation; isolation below atomic sessions, with the one
    exception above; texts of driver errors; [Numeric] rounding; Unicode beyond ASCII
    in [strip], [upper], [isdigit] and [int]; the basic and week forms of
    [fromisoformat].  Third-party code is a class: pydantic is [Pydantic],
    [SettingsPydantic] and, with what httpx and the router make of a path, [BotHttp],
    FastAPI's parsing of a request with its failures [WebhookRequests], where [json.loads] stops [JsonErrors], the columns Postgres
    fills and its collation [TradeColumns], aiogram's deep links [BotEnv].  The
    dispatcher is proved for any rendering of the body, which may raise (class
    [Renderer]), of which [MessageBody.broker_renderer] is the code's, and the cards for any text
    (class [CardRenderer]), of which [CardText] has the code's.  Foreign keys are not
    checked by the inserts: [AccountTables] proves that they hold.  Reads the code
    gathers concurrently are made one after the other; the caches of the SYSTEM
    consumer are timed by the world's one clock.

    Routes are modelled from the parsed request on, and the account routes of the
    telegram API from its authenticated caller.  The bot handles one update at a time,
    from the event aiogram's filters see; a card's trade id that is no segment of a path
    is a request elsewhere ([BotClient.trade_request]), while the ids an administrator types
    are taken for segments.  In [Lifespan] a service's own [start] and [stop] are atomic.
    Of alembic, the order of revisions beyond "after those it revises" is outside, and
    of PostgreSQL the typing of numbers and the length of texts in the tables.  The
    container's entry point is a shell script and is left out. *)

From Stdlib Require Export ZArith Lia Sorted Permutation.
From stdpp Require Export base tactics strings gmap relations pretty option list.
From stdpp Require Export list_basics list_relations list_monad list_misc.

Declare Scope broker_scope.
Delimit Scope broker_scope with broker.

(** ** Results of fallible code

    [Ok a] is a normal return, [Err e] a raised exception. *)
Inductive res (E A : Type) : Type :=
| Ok (a : A)
| Err (e : E).
Arguments Ok {E A} a.
Arguments Err {E A} e.

(** Sequencing of results. *)
Notation "'let?' x := p 'in' q" :=
  (match p with Ok x => q | Err e => Err e end) (at level 10, x name, p at level 99, q at level 200).

Definition is_ok {E A} (r : res E A) : bool :=
  match r with Ok _ => true | Err _ => false end.

(** ** Tables

    A database table is the list of its rows in physical order.  [select_first]
    is [session.execute(select(..).where(p)).scalars().first()]; [select_where]
    is [.scalars().all()]; [update_where] assigns to the attributes of every row
    a query returned; [delete_where] is a bulk [delete]. *)
Section tables.
Context {row : Type}.

Fixpoint select_first (p : row -> bool) (t : list row) : option row :=
  match t with
  | [] => None
  | r :: t' => if p r then Some r else select_first p t'
  end.

Definition select_where (p : row -> bool) (t : list row) : list row :=
  base.filter (fun r => p r = true) t.

Definition update_where (p : row -> bool) (f : row -> row) (t : list row) : list row :=
  map (fun r => if p r then f r else r) t.

Definition delete_where (p : row -> bool) (t : list row) : list row :=
  base.filter (fun r => p r = false) t.

Lemma select_first_Some p t r :
  select_first p t = Some r -> r ∈ t /\ p r = true.
Proof.
  induction t as [|r' t IH]; simpl; [done|]. destruct (p r') eqn:E.
  - intros [= ->]. split; [left | done].
  - intros [??]%IH. split; [by right | done].
Qed.

Lemma select_first_None p t :
  select_first p t = None <-> Forall (fun r => p r = false) t.
Proof.
  induction t as [|r' t IH]; simpl; [by split|]. destruct (p r') eqn:E.
  - split; [done|]. intros H. inversion H; congruence.
  - rewrite IH. split; [by constructor | by inversion 1].
Qed.

Lemma select_first_is_Some p t r :
  r ∈ t -> p r = true -> is_Some (select_first p t).
Proof.
  intros Hr Hp. destruct (select_first p t) eqn:E; [eauto|].
  apply select_first_None in E. rewrite Forall_forall in E.
  specialize (E r Hr). congruence.
Qed.

Lemma select_first_app p t1 t2 :
  select_first p (t1 ++ t2) =
  match select_first p t1 with Some r => Some r | None => select_first p t2 end.
Proof. induction t1 as [|r t1 IH]; simpl; [done|]. by destruct (p r). Qed.

Lemma select_first_ext p q t :
  Forall (fun r => p r = q r) t -> select_first p t = select_first q t.
Proof. induction 1 as [|r t Hr _ IH]; simpl; [done|]. by rewrite Hr, IH. Qed.

Lemma select_first_update p q f t :
  (forall r, p (f r) = p r) ->
  select_first p (update_where q f t) =
  (fun r => if q r then f r else r) <$> select_first p t.
Proof.
  intros Hp. induction t as [|r t IH]; simpl; [done|].
  assert (p (if q r then f r else r) = p r) as -> by (destruct (q r); auto).
  by destruct (p r).
Qed.

(** The first match is unchanged by an update that changes no row it tests. *)
Lemma select_first_update_other p q f t :
  (forall r, r ∈ t -> q r = true -> p r = false /\ p (f r) = false) ->
  select_first p (update_where q f t) = select_first p t.
Proof.
  induction t as [|r t IH]; [done|]. intros H.
  change (update_where q f (r :: t)) with ((if q r then f r else r) :: update_where q f t).
  cbn [select_first]. rewrite IH by (intros; apply H; [by right|done]).
  destruct (q r) eqn:E; [|done]. destruct (H r) as [-> ->]; [left|done|]. done.
Qed.

Lemma elem_of_select_where p t r : r ∈ select_where p t <-> r ∈ t /\ p r = true.
Proof. unfold select_where. rewrite list_elem_of_filter. tauto. Qed.

Lemma elem_of_delete_where p t r : r ∈ delete_where p t <-> r ∈ t /\ p r = false.
Proof. unfold delete_where. rewrite list_elem_of_filter. tauto. Qed.

Lemma elem_of_update_where p f t r' :
  r' ∈ update_where p f t <->
  exists r, r ∈ t /\ r' = if p r then f r else r.
Proof. unfold update_where. rewrite list_elem_of_fmap. split; intros (r & ? & ?); eauto. Qed.

Lemma update_where_none p f t :
  Forall (fun r => p r = false) t -> update_where p f t = t.
Proof.
  induction 1 as [|r t Hr _ IH]; simpl; [done|]. by rewrite Hr, IH.
Qed.

Lemma update_where_app p f t1 t2 :
  update_where p f (t1 ++ t2) = update_where p f t1 ++ update_where p f t2.
Proof. apply map_app. Qed.

Lemma length_update_where p f t : length (update_where p f t) = length t.
Proof. apply length_map. Qed.

(** An update that leaves a column alone leaves the projection of the table on
    that column alone. *)
Lemma update_where_proj {B} (g : row -> B) p f t :
  (forall r, p r = true -> g (f r) = g r) -> map g (update_where p f t) = map g t.
Proof.
  intros Hg. induction t as [|r t IH]; simpl; [done|]. rewrite IH.
  destruct (p r) eqn:E; [by rewrite Hg|done].
Qed.
End tables.

Lemma select_where_app {row} (q : row -> bool) (t1 t2 : list row) :
  select_where q (t1 ++ t2) = select_where q t1 ++ select_where q t2.
Proof. apply filter_app. Qed.

Lemma select_where_single {row} (q : row -> bool) (r : row) : select_where q [r] = if q r then [r] else [].
Proof. unfold select_where. rewrite filter_cons, filter_nil. by case_decide; destruct (q r). Qed.

Lemma select_where_none {row} (q : row -> bool) (t : list row) :
  Forall (fun r => q r = false) t -> select_where q t = [].
Proof.
  unfold select_where. induction 1 as [|r t Hr _ IH]; [done|].
  rewrite filter_cons. case_decide; [congruence|done].
Qed.
Lemma select_update {row} (p q : row -> bool) f (t : list row) :
  (forall r, r ∈ t -> q r = true -> p (f r) = p r) ->
  select_where p (update_where q f t) = update_where q f (select_where p t).
Proof.
  intros H. unfold select_where, update_where. induction t as [|r t IH]; [done|].
  cbn [map]. rewrite !filter_cons, IH by (intros; apply H; [by right|done]).
  destruct (q r) eqn:Eq.
  - rewrite (H r ltac:(left) Eq). case_decide; cbn [map]; by rewrite ?Eq.
  - case_decide; cbn [map]; by rewrite ?Eq.
Qed.

Lemma select_snoc {row} (p : row -> bool) (t : list row) r :
  select_where p (t ++ [r]) = select_where p t ++ (if p r then [r] else []).
Proof. by rewrite select_where_app, select_where_single. Qed.

(** The list of at most one element. *)
Definition opt_list {A} (x : option A) : list A := match x with Some a => [a] | None => [] end.

(** First occurrences, in order. *)
Fixpoint distinct {A} `{EqDecision A} (l : list A) : list A :=
  match l with
  | [] => []
  | x :: r => x :: base.filter (fun y => y <> x) (distinct r)
  end.

Lemma elem_of_distinct {A} `{EqDecision A} (l : list A) x : x ∈ distinct l <-> x ∈ l.
Proof.
  induction l as [|y l IH]; [done|]. cbn [distinct]. rewrite !elem_of_cons, list_elem_of_filter, IH.
  destruct (decide (x = y)); tauto.
Qed.

Lemma NoDup_distinct {A} `{EqDecision A} (l : list A) : NoDup (distinct l).
Proof.
  induction l as [|y l IH]; [constructor|]. cbn [distinct]. apply NoDup_cons. split.
  - rewrite list_elem_of_filter. tauto.
  - by apply NoDup_filter.
Qed.

(** The row a query found is the only one with its primary key. *)
Lemma nodup_map_eq {row K} (key : row -> K) (t : list row) r1 r2 :
  NoDup (map key t) -> r1 ∈ t -> r2 ∈ t -> key r1 = key r2 -> r1 = r2.
Proof.
  induction t as [|r t IH]; csimpl; [by intros _ ?%not_elem_of_nil|].
  intros [Hn Ht]%NoDup_cons H1 H2 E. apply elem_of_cons in H1, H2.
  destruct H1 as [->|H1], H2 as [->|H2]; auto.
  - destruct Hn. rewrite E. by apply list_elem_of_fmap_2.
  - destruct Hn. rewrite <-E. by apply list_elem_of_fmap_2.
Qed.

Lemma nodup_map_snoc {row K} (key : row -> K) (t : list row) r :
  NoDup (map key t) -> (forall r', r' ∈ t -> key r' <> key r) -> NoDup (map key (t ++ [r])).
Proof.
  intros Ht Hr. rewrite map_app. apply NoDup_app. split; [done|]. split; [|apply NoDup_singleton].
  intros x (r' & -> & Hin)%list_elem_of_fmap Hx%list_elem_of_singleton. by apply (Hr r').
Qed.

Lemma nodup_map_filter {row K} (key : row -> K) (P : row -> Prop) `{forall r, Decision (P r)} (t : list row) :
  NoDup (map key t) -> NoDup (map key (base.filter P t)).
Proof.
  induction t as [|r t IH]; [done|]. cbn [map]. intros [Hn Hnd]%NoDup_cons.
  rewrite filter_cons. case_decide; [|by apply IH]. cbn [map]. apply NoDup_cons. split; [|by apply IH].
  intros (r' & Hr' & Hin)%list_elem_of_fmap. apply list_elem_of_filter in Hin as [_ Hin].
  apply Hn. rewrite Hr'. by apply list_elem_of_fmap_2.
Qed.

Lemma nodup_map_select {row K} (key : row -> K) p (t : list row) :
  NoDup (map key t) -> NoDup (map key (select_where p t)).
Proof. apply nodup_map_filter. Qed.

Lemma nodup_map_delete {row K} (key : row -> K) p (t : list row) :
  NoDup (map key t) -> NoDup (map key (delete_where p t)).
Proof. apply nodup_map_filter. Qed.

(** A unique column: the rows that carry a value for it carry distinct ones
    (SQL's [UNIQUE] treats every [NULL] as distinct). *)
Section unique.
Context {row K : Type}.

Definition unique_key (key : row -> option K) (t : list row) : Prop :=
  NoDup (omap key t).

Lemma unique_key_eq key (t : list row) r1 r2 k :
  unique_key key t -> r1 ∈ t -> r2 ∈ t ->
  key r1 = Some k -> key r2 = Some k -> r1 = r2.
Proof.
  unfold unique_key. induction t as [|r t IH]; intros Hnd H1 H2 K1 K2.
  { by apply not_elem_of_nil in H1. }
  csimpl in Hnd. apply elem_of_cons in H1, H2.
  destruct H1 as [->|H1], H2 as [->|H2]; [done| | |].
  - rewrite K1 in Hnd. apply NoDup_cons in Hnd as [Hn _]. destruct Hn.
    apply list_elem_of_omap. eauto.
  - rewrite K2 in Hnd. apply NoDup_cons in Hnd as [Hn _]. destruct Hn.
    apply list_elem_of_omap. eauto.
  - apply IH; try done. destruct (key r); [by apply NoDup_cons in Hnd as [_ ?]|done].
Qed.

Lemma omap_update_where (key : row -> option K) p f t :
  (forall r, p r = true -> key (f r) = key r) ->
  omap key (update_where p f t) = omap key t.
Proof.
  intros Hk. unfold update_where. induction t as [|r t IH]; csimpl; [done|].
  rewrite IH. destruct (p r) eqn:E; [by rewrite Hk|done].
Qed.

Lemma unique_key_update key p f (t : list row) :
  (forall r, p r = true -> key (f r) = key r) ->
  unique_key key t -> unique_key key (update_where p f t).
Proof. intros Hk. unfold unique_key. by rewrite (omap_update_where key p f t Hk). Qed.

Lemma unique_key_snoc key (t : list row) r :
  unique_key key t -> (forall k, key r = Some k -> Forall (fun r' => key r' <> Some k) t) ->
  unique_key key (t ++ [r]).
Proof.
  intros Ht Hr. unfold unique_key. rewrite omap_app. csimpl.
  destruct (key r) as [k|] eqn:E; [|by rewrite app_nil_r].
  apply NoDup_app. split; [done|]. split; [|apply NoDup_singleton].
  intros x (r' & Hin & Hk)%list_elem_of_omap ->%list_elem_of_singleton.
  specialize (Hr k eq_refl). rewrite Forall_forall in Hr. by apply (Hr r').
Qed.

Lemma unique_key_delete key p (t : list row) :
  unique_key key t -> unique_key key (delete_where p t).
Proof.
  unfold unique_key, delete_where. induction t as [|r t IH]; csimpl; [done|].
  intros Hnd. rewrite filter_cons. case_decide.
  - simpl. destruct (key r) eqn:E; [|by apply IH].
    apply NoDup_cons in Hnd as [Hn Hnd]. apply NoDup_cons. split; [|by apply IH].
    intros (r' & Hin & Hk)%list_elem_of_omap. apply Hn, list_elem_of_omap.
    apply list_elem_of_filter in Hin as [_ ?]. eauto.
  - apply IH. destruct (key r); [by apply NoDup_cons in Hnd as [_ ?]|done].
Qed.
End unique.

(** Replacing the row of one primary key by a row whose other key is free. *)
Lemma unique_key_assign {row I K} `{EqDecision I} (id : row -> I) (key : row -> option K) i r' (t : list row) :
  NoDup (map id t) -> unique_key key t ->
  (forall r, r ∈ t -> id r <> i -> forall k, key r' = Some k -> key r <> Some k) ->
  unique_key key (update_where (fun r => bool_decide (id r = i)) (fun _ => r') t).
Proof.
  intros Hid Hkey Hno. induction t as [|r t IH]; [done|].
  cbn [map] in Hid. apply NoDup_cons in Hid as [Hnin Hid].
  assert (unique_key key t) as Hu.
  { unfold unique_key in *. csimpl in Hkey. destruct (key r); [by apply NoDup_cons in Hkey as [_ ?]|done]. }
  specialize (IH Hid Hu (fun x Hx => Hno x (proj2 (elem_of_cons t x r) (or_intror Hx)))).
  cbn [update_where map]. unfold unique_key in *. csimpl. destruct (key (if bool_decide (id r = i) then r' else r)) as [k|] eqn:Ek; [|done].
  apply NoDup_cons. split; [|done].
  intros (r2 & (r1 & Hr1 & ->)%elem_of_update_where & Hk2)%list_elem_of_omap.
  assert (id r1 <> id r) as Hne.
  { intros He. apply Hnin. rewrite <-He. by apply list_elem_of_fmap_2. }
  destruct (bool_decide_reflect (id r1 = i)) as [E1|E1], (bool_decide_reflect (id r = i)) as [E2|E2]; [congruence|..].
  - by apply (Hno r ltac:(left) E2 k).
  - by apply (Hno r1 ltac:(by right) E1 k).
  - csimpl in Hkey. rewrite Ek in Hkey. apply NoDup_cons in Hkey as [Hk _]. apply Hk, list_elem_of_omap. eauto.
Qed.

(** ** Growth of a table *)

(** Every row of [t] is still there, moved forward by [R]. *)
Definition kept {row} (R : row -> row -> Prop) (t t' : list row) : Prop :=
  forall r, r ∈ t -> exists r', r' ∈ t' /\ R r r'.

#[global] Instance kept_preorder {row} (R : row -> row -> Prop) `{!PreOrder R} : PreOrder (kept R).
Proof.
  split; [intros t r Hr; exists r; split; [done|reflexivity]|].
  intros t1 t2 t3 H1 H2 r Hr. destruct (H1 r Hr) as (r' & Hr' & H).
  destruct (H2 r' Hr') as (r'' & Hr'' & H'). exists r''. split; [done|by transitivity r'].
Qed.

Lemma kept_update {row} (R : row -> row -> Prop) `{!PreOrder R} p f (t : list row) :
  (forall r, r ∈ t -> p r = true -> R r (f r)) -> kept R t (update_where p f t).
Proof.
  intros H r Hr. exists (if p r then f r else r). split.
  - apply elem_of_update_where. eauto.
  - destruct (p r) eqn:E; [by apply H|reflexivity].
Qed.

Lemma kept_app {row} (R : row -> row -> Prop) `{!PreOrder R} (t t' : list row) : kept R t (t ++ t').
Proof. intros r Hr. exists r. split; [apply elem_of_app; by left|reflexivity]. Qed.

(** ** Ordered queries

    [order_by key] is [ORDER BY key ASC] over an integer column; rows with equal
    keys keep their physical order. *)
Section ordering.
Context {row : Type} (key : row -> Z).

Fixpoint insert_by (r : row) (t : list row) : list row :=
  match t with
  | [] => [r]
  | r' :: t' => if (key r <=? key r')%Z then r :: t else r' :: insert_by r t'
  end.

Fixpoint order_by (t : list row) : list row :=
  match t with [] => [] | r :: t' => insert_by r (order_by t') end.

Definition key_le (r r' : row) : Prop := (key r <= key r')%Z.

Lemma insert_by_perm r t : insert_by r t ≡ₚ r :: t.
Proof.
  induction t as [|r' t IH]; simpl; [done|]. destruct (key r <=? key r')%Z; [done|].
  rewrite IH. apply Permutation_swap.
Qed.

Lemma order_by_perm t : order_by t ≡ₚ t.
Proof. induction t as [|r t IH]; simpl; [done|]. by rewrite insert_by_perm, IH. Qed.

Lemma elem_of_order_by t r : r ∈ order_by t <-> r ∈ t.
Proof. by rewrite order_by_perm. Qed.

Lemma insert_by_sorted r t :
  StronglySorted key_le t -> StronglySorted key_le (insert_by r t).
Proof.
  induction 1 as [|r' t Ht IH Hr]; simpl; [repeat constructor|].
  destruct (Z.leb_spec (key r) (key r')).
  - constructor; [by constructor|]. constructor; [done|].
    eapply Forall_impl; [done|]. unfold key_le. lia.
  - constructor; [done|]. rewrite insert_by_perm. constructor; [unfold key_le; lia|done].
Qed.

Lemma order_by_sorted t : StronglySorted key_le (order_by t).
Proof. induction t; simpl; [constructor|by apply insert_by_sorted]. Qed.
End ordering.

(** ** Tactics *)

(** Case analysis on every [match] and [if] scrutinee of a hypothesis or the
    goal, one at a time. *)
Ltac case_split :=
  match goal with
  | |- context [match ?x with _ => _ end] => destruct x eqn:?
  | H : context [match ?x with _ => _ end] |- _ => destruct x eqn:?
  end.

Ltac crush := repeat (simplify_eq/=; try done; try case_split).

Create HintDb tables.
#[export] Hint Resolve select_first_Some elem_of_select_where : tables.
