(* ===== verification/PyStr.v ===== *)
(** * Python strings

    The [str] operations the broker uses, on byte strings.  A Python string is
    modelled by its UTF-8 encoding; [strip], [upper], [len], slicing and [int]
    agree with Python on ASCII text (Unicode blanks, Unicode digits, case
    mappings outside ASCII and the 4300-digit limit of [int] are not modelled). *)

From S2P Require Import Prelude.
From Stdlib Require String.
From Stdlib Require Import Ascii.

#[global] Arguments String.append : simpl nomatch.

(** ** Characters *)
Definition is_space (c : ascii) : bool :=
  let n := N_of_ascii c in
  (n =? 32)%N || ((9 <=? n)%N && (n <=? 13)%N) || ((28 <=? n)%N && (n <=? 31)%N).

Definition upper_char (c : ascii) : ascii :=
  let n := N_of_ascii c in
  if ((97 <=? n)%N && (n <=? 122)%N)%bool then ascii_of_N (n - 32) else c.

(** The value of a character as a digit of [int(_, base)]. *)
Definition digit_val (base : Z) (c : ascii) : option Z :=
  let n := Z.of_N (N_of_ascii c) in
  let v := if (48 <=? n)%Z && (n <=? 57)%Z then (n - 48)%Z
           else if (97 <=? n)%Z && (n <=? 122)%Z then (n - 87)%Z
           else if (65 <=? n)%Z && (n <=? 90)%Z then (n - 55)%Z
           else base in
  if (v <? base)%Z then Some v else None.

(** ** Strings *)
Fixpoint str_map (f : ascii -> ascii) (s : string) : string :=
  match s with EmptyString => EmptyString | String c r => String (f c) (str_map f r) end.

Definition upper (s : string) : string := str_map upper_char s.

Definition lower_char (c : ascii) : ascii :=
  let n := N_of_ascii c in
  if ((65 <=? n)%N && (n <=? 90)%N)%bool then ascii_of_N (n + 32) else c.

Definition lower (s : string) : string := str_map lower_char s.

Definition is_empty (s : string) : bool :=
  match s with EmptyString => true | String _ _ => false end.

Definition newline : string := String "010" EmptyString.

Fixpoint lstrip_by (p : ascii -> bool) (s : string) : string :=
  match s with
  | EmptyString => EmptyString
  | String c r => if p c then lstrip_by p r else s
  end.

Fixpoint rstrip_by (p : ascii -> bool) (s : string) : string :=
  match s with
  | EmptyString => EmptyString
  | String c r =>
      let r' := rstrip_by p r in
      if is_empty r' && p c then EmptyString else String c r'
  end.

(** [s.strip()], and [s.strip(chars)] for a set of characters. *)
Definition strip_by (p : ascii -> bool) (s : string) : string := rstrip_by p (lstrip_by p s).
Definition strip (s : string) : string := strip_by is_space s.

(** [s.split(sep)] for a one-character separator: never the empty list. *)
Fixpoint split (sep : ascii) (s : string) : list string :=
  match s with
  | EmptyString => [EmptyString]
  | String c r =>
      if Ascii.eqb c sep then EmptyString :: split sep r
      else match split sep r with
           | [] => [String c EmptyString]
           | p :: ps => String c p :: ps
           end
  end.

(** [sep.join(parts)]. *)
Fixpoint join (sep : string) (parts : list string) : string :=
  match parts with
  | [] => EmptyString
  | [p] => p
  | p :: ps => p +:+ sep +:+ join sep ps
  end.

(** [s.startswith(p)] and [s.removeprefix(p)]. *)
Fixpoint drop_prefix (p s : string) : option string :=
  match p, s with
  | EmptyString, _ => Some s
  | String _ _, EmptyString => None
  | String a p', String b s' => if Ascii.eqb a b then drop_prefix p' s' else None
  end.

Definition startswith (p s : string) : bool :=
  match drop_prefix p s with Some _ => true | None => false end.

Definition removeprefix (s p : string) : string :=
  match drop_prefix p s with Some r => r | None => s end.

(** [s.replace(needle, "")]: deletes the occurrences of [needle], left to right. *)
Fixpoint delete_sub (needle : string) (skip : nat) (s : string) : string :=
  match s with
  | EmptyString => EmptyString
  | String c r =>
      match skip with
      | S k => delete_sub needle k r
      | O => if startswith needle s then delete_sub needle (pred (String.length needle)) r
             else String c (delete_sub needle 0 r)
      end
  end.

(** [sub in s]. *)
Fixpoint contains (sub s : string) : bool :=
  startswith sub s ||
  match s with EmptyString => false | String _ r => contains sub r end.

(** [s[:n]]. *)
Definition take_str (n : nat) (s : string) : string := String.substring 0 n s.

(** ** [int(s, base)] *)
Fixpoint int_digits (base acc : Z) (s : string) : option Z :=
  match s with
  | EmptyString => Some acc
  | String c r =>
      if Ascii.eqb c "_"%char then
        match r with
        | EmptyString => None
        | String d r' =>
            match digit_val base d with
            | Some v => int_digits base (acc * base + v) r'
            | None => None
            end
        end
      else match digit_val base c with
           | Some v => int_digits base (acc * base + v) r
           | None => None
           end
  end.

(** One or more digits, single underscores between them. *)
Definition int_body (base : Z) (s : string) : option Z :=
  match s with
  | EmptyString => None
  | String c r =>
      match digit_val base c with
      | Some v => int_digits base v r
      | None => None
      end
  end.

(** The [0x] prefix base 16 accepts, with the underscore it may carry. *)
Definition drop_base_prefix (base : Z) (s : string) : string :=
  if (base =? 16)%Z then
    match s with
    | String "0" (String c r) =>
        if Ascii.eqb c "x"%char || Ascii.eqb c "X"%char then
          match r with String "_" r' => r' | _ => r end
        else s
    | _ => s
    end
  else s.

Definition py_int (base : Z) (s : string) : option Z :=
  match strip s with
  | String "-" r => Z.opp <$> int_body base (drop_base_prefix base r)
  | String "+" r => int_body base (drop_base_prefix base r)
  | r => int_body base (drop_base_prefix base r)
  end.

(** [str(z)] of an [int]. *)
Definition str_int (z : Z) : string := pretty z.

(** ** Facts *)
Abbreviation chars := String.list_ascii_of_string (only parsing).

Lemma chars_app s1 s2 : chars (s1 +:+ s2) = chars s1 ++ chars s2.
Proof. induction s1 as [|c s1 IH]; csimpl; [done|]. by rewrite IH. Qed.

Lemma length_string_app s t : String.length (s +:+ t) = String.length s + String.length t.
Proof. induction s as [|c s IH]; [done|]. cbn. by rewrite IH. Qed.

Lemma string_app_nil_r s : s +:+ "" = s.
Proof. induction s as [|c s IH]; simpl; [done|]. by rewrite IH. Qed.

Lemma string_app_assoc s1 s2 s3 : (s1 +:+ s2) +:+ s3 = s1 +:+ s2 +:+ s3.
Proof. induction s1 as [|c s1 IH]; simpl; [done|]. by rewrite IH. Qed.

Lemma string_app_inj_l s1 s2 s2' : s1 +:+ s2 = s1 +:+ s2' -> s2 = s2'.
Proof. induction s1 as [|c s1 IH]; simpl; [done|]. intros [= H]. auto. Qed.

Lemma str_map_idemp f s : (forall c, f (f c) = f c) -> str_map f (str_map f s) = str_map f s.
Proof. intros Hf. induction s as [|c s IH]; simpl; [done|]. by rewrite Hf, IH. Qed.

Lemma upper_char_idemp c : upper_char (upper_char c) = upper_char c.
Proof. destruct c as [[][][][][][][][]]; reflexivity. Qed.

Lemma upper_idemp s : upper (upper s) = upper s.
Proof. apply str_map_idemp, upper_char_idemp. Qed.

Lemma upper_char_sep c : upper_char c = ":"%char <-> c = ":"%char.
Proof. destruct c as [[][][][][][][][]]; split; intros H; try done; vm_compute in H; done. Qed.

Lemma upper_space c : is_space (upper_char c) = is_space c.
Proof. destruct c as [[][][][][][][][]]; reflexivity. Qed.

Lemma eq_comm {A} (x y : A) : x = y <-> y = x.
Proof. done. Qed.

Lemma elem_of_upper s : ":"%char ∈ chars (upper s) <-> ":"%char ∈ chars s.
Proof.
  unfold upper. induction s as [|c s IH]; csimpl; [done|].
  rewrite !elem_of_cons, IH, !(eq_comm ":"%char), upper_char_sep. done.
Qed.

Lemma lstrip_head p s c r : lstrip_by p s = String c r -> p c = false.
Proof.
  induction s as [|d s IH]; simpl; [done|]. destruct (p d) eqn:E; [done|].
  by intros [= -> ->].
Qed.

Lemma lstrip_idemp p s : lstrip_by p (lstrip_by p s) = lstrip_by p s.
Proof.
  destruct (lstrip_by p s) as [|c r] eqn:E; [done|]. simpl.
  by rewrite (lstrip_head _ _ _ _ E).
Qed.

Lemma rstrip_idemp p s : rstrip_by p (rstrip_by p s) = rstrip_by p s.
Proof.
  induction s as [|c s IH]; simpl; [done|].
  destruct (is_empty (rstrip_by p s) && p c) eqn:E; [done|]. simpl. by rewrite IH, E.
Qed.

(** Right-stripping a text that starts with a kept character keeps that
    character. *)
Lemma lstrip_rstrip p s : lstrip_by p s = s -> lstrip_by p (rstrip_by p s) = rstrip_by p s.
Proof.
  destruct s as [|c s]; simpl; [done|]. destruct (p c) eqn:E.
  - intros H. exfalso.
    assert (forall t, String.length (lstrip_by p t) <= String.length t) as L.
    { intros t. induction t as [|d t IHt]; simpl; [lia|]. destruct (p d); simpl; lia. }
    specialize (L s). rewrite H in L. simpl in L. lia.
  - intros _. rewrite andb_false_r. simpl. by rewrite E.
Qed.

Lemma strip_idemp p s : strip_by p (strip_by p s) = strip_by p s.
Proof.
  unfold strip_by. rewrite (lstrip_rstrip p (lstrip_by p s)) by apply lstrip_idemp.
  apply rstrip_idemp.
Qed.

Lemma elem_of_lstrip p s c : c ∈ chars (lstrip_by p s) -> c ∈ chars s.
Proof.
  induction s as [|d s IH]; csimpl; [done|]. destruct (p d); csimpl; [|done].
  intros ?. right. auto.
Qed.

Lemma elem_of_rstrip p s c : c ∈ chars (rstrip_by p s) -> c ∈ chars s.
Proof.
  induction s as [|d s IH]; csimpl; [done|].
  destruct (is_empty (rstrip_by p s) && p d); csimpl; [by intros ?%not_elem_of_nil|].
  rewrite !elem_of_cons. naive_solver.
Qed.

Lemma elem_of_strip p s c : c ∈ chars (strip_by p s) -> c ∈ chars s.
Proof. intros H. by apply (elem_of_lstrip p), (elem_of_rstrip p). Qed.

Lemma str_map_lstrip p f s :
  (forall c, p (f c) = p c) -> str_map f (lstrip_by p s) = lstrip_by p (str_map f s).
Proof.
  intros Hp. induction s as [|c s IH]; simpl; [done|]. rewrite Hp. by destruct (p c).
Qed.

Lemma is_empty_str_map f s : is_empty (str_map f s) = is_empty s.
Proof. by destruct s. Qed.

Lemma str_map_rstrip p f s :
  (forall c, p (f c) = p c) -> str_map f (rstrip_by p s) = rstrip_by p (str_map f s).
Proof.
  intros Hp. induction s as [|c s IH]; simpl; [done|].
  rewrite <-IH, Hp, is_empty_str_map. by destruct (is_empty (rstrip_by p s) && p c).
Qed.

Lemma upper_strip s : upper (strip s) = strip (upper s).
Proof.
  unfold upper, strip, strip_by.
  by rewrite str_map_rstrip, str_map_lstrip by apply upper_space.
Qed.

(** ** Splitting *)
Lemma split_nonempty sep s : split sep s <> [].
Proof.
  destruct s as [|c s]; simpl; [done|]. destruct (Ascii.eqb c sep); [done|].
  by destruct (split sep s).
Qed.

Lemma split_no_sep sep s p : p ∈ split sep s -> sep ∉ chars p.
Proof.
  revert p. induction s as [|c s IH]; intros p; csimpl.
  - intros ->%list_elem_of_singleton. csimpl. apply not_elem_of_nil.
  - destruct (Ascii.eqb_spec c sep) as [->|Hne].
    + intros [->|Hp]%elem_of_cons; [apply not_elem_of_nil|auto].
    + pose proof (split_nonempty sep s) as Hn. destruct (split sep s) as [|q qs]; [done|].
      intros [->|Hp]%elem_of_cons.
      * csimpl. apply not_elem_of_cons. split; [congruence|]. apply IH. left.
      * apply IH. by right.
Qed.

(** A text without the separator is its own single part. *)
Lemma split_id sep s : sep ∉ chars s -> split sep s = [s].
Proof.
  induction s as [|c s IH]; csimpl; [done|]. intros [Hc Hs]%not_elem_of_cons.
  destruct (Ascii.eqb_spec c sep); [congruence|]. by rewrite IH.
Qed.

Lemma split_app sep s1 s2 :
  sep ∉ chars s1 ->
  split sep (s1 +:+ String sep s2) = s1 :: split sep s2.
Proof.
  induction s1 as [|c s1 IH]; csimpl.
  - intros _. by rewrite Ascii.eqb_refl.
  - intros [Hc Hs]%not_elem_of_cons.
    destruct (Ascii.eqb_spec c sep); [congruence|]. by rewrite IH.
Qed.

Lemma join_split sep s : join (String sep "") (split sep s) = s.
Proof.
  induction s as [|c s IH]; csimpl; [done|].
  pose proof (split_nonempty sep s) as Hn.
  destruct (Ascii.eqb_spec c sep) as [->|Hne].
  - destruct (split sep s) as [|p ps]; [done|]. csimpl. csimpl in IH. by rewrite IH.
  - destruct (split sep s) as [|p ps]; [done|].
    destruct ps as [|q qs]; csimpl; csimpl in IH; by rewrite IH.
Qed.

Lemma split_join sep parts :
  parts <> [] -> Forall (fun p => sep ∉ chars p) parts ->
  split sep (join (String sep "") parts) = parts.
Proof.
  intros Hne Hf. induction Hf as [|p ps Hp Hps IH]; [done|].
  destruct ps as [|q qs]; [by apply split_id|]. csimpl.
  rewrite split_app by done. f_equal. by apply IH.
Qed.

(** ** Prefixes *)
Lemma drop_prefix_app p s : drop_prefix p (p +:+ s) = Some s.
Proof. induction p as [|c p IH]; simpl; [done|]. by rewrite Ascii.eqb_refl. Qed.

Lemma drop_prefix_Some p s r : drop_prefix p s = Some r <-> s = p +:+ r.
Proof.
  split; [|intros ->; apply drop_prefix_app].
  revert s. induction p as [|c p IH]; intros [|d s]; simpl; try congruence.
  destruct (Ascii.eqb_spec c d) as [->|]; [|done]. intros ?. f_equal. auto.
Qed.

Lemma removeprefix_app p s : removeprefix (p +:+ s) p = s.
Proof. unfold removeprefix. by rewrite drop_prefix_app. Qed.

Lemma removeprefix_other p s : startswith p s = false -> removeprefix s p = s.
Proof. unfold removeprefix, startswith. by destruct (drop_prefix p s). Qed.
