(* ===== verification/Uuid.v ===== *)
(** * UUIDs

    [uuid.UUID] as a 128-bit integer, [str(u)] and the parser behind
    [uuid.UUID(text)], with their round trip. *)

From S2P Require Import Prelude PyStr.
From Stdlib Require Import Ascii.

(** A value carries the (computed, hence unique) proof that it fits 128 bits. *)
Record uuid := mk_uuid {
  u_int : N;
  u_ok : (u_int <? 2 ^ 128)%N = true
}.

#[global] Instance uuid_eq_dec : EqDecision uuid.
Proof.
  intros [n Hn] [m Hm]. destruct (decide (n = m)) as [->|H].
  - left. f_equal. apply (proof_irrel _ _).
  - right. intros [= ?]. done.
Defined.

Lemma uuid_ext u v : u_int u = u_int v -> u = v.
Proof. destruct u, v. simpl. intros ->. f_equal. apply (proof_irrel _ _). Qed.

Definition uuid_of_N (n : N) : option uuid :=
  match decide ((n <? 2 ^ 128)%N = true) with
  | left H => Some (mk_uuid n H)
  | right _ => None
  end.

(** A literal id, for concrete inputs. *)
Abbreviation uid n := (mk_uuid n eq_refl) (only parsing).

Definition hex_char (d : N) : ascii :=
  ascii_of_N (if (d <? 10)%N then d + 48 else d + 87).

(** The [n] low hexadecimal digits of [z], most significant first. *)
Fixpoint hex_fixed (n : nat) (z : N) : string :=
  match n with
  | O => EmptyString
  | S k => String (hex_char (z / 16 ^ N.of_nat k mod 16)) (hex_fixed k z)
  end.

(** [u.hex]. *)
Definition uuid_hex (u : uuid) : string := hex_fixed 32 (u_int u).

(** [str(u)]: the 8-4-4-4-12 form. *)
Definition uuid_str (u : uuid) : string :=
  let z := u_int u in
  hex_fixed 8 (z / 16 ^ 24) +:+ "-" +:+ hex_fixed 4 (z / 16 ^ 20) +:+ "-" +:+
  hex_fixed 4 (z / 16 ^ 16) +:+ "-" +:+ hex_fixed 4 (z / 16 ^ 12) +:+ "-" +:+
  hex_fixed 12 z.

Definition is_brace (c : ascii) : bool := Ascii.eqb c "{" || Ascii.eqb c "}".

(** [uuid.UUID(text)]; [None] is its [ValueError]. *)
Definition uuid_parse (text : string) : option uuid :=
  let h := delete_sub "uuid:" 0 (delete_sub "urn:" 0 text) in
  let h := delete_sub "-" 0 (strip_by is_brace h) in
  if decide (String.length h = 32) then
    match py_int 16 h with
    | Some z => if (z <? 0)%Z then None else uuid_of_N (Z.to_N z)
    | None => None
    end
  else None.

(** ** Round trip *)
Definition is_hex (c : ascii) : Prop := exists d : N, (d < 16)%N /\ c = hex_char d.

Lemma hex_digits_cases d : (d < 16)%N ->
  d ∈ [0;1;2;3;4;5;6;7;8;9;10;11;12;13;14;15]%N.
Proof.
  intros Hd. rewrite !elem_of_cons.
  destruct d as [|p]; [auto|]. do 5 (destruct p as [p|p|]; try lia; auto 20).
Qed.

Lemma hex_char_all (P : N -> Prop) :
  Forall P [0;1;2;3;4;5;6;7;8;9;10;11;12;13;14;15]%N -> forall d, (d < 16)%N -> P d.
Proof. intros HP d Hd. rewrite Forall_forall in HP. by apply HP, hex_digits_cases. Qed.

Lemma digit_val_hex d : (d < 16)%N -> digit_val 16 (hex_char d) = Some (Z.of_N d).
Proof. revert d. apply hex_char_all. repeat constructor. Qed.

Lemma hex_char_neq c d :
  c ∈ [":"; "-"; "{"; "}"; "_"; "x"; "X"; "+"; " "]%char -> (d < 16)%N -> hex_char d <> c.
Proof.
  intros Hc. revert d. apply hex_char_all.
  repeat (apply elem_of_cons in Hc as [->|Hc]; [repeat constructor; done|]).
  by apply not_elem_of_nil in Hc.
Qed.

Lemma hex_char_space d : (d < 16)%N -> is_space (hex_char d) = false.
Proof. revert d. apply hex_char_all. repeat constructor. Qed.

Lemma hex_fixed_chars n z : Forall is_hex (chars (hex_fixed n z)).
Proof.
  induction n as [|n IH]; csimpl; constructor; [|done].
  eexists; split; [|done]. by apply N.mod_lt.
Qed.

Lemma hex_fixed_length n z : String.length (hex_fixed n z) = n.
Proof. induction n as [|n IH]; simpl; [done|]. by rewrite IH. Qed.

Lemma hex_fixed_app n m z :
  hex_fixed n (z / 16 ^ N.of_nat m) +:+ hex_fixed m z = hex_fixed (n + m) z.
Proof.
  induction n as [|n IH]; simpl; [done|]. rewrite IH. do 2 f_equal.
  rewrite N.Div0.div_div, <-N.pow_add_r. do 3 f_equal. lia.
Qed.

Lemma int_digits_hex n z acc :
  int_digits 16 acc (hex_fixed n z) =
  Some (acc * 16 ^ Z.of_nat n + Z.of_N (z mod 16 ^ N.of_nat n))%Z.
Proof.
  revert acc. induction n as [|n IH]; intros acc.
  { simpl. rewrite N.mod_1_r. f_equal. lia. }
  cbn [hex_fixed int_digits].
  assert (z / 16 ^ N.of_nat n mod 16 < 16)%N as Hd by (by apply N.mod_lt).
  destruct (Ascii.eqb_spec (hex_char (z / 16 ^ N.of_nat n mod 16)) "_") as [E|_].
  { by apply hex_char_neq in E; [|set_solver|]. }
  rewrite digit_val_hex, IH by done. f_equal.
  replace (N.of_nat (S n)) with (N.of_nat n + 1)%N by lia.
  rewrite N.pow_add_r, N.pow_1_r, N.Div0.mod_mul_r, N2Z.inj_add, N2Z.inj_mul,
    N2Z.inj_pow, nat_N_Z, Nat2Z.inj_succ, Z.pow_succ_r by lia. simpl. lia.
Qed.

(** A text that lacks a character of [needle] is unchanged. *)
Lemma startswith_chars p s c : startswith p s = true -> c ∈ chars p -> c ∈ chars s.
Proof.
  unfold startswith. destruct (drop_prefix p s) as [r|] eqn:E; [|done].
  apply drop_prefix_Some in E as ->. intros _ Hc. rewrite chars_app. set_solver.
Qed.

Lemma delete_sub_none needle s c :
  c ∈ chars needle -> c ∉ chars s -> delete_sub needle 0 s = s.
Proof.
  intros Hc. induction s as [|d s IH]; intros Hs; [done|]. cbn [delete_sub].
  destruct (startswith needle (String d s)) eqn:E.
  - by destruct Hs; apply (startswith_chars _ _ _ E).
  - f_equal. apply IH. csimpl in Hs. set_solver.
Qed.

Lemma startswith_cons a p b s :
  startswith (String a p) (String b s) = Ascii.eqb a b && startswith p s.
Proof. unfold startswith. cbn [drop_prefix]. by destruct (Ascii.eqb a b). Qed.

Lemma delete_dash s1 s2 :
  "-"%char ∉ chars s1 ->
  delete_sub "-" 0 (s1 +:+ "-" +:+ s2) = s1 +:+ delete_sub "-" 0 s2.
Proof.
  induction s1 as [|c s1 IH]; csimpl; [done|]. intros Hc.
  assert (startswith "-" (String c (s1 +:+ String "-" s2)) = false) as ->.
  { rewrite startswith_cons. destruct (Ascii.eqb_spec "-" c) as [<-|]; [set_solver|done]. }
  f_equal. apply IH. set_solver.
Qed.

Lemma strip_by_none p s : Forall (fun c => p c = false) (chars s) -> strip_by p s = s.
Proof.
  intros H. unfold strip_by.
  assert (lstrip_by p s = s) as ->.
  { destruct s as [|c s]; [done|]. csimpl in *. inversion_clear H. by rewrite H0. }
  induction s as [|c s IH]; [done|]. csimpl in *. inversion_clear H.
  rewrite IH, H0 by done. by rewrite andb_false_r.
Qed.

Lemma uuid_of_N_int u : uuid_of_N (u_int u) = Some u.
Proof.
  unfold uuid_of_N. destruct u as [n Hn]. simpl. case_decide; [|done].
  do 2 f_equal. apply (proof_irrel _ _).
Qed.

Lemma hex_fixed_notin c n z :
  c ∈ [":"; "-"; "{"; "}"; "_"; "x"; "X"; "+"; " "]%char -> c ∉ chars (hex_fixed n z).
Proof.
  intros Hc Hin. pose proof (hex_fixed_chars n z) as HF. rewrite Forall_forall in HF.
  destruct (HF _ Hin) as (d & Hd & ->). by eapply hex_char_neq.
Qed.

Lemma uuid_str_chars u c :
  c ∈ [":"; "{"; "}"]%char -> c ∉ chars (uuid_str u).
Proof.
  intros Hc. unfold uuid_str. rewrite !chars_app.
  assert (forall n z, c ∉ chars (hex_fixed n z)) as Hn
    by (intros; apply hex_fixed_notin; set_solver).
  assert (c ∉ chars "-") by (csimpl; set_solver).
  rewrite !not_elem_of_app. auto 20.
Qed.

Lemma uuid_str_hex u : delete_sub "-" 0 (uuid_str u) = uuid_hex u.
Proof.
  unfold uuid_str, uuid_hex.
  rewrite !delete_dash by (apply hex_fixed_notin; set_solver).
  rewrite (delete_sub_none "-" (hex_fixed 12 _) "-") by
    (try (apply hex_fixed_notin); set_solver).
  change (16 ^ 24)%N with (16 ^ N.of_nat 24)%N. change (16 ^ 20)%N with (16 ^ N.of_nat 20)%N.
  change (16 ^ 16)%N with (16 ^ N.of_nat 16)%N. change (16 ^ 12)%N with (16 ^ N.of_nat 12)%N.
  by rewrite !hex_fixed_app.
Qed.

Lemma py_int_hex n z :
  py_int 16 (hex_fixed (S n) z) = Some (Z.of_N (z mod 16 ^ N.of_nat (S n))).
Proof.
  unfold py_int, strip. rewrite strip_by_none.
  2:{ eapply Forall_impl; [apply hex_fixed_chars|]. intros ? (d & ? & ->). by apply hex_char_space. }
  assert (forall c r, hex_fixed (S n) z = String c r -> c <> "-"%char /\ c <> "+"%char) as Hh.
  { intros c r [= <- _]. split; apply hex_char_neq; try set_solver; by apply N.mod_lt. }
  assert (drop_base_prefix 16 (hex_fixed (S n) z) = hex_fixed (S n) z) as Hd.
  { unfold drop_base_prefix. cbn [Z.eqb]. destruct n as [|n].
    - simpl. repeat case_match; done.
    - destruct (hex_fixed (S (S n)) z) as [|c [|c' r]] eqn:E; try (by repeat case_match).
      injection E as E1 E2 E3.
      assert (Ascii.eqb c' "x" || Ascii.eqb c' "X" = false) as ->.
      { rewrite <-E2. apply orb_false_intro; apply Ascii.eqb_neq, hex_char_neq;
          try set_solver; by apply N.mod_lt. }
      by repeat case_match. }
  assert (int_body 16 (hex_fixed (S n) z) = Some (Z.of_N (z mod 16 ^ N.of_nat (S n)))) as Hb.
  { transitivity (int_digits 16 0 (hex_fixed (S n) z)); [|by rewrite int_digits_hex].
    cbn [hex_fixed int_digits int_body].
    assert (z / 16 ^ N.of_nat n mod 16 < 16)%N as Hlt by (by apply N.mod_lt).
    destruct (Ascii.eqb_spec (hex_char (z / 16 ^ N.of_nat n mod 16)) "_") as [E|_].
    { by apply hex_char_neq in E; [|set_solver|]. }
    by rewrite digit_val_hex. }
  destruct (hex_fixed (S n) z) as [|c r] eqn:E; [done|].
  destruct (Hh c r eq_refl). rewrite <-Hb, <-Hd at 1.
  by repeat case_match.
Qed.

Lemma uuid_parse_str u : uuid_parse (uuid_str u) = Some u.
Proof.
  unfold uuid_parse.
  rewrite (delete_sub_none "urn:" _ ":") by (try apply uuid_str_chars; csimpl; set_solver).
  rewrite (delete_sub_none "uuid:" _ ":") by (try apply uuid_str_chars; csimpl; set_solver).
  rewrite strip_by_none.
  2:{ apply Forall_forall. intros c Hc. unfold is_brace.
      apply orb_false_intro; apply Ascii.eqb_neq; intros ->; revert Hc; apply uuid_str_chars; set_solver. }
  rewrite uuid_str_hex. unfold uuid_hex.
  rewrite hex_fixed_length, decide_True by done. rewrite py_int_hex.
  rewrite N.mod_small by (pose proof (u_ok u) as H; apply N.ltb_lt in H; exact H).
  destruct (Z.ltb_spec (Z.of_N (u_int u)) 0) as [|_]; [lia|].
  rewrite N2Z.id. apply uuid_of_N_int.
Qed.

Lemma uuid_str_inj u v : uuid_str u = uuid_str v -> u = v.
Proof. intros H. apply (f_equal uuid_parse) in H. rewrite !uuid_parse_str in H. congruence. Qed.
