(* ===== verification/PyTime.v ===== *)
(** * Dates and instants

    [datetime] values as the payloads carry them, with [isoformat()] and its
    injectivity, and the instants the database columns hold (microseconds since
    the epoch, so that comparisons and [timedelta(seconds=n)] are integer
    arithmetic). *)

From S2P Require Import Prelude PyStr.
From Stdlib Require Import Ascii.

(** An instant of a [timestamptz] column, in microseconds. *)
Definition instant := Z.

(** [t - timedelta(seconds=n)]. *)
Definition minus_seconds (t : instant) (n : Z) : instant := (t - n * 1000000)%Z.

(** A [datetime]; [dt_tz] is its UTC offset in minutes, [None] when naive. *)
Record datetime := mk_datetime {
  dt_year : Z; dt_month : Z; dt_day : Z;
  dt_hour : Z; dt_minute : Z; dt_second : Z; dt_micro : Z;
  dt_tz : option Z
}.

Definition in_range (lo hi z : Z) : bool := (lo <=? z)%Z && (z <=? hi)%Z.

(** The ranges the constructor of [datetime] enforces. *)
Definition dt_valid (d : datetime) : bool :=
  in_range 1 9999 (dt_year d) && in_range 1 12 (dt_month d) && in_range 1 31 (dt_day d) &&
  in_range 0 23 (dt_hour d) && in_range 0 59 (dt_minute d) && in_range 0 59 (dt_second d) &&
  in_range 0 999999 (dt_micro d) &&
  match dt_tz d with Some o => in_range (-1439) 1439 o | None => true end.

Definition dec_char (d : Z) : ascii := ascii_of_N (Z.to_N d + 48).

(** [f"{z:0nd}"] for [0 <= z < 10^n]. *)
Fixpoint dec_fixed (n : nat) (z : Z) : string :=
  match n with
  | O => EmptyString
  | S k => String (dec_char (z / 10 ^ Z.of_nat k mod 10)) (dec_fixed k z)
  end.

Definition iso_micro (us : Z) : string :=
  if (us =? 0)%Z then EmptyString else "." +:+ dec_fixed 6 us.

Definition iso_tz (o : option Z) : string :=
  match o with
  | None => EmptyString
  | Some o => (if (o <? 0)%Z then "-" else "+") +:+
              dec_fixed 2 (Z.abs o / 60) +:+ ":" +:+ dec_fixed 2 (Z.abs o mod 60)
  end.

(** [d.isoformat()]. *)
Definition isoformat (d : datetime) : string :=
  dec_fixed 4 (dt_year d) +:+ "-" +:+ dec_fixed 2 (dt_month d) +:+ "-" +:+
  dec_fixed 2 (dt_day d) +:+ "T" +:+ dec_fixed 2 (dt_hour d) +:+ ":" +:+
  dec_fixed 2 (dt_minute d) +:+ ":" +:+ dec_fixed 2 (dt_second d) +:+
  iso_micro (dt_micro d) +:+ iso_tz (dt_tz d).

(** ** Injectivity *)
Lemma append_inj_length s1 s1' s2 s2' :
  String.length s1 = String.length s1' -> s1 +:+ s2 = s1' +:+ s2' -> s1 = s1' /\ s2 = s2'.
Proof.
  revert s1'. induction s1 as [|c s1 IH]; intros [|c' s1']; simpl; try done.
  intros [= Hl] [= -> H]. by destruct (IH _ Hl H) as [-> ->].
Qed.

Lemma dec_fixed_length n z : String.length (dec_fixed n z) = n.
Proof. induction n as [|n IH]; simpl; [done|]. by rewrite IH. Qed.

Lemma dec_char_inj a b :
  (0 <= a < 10)%Z -> (0 <= b < 10)%Z -> dec_char a = dec_char b -> a = b.
Proof.
  intros Ha Hb H. apply (f_equal N_of_ascii) in H. unfold dec_char in H.
  rewrite !N_ascii_embedding in H by lia. lia.
Qed.

Lemma dec_fixed_inj_mod n a b :
  dec_fixed n a = dec_fixed n b -> (a mod 10 ^ Z.of_nat n = b mod 10 ^ Z.of_nat n)%Z.
Proof.
  induction n as [|n IH]; simpl; [by rewrite !Z.mod_1_r|].
  intros [= Hc Hr]. apply IH in Hr.
  apply dec_char_inj in Hc; [|apply Z.mod_pos_bound; lia..].
  change (Z.pos (Pos.of_succ_nat n)) with (Z.of_nat (S n)).
  rewrite Nat2Z.inj_succ, Z.pow_succ_r, (Z.mul_comm 10) by lia.
  rewrite !Z.rem_mul_r by lia. by rewrite Hc, Hr.
Qed.

Lemma dec_fixed_inj n a b :
  (0 <= a < 10 ^ Z.of_nat n)%Z -> (0 <= b < 10 ^ Z.of_nat n)%Z ->
  dec_fixed n a = dec_fixed n b -> a = b.
Proof. intros Ha Hb H%dec_fixed_inj_mod. by rewrite !Z.mod_small in H. Qed.

Lemma dec_fixed_app_inj n a b s s' :
  (0 <= a < 10 ^ Z.of_nat n)%Z -> (0 <= b < 10 ^ Z.of_nat n)%Z ->
  dec_fixed n a +:+ s = dec_fixed n b +:+ s' -> a = b /\ s = s'.
Proof.
  intros Ha Hb [H ->]%append_inj_length; [|by rewrite !dec_fixed_length].
  split; [by eapply dec_fixed_inj|done].
Qed.

Lemma in_range_spec lo hi z : in_range lo hi z = true <-> (lo <= z <= hi)%Z.
Proof. unfold in_range. rewrite andb_true_iff, !Z.leb_le. lia. Qed.

Lemma dec_fixed_head n z c r :
  dec_fixed n z = String c r -> c <> "."%char /\ c <> "+"%char /\ c <> "-"%char.
Proof.
  destruct n as [|n]; [done|]. intros [= <- _].
  assert (0 <= z / 10 ^ Z.of_nat n mod 10 < 10)%Z as H by (apply Z.mod_pos_bound; lia).
  revert H. generalize (z / 10 ^ Z.of_nat n mod 10)%Z. intros d H.
  repeat split; intros E; apply (f_equal N_of_ascii) in E; unfold dec_char in E;
    rewrite N_ascii_embedding in E by lia; simpl in E; lia.
Qed.

#[local] Arguments dec_fixed : simpl never.

Lemma iso_tz_inj a b :
  (-1439 <= a <= 1439)%Z -> (-1439 <= b <= 1439)%Z ->
  iso_tz (Some a) = iso_tz (Some b) -> a = b.
Proof.
  unfold iso_tz. intros Ha Hb H.
  assert (forall o, (-1439 <= o <= 1439 -> 0 <= Z.abs o / 60 < 10 ^ Z.of_nat 2)%Z) as Hd
    by (intros o Ho; split; [apply Z.div_pos; lia|apply Z.div_lt_upper_bound; simpl; lia]).
  assert (forall o, (0 <= Z.abs o mod 60 < 10 ^ Z.of_nat 2)%Z) as Hm.
  { intros o. assert (0 <= Z.abs o mod 60 < 60)%Z by (apply Z.mod_pos_bound; lia). simpl; lia. }
  destruct (Z.ltb_spec a 0), (Z.ltb_spec b 0); try (by simpl in H);
    apply string_app_inj_l in H;
    apply dec_fixed_app_inj in H as [Hq H]; auto;
    apply string_app_inj_l in H;
    apply dec_fixed_inj in H; auto;
    pose proof (Z.div_mod (Z.abs a) 60); pose proof (Z.div_mod (Z.abs b) 60); lia.
Qed.

Lemma iso_tail_inj us us' tz tz' :
  (0 <= us <= 999999)%Z -> (0 <= us' <= 999999)%Z ->
  (forall o, tz = Some o -> -1439 <= o <= 1439)%Z ->
  (forall o, tz' = Some o -> -1439 <= o <= 1439)%Z ->
  iso_micro us +:+ iso_tz tz = iso_micro us' +:+ iso_tz tz' -> us = us' /\ tz = tz'.
Proof.
  intros Hu Hu' Ht Ht' H.
  assert (forall z, (0 <= z <= 999999 -> 0 <= z < 10 ^ Z.of_nat 6)%Z) as Hr by (simpl; lia).
  assert (iso_tz tz = iso_tz tz' -> tz = tz') as Htz.
  { destruct tz as [a|], tz' as [b|]; intros E; auto.
    - f_equal. apply iso_tz_inj; auto.
    - exfalso. simpl in E. by destruct (a <? 0)%Z.
    - exfalso. simpl in E. by destruct (b <? 0)%Z. }
  unfold iso_micro in H.
  destruct (Z.eqb_spec us 0) as [->|], (Z.eqb_spec us' 0) as [->|]; rewrite ?string_app_assoc in H.
  - auto.
  - exfalso. destruct tz as [a|]; simpl in H; [|done]. by destruct (a <? 0)%Z.
  - exfalso. destruct tz' as [a|]; simpl in H; [|done]. by destruct (a <? 0)%Z.
  - apply string_app_inj_l, (dec_fixed_app_inj 6) in H as [-> H]; auto.
Qed.

(** Two valid dates with the same ISO text are the same date. *)
Lemma isoformat_inj d d' :
  dt_valid d = true -> dt_valid d' = true -> isoformat d = isoformat d' -> d = d'.
Proof.
  destruct d as [y mo da h mi s us tz], d' as [y' mo' da' h' mi' s' us' tz'].
  unfold dt_valid, isoformat. simpl.
  rewrite !andb_true_iff, !in_range_spec. intros Hd Hd' H.
  destruct_and!.
  assert (forall o, tz = Some o -> -1439 <= o <= 1439)%Z as Ht
    by (intros o ->; by apply in_range_spec).
  assert (forall o, tz' = Some o -> -1439 <= o <= 1439)%Z as Ht'
    by (intros o ->; by apply in_range_spec).
  assert (forall n a b sep s s', (0 <= a < 10 ^ Z.of_nat n)%Z -> (0 <= b < 10 ^ Z.of_nat n)%Z ->
     dec_fixed n a +:+ String sep "" +:+ s = dec_fixed n b +:+ String sep "" +:+ s' ->
     a = b /\ s = s') as Hstep.
  { intros n a b sep t t' Ha Hb E. apply dec_fixed_app_inj in E as [-> E]; auto.
    by apply string_app_inj_l in E. }
  apply (Hstep 4) in H as [-> H]; [|simpl; lia..].
  apply (Hstep 2) in H as [-> H]; [|simpl; lia..].
  apply (Hstep 2) in H as [-> H]; [|simpl; lia..].
  apply (Hstep 2) in H as [-> H]; [|simpl; lia..].
  apply (Hstep 2) in H as [-> H]; [|simpl; lia..].
  apply (dec_fixed_app_inj 2) in H as [-> H]; [|simpl; lia..].
  apply iso_tail_inj in H as [-> ->]; auto.
Qed.
