(* ===== verification/Json.v ===== *)
(** * JSON values and floats

    What [json.loads] returns, and the Python truth tests the code applies to
    optional numbers.  Floats are IEEE-754 values ([SpecFloat.spec_float]). *)

From S2P Require Import Prelude PyStr.
From Stdlib Require Import SpecFloat.

Definition float := spec_float.

Definition f_zero : float := S754_zero false.

(** [bool(x)] of a float: only the two zeros are false. *)
Definition float_truthy (f : float) : bool :=
  match f with S754_zero _ => false | _ => true end.

(** [x or 0.0] for an optional float. *)
Definition or_zero (x : option float) : float :=
  match x with
  | Some f => if float_truthy f then f else f_zero
  | None => f_zero
  end.

(** An object keeps its members in document order, the last of two equal keys
    having won. *)
Inductive json : Type :=
| JNull
| JBool (b : bool)
| JInt (z : Z)
| JFloat (f : float)
| JStr (s : string)
| JList (l : list json)
| JObj (kvs : list (string * json)).

Fixpoint assoc {V} (k : string) (kvs : list (string * V)) : option V :=
  match kvs with
  | [] => None
  | (k', v) :: r => if String.eqb k k' then Some v else assoc k r
  end.

(** [d[k] = v]: replaces in place, or appends. *)
Fixpoint assoc_set {V} (k : string) (v : V) (kvs : list (string * V)) : list (string * V) :=
  match kvs with
  | [] => [(k, v)]
  | (k', v') :: r => if String.eqb k k' then (k, v) :: r else (k', v') :: assoc_set k v r
  end.

(** [obj.get(key)] of a dict; [None] stands for both absent and [null], which
    is all the code distinguishes. *)
Definition obj_get (k : string) (kvs : list (string * json)) : json :=
  default JNull (assoc k kvs).

(** [isinstance(v, dict)]. *)
Definition is_obj (v : json) : bool := match v with JObj _ => true | _ => false end.

(** [bool(v)] of a decoded value. *)
Definition json_truthy (v : json) : bool :=
  match v with
  | JNull => false
  | JBool b => b
  | JInt z => negb (z =? 0)%Z
  | JFloat f => float_truthy f
  | JStr s => negb (is_empty s)
  | JList l => match l with [] => false | _ => true end
  | JObj kvs => match kvs with [] => false | _ => true end
  end.

(** [x == y] of decoded values: numbers by value (a bool is 0 or 1), objects
    by their members whatever the order. *)
Definition float_eq_int (f : float) (z : Z) : bool :=
  match f with
  | S754_zero _ => (z =? 0)%Z
  | S754_finite s m e =>
      let m := if s then Z.neg m else Z.pos m in
      if (0 <=? e)%Z then (m * 2 ^ e =? z)%Z else (m =? z * 2 ^ (- e))%Z
  | _ => false
  end.

Definition float_eqb (f g : float) : bool :=
  match SFcompare f g with Some Eq => true | _ => false end.

Definition as_int (v : json) : option Z :=
  match v with JBool b => Some (if b then 1 else 0)%Z | JInt z => Some z | _ => None end.

Fixpoint json_eqb (x y : json) {struct x} : bool :=
  match x, y with
  | JNull, JNull => true
  | JStr s, JStr s' => String.eqb s s'
  | JFloat f, JFloat g => float_eqb f g
  | JFloat f, v | v, JFloat f =>
      match as_int v with Some z => float_eq_int f z | None => false end
  | JList l, JList l' =>
      (fix go (l l' : list json) : bool :=
         match l, l' with
         | [], [] => true
         | a :: r, b :: r' => json_eqb a b && go r r'
         | _, _ => false
         end) l l'
  | JObj kvs, JObj kvs' =>
      (length kvs =? length kvs')%nat &&
      (fix go (kvs : list (string * json)) : bool :=
         match kvs with
         | [] => true
         | (k, v) :: r => match assoc k kvs' with Some v' => json_eqb v v' | None => false end && go r
         end) kvs
  | v, v' => match as_int v, as_int v' with Some a, Some b => (a =? b)%Z | _, _ => false end
  end.

Lemma json_eqb_str s s' : json_eqb (JStr s) (JStr s') = true <-> s = s'.
Proof. apply String.eqb_eq. Qed.

Lemma assoc_snoc {V} k k' (v : V) kvs :
  assoc k' (kvs ++ [(k, v)]) = match assoc k' kvs with Some x => Some x | None => if String.eqb k' k then Some v else None end.
Proof. induction kvs as [|[x y] kvs IH]; [done|]. cbn. destruct (String.eqb k' x); [done|exact IH]. Qed.

Lemma assoc_set_same {V} k (v : V) kvs : assoc k (assoc_set k v kvs) = Some v.
Proof.
  induction kvs as [|[k' v'] r IH]; simpl; [by rewrite String.eqb_refl|].
  destruct (String.eqb_spec k k') as [->|Hk]; simpl; [by rewrite String.eqb_refl|].
  apply String.eqb_neq in Hk. by rewrite Hk.
Qed.

Lemma assoc_set_other {V} k k' (v : V) kvs :
  k <> k' -> assoc k' (assoc_set k v kvs) = assoc k' kvs.
Proof.
  intros Hne. assert (String.eqb k' k = false) as Hf by (apply String.eqb_neq; congruence).
  induction kvs as [|[k0 v0] r IH]; simpl; [by rewrite Hf|].
  destruct (String.eqb_spec k k0) as [<-|Hk]; simpl; [by rewrite !Hf|].
  by destruct (String.eqb k' k0).
Qed.
