(* ===== verification/JsonText.v ===== *)
(** * JSON and float text

    [json.loads] of a text, [json.dumps] of the one kind of value the broker writes as
    text, a map from names to integers, and [float(text)], the format ["g"] and [str]
    of Python's floats.  Texts are the UTF-8 encodings of Python's strings; a float is
    the binary64 nearest to its decimal. *)

From S2P Require Import Prelude PyStr Uuid Json.
From Stdlib Require Import Ascii SpecFloat.

(** ** Code points *)
Definition code (c : ascii) : Z := Z.of_N (N_of_ascii c).
Definition chr (z : Z) : ascii := ascii_of_N (Z.to_N z).

(** The UTF-8 encoding of one code point. *)
Definition utf8 (cp : Z) : string :=
  if (cp <? 128)%Z then String (chr cp) EmptyString
  else if (cp <? 2048)%Z then
    String (chr (192 + cp / 64)) (String (chr (128 + cp mod 64)) EmptyString)
  else if (cp <? 65536)%Z then
    String (chr (224 + cp / 4096)) (String (chr (128 + cp / 64 mod 64)) (String (chr (128 + cp mod 64)) EmptyString))
  else
    String (chr (240 + cp / 262144)) (String (chr (128 + cp / 4096 mod 64))
      (String (chr (128 + cp / 64 mod 64)) (String (chr (128 + cp mod 64)) EmptyString))).

Fixpoint utf8s (cps : list Z) : string :=
  match cps with [] => EmptyString | cp :: cps => utf8 cp +:+ utf8s cps end.

(** The code points of a well-formed encoding. *)
Fixpoint code_points (s : string) : list Z :=
  match s with
  | EmptyString => []
  | String c r =>
      let n := code c in
      if (n <? 128)%Z then n :: code_points r
      else
        match r with
        | EmptyString => []
        | String c1 r1 =>
            let n1 := code c1 in
            if (n <? 224)%Z then ((n - 192) * 64 + (n1 - 128))%Z :: code_points r1
            else
              match r1 with
              | EmptyString => []
              | String c2 r2 =>
                  let n2 := code c2 in
                  if (n <? 240)%Z then ((n - 224) * 4096 + (n1 - 128) * 64 + (n2 - 128))%Z :: code_points r2
                  else
                    match r2 with
                    | EmptyString => []
                    | String c3 r3 =>
                        ((n - 240) * 262144 + (n1 - 128) * 4096 + (n2 - 128) * 64 + (code c3 - 128))%Z ::
                        code_points r3
                    end
              end
        end
  end.

(** ** [json.loads] *)
Definition json_space (c : ascii) : bool := existsb (Ascii.eqb c) [" "; "009"; "010"; "013"]%char.

Fixpoint skip_ws (s : string) : string :=
  match s with String c r => if json_space c then skip_ws r else s | EmptyString => EmptyString end.

Definition quote : ascii := "034"%char.
Definition backslash : ascii := "\"%char.

(** The escapes of one letter. *)
Definition simple_escape (e : ascii) : option ascii :=
  if Ascii.eqb e quote then Some quote
  else if Ascii.eqb e backslash then Some backslash
  else if Ascii.eqb e "/" then Some "/"%char
  else if Ascii.eqb e "b" then Some "008"%char
  else if Ascii.eqb e "f" then Some "012"%char
  else if Ascii.eqb e "n" then Some "010"%char
  else if Ascii.eqb e "r" then Some "013"%char
  else if Ascii.eqb e "t" then Some "009"%char
  else None.

Definition hex4 (a b c d : ascii) : option Z :=
  match digit_val 16 a, digit_val 16 b, digit_val 16 c, digit_val 16 d with
  | Some w, Some x, Some y, Some z => Some (((w * 16 + x) * 16 + y) * 16 + z)%Z
  | _, _, _, _ => None
  end.

Definition high_surrogate (u : Z) : bool := (55296 <=? u)%Z && (u <=? 56319)%Z.
Definition low_surrogate (u : Z) : bool := (56320 <=? u)%Z && (u <=? 57343)%Z.
Definition join_surrogates (u v : Z) : Z := (65536 + (u - 55296) * 1024 + (v - 56320))%Z.

Definition prepend (p : string) (r : option (string * string)) : option (string * string) :=
  match r with Some (t, rest) => Some (p +:+ t, rest) | None => None end.

(** A string after its opening quote: its value and the rest of the text. *)
Fixpoint json_string (s : string) : option (string * string) :=
  match s with
  | EmptyString => None
  | String c r =>
      if Ascii.eqb c quote then Some (EmptyString, r)
      else if Ascii.eqb c backslash then
        match r with
        | EmptyString => None
        | String e r =>
            match simple_escape e with
            | Some c => prepend (String c EmptyString) (json_string r)
            | None =>
                if negb (Ascii.eqb e "u") then None
                else
                  match r with
                  | String h1 (String h2 (String h3 (String h4 r))) =>
                      match hex4 h1 h2 h3 h4 with
                      | None => None
                      | Some u =>
                          if high_surrogate u then
                            match r with
                            | String b (String u' (String g1 (String g2 (String g3 (String g4 r'))))) =>
                                if Ascii.eqb b backslash && Ascii.eqb u' "u" then
                                  match hex4 g1 g2 g3 g4 with
                                  | None => None
                                  | Some v =>
                                      if low_surrogate v then prepend (utf8 (join_surrogates u v)) (json_string r')
                                      else prepend (utf8 u) (json_string r)
                                  end
                                else prepend (utf8 u) (json_string r)
                            | _ => prepend (utf8 u) (json_string r)
                            end
                          else prepend (utf8 u) (json_string r)
                      end
                  | _ => None
                  end
            end
        end
      else if (code c <? 32)%Z then None
      else prepend (String c EmptyString) (json_string r)
  end.

Definition dec_digit (c : ascii) : bool := (48 <=? code c)%Z && (code c <=? 57)%Z.

(** The digits a text starts with, and the rest. *)
Fixpoint span_digits (s : string) : string * string :=
  match s with
  | String c r => if dec_digit c then let '(ds, rest) := span_digits r in (String c ds, rest) else (EmptyString, s)
  | EmptyString => (EmptyString, EmptyString)
  end.

Fixpoint dec_value (acc : Z) (ds : string) : Z :=
  match ds with EmptyString => acc | String c r => dec_value (acc * 10 + (code c - 48)) r end.

(** The binary64 nearest to [(-1)^neg * m * 10^e]. *)
Definition float_of_decimal (neg : bool) (m e : Z) : float :=
  match m with
  | Z.pos p =>
      if (0 <=? e)%Z then
        binary_normalize 53 1024 ((if neg then -1 else 1) * (m * 10 ^ e)) 0 neg
      else SFdiv 53 1024 (S754_finite neg p 0) (S754_finite false (Z.to_pos (10 ^ (- e))) 0)
  | _ => S754_zero neg
  end.

(** The text after the character [c], when it starts with it. *)
Definition eat (c : ascii) (s : string) : option string :=
  match s with String d r => if Ascii.eqb d c then Some r else None | EmptyString => None end.

(** The exponent part, when there is one: its value and the rest. *)
Definition json_exponent (s : string) : option (Z * string) :=
  r ← match eat "e" s with Some r => Some r | None => eat "E" s end;
  let '(sign, r) := match eat "-" r, eat "+" r with
                    | Some r, _ => ((-1)%Z, r)
                    | None, Some r => (1%Z, r)
                    | None, None => (1%Z, r)
                    end in
  let '(ds, rest) := span_digits r in
  if is_empty ds then None else Some ((sign * dec_value 0 ds)%Z, rest).

(** The fraction, when there is one: its digits and the rest. *)
Definition json_fraction (s : string) : string * string :=
  match eat "." s with
  | Some r => let '(ds, rest) := span_digits r in if is_empty ds then (EmptyString, s) else (ds, rest)
  | None => (EmptyString, s)
  end.

(** A number from its first digit on. *)
Definition json_number (neg : bool) (s : string) : option (json * string) :=
  match s with
  | String c r =>
      if negb (dec_digit c) then None
      else
        let '(ds, rest) := if Ascii.eqb c "0" then (String c EmptyString, r) else span_digits s in
        let '(frac, rest) := json_fraction rest in
        let m := dec_value (dec_value 0 ds) frac in
        match json_exponent rest with
        | Some (e, rest) => Some (JFloat (float_of_decimal neg m (e - Z.of_nat (String.length frac))), rest)
        | None =>
            if is_empty frac then Some (JInt (if neg then - m else m)%Z, rest)
            else Some (JFloat (float_of_decimal neg m (- Z.of_nat (String.length frac))), rest)
        end
  | EmptyString => None
  end.

(** The named constants. *)
Definition json_constants : list (string * json) :=
  [("null", JNull); ("true", JBool true); ("false", JBool false); ("NaN", JFloat S754_nan);
   ("Infinity", JFloat (S754_infinity false)); ("-Infinity", JFloat (S754_infinity true))].

Definition json_constant (s : string) : option (json * string) :=
  head (omap (fun '(name, v) => match drop_prefix name s with Some r => Some (v, r) | None => None end) json_constants).

Definition json_atom (s : string) : option (json * string) :=
  match json_constant s with
  | Some r => Some r
  | None => match eat "-" s with Some r => json_number true r | None => json_number false s end
  end.

(** A dict of members: the last of two equal keys wins. *)
Definition dict_of {V} (kvs : list (string * V)) : list (string * V) :=
  fold_left (fun d kv => assoc_set kv.1 kv.2 d) kvs [].

(** One value.  The fuel bounds the nesting and the members of one list; a text
    needs no more than twice its length ([json_fuel]). *)
Fixpoint json_value (n : nat) (s : string) : option (json * string) :=
  match n with
  | O => None
  | S n =>
      match eat quote s, eat "{" s, eat "[" s with
      | Some r, _, _ => '(t, rest) ← json_string r; Some (JStr t, rest)
      | _, Some r, _ =>
          match eat "}" (skip_ws r) with
          | Some rest => Some (JObj [], rest)
          | None => '(kvs, rest) ← json_members n (skip_ws r); Some (JObj (dict_of kvs), rest)
          end
      | _, _, Some r =>
          match eat "]" (skip_ws r) with
          | Some rest => Some (JList [], rest)
          | None => '(vs, rest) ← json_elements n (skip_ws r); Some (JList vs, rest)
          end
      | _, _, _ => json_atom s
      end
  end
with json_members (n : nat) (s : string) : option (list (string * json) * string) :=
  match n with
  | O => None
  | S n =>
      r ← eat quote s;
      '(k, r) ← json_string r;
      r ← eat ":" (skip_ws r);
      '(v, r) ← json_value n (skip_ws r);
      match eat "}" (skip_ws r), eat "," (skip_ws r) with
      | Some rest, _ => Some ([(k, v)], rest)
      | None, Some r => '(kvs, rest) ← json_members n (skip_ws r); Some ((k, v) :: kvs, rest)
      | None, None => None
      end
  end
with json_elements (n : nat) (s : string) : option (list json * string) :=
  match n with
  | O => None
  | S n =>
      '(v, r) ← json_value n s;
      match eat "]" (skip_ws r), eat "," (skip_ws r) with
      | Some rest, _ => Some ([v], rest)
      | None, Some r => '(vs, rest) ← json_elements n (skip_ws r); Some (v :: vs, rest)
      | None, None => None
      end
  end.

Definition json_loads (s : string) : option json :=
  '(v, rest) ← json_value (S (2 * String.length s)) (skip_ws s);
  if is_empty (skip_ws rest) then Some v else None.

(** ** [json.dumps] of a [dict[str, int]] *)
Definition unicode_escape (u : Z) : string := "\u" +:+ hex_fixed 4 (Z.to_N u).

Definition json_escape (cp : Z) : string :=
  if (cp =? 34)%Z then String backslash (String quote EmptyString)
  else if (cp =? 92)%Z then String backslash (String backslash EmptyString)
  else if (32 <=? cp)%Z && (cp <=? 126)%Z then String (chr cp) EmptyString
  else if (cp =? 10)%Z then "\n"
  else if (cp =? 13)%Z then "\r"
  else if (cp =? 9)%Z then "\t"
  else if (cp =? 12)%Z then "\f"
  else if (cp =? 8)%Z then "\b"
  else if (cp <? 65536)%Z then unicode_escape cp
  else
    let v := (cp - 65536)%Z in
    unicode_escape (55296 + v / 1024) +:+ unicode_escape (56320 + v mod 1024).

Fixpoint json_escapes (cps : list Z) : string :=
  match cps with [] => EmptyString | cp :: cps => json_escape cp +:+ json_escapes cps end.

Definition dumps_str (s : string) : string :=
  String quote (json_escapes (code_points s) +:+ String quote EmptyString).

Definition dumps_member (kv : string * Z) : string := dumps_str kv.1 +:+ ": " +:+ str_int kv.2.

Definition json_dumps (kvs : list (string * Z)) : string :=
  "{" +:+ join ", " (map dumps_member kvs) +:+ "}".

Example loads_sample :
  json_loads ("{ " +:+ dumps_str "a" +:+ " : [1, -2.5e1,true ,null, {}], " +:+ dumps_str "é€😀" +:+ ":-0}") =
  Some (JObj [("a", JList [JInt 1; JFloat (float_of_decimal true 25 0); JBool true; JNull; JObj []]); ("é€😀", JInt 0)]).
Proof. vm_compute. reflexivity. Qed.

Example loads_rejects :
  map json_loads ["01"; "[1,]"; "{,}"; "tru"; "1 2"; ""; "1."; "--1"; "1e400"] =
  [None; None; None; None; None; None; None; None; Some (JFloat (S754_infinity false))].
Proof. vm_compute. reflexivity. Qed.

(** ** The fuel is enough *)
Abbreviation len := String.length (only parsing).

Lemma skip_ws_len s : len (skip_ws s) <= len s.
Proof. induction s as [|c s IH]; simpl; [done|]. destruct (json_space c); simpl; lia. Qed.

Lemma prepend_Some p r t rest : prepend p r = Some (t, rest) -> exists t', r = Some (t', rest) /\ t = p +:+ t'.
Proof. destruct r as [[t' rest']|]; cbn; [|done]. intros [= <- <-]. eauto. Qed.

Lemma json_string_len s t rest : json_string s = Some (t, rest) -> len rest < len s.
Proof.
  remember (len s) as n eqn:En. revert s t rest En. induction n as [n IH] using lt_wf_ind. intros s t rest ->.
  assert (Hrec : forall r p, len r < len s -> prepend p (json_string r) = Some (t, rest) -> len rest < len s).
  { intros r p Hr H. apply prepend_Some in H as (t' & H & _). specialize (IH (len r) Hr r t' rest eq_refl H). lia. }
  destruct s as [|c r]; [done|]. cbn [json_string]. simpl len in *.
  repeat match goal with
  | |- context [if ?b then _ else _] => destruct b
  | |- context [match ?r with EmptyString => _ | _ => _ end] => destruct r; simpl len in *
  | |- context [match ?o with Some _ => _ | None => _ end] =>
      lazymatch o with prepend _ _ => fail | _ => destruct o end
  end; try done;
  try (intros [= _ <-]; lia); try (intros H; eapply Hrec; [|exact H]; simpl; lia).
Qed.

Lemma span_digits_len s : len (span_digits s).2 <= len s.
Proof.
  induction s as [|c s IH]; simpl; [done|]. destruct (dec_digit c); [|done].
  destruct (span_digits s); simpl in *. lia.
Qed.

Lemma eat_len c s r : eat c s = Some r -> len s = S (len r).
Proof. destruct s as [|d s]; simpl; [done|]. destruct (Ascii.eqb d c); [|done]. by intros [= <-]. Qed.

Lemma json_fraction_len s : len (json_fraction s).2 <= len s.
Proof.
  unfold json_fraction. destruct (eat "." s) as [r|] eqn:E; [|done]. apply eat_len in E.
  pose proof (span_digits_len r). destruct (span_digits r) as [ds rest]. destruct (is_empty ds); simpl in *; lia.
Qed.

Lemma json_exponent_len s e rest : json_exponent s = Some (e, rest) -> len rest <= len s.
Proof.
  unfold json_exponent.
  destruct (match eat "e" s with Some r => Some r | None => eat "E" s end) as [r|] eqn:Er; [|done]. cbn.
  assert (len s = S (len r)) as Hs by (destruct (eat "e" s) eqn:E; simplify_eq; by eapply eat_len).
  assert (exists z r', match eat "-" r, eat "+" r with
                       | Some r, _ => ((-1)%Z, r) | None, Some r => (1%Z, r) | None, None => (1%Z, r)
                       end = (z, r') /\ len r' <= len r) as (z & r' & -> & Hr).
  { destruct (eat "-" r) as [x|] eqn:E1; [apply eat_len in E1; eexists _, _; split; [done|lia]|].
    destruct (eat "+" r) as [x|] eqn:E2; [apply eat_len in E2|]; eexists _, _; (split; [done|lia]). }
  pose proof (span_digits_len r'). destruct (span_digits r') as [ds rest']. destruct (is_empty ds); [done|].
  intros [= _ <-]. simpl in *. lia.
Qed.

Lemma json_number_len neg s v rest : json_number neg s = Some (v, rest) -> len rest < len s.
Proof.
  destruct s as [|c r]; [done|]. unfold json_number. destruct (dec_digit c) eqn:Ed; cbn [negb]; [|done].
  assert (exists ds r', (if Ascii.eqb c "0" then (String c EmptyString, r) else span_digits (String c r)) = (ds, r')
                        /\ len r' <= len r) as (ds & r' & -> & Hr).
  { destruct (Ascii.eqb c "0"); [by eexists _, _|]. simpl. rewrite Ed. pose proof (span_digits_len r).
    destruct (span_digits r). by eexists _, _. }
  pose proof (json_fraction_len r') as Hf. destruct (json_fraction r') as [frac r2]. simpl in Hf |- *.
  destruct (json_exponent r2) as [[e r3]|] eqn:Ee.
  - apply json_exponent_len in Ee. intros [= _ <-]. lia.
  - destruct (is_empty frac); intros [= _ <-]; lia.
Qed.

Lemma drop_prefix_len p s r : drop_prefix p s = Some r -> len s = len p + len r.
Proof.
  revert s. induction p as [|a p IH]; intros [|b s]; simpl; try done; [by intros [= <-]..|].
  destruct (Ascii.eqb a b); [|done]. intros H%IH. lia.
Qed.

Lemma json_constant_len s v rest : json_constant s = Some (v, rest) -> len rest < len s.
Proof.
  unfold json_constant, json_constants.
  cbn [omap list_omap head]. repeat (match goal with |- context [drop_prefix ?n s] =>
    destruct (drop_prefix n s) eqn:?H end; cbn [head];
    [intros [= _ <-]; match goal with H : _ = Some _ |- _ => apply drop_prefix_len in H; simpl in H; lia end|]).
  done.
Qed.

Lemma json_atom_len s v rest : json_atom s = Some (v, rest) -> len rest < len s.
Proof.
  unfold json_atom. destruct (json_constant s) as [[v' r']|] eqn:Ec.
  - intros [= <- <-]. by apply json_constant_len in Ec.
  - destruct (eat "-" s) as [r|] eqn:E; [apply eat_len in E|]; intros H%json_number_len; lia.
Qed.

(** Facts on the lengths the parsers leave, for [lia]. *)
Ltac lens := repeat match goal with
  | H : eat _ _ = Some _ |- _ => apply eat_len in H
  | H : json_string _ = Some _ |- _ => apply json_string_len in H
  | H : context [skip_ws ?r] |- _ => lazymatch goal with _ : len (skip_ws r) <= len r |- _ => fail
                                     | _ => pose proof (skip_ws_len r) end
  | |- context [skip_ws ?r] => lazymatch goal with _ : len (skip_ws r) <= len r |- _ => fail
                               | _ => pose proof (skip_ws_len r) end
  end; simpl in *; lia.

Ltac next_step := match goal with
  | |- context [match eat ?c ?s with _ => _ end] => destruct (eat c s) as [?|] eqn:?
  | |- context [eat ?c ?s ≫= _] => destruct (eat c s) as [?|] eqn:?
  | |- context [json_string ?s ≫= _] => destruct (json_string s) as [[??]|] eqn:?
  | |- context [json_value ?n ?s ≫= _] => destruct (json_value n s) as [[??]|] eqn:?
  | |- context [json_members ?n ?s ≫= _] => destruct (json_members n s) as [[??]|] eqn:?
  | |- context [json_elements ?n ?s ≫= _] => destruct (json_elements n s) as [[??]|] eqn:?
  end; cbn [mbind option_bind]; try done.

Lemma json_parse_len n :
  (forall s v rest, json_value n s = Some (v, rest) -> len rest < len s) /\
  (forall s v rest, json_members n s = Some (v, rest) -> len rest < len s) /\
  (forall s v rest, json_elements n s = Some (v, rest) -> len rest < len s).
Proof.
  induction n as [|n (IHv & IHm & IHe)]; [done|].
  assert (Hlen : forall s v rest, json_value n s = Some (v, rest) -> len rest < len s) by done.
  split_and!; intros s v rest; cbn [json_value json_members json_elements]; repeat next_step;
    try (intros H; by apply json_atom_len in H); intros [= _ <-];
    repeat match goal with
    | H : json_value _ _ = Some _ |- _ => apply IHv in H
    | H : json_members _ _ = Some _ |- _ => apply IHm in H
    | H : json_elements _ _ = Some _ |- _ => apply IHe in H
    end; lens.
Qed.

Lemma json_fuel_step n :
  (forall m s, 2 * len s < n -> 2 * len s < m -> json_value n s = json_value m s) /\
  (forall m s, 2 * len s < n -> 2 * len s < m -> json_members n s = json_members m s) /\
  (forall m s, 2 * len s + 1 < n -> 2 * len s + 1 < m -> json_elements n s = json_elements m s).
Proof.
  induction n as [|n (IHv & IHm & IHe)]; [split_and!; intros; lia|].
  split_and!; intros [|m] s Hn Hm; try lia; cbn [json_value json_members json_elements].
  - repeat match goal with |- context [match eat ?c ?s with _ => _ end] => destruct (eat c s) as [?|] eqn:? end;
      try done; [rewrite (IHm m)|rewrite (IHe m)]; first [done|lens].
  - do 3 next_step. rewrite (IHv m); [|lens..]. destruct (json_value m _) as [[v r]|] eqn:E; cbn; [|done].
    apply json_parse_len in E. destruct (eat "}" _); [done|]. destruct (eat "," _) eqn:?; [|done].
    rewrite (IHm m); [done|lens..].
  - rewrite (IHv m); [|lia..]. destruct (json_value m _) as [[v r]|] eqn:E; cbn; [|done].
    apply json_parse_len in E. destruct (eat "]" _); [done|]. destruct (eat "," _) eqn:?; [|done].
    rewrite (IHe m); [done|lens..].
Qed.

(** Whatever fuel beyond the text's length is given, [json_loads] answers the same:
    [None] means that the text is not JSON, never that the fuel ran out. *)
Lemma json_fuel n s :
  2 * len s < n ->
  json_loads s = ('(v, rest) ← json_value n (skip_ws s); if is_empty (skip_ws rest) then Some v else None).
Proof.
  intros Hn. unfold json_loads.
  rewrite (proj1 (json_fuel_step (S (2 * len s))) n) by lens. done.
Qed.

(** ** Decimal numerals *)
Lemma code_chr z : (0 <= z < 256)%Z -> code (chr z) = z.
Proof. intros H. unfold code, chr. rewrite N_ascii_embedding by lia. lia. Qed.

Lemma pretty_digit x : (x < 10)%N -> dec_digit (pretty_N_char x) = true /\ code (pretty_N_char x) = (48 + Z.of_N x)%Z.
Proof.
  intros H. assert (x = 0 \/ x = 1 \/ x = 2 \/ x = 3 \/ x = 4 \/ x = 5 \/ x = 6 \/ x = 7 \/ x = 8 \/ x = 9)%N as E by lia.
  decompose [or] E; subst; by vm_compute.
Qed.

Definition all_dec (ds : string) : Prop := Forall (fun c => dec_digit c = true) (chars ds).

Lemma all_dec_app a b : all_dec (a +:+ b) <-> all_dec a /\ all_dec b.
Proof. unfold all_dec. by rewrite chars_app, Forall_app. Qed.

Lemma dec_value_app acc a b : dec_value acc (a +:+ b) = dec_value (dec_value acc a) b.
Proof. revert acc. induction a as [|c a IH]; intros acc; simpl; [done|]. apply IH. Qed.

(** The digits [pretty] writes: no leading zero, and worth the number. *)
Lemma pretty_go_decimal x s :
  (0 < x)%N ->
  exists c ds, pretty_N_go x s = String c ds +:+ s /\ all_dec (String c ds) /\ c <> "0"%char /\
    dec_value 0 (String c ds) = Z.of_N x.
Proof.
  revert s. induction (N.lt_wf_0 x) as [x _ IH]. intros s Hx. rewrite pretty_N_go_step by done.
  destruct (pretty_digit (x mod 10)) as [Hd Hc]; [by apply N.mod_lt|].
  pose proof (N.div_mod x 10 ltac:(done)) as Hdm.
  destruct (N.eq_0_gt_0_cases (x / 10)) as [E|Hq].
  - rewrite E, pretty_N_go_0. rewrite E in Hdm.
    exists (pretty_N_char (x mod 10)), EmptyString. split_and!; [done|by constructor| |simpl; rewrite Hc; lia].
    intros H0. rewrite H0 in Hc. vm_compute (code "0") in Hc. lia.
  - destruct (IH (x / 10)%N ltac:(by apply N.div_lt) (String (pretty_N_char (x mod 10)) s) Hq)
      as (c & ds & -> & Hall & Hne & Hv).
    exists c, (ds +:+ String (pretty_N_char (x mod 10)) EmptyString). split_and!; [|..|done|].
    + simpl. f_equal. by rewrite string_app_assoc.
    + change (String c (ds +:+ ?t)) with (String c ds +:+ t). apply all_dec_app. split; [done|]. by constructor.
    + change (String c (ds +:+ ?t)) with (String c ds +:+ t). rewrite dec_value_app, Hv. simpl. rewrite Hc. lia.
Qed.

(** [str(z)]: a sign, and digits worth [|z|] with no leading zero. *)
Definition numeral (ds : string) (m : Z) : Prop :=
  exists c r, ds = String c r /\ all_dec ds /\ dec_value 0 ds = m /\ (c = "0"%char -> r = EmptyString).

Lemma str_int_numeral z :
  exists ds, numeral ds (Z.abs z) /\ str_int z = if (z <? 0)%Z then String "-" ds else ds.
Proof.
  assert (forall p, numeral (pretty (N.pos p)) (Z.pos p)) as Hp.
  { intros p. unfold pretty, pretty_N. destruct (decide (N.pos p = 0)%N); [done|].
    destruct (pretty_go_decimal (N.pos p) "" ltac:(done)) as (c & ds & -> & Ha & Hn & Hv).
    rewrite string_app_nil_r. by exists c, ds. }
  destruct z as [|p|p].
  - exists "0". split; [|done]. exists "0"%char, EmptyString. split_and!; try done. by repeat constructor.
  - by exists (pretty (N.pos p)).
  - by exists (pretty (N.pos p)).
Qed.

Lemma digit_val_dec c : dec_digit c = true -> digit_val 10 c = Some (code c - 48)%Z /\ is_space c = false /\ c <> "_"%char.
Proof. destruct c as [[][][][][][][][]]; intros H; try discriminate H; (split_and!; [reflexivity|reflexivity|discriminate]). Qed.

Lemma int_digits_dec acc ds : all_dec ds -> int_digits 10 acc ds = Some (dec_value acc ds).
Proof.
  revert acc. induction ds as [|c ds IH]; intros acc H; simpl; [done|]. inversion H as [|?? Hc Hds]; subst.
  apply digit_val_dec in Hc as (-> & _ & Hu). destruct (Ascii.eqb_spec c "_"); [done|]. by apply IH.
Qed.

Lemma dec_spaces ds : all_dec ds -> Forall (fun c => is_space c = false) (chars ds).
Proof. intros H. eapply Forall_impl; [exact H|]. cbn. intros c Hc. destruct (digit_val_dec c Hc) as (_ & Hs & _). exact Hs. Qed.

Lemma strip_dec ds : all_dec ds -> strip ds = ds.
Proof. intros H. by apply strip_by_none, dec_spaces. Qed.

(** [int(str(z)) == z]. *)
Lemma py_int_str_int z : py_int 10 (str_int z) = Some z.
Proof.
  destruct (str_int_numeral z) as (ds & (c & r & -> & Ha & Hv & _) & ->).
  assert (Hb : int_body 10 (String c r) = Some (Z.abs z)).
  { inversion Ha as [|?? Hc Hr]; subst. simpl. destruct (digit_val_dec c Hc) as (-> & _).
    rewrite int_digits_dec by done. rewrite <-Hv. done. }
  unfold py_int. destruct (Z.ltb_spec z 0).
  - unfold strip. rewrite strip_by_none by (constructor; [done|exact (dec_spaces _ Ha)]). change (Z.opp <$> int_body 10 (String c r) = Some z). rewrite Hb. simpl. f_equal. lia.
  - rewrite strip_dec by done. inversion Ha as [|?? Hc Hr]; subst.
    assert (c <> "-"%char /\ c <> "+"%char) as [Hm Hp] by (split; intros ->; discriminate Hc).
    assert (drop_base_prefix 10 (String c r) = String c r) as E by done.
    transitivity (int_body 10 (String c r)); [|rewrite Hb; f_equal; lia].
    clear -Hm Hp. destruct c as [[][][][][][][][]]; done.
Qed.

(** ** Reading back what was written *)

(** The code points a text can hold. *)
Definition scalar (cp : Z) : Prop := (0 <= cp < 55296)%Z \/ (57344 <= cp < 1114112)%Z.

Lemma utf8_code_points cp s : scalar cp -> code_points (utf8 cp +:+ s) = cp :: code_points s.
Proof.
  intros H. unfold utf8, scalar in *.
  pose proof (Z.div_mod cp 64 ltac:(done)). pose proof (Z.mod_pos_bound cp 64 ltac:(done)).
  pose proof (Z.div_mod (cp / 64) 64 ltac:(done)). pose proof (Z.mod_pos_bound (cp / 64) 64 ltac:(done)).
  pose proof (Z.div_mod (cp / 4096) 64 ltac:(done)). pose proof (Z.mod_pos_bound (cp / 4096) 64 ltac:(done)).
  assert (cp / 64 / 64 = cp / 4096)%Z by (by rewrite Z.div_div).
  assert (cp / 4096 / 64 = cp / 262144)%Z by (by rewrite Z.div_div).
  destruct (Z.ltb_spec cp 128); [|destruct (Z.ltb_spec cp 2048); [|destruct (Z.ltb_spec cp 65536)]];
    cbn [String.append code_points]; rewrite ?code_chr by lia;
    repeat match goal with |- context [(?a <? ?b)%Z] => destruct (Z.ltb_spec a b); try lia end; f_equal; lia.
Qed.

Lemma utf8s_code_points cps : Forall scalar cps -> code_points (utf8s cps) = cps.
Proof. induction 1; cbn [utf8s]; [done|]. rewrite utf8_code_points by done. by f_equal. Qed.

Lemma hex4_unicode u :
  (0 <= u < 65536)%Z ->
  exists a b c d, hex_fixed 4 (Z.to_N u) = String a (String b (String c (String d EmptyString))) /\
    hex4 a b c d = Some u.
Proof.
  intros H. do 4 eexists. split; [reflexivity|]. unfold hex4. rewrite !digit_val_hex by (by apply N.mod_lt).
  f_equal. change (16 ^ N.of_nat 3)%N with 4096%N. change (16 ^ N.of_nat 2)%N with 256%N.
  change (16 ^ N.of_nat 1)%N with 16%N. change (16 ^ N.of_nat 0)%N with 1%N.
  rewrite !N2Z.inj_mod, !N2Z.inj_div, Z2N.id by lia. Z.to_euclidean_division_equations. lia.
Qed.

Lemma json_string_unicode u s :
  (0 <= u < 65536)%Z -> high_surrogate u = false ->
  json_string (unicode_escape u +:+ s) = prepend (utf8 u) (json_string s).
Proof.
  intros H Hs. destruct (hex4_unicode u H) as (a & b & c & d & E & Hx). unfold unicode_escape. rewrite E.
  cbn [String.append json_string]. change (simple_escape "u") with (@None ascii). cbn. by rewrite Hx, Hs.
Qed.

Lemma json_string_pair u v s :
  (0 <= u < 65536)%Z -> (0 <= v < 65536)%Z -> high_surrogate u = true -> low_surrogate v = true ->
  json_string (unicode_escape u +:+ unicode_escape v +:+ s) = prepend (utf8 (join_surrogates u v)) (json_string s).
Proof.
  intros Hu Hv Hh Hl. destruct (hex4_unicode u Hu) as (a & b & c & d & Eu & Hxu).
  destruct (hex4_unicode v Hv) as (a' & b' & c' & d' & Ev & Hxv). unfold unicode_escape. rewrite Eu, Ev.
  cbn [String.append json_string]. change (simple_escape "u") with (@None ascii). cbn. by rewrite Hxu, Hh, Hxv, Hl.
Qed.

(** One code point, escaped and read back. *)
Lemma json_string_escape cp s :
  scalar cp -> json_string (json_escape cp +:+ s) = prepend (utf8 cp) (json_string s).
Proof.
  intros H. unfold json_escape.
  destruct (Z.eqb_spec cp 34) as [->|Hq]; [done|]. destruct (Z.eqb_spec cp 92) as [->|Hb]; [done|].
  destruct (Z.leb_spec 32 cp); cbn [andb]; [destruct (Z.leb_spec cp 126)|].
  { assert (code (chr cp) = cp) as Hc by (apply code_chr; lia).
    cbn [String.append json_string]. unfold utf8. destruct (Z.ltb_spec cp 128); [|lia].
    destruct (Ascii.eqb_spec (chr cp) quote) as [E|_]; [rewrite E in Hc; vm_compute in Hc; lia|].
    destruct (Ascii.eqb_spec (chr cp) backslash) as [E|_]; [rewrite E in Hc; vm_compute in Hc; lia|].
    rewrite Hc. destruct (Z.ltb_spec cp 32); [lia|done]. }
  all: destruct (Z.eqb_spec cp 10) as [->|]; [done|]; destruct (Z.eqb_spec cp 13) as [->|]; [done|];
    destruct (Z.eqb_spec cp 9) as [->|]; [done|]; destruct (Z.eqb_spec cp 12) as [->|]; [done|];
    destruct (Z.eqb_spec cp 8) as [->|]; [done|]; unfold scalar in H.
  all: destruct (Z.ltb_spec cp 65536); try (exfalso; lia).
  1, 3: apply json_string_unicode; [lia|]; unfold high_surrogate; destruct (Z.leb_spec 55296 cp), (Z.leb_spec cp 56319); done || lia.
  rewrite string_app_assoc, json_string_pair; try (Z.to_euclidean_division_equations; lia);
    [f_equal; f_equal; unfold join_surrogates; Z.to_euclidean_division_equations; lia| |];
    unfold high_surrogate, low_surrogate; apply andb_true_intro; split; apply Z.leb_le; Z.to_euclidean_division_equations; lia.
Qed.

Lemma prepend_app p q r : prepend p (prepend q r) = prepend (p +:+ q) r.
Proof. destruct r as [[t rest]|]; cbn; [|done]. by rewrite string_app_assoc. Qed.

(** A text the encoder can write, and what it holds. *)
Definition utf8_text (s : string) : Prop := exists cps, Forall scalar cps /\ s = utf8s cps.

Lemma json_string_dumps s rest :
  utf8_text s -> json_string (json_escapes (code_points s) +:+ String quote rest) = Some (s, rest).
Proof.
  intros (cps & Hcps & ->). rewrite utf8s_code_points by done. induction Hcps as [|cp cps Hcp _ IH]; [done|].
  cbn [json_escapes utf8s]. rewrite string_app_assoc, json_string_escape by done. rewrite IH. done.
Qed.

Definition ends_number (s : string) : Prop :=
  match s with EmptyString => True | String c _ => c = ","%char \/ c = "}"%char end.

Lemma span_digits_dec ds rest : all_dec ds -> ends_number rest -> span_digits (ds +:+ rest) = (ds, rest).
Proof.
  intros H He. induction ds as [|c ds IH].
  - destruct rest as [|c r]; [done|]. by destruct He as [->| ->].
  - inversion H as [|?? Hc Hd]; subst. cbn. rewrite Hc. by rewrite IH.
Qed.

Lemma json_number_dec neg ds m rest :
  numeral ds m -> ends_number rest ->
  json_number neg (ds +:+ rest) = Some (JInt (if neg then - m else m), rest).
Proof.
  intros (c & r & -> & Ha & <- & Hz) He. unfold json_number. cbn [String.append].
  assert (Hc : dec_digit c = true) by (by inversion Ha). rewrite Hc. cbn [negb].
  assert ((if Ascii.eqb c "0" then (String c EmptyString, r +:+ rest) else span_digits (String c (r +:+ rest)))
          = (String c r, rest)) as ->.
  { destruct (Ascii.eqb_spec c "0") as [->|_]; [by rewrite Hz|]. exact (span_digits_dec (String c r) rest Ha He). }
  assert (json_fraction rest = (EmptyString, rest) /\ json_exponent rest = None) as [-> ->].
  { destruct rest as [|d rest]; [done|]. by destruct He as [->| ->]. }
  done.
Qed.

Lemma json_value_int n z rest :
  ends_number rest -> json_value (S n) (str_int z +:+ rest) = Some (JInt z, rest).
Proof.
  intros He. destruct (str_int_numeral z) as (ds & Hn & ->).
  pose proof (fun neg => json_number_dec neg ds _ rest Hn He) as Hnum.
  destruct Hn as (c & r & -> & Ha & _ & _). assert (Hc : dec_digit c = true) by (by inversion Ha).
  assert (Hd : exists k, c = ascii_of_N (48 + k) /\ (k < 10)%N).
  { clear -Hc. unfold dec_digit, code in Hc. exists (N_of_ascii c - 48)%N. apply andb_true_iff in Hc as [H1 H2].
    apply Z.leb_le in H1, H2. split; [|lia]. rewrite <-(ascii_N_embedding c) at 1. f_equal. lia. }
  assert (Hatom : forall s, s = (if (z <? 0)%Z then String "-" (String c r) else String c r) +:+ rest ->
    json_constant s = None /\ eat quote s = None /\ eat "{" s = None /\ eat "[" s = None).
  { clear Hnum. intros s ->. destruct Hd as (k & -> & Hk).
    assert (k = 0 \/ k = 1 \/ k = 2 \/ k = 3 \/ k = 4 \/ k = 5 \/ k = 6 \/ k = 7 \/ k = 8 \/ k = 9)%N as E by lia.
    destruct (z <? 0)%Z; decompose [or] E; subst; done. }
  destruct (Hatom _ eq_refl) as (H1 & H2 & H3 & H4). cbn [json_value]. rewrite H2, H3, H4. unfold json_atom. rewrite H1.
  destruct (Z.ltb_spec z 0).
  - change (eat "-" _) with (Some (String c r +:+ rest)). cbv iota. rewrite Hnum. do 2 f_equal. f_equal. lia.
  - assert (eat "-" (String c r +:+ rest) = None) as ->.
    { cbn. destruct (Ascii.eqb_spec c "-") as [->|]; [discriminate Hc|done]. }
    rewrite Hnum. do 2 f_equal. f_equal. lia.
Qed.

Lemma skip_ws_id c r : json_space c = false -> skip_ws (String c r) = String c r.
Proof. intros H. cbn [skip_ws]. by rewrite H. Qed.

Lemma skip_ws_number z rest : skip_ws (str_int z +:+ rest) = str_int z +:+ rest.
Proof.
  destruct (str_int_numeral z) as (ds & (c & r & -> & Ha & _ & _) & ->).
  assert (Hc : dec_digit c = true) by (by inversion Ha). assert (json_space c = false).
  { destruct c as [[][][][][][][][]]; try discriminate Hc; done. }
  destruct (z <? 0)%Z; by apply skip_ws_id.
Qed.

Definition int_member (kv : string * Z) : string * json := (kv.1, JInt kv.2).

Lemma json_members_step n kv rest :
  utf8_text kv.1 -> ends_number rest ->
  json_members (S (S n)) (dumps_member kv +:+ rest) =
  match eat "}" (skip_ws rest), eat "," (skip_ws rest) with
  | Some rest, _ => Some ([int_member kv], rest)
  | None, Some r => '(kvs, rest) ← json_members (S n) (skip_ws r); Some (int_member kv :: kvs, rest)
  | None, None => None
  end.
Proof.
  intros Hk He. destruct kv as [k z]. unfold dumps_member, dumps_str, int_member. cbn [fst snd].
  change ((String quote ?a +:+ ?b) +:+ ?c) with (String quote ((a +:+ b) +:+ c)).
  rewrite !string_app_assoc. remember (S n) as n' eqn:En. cbn [json_members eat]. rewrite Ascii.eqb_refl.
  cbn [mbind option_bind]. change (String quote "" +:+ ?r) with (String quote r).
  rewrite json_string_dumps by done. cbn [mbind option_bind].
  change (eat ":" (skip_ws (": " +:+ ?r))) with (Some (String " " r)). cbn [mbind option_bind].
  change (skip_ws (String " " ?r)) with (skip_ws r). rewrite skip_ws_number. subst n'.
  rewrite json_value_int by done. done.
Qed.

Lemma dumps_members_head kv kvs r :
  exists r', join ", " (map dumps_member (kv :: kvs)) +:+ r = String quote r'.
Proof. destruct kvs; eexists; reflexivity. Qed.

Lemma json_members_dumps n kv kvs rest :
  length kvs < n -> Forall (fun kv => utf8_text kv.1) (kv :: kvs) ->
  json_members (S n) (join ", " (map dumps_member (kv :: kvs)) +:+ String "}" rest) =
  Some (map int_member (kv :: kvs), rest).
Proof.
  revert n kv. induction kvs as [|kv' kvs IH]; intros n kv Hn Hk;
    (destruct n as [|n]; [lia|]); inversion Hk as [|?? Hk1 Hk2]; subst.
  - change (join ", " (map dumps_member [kv])) with (dumps_member kv).
    rewrite json_members_step by (done || by right). done.
  - change (join ", " (map dumps_member (kv :: kv' :: kvs)))
      with (dumps_member kv +:+ (", " +:+ join ", " (map dumps_member (kv' :: kvs)))).
    rewrite string_app_assoc, json_members_step by (done || by left).
    change (skip_ws ((", " +:+ ?a) +:+ ?b)) with (String "," (String " " (a +:+ b))).
    change (eat "}" (String "," ?r)) with (@None string). change (eat "," (String "," ?r)) with (Some r). cbv iota.
    change (skip_ws (String " " ?r)) with (skip_ws r).
    destruct (dumps_members_head kv' kvs (String "}" rest)) as (r' & E).
    specialize (IH n kv' ltac:(cbn in Hn; lia) Hk2). rewrite E in IH |- *.
    rewrite skip_ws_id by done. rewrite IH. done.
Qed.

Lemma assoc_set_fresh {V} k (v : V) d : k ∉ d.*1 -> assoc_set k v d = d ++ [(k, v)].
Proof.
  induction d as [|[k' v'] d IH]; csimpl; [done|]. intros [Hk Hd]%not_elem_of_cons.
  apply String.eqb_neq in Hk. rewrite Hk. by rewrite IH.
Qed.

Lemma dict_of_app {V} (kvs d : list (string * V)) :
  NoDup (d ++ kvs).*1 -> fold_left (fun d kv => assoc_set kv.1 kv.2 d) kvs d = d ++ kvs.
Proof.
  revert d. induction kvs as [|[k v] kvs IH]; intros d H; [by rewrite app_nil_r|].
  cbn [fold_left fst snd]. rewrite assoc_set_fresh.
  2: { rewrite fmap_app in H. apply NoDup_app in H as (_ & Hd & _). intros Hk. apply (Hd k Hk). csimpl. by left. }
  rewrite IH; rewrite <-app_assoc; done.
Qed.

Lemma dict_of_nodup {V} (kvs : list (string * V)) : NoDup kvs.*1 -> dict_of kvs = kvs.
Proof. intros H. by apply (dict_of_app kvs []). Qed.

(** A map from names to integers survives its text: [json.loads(json.dumps(m))] is
    [m], for distinct names. *)
Lemma loads_dumps kvs :
  NoDup kvs.*1 -> Forall (fun kv => utf8_text kv.1) kvs ->
  json_loads (json_dumps kvs) = Some (JObj (map int_member kvs)).
Proof.
  intros Hnd Hk. rewrite (json_fuel (S (S (length kvs + 2 * len (json_dumps kvs))))) by lia.
  set (n := length kvs + 2 * _). unfold json_dumps. destruct kvs as [|kv kvs]; [done|].
  change (skip_ws ("{" +:+ ?r)) with (String "{" r).
  remember (S n) as n' eqn:En. cbn [json_value]. change (eat quote (String "{" ?r)) with (@None string). cbv iota.
  change (eat "{" (String "{" ?r)) with (Some r). cbv iota.
  destruct (dumps_members_head kv kvs "}") as (r' & E).
  pose proof (json_members_dumps n kv kvs "" ltac:(subst n; cbn; lia) Hk) as Hm. rewrite <-En in Hm.
  change (String "}" "") with "}" in Hm. rewrite E in Hm |- *. rewrite skip_ws_id by done.
  change (eat "}" (String quote r')) with (@None string). cbv iota. rewrite Hm. cbn [mbind option_bind].
  rewrite dict_of_nodup; [done|].
  assert ((map int_member (kv :: kvs)).*1 = (kv :: kvs).*1) as -> by (rewrite <-list_fmap_compose; by apply list_fmap_ext).
  done.
Qed.

(** ** Floats as text

    [float(text)], the format ["g"] and [str] of Python's floats. *)

(** ** [float(text)] *)

(** Drops the underscores between two digits; any other one is an error. *)
Fixpoint drop_underscores (after_digit : bool) (s : string) : option string :=
  match s with
  | EmptyString => Some EmptyString
  | String c r =>
      if Ascii.eqb c "_" then
        match r with
        | String d _ => if after_digit && dec_digit d then drop_underscores false r else None
        | EmptyString => None
        end
      else match drop_underscores (dec_digit c) r with Some t => Some (String c t) | None => None end
  end.

(** The unsigned part: digits with an optional point and exponent, or a name. *)
Definition py_float_body (neg : bool) (s : string) : option float :=
  if existsb (String.eqb (lower s)) ["inf"; "infinity"] then Some (S754_infinity neg)
  else if String.eqb (lower s) "nan" then Some S754_nan
  else
    let '(ds, r) := span_digits s in
    let '(frac, r) := match eat "." r with Some r => span_digits r | None => (EmptyString, r) end in
    if is_empty ds && is_empty frac then None
    else
      let m := dec_value (dec_value 0 ds) frac in
      let k := Z.of_nat (String.length frac) in
      if is_empty r then Some (float_of_decimal neg m (- k))
      else
        match json_exponent r with
        | Some (e, rest) => if is_empty rest then Some (float_of_decimal neg m (e - k)) else None
        | None => None
        end.

Definition py_float (s : string) : option float :=
  s ← drop_underscores false (strip s);
  match eat "-" s, eat "+" s with
  | Some r, _ => py_float_body true r
  | None, Some r => py_float_body false r
  | None, None => py_float_body false s
  end.

(** ** [f"{x:g}"] *)

(** The quotient of two positive numbers, rounded half to even. *)
Definition round_div (a b : Z) : Z :=
  let q := (a / b)%Z in
  match (2 * (a mod b) ?= b)%Z with
  | Lt => q
  | Gt => (q + 1)%Z
  | Eq => if Z.even q then q else (q + 1)%Z
  end.

(** [m * 2^e] as a fraction. *)
Definition fraction (m : positive) (e : Z) : Z * Z :=
  if (0 <=? e)%Z then ((Z.pos m * 2 ^ e)%Z, 1%Z) else (Z.pos m, (2 ^ (- e))%Z).

(** The decimal exponent of [a / b]: the [x] with [10^x <= a / b < 10^(x+1)]. *)
Definition dec_exponent (a b : Z) : Z :=
  let d z := Z.of_nat (String.length (str_int z)) in
  let x := (d a - d b)%Z in
  let ge x := if (0 <=? x)%Z then (b * 10 ^ x <=? a)%Z else (b <=? a * 10 ^ (- x))%Z in
  if ge x then x else (x - 1)%Z.

(** The six significant digits of [a / b], and the exponent of the first. *)
Definition six_digits (a b : Z) : Z * Z :=
  let x := dec_exponent a b in
  let q := if (x <=? 5)%Z then round_div (a * 10 ^ (5 - x)) b else round_div a (b * 10 ^ (x - 5)) in
  if (q =? 1000000)%Z then (100000%Z, (x + 1)%Z) else (q, x).

Definition is_zero_char (c : ascii) : bool := Ascii.eqb c "0".

(** The fraction digits without their trailing zeros, after a point. *)
Definition point_digits (ds : string) : string :=
  let ds := rstrip_by is_zero_char ds in if is_empty ds then EmptyString else "." +:+ ds.

Fixpoint zeros (n : nat) : string := match n with O => EmptyString | S n => String "0" (zeros n) end.

Fixpoint drop_str (n : nat) (s : string) : string :=
  match n, s with S n, String _ r => drop_str n r | _, _ => s end.

Definition format_g_digits (q x : Z) : string :=
  let ds := str_int q in
  if (0 <=? x)%Z && (x <=? 5)%Z then
    take_str (S (Z.to_nat x)) ds +:+ point_digits (drop_str (S (Z.to_nat x)) ds)
  else if (-4 <=? x)%Z && (x <? 0)%Z then "0" +:+ point_digits (zeros (Z.to_nat (- x - 1)) +:+ ds)
  else
    take_str 1 ds +:+ point_digits (drop_str 1 ds) +:+ "e" +:+ (if (x <? 0)%Z then "-" else "+") +:+
    (if (Z.abs x <? 10)%Z then "0" else "") +:+ str_int (Z.abs x).

Definition format_g (f : float) : string :=
  match f with
  | S754_nan => "nan"
  | S754_infinity s => (if s then "-" else "") +:+ "inf"
  | S754_zero s => (if s then "-" else "") +:+ "0"
  | S754_finite s m e =>
      let '(a, b) := fraction m e in
      let '(q, x) := six_digits a b in
      (if s then "-" else "") +:+ format_g_digits q x
  end.

Example format_g_samples :
  map (fun t => format_g <$> py_float t) ["7"; "7.0"; " -5.5 "; "1_0.25"; "1234567"; "0.00001234"; ".1"; "1e300"; "-0"; "abc"; "1__0"] =
  [Some "7"; Some "7"; Some "-5.5"; Some "10.25"; Some "1.23457e+06"; Some "1.234e-05"; Some "0.1"; Some "1e+300";
   Some "-0"; None; None].
Proof. vm_compute. reflexivity. Qed.

(** ** [str(float)] *)
#[export] Instance float_eq_dec : EqDecision float.
Proof. solve_decision. Defined.

(** The decimals of [n] digits on either side of [a / b], as digits and the
    exponent of the last, the nearer one first. *)
Definition neighbours (n a b : Z) : list (Z * Z) :=
  let e := (dec_exponent a b - n + 1)%Z in
  let '(p, q) := if (0 <=? e)%Z then (a, b * 10 ^ e)%Z else (a * 10 ^ (- e), b)%Z in
  let lo := (p / q)%Z in
  if (round_div p q =? lo)%Z then [(lo, e); ((lo + 1)%Z, e)] else [((lo + 1)%Z, e); (lo, e)].

(** The first of the shortest decimals that reads back as the float. *)
Fixpoint shortest (fuel : nat) (n : Z) (m : positive) (e : Z) : Z * Z :=
  let '(a, b) := fraction m e in
  let reads qe := bool_decide (float_of_decimal false qe.1 qe.2 = S754_finite false m e) in
  match fuel with
  | O => hd (0%Z, 0%Z) (neighbours 17 a b)
  | S fuel =>
      match List.find reads (neighbours n a b) with
      | Some qe => qe
      | None => shortest fuel (n + 1) m e
      end
  end.

(** The decimal of [str(f)] of a finite float that is not zero: its digits, without
    trailing zeros, and the exponent of the last. *)
Definition repr_decimal (m : positive) (e : Z) : string * Z :=
  let '(q, x) := shortest 17 1 m e in
  let ds := str_int q in
  let kept := rstrip_by is_zero_char ds in
  (kept, (x + Z.of_nat (String.length ds) - Z.of_nat (String.length kept))%Z).

(** [str(f)]: the point is written out while the first digit's exponent is in
    [-4 .. 15]. *)
Definition str_float (f : float) : string :=
  match f with
  | S754_nan => "nan"
  | S754_infinity s => (if s then "-" else "") +:+ "inf"
  | S754_zero s => (if s then "-" else "") +:+ "0.0"
  | S754_finite s m e =>
      let '(ds, x) := repr_decimal m e in
      let n := Z.of_nat (String.length ds) in
      let first := (x + n - 1)%Z in
      (if s then "-" else "") +:+
      (if (first <? -4)%Z || (15 <? first)%Z then
         take_str 1 ds +:+ (if is_empty (drop_str 1 ds) then "" else "." +:+ drop_str 1 ds) +:+ "e" +:+
         (if (first <? 0)%Z then "-" else "+") +:+ (if (Z.abs first <? 10)%Z then "0" else "") +:+ str_int (Z.abs first)
       else if (0 <=? x)%Z then ds +:+ zeros (Z.to_nat x) +:+ ".0"
       else if (first <? 0)%Z then "0." +:+ zeros (Z.to_nat (- first - 1)) +:+ ds
       else take_str (Z.to_nat (first + 1)) ds +:+ "." +:+ drop_str (Z.to_nat (first + 1)) ds)
  end.

Example str_float_samples :
  map (fun t => str_float <$> py_float t)
    ["7"; "-5.5"; "0.1"; "2340.25"; "1e16"; "123456789012345680"; "1e15"; "0.0001"; "0.00001";
     "5.684341886080802e-14"; "9007199254740993"; "0.30000000000000004"; "-0.0"; "inf"] =
  [Some "7.0"; Some "-5.5"; Some "0.1"; Some "2340.25"; Some "1e+16"; Some "1.2345678901234568e+17";
   Some "1000000000000000.0"; Some "0.0001"; Some "1e-05"; Some "5.684341886080802e-14";
   Some "9007199254740992.0"; Some "0.30000000000000004"; Some "-0.0"; Some "inf"].
Proof. vm_compute. reflexivity. Qed.
