(* ===== verification/Enums.v ===== *)
(** * Enumerations

    The [str] enums of [schemas/core.py], [schemas/trade_schema.py],
    [schemas/account_schema.py] and [schemas/publisher_schema.py], with the
    string each member carries. *)

From S2P Require Import Prelude.

(** ** Signals *)
Module SigAction.
Inductive SignalActionEnum := LONG | SHORT | TP1 | TP2 | R_SL | SL | FLAT.
End SigAction.
Export SigAction (SignalActionEnum).

#[global] Instance action_eq_dec : EqDecision SignalActionEnum.
Proof. solve_decision. Defined.

Definition action_value (a : SignalActionEnum) : string :=
  match a with
  | SigAction.LONG => "LONG" | SigAction.SHORT => "SHORT"
  | SigAction.TP1 => "TP1" | SigAction.TP2 => "TP2"
  | SigAction.R_SL => "R_SL" | SigAction.SL => "SL" | SigAction.FLAT => "FLAT"
  end.

Definition action_members : list SignalActionEnum :=
  [SigAction.LONG; SigAction.SHORT; SigAction.TP1; SigAction.TP2; SigAction.R_SL;
   SigAction.SL; SigAction.FLAT].

(** [SignalActionEnum(text)]; [None] is its [ValueError]. *)
Definition action_of (s : string) : option SignalActionEnum :=
  List.find (fun a => String.eqb (action_value a) s) action_members.

Lemma action_of_value a : action_of (action_value a) = Some a.
Proof. by destruct a. Qed.

Module SigStatus.
Inductive SignalStatusEnum := QUEUED | PUBLISHED | FAILED.
End SigStatus.
Export SigStatus (SignalStatusEnum).

#[global] Instance signal_status_eq_dec : EqDecision SignalStatusEnum.
Proof. solve_decision. Defined.

(** ** Broadcasts *)
Module Audience.
Inductive BroadcastAudienceEnum := PRIVATE | PUBLIC.
End Audience.
Export Audience (BroadcastAudienceEnum).

#[global] Instance audience_eq_dec : EqDecision BroadcastAudienceEnum.
Proof. solve_decision. Defined.

Module CycleStatus.
Inductive BroadcastStatusEnum := RUNNING | TP1 | CLOSED.
End CycleStatus.
Export CycleStatus (BroadcastStatusEnum).

#[global] Instance cycle_status_eq_dec : EqDecision BroadcastStatusEnum.
Proof. solve_decision. Defined.

Definition cycle_status_value (s : BroadcastStatusEnum) : string :=
  match s with
  | CycleStatus.RUNNING => "RUNNING" | CycleStatus.TP1 => "TP1"
  | CycleStatus.CLOSED => "CLOSED"
  end.

Module LogKind.
Inductive BroadcastLogKindEnum := SIGNAL | EXECUTION.
End LogKind.
Export LogKind (BroadcastLogKindEnum).

Module LogStatus.
Inductive BroadcastLogStatusEnum := PENDING | SENDING | DELIVERED | FAILED.
End LogStatus.
Export LogStatus (BroadcastLogStatusEnum).

#[global] Instance log_status_eq_dec : EqDecision BroadcastLogStatusEnum.
Proof. solve_decision. Defined.

(** ** Trades *)
Module TradeStatus.
Inductive TradeStatusEnum := OPENED | REJECTED | PARTIALLY_CLOSED | CLOSED | FLAT.
End TradeStatus.
Export TradeStatus (TradeStatusEnum).

#[global] Instance trade_status_eq_dec : EqDecision TradeStatusEnum.
Proof. solve_decision. Defined.

Definition trade_status_value (s : TradeStatusEnum) : string :=
  match s with
  | TradeStatus.OPENED => "OPENED" | TradeStatus.REJECTED => "REJECTED"
  | TradeStatus.PARTIALLY_CLOSED => "PARTIALLY_CLOSED"
  | TradeStatus.CLOSED => "CLOSED" | TradeStatus.FLAT => "FLAT"
  end.

Inductive PositionEventType := CREATED | UPDATED.

(** ** Accounts *)
Module Market.
Inductive MarketTypeEnum := FOREX | CRYPTO.
End Market.
Export Market (MarketTypeEnum).

#[global] Instance market_eq_dec : EqDecision MarketTypeEnum.
Proof. solve_decision. Defined.

Definition market_value (m : MarketTypeEnum) : string :=
  match m with Market.FOREX => "FOREX" | Market.CRYPTO => "CRYPTO" end.

Module Platform.
Inductive BotPlatformTypeEnum := TELEGRAM.
End Platform.
Export Platform (BotPlatformTypeEnum).

#[global] Instance platform_eq_dec : EqDecision BotPlatformTypeEnum.
Proof. solve_decision. Defined.

(** ** Topics *)
Inductive AdminActionEnum := ADMIN_FLAT | BLOCK_SIGNAL | ALLOW_SIGNAL.

Definition admin_action_value (a : AdminActionEnum) : string :=
  match a with ADMIN_FLAT => "FLAT" | BLOCK_SIGNAL => "BLOCK_SIGNAL" | ALLOW_SIGNAL => "ALLOW_SIGNAL" end.

Inductive PublishTopicEnum := TOPIC_SIGNAL | TOPIC_ADMIN | TOPIC_TRADE | TOPIC_SYSTEM.

Definition topic_value (t : PublishTopicEnum) : string :=
  match t with
  | TOPIC_SIGNAL => "SIGNAL" | TOPIC_ADMIN => "ADMIN" | TOPIC_TRADE => "TRADE" | TOPIC_SYSTEM => "SYSTEM"
  end.
