(* ===== verification/Schemas.v ===== *)
(** * Payload schemas

    The pydantic models of [schemas/webhook_schema.py],
    [schemas/publisher_schema.py] and [schemas/trade_event_schema.py] as
    records, the two validators the webhook schema defines itself, and the uxid
    helper they call.

    Pydantic (field coercion, [Model( **raw )], [model_dump_json]) is
    third-party code: the class [Pydantic] carries the three entry points the
    code uses. *)

From S2P Require Import Prelude PyStr Uuid PyTime Json Enums.
From Stdlib Require Import Ascii.

(** ** uxid_helper.py *)
Definition UXID_LENGTH : nat := 16.

Definition is_uxid_char (c : ascii) : bool :=
  let n := N_of_ascii c in
  ((48 <=? n)%N && (n <=? 57)%N) || ((65 <=? n)%N && (n <=? 70)%N).

(** [new_uxid()]; [u] is the uuid4 it draws. *)
Definition new_uxid (u : uuid) : string := upper (take_str UXID_LENGTH (uuid_hex u)).

Definition is_valid_uxid (value : string) : bool :=
  (String.length value =? UXID_LENGTH) && forallb is_uxid_char (chars value).

(** ** webhook_schema.py *)
Record ScalingSchema := {
  sc_tp : option float;
  sc_sl : option float;
  sc_quantity : option float
}.

Record PositionSchema := {
  p_action : SignalActionEnum;
  p_price : option float;
  p_quantity : option float;
  p_sl : option float;
  p_tp1 : option float;
  p_tp2 : option float;
  p_risk_percent : option float;
  p_tp1_percent : option float;
  p_use_equity_sizing : option bool;
  p_move_sl_to_be : option bool;
  p_is_running : option bool;
  p_is_scale_position : option bool;
  p_scale_strategy : option string;
  p_scaling : option ScalingSchema
}.

(** [ix_extra] holds the members the schema does not name ([extra="allow"]). *)
Record IndicatorsSchema := {
  ix_wt1 : option float;
  ix_wt2 : option float;
  ix_close : option float;
  ix_upper : option float;
  ix_lower : option float;
  ix_basis : option float;
  ix_ema200_visual : option float;
  ix_ema200_filter : option float;
  ix_atr_val : option float;
  ix_in_session : option bool;
  ix_vol_spike : option bool;
  ix_in_cooldown : option bool;
  ix_sl_too_wide : option bool;
  ix_extra : list (string * json)
}.

Record InputsSchema := {
  in_watching_candles : option Z;
  in_over_wt_value : option Z;
  in_safe_wt_value : option Z;
  in_use_session : option bool;
  in_skip_windows : option (list string);
  in_bb_len : option Z;
  in_bb_mult : option float;
  in_show_imb : option bool;
  in_atr_len : option Z;
  in_atr_sl_mult : option float;
  in_min_rr_ratio : option float;
  in_risk_percent : option float;
  in_tp1_qty_pc : option float;
  in_use_max_sl_dist : option bool;
  in_max_sl_distance : option Z;
  in_vol_spike_mult : option float;
  in_vol_spike_lookback : option Z;
  in_use_vol_filter : option bool;
  in_ema_visual_tf : option string;
  in_ema_filter_tf : option string;
  in_use_cooldown : option bool;
  in_cooldown_bars : option Z;
  in_extra : list (string * json)
}.

(** [InputsSchema._coerce_skip_windows]. *)
Definition coerce_skip_windows (value : json) : json :=
  match value with
  | JStr s =>
      let window := strip s in
      if is_empty window then JList [] else JList [JStr window]
  | v => v
  end.

Record WebhookPayload := {
  w_strategy : string;
  w_symbol : string;
  w_timeframe : string;
  w_timestamp : datetime;
  w_signal_uxid : string;
  w_position : PositionSchema;
  w_indicators : option IndicatorsSchema;
  w_inputs : option InputsSchema;
  w_token : string
}.

Section uxid_validator.
(** [str(v)] of a decoded value that is neither text nor an integer. *)
Variable py_repr : json -> string.

Definition py_str (v : json) : string :=
  match v with JStr s => s | JInt z => str_int z | v => py_repr v end.

(** [WebhookPayload._fill_or_validate_uxid]; [None] is its [ValueError].
    [fresh] is the uuid4 drawn when the payload names no cycle. *)
Definition fill_or_validate_uxid (fresh : uuid) (value : json) : option string :=
  match value with
  | JNull => Some (new_uxid fresh)
  | _ =>
      let text := strip (py_str value) in
      if is_empty text then Some (new_uxid fresh)
      else
        let normalised := upper text in
        if is_valid_uxid normalised then Some normalised else None
  end.
End uxid_validator.

(** ** publisher_schema.py *)
Record TradingSignal := {
  ts_signal_id : string;
  ts_signal_uxid : option string;
  ts_timestamp : instant;
  ts_strategy : string;
  ts_action : SignalActionEnum;
  ts_symbol : string;
  ts_price : float;
  ts_quantity : float;
  ts_sl : option float;
  ts_tp1 : option float;
  ts_tp2 : option float;
  ts_tp1_percent : option float;
  ts_move_sl_to_be : option bool;
  ts_is_running : option bool;
  ts_risk_percent : option float;
  ts_use_equity_sizing : option bool;
  ts_is_scale_position : option bool;
  ts_scale_strategy : option string;
  ts_scaling : option ScalingSchema
}.

(** [AdminSignal]; its validator is in the publisher. *)
Record AdminSignal := {
  ad_action : AdminActionEnum;
  ad_timestamp : instant;
  ad_strategy : option string;
  ad_symbol : option string;
  ad_account_id : option string;
  ad_market : option MarketTypeEnum;
  ad_gateway : option string;
  ad_ref_id : option string
}.

(** [AccountSettings] ([schemas/account_schema.py]). *)
Record AccountSettings := {
  as_signal_blocked : bool;
  as_max_open_orders : option Z
}.

Record CryptoLeverageConfig := {
  cl_symbols : list string;
  cl_default_leverage : Z
}.

Record SystemWorkerConnectedSignal := {
  wc_account_id : string;
  wc_market : MarketTypeEnum;
  wc_gateway : string;
  wc_strategies : list string
}.

(** The outbound subclasses of [SystemSignal], without their timestamps. *)
Inductive SystemSignal :=
| SystemWorkerConnectedAck (account_id : string) (strategy_magic_map : list (string * Z))
    (retry_signals : list TradingSignal) (settings : AccountSettings)
    (crypto_leverage_init : option CryptoLeverageConfig)
| SystemWorkerConnectedError (account_id : option string) (reason : string)
| SystemWorkerSettingsUpdateSignal (account_id : string) (settings : AccountSettings)
| SystemCryptoLeverageInitSignal (account_id : string) (symbols : option (list string))
    (default_leverage : option Z).

(** ** trade_event_schema.py *)
Record PositionEvent := {
  ev_event : PositionEventType;
  ev_market : MarketTypeEnum;
  ev_strategy : string;
  ev_strategy_code : option string;
  ev_id : Z;
  ev_signal_id : option string;
  ev_ref_source_id : string;
  ev_ref_id : string;
  ev_symbol : string;
  ev_action : string;
  ev_volume : float;
  ev_sl : option float;
  ev_tp1 : option float;
  ev_tp2 : option float;
  ev_risk_percent : float;
  ev_opened_price : float;
  ev_closed_price : option float;
  ev_status : string;
  ev_reject_reason : option string;
  ev_gateway_return_code : option Z;
  ev_comment : option string;
  ev_message : option string;
  ev_created_at : option string;
  ev_updated_at : option string;
  ev_sync_status : option string;
  ev_sync_time : option string;
  ev_account_leverage : option Z;
  ev_account_balance : option float;
  ev_account_id : string;
  ev_account_name : option string;
  ev_gateway : option string
}.

(** ** Pydantic, as the code uses it *)
Class Pydantic := {
  (** [WebhookPayload( **raw )]; [None] is [ValidationError]. *)
  validate_webhook : list (string * json) -> option WebhookPayload;
  (** [json.loads(m.model_dump_json())]. *)
  dump_webhook : WebhookPayload -> json;
  dump_indicators : IndicatorsSchema -> json;
  dump_inputs : InputsSchema -> json;
  (** The constructor call of [TradingSignal]; [Some] is its error text. *)
  reject_signal : TradingSignal -> option string;
  (** [PositionEvent( **data )]. *)
  validate_position_event : list (string * json) -> option PositionEvent
}.

(** ** Facts *)
Lemma hex_char_upper d : (d < 16)%N -> is_uxid_char (upper_char (hex_char d)) = true.
Proof. revert d. apply hex_char_all. repeat constructor. Qed.

Lemma take_str_hex n m z :
  take_str n (hex_fixed (n + m) z) = hex_fixed n (z / 16 ^ N.of_nat m).
Proof.
  rewrite <-hex_fixed_app. unfold take_str.
  generalize (hex_fixed_length n (z / 16 ^ N.of_nat m)).
  generalize (hex_fixed n (z / 16 ^ N.of_nat m)). intros s. generalize (hex_fixed m z). intros t.
  revert n. induction s as [|c s IH]; intros n <-; simpl; [by destruct t|]. by rewrite IH.
Qed.

Lemma length_str_map f s : String.length (str_map f s) = String.length s.
Proof. induction s; simpl; congruence. Qed.

Lemma new_uxid_valid u : is_valid_uxid (new_uxid u) = true.
Proof.
  unfold is_valid_uxid, new_uxid, uuid_hex, UXID_LENGTH, upper.
  rewrite (take_str_hex 16 16), length_str_map, hex_fixed_length.
  simpl (16 =? 16). rewrite andb_true_l.
  pose proof (hex_fixed_chars 16 (u_int u / 16 ^ N.of_nat 16)) as HF. revert HF.
  generalize (hex_fixed 16 (u_int u / 16 ^ N.of_nat 16)). intros s.
  induction s as [|c s IH]; csimpl; [done|]. intros HF. inversion_clear HF.
  destruct H as (d & Hd & ->). rewrite hex_char_upper, IH by done. done.
Qed.
