(* ===== verification/Models.v ===== *)
(** * Tables

    The ORM models of [db/models.py] as row records, and the database as the
    lists of its rows.  A column keeps the value the code assigned
    ([Numeric] rounding and column widths are Postgres' own); [updatedAt] is
    kept only where a query reads it. *)

From S2P Require Import Prelude PyStr Uuid PyTime Json Enums Schemas.

(** ** Signals *)
Record Signal := {
  sg_id : uuid;
  sg_createdAt : instant;
  sg_strategy : string;
  sg_symbol : string;
  sg_timeframe : string;
  sg_timestamp : datetime;
  sg_signal_uxid : option string;
  sg_action : SignalActionEnum;
  sg_price : float;
  sg_quantity : float;
  sg_sl : option float;
  sg_tp1 : option float;
  sg_tp2 : option float;
  sg_is_running : bool;
  sg_risk_percent : float;
  sg_is_scale_position : bool;
  sg_scale_strategy : option string;
  sg_status : SignalStatusEnum;
  sg_attempts : Z;
  sg_last_attempt : option instant;
  sg_delivery_key : option string;
  sg_indicators : json;
  sg_inputs : json;
  sg_raw : json
}.

(** Assigns the delivery state of a row, the only columns the code updates. *)
Definition sg_set_delivery (status : SignalStatusEnum) (attempts : Z)
    (last_attempt : option instant) (r : Signal) : Signal :=
  {| sg_id := sg_id r; sg_createdAt := sg_createdAt r; sg_strategy := sg_strategy r;
     sg_symbol := sg_symbol r; sg_timeframe := sg_timeframe r; sg_timestamp := sg_timestamp r;
     sg_signal_uxid := sg_signal_uxid r; sg_action := sg_action r; sg_price := sg_price r;
     sg_quantity := sg_quantity r; sg_sl := sg_sl r; sg_tp1 := sg_tp1 r; sg_tp2 := sg_tp2 r;
     sg_is_running := sg_is_running r; sg_risk_percent := sg_risk_percent r;
     sg_is_scale_position := sg_is_scale_position r; sg_scale_strategy := sg_scale_strategy r;
     sg_status := status; sg_attempts := attempts; sg_last_attempt := last_attempt;
     sg_delivery_key := sg_delivery_key r; sg_indicators := sg_indicators r;
     sg_inputs := sg_inputs r; sg_raw := sg_raw r |}.

(** ** Settings *)
Record BrokerSetting := {
  bs_id : uuid;
  bs_key : string;
  bs_value : string
}.

(** ** Broadcast cycles *)
Record BroadcastMessage := {
  bm_id : uuid;
  bm_strategy : string;
  bm_signal_uxid : string;
  bm_symbol : string;
  bm_timeframe : option string;
  bm_actions : string;
  bm_latest_action : SignalActionEnum;
  bm_status : BroadcastStatusEnum;
  bm_events : list json;
  bm_last_seq : Z;
  bm_last_broadcast_at : option instant
}.

Record BroadcastMessageChat := {
  bc_id : uuid;
  bc_createdAt : instant;
  bc_broadcast_message_id : uuid;
  bc_audience : BroadcastAudienceEnum;
  bc_chat_id : string;
  bc_message_id : option string;
  bc_message : option string;
  bc_delivered_seq : Z;
  bc_notified_event_count : option Z;
  bc_last_error : option string
}.

Record BroadcastMessageWorker := {
  bw_id : uuid;
  bw_createdAt : instant;
  bw_broadcast_message_id : uuid;
  bw_worker_id : string;
  bw_account_id : string;
  bw_market : option MarketTypeEnum;
  bw_gateway : option string;
  bw_latest_status : TradeStatusEnum;
  bw_latest_action : option string;
  bw_reject_reason : option string;
  bw_last_event_at : option instant
}.

Record BroadcastMessageLog := {
  bl_id : uuid;
  bl_updatedAt : instant;
  bl_broadcast_message_id : uuid;
  bl_seq : Z;
  bl_kind : BroadcastLogKindEnum;
  bl_payload : json;
  bl_status : BroadcastLogStatusEnum;
  bl_attempts : Z;
  bl_last_error : option string;
  bl_delivered_at : option instant
}.

(** ** Trades and accounts

    The [Numeric] columns of a trade hold the numbers that were reported; PostgreSQL
    rounds them to eight decimals, or to four, which is not modelled. *)
Record Trade := {
  tr_id : uuid;
  tr_account_id : string;
  tr_market : option MarketTypeEnum;
  tr_gateway : option string;
  tr_account_leverage : option Z;
  tr_account_balance_init : option float;
  tr_account_balance : option float;
  tr_strategy : string;
  tr_strategy_code : string;
  tr_ref_id : option string;
  tr_symbol : string;
  tr_action : SignalActionEnum;
  tr_price : float;
  tr_quantity : float;
  tr_sl : option float;
  tr_tp1 : option float;
  tr_tp2 : option float;
  tr_is_running : bool;
  tr_risk_percent : float;
  tr_comment : option string;
  tr_gateway_return_code : option Z;
  tr_status : TradeStatusEnum;
  tr_last_action : option string;
  tr_reject_reason : option string
}.

Record Account := {
  ac_id : uuid;
  ac_createdAt : instant;
  ac_account_id : string;
  ac_account_name : option string;
  ac_account_balance : option float;
  ac_market : MarketTypeEnum;
  ac_gateway : option string;
  ac_last_activity_at : option instant;
  ac_settings : list (string * json)
}.

(** ** Bot links, invite tokens, sessions and trade cards *)
Record AccountBotLink := {
  al_id : uuid;
  al_createdAt : instant;
  al_account_id : uuid;
  al_platform : BotPlatformTypeEnum;
  al_platform_user_id : string;
  al_trade_cards_enabled : bool
}.

Record AccountLinkToken := {
  lt_id : uuid;
  lt_createdAt : instant;
  lt_account_id : uuid;
  lt_token : uuid;
  lt_expires_at : option instant;
  lt_revoked_at : option instant;
  lt_last_used_at : option instant
}.

Record BotSession := {
  bo_id : uuid;
  bo_platform : BotPlatformTypeEnum;
  bo_platform_user_id : string;
  bo_active_account_id : option uuid
}.

Record TradeNotification := {
  tn_id : uuid;
  tn_trade_id : uuid;
  tn_platform : BotPlatformTypeEnum;
  tn_chat_id : string;
  tn_message_id : Z;
  tn_status : TradeStatusEnum
}.

(** ** The database *)
Record Db := mk_db {
  signals : list Signal;
  broker_settings : list BrokerSetting;
  broadcast_messages : list BroadcastMessage;
  broadcast_message_chats : list BroadcastMessageChat;
  broadcast_message_workers : list BroadcastMessageWorker;
  broadcast_message_logs : list BroadcastMessageLog;
  trades : list Trade;
  accounts : list Account;
  account_bot_links : list AccountBotLink;
  account_link_tokens : list AccountLinkToken;
  bot_sessions : list BotSession;
  trade_notifications : list TradeNotification
}.

Definition empty_db : Db := mk_db [] [] [] [] [] [] [] [] [] [] [] [].

Definition set_signals (t : list Signal) (d : Db) : Db :=
  mk_db t (broker_settings d) (broadcast_messages d) (broadcast_message_chats d) (broadcast_message_workers d) (broadcast_message_logs d)
    (trades d) (accounts d) (account_bot_links d) (account_link_tokens d) (bot_sessions d) (trade_notifications d).

Definition set_broker_settings (t : list BrokerSetting) (d : Db) : Db :=
  mk_db (signals d) t (broadcast_messages d) (broadcast_message_chats d) (broadcast_message_workers d) (broadcast_message_logs d)
    (trades d) (accounts d) (account_bot_links d) (account_link_tokens d) (bot_sessions d) (trade_notifications d).

Definition set_messages (t : list BroadcastMessage) (d : Db) : Db :=
  mk_db (signals d) (broker_settings d) t (broadcast_message_chats d) (broadcast_message_workers d) (broadcast_message_logs d)
    (trades d) (accounts d) (account_bot_links d) (account_link_tokens d) (bot_sessions d) (trade_notifications d).

Definition set_chats (t : list BroadcastMessageChat) (d : Db) : Db :=
  mk_db (signals d) (broker_settings d) (broadcast_messages d) t (broadcast_message_workers d) (broadcast_message_logs d)
    (trades d) (accounts d) (account_bot_links d) (account_link_tokens d) (bot_sessions d) (trade_notifications d).

Definition set_workers (t : list BroadcastMessageWorker) (d : Db) : Db :=
  mk_db (signals d) (broker_settings d) (broadcast_messages d) (broadcast_message_chats d) t (broadcast_message_logs d)
    (trades d) (accounts d) (account_bot_links d) (account_link_tokens d) (bot_sessions d) (trade_notifications d).

Definition set_logs (t : list BroadcastMessageLog) (d : Db) : Db :=
  mk_db (signals d) (broker_settings d) (broadcast_messages d) (broadcast_message_chats d) (broadcast_message_workers d) t
    (trades d) (accounts d) (account_bot_links d) (account_link_tokens d) (bot_sessions d) (trade_notifications d).

Definition set_trades (t : list Trade) (d : Db) : Db :=
  mk_db (signals d) (broker_settings d) (broadcast_messages d) (broadcast_message_chats d) (broadcast_message_workers d) (broadcast_message_logs d)
    t (accounts d) (account_bot_links d) (account_link_tokens d) (bot_sessions d) (trade_notifications d).

Definition set_accounts (t : list Account) (d : Db) : Db :=
  mk_db (signals d) (broker_settings d) (broadcast_messages d) (broadcast_message_chats d) (broadcast_message_workers d) (broadcast_message_logs d)
    (trades d) t (account_bot_links d) (account_link_tokens d) (bot_sessions d) (trade_notifications d).

Definition set_links (t : list AccountBotLink) (d : Db) : Db :=
  mk_db (signals d) (broker_settings d) (broadcast_messages d) (broadcast_message_chats d) (broadcast_message_workers d) (broadcast_message_logs d)
    (trades d) (accounts d) t (account_link_tokens d) (bot_sessions d) (trade_notifications d).

Definition set_link_tokens (t : list AccountLinkToken) (d : Db) : Db :=
  mk_db (signals d) (broker_settings d) (broadcast_messages d) (broadcast_message_chats d) (broadcast_message_workers d) (broadcast_message_logs d)
    (trades d) (accounts d) (account_bot_links d) t (bot_sessions d) (trade_notifications d).

Definition set_sessions (t : list BotSession) (d : Db) : Db :=
  mk_db (signals d) (broker_settings d) (broadcast_messages d) (broadcast_message_chats d) (broadcast_message_workers d) (broadcast_message_logs d)
    (trades d) (accounts d) (account_bot_links d) (account_link_tokens d) t (trade_notifications d).

Definition set_notifications (t : list TradeNotification) (d : Db) : Db :=
  mk_db (signals d) (broker_settings d) (broadcast_messages d) (broadcast_message_chats d) (broadcast_message_workers d) (broadcast_message_logs d)
    (trades d) (accounts d) (account_bot_links d) (account_link_tokens d) (bot_sessions d) t.

(** ** Unique constraints

    [insert_unique] is the [INSERT] of a row into a table with unique columns;
    [None] is the [IntegrityError] a duplicate raises. *)
Section inserts.
Context {row : Type}.

Definition insert_unique (clash : row -> row -> bool) (r : row) (t : list row)
    : option (list row) :=
  if existsb (clash r) t then None else Some (t ++ [r]).

Lemma insert_unique_Some clash r t t' :
  insert_unique clash r t = Some t' ->
  t' = t ++ [r] /\ Forall (fun r' => clash r r' = false) t.
Proof.
  unfold insert_unique. destruct (existsb (clash r) t) eqn:E; [done|]. intros [= <-].
  split; [done|]. apply Forall_forall. intros x Hx.
  destruct (clash r x) eqn:Ex; [|done].
  assert (existsb (clash r) t = true) as H; [|congruence].
  apply existsb_exists. exists x. split; [by apply list_elem_of_In|done].
Qed.

Lemma insert_unique_None clash r t :
  insert_unique clash r t = None <-> exists r', r' ∈ t /\ clash r r' = true.
Proof.
  unfold insert_unique. destruct (existsb (clash r) t) eqn:E; split; try done.
  - intros _. apply existsb_exists in E as (x & Hx & ?). exists x.
    by rewrite list_elem_of_In.
  - intros (r' & Hin & Hc). exfalso.
    assert (existsb (clash r) t = true) as H; [|congruence].
    apply existsb_exists. exists r'. by rewrite <-list_elem_of_In.
Qed.
End inserts.

Definition opt_eqb {A} `{EqDecision A} (x y : option A) : bool :=
  match x, y with Some a, Some b => bool_decide (a = b) | _, _ => false end.

(** Primary key, and [uq_signals_delivery_key]. *)
Definition signal_clash (r r' : Signal) : bool :=
  bool_decide (sg_id r = sg_id r') || opt_eqb (sg_delivery_key r) (sg_delivery_key r').

(** Primary key, and [uq_broker_settings_key]. *)
Definition setting_clash (r r' : BrokerSetting) : bool :=
  bool_decide (bs_id r = bs_id r') || bool_decide (bs_key r = bs_key r').

(** Primary key, and the cycle key [(symbol, strategy, signal_uxid)]. *)
Definition message_clash (r r' : BroadcastMessage) : bool :=
  bool_decide (bm_id r = bm_id r') ||
  bool_decide ((bm_symbol r, bm_strategy r, bm_signal_uxid r) =
               (bm_symbol r', bm_strategy r', bm_signal_uxid r')).

(** Primary key, and [(broadcast_message_id, chat_id)]. *)
Definition chat_clash (r r' : BroadcastMessageChat) : bool :=
  bool_decide (bc_id r = bc_id r') ||
  bool_decide ((bc_broadcast_message_id r, bc_chat_id r) =
               (bc_broadcast_message_id r', bc_chat_id r')).

(** Primary key, and [(broadcast_message_id, worker_id)]. *)
Definition worker_clash (r r' : BroadcastMessageWorker) : bool :=
  bool_decide (bw_id r = bw_id r') ||
  bool_decide ((bw_broadcast_message_id r, bw_worker_id r) =
               (bw_broadcast_message_id r', bw_worker_id r')).

(** Primary key, and [(broadcast_message_id, seq)]. *)
Definition log_clash (r r' : BroadcastMessageLog) : bool :=
  bool_decide (bl_id r = bl_id r') ||
  bool_decide ((bl_broadcast_message_id r, bl_seq r) =
               (bl_broadcast_message_id r', bl_seq r')).

(** Equality of two nullable key columns as [UNIQUE] sees it: [NULL]s differ. *)
Definition null_eqb {A} `{EqDecision A} (x y : option A) : bool := opt_eqb x y.

(** Primary key, and [uq_trades_market_gateway_account_ref]. *)
Definition trade_clash (r r' : Trade) : bool :=
  bool_decide (tr_id r = tr_id r') ||
  (null_eqb (tr_market r) (tr_market r') && null_eqb (tr_gateway r) (tr_gateway r') &&
   bool_decide (tr_account_id r = tr_account_id r') &&
   null_eqb (tr_ref_id r) (tr_ref_id r')).

(** Primary key, and [uq_accounts_market_gateway_account_id]. *)
Definition account_clash (r r' : Account) : bool :=
  bool_decide (ac_id r = ac_id r') ||
  (bool_decide (ac_market r = ac_market r') && null_eqb (ac_gateway r) (ac_gateway r') &&
   bool_decide (ac_account_id r = ac_account_id r')).

(** Primary key, and [uq_account_bot_links_platform_user_account]. *)
Definition link_clash (r r' : AccountBotLink) : bool :=
  bool_decide (al_id r = al_id r') ||
  bool_decide ((al_platform r, al_platform_user_id r, al_account_id r) =
               (al_platform r', al_platform_user_id r', al_account_id r')).

(** Primary key, and the unique [token]. *)
Definition token_clash (r r' : AccountLinkToken) : bool :=
  bool_decide (lt_id r = lt_id r') || bool_decide (lt_token r = lt_token r').

(** Primary key, and [uq_bot_sessions_platform_user]. *)
Definition session_clash (r r' : BotSession) : bool :=
  bool_decide (bo_id r = bo_id r') ||
  bool_decide ((bo_platform r, bo_platform_user_id r) = (bo_platform r', bo_platform_user_id r')).

(** Primary key, and [uq_trade_notifications_trade_platform_chat]. *)
Definition notification_clash (r r' : TradeNotification) : bool :=
  bool_decide (tn_id r = tn_id r') ||
  (bool_decide (tn_trade_id r = tn_trade_id r') && bool_decide (tn_platform r = tn_platform r') &&
   bool_decide (tn_chat_id r = tn_chat_id r')).

Lemma opt_eqb_true {A} `{EqDecision A} (x y : option A) :
  opt_eqb x y = true <-> exists a, x = Some a /\ y = Some a.
Proof.
  destruct x as [a|], y as [b|]; simpl; split; try naive_solver.
  - intros ->%bool_decide_eq_true. eauto.
  - intros (c & [= ->] & [= ->]). by apply bool_decide_eq_true.
Qed.

(** ** An account as the API answers it *)

(** [AccountResponse]: the row's own columns and the summary joined in. *)
Record AccountResponse := {
  rs_account : Account;
  rs_link_token : option uuid;
  rs_linked_user_ids : list string
}.
