(* ===== verification/ChatTargets.v ===== *)
(** * Telegram destinations

    [ChatTarget], [parse_chat_targets] ([services/notification_service.py]) and
    the raw-entry bookkeeping the broadcast dispatcher keeps on top of it
    ([_parse], [_raw_id] of [services/broadcast_service.py]). *)

From S2P Require Import Prelude PyStr.
From Stdlib Require Import Ascii.

Record ChatTarget := mk_target {
  ct_chat_id : string;
  ct_message_thread_id : option Z
}.

#[global] Instance target_eq_dec : EqDecision ChatTarget.
Proof. solve_decision. Defined.

Definition is_digit (c : ascii) : bool :=
  let n := N_of_ascii c in (48 <=? n)%N && (n <=? 57)%N.

Definition all_digits (s : string) : bool := negb (is_empty s) && forallb is_digit (chars s).

(** [_CHAT_TOPIC_RE.fullmatch(spec)]: ["-?\d+_\d+"], as the two groups. *)
Definition match_chat_topic (spec : string) : option (string * string) :=
  match split "_" spec with
  | [chat; topic] =>
      let number := removeprefix chat "-" in
      if all_digits number && all_digits topic then Some (chat, topic) else None
  | _ => None
  end.

(** One entry of the setting. *)
Definition target_of (spec : string) : ChatTarget :=
  match match_chat_topic spec with
  | Some (chat, topic) => mk_target chat (py_int 10 topic)
  | None => mk_target spec None
  end.

Definition parse_chat_targets (raw : option string) : list ChatTarget :=
  match raw with
  | None => []
  | Some raw =>
      if is_empty raw then []
      else
        fold_left (fun targets spec =>
          let spec := strip spec in
          if is_empty spec then targets
          else
            let target := target_of spec in
            if bool_decide (target ∈ targets) then targets else targets ++ [target])
        (split "," raw) []
  end.

(** [_raw_id(chat)]. *)
Definition raw_id (chat : ChatTarget) : string :=
  match ct_message_thread_id chat with
  | None => ct_chat_id chat
  | Some topic => ct_chat_id chat +:+ "_" +:+ str_int topic
  end.

(** [_parse(raw)], on the entries the setting holds. *)
Definition parse_entries (entries : list string) : list (string * ChatTarget) :=
  fold_left (fun pairs entry =>
    let entry := strip entry in
    if is_empty entry || existsb (fun p => String.eqb p.1 entry) pairs then pairs
    else match parse_chat_targets (Some entry) with
         | [] => pairs
         | chat :: _ => pairs ++ [(entry, chat)]
         end)
  entries [].

(** A comma-separated setting ([None] or [""]: no entries). *)
Definition parse_raw (raw : option string) : list (string * ChatTarget) :=
  match raw with
  | None => []
  | Some raw => if is_empty raw then [] else parse_entries (split "," raw)
  end.
