(* ===== verification/BotState.v ===== *)
(** * What the Telegram bot keeps

    The bot ([src/bot/app]) is a second process.  It keeps, per chat and user, the
    state of a conversation ([states.py], aiogram's [MemoryStorage]) and the command
    menus it applied ([services/menu.py]); everything else it asks the broker over
    HTTP.  This file has the types of that state and of what the bot does to
    Telegram. *)

From S2P Require Import Prelude PyStr Uuid PyTime Json Enums Schemas Models.
From stdpp Require Import gmap.

(** ** Conversations *)

(** The states of [states.py]. *)
Inductive BotFsm :=
| LinkAccount_waiting_for_token
| CreateAccount_waiting_for_account_id
| AdminLinkAccount_waiting_for_telegram_id
| SetStrategyMagicMap_waiting_for_value
| AdminCryptoAllowedSymbol_waiting_for_symbols
| AdminCryptoMaxLeverage_waiting_for_leverage
| SetMaxOpenOrders_waiting_for_value
| AdminMaxOpenOrders_waiting_for_value
| AdminPublicBroadcastChats_waiting_for_chat_ids.

#[global] Instance bot_fsm_eq_dec : EqDecision BotFsm.
Proof. solve_decision. Defined.

(** The scope an administrator's FLAT is being narrowed to ([aflat_scope]). *)
Record FlatScope := {
  sc_strategy : option string;
  sc_market : option string;
  sc_gateway : option string
}.

(** [aflat_target]: ["*"], or the account the FLAT is for. *)
Inductive FlatTarget :=
| FlatEverything
| FlatAccount (account : AccountResponse).

(** The keys the handlers keep in the conversation's data; a key that is absent and
    one that is [None] are read alike. *)
Record FsmData := {
  fd_account_id : option string;
  fd_aflat_target : option FlatTarget;
  fd_aflat_candidates : option (list AccountResponse);
  fd_aflat_strategies : option (list string);
  fd_aflat_scope : option FlatScope;
  fd_alink_account_uuid : option string;
  fd_market : option string;
  fd_gateway : option string
}.

Definition no_data : FsmData :=
  {| fd_account_id := None; fd_aflat_target := None; fd_aflat_candidates := None; fd_aflat_strategies := None;
     fd_aflat_scope := None; fd_alink_account_uuid := None; fd_market := None; fd_gateway := None |}.

Record FsmContext := {
  fs_state : option BotFsm;
  fs_data : FsmData
}.

Definition no_context : FsmContext := {| fs_state := None; fs_data := no_data |}.

(** ** What the bot does to Telegram *)
Record Button := { bt_text : string; bt_callback_data : string }.

(** [InlineKeyboardMarkup]: rows of buttons. *)
Definition Keyboard : Type := list (list Button).

Inductive bot_call :=
| AnswerMessage (chat_id : Z) (text : string) (reply_markup : option Keyboard)
| EditMessageText (chat_id : Z) (text : string) (reply_markup : option Keyboard)
| AnswerCallback (user_id : Z) (text : option string) (show_alert : bool)
| SetMyCommands (chat_id : option Z) (commands : list (string * string)).

(** What comes of one of them: done, the refusal of an edit that changes nothing, another
    error or no connection, or done with its answer lost, which the bot cannot tell
    from an error. *)
Inductive bot_api_result := ApiOk | ApiNotModified | ApiError | ApiLost.

(** What happens to the next request to the broker: it is answered, it never
    arrives, or it is handled and its answer is lost. *)
Inductive net_outcome := NetAnswered | NetDown | NetLost.

Record BotState := {
  bt_fsm : gmap (Z * Z) FsmContext;
  bt_applied : gmap Z (list string);
  bt_said : list (bot_call * bot_api_result);
  bt_net : list net_outcome;
  bt_api : list bot_api_result
}.

Definition bot0 : BotState :=
  {| bt_fsm := ∅; bt_applied := ∅; bt_said := []; bt_net := []; bt_api := [] |}.
