(* ===== verification/World.v ===== *)
(** * The world and its programs

    The broker's code is modelled as programs over one explicit [World]: the
    database, everything already sent to NATS and Telegram, the outcomes the
    environment still has in store, the uuids and the clock.  A program is a
    tree of atomic actions — one database session, one publish, one Bot API
    call — so the same definition can be executed ([run]), interleaved with
    other code between any two of its actions and crashed at any of them
    ([texec]). *)

From S2P Require Import Prelude PyStr Uuid PyTime Json Enums Schemas Models ChatTargets BotState.

(** ** Exceptions *)
Inductive exn : Type :=
| DbError
| IntegrityError
| NatsError
| RuntimeError (msg : string)
| SignalError (status_code : Z) (detail : string)
| SignalParseError (msg : string)
| ValidationError
| HTTPException (status_code : Z) (detail : string)
| TelegramAPIError
| ValueError
| TypeError
| ArithmeticError.

(** ** What leaves the process *)
Inductive settlement := Ack | Nak | Term | InProgress.

#[global] Instance settlement_eq_dec : EqDecision settlement.
Proof. solve_decision. Defined.

(** Answer of one Bot API call: an HTTP answer; a timeout or a connection that
    broke on a request already on the wire (it may have [landed]); any other
    exception. *)
Inductive tg_result :=
| TgAnswer (status : Z) (text : string) (message_id : option Z)
| TgNoAnswer (landed : bool)
| TgNoConnect.

Inductive tg_call :=
| TgSendMessage (target : ChatTarget) (text : string)
| TgReplyMessage (target : ChatTarget) (reply_to : string) (text : string)
| TgEditMessage (target : ChatTarget) (message_id : string) (text : string)
| TgSendCard (target : ChatTarget) (text : string) (reply_markup : option json)
| TgEditCard (target : ChatTarget) (message_id text : string) (reply_markup : option json).

Inductive sent : Type :=
| SentSignal (subject : string) (signal : TradingSignal)
| SentFlat (subject signal_id signal_uxid symbol : string) (timestamp : datetime)
| SentWebhook (subject : string) (envelope : json) (msg_id : string)
| SentNotice (text : string)
| SentAdmin (subject : string) (signal : AdminSignal)
| SentSystem (subject : string) (signal : SystemSignal)
| SentSettle (seq : Z) (how : settlement)
| SentTg (call : tg_call) (result : tg_result).

(** ** State *)

(** What the environment does to the next database commit or NATS call: it
    works; it fails and has no effect; it takes effect but its answer is lost,
    so the caller sees an error. *)
Inductive outcome := Done | Failed | Lost.

(** [_DeferredEnvelope]. *)
Record DeferredEnvelope := {
  de_strategy : string;
  de_envelope : json;
  de_msg_id : string;
  de_attempts : Z
}.

(** State of the [DeferredEnqueuer]: its queue and the envelope its loop holds. *)
Record DeferredQueue := {
  dq_queue : list DeferredEnvelope;
  dq_in_flight : option DeferredEnvelope
}.

(** The two cached settings of the [SystemEventConsumer], each with the instant
    it was read. *)
Record SystemCaches := {
  crypto_settings_cache : option (option string * option string);
  crypto_settings_cached_at : instant;
  magic_map_cache : option (list (string * Z));
  magic_map_cached_at : instant
}.

Definition no_caches : SystemCaches :=
  {| crypto_settings_cache := None; crypto_settings_cached_at := 0%Z;
     magic_map_cache := None; magic_map_cached_at := 0%Z |}.

Record World := mk_world {
  db : Db;
  out : list sent;
  sched : list outcome;
  tg : list tg_result;
  uuids : list uuid;
  now : instant;
  nats_up : bool;
  deferred : DeferredQueue;
  card_queue : list Trade;
  caches : SystemCaches;
  notices : list (string * option string);
  bot : BotState
}.

Definition world0 : World :=
  mk_world empty_db [] [] [] [] 0%Z true {| dq_queue := []; dq_in_flight := None |} [] no_caches [] bot0.

Definition set_db (d : Db) (w : World) : World :=
  mk_world d (out w) (sched w) (tg w) (uuids w) (now w) (nats_up w) (deferred w) (card_queue w) (caches w) (notices w) (bot w).
Definition set_sched (s : list outcome) (w : World) : World :=
  mk_world (db w) (out w) s (tg w) (uuids w) (now w) (nats_up w) (deferred w) (card_queue w) (caches w) (notices w) (bot w).
Definition set_tg (s : list tg_result) (w : World) : World :=
  mk_world (db w) (out w) (sched w) s (uuids w) (now w) (nats_up w) (deferred w) (card_queue w) (caches w) (notices w) (bot w).
Definition set_uuids (s : list uuid) (w : World) : World :=
  mk_world (db w) (out w) (sched w) (tg w) s (now w) (nats_up w) (deferred w) (card_queue w) (caches w) (notices w) (bot w).
Definition set_deferred (q : DeferredQueue) (w : World) : World :=
  mk_world (db w) (out w) (sched w) (tg w) (uuids w) (now w) (nats_up w) q (card_queue w) (caches w) (notices w) (bot w).
Definition set_card_queue (q : list Trade) (w : World) : World :=
  mk_world (db w) (out w) (sched w) (tg w) (uuids w) (now w) (nats_up w) (deferred w) q (caches w) (notices w) (bot w).
Definition set_caches (c : SystemCaches) (w : World) : World :=
  mk_world (db w) (out w) (sched w) (tg w) (uuids w) (now w) (nats_up w) (deferred w) (card_queue w) c (notices w) (bot w).
Definition set_notices (q : list (string * option string)) (w : World) : World :=
  mk_world (db w) (out w) (sched w) (tg w) (uuids w) (now w) (nats_up w) (deferred w) (card_queue w) (caches w) q (bot w).
Definition set_bot (b : BotState) (w : World) : World :=
  mk_world (db w) (out w) (sched w) (tg w) (uuids w) (now w) (nats_up w) (deferred w) (card_queue w) (caches w) (notices w) b.
Definition emit (e : sent) (w : World) : World :=
  mk_world (db w) (out w ++ [e]) (sched w) (tg w) (uuids w) (now w) (nats_up w) (deferred w) (card_queue w) (caches w) (notices w) (bot w).

(** ** Programs *)
Inductive prog (A : Type) : Type :=
| Ret (a : A)
| Raise (e : exn)
| Act {X : Type} (f : World -> res exn X * World) (k : res exn X -> prog A).
Arguments Ret {A} a.
Arguments Raise {A} e.
Arguments Act {A X} f k.

(** Lifts an action: its error is raised. *)
Definition act {A} (f : World -> res exn A * World) : prog A :=
  Act f (fun r => match r with Ok a => Ret a | Err e => Raise e end).

Fixpoint bind {A B} (p : prog A) (q : A -> prog B) : prog B :=
  match p with
  | Ret a => q a
  | Raise e => Raise e
  | Act f k => Act f (fun r => bind (k r) q)
  end.

(** [try: p except Exception as e: h(e)]. *)
Fixpoint catch {A} (p : prog A) (h : exn -> prog A) : prog A :=
  match p with
  | Ret a => Ret a
  | Raise e => h e
  | Act f k => Act f (fun r => catch (k r) h)
  end.

(** [try: ... except Exception as e: ... else: ...]: the result as a value. *)
Fixpoint attempt {A} (p : prog A) : prog (res exn A) :=
  match p with
  | Ret a => Ret (Ok a)
  | Raise e => Ret (Err e)
  | Act f k => Act f (fun r => attempt (k r))
  end.

Notation "'let!' x := p 'in' q" := (bind p (fun x => q))
  (at level 10, x name, p at level 99, q at level 200) : broker_scope.
Notation "'do!' p 'in' q" := (bind p (fun _ => q))
  (at level 10, p at level 99, q at level 200) : broker_scope.
Open Scope broker_scope.

(** [for x in l: body(x)]. *)
Fixpoint for_each {X} (l : list X) (body : X -> prog unit) : prog unit :=
  match l with
  | [] => Ret tt
  | x :: l' => do! body x in for_each l' body
  end.

(** The [list] built by appending [body(x)] in a loop. *)
Fixpoint for_collect {X Y} (l : list X) (body : X -> prog Y) : prog (list Y) :=
  match l with
  | [] => Ret []
  | x :: l' => let! y := body x in let! ys := for_collect l' body in Ret (y :: ys)
  end.

(** ** Execution *)
Fixpoint run {A} (p : prog A) (w : World) : res exn A * World :=
  match p with
  | Ret a => (Ok a, w)
  | Raise e => (Err e, w)
  | Act f k => let '(r, w') := f w in run (k r) w'
  end.

Lemma run_bind {A B} (p : prog A) (q : A -> prog B) w :
  run (bind p q) w =
  match run p w with (Ok a, w') => run (q a) w' | (Err e, w') => (Err e, w') end.
Proof.
  revert w. induction p as [a|e|X f k IH]; intros w; simpl; [done..|].
  destruct (f w) as [r w']. apply IH.
Qed.

Lemma run_catch {A} (p : prog A) h w :
  run (catch p h) w =
  match run p w with (Ok a, w') => (Ok a, w') | (Err e, w') => run (h e) w' end.
Proof.
  revert w. induction p as [a|e|X f k IH]; intros w; simpl; [done..|].
  destruct (f w) as [r w']. apply IH.
Qed.

Lemma run_attempt {A} (p : prog A) w :
  run (attempt p) w = let '(r, w') := run p w in (Ok r, w').
Proof.
  revert w. induction p as [a|e|X f k IH]; intros w; simpl; [done..|].
  destruct (f w) as [r w']. apply IH.
Qed.

Lemma run_act {A} (f : World -> res exn A * World) w : run (act f) w = f w.
Proof. unfold act. simpl. destruct (f w) as [[a|e] w']; done. Qed.

(** ** Atomic actions *)

(** Takes the environment's next decision; an empty schedule is all [Done]. *)
Definition next_outcome (w : World) : outcome * World :=
  match sched w with [] => (Done, w) | o :: s => (o, set_sched s w) end.

(** [async with get_session() as session: t]: the block commits as a whole or
    is rolled back ([db/engine.py], [get_session]).  [t] sees the clock and the
    database; its [Err] is an exception raised inside the block. *)
Definition session_step {A} (t : instant -> Db -> res exn (A * Db)) (w : World)
    : res exn A * World :=
  let '(o, w) := next_outcome w in
  match o with
  | Failed => (Err DbError, w)
  | Done => match t (now w) (db w) with
            | Ok (a, d) => (Ok a, set_db d w)
            | Err e => (Err e, w)
            end
  | Lost => match t (now w) (db w) with
            | Ok (_, d) => (Err DbError, set_db d w)
            | Err e => (Err e, w)
            end
  end.

Definition session {A} (t : instant -> Db -> res exn (A * Db)) : prog A :=
  act (session_step t).

(** A read-only block. *)
Definition query {A} (t : Db -> A) : prog A := session (fun _ d => Ok (t d, d)).

(** One NATS call that emits [e]. *)
Definition nats_step (e : sent) (w : World) : res exn unit * World :=
  let '(o, w) := next_outcome w in
  match o with
  | Failed => (Err NatsError, w)
  | Done => (Ok tt, emit e w)
  | Lost => (Err NatsError, emit e w)
  end.

Definition nats (e : sent) : prog unit := act (nats_step e).

(** One Bot API call. *)
Definition telegram (c : tg_call) : prog tg_result :=
  act (fun w =>
    let '(r, w) := match tg w with
                   | [] => (TgAnswer 200 EmptyString (Some (Z.of_nat (length (out w)))), w)
                   | r :: s => (r, set_tg s w)
                   end in
    (Ok r, emit (SentTg c r) w)).

(** [uuid.uuid4()]. *)
Definition uuid4 : prog uuid :=
  act (fun w =>
    match uuids w with
    | [] => (Ok (uid 0), w)
    | u :: s => (Ok u, set_uuids s w)
    end).

(** [datetime.now(timezone.utc)]. *)
Definition clock : prog instant := act (fun w => (Ok (now w), w)).

(** [self._conn.is_connected]. *)
Definition is_connected : prog bool := act (fun w => (Ok (nats_up w), w)).

(** Reads and writes of the in-memory backlog: synchronous code, so one action. *)
Definition with_deferred {A} (f : DeferredQueue -> A * DeferredQueue) : prog A :=
  act (fun w => let '(a, q) := f (deferred w) in (Ok a, set_deferred q w)).

(** Reads and writes of the queue of trade cards. *)
Definition with_cards {A} (f : list Trade -> A * list Trade) : prog A :=
  act (fun w => let '(a, q) := f (card_queue w) in (Ok a, set_card_queue q w)).

(** Reads and writes of the queue of operator notices. *)
Definition with_notices {A} (f : list (string * option string) -> A * list (string * option string)) : prog A :=
  act (fun w => let '(a, q) := f (notices w) in (Ok a, set_notices q w)).

(** Reads and writes of the bot's own state. *)
Definition with_bot {A} (f : BotState -> res exn A * BotState) : prog A :=
  act (fun w => let '(a, b) := f (bot w) in (a, set_bot b w)).

(** Reads and writes of the handshake's caches. *)
Definition with_caches {A} (f : SystemCaches -> A * SystemCaches) : prog A :=
  act (fun w => let '(a, c) := f (caches w) in (Ok a, set_caches c w)).

(** ** Interleaved and crashing executions

    [texec R p w evs w' o]: one thread runs [p] from [w] while the rest of the
    system takes steps in [R] between its actions; [evs] is what this thread
    itself sent.  [o] is its result, or [None] when the process died on the way. *)
Definition new_events (w w' : World) : list sent := drop (length (out w)) (out w').

Inductive texec {A} (R : relation World) :
    prog A -> World -> list sent -> World -> option (res exn A) -> Prop :=
| te_crash p w : texec R p w [] w None
| te_ret a w : texec R (Ret a) w [] w (Some (Ok a))
| te_raise e w : texec R (Raise e) w [] w (Some (Err e))
| te_act X (f : World -> res exn X * World) k w w1 r w2 evs w3 o :
    R w w1 -> f w1 = (r, w2) -> texec R (k r) w2 evs w3 o ->
    texec R (Act f k) w (new_events w1 w2 ++ evs) w3 o.

(** The events of a sequential run. *)
Fixpoint trace {A} (p : prog A) (w : World) : list sent :=
  match p with
  | Act f k => new_events w (f w).2 ++ trace (k (f w).1) (f w).2
  | _ => []
  end.

Lemma texec_run {A} (R : relation World) `{!Reflexive R} (p : prog A) w :
  texec R p w (trace p w) (run p w).2 (Some (run p w).1).
Proof.
  revert w. induction p as [a|e|X f k IH]; intros w; simpl; [constructor..|].
  specialize (IH (f w).1 (f w).2). destruct (f w) as [r w'] eqn:E. simpl in *.
  by eapply te_act.
Qed.

(** ** Rely and guarantee

    [wp R G p Q w]: run from [w] among environment steps [R], every action of
    [p] is a [G] step and its result satisfies [Q]. *)
Fixpoint wp {A} (R G : relation World) (p : prog A) (Q : res exn A -> World -> Prop)
    (w : World) : Prop :=
  match p with
  | Ret a => Q (Ok a) w
  | Raise e => Q (Err e) w
  | Act f k => forall w1, R w w1 -> G w1 (f w1).2 /\ wp R G (k (f w1).1) Q (f w1).2
  end.

Lemma wp_mono {A} (R G : relation World) (p : prog A) (Q Q' : res exn A -> World -> Prop) w :
  (forall r w', Q r w' -> Q' r w') -> wp R G p Q w -> wp R G p Q' w.
Proof.
  intros HQ. revert w. induction p as [a|e|X f k IH]; intros w; simpl; [apply HQ..|].
  intros H w1 HR. destruct (H w1 HR). split; [done|]. by apply IH.
Qed.

Lemma wp_bind {A B} (R G : relation World) (p : prog A) (q : A -> prog B) Q w :
  wp R G p (fun r w' => match r with Ok a => wp R G (q a) Q w' | Err e => Q (Err e) w' end) w ->
  wp R G (bind p q) Q w.
Proof.
  revert w. induction p as [a|e|X f k IH]; intros w; simpl; [done..|].
  intros H w1 HR. destruct (H w1 HR). split; [done|]. by apply IH.
Qed.

Lemma wp_catch {A} (R G : relation World) (p : prog A) h Q w :
  wp R G p (fun r w' => match r with Ok a => Q (Ok a) w' | Err e => wp R G (h e) Q w' end) w ->
  wp R G (catch p h) Q w.
Proof.
  revert w. induction p as [a|e|X f k IH]; intros w; simpl; [done..|].
  intros H w1 HR. destruct (H w1 HR). split; [done|]. by apply IH.
Qed.

Lemma wp_attempt {A} (R G : relation World) (p : prog A) Q w :
  wp R G p (fun r w' => Q (Ok r) w') w -> wp R G (attempt p) Q w.
Proof.
  revert w. induction p as [a|e|X f k IH]; intros w; simpl; [done..|].
  intros H w1 HR. destruct (H w1 HR). split; [done|]. by apply IH.
Qed.

Lemma wp_act {A} (R G : relation World) (f : World -> res exn A * World) Q w :
  (forall w1, R w w1 -> G w1 (f w1).2 /\ Q (f w1).1 (f w1).2) -> wp R G (act f) Q w.
Proof.
  intros H w1 HR. destruct (H w1 HR) as [HG HQ]. split; [done|].
  by destruct (f w1).1.
Qed.

(** Every action of the program is a [G] step, whatever the environment does. *)
Definition always {A} (G : relation World) (p : prog A) : Prop :=
  forall w, wp (fun _ _ => True) G p (fun _ _ => True) w.

Lemma always_wp {A} (R G : relation World) (p : prog A) w :
  always G p -> wp R G p (fun _ _ => True) w.
Proof.
  intros H. specialize (H w). revert w H.
  induction p as [a|e|X f k IH]; intros w; simpl; [done..|].
  intros H w1 _. destruct (H w1 I). split; [done|]. by apply IH.
Qed.

Lemma always_bind {A B} (G : relation World) (p : prog A) (q : A -> prog B) :
  always G p -> (forall a, always G (q a)) -> always G (bind p q).
Proof.
  intros Hp Hq w. apply wp_bind. eapply wp_mono; [|apply Hp].
  intros [a|e] w' _; [apply Hq|done].
Qed.

Lemma always_catch {A} (G : relation World) (p : prog A) h :
  always G p -> (forall e, always G (h e)) -> always G (catch p h).
Proof.
  intros Hp Hq w. apply wp_catch. eapply wp_mono; [|apply Hp].
  intros [a|e] w' _; [done|apply Hq].
Qed.

Lemma always_attempt {A} (G : relation World) (p : prog A) :
  always G p -> always G (attempt p).
Proof. intros Hp w. apply wp_attempt, Hp. Qed.

Lemma always_act {A} (G : relation World) (f : World -> res exn A * World) :
  (forall w, G w (f w).2) -> always G (act f).
Proof. intros H w. apply wp_act. auto. Qed.

Lemma always_for_each {X} (G : relation World) (l : list X) body :
  (forall x, always G (body x)) -> always G (for_each l body).
Proof.
  intros H. induction l as [|x l IH]; simpl; [done|]. apply always_bind; auto.
Qed.

Lemma always_for_collect {X Y} (G : relation World) (l : list X) (body : X -> prog Y) :
  (forall x, always G (body x)) -> always G (for_collect l body).
Proof.
  intros H. induction l as [|x l IH]; simpl; [done|].
  apply always_bind; [auto|]. intros y. by apply always_bind.
Qed.

Lemma always_mono {A} (G G' : relation World) (p : prog A) :
  (forall w w', G w w' -> G' w w') -> always G p -> always G' p.
Proof.
  intros HG H w. specialize (H w). revert w H.
  induction p as [a|e|X f k IH]; intros w; simpl; [done..|].
  intros H w1 HR. destruct (H w1 HR). split; [by apply HG|]. by apply IH.
Qed.

(** A preorder every action respects relates the ends of a sequential run. *)
Lemma always_run {A} (G : relation World) `{!PreOrder G} (p : prog A) w :
  always G p -> G w (run p w).2.
Proof.
  intros H. specialize (H w). revert w H.
  induction p as [a|e|X f k IH]; intros w; simpl; [done..|].
  intros H. destruct (H w I) as [HG Hw]. destruct (f w) as [r w'] eqn:E. simpl in *.
  transitivity w'; [done|]. by apply IH.
Qed.

(** A sequential run satisfies the postcondition of its [wp]. *)
Lemma wp_run {A} (R G : relation World) `{!Reflexive R} (p : prog A) Q w :
  wp R G p Q w -> Q (run p w).1 (run p w).2.
Proof.
  revert w. induction p as [a|e|X f k IH]; intros w; simpl; [done..|].
  intros H. destruct (H w) as [_ Hw]; [reflexivity|].
  destruct (f w) as [r w'] eqn:E. by apply IH.
Qed.

(** Safety alone ([Q] trivial), with a fact [I] that neither the environment nor
    the program's own steps destroy. *)
Abbreviation anything := (fun _ _ => True) (only parsing).

Definition stable (R : relation World) (I : World -> Prop) : Prop :=
  forall w w', R w w' -> I w -> I w'.

Lemma wp_frame {A} (R G : relation World) (I : World -> Prop) (p : prog A) Q w :
  stable R I -> stable G I -> I w -> wp R G p Q w -> wp R G p (fun r w' => Q r w' /\ I w') w.
Proof.
  intros HR HG. revert w. induction p as [a|e|X f k IH]; intros w HI; simpl; [done..|].
  intros H w1 Hw1. destruct (H w1 Hw1). split; [done|]. apply IH; [|done].
  by eapply HG, HR.
Qed.

Lemma safe_bind {A B} (R G : relation World) (I : World -> Prop) (p : prog A) (q : A -> prog B) w :
  stable R I -> stable G I -> I w -> wp R G p anything w ->
  (forall a w', I w' -> wp R G (q a) anything w') -> wp R G (bind p q) anything w.
Proof.
  intros HR HG HI Hp Hq. apply wp_bind.
  eapply wp_mono; [|by apply (wp_frame R G I p anything w HR HG HI)].
  intros [a|e] w' [_ HI']; [by apply Hq|done].
Qed.

Lemma safe_catch {A} (R G : relation World) (I : World -> Prop) (p : prog A) h w :
  stable R I -> stable G I -> I w -> wp R G p anything w ->
  (forall e w', I w' -> wp R G (h e) anything w') -> wp R G (catch p h) anything w.
Proof.
  intros HR HG HI Hp Hq. apply wp_catch.
  eapply wp_mono; [|by apply (wp_frame R G I p anything w HR HG HI)].
  intros [a|e] w' [_ HI']; [done|by apply Hq].
Qed.

(** ** Soundness for interleaved executions

    [P w e]: a fact about a sent event that later steps keep.  If every action
    sends only events satisfying [P], so does every interleaved or crashed
    execution. *)
Section soundness.
Context (R G : relation World) (P : World -> sent -> Prop).
Hypothesis R_stable : forall w w' e, R w w' -> P w e -> P w' e.
Hypothesis G_stable : forall w w' e, G w w' -> P w e -> P w' e.
Hypothesis G_sends : forall w w', G w w' -> Forall (P w') (new_events w w').

Lemma wp_stable {A} (p : prog A) w evs w' o e :
  texec R p w evs w' o -> forall Q, wp R G p Q w -> P w e -> P w' e.
Proof.
  induction 1 as [| | |X f k w w1 r w2 evs w3 o HR Hf _ IH]; [done..|].
  intros Q H HP. destruct (H w1 HR) as [HG Hk]. rewrite Hf in HG, Hk.
  eapply IH; eauto.
Qed.

Lemma wp_texec {A} (p : prog A) w evs w' o Q :
  texec R p w evs w' o -> wp R G p Q w ->
  Forall (P w') evs /\ (forall r, o = Some r -> Q r w').
Proof.
  intros H. revert Q. induction H as [| | |X f k w w1 r w2 evs w3 o HR Hf He IH]; intros Q.
  - done.
  - intros HQ. split; [done|]. by intros ? [= <-].
  - intros HQ. split; [done|]. by intros ? [= <-].
  - intros Hw. destruct (Hw w1 HR) as [HG Hk]. rewrite Hf in HG, Hk.
    destruct (IH _ Hk) as [Hev Ho]. split; [|done]. apply Forall_app. split; [|done].
    eapply Forall_impl; [by apply G_sends|]. intros e HP.
    by eapply wp_stable.
Qed.
End soundness.

(** An interleaved execution of steps of [G], among steps of [G]. *)
Lemma texec_always {A} (G : relation World) `{!PreOrder G} (p : prog A) w evs w' o :
  always G p -> texec G p w evs w' o -> G w w'.
Proof.
  intros Hp He. specialize (Hp w). revert Hp.
  induction He as [| | |X f k w w1 r w2 evs w3 o HR Hf _ IH]; intros Hp; try reflexivity.
  assert (wp (fun _ _ => True) G (Act f k) (fun _ _ => True) w) as H by exact Hp.
  destruct (H w1 I) as [HG Hk]. rewrite Hf in HG, Hk. transitivity w1; [done|].
  transitivity w2; [done|]. by apply IH.
Qed.

(** ** Simple steps *)
Lemma next_outcome_frame w :
  db (next_outcome w).2 = db w /\ out (next_outcome w).2 = out w /\
  now (next_outcome w).2 = now w /\ deferred (next_outcome w).2 = deferred w.
Proof. unfold next_outcome. by destruct (sched w). Qed.

Lemma session_cases {A} (t : instant -> Db -> res exn (A * Db)) w :
  let '(r, w') := session_step t w in
  out w' = out w /\ deferred w' = deferred w /\
  ((exists e, r = Err e /\ db w' = db w) \/
   (exists a d, t (now w) (db w) = Ok (a, d) /\ db w' = d /\ (r = Ok a \/ r = Err DbError))).
Proof.
  unfold session_step. destruct (next_outcome_frame w) as (Hd & Ho & Hn & Hq).
  destruct (next_outcome w) as [[| |] w1]; simpl in *; rewrite ?Hd, ?Hn.
  - destruct (t (now w) (db w)) as [[a d]|e]; simpl; rewrite ?Ho, ?Hq; eauto 10.
  - eauto 10.
  - destruct (t (now w) (db w)) as [[a d]|e]; simpl; rewrite ?Ho, ?Hq; eauto 10.
Qed.

(** A NATS call changes nothing but what was sent; one that answers has sent
    exactly its message. *)
Lemma nats_cases e w :
  let '(r, w') := nats_step e w in
  db w' = db w /\ deferred w' = deferred w /\ now w' = now w /\
  ((out w' = out w ++ [e] /\ (r = Ok tt \/ r = Err NatsError)) \/
   (out w' = out w /\ r = Err NatsError)).
Proof.
  unfold nats_step. destruct (next_outcome_frame w) as (Hd & Ho & Hn & Hq).
  destruct (next_outcome w) as [[| |] w1]; simpl in *; rewrite ?Hd, ?Hn, ?Ho, ?Hq; eauto 10.
Qed.

(** [session] preserves what every committed transaction preserves. *)
Lemma always_session {A} (G : relation World) (t : instant -> Db -> res exn (A * Db)) :
  (forall w w', out w' = out w -> deferred w' = deferred w -> db w' = db w -> G w w') ->
  (forall w w' a, out w' = out w -> deferred w' = deferred w ->
     t (now w) (db w) = Ok (a, db w') -> G w w') ->
  always G (session t).
Proof.
  intros Hsame Hok. apply always_act. intros w. pose proof (session_cases t w) as H.
  destruct (session_step t w) as [r w']. simpl.
  destruct H as (Ho & Hq & [(e & _ & Hd)|(a & d & Ht & <- & _)]); eauto.
Qed.

Lemma always_query {A} (G : relation World) (t : Db -> A) :
  (forall w w', out w' = out w -> deferred w' = deferred w -> db w' = db w -> G w w') ->
  always G (query t).
Proof. intros H. apply always_session; [done|]. intros w w' a ?? [= _ Hd]. by apply H. Qed.

Lemma run_query {A} (t : Db -> A) w :
  exists w', db w' = db w /\ out w' = out w /\ deferred w' = deferred w /\
  (run (query t) w = (Ok (t (db w)), w') \/ exists e, run (query t) w = (Err e, w')).
Proof.
  unfold query, session. rewrite run_act.
  pose proof (session_cases (fun _ d => Ok (t d, d)) w) as H.
  destruct (session_step _ w) as [r w']. destruct H as (Ho & Hq & H). exists w'.
  destruct H as [(e & -> & Hd)|(a & d & [= <- <-] & Hd & [->| ->])]; eauto 10.
Qed.

(** Reads of the uuid supply, the clock and the connection state. *)
Definition frame_ok (G : relation World) : Prop :=
  forall w w', out w' = out w -> deferred w' = deferred w -> db w' = db w -> G w w'.

Lemma always_uuid4 (G : relation World) : frame_ok G -> always G uuid4.
Proof. intros H. apply always_act. intros w. apply H; by destruct (uuids w). Qed.

Lemma always_clock (G : relation World) : frame_ok G -> always G clock.
Proof. intros H. apply always_act. intros w. by apply H. Qed.

Lemma always_connected (G : relation World) : frame_ok G -> always G is_connected.
Proof. intros H. apply always_act. intros w. by apply H. Qed.

Lemma always_ret {A} (G : relation World) (a : A) : always G (Ret a).
Proof. done. Qed.

Lemma always_raise {A} (G : relation World) e : always G (Raise (A:=A) e).
Proof. done. Qed.

(** A NATS call is one of three steps. *)
Lemma always_nats (G : relation World) e :
  (forall w w', db w' = db w -> deferred w' = deferred w ->
     out w' = out w ++ [e] \/ out w' = out w -> G w w') ->
  always G (nats e).
Proof.
  intros H. apply always_act. intros w. pose proof (nats_cases e w) as Hc.
  destruct (nats_step e w) as [r w']. destruct Hc as (Hd & Hq & _ & [[Ho _]|[Ho _]]); auto.
Qed.

(** Proves [always G p] by following the structure of [p]. *)
Ltac always_tac :=
  repeat first
    [ apply always_ret | apply always_raise
    | apply always_bind; [|intros ?]
    | apply always_catch; [|intros ?]
    | apply always_attempt
    | case_match ].

Lemma new_events_app w w' l : out w' = out w ++ l -> new_events w w' = l.
Proof. unfold new_events. intros ->. apply drop_app_length. Qed.

(** ** Faultless runs *)
Definition db_up (w : World) : Prop := sched w = [].

Lemma run_session_up {A} (t : instant -> Db -> res exn (A * Db)) w :
  db_up w -> run (session t) w = match t (now w) (db w) with
                                 | Ok (a, d) => (Ok a, set_db d w)
                                 | Err e => (Err e, w)
                                 end.
Proof.
  unfold db_up. intros H. unfold session. rewrite run_act. unfold session_step, next_outcome. by rewrite H.
Qed.

Lemma run_query_up {A} (t : Db -> A) w : db_up w -> run (query t) w = (Ok (t (db w)), set_db (db w) w).
Proof. intros H. unfold query. by rewrite run_session_up. Qed.

Lemma run_nats_up e w : db_up w -> run (nats e) w = (Ok tt, emit e w).
Proof. unfold db_up. intros H. unfold nats. rewrite run_act. unfold nats_step, next_outcome. by rewrite H. Qed.

(** A read draws at most one outcome and leaves the rest of the world alone. *)
Lemma run_query_sched {A} (t : Db -> A) w :
  exists s, (run (query t) w = (Ok (t (db w)), set_sched s w) \/
             (exists e, run (query t) w = (Err e, set_sched s w)) /\ sched w <> []).
Proof.
  unfold query, session, session_step, next_outcome. rewrite run_act.
  destruct (sched w) as [|[| |] s] eqn:E; [exists []|exists s..]; cbn.
  - left. destruct w; cbn in *. by subst.
  - left. by destruct w.
  - right. split; [|done]. eexists. by destruct w.
  - right. split; [|done]. eexists. by destruct w.
Qed.

Lemma run_uuid4 w : exists u w', run uuid4 w = (Ok u, w') /\ db w' = db w /\ out w' = out w.
Proof. unfold uuid4. rewrite run_act. destruct (uuids w); eauto. Qed.

Lemma set_db_same w : set_db (db w) w = w.
Proof. by destruct w. Qed.

(** One Bot API call. *)
(** A Bot API call leaves its answer and nothing else. *)
Lemma run_telegram_emit c w :
  exists r s, run (telegram c) w = (Ok r, emit (SentTg c r) (set_tg s w)).
Proof.
  unfold telegram. rewrite run_act. destruct (tg w) as [|r s] eqn:E; [|exists r, s; cbn; by destruct w].
  exists (TgAnswer 200 EmptyString (Some (Z.of_nat (length (out w))))), []. cbn. destruct w; cbn in *. by subst.
Qed.

Lemma run_telegram c w :
  exists r w', run (telegram c) w = (Ok r, w') /\ out w' = out w ++ [SentTg c r] /\ db w' = db w /\
    sched w' = sched w /\ now w' = now w /\ uuids w' = uuids w /\
    (tg w = [] -> tg w' = [] /\ exists i, r = TgAnswer 200 EmptyString (Some i)) /\
    (forall x s, tg w = x :: s -> r = x /\ tg w' = s).
Proof.
  unfold telegram. rewrite run_act. destruct (tg w) as [|x s] eqn:E.
  - eexists _, _. split; [done|]. cbn. split_and!; eauto. intros ? ? [=].
  - eexists _, _. split; [done|]. cbn. split_and!; try done. by intros ? ? [= -> ->].
Qed.
