(* ===== verification/Settings.v ===== *)
(** * Configuration

    The settings groups of [settings.py] the modelled code reads, with their
    defaults. *)

From S2P Require Import Prelude PyStr Uuid Json JsonText Models World.

(** [settings.signal]. *)
Record SignalSettings := {
  sig_MAX_ATTEMPTS : Z;
  sig_RETRY_INTERVAL_SECONDS : Z
}.

(** [settings.webhook]: the shared secret and the deferred-enqueue budget (the
    timeouts bound waits, which the model does not measure). *)
Record WebhookSettings := {
  wh_SECRET : string;
  wh_DEFERRED_ENQUEUE_MAX_ATTEMPTS : Z
}.

(** [settings.telegram]. *)
Record TelegramSettings := {
  tg_ENABLED : bool;
  tg_BOT_TOKEN : string;
  tg_BROKER_LOG_CHAT_IDS : string;
  tg_PRIVATE_BROADCAST_CHAT_IDS : string;
  tg_SERVICE_BOT_TOKEN : string;
  tg_LOG_DEDUP_WINDOW : Z;
  tg_LOG_CHAT_ID : string;
  tg_LOG_BOT_TOKEN : string
}.

(** [settings.broker_api]. *)
Record BrokerApiSettings := {
  api_API_KEY : string
}.

(** [settings.notification]. *)
Record NotificationSettings := {
  nt_DEFAULT_TIMEZONE_OFFSET_HOURS : float
}.

Class Settings := {
  set_webhook : WebhookSettings;
  set_telegram : TelegramSettings;
  set_signal : SignalSettings;
  set_broker_api : BrokerApiSettings;
  set_notification : NotificationSettings
}.

Definition default_settings : Settings := {|
  set_webhook := {| wh_SECRET := ""; wh_DEFERRED_ENQUEUE_MAX_ATTEMPTS := 15 |};
  set_telegram := {| tg_ENABLED := false; tg_BOT_TOKEN := ""; tg_BROKER_LOG_CHAT_IDS := "";
                     tg_PRIVATE_BROADCAST_CHAT_IDS := ""; tg_SERVICE_BOT_TOKEN := "";
                     tg_LOG_DEDUP_WINDOW := 60; tg_LOG_CHAT_ID := ""; tg_LOG_BOT_TOKEN := "" |};
  set_signal := {| sig_MAX_ATTEMPTS := 3; sig_RETRY_INTERVAL_SECONDS := 15 |};
  set_broker_api := {| api_API_KEY := "" |};
  set_notification := {| nt_DEFAULT_TIMEZONE_OFFSET_HOURS := float_of_decimal false 7 0 |}
|}.

(** ** constants.py *)
Definition SIGNAL_BLOCKED : string := "signal_blocked".
Definition SILENT_SIGNAL : string := "silent_signal".
Definition NOTIFICATION_INCLUDE_SIGNAL_RAW : string := "notification_include_signal_raw".
Definition NOTIFICATION_TIMEZONE_KEY : string := "notification_timezone".
Definition PUBLIC_BROADCAST_CHAT_IDS_KEY : string := "public_broadcast_chat_ids".
Definition PRIVATE_REPLY_NOTIFY_KEY : string := "private_broadcast_reply_notify".
Definition PUBLIC_REPLY_NOTIFY_KEY : string := "public_broadcast_reply_notify".
Definition CRYPTO_ALLOWED_SYMBOL_KEY : string := "crypto_allowed_symbol".
Definition CRYPTO_MAX_LEVERAGE_KEY : string := "crypto_max_leverage".
Definition STRATEGY_MAGIC_MAP_KEY : string := "strategy_magic_map".
Definition MAX_RETRY_TIMEOUT_KEY : string := "max_retry_timeout".
Definition DEFAULT_MAX_RETRY_TIMEOUT_SECONDS : Z := 60.
Definition MAX_OPEN_ORDERS_KEY : string := "max_open_orders".
Definition DEFAULT_MAX_OPEN_ORDERS : Z := 5.
Definition ACCOUNT_SETTING_SIGNAL_BLOCKED : string := "signal_blocked".
Definition ACCOUNT_SETTING_MAX_OPEN_ORDERS : string := "max_open_orders".

(** * Broker settings

    [SqlAlchemySettingRepository] ([db/repository/setting.py]). *)

Definition find_setting (key : string) (d : Db) : option string :=
  bs_value <$> select_first (fun r => String.eqb (bs_key r) key) (broker_settings d).

(** [get]: a failed read answers like a missing row. *)
Definition setting_get (key : string) : prog (option string) :=
  catch (query (find_setting key)) (fun _ => Ret None).

(** [get_strict]: a failed read raises. *)
Definition setting_get_strict (key : string) : prog (option string) :=
  query (find_setting key).

(** [get_many]: the rows found, as a dict; [{}] on a failed read. *)
Definition setting_get_many (keys : list string) : prog (list (string * string)) :=
  catch (query (fun d =>
           map (fun r => (bs_key r, bs_value r))
             (select_where (fun r => existsb (String.eqb (bs_key r)) keys) (broker_settings d))))
        (fun _ => Ret []).

(** The transaction of [set]. *)
Definition write_setting (new_id : uuid) (key value : string) (d : Db) : res exn (unit * Db) :=
  match select_first (fun r => String.eqb (bs_key r) key) (broker_settings d) with
  | Some row =>
      let update r := {| bs_id := bs_id r; bs_key := bs_key r; bs_value := value |} in
      Ok (tt, set_broker_settings
                (update_where (fun r => bool_decide (bs_id r = bs_id row)) update
                   (broker_settings d)) d)
  | None =>
      match insert_unique setting_clash
              {| bs_id := new_id; bs_key := key; bs_value := value |} (broker_settings d) with
      | Some t => Ok (tt, set_broker_settings t d)
      | None => Err IntegrityError
      end
  end.

(** [set]: upsert by key.  The uuid of an inserted row is drawn up front. *)
Definition setting_set (key value : string) : prog bool :=
  let! new_id := uuid4 in
  catch
    (do! session (fun _ d => write_setting new_id key value d) in Ret true)
    (fun _ => Ret false).

(** ** Facts *)

(** A successful strict read answers the table's current value; a failed one
    raises, and neither changes anything. *)
Lemma get_strict_cases key w :
  exists w', db w' = db w /\ out w' = out w /\
  (run (setting_get_strict key) w = (Ok (find_setting key (db w)), w') \/
   exists e, run (setting_get_strict key) w = (Err e, w')).
Proof.
  unfold setting_get_strict, query, session. rewrite run_act.
  pose proof (session_cases (fun _ d => Ok (find_setting key d, d)) w) as H.
  destruct (session_step _ w) as [r w']. destruct H as (Ho & _ & H). exists w'.
  destruct H as [(e & -> & Hd)|(a & d & [= <- <-] & Hd & [->| ->])]; eauto 10.
Qed.

Lemma write_setting_spec new_id key value d d' :
  NoDup (map bs_id (broker_settings d)) ->
  write_setting new_id key value d = Ok (tt, d') ->
  find_setting key d' = Some value /\
  (forall k, k <> key -> find_setting k d' = find_setting k d).
Proof.
  intros Hid. unfold write_setting, find_setting.
  destruct (select_first _ (broker_settings d)) as [row|] eqn:Hrow.
  - intros [= <-]. simpl. split.
    + rewrite select_first_update by done. rewrite Hrow. simpl.
      by rewrite bool_decide_eq_true_2.
    + intros k Hk. f_equal. apply select_first_Some in Hrow as [Hin Hkey].
      apply String.eqb_eq in Hkey. apply select_first_update_other. simpl.
      intros r Hr ->%bool_decide_eq_true%(nodup_map_eq _ _ _ _ Hid Hr Hin).
      split; apply String.eqb_neq; congruence.
  - destruct (insert_unique _ _ _) as [t|] eqn:Hi; [|done]. intros [= <-]. simpl.
    apply insert_unique_Some in Hi as [-> _]. split.
    + rewrite select_first_app, Hrow. simpl. by rewrite String.eqb_refl.
    + intros k Hk. rewrite select_first_app. simpl.
      assert (String.eqb key k = false) as -> by (apply String.eqb_neq; congruence).
      by destruct (select_first (fun r => String.eqb (bs_key r) k) (broker_settings d)).
Qed.

(** [set] then [get_strict] round trip: a [set] that reports True leaves
    exactly the written value to be read back under that key and leaves every
    other key alone; a [set] that reports False may or may not have written it. *)
Theorem setting_roundtrip key value w :
  NoDup (map bs_id (broker_settings (db w))) ->
  match run (setting_set key value) w with
  | (Ok true, w') =>
      find_setting key (db w') = Some value /\
      (forall k, k <> key -> find_setting k (db w') = find_setting k (db w))
  | (Ok false, w') =>
      forall k, k <> key -> find_setting k (db w') = find_setting k (db w)
  | (Err _, _) => False
  end.
Proof.
  intros Hid. unfold setting_set. rewrite run_bind. unfold uuid4. rewrite run_act.
  destruct (uuids w) as [|u us]; rewrite run_catch, run_bind; unfold session; rewrite run_act;
    match goal with |- context [session_step ?t ?w1] =>
      pose proof (session_cases t w1) as H; destruct (session_step t w1) as [r w'] end;
    (destruct H as (_ & _ & [(e & -> & Hd)|(a & d & Ht & Hd & Hr)]);
     [simpl; intros; by rewrite Hd|]);
    destruct a; apply write_setting_spec in Ht; try done; rewrite <-Hd in Ht;
    destruct Hr as [->| ->]; simpl; try done; by destruct Ht.
Qed.

Lemma setting_roundtrip_witness :
  let w' := (run (setting_set SIGNAL_BLOCKED "1") world0).2 in
  find_setting SIGNAL_BLOCKED (db w') = Some "1".
Proof.
  pose proof (setting_roundtrip SIGNAL_BLOCKED "1" world0 NoDup_nil_2) as H.
  exact (proj1 H).
Defined.
