(* ===== verification/TimeZone.v ===== *)
(** * Dates and the display time zone

    The calendar behind [datetime], the ISO texts [datetime.fromisoformat] reads
    back, and [helpers/timezone_helper.py]: the hour offset stored as text and the
    notification times rendered at it. *)

From S2P Require Import Prelude PyStr PyTime Json JsonText Settings.
From Stdlib Require Import Ascii SpecFloat.

(** ** The calendar *)
Definition leap (y : Z) : bool := ((y mod 4 =? 0) && negb (y mod 100 =? 0) || (y mod 400 =? 0))%Z.

Definition days_in_month (y m : Z) : Z :=
  if (m =? 2)%Z then (if leap y then 29 else 28)%Z
  else if existsb (Z.eqb m) [4; 6; 9; 11]%Z then 30%Z else 31%Z.

Definition date_valid (y m d : Z) : bool :=
  in_range 1 9999 y && in_range 1 12 m && in_range 1 (days_in_month y m) d.

(** Days since 1970-01-01 of a date; years start in March. *)
Definition days_from_civil (y m d : Z) : Z :=
  let y := (if (m <=? 2)%Z then y - 1 else y)%Z in
  let era := (y / 400)%Z in
  let yoe := (y - era * 400)%Z in
  let doy := ((153 * (if (2 <? m)%Z then m - 3 else m + 9) + 2) / 5 + d - 1)%Z in
  let doe := (yoe * 365 + yoe / 4 - yoe / 100 + doy)%Z in
  (era * 146097 + doe - 719468)%Z.

(** The year, month and day of a day of a four-century era, its years counted from
    the era's first. *)
Definition civil_of_era (doe : Z) : Z * Z * Z :=
  let yoe := ((doe - doe / 1460 + doe / 36524 - doe / 146096) / 365)%Z in
  let doy := (doe - (365 * yoe + yoe / 4 - yoe / 100))%Z in
  let mp := ((5 * doy + 2) / 153)%Z in
  let d := (doy - (153 * mp + 2) / 5 + 1)%Z in
  let m := (if mp <? 10 then mp + 3 else mp - 9)%Z in
  ((if m <=? 2 then yoe + 1 else yoe)%Z, m, d).

Definition civil_from_days (days : Z) : Z * Z * Z :=
  let z := (days + 719468)%Z in
  let era := (z / 146097)%Z in
  let '(y, m, d) := civil_of_era (z - era * 146097)%Z in
  ((y + era * 400)%Z, m, d).

(** ** Instants and wall clocks *)

(** Microseconds since the epoch of a wall-clock reading taken as UTC. *)
Definition wall_micros (t : datetime) : Z :=
  (((days_from_civil (dt_year t) (dt_month t) (dt_day t) * 24 + dt_hour t) * 60 + dt_minute t) * 60 + dt_second t)
  * 1000000 + dt_micro t.

Definition day_micros : Z := 86400000000.

(** The wall clock an instant shows; [None] outside the years 1 to 9999
    ([OverflowError]). *)
Definition wall_clock (us : Z) : option datetime :=
  let '(y, m, d) := civil_from_days (us / day_micros)%Z in
  let r := (us mod day_micros)%Z in
  if in_range 1 9999 y then
    Some (mk_datetime y m d (r / 3600000000) (r / 60000000 mod 60) (r / 1000000 mod 60) (r mod 1000000) None)
  else None.

(** What the rendering of a time raises. *)
Inductive time_error := TimeValueError | TimeOverflowError.

(** [to_utc], as an instant: a naive time is UTC already. *)
Definition to_utc (dt : datetime) : res time_error Z :=
  let us := (wall_micros dt - 60000000 * default 0 (dt_tz dt))%Z in
  match dt_tz dt, wall_clock us with
  | Some _, None => Err TimeOverflowError
  | _, _ => Ok us
  end.

(** ** Offsets *)
Definition MAX_ABS_OFFSET_HOURS : Z := 24.

(** [abs(hours) < z]. *)
Definition abs_below (f : float) (z : Z) : bool := SFltb (SFabs f) (binary_normalize 53 1024 z 0 false).

(** [f * 10^0] split as [math.modf] does: the integer part, and the fraction as a
    float. *)
Definition float_fraction (f : float) : option (Z * Z) :=
  match f with
  | S754_zero _ => Some (0, 1)%Z
  | S754_finite s m e => let '(a, b) := fraction m e in Some ((if s then - a else a)%Z, b)
  | _ => None
  end.

(** [timedelta(hours=hours)] in microseconds: whole hours exactly, the fraction of
    an hour times 3.6e9 in floating point, and what is left rounded half to even. *)
Definition timedelta_hours (hours : float) : option Z :=
  match float_fraction hours with
  | None => None
  | Some (a, b) =>
      let whole := Z.quot a b in
      let rest := binary_normalize 53 1024 (a - whole * b) (- Z.log2 b) (Z.ltb a 0) in
      let product := SFmul 53 1024 rest (binary_normalize 53 1024 3600000000 0 false) in
      match float_fraction product with
      | None => None
      | Some (p, q) => Some (whole * 3600000000 + Z.sgn p * round_div (Z.abs p) q)%Z
      end
  end.

Section offsets.
Context `{CFG : Settings}.

Definition parse_offset_hours (raw : option string) : float :=
  let fallback := nt_DEFAULT_TIMEZONE_OFFSET_HOURS set_notification in
  match raw with
  | None => fallback
  | Some raw =>
      if is_empty (strip raw) then fallback
      else
        match py_float raw with
        | Some hours => if abs_below hours MAX_ABS_OFFSET_HOURS then hours else fallback
        | None => fallback
        end
  end.

Definition format_offset_value (hours : float) : string := format_g hours.

Definition format_utc_label (hours : float) : string :=
  let sign := if SFleb f_zero hours then "+" else "" in
  "UTC" +:+ sign +:+ format_offset_value hours.

(** [timezone(timedelta(hours=hours))]: less than a day either way. *)
Definition display_offset (hours : float) : res time_error Z :=
  match timedelta_hours hours with
  | None => Err TimeOverflowError
  | Some us => if (Z.abs us <? day_micros)%Z then Ok us else Err TimeValueError
  end.

(** [strftime("%Y-%m-%d %H:%M:%S")]; glibc does not pad the year. *)
Definition strftime (t : datetime) : string :=
  str_int (dt_year t) +:+ "-" +:+ dec_fixed 2 (dt_month t) +:+ "-" +:+ dec_fixed 2 (dt_day t) +:+ " " +:+
  dec_fixed 2 (dt_hour t) +:+ ":" +:+ dec_fixed 2 (dt_minute t) +:+ ":" +:+ dec_fixed 2 (dt_second t).

Definition format_notification_time (dt : datetime) (offset : option string) : res time_error string :=
  let hours := parse_offset_hours offset in
  match to_utc dt with
  | Err e => Err e
  | Ok us =>
      match display_offset hours with
      | Err e => Err e
      | Ok off =>
          match wall_clock (us + off) with
          | None => Err TimeOverflowError
          | Some local => Ok (strftime local +:+ " (" +:+ format_utc_label hours +:+ ")")
          end
      end
  end.
End offsets.

(** ** [datetime.fromisoformat] of the extended calendar format

    The basic and the week-date forms, and offsets with seconds, are refused. *)

(** A number of exactly [n] digits. *)
Fixpoint digits (n : nat) (acc : Z) (s : string) : option (Z * string) :=
  match n with
  | O => Some (acc, s)
  | S n =>
      match s with
      | String c r => if dec_digit c then digits n (acc * 10 + (code c - 48)) r else None
      | EmptyString => None
      end
  end.

(** A character and [n] digits, when the text starts with that character. *)
Definition field (sep : ascii) (n : nat) (s : string) : option (Z * string) :=
  match eat sep s with Some r => digits n 0 r | None => None end.

(** The same where the field may be left out. *)
Definition opt_field (sep : ascii) (n : nat) (s : string) : option (Z * string) :=
  match eat sep s with Some r => digits n 0 r | None => Some (0%Z, s) end.

(** The first six digits of a fraction, as microseconds. *)
Definition micros_of (ds : string) : Z := dec_value 0 (take_str 6 (ds +:+ zeros 6)).

Definition iso_fraction (s : string) : option (Z * string) :=
  match s with
  | String c r =>
      if Ascii.eqb c "." || Ascii.eqb c "," then
        let '(ds, rest) := span_digits r in
        if is_empty ds then None else Some (micros_of ds, rest)
      else Some (0%Z, s)
  | EmptyString => Some (0%Z, s)
  end.

(** The offset in minutes, at the end of the text. *)
Definition iso_offset (s : string) : option (option Z) :=
  match s with
  | EmptyString => Some None
  | String c r =>
      if Ascii.eqb c "Z" then if is_empty r then Some (Some 0%Z) else None
      else if Ascii.eqb c "+" || Ascii.eqb c "-" then
        match digits 2 0 r with
        | None => None
        | Some (h, r) =>
            match opt_field ":" 2 r with
            | Some (m, EmptyString) =>
                if (h <=? 23)%Z && (m <=? 59)%Z then
                  Some (Some (if Ascii.eqb c "-" then - (h * 60 + m) else h * 60 + m)%Z)
                else None
            | _ => None
            end
        end
      else None
  end.

(** The text after the separator, any one character. *)
Fixpoint skip_continuation (s : string) : string :=
  match s with
  | String c r => if (128 <=? code c)%Z && (code c <? 192)%Z then skip_continuation r else s
  | EmptyString => EmptyString
  end.

Definition iso_time (y mo d : Z) (s : string) : option datetime :=
  match digits 2 0 s with
  | None => None
  | Some (h, s) =>
      match opt_field ":" 2 s with
      | None => None
      | Some (mi, s) =>
          match opt_field ":" 2 s with
          | None => None
          | Some (se, s) =>
              match iso_fraction s with
              | None => None
              | Some (us, s) =>
                  match iso_offset s with
                  | None => None
                  | Some tz =>
                      let t := mk_datetime y mo d h mi se us tz in
                      if dt_valid t && date_valid y mo d then Some t else None
                  end
              end
          end
      end
  end.

Definition fromisoformat (s : string) : option datetime :=
  match digits 4 0 s with
  | None => None
  | Some (y, s) =>
      match field "-" 2 s with
      | None => None
      | Some (mo, s) =>
          match field "-" 2 s with
          | None => None
          | Some (d, s) =>
              let midnight := mk_datetime y mo d 0 0 0 0 None in
              match s with
              | String _ r =>
                  match skip_continuation r with
                  | EmptyString => if date_valid y mo d then Some midnight else None
                  | r => iso_time y mo d r
                  end
              | EmptyString => if date_valid y mo d then Some midnight else None
              end
          end
      end
  end.

Example fromisoformat_samples :
  map fromisoformat ["2026-04-10 22:55:00"; "2026-04-10T22:55:00.5+07:00"; "2026-02-29T00:00"; "2026-04-10"; "2026-04-10T22Z"; "now"] =
  [Some (mk_datetime 2026 4 10 22 55 0 0 None); Some (mk_datetime 2026 4 10 22 55 0 500000 (Some 420%Z)); None;
   Some (mk_datetime 2026 4 10 0 0 0 0 None); Some (mk_datetime 2026 4 10 22 0 0 0 (Some 0%Z)); None].
Proof. vm_compute. reflexivity. Qed.

(** ** Facts *)
Lemma dec_char_digit q : (0 <= q < 10)%Z -> dec_digit (dec_char q) = true /\ code (dec_char q) = (48 + q)%Z.
Proof.
  intros Hq. assert (q ∈ [0; 1; 2; 3; 4; 5; 6; 7; 8; 9]%Z) as H by (rewrite !elem_of_cons; lia).
  repeat (apply elem_of_cons in H as [->|H]; [by vm_compute|]). by apply not_elem_of_nil in H.
Qed.

Lemma digits_fixed_mod n acc z r :
  digits n acc (dec_fixed n z +:+ r) = Some (acc * 10 ^ Z.of_nat n + z mod 10 ^ Z.of_nat n, r)%Z.
Proof.
  revert acc. induction n as [|n IH]; intros acc; [cbn; rewrite Z.mod_1_r; do 2 f_equal; lia|].
  cbn [digits dec_fixed String.append].
  destruct (dec_char_digit (z / 10 ^ Z.of_nat n mod 10)) as [-> ->]; [apply Z.mod_pos_bound; lia|].
  rewrite IH, Nat2Z.inj_succ, Z.pow_succ_r, (Z.mul_comm 10 (10 ^ _)), Z.rem_mul_r by lia. do 2 f_equal. ring.
Qed.

Lemma digits_fixed n z r :
  (0 <= z < 10 ^ Z.of_nat n)%Z -> digits n 0 (dec_fixed n z +:+ r) = Some (z, r).
Proof. intros Hz. rewrite digits_fixed_mod, Z.mod_small by done. done. Qed.

Lemma field_fixed sep n z r :
  (0 <= z < 10 ^ Z.of_nat n)%Z -> field sep n (String sep (dec_fixed n z +:+ r)) = Some (z, r).
Proof. intros Hz. unfold field, eat. rewrite Ascii.eqb_refl. by apply digits_fixed. Qed.

Lemma opt_field_fixed sep n z r :
  (0 <= z < 10 ^ Z.of_nat n)%Z -> opt_field sep n (String sep (dec_fixed n z +:+ r)) = Some (z, r).
Proof. intros Hz. unfold opt_field, eat. rewrite Ascii.eqb_refl. by apply digits_fixed. Qed.

Lemma dec_fixed_all n z : all_dec (dec_fixed n z).
Proof.
  induction n as [|n IH]; [constructor|]. cbn. constructor; [|done].
  apply dec_char_digit. apply Z.mod_pos_bound. lia.
Qed.

Definition stops_digits (s : string) : Prop :=
  match s with String c _ => dec_digit c = false /\ c <> "."%char /\ c <> ","%char /\ c <> ":"%char | EmptyString => True end.

Lemma span_digits_stop ds rest : all_dec ds -> stops_digits rest -> span_digits (ds +:+ rest) = (ds, rest).
Proof.
  intros H Hr. induction ds as [|c ds IH].
  - destruct rest as [|c r]; [done|]. cbn. by destruct Hr as [-> _].
  - unfold all_dec in *. cbn in H. apply Forall_cons in H as [Hc H]. cbn. by rewrite Hc, IH.
Qed.

(** The texts [isoformat] ends with: an offset, or nothing. *)
Lemma iso_offset_tz tz :
  (forall o, tz = Some o -> -1439 <= o <= 1439)%Z ->
  iso_offset (iso_tz tz) = Some tz /\ stops_digits (iso_tz tz).
Proof.
  intros Ho. destruct tz as [o|]; [|done]. specialize (Ho o eq_refl). cbn [iso_tz].
  assert (Hd : (0 <= Z.abs o / 60 <= 23)%Z) by (split; [apply Z.div_pos; lia|assert (Z.abs o / 60 < 24)%Z; [apply Z.div_lt_upper_bound|]; lia]).
  assert (Hm : (0 <= Z.abs o mod 60 < 60)%Z) by (apply Z.mod_pos_bound; lia).
  assert (Hstep : iso_offset (String (if (o <? 0)%Z then "-" else "+")%char
      (dec_fixed 2 (Z.abs o / 60) +:+ ":" +:+ dec_fixed 2 (Z.abs o mod 60))) = Some (Some o)).
  { unfold iso_offset. replace (Ascii.eqb _ "Z") with false by (by destruct (o <? 0)%Z).
    replace (Ascii.eqb _ "+" || Ascii.eqb _ "-") with true by (by destruct (o <? 0)%Z).
    rewrite (digits_fixed 2) by (cbn; lia). cbn [String.append].
    rewrite <-(string_app_nil_r (dec_fixed 2 (Z.abs o mod 60))), (opt_field_fixed ":" 2) by (cbn; lia).
    rewrite !(proj2 (Z.leb_le _ _)) by lia. cbn [andb].
    pose proof (Z.div_mod (Z.abs o) 60). destruct (Z.ltb_spec o 0); cbn; do 2 f_equal; lia. }
  destruct (o <? 0)%Z; cbn [String.append] in Hstep |- *; (split; [exact Hstep|done]).
Qed.

Lemma dec_value_fixed n acc z : dec_value acc (dec_fixed n z) = (acc * 10 ^ Z.of_nat n + z mod 10 ^ Z.of_nat n)%Z.
Proof.
  revert acc. induction n as [|n IH]; intros acc; [cbn; rewrite Z.mod_1_r; lia|].
  cbn [dec_value dec_fixed].
  destruct (dec_char_digit (z / 10 ^ Z.of_nat n mod 10)) as [_ ->]; [apply Z.mod_pos_bound; lia|].
  rewrite IH, Nat2Z.inj_succ, Z.pow_succ_r, (Z.mul_comm 10 (10 ^ _)), Z.rem_mul_r by lia. ring.
Qed.

Lemma take_str_app a b : take_str (String.length a) (a +:+ b) = a.
Proof. induction a as [|c a IH]; [by destruct b|]. unfold take_str in *. cbn. by rewrite IH. Qed.

Lemma iso_fraction_micro us rest :
  (0 <= us <= 999999)%Z -> stops_digits rest -> iso_fraction (iso_micro us +:+ rest) = Some (us, rest).
Proof.
  intros Hus Hr. unfold iso_micro. destruct (Z.eqb_spec us 0) as [->|].
  - cbn [String.append]. destruct rest as [|c r]; [done|]. unfold iso_fraction. destruct Hr as (_ & H1 & H2 & _).
    apply Ascii.eqb_neq in H1, H2. by rewrite H1, H2.
  - unfold iso_fraction. cbn [String.append]. rewrite (span_digits_stop _ _ (dec_fixed_all 6 us) Hr).
    assert (is_empty (dec_fixed 6 us) = false) as -> by done. unfold micros_of. do 2 f_equal.
    pose proof (take_str_app (dec_fixed 6 us) (zeros 6)) as E. rewrite dec_fixed_length in E.
    rewrite E, dec_value_fixed, Z.mod_small by (cbn; lia). done.
Qed.

Lemma skip_fixed n z r : skip_continuation (dec_fixed (S n) z +:+ r) = dec_fixed (S n) z +:+ r.
Proof.
  cbn. destruct (dec_char_digit (z / 10 ^ Z.of_nat n mod 10)) as [_ ->]; [apply Z.mod_pos_bound; lia|].
  assert (0 <= z / 10 ^ Z.of_nat n mod 10 < 10)%Z by (apply Z.mod_pos_bound; lia).
  destruct (Z.leb_spec 128 (48 + z / 10 ^ Z.of_nat n mod 10)%Z); [lia|done].
Qed.

(** A valid date is read back from its ISO text. *)
Lemma fromisoformat_iso t :
  dt_valid t = true -> date_valid (dt_year t) (dt_month t) (dt_day t) = true -> fromisoformat (isoformat t) = Some t.
Proof.
  intros Hv Hd. destruct t as [y mo d h mi se us tz]. cbn [dt_year dt_month dt_day] in Hd.
  pose proof Hv as Hv'. unfold dt_valid in Hv'. rewrite !andb_true_iff, !in_range_spec in Hv'. cbn in Hv'.
  destruct Hv' as (((((((Hy & Hmo) & Hda) & Hh) & Hmi) & Hse) & Hus) & Htz).
  unfold fromisoformat, isoformat. cbn [dt_year dt_month dt_day dt_hour dt_minute dt_second dt_micro dt_tz].
  rewrite (digits_fixed 4) by (cbn; lia). cbn [String.append].
  rewrite (field_fixed "-" 2) by (cbn; lia). rewrite (field_fixed "-" 2) by (cbn; lia).
  cbv iota. rewrite (skip_fixed 1).
  match goal with |- context [match ?r with EmptyString => _ | String _ _ => _ end] => remember r as text eqn:E end.
  destruct text as [|c text]; [done|]. rewrite E. unfold iso_time.
  rewrite (digits_fixed 2) by (cbn; lia). cbn [String.append].
  rewrite (opt_field_fixed ":" 2) by (cbn; lia). rewrite (opt_field_fixed ":" 2) by (cbn; lia).
  destruct (iso_offset_tz tz) as [Ho Hs]; [by intros o ->; by rewrite in_range_spec in Htz|].
  rewrite (iso_fraction_micro us (iso_tz tz)), Ho, Hv, Hd by done. done.
Qed.

(** ** The calendar's facts *)

(** The year of a day of an era, counted from March, and the day of that year; the
    366th day is in a leap year. *)
Lemma era_year doe :
  (0 <= doe < 146097)%Z ->
  let yoe := ((doe - doe / 1460 + doe / 36524 - doe / 146096) / 365)%Z in
  let doy := (doe - (365 * yoe + yoe / 4 - yoe / 100))%Z in
  (0 <= yoe <= 399 /\ 0 <= doy <= 365 /\
   (doy = 365 -> (yoe + 1) mod 4 = 0 /\ ((yoe + 1) mod 100 <> 0 \/ (yoe + 1) mod 400 = 0)) /\
   (306 <= doe -> doy < 306 -> 1 <= yoe) /\ (doe <= 146036 -> 306 <= doy -> yoe <= 398))%Z.
Proof. intros H yoe doy. subst doy yoe. Z.to_euclidean_division_equations. lia. Qed.

(** The month and day of a day of a year counted from March. *)
Definition month_day_ok (doy : Z) : bool :=
  let mp := ((5 * doy + 2) / 153)%Z in
  let d := (doy - (153 * mp + 2) / 5 + 1)%Z in
  let m := (if mp <? 10 then mp + 3 else mp - 9)%Z in
  in_range 1 12 m && in_range 1 (if (m =? 2)%Z then 29 else days_in_month 1 m) d &&
  ((153 * (if (2 <? m)%Z then m - 3 else m + 9) + 2) / 5 + d - 1 =? doy)%Z &&
  Bool.eqb (m <=? 2)%Z (306 <=? doy)%Z && (negb ((m =? 2)%Z && (d =? 29)%Z) || (doy =? 365)%Z).

Lemma month_day doy : (0 <= doy <= 365)%Z -> month_day_ok doy = true.
Proof.
  intros H. assert (Hall : forallb month_day_ok (map Z.of_nat (seq 0 366)) = true) by (vm_compute; reflexivity).
  rewrite forallb_forall in Hall. apply Hall. apply in_map_iff. exists (Z.to_nat doy).
  split; [lia|]. apply in_seq. lia.
Qed.

(** Every day of a four-century era is a date of it, and that date's day. *)
Lemma era_day_ok doe :
  (0 <= doe < 146097)%Z ->
  let '(y, m, d) := civil_of_era doe in
  (0 <= y <= 400)%Z /\ in_range 1 12 m = true /\ in_range 1 (days_in_month y m) d = true /\
  (days_from_civil y m d + 719468 = doe)%Z /\ (306 <= doe -> 1 <= y)%Z /\ (doe <= 146036 -> y <= 399)%Z.
Proof.
  intros Hdoe. unfold civil_of_era. destruct (era_year doe Hdoe) as (Hy & Hd & Hleap & Hlo & Hhi).
  set (yoe := ((doe - doe / 1460 + doe / 36524 - doe / 146096) / 365)%Z) in *.
  set (doy := (doe - (365 * yoe + yoe / 4 - yoe / 100))%Z) in *.
  pose proof (month_day doy Hd) as H. unfold month_day_ok in H.
  set (mp := ((5 * doy + 2) / 153)%Z) in *. set (d := (doy - (153 * mp + 2) / 5 + 1)%Z) in *.
  set (m := (if mp <? 10 then mp + 3 else mp - 9)%Z) in *.
  rewrite !andb_true_iff, orb_true_iff, negb_true_iff, andb_false_iff, !Z.eqb_eq, !Z.eqb_neq, eqb_true_iff in H.
  destruct H as ((((Hm & Hdm) & Hdoy) & Heq) & H29).
  assert (Hy' : ((if m <=? 2 then (if m <=? 2 then yoe + 1 else yoe) - 1 else (if m <=? 2 then yoe + 1 else yoe)) = yoe)%Z)
    by (destruct (m <=? 2)%Z; lia).
  split; [destruct (m <=? 2)%Z; lia|]. split; [done|]. split.
  { apply in_range_spec. apply in_range_spec in Hdm, Hm. unfold days_in_month in *.
    destruct (Z.eqb_spec m 2) as [E2|]; [|exact Hdm]. rewrite (proj2 (Z.leb_le m 2)) by lia.
    destruct (leap (yoe + 1)) eqn:El; [exact Hdm|]. split; [lia|].
    destruct (decide (d = 29%Z)) as [->|]; [|lia]. exfalso. destruct H29 as [[?|?]|H29]; [done..|].
    destruct (Hleap H29) as [H4 H100]. unfold leap in El. rewrite H4 in El. cbn in El.
    apply orb_false_iff in El as [E1 E3]. rewrite negb_false_iff, Z.eqb_eq in E1. apply Z.eqb_neq in E3. lia. }
  split.
  { unfold days_from_civil. rewrite Hy'. rewrite (Z.div_small yoe 400) by lia.
    replace (yoe - 0 * 400)%Z with yoe by ring. rewrite <-Z.add_sub_assoc in Hdoy. unfold doy in Hdoy. lia. }
  rewrite Heq. destruct (Z.leb_spec 306 doy); lia.
Qed.

Lemma days_from_era y m d k : days_from_civil (y + k * 400) m d = (days_from_civil y m d + k * 146097)%Z.
Proof.
  unfold days_from_civil.
  replace (if (m <=? 2)%Z then (y + k * 400 - 1)%Z else (y + k * 400)%Z)
    with ((if (m <=? 2)%Z then y - 1 else y) + k * 400)%Z by (destruct (m <=? 2)%Z; ring).
  set (y' := (if (m <=? 2)%Z then (y - 1)%Z else y)). rewrite Z.div_add by lia.
  replace (y' + k * 400 - (y' / 400 + k) * 400)%Z with (y' - y' / 400 * 400)%Z by ring. ring.
Qed.

Lemma leap_era y k : leap (y + k * 400) = leap y.
Proof.
  unfold leap.
  replace (y + k * 400)%Z with (y + (k * 100) * 4)%Z at 1 by ring.
  replace (y + k * 400)%Z with (y + (k * 4) * 100)%Z at 1 by ring.
  by rewrite !Z.mod_add by lia.
Qed.

(** The date of a day is a real date and has that day. *)
Lemma civil_from_days_ok z :
  let '(y, m, d) := civil_from_days z in
  in_range 1 12 m = true /\ in_range 1 (days_in_month y m) d = true /\ days_from_civil y m d = z /\
  ((-719162 <= z <= 2932896)%Z -> in_range 1 9999 y = true).
Proof.
  unfold civil_from_days. set (s := (z + 719468)%Z).
  assert (Hdoe : (0 <= s - s / 146097 * 146097 < 146097)%Z).
  { pose proof (Z.mod_pos_bound s 146097). rewrite Z.mod_eq in H by lia. lia. }
  pose proof (era_day_ok _ Hdoe) as H. destruct (civil_of_era (s - s / 146097 * 146097)) as [[y m] d].
  destruct H as (Hy & Hm & Hd & He & Hlo & Hhi). split; [done|].
  split; [by unfold days_in_month in *; rewrite leap_era|].
  split; [rewrite days_from_era; lia|]. intros Hz. apply in_range_spec. lia.
Qed.

Lemma wall_clock_ok us :
  (-719162 * day_micros <= us < 2932897 * day_micros)%Z ->
  exists t, wall_clock us = Some t /\ wall_micros t = us /\ dt_tz t = None /\
    date_valid (dt_year t) (dt_month t) (dt_day t) = true /\ dt_valid t = true.
Proof.
  intros Hus. unfold wall_clock. pose proof (civil_from_days_ok (us / day_micros)) as H.
  destruct (civil_from_days (us / day_micros)) as [[y m] d]. destruct H as (Hm & Hd & He & Hy).
  rewrite Hy by (unfold day_micros in *; Z.to_euclidean_division_equations; lia). eexists. split; [done|].
  assert (Hr : (0 <= us mod day_micros < day_micros)%Z) by (apply Z.mod_pos_bound; done).
  assert (Hd31 : in_range 1 31 d = true).
  { apply in_range_spec in Hd. apply in_range_spec. unfold days_in_month in Hd.
    destruct (m =? 2)%Z; [destruct (leap y)|destruct (existsb _ _)]; lia. }
  split; [|split; [done|split]].
  - unfold wall_micros. cbn [dt_year dt_month dt_day dt_hour dt_minute dt_second dt_micro]. rewrite He.
    pose proof (Z.div_mod us day_micros ltac:(done)) as E. revert Hr E. generalize (us mod day_micros)%Z as r.
    generalize (us / day_micros)%Z as q. unfold day_micros. intros q r Hr E. Z.to_euclidean_division_equations. lia.
  - unfold date_valid. cbn. rewrite Hm, Hd, Hy; [done|]. unfold day_micros in *. Z.to_euclidean_division_equations; lia.
  - unfold dt_valid. cbn -[in_range]. rewrite Hy, Hm, Hd31 by (unfold day_micros in *; Z.to_euclidean_division_equations; lia).
    cbn -[in_range]. revert Hr. generalize (us mod day_micros)%Z. unfold day_micros. intros r Hr.
    rewrite !andb_true_iff, !in_range_spec. Z.to_euclidean_division_equations. lia.
Qed.

(** ** Offsets as text *)
Section offset_facts.
Context `{CFG : Settings}.

(** The offsets time zones use: whole quarters of an hour from -12 to +14. *)
Definition quarter_hours (k : Z) : float := float_of_decimal (k <? 0)%Z (Z.abs k * 25) (-2).

Lemma quarter_range (p : Z -> bool) :
  forallb p (map (fun n => Z.of_nat n - 48)%Z (seq 0 105)) = true -> forall k, (-48 <= k <= 56)%Z -> p k = true.
Proof.
  intros Hall k H. rewrite forallb_forall in Hall. apply Hall, in_map_iff. exists (Z.to_nat (k + 48)).
  split; [lia|]. apply in_seq. lia.
Qed.

(** A quarter-hour offset survives its text. *)
Lemma offset_roundtrip k :
  (-48 <= k <= 56)%Z -> parse_offset_hours (Some (format_offset_value (quarter_hours k))) = quarter_hours k.
Proof.
  intros H. enough (bool_decide (parse_offset_hours (Some (format_offset_value (quarter_hours k))) = quarter_hours k) = true)
    by (by eapply bool_decide_eq_true).
  revert k H. apply quarter_range. vm_compute. reflexivity.
Qed.

Lemma quarter_micros k : (-48 <= k <= 56)%Z -> display_offset (quarter_hours k) = Ok (k * 900000000)%Z.
Proof.
  intros H. assert (Hq : match display_offset (quarter_hours k) with Ok us => (us =? k * 900000000)%Z | Err _ => false end = true)
    by (revert k H; apply quarter_range; vm_compute; reflexivity).
  destruct (display_offset (quarter_hours k)); [|done]. by apply Z.eqb_eq in Hq as ->.
Qed.

(** A stored time is shown on the clock of the display time zone.  At any
    quarter-hour offset an administrator stored, a UTC time of the years 2 to 9998
    is shown as the wall clock that many quarters of an hour away, with the offset's
    label — never as an error. *)
Theorem time_shown_at_offset k t :
  (-48 <= k <= 56)%Z -> dt_valid t = true -> dt_tz t = None -> (2 <= dt_year t <= 9998)%Z ->
  exists local,
    format_notification_time t (Some (format_offset_value (quarter_hours k))) =
      Ok (strftime local +:+ " (" +:+ format_utc_label (quarter_hours k) +:+ ")") /\
    date_valid (dt_year local) (dt_month local) (dt_day local) = true /\ dt_valid local = true /\
    wall_micros local = (wall_micros t + k * 900000000)%Z.
Proof.
  intros Hk Hv Htz Hy. unfold dt_valid in Hv. rewrite !andb_true_iff, !in_range_spec in Hv.
  destruct (wall_clock_ok (wall_micros t + k * 900000000)) as (local & Hl & Hw & _ & Hd & Hlv).
  { unfold wall_micros, day_micros.
    assert (-719162 + 300 <= days_from_civil (dt_year t) (dt_month t) (dt_day t) <= 2932896 - 300)%Z; [|lia].
    unfold days_from_civil. destruct (Z.leb_spec (dt_month t) 2), (Z.ltb_spec 2 (dt_month t)); try lia;
      Z.to_euclidean_division_equations; lia. }
  exists local. split; [|done]. unfold format_notification_time. rewrite offset_roundtrip by done.
  unfold to_utc. rewrite Htz. cbn [default]. rewrite Z.mul_0_r, Z.sub_0_r, quarter_micros, Hl by done. done.
Qed.
End offset_facts.
