(* ===== verification/StatusPolicies.v ===== *)
(** * The two lifecycles

    The modules of [domain/]: the status of a broadcast cycle
    ([broadcast_status.py]) and the status of a trade ([trade_status.py]).  The merge
    of cycle statuses is a join, so what a cycle shows depends only on which actions it
    has seen, in whatever order they arrived. *)

From S2P Require Import Prelude Enums.
From Stdlib Require Import Permutation.

(** A stored status: the enum member, or the bare string of an older row. *)
Inductive stored_status :=
| Member (s : BroadcastStatusEnum)
| Bare (s : string).

Definition closing_actions : list SignalActionEnum :=
  [SigAction.TP2; SigAction.SL; SigAction.R_SL; SigAction.FLAT].

Definition partial_actions : list SignalActionEnum := [SigAction.TP1].

Definition status_order (s : BroadcastStatusEnum) : Z :=
  match s with CycleStatus.RUNNING => 0 | CycleStatus.TP1 => 1 | CycleStatus.CLOSED => 2 end.

(** [BroadcastStatusEnum(text)]; [None] is its [ValueError]. *)
Definition cycle_status_of (s : string) : option BroadcastStatusEnum :=
  if String.eqb s "RUNNING" then Some CycleStatus.RUNNING
  else if String.eqb s "TP1" then Some CycleStatus.TP1
  else if String.eqb s "CLOSED" then Some CycleStatus.CLOSED
  else None.

Definition as_status (v : stored_status) : BroadcastStatusEnum :=
  match v with
  | Member s => s
  | Bare s => default CycleStatus.RUNNING (cycle_status_of s)
  end.

Definition status_for_action (action : SignalActionEnum) : BroadcastStatusEnum :=
  if bool_decide (action ∈ closing_actions) then CycleStatus.CLOSED
  else if bool_decide (action ∈ partial_actions) then CycleStatus.TP1
  else CycleStatus.RUNNING.

Definition merge_status (current incoming : stored_status) : BroadcastStatusEnum :=
  let current_status := as_status current in
  let incoming_status := as_status incoming in
  if (status_order incoming_status <? status_order current_status)%Z then current_status
  else incoming_status.

(** The status after a sequence of signals, as [record_event] folds it. *)
Definition status_after (s : BroadcastStatusEnum) (actions : list SignalActionEnum) :=
  fold_left (fun s a => merge_status (Member s) (Member (status_for_action a))) actions s.

(** ** Facts *)
Lemma status_order_inj s t : status_order s = status_order t -> s = t.
Proof. by destruct s, t. Qed.

Lemma merge_order s t :
  status_order (merge_status (Member s) (Member t)) =
  Z.max (status_order s) (status_order t).
Proof. by destruct s, t. Qed.

Lemma merge_assoc s t u :
  merge_status (Member (merge_status (Member s) (Member t))) (Member u) =
  merge_status (Member s) (Member (merge_status (Member t) (Member u))).
Proof. by destruct s, t, u. Qed.

Lemma merge_comm s t : merge_status (Member s) (Member t) = merge_status (Member t) (Member s).
Proof. by destruct s, t. Qed.

Lemma merge_idemp s : merge_status (Member s) (Member s) = s.
Proof. by destruct s. Qed.

Lemma merge_stays_closed s : merge_status (Member CycleStatus.CLOSED) (Member s) = CycleStatus.CLOSED.
Proof. by destruct s. Qed.

Lemma as_status_value s : as_status (Bare (cycle_status_value s)) = s.
Proof. by destruct s. Qed.

Lemma status_after_cons s a l :
  status_after s (a :: l) =
  status_after (merge_status (Member s) (Member (status_for_action a))) l.
Proof. done. Qed.

Lemma status_after_grows s actions :
  (status_order s <= status_order (status_after s actions))%Z.
Proof.
  revert s. induction actions as [|a l IH]; intros s; [done|].
  rewrite status_after_cons. specialize (IH (merge_status (Member s) (Member (status_for_action a)))).
  rewrite merge_order in IH. lia.
Qed.

Lemma status_after_swap s a b l :
  status_after s (a :: b :: l) = status_after s (b :: a :: l).
Proof.
  rewrite !status_after_cons. f_equal. rewrite !merge_assoc.
  by rewrite (merge_comm (status_for_action a)).
Qed.

Lemma status_after_perm s l l' : Permutation l l' -> status_after s l = status_after s l'.
Proof.
  intros H. revert s. induction H as [|a l l' _ IH|a b l|l l' l'' _ IH1 _ IH2]; intros s.
  - done.
  - apply IH.
  - apply status_after_swap.
  - by rewrite IH1.
Qed.

Lemma status_after_closed l : status_after CycleStatus.CLOSED l = CycleStatus.CLOSED.
Proof.
  apply status_order_inj. pose proof (status_after_grows CycleStatus.CLOSED l) as H.
  by destruct (status_after CycleStatus.CLOSED l).
Qed.

Lemma closed_iff_closing a : status_for_action a = CycleStatus.CLOSED <-> a ∈ closing_actions.
Proof.
  unfold status_for_action. case_bool_decide; [done|].
  split; [|done]. by case_bool_decide.
Qed.

(** The status of a cycle is determined by the actions it has seen and not
    by their order (redelivery and concurrent fan-outs reorder them); it never
    moves back whatever follows, and it is CLOSED exactly when one of the actions
    closes the cycle. *)
Theorem status_order_independent s l l' later :
  Permutation l l' ->
  status_after s l = status_after s l' /\
  (status_order (status_after s l) <= status_order (status_after s (l ++ later)))%Z /\
  (status_after CycleStatus.RUNNING l = CycleStatus.CLOSED <->
   exists a, a ∈ l /\ a ∈ closing_actions).
Proof.
  intros HP. split; [by apply status_after_perm|]. split.
  { unfold status_after. rewrite fold_left_app. apply status_after_grows. }
  clear HP. assert (forall s0, s0 <> CycleStatus.CLOSED ->
    status_after s0 l = CycleStatus.CLOSED <-> exists a, a ∈ l /\ a ∈ closing_actions) as H.
  2: by apply H.
  induction l as [|a l IH]; intros s0 Hs.
  { simpl. split; [done|]. intros (a & Ha & _). by apply not_elem_of_nil in Ha. }
  rewrite status_after_cons.
  destruct (decide (a ∈ closing_actions)) as [Hc|Hc].
  - assert (status_for_action a = CycleStatus.CLOSED) as -> by by apply closed_iff_closing.
    rewrite merge_comm, merge_stays_closed. split; [|intros; apply status_after_closed].
    intros _. exists a. split; [left|done].
  - rewrite IH.
    + split; intros (x & Hx & ?); exists x; split; try done; [by right|].
      by apply elem_of_cons in Hx as [->|?].
    + rewrite <-closed_iff_closing in Hc. by destruct s0, (status_for_action a).
Qed.

Lemma status_order_independent_witness :
  status_after CycleStatus.RUNNING [SigAction.LONG; SigAction.SL; SigAction.TP1] =
  CycleStatus.CLOSED.
Proof.
  assert (Permutation [SigAction.LONG; SigAction.SL; SigAction.TP1]
            [SigAction.LONG; SigAction.TP1; SigAction.SL]) as H by (apply perm_skip, perm_swap).
  exact (proj1 (status_order_independent CycleStatus.RUNNING _ _ [] H)).
Defined.

(** ** Trade lifecycle policy

    [TradeStatusPolicy] of [domain/trade_status.py]: how a worker's position
    status maps onto a trade status, and which transitions are downgrades. *)

(** [_POSITION_STATUS_TO_TRADE_STATUS]. *)
Definition position_status_table : list (string * TradeStatusEnum) :=
  [("OPENED", TradeStatus.OPENED);
   ("REJECTED", TradeStatus.REJECTED);
   ("TP1", TradeStatus.PARTIALLY_CLOSED);
   ("TP2", TradeStatus.CLOSED);
   ("SL", TradeStatus.CLOSED);
   ("R_SL", TradeStatus.CLOSED);
   ("TERMINAL_CLOSED", TradeStatus.CLOSED);
   ("FORCED_CLOSED", TradeStatus.CLOSED);
   ("FLATTED", TradeStatus.FLAT)].

Definition open_statuses : list string := ["OPENED"; "TP1"].

Definition last_action_labels : list (string * string) := [("FLATTED", "FLAT")].

(** [_STATUS_ORDER]. *)
Definition trade_status_rank (s : TradeStatusEnum) : Z :=
  match s with
  | TradeStatus.OPENED => 0
  | TradeStatus.PARTIALLY_CLOSED => 1
  | TradeStatus.CLOSED => 2
  | TradeStatus.FLAT => 2
  | TradeStatus.REJECTED => -1
  end.

Fixpoint table_get {V} (k : string) (t : list (string * V)) : option V :=
  match t with
  | [] => None
  | (k', v) :: r => if String.eqb k k' then Some v else table_get k r
  end.

Definition to_trade_status (position_status : string) : option TradeStatusEnum :=
  table_get position_status position_status_table.

Definition to_last_action (position_status : string) : option string :=
  match to_trade_status position_status with
  | None => None
  | Some _ => Some (default position_status (table_get position_status last_action_labels))
  end.

Definition is_open (position_status : string) : bool :=
  existsb (String.eqb position_status) open_statuses.

Definition is_downgrade (new_status current_status : TradeStatusEnum) : bool :=
  (trade_status_rank new_status <? trade_status_rank current_status)%Z.

(** ** Facts *)
Lemma table_get_elem {V} k (t : list (string * V)) v : table_get k t = Some v -> (k, v) ∈ t.
Proof.
  induction t as [|[k' v'] t IH]; simpl; [done|].
  destruct (String.eqb_spec k k') as [->|]; [intros [= ->]; left|right; auto].
Qed.

Lemma is_open_known st : is_open st = true -> is_Some (to_trade_status st).
Proof.
  unfold is_open. simpl. rewrite orb_false_r.
  destruct (String.eqb_spec st "OPENED") as [->|]; simpl; [eauto|].
  destruct (String.eqb_spec st "TP1") as [->|]; simpl; [eauto|done].
Qed.

(** A running position is one whose trade status is [OPENED] or
    [PARTIALLY_CLOSED], for every status the table knows. *)
Lemma is_open_status st s :
  to_trade_status st = Some s ->
  is_open st = true <-> s = TradeStatus.OPENED \/ s = TradeStatus.PARTIALLY_CLOSED.
Proof.
  intros H%table_get_elem. unfold position_status_table in H.
  repeat (apply elem_of_cons in H as [H|H];
    [injection H as -> ->; vm_compute; split; [intros; try done; auto | by intros [?|?]]|]).
  by apply not_elem_of_nil in H.
Qed.

(** The rank order [is_downgrade] enforces: it is a strict order, so along any
    sequence of accepted transitions the rank never falls; a trade that left the
    open states through CLOSED or FLAT can only move to CLOSED or FLAT again.  A
    REJECTED trade is not protected: every status is accepted after it. *)
Theorem downgrade_policy :
  (forall s, is_downgrade s s = false) /\
  (forall a b c, is_downgrade a b = false -> is_downgrade b c = false ->
     is_downgrade a c = false) /\
  (forall new current, trade_status_rank current = 2%Z ->
     is_downgrade new current = false <->
     new = TradeStatus.CLOSED \/ new = TradeStatus.FLAT) /\
  (forall new, is_downgrade new TradeStatus.REJECTED = false) /\
  (forall current, current <> TradeStatus.REJECTED ->
     is_downgrade TradeStatus.REJECTED current = true).
Proof.
  repeat split.
  - by destruct s.
  - intros a b c. unfold is_downgrade. rewrite !Z.ltb_ge. lia.
  - by destruct new, current; auto.
  - by destruct new, current; intros [?|?].
  - by destruct new.
  - by destruct current.
Qed.
