(* ===== verification/Samples.v ===== *)
(** * Concrete inputs

    A payload, a stand-in for pydantic and configurations, on which the theorems
    are exercised. *)

From S2P Require Import Prelude PyStr Uuid PyTime Json JsonText Enums Schemas Models World Settings.
From Stdlib Require Import SpecFloat.

Definition f_one : float := S754_finite false 1 0.

Definition sample_time : datetime := mk_datetime 2026 6 2 10 15 0 0 (Some 0%Z).

Definition sample_position (a : SignalActionEnum) : PositionSchema :=
  {| p_action := a; p_price := Some f_one; p_quantity := Some f_one; p_sl := None;
     p_tp1 := None; p_tp2 := None; p_risk_percent := None; p_tp1_percent := None;
     p_use_equity_sizing := None; p_move_sl_to_be := None; p_is_running := Some true;
     p_is_scale_position := None; p_scale_strategy := None; p_scaling := None |}.

Definition sample_payload (a : SignalActionEnum) : WebhookPayload :=
  {| w_strategy := "wt_bb_atr"; w_symbol := "OANDA:xauusd"; w_timeframe := "15";
     w_timestamp := sample_time; w_signal_uxid := "9F2C4B7E18A3D605";
     w_position := sample_position a; w_indicators := None; w_inputs := None;
     w_token := "secret" |}.

(** Accepts objects that name a known action under ["action"]. *)
Definition sample_validate (kvs : list (string * json)) : option WebhookPayload :=
  match assoc "action" kvs with
  | Some (JStr a) =>
      (fun x => sample_payload x) <$>
      List.find (fun x => String.eqb (action_value x) a) action_members
  | _ => None
  end.

Definition sample_dump (p : WebhookPayload) : json :=
  JObj [("action", JStr (action_value (p_action (w_position p))))].

#[local] Instance sample_pydantic : Pydantic := {|
  validate_webhook := sample_validate;
  dump_webhook := sample_dump;
  dump_indicators := fun _ => JObj [];
  dump_inputs := fun _ => JObj [];
  reject_signal := fun _ => None;
  validate_position_event := fun _ => None
|}.

Definition sample_settings : Settings := {|
  set_webhook := {| wh_SECRET := "secret"; wh_DEFERRED_ENQUEUE_MAX_ATTEMPTS := 15 |};
  set_telegram := {| tg_ENABLED := true; tg_BOT_TOKEN := "token";
                     tg_BROKER_LOG_CHAT_IDS := "-1009,-1008_7"; tg_PRIVATE_BROADCAST_CHAT_IDS := "-1001";
                     tg_SERVICE_BOT_TOKEN := "service"; tg_LOG_DEDUP_WINDOW := 60; tg_LOG_CHAT_ID := "";
                     tg_LOG_BOT_TOKEN := "" |};
  set_signal := {| sig_MAX_ATTEMPTS := 3; sig_RETRY_INTERVAL_SECONDS := 15 |};
  set_broker_api := {| api_API_KEY := "key" |};
  set_notification := {| nt_DEFAULT_TIMEZONE_OFFSET_HOURS := float_of_decimal false 7 0 |}
|}.

(** A world whose environment draws the given outcomes and uuids. *)
Definition sample_world (s : list outcome) (us : list uuid) : World :=
  set_sched s (set_uuids us world0).

(** A worker's report of one ticket. *)
Definition sample_report (position_status : string) (gateway : option string) : PositionEvent :=
  {| ev_event := UPDATED; ev_market := Market.FOREX; ev_strategy := "wt_bb_atr"; ev_strategy_code := None;
     ev_id := 1; ev_signal_id := None; ev_ref_source_id := "9001"; ev_ref_id := "9001"; ev_symbol := "XAUUSD";
     ev_action := "long"; ev_volume := f_one; ev_sl := None; ev_tp1 := None; ev_tp2 := None;
     ev_risk_percent := f_zero; ev_opened_price := S754_finite false 3 0; ev_closed_price := Some f_zero;
     ev_status := position_status; ev_reject_reason := None; ev_gateway_return_code := None; ev_comment := None;
     ev_message := None; ev_created_at := None; ev_updated_at := None; ev_sync_status := None;
     ev_sync_time := None; ev_account_leverage := None; ev_account_balance := None; ev_account_id := "1234";
     ev_account_name := None; ev_gateway := gateway |}.
