(* ===== verification/SignalRepo.v ===== *)
(** * The signals table

    [SqlAlchemySignalRepository] ([db/repository/signal.py]): one definition per
    method, the step relation [signals_step] every one of them respects, and the
    invariant of a row's delivery state. *)

From S2P Require Import Prelude PyStr Uuid PyTime Json Enums Schemas Models World Settings.
From S2P Require Import Samples.

Section repository.
Context `{PY : Pydantic} `{CFG : Settings}.

(** ** Operations *)

(** [payload.inputs.risk_percent] behind [position.risk_percent], else [0.0]. *)
Definition risk_percent_of (payload : WebhookPayload) : float :=
  match p_risk_percent (w_position payload) with
  | Some r => r
  | None =>
      match w_inputs payload with
      | Some inputs => default f_zero (in_risk_percent inputs)
      | None => f_zero
      end
  end.

(** The row [log_signal] builds. *)
Definition signal_row (new_id : uuid) (t : instant) (payload : WebhookPayload)
    (delivery_key : option string) (attempts : option Z) : Signal :=
  let pos := w_position payload in
  {| sg_id := new_id;
     sg_createdAt := t;
     sg_strategy := w_strategy payload;
     sg_symbol := w_symbol payload;
     sg_timeframe := w_timeframe payload;
     sg_timestamp := w_timestamp payload;
     sg_signal_uxid := Some (w_signal_uxid payload);
     sg_action := p_action pos;
     sg_price := or_zero (p_price pos);
     sg_quantity := or_zero (p_quantity pos);
     sg_sl := p_sl pos;
     sg_tp1 := p_tp1 pos;
     sg_tp2 := p_tp2 pos;
     sg_is_running := default false (p_is_running pos);
     sg_risk_percent := risk_percent_of payload;
     sg_is_scale_position := default false (p_is_scale_position pos);
     sg_scale_strategy := p_scale_strategy pos;
     sg_status := SigStatus.QUEUED;
     sg_attempts := default (sig_MAX_ATTEMPTS set_signal) attempts;
     sg_last_attempt := None;
     sg_delivery_key := delivery_key;
     sg_indicators := match w_indicators payload with Some i => dump_indicators i | None => JObj [] end;
     sg_inputs := match w_inputs payload with Some i => dump_inputs i | None => JObj [] end;
     sg_raw := dump_webhook payload |}.

Definition insert_signal (r : Signal) (d : Db) : res exn (unit * Db) :=
  match insert_unique signal_clash r (signals d) with
  | Some t => Ok (tt, set_signals t d)
  | None => Err IntegrityError
  end.

Definition log_signal (payload : WebhookPayload) (delivery_key : option string)
    (attempts : option Z) : prog (option string) :=
  let! new_id := uuid4 in
  catch
    (do! session (fun t d => insert_signal (signal_row new_id t payload delivery_key attempts) d) in
     Ret (Some (uuid_str new_id)))
    (fun _ => Ret None).

(** [select(Signal).where(Signal.id == row_id)] and an assignment to the row it
    returns; answers the row as it is after the assignment. *)
Definition assign_signal (row_id : uuid) (f : instant -> Signal -> Signal)
    (t : instant) (d : Db) : res exn (option Signal * Db) :=
  match select_first (fun r => bool_decide (sg_id r = row_id)) (signals d) with
  | None => Ok (None, d)
  | Some r =>
      Ok (Some (f t r),
          set_signals (update_where (fun r => bool_decide (sg_id r = row_id)) (f t) (signals d)) d)
  end.

Definition publish_row (_ : instant) (r : Signal) : Signal :=
  sg_set_delivery SigStatus.PUBLISHED (sg_attempts r) (sg_last_attempt r) r.

Definition fail_row (t : instant) (r : Signal) : Signal :=
  sg_set_delivery SigStatus.FAILED 0 (Some t) r.

Definition consume_attempt (t : instant) (r : Signal) : Signal :=
  if (sg_attempts r <=? 1)%Z then sg_set_delivery SigStatus.FAILED 0 (Some t) r
  else sg_set_delivery (sg_status r) (sg_attempts r - 1) (Some t) r.

Definition mark_published (signal_id : string) : prog bool :=
  match uuid_parse signal_id with
  | None => Ret false
  | Some row_id =>
      catch (let! r := session (assign_signal row_id publish_row) in
             Ret (match r with None => false | Some _ => true end))
            (fun _ => Ret false)
  end.

(** Raises on a database error. *)
Definition get_by_delivery_key (delivery_key : string) : prog (option Signal) :=
  query (fun d => select_first (fun r => bool_decide (sg_delivery_key r = Some delivery_key)) (signals d)).

Definition mark_failed (signal_id : string) : prog bool :=
  match uuid_parse signal_id with
  | None => Ret false
  | Some row_id =>
      catch (let! r := session (assign_signal row_id fail_row) in
             Ret (match r with None => false | Some _ => true end))
            (fun _ => Ret false)
  end.

Definition get_by_id (signal_id : string) : prog (option Signal) :=
  match uuid_parse signal_id with
  | None => Ret None
  | Some row_id =>
      catch (query (fun d => select_first (fun r => bool_decide (sg_id r = row_id)) (signals d)))
            (fun _ => Ret None)
  end.

Definition record_attempt_failure (signal_id : string) : prog (option Signal) :=
  match uuid_parse signal_id with
  | None => Ret None
  | Some row_id =>
      catch (session (assign_signal row_id consume_attempt)) (fun _ => Ret None)
  end.

(** [last_attempt < threshold]: a comparison with [NULL] is not true. *)
Definition attempted_before (threshold : instant) (r : Signal) : bool :=
  match sg_last_attempt r with Some t => (t <? threshold)%Z | None => false end.

Definition retryable (threshold : instant) (r : Signal) : bool :=
  bool_decide (sg_status r = SigStatus.QUEUED) && (0 <? sg_attempts r)%Z &&
  bool_decide (is_Some (sg_last_attempt r)) && attempted_before threshold r.

Definition list_retryable (retry_interval_seconds : Z) : prog (list Signal) :=
  let! t := clock in
  let threshold := minus_seconds t retry_interval_seconds in
  catch (query (fun d => order_by sg_createdAt (select_where (retryable threshold) (signals d))))
        (fun _ => Ret []).

(** [(signal_id, raw)] envelopes; [raw] is kept when truthy. *)
Definition list_recent_by_strategies (strategies : list string) (since_seconds : Z)
    : prog (list (string * json)) :=
  match strategies with
  | [] => Ret []
  | _ =>
      if (since_seconds <=? 0)%Z then Ret []
      else
        let! t := clock in
        let since_dt := minus_seconds t since_seconds in
        let! rows :=
          catch (query (fun d => order_by sg_createdAt
                   (select_where (fun r => existsb (String.eqb (sg_strategy r)) strategies &&
                                           (since_dt <=? sg_createdAt r)%Z) (signals d))))
                (fun _ => Ret []) in
        Ret (omap (fun r => if json_truthy (sg_raw r)
                            then Some (uuid_str (sg_id r), sg_raw r) else None) rows)
  end.

End repository.

(** ** How the table evolves *)

(** [r'] is [r] with, at most, another delivery state. *)
Definition same_signal (r r' : Signal) : Prop :=
  r' = sg_set_delivery (sg_status r') (sg_attempts r') (sg_last_attempt r') r.

(** Rows are only ever appended, and only their delivery state changes. *)
Definition signals_evolve (s s' : list Signal) : Prop :=
  exists s1 n, s' = s1 ++ n /\ Forall2 same_signal s s1.

(** The unique constraints of the table. *)
Definition signals_unique (s : list Signal) : Prop :=
  NoDup (map sg_id s) /\ unique_key sg_delivery_key s.

Definition signals_step (w w' : World) : Prop :=
  signals_evolve (signals (db w)) (signals (db w')) /\
  (signals_unique (signals (db w)) -> signals_unique (signals (db w'))).

Lemma same_signal_refl r : same_signal r r.
Proof. by destruct r. Qed.

Lemma same_signal_trans r1 r2 r3 : same_signal r1 r2 -> same_signal r2 r3 -> same_signal r1 r3.
Proof. unfold same_signal. intros -> ->. by destruct r1. Qed.

Lemma same_signal_id r r' : same_signal r r' -> sg_id r' = sg_id r.
Proof. intros ->. by destruct r. Qed.

Lemma same_signal_key r r' : same_signal r r' -> sg_delivery_key r' = sg_delivery_key r.
Proof. intros ->. by destruct r. Qed.

Lemma same_signal_set st a la r : same_signal r (sg_set_delivery st a la r).
Proof. by destruct r. Qed.

#[export] Hint Resolve same_signal_refl same_signal_set : tables.

Lemma signals_evolve_refl s : signals_evolve s s.
Proof.
  exists s, []. rewrite app_nil_r. split; [done|].
  induction s; constructor; auto with tables.
Qed.

Lemma signals_evolve_trans s1 s2 s3 :
  signals_evolve s1 s2 -> signals_evolve s2 s3 -> signals_evolve s1 s3.
Proof.
  intros (t1 & n1 & -> & H1) (t2 & n2 & -> & H2).
  apply Forall2_app_inv_l in H2 as (t2a & t2b & H2a & H2b & ->).
  exists t2a, (t2b ++ n2). rewrite app_assoc. split; [done|].
  clear H2b. revert t2a H2a. induction H1 as [|r r1 s t H _ IH]; intros t2a H2a.
  - by inversion H2a.
  - inversion H2a; subst. constructor; [by eapply same_signal_trans|auto].
Qed.

#[export] Instance signals_step_preorder : PreOrder signals_step.
Proof.
  split.
  - intros w. split; [apply signals_evolve_refl|done].
  - intros w1 w2 w3 [E1 U1] [E2 U2]. split; [by eapply signals_evolve_trans|auto].
Qed.

Lemma signals_step_same w w' : signals (db w') = signals (db w) -> signals_step w w'.
Proof. intros H. unfold signals_step. rewrite H. split; [apply signals_evolve_refl|done]. Qed.

Lemma evolve_elem s s' r :
  signals_evolve s s' -> r ∈ s -> exists r', r' ∈ s' /\ same_signal r r'.
Proof.
  intros (s1 & n & -> & H) Hr. apply list_elem_of_lookup in Hr as [i Hi].
  destruct (Forall2_lookup_l _ _ _ _ _ H Hi) as (r' & Hi' & Hs).
  exists r'. split; [|done]. apply elem_of_app. left. by eapply list_elem_of_lookup_2.
Qed.

Lemma evolve_update p f s :
  (forall r, same_signal r (f r)) -> signals_evolve s (update_where p f s).
Proof.
  intros Hf. exists (update_where p f s), []. rewrite app_nil_r. split; [done|].
  unfold update_where. induction s as [|r s IH]; simpl; constructor; auto.
  destruct (p r); auto with tables.
Qed.

Lemma unique_update p f s :
  (forall r, same_signal r (f r)) -> signals_unique s -> signals_unique (update_where p f s).
Proof.
  intros Hf [Hid Hk]. split.
  - rewrite update_where_proj; [done|]. intros r _. by apply same_signal_id.
  - apply unique_key_update; [|done]. intros r _. by apply same_signal_key.
Qed.

Lemma unique_insert r s s' :
  insert_unique signal_clash r s = Some s' -> signals_unique s -> signals_unique s'.
Proof.
  intros [-> HF]%insert_unique_Some [Hid Hk]. rewrite Forall_forall in HF. split.
  - rewrite map_app. apply NoDup_app. split; [done|]. split; [|apply NoDup_singleton].
    intros i (x & -> & Hx)%list_elem_of_fmap Heq%list_elem_of_singleton.
    pose proof (HF x Hx) as Hc. apply orb_false_iff in Hc as [Hc _].
    apply bool_decide_eq_false in Hc. congruence.
  - apply unique_key_snoc; [done|]. intros k Hr. apply Forall_forall. intros x Hx Hxk.
    pose proof (HF x Hx) as Hc. apply orb_false_iff in Hc as [_ Hc].
    rewrite Hr, Hxk in Hc. simpl in Hc. by rewrite bool_decide_eq_true_2 in Hc.
Qed.

Lemma evolve_insert r s s' : insert_unique signal_clash r s = Some s' -> signals_evolve s s'.
Proof.
  intros [-> _]%insert_unique_Some. exists s, [r]. split; [done|].
  induction s; constructor; auto with tables.
Qed.

(** ** Every operation is a step *)
Lemma always_db_same {A} (t : Db -> A) : always signals_step (query t).
Proof. apply always_query. intros w w' _ _ Hd. apply signals_step_same. by rewrite Hd. Qed.

Lemma signals_step_frame : frame_ok signals_step.
Proof. intros w w' _ _ Hd. apply signals_step_same. by rewrite Hd. Qed.

#[export] Hint Resolve signals_step_frame : tables.

Lemma assign_step row_id f :
  (forall t r, same_signal r (f t r)) -> always signals_step (session (assign_signal row_id f)).
Proof.
  intros Hf. apply always_session.
  - intros w w' _ _ Hd. apply signals_step_same. by rewrite Hd.
  - intros w w' a _ _ Ht. unfold assign_signal in Ht.
    unfold signals_step. destruct (select_first _ _); injection Ht as _ <-.
    + split; simpl; [by apply evolve_update|by apply unique_update].
    + split; [apply signals_evolve_refl|done].
Qed.

Lemma insert_step (f : instant -> Signal) :
  always signals_step (session (fun t d => insert_signal (f t) d)).
Proof.
  apply always_session.
  - intros w w' _ _ Hd. apply signals_step_same. by rewrite Hd.
  - intros w w' a _ _ Ht. unfold insert_signal in Ht.
    destruct (insert_unique _ _ _) as [s|] eqn:E; [|done]. injection Ht as _ Ht.
    unfold signals_step. rewrite <-Ht. split; simpl; [by eapply evolve_insert|by eapply unique_insert].
Qed.

Lemma consume_same t r : same_signal r (consume_attempt t r).
Proof. unfold consume_attempt. destruct (_ <=? _)%Z; apply same_signal_set. Qed.

Lemma publish_same t r : same_signal r (publish_row t r).
Proof. apply same_signal_set. Qed.

Lemma fail_same t r : same_signal r (fail_row t r).
Proof. apply same_signal_set. Qed.

Section steps.
Context `{PY : Pydantic} `{CFG : Settings}.

Lemma log_signal_step payload key attempts :
  always signals_step (log_signal payload key attempts).
Proof.
  apply always_bind; [apply always_uuid4, signals_step_frame|]. intros u.
  apply always_catch; [|done]. apply always_bind; [|done].
  apply (insert_step (fun t => signal_row u t payload key attempts)).
Qed.

Lemma mark_published_step id : always signals_step (mark_published id).
Proof.
  unfold mark_published. destruct (uuid_parse id); [|done].
  apply always_catch; [|done]. apply always_bind; [|done].
  apply assign_step, publish_same.
Qed.

Lemma mark_failed_step id : always signals_step (mark_failed id).
Proof.
  unfold mark_failed. destruct (uuid_parse id); [|done].
  apply always_catch; [|done]. apply always_bind; [|done].
  apply assign_step, fail_same.
Qed.

Lemma record_attempt_failure_step id : always signals_step (record_attempt_failure id).
Proof.
  unfold record_attempt_failure. destruct (uuid_parse id); [|done].
  apply always_catch; [|done]. apply assign_step, consume_same.
Qed.

Lemma get_by_id_step id : always signals_step (get_by_id id).
Proof.
  unfold get_by_id. destruct (uuid_parse id); [|done].
  apply always_catch; [|done]. apply always_db_same.
Qed.

Lemma get_by_delivery_key_step key : always signals_step (get_by_delivery_key key).
Proof. apply always_db_same. Qed.

Lemma list_retryable_step n : always signals_step (list_retryable n).
Proof.
  apply always_bind; [apply always_clock, signals_step_frame|]. intros t.
  apply always_catch; [apply always_db_same|done].
Qed.
End steps.

(** ** The delivery state of a row *)

(** A signal has between [0] and [max] attempts left: some while it is QUEUED,
    none once it is FAILED, and all of them as long as no failure was recorded. *)
Definition delivery_ok (max : Z) (r : Signal) : Prop :=
  (0 <= sg_attempts r <= max)%Z /\
  (sg_status r = SigStatus.QUEUED -> 0 < sg_attempts r)%Z /\
  (sg_status r = SigStatus.FAILED -> sg_attempts r = 0)%Z /\
  (sg_status r = SigStatus.QUEUED -> sg_last_attempt r = None -> sg_attempts r = max).

Lemma consume_ok max t r : delivery_ok max r -> delivery_ok max (consume_attempt t r).
Proof.
  unfold delivery_ok, consume_attempt. intros (Hr & Hq & Hf & Hn).
  destruct (Z.leb_spec (sg_attempts r) 1); simpl; repeat split; try done; intros; try lia.
  specialize (Hf H0). lia.
Qed.

Lemma publish_ok max t r : delivery_ok max r -> delivery_ok max (publish_row t r).
Proof. unfold delivery_ok. intros (? & _). simpl. repeat split; try done; lia. Qed.

Lemma fail_ok max t r : (0 <= max)%Z -> delivery_ok max r -> delivery_ok max (fail_row t r).
Proof. unfold delivery_ok. intros. simpl. repeat split; try done; lia. Qed.

Lemma Forall_update_where {row} (P : row -> Prop) p f (t : list row) :
  (forall r, P r -> P (f r)) -> Forall P t -> Forall P (update_where p f t).
Proof.
  intros Hf. unfold update_where. induction 1 as [|r t Hr _ IH]; simpl; constructor; auto.
  destruct (p r); auto.
Qed.

(** The calls the services make on the table. *)
Inductive signal_call :=
| CallLog (payload : WebhookPayload) (delivery_key : option string)
| CallPublished (signal_id : string)
| CallFailed (signal_id : string)
| CallAttemptFailure (signal_id : string).

Section delivery.
Context `{PY : Pydantic} `{CFG : Settings} (max : Z).

Definition perform (c : signal_call) : prog unit :=
  match c with
  | CallLog payload key => do! log_signal payload key (Some max) in Ret tt
  | CallPublished id => do! mark_published id in Ret tt
  | CallFailed id => do! mark_failed id in Ret tt
  | CallAttemptFailure id => do! record_attempt_failure id in Ret tt
  end.

Definition keeps_delivery (w w' : World) : Prop :=
  Forall (delivery_ok max) (signals (db w)) -> Forall (delivery_ok max) (signals (db w')).

#[local] Instance keeps_delivery_preorder : PreOrder keeps_delivery.
Proof. unfold keeps_delivery. split; [intros w H; exact H|intros w1 w2 w3; auto]. Qed.

Lemma assign_keeps row_id f :
  (forall t r, delivery_ok max r -> delivery_ok max (f t r)) ->
  always keeps_delivery (session (assign_signal row_id f)).
Proof.
  intros Hf. apply always_session; unfold keeps_delivery.
  - intros w w' _ _ ->. done.
  - intros w w' a _ _ Ht HF. unfold assign_signal in Ht.
    destruct (select_first _ _); injection Ht as _ <-; [|done]. simpl.
    apply Forall_update_where; auto.
Qed.

Lemma perform_keeps c : (1 <= max)%Z -> always keeps_delivery (perform c).
Proof.
  intros Hmax. destruct c; apply always_bind; try done.
  - apply always_bind; [apply always_uuid4; unfold keeps_delivery; by intros w w' _ _ ->|]. intros u.
    apply always_catch; [|done]. apply always_bind; [|done].
    apply always_session; unfold keeps_delivery; [by intros w w' _ _ ->|].
    intros w w' a _ _ Ht HF. unfold insert_signal in Ht.
    destruct (insert_unique _ _ _) as [s|] eqn:E; [|done]. injection Ht as _ <-.
    apply insert_unique_Some in E as [-> _]. simpl. apply Forall_app. split; [done|].
    repeat constructor; simpl; try done; lia.
  - unfold mark_published. destruct (uuid_parse _); [|done].
    apply always_catch; [|done]. apply always_bind; [|done].
    apply assign_keeps. intros. by apply publish_ok.
  - unfold mark_failed. destruct (uuid_parse _); [|done].
    apply always_catch; [|done]. apply always_bind; [|done].
    apply assign_keeps. intros. apply fail_ok; [lia|done].
  - unfold record_attempt_failure. destruct (uuid_parse _); [|done].
    apply always_catch; [|done]. apply assign_keeps. intros. by apply consume_ok.
Qed.
End delivery.

(** Whatever calls are made on the table, in whatever order and with whatever
    database failures in between, every row keeps a sound delivery state: the
    attempt counter stays within the budget, a QUEUED row always has attempts
    left, a FAILED row has none, and a QUEUED row no failure was recorded on
    still has the whole budget. *)
Theorem delivery_state_invariant `{PY : Pydantic} `{CFG : Settings} max calls w :
  (1 <= max)%Z ->
  Forall (delivery_ok max) (signals (db w)) ->
  Forall (delivery_ok max) (signals (db (run (for_each calls (perform max)) w).2)).
Proof.
  intros Hmax. pose proof (keeps_delivery_preorder max).
  apply (always_run (keeps_delivery max)), always_for_each.
  intros c. by apply perform_keeps.
Qed.

Lemma delivery_state_invariant_witness :
  let w := sample_world [Done; Lost; Failed] [uid 7] in
  Forall (delivery_ok 3)
    (signals (db (run (for_each [CallLog (sample_payload SigAction.LONG) (Some "k");
                                 CallAttemptFailure (uuid_str (uid 7));
                                 CallPublished (uuid_str (uid 7))]
                         (@perform sample_pydantic sample_settings 3)) w).2)).
Proof.
  apply (@delivery_state_invariant sample_pydantic sample_settings); [lia|constructor].
Defined.

Lemma retryable_spec t n r :
  retryable (minus_seconds t n) r = true <->
  sg_status r = SigStatus.QUEUED /\ (0 < sg_attempts r)%Z /\
  exists la, sg_last_attempt r = Some la /\ (la + n * 1000000 < t)%Z.
Proof.
  unfold retryable, attempted_before, minus_seconds.
  rewrite !andb_true_iff, !bool_decide_eq_true, Z.ltb_lt.
  destruct (sg_last_attempt r) as [la|].
  - rewrite Z.ltb_lt. split.
    + intros (((? & ?) & ?) & ?). repeat split; try done. exists la. split; [done|lia].
    + intros (? & ? & la' & [= ->] & ?). repeat split; try done. lia.
  - split; [intros (_ & ?); done|intros (? & ? & la' & ? & ?); done].
Qed.

(** What the retry job may pick up, exactly: [list_retryable] never raises or
    writes; it answers rows oldest first, each of them QUEUED with attempts left
    and a failure recorded more than the interval ago, and, when the database
    answers, all of those.  In particular a row whose first fan-out is still
    unconfirmed is never picked, and neither is one that failed within the
    interval. *)
Theorem list_retryable_spec interval w :
  exists rows w', run (list_retryable interval) w = (Ok rows, w') /\
  signals (db w') = signals (db w) /\
  StronglySorted (key_le sg_createdAt) rows /\
  (forall r, r ∈ rows ->
     r ∈ signals (db w) /\ sg_status r = SigStatus.QUEUED /\ (0 < sg_attempts r)%Z /\
     exists t, sg_last_attempt r = Some t /\ (t + interval * 1000000 < now w)%Z) /\
  (sched w = [] -> forall r t, r ∈ signals (db w) -> sg_status r = SigStatus.QUEUED ->
     (0 < sg_attempts r)%Z -> sg_last_attempt r = Some t ->
     (t + interval * 1000000 < now w)%Z -> r ∈ rows).
Proof.
  unfold list_retryable, clock. rewrite run_bind, run_act, run_catch. unfold query, session.
  rewrite run_act.
  set (rows0 := order_by sg_createdAt
         (select_where (retryable (minus_seconds (now w) interval)) (signals (db w)))).
  assert (forall r, r ∈ rows0 <->
    r ∈ signals (db w) /\ sg_status r = SigStatus.QUEUED /\ (0 < sg_attempts r)%Z /\
    exists t, sg_last_attempt r = Some t /\ (t + interval * 1000000 < now w)%Z) as Hrows.
  { intros r. unfold rows0. rewrite elem_of_order_by, elem_of_select_where, retryable_spec. done. }
  pose proof (session_cases (fun _ d => Ok (order_by sg_createdAt
         (select_where (retryable (minus_seconds (now w) interval)) (signals d)), d)) w) as H.
  assert (sched w = [] -> (session_step (fun _ d => Ok (order_by sg_createdAt
         (select_where (retryable (minus_seconds (now w) interval)) (signals d)), d)) w).1 = Ok rows0)
    as Hs by (unfold session_step, next_outcome; intros ->; done).
  destruct (session_step _ w) as [r w']. destruct H as (_ & _ & H). simpl in Hs.
  assert (signals (db w') = signals (db w) /\ (r = Ok rows0 \/ exists e, r = Err e)) as [Hd Hr].
  { destruct H as [(e & -> & ->)|(a & d & [= <- <-] & -> & [->| ->])]; eauto. }
  destruct Hr as [->|[e ->]]; simpl.
  - exists rows0, w'. repeat split; try done; try (by apply Hrows); [apply order_by_sorted|].
    intros _ r t ?????. apply Hrows. eauto 10.
  - exists [], w'. split; [done|]. split; [done|]. split; [constructor|].
    split; [by intros r ?%not_elem_of_nil|by intros Hn%Hs].
Qed.
