(* ===== verification/SignalHelper.v ===== *)
(** * From webhook payload to trading signal

    [helpers/signal_helper.py] ([parse_signal], [action_to_emoji]),
    [helpers/timeframe_helper.py], the blocked-signal warning of
    [helpers/message_formatter.py] and [NatsPublisher]'s three trading methods
    ([services/nats_service.py]). *)

From S2P Require Import Prelude PyStr Uuid PyTime Json Enums Schemas Models World Settings.
From S2P Require Import Samples SignalRepo.
From Stdlib Require Import Ascii.

(** ** Helpers *)

(** [payload.symbol.split(":")[-1].upper().strip()]. *)
Definition normalise_symbol (symbol : string) : string :=
  strip (upper (List.last (split ":" symbol) EmptyString)).

(** [format_timeframe(minutes)] of a text. *)
Definition format_timeframe (minutes : string) : string :=
  match py_int 10 minutes with
  | None => minutes
  | Some m =>
      if (m <=? 0)%Z then "M" +:+ str_int m
      else if (m mod 1440 =? 0)%Z then "D" +:+ str_int (m / 1440)
      else if (m mod 60 =? 0)%Z then "H" +:+ str_int (m / 60)
      else "M" +:+ str_int m
  end.

Definition action_to_emoji (action : SignalActionEnum) : string :=
  match action with
  | SigAction.LONG => "🟩"
  | SigAction.SHORT => "🟥"
  | SigAction.TP1 => "🎯"
  | SigAction.TP2 => "🚀"
  | SigAction.R_SL => "🛡️"
  | SigAction.SL => "⭕"
  | SigAction.FLAT => "🏳️"
  end.


Definition format_blocked_message (payload : WebhookPayload) : string :=
  "🚫 <b>Broker signal blocked</b>" +:+ newline +:+
  "Symbol: <b>" +:+ w_symbol payload +:+ "</b>" +:+ newline +:+
  "Reason: Signal processing is temporarily disabled (<code>" +:+ SIGNAL_BLOCKED +:+
  "</code> != 1)".

(** ** parse_signal *)
Section parse.
Context `{PY : Pydantic}.

(** [t] is the clock [TradingSignal]'s default timestamp reads.  [Err] is the
    exception of its constructor. *)
Definition parse_signal (payload : WebhookPayload) (signal_id : string) (t : instant)
    : res string TradingSignal :=
  let position := w_position payload in
  let is_scale_position := p_is_scale_position position in
  let scaled := default false is_scale_position in
  let signal :=
    {| ts_signal_id := signal_id;
       ts_signal_uxid := Some (w_signal_uxid payload);
       ts_timestamp := t;
       ts_strategy := w_strategy payload;
       ts_action := p_action position;
       ts_symbol := normalise_symbol (w_symbol payload);
       ts_price := or_zero (p_price position);
       ts_quantity := or_zero (p_quantity position);
       ts_sl := p_sl position;
       ts_tp1 := p_tp1 position;
       ts_tp2 := p_tp2 position;
       ts_tp1_percent := p_tp1_percent position;
       ts_move_sl_to_be := p_move_sl_to_be position;
       ts_is_running := Some (default false (p_is_running position));
       ts_risk_percent :=
         Some (match p_risk_percent position with
               | Some r => r
               | None =>
                   match w_inputs payload with
                   | Some inputs =>
                       match in_risk_percent inputs with Some r => r | None => f_zero end
                   | None => f_zero
                   end
               end);
       ts_use_equity_sizing := p_use_equity_sizing position;
       ts_is_scale_position := is_scale_position;
       ts_scale_strategy := if scaled then p_scale_strategy position else None;
       ts_scaling := if scaled then p_scaling position else None |} in
  match reject_signal signal with
  | Some msg => Err msg
  | None => Ok signal
  end.
End parse.

(** ** NatsPublisher *)
Definition JETSTREAM_SIGNAL_SUBJECT_PREFIX : string := "SIGNALS".

Definition jetstream_subject (strategy : string) : string :=
  JETSTREAM_SIGNAL_SUBJECT_PREFIX +:+ "." +:+ strategy.

Definition publish_webhook_event (strategy : string) (envelope : json) (msg_id : string) : prog unit :=
  let! up := is_connected in
  if up then nats (SentWebhook (jetstream_subject strategy) envelope msg_id)
  else Raise NatsError.

Definition publish (signal : TradingSignal) : prog unit :=
  nats (SentSignal (ts_strategy signal) signal).

Definition publish_flat (signal_id symbol : string) (timestamp : datetime) (strategy : string)
    (signal_uxid : string) : prog unit :=
  nats (SentFlat strategy signal_id signal_uxid symbol timestamp).

(** The id a message on a strategy subject carries. *)
Definition sent_id (e : sent) : option string :=
  match e with
  | SentSignal _ s => Some (ts_signal_id s)
  | SentFlat _ id _ _ _ => Some id
  | _ => None
  end.

(** ** Facts *)
Lemma list_last_elem {A} (l : list A) d : l <> [] -> List.last l d ∈ l.
Proof.
  intros H. induction l as [|x l IH]; [done|]. destruct l as [|y l]; [left|].
  right. by apply IH.
Qed.

Lemma normalise_no_colon s : ":"%char ∉ chars (normalise_symbol s).
Proof.
  unfold normalise_symbol. intros H%elem_of_strip. rewrite elem_of_upper in H. revert H.
  apply (split_no_sep ":" s), list_last_elem, split_nonempty.
Qed.

Lemma normalise_idemp s : normalise_symbol (normalise_symbol s) = normalise_symbol s.
Proof.
  pose proof (normalise_no_colon s) as H. unfold normalise_symbol at 1.
  rewrite split_id by done. simpl. unfold normalise_symbol.
  rewrite upper_strip, upper_idemp. apply strip_idemp.
Qed.

Lemma split_concat sep a b : split sep (a +:+ String sep b) = split sep a ++ split sep b.
Proof.
  induction a as [|c a IH]; simpl; [by rewrite Ascii.eqb_refl|]. rewrite IH.
  destruct (Ascii.eqb c sep); [done|].
  pose proof (split_nonempty sep a). by destruct (split sep a).
Qed.

Lemma last_app_nonempty {A} (l1 l2 : list A) d :
  l2 <> [] -> List.last (l1 ++ l2) d = List.last l2 d.
Proof.
  intros H. induction l1 as [|x l1 IH]; [done|]. simpl. rewrite IH.
  by destruct l1, l2.
Qed.

Lemma last_split_app exchange s :
  List.last (split ":" (exchange +:+ String ":" s)) EmptyString = List.last (split ":" s) EmptyString.
Proof. rewrite split_concat. apply last_app_nonempty, split_nonempty. Qed.

(** The symbol workers receive: whatever exchange prefix the alert carries is
    dropped, no colon or surrounding blank is left, the text is upper case, and
    normalising a normalised symbol changes nothing. *)
Theorem normalise_symbol_spec exchange s :
  normalise_symbol (exchange +:+ ":" +:+ s) = normalise_symbol s /\
  (":"%char ∉ chars (normalise_symbol s)) /\
  strip (normalise_symbol s) = normalise_symbol s /\
  upper (normalise_symbol s) = normalise_symbol s /\
  normalise_symbol (normalise_symbol s) = normalise_symbol s.
Proof.
  repeat split.
  - unfold normalise_symbol. change (":" +:+ s) with (String ":" s). by rewrite last_split_app.
  - apply normalise_no_colon.
  - apply strip_idemp.
  - unfold normalise_symbol. by rewrite upper_strip, upper_idemp.
  - apply normalise_idemp.
Qed.

(** The published signal and the persisted audit row describe the same trade:
    for every payload the parser accepts, the signal carries the row's id, cycle,
    strategy, action, prices, levels, running flag and risk, under the normalised
    symbol; scale-in data travels only when the alert flags a scale-in. *)
Theorem signal_matches_row `{PY : Pydantic} `{CFG : Settings} payload u t0 t1 key attempts s :
  parse_signal payload (uuid_str u) t1 = Ok s ->
  let r := signal_row u t0 payload key attempts in
  uuid_parse (ts_signal_id s) = Some (sg_id r) /\
  ts_signal_uxid s = sg_signal_uxid r /\ ts_strategy s = sg_strategy r /\
  ts_action s = sg_action r /\ ts_symbol s = normalise_symbol (sg_symbol r) /\
  ts_price s = sg_price r /\ ts_quantity s = sg_quantity r /\
  ts_sl s = sg_sl r /\ ts_tp1 s = sg_tp1 r /\ ts_tp2 s = sg_tp2 r /\
  ts_is_running s = Some (sg_is_running r) /\
  ts_risk_percent s = Some (sg_risk_percent r) /\
  default false (ts_is_scale_position s) = sg_is_scale_position r /\
  (sg_is_scale_position r = true -> ts_scale_strategy s = sg_scale_strategy r) /\
  (sg_is_scale_position r = false -> ts_scale_strategy s = None /\ ts_scaling s = None).
Proof.
  unfold parse_signal. destruct (reject_signal _); [done|]. intros [= <-]. simpl.
  rewrite uuid_parse_str. repeat split; try (by intros ->);
    try (match goal with H : _ = false |- _ => by rewrite H end).
Qed.

Lemma signal_matches_row_witness :
  exists s, @parse_signal sample_pydantic (sample_payload SigAction.LONG) (uuid_str (uid 5)) 0%Z = Ok s /\
  ts_symbol s = "XAUUSD".
Proof.
  destruct (@parse_signal sample_pydantic (sample_payload SigAction.LONG) (uuid_str (uid 5)) 0%Z)
    as [s|e] eqn:E; [|done].
  exists s. split; [done|].
  destruct (@signal_matches_row sample_pydantic sample_settings _ _ 0%Z _ None None s E)
    as (_ & _ & _ & _ & -> & _).
  vm_compute. reflexivity.
Defined.
