(* ===== verification/SignalService.v ===== *)
(** * The signal pipeline

    [SignalProcessingService] ([services/signal_processing_service.py]): enqueue,
    first handling, redelivery, retry and the fan-out they share, written against
    the interfaces of [interfaces/notifier_protocol.py]. *)

From S2P Require Import Prelude PyStr Uuid PyTime Json Enums Schemas Models World Settings.
From S2P Require Import Samples SignalRepo SignalHelper.

(** ** Interfaces *)

(** Messages for people: operator notices and Telegram calls. *)
Definition side_channel (e : sent) : bool :=
  match e with SentNotice _ | SentTg _ _ => true | _ => false end.

(** What the service relies on from its notifier and its broadcaster: they keep
    away from the signals, the settings, the deferred backlog and NATS. *)
Definition quiet (w w' : World) : Prop :=
  signals (db w') = signals (db w) /\ broker_settings (db w') = broker_settings (db w) /\
  deferred w' = deferred w /\
  exists l, out w' = out w ++ l /\ Forall (fun e => side_channel e = true) l.

Class Notifier := {
  send_message : string -> prog unit;
  send_message_quiet : forall text, always quiet (send_message text)
}.

(** A channel that posts the text as it is, for concrete runs. *)
Definition sample_notifier : Notifier.
Proof.
  refine {| send_message := fun text => nats (SentNotice text) |}.
  intros text. apply always_nats. intros w w' Hd Hq Ho. unfold quiet. rewrite Hd, Hq.
  repeat split. destruct Ho as [->| ->]; eexists; [|rewrite app_nil_r]; by repeat constructor.
Defined.

Class SignalBroadcaster := {
  broadcast : WebhookPayload -> option Z -> prog unit;
  broadcast_quiet : forall payload attempt, always quiet (broadcast payload attempt)
}.

(** ** Replies *)
Inductive reply :=
| Queued (timestamp : string)
| Deferred (timestamp : string)
| Blocked
| Duplicate (signal_id : string)
| NotFound
| Skipped (signal_id : string)
| Invalid (signal_id : string)
| RetryScheduled (signal_id : string) (attempts_before : Z)
| Accepted (signal_id timestamp : string).

(** [str(exc)]; the texts of driver errors are not modelled. *)
Definition exn_text (e : exn) : string :=
  match e with
  | RuntimeError msg => msg
  | SignalError _ detail => detail
  | SignalParseError msg => msg
  | HTTPException status_code detail => str_int status_code +:+ ": " +:+ detail
  | DbError | IntegrityError | NatsError | ValidationError | TelegramAPIError | ValueError | TypeError
  | ArithmeticError => EmptyString
  end.

(** ** DeferredEnqueuer.submit *)

(** [asyncio.Queue(maxsize)] is full; a non-positive [maxsize] never is. *)
Definition queue_full (maxsize : Z) (q : list DeferredEnvelope) : bool :=
  (0 <? maxsize)%Z && (maxsize <=? Z.of_nat (length q))%Z.

Definition DEFERRED_QUEUE_MAXSIZE : Z := 500.

Definition submit (maxsize : Z) (strategy : string) (envelope : json) (msg_id : string) : prog bool :=
  with_deferred (fun q =>
    let item := {| de_strategy := strategy; de_envelope := envelope; de_msg_id := msg_id;
                   de_attempts := 0 |} in
    if queue_full maxsize (dq_queue q) then (false, q)
    else (true, {| dq_queue := dq_queue q ++ [item]; dq_in_flight := dq_in_flight q |})).

(** ** Pure steps *)
Definition attempt_number_for_notification (attempts_before max_attempts : Z) : option Z :=
  if (2 <? attempts_before)%Z then None else Some (max_attempts - attempts_before + 1)%Z.

Definition first_fanout_unconfirmed (row : Signal) : bool :=
  bool_decide (sg_status row = SigStatus.QUEUED) && bool_decide (sg_last_attempt row = None).

Section service.
Context `{PY : Pydantic} `{CFG : Settings} `{NOTIFIER : Notifier}.
Context (broadcaster : option SignalBroadcaster).
(** [deferred_enqueuer] ([Some maxsize] when one is wired) and [max_attempts]. *)
Context (deferred_maxsize : option Z) (max_attempts : Z).

(** ** Enqueue path *)

Definition verify_token (payload : WebhookPayload) : prog unit :=
  let secret := wh_SECRET set_webhook in
  if is_empty secret then Raise (SignalError 500 "Webhook secret not configured")
  else if String.eqb (w_token payload) secret then Ret tt
  else Raise (SignalError 401 "Invalid token received in webhook payload").

Definition defer (payload : WebhookPayload) (envelope : json) (msg_id : string) (exc : exn)
    : prog reply :=
  let! accepted := match deferred_maxsize with
                   | None => Ret false
                   | Some maxsize => submit maxsize (w_strategy payload) envelope msg_id
                   end in
  if accepted then Ret (Deferred (isoformat (w_timestamp payload)))
  else Raise (SignalError 503 ("Enqueue failed: " +:+ exn_text exc)).

Definition enqueue (payload : WebhookPayload) : prog reply :=
  do! verify_token payload in
  let envelope := JObj [("payload", dump_webhook payload)] in
  let! u := uuid4 in
  let msg_id := uuid_hex u in
  let! r := attempt (publish_webhook_event (w_strategy payload) envelope msg_id) in
  match r with
  | Err exc => defer payload envelope msg_id exc
  | Ok _ => Ret (Queued (isoformat (w_timestamp payload)))
  end.

(** ** Steps *)

Definition is_blocked (payload : WebhookPayload) : prog bool :=
  let! v := setting_get_strict SIGNAL_BLOCKED in
  if bool_decide (v = Some "1")
  then do! catch (send_message (format_blocked_message payload)) (fun _ => Ret tt) in Ret true
  else Ret false.

Definition publish_flat_step (payload : WebhookPayload) (signal_id : string) : prog unit :=
  publish_flat signal_id (normalise_symbol (w_symbol payload)) (w_timestamp payload)
    (w_strategy payload) (w_signal_uxid payload).

Definition publish_signal (payload : WebhookPayload) (signal_id : string) : prog unit :=
  let! t := clock in
  match parse_signal payload signal_id t with
  | Err msg => Raise (SignalParseError msg)
  | Ok signal => publish signal
  end.

Definition broadcast_step (payload : WebhookPayload) (attempts_before : Z) : prog unit :=
  match broadcaster with
  | None => Ret tt
  | Some b =>
      catch (broadcast payload (attempt_number_for_notification attempts_before max_attempts))
            (fun _ => Ret tt)
  end.

(** ** Fan-out *)

Definition fanout_publish (payload : WebhookPayload) (signal_id : string) : prog unit :=
  if bool_decide (p_action (w_position payload) = SigAction.FLAT)
  then publish_flat_step payload signal_id
  else publish_signal payload signal_id.

Definition fanout (signal_id : string) (payload : WebhookPayload) (attempts_before : Z) : prog reply :=
  let! r := attempt (fanout_publish payload signal_id) in
  match r with
  | Err (SignalParseError _) =>
      let! marked := mark_failed signal_id in
      if marked then Ret (Invalid signal_id)
      else Raise (RuntimeError ("Failed to mark unparseable signal " +:+ signal_id +:+ " FAILED"))
  | Err _ =>
      let! row := record_attempt_failure signal_id in
      match row with
      | None => Raise (RuntimeError ("Fan-out failed and the attempt could not be recorded: "
                                       +:+ signal_id))
      | Some _ => Ret (RetryScheduled signal_id attempts_before)
      end
  | Ok _ =>
      do! broadcast_step payload attempts_before in
      do! mark_published signal_id in
      Ret (Accepted signal_id (isoformat (w_timestamp payload)))
  end.

(** ** Handler path *)

Definition handle_redelivery (row : Signal) (payload : WebhookPayload) : prog reply :=
  let signal_id := uuid_str (sg_id row) in
  if first_fanout_unconfirmed row then fanout signal_id payload (sg_attempts row)
  else Ret (Duplicate signal_id).

Definition handle_enqueued (payload : WebhookPayload) (delivery_key : option string)
    (redelivered : bool) : prog reply :=
  let! existing := match delivery_key with
                   | Some key => if redelivered then get_by_delivery_key key else Ret None
                   | None => Ret None
                   end in
  let! blocked := is_blocked payload in
  if blocked then
    match existing with
    | Some row =>
        if first_fanout_unconfirmed row then
          let! marked := mark_failed (uuid_str (sg_id row)) in
          if marked then Ret Blocked
          else Raise (RuntimeError "Failed to mark blocked redelivery as FAILED")
        else Ret Blocked
    | None => Ret Blocked
    end
  else
    match existing with
    | Some row => handle_redelivery row payload
    | None =>
        let! signal_id := log_signal payload delivery_key (Some max_attempts) in
        match signal_id with
        | None => Raise (RuntimeError "Failed to persist signal into database")
        | Some signal_id => fanout signal_id payload max_attempts
        end
    end.

(** ** Retry path *)

Definition retry_signal (signal_id : string) : prog reply :=
  let! found := get_by_id signal_id in
  match found with
  | None => Ret NotFound
  | Some row =>
      if negb (bool_decide (sg_status row = SigStatus.QUEUED)) || (sg_attempts row <=? 0)%Z
      then Ret (Skipped signal_id)
      else
        match sg_raw row with
        | JObj raw =>
            match validate_webhook raw with
            | None => do! record_attempt_failure signal_id in Ret (Invalid signal_id)
            | Some payload => fanout signal_id payload (sg_attempts row)
            end
        | _ => do! record_attempt_failure signal_id in Ret (Invalid signal_id)
        end
  end.

End service.
