(* ===== verification/SignalSafety.v ===== *)
(** * Safety of the signal pipeline

    One JetStream message, one [signal_id]: the theorems of this file hold for
    every interleaving with the rest of the system, every database and NATS
    fault, and a crash at any point. *)

From S2P Require Import Prelude PyStr Uuid PyTime Json Enums Schemas Models World Settings.
From S2P Require Import Samples SignalRepo SignalHelper SignalService.

(** ** Interface steps *)
Lemma quiet_signals w w' : quiet w w' -> signals_step w w'.
Proof. intros (Hs & _). by apply signals_step_same. Qed.

#[export] Instance quiet_preorder : PreOrder quiet.
Proof.
  split.
  - intros w. repeat split; try done. exists []. rewrite app_nil_r. by split.
  - intros w1 w2 w3 (S1 & B1 & D1 & l1 & O1 & F1) (S2 & B2 & D2 & l2 & O2 & F2).
    repeat split; [congruence..|]. exists (l1 ++ l2).
    rewrite O2, O1, app_assoc. split; [done|]. by apply Forall_app.
Qed.

Lemma nats_signals e : always signals_step (nats e).
Proof. apply always_nats. intros w w' Hd _ _. apply signals_step_same. by rewrite Hd. Qed.

Section pipeline.
Context `{PY : Pydantic} `{CFG : Settings} `{NOTIFIER : Notifier}.
Context (broadcaster : option SignalBroadcaster).
Context (deferred_maxsize : option Z) (max_attempts : Z).

Abbreviation handle := (handle_enqueued broadcaster max_attempts).

(** ** Every thread of the pipeline respects the table's discipline *)
Lemma is_blocked_step payload : always signals_step (is_blocked payload).
Proof.
  apply always_bind; [apply always_db_same|]. intros v. case_bool_decide; [|done].
  apply always_bind; [|done]. apply always_catch; [|done].
  eapply always_mono; [apply quiet_signals|apply send_message_quiet].
Qed.

Lemma broadcast_step_step payload n :
  always signals_step (broadcast_step broadcaster max_attempts payload n).
Proof.
  unfold broadcast_step. destruct broadcaster as [b|]; [|done].
  apply always_catch; [|done]. eapply always_mono; [apply quiet_signals|apply broadcast_quiet].
Qed.

Lemma fanout_publish_step payload id : always signals_step (fanout_publish payload id).
Proof.
  unfold fanout_publish, publish_flat_step, publish_flat, publish_signal.
  case_bool_decide; [apply nats_signals|].
  apply always_bind; [apply always_clock, signals_step_frame|]. intros t.
  destruct (parse_signal payload id t); [apply nats_signals|done].
Qed.

Lemma fanout_step id payload n :
  always signals_step (fanout broadcaster max_attempts id payload n).
Proof.
  apply always_bind; [apply always_attempt, fanout_publish_step|]. intros [u|e].
  - apply always_bind; [apply broadcast_step_step|]. intros _.
    apply always_bind; [apply mark_published_step|done].
  - assert (always signals_step (let! row := record_attempt_failure id in
      match row with
      | None => Raise (RuntimeError ("Fan-out failed and the attempt could not be recorded: " +:+ id))
      | Some _ => Ret (RetryScheduled id n)
      end)) as Hrec by (apply always_bind; [apply record_attempt_failure_step|by intros []]).
    destruct e; try exact Hrec.
    apply always_bind; [apply mark_failed_step|]. by intros [].
Qed.

Lemma handle_step payload key redelivered :
  always signals_step (handle payload key redelivered).
Proof.
  apply always_bind.
  { destruct key; [|done]. destruct redelivered; [|done]. apply get_by_delivery_key_step. }
  intros existing. apply always_bind; [apply is_blocked_step|]. intros [].
  - destruct existing as [row|]; [|done]. destruct (first_fanout_unconfirmed row); [|done].
    apply always_bind; [apply mark_failed_step|]. by intros [].
  - destruct existing as [row|].
    + unfold handle_redelivery. destruct (first_fanout_unconfirmed row); [|done].
      apply fanout_step.
    + apply always_bind; [apply log_signal_step|]. intros [id|]; [apply fanout_step|done].
Qed.

Lemma retry_step id : always signals_step (retry_signal broadcaster max_attempts id).
Proof.
  apply always_bind; [apply get_by_id_step|]. intros [row|]; [|done].
  destruct (_ || _); [done|].
  assert (always signals_step (do! record_attempt_failure id in Ret (Invalid id))) as Hrec
    by (apply always_bind; [apply record_attempt_failure_step|done]).
  destruct (sg_raw row); try apply Hrec. destruct (validate_webhook kvs); [|apply Hrec].
  apply fanout_step.
Qed.

Lemma enqueue_step payload : always signals_step (enqueue deferred_maxsize payload).
Proof.
  apply always_bind.
  { unfold verify_token. by repeat case_match. }
  intros _. apply always_bind; [apply always_uuid4, signals_step_frame|]. intros u.
  apply always_bind.
  { apply always_attempt. apply always_bind; [apply always_connected, signals_step_frame|].
    intros []; [apply nats_signals|done]. }
  intros [?|e]; [done|]. apply always_bind; [|by intros []].
  destruct deferred_maxsize; [|done].
  apply always_act. intros w. apply signals_step_same. simpl.
  destruct (queue_full _ _); done.
Qed.

(** ** What the pipeline sends

    A relation on what is sent that holds of a step sending nothing, of the side
    channels and of a trading message holds of the whole pipeline. *)
Section outputs.
Context (G : relation World) (P : sent -> Prop).
Hypothesis G_silent : forall w w', out w' = out w -> deferred w' = deferred w -> G w w'.
Hypothesis G_quiet : forall w w', quiet w w' -> G w w'.
Hypothesis G_trading : forall e w w', P e -> deferred w' = deferred w ->
  out w' = out w ++ [e] \/ out w' = out w -> G w w'.

Lemma out_session {A} (t : instant -> Db -> res exn (A * Db)) : always G (session t).
Proof. apply always_session; auto. Qed.

Lemma out_nats e : P e -> always G (nats e).
Proof. intros He. apply always_nats. intros w w' _ Hq Ho. by eapply G_trading. Qed.

Lemma out_assign id f (def : option Signal -> bool) :
  always G (match uuid_parse id with
            | None => Ret false
            | Some row_id => catch (let! r := session (assign_signal row_id f) in Ret (def r))
                                   (fun _ => Ret false)
            end).
Proof.
  destruct (uuid_parse id); [|done]. apply always_catch; [|done].
  apply always_bind; [apply out_session|done].
Qed.

Lemma out_record id : always G (record_attempt_failure id).
Proof.
  unfold record_attempt_failure. destruct (uuid_parse id); [|done].
  apply always_catch; [apply out_session|done].
Qed.

Lemma out_fanout id payload n :
  (forall e, sent_id e = Some id -> P e) ->
  always G (fanout broadcaster max_attempts id payload n).
Proof.
  intros HP. apply always_bind.
  { apply always_attempt. unfold fanout_publish, publish_flat_step, publish_flat, publish_signal.
    case_bool_decide; [by apply out_nats, HP|].
    apply always_bind; [apply always_clock; intros w w' ? ? _; auto|]. intros t.
    unfold parse_signal. destruct (reject_signal _); [done|]. by apply out_nats, HP. }
  intros [u|e].
  - apply always_bind.
    { unfold broadcast_step. destruct broadcaster as [b|]; [|done]. apply always_catch; [|done].
      eapply always_mono; [exact G_quiet|apply broadcast_quiet]. }
    intros _. apply always_bind; [|done].
    apply (out_assign id publish_row (fun r => match r with None => false | Some _ => true end)).
  - assert (always G (let! row := record_attempt_failure id in
      match row with
      | None => Raise (RuntimeError ("Fan-out failed and the attempt could not be recorded: " +:+ id))
      | Some _ => Ret (RetryScheduled id n)
      end)) as Hrec by (apply always_bind; [apply out_record|by intros []]).
    destruct e; try exact Hrec. apply always_bind; [|by intros []].
    apply (out_assign id fail_row (fun r => match r with None => false | Some _ => true end)).
Qed.

Lemma out_handle payload key redelivered :
  (forall e, sent_id e <> None -> P e) -> always G (handle payload key redelivered).
Proof.
  intros HP. assert (forall id e, sent_id e = Some id -> P e) as HP'
    by (intros id e He; apply HP; by rewrite He).
  apply always_bind.
  { destruct key; [|done]. destruct redelivered; [apply out_session|done]. }
  intros existing. apply always_bind.
  { apply always_bind; [apply out_session|]. intros v. case_bool_decide; [|done].
    apply always_bind; [|done]. apply always_catch; [|done].
    eapply always_mono; [exact G_quiet|apply send_message_quiet]. }
  intros [].
  - destruct existing as [row|]; [|done]. destruct (first_fanout_unconfirmed row); [|done].
    apply always_bind; [|by intros []].
    apply (out_assign _ fail_row (fun r => match r with None => false | Some _ => true end)).
  - destruct existing as [row|].
    + unfold handle_redelivery. destruct (first_fanout_unconfirmed row); [by apply out_fanout, HP'|done].
    + apply always_bind; [|intros [id|]; [by apply out_fanout, HP'|done]].
      apply always_bind; [apply always_uuid4; intros w w' ? ? _; auto|]. intros u.
      apply always_catch; [|done]. apply always_bind; [apply out_session|done].
Qed.

Lemma out_retry id :
  (forall e, sent_id e = Some id -> P e) -> always G (retry_signal broadcaster max_attempts id).
Proof.
  intros HP. apply always_bind.
  { unfold get_by_id. destruct (uuid_parse id); [|done]. apply always_catch; [apply out_session|done]. }
  intros [row|]; [|done]. destruct (_ || _); [done|].
  assert (always G (do! record_attempt_failure id in Ret (Invalid id))) as Hrec
    by (apply always_bind; [apply out_record|done]).
  destruct (sg_raw row); try exact Hrec. destruct (validate_webhook kvs); [|exact Hrec].
  by apply out_fanout.
Qed.
End outputs.

(** ** Ownership of a delivery key *)
Section key.
Context (k : string).

(** The row written for the message with identity [k] has id [u]. *)
Definition has_row (u : uuid) (w : World) : Prop :=
  exists r, r ∈ signals (db w) /\ sg_delivery_key r = Some k /\ sg_id r = u.

(** [e], if it is a trading message, carries the id of a row written for [k]. *)
Definition owned (w : World) (e : sent) : Prop :=
  forall id, sent_id e = Some id -> exists u, has_row u w /\ id = uuid_str u.

(** A step that respects the table and sends only owned messages. *)
Definition own_step (w w' : World) : Prop :=
  signals_step w w' /\ exists l, out w' = out w ++ l /\ Forall (owned w') l.

Lemma has_row_stable u : stable signals_step (has_row u).
Proof.
  intros w w' [E _] (r & Hr & Hk & Hu).
  destruct (evolve_elem _ _ _ E Hr) as (r' & Hr' & Hs). exists r'.
  rewrite (same_signal_key _ _ Hs), (same_signal_id _ _ Hs). done.
Qed.

Lemma has_row_own_stable u : stable own_step (has_row u).
Proof. intros w w' [H _]. by apply has_row_stable. Qed.

Lemma owned_stable w w' e : signals_step w w' -> owned w e -> owned w' e.
Proof.
  intros Hs He id Hid. destruct (He id Hid) as (u & Hu & ->). exists u.
  split; [|done]. by eapply has_row_stable.
Qed.

Lemma own_quiet w w' : quiet w w' -> own_step w w'.
Proof.
  intros Hq. split; [by apply quiet_signals|]. destruct Hq as (_ & _ & _ & l & Ho & Hl).
  exists l. split; [done|]. eapply Forall_impl; [done|]. intros e He id Hid. by destruct e.
Qed.

(** A repository call sends nothing. *)
Lemma own_silent {A} (p : prog A) :
  always signals_step p -> always (fun w w' => out w' = out w) p -> always own_step p.
Proof.
  intros H1 H2 w. specialize (H1 w). specialize (H2 w). revert w H1 H2.
  induction p as [a|e|X f q IH]; intros w; simpl; [done..|].
  intros H1 H2 w1 _. destruct (H1 w1 I), (H2 w1 I). split; [|by apply IH].
  split; [done|]. exists []. rewrite app_nil_r. by split.
Qed.

Definition silent (w w' : World) : Prop := out w' = out w.

Lemma silent_session {A} (t : instant -> Db -> res exn (A * Db)) : always silent (session t).
Proof. by apply always_session. Qed.

Lemma silent_query {A} (t : Db -> A) : always silent (query t).
Proof. apply silent_session. Qed.

Lemma own_mark_failed id : always own_step (mark_failed id).
Proof.
  apply own_silent; [apply mark_failed_step|]. unfold mark_failed. destruct (uuid_parse id); [|done].
  apply always_catch; [|done]. apply always_bind; [apply silent_session|done].
Qed.

Lemma own_mark_published id : always own_step (mark_published id).
Proof.
  apply own_silent; [apply mark_published_step|]. unfold mark_published.
  destruct (uuid_parse id); [|done].
  apply always_catch; [|done]. apply always_bind; [apply silent_session|done].
Qed.

Lemma own_record id : always own_step (record_attempt_failure id).
Proof.
  apply own_silent; [apply record_attempt_failure_step|]. unfold record_attempt_failure.
  destruct (uuid_parse id); [|done]. apply always_catch; [apply silent_session|done].
Qed.

Lemma own_blocked payload : always own_step (is_blocked payload).
Proof.
  apply always_bind; [apply own_silent; [apply always_db_same|apply silent_query]|].
  intros v. case_bool_decide; [|done]. apply always_bind; [|done].
  apply always_catch; [|done]. eapply always_mono; [apply own_quiet|apply send_message_quiet].
Qed.

Lemma own_broadcast payload n :
  always own_step (broadcast_step broadcaster max_attempts payload n).
Proof.
  unfold broadcast_step. destruct broadcaster as [b|]; [|done].
  apply always_catch; [|done]. eapply always_mono; [apply own_quiet|apply broadcast_quiet].
Qed.

(** Publishing under the id of the row is an owned step. *)
Lemma own_nats u e w :
  has_row u w -> sent_id e = Some (uuid_str u) -> wp signals_step own_step (nats e) anything w.
Proof.
  intros Hu He. apply wp_act. intros w1 Hw1. split; [|done].
  assert (has_row u w1) as Hu1 by by eapply has_row_stable.
  pose proof (nats_cases e w1) as Hc. destruct (nats_step e w1) as [r w2]. simpl.
  destruct Hc as (Hd & _ & _ & Hc). split; [by apply signals_step_same; rewrite Hd|].
  destruct Hc as [[Ho _]|[Ho _]].
  - exists [e]. split; [done|]. repeat constructor. intros id Hid. exists u.
    split; [|congruence]. unfold has_row. by rewrite Hd.
  - exists []. rewrite app_nil_r. by split.
Qed.

Lemma own_fanout_publish u payload w :
  has_row u w -> wp signals_step own_step (fanout_publish payload (uuid_str u)) anything w.
Proof.
  intros Hu. unfold fanout_publish, publish_flat_step, publish_flat, publish_signal.
  case_bool_decide; [by apply (own_nats u)|].
  apply (safe_bind _ _ (has_row u)); [apply has_row_stable|apply has_row_own_stable|done| |].
  { apply always_wp, own_silent; [apply always_clock, signals_step_frame|apply always_clock; by intros ? ? ? _ _]. }
  intros t w' Hu'. unfold parse_signal. destruct (reject_signal _); [done|].
  by apply (own_nats u).
Qed.

Lemma own_fanout u payload n w :
  has_row u w ->
  wp signals_step own_step (fanout broadcaster max_attempts (uuid_str u) payload n) anything w.
Proof.
  intros Hu. apply (safe_bind _ _ (has_row u)); [apply has_row_stable|apply has_row_own_stable|done| |].
  { apply wp_attempt. by apply own_fanout_publish. }
  intros r w' _. apply always_wp. destruct r as [x|e].
  - apply always_bind; [apply own_broadcast|]. intros _.
    apply always_bind; [apply own_mark_published|done].
  - assert (always own_step (let! row := record_attempt_failure (uuid_str u) in
      match row with
      | None => Raise (RuntimeError ("Fan-out failed and the attempt could not be recorded: "
                                       +:+ uuid_str u))
      | Some _ => Ret (RetryScheduled (uuid_str u) n)
      end)) as Hrec by (apply always_bind; [apply own_record|by intros []]).
    destruct e; try exact Hrec.
    apply always_bind; [apply own_mark_failed|]. by intros [].
Qed.

Lemma own_lookup w :
  wp signals_step (own_step) (get_by_delivery_key k)
    (fun r w' => forall row, r = Ok (Some row) -> has_row (sg_id row) w') w.
Proof.
  apply wp_act. intros w1 _.
  pose proof (session_cases (fun _ d => Ok (select_first
    (fun r => bool_decide (sg_delivery_key r = Some k)) (signals d), d)) w1) as Hc.
  destruct (session_step _ w1) as [r w2]. simpl.
  destruct Hc as (Ho & _ & Hc).
  assert (signals (db w2) = signals (db w1)) as Hd
    by (destruct Hc as [(? & _ & ->)|(? & ? & [= _ <-] & -> & _)]; done).
  split.
  { split; [by apply signals_step_same|]. exists []. rewrite app_nil_r. by split. }
  intros row ->. destruct Hc as [(? & ? & _)|(a & d & [= <- <-] & _ & [[= Hr]|?])]; [done| |done].
  symmetry in Hr. apply select_first_Some in Hr as [Hin Hk]. exists row. rewrite Hd.
  split; [done|]. split; [by apply bool_decide_eq_true in Hk|done].
Qed.

Lemma own_uuid4 {A} (q : uuid -> prog A) Q w :
  (forall u w', wp signals_step own_step (q u) Q w') ->
  wp signals_step own_step (bind uuid4 q) Q w.
Proof.
  intros H. apply wp_bind. apply wp_act. intros w1 _.
  destruct (uuids w1) as [|u us]; cbn [fst snd]; (split; [|apply H]);
    (split; [by apply signals_step_same|]); exists []; rewrite app_nil_r; by split.
Qed.

Lemma own_log payload n w :
  wp signals_step own_step (log_signal payload (Some k) n)
    (fun r w' => forall id, r = Ok (Some id) -> exists u, id = uuid_str u /\ has_row u w') w.
Proof.
  apply own_uuid4. intros u w1.
  apply wp_catch, wp_bind, wp_act. intros w3 _.
  pose proof (insert_step (fun t => signal_row u t payload (Some k) n)) as Hstep.
  specialize (Hstep w3). simpl in Hstep. destruct (Hstep w3 I) as [Hsig _].
  pose proof (session_cases (fun t d => insert_signal (signal_row u t payload (Some k) n) d) w3) as Hc.
  destruct (session_step _ w3) as [r w4]. simpl in *. destruct Hc as (Ho & _ & Hc).
  split; [split; [done|]; exists []; rewrite app_nil_r; by split|].
  destruct r as [x|e]; simpl; [|done]. intros id [= <-]. exists u. split; [done|].
  destruct Hc as [(? & ? & _)|(a & d & Ht & Hd & _)]; [done|].
  unfold insert_signal in Ht. destruct (insert_unique _ _ _) as [s|] eqn:E; [|done].
  apply insert_unique_Some in E as [-> _]. injection Ht as _ <-.
  exists (signal_row u (now w3) payload (Some k) n). rewrite Hd. simpl.
  split; [|done]. apply elem_of_app. right. by left.
Qed.

Lemma own_handle payload redelivered w :
  wp signals_step own_step (handle payload (Some k) redelivered) anything w.
Proof.
  apply wp_bind.
  eapply (wp_mono _ _ _ (fun r w' => forall row, r = Ok (Some row) -> has_row (sg_id row) w')).
  2:{ destruct redelivered; [apply own_lookup|done]. }
  intros [existing|e] w1 Hrow; [|done].
  apply (safe_bind _ _ (fun w => forall row, existing = Some row -> has_row (sg_id row) w)).
  - intros w2 w3 HR H row ->. eapply has_row_stable; eauto.
  - intros w2 w3 HR H row ->. eapply has_row_own_stable; eauto.
  - intros row ->. by apply Hrow.
  - apply always_wp, own_blocked.
  - clear w1 Hrow. intros blocked w1 Hrow. destruct blocked.
    + apply always_wp. destruct existing as [row|]; [|done].
      destruct (first_fanout_unconfirmed row); [|done].
      apply always_bind; [apply own_mark_failed|]. by intros [].
    + destruct existing as [row|].
      * unfold handle_redelivery. destruct (first_fanout_unconfirmed row); [|done].
        by apply own_fanout, Hrow.
      * apply wp_bind. eapply wp_mono; [|apply own_log].
        intros [[id|]|e] w2 Hid; [|done..]. destruct (Hid id eq_refl) as (u & -> & Hu).
        by apply own_fanout.
Qed.
End key.

End pipeline.

(** ** Theorems *)

(** C1. One JetStream message, one [signal_id].  Take any two deliveries of the
    message with identity [k] — the second may be a redelivery, an in-place retry
    or the same message seen by a restarted process — each run under arbitrary
    interference of the rest of the pipeline, arbitrary database and NATS
    failures, and possibly cut short by a crash.  Every trading message either of
    them sends carries the id of the one row stored for [k]: the workers can
    recognise a re-sent signal by its id. *)
Theorem one_message_one_signal_id `{PY : Pydantic} `{CFG : Settings} `{NOTIFIER : Notifier}
    broadcaster max_attempts k p1 p2 redelivered1 redelivered2 w0 w1 w2 w3 ev1 ev2 o1 o2 :
  signals_unique (signals (db w0)) ->
  texec signals_step (handle_enqueued broadcaster max_attempts p1 (Some k) redelivered1) w0 ev1 w1 o1 ->
  signals_step w1 w2 ->
  texec signals_step (handle_enqueued broadcaster max_attempts p2 (Some k) redelivered2) w2 ev2 w3 o2 ->
  forall e id, e ∈ ev1 ++ ev2 -> sent_id e = Some id ->
  exists r, select_first (fun r => bool_decide (sg_delivery_key r = Some k)) (signals (db w3)) = Some r /\
            id = uuid_str (sg_id r).
Proof.
  intros Hu H1 H12 H2.
  assert (forall w w' e, own_step k w w' -> owned k w e -> owned k w' e) as Hg
    by (intros w w' e [? _]; by apply owned_stable).
  assert (forall w w', own_step k w w' -> Forall (owned k w') (new_events w w')) as Hs
    by (intros w w' [_ (l & Ho & Hl)]; by rewrite (new_events_app _ _ _ Ho)).
  destruct (wp_texec _ _ _ (owned_stable k) Hg Hs _ _ _ _ _ _ H1 (own_handle _ _ k p1 redelivered1 w0))
    as [F1 _].
  destruct (wp_texec _ _ _ (owned_stable k) Hg Hs _ _ _ _ _ _ H2 (own_handle _ _ k p2 redelivered2 w2))
    as [F2 _].
  set (U := fun (w : World) (_ : sent) => signals_unique (signals (db w))).
  assert (forall w w' e, signals_step w w' -> U w e -> U w' e) as HU by (intros w w' e [_ ?]; auto).
  assert (forall w w' e, own_step k w w' -> U w e -> U w' e) as HU' by (intros w w' e [[_ ?] _]; auto).
  assert (signals_unique (signals (db w3))) as Hu3.
  { apply (wp_stable _ _ U HU HU' _ _ _ _ _ (SentNotice EmptyString) H2 _ (own_handle _ _ k p2 redelivered2 w2)).
    apply (HU _ _ (SentNotice EmptyString) H12).
    by apply (wp_stable _ _ U HU HU' _ _ _ _ _ (SentNotice EmptyString) H1 _ (own_handle _ _ k p1 redelivered1 w0)). }
  assert (Forall (owned k w3) (ev1 ++ ev2)) as HF.
  { apply Forall_app. split; [|done]. eapply Forall_impl; [exact F1|]. intros e He.
    apply (wp_stable _ _ (owned k) (owned_stable k) Hg _ _ _ _ _ e H2 _ (own_handle _ _ k p2 redelivered2 w2)).
    by eapply owned_stable. }
  intros e id He Hid. rewrite Forall_forall in HF. destruct (HF e He id Hid) as (u & (r & Hr & Hk & Hru) & ->).
  destruct (select_first_is_Some (fun r => bool_decide (sg_delivery_key r = Some k)) (signals (db w3)) r)
    as [r' Hr']; [done|by apply bool_decide_eq_true|].
  exists r'. split; [done|]. apply select_first_Some in Hr' as [Hin' Hk'].
  apply bool_decide_eq_true in Hk'. destruct Hu3 as [_ Hkey].
  by rewrite <-Hru, (unique_key_eq _ _ _ _ _ Hkey Hr Hin' Hk Hk').
Qed.

(** A first delivery whose publish and bookkeeping both lose their answers, and
    the redelivery that follows: two messages left, under one id. *)
Lemma one_message_one_signal_id_witness :
  let handle p r := @handle_enqueued sample_pydantic sample_settings sample_notifier None 3 p (Some "k") r in
  let p := sample_payload SigAction.LONG in
  let w0 := sample_world [Done; Done; Lost; Failed] [uid 7; uid 8] in
  let w1 := (run (handle p false) w0).2 in
  let w3 := (run (handle p true) w1).2 in
  let evs := trace (handle p false) w0 ++ trace (handle p true) w1 in
  length evs = 2 /\
  (forall e, e ∈ evs -> forall id, sent_id e = Some id ->
   exists r, select_first (fun r => bool_decide (sg_delivery_key r = Some "k")) (signals (db w3)) = Some r /\
             id = uuid_str (sg_id r)).
Proof.
  split; [vm_compute; reflexivity|]. intros e He id Hid.
  refine (@one_message_one_signal_id sample_pydantic sample_settings sample_notifier None 3 "k"
    _ _ false true _ _ _ _ _ _ _ _ _
    (texec_run signals_step (@handle_enqueued sample_pydantic sample_settings sample_notifier None 3 _ _ false) _)
    _ (texec_run signals_step (@handle_enqueued sample_pydantic sample_settings sample_notifier None 3 _ _ true) _)
    e id He Hid).
  - split; constructor.
  - reflexivity.
Defined.
