(* ===== verification/SignalFlow.v ===== *)
(** * What one pass of the pipeline does

    The sequential behaviour of [enqueue], [handle_enqueued] and the fan-out, on
    every branch, under every schedule of database and NATS faults. *)

From S2P Require Import Prelude PyStr Uuid PyTime Json Enums Schemas Models World Settings.
From S2P Require Import Samples SignalRepo SignalHelper SignalService SignalSafety.

(** Everything appended to [out] by a run is free of trading messages. *)
Definition no_trading (w w' : World) : Prop :=
  exists l, out w' = out w ++ l /\ Forall (fun e => sent_id e = None) l.

#[export] Instance no_trading_preorder : PreOrder no_trading.
Proof.
  split.
  - intros w. exists []. rewrite app_nil_r. by split.
  - intros w1 w2 w3 (l1 & O1 & F1) (l2 & O2 & F2). exists (l1 ++ l2).
    rewrite O2, O1, app_assoc. split; [done|]. by apply Forall_app.
Qed.

Lemma quiet_no_trading w w' : quiet w w' -> no_trading w w'.
Proof.
  intros (_ & _ & _ & l & Ho & Hl). exists l. split; [done|].
  eapply Forall_impl; [exact Hl|]. by intros [].
Qed.

Lemma silent_no_trading w w' : out w' = out w -> no_trading w w'.
Proof. intros H. exists []. rewrite app_nil_r. by split. Qed.

Lemma quiet_frame : frame_ok quiet.
Proof.
  intros w w' Ho Hq Hd. unfold quiet. rewrite Hd, Hq. repeat split.
  exists []. rewrite app_nil_r. by split.
Qed.

Section flow.
Context `{PY : Pydantic} `{CFG : Settings} `{NOTIFIER : Notifier}.
Context (broadcaster : option SignalBroadcaster).
Context (deferred_maxsize : option Z) (max_attempts : Z).

Abbreviation handle := (handle_enqueued broadcaster max_attempts).
Abbreviation find_key k d :=
  (select_first (fun r => bool_decide (sg_delivery_key r = Some k)) (signals d)).

(** ** The steps of a pass *)
Definition look_up (key : option string) (redelivered : bool) : prog (option Signal) :=
  match key with
  | Some key => if redelivered then get_by_delivery_key key else Ret None
  | None => Ret None
  end.

Lemma run_look_up key redelivered w :
  exists w', db w' = db w /\ out w' = out w /\
  ((exists existing, run (look_up key redelivered) w = (Ok existing, w') /\
     existing = match key with
                | Some k => if redelivered then find_key k (db w) else None
                | None => None
                end) \/
   exists e, run (look_up key redelivered) w = (Err e, w')).
Proof.
  unfold look_up. destruct key as [k|]; [destruct redelivered|]; [|exists w; eauto 10..].
  destruct (run_query (fun d => find_key k d) w) as (w' & Hd & Ho & _ & [H|[e H]]);
    exists w'; unfold get_by_delivery_key; eauto 10.
Qed.

(** The gate: a failed read raises; a read of ["1"] closes it. *)
Lemma run_is_blocked payload w :
  exists w', quiet w w' /\
  ((run (is_blocked payload) w = (Ok true, w') /\ find_setting SIGNAL_BLOCKED (db w) = Some "1") \/
   (run (is_blocked payload) w = (Ok false, w') /\ find_setting SIGNAL_BLOCKED (db w) <> Some "1" /\
    db w' = db w /\ out w' = out w) \/
   (exists e, run (is_blocked payload) w = (Err e, w') /\ db w' = db w /\ out w' = out w)).
Proof.
  unfold is_blocked, setting_get_strict. rewrite run_bind.
  destruct (run_query (find_setting SIGNAL_BLOCKED) w) as (w1 & Hd & Ho & Hq & [->|[e ->]]).
  - case_bool_decide as Hv.
    + rewrite run_bind, run_catch. pose proof (always_run quiet _ w1 (send_message_quiet
        (format_blocked_message payload))) as Hs.
      destruct (run (send_message _) w1) as [[u|e] w2]; simpl; exists w2; simpl in Hs;
        (split; [|eauto]); destruct Hs as (S & B & D & l & O & F);
        (split; [congruence|]); (split; [congruence|]); (split; [congruence|]);
        exists l; by rewrite O, Ho.
    + exists w1. split; [by apply quiet_frame|right; left; done].
  - exists w1. split; [by apply quiet_frame|right; right; eauto].
Qed.

(** A repository call that assigns to one row. *)
Lemma run_assign row_id f w :
  exists w', out w' = out w /\
  ((exists e, run (session (assign_signal row_id f)) w = (Err e, w')) \/
   (run (session (assign_signal row_id f)) w = (Ok None, w') /\ db w' = db w) \/
   (exists r, r ∈ signals (db w) /\ sg_id r = row_id /\
      run (session (assign_signal row_id f)) w = (Ok (Some (f (now w) r)), w') /\
      f (now w) r ∈ signals (db w'))).
Proof.
  unfold session. rewrite run_act. pose proof (session_cases (assign_signal row_id f) w) as H.
  destruct (session_step _ w) as [r w']. destruct H as (Ho & _ & H). exists w'. split; [done|].
  destruct H as [(e & -> & _)|(a & d & Ht & Hd & [->| ->])]; [eauto| |eauto].
  unfold assign_signal in Ht. destruct (select_first _ _) as [r|] eqn:Hr; injection Ht as <- <-.
  - right; right. apply select_first_Some in Hr as [Hin Hid]. exists r.
    rewrite Hd. repeat split; [done|by apply bool_decide_eq_true in Hid|]. simpl.
    apply elem_of_update_where. exists r. by rewrite Hid.
  - right; left. by rewrite Hd.
Qed.

(** ** The fan-out *)

(** [id] names a row on which a failed attempt, or a final failure, is recorded. *)
Definition failure_recorded (id : string) (w : World) : Prop :=
  exists r, r ∈ signals (db w) /\ uuid_parse id = Some (sg_id r) /\ is_Some (sg_last_attempt r).

Lemma run_mark_failed id w :
  out (run (mark_failed id) w).2 = out w /\
  ((run (mark_failed id) w).1 = Ok true -> failure_recorded id (run (mark_failed id) w).2) /\
  (exists b, (run (mark_failed id) w).1 = Ok b).
Proof.
  unfold mark_failed. destruct (uuid_parse id) as [u|] eqn:Hu; [|simpl; split; [done|split; [done|eauto]]].
  rewrite run_catch, run_bind.
  destruct (run_assign u fail_row w) as (w' & Ho & [[e ->]|[[-> _]|(r & Hin & Hid & -> & Hin')]]);
    simpl; split; try done; split; eauto; try done.
  intros _. eexists; split; [done|]. simpl. rewrite Hid. eauto.
Qed.

Lemma mark_failed_ids id w :
  map sg_id (signals (db (run (mark_failed id) w).2)) = map sg_id (signals (db w)).
Proof.
  unfold mark_failed. destruct (uuid_parse _) as [u|]; [|done].
  rewrite run_catch, run_bind. unfold session. rewrite run_act.
  pose proof (session_cases (assign_signal u fail_row) w) as Hc.
  destruct (session_step _ w) as [r w3].
  assert (map sg_id (signals (db w3)) = map sg_id (signals (db w))) as Hm.
  { destruct Hc as (_ & _ & [(? & _ & ->)|(a & d & Ht & -> & _)]); [done|].
    unfold assign_signal in Ht. destruct (select_first _ _); injection Ht as _ <-; [|done].
    apply update_where_proj. intros r0 _. apply same_signal_id, fail_same. }
  by destruct r.
Qed.

Lemma run_record id w :
  out (run (record_attempt_failure id) w).2 = out w /\
  (forall r, (run (record_attempt_failure id) w).1 = Ok (Some r) ->
     failure_recorded id (run (record_attempt_failure id) w).2) /\
  (exists b, (run (record_attempt_failure id) w).1 = Ok b).
Proof.
  unfold record_attempt_failure. destruct (uuid_parse id) as [u|] eqn:Hu; [|simpl; split; [done|split; [done|eauto]]].
  rewrite run_catch.
  destruct (run_assign u consume_attempt w) as (w' & Ho & [[e ->]|[[-> _]|(r & Hin & Hid & -> & Hin')]]);
    simpl; split; try done; split; eauto; try done.
  intros _ _. eexists; split; [done|].
  unfold consume_attempt. destruct (_ <=? _)%Z; simpl; rewrite Hid; eauto.
Qed.

Lemma run_nats e w :
  (exists w', run (nats e) w = (Ok tt, w') /\ out w' = out w ++ [e]) \/
  (exists w' x, run (nats e) w = (Err NatsError, w') /\ out w' = out w ++ x /\ (x = [e] \/ x = [])).
Proof.
  unfold nats. rewrite run_act. pose proof (nats_cases e w) as H.
  destruct (nats_step e w) as [r w'].
  destruct H as (_ & _ & _ & [[Ho [->| ->]]|[Ho ->]]); [left; eauto|right; eauto 10|].
  right. exists w', []. rewrite app_nil_r. eauto.
Qed.

(** Publishing sends at most one message, under the given id; it returns only
    if it was sent, and a payload the parser rejects sends nothing. *)
Lemma run_fanout_publish payload id w :
  exists r w' l, run (fanout_publish payload id) w = (r, w') /\ out w' = out w ++ l /\
  match r with
  | Ok _ => exists e, l = [e] /\ sent_id e = Some id
  | Err (SignalParseError _) => l = []
  | Err _ => l = [] \/ exists e, l = [e] /\ sent_id e = Some id
  end.
Proof.
  unfold fanout_publish, publish_flat_step, publish_flat, publish_signal, publish, clock.
  case_bool_decide.
  - destruct (run_nats (SentFlat (w_strategy payload) id (w_signal_uxid payload)
       (normalise_symbol (w_symbol payload)) (w_timestamp payload)) w)
      as [(w' & -> & Ho)|(w' & x & -> & Ho & Hx)];
      [exists (Ok tt), w', [SentFlat (w_strategy payload) id (w_signal_uxid payload)
       (normalise_symbol (w_symbol payload)) (w_timestamp payload)]|exists (Err NatsError), w', x]; eauto 10.
    destruct Hx as [->| ->]; eauto 10.
  - rewrite run_bind, run_act. unfold parse_signal. destruct (reject_signal _).
    { eexists _, _, []. split; [done|]. by rewrite app_nil_r. }
    match goal with |- context [nats ?e] =>
      destruct (run_nats e w) as [(w' & -> & Ho)|(w' & x & -> & Ho & Hx)];
      [exists (Ok tt), w', [e]|exists (Err NatsError), w', x] end; eauto 10.
    destruct Hx as [->| ->]; eauto 10.
Qed.

(** What a reply of the fan-out says about the world it leaves. *)
Definition accounted (id : string) (w : World) (r : reply) (w' : World) : Prop :=
  match r with
  | Accepted id' _ => id' = id /\ exists e, e ∈ out w' /\ e ∈ new_events w w' /\ sent_id e = Some id
  | RetryScheduled id' _ | Invalid id' => id' = id /\ failure_recorded id w'
  | _ => False
  end.

Lemma run_fanout payload id n w :
  match run (fanout broadcaster max_attempts id payload n) w with
  | (Ok r, w') => accounted id w r w'
  | (Err e, _) => exists msg, e = RuntimeError msg
  end.
Proof.
  unfold fanout. rewrite run_bind, run_attempt.
  destruct (run_fanout_publish payload id w) as (r & w1 & l & -> & Ho & Hr). cbn [fst snd].
  assert (forall m, match run (let! row := record_attempt_failure id in
      match row with None => Raise (RuntimeError m) | Some _ => Ret (RetryScheduled id n) end) w1 with
    | (Ok r, w') => accounted id w r w' | (Err e, _) => exists msg, e = RuntimeError msg end) as Hrec.
  { intros m. rewrite run_bind. destruct (run_record id w1) as (_ & Hf & [b Hb]).
    destruct (run (record_attempt_failure id) w1) as [r1 w2]. simpl in *. subst r1.
    destruct b as [row|]; simpl; [|eauto]. split; [done|]. by eapply Hf. }
  destruct r as [x|e]; [|destruct e; try apply Hrec].
  - destruct Hr as (e & -> & He). rewrite run_bind. unfold broadcast_step.
    assert (exists w2 l2, run (match broadcaster with
        | Some b => catch (@broadcast b payload (attempt_number_for_notification n max_attempts)) (fun _ => Ret tt)
        | None => Ret tt end) w1 = (Ok tt, w2) /\ out w2 = out w1 ++ l2) as (w2 & l2 & -> & Ho2).
    { destruct broadcaster as [b|]; [|exists w1, []; by rewrite app_nil_r].
      rewrite run_catch. pose proof (always_run quiet _ w1 (broadcast_quiet payload
        (attempt_number_for_notification n max_attempts))) as (_ & _ & _ & l2 & O & _).
      destruct (run (broadcast _ _) w1) as [[[]|e'] w2]; simpl in *; eauto. }
    rewrite run_bind.
    assert (out (run (mark_published id) w2).2 = out w2 /\ exists b, (run (mark_published id) w2).1 = Ok b)
      as [Ho3 [b Hb]].
    { unfold mark_published. destruct (uuid_parse id) as [u|]; [|simpl; eauto].
      rewrite run_catch, run_bind.
      destruct (run_assign u publish_row w2) as (w' & Ho' & [[e' ->]|[[-> _]|(r & _ & _ & -> & _)]]);
        simpl; eauto. }
    destruct (run (mark_published id) w2) as [r3 w3]. simpl in *. subst r3. simpl. split; [done|].
    assert (out w3 = out w ++ e :: l2) as Hfinal
      by (rewrite Ho3, Ho2, Ho, <-app_assoc; done).
    exists e. rewrite (new_events_app _ _ _ Hfinal), Hfinal. repeat split; [|left|done].
    apply elem_of_app. right. left.
  - rewrite run_bind. destruct (run_mark_failed id w1) as (_ & Hf & [b Hb]).
    destruct (run (mark_failed id) w1) as [r1 w2]. simpl in *. subst r1.
    destruct b; simpl; [|eauto]. split; [done|]. by apply Hf.
Qed.
End flow.

(** ** Theorems *)

Section theorems.
Context `{PY : Pydantic} `{CFG : Settings} `{NOTIFIER : Notifier}.
Context (broadcaster : option SignalBroadcaster).
Context (deferred_maxsize : option Z) (max_attempts : Z).

Abbreviation handle := (handle_enqueued broadcaster max_attempts).

Lemma handle_unfold payload key redelivered :
  handle payload key redelivered =
  bind (look_up key redelivered) (fun existing =>
    bind (is_blocked payload) (fun blocked =>
      if blocked then
        match existing with
        | Some row =>
            if first_fanout_unconfirmed row then
              bind (mark_failed (uuid_str (sg_id row))) (fun marked =>
                if marked then Ret Blocked
                else Raise (RuntimeError "Failed to mark blocked redelivery as FAILED"))
            else Ret Blocked
        | None => Ret Blocked
        end
      else
        match existing with
        | Some row => handle_redelivery broadcaster max_attempts row payload
        | None =>
            bind (log_signal payload key (Some max_attempts)) (fun signal_id =>
              match signal_id with
              | None => Raise (RuntimeError "Failed to persist signal into database")
              | Some signal_id => fanout broadcaster max_attempts signal_id payload max_attempts
              end)
        end)).
Proof. done. Qed.

(** C6. The block gate fails closed.  While [signal_blocked] is ["1"], handling a
    message sends no trading message and inserts no row, whatever the database and
    NATS do, and it answers [Blocked] or raises (the message is then redelivered);
    and when the setting cannot be read it raises without sending or writing
    anything.  It also answers [Blocked] only then. *)
Theorem block_gate_fails_closed payload key redelivered w :
  (find_setting SIGNAL_BLOCKED (db w) = Some "1" ->
   let '(r, w') := run (handle payload key redelivered) w in
   no_trading w w' /\ map sg_id (signals (db w')) = map sg_id (signals (db w)) /\
   (r = Ok Blocked \/ exists e, r = Err e)) /\
  (key = None \/ redelivered = false -> forall s, sched w = Failed :: s ->
   run (handle payload key redelivered) w = (Err DbError, set_sched s w)) /\
  (forall w', run (handle payload key redelivered) w = (Ok Blocked, w') ->
   find_setting SIGNAL_BLOCKED (db w) = Some "1").
Proof.
  rewrite handle_unfold. split; [|split].
  - intros Hset. rewrite run_bind.
    destruct (run_look_up key redelivered w) as (w1 & Hd & Ho & [(existing & -> & _)|[e ->]]).
    2:{ split; [by apply silent_no_trading|]. rewrite Hd. eauto. }
    rewrite run_bind.
    destruct (run_is_blocked payload w1) as (w2 & Hq & [[-> _]|[(_ & Hn & _)|(e & -> & Hd2 & Ho2)]]).
    + assert (no_trading w w2) as Hnt
        by (transitivity w1; [by apply silent_no_trading|by apply quiet_no_trading]).
      assert (signals (db w2) = signals (db w)) as Hs by (destruct Hq as [-> _]; by rewrite Hd).
      destruct existing as [row|]; [|simpl; rewrite Hs; eauto].
      destruct (first_fanout_unconfirmed row); [|simpl; rewrite Hs; eauto].
      rewrite run_bind. destruct (run_mark_failed (uuid_str (sg_id row)) w2) as (Ho3 & _ & [b Hb]).
      pose proof (mark_failed_ids (uuid_str (sg_id row)) w2) as Hids. rewrite Hs in Hids.
      destruct (run (mark_failed _) w2) as [r w3]. simpl in *. subst r.
      assert (no_trading w w3) by (transitivity w2; [done|by apply silent_no_trading]).
      destruct b; simpl; eauto.
    + by rewrite Hd in Hn.
    + split; [apply silent_no_trading; congruence|]. rewrite Hd2, Hd. eauto.
  - intros Hk s Hs. rewrite run_bind.
    assert (look_up key redelivered = Ret None) as -> by (destruct Hk as [->| ->]; [done|by destruct key]).
    cbn [run]. rewrite run_bind. unfold is_blocked, setting_get_strict, query, session.
    rewrite run_bind, run_act. unfold session_step, next_outcome. by rewrite Hs.
  - intros w'. rewrite run_bind.
    destruct (run_look_up key redelivered w) as (w1 & Hd & Ho & [(existing & -> & _)|[e ->]]); [|done].
    rewrite run_bind, <-Hd.
    destruct (run_is_blocked payload w1) as (w2 & Hq & [[-> ?]|[(-> & Hn & _)|(e & -> & _)]]); [done| |done].
    assert (forall id p n w3, run (fanout broadcaster max_attempts id p n) w3 <> (Ok Blocked, w')) as Hf.
    { intros id p n w3 H. pose proof (run_fanout broadcaster max_attempts p id n w3) as Hr.
      by rewrite H in Hr. }
    destruct existing as [row|].
    + unfold handle_redelivery. destruct (first_fanout_unconfirmed row); [by intros ?%Hf|done].
    + rewrite run_bind. destruct (run (log_signal _ _ _) w2) as [[[id|]|e] w3]; [by intros ?%Hf|done..].
Qed.

(** C2. No signal is lost behind an ack.  When [handle_enqueued] returns (so that
    the worker acks the message), the signal was either blocked, or recognised as
    already handled, or a trading message with its id was sent during this pass,
    or a failure is recorded on its row, which makes it visible to the retry job
    (or final).  Otherwise the pass raises, and the message is redelivered. *)
Theorem ack_accounts_for_signal payload key redelivered w :
  match run (handle payload key redelivered) w with
  | (Ok Blocked, _) => find_setting SIGNAL_BLOCKED (db w) = Some "1"
  | (Ok (Duplicate id), _) =>
      exists r, r ∈ signals (db w) /\ sg_delivery_key r = key /\ id = uuid_str (sg_id r) /\
                first_fanout_unconfirmed r = false
  | (Ok r, w') =>
      exists id w1, accounted id w1 r w' /\
      (forall e, e ∈ new_events w1 w' -> e ∈ new_events w w')
  | (Err _, _) => True
  end.
Proof.
  destruct (run (handle payload key redelivered) w) as [[r|e] w'] eqn:E; [|done].
  assert (r = Blocked \/ r <> Blocked) as [->|Hnb] by (destruct r; auto; by right).
  { by apply (proj2 (proj2 (block_gate_fails_closed payload key redelivered w))) in E. }
  revert E. rewrite handle_unfold, run_bind.
  destruct (run_look_up key redelivered w) as (w1 & Hd & Ho & [(existing & -> & Hex)|[e ->]]); [|done].
  rewrite run_bind.
  destruct (run_is_blocked payload w1) as (w2 & Hq & [[-> ?]|[(-> & Hn & Hd2 & Ho2)|(e & -> & _)]]); [| |done].
  { intros E. exfalso. apply Hnb. destruct existing as [row|]; [|by injection E].
    destruct (first_fanout_unconfirmed row); [|by injection E].
    rewrite run_bind in E. destruct (run_mark_failed (uuid_str (sg_id row)) w2) as (_ & _ & [b Hb]).
    destruct (run (mark_failed _) w2) as [r2 w3]. simpl in Hb. subst r2.
    destruct b; simpl in E; by injection E. }
  assert (forall id p n w3 r0, out w3 = out w2 ->
    run (fanout broadcaster max_attempts id p n) w3 = (Ok r0, w') ->
    exists id w1, accounted id w1 r0 w' /\ (forall e, e ∈ new_events w1 w' -> e ∈ new_events w w')) as Hf.
  { intros id p n w3 r0 Ho3 H. pose proof (run_fanout broadcaster max_attempts p id n w3) as Hr.
    rewrite H in Hr. exists id, w3. split; [done|]. unfold new_events.
    by rewrite Ho3, Ho2, Ho. }
  destruct existing as [row|].
  - destruct key as [k|]; [|done]. destruct redelivered; [|done].
    symmetry in Hex. apply select_first_Some in Hex as [Hin Hk%bool_decide_eq_true].
    unfold handle_redelivery. destruct (first_fanout_unconfirmed row) eqn:Hu.
    + intros H. pose proof (run_fanout broadcaster max_attempts payload (uuid_str (sg_id row))
        (sg_attempts row) w2) as Hr. rewrite H in Hr.
      destruct r; try done; eapply Hf; eauto.
    + intros [= <- <-]. exists row. auto.
  - rewrite run_bind. destruct (run (log_signal payload key (Some max_attempts)) w2) as [[[id|]|e] w3] eqn:El;
      [|done..].
    assert (out w3 = out w2) as Ho3.
    { assert (always silent (log_signal payload key (Some max_attempts))) as Hs.
      { apply always_bind; [apply always_uuid4; by intros ? ? ? _ _|]. intros u.
        apply always_catch; [|done]. apply always_bind; [|done]. apply silent_session. }
      assert (PreOrder silent) as HP by (split; [done|intros ? ? ?; unfold silent; congruence]).
      pose proof (always_run silent _ w2 Hs) as Hsil. by rewrite El in Hsil. }
    intros H. pose proof (run_fanout broadcaster max_attempts payload id max_attempts w3) as Hr.
    rewrite H in Hr. destruct r; try done; eapply Hf; eauto.
Qed.

(** A redelivery of a handled message re-sends nothing: when the row of the
    message is PUBLISHED, FAILED or carries a recorded failure, the pass answers
    [Duplicate] with that row's id (or [Blocked], or raises on a database fault),
    leaves the signals table as it was and sends no trading message. *)
Theorem handled_redelivery_is_duplicate payload k w row :
  select_first (fun r => bool_decide (sg_delivery_key r = Some k)) (signals (db w)) = Some row ->
  first_fanout_unconfirmed row = false ->
  let '(r, w') := run (handle payload (Some k) true) w in
  no_trading w w' /\ signals (db w') = signals (db w) /\
  (r = Ok (Duplicate (uuid_str (sg_id row))) \/
   (r = Ok Blocked /\ find_setting SIGNAL_BLOCKED (db w) = Some "1") \/ exists e, r = Err e) /\
  (sched w = [] -> find_setting SIGNAL_BLOCKED (db w) <> Some "1" ->
   r = Ok (Duplicate (uuid_str (sg_id row)))).
Proof.
  intros Hrow Hu. rewrite handle_unfold, run_bind.
  destruct (run_look_up (Some k) true w) as (w1 & Hd & Ho & Hl).
  assert (sched w = [] -> run (look_up (Some k) true) w = (Ok (Some row), w)) as Hlook.
  { intros Hs. unfold look_up, get_by_delivery_key, query, session. rewrite run_act.
    unfold session_step, next_outcome. rewrite Hs, Hrow. by destruct w. }
  destruct Hl as [(existing & Hrun & Hex)|[e Hrun]]; rewrite Hrun.
  2:{ split; [by apply silent_no_trading|]. rewrite Hd. split; [done|]. split; [eauto|].
      intros Hs _. rewrite (Hlook Hs) in Hrun. done. }
  rewrite Hrow in Hex. subst existing. rewrite run_bind.
  destruct (run_is_blocked payload w1) as (w2 & Hq & Hb).
  assert (signals (db w2) = signals (db w)) as Hs2 by (destruct Hq as [-> _]; by rewrite Hd).
  assert (no_trading w w2) as Hnt
    by (transitivity w1; [by apply silent_no_trading|by apply quiet_no_trading]).
  destruct Hb as [[-> Hset]|[(-> & Hn & _)|(e & Hrb & _)]].
  - rewrite Hu. simpl. rewrite Hd in Hset. split; [done|]. split; [done|]. split; [auto|by intros _ ?].
  - unfold handle_redelivery. rewrite Hu. simpl. auto.
  - rewrite Hrb. split; [done|]. split; [done|]. split; [eauto|]. intros Hs Hset. exfalso.
    rewrite (Hlook Hs) in Hrun. injection Hrun as <-.
    revert Hrb. unfold is_blocked, setting_get_strict, query, session.
    rewrite run_bind, run_act. unfold session_step, next_outcome. rewrite Hs. simpl.
    by rewrite bool_decide_eq_false_2.
Qed.

(** The enqueue path answers for the alert.  It never touches the database; a
    missing secret is a 500 and a wrong token a 401, with nothing sent or kept; a
    ["queued"] answer means the envelope was sent on the strategy's stream
    subject; a ["deferred"] answer means it is at the end of the backlog under the
    very [Nats-Msg-Id] the publish attempt carried, with no attempt spent; and a
    503 is only given when there is no backlog or it is full. *)
Theorem enqueue_accounts_for_alert payload w :
  let '(r, w') := run (enqueue deferred_maxsize payload) w in
  let secret := wh_SECRET set_webhook in
  let envelope := JObj [("payload", dump_webhook payload)] in
  let attempted w' msg_id :=
    out w' = out w \/
    out w' = out w ++ [SentWebhook (jetstream_subject (w_strategy payload)) envelope msg_id] in
  db w' = db w /\
  (is_empty secret = true -> r = Err (SignalError 500 "Webhook secret not configured") /\ w' = w) /\
  (is_empty secret = false -> w_token payload <> secret ->
   r = Err (SignalError 401 "Invalid token received in webhook payload") /\ w' = w) /\
  (is_empty secret = false -> w_token payload = secret ->
   exists msg_id,
   (r = Ok (Queued (isoformat (w_timestamp payload))) /\ deferred w' = deferred w /\
    out w' = out w ++ [SentWebhook (jetstream_subject (w_strategy payload)) envelope msg_id]) \/
   (r = Ok (Deferred (isoformat (w_timestamp payload))) /\ attempted w' msg_id /\
    dq_queue (deferred w') = dq_queue (deferred w) ++
      [{| de_strategy := w_strategy payload; de_envelope := envelope; de_msg_id := msg_id;
          de_attempts := 0 |}]) \/
   ((exists detail, r = Err (SignalError 503 detail)) /\ attempted w' msg_id /\
    deferred w' = deferred w /\
    (deferred_maxsize = None \/
     exists m, deferred_maxsize = Some m /\ queue_full m (dq_queue (deferred w)) = true))).
Proof.
  destruct (run (enqueue deferred_maxsize payload) w) as [r w'] eqn:E.
  revert E. unfold enqueue. rewrite run_bind. unfold verify_token.
  destruct (is_empty (wh_SECRET set_webhook)); [intros [= <- <-]; (split; [done|]; split; [by intros|]; split; by intros)|].
  destruct (String.eqb_spec (w_token payload) (wh_SECRET set_webhook)) as [Htok|Htok];
    [|intros [= <- <-]; (split; [done|]; split; [by intros|]; split; by intros)].
  cbn [run]. rewrite run_bind. unfold uuid4. rewrite run_act.
  set (envelope := JObj [("payload", dump_webhook payload)]).
  assert (exists u w1, (match uuids w with [] => (Ok (uid 0), w) | u :: s => (Ok u, set_uuids s w) end)
     = (Ok (E:=exn) u, w1) /\ db w1 = db w /\ out w1 = out w /\ deferred w1 = deferred w)
    as (u & w1 & -> & Hd1 & Ho1 & Hq1) by (destruct (uuids w); eauto 10).
  rewrite run_bind, run_attempt. unfold publish_webhook_event, is_connected. rewrite run_bind, run_act.
  set (sub := jetstream_subject (w_strategy payload)).
  assert (exists r1 w2, run (if nats_up w1 then nats (SentWebhook sub envelope (uuid_hex u)) else Raise NatsError) w1
      = (r1, w2) /\ db w2 = db w /\ deferred w2 = deferred w /\
      (r1 = Ok tt -> out w2 = out w ++ [SentWebhook sub envelope (uuid_hex u)]) /\
      (out w2 = out w \/ out w2 = out w ++ [SentWebhook sub envelope (uuid_hex u)]))
    as (r1 & w2 & -> & Hd2 & Hq2 & Hok & Hany).
  { destruct (nats_up w1);
      [|exists (Err NatsError), w1; (split; [done|]); (split; [done|]); (split; [done|]);
        split; [done|by left]].
    unfold nats. rewrite run_act. pose proof (nats_cases (SentWebhook sub envelope (uuid_hex u)) w1) as Hc.
    destruct (nats_step _ w1) as [r1 w2]. exists r1, w2.
    destruct Hc as (Hd & Hq & _ & [[Ho Hr]|[Ho Hr]]); rewrite Hd, Hq, Ho, Ho1;
      (split; [done|]); (split; [done|]); (split; [done|]); (split; [|by auto]);
      by intros ->. }
  destruct r1 as [[]|exc]; simpl.
  { intros [= <- <-]. split; [done|]. split; [done|]. split; [done|]. intros _ _.
    exists (uuid_hex u). left. auto. }
  unfold defer. rewrite run_bind. destruct deferred_maxsize as [m|].
  - unfold submit, with_deferred. rewrite run_act.
    destruct (queue_full m (dq_queue (deferred w2))) eqn:Hf; intros [= <- <-]; simpl;
      (split; [done|]); (split; [done|]); (split; [done|]); intros _ _; exists (uuid_hex u).
    + right; right. rewrite Hq2 in Hf. destruct (deferred w2) eqn:Hq2'. eauto 10.
    + right; left. rewrite Hq2. auto.
  - intros [= <- <-]. split; [done|]. split; [done|]. split; [done|]. intros _ _.
    exists (uuid_hex u). right; right. eauto 10.
Qed.
End theorems.

(** After an accepted first delivery, the redelivered message is a duplicate. *)
Lemma handled_redelivery_is_duplicate_witness :
  let handle := @handle_enqueued sample_pydantic sample_settings sample_notifier None 3%Z in
  let p := sample_payload SigAction.LONG in
  let w1 := (run (handle p (Some "k") false) (sample_world [] [uid 7])).2 in
  (run (handle p (Some "k") true) w1).1 = Ok (Duplicate (uuid_str (uid 7))).
Proof.
  intros handle p w1.
  destruct (select_first (fun r => bool_decide (sg_delivery_key r = Some "k")) (signals (db w1)))
    as [row|] eqn:Hrow; [|by vm_compute in Hrow].
  pose proof (@handled_redelivery_is_duplicate sample_pydantic sample_settings sample_notifier
    None 3%Z p "k" w1 row Hrow) as H.
  vm_compute in Hrow. injection Hrow as <-. specialize (H eq_refl).
  destruct (run _ w1) as [r w']. destruct H as (_ & _ & _ & H). simpl.
  rewrite H; vm_compute; done.
Defined.
