(* ===== verification/Webhook.v ===== *)
(** * The webhook

    What a TradingView alert is answered, and that the secret stays out of it:
    [security/redaction.py], the answer to an alert that fails validation
    ([json_syntax_error] and [validation_exception_handler] of [app.py]), and the route
    [receive_webhook] ([api/webhook.py]) over [SignalProcessingService.enqueue] with the
    middleware around it, the handler of last resort outside that, and the path it is
    mounted under ([router.py], [create_app]). *)

From S2P Require Import Prelude PyStr Uuid PyTime Json JsonText Enums Schemas Models World Settings Samples.
From S2P Require Import SignalRepo SignalHelper SignalService SignalSafety SignalFlow.
From Stdlib Require Import Ascii SpecFloat.

(** ** [redact_secrets] *)
Definition REDACTED : string := "***".
Definition SECRET_KEYS : list string := ["token"].

(** The key as it stands in a body, with its quotes. *)
Definition token_key : string := String quote "token" +:+ String quote EmptyString.

(** What follows the match of the first group of [_SECRET_IN_TEXT]:
    the key, blanks, a colon, blanks and the opening quote. *)
Definition after_prefix (s : string) : option string :=
  r ← drop_prefix token_key s;
  r ← eat ":" (lstrip_by is_space r);
  eat quote (lstrip_by is_space r).

(** What follows the value: the text after the next quote, or nothing when there
    is none. *)
Fixpoint after_value (s : string) : string :=
  match s with
  | EmptyString => EmptyString
  | String c r => if Ascii.eqb c quote then r else after_value r
  end.

(** [_SECRET_IN_TEXT.sub(...)]: the matches from left to right, [skip] characters
    being part of the last one. *)
Fixpoint redact_from (skip : nat) (s : string) : string :=
  match s with
  | EmptyString => EmptyString
  | String c r =>
      match skip with
      | S k => redact_from k r
      | O =>
          match after_prefix s with
          | Some value =>
              take_str (String.length s - String.length value) s +:+ REDACTED +:+
              String quote (redact_from (String.length r - String.length (after_value value)) r)
          | None => String c (redact_from 0 r)
          end
      end
  end.

Definition redact_text (s : string) : string := redact_from 0 s.

Fixpoint redact_secrets (v : json) : json :=
  match v with
  | JObj kvs =>
      JObj (map (fun kv => (kv.1, if bool_decide (kv.1 ∈ SECRET_KEYS) then JStr REDACTED else redact_secrets kv.2)) kvs)
  | JList l => JList (map redact_secrets l)
  | JStr s => JStr (redact_text s)
  | v => v
  end.

Definition quoted_text (s : string) : string := String quote s +:+ String quote EmptyString.

Example redacted_body :
  redact_text ("{" +:+ token_key +:+ ": " +:+ quoted_text "s3cret" +:+ ", " +:+ quoted_text "price" +:+ ": 1,}") =
  "{" +:+ token_key +:+ ": " +:+ quoted_text "***" +:+ ", " +:+ quoted_text "price" +:+ ": 1,}".
Proof. vm_compute. reflexivity. Qed.

Example redacted_cut : redact_text (token_key +:+ ":" +:+ String quote "s3c") = token_key +:+ ":" +:+ quoted_text "***".
Proof. vm_compute. reflexivity. Qed.

(** ** The answer to a rejected body *)

(** [json.JSONDecodeError]: its message and the offset where decoding stopped;
    [None] when [json.loads] raises no such error. *)
Class JsonErrors := {
  json_error_at : string -> option (string * nat)
}.

(** [doc.count("\n", 0, pos) + 1] and [pos - doc.rfind("\n", 0, pos)]. *)
Definition lineno (doc : list Z) (pos : nat) : nat := S (length (base.filter (fun cp => cp = 10%Z) (take pos doc))).

Fixpoint column (col : nat) (before : list Z) : nat :=
  match before with
  | [] => col
  | cp :: before => column (if (cp =? 10)%Z then 1 else S col) before
  end.

Definition colno (doc : list Z) (pos : nat) : nat := column 1 (take pos doc).

(** [raw[max(0, pos - 40) : pos + 40]]. *)
Definition snippet_of (doc : list Z) (pos : nat) : string :=
  redact_text (utf8s (take (pos + 40 - (pos - 40)) (drop (pos - 40) doc))).

Section answer.
Context `{JE : JsonErrors}.

Definition syntax_error_text (raw : string) (msg : string) (pos : nat) : string :=
  let doc := code_points raw in
  msg +:+ " at line " +:+ str_int (Z.of_nat (lineno doc pos)) +:+ " column " +:+ str_int (Z.of_nat (colno doc pos)) +:+
  " — near: …" +:+ snippet_of doc pos +:+ "…".

(** Whether [tuple(error.get("loc") or ())] is [("body",)]. *)
Definition at_body (error : json) : bool :=
  match error with
  | JObj kvs => match obj_get "loc" kvs with JList [JStr k] => String.eqb k "body" | _ => false end
  | _ => false
  end.

Definition error_input (error : json) : json := match error with JObj kvs => obj_get "input" kvs | _ => JNull end.

Fixpoint json_syntax_error (errors : list json) : option string :=
  match errors with
  | [] => None
  | error :: errors =>
      if at_body error then
        match error_input error with
        | JStr raw =>
            match json_error_at raw with
            | Some (msg, pos) => Some (syntax_error_text raw msg pos)
            | None => json_syntax_error errors
            end
        | _ => json_syntax_error errors
        end
      else json_syntax_error errors
  end.

(** The content of the 422 answer, which is logged as well. *)
Definition validation_exception_handler (raw_errors : list json) : json :=
  let errors := redact_secrets (JList raw_errors) in
  match json_syntax_error raw_errors with
  | Some text => JObj [("detail", errors); ("json_error", JStr text)]
  | None => JObj [("detail", errors)]
  end.
End answer.

(** ** What depends on the secret *)

(** A text without a quote. *)
Definition no_quote (s : string) : Prop := quote ∉ chars s.

Definition blank (s : string) : Prop := Forall (fun c => is_space c = true) (chars s).

(** The member of an alert that carries the secret, as the alert is documented, and
    its key in a body's text. *)
Definition secret_member : string := "token".
Definition secret_key : string := quoted_text secret_member.

(** Two texts that differ in the values of their token members alone.  [pre] holds
    no earlier token key. *)
Inductive same_text : string -> string -> Prop :=
| text_same s : same_text s s
| text_value pre sp sp' a b post post' :
    contains secret_key pre = false -> blank sp -> blank sp' -> no_quote a -> no_quote b -> same_text post post' ->
    same_text (pre +:+ secret_key +:+ sp +:+ ":" +:+ sp' +:+ quoted_text a +:+ post)
              (pre +:+ secret_key +:+ sp +:+ ":" +:+ sp' +:+ quoted_text b +:+ post')
| text_cut pre sp sp' a b :
    contains secret_key pre = false -> blank sp -> blank sp' -> no_quote a -> no_quote b ->
    same_text (pre +:+ secret_key +:+ sp +:+ ":" +:+ sp' +:+ String quote a)
              (pre +:+ secret_key +:+ sp +:+ ":" +:+ sp' +:+ String quote b).

(** Two values that differ in their secrets alone. *)
Inductive same_public : json -> json -> Prop :=
| public_same v : same_public v v
| public_text s t : same_text s t -> same_public (JStr s) (JStr t)
| public_list l l' : Forall2 same_public l l' -> same_public (JList l) (JList l')
| public_obj kvs kvs' :
    Forall2 (fun a b => a.1 = b.1 /\ (a.1 = secret_member \/ same_public a.2 b.2)) kvs kvs' ->
    same_public (JObj kvs) (JObj kvs').

(** ** Redacting a text *)
Lemma drop_prefix_app_left p s t r : drop_prefix p (s +:+ t) = Some r -> startswith p s = true \/ String.length s < String.length p.
Proof.
  revert s. induction p as [|a p IH]; intros [|b s]; cbn; [by left..|right; lia|].
  unfold startswith. cbn. destruct (Ascii.eqb a b); [|done]. intros H%IH. unfold startswith in H. destruct H; [by left|right; lia].
Qed.

(** No match begins in what comes before the first token key. *)
Lemma no_match_before pre rest c :
  contains token_key (String c pre) = false -> after_prefix (String c pre +:+ token_key +:+ rest) = None.
Proof.
  intros Hc. assert (startswith token_key (String c pre) = false) as Hs.
  { cbn [contains] in Hc. by apply orb_false_iff in Hc as [-> _]. }
  unfold after_prefix. destruct (drop_prefix token_key _) as [r|] eqn:E; [|done]. cbn [mbind option_bind].
  destruct (drop_prefix_app_left _ _ _ _ E) as [H|H]; [by rewrite Hs in H|].
  destruct pre as [|c1 [|c2 [|c3 [|c4 [|c5 [|? ?]]]]]]; cbn in H; [..|lia].
  all: revert E; unfold token_key; cbn; repeat (case_match; cbn; try done).
  all: intros [= <-]; cbn; done.
Qed.

Lemma redact_before pre rest :
  contains token_key pre = false -> redact_from 0 (pre +:+ token_key +:+ rest) = pre +:+ redact_from 0 (token_key +:+ rest).
Proof.
  induction pre as [|c pre IH]; intros Hc; [done|].
  cbn [String.append redact_from]. pose proof (no_match_before pre rest c Hc) as H. cbn [String.append] in H. rewrite H.
  f_equal. apply IH. cbn [contains] in Hc. by apply orb_false_iff in Hc as [_ ?].
Qed.

Lemma lstrip_blank p s c r :
  Forall (fun x => p x = true) (chars s) -> p c = false -> lstrip_by p (s +:+ String c r) = String c r.
Proof. induction s as [|d s IH]; cbn; [by intros _ ->|]. intros [-> Hs]%Forall_cons Hc. by apply IH. Qed.

Lemma after_prefix_token sp sp' rest :
  blank sp -> blank sp' -> after_prefix (token_key +:+ sp +:+ ":" +:+ sp' +:+ String quote rest) = Some rest.
Proof.
  intros Hs Hs'. unfold after_prefix. rewrite drop_prefix_app. cbn [mbind option_bind].
  change (":" +:+ sp' +:+ String quote rest) with (String ":" (sp' +:+ String quote rest)).
  rewrite lstrip_blank by done. cbn [eat Ascii.eqb mbind option_bind]. cbn. by rewrite lstrip_blank.
Qed.

Lemma after_value_end a : no_quote a -> after_value a = EmptyString.
Proof.
  induction a as [|c a IH]; [done|]. intros H. cbn. unfold no_quote in H. cbn in H. apply not_elem_of_cons in H as [Hc Ha].
  destruct (Ascii.eqb_spec c quote); [congruence|]. by apply IH.
Qed.

Lemma after_value_quote a post : no_quote a -> after_value (a +:+ String quote post) = post.
Proof.
  induction a as [|c a IH]; [done|]. intros H. cbn. unfold no_quote in H. cbn in H. apply not_elem_of_cons in H as [Hc Ha].
  destruct (Ascii.eqb_spec c quote); [congruence|]. by apply IH.
Qed.

Lemma redact_skip s t : redact_from (String.length s) (s +:+ t) = redact_from 0 t.
Proof. induction s as [|c s IH]; [by destruct t|]. exact IH. Qed.

Lemma take_app_str s t : take_str (String.length s) (s +:+ t) = s.
Proof. unfold take_str. induction s as [|c s IH]; cbn; [by destruct t|]. by rewrite IH. Qed.

(** A match, whatever its value: the group, the marker and a quote, and on with what
    follows the value. *)
Lemma redact_match hit value rest :
  (exists r, hit = String quote r) -> after_prefix (hit +:+ value) = Some value ->
  (exists v, value = v +:+ rest) -> after_value value = rest ->
  redact_from 0 (hit +:+ value) = hit +:+ REDACTED +:+ String quote (redact_from 0 rest).
Proof.
  intros [r ->] Hp [v Hv] Ha. cbn [String.append redact_from] in *. rewrite Hp, Ha.
  assert (String quote (r +:+ value) = String quote r +:+ value) as -> by done.
  rewrite length_string_app.
  replace (String.length (String quote r) + String.length value - String.length value) with (String.length (String quote r)) by lia.
  rewrite take_app_str. subst value. rewrite <-(string_app_assoc r v rest).
  assert (forall n t, n = String.length t -> redact_from n (t +:+ rest) = redact_from 0 rest) as H by (intros ? ? ->; apply redact_skip).
  by rewrite (H _ (r +:+ v)) by (rewrite !length_string_app; lia).
Qed.

Lemma hit_quote sp sp' : exists r, token_key +:+ sp +:+ ":" +:+ sp' +:+ String quote EmptyString = String quote r.
Proof. by eexists. Qed.

Lemma hit_app sp sp' value :
  token_key +:+ sp +:+ ":" +:+ sp' +:+ String quote value =
  (token_key +:+ sp +:+ ":" +:+ sp' +:+ String quote EmptyString) +:+ value.
Proof. by rewrite !string_app_assoc. Qed.

Lemma redact_value sp sp' a post :
  blank sp -> blank sp' -> no_quote a ->
  redact_from 0 (token_key +:+ sp +:+ ":" +:+ sp' +:+ quoted_text a +:+ post) =
  (token_key +:+ sp +:+ ":" +:+ sp' +:+ String quote EmptyString) +:+ REDACTED +:+ String quote (redact_from 0 post).
Proof.
  intros Hs Hs' Ha.
  assert (quoted_text a +:+ post = String quote (a +:+ String quote post)) as ->
    by (unfold quoted_text; cbn; by rewrite string_app_assoc).
  rewrite hit_app. apply redact_match; [apply hit_quote|rewrite <-hit_app; by apply after_prefix_token| |by apply after_value_quote].
  exists (a +:+ String quote EmptyString). by rewrite string_app_assoc.
Qed.

Lemma redact_cut sp sp' a :
  blank sp -> blank sp' -> no_quote a ->
  redact_from 0 (token_key +:+ sp +:+ ":" +:+ sp' +:+ String quote a) =
  (token_key +:+ sp +:+ ":" +:+ sp' +:+ String quote EmptyString) +:+ REDACTED +:+ String quote EmptyString.
Proof.
  intros Hs Hs' Ha. rewrite hit_app.
  apply (redact_match _ a EmptyString); [apply hit_quote|rewrite <-hit_app; by apply after_prefix_token| |by apply after_value_end].
  exists a. by rewrite string_app_nil_r.
Qed.

Lemma redact_same_text s t : same_text s t -> redact_text s = redact_text t.
Proof.
  unfold redact_text. change secret_key with token_key in *. induction 1 as [s|pre sp sp' a b post post' Hp Hs Hs' Ha Hb _ IH|pre sp sp' a b Hp Hs Hs' Ha Hb]; [done|..].
  - rewrite !redact_before by done. by rewrite !redact_value, IH.
  - rewrite !redact_before by done. by rewrite !redact_cut.
Qed.

Lemma redact_same_public : forall v v', same_public v v' -> redact_secrets v = redact_secrets v'.
Proof.
  fix IH 3. intros v v' [w|s t Ht|l l' Hl|kvs kvs' Hk]; [done|..]; cbn [redact_secrets].
  - f_equal. by apply redact_same_text.
  - f_equal. induction Hl as [|x y l l' Hx _ IHl]; [done|]. cbn. f_equal; [by apply IH|done].
  - f_equal. induction Hk as [|[k x] [k' y] l l' [Hkk Hx] _ IHl]; [done|]. cbn in *. subst k'. f_equal; [|done]. f_equal.
    destruct Hx as [->|Hx]; [done|]. case_bool_decide; [done|]. by apply IH.
Qed.

(** A text of plain characters: its code points are its characters. *)
Lemma redact_no_quote s t : no_quote s -> redact_text (s +:+ t) = s +:+ redact_text t.
Proof.
  unfold redact_text. induction s as [|c s IH]; [done|]. intros H. unfold no_quote in H. cbn in H.
  apply not_elem_of_cons in H as [Hc Hs]. cbn [String.append redact_from].
  assert (after_prefix (String c (s +:+ t)) = None) as ->.
  { unfold after_prefix, token_key. cbn [String.append drop_prefix]. by destruct (Ascii.eqb_spec quote c). }
  f_equal. by apply IH.
Qed.

Lemma redact_clean s : contains secret_key s = false -> redact_text s = s.
Proof.
  change secret_key with token_key.
  unfold redact_text. induction s as [|c s IH]; [done|]. intros Hc. cbn [contains] in Hc.
  apply orb_false_iff in Hc as [Hp Hc]. cbn [redact_from].
  assert (after_prefix (String c s) = None) as ->.
  { unfold after_prefix. unfold startswith in Hp. by destruct (drop_prefix token_key (String c s)). }
  f_equal. by apply IH.
Qed.

Lemma utf8s_app l l' : utf8s (l ++ l') = utf8s l +:+ utf8s l'.
Proof. induction l as [|cp l IH]; [done|]. cbn. by rewrite IH, string_app_assoc. Qed.

#[local] Instance scalar_dec cp : Decision (scalar cp).
Proof. unfold scalar. apply _. Defined.

(** Only the code point 34 has a quote in its encoding. *)
Lemma utf8_no_quote cp : scalar cp -> cp <> 34%Z -> no_quote (utf8 cp).
Proof.
  intros Hs Hq. unfold no_quote, utf8.
  assert (forall z, (0 <= z < 256)%Z -> z <> 34%Z -> quote <> chr z) as Hne.
  { intros z Hz Hn E. apply (f_equal code) in E. rewrite code_chr in E by done. by apply Hn. }
  assert (forall m, (0 <= m mod 64 < 64)%Z) as Hm by (intros m; by apply Z.mod_pos_bound).
  destruct Hs as [Hs|Hs];
    (destruct (Z.ltb_spec cp 128); [|destruct (Z.ltb_spec cp 2048); [|destruct (Z.ltb_spec cp 65536)]]; cbn [chars];
     repeat (apply not_elem_of_cons; split; [|]); try apply not_elem_of_nil; apply Hne;
     repeat match goal with |- context [(?m mod 64)%Z] => pose proof (Hm m); generalize dependent (m mod 64)%Z; intros end;
     try (Z.to_euclidean_division_equations; lia)).
Qed.

Lemma utf8s_no_quote l : Forall (fun cp => scalar cp /\ cp <> 34%Z) l -> no_quote (utf8s l).
Proof.
  induction 1 as [|cp l [Hs Hq] _ IH]; [by apply not_elem_of_nil|]. unfold no_quote. cbn [utf8s]. rewrite chars_app, elem_of_app.
  intros [H|H]; [by apply (utf8_no_quote cp)|by apply IH].
Qed.


(** In a body's raw text the marker replaces a value up to its first quote, an
    escaped one as well: of a secret that holds a quote, what follows it stays. *)
Theorem escaped_quote_shows_secret a b rest :
  no_quote a -> contains secret_key (b +:+ rest) = false ->
  redact_text (secret_key +:+ ":" +:+ quoted_text (a +:+ String backslash EmptyString) +:+ b +:+ rest) =
  secret_key +:+ ":" +:+ quoted_text REDACTED +:+ b +:+ rest.
Proof.
  intros Ha Hb. unfold redact_text. etrans; [apply (redact_value EmptyString EmptyString (a +:+ String backslash EmptyString) (b +:+ rest))|].
  - constructor.
  - constructor.
  - unfold no_quote. rewrite chars_app, elem_of_app. intros [H1|H1]; [done|]. cbn in H1. by apply list_elem_of_singleton in H1.
  - change (redact_from 0 (b +:+ rest)) with (redact_text (b +:+ rest)). rewrite (redact_clean _ Hb). done.
Qed.

(** The error FastAPI reports for a body that is text. *)
Definition syntax_error_of (raw : string) : json := JObj [("loc", JList [JStr "body"]); ("input", JStr raw)].

Lemma window_at (pre secret post : list Z) pos :
  length pre + length secret <= pos -> length pre <= pos - 40 -> pos - 40 <= length pre + length secret -> 40 <= pos ->
  exists l : list Z, take (pos + 40 - (pos - 40)) (drop (pos - 40) (pre ++ secret ++ post)) = drop (pos - 40 - length pre) secret ++ l.
Proof.
  intros H1 H2 H3 H4. rewrite drop_app_ge by done. rewrite drop_app_le by lia.
  rewrite take_app_ge; [by eexists|]. rewrite length_drop. lia.
Qed.

(** The window around a syntax error can show the end of the secret.  The
    snippet is cut out of the raw body before it is redacted.  When the body stops
    being JSON within forty characters after a token longer than that, the window begins
    inside the token, whose key is then out of sight: everything of the token from
    there on stands in the log line and in the answer. *)
Theorem window_shows_secret `{JE : JsonErrors} before secret post msg pos :
  Forall scalar before -> Forall (fun cp => scalar cp /\ cp <> 34%Z) secret -> Forall scalar post ->
  let pre := before ++ code_points (token_key +:+ ":" +:+ String quote EmptyString) in
  let raw := utf8s (pre ++ secret ++ post) in
  json_error_at raw = Some (msg, pos) -> 40 <= pos ->
  length pre + length secret <= pos -> length pre <= pos - 40 -> pos - 40 <= length pre + length secret ->
  exists head rest,
    json_syntax_error [syntax_error_of raw] = Some (head +:+ utf8s (drop (pos - 40 - length pre) secret) +:+ rest) /\
    exists detail, validation_exception_handler [syntax_error_of raw] =
      JObj [("detail", detail); ("json_error", JStr (head +:+ utf8s (drop (pos - 40 - length pre) secret) +:+ rest))].
Proof.
  intros Hb Hs Hp pre raw He H40 H1 H2 H3.
  assert (code_points raw = pre ++ secret ++ post) as Hc.
  { apply utf8s_code_points. unfold pre. rewrite !Forall_app. split_and!; [done| |eapply Forall_impl; [exact Hs|by intros ? []]|done].
    by apply (bool_decide_unpack _); vm_compute. }
  assert (exists head rest, json_syntax_error [syntax_error_of raw] =
            Some (head +:+ utf8s (drop (pos - 40 - length pre) secret) +:+ rest)) as (head & rest & E).
  { unfold json_syntax_error, syntax_error_of. cbn [at_body error_input obj_get assoc]. cbn. rewrite He.
    unfold syntax_error_text. cbv zeta. rewrite Hc. unfold snippet_of.
    destruct (window_at pre secret post pos H1 H2 H3 H40) as [l ->]. rewrite utf8s_app, redact_no_quote.
    - set (L := str_int (Z.of_nat (lineno _ _))). set (C := str_int (Z.of_nat (colno _ _))).
      exists (msg +:+ " at line " +:+ L +:+ " column " +:+ C +:+ " — near: …"), (redact_text (utf8s l) +:+ "…").
      by rewrite !string_app_assoc.
    - apply utf8s_no_quote. by apply Forall_drop. }
  exists head, rest. split; [done|]. unfold validation_exception_handler. rewrite E. by eexists.
Qed.

(** ** On concrete input *)
Module redaction_samples.

(** [json.loads] on a body with a trailing comma. *)
#[local] Instance sample_errors : JsonErrors :=
  {| json_error_at raw := if contains ",}" raw then Some ("Expecting property name enclosed in double quotes", 62) else None |}.

(** A token of fifty letters. *)
Definition fifty : list Z := map (fun i => 97 + Z.of_nat (i mod 26))%Z (seq 0 50).

Lemma window_shows_secret_witness :
  let raw := utf8s (code_points "{" ++ code_points (token_key +:+ ":" +:+ String quote EmptyString) ++ fifty ++
                    code_points (String quote ",}")) in
  exists head rest, json_syntax_error [syntax_error_of raw] =
    Some (head +:+ "mnopqrstuvwxyzabcdefghijklmnopqrstuvwx" +:+ rest).
Proof.
  destruct (window_shows_secret (code_points "{") fifty (code_points (String quote ",}"))
              "Expecting property name enclosed in double quotes" 62) as (head & rest & E & _).
  - by apply (bool_decide_unpack _); vm_compute.
  - by apply (bool_decide_unpack _); vm_compute.
  - by apply (bool_decide_unpack _); vm_compute.
  - by vm_compute.
  - lia.
  - vm_compute. lia.
  - vm_compute. lia.
  - vm_compute. lia.
  - exists head, rest. exact E.
Defined.

End redaction_samples.

(** ** The path *)

(** [s.endswith(suffix)]. *)
Fixpoint endswith (suffix s : string) : bool :=
  String.eqb s suffix || match s with EmptyString => false | String _ r => endswith suffix r end.

(** The prefix [create_app] mounts the core router under. *)
Definition api_prefix (API_PREFIX : string) : string := if is_empty API_PREFIX then "" else "/" +:+ API_PREFIX.

(** [create_app] and [get_core_router]: where the route is served. *)
Definition webhook_path (API_PREFIX : string) : string := api_prefix API_PREFIX +:+ "/secret" +:+ "/webhook".

(** ** The answer *)
Record Response := {
  rs_status : Z;
  rs_content : json;
  rs_close : bool  (** [Connection: close] *)
}.

(** What FastAPI makes of a request body: the payload; the errors of a
    [RequestValidationError], as [jsonable_encoder] passes them on, or what it raises
    on them (a body that is not UTF-8 is echoed as bytes); or nothing, when reading
    the body raised anything but a [JSONDecodeError]. *)
Inductive parsed :=
| Parsed (payload : WebhookPayload)
| Rejected (errors : list json)
| RejectedOpaque (exc : exn)
| Unreadable.

Class WebhookRequests := {
  parse_request : string -> parsed
}.

(** [JSONResponse.render]: [json.dumps(content, ensure_ascii=False, allow_nan=False)]
    takes no NaN and no infinity, and [.encode(]["utf-8"][)] no surrogate. *)
Definition encodable_text (s : string) : bool :=
  forallb (fun cp => negb (high_surrogate cp) && negb (low_surrogate cp)) (code_points s).

Definition finite (f : float) : bool := match f with S754_zero _ | S754_finite _ _ _ => true | _ => false end.

Fixpoint encodable (v : json) : bool :=
  match v with
  | JNull | JBool _ | JInt _ => true
  | JFloat f => finite f
  | JStr s => encodable_text s
  | JList l => forallb encodable l
  | JObj kvs => forallb (fun kv => encodable_text kv.1 && encodable kv.2) kvs
  end.

(** The dicts [enqueue] returns. *)
Definition reply_content (r : reply) : json :=
  match r with
  | Queued timestamp => JObj [("status", JStr "queued"); ("timestamp", JStr timestamp)]
  | Deferred timestamp => JObj [("status", JStr "deferred"); ("timestamp", JStr timestamp)]
  | _ => JNull
  end.

Section webhook.
Context `{PY : Pydantic} `{CFG : Settings} `{JE : JsonErrors} `{WR : WebhookRequests}.
Context (deferred_maxsize : option Z).

(** [receive_webhook]. *)
Definition receive_webhook (payload : WebhookPayload) : prog reply :=
  let! r := attempt (enqueue deferred_maxsize payload) in
  match r with
  | Ok reply => Ret reply
  | Err (SignalError status_code detail) => Raise (HTTPException status_code detail)
  | Err exc => Raise exc
  end.

(** An answer that echoes what was sent: [JSONResponse(...)] raises a [ValueError]
    (a [UnicodeEncodeError] is one) when it cannot encode its content. *)
Definition echo (status : Z) (content : json) : prog Response :=
  if encodable content then Ret {| rs_status := status; rs_content := content; rs_close := false |} else Raise ValueError.

Definition http_error (status : Z) (detail : string) : Response :=
  {| rs_status := status; rs_content := JObj [("detail", JStr detail)]; rs_close := false |}.

(** The route behind FastAPI's validation and the exception handlers of the router:
    those of [RequestValidationError] and of [HTTPException]. *)
Definition webhook_answer (body : string) : prog Response :=
  match parse_request body with
  | Rejected errors => echo 422 (validation_exception_handler errors)
  | RejectedOpaque exc => Raise exc
  | Unreadable => Ret (http_error 400 "There was an error parsing the body")
  | Parsed payload =>
      let! r := attempt (receive_webhook payload) in
      match r with
      | Ok reply => Ret {| rs_status := 202; rs_content := reply_content reply; rs_close := false |}
      | Err (HTTPException status_code detail) => Ret (http_error status_code detail)
      | Err exc => Raise exc
      end
  end.

(** [_force_close_webhook] around it. *)
Definition force_close_webhook (path : string) (call_next : prog Response) : prog Response :=
  if endswith "/secret/webhook" path then
    let! response := call_next in
    Ret {| rs_status := rs_status response; rs_content := rs_content response; rs_close := true |}
  else call_next.

(** [global_exception_handler]: registered for [Exception], it is called outside
    every middleware. *)
Definition global_exception_handler (app : prog Response) : prog Response :=
  let! r := attempt app in
  match r with
  | Ok response => Ret response
  | Err _ => Ret (http_error 500 "Internal Server Error")
  end.

(** A POST of [body] to the webhook. *)
Definition post_webhook (API_PREFIX body : string) : prog Response :=
  global_exception_handler (force_close_webhook (webhook_path API_PREFIX) (webhook_answer body)).

(** ** Facts *)
Lemma endswith_app a b : endswith b (a +:+ b) = true.
Proof.
  induction a as [|c a IH]; cbn [String.append endswith].
  - destruct b; cbn [endswith]; by rewrite String.eqb_refl.
  - by rewrite IH, orb_true_r.
Qed.

Lemma webhook_path_closes API_PREFIX : endswith "/secret/webhook" (webhook_path API_PREFIX) = true.
Proof. apply endswith_app. Qed.

Definition closed (r : Response) : Response :=
  {| rs_status := rs_status r; rs_content := rs_content r; rs_close := true |}.

(** What the webhook answers when its route comes to nothing. *)
Definition refused (p : parsed) : Response :=
  match p with
  | Rejected errors =>
      let content := validation_exception_handler errors in
      if encodable content then {| rs_status := 422; rs_content := content; rs_close := true |}
      else http_error 500 "Internal Server Error"
  | Unreadable => closed (http_error 400 "There was an error parsing the body")
  | _ => http_error 500 "Internal Server Error"
  end.

Lemma run_post API_PREFIX body w :
  run (post_webhook API_PREFIX body) w =
  match parse_request body with
  | Parsed payload =>
      let '(r, w') := run (enqueue deferred_maxsize payload) w in
      (Ok match r with
          | Ok reply => {| rs_status := 202; rs_content := reply_content reply; rs_close := true |}
          | Err (SignalError status_code detail) | Err (HTTPException status_code detail) =>
              closed (http_error status_code detail)
          | Err _ => http_error 500 "Internal Server Error"
          end, w')
  | p => (Ok (refused p), w)
  end.
Proof.
  unfold post_webhook, global_exception_handler, force_close_webhook. rewrite webhook_path_closes, run_bind, run_attempt, run_bind.
  unfold webhook_answer, refused. destruct (parse_request body) as [payload|errors|exc|]; [|unfold echo|done..].
  - rewrite run_bind, run_attempt. unfold receive_webhook. rewrite run_bind, run_attempt.
    destruct (run (enqueue deferred_maxsize payload) w) as [[reply|[]] w']; done.
  - cbv zeta. by destruct (encodable _).
Qed.

End webhook.

(** An alert with a NaN where a number is due: pydantic's errors echo it, and the
    answer is the bare 500 with the connection left open. *)
Example nan_echo_leaves_connection_open :
  let requests := {| parse_request _ := Rejected [JObj [("loc", JList [JStr "body"; JStr "price"]); ("input", JFloat S754_nan)]] |} in
  match run (@post_webhook sample_pydantic sample_settings {| json_error_at _ := None |} requests None "api" "{}") (sample_world [] []) with
  | (Ok resp, _) => rs_status resp = 500%Z /\ rs_close resp = false
  | _ => False
  end.
Proof. by vm_compute. Qed.
