(* ===== verification/Deferred.v ===== *)
(** * The deferred enqueue backlog

    [DeferredEnqueuer] ([services/signal_processing_service.py]): the loop that
    re-publishes envelopes JetStream did not accept in time.  [submit] is in
    [SignalService]; here are one iteration of [_run] (with [_attempt]), the loop
    itself and the shutdown drain. *)

From S2P Require Import Prelude PyStr Uuid Json Models World Settings Samples SignalHelper.
From S2P Require Import SignalService.

Definition bump (item : DeferredEnvelope) : DeferredEnvelope :=
  {| de_strategy := de_strategy item; de_envelope := de_envelope item;
     de_msg_id := de_msg_id item; de_attempts := (de_attempts item + 1)%Z |}.

(** [item = await self._queue.get()], up to the first await of [_attempt]: the
    item is in flight and its attempt is counted.  [None]: the queue is empty and
    the loop waits. *)
Definition take : prog (option DeferredEnvelope) :=
  with_deferred (fun q =>
    match dq_queue q with
    | [] => (None, q)
    | item :: rest => (Some (bump item), {| dq_queue := rest; dq_in_flight := Some (bump item) |})
    end).

(** [self._in_flight = None]. *)
Definition settle : prog unit :=
  with_deferred (fun q => (tt, {| dq_queue := dq_queue q; dq_in_flight := None |})).

(** The end of a failed [_attempt] that is not the last one: back on the queue,
    unless it is full, and no longer in flight. *)
Definition requeue (maxsize : Z) (item : DeferredEnvelope) : prog unit :=
  with_deferred (fun q =>
    (tt, {| dq_queue := if queue_full maxsize (dq_queue q) then dq_queue q
                        else dq_queue q ++ [item];
            dq_in_flight := None |})).

Section loop.
Context (maxsize max_attempts : Z).

(** One iteration of [_run]; false when there was nothing to do. *)
Definition run_once : prog bool :=
  let! item := take in
  match item with
  | None => Ret false
  | Some item =>
      let! r := attempt (publish_webhook_event (de_strategy item) (de_envelope item) (de_msg_id item)) in
      match r with
      | Ok _ => do! settle in Ret true
      | Err _ =>
          if (max_attempts <=? de_attempts item)%Z then do! settle in Ret true
          else do! requeue maxsize item in Ret true
      end
  end.

(** [n] iterations of the loop. *)
Fixpoint run_loop (n : nat) : prog unit :=
  match n with
  | O => Ret tt
  | S n' => do! run_once in run_loop n'
  end.

(** [_drain(items)]: one publish per item while time remains ([timely i]: the
    deadline has not passed when item [i] comes up); the number lost. *)
Fixpoint drain (timely : nat -> bool) (i : nat) (items : list DeferredEnvelope) (lost : Z) : prog Z :=
  match items with
  | [] => Ret lost
  | item :: rest =>
      if timely i then
        let! r := attempt (publish_webhook_event (de_strategy item) (de_envelope item) (de_msg_id item)) in
        match r with
        | Ok _ => drain timely (S i) rest lost
        | Err _ => drain timely (S i) rest (lost + 1)
        end
      else drain timely (S i) rest (lost + 1)
  end.

(** [stop()], after the loop was cancelled: what is owed, in order, is taken out
    and published once more. *)
Definition stop (timely : nat -> bool) : prog Z :=
  let! leftovers := with_deferred (fun q =>
    (match dq_in_flight q with Some item => [item] | None => [] end ++ dq_queue q,
     {| dq_queue := []; dq_in_flight := None |})) in
  drain timely 0 leftovers 0%Z.

(** ** Facts *)

(** The message an envelope is published as. *)
Definition message_of (item : DeferredEnvelope) : sent :=
  SentWebhook (jetstream_subject (de_strategy item)) (de_envelope item) (de_msg_id item).

Lemma run_publish_event item w :
  exists w', db w' = db w /\ deferred w' = deferred w /\
  ((run (publish_webhook_event (de_strategy item) (de_envelope item) (de_msg_id item)) w = (Ok tt, w') /\
    out w' = out w ++ [message_of item]) \/
   (exists e, run (publish_webhook_event (de_strategy item) (de_envelope item) (de_msg_id item)) w = (Err e, w') /\
    (out w' = out w \/ out w' = out w ++ [message_of item]))).
Proof.
  unfold publish_webhook_event, is_connected. rewrite run_bind, run_act.
  destruct (nats_up w); [|exists w; eauto 10].
  unfold nats. rewrite run_act. fold (message_of item).
  pose proof (nats_cases (message_of item) w) as H. destruct (nats_step _ w) as [r w'].
  exists w'. destruct H as (Hd & Hq & _ & [[Ho [->| ->]]|[Ho ->]]); eauto 10.
Qed.

(** One iteration, exactly: with nothing queued it does nothing; otherwise the
    head is published at most once with its own [Nats-Msg-Id], and it is gone if
    the publish succeeded or its attempts are spent or the queue is full again,
    and at the tail with one more attempt counted if not. *)
Lemma run_once_spec w :
  dq_in_flight (deferred w) = None ->
  let '(r, w') := run run_once w in
  db w' = db w /\ dq_in_flight (deferred w') = None /\
  match dq_queue (deferred w) with
  | [] => r = Ok false /\ out w' = out w /\ dq_queue (deferred w') = []
  | item :: rest =>
      r = Ok true /\
      ((out w' = out w ++ [message_of item] /\ dq_queue (deferred w') = rest) \/
       ((out w' = out w \/ out w' = out w ++ [message_of item]) /\
        ((dq_queue (deferred w') = rest /\
          ((max_attempts <= de_attempts item + 1)%Z \/ queue_full maxsize rest = true)) \/
         (dq_queue (deferred w') = rest ++ [bump item] /\
          (de_attempts item + 1 < max_attempts)%Z /\ queue_full maxsize rest = false))))
  end.
Proof.
  intros Hfl. unfold run_once. rewrite run_bind. unfold take, with_deferred. rewrite run_act.
  destruct (dq_queue (deferred w)) as [|item rest] eqn:Hq.
  { simpl. rewrite Hq. auto. }
  cbn [run]. set (w1 := set_deferred _ w). rewrite run_bind, run_attempt.
  destruct (run_publish_event (bump item) w1) as (w2 & Hd & Hq2 & [[-> Ho]|(e & -> & Ho)]);
    cbn [run].
  - rewrite run_bind. unfold settle, with_deferred. rewrite run_act. simpl.
    rewrite Hq2, Hd, Ho. simpl. repeat split; auto.
  - destruct (Z.leb_spec max_attempts (de_attempts (bump item))) as [Hle|Hlt];
      rewrite run_bind; unfold settle, requeue, with_deferred; rewrite run_act; simpl;
      rewrite Hq2, Hd; simpl in *; (split; [done|]); (split; [done|]); (split; [done|]).
    + right. split; [by destruct Ho as [->| ->]; [left|right]|]. left. auto.
    + right. split; [by destruct Ho as [->| ->]; [left|right]|].
      destruct (queue_full maxsize rest) eqn:Hf; [left|right]; auto.
Qed.

(** Attempts the backlog can still spend. *)
Definition budget (q : list DeferredEnvelope) : nat :=
  sum_list_with (fun item => S (Z.to_nat (max_attempts - de_attempts item - 1))) q.

Lemma budget_app q1 q2 : budget (q1 ++ q2) = budget q1 + budget q2.
Proof. unfold budget. apply sum_list_with_app. Qed.

Lemma run_once_progress w :
  dq_in_flight (deferred w) = None ->
  let '(_, w') := run run_once w in
  dq_in_flight (deferred w') = None /\
  (dq_queue (deferred w) = [] -> dq_queue (deferred w') = []) /\
  (dq_queue (deferred w) <> [] -> budget (dq_queue (deferred w')) < budget (dq_queue (deferred w))).
Proof.
  intros Hfl. pose proof (run_once_spec w Hfl) as H.
  destruct (run run_once w) as [r w']. destruct H as (_ & Hfl' & H). split; [done|].
  destruct (dq_queue (deferred w)) as [|item rest].
  { destruct H as (_ & _ & ->). by split. }
  split; [done|]. intros _.
  destruct H as (_ & [[_ ->]|[_ [[-> _]|(-> & Hlt & _)]]]).
  - unfold budget. simpl. lia.
  - unfold budget. simpl. lia.
  - rewrite budget_app. unfold budget. simpl. lia.
Qed.
End loop.

(** ** Theorems *)
Section theorems.
Context (maxsize max_attempts : Z).

Lemma message_of_bump item : message_of (bump item) = message_of item.
Proof. done. Qed.

(** Membership of a message in the backlog's. *)
Lemma run_loop_spec n w :
  dq_in_flight (deferred w) = None ->
  budget max_attempts (dq_queue (deferred w)) <= n ->
  let '(r, w') := run (run_loop maxsize max_attempts n) w in
  r = Ok tt /\ db w' = db w /\ deferred w' = {| dq_queue := []; dq_in_flight := None |} /\
  exists l, out w' = out w ++ l /\
    length l <= budget max_attempts (dq_queue (deferred w)) /\
    Forall (fun e => exists item, item ∈ dq_queue (deferred w) /\ e = message_of item) l.
Proof.
  revert w. induction n as [|n IH]; intros w Hfl Hb.
  { assert (dq_queue (deferred w) = []) as Hq.
    { destruct (dq_queue (deferred w)); [done|]. unfold budget in Hb. simpl in Hb. lia. }
    simpl. destruct (deferred w); simpl in *; subst. repeat split.
    exists []. rewrite app_nil_r. repeat split; [simpl; lia|constructor]. }
  cbn [run_loop]. rewrite run_bind.
  pose proof (run_once_spec maxsize max_attempts w Hfl) as Hs.
  pose proof (run_once_progress maxsize max_attempts w Hfl) as Hp.
  destruct (run (run_once maxsize max_attempts) w) as [r w1].
  destruct Hs as (Hd & Hfl1 & Hs). destruct Hp as (_ & Hp0 & Hp1).
  destruct (dq_queue (deferred w)) as [|item rest] eqn:Hq.
  - destruct Hs as (-> & Ho & Hq1). cbn [run].
    specialize (IH w1 Hfl1). rewrite Hq1 in IH. specialize (IH ltac:(unfold budget; simpl; lia)).
    destruct (run (run_loop _ _ n) w1) as [r' w2]. destruct IH as (-> & Hd2 & Hq2 & l & Ho2 & Hl & HF).
    rewrite Ho2, Hd2, Hd, Ho. repeat split; eauto.
  - destruct Hs as (-> & Hs). specialize (Hp1 ltac:(done)).
    specialize (IH w1 Hfl1 ltac:(lia)).
    destruct (run (run_loop _ _ n) w1) as [r' w2]. destruct IH as (-> & Hd2 & Hq2 & l & Ho2 & Hl & HF).
    assert (Forall (fun e => exists it, it ∈ item :: rest /\ e = message_of it) l) as HF'.
    { eapply Forall_impl; [exact HF|]. intros e (it & Hit & ->).
      assert (it ∈ rest \/ it = bump item) as [?| ->].
      { destruct Hs as [[_ E]|[_ [[E _]|(E & _)]]]; rewrite E in Hit; auto.
        apply elem_of_app in Hit as [?|?%list_elem_of_singleton]; auto. }
      - exists it. split; [by right|done].
      - exists item. split; [left|done]. }
    repeat split; [congruence|done|].
    assert (out w1 = out w \/ out w1 = out w ++ [message_of item]) as [Ho|Ho]
      by (destruct Hs as [[? _]|[? _]]; auto).
    + exists l. rewrite Ho2, Ho. repeat split; [lia|done].
    + exists (message_of item :: l). rewrite Ho2, Ho, <-app_assoc. repeat split; [cbn [length]; lia|].
      constructor; [|done]. exists item. split; [left|done].
Qed.

(** C40. The backlog always drains.  From any backlog, whatever NATS does, after as
    many iterations as the envelopes have attempts left every envelope is
    delivered or given up and nothing is in flight; at most that many publishes
    were made, each of them of a queued envelope, unchanged, under its own
    [Nats-Msg-Id]; and the database is untouched. *)
Theorem backlog_drains n w :
  dq_in_flight (deferred w) = None ->
  budget max_attempts (dq_queue (deferred w)) <= n ->
  let '(r, w') := run (run_loop maxsize max_attempts n) w in
  r = Ok tt /\ db w' = db w /\ deferred w' = {| dq_queue := []; dq_in_flight := None |} /\
  exists l, out w' = out w ++ l /\
    length l <= budget max_attempts (dq_queue (deferred w)) /\
    Forall (fun e => exists item, item ∈ dq_queue (deferred w) /\ e = message_of item) l.
Proof. apply run_loop_spec. Qed.

(** A recovered NATS gets the whole backlog, in order: with a live connection
    and no faults, one iteration per envelope publishes each of them exactly once,
    oldest first, and empties the queue. *)
Theorem backlog_delivered_in_order w :
  dq_in_flight (deferred w) = None -> sched w = [] -> nats_up w = true ->
  let w' := (run (run_loop maxsize max_attempts (length (dq_queue (deferred w)))) w).2 in
  out w' = out w ++ map message_of (dq_queue (deferred w)) /\
  deferred w' = {| dq_queue := []; dq_in_flight := None |}.
Proof.
  assert (forall q w, dq_queue (deferred w) = q -> dq_in_flight (deferred w) = None ->
    sched w = [] -> nats_up w = true ->
    let w' := (run (run_loop maxsize max_attempts (length q)) w).2 in
    out w' = out w ++ map message_of q /\ deferred w' = {| dq_queue := []; dq_in_flight := None |}) as H;
    [|by intros; apply H].
  clear w. induction q as [|item rest IH]; intros w Hq Hfl Hs Hup.
  { simpl. rewrite app_nil_r. split; [done|]. destruct (deferred w); simpl in *; congruence. }
  cbn [length run_loop]. rewrite run_bind.
  assert (run (run_once maxsize max_attempts) w =
    (Ok true, emit (message_of item) (set_deferred {| dq_queue := rest; dq_in_flight := None |} w))) as ->.
  { unfold run_once, take, settle, with_deferred, publish_webhook_event, is_connected, nats.
    rewrite run_bind, run_act, Hq. cbn [run]. rewrite run_bind, run_attempt, run_bind, run_act.
    simpl. rewrite Hup. rewrite run_act. unfold nats_step, next_outcome. simpl. by rewrite Hs. }
  cbn [run fst snd].
  destruct (IH (emit (message_of item) (set_deferred {| dq_queue := rest; dq_in_flight := None |} w)))
    as [Ho Hd]; try done.
  simpl. split; [|exact Hd]. rewrite Ho. simpl. by rewrite <-app_assoc.
Qed.

(** The backlog is bounded: neither a submission nor any single action of the
    loop takes the queue past its size limit, so under every interleaving of HTTP
    handlers with the loop it never exceeds it; and a submission is refused
    exactly when the queue is full, then changing nothing. *)
Theorem backlog_bounded :
  (0 < maxsize)%Z ->
  let bounded w := (Z.of_nat (length (dq_queue (deferred w))) <= maxsize)%Z in
  always (fun w w' => bounded w -> bounded w') (run_once maxsize max_attempts) /\
  (forall strategy envelope msg_id,
     always (fun w w' => bounded w -> bounded w') (submit maxsize strategy envelope msg_id)) /\
  (forall strategy envelope msg_id w,
     let '(r, w') := run (submit maxsize strategy envelope msg_id) w in
     (r = Ok (negb (queue_full maxsize (dq_queue (deferred w))))) /\
     (queue_full maxsize (dq_queue (deferred w)) = true -> deferred w' = deferred w)).
Proof.
  intros Hm bounded.
  assert (forall q, queue_full maxsize q = false -> (Z.of_nat (length q) < maxsize)%Z) as Hroom.
  { intros q. unfold queue_full. destruct (Z.ltb_spec 0 maxsize); simpl; [|lia].
    intros ?%Z.leb_gt. lia. }
  assert (frame_ok (fun w w' => bounded w -> bounded w')) as Hframe
    by (intros w w' _ Hq _; unfold bounded; by rewrite Hq).
  split; [|split].
  - apply always_bind.
    { apply always_act. intros w. unfold bounded. simpl.
      destruct (dq_queue (deferred w)) eqn:E; simpl; rewrite ?E; simpl; lia. }
    intros [item|]; [|done]. apply always_bind.
    { apply always_attempt, always_bind; [by apply always_connected|]. intros [|]; [|done].
      apply always_nats. intros w w' _ Hq _. unfold bounded. by rewrite Hq. }
    assert (always (fun w w' => bounded w -> bounded w') (do! settle in Ret true)) as Hset
      by (apply always_bind; [by apply always_act|done]).
    intros [?|e]; [exact Hset|]. destruct (_ <=? _)%Z; [exact Hset|].
    apply always_bind; [|done]. apply always_act. intros w. unfold bounded. simpl.
    destruct (queue_full maxsize (dq_queue (deferred w))) eqn:Hf; [done|].
    apply Hroom in Hf. rewrite length_app. simpl. lia.
  - intros s env m. apply always_act. intros w. unfold bounded. simpl.
    destruct (queue_full maxsize (dq_queue (deferred w))) eqn:Hf; simpl; [done|].
    apply Hroom in Hf. rewrite length_app. simpl. lia.
  - intros s env m w. unfold submit, with_deferred. rewrite run_act.
    destruct (queue_full maxsize (dq_queue (deferred w))) eqn:Hf; simpl; [by destruct (deferred w)|done].
Qed.

Lemma run_drain timely i items lost w :
  exists n l w', run (drain timely i items lost) w = (Ok n, w') /\ db w' = db w /\
  deferred w' = deferred w /\ out w' = out w ++ l /\ sublist l (map message_of items) /\
  (lost <= n)%Z /\ (Z.of_nat (length items) <= Z.of_nat (length l) + (n - lost))%Z /\
  (n - lost <= Z.of_nat (length items))%Z.
Proof.
  revert i lost w. induction items as [|item items IH]; intros i lost w.
  { exists lost, [], w. rewrite app_nil_r. simpl. repeat split; [constructor|lia..]. }
  cbn [drain]. destruct (timely i).
  - rewrite run_bind, run_attempt.
    destruct (run_publish_event item w) as (w1 & Hd & Hq & [[-> Ho]|(e & -> & Ho)]); cbn [run].
    + destruct (IH (S i) lost w1) as (n & l & w' & -> & Hd' & Hq' & Ho' & Hs & H1 & H2 & H3).
      exists n, (message_of item :: l), w'. rewrite Ho', Ho, <-app_assoc.
      repeat split; try congruence; [by constructor|simpl; lia..].
    + destruct (IH (S i) (lost + 1)%Z w1) as (n & l & w' & -> & Hd' & Hq' & Ho' & Hs & H1 & H2 & H3).
      destruct Ho as [Ho|Ho].
      * exists n, l, w'. rewrite Ho', Ho. repeat split; try congruence; [by constructor|simpl; lia..].
      * exists n, (message_of item :: l), w'. rewrite Ho', Ho, <-app_assoc.
        repeat split; try congruence; [by constructor|simpl; lia..].
  - destruct (IH (S i) (lost + 1)%Z w) as (n & l & w' & -> & Hd' & Hq' & Ho' & Hs & H1 & H2 & H3).
    exists n, l, w'. repeat split; try done; [by constructor|simpl; lia..].
Qed.

(** Shutdown owes nothing silently.  [stop] always returns, with an empty
    backlog and nothing in flight; what it published is a subsequence, in order,
    of the envelopes that were owed (the one in flight first); and every envelope
    it did not publish is counted in the number of lost ones it reports. *)
Theorem stop_accounts_for_backlog timely w :
  let owed := match dq_in_flight (deferred w) with Some item => [item] | None => [] end
              ++ dq_queue (deferred w) in
  exists lost l w', run (stop timely) w = (Ok lost, w') /\ db w' = db w /\
  deferred w' = {| dq_queue := []; dq_in_flight := None |} /\
  out w' = out w ++ l /\ sublist l (map message_of owed) /\
  (0 <= lost <= Z.of_nat (length owed))%Z /\
  (Z.of_nat (length owed) <= Z.of_nat (length l) + lost)%Z.
Proof.
  intros owed. unfold stop. rewrite run_bind. unfold with_deferred. rewrite run_act. cbn [fst snd].
  fold owed.
  destruct (run_drain timely 0 owed 0 (set_deferred {| dq_queue := []; dq_in_flight := None |} w))
    as (n & l & w' & -> & Hd & Hq & Ho & Hs & H1 & H2 & H3).
  exists n, l, w'. rewrite Hd, Hq, Ho. repeat split; try done; lia.
Qed.
End theorems.

Definition sample_backlog : World :=
  set_deferred {| dq_queue := [{| de_strategy := "s"; de_envelope := JNull; de_msg_id := "a"; de_attempts := 0 |};
                               {| de_strategy := "s"; de_envelope := JNull; de_msg_id := "b"; de_attempts := 1 |}];
                  dq_in_flight := None |} (sample_world [Failed; Lost; Failed; Failed; Failed; Failed] []).

Lemma backlog_drains_witness :
  dq_queue (deferred (run (run_loop 500 3 6) sample_backlog).2) = [].
Proof.
  pose proof (backlog_drains 500 3 6 sample_backlog eq_refl ltac:(vm_compute; lia)) as H.
  destruct (run (run_loop 500 3 6) sample_backlog) as [r w']. destruct H as (_ & _ & H & _).
  simpl. by rewrite H.
Defined.

Lemma backlog_delivered_in_order_witness :
  let w := set_sched [] sample_backlog in
  length (out (run (run_loop 500 3 2) w).2) = 2.
Proof.
  intros w. destruct (backlog_delivered_in_order 500 3 w eq_refl eq_refl eq_refl) as [H _].
  change (run_loop 500 3 2) with (run_loop 500 3 (length (dq_queue (deferred w)))).
  by rewrite H.
Defined.

Lemma backlog_bounded_witness :
  (run (submit 2 "s" JNull "c") (set_sched [] sample_backlog)).1 = Ok false.
Proof.
  pose proof (proj2 (proj2 (backlog_bounded 2 3 ltac:(lia))) "s" JNull "c" (set_sched [] sample_backlog)) as H.
  destruct (run _ _) as [r w']. by destruct H as [-> _].
Defined.
