(* ===== verification/SignalWorker.v ===== *)
(** * The JetStream consumer of signals

    [JetStreamPullWorker] ([services/jetstream_service.py]), for any handler of one
    message: its life, fetch loop and settle helpers; [delivery_key_for] and
    [SignalWorker._handle_one] ([services/signal_processing_service.py]).  A
    message carries its decoded body: [None] stands for bytes that are not UTF-8
    or not JSON. *)

From S2P Require Import Prelude PyStr Uuid PyTime Json Enums Schemas Models World Settings.
From S2P Require Import ChatTargets Samples SignalRepo SignalHelper SignalService.
From S2P Require Import SignalSafety SignalFlow.
From Stdlib Require Import Ascii.

(** ** Messages *)
Record MsgMetadata := {
  md_stream : string;
  md_sequence : Z;
  md_timestamp : datetime;
  md_num_delivered : Z
}.

Record Msg := {
  m_seq : Z;
  m_data : option json;
  m_metadata : option MsgMetadata
}.

Definition delivery_count (msg : Msg) : Z :=
  match m_metadata msg with Some md => md_num_delivered md | None => 1%Z end.

Definition delivery_key_for (msg : Msg) : option string :=
  match m_metadata msg with
  | Some md => Some ("seq:" +:+ md_stream md +:+ ":" +:+ str_int (md_sequence md) +:+ "@" +:+
                     isoformat (md_timestamp md))
  | None => None
  end.

(** ** Settling *)

(** [_ack], [_nak], [_in_progress], [_term]: failures are logged. *)
Definition settle_msg (msg : Msg) (how : settlement) : prog unit :=
  catch (nats (SentSettle (m_seq msg) how)) (fun _ => Ret tt).

(** ** The pull worker *)

(** [_task], [_sub] and [_stop]. *)
Record PullWorker := { pw_task : bool; pw_sub : bool; pw_stop : bool }.

Definition new_pull_worker : PullWorker := {| pw_task := false; pw_sub := false; pw_stop := false |}.

(** [start]: [subscribed] says whether [pull_subscribe] answered; whatever it raised
    is raised. *)
Definition pull_start (subscribed : bool) (s : PullWorker) : res exn PullWorker :=
  if subscribed then Ok {| pw_task := true; pw_sub := true; pw_stop := false |} else Err NatsError.

(** [stop], once the task it awaits has ended; a failed [unsubscribe] is logged. *)
Definition pull_stop (s : PullWorker) : PullWorker := {| pw_task := false; pw_sub := false; pw_stop := true |}.

(** What a fetch gives: messages, [TimeoutError], or another exception. *)
Inductive fetched :=
| Fetched (msgs : list Msg)
| FetchTimeout
| FetchFailed.

Section pull_worker.
Context (handle_one : Msg -> prog unit).

(** [for msg in msgs]. *)
Definition handle_batch (msgs : list Msg) : prog unit :=
  for_each msgs (fun msg => catch (handle_one msg) (fun _ => settle_msg msg Nak)).

(** [_run], turn by turn: whether [_stop] is set when the loop looks, and what the
    fetch of that turn gives. *)
Fixpoint pull_run (turns : list (bool * fetched)) : prog unit :=
  match turns with
  | [] => Ret tt
  | (stopping, given) :: turns =>
      if stopping then Ret tt
      else
        do! match given with
            | Fetched msgs => handle_batch msgs
            | FetchTimeout | FetchFailed => Ret tt
            end in
        pull_run turns
  end.

(** The messages fetched before the loop sees [_stop]. *)
Fixpoint taken (turns : list (bool * fetched)) : list Msg :=
  match turns with
  | [] | (true, _) :: _ => []
  | (false, Fetched msgs) :: turns => msgs ++ taken turns
  | (false, _) :: turns => taken turns
  end.

Lemma run_batch_app l1 l2 w :
  run (handle_batch (l1 ++ l2)) w = run (do! handle_batch l1 in handle_batch l2) w.
Proof.
  revert w. induction l1 as [|msg l1 IH]; intros w; [done|]. cbn [app]. unfold handle_batch in *. cbn [for_each].
  rewrite !run_bind. destruct (run (catch _ _) w) as [[[]|e] w1]; [|done]. by rewrite IH, run_bind.
Qed.

(** The loop is its messages, one after the other. *)
Lemma run_pull turns w : run (pull_run turns) w = run (handle_batch (taken turns)) w.
Proof.
  revert w. induction turns as [|[[] [msgs| |]] turns IH]; intros w; cbn [pull_run taken]; try done.
  rewrite run_batch_app, !run_bind. destruct (run (handle_batch msgs) w) as [[[]|e] w1]; [apply IH|done].
Qed.
End pull_worker.

(** [INLINE_RETRY_DELAYS_SECONDS], in milliseconds. *)
Definition INLINE_RETRY_DELAYS : list Z := [500; 1000; 2000; 4000]%Z.

Section worker.
Context `{PY : Pydantic} `{CFG : Settings} `{NOTIFIER : Notifier}.
Context (broadcaster : option SignalBroadcaster) (max_attempts : Z).

(** The retry loop of [_handle_one] once the payload is known. *)
Fixpoint process (msg : Msg) (payload : WebhookPayload) (redelivered : bool)
    (delays : list Z) : prog unit :=
  let! r := attempt (handle_enqueued broadcaster max_attempts payload (delivery_key_for msg) redelivered) in
  match r with
  | Ok _ => settle_msg msg Ack
  | Err _ =>
      match delays with
      | [] => settle_msg msg Nak
      | _ :: delays' =>
          do! settle_msg msg InProgress in
          process msg payload true delays'
      end
  end.

(** What the body decodes to. *)
Definition payload_of (msg : Msg) : option WebhookPayload :=
  match m_data msg with
  | Some (JObj envelope) =>
      match obj_get "payload" envelope with
      | JObj raw => validate_webhook raw
      | _ => None
      end
  | _ => None
  end.

Definition handle_one (inline_retry_delays : list Z) (msg : Msg) : prog unit :=
  match m_data msg with
  | None => settle_msg msg Term
  | Some envelope =>
      match (match envelope with JObj kvs => obj_get "payload" kvs | _ => JNull end) with
      | JObj raw =>
          match validate_webhook raw with
          | None => settle_msg msg Term
          | Some payload =>
              process msg payload (1 <? delivery_count msg)%Z inline_retry_delays
          end
      | _ => settle_msg msg Term
      end
  end.

(** ** Facts *)

(** The settlements among sent events ([InProgress] settles nothing). *)
Definition settled (l : list sent) : list settlement :=
  omap (fun e => match e with
                 | SentSettle _ InProgress => None
                 | SentSettle _ how => Some how
                 | _ => None
                 end) l.

Lemma settled_app l1 l2 : settled (l1 ++ l2) = settled l1 ++ settled l2.
Proof. apply omap_app. Qed.

Definition unsettling (w w' : World) : Prop :=
  exists l, out w' = out w ++ l /\ settled l = [].

#[local] Instance unsettling_preorder : PreOrder unsettling.
Proof.
  split.
  - intros w. exists []. by rewrite app_nil_r.
  - intros w1 w2 w3 (l1 & O1 & F1) (l2 & O2 & F2). exists (l1 ++ l2).
    by rewrite O2, O1, app_assoc, settled_app, F1, F2.
Qed.

Lemma handle_unsettling payload key redelivered :
  always unsettling (handle_enqueued broadcaster max_attempts payload key redelivered).
Proof.
  apply (out_handle _ _ _ (fun e => sent_id e <> None)); [| | |done].
  - intros w w' Ho _. exists []. by rewrite app_nil_r.
  - intros w w' (_ & _ & _ & l & Ho & Hl). exists l. split; [done|]. clear Ho.
    induction Hl as [|e l He _ IH]; [done|]. unfold settled in *. csimpl. rewrite IH.
    by destruct e.
  - intros e w w' He _ [Ho|Ho]; [exists [e]|exists []; by rewrite app_nil_r].
    split; [done|]. by destruct e.
Qed.

Lemma run_settle msg how w :
  exists l w', run (settle_msg msg how) w = (Ok tt, w') /\ db w' = db w /\
  out w' = out w ++ l /\ (l = [SentSettle (m_seq msg) how] \/ l = []).
Proof.
  unfold settle_msg, nats. rewrite run_catch, run_act.
  pose proof (nats_cases (SentSettle (m_seq msg) how) w) as H.
  destruct (nats_step _ w) as [r w'].
  destruct H as (Hd & _ & _ & [[Ho [->| ->]]|[Ho ->]]); simpl.
  - exists [SentSettle (m_seq msg) how], w'. auto.
  - exists [SentSettle (m_seq msg) how], w'. auto.
  - exists [], w'. rewrite app_nil_r. auto.
Qed.

(** Whatever the fetches give and whatever a handler raises, the loop goes on: the
    messages taken are handled in the order they came in, each by its handler, and
    NAK-ed when that raised. *)
Lemma run_pull_in_order (handle : Msg -> prog unit) (P : Msg -> list sent -> Prop) turns w :
  (forall msg w, exists l : list sent, out (run (handle msg) w).2 = out w ++ l /\
     match (run (handle msg) w).1 with
     | Ok _ => P msg l
     | Err _ => P msg l /\ P msg (l ++ [SentSettle (m_seq msg) Nak])
     end) ->
  exists ls w', run (pull_run handle turns) w = (Ok tt, w') /\
    out w' = out w ++ concat ls /\ Forall2 P (taken turns) ls.
Proof.
  intros H. rewrite run_pull. generalize (taken turns). intros msgs. revert w. induction msgs as [|msg msgs IH]; intros w.
  { exists [], w. cbn. rewrite app_nil_r. by split_and!. }
  unfold handle_batch in *. cbn [for_each]. rewrite run_bind, run_catch.
  destruct (H msg w) as (l & Ho & Hp). destruct (run (handle msg) w) as [[[]|e] w1]; cbn [fst snd] in *.
  - destruct (IH w1) as (ls & w' & -> & Ho' & Hls). exists (l :: ls), w'. split; [done|].
    split; [by rewrite Ho', Ho, <-app_assoc|by constructor].
  - destruct (run_settle msg Nak w1) as (l1 & w2 & -> & _ & Ho2 & Hl1).
    destruct (IH w2) as (ls & w' & -> & Ho' & Hls). exists ((l ++ l1) :: ls), w'. split; [done|].
    cbn [concat]. split; [by rewrite Ho', Ho2, Ho, <-!app_assoc|]. constructor; [|done]. destruct Hp. destruct Hl1 as [->| ->]; [done|by rewrite app_nil_r].
Qed.

(** The last attempt of a pass over a message: where it ran and what it gave. *)
Definition last_try msg payload first_redelivered w2 (r : res exn reply) w3 : Prop :=
  exists redelivered, (redelivered = first_redelivered \/ redelivered = true) /\
  run (handle_enqueued broadcaster max_attempts payload (delivery_key_for msg) redelivered) w2 = (r, w3).

Lemma run_process msg payload redelivered delays w :
  exists w' l, run (process msg payload redelivered delays) w = (Ok tt, w') /\
  out w' = out w ++ l /\
  exists w2 w3 r, last_try msg payload redelivered w2 r w3 /\ db w' = db w3 /\
    match r with
    | Ok _ => settled l = [] \/ settled l = [Ack]
    | Err _ => settled l = [] \/ settled l = [Nak]
    end.
Proof.
  revert redelivered w. induction delays as [|d delays IH]; intros redelivered w;
    cbn [process]; rewrite run_bind, run_attempt;
    pose proof (always_run unsettling _ w (handle_unsettling payload (delivery_key_for msg) redelivered))
      as (l1 & O1 & S1);
    destruct (run (handle_enqueued _ _ _ _ _) w) as [r w1] eqn:E; simpl in O1; cbn [fst snd].
  - destruct r as [rep|e].
    + destruct (run_settle msg Ack w1) as (l2 & w2 & -> & Hd & O2 & Hl2).
      exists w2, (l1 ++ l2). rewrite O2, O1, app_assoc. repeat split.
      exists w, w1, (Ok rep). repeat split; [exists redelivered; auto|done|].
      rewrite settled_app, S1. destruct Hl2 as [->| ->]; auto.
    + destruct (run_settle msg Nak w1) as (l2 & w2 & -> & Hd & O2 & Hl2).
      exists w2, (l1 ++ l2). rewrite O2, O1, app_assoc. repeat split.
      exists w, w1, (Err e). repeat split; [exists redelivered; auto|done|].
      rewrite settled_app, S1. destruct Hl2 as [->| ->]; auto.
  - destruct r as [rep|e].
    + destruct (run_settle msg Ack w1) as (l2 & w2 & -> & Hd & O2 & Hl2).
      exists w2, (l1 ++ l2). rewrite O2, O1, app_assoc. repeat split.
      exists w, w1, (Ok rep). repeat split; [exists redelivered; auto|done|].
      rewrite settled_app, S1. destruct Hl2 as [->| ->]; auto.
    + rewrite run_bind.
      destruct (run_settle msg InProgress w1) as (l2 & w2 & -> & Hd & O2 & Hl2).
      destruct (IH true w2) as (w' & l3 & -> & O3 & w4 & w5 & r & (rd & Hrd & Hrun) & Hd' & Hs).
      exists w', (l1 ++ l2 ++ l3). rewrite O3, O2, O1, !app_assoc. repeat split.
      exists w4, w5, r. repeat split; [exists rd; split; [destruct Hrd; auto|done]|done|].
      rewrite !settled_app, S1.
      assert (settled l2 = []) as -> by (destruct Hl2 as [->| ->]; done). exact Hs.
Qed.

Lemma handle_one_valid delays msg payload :
  payload_of msg = Some payload ->
  handle_one delays msg = process msg payload (1 <? delivery_count msg)%Z delays.
Proof.
  unfold payload_of, handle_one. destruct (m_data msg) as [[]|]; try done.
  destruct (obj_get "payload" kvs); try done. by intros ->.
Qed.

Lemma handle_one_invalid delays msg :
  payload_of msg = None -> handle_one delays msg = settle_msg msg Term.
Proof.
  unfold payload_of, handle_one. destruct (m_data msg) as [[]|]; try done.
  destruct (obj_get "payload" kvs); try done. by intros ->.
Qed.
End worker.

(** ** Theorems *)
Section theorems.
Context `{PY : Pydantic} `{CFG : Settings} `{NOTIFIER : Notifier}.
Context (broadcaster : option SignalBroadcaster) (max_attempts : Z).

Lemma worker_pass delays msg w :
  exists w' l, run (handle_one broadcaster max_attempts delays msg) w = (Ok tt, w') /\
  out w' = out w ++ l /\
  match payload_of msg with
  | None => db w' = db w /\ (l = [SentSettle (m_seq msg) Term] \/ l = [])
  | Some payload =>
      exists w2 w3 r,
        last_try broadcaster max_attempts msg payload (1 <? delivery_count msg)%Z w2 r w3 /\
        db w' = db w3 /\
        match r with
        | Ok _ => settled l = [] \/ settled l = [Ack]
        | Err _ => settled l = [] \/ settled l = [Nak]
        end
  end.
Proof.
  destruct (payload_of msg) as [payload|] eqn:Hp.
  - rewrite (handle_one_valid _ _ _ _ _ Hp). apply run_process.
  - rewrite (handle_one_invalid _ _ _ _ Hp).
    destruct (run_settle msg Term w) as (l & w' & -> & Hd & Ho & Hl). eauto 10.
Qed.

(** Every message is settled at most once, and for the right reason.  The
    worker never raises; a body that is not a valid envelope is only ever
    terminated, with nothing written and nothing published; a valid one is handled
    at least once, acked only if the last handling returned and NAK-ed only if it
    raised, and the database is left as that last handling left it. *)
Theorem worker_settles_once delays msg w :
  exists w' l, run (handle_one broadcaster max_attempts delays msg) w = (Ok tt, w') /\
  out w' = out w ++ l /\
  match payload_of msg with
  | None => db w' = db w /\ (l = [SentSettle (m_seq msg) Term] \/ l = [])
  | Some payload =>
      exists w2 w3 r,
        last_try broadcaster max_attempts msg payload (1 <? delivery_count msg)%Z w2 r w3 /\
        db w' = db w3 /\
        match r with
        | Ok _ => settled l = [] \/ settled l = [Ack]
        | Err _ => settled l = [] \/ settled l = [Nak]
        end
  end.
Proof. apply worker_pass. Qed.

(** The loop outlives its messages.  Whatever the fetches give, it ends without an
    exception when [stop] is seen, having handled exactly the messages fetched before,
    in their order, the rest of a batch included, and settled each at most once. *)
Theorem loop_settles_in_order delays turns w :
  exists ls w', run (pull_run (handle_one broadcaster max_attempts delays) turns) w = (Ok tt, w') /\
    out w' = out w ++ concat ls /\ Forall2 (fun _ l => length (settled l) <= 1) (taken turns) ls.
Proof.
  apply run_pull_in_order. intros msg w'. destruct (worker_pass delays msg w') as (w2 & l & -> & Ho & Hl).
  exists l. split; [done|]. destruct (payload_of msg) as [payload|].
  - destruct Hl as (_ & _ & r & _ & _ & Hs). destruct r; destruct Hs as [->| ->]; cbn; lia.
  - destruct Hl as [_ [->| ->]]; cbn; lia.
Qed.
End theorems.

(** ** Delivery keys *)
Lemma pretty_char_digit x : is_digit (pretty_N_char x) = true.
Proof.
  unfold pretty_N_char. destruct x as [|p]; [done|].
  do 5 (destruct p as [p|p|]; try done).
Qed.

Lemma pretty_go_chars x s c :
  c ∈ chars (pretty_N_go x s) -> is_digit c = true \/ c ∈ chars s.
Proof.
  revert s. induction (N.lt_wf_0 x) as [x _ IH]. intros s.
  destruct (decide (0 < x)%N) as [Hx|Hx].
  - rewrite pretty_N_go_step by done. intros H%IH; [|by apply N.div_lt].
    csimpl in H. rewrite elem_of_cons in H.
    destruct H as [?|[->|?]]; [by left|left; apply pretty_char_digit|by right].
  - assert (x = 0%N) as -> by lia. rewrite pretty_N_go_0. by right.
Qed.

Lemma str_int_chars z c : c ∈ chars (str_int z) -> is_digit c = true \/ c = "-"%char.
Proof.
  assert (forall n : N, c ∈ chars (pretty n) -> is_digit c = true) as HN.
  { intros n. unfold pretty, pretty_N. destruct (decide (n = 0)%N); [|intros Hc%pretty_go_chars].
    - csimpl. by intros ->%list_elem_of_singleton.
    - destruct Hc as [|Hc]; [done|]. csimpl in Hc. by apply not_elem_of_nil in Hc. }
  unfold str_int. destruct z as [|p|p]; unfold pretty, pretty_Z.
  - intros H. left. by apply (HN 0%N).
  - intros H. left. by apply (HN (N.pos p)).
  - change (chars ("-" +:+ pretty (N.pos p))) with ("-"%char :: chars (pretty (N.pos p))).
    intros [->|H]%elem_of_cons; [by right|left; by apply (HN (N.pos p))].
Qed.

Lemma sep_app_inj sep a b s t :
  sep ∉ chars a -> sep ∉ chars b ->
  a +:+ String sep s = b +:+ String sep t -> a = b /\ s = t.
Proof.
  intros Ha Hb H. pose proof (f_equal (split sep) H) as Hs.
  rewrite !split_app in Hs by done. injection Hs as -> _. split; [done|].
  apply string_app_inj_l in H. by injection H.
Qed.

(** A delivery key names one stored message: two messages of streams whose
    names hold no colon have the same key only if they agree on the stream, the
    sequence number and the time the stream stored them (so a recreated stream
    that restarts its sequence cannot collide with an older row); the number of
    deliveries plays no part. *)
Theorem delivery_key_identifies_message msg1 msg2 md1 md2 :
  m_metadata msg1 = Some md1 -> m_metadata msg2 = Some md2 ->
  ":"%char ∉ chars (md_stream md1) -> ":"%char ∉ chars (md_stream md2) ->
  dt_valid (md_timestamp md1) = true -> dt_valid (md_timestamp md2) = true ->
  delivery_key_for msg1 = delivery_key_for msg2 <->
  md_stream md1 = md_stream md2 /\ md_sequence md1 = md_sequence md2 /\
  md_timestamp md1 = md_timestamp md2.
Proof.
  unfold delivery_key_for. intros -> -> Hs1 Hs2 Ht1 Ht2. split.
  2:{ by intros (-> & -> & ->). }
  intros [= H]. apply sep_app_inj in H as [-> H]; [|done..].
  assert (forall z, "@"%char ∉ chars (str_int z)) as Hat
    by (intros z Hz; apply str_int_chars in Hz as [?|?]; done).
  apply sep_app_inj in H as [Hz Hd]; [|done..]. repeat split.
  - by apply (inj pretty) in Hz.
  - by apply isoformat_inj.
Qed.

Definition sample_msg (body : option json) : Msg :=
  {| m_seq := 7; m_data := body;
     m_metadata := Some {| md_stream := "SIGNALS"; md_sequence := 7;
                           md_timestamp := sample_time; md_num_delivered := 1 |} |}.

Lemma delivery_key_identifies_message_witness :
  delivery_key_for (sample_msg None) = delivery_key_for (sample_msg (Some JNull)).
Proof.
  apply (delivery_key_identifies_message (sample_msg None) (sample_msg (Some JNull)) _ _ eq_refl eq_refl);
    try reflexivity; try (by repeat split); cbn; set_solver.
Defined.
