(* ===== verification/RetryJob.v ===== *)
(** * The retry job

    [SignalRetryJob] ([services/signal_retry_job.py]): its tick on top of
    [list_retryable] and [retry_signal], and the loop of ticks. *)

From S2P Require Import Prelude PyStr Uuid PyTime Json Enums Schemas Models World Settings.
From S2P Require Import Samples SignalRepo SignalHelper SignalService SignalSafety.
From S2P Require Import SignalFlow.

Section job.
Context `{PY : Pydantic} `{CFG : Settings}.
Context (broadcaster : option SignalBroadcaster) (max_attempts : Z).

Abbreviation retry := (retry_signal broadcaster max_attempts).

Definition tick_once (interval : Z) : prog unit :=
  let! rows := list_retryable interval in
  for_each rows (fun row =>
    catch (do! retry (uuid_str (sg_id row)) in Ret tt) (fun _ => Ret tt)).

(** [_run]: a tick that raises is logged. *)
Definition job_step (interval : Z) : prog unit :=
  catch (tick_once interval) (fun _ => Ret tt).

(** The loop: whether [_stop] is set, turn by turn; between two turns it waits for the
    interval or for [stop]. *)
Fixpoint job_run (interval : Z) (turns : list bool) : prog unit :=
  match turns with
  | [] | true :: _ => Ret tt
  | false :: turns => do! job_step interval in job_run interval turns
  end.

(** [_task] and [_stop], and [start] and [stop]: a second [start] is ignored. *)
Record JobState := { job_task : bool; job_stop : bool }.
Definition start_job (s : JobState) : JobState :=
  if job_task s then s else {| job_task := true; job_stop := false |}.
Definition stop_job (s : JobState) : JobState := {| job_task := false; job_stop := true |}.

(** ** Attempts left on a row *)
Definition row_of (u : uuid) (w : World) : option Signal :=
  select_first (fun r => bool_decide (sg_id r = u)) (signals (db w)).

Definition attempts_left (u : uuid) (w : World) : nat :=
  match row_of u w with Some r => Z.to_nat (sg_attempts r) | None => 0 end.

Definition spends (u : uuid) (w w' : World) : Prop := attempts_left u w' <= attempts_left u w.

#[local] Instance spends_preorder u : PreOrder (spends u).
Proof. split; [intros w|intros w1 w2 w3]; unfold spends; lia. Qed.

Lemma spends_frame u : frame_ok (spends u).
Proof. intros w w' _ _ Hd. unfold spends, attempts_left, row_of. by rewrite Hd. Qed.

Lemma row_of_assign u v f t d d' r :
  (forall t r, same_signal r (f t r)) ->
  assign_signal v f t d = Ok (r, d') ->
  select_first (fun r => bool_decide (sg_id r = u)) (signals d') =
  (fun r => if bool_decide (sg_id r = v) then f t r else r) <$>
  select_first (fun r => bool_decide (sg_id r = u)) (signals d).
Proof.
  intros Hf. unfold assign_signal. destruct (select_first _ (signals d)) as [r0|] eqn:E; intros [= <- <-].
  - simpl. apply select_first_update. intros x. by rewrite (same_signal_id _ _ (Hf t x)).
  - destruct (select_first (fun r => bool_decide (sg_id r = u)) (signals d)) as [x|] eqn:Ex; [|done].
    simpl. case_bool_decide as Hv; [|done].
    apply select_first_Some in Ex as [Hin _]. apply select_first_None in E.
    rewrite Forall_forall in E. specialize (E x Hin). by apply bool_decide_eq_false in E.
Qed.

Lemma spends_assign u v f :
  (forall t r, same_signal r (f t r)) ->
  (forall t r, Z.to_nat (sg_attempts (f t r)) <= Z.to_nat (sg_attempts r)) ->
  always (spends u) (session (assign_signal v f)).
Proof.
  intros Hf Ha. apply always_session.
  - intros w w' ???. by apply spends_frame.
  - intros w w' a _ _ Ht. unfold spends, attempts_left, row_of.
    rewrite (row_of_assign u v f _ _ _ _ Hf Ht).
    destruct (select_first _ (signals (db w))) as [r|]; simpl; [|done].
    case_bool_decide; [apply Ha|done].
Qed.

Lemma consume_spends t r : Z.to_nat (sg_attempts (consume_attempt t r)) <= Z.to_nat (sg_attempts r).
Proof. unfold consume_attempt. destruct (Z.leb_spec (sg_attempts r) 1); simpl; lia. Qed.

Lemma spends_record u id : always (spends u) (record_attempt_failure id).
Proof.
  unfold record_attempt_failure. destruct (uuid_parse id); [|done].
  apply always_catch; [|done]. apply spends_assign; [apply consume_same|apply consume_spends].
Qed.

Lemma spends_fanout u id payload n : always (spends u) (fanout broadcaster max_attempts id payload n).
Proof.
  apply always_bind.
  { apply always_attempt. unfold fanout_publish, publish_flat_step, publish_flat, publish_signal.
    assert (forall e, always (spends u) (nats e)) as Hn.
    { intros e. apply always_nats. intros w w' Hd _ _. unfold spends, attempts_left, row_of. by rewrite Hd. }
    case_bool_decide; [apply Hn|].
    apply always_bind; [apply always_clock, spends_frame|]. intros t.
    destruct (parse_signal payload id t); [apply Hn|done]. }
  intros [x|e].
  - apply always_bind.
    { unfold broadcast_step. destruct broadcaster as [b|]; [|done]. apply always_catch; [|done].
      eapply always_mono; [|apply broadcast_quiet]. intros w w' (Hs & _).
      unfold spends, attempts_left, row_of. by rewrite Hs. }
    intros _. apply always_bind; [|done]. unfold mark_published. destruct (uuid_parse id); [|done].
    apply always_catch; [|done]. apply always_bind; [|done]. by apply spends_assign; [apply publish_same|].
  - assert (always (spends u) (let! row := record_attempt_failure id in
      match row with
      | None => Raise (RuntimeError ("Fan-out failed and the attempt could not be recorded: " +:+ id))
      | Some _ => Ret (RetryScheduled id n)
      end)) as Hrec by (apply always_bind; [apply spends_record|by intros []]).
    destruct e; try exact Hrec. apply always_bind; [|by intros []].
    unfold mark_failed. destruct (uuid_parse id); [|done].
    apply always_catch; [|done]. apply always_bind; [|done].
    apply spends_assign; [apply fail_same|]. intros t r. simpl. lia.
Qed.

Lemma spends_retry u id : always (spends u) (retry id).
Proof.
  apply always_bind.
  { unfold get_by_id. destruct (uuid_parse id); [|done].
    apply always_catch; [|done]. apply always_query, spends_frame. }
  intros [row|]; [|done]. destruct (_ || _); [done|].
  assert (always (spends u) (do! record_attempt_failure id in Ret (Invalid id))) as Hrec
    by (apply always_bind; [apply spends_record|done]).
  destruct (sg_raw row); try exact Hrec. destruct (validate_webhook kvs); [|exact Hrec].
  apply spends_fanout.
Qed.

(** Recording a failure that is answered spends an attempt, if one was left. *)
Lemma record_spends u w r :
  (run (record_attempt_failure (uuid_str u)) w).1 = Ok (Some r) ->
  0 < attempts_left u w ->
  attempts_left u (run (record_attempt_failure (uuid_str u)) w).2 < attempts_left u w.
Proof.
  unfold record_attempt_failure. rewrite uuid_parse_str, run_catch. unfold session. rewrite run_act.
  pose proof (session_cases (assign_signal u consume_attempt) w) as Hc.
  destruct (session_step _ w) as [r0 w']. destruct Hc as (_ & _ & Hc).
  destruct r0 as [x|e]; simpl; [|done]. intros [= ->] Hpos.
  destruct Hc as [(? & ? & _)|(a & d & Ht & Hd & _)]; [done|].
  unfold attempts_left, row_of in *. rewrite Hd, (row_of_assign u u _ _ _ _ _ consume_same Ht).
  destruct (select_first _ (signals (db w))) as [r1|] eqn:E; simpl in *; [|lia].
  apply select_first_Some in E as [_ E]. rewrite E. unfold consume_attempt.
  destruct (Z.leb_spec (sg_attempts r1) 1); simpl; lia.
Qed.

(** ** One retry *)
Definition is_retry_scheduled (r : res exn reply) : bool :=
  match r with Ok (RetryScheduled _ _) => true | _ => false end.

Lemma get_by_id_cases u w :
  exists w1 found, db w1 = db w /\ out w1 = out w /\
  run (get_by_id (uuid_str u)) w = (Ok found, w1) /\ (found = row_of u w \/ found = None).
Proof.
  unfold get_by_id. rewrite uuid_parse_str, run_catch.
  destruct (run_query (fun d => select_first (fun r => bool_decide (sg_id r = u)) (signals d)) w)
    as (w1 & Hd & Ho & _ & [->|[e ->]]); simpl; eauto 10.
Qed.

(** Publishing leaves the database alone. *)
Lemma publish_db p id w : db (run (fanout_publish p id) w).2 = db w.
Proof.
  assert (PreOrder (fun w w' : World => db w' = db w)) as HP by (split; [done|intros ? ? ?; congruence]).
  apply (always_run (fun w w' => db w' = db w)).
  unfold fanout_publish, publish_flat_step, publish_flat, publish_signal.
  assert (forall e, always (fun w w' => db w' = db w) (nats e)) as Hn
    by (intros e; apply always_nats; by intros ? ? ->).
  case_bool_decide; [apply Hn|].
  apply always_bind; [by apply always_act|]. intros t.
  destruct (parse_signal p id t); [apply Hn|done].
Qed.

Lemma retry_spends u w :
  let '(r, w') := run (retry (uuid_str u)) w in
  attempts_left u w' <= attempts_left u w /\
  (is_retry_scheduled r = true -> attempts_left u w' < attempts_left u w).
Proof.
  pose proof (always_run (spends u) _ w (spends_retry u (uuid_str u))) as Hle.
  destruct (run (retry (uuid_str u)) w) as [r w'] eqn:E. split; [done|].
  intros Hr. assert (forall x : res exn reply, x = r -> is_retry_scheduled x = false -> False) as Hno by (intros ? ->; congruence).
  revert E. unfold retry_signal. rewrite run_bind.
  destruct (get_by_id_cases u w) as (w1 & found & Hd & Ho & -> & Hf).
  destruct found as [row|]; [|by intros [= Hx _]; destruct (Hno _ Hx)]. destruct Hf as [Hf|]; [|done].
  destruct (_ || _) eqn:Hc; [by intros [= Hx _]; destruct (Hno _ Hx)|].
  apply orb_false_iff in Hc as [_ Ha]. apply Z.leb_gt in Ha.
  assert (0 < attempts_left u w) as Hpos by (unfold attempts_left; rewrite <-Hf; lia).
  assert (forall w0, run (do! record_attempt_failure (uuid_str u) in Ret (Invalid (uuid_str u))) w0
            = (r, w') -> False) as Hinv.
  { intros w0. rewrite run_bind. destruct (run _ w0) as [[?|?] ?]; by intros [= Hx _]; destruct (Hno _ Hx). }
  destruct (sg_raw row); try (by intros ?%Hinv). destruct (validate_webhook kvs) as [p|]; [|by intros ?%Hinv].
  unfold fanout. rewrite run_bind, run_attempt.
  pose proof (publish_db p (uuid_str u) w1) as Hd2.
  destruct (run (fanout_publish p (uuid_str u)) w1) as [rp w2]. simpl in Hd2. cbn [fst snd].
  assert (attempts_left u w2 = attempts_left u w) as Hl
    by (unfold attempts_left, row_of; by rewrite Hd2, Hd).
  destruct rp as [x|e].
  { intros H. exfalso. revert H. rewrite run_bind.
    destruct (run (broadcast_step _ _ _ _) w2) as [[?|?] w3]; [|by intros [= Hx _]; destruct (Hno _ Hx)].
    rewrite run_bind. destruct (run (mark_published _) w3) as [[?|?] w4]; by intros [= Hx _]; destruct (Hno _ Hx). }
  assert (forall n m, run (let! row := record_attempt_failure (uuid_str u) in
      match row with None => Raise (RuntimeError m)
      | Some _ => Ret (RetryScheduled (uuid_str u) n) end) w2 = (r, w') ->
      attempts_left u w' < attempts_left u w) as Hrec.
  { intros n m. rewrite run_bind. pose proof (record_spends u w2) as Hs.
    destruct (run (record_attempt_failure (uuid_str u)) w2) as [[[x|]|e'] w3]; cbn [run fst snd] in *.
    - intros [= <- <-]. rewrite <-Hl. apply (Hs x eq_refl). by rewrite Hl.
    - by intros [= Hx _]; destruct (Hno _ Hx).
    - by intros [= Hx _]; destruct (Hno _ Hx). }
  destruct e; try apply Hrec.
  rewrite run_bind. destruct (run (mark_failed _) w2) as [[[]|?] w3]; by intros [= Hx _]; destruct (Hno _ Hx).
Qed.

(** Only messages under the given id. *)
Definition sends_only (id : string) (w w' : World) : Prop :=
  exists l, out w' = out w ++ l /\ Forall (fun e => sent_id e = None \/ sent_id e = Some id) l.

Lemma sends_only_run id w :
  always (sends_only id) (retry id) -> sends_only id w (run (retry id) w).2.
Proof.
  assert (PreOrder (sends_only id)) as HP.
  { split.
    - intros w0. exists []. rewrite app_nil_r. by split.
    - intros w1 w2 w3 (l1 & O1 & F1) (l2 & O2 & F2). exists (l1 ++ l2).
      rewrite O2, O1, app_assoc. split; [done|]. by apply Forall_app. }
  apply (always_run (sends_only id)).
Qed.

Lemma list_retryable_facts interval w :
  exists rows w', run (list_retryable interval) w = (Ok rows, w') /\ out w' = out w /\
  (forall r, r ∈ rows ->
     r ∈ signals (db w) /\ sg_status r = SigStatus.QUEUED /\ (0 < sg_attempts r)%Z /\
     exists t, sg_last_attempt r = Some t /\ (t + interval * 1000000 < now w)%Z).
Proof.
  unfold list_retryable, clock. rewrite run_bind, run_act, run_catch.
  destruct (run_query (fun d => order_by sg_createdAt
      (select_where (retryable (minus_seconds (now w) interval)) (signals d))) w)
    as (w1 & _ & Ho & _ & [->|[e ->]]); simpl; eexists _, w1; (split; [done|]); (split; [done|]).
  - intros r Hr. apply elem_of_order_by, elem_of_select_where in Hr as [Hin Hr].
    by apply retryable_spec in Hr as (? & ? & ?).
  - by intros r ?%not_elem_of_nil.
Qed.


Lemma run_swallow {A} (p : prog A) w :
  run (catch (do! p in Ret tt) (fun _ => Ret tt)) w = (Ok tt, (run p w).2).
Proof. rewrite run_catch, run_bind. by destruct (run p w) as [[?|?] ?]. Qed.

(** A tick re-sends only what is due: every trading message a tick of the job
    sends carries the id of a row that was QUEUED, had attempts left and a failure
    recorded longer than the interval before the tick; a signal whose first
    fan-out is still in flight is never touched. *)
Theorem tick_sends_only_due interval w :
  exists w', run (tick_once interval) w = (Ok tt, w') /\
  exists l, out w' = out w ++ l /\
  Forall (fun e => forall id, sent_id e = Some id ->
    exists r, r ∈ signals (db w) /\ id = uuid_str (sg_id r) /\ sg_status r = SigStatus.QUEUED /\
      (0 < sg_attempts r)%Z /\
      exists t, sg_last_attempt r = Some t /\ (t + interval * 1000000 < now w)%Z) l.
Proof.
  unfold tick_once. rewrite run_bind.
  destruct (list_retryable_facts interval w) as (rows & w1 & -> & Ho & Hrows).
  assert (forall id, always (sends_only id) (retry id)) as Hsend.
  { intros id. apply (out_retry _ _ _ (fun e => sent_id e = Some id)); [| | |done].
    - intros w2 w3 Ho' _. exists []. rewrite app_nil_r. by split.
    - intros w2 w3 (_ & _ & _ & l & Ho' & Hl). exists l. split; [done|].
      eapply Forall_impl; [exact Hl|]. intros [] Hq; first [done | by left].
    - intros e w2 w3 He _ [Ho'|Ho']; [exists [e]|exists []; rewrite app_nil_r; by split].
      split; [done|]. apply Forall_singleton. by right. }
  assert (forall w0, exists w', run (for_each rows (fun row =>
      catch (do! retry (uuid_str (sg_id row)) in Ret tt) (fun _ => Ret tt))) w0 = (Ok tt, w') /\
    exists l, out w' = out w0 ++ l /\
    Forall (fun e => forall id, sent_id e = Some id ->
      exists r, r ∈ rows /\ id = uuid_str (sg_id r)) l) as H.
  { clear Hrows. induction rows as [|row rows IH]; intros w0.
    { exists w0. split; [done|]. exists []. rewrite app_nil_r. by split. }
    cbn [for_each]. rewrite run_bind, run_swallow.
    pose proof (sends_only_run (uuid_str (sg_id row)) w0 (Hsend _)) as (l1 & O1 & F1).
    destruct (run (retry (uuid_str (sg_id row))) w0) as [x w3]. cbn [fst snd] in *.
    destruct (IH w3) as (w' & -> & l2 & O2 & F2). exists w'. split; [done|].
    exists (l1 ++ l2). rewrite O2, O1, app_assoc. split; [done|]. apply Forall_app. split.
    - eapply Forall_impl; [exact F1|]. intros e [He|He] id Hid; [congruence|].
      exists row. split; [left|congruence].
    - eapply Forall_impl; [exact F2|]. intros e He id Hid. destruct (He id Hid) as (r & ? & ?).
      exists r. split; [by right|done]. }
  destruct (H w1) as (w' & -> & l & Hl & HF). exists w'. split; [done|].
  exists l. rewrite Hl, Ho. split; [done|]. eapply Forall_impl; [exact HF|].
  intros e He id Hid. destruct (He id Hid) as (r & Hr & ->).
  destruct (Hrows r Hr) as (? & ? & ? & ?). exists r. auto.
Qed.
End job.
