(* ===== verification/BroadcastRepo.v ===== *)
(** * The broadcast repository

    [SqlAlchemyBroadcastMessageRepository] ([db/repository/broadcast_message.py]):
    the cycle of a trade, the write log of its changes, what each chat shows.
    Every method that touches a row is one session; [record_event] is two, since
    its locked read takes no lock on a cycle that does not exist yet. *)

From S2P Require Import Prelude PyStr Uuid PyTime Json Enums Schemas Models World.
From S2P Require Import StatusPolicies.
From Stdlib Require Import Ascii.

(** ** Rows *)
Definition bm_append (action : SignalActionEnum) (event : json) (r : BroadcastMessage)
    : BroadcastMessage :=
  {| bm_id := bm_id r; bm_strategy := bm_strategy r; bm_signal_uxid := bm_signal_uxid r;
     bm_symbol := bm_symbol r; bm_timeframe := bm_timeframe r;
     bm_actions := join "," (base.filter (fun p => is_empty p = false) (split ","%char (bm_actions r))
                             ++ [action_value action]);
     bm_latest_action := action;
     bm_status := merge_status (Member (bm_status r)) (Member (status_for_action action));
     bm_events := bm_events r ++ [event];
     bm_last_seq := (bm_last_seq r + 1)%Z;
     bm_last_broadcast_at := bm_last_broadcast_at r |}.

Definition bm_set_seq (seq : Z) (r : BroadcastMessage) : BroadcastMessage :=
  {| bm_id := bm_id r; bm_strategy := bm_strategy r; bm_signal_uxid := bm_signal_uxid r;
     bm_symbol := bm_symbol r; bm_timeframe := bm_timeframe r; bm_actions := bm_actions r;
     bm_latest_action := bm_latest_action r; bm_status := bm_status r; bm_events := bm_events r;
     bm_last_seq := seq; bm_last_broadcast_at := bm_last_broadcast_at r |}.

Definition bm_stamp (t : instant) (r : BroadcastMessage) : BroadcastMessage :=
  {| bm_id := bm_id r; bm_strategy := bm_strategy r; bm_signal_uxid := bm_signal_uxid r;
     bm_symbol := bm_symbol r; bm_timeframe := bm_timeframe r; bm_actions := bm_actions r;
     bm_latest_action := bm_latest_action r; bm_status := bm_status r; bm_events := bm_events r;
     bm_last_seq := bm_last_seq r; bm_last_broadcast_at := Some t |}.

(** The columns delivery updates; [updatedAt] is stamped by [onupdate]. *)
Definition bl_update (t : instant) (status : BroadcastLogStatusEnum) (attempts : Z)
    (last_error : option string) (delivered_at : option instant) (r : BroadcastMessageLog)
    : BroadcastMessageLog :=
  {| bl_id := bl_id r; bl_updatedAt := t; bl_broadcast_message_id := bl_broadcast_message_id r;
     bl_seq := bl_seq r; bl_kind := bl_kind r; bl_payload := bl_payload r; bl_status := status;
     bl_attempts := attempts; bl_last_error := last_error; bl_delivered_at := delivered_at |}.

(** [_log_entry]. *)
Definition log_entry (fresh : uuid) (t : instant) (row : BroadcastMessage) (seq : Z)
    (kind : BroadcastLogKindEnum) (payload : json) : BroadcastMessageLog :=
  {| bl_id := fresh; bl_updatedAt := t; bl_broadcast_message_id := bm_id row; bl_seq := seq;
     bl_kind := kind; bl_payload := payload; bl_status := LogStatus.PENDING; bl_attempts := 0;
     bl_last_error := None; bl_delivered_at := None |}.

(** [(text or "")[:255] or None]. *)
Definition clip_error (text : option string) : option string :=
  let s := take_str 255 (default EmptyString text) in
  if is_empty s then None else Some s.

(** [_is_duplicate_event]: an event is an object, given by its members. *)
Definition is_duplicate_event (events : list json) (event : list (string * json)) : bool :=
  match last events with
  | Some (JObj l) =>
      json_eqb (obj_get "action" l) (obj_get "action" event) &&
      json_eqb (obj_get "timestamp" l) (obj_get "timestamp" event)
  | _ => false
  end.

(** ** Cycles *)

Definition cycle_key (symbol strategy signal_uxid : string) (r : BroadcastMessage) : bool :=
  bool_decide (bm_symbol r = symbol) && bool_decide (bm_strategy r = strategy) &&
  bool_decide (bm_signal_uxid r = signal_uxid).

(** [_locked_cycle]. *)
Definition locked_cycle (symbol strategy signal_uxid : string) (d : Db) : option BroadcastMessage :=
  select_first (cycle_key symbol strategy signal_uxid) (broadcast_messages d).

Definition by_id (id : uuid) (r : BroadcastMessage) : bool := bool_decide (bm_id r = id).

Definition insert_log (l : BroadcastMessageLog) (d : Db) : res exn Db :=
  match insert_unique log_clash l (broadcast_message_logs d) with
  | None => Err IntegrityError
  | Some t => Ok (set_logs t d)
  end.

(** Assigns to the attributes of [row] and appends the log entry of the change. *)
Definition save_cycle (l : BroadcastMessageLog) (row : BroadcastMessage) (d : Db)
    : res exn (BroadcastMessage * Db) :=
  match insert_log l (set_messages
          (update_where (by_id (bm_id row)) (fun _ => row) (broadcast_messages d)) d) with
  | Err e => Err e
  | Ok d => Ok (row, d)
  end.

Section record_event.
Context (strategy signal_uxid symbol : string) (timeframe : option string)
        (action : SignalActionEnum) (event : list (string * json)).

Definition new_cycle (fresh : uuid) : BroadcastMessage :=
  {| bm_id := fresh; bm_strategy := strategy; bm_signal_uxid := signal_uxid;
     bm_symbol := symbol; bm_timeframe := timeframe; bm_actions := action_value action;
     bm_latest_action := action; bm_status := status_for_action action;
     bm_events := [JObj event]; bm_last_seq := 1; bm_last_broadcast_at := None |}.

(** The branch of an absent cycle: both inserts, one commit. *)
Definition open_cycle (fresh fresh_log : uuid) (t : instant) (d : Db)
    : res exn (BroadcastMessage * Db) :=
  let row := new_cycle fresh in
  match insert_unique message_clash row (broadcast_messages d) with
  | None => Err IntegrityError
  | Some ms =>
      match insert_log (log_entry fresh_log t row 1 LogKind.SIGNAL (JObj event)) (set_messages ms d) with
      | Err e => Err e
      | Ok d => Ok (row, d)
      end
  end.

(** The branch of a locked cycle. *)
Definition extend_cycle (fresh_log : uuid) (t : instant) (row : BroadcastMessage) (d : Db)
    : res exn (BroadcastMessage * Db) :=
  if is_duplicate_event (bm_events row) event then Ok (row, d)
  else
    let row := bm_append action (JObj event) row in
    save_cycle (log_entry fresh_log t row (bm_last_seq row) LogKind.SIGNAL (JObj event)) row d.

(** One pass of the loop.  A row the read finds is locked until the commit, so
    its branch is one step; a row it does not find may still appear before the
    insert, which then raises [IntegrityError]. *)
Definition record_event_once : prog BroadcastMessage :=
  let! fresh := uuid4 in
  let! fresh_log := uuid4 in
  let! seen := session (fun t d =>
    match locked_cycle symbol strategy signal_uxid d with
    | None => Ok (None, d)
    | Some row => match extend_cycle fresh_log t row d with
                  | Ok (row, d) => Ok (Some row, d)
                  | Err e => Err e
                  end
    end) in
  match seen with
  | Some row => Ret row
  | None => session (open_cycle fresh fresh_log)
  end.

(** [for attempt in (1, 2)]. *)
Fixpoint record_event_loop (attempts : list Z) : prog (option BroadcastMessage) :=
  match attempts with
  | [] => Ret None
  | n :: rest =>
      let! r := attempt record_event_once in
      match r with
      | Ok row => Ret (Some row)
      | Err IntegrityError => if (n =? 1)%Z then record_event_loop rest else Ret None
      | Err _ => Ret None
      end
  end.

Definition record_event : prog (option BroadcastMessage) := record_event_loop [1; 2]%Z.
End record_event.

(** ** Workers *)
Definition worker_key (message_id : uuid) (worker_id : string) (r : BroadcastMessageWorker) : bool :=
  bool_decide (bw_broadcast_message_id r = message_id) && bool_decide (bw_worker_id r = worker_id).

Section record_worker.
Context (symbol strategy signal_uxid worker_id account_id : string)
        (market : option MarketTypeEnum) (gateway : option string)
        (latest_status : TradeStatusEnum) (latest_action reject_reason : option string)
        (event_at : option instant).

Definition new_worker (fresh : uuid) (t : instant) (message_id : uuid) : BroadcastMessageWorker :=
  {| bw_id := fresh; bw_createdAt := t; bw_broadcast_message_id := message_id;
     bw_worker_id := worker_id; bw_account_id := account_id; bw_market := market;
     bw_gateway := gateway; bw_latest_status := latest_status; bw_latest_action := latest_action;
     bw_reject_reason := reject_reason; bw_last_event_at := Some (default t event_at) |}.

Definition update_worker (t : instant) (r : BroadcastMessageWorker) : BroadcastMessageWorker :=
  {| bw_id := bw_id r; bw_createdAt := bw_createdAt r;
     bw_broadcast_message_id := bw_broadcast_message_id r; bw_worker_id := bw_worker_id r;
     bw_account_id := bw_account_id r;
     bw_market := match market with Some _ => market | None => bw_market r end;
     bw_gateway := match gateway with Some _ => gateway | None => bw_gateway r end;
     bw_latest_status := latest_status; bw_latest_action := latest_action;
     bw_reject_reason := reject_reason; bw_last_event_at := Some (default t event_at) |}.

Definition worker_unchanged (r : BroadcastMessageWorker) : bool :=
  bool_decide (bw_latest_status r = latest_status) && bool_decide (bw_latest_action r = latest_action).

Definition opt_json (s : option string) : json :=
  match s with Some s => JStr s | None => JNull end.

Definition execution_payload : json :=
  JObj [("worker_id", JStr worker_id); ("account_id", JStr account_id);
        ("status", JStr (trade_status_value latest_status)); ("action", opt_json latest_action)].

(** The transaction, from the locked cycle on. *)
Definition record_worker (fresh fresh_log : uuid) (t : instant) (d : Db)
    : res exn (option BroadcastMessage * Db) :=
  match locked_cycle symbol strategy signal_uxid d with
  | None => Ok (None, d)
  | Some row =>
      let bump d :=
        let row := bm_set_seq (bm_last_seq row + 1) row in
        match save_cycle (log_entry fresh_log t row (bm_last_seq row) LogKind.EXECUTION
                            execution_payload) row d with
        | Ok (row, d) => Ok (Some row, d)
        | Err e => Err e
        end in
      match select_first (worker_key (bm_id row) worker_id) (broadcast_message_workers d) with
      | Some worker =>
          if worker_unchanged worker then Ok (Some row, d)
          else bump (set_workers (update_where (fun r => bool_decide (bw_id r = bw_id worker))
                                    (update_worker t) (broadcast_message_workers d)) d)
      | None =>
          match insert_unique worker_clash (new_worker fresh t (bm_id row))
                  (broadcast_message_workers d) with
          | None => Err IntegrityError
          | Some ws => bump (set_workers ws d)
          end
      end
  end.

Definition record_worker_execution : prog (option BroadcastMessage) :=
  let! fresh := uuid4 in
  let! fresh_log := uuid4 in
  catch (session (record_worker fresh fresh_log)) (fun _ => Ret None).
End record_worker.

(** ** Dispatcher side *)

Definition pending (id : uuid) (max_attempts : Z) (r : BroadcastMessageLog) : bool :=
  bool_decide (bl_broadcast_message_id r = id) && bool_decide (bl_status r = LogStatus.PENDING) &&
  (bl_attempts r <? max_attempts)%Z.

Definition claim_log (t : instant) (r : BroadcastMessageLog) : BroadcastMessageLog :=
  bl_update t LogStatus.SENDING (bl_attempts r + 1) (bl_last_error r) (bl_delivered_at r) r.

Definition claim_pending_logs (id : uuid) (max_attempts : Z) : prog (list BroadcastMessageLog) :=
  catch (session (fun t d =>
    let rows := order_by bl_seq (select_where (pending id max_attempts) (broadcast_message_logs d)) in
    Ok (map (claim_log t) rows,
        set_logs (update_where (pending id max_attempts) (claim_log t) (broadcast_message_logs d)) d)))
    (fun _ => Ret []).

Definition id_in (ids : list uuid) (r : BroadcastMessageLog) : bool := bool_decide (bl_id r ∈ ids).

Definition finish_log (t : instant) (delivered : bool) (error : option string)
    (max_attempts : option Z) (r : BroadcastMessageLog) : BroadcastMessageLog :=
  if delivered then bl_update t LogStatus.DELIVERED (bl_attempts r) None (Some t) r
  else
    let exhausted := match max_attempts with Some n => (n <=? bl_attempts r)%Z | None => false end in
    bl_update t (if exhausted then LogStatus.FAILED else LogStatus.PENDING) (bl_attempts r)
      (clip_error error) (bl_delivered_at r) r.

(** A bulk assignment to the log entries of [ids]. *)
Definition assign_logs (ids : list uuid) (f : instant -> BroadcastMessageLog -> BroadcastMessageLog)
    : prog bool :=
  match ids with
  | [] => Ret true
  | _ =>
      catch (do! session (fun t d =>
               Ok (tt, set_logs (update_where (id_in ids) (f t) (broadcast_message_logs d)) d))
             in Ret true)
            (fun _ => Ret false)
  end.

Definition finish_logs (ids : list uuid) (delivered : bool) (error : option string)
    (max_attempts : option Z) : prog bool :=
  assign_logs ids (fun t => finish_log t delivered error max_attempts).

Definition defer_log (reason : string) (t : instant) (r : BroadcastMessageLog) : BroadcastMessageLog :=
  bl_update t LogStatus.PENDING (Z.max 0 (bl_attempts r - 1)) (clip_error (Some reason))
    (bl_delivered_at r) r.

Definition defer_logs (ids : list uuid) (reason : string) : prog bool :=
  assign_logs ids (defer_log reason).

(** An entry nothing is delivering any more. *)
Definition stale (threshold : instant) (r : BroadcastMessageLog) : bool :=
  bool_decide (bl_status r = LogStatus.SENDING) && (bl_updatedAt r <? threshold)%Z.

Definition outstanding (max_attempts : Z) (threshold : instant) (r : BroadcastMessageLog) : bool :=
  (bl_attempts r <? max_attempts)%Z &&
  (bool_decide (bl_status r = LogStatus.PENDING) || stale threshold r).

(** [distinct] is the [GROUP BY], under [ORDER BY min(seq)]. *)
Definition list_cycles_with_pending_logs (max_attempts stale_after_seconds : Z) (limit : nat)
    : prog (list uuid) :=
  let! t := clock in
  let threshold := minus_seconds t stale_after_seconds in
  catch (query (fun d =>
    take limit (distinct (map bl_broadcast_message_id
      (order_by bl_seq (select_where (outstanding max_attempts threshold)
                          (broadcast_message_logs d)))))))
    (fun _ => Ret []).

Definition reclaim_log (t : instant) (r : BroadcastMessageLog) : BroadcastMessageLog :=
  bl_update t LogStatus.PENDING (bl_attempts r) (bl_last_error r) (bl_delivered_at r) r.

Definition reclaim_stale_logs (stale_after_seconds : Z) : prog Z :=
  let! now := clock in
  let threshold := minus_seconds now stale_after_seconds in
  catch (session (fun t d =>
    Ok (Z.of_nat (length (select_where (stale threshold) (broadcast_message_logs d))),
        set_logs (update_where (stale threshold) (reclaim_log t) (broadcast_message_logs d)) d)))
    (fun _ => Ret 0%Z).

(** [BroadcastCycleView]. *)
Record BroadcastCycleView := {
  view_message : BroadcastMessage;
  view_chats : list BroadcastMessageChat;
  view_workers : list BroadcastMessageWorker
}.

Definition cycle_view (id : uuid) (d : Db) : option BroadcastCycleView :=
  match select_first (by_id id) (broadcast_messages d) with
  | None => None
  | Some m =>
      Some {| view_message := m;
              view_chats := order_by bc_createdAt (select_where
                (fun r => bool_decide (bc_broadcast_message_id r = id)) (broadcast_message_chats d));
              view_workers := order_by bw_createdAt (select_where
                (fun r => bool_decide (bw_broadcast_message_id r = id)) (broadcast_message_workers d)) |}
  end.

Definition load_cycle (id : uuid) : prog (option BroadcastCycleView) :=
  catch (query (cycle_view id)) (fun _ => Ret None).

(** ** Chats *)
Definition chat_key (message_id : uuid) (chat_id : string) (r : BroadcastMessageChat) : bool :=
  bool_decide (bc_broadcast_message_id r = message_id) && bool_decide (bc_chat_id r = chat_id).

Section upsert_chat.
Context (broadcast_message_id : uuid) (audience : BroadcastAudienceEnum) (chat_id : string)
        (message_id message : option string) (delivered_seq notified_event_count : option Z)
        (last_error : option string).

Definition new_chat (fresh : uuid) (t : instant) : BroadcastMessageChat :=
  {| bc_id := fresh; bc_createdAt := t; bc_broadcast_message_id := broadcast_message_id;
     bc_audience := audience; bc_chat_id := chat_id; bc_message_id := message_id;
     bc_message := message; bc_delivered_seq := default 0%Z delivered_seq;
     bc_notified_event_count := notified_event_count; bc_last_error := last_error |}.

Definition update_chat (r : BroadcastMessageChat) : BroadcastMessageChat :=
  {| bc_id := bc_id r; bc_createdAt := bc_createdAt r;
     bc_broadcast_message_id := bc_broadcast_message_id r; bc_audience := audience;
     bc_chat_id := bc_chat_id r;
     bc_message_id := match message_id with Some _ => message_id | None => bc_message_id r end;
     bc_message := match message with Some _ => message | None => bc_message r end;
     bc_delivered_seq :=
       match delivered_seq with
       | Some n => if (bc_delivered_seq r <? n)%Z then n else bc_delivered_seq r
       | None => bc_delivered_seq r
       end;
     bc_notified_event_count :=
       match notified_event_count with
       | Some n => if (default 0 (bc_notified_event_count r) <? n)%Z then Some n
                   else bc_notified_event_count r
       | None => bc_notified_event_count r
       end;
     bc_last_error := last_error |}.

Definition write_chat (fresh : uuid) (t : instant) (d : Db) : res exn (unit * Db) :=
  match select_first (chat_key broadcast_message_id chat_id) (broadcast_message_chats d) with
  | None =>
      match insert_unique chat_clash (new_chat fresh t) (broadcast_message_chats d) with
      | None => Err IntegrityError
      | Some cs => Ok (tt, set_chats cs d)
      end
  | Some row =>
      Ok (tt, set_chats (update_where (fun r => bool_decide (bc_id r = bc_id row)) update_chat
                           (broadcast_message_chats d)) d)
  end.

Definition upsert_chat : prog bool :=
  let! fresh := uuid4 in
  catch (do! session (write_chat fresh) in Ret true) (fun _ => Ret false).
End upsert_chat.

Definition mark_broadcast (id : uuid) : prog bool :=
  catch (session (fun t d =>
    match select_first (by_id id) (broadcast_messages d) with
    | None => Ok (false, d)
    | Some row =>
        Ok (true, set_messages (update_where (by_id (bm_id row)) (bm_stamp t) (broadcast_messages d)) d)
    end)) (fun _ => Ret false).
