(* ===== verification/CycleLog.v ===== *)
(** * The write log of a cycle

    What the tables of the broadcast repository promise each other: a cycle's
    [last_seq] counts its log entries, its [events] are the SIGNAL entries in
    order, its [actions] and [status] follow from them.  Every operation keeps
    the promise and loses nothing already recorded. *)

From S2P Require Import Prelude PyStr Uuid PyTime Json Enums Schemas Models World.
From S2P Require Import StatusPolicies Samples BroadcastRepo.
From Stdlib Require Import Ascii.

(** ** Projections of updated tables *)
Section project.
Context {row B : Type} (g : row -> B).

Lemma map_select_update q p f (t : list row) :
  (forall r, q (f r) = q r) -> (forall r, g (f r) = g r) ->
  map g (select_where q (update_where p f t)) = map g (select_where q t).
Proof.
  intros Hq Hg. unfold select_where, update_where. induction t as [|r t IH]; [done|].
  cbn [map]. rewrite !filter_cons. destruct (p r).
  - rewrite Hq. case_decide; cbn [map]; [by rewrite Hg, IH|done].
  - case_decide; cbn [map]; [by rewrite IH|done].
Qed.

End project.

(** ** The invariant *)
Definition log_of (id : uuid) (l : BroadcastMessageLog) : bool :=
  bool_decide (bl_broadcast_message_id l = id).

Definition is_signal (l : BroadcastMessageLog) : bool :=
  match bl_kind l with LogKind.SIGNAL => true | LogKind.EXECUTION => false end.

Definition signal_log_of (id : uuid) (l : BroadcastMessageLog) : bool :=
  log_of id l && is_signal l.

Definition bm_key (m : BroadcastMessage) : string * string * string :=
  (bm_symbol m, bm_strategy m, bm_signal_uxid m).

(** [actions], [latest_action] and [status] tell one story. *)
Definition trail_ok (m : BroadcastMessage) (trail : list SignalActionEnum) : Prop :=
  bm_actions m = join "," (map action_value trail) /\
  last trail = Some (bm_latest_action m) /\ length trail = length (bm_events m) /\
  bm_status m = status_after CycleStatus.RUNNING trail.

Definition cycle_ok (logs : list BroadcastMessageLog) (m : BroadcastMessage) : Prop :=
  (1 <= bm_last_seq m)%Z /\ (exists trail, trail_ok m trail) /\
  map bl_seq (select_where (log_of (bm_id m)) logs) = seqZ 1 (bm_last_seq m) /\
  map bl_payload (select_where (signal_log_of (bm_id m)) logs) = bm_events m.

Definition cycles_ok (d : Db) : Prop :=
  NoDup (map bm_id (broadcast_messages d)) /\ NoDup (map bm_key (broadcast_messages d)) /\
  NoDup (map bl_id (broadcast_message_logs d)) /\
  Forall (cycle_ok (broadcast_message_logs d)) (broadcast_messages d) /\
  Forall (fun l => exists m, m ∈ broadcast_messages d /\ bm_id m = bl_broadcast_message_id l)
    (broadcast_message_logs d).

(** ** Growth *)
Definition same_cycle (m m' : BroadcastMessage) : Prop :=
  bm_id m' = bm_id m /\ bm_key m' = bm_key m /\ bm_events m `prefix_of` bm_events m' /\
  (bm_last_seq m <= bm_last_seq m')%Z /\ (status_order (bm_status m) <= status_order (bm_status m'))%Z.

Definition same_log (l l' : BroadcastMessageLog) : Prop :=
  bl_id l' = bl_id l /\ bl_broadcast_message_id l' = bl_broadcast_message_id l /\
  bl_seq l' = bl_seq l /\ bl_kind l' = bl_kind l /\ bl_payload l' = bl_payload l.

Definition same_chat (c c' : BroadcastMessageChat) : Prop :=
  bc_broadcast_message_id c' = bc_broadcast_message_id c /\ bc_chat_id c' = bc_chat_id c /\
  (bc_delivered_seq c <= bc_delivered_seq c')%Z /\
  (default 0 (bc_notified_event_count c) <= default 0 (bc_notified_event_count c'))%Z /\
  (is_Some (bc_message_id c) -> is_Some (bc_message_id c')).

Definition grows (d d' : Db) : Prop :=
  kept same_cycle (broadcast_messages d) (broadcast_messages d') /\
  kept same_log (broadcast_message_logs d) (broadcast_message_logs d') /\
  kept same_chat (broadcast_message_chats d) (broadcast_message_chats d').

Definition broadcast_step (w w' : World) : Prop :=
  cycles_ok (db w) -> cycles_ok (db w') /\ grows (db w) (db w').

#[global] Instance same_cycle_preorder : PreOrder same_cycle.
Proof.
  split; [intros m; unfold same_cycle; split_and!; done || lia|].
  intros m1 m2 m3 (?&?&?&?&?) (?&?&?&?&?). unfold same_cycle. split_and!; try congruence; try lia.
  by etransitivity.
Qed.

#[global] Instance same_log_preorder : PreOrder same_log.
Proof.
  split; [intros m; unfold same_log; by split_and!|].
  intros m1 m2 m3 (?&?&?&?&?) (?&?&?&?&?). unfold same_log. split_and!; congruence.
Qed.

#[global] Instance same_chat_preorder : PreOrder same_chat.
Proof.
  split; [intros m; unfold same_chat; split_and!; done || lia|].
  intros m1 m2 m3 (?&?&?&?&?) (?&?&?&?&?). unfold same_chat.
  split_and!; try congruence; try lia; auto.
Qed.

#[global] Instance grows_preorder : PreOrder grows.
Proof.
  split; [intros d; unfold grows; split_and!; reflexivity|].
  intros d1 d2 d3 (?&?&?) (?&?&?). unfold grows. split_and!; by etransitivity.
Qed.

#[global] Instance broadcast_step_preorder : PreOrder broadcast_step.
Proof.
  split; [intros w H; split; [done|reflexivity]|].
  intros w1 w2 w3 H1 H2 H. destruct (H1 H) as [H' ?]. destruct (H2 H'). split; [done|].
  by transitivity (db w2).
Qed.

(** ** Deliveries: the log entries keep what they record *)
Lemma same_log_of id l l' : same_log l l' -> log_of id l' = log_of id l.
Proof. intros (_ & H & _). unfold log_of. by rewrite H. Qed.

Lemma same_signal_log id l l' : same_log l l' -> signal_log_of id l' = signal_log_of id l.
Proof.
  intros H. unfold signal_log_of, is_signal. rewrite (same_log_of _ _ _ H).
  by destruct H as (_ & _ & _ & -> & _).
Qed.

Lemma ok_update_logs p f d :
  (forall l, same_log l (f l)) -> cycles_ok d ->
  cycles_ok (set_logs (update_where p f (broadcast_message_logs d)) d) /\
  grows d (set_logs (update_where p f (broadcast_message_logs d)) d).
Proof.
  intros Hf (Hid & Hkey & Hl & Hc & Hfk). split.
  - unfold cycles_ok. cbn. split_and!; try done.
    + rewrite update_where_proj; [done|]. intros l _. by destruct (Hf l).
    + eapply Forall_impl; [exact Hc|]. intros m (? & ? & Hs & He). unfold cycle_ok.
      rewrite !map_select_update; [done| | | |]; intros l.
      * apply same_signal_log, Hf.
      * by destruct (Hf l) as (_ & _ & _ & _ & ?).
      * apply same_log_of, Hf.
      * by destruct (Hf l) as (_ & _ & ? & _).
    + rewrite Forall_forall in Hfk |- *. intros l' (l & Hin & ->)%elem_of_update_where.
      destruct (Hfk l Hin) as (m & ? & Hm). exists m. split; [done|].
      destruct (p l); [|done]. destruct (Hf l) as (_ & -> & _). done.
  - split_and!; cbn; [reflexivity| |reflexivity]. apply kept_update; [apply _|intros l _ _; apply Hf].
Qed.

Lemma bl_update_same t s a e o l : same_log l (bl_update t s a e o l).
Proof. by split_and!. Qed.

Lemma finish_same t d e n l : same_log l (finish_log t d e n l).
Proof. unfold finish_log. destruct d; apply bl_update_same. Qed.

(** ** Writers *)
Lemma nodup_update_id (t : list BroadcastMessage) row :
  map bm_id (update_where (by_id (bm_id row)) (fun _ => row) t) = map bm_id t.
Proof.
  apply update_where_proj. intros r Hr. unfold by_id in Hr.
  by apply bool_decide_eq_true in Hr.
Qed.

(** A locked cycle [row], replaced by [row'] together with the log entry [l] of
    the change. *)
Lemma ok_save_cycle d row row' l d' r :
  cycles_ok d -> row ∈ broadcast_messages d -> same_cycle row row' ->
  (exists trail, trail_ok row' trail) ->
  bm_last_seq row' = (bm_last_seq row + 1)%Z ->
  bl_broadcast_message_id l = bm_id row -> bl_seq l = bm_last_seq row' ->
  bm_events row' = bm_events row ++ (if is_signal l then [bl_payload l] else []) ->
  save_cycle l row' d = Ok (r, d') ->
  cycles_ok d' /\ grows d d'.
Proof.
  intros (Hid & Hkey & Hl & Hc & Hfk) Hrow Hsame Htrail Hseq Hmsg Hlseq Hev.
  destruct Hsame as (Eid & Ekey & Hrest). unfold save_cycle, insert_log.
  destruct (insert_unique log_clash _ _) as [ls|] eqn:E; [|done]. intros [= _ <-].
  apply insert_unique_Some in E as [-> Hclash]. cbn in Hclash |- *.
  assert (forall m, m ∈ broadcast_messages d -> bm_id m = bm_id row -> m = row) as Huniq
    by (intros m Hm Hi; exact (nodup_map_eq bm_id _ _ _ Hid Hm Hrow Hi)).
  assert (map bm_key (update_where (by_id (bm_id row')) (fun _ => row') (broadcast_messages d))
            = map bm_key (broadcast_messages d)) as Hkeys.
  { unfold update_where. rewrite map_map. apply map_ext_in. intros m Hm%list_elem_of_In.
    unfold by_id. case_bool_decide as Hi; [|done]. by rewrite (Huniq m Hm) by congruence. }
  split.
  - unfold cycles_ok. cbn. rewrite Hkeys, nodup_update_id. split_and!; try done.
    + apply nodup_map_snoc; [done|]. intros l' Hl' Heq.
      rewrite Forall_forall in Hclash. specialize (Hclash l' Hl'). unfold log_clash in Hclash.
      apply orb_false_iff in Hclash as [Hclash _]. apply bool_decide_eq_false in Hclash. by apply Hclash.
    + rewrite Forall_forall in Hc |- *. intros m' (m & Hm & ->)%elem_of_update_where.
      destruct (Hc m Hm) as (H1 & Ht & Hs & He).
      unfold by_id. case_bool_decide as Hi.
      * assert (m = row) as -> by (apply Huniq; congruence). unfold cycle_ok. rewrite Eid.
        split; [lia|]. split; [done|]. rewrite !select_where_app, !map_app, Hs, He.
        rewrite !select_where_single. unfold signal_log_of, log_of. rewrite Hmsg, bool_decide_eq_true_2 by done.
        cbn [andb map]. split.
        -- rewrite Hlseq, Hseq, seqZ_app by lia. f_equal. cbn. by rewrite Z.add_comm.
        -- rewrite Hev. by destruct (is_signal l).
      * unfold cycle_ok. rewrite !select_where_app, !map_app, Hs, He, !select_where_single.
        unfold signal_log_of, log_of. rewrite bool_decide_eq_false_2 by congruence.
        cbn. by rewrite !app_nil_r.
    + rewrite Forall_forall in Hfk |- *. intros l' [Hl'|Hl']%elem_of_app.
      * destruct (Hfk l' Hl') as (m & Hm & Hi). destruct (decide (bm_id m = bm_id row)) as [Hr|Hr].
        -- exists row'. split; [|congruence]. apply elem_of_update_where. exists row.
           split; [done|]. unfold by_id. by rewrite bool_decide_eq_true_2.
        -- exists m. split; [|done]. apply elem_of_update_where. exists m. split; [done|].
           unfold by_id. rewrite bool_decide_eq_false_2; congruence.
      * apply list_elem_of_singleton in Hl' as ->. exists row'. split; [|congruence].
        apply elem_of_update_where. exists row. split; [done|].
        unfold by_id. by rewrite bool_decide_eq_true_2.
  - split_and!; cbn; [|apply kept_app, _|reflexivity].
    apply kept_update; [apply _|]. intros m Hm Hi. unfold by_id in Hi.
    apply bool_decide_eq_true in Hi. rewrite (Huniq m Hm) by congruence. done.
Qed.

Lemma action_value_plain a : is_empty (action_value a) = false /\ ","%char ∉ chars (action_value a).
Proof.
  destruct a; (split; [done|]); cbn; rewrite ?not_elem_of_cons; split_and?; try done;
    apply not_elem_of_nil.
Qed.

Lemma actions_split trail :
  trail <> [] ->
  base.filter (fun p => is_empty p = false) (split ","%char (join "," (map action_value trail))) =
  map action_value trail.
Proof.
  intros Hne. rewrite split_join.
  - clear Hne. induction trail as [|a l IH]; [done|]. cbn [map]. rewrite filter_cons.
    destruct (action_value_plain a). case_decide; [by rewrite IH|done].
  - by destruct trail.
  - apply Forall_forall. intros p (a & -> & _)%list_elem_of_fmap. apply action_value_plain.
Qed.

Lemma trail_nonempty m trail : trail_ok m trail -> trail <> [].
Proof. intros (_ & Hl & _) ->. done. Qed.

Lemma trail_append m trail action event :
  trail_ok m trail -> trail_ok (bm_append action event m) (trail ++ [action]).
Proof.
  intros Ht. pose proof (trail_nonempty _ _ Ht) as Hne. destruct Ht as (Ha & Hl & Hn & Hs).
  unfold trail_ok. cbn. split_and!.
  - by rewrite Ha, actions_split, map_app.
  - by rewrite last_snoc.
  - rewrite !length_app, Hn. done.
  - rewrite Hs. unfold status_after. by rewrite fold_left_app.
Qed.

Lemma append_same action event m : same_cycle m (bm_append action event m).
Proof.
  unfold same_cycle. cbn. split_and!; try done; try lia; [by eexists|].
  rewrite merge_order. lia.
Qed.

Lemma set_seq_same m : same_cycle m (bm_set_seq (bm_last_seq m + 1) m).
Proof. unfold same_cycle. cbn. split_and!; done || lia. Qed.

Lemma locked_cycle_Some symbol strategy uxid d row :
  locked_cycle symbol strategy uxid d = Some row ->
  row ∈ broadcast_messages d /\ bm_key row = (symbol, strategy, uxid).
Proof.
  intros [Hin Hk]%select_first_Some. split; [done|]. unfold cycle_key in Hk.
  apply andb_true_iff in Hk as [[H1 H2]%andb_true_iff H3].
  apply bool_decide_eq_true in H1, H2, H3. unfold bm_key. congruence.
Qed.

Lemma cycle_of_ok d m : cycles_ok d -> m ∈ broadcast_messages d ->
  cycle_ok (broadcast_message_logs d) m.
Proof. intros (_ & _ & _ & H & _). rewrite Forall_forall in H. apply H. Qed.

Lemma ok_extend action event fresh_log t row d r d' :
  cycles_ok d -> row ∈ broadcast_messages d ->
  extend_cycle action event fresh_log t row d = Ok (r, d') ->
  cycles_ok d' /\ grows d d'.
Proof.
  intros Hok Hrow. unfold extend_cycle. destruct (is_duplicate_event _ _).
  { intros [= _ <-]. split; [done|reflexivity]. }
  destruct (cycle_of_ok _ _ Hok Hrow) as (_ & (trail & Ht) & _).
  eapply (ok_save_cycle d row); try done.
  - apply append_same.
  - exists (trail ++ [action]). by apply trail_append.
Qed.

Lemma ok_open strategy uxid symbol timeframe action event fresh fresh_log t d r d' :
  cycles_ok d ->
  open_cycle strategy uxid symbol timeframe action event fresh fresh_log t d = Ok (r, d') ->
  cycles_ok d' /\ grows d d'.
Proof.
  intros (Hid & Hkey & Hl & Hc & Hfk). unfold open_cycle, insert_log.
  set (row := new_cycle _ _ _ _ _ _ _).
  destruct (insert_unique message_clash row _) as [ms|] eqn:E1; [|done].
  apply insert_unique_Some in E1 as [-> Hm]. cbn [broadcast_message_logs set_messages].
  destruct (insert_unique log_clash _ _) as [ls|] eqn:E2; [|done]. intros [= _ <-].
  apply insert_unique_Some in E2 as [-> Hlc].
  assert (Forall (fun m => bm_id m <> fresh /\ bm_key m <> bm_key row) (broadcast_messages d)) as Hnew.
  { eapply Forall_impl; [exact Hm|]. intros m [H1 H2]%orb_false_iff.
    apply bool_decide_eq_false in H1, H2. unfold bm_key. cbn in *. split; congruence. }
  rewrite Forall_forall in Hnew.
  assert (forall p : BroadcastMessageLog -> bool, (forall l, p l = true -> log_of fresh l = true) ->
    Forall (fun l => p l = false) (broadcast_message_logs d)) as Hnolog.
  { intros p Hp. rewrite Forall_forall in Hfk |- *. intros l Hin. destruct (p l) eqn:E; [|done].
    exfalso. apply Hp in E. unfold log_of in E. apply bool_decide_eq_true in E.
    destruct (Hfk l Hin) as (m & Hmin & Hi). destruct (Hnew m Hmin). congruence. }
  split.
  - unfold cycles_ok. cbn. split_and!.
    + apply nodup_map_snoc; [done|]. intros m Hin. by apply Hnew.
    + apply nodup_map_snoc; [done|]. intros m Hin. by apply Hnew.
    + apply nodup_map_snoc; [done|]. intros l Hin Heq.
      rewrite Forall_forall in Hlc. specialize (Hlc l Hin). apply orb_false_iff in Hlc as [Hlc _].
      apply bool_decide_eq_false in Hlc. by apply Hlc.
    + apply Forall_app. split.
      * rewrite Forall_forall in Hc |- *. intros m Hin. destruct (Hc m Hin) as (H1 & Ht & Hs & He).
        destruct (Hnew m Hin) as [Hne _]. unfold cycle_ok.
        rewrite !select_where_app, !map_app, Hs, He, !select_where_single.
        unfold signal_log_of, log_of. cbn [bl_broadcast_message_id log_entry bm_id row new_cycle].
        rewrite bool_decide_eq_false_2 by congruence. cbn. by rewrite !app_nil_r.
      * apply Forall_singleton. unfold cycle_ok.
        cbn [bm_last_seq bm_id bm_events row new_cycle].
        split; [lia|]. split.
        { exists [action]. unfold trail_ok. cbn. split_and!; try done. by destruct action. }
        rewrite !select_where_app.
        rewrite !(select_where_none _ (broadcast_message_logs d)) by
          (apply Hnolog; intros l; unfold signal_log_of; [done || (rewrite andb_true_iff; tauto)]).
        rewrite !select_where_single. unfold signal_log_of, log_of. cbn.
        by rewrite bool_decide_eq_true_2.
    + apply Forall_app. split.
      * eapply Forall_impl; [exact Hfk|]. intros l (m & ? & ?). exists m. split; [|done].
        apply elem_of_app. by left.
      * apply Forall_singleton. exists row. split; [|done]. apply elem_of_app. right. by left.
  - split_and!; cbn; [apply kept_app, _|apply kept_app, _|reflexivity].
Qed.

(** A change outside messages and logs. *)
Lemma ok_other d d' :
  broadcast_messages d' = broadcast_messages d ->
  broadcast_message_logs d' = broadcast_message_logs d ->
  kept same_chat (broadcast_message_chats d) (broadcast_message_chats d') ->
  cycles_ok d -> cycles_ok d' /\ grows d d'.
Proof.
  intros Hm Hl Hc. unfold cycles_ok, grows. rewrite Hm, Hl. intros H. split; [done|].
  split_and!; done || reflexivity.
Qed.

Lemma ok_worker symbol strategy uxid worker_id account_id market gateway status action reason at_
    fresh fresh_log t d r d' :
  cycles_ok d ->
  record_worker symbol strategy uxid worker_id account_id market gateway status action reason at_
    fresh fresh_log t d = Ok (r, d') ->
  cycles_ok d' /\ grows d d'.
Proof.
  intros Hok. unfold record_worker.
  destruct (locked_cycle symbol strategy uxid d) as [row|] eqn:El.
  2:{ intros [= _ <-]. split; [done|reflexivity]. }
  apply locked_cycle_Some in El as [Hrow _].
  assert (forall ws d1, d1 = set_workers ws d ->
    match save_cycle (log_entry fresh_log t (bm_set_seq (bm_last_seq row + 1) row)
            (bm_last_seq row + 1) LogKind.EXECUTION
            (execution_payload worker_id account_id status action))
            (bm_set_seq (bm_last_seq row + 1) row) d1 with
    | Ok (row, d) => Ok (Some row, d) | Err e => Err e end = Ok (r, d') ->
    cycles_ok d' /\ grows d d') as Hbump.
  { intros ws d1 ->. destruct (save_cycle _ _ _) as [[r1 d2]|] eqn:Es; [|done]. intros [= _ <-].
    assert (cycles_ok (set_workers ws d) /\ grows d (set_workers ws d)) as [Hok1 Hg1]
      by (by apply ok_other; try reflexivity).
    destruct (cycle_of_ok _ _ Hok Hrow) as (_ & (trail & Ht) & _).
    assert (cycles_ok d2 /\ grows (set_workers ws d) d2) as [Hok2 Hg2].
    { eapply (ok_save_cycle (set_workers ws d) row); [done..| | | | | | |exact Es]; try done.
      - apply set_seq_same.
      - by exists trail.
      - cbn. by rewrite app_nil_r. }
    split; [done|]. by transitivity (set_workers ws d). }
  destruct (select_first _ _) as [worker|].
  - destruct (worker_unchanged _ _ _); [intros [= _ <-]; split; [done|reflexivity]|].
    by eapply Hbump.
  - destruct (insert_unique _ _ _) as [ws|]; [|done]. by eapply Hbump.
Qed.

(** ** Operations *)
Lemma broadcast_frame : frame_ok broadcast_step.
Proof. intros w w' _ _ Hd H. rewrite Hd. split; [done|reflexivity]. Qed.

Lemma step_session {A} (t : instant -> Db -> res exn (A * Db)) :
  (forall i d a d', cycles_ok d -> t i d = Ok (a, d') -> cycles_ok d' /\ grows d d') ->
  always broadcast_step (session t).
Proof.
  intros H. apply always_session.
  - intros w w' ???. by apply broadcast_frame.
  - intros w w' a _ _ Ht Hok. by eapply H.
Qed.

Lemma step_query {A} (t : Db -> A) : always broadcast_step (query t).
Proof. apply always_query, broadcast_frame. Qed.

Lemma step_uuid4 : always broadcast_step uuid4.
Proof. apply always_uuid4, broadcast_frame. Qed.

Lemma step_clock : always broadcast_step clock.
Proof. apply always_clock, broadcast_frame. Qed.

Lemma step_record_once strategy uxid symbol timeframe action event :
  always broadcast_step (record_event_once strategy uxid symbol timeframe action event).
Proof.
  apply always_bind; [apply step_uuid4|]. intros u. apply always_bind; [apply step_uuid4|]. intros v.
  apply always_bind; [|intros [row|]; [done|]].
  - apply step_session. intros i d a d' Hok.
    destruct (locked_cycle _ _ _ d) as [row|] eqn:El.
    + apply locked_cycle_Some in El as [Hrow _].
      destruct (extend_cycle _ _ _ _ _ _) as [[r d1]|] eqn:E; [|done]. intros [= _ <-].
      by eapply ok_extend.
    + intros [= _ <-]. split; [done|reflexivity].
  - apply step_session. intros i d a d' Hok. by apply ok_open.
Qed.

Lemma step_record_event strategy uxid symbol timeframe action event :
  always broadcast_step (record_event strategy uxid symbol timeframe action event).
Proof.
  unfold record_event. generalize [1; 2]%Z. intros l. induction l as [|n l IH]; [done|].
  cbn [record_event_loop]. apply always_bind; [apply always_attempt, step_record_once|].
  intros [row|e]; [done|]. destruct e; try done. by destruct (n =? 1)%Z.
Qed.

Lemma step_record_worker symbol strategy uxid worker_id account_id market gateway status action reason at_ :
  always broadcast_step (record_worker_execution symbol strategy uxid worker_id account_id market
                           gateway status action reason at_).
Proof.
  apply always_bind; [apply step_uuid4|]. intros u. apply always_bind; [apply step_uuid4|]. intros v.
  apply always_catch; [|done]. apply step_session. intros i d a d' Hok. by apply ok_worker.
Qed.

Lemma step_claim id n : always broadcast_step (claim_pending_logs id n).
Proof.
  apply always_catch; [|done]. apply step_session. intros i d a d' Hok [= _ <-].
  apply ok_update_logs; [|done]. intros l. apply bl_update_same.
Qed.

Lemma step_assign_logs ids f :
  (forall t l, same_log l (f t l)) -> always broadcast_step (assign_logs ids f).
Proof.
  intros Hf. unfold assign_logs. destruct ids; [done|]. apply always_catch; [|done].
  apply always_bind; [|done]. apply step_session. intros i d a d' Hok [= _ <-].
  apply ok_update_logs; [|done]. apply Hf.
Qed.

Lemma step_finish ids delivered error n : always broadcast_step (finish_logs ids delivered error n).
Proof. apply step_assign_logs. intros. apply finish_same. Qed.

Lemma step_defer ids reason : always broadcast_step (defer_logs ids reason).
Proof. apply step_assign_logs. intros. apply bl_update_same. Qed.

Lemma step_list n s k : always broadcast_step (list_cycles_with_pending_logs n s k).
Proof.
  apply always_bind; [apply step_clock|]. intros t. apply always_catch; [apply step_query|done].
Qed.

Lemma step_reclaim s : always broadcast_step (reclaim_stale_logs s).
Proof.
  apply always_bind; [apply step_clock|]. intros t. apply always_catch; [|done].
  apply step_session. intros i d a d' Hok [= _ <-].
  apply ok_update_logs; [|done]. intros l. apply bl_update_same.
Qed.

Lemma step_load id : always broadcast_step (load_cycle id).
Proof. apply always_catch; [apply step_query|done]. Qed.

Lemma update_chat_same audience message_id message seq n error c :
  same_chat c (update_chat audience message_id message seq n error c).
Proof.
  unfold same_chat, update_chat. cbn. split_and!; try done.
  - destruct seq as [s|]; [|lia]. destruct (Z.ltb_spec (bc_delivered_seq c) s); lia.
  - destruct n as [k|]; [|lia].
    destruct (Z.ltb_spec (default 0 (bc_notified_event_count c))%Z k); cbn; lia.
  - by destruct message_id.
Qed.

Lemma step_upsert_chat id audience chat_id message_id message seq n error :
  always broadcast_step (upsert_chat id audience chat_id message_id message seq n error).
Proof.
  apply always_bind; [apply step_uuid4|]. intros u. apply always_catch; [|done].
  apply always_bind; [|done]. apply step_session. intros i d a d' Hok. unfold write_chat.
  destruct (select_first _ _) as [row|].
  - intros [= _ <-]. apply ok_other; try done. cbn. apply kept_update; [apply _|].
    intros c _ _. apply update_chat_same.
  - destruct (insert_unique _ _ _) as [cs|] eqn:E; [|done]. intros [= _ <-].
    apply insert_unique_Some in E as [-> _]. apply ok_other; try done. cbn. apply kept_app, _.
Qed.

Lemma step_mark_broadcast id : always broadcast_step (mark_broadcast id).
Proof.
  apply always_catch; [|done]. apply step_session. intros i d a d' Hok.
  destruct (select_first _ _) as [row|]; intros [= _ <-]; [|split; [done|reflexivity]].
  destruct Hok as (Hid & Hkey & Hl & Hc & Hfk). split.
  - unfold cycles_ok. cbn. rewrite !update_where_proj by done. split_and!; try done.
    + rewrite Forall_forall in Hc |- *. intros m' (m & Hm & ->)%elem_of_update_where.
      destruct (by_id _ m); [|by apply Hc]. exact (Hc m Hm).
    + eapply Forall_impl; [exact Hfk|]. intros l (m & Hm & Hi).
      exists (if by_id (bm_id row) m then bm_stamp i m else m). split; [|by destruct (by_id _ m)].
      apply elem_of_update_where. eauto.
  - split_and!; cbn; [|reflexivity..]. apply kept_update; [apply _|].
    intros m _ _. unfold same_cycle. cbn. split_and!; done || lia.
Qed.

(** The calls other components make. *)
Inductive repo_call : forall {A}, prog A -> Prop :=
| call_record_event strategy uxid symbol timeframe action event :
    repo_call (record_event strategy uxid symbol timeframe action event)
| call_record_worker symbol strategy uxid worker_id account_id market gateway status action reason at_ :
    repo_call (record_worker_execution symbol strategy uxid worker_id account_id market gateway
                 status action reason at_)
| call_claim id n : repo_call (claim_pending_logs id n)
| call_finish ids delivered error n : repo_call (finish_logs ids delivered error n)
| call_defer ids reason : repo_call (defer_logs ids reason)
| call_list n s k : repo_call (list_cycles_with_pending_logs n s k)
| call_reclaim s : repo_call (reclaim_stale_logs s)
| call_load id : repo_call (load_cycle id)
| call_upsert_chat id audience chat_id message_id message seq n error :
    repo_call (upsert_chat id audience chat_id message_id message seq n error)
| call_mark_broadcast id : repo_call (mark_broadcast id).

Lemma repo_call_step {A} (p : prog A) : repo_call p -> always broadcast_step p.
Proof.
  destruct 1; [apply step_record_event|apply step_record_worker|apply step_claim|apply step_finish
    |apply step_defer|apply step_list|apply step_reclaim|apply step_load|apply step_upsert_chat
    |apply step_mark_broadcast].
Qed.

(** ** Theorems *)

(** C4. The write log is complete and nothing recorded is lost.  Whatever call of
    the repository runs, interleaved with any other calls and cut short anywhere,
    database faults included: cycles stay one per (symbol, strategy, signal_uxid);
    a cycle's log entries carry exactly the sequence numbers 1..last_seq in order,
    its events are the payloads of its SIGNAL entries, its action trail and status
    follow from them; and no event, log entry, delivered sequence, notice count or
    stored message id is taken back. *)
Theorem cycle_log_invariant A (p : prog A) w evs w' o :
  repo_call p -> cycles_ok (db w) -> texec broadcast_step p w evs w' o ->
  cycles_ok (db w') /\ grows (db w) (db w').
Proof.
  intros Hp Hok He. by apply (texec_always broadcast_step p w evs w' o (repo_call_step p Hp) He).
Qed.

(** An empty database, and a first event. *)
Definition sample_event (a : SignalActionEnum) : list (string * json) :=
  [("action", JStr (action_value a)); ("timestamp", JStr "2026-06-02T10:15:00+00:00")].

Definition sample_record (a : SignalActionEnum) : prog (option BroadcastMessage) :=
  record_event "wt_bb_atr" "9F2C4B7E18A3D605" "XAUUSD" (Some "M15") a (sample_event a).

Lemma empty_ok : cycles_ok empty_db.
Proof. repeat constructor. Qed.

Lemma cycle_log_invariant_witness :
  let w0 := sample_world [] [uid 1; uid 2; uid 3; uid 4] in
  let w1 := (run (sample_record SigAction.LONG) w0).2 in
  let w2 := (run (sample_record SigAction.TP1) w1).2 in
  length (broadcast_message_logs (db w2)) = 2 /\ cycles_ok (db w2) /\ grows (db w1) (db w2).
Proof.
  intros w0 w1 w2. split; [vm_compute; reflexivity|].
  assert (cycles_ok (db w1)) as H1.
  { apply (always_run broadcast_step (sample_record SigAction.LONG) w0); [apply step_record_event|].
    apply empty_ok. }
  apply (cycle_log_invariant _ (sample_record SigAction.TP1) w1 _ w2 _
           (call_record_event _ _ _ _ _ _) H1 (texec_run broadcast_step _ w1)).
Defined.
