(* ===== verification/CycleFlow.v ===== *)
(** * Recording, claiming and closing changes

    What a call of the broadcast repository leaves behind: the event it recorded,
    the entries it claimed, the attempts it spent; and the abstract specification of a
    cycle that [record_event] refines. *)

From S2P Require Import Prelude PyStr Uuid PyTime Json Enums Schemas Models World StatusPolicies Samples.
From S2P Require Import BroadcastRepo CycleLog.

(** ** Recording *)
Section record.
Context (strategy uxid symbol : string) (timeframe : option string) (action : SignalActionEnum)
        (event : list (string * json)).

(** [row] is the stored cycle of the key and shows the event: as an entry of its
    own, or as the last entry it repeats. *)
Definition shows_event (row : BroadcastMessage) (d : Db) : Prop :=
  row ∈ broadcast_messages d /\ bm_key row = (symbol, strategy, uxid) /\
  (last (bm_events row) = Some (JObj event) \/ is_duplicate_event (bm_events row) event = true).

Lemma save_cycle_row l row d r d' :
  is_Some (select_first (by_id (bm_id row)) (broadcast_messages d)) ->
  save_cycle l row d = Ok (r, d') -> r = row /\ row ∈ broadcast_messages d'.
Proof.
  intros [m [Hm Hid]%select_first_Some]. unfold save_cycle, insert_log.
  destruct (insert_unique _ _ _); [|done]. intros [= <- <-]. split; [done|]. cbn.
  apply elem_of_update_where. exists m. by rewrite Hid.
Qed.

Lemma extend_shows fresh_log t row d r d' :
  row ∈ broadcast_messages d -> bm_key row = (symbol, strategy, uxid) ->
  extend_cycle action event fresh_log t row d = Ok (r, d') -> shows_event r d'.
Proof.
  intros Hrow Hk. unfold extend_cycle. destruct (is_duplicate_event _ _) eqn:E.
  { intros [= <- <-]. repeat split; auto. }
  intros H. apply save_cycle_row in H as [-> Hin].
  - repeat split; [done|done|]. left. cbn. apply last_snoc.
  - eapply select_first_is_Some; [exact Hrow|]. unfold by_id. by apply bool_decide_eq_true.
Qed.

Lemma open_shows fresh fresh_log t d r d' :
  open_cycle strategy uxid symbol timeframe action event fresh fresh_log t d = Ok (r, d') ->
  shows_event r d'.
Proof.
  unfold open_cycle, insert_log. destruct (insert_unique message_clash _ _) eqn:E; [|done].
  apply insert_unique_Some in E as [-> _]. destruct (insert_unique log_clash _ _); [|done].
  intros [= <- <-]. repeat split; [|by left]. cbn. apply elem_of_app. right. by left.
Qed.

(** What a read-write session that answers has left. *)
Lemma session_post {A} (R G : relation World) (t : instant -> Db -> res exn (A * Db)) Q w :
  always G (session t) ->
  (forall i d a d', t i d = Ok (a, d') -> Q a d') ->
  wp R G (session t) (fun r w' => forall a, r = Ok a -> Q a (db w')) w.
Proof.
  intros HG HQ. apply wp_act. intros w1 _. split.
  { specialize (HG w1). apply (HG w1 I). }
  pose proof (session_cases t w1) as Hc. destruct (session_step t w1) as [r w2]. cbn.
  intros a ->. destruct Hc as (_ & _ & [(? & ? & _)|(a' & d & Ht & -> & [[= <-]|?])]); [done| |done].
  by eapply HQ.
Qed.

(** Drawing an id leaves the database alone. *)
Lemma wp_uuid4 {A} (R G : relation World) (q : uuid -> prog A) Q w :
  frame_ok G -> (forall u w1 w2, R w w1 -> db w2 = db w1 -> wp R G (q u) Q w2) ->
  wp R G (bind uuid4 q) Q w.
Proof.
  intros HG Hq. apply wp_bind, wp_act. intros w1 HR. split.
  - apply HG; by destruct (uuids w1).
  - specialize (Hq (hd (uid 0) (uuids w1)) w1). destruct (uuids w1) as [|u us]; cbn in *.
    + by apply Hq.
    + by apply (Hq _ HR).
Qed.

Lemma record_once_shows R w :
  wp R broadcast_step (record_event_once strategy uxid symbol timeframe action event)
    (fun r w' => forall row, r = Ok row -> shows_event row (db w')) w.
Proof.
  unfold record_event_once.
  apply wp_uuid4; [apply broadcast_frame|]. intros u _ w1 _ _.
  apply wp_uuid4; [apply broadcast_frame|]. intros v _ w2 _ _. apply wp_bind.
  eapply wp_mono; [|apply (session_post R broadcast_step _
     (fun seen d => forall row, seen = Some row -> shows_event row d))].
  - intros [[row|]|e] w3 H; [| |done].
    + intros row' [= <-]. by apply (H (Some row)).
    + apply session_post; [|apply open_shows].
      apply step_session. intros i d a d' Hok. by apply ok_open.
  - apply step_session. intros i d a d' Hok. destruct (locked_cycle _ _ _ d) as [row|] eqn:El.
    + apply locked_cycle_Some in El as [Hrow _].
      destruct (extend_cycle _ _ _ _ _ _) as [[r d1]|] eqn:E; [|done]. intros [= _ <-].
      by eapply ok_extend.
    + intros [= _ <-]. split; [done|reflexivity].
  - intros i d a d'. destruct (locked_cycle _ _ _ d) as [row|] eqn:El; [|by intros [= <- _]].
    apply locked_cycle_Some in El as [Hrow Hk].
    destruct (extend_cycle _ _ _ _ _ _) as [[r d1]|] eqn:E; [|done]. intros [= <- <-] row' [= <-].
    by eapply extend_shows.
Qed.

Lemma record_event_shows R w :
  wp R broadcast_step (record_event strategy uxid symbol timeframe action event)
    (fun r w' => forall row, r = Ok (Some row) -> shows_event row (db w')) w.
Proof.
  unfold record_event. generalize [1; 2]%Z. intros l. revert w. induction l as [|n l IH]; intros w; [done|].
  cbn [record_event_loop]. apply wp_bind, wp_attempt.
  eapply wp_mono; [|apply record_once_shows]. intros [row|e] w' H.
  - intros row' [= <-]. by apply H.
  - destruct e; try done. destruct (n =? 1)%Z; [apply IH|done].
Qed.

Lemma recorded_row w evs w' row :
  cycles_ok (db w) ->
  texec broadcast_step (record_event strategy uxid symbol timeframe action event) w evs w'
    (Some (Ok (Some row))) ->
  locked_cycle symbol strategy uxid (db w') = Some row /\ shows_event row (db w').
Proof.
  intros Hok He.
  assert (forall w w' : World, broadcast_step w w' -> Forall (fun _ => True) (new_events w w')) as Hsent
    by (intros; by apply Forall_forall).
  destruct (wp_texec broadcast_step broadcast_step (fun _ _ => True) ltac:(done) ltac:(done) Hsent
    _ _ _ _ _ _ He (record_event_shows broadcast_step w)) as [_ HQ].
  specialize (HQ _ eq_refl row eq_refl). split; [|done].
  destruct (texec_always broadcast_step _ _ _ _ _ (step_record_event _ _ _ _ _ _) He Hok)
    as [(_ & Hkey & _) _].
  destruct HQ as (Hin & Hk & _).
  destruct (select_first_is_Some (cycle_key symbol strategy uxid) (broadcast_messages (db w')) row)
    as [m Hm].
  { done. } { injection Hk as <- <- <-. unfold cycle_key. by rewrite !bool_decide_eq_true_2. }
  unfold locked_cycle. rewrite Hm. f_equal.
  assert (locked_cycle symbol strategy uxid (db w') = Some m) as [Hm' Hkm]%locked_cycle_Some by done.
  apply (nodup_map_eq bm_key _ _ _ Hkey); [done|done|congruence].
Qed.

(** A recorded event is on the trade's one message.  [record_event] run among
    any other calls of the repository (another signal of the same trade creating
    the cycle between its read and its insert included): the row it returns is
    the cycle the table holds for (symbol, strategy, signal_uxid), and the event
    is its last one, or repeats the action and timestamp of its last one. *)
Theorem event_recorded w evs w' row :
  cycles_ok (db w) ->
  texec broadcast_step (record_event strategy uxid symbol timeframe action event) w evs w'
    (Some (Ok (Some row))) ->
  locked_cycle symbol strategy uxid (db w') = Some row /\ shows_event row (db w').
Proof. apply recorded_row. Qed.

Definition no_rely : relation World := fun w w' => w' = w.
Definition no_promise : relation World := fun _ _ => True.

#[local] Instance no_rely_refl : Reflexive no_rely.
Proof. by intros w. Qed.

(** A pass that finds the cycle already showing the event changes nothing. *)
Lemma replay_once row d w :
  locked_cycle symbol strategy uxid d = Some row -> is_duplicate_event (bm_events row) event = true ->
  db w = d ->
  wp no_rely no_promise (record_event_once strategy uxid symbol timeframe action event)
    (fun _ w' => db w' = d) w.
Proof.
  intros Hlock Hdup Hw. unfold record_event_once.
  apply wp_uuid4; [done|]. intros u _ w1 -> H1. apply wp_uuid4; [done|]. intros v _ w2 -> H2.
  apply wp_bind, wp_act. intros w3 ->. split; [done|].
  match goal with |- context [session_step ?t w2] => pose proof (session_cases t w2) as Hc;
    destruct (session_step t w2) as [r w4] end.
  cbn [fst snd]. rewrite H2, H1, Hw, Hlock in Hc. unfold extend_cycle in Hc. rewrite Hdup in Hc.
  destruct Hc as (_ & _ & [(e & -> & Hd)|(x & d' & [= <- <-] & Hd & [-> | ->])]); [cbn; congruence|done..].
Qed.

Lemma replay_loop row d w l :
  locked_cycle symbol strategy uxid d = Some row -> is_duplicate_event (bm_events row) event = true ->
  db w = d ->
  wp no_rely no_promise (record_event_loop strategy uxid symbol timeframe action event l)
    (fun _ w' => db w' = d) w.
Proof.
  intros Hlock Hdup. revert w. induction l as [|n l IH]; intros w Hw; [done|].
  cbn [record_event_loop]. apply wp_bind, wp_attempt.
  eapply wp_mono; [|by eapply replay_once]. intros [r|e] w' Hd; [done|].
  destruct e; try done. destruct (n =? 1)%Z; [by apply IH|done].
Qed.

(** A replay is free.  Record an event, then record it again later while the
    cycle has not moved: whatever faults the second call meets, the database is
    exactly what it was — no line doubled, no sequence spent, nothing to deliver. *)
Theorem replay_is_noop w w1 row w2 a t :
  obj_get "action" event = JStr a -> obj_get "timestamp" event = JStr t ->
  cycles_ok (db w) ->
  run (record_event strategy uxid symbol timeframe action event) w = (Ok (Some row), w1) ->
  db w2 = db w1 ->
  db (run (record_event strategy uxid symbol timeframe action event) w2).2 = db w1.
Proof.
  intros Ha Ht Hok Hrun Hdb.
  pose proof (texec_run broadcast_step (record_event strategy uxid symbol timeframe action event) w) as He.
  rewrite Hrun in He. apply recorded_row in He as [Hlock (_ & _ & Hev)]; [|done].
  apply (wp_run no_rely no_promise _ (fun _ w' => db w' = db w1) w2).
  eapply replay_loop; [exact Hlock| |done].
  destruct Hev as [Hl|]; [|done]. unfold is_duplicate_event. rewrite Hl, Ha, Ht.
  apply andb_true_iff. split; by apply json_eqb_str.
Qed.
End record.

(** Two writers race to open one cycle: the loser's insert fails, its second pass
    finds the winner's row and appends. *)
Lemma event_recorded_witness :
  let once := sample_record SigAction.TP1 in
  let w0 := sample_world [] [uid 1; uid 2; uid 3; uid 4; uid 5; uid 6] in
  let w1 := (run (sample_record SigAction.LONG) w0).2 in
  let w2 := (run once w1).2 in
  exists row, locked_cycle "XAUUSD" "wt_bb_atr" "9F2C4B7E18A3D605" (db w2) = Some row /\
    bm_actions row = "LONG,TP1" /\ bm_last_seq row = 2%Z.
Proof.
  intros once w0 w1 w2.
  assert (cycles_ok (db w1)) as H1.
  { apply (always_run broadcast_step (sample_record SigAction.LONG) w0); [apply step_record_event|].
    apply empty_ok. }
  pose (row := match (run once w1).1 with Ok (Some r) => r | _ => new_cycle "" "" "" None SigAction.LONG [] (uid 0) end).
  assert (texec broadcast_step once w1 (trace once w1) w2 (Some (Ok (Some row)))) as He
    by exact (texec_run broadcast_step once w1).
  exists row. split; [|by vm_compute].
  exact (proj1 (event_recorded "wt_bb_atr" "9F2C4B7E18A3D605" "XAUUSD" (Some "M15") SigAction.TP1
    (sample_event SigAction.TP1) w1 _ w2 row H1 He)).
Defined.

Lemma replay_is_noop_witness :
  let once := sample_record SigAction.LONG in
  let w0 := sample_world [] [uid 1; uid 2; uid 3; uid 4] in
  let w1 := (run once w0).2 in
  let w2 := set_sched [Lost; Done] w1 in
  length (broadcast_message_logs (db w1)) = 1 /\ db (run once w2).2 = db w1.
Proof.
  intros once w0 w1 w2. split; [by vm_compute|].
  pose (row := match (run once w0).1 with Ok (Some r) => r | _ => new_cycle "" "" "" None SigAction.LONG [] (uid 0) end).
  refine (replay_is_noop "wt_bb_atr" "9F2C4B7E18A3D605" "XAUUSD" (Some "M15") SigAction.LONG
    (sample_event SigAction.LONG) w0 w1 row w2 _ _ _ _ _ _ _); [reflexivity|reflexivity| |by vm_compute|reflexivity].
  apply empty_ok.
Defined.

(** ** Claiming *)

Lemma claim_log_pending t id n l : pending id n (claim_log t l) = false.
Proof.
  unfold pending, claim_log. cbn. rewrite (bool_decide_eq_false_2 (_ = LogStatus.PENDING)) by done.
  by rewrite andb_false_r.
Qed.

Lemma pending_spec id n l :
  pending id n l = true <->
  bl_broadcast_message_id l = id /\ bl_status l = LogStatus.PENDING /\ (bl_attempts l < n)%Z.
Proof. unfold pending. rewrite !andb_true_iff, !bool_decide_eq_true, Z.ltb_lt. tauto. Qed.

(** The answer of a claim, and the table it leaves. *)
Lemma claim_cases id n w :
  let '(r, w') := run (claim_pending_logs id n) w in
  out w' = out w /\ exists rows, r = Ok rows /\
  ((rows = [] /\ (broadcast_message_logs (db w') = broadcast_message_logs (db w) \/
     broadcast_message_logs (db w') =
       update_where (pending id n) (claim_log (now w)) (broadcast_message_logs (db w)))) \/
   (rows = map (claim_log (now w)) (order_by bl_seq (select_where (pending id n) (broadcast_message_logs (db w)))) /\
    broadcast_message_logs (db w') =
      update_where (pending id n) (claim_log (now w)) (broadcast_message_logs (db w)))).
Proof.
  unfold claim_pending_logs. rewrite run_catch. unfold session. rewrite run_act.
  match goal with |- context [session_step ?t w] => pose proof (session_cases t w) as Hc;
    destruct (session_step t w) as [r w'] end.
  destruct Hc as (Ho & _ & [(e & -> & Hd)|(x & d & [= <- <-] & Hd & [-> | ->])]); cbn.
  - split; [done|]. exists []. split; [done|]. left. rewrite Hd. auto.
  - split; [done|]. eexists. split; [done|]. right. by rewrite Hd.
  - split; [done|]. exists []. split; [done|]. left. rewrite Hd. auto.
Qed.

(** A change has one deliverer.  A claim hands out, in the order they were
    written, entries that were PENDING with attempts to spare, each now SENDING in
    the table with one attempt spent and never more than the budget; and
    a claim that follows finds nothing left to hand out, whatever faults it meets. *)
Theorem claim_is_exclusive id n w :
  let '(r, w1) := run (claim_pending_logs id n) w in
  exists rows, r = Ok rows /\ StronglySorted (key_le bl_seq) rows /\
  (forall l, l ∈ rows ->
     l ∈ broadcast_message_logs (db w1) /\ bl_broadcast_message_id l = id /\
     bl_status l = LogStatus.SENDING /\ (bl_attempts l <= n)%Z /\
     exists l0, l0 ∈ broadcast_message_logs (db w) /\ bl_status l0 = LogStatus.PENDING /\
       l = claim_log (now w) l0) /\
  (rows <> [] -> forall w2, broadcast_message_logs (db w2) = broadcast_message_logs (db w1) ->
     (run (claim_pending_logs id n) w2).1 = Ok []).
Proof.
  pose proof (claim_cases id n w) as Hc. destruct (run (claim_pending_logs id n) w) as [r w1].
  destruct Hc as (_ & rows & -> & Hc). exists rows. split; [done|].
  destruct Hc as [(-> & _)|(-> & Hl)].
  { split; [constructor|]. split; [by intros l ?%not_elem_of_nil|done]. }
  split_and!.
  - generalize (order_by_sorted bl_seq (select_where (pending id n) (broadcast_message_logs (db w)))).
    generalize (order_by bl_seq (select_where (pending id n) (broadcast_message_logs (db w)))).
    intros t. induction 1 as [|l t Ht IH Hall]; cbn; constructor; [done|].
    apply Forall_map. eapply Forall_impl; [exact Hall|]. done.
  - intros l' (l & -> & Hin)%list_elem_of_fmap. apply elem_of_order_by, elem_of_select_where in Hin as [Hin Hp].
    pose proof Hp as Hp'. apply pending_spec in Hp' as (Hid & Hs & Ha). cbn. split_and!; try done; [|lia|].
    + rewrite Hl. apply elem_of_update_where. exists l. by rewrite Hp.
    + by exists l.
  - intros _ w2 Hw2. pose proof (claim_cases id n w2) as Hc2.
    destruct (run (claim_pending_logs id n) w2) as [r2 w3]. destruct Hc2 as (_ & rows2 & -> & Hc2).
    cbn. f_equal. destruct Hc2 as [(-> & _)|(-> & _)]; [done|].
    rewrite Hw2, Hl. assert (select_where (pending id n) (update_where (pending id n) (claim_log (now w))
      (broadcast_message_logs (db w))) = []) as ->; [|done].
    apply select_where_none, Forall_forall. intros l' (l & _ & ->)%elem_of_update_where.
    destruct (pending id n l) eqn:E; [apply claim_log_pending|done].
Qed.

(** ** The cycles as an abstract story

    What the rest of the broker sees of the cycles is a map from (symbol,
    strategy, signal_uxid) to the list of events told so far.  [record_event]
    implements one atomic update of that map. *)

(** ** Specification *)
Definition cycle_name : Type := string * string * string.

Definition stories : Type := cycle_name -> option (list json).

Definition told_event (event : list (string * json)) (story : option (list json)) : list json :=
  match story with
  | None => [JObj event]
  | Some events => if is_duplicate_event events event then events else events ++ [JObj event]
  end.

Definition tell (name : cycle_name) (event : list (string * json)) (s : stories) : stories :=
  fun n => if decide (n = name) then Some (told_event event (s name)) else s n.

(** ** Abstraction *)
Definition stories_of (d : Db) : stories :=
  fun '(symbol, strategy, uxid) => bm_events <$> locked_cycle symbol strategy uxid d.

Definition same_stories (s s' : stories) : Prop := forall n, s n = s' n.

#[global] Instance same_stories_equivalence : Equivalence same_stories.
Proof.
  split; [by intros s n|by intros s s' H n|]. intros s1 s2 s3 H1 H2 n. by rewrite H1.
Qed.

#[global] Instance tell_proper name event : Proper (same_stories ==> same_stories) (tell name event).
Proof. intros s s' H n. unfold tell. by rewrite !H. Qed.

Definition key_of (n : cycle_name) (m : BroadcastMessage) : bool :=
  let '(symbol, strategy, uxid) := n in cycle_key symbol strategy uxid m.

Lemma stories_find d n : stories_of d n = bm_events <$> select_first (key_of n) (broadcast_messages d).
Proof. by destruct n as [[]]. Qed.

Lemma key_of_spec n m : key_of n m = true <-> bm_key m = n.
Proof.
  destruct n as [[a b] c]. unfold key_of, cycle_key, bm_key.
  rewrite !andb_true_iff, !bool_decide_eq_true. split; [intros [[-> ->] ->]|intros [= -> -> ->]]; done.
Qed.

(** Replacing the only row with an id is updating it. *)
Lemma update_row (t : list BroadcastMessage) row f :
  NoDup (map bm_id t) -> row ∈ t ->
  update_where (by_id (bm_id row)) (fun _ => f row) t = update_where (by_id (bm_id row)) f t.
Proof.
  intros Hnd Hrow. apply map_ext_in. intros m Hm%list_elem_of_In.
  unfold by_id. case_bool_decide as Hi; [|done].
  by rewrite (nodup_map_eq bm_id _ _ _ Hnd Hm Hrow Hi).
Qed.

Section refinement.
Context (strategy uxid symbol : string) (timeframe : option string) (action : SignalActionEnum)
        (event : list (string * json)).

Abbreviation name := (symbol, strategy, uxid).

Lemma extend_tells fresh_log t row d r d' :
  cycles_ok d -> locked_cycle symbol strategy uxid d = Some row ->
  extend_cycle action event fresh_log t row d = Ok (r, d') ->
  same_stories (stories_of d') (tell name event (stories_of d)) /\
  Some (bm_events r) = tell name event (stories_of d) name.
Proof.
  intros (Hid & Hkey & _) Hlock. pose proof (locked_cycle_Some _ _ _ _ _ Hlock) as [Hrow Hk].
  assert (stories_of d name = Some (bm_events row)) as Hstory by (cbn; by rewrite Hlock).
  unfold extend_cycle. destruct (is_duplicate_event (bm_events row) event) eqn:Edup.
  - intros [= <- <-]. split.
    + intros n. unfold tell. destruct (decide (n = name)) as [->|]; [|done].
      by rewrite Hstory; cbn; rewrite Edup.
    + unfold tell. rewrite decide_True, Hstory by done. cbn. by rewrite Edup.
  - unfold save_cycle, insert_log. destruct (insert_unique log_clash _ _) as [ls|]; [|done].
    intros [= <- <-]. split.
    + intros n. rewrite stories_find. cbn [broadcast_messages set_logs set_messages].
      change (bm_id (bm_append action (JObj event) row)) with (bm_id row).
      rewrite (update_row _ _ (bm_append action (JObj event)) Hid Hrow).
      rewrite select_first_update by (intros m; destruct n as [[]]; done).
      unfold tell. destruct (decide (n = name)) as [->|Hn].
      * unfold locked_cycle in Hlock. change (key_of name) with (cycle_key symbol strategy uxid).
        rewrite Hlock, Hstory. unfold told_event. rewrite Edup. cbn. unfold by_id. by rewrite bool_decide_eq_true_2.
      * rewrite stories_find. destruct (select_first (key_of n) (broadcast_messages d)) as [m|] eqn:Em; [|done].
        apply select_first_Some in Em as [Hm Hkm]. apply key_of_spec in Hkm. cbn.
        unfold by_id. rewrite bool_decide_eq_false_2; [done|]. intros Hi.
        apply Hn. rewrite <-Hkm, <-Hk. f_equal. exact (nodup_map_eq bm_id _ _ _ Hid Hm Hrow Hi).
    + unfold tell. rewrite decide_True, Hstory by done. cbn. by rewrite Edup.
Qed.

Lemma open_tells fresh fresh_log t d r d' :
  locked_cycle symbol strategy uxid d = None ->
  open_cycle strategy uxid symbol timeframe action event fresh fresh_log t d = Ok (r, d') ->
  same_stories (stories_of d') (tell name event (stories_of d)) /\
  Some (bm_events r) = tell name event (stories_of d) name.
Proof.
  intros Hlock. assert (stories_of d name = None) as Hstory by (cbn; by rewrite Hlock).
  unfold open_cycle, insert_log. destruct (insert_unique message_clash _ _) as [ms|] eqn:E; [|done].
  apply insert_unique_Some in E as [-> _]. destruct (insert_unique log_clash _ _); [|done].
  intros [= <- <-]. split; [|unfold tell; by rewrite decide_True, Hstory].
  intros n. rewrite stories_find. cbn [broadcast_messages set_logs set_messages].
  rewrite select_first_app. unfold tell. destruct (decide (n = name)) as [->|Hn].
  - change (key_of name) with (cycle_key symbol strategy uxid). unfold locked_cycle in Hlock.
    rewrite Hlock, Hstory. cbn. unfold cycle_key. by rewrite !bool_decide_eq_true_2.
  - rewrite stories_find. destruct (select_first (key_of n) (broadcast_messages d)); [done|]. cbn.
    destruct (key_of n _) eqn:Ek; [|done]. apply key_of_spec in Ek. destruct Hn. by rewrite <-Ek.
Qed.

(** The database after a pass: untouched, or told exactly once. *)
Definition told_once (d d' : Db) : Prop :=
  same_stories (stories_of d') (tell name event (stories_of d)).

Lemma run_record_once w :
  cycles_ok (db w) ->
  let '(r, w') := run (record_event_once strategy uxid symbol timeframe action event) w in
  (db w' = db w /\ is_ok r = false) \/
  (told_once (db w) (db w') /\
   ((exists row, r = Ok row /\ Some (bm_events row) = tell name event (stories_of (db w)) name) \/
    r = Err DbError)).
Proof.
  intros Hok. unfold record_event_once, uuid4. rewrite run_bind, run_act.
  assert (forall w0 : World, exists u w1, (match uuids w0 with
      | [] => (Ok (E:=exn) (uid 0), w0) | u :: s => (Ok u, set_uuids s w0) end) = (Ok u, w1) /\ db w1 = db w0)
    as Hu by (intros w0; destruct (uuids w0); eauto).
  destruct (Hu w) as (u & w1 & -> & H1). rewrite run_bind, run_act.
  destruct (Hu w1) as (v & w2 & -> & H2). rewrite run_bind. unfold session at 1. rewrite run_act.
  match goal with |- context [session_step ?t w2] => pose proof (session_cases t w2) as Hc;
    destruct (session_step t w2) as [r w3] end.
  rewrite H2, H1 in Hc. destruct Hc as (_ & _ & [(e & -> & Hd)|(seen & d & Ht & Hd & Hr)]).
  { left. cbn. split; [congruence|done]. }
  destruct (locked_cycle symbol strategy uxid (db w)) as [row|] eqn:Hlock.
  - destruct (extend_cycle _ _ _ _ _ _) as [[row' d']|] eqn:Ee; [|done]. injection Ht as <- <-.
    apply extend_tells in Ee as [He Hev]; [|done..].
    destruct Hr as [-> | ->]; cbn; right; (split; [unfold told_once; by rewrite Hd|]); eauto.
  - injection Ht as <- <-. destruct Hr as [-> | ->]; cbn [run]; [|left; split; [congruence|done]].
    unfold session. rewrite run_act.
    match goal with |- context [session_step ?t w3] => pose proof (session_cases t w3) as Hc;
      destruct (session_step t w3) as [r w4] end.
    rewrite Hd in Hc. destruct Hc as (_ & _ & [(e & -> & Hd4)|(row & d & Ht & Hd4 & Hr)]).
    { left. split; [congruence|done]. }
    apply open_tells in Ht as [He Hev]; [|done].
    right. split; [unfold told_once; by rewrite Hd4|]. destruct Hr as [-> | ->]; eauto.
Qed.

(** C36. [record_event] refines one atomic update of the stories.  Whatever the
    database does, the call answers, and the stories of all cycles afterwards are
    either exactly what they were, and it answers None, or exactly one [tell] of
    the event on its own cycle and no other — never half of it, never twice; a
    row it answers shows the updated story. *)
Theorem record_event_refines w :
  cycles_ok (db w) ->
  exists r w', run (record_event strategy uxid symbol timeframe action event) w = (Ok r, w') /\
  ((same_stories (stories_of (db w')) (stories_of (db w)) /\ r = None) \/
   (same_stories (stories_of (db w')) (tell name event (stories_of (db w))) /\
    forall row, r = Some row -> Some (bm_events row) = tell name event (stories_of (db w)) name)).
Proof.
  unfold record_event. generalize [1; 2]%Z. intros l. revert w.
  induction l as [|n l IH]; intros w Hok.
  { exists None, w. split; [done|]. by left. }
  cbn [record_event_loop]. rewrite run_bind, run_attempt.
  pose proof (run_record_once w Hok) as H.
  destruct (run (record_event_once _ _ _ _ _ _) w) as [r w1].
  destruct H as [(Hd & Hr)|(Ht & Hr)].
  - destruct r as [row|e]; [done|].
    assert (exists r w', run (Ret (A:=option BroadcastMessage) None) w1 = (Ok r, w') /\
      ((same_stories (stories_of (db w')) (stories_of (db w)) /\ r = None) \/
       (same_stories (stories_of (db w')) (tell name event (stories_of (db w))) /\
        forall row, r = Some row -> Some (bm_events row) = tell name event (stories_of (db w)) name))) as Hnone.
    { exists None, w1. split; [done|]. left. by rewrite Hd. }
    destruct e; try exact Hnone. destruct (n =? 1)%Z; [|exact Hnone].
    destruct (IH w1) as (r & w2 & Hrun & H2); [by rewrite Hd|]. exists r, w2. by rewrite <-Hd.
  - destruct Hr as [(row & -> & Hev)| ->].
    + exists (Some row), w1. split; [done|]. right. split; [done|]. by intros ? [= <-].
    + exists None, w1. split; [done|]. right. by split.
Qed.
End refinement.

(** A commit whose answer is lost: told once, and not told again. *)
Lemma record_event_refines_witness :
  let w := sample_world [Done; Lost] [uid 1; uid 2; uid 3; uid 4] in
  exists r w', run (sample_record SigAction.LONG) w = (Ok r, w') /\
    length (broadcast_messages (db w')) = 1.
Proof.
  intros w.
  destruct (record_event_refines "wt_bb_atr" "9F2C4B7E18A3D605" "XAUUSD" (Some "M15") SigAction.LONG
    (sample_event SigAction.LONG) w empty_ok) as (r & w' & H & _).
  exists r, w'. split; [exact H|].
  assert (w' = (run (sample_record SigAction.LONG) w).2) as -> by (unfold sample_record; by rewrite H).
  by vm_compute.
Defined.
