(* ===== verification/BroadcastService.v ===== *)
(** * The broadcast writer

    [SignalBroadcastService] ([services/broadcast_service.py]): records signals and
    worker executions on their cycle.  It is the [SignalBroadcaster] of the signal
    pipeline. *)

From S2P Require Import Prelude PyStr Uuid PyTime Json Enums Schemas Models World Settings.
From S2P Require Import StatusPolicies Samples SignalRepo SignalService BroadcastRepo.

Definition json_float (x : option float) : json := match x with Some f => JFloat f | None => JNull end.
Definition json_bool (x : option bool) : json := match x with Some b => JBool b | None => JNull end.
Definition json_int (x : option Z) : json := match x with Some z => JInt z | None => JNull end.

(** [compose_worker_id] ([schemas/account_schema.py]). *)
Definition compose_worker_id (market gateway account_id : string) : string :=
  market +:+ "-" +:+ gateway +:+ "-" +:+ account_id.

(** [x or y] of optional text. *)
Definition or_text (x y : option string) : option string :=
  match x with Some s => if is_empty s then y else x | None => y end.

Definition market_of (event : PositionEvent) : option MarketTypeEnum := Some (ev_market event).

Section writer.
Context `{PY : Pydantic} `{CFG : Settings}.

Definition build_broadcast_event (payload : WebhookPayload) (attempt_number : option Z)
    : list (string * json) :=
  let pos := w_position payload in
  let risk_percent :=
    match p_risk_percent pos, w_inputs payload with
    | None, Some inputs => in_risk_percent inputs
    | r, _ => r
    end in
  [("action", JStr (action_value (p_action pos)));
   ("price", json_float (p_price pos));
   ("quantity", json_float (p_quantity pos));
   ("sl", json_float (p_sl pos));
   ("tp1", json_float (p_tp1 pos));
   ("tp2", json_float (p_tp2 pos));
   ("risk_percent", json_float risk_percent);
   ("tp1_percent", json_float (p_tp1_percent pos));
   ("move_sl_to_be", json_bool (p_move_sl_to_be pos));
   ("use_equity_sizing", json_bool (p_use_equity_sizing pos));
   ("is_running", json_bool (p_is_running pos));
   ("is_scale_position", json_bool (p_is_scale_position pos));
   ("scale_strategy", opt_json (p_scale_strategy pos));
   ("timestamp", JStr (isoformat (w_timestamp payload)));
   ("attempt", json_int attempt_number);
   ("indicators", match w_indicators payload with Some i => dump_indicators i | None => JNull end);
   ("inputs", match w_inputs payload with Some i => dump_inputs i | None => JNull end)].

(** [SignalBroadcastService.broadcast]. *)
Definition service_broadcast (payload : WebhookPayload) (attempt_number : option Z) : prog unit :=
  if negb (tg_ENABLED set_telegram) then Ret tt
  else
    do! record_event (w_strategy payload) (w_signal_uxid payload) (w_symbol payload)
          (Some (w_timeframe payload)) (p_action (w_position payload))
          (build_broadcast_event payload attempt_number) in
    Ret tt.

(** [SignalBroadcastService.record_execution], wired with the signal repository. *)
Definition record_execution (event : PositionEvent) (trade : option Trade) : prog unit :=
  if negb (tg_ENABLED set_telegram) then Ret tt
  else
    match ev_signal_id event with
    | None => Ret tt
    | Some signal_id =>
        if is_empty signal_id then Ret tt
        else
          match to_trade_status (ev_status event) with
          | None => Ret tt
          | Some latest_status =>
              let! signal := get_by_id signal_id in
              match signal with
              | None => Ret tt
              | Some signal =>
                  match sg_signal_uxid signal with
                  | None => Ret tt
                  | Some signal_uxid =>
                      if is_empty signal_uxid then Ret tt
                      else
                        let market := market_of event in
                        let gateway := or_text (ev_gateway event)
                              (match trade with Some t => tr_gateway t | None => None end) in
                        do! record_worker_execution (sg_symbol signal) (sg_strategy signal) signal_uxid
                              (compose_worker_id
                                 (match market with Some m => market_value m | None => EmptyString end)
                                 (default EmptyString gateway) (ev_account_id event))
                              (ev_account_id event) market gateway latest_status
                              (Some (ev_status event)) (ev_reject_reason event) None in
                        Ret tt
                  end
              end
          end
    end.
End writer.

(** ** Keeping away from the signal pipeline *)
Lemma quiet_same_db : frame_ok quiet.
Proof.
  intros w w' Ho Hq Hd. unfold quiet. rewrite Hd, Ho. repeat split; [done|].
  exists []. by rewrite app_nil_r.
Qed.

Lemma quiet_session {A} (t : instant -> Db -> res exn (A * Db)) :
  (forall i d a d', t i d = Ok (a, d') ->
     signals d' = signals d /\ broker_settings d' = broker_settings d) ->
  always quiet (session t).
Proof.
  intros H. apply always_session.
  - intros w w' ???. by apply quiet_same_db.
  - intros w w' a Ho Hq Ht. destruct (H _ _ _ _ Ht) as [Hs Hb]. unfold quiet.
    rewrite Ho. repeat split; try done. exists []. by rewrite app_nil_r.
Qed.

Lemma save_cycle_away l row d r d' :
  save_cycle l row d = Ok (r, d') ->
  signals d' = signals d /\ broker_settings d' = broker_settings d.
Proof.
  unfold save_cycle, insert_log. destruct (insert_unique _ _ _); [|done]. by intros [= _ <-].
Qed.

Lemma record_event_quiet strategy uxid symbol timeframe action event :
  always quiet (record_event strategy uxid symbol timeframe action event).
Proof.
  assert (always quiet (record_event_once strategy uxid symbol timeframe action event)) as Honce.
  { apply always_bind; [apply always_uuid4, quiet_same_db|]. intros u.
    apply always_bind; [apply always_uuid4, quiet_same_db|]. intros v.
    apply always_bind; [|intros [row|]; [done|]]; apply quiet_session.
    - intros i d a d'. destruct (locked_cycle _ _ _ d) as [row|]; [|by intros [= _ <-]].
      unfold extend_cycle. destruct (is_duplicate_event _ _); [by intros [= _ <-]|].
      destruct (save_cycle _ _ _) as [[r d1]|] eqn:E; [|done]. intros [= _ <-].
      by eapply save_cycle_away.
    - intros i d a d'. unfold open_cycle, insert_log. destruct (insert_unique message_clash _ _); [|done].
      destruct (insert_unique log_clash _ _); [|done]. by intros [= _ <-]. }
  unfold record_event. generalize [1; 2]%Z. intros l. induction l as [|n l IH]; [done|].
  cbn [record_event_loop]. apply always_bind; [by apply always_attempt|].
  intros [row|e]; [done|]. destruct e; try done. by destruct (n =? 1)%Z.
Qed.

(** The writer is what the pipeline expects of a broadcaster. *)
Definition SignalBroadcastService `{PY : Pydantic} `{CFG : Settings} : SignalBroadcaster.
Proof.
  refine {| broadcast := service_broadcast |}.
  intros payload n. unfold service_broadcast. destruct (negb _); [done|].
  apply always_bind; [apply record_event_quiet|done].
Defined.
