(* ===== verification/Dispatcher.v ===== *)
(** * The broadcast dispatcher

    [BroadcastNotifier] ([services/notification_service.py]) and
    [BroadcastDispatcher] ([services/broadcast_service.py]): claim a cycle's
    changes, render it, bring every chat up to date, close the changes. *)

From S2P Require Import Prelude PyStr Uuid PyTime Json Enums Schemas Models ChatTargets World.
From S2P Require Import Settings BroadcastRepo.

(** ** Outcomes *)
Module Edit.
Inductive EditOutcome := OK | MISSING | FAILED.
End Edit.
Export Edit (EditOutcome).

Module Send.
Inductive SendOutcome := OK | FAILED | UNKNOWN.
End Send.
Export Send (SendOutcome).

Definition message_gone_markers : list string :=
  ["message to edit not found"; "message can't be edited"; "message_id_invalid"].

(** [_box]. *)
Definition box (text : string) : string := "<pre>" +:+ strip text +:+ "</pre>".

(** What the dispatcher renders: the body for one audience, or what its rendering
    raises, and the reply notice of one event of the cycle.  A body does not tell when
    the cycle was last broadcast. *)
Class Renderer := {
  render_body : BroadcastMessage -> list BroadcastMessageWorker -> option string -> bool -> bool -> res exn string;
  render_notice : BroadcastMessage -> nat -> option string;
  render_stamped : forall t m workers timezone_offset include_raw include_meta,
    render_body (bm_stamp t m) workers timezone_offset include_raw include_meta =
    render_body m workers timezone_offset include_raw include_meta
}.

Section notifier.
Context `{CFG : Settings}.

Definition ready (target : ChatTarget) : bool :=
  tg_ENABLED set_telegram && negb (is_empty (tg_BOT_TOKEN set_telegram)) &&
  negb (is_empty (ct_chat_id target)).

(** [BroadcastNotifier.send_message]. *)
Definition notifier_send (target : ChatTarget) (text : string) : prog (SendOutcome * option string) :=
  if negb (ready target) then Ret (Send.FAILED, None)
  else
    let! r := telegram (TgSendMessage target (box text)) in
    Ret (match r with
         | TgNoAnswer _ => (Send.UNKNOWN, None)
         | TgNoConnect => (Send.FAILED, None)
         | TgAnswer status _ message_id =>
             if negb (status =? 200)%Z then (Send.FAILED, None)
             else match message_id with
                  | None => (Send.UNKNOWN, None)
                  | Some id => (Send.OK, Some (str_int id))
                  end
         end).

(** [reply_message]. *)
Definition notifier_reply (target : ChatTarget) (reply_to text : string) : prog bool :=
  if negb (ready target) then Ret false
  else
    let! r := telegram (TgReplyMessage target reply_to (box text)) in
    Ret (match r with TgAnswer status _ _ => (status =? 200)%Z | _ => false end).

(** What an answer of [editMessageText] means, given the errors that make a message
    unrecoverable. *)
Definition edit_outcome_by (gone_markers : list string) (r : tg_result) : EditOutcome :=
  match r with
  | TgAnswer status text _ =>
      if (status =? 200)%Z then Edit.OK
      else
        let body := lower text in
        if contains "message is not modified" body then Edit.OK
        else if existsb (fun marker => contains marker body) gone_markers then Edit.MISSING
        else Edit.FAILED
  | _ => Edit.FAILED
  end.

Definition edit_outcome : tg_result -> EditOutcome := edit_outcome_by message_gone_markers.

(** [edit_message]. *)
Definition notifier_edit (target : ChatTarget) (message_id text : string) : prog EditOutcome :=
  if negb (ready target) then Ret Edit.FAILED
  else
    let! r := telegram (TgEditMessage target message_id (box text)) in
    Ret (edit_outcome r).
End notifier.

(** ** Chats to write to *)

(** [view.message.events] that are objects. *)
Definition dict_events (m : BroadcastMessage) : list json := base.filter (fun e => is_obj e = true) (bm_events m).

Definition has_message (c : BroadcastMessageChat) : bool :=
  match bc_message_id c with Some s => negb (is_empty s) | None => false end.

(** [_chats_behind]. *)
Definition chats_behind (view : BroadcastCycleView) : list BroadcastMessageChat :=
  select_where (fun c => has_message c && (bc_delivered_seq c <? bm_last_seq (view_message view))%Z)
    (view_chats view).

(** The [setdefault] loop over the audiences. *)
Definition claim_targets (pairs : list (string * (BroadcastAudienceEnum * ChatTarget)))
    : list (string * (BroadcastAudienceEnum * ChatTarget)) :=
  fold_left (fun targets p =>
    if existsb (fun q => String.eqb q.1 p.1) targets then targets else targets ++ [p]) pairs [].

Section dispatcher.
Context `{CFG : Settings} `{REN : Renderer}.
(** [private_chat_ids], [max_attempts] and [stale_after_seconds]. *)
Context (private_chat_ids : option (list string)) (max_attempts stale_after : Z).

(** [_targets]. *)
Definition dispatch_targets (public_raw : option string) : list (BroadcastAudienceEnum * ChatTarget) :=
  let private := match private_chat_ids with
                 | Some entries => parse_entries entries
                 | None => parse_raw (Some (tg_PRIVATE_BROADCAST_CHAT_IDS set_telegram))
                 end in
  let public := parse_raw public_raw in
  let tag audience p := (p.1, (audience, p.2)) in
  map snd (claim_targets (map (tag Audience.PRIVATE) private ++ map (tag Audience.PUBLIC) public)).

(** ** Reply notices *)

(** The loop of [_notify_updates] from [index] on. *)
Fixpoint notify_loop (chat : ChatTarget) (message_id : string) (sent : Z) (index : Z)
    (notices : list (option string)) : prog Z :=
  match notices with
  | [] => Ret sent
  | None :: rest => notify_loop chat message_id (index + 1) (index + 1) rest
  | Some notice :: rest =>
      let! ok := notifier_reply chat message_id notice in
      if ok then notify_loop chat message_id (index + 1) (index + 1) rest else Ret sent
  end.

Definition notify_updates (chat : ChatTarget) (message_id : string) (notices : list (option string))
    (already_notified : option Z) (enabled : bool) : prog Z :=
  match already_notified with
  | None => Ret (Z.of_nat (length notices))
  | Some already =>
      if negb enabled then Ret (Z.of_nat (length notices))
      else notify_loop chat message_id already already (drop (Z.to_nat already) notices)
  end.

(** ** One chat *)

(** The send of [_deliver], when there is no message to edit. *)
Definition deliver_new (record_id : uuid) (audience : BroadcastAudienceEnum) (chat : ChatTarget)
    (text : string) (seq : Z) (notices : list (option string)) : prog bool :=
  let count := Some (Z.of_nat (length notices)) in
  let! r := notifier_send chat text in
  match r with
  | (Send.UNKNOWN, _) =>
      do! upsert_chat record_id audience (raw_id chat) None (Some text) (Some seq) count
            (Some "send outcome unknown") in
      Ret false
  | (_, None) =>
      do! upsert_chat record_id audience (raw_id chat) None None None None (Some "send failed") in
      Ret false
  | (_, Some new_message_id) =>
      do! upsert_chat record_id audience (raw_id chat) (Some new_message_id) (Some text) (Some seq)
            count None in
      Ret true
  end.

Definition deliver (record_id : uuid) (audience : BroadcastAudienceEnum) (chat : ChatTarget)
    (text : string) (seq : Z) (notices : list (option string))
    (existing : option BroadcastMessageChat) (notify_enabled : bool) : prog bool :=
  if match existing with Some c => (seq <=? bc_delivered_seq c)%Z | None => false end then Ret true
  else
    let message_id := match existing with
                      | Some c => if has_message c then bc_message_id c else None
                      | None => None
                      end in
    match message_id with
    | None => deliver_new record_id audience chat text seq notices
    | Some message_id =>
        let! outcome := notifier_edit chat message_id text in
        match outcome with
        | Edit.OK =>
            let! notified := notify_updates chat message_id notices
              (match existing with Some c => bc_notified_event_count c | None => None end)
              notify_enabled in
            do! upsert_chat record_id audience (raw_id chat) (Some message_id) (Some text) (Some seq)
                  (Some notified) None in
            Ret true
        | Edit.FAILED =>
            do! upsert_chat record_id audience (raw_id chat) None None None None (Some "edit failed") in
            Ret false
        | Edit.MISSING => deliver_new record_id audience chat text seq notices
        end
    end.

(** ** Every chat *)
Definition setting (key : string) (values : list (string * string)) : option string := assoc key values.

Definition rendered (view : BroadcastCycleView) (values : list (string * string))
    (audience : BroadcastAudienceEnum) : res exn string :=
  let timezone_offset := setting NOTIFICATION_TIMEZONE_KEY values in
  match audience with
  | Audience.PRIVATE =>
      render_body (view_message view) (view_workers view) timezone_offset
        (bool_decide (setting NOTIFICATION_INCLUDE_SIGNAL_RAW values = Some "1")) true
  | Audience.PUBLIC => render_body (view_message view) [] timezone_offset false false
  end.

(** [bodies[audience]], once both are rendered. *)
Definition body_for (view : BroadcastCycleView) (values : list (string * string))
    (audience : BroadcastAudienceEnum) : string :=
  match rendered view values audience with Ok text => text | Err _ => EmptyString end.

(** What rendering the two bodies raises, the private one first. *)
Definition unrenderable (view : BroadcastCycleView) (values : list (string * string)) : option exn :=
  match rendered view values Audience.PRIVATE with
  | Err e => Some e
  | Ok _ => match rendered view values Audience.PUBLIC with Err e => Some e | Ok _ => None end
  end.

Definition view_notices (view : BroadcastCycleView) : list (option string) :=
  map (render_notice (view_message view)) (seq 0 (length (dict_events (view_message view)))).

Definition reply_enabled (values : list (string * string)) (audience : BroadcastAudienceEnum) : bool :=
  match audience with
  | Audience.PRIVATE => negb (bool_decide (setting PRIVATE_REPLY_NOTIFY_KEY values = Some "0"))
  | Audience.PUBLIC => negb (bool_decide (setting PUBLIC_REPLY_NOTIFY_KEY values = Some "0"))
  end.

(** [chats.get(raw_id)], of the dict keyed by [chat_id]. *)
Definition existing_chat (view : BroadcastCycleView) (chat : ChatTarget) : option BroadcastMessageChat :=
  select_first (fun c => String.eqb (bc_chat_id c) (raw_id chat)) (rev (view_chats view)).

Definition deliver_target (view : BroadcastCycleView) (values : list (string * string))
    (target : BroadcastAudienceEnum * ChatTarget) : prog bool :=
  let '(audience, chat) := target in
  deliver (bm_id (view_message view)) audience chat (body_for view values audience)
    (bm_last_seq (view_message view)) (view_notices view) (existing_chat view chat)
    (reply_enabled values audience).

Definition deliver_all (view : BroadcastCycleView) (targets : list (BroadcastAudienceEnum * ChatTarget))
    (values : list (string * string)) : prog bool :=
  match unrenderable view values with
  | Some e => Raise e
  | None =>
      let! results := for_collect targets (deliver_target view values) in
      Ret (forallb id results)
  end.

(** [_park]. *)
Definition park (view : BroadcastCycleView) (log_ids : list uuid) (reason : string) : prog unit :=
  match chats_behind view with
  | [] => do! finish_logs log_ids true None None in Ret tt
  | behind =>
      let event_count := Z.of_nat (length (dict_events (view_message view))) in
      do! for_each behind (fun chat =>
        do! upsert_chat (bm_id (view_message view)) (bc_audience chat) (bc_chat_id chat) None None None
              (Some event_count) (Some ("parked: " +:+ reason)) in
        Ret tt) in
      do! defer_logs log_ids reason in Ret tt
  end.

Definition dispatch_settings : list string :=
  [SILENT_SIGNAL; NOTIFICATION_TIMEZONE_KEY; NOTIFICATION_INCLUDE_SIGNAL_RAW;
   PUBLIC_BROADCAST_CHAT_IDS_KEY; PRIVATE_REPLY_NOTIFY_KEY; PUBLIC_REPLY_NOTIFY_KEY].

(** [_dispatch_locked]. *)
Definition dispatch_locked (cycle_id : uuid) : prog unit :=
  let! claimed := claim_pending_logs cycle_id max_attempts in
  match claimed with
  | [] => Ret tt
  | _ =>
      let log_ids := map bl_id claimed in
      let! loaded := load_cycle cycle_id in
      match loaded with
      | None => do! finish_logs log_ids true None None in Ret tt
      | Some view =>
          let! values := setting_get_many dispatch_settings in
          if bool_decide (setting SILENT_SIGNAL values = Some "1")
          then park view log_ids "silenced"
          else
            match dispatch_targets (setting PUBLIC_BROADCAST_CHAT_IDS_KEY values) with
            | [] => park view log_ids "no broadcast chats configured"
            | targets =>
                let! ok := deliver_all view targets values in
                do! finish_logs log_ids ok (if ok then None else Some "delivery failed")
                      (Some max_attempts) in
                do! mark_broadcast cycle_id in
                Ret tt
            end
      end
  end.

(** [sweep]; the limit is the default of [list_cycles_with_pending_logs]. *)
Definition sweep : prog nat :=
  do! reclaim_stale_logs stale_after in
  let! cycle_ids := list_cycles_with_pending_logs max_attempts stale_after 50 in
  do! for_each cycle_ids dispatch_locked in
  Ret (length cycle_ids).

(** [_sweep_loop], its first [n] turns. *)
Fixpoint sweep_loop (n : nat) : prog unit :=
  match n with
  | O => Ret tt
  | S n => do! catch (do! sweep in Ret tt) (fun _ => Ret tt) in sweep_loop n
  end.

(** [uuid.UUID(str(payload.get("broadcast_message_id")))]; the text of a missing id,
    a boolean, a float, a list or an object is never that of a uuid. *)
Definition change_id (payload : list (string * json)) : option uuid :=
  match assoc "broadcast_message_id" payload with
  | Some (JStr raw) => uuid_parse raw
  | Some (JInt raw) => uuid_parse (str_int raw)
  | _ => None
  end.

(** [_on_change]: one [pg_notify] payload. *)
Definition on_change (payload : list (string * json)) : prog unit :=
  match change_id payload with
  | None => Ret tt
  | Some cycle_id => dispatch_locked cycle_id
  end.
End dispatcher.
