(* ===== verification/DispatchSafety.v ===== *)
(** * What a dispatch sends

    Every Telegram call of a dispatch, whatever the database and Telegram do. *)

From S2P Require Import Prelude PyStr Uuid PyTime Json Enums Schemas Models ChatTargets World.
From S2P Require Import Settings Samples StatusPolicies BroadcastRepo CycleLog.
From S2P Require Import CycleFlow Dispatcher.

(** ** Steps that send only what [P] allows *)
Definition sends (P : sent -> Prop) (w w' : World) : Prop :=
  exists l, out w' = out w ++ l /\ Forall P l.

#[global] Instance sends_preorder P : PreOrder (sends P).
Proof.
  split.
  - intros w. exists []. rewrite app_nil_r. by split.
  - intros w1 w2 w3 (l1 & O1 & F1) (l2 & O2 & F2). exists (l1 ++ l2).
    rewrite O2, O1, app_assoc. split; [done|]. by apply Forall_app.
Qed.

Lemma sends_silent P w w' : out w' = out w -> sends P w w'.
Proof. intros H. exists []. rewrite app_nil_r. by split. Qed.

Lemma sends_mono (P Q : sent -> Prop) w w' :
  (forall e, P e -> Q e) -> sends P w w' -> sends Q w w'.
Proof. intros H (l & Ho & Hl). exists l. split; [done|]. by eapply Forall_impl. Qed.

Section sends.
Context (P : sent -> Prop).

Lemma sends_frame : frame_ok (sends P).
Proof. intros w w' Ho _ _. by apply sends_silent. Qed.

Lemma sends_session {A} (t : instant -> Db -> res exn (A * Db)) : always (sends P) (session t).
Proof. apply always_session; intros; by apply sends_silent. Qed.

Lemma sends_query {A} (t : Db -> A) : always (sends P) (query t).
Proof. apply sends_session. Qed.

Lemma sends_assign ids f : always (sends P) (assign_logs ids f).
Proof.
  unfold assign_logs. destruct ids; [done|]. apply always_catch; [|done].
  apply always_bind; [apply sends_session|done].
Qed.

Lemma sends_finish ids delivered error n : always (sends P) (finish_logs ids delivered error n).
Proof. apply sends_assign. Qed.

Lemma sends_upsert id audience chat_id message_id message seq n error :
  always (sends P) (upsert_chat id audience chat_id message_id message seq n error).
Proof.
  apply always_bind; [apply always_uuid4, sends_frame|]. intros u. apply always_catch; [|done].
  apply always_bind; [apply sends_session|done].
Qed.

Lemma sends_telegram c : (forall r, P (SentTg c r)) -> always (sends P) (telegram c).
Proof.
  intros HP. apply always_act. intros w. destruct (tg w) as [|r rs]; cbn;
    (eexists [_]; split; [done|]); by apply Forall_singleton.
Qed.

Context `{CFG : Settings}.

Lemma sends_notifier_send chat text :
  (forall r, P (SentTg (TgSendMessage chat (box text)) r)) -> always (sends P) (notifier_send chat text).
Proof.
  intros HP. unfold notifier_send. destruct (negb _); [done|].
  apply always_bind; [by apply sends_telegram|done].
Qed.

Lemma sends_notifier_reply chat id text :
  (forall r, P (SentTg (TgReplyMessage chat id (box text)) r)) -> always (sends P) (notifier_reply chat id text).
Proof.
  intros HP. unfold notifier_reply. destruct (negb _); [done|].
  apply always_bind; [by apply sends_telegram|done].
Qed.

Lemma sends_notifier_edit chat id text :
  (forall r, P (SentTg (TgEditMessage chat id (box text)) r)) -> always (sends P) (notifier_edit chat id text).
Proof.
  intros HP. unfold notifier_edit. destruct (negb _); [done|].
  apply always_bind; [by apply sends_telegram|done].
Qed.
End sends.

(** ** The calls of one delivery *)
Section delivery.
Context `{CFG : Settings} `{REN : Renderer}.

(** [chat] has been shown the cycle up to [seq]. *)
Definition up_to_date (existing : option BroadcastMessageChat) (seq : Z) : Prop :=
  exists c, existing = Some c /\ (seq <= bc_delivered_seq c)%Z.

(** A call bringing [chat] from [existing] to the body [text]: the body itself as
    a new message or as an edit of the message the chat holds, or the notice of an
    event the chat has not been told about. *)
Definition delivery_call (chat : ChatTarget) (text : string) (notices : list (option string))
    (existing : option BroadcastMessageChat) (c : tg_call) : Prop :=
  match c with
  | TgSendMessage target t => target = chat /\ t = box text
  | TgEditMessage target id t =>
      target = chat /\ t = box text /\ exists r, existing = Some r /\ bc_message_id r = Some id
  | TgReplyMessage target id t =>
      target = chat /\ exists r (i : nat) n already, existing = Some r /\ bc_message_id r = Some id /\
        bc_notified_event_count r = Some already /\ (already <= Z.of_nat i)%Z /\
        notices !! i = Some (Some n) /\ t = box n
  | TgSendCard _ _ _ | TgEditCard _ _ _ _ => False
  end.

Definition calls (Q : tg_call -> Prop) (e : sent) : Prop :=
  match e with SentTg c _ => Q c | _ => False end.

Lemma notify_loop_sends (P : sent -> Prop) chat id notices sent index :
  (forall i n r, notices !! i = Some (Some n) -> P (SentTg (TgReplyMessage chat id (box n)) r)) ->
  always (sends P) (notify_loop chat id sent index notices).
Proof.
  revert sent index. induction notices as [|[n|] rest IH]; intros sent index HP; cbn [notify_loop]; [done| |].
  - apply always_bind; [apply sends_notifier_reply; intros r; by apply (HP 0%nat)|].
    intros [|]; [|done]. apply IH. intros i m r Hi. by apply (HP (S i)).
  - apply IH. intros i m r Hi. by apply (HP (S i)).
Qed.

Lemma deliver_new_sends (P : sent -> Prop) id audience chat text seq notices :
  (forall r, P (SentTg (TgSendMessage chat (box text)) r)) ->
  always (sends P) (deliver_new id audience chat text seq notices).
Proof.
  intros HP. apply always_bind; [by apply sends_notifier_send|].
  intros [o [m|]]; destruct o; (apply always_bind; [apply sends_upsert|done]).
Qed.

Lemma deliver_sends id audience chat text seq notices existing enabled :
  always (sends (fun e => ~ up_to_date existing seq /\ calls (delivery_call chat text notices existing) e))
    (deliver id audience chat text seq notices existing enabled).
Proof.
  unfold deliver.
  destruct (match existing with Some c => _ | None => _ end) eqn:Eq; [done|].
  assert (~ up_to_date existing seq) as Hn.
  { intros (c & -> & Hle). apply Z.leb_gt in Eq. lia. }
  assert (forall p : prog bool, always (sends (calls (delivery_call chat text notices existing))) p ->
    always (sends (fun e => ~ up_to_date existing seq /\ calls (delivery_call chat text notices existing) e)) p)
    as Hboth.
  { intros p. apply always_mono. intros w w'. apply sends_mono. auto. }
  apply Hboth. clear Hboth.
  assert (always (sends (calls (delivery_call chat text notices existing)))
            (deliver_new id audience chat text seq notices)) as Hnew by by apply deliver_new_sends.
  destruct existing as [c|]; [|exact Hnew].
  destruct (has_message c); [|exact Hnew]. destruct (bc_message_id c) as [m|] eqn:Em; [|exact Hnew].
  apply always_bind; [apply sends_notifier_edit; cbn; eauto 10|].
  intros []; [|exact Hnew|apply always_bind; [apply sends_upsert|done]].
  apply always_bind; [|intros k; apply always_bind; [apply sends_upsert|done]].
  unfold notify_updates. destruct (bc_notified_event_count c) as [already|] eqn:Ea; [|done].
  destruct (negb enabled); [done|]. apply notify_loop_sends. intros i n r Hi. cbn.
  rewrite lookup_drop in Hi. split; [done|].
  exists c, (Z.to_nat already + i)%nat, n, already. split_and!; try done. lia.
Qed.

(** ** A whole dispatch *)
Context (private_chat_ids : option (list string)) (max_attempts : Z).

Abbreviation dispatch := (dispatch_locked private_chat_ids max_attempts).

(** A call a dispatch that loaded [view] and read [values] may make. *)
Definition dispatch_call (view : BroadcastCycleView) (values : list (string * string)) (c : tg_call) : Prop :=
  setting SILENT_SIGNAL values <> Some "1" /\
  exists audience chat,
    (audience, chat) ∈ dispatch_targets private_chat_ids (setting PUBLIC_BROADCAST_CHAT_IDS_KEY values) /\
    ~ up_to_date (existing_chat view chat) (bm_last_seq (view_message view)) /\
    delivery_call chat (body_for view values audience) (view_notices view) (existing_chat view chat) c.

Lemma deliver_all_sends view values targets :
  always (sends (fun e => exists audience chat, (audience, chat) ∈ targets /\
      ~ up_to_date (existing_chat view chat) (bm_last_seq (view_message view)) /\
      calls (delivery_call chat (body_for view values audience) (view_notices view) (existing_chat view chat)) e))
    (deliver_all view targets values).
Proof.
  unfold deliver_all. destruct (unrenderable view values); [done|]. apply always_bind; [|done].
  assert (forall l, (forall x, x ∈ l -> x ∈ targets) -> always (sends (fun e => exists audience chat, (audience, chat) ∈ targets /\
      ~ up_to_date (existing_chat view chat) (bm_last_seq (view_message view)) /\
      calls (delivery_call chat (body_for view values audience) (view_notices view) (existing_chat view chat)) e))
    (for_collect l (deliver_target view values))) as H; [|by apply H].
  induction l as [|[audience chat] l IH]; intros Hl; [done|]. cbn [for_collect].
  apply always_bind.
  - eapply always_mono; [|apply deliver_sends]. intros w w'. apply sends_mono.
    intros e [H1 H2]. exists audience, chat. split; [apply Hl; left|done].
  - intros b. apply always_bind; [|done]. apply IH. intros x Hx. apply Hl. by right.
Qed.

Lemma park_silent view ids reason : always (sends (fun _ => False)) (park view ids reason).
Proof.
  unfold park. destruct (chats_behind view) as [|c cs].
  - apply always_bind; [apply sends_assign|done].
  - apply always_bind; [|intros _; apply always_bind; [apply sends_assign|done]].
    apply always_for_each. intros x. apply always_bind; [apply sends_upsert|done].
Qed.

(** A delivery phase run from [values]. *)
Definition deliver_phase (cycle_id : uuid) (log_ids : list uuid) (view : BroadcastCycleView)
    (values : list (string * string)) : prog unit :=
  if bool_decide (setting SILENT_SIGNAL values = Some "1")
  then park view log_ids "silenced"
  else
    match dispatch_targets private_chat_ids (setting PUBLIC_BROADCAST_CHAT_IDS_KEY values) with
    | [] => park view log_ids "no broadcast chats configured"
    | targets =>
        let! ok := deliver_all view targets values in
        do! finish_logs log_ids ok (if ok then None else Some "delivery failed") (Some max_attempts) in
        do! mark_broadcast cycle_id in
        Ret tt
    end.

Lemma dispatch_unfold cycle_id :
  dispatch cycle_id =
  let! claimed := claim_pending_logs cycle_id max_attempts in
  match claimed with
  | [] => Ret tt
  | _ =>
      let! loaded := load_cycle cycle_id in
      match loaded with
      | None => do! finish_logs (map bl_id claimed) true None None in Ret tt
      | Some view =>
          let! values := setting_get_many dispatch_settings in
          deliver_phase cycle_id (map bl_id claimed) view values
      end
  end.
Proof. reflexivity. Qed.

Lemma deliver_phase_sends cycle_id ids view values :
  always (sends (calls (dispatch_call view values))) (deliver_phase cycle_id ids view values).
Proof.
  unfold deliver_phase. case_bool_decide as Hs.
  { eapply always_mono; [|apply park_silent]. intros w w'. by apply sends_mono. }
  destruct (dispatch_targets _ _) as [|t ts] eqn:Et.
  { eapply always_mono; [|apply park_silent]. intros w w'. by apply sends_mono. }
  apply always_bind; [|intros ok; apply always_bind; [apply sends_assign|]; intros _].
  - eapply always_mono; [|apply deliver_all_sends]. intros w w'. apply sends_mono.
    intros [] (audience & chat & Hin & Hn & Hc); cbn in Hc; try done.
    split; [done|]. exists audience, chat. rewrite Et. auto.
  - apply always_bind; [|done]. unfold mark_broadcast. apply always_catch; [apply sends_session|done].
Qed.

(** [get_many] answers the rows it finds, or nothing. *)
Lemma get_many_cases keys w :
  exists values w', run (setting_get_many keys) w = (Ok values, w') /\ db w' = db w /\ out w' = out w /\
  (values = [] \/ values = map (fun r => (bs_key r, bs_value r))
     (select_where (fun r => existsb (String.eqb (bs_key r)) keys) (broker_settings (db w)))).
Proof.
  unfold setting_get_many. rewrite run_catch.
  match goal with |- context [query ?t] => destruct (run_query t w) as (w1 & Hd & Ho & _ & [->|[e ->]]) end;
    cbn; eauto 10.
Qed.

(** A claim touches log entries only. *)
Lemma claim_frame id n w :
  broadcast_messages (db (run (claim_pending_logs id n) w).2) = broadcast_messages (db w) /\
  broadcast_message_chats (db (run (claim_pending_logs id n) w).2) = broadcast_message_chats (db w) /\
  broadcast_message_workers (db (run (claim_pending_logs id n) w).2) = broadcast_message_workers (db w) /\
  broker_settings (db (run (claim_pending_logs id n) w).2) = broker_settings (db w).
Proof.
  unfold claim_pending_logs. rewrite run_catch. unfold session. rewrite run_act.
  match goal with |- context [session_step ?t w] => pose proof (session_cases t w) as Hc;
    destruct (session_step t w) as [r w'] end.
  destruct Hc as (_ & _ & [(e & -> & Hd)|(x & d & [= _ <-] & Hd & [-> | ->])]); cbn; by rewrite Hd.
Qed.

Lemma load_cases id w :
  exists v w', run (load_cycle id) w = (Ok v, w') /\ db w' = db w /\ out w' = out w /\
  (v = None \/ v = cycle_view id (db w)).
Proof.
  unfold load_cycle. rewrite run_catch.
  destruct (run_query (cycle_view id) w) as (w1 & Hd & Ho & _ & [->|[e ->]]); cbn; eauto 10.
Qed.

(** The settings a fault-free read returns, and those of a failed one. *)
Definition settings_values (d : Db) : list (string * string) :=
  map (fun r => (bs_key r, bs_value r))
    (select_where (fun r => existsb (String.eqb (bs_key r)) dispatch_settings) (broker_settings d)).

(** Over a working database the claim and the reads answer, and leave it working. *)
Lemma claim_up id n w : db_up w -> db_up (run (claim_pending_logs id n) w).2.
Proof. intros H. unfold claim_pending_logs. by rewrite run_catch, run_session_up. Qed.

Lemma load_up id w : db_up w -> db_up (run (load_cycle id) w).2.
Proof. intros H. unfold load_cycle. by rewrite run_catch, run_query_up. Qed.

Lemma get_many_up keys w :
  db_up w -> (run (setting_get_many keys) w).1 = Ok (map (fun r => (bs_key r, bs_value r))
    (select_where (fun r => existsb (String.eqb (bs_key r)) keys) (broker_settings (db w)))).
Proof. intros H. unfold setting_get_many. by rewrite run_catch, run_query_up. Qed.

(** C12. A dispatch shows each chat the current cycle and nothing else.  Every
    Telegram call it makes, under any database faults and any answers of Telegram:
    goes to a configured destination that has not been shown the cycle's latest
    sequence, and is the body rendered from the stored cycle (a new message, or
    an edit of the very message that chat holds) or the notice of an event that
    chat has not been told about, posted under that message.  A chat already at
    the latest sequence is never written to, and when the silence setting is read
    as on, nothing is sent.  What is read are the stored settings over a working
    database; a read that fails counts as one that finds no setting. *)
Theorem dispatch_sends_current cycle_id w :
  exists l, out (run (dispatch cycle_id) w).2 = out w ++ l /\
  (l = [] \/
   exists view values, cycle_view cycle_id (db w) = Some view /\
     (values = [] \/ values = settings_values (db w)) /\ (db_up w -> values = settings_values (db w)) /\
     Forall (calls (dispatch_call view values)) l).
Proof.
  rewrite dispatch_unfold, run_bind.
  pose proof (claim_cases cycle_id max_attempts w) as Hc.
  destruct (claim_frame cycle_id max_attempts w) as (Hm & Hch & Hw & Hs).
  pose proof (claim_up cycle_id max_attempts w) as Hup1.
  destruct (run (claim_pending_logs cycle_id max_attempts) w) as [r w1]. cbn [fst snd] in *.
  destruct Hc as (Ho1 & rows & -> & _). destruct rows as [|l0 rows].
  { exists []. rewrite app_nil_r. auto. }
  cbv beta iota. rewrite run_bind. pose proof (load_up cycle_id w1) as Hup2.
  destruct (load_cases cycle_id w1) as (v & w2 & Hload & Hd2 & Ho2 & Hv). rewrite Hload in Hup2 |- *. cbn [snd] in Hup2.
  assert (cycle_view cycle_id (db w1) = cycle_view cycle_id (db w)) as Hview
    by (unfold cycle_view; by rewrite Hm, Hch, Hw).
  destruct v as [view|].
  - destruct Hv as [|Hv]; [done|]. cbv beta iota. rewrite run_bind.
    pose proof (get_many_up dispatch_settings w2) as Hget.
    destruct (get_many_cases dispatch_settings w2) as (values & w3 & Hmany & Hd3 & Ho3 & Hvals).
    rewrite Hmany in Hget |- *. cbn [fst] in Hget.
    pose proof (always_run _ _ w3 (deliver_phase_sends cycle_id (map bl_id (l0 :: rows)) view values))
      as (l & Hl & HF).
    exists l. rewrite Hl, Ho3, Ho2, Ho1. split; [done|]. right. exists view, values.
    split; [congruence|]. unfold settings_values. split; [|split; [|done]].
    + destruct Hvals as [->| ->]; [by left|right]. by rewrite Hd2, Hs.
    + intros Hup. injection (Hget (Hup2 (Hup1 Hup))) as ->. by rewrite Hd2, Hs.
  - exists []. split; [|by left]. rewrite app_nil_r.
    assert (always (sends (fun _ => False)) (do! finish_logs (map bl_id (l0 :: rows)) true None None in Ret tt)) as Hf
      by (apply always_bind; [apply sends_finish|done]).
    destruct (always_run _ _ w2 Hf) as (l & Hl & HF). rewrite Hl.
    destruct l as [|e l]; [by rewrite app_nil_r, Ho2, Ho1|by inversion HF].
Qed.
End delivery.
