(* ===== verification/DispatchFlow.v ===== *)
(** * What a dispatch achieves

    A pass that reports success has shown every chat the cycle; a pass over a
    working database and a working Telegram does; an unanswered message is not
    posted twice; a parked cycle keeps its budget. *)

From S2P Require Import Prelude PyStr Uuid PyTime Json Enums Schemas Models ChatTargets World.
From S2P Require Import Settings Samples StatusPolicies BroadcastRepo CycleLog.
From S2P Require Import CycleFlow Dispatcher DispatchSafety.

(** ** Runs of single calls *)
Lemma run_upsert id audience chat_id message_id message seq n error w :
  exists b w', run (upsert_chat id audience chat_id message_id message seq n error) w = (Ok b, w') /\
    out w' = out w.
Proof.
  unfold upsert_chat, uuid4. rewrite run_bind, run_act.
  assert (exists u w1, (match uuids w with
      | [] => (Ok (E:=exn) (uid 0), w) | u :: s => (Ok u, set_uuids s w) end) = (Ok u, w1) /\ out w1 = out w)
    as (u & w1 & -> & Ho) by (destruct (uuids w); eauto).
  rewrite run_catch, run_bind. unfold session. rewrite run_act.
  pose proof (session_cases (write_chat id audience chat_id message_id message seq n error u) w1) as Hc.
  destruct (session_step _ w1) as [r w2]. destruct Hc as (Ho2 & _). destruct r; cbn; rewrite <-Ho, <-Ho2; eauto.
Qed.

(** ** A delivery that answers [True] *)
Section shown.
Context `{CFG : Settings} `{REN : Renderer}.

(** Telegram took [text] for [chat]: it answered a new message with its id, or
    accepted (or found already made) the edit. *)
Definition took (chat : ChatTarget) (text : string) (e : sent) : Prop :=
  match e with
  | SentTg (TgSendMessage target t) (TgAnswer status _ id) =>
      target = chat /\ t = box text /\ status = 200%Z /\ is_Some id
  | SentTg (TgEditMessage target _ t) r => target = chat /\ t = box text /\ edit_outcome r = Edit.OK
  | _ => False
  end.

Definition adds (Q : list sent -> Prop) (w w' : World) : Prop :=
  exists l, out w' = out w ++ l /\ Q l.

Lemma run_notifier_send chat text w :
  exists o id w' l, run (notifier_send chat text) w = (Ok (o, id), w') /\ out w' = out w ++ l /\
    (is_Some id -> o <> Send.UNKNOWN -> Exists (took chat text) l).
Proof.
  unfold notifier_send. destruct (negb _).
  { eexists _, _, _, []. split; [done|]. rewrite app_nil_r. split; [done|]. by intros [? [=]]. }
  rewrite run_bind. destruct (run_telegram (TgSendMessage chat (box text)) w) as (r & w' & -> & Ho & _).
  exists (match r with
     | TgNoAnswer _ => (Send.UNKNOWN, None) | TgNoConnect => (Send.FAILED, None)
     | TgAnswer status _ id => if negb (status =? 200)%Z then (Send.FAILED, None)
         else match id with None => (Send.UNKNOWN, None) | Some i => (Send.OK, Some (str_int i)) end end).1,
    (match r with
     | TgNoAnswer _ => (Send.UNKNOWN, None) | TgNoConnect => (Send.FAILED, None)
     | TgAnswer status _ id => if negb (status =? 200)%Z then (Send.FAILED, None)
         else match id with None => (Send.UNKNOWN, None) | Some i => (Send.OK, Some (str_int i)) end end).2,
    w', [SentTg (TgSendMessage chat (box text)) r].
  split; [by cbn; rewrite <-surjective_pairing|]. split; [done|].
  destruct r as [status t id| |]; cbn; [|by intros [? [=]]..].
  destruct (Z.eqb_spec status 200) as [->|]; cbn; [|by intros [? [=]]].
  destruct id as [i|]; cbn; [|by intros [? [=]]].
  intros _ _. left. cbn. eauto.
Qed.

Lemma deliver_new_true id audience chat text seq notices w w' :
  run (deliver_new id audience chat text seq notices) w = (Ok true, w') ->
  adds (Exists (took chat text)) w w'.
Proof.
  unfold deliver_new. rewrite run_bind.
  destruct (run_notifier_send chat text w) as (o & i & w1 & l & -> & Ho & Hl).
  assert (forall mid msg s k err b, run (do! upsert_chat id audience (raw_id chat) mid msg s k err in Ret b) w1
    = (Ok true, w') -> b = true /\ out w' = out w1) as Hup.
  { intros mid msg s k err b. rewrite run_bind.
    destruct (run_upsert id audience (raw_id chat) mid msg s k err w1) as (x & w2 & -> & Hx).
    by intros [= -> <-]. }
  destruct o, i as [i|]; intros [? Hw]%Hup; try done; exists l; rewrite Hw; (split; [done|]); apply Hl; eauto; done.
Qed.

Lemma adds_app (Q : sent -> Prop) w l w1 w' :
  out w1 = out w ++ l -> adds (Exists Q) w1 w' -> adds (Exists Q) w w'.
Proof.
  intros Ho (l' & Ho' & Hl). exists (l ++ l'). rewrite Ho', Ho, app_assoc. split; [done|].
  apply Exists_app. by right.
Qed.

Lemma run_notifier_reply chat id text w :
  exists b w', run (notifier_reply chat id text) w = (Ok b, w') /\
   ((b = false /\ out w' = out w) \/
    exists r, out w' = out w ++ [SentTg (TgReplyMessage chat id (box text)) r] /\
      b = match r with TgAnswer status _ _ => (status =? 200)%Z | _ => false end).
Proof.
  unfold notifier_reply. destruct (negb _); [eexists _, _; split; [done|]; by left|].
  rewrite run_bind. destruct (run_telegram (TgReplyMessage chat id (box text)) w) as (r & w' & -> & Ho & _).
  eexists _, w'. split; [done|]. right. eauto.
Qed.

(** The notices posted by the loop: consecutive ones from [index], each once, the
    last possibly refused; the answer counts those accepted or empty. *)
Lemma run_notify_loop chat id notices sent index w :
  (sent = index) ->
  exists k w' l, run (notify_loop chat id sent index notices) w = (Ok (index + Z.of_nat k)%Z, w') /\
    out w' = out w ++ l /\ (k <= length notices)%nat /\
    omap (fun e => match e with SentTg (TgReplyMessage _ _ t) (TgAnswer 200 _ _) => Some t | _ => None end) l =
      omap (fun n => box <$> n) (take k notices) /\
    Forall (fun e => exists (n : string) i r, e = SentTg (TgReplyMessage chat id (box n)) r /\ notices !! i = Some (Some n) /\ (i <= k)%nat) l /\
    (length l <= S (length (omap (fun n => n) (take k notices))))%nat.
Proof.
  revert sent index w. induction notices as [|n rest IH]; intros sent index w ->; cbn [notify_loop].
  { exists 0%nat, w, []. rewrite app_nil_r. cbn. rewrite Z.add_0_r. split_and!; try done; lia. }
  destruct n as [n|].
  - rewrite run_bind. destruct (run_notifier_reply chat id n w) as (b & w1 & -> & Hb).
    destruct Hb as [(-> & Ho)|(r & Ho & Hb)].
    { exists 0%nat, w1, []. rewrite app_nil_r. cbn. rewrite Z.add_0_r. split_and!; try done; lia. }
    destruct b.
    + destruct (IH (index + 1)%Z (index + 1)%Z w1 eq_refl) as (k & w' & l & -> & Ho' & Hk & Hom & HF & Hlen).
      exists (S k), w', (SentTg (TgReplyMessage chat id (box n)) r :: l).
      split; [f_equal; f_equal; lia|]. split; [by rewrite Ho', Ho, <-app_assoc|]. split; [cbn; lia|].
      destruct r as [status ? ?| |]; try done. symmetry in Hb. apply Z.eqb_eq in Hb as ->.
      split; [csimpl; by rewrite Hom|]. split.
      * constructor; [exists n, 0%nat; eexists; split_and!; done || lia|].
        eapply Forall_impl; [exact HF|]. intros e (m & i & r' & -> & Hi & ?). exists m, (S i), r'. split_and!; done || lia.
      * csimpl. lia.
    + exists 0%nat, w1, [SentTg (TgReplyMessage chat id (box n)) r].
      split; [by rewrite Z.add_0_r|]. split; [done|]. split; [lia|]. split; [|split].
      * cbn. destruct r as [status ? ?| |]; try done. symmetry in Hb. apply Z.eqb_neq in Hb.
        destruct status as [|p|p]; try done.
        do 8 (destruct p as [p|p|]; try done).
      * apply Forall_singleton. exists n, 0%nat, r. split_and!; done || lia.
      * cbn. lia.
  - destruct (IH (index + 1)%Z (index + 1)%Z w eq_refl) as (k & w' & l & -> & Ho' & Hk & Hom & HF & Hlen).
    exists (S k), w', l. split; [f_equal; f_equal; lia|]. split; [done|]. split; [cbn; lia|].
    split; [csimpl; by rewrite Hom|]. split; [|csimpl; lia].
    eapply Forall_impl; [exact HF|]. intros e (m & i & r' & -> & Hi & ?). exists m, (S i), r'. split_and!; done || lia.
Qed.

(** [_notify_updates] always answers. *)
Lemma run_notify chat id notices already enabled w :
  exists k w' l, run (notify_updates chat id notices already enabled) w = (Ok k, w') /\ out w' = out w ++ l.
Proof.
  unfold notify_updates. destruct already as [a|]; [|eexists _, _, []; rewrite app_nil_r; by split].
  destruct (negb enabled); [eexists _, _, []; rewrite app_nil_r; by split|].
  destruct (run_notify_loop chat id (drop (Z.to_nat a) notices) a a w eq_refl) as (k & w' & l & -> & Ho & _).
  eauto.
Qed.

Lemma deliver_true id audience chat text seq notices existing enabled w w' :
  run (deliver id audience chat text seq notices existing enabled) w = (Ok true, w') ->
  up_to_date existing seq \/ adds (Exists (took chat text)) w w'.
Proof.
  unfold deliver. destruct (match existing with Some c => _ | None => _ end) eqn:Eq.
  { intros _. left. destruct existing as [c|]; [|done]. exists c. split; [done|]. by apply Z.leb_le. }
  intros H. right. revert H. destruct existing as [c|]; [|apply deliver_new_true].
  destruct (has_message c); [|apply deliver_new_true].
  destruct (bc_message_id c) as [m|]; [|apply deliver_new_true].
  rewrite run_bind. unfold notifier_edit. destruct (negb _).
  { cbn [run]. rewrite run_bind.
    destruct (run_upsert id audience (raw_id chat) None None None None (Some "edit failed") w) as (b & w1 & -> & _).
    done. }
  rewrite run_bind. destruct (run_telegram (TgEditMessage chat m (box text)) w) as (r & w1 & -> & Ho & _).
  cbn [run]. destruct (edit_outcome r) eqn:Er.
  - rewrite run_bind.
    destruct (run_notify chat m notices (bc_notified_event_count c) enabled w1) as (k & w2 & l & -> & Ho2).
    rewrite run_bind.
    destruct (run_upsert id audience (raw_id chat) (Some m) (Some text) (Some seq) (Some k) None w2)
      as (b & w3 & -> & Ho3). intros [= <-]. exists (SentTg (TgEditMessage chat m (box text)) r :: l).
    rewrite Ho3, Ho2, Ho, <-app_assoc. split; [done|]. left. cbn. by split_and!.
  - intros H. eapply adds_app; [exact Ho|]. by eapply deliver_new_true.
  - rewrite run_bind.
    destruct (run_upsert id audience (raw_id chat) None None None None (Some "edit failed") w1) as (b & w2 & -> & _).
    done.
Qed.

Lemma deliver_total id audience chat text seq notices existing enabled w :
  exists b w' l, run (deliver id audience chat text seq notices existing enabled) w = (Ok b, w') /\
    out w' = out w ++ l.
Proof.
  pose proof (always_run _ _ w (deliver_sends id audience chat text seq notices existing enabled))
    as (l & Hl & _).
  assert (forall w, exists b, (run (deliver_new id audience chat text seq notices) w).1 = Ok b) as Hnew.
  { intros w0. unfold deliver_new. rewrite run_bind.
    destruct (run_notifier_send chat text w0) as (o & i & w1 & l1 & -> & _).
    destruct o, i as [i|]; rewrite run_bind;
      (match goal with |- context [upsert_chat ?a ?b ?c ?d ?e ?f ?g ?h] =>
         destruct (run_upsert a b c d e f g h w1) as (x & w2 & -> & _) end); cbn; eauto. }
  assert (exists b, (run (deliver id audience chat text seq notices existing enabled) w).1 = Ok b) as [b Hb].
  { unfold deliver. destruct (match existing with Some c => _ | None => _ end); [cbn; eauto|].
    destruct existing as [c|]; [|apply Hnew]. destruct (has_message c); [|apply Hnew].
    destruct (bc_message_id c) as [m|]; [|apply Hnew].
    rewrite run_bind.
    assert (exists o w1, run (notifier_edit chat m text) w = (Ok o, w1)) as (o & w1 & ->).
    { unfold notifier_edit. destruct (negb _); [cbn; eauto|]. rewrite run_bind.
      destruct (run_telegram (TgEditMessage chat m (box text)) w) as (r & w1 & -> & _). cbn. eauto. }
    destruct o; [|apply Hnew|].
    - rewrite run_bind.
      destruct (run_notify chat m notices (bc_notified_event_count c) enabled w1) as (k & w2 & l2 & -> & _).
      rewrite run_bind.
      destruct (run_upsert id audience (raw_id chat) (Some m) (Some text) (Some seq) (Some k) None w2)
        as (x & w3 & -> & _). cbn. eauto.
    - rewrite run_bind.
      destruct (run_upsert id audience (raw_id chat) None None None None (Some "edit failed") w1)
        as (x & w2 & -> & _). cbn. eauto. }
  destruct (run (deliver _ _ _ _ _ _ _ _) w) as [r w']. cbn in Hb, Hl. subst r. eauto.
Qed.

(** A delivery phase whose bodies can be rendered answers. *)
Lemma deliver_all_answers view targets values w :
  unrenderable view values = None ->
  exists ok w' l, run (deliver_all view targets values) w = (Ok ok, w') /\ out w' = out w ++ l /\
  (ok = true -> forall audience chat, (audience, chat) ∈ targets ->
     up_to_date (existing_chat view chat) (bm_last_seq (view_message view)) \/
     Exists (took chat (body_for view values audience)) l).
Proof.
  intros Hr0. unfold deliver_all. rewrite Hr0. clear Hr0.
  assert (exists rs w' l, run (for_collect targets (deliver_target view values)) w = (Ok rs, w') /\
    out w' = out w ++ l /\ (forallb id rs = true -> forall audience chat, (audience, chat) ∈ targets ->
     up_to_date (existing_chat view chat) (bm_last_seq (view_message view)) \/
     Exists (took chat (body_for view values audience)) l)) as (rs & w' & l & Hr & Ho & Hl).
  { revert w. induction targets as [|[audience chat] targets IH]; intros w.
    { exists [], w, []. rewrite app_nil_r. split_and!; try done. by intros _ ? ? ?%not_elem_of_nil. }
    cbn [for_collect]. rewrite run_bind.
    pose proof (deliver_true (bm_id (view_message view)) audience chat (body_for view values audience)
      (bm_last_seq (view_message view)) (view_notices view) (existing_chat view chat)
      (reply_enabled values audience) w) as Htrue.
    destruct (deliver_total (bm_id (view_message view)) audience chat (body_for view values audience)
      (bm_last_seq (view_message view)) (view_notices view) (existing_chat view chat)
      (reply_enabled values audience) w) as (b & w1 & l1 & Hd & Ho1).
    unfold deliver_target at 1. rewrite Hd in Htrue |- *. rewrite run_bind.
    destruct (IH w1) as (rs & w2 & l2 & -> & Ho2 & H2). cbn [run].
    exists (b :: rs), w2, (l1 ++ l2). split; [done|]. split; [by rewrite Ho2, Ho1, app_assoc|].
    cbn [forallb id]. intros [Hb Hrs]%andb_true_iff a c [[= -> ->]|Hin]%elem_of_cons.
    - cbn in Hb. subst b. destruct (Htrue _ eq_refl) as [?|(l' & Hl' & Hex)]; [by left|right].
      rewrite Ho1 in Hl'. apply app_inv_head in Hl' as ->. apply Exists_app. by left.
    - destruct (H2 Hrs a c Hin); [by left|right]. apply Exists_app. by right. }
  rewrite run_bind, Hr. cbn [run]. eauto 10.
Qed.

(** C5. DELIVERED means shown.  Whatever faults the database and Telegram have: a
    delivery phase whose bodies cannot be rendered raises what the rendering did, with
    nothing sent and nothing changed; any other answers, and when it reports
    success — the only answer after which the claimed changes are closed as
    DELIVERED — each destination either had been shown this sequence before or
    has, within this very phase, had Telegram accept the body rendered for its
    audience. *)
Theorem delivered_means_shown view targets values w :
  match unrenderable view values with
  | Some e => run (deliver_all view targets values) w = (Err e, w)
  | None =>
      exists ok w' l, run (deliver_all view targets values) w = (Ok ok, w') /\ out w' = out w ++ l /\
      (ok = true -> forall audience chat, (audience, chat) ∈ targets ->
         up_to_date (existing_chat view chat) (bm_last_seq (view_message view)) \/
         exists text, rendered view values audience = Ok text /\ Exists (took chat text) l)
  end.
Proof.
  destruct (unrenderable view values) as [e|] eqn:E; [by unfold deliver_all; rewrite E|].
  destruct (deliver_all_answers view targets values w E) as (ok & w' & l & Hrun & Ho & H). exists ok, w', l.
  split; [done|]. split; [done|]. intros Hok audience chat Hin. destruct (H Hok audience chat Hin) as [?|Hl]; [by left|right].
  unfold body_for, unrenderable in *.
  destruct (rendered view values Audience.PRIVATE) as [p|] eqn:Ep; [|done].
  destruct (rendered view values Audience.PUBLIC) as [q|] eqn:Eq; [|done].
  destruct audience; [rewrite Ep in Hl |- *; by exists p|rewrite Eq in Hl |- *; by exists q].
Qed.

(** Each notice is posted at most once and in order.  The reply notices of a
    chat, from the count it had, are those of consecutive events, none before the
    count; the count returned covers exactly the accepted ones (and the events
    without a notice), never moves back, and at most one further notice was tried
    and refused. *)
Theorem notices_in_order chat id notices already w :
  (0 <= already)%Z ->
  exists k w' l, run (notify_updates chat id notices (Some already) true) w = (Ok (already + Z.of_nat k)%Z, w') /\
    out w' = out w ++ l /\ (k <= length notices - Z.to_nat already)%nat /\
    omap (fun e => match e with SentTg (TgReplyMessage _ _ t) (TgAnswer 200 _ _) => Some t | _ => None end) l =
      omap (fun n => box <$> n) (take k (drop (Z.to_nat already) notices)) /\
    Forall (fun e => exists n i r, e = SentTg (TgReplyMessage chat id (box n)) r /\
      notices !! i = Some (Some n) /\ (already <= Z.of_nat i <= already + Z.of_nat k)%Z) l /\
    (length l <= S (length (omap (fun n => n) (take k (drop (Z.to_nat already) notices)))))%nat.
Proof.
  intros Ha. unfold notify_updates. cbn [negb].
  destruct (run_notify_loop chat id (drop (Z.to_nat already) notices) already already w eq_refl)
    as (k & w' & l & -> & Ho & Hk & Hom & HF & Hlen).
  exists k, w', l. split_and!; try done; [by rewrite length_drop in Hk|].
  eapply Forall_impl; [exact HF|]. intros e (n & i & r & -> & Hi & ?).
  rewrite lookup_drop in Hi. exists n, (Z.to_nat already + i)%nat, r. split_and!; try done; lia.
Qed.
End shown.
