(* ===== verification/DispatchLive.v ===== *)
(** * Dispatches over a working database

    With no database fault: an unanswered message is recorded and not posted
    again, and when Telegram answers too a pass brings every chat up to date. *)

From S2P Require Import Prelude PyStr Uuid PyTime Json Enums Schemas Models ChatTargets World Settings.
From S2P Require Import StatusPolicies Samples BroadcastRepo CycleLog CycleFlow Dispatcher DispatchSafety.
From S2P Require Import DispatchFlow.

(** ** The chats table *)
Definition chat_pair (c : BroadcastMessageChat) : uuid * string := (bc_broadcast_message_id c, bc_chat_id c).

Definition chats_ok (t : list BroadcastMessageChat) : Prop :=
  NoDup (map bc_id t) /\ NoDup (map chat_pair t).

(** The ids a world will draw are new to the table. *)
Definition fresh_ids (w : World) : Prop :=
  NoDup (uuids w) /\ forall c, c ∈ broadcast_message_chats (db w) -> bc_id c ∉ uuids w.

(** [chat_id] holds the cycle [id] at [seq] or later. *)
Definition holds (t : list BroadcastMessageChat) (id : uuid) (chat_id : string) (seq : Z) : Prop :=
  exists c, c ∈ t /\ chat_pair c = (id, chat_id) /\ (seq <= bc_delivered_seq c)%Z.

Lemma holds_kept t t' id chat_id seq : kept same_chat t t' -> holds t id chat_id seq -> holds t' id chat_id seq.
Proof.
  intros Hk (c & Hc & Hp & Hs). destruct (Hk c Hc) as (c' & Hc' & H1 & H2 & H3 & _).
  exists c'. split; [done|]. unfold chat_pair in *. split; [congruence|lia].
Qed.

Lemma chat_key_spec id chat_id c : chat_key id chat_id c = true <-> chat_pair c = (id, chat_id).
Proof.
  unfold chat_key, chat_pair. rewrite andb_true_iff, !bool_decide_eq_true. split; [intros [-> ->]|intros [= -> ->]]; done.
Qed.

(** What a delivery reads and never writes. *)
Definition unwritten (d : Db) : list BrokerSetting * list BroadcastMessageWorker :=
  (broker_settings d, broadcast_message_workers d).

(** What one upsert over a working database leaves, with a fresh id at hand. *)
Definition upserted (id : uuid) (chat_id : string) (seq : option Z) (w w' : World) : Prop :=
  db_up w' /\ tg w' = tg w /\ now w' = now w /\ out w' = out w /\
  broadcast_messages (db w') = broadcast_messages (db w) /\
  broadcast_message_logs (db w') = broadcast_message_logs (db w) /\
  unwritten (db w') = unwritten (db w) /\
  chats_ok (broadcast_message_chats (db w')) /\
  kept same_chat (broadcast_message_chats (db w)) (broadcast_message_chats (db w')) /\
  fresh_ids w' /\ uuids w' = tail (uuids w) /\
  (forall s, seq = Some s -> holds (broadcast_message_chats (db w')) id chat_id s).

(** The two branches of the transaction. *)
Section upserted.
Context (id : uuid) (audience : BroadcastAudienceEnum) (chat_id : string) (message_id message : option string)
        (seq n : option Z) (error : option string) (w : World) (u : uuid) (us : list uuid).
Hypothesis Hup : db_up w.
Hypothesis Hok : chats_ok (broadcast_message_chats (db w)).
Hypothesis Hfresh : fresh_ids w.
Hypothesis Hus : uuids w = u :: us.

Lemma upserted_update row :
  row ∈ broadcast_message_chats (db w) -> chat_pair row = (id, chat_id) ->
  upserted id chat_id seq w
    (set_db (set_chats (update_where (fun r => bool_decide (bc_id r = bc_id row))
                          (update_chat audience message_id message seq n error) (broadcast_message_chats (db w)))
               (db w)) (set_uuids us w)).
Proof.
  intros Hrow Hkey. destruct Hok as [Hid Hpair], Hfresh as [Hnd Hnew]. rewrite Hus in Hnd, Hnew.
  apply NoDup_cons in Hnd as [Hu Hnd].
  set (t := update_where _ _ _).
  assert (chats_ok t) as Hok' by (unfold t; split; rewrite update_where_proj; done).
  assert (kept same_chat (broadcast_message_chats (db w)) t) as Hk.
  { apply kept_update; [apply _|]. intros c _ _. apply update_chat_same. }
  assert (fresh_ids (set_db (set_chats t (db w)) (set_uuids us w))) as Hf.
  { split; [done|]. cbn. intros c' (c & Hc & ->)%elem_of_update_where. specialize (Hnew c Hc). revert Hnew.
    rewrite not_elem_of_cons. destruct (bool_decide _); intros []; done. }
  assert (forall s, seq = Some s -> holds t id chat_id s) as Hh.
  { intros s ->. exists (update_chat audience message_id message (Some s) n error row). split.
    * apply elem_of_update_where. exists row. by rewrite bool_decide_eq_true_2.
    * split; [done|]. cbn. destruct (Z.ltb_spec (bc_delivered_seq row) s); lia. }
  unfold upserted. rewrite Hus. repeat (split; [done|]). done.
Qed.

Lemma upserted_insert :
  (forall c, c ∈ broadcast_message_chats (db w) -> chat_pair c <> (id, chat_id)) ->
  let row := new_chat id audience chat_id message_id message seq n error u (now w) in
  insert_unique chat_clash row (broadcast_message_chats (db w)) = Some (broadcast_message_chats (db w) ++ [row]) /\
  upserted id chat_id seq w (set_db (set_chats (broadcast_message_chats (db w) ++ [row]) (db w)) (set_uuids us w)).
Proof.
  intros Hno row. destruct Hok as [Hid Hpair], Hfresh as [Hnd Hnew]. rewrite Hus in Hnd, Hnew.
  apply NoDup_cons in Hnd as [Hu Hnd]. split.
  { destruct (insert_unique chat_clash row _) as [cs|] eqn:Ei; [by apply insert_unique_Some in Ei as [-> _]|].
    apply insert_unique_None in Ei as (c & Hc & Hcl). exfalso. unfold chat_clash in Hcl.
    apply orb_true_iff in Hcl as [H|H]; apply bool_decide_eq_true in H; cbn in H.
    - apply (Hnew c Hc). rewrite <-H. left.
    - by apply (Hno c Hc). }
  assert (chats_ok (broadcast_message_chats (db w) ++ [row])) as Hok'.
  { split; rewrite map_app; apply NoDup_app; (split; [done|]); (split; [|apply NoDup_singleton]).
    - intros x (c & -> & Hc)%list_elem_of_fmap Hx%list_elem_of_singleton. cbn in Hx.
      apply (Hnew c Hc). rewrite Hx. left.
    - intros x (c & -> & Hc)%list_elem_of_fmap Hx%list_elem_of_singleton. by apply (Hno c Hc). }
  assert (kept same_chat (broadcast_message_chats (db w)) (broadcast_message_chats (db w) ++ [row])) as Hk
    by apply kept_app, _.
  assert (fresh_ids (set_db (set_chats (broadcast_message_chats (db w) ++ [row]) (db w)) (set_uuids us w))) as Hf.
  { split; [done|]. cbn. intros c [Hc|Hc]%elem_of_app.
    - specialize (Hnew c Hc). rewrite not_elem_of_cons in Hnew. tauto.
    - apply list_elem_of_singleton in Hc as ->. done. }
  assert (forall s, seq = Some s -> holds (broadcast_message_chats (db w) ++ [row]) id chat_id s) as Hh.
  { intros s ->. exists row. split; [apply elem_of_app; right; by left|]. cbn. split; [done|lia]. }
  unfold upserted. rewrite Hus. repeat (split; [done|]). done.
Qed.
End upserted.

Lemma run_upsert_up id audience chat_id message_id message seq n error w :
  db_up w -> chats_ok (broadcast_message_chats (db w)) -> fresh_ids w -> uuids w <> [] ->
  exists w', run (upsert_chat id audience chat_id message_id message seq n error) w = (Ok true, w') /\
    upserted id chat_id seq w w'.
Proof.
  intros Hup Hok Hfresh Hne. unfold upsert_chat, uuid4. rewrite run_bind, run_act.
  destruct (uuids w) as [|u us] eqn:Eu; [done|].
  rewrite run_catch, run_bind, run_session_up by done. unfold write_chat. cbn [db set_uuids now].
  destruct (select_first _ _) as [row|] eqn:Er.
  - apply select_first_Some in Er as [Hrow Hkey]. apply chat_key_spec in Hkey.
    eexists. split; [done|]. by apply (upserted_update _ _ _ _ _ _ _ _ w u us).
  - assert (forall c, c ∈ broadcast_message_chats (db w) -> chat_pair c <> (id, chat_id)) as Hno.
    { intros c Hc Hp. apply select_first_None in Er. rewrite Forall_forall in Er.
      specialize (Er c Hc). apply chat_key_spec in Hp. congruence. }
    destruct (upserted_insert id audience chat_id message_id message seq n error w u us Hup Hok Hfresh Eu Hno) as [-> Hw].
    eexists. by split.
Qed.

(** The row a dispatch reads for a chat. *)
Lemma existing_chat_of id d view chat c :
  chats_ok (broadcast_message_chats d) -> cycle_view id d = Some view ->
  c ∈ broadcast_message_chats d -> chat_pair c = (id, raw_id chat) -> existing_chat view chat = Some c.
Proof.
  intros [_ Hpair] Hv Hc Hp. unfold cycle_view in Hv. destruct (select_first _ _) as [m|]; [|done].
  injection Hv as <-. unfold existing_chat. cbn.
  assert (forall x, x ∈ rev (order_by bc_createdAt (select_where
     (fun r => bool_decide (bc_broadcast_message_id r = id)) (broadcast_message_chats d))) <->
     x ∈ broadcast_message_chats d /\ bc_broadcast_message_id x = id) as Hx.
  { intros x. rewrite list_elem_of_In, <-in_rev, <-list_elem_of_In, elem_of_order_by, elem_of_select_where.
    by rewrite bool_decide_eq_true. }
  destruct (select_first_is_Some (fun c => String.eqb (bc_chat_id c) (raw_id chat))
    (rev (order_by bc_createdAt (select_where (fun r => bool_decide (bc_broadcast_message_id r = id))
       (broadcast_message_chats d)))) c) as [c' Hc'].
  - apply Hx. split; [done|]. unfold chat_pair in Hp. congruence.
  - unfold chat_pair in Hp. injection Hp as _ ->. apply String.eqb_refl.
  - rewrite Hc'. f_equal. apply select_first_Some in Hc' as [[Hin Hmsg]%Hx Hid].
    apply String.eqb_eq in Hid. apply (nodup_map_eq chat_pair _ _ _ Hpair Hin Hc).
    unfold chat_pair in *. congruence.
Qed.

Lemma existing_chat_row id d view chat c :
  cycle_view id d = Some view -> existing_chat view chat = Some c ->
  c ∈ broadcast_message_chats d /\ chat_pair c = (id, raw_id chat).
Proof.
  unfold cycle_view. destruct (select_first _ _) as [m|]; [|done]. intros [= <-].
  intros [Hin Hid]%select_first_Some. cbn in Hin. apply String.eqb_eq in Hid.
  apply list_elem_of_In, in_rev, list_elem_of_In in Hin.
  apply elem_of_order_by, elem_of_select_where in Hin as [Hin Hm]. apply bool_decide_eq_true in Hm.
  split; [done|]. unfold chat_pair. congruence.
Qed.

Lemma cycle_view_id id d view : cycle_view id d = Some view -> bm_id (view_message view) = id.
Proof.
  unfold cycle_view. destruct (select_first _ _) as [m|] eqn:E; [|done]. intros [= <-].
  apply select_first_Some in E as [_ E]. by apply bool_decide_eq_true in E.
Qed.

Section live.
Context `{CFG : Settings} `{REN : Renderer}.

(** A chat that holds the sequence is left alone. *)
Lemma deliver_idle id audience chat text seq notices existing enabled w :
  up_to_date existing seq ->
  run (deliver id audience chat text seq notices existing enabled) w = (Ok true, w).
Proof.
  intros (c & -> & Hle). unfold deliver. by rewrite (proj2 (Z.leb_le _ _) Hle).
Qed.

Lemma deliver_target_idle cycle_id view values audience chat w d :
  chats_ok (broadcast_message_chats d) -> cycle_view cycle_id d = Some view ->
  holds (broadcast_message_chats d) cycle_id (raw_id chat) (bm_last_seq (view_message view)) ->
  run (deliver_target view values (audience, chat)) w = (Ok true, w).
Proof.
  intros Hok Hv (c & Hc & Hp & Hs). apply deliver_idle.
  rewrite (existing_chat_of _ _ _ _ _ Hok Hv Hc Hp). by exists c.
Qed.

(** C22. An unanswered message is not posted twice.  When a chat has no message yet
    and Telegram never answers the one just sent — so it may or may not be in the
    chat — and the database works, the delivery counts as not done but the
    sequence is recorded for that chat: any later pass over the cycle, whatever
    has happened to the other chats meanwhile, sends that chat nothing until the
    cycle moves on. *)
Theorem unanswered_not_reposted cycle_id audience chat values w view landed rest :
  db_up w -> chats_ok (broadcast_message_chats (db w)) -> fresh_ids w -> uuids w <> [] ->
  cycle_view cycle_id (db w) = Some view -> tg w = TgNoAnswer landed :: rest -> ready chat = true ->
  ~ up_to_date (existing_chat view chat) (bm_last_seq (view_message view)) ->
  (forall c, existing_chat view chat = Some c -> has_message c = false) ->
  exists w', run (deliver_target view values (audience, chat)) w = (Ok false, w') /\
    out w' = out w ++ [SentTg (TgSendMessage chat (box (body_for view values audience))) (TgNoAnswer landed)] /\
    forall w2 view2 values2 audience2,
      kept same_chat (broadcast_message_chats (db w')) (broadcast_message_chats (db w2)) ->
      chats_ok (broadcast_message_chats (db w2)) -> cycle_view cycle_id (db w2) = Some view2 ->
      bm_last_seq (view_message view2) = bm_last_seq (view_message view) ->
      run (deliver_target view2 values2 (audience2, chat)) w2 = (Ok true, w2).
Proof.
  intros Hup Hok Hfresh Hne Hv Htg Hready Hn Hmsg. unfold deliver_target at 1. unfold deliver at 1.
  assert (match existing_chat view chat with
          | Some c => (bm_last_seq (view_message view) <=? bc_delivered_seq c)%Z | None => false end = false) as ->.
  { destruct (existing_chat view chat) as [c|]; [|done]. apply Z.leb_gt. apply Z.nle_gt.
    intros Hle. apply Hn. by exists c. }
  assert (match existing_chat view chat with
          | Some c => if has_message c then bc_message_id c else None | None => None end = None) as ->.
  { destruct (existing_chat view chat) as [c|]; [|done]. by rewrite (Hmsg c eq_refl). }
  unfold deliver_new, notifier_send. rewrite Hready. cbn [negb]. rewrite !run_bind.
  destruct (run_telegram (TgSendMessage chat (box (body_for view values audience))) w)
    as (r & w1 & -> & Ho & Hd & Hs & _ & Hu & _ & Hr).
  destruct (Hr _ _ Htg) as [-> _]. cbn [run]. rewrite run_bind.
  edestruct (run_upsert_up (bm_id (view_message view)) audience (raw_id chat) None
    (Some (body_for view values audience)) (Some (bm_last_seq (view_message view)))
    (Some (Z.of_nat (length (view_notices view)))) (Some "send outcome unknown") w1)
    as (w2 & -> & Hpost).
  { unfold db_up in *. congruence. } { by rewrite Hd. }
  { unfold fresh_ids. by rewrite Hu, Hd. } { by rewrite Hu. }
  destruct Hpost as (_ & _ & _ & Ho2 & _ & _ & _ & _ & _ & _ & _ & Hh).
  exists w2. split; [done|]. split; [by rewrite Ho2|].
  intros w3 view2 values2 audience2 Hk Hok3 Hv3 Hseq.
  apply (deliver_target_idle cycle_id view2 values2 audience2 chat w3 (db w3) Hok3 Hv3).
  rewrite Hseq, <-(cycle_view_id _ _ _ Hv). eapply holds_kept; [exact Hk|]. by apply Hh.
Qed.

(** ** Telegram answers too *)

(** One delivery over working services. *)
Definition passed (id : uuid) (chat : ChatTarget) (seq : Z) (w w' : World) : Prop :=
  db_up w' /\ tg w' = [] /\ now w' = now w /\
  broadcast_messages (db w') = broadcast_messages (db w) /\
  broadcast_message_logs (db w') = broadcast_message_logs (db w) /\
  unwritten (db w') = unwritten (db w) /\
  chats_ok (broadcast_message_chats (db w')) /\
  kept same_chat (broadcast_message_chats (db w)) (broadcast_message_chats (db w')) /\
  fresh_ids w' /\ (length (uuids w) <= S (length (uuids w')))%nat /\
  holds (broadcast_message_chats (db w')) id (raw_id chat) seq.

Lemma run_notify_up chat id notices already enabled w :
  tg w = [] ->
  exists k w', run (notify_updates chat id notices already enabled) w = (Ok k, w') /\
    db w' = db w /\ sched w' = sched w /\ now w' = now w /\ uuids w' = uuids w /\ tg w' = [].
Proof.
  intros Htg. unfold notify_updates. destruct already as [a|]; [|eauto 10].
  destruct (negb enabled); [eauto 10|]. generalize (drop (Z.to_nat a) notices) as l.
  generalize a at 2 as index. generalize a as sent. intros sent index l.
  revert sent index w Htg. induction l as [|[n|] l IH]; intros sent index w Htg; cbn [notify_loop];
    [eauto 10| |by apply IH].
  rewrite run_bind. unfold notifier_reply. destruct (negb _); [cbn; eauto 10|].
  rewrite run_bind. destruct (run_telegram (TgReplyMessage chat id (box n)) w)
    as (r & w1 & -> & _ & Hd & Hs & Hn & Hu & Ht & _). destruct (Ht Htg) as [Ht1 (i & ->)].
  cbn [run Z.eqb Pos.eqb]. destruct (IH (index + 1)%Z (index + 1)%Z w1 Ht1) as (k & w2 & -> & ? & ? & ? & ? & ?).
  exists k, w2. split_and!; congruence.
Qed.

Lemma upsert_passed id audience chat mid text seq n w0 w :
  db_up w -> tg w = [] -> chats_ok (broadcast_message_chats (db w)) -> fresh_ids w -> uuids w <> [] ->
  now w = now w0 -> broadcast_messages (db w) = broadcast_messages (db w0) ->
  broadcast_message_logs (db w) = broadcast_message_logs (db w0) ->
  broadcast_message_chats (db w) = broadcast_message_chats (db w0) -> uuids w = uuids w0 ->
  unwritten (db w) = unwritten (db w0) ->
  exists w', run (do! upsert_chat id audience (raw_id chat) mid (Some text) (Some seq) n None in Ret true) w
      = (Ok true, w') /\ passed id chat seq w0 w'.
Proof.
  intros Hup Htg Hok Hf Hne Hn Hm Hl Hc Hu Hb.
  destruct (run_upsert_up id audience (raw_id chat) mid (Some text) (Some seq) n None w Hup Hok Hf Hne)
    as (w' & Hrun & Hup' & Htg' & Hn' & _ & Hm' & Hl' & Hb' & Hok' & Hk' & Hf' & Hu' & Hh).
  exists w'. rewrite run_bind, Hrun. split; [done|]. unfold passed. rewrite <-Hc.
  split; [done|]. split; [congruence|]. split; [congruence|]. split; [congruence|]. split; [congruence|]. split; [congruence|].
  split; [done|]. split; [done|]. split; [done|]. split; [|by apply Hh].
  rewrite <-Hu, Hu'. destruct (uuids w); cbn; lia.
Qed.

Lemma deliver_up id audience chat text seq notices existing enabled w :
  db_up w -> tg w = [] -> chats_ok (broadcast_message_chats (db w)) -> fresh_ids w -> uuids w <> [] ->
  ready chat = true ->
  (up_to_date existing seq -> holds (broadcast_message_chats (db w)) id (raw_id chat) seq) ->
  exists w', run (deliver id audience chat text seq notices existing enabled) w = (Ok true, w') /\
    passed id chat seq w w'.
Proof.
  intros Hup Htg Hok Hf Hne Hready Hex. unfold deliver.
  destruct (match existing with Some c => _ | None => _ end) eqn:Eq.
  { exists w. split; [done|]. unfold passed. do 7 (split; [done|]). split; [reflexivity|].
    split; [done|]. split; [lia|]. apply Hex. destruct existing as [c|]; [|done].
    exists c. split; [done|]. by apply Z.leb_le. }
  assert (exists w', run (deliver_new id audience chat text seq notices) w = (Ok true, w') /\
    passed id chat seq w w') as Hnew.
  { unfold deliver_new, notifier_send. rewrite Hready. cbn [negb]. rewrite !run_bind.
    destruct (run_telegram (TgSendMessage chat (box text)) w)
      as (r & w1 & -> & _ & Hd & Hs & Hn & Hu & Ht & _). destruct (Ht Htg) as [Ht1 (i & ->)].
    cbn [run Z.eqb Pos.eqb negb].
    apply upsert_passed; try congruence; unfold db_up, fresh_ids in *; rewrite ?Hd, ?Hu; congruence. }
  destruct existing as [c|]; [|exact Hnew]. destruct (has_message c); [|exact Hnew].
  destruct (bc_message_id c) as [m|]; [|exact Hnew]. clear Hnew.
  rewrite run_bind. unfold notifier_edit. rewrite Hready. cbn [negb]. rewrite run_bind.
  destruct (run_telegram (TgEditMessage chat m (box text)) w)
    as (r & w1 & -> & _ & Hd & Hs & Hn & Hu & Ht & _). destruct (Ht Htg) as [Ht1 (i & ->)].
  cbn [run edit_outcome edit_outcome_by Z.eqb Pos.eqb]. rewrite run_bind.
  destruct (run_notify_up chat m notices (bc_notified_event_count c) enabled w1 Ht1)
    as (k & w2 & -> & Hd2 & Hs2 & Hn2 & Hu2 & Ht2).
  apply upsert_passed; try congruence; unfold db_up, fresh_ids in *; rewrite ?Hd2, ?Hd, ?Hu2, ?Hu; congruence.
Qed.

(** The delivery phase over working services: every destination is brought to the
    cycle's latest sequence, at the price of one fresh id each, and nothing but the
    chats changes. *)
Definition phase_passed (targets : list (BroadcastAudienceEnum * ChatTarget)) (id : uuid) (seq : Z) (w w' : World) : Prop :=
  db_up w' /\ tg w' = [] /\ now w' = now w /\
  broadcast_messages (db w') = broadcast_messages (db w) /\
  broadcast_message_logs (db w') = broadcast_message_logs (db w) /\
  unwritten (db w') = unwritten (db w) /\
  chats_ok (broadcast_message_chats (db w')) /\
  kept same_chat (broadcast_message_chats (db w)) (broadcast_message_chats (db w')) /\
  fresh_ids w' /\ (length (uuids w) <= length targets + length (uuids w'))%nat /\
  forall audience chat, (audience, chat) ∈ targets -> holds (broadcast_message_chats (db w')) id (raw_id chat) seq.

Lemma deliver_all_up cycle_id view values targets w :
  db_up w -> tg w = [] -> chats_ok (broadcast_message_chats (db w)) -> fresh_ids w ->
  (length targets <= length (uuids w))%nat -> Forall (fun t => ready t.2 = true) targets ->
  unrenderable view values = None -> bm_id (view_message view) = cycle_id ->
  (forall chat, up_to_date (existing_chat view chat) (bm_last_seq (view_message view)) ->
     holds (broadcast_message_chats (db w)) cycle_id (raw_id chat) (bm_last_seq (view_message view))) ->
  exists w', run (deliver_all view targets values) w = (Ok true, w') /\
    phase_passed targets cycle_id (bm_last_seq (view_message view)) w w'.
Proof.
  intros Hup Htg Hok Hf Hlen Hready Hrd Hid Hex. unfold deliver_all. rewrite Hrd.
  assert (exists rs w', run (for_collect targets (deliver_target view values)) w = (Ok rs, w') /\
    forallb id rs = true /\ phase_passed targets cycle_id (bm_last_seq (view_message view)) w w')
    as (rs & w' & Hr & Hrs & H).
  { revert w Hup Htg Hok Hf Hlen Hex. induction Hready as [|[audience chat] targets Hr Hrs IH];
      intros w Hup Htg Hok Hf Hlen Hex.
    { exists [], w. split; [done|]. split; [done|]. unfold phase_passed. split_and!; try done.
      by intros ? ? ?%not_elem_of_nil. }
    cbn [for_collect]. rewrite run_bind. unfold deliver_target at 1. rewrite Hid. cbn [length] in Hlen.
    destruct (deliver_up cycle_id audience chat (body_for view values audience)
      (bm_last_seq (view_message view)) (view_notices view) (existing_chat view chat)
      (reply_enabled values audience) w Hup Htg Hok Hf ltac:(by intros H; rewrite H in Hlen; cbn in Hlen; lia)
      Hr (Hex chat)) as (w1 & -> & Hup1 & Htg1 & Hn1 & Hm1 & Hl1 & Hb1 & Hok1 & Hk1 & Hf1 & Hlen1 & Hh1).
    rewrite run_bind.
    destruct (IH w1 Hup1 Htg1 Hok1 Hf1) as (rs & w2 & -> & Hb & H1 & H2 & H3 & H4 & H5 & H6 & H7 & H8 & H9 & H10 & H11);
      [lia| |].
    { intros chat' H. eapply holds_kept; [exact Hk1|]. by apply Hex. }
    exists (true :: rs), w2. split; [done|]. split; [done|]. unfold phase_passed.
    split_and!; try congruence; try done; [by etransitivity|cbn [length]; lia|].
    intros a c [[= -> ->]|Hin]%elem_of_cons; [by eapply holds_kept|by eapply H11]. }
  exists w'. rewrite run_bind, Hr. cbn [run]. by rewrite Hrs.
Qed.

(** ** Whole passes *)
Context (private_chat_ids : option (list string)) (max_attempts : Z).

Abbreviation dispatch := (dispatch_locked private_chat_ids max_attempts).
Abbreviation targets_of values :=
  (dispatch_targets private_chat_ids (setting PUBLIC_BROADCAST_CHAT_IDS_KEY values)).

(** The table after a claim over a working database. *)
Definition claimed_db (cycle_id : uuid) (w : World) : Db :=
  set_logs (update_where (pending cycle_id max_attempts) (claim_log (now w)) (broadcast_message_logs (db w))) (db w).

Definition claimed_logs (cycle_id : uuid) (w : World) : list BroadcastMessageLog :=
  map (claim_log (now w)) (order_by bl_seq (select_where (pending cycle_id max_attempts) (broadcast_message_logs (db w)))).

(** A pass over a working database that has something to deliver is its claim,
    then its delivery phase on the stored cycle and settings. *)
Lemma dispatch_up cycle_id w view :
  db_up w -> cycle_view cycle_id (db w) = Some view ->
  (exists l, l ∈ broadcast_message_logs (db w) /\ pending cycle_id max_attempts l = true) ->
  run (dispatch cycle_id) w =
  run (deliver_phase private_chat_ids max_attempts cycle_id (map bl_id (claimed_logs cycle_id w)) view
         (settings_values (db w))) (set_db (claimed_db cycle_id w) w).
Proof.
  intros Hup Hv (l & Hl & Hp). rewrite dispatch_unfold, run_bind.
  unfold claim_pending_logs. rewrite run_catch, run_session_up by done. cbv beta iota zeta.
  fold (claimed_logs cycle_id w). fold (claimed_db cycle_id w).
  destruct (claimed_logs cycle_id w) as [|c cs] eqn:Ec.
  { exfalso. assert (claim_log (now w) l ∈ claimed_logs cycle_id w) as H.
    { apply list_elem_of_fmap. exists l. split; [done|]. by apply elem_of_order_by, elem_of_select_where. }
    rewrite Ec in H. by apply not_elem_of_nil in H. }
  cbv beta iota. rewrite run_bind. unfold load_cycle. rewrite run_catch, run_query_up by done.
  assert (cycle_view cycle_id (db (set_db (claimed_db cycle_id w) w)) = Some view) as -> by done.
  cbv beta iota. rewrite set_db_same, run_bind. unfold setting_get_many.
  rewrite run_catch, run_query_up by done. cbv beta iota. rewrite set_db_same. done.
Qed.

Lemma run_finish_up ids delivered error n w :
  db_up w -> ids <> [] ->
  run (finish_logs ids delivered error n) w =
  (Ok true, set_db (set_logs (update_where (id_in ids) (finish_log (now w) delivered error n)
                                (broadcast_message_logs (db w))) (db w)) w).
Proof.
  intros Hup Hne. unfold finish_logs, assign_logs. destruct ids; [done|].
  by rewrite run_catch, run_bind, run_session_up.
Qed.

Lemma claimed_id cycle_id w l :
  l ∈ broadcast_message_logs (db w) -> pending cycle_id max_attempts l = true ->
  bl_id l ∈ map bl_id (claimed_logs cycle_id w).
Proof.
  intros Hl Hp. apply list_elem_of_fmap. exists (claim_log (now w) l). split; [done|].
  apply list_elem_of_fmap. exists l. split; [done|]. by apply elem_of_order_by, elem_of_select_where.
Qed.

(** An entry a claim took, after [f] has been assigned to the claimed entries. *)
Lemma closed_log cycle_id w l f :
  l ∈ broadcast_message_logs (db w) -> pending cycle_id max_attempts l = true ->
  f (claim_log (now w) l) ∈ update_where (id_in (map bl_id (claimed_logs cycle_id w))) f
    (broadcast_message_logs (claimed_db cycle_id w)).
Proof.
  intros Hl Hp. apply elem_of_update_where. exists (claim_log (now w) l). split.
  - cbn. apply elem_of_update_where. exists l. by rewrite Hp.
  - unfold id_in. rewrite bool_decide_eq_true_2; [done|]. by apply (claimed_id cycle_id w l).
Qed.

(** What a pass over working services changes: its cycle's outstanding entries are
    DELIVERED and every destination is at its latest sequence; other cycles' entries
    and the settings stay as they were. *)
Definition pass_done (targets : list (BroadcastAudienceEnum * ChatTarget)) (cycle_id : uuid) (seq : Z)
    (w w' : World) : Prop :=
  db_up w' /\ tg w' = [] /\ now w' = now w /\ chats_ok (broadcast_message_chats (db w')) /\ fresh_ids w' /\
  (length (uuids w) <= length targets + length (uuids w'))%nat /\
  unwritten (db w') = unwritten (db w) /\
  (exists p, broadcast_messages (db w') = update_where p (bm_stamp (now w)) (broadcast_messages (db w))) /\
  broadcast_message_logs (db w') =
    update_where (id_in (map bl_id (claimed_logs cycle_id w))) (finish_log (now w) true None (Some max_attempts))
      (broadcast_message_logs (claimed_db cycle_id w)) /\
  kept same_chat (broadcast_message_chats (db w)) (broadcast_message_chats (db w')) /\
  forall audience chat, (audience, chat) ∈ targets -> holds (broadcast_message_chats (db w')) cycle_id (raw_id chat) seq.

Lemma dispatch_done cycle_id w view :
  let targets := targets_of (settings_values (db w)) in
  db_up w -> tg w = [] -> chats_ok (broadcast_message_chats (db w)) -> fresh_ids w ->
  cycle_view cycle_id (db w) = Some view ->
  setting SILENT_SIGNAL (settings_values (db w)) <> Some "1" ->
  unrenderable view (settings_values (db w)) = None ->
  targets <> [] -> Forall (fun t => ready t.2 = true) targets ->
  (length targets <= length (uuids w))%nat ->
  (exists l, l ∈ broadcast_message_logs (db w) /\ pending cycle_id max_attempts l = true) ->
  exists w', run (dispatch cycle_id) w = (Ok tt, w') /\
    pass_done targets cycle_id (bm_last_seq (view_message view)) w w'.
Proof.
  intros targets Hup Htg Hok Hf Hv Hs Hrd Hne Hready Hlen Hsome.
  rewrite (dispatch_up cycle_id w view Hup Hv Hsome). unfold deliver_phase.
  rewrite bool_decide_eq_false_2 by done.
  set (w1 := set_db (claimed_db cycle_id w) w).
  destruct (deliver_all_up cycle_id view (settings_values (db w)) targets w1 Hup Htg Hok Hf Hlen Hready Hrd
    (cycle_view_id _ _ _ Hv)) as (w2 & Hd & Hup2 & Htg2 & Hn2 & Hm2 & Hl2 & Hb2 & Hok2 & Hk2 & Hf2 & Hu2 & Hh).
  { intros chat (c & Hc & Hle). destruct (existing_chat_row _ _ _ _ _ Hv Hc) as [Hin Hp]. by exists c. }
  assert (map bl_id (claimed_logs cycle_id w) <> []) as Hids.
  { destruct Hsome as (l & Hl & Hp). pose proof (claimed_id cycle_id w l Hl Hp) as H.
    intros E. rewrite E in H. by apply not_elem_of_nil in H. }
  assert (exists w3, run (let! ok := deliver_all view targets (settings_values (db w)) in
      do! finish_logs (map bl_id (claimed_logs cycle_id w)) ok (if ok then None else Some "delivery failed")
            (Some max_attempts) in
      do! mark_broadcast cycle_id in Ret tt) w1 = (Ok tt, w3) /\
    pass_done targets cycle_id (bm_last_seq (view_message view)) w w3) as (w3 & Hrun & Hw3).
  { rewrite run_bind, Hd, run_bind, run_finish_up by done. cbv beta iota. rewrite run_bind.
    unfold mark_broadcast. rewrite run_catch, run_session_up by done. cbn [db set_db].
    unfold pass_done. destruct (select_first _ _) as [m|]; eexists; (split; [done|]);
      cbn [db set_db set_logs set_messages broadcast_messages broadcast_message_logs broadcast_message_chats
           broker_settings now tg uuids] in *; rewrite ?Hn2, ?Hl2, ?Hm2; split_and!; try done.
    - by exists (by_id (bm_id m)).
    - exists (fun _ => false). symmetry. apply update_where_none. by apply Forall_true. }
  exists w3. split; [|done]. fold targets. destruct targets; [done|]. exact Hrun.
Qed.

(** A pass over working services finishes the job.  With the database and
    Telegram answering, the bodies rendered, broadcasting not silenced and at least
    one destination:
    every outstanding change of the cycle ends DELIVERED, and every configured
    destination holds the cycle's latest sequence. *)
Theorem dispatch_completes cycle_id w view :
  let targets := targets_of (settings_values (db w)) in
  db_up w -> tg w = [] -> chats_ok (broadcast_message_chats (db w)) -> fresh_ids w ->
  cycle_view cycle_id (db w) = Some view ->
  setting SILENT_SIGNAL (settings_values (db w)) <> Some "1" ->
  unrenderable view (settings_values (db w)) = None ->
  targets <> [] -> Forall (fun t => ready t.2 = true) targets ->
  (length targets <= length (uuids w))%nat ->
  (exists l, l ∈ broadcast_message_logs (db w) /\ pending cycle_id max_attempts l = true) ->
  exists w', run (dispatch cycle_id) w = (Ok tt, w') /\
  (forall l, l ∈ broadcast_message_logs (db w) -> pending cycle_id max_attempts l = true ->
     exists l', l' ∈ broadcast_message_logs (db w') /\ same_log l l' /\ bl_status l' = LogStatus.DELIVERED) /\
  (forall audience chat, (audience, chat) ∈ targets ->
     holds (broadcast_message_chats (db w')) cycle_id (raw_id chat) (bm_last_seq (view_message view))).
Proof.
  intros targets Hup Htg Hok Hf Hv Hs Hrd Hne Hready Hlen Hsome.
  destruct (dispatch_done cycle_id w view Hup Htg Hok Hf Hv Hs Hrd Hne Hready Hlen Hsome)
    as (w' & Hrun & _ & _ & _ & _ & _ & _ & _ & _ & Hl & _ & Hh).
  exists w'. split; [done|]. split; [|exact Hh]. intros l Hin Hp.
  exists (finish_log (now w) true None (Some max_attempts) (claim_log (now w) l)).
  split; [rewrite Hl; by apply (closed_log cycle_id w l)|]. split; [|done].
  transitivity (claim_log (now w) l); apply bl_update_same.
Qed.
End live.

(** * Parked cycles, failed reads, and concrete dispatches *)

(** ** Parking *)

(** A chat row while its cycle is parked: what it shows is untouched. *)
Definition parked_row (c c' : BroadcastMessageChat) : Prop :=
  bc_id c' = bc_id c /\ chat_pair c' = chat_pair c /\ bc_message_id c' = bc_message_id c /\
  bc_message c' = bc_message c /\ bc_delivered_seq c' = bc_delivered_seq c /\
  (default 0 (bc_notified_event_count c) <= default 0 (bc_notified_event_count c'))%Z.

#[global] Instance parked_row_preorder : PreOrder parked_row.
Proof.
  split; [intros c; unfold parked_row; split_and!; done || lia|].
  intros c1 c2 c3 (?&?&?&?&?&?) (?&?&?&?&?&?). unfold parked_row. split_and!; congruence || lia.
Qed.

(** The chats caught up on [k] notices. *)
Definition told (t : list BroadcastMessageChat) (pair : uuid * string) (k : Z) : Prop :=
  exists c, c ∈ t /\ chat_pair c = pair /\ (k <= default 0 (bc_notified_event_count c))%Z.

Lemma told_kept t t' pair k : kept parked_row t t' -> told t pair k -> told t' pair k.
Proof.
  intros Hk (c & Hc & Hp & Hn). destruct (Hk c Hc) as (c' & Hc' & _ & Hp' & _ & _ & _ & ?).
  exists c'. split; [done|]. split; [congruence|lia].
Qed.

(** The tables a parking loop leaves alone. *)
Definition chats_only (w w' : World) : Prop :=
  db_up w' /\ out w' = out w /\ now w' = now w /\
  broadcast_messages (db w') = broadcast_messages (db w) /\
  broadcast_message_logs (db w') = broadcast_message_logs (db w) /\
  kept parked_row (broadcast_message_chats (db w)) (broadcast_message_chats (db w')).

Lemma run_park_upsert id chat_id audience k error w :
  db_up w -> (exists c, c ∈ broadcast_message_chats (db w) /\ chat_pair c = (id, chat_id)) ->
  exists w', run (do! upsert_chat id audience chat_id None None None (Some k) error in Ret tt) w = (Ok tt, w') /\
    chats_only w w' /\ told (broadcast_message_chats (db w')) (id, chat_id) k.
Proof.
  intros Hup (c0 & Hc0 & Hp0). unfold upsert_chat, uuid4. rewrite !run_bind, run_act.
  assert (exists u w1, (match uuids w with
      | [] => (Ok (E:=exn) (uid 0), w) | u :: s => (Ok u, set_uuids s w) end) = (Ok u, w1) /\
      db_up w1 /\ db w1 = db w /\ out w1 = out w /\ now w1 = now w) as (u & w1 & -> & Hup1 & Hd & Ho & Hn)
    by (destruct (uuids w); eauto 10).
  rewrite run_catch, run_bind, run_session_up by done. unfold write_chat. rewrite Hd.
  destruct (select_first_is_Some (chat_key id chat_id) (broadcast_message_chats (db w)) c0) as [row Hrow];
    [done|by apply chat_key_spec|].
  rewrite Hrow. apply select_first_Some in Hrow as [Hin Hkey]. apply chat_key_spec in Hkey.
  eexists. split; [done|]. unfold chats_only. cbn. split; [split_and!; try done|].
  - apply kept_update; [apply _|]. intros c _ _. unfold parked_row. cbn. split_and!; try done.
    destruct (Z.ltb_spec (default 0 (bc_notified_event_count c))%Z k); cbn; lia.
  - eexists. split.
    + apply elem_of_update_where. exists row. rewrite bool_decide_eq_true_2 by done. split; [exact Hin|reflexivity].
    + split; [done|]. cbn. destruct (Z.ltb_spec (default 0 (bc_notified_event_count row))%Z k); cbn; lia.
Qed.

Section park.
Context `{CFG : Settings} `{REN : Renderer}.
Context (private_chat_ids : option (list string)) (max_attempts : Z).

Abbreviation dispatch := (dispatch_locked private_chat_ids max_attempts).

Lemma view_chat_row cycle_id d view c :
  cycle_view cycle_id d = Some view -> c ∈ view_chats view ->
  c ∈ broadcast_message_chats d /\ bc_broadcast_message_id c = cycle_id.
Proof.
  unfold cycle_view. destruct (select_first _ _); [|done]. intros [= <-]. cbn.
  rewrite elem_of_order_by, elem_of_select_where, bool_decide_eq_true. done.
Qed.

Lemma run_park_loop cycle_id k error chats w :
  db_up w ->
  (forall c, c ∈ chats -> bc_broadcast_message_id c = cycle_id /\
     exists c', c' ∈ broadcast_message_chats (db w) /\ chat_pair c' = chat_pair c) ->
  exists w', run (for_each chats (fun chat =>
      do! upsert_chat cycle_id (bc_audience chat) (bc_chat_id chat) None None None (Some k) error in Ret tt)) w
    = (Ok tt, w') /\ chats_only w w' /\
    forall c, c ∈ chats -> told (broadcast_message_chats (db w')) (chat_pair c) k.
Proof.
  revert w. induction chats as [|c chats IH]; intros w Hup Hin.
  { exists w. split; [done|]. split; [split_and!; done|]. by intros ? ?%not_elem_of_nil. }
  cbn [for_each]. rewrite run_bind.
  destruct (Hin c ltac:(left)) as (Hid & c' & Hc' & Hp').
  assert (chat_pair c = (cycle_id, bc_chat_id c)) as Hpair by (unfold chat_pair; congruence).
  destruct (run_park_upsert cycle_id (bc_chat_id c) (bc_audience c) k error w Hup) as (w1 & -> & H1 & Ht1).
  { exists c'. split; [done|congruence]. }
  destruct H1 as (Hup1 & Ho1 & Hn1 & Hm1 & Hl1 & Hk1).
  destruct (IH w1 Hup1) as (w2 & -> & (Hup2 & Ho2 & Hn2 & Hm2 & Hl2 & Hk2) & Ht2).
  { intros x Hx. destruct (Hin x ltac:(by right)) as (? & y & Hy & Hpy). split; [done|].
    destruct (Hk1 y Hy) as (y' & Hy' & _ & Hpy' & _). exists y'. split; [done|congruence]. }
  exists w2. split; [done|]. split.
  - unfold chats_only. split; [done|]. split; [congruence|]. split; [congruence|]. split; [congruence|].
    split; [congruence|by etransitivity].
  - intros x [->|Hx]%elem_of_cons; [|by apply Ht2]. rewrite Hpair. by eapply told_kept.
Qed.

(** A silenced cycle owes its edits and nothing else.  Over a working database
    with the silence setting on, a pass over a cycle some chat shows an older body
    of: sends nothing; hands every claimed change back PENDING with the attempts it
    had before the pass; leaves every chat's message, its id and its sequence as
    they were; and marks the chats behind as told of every event, so that the pass
    that follows the silence edits without replaying notices. *)
Theorem parked_cycle_waits cycle_id w view :
  db_up w -> cycle_view cycle_id (db w) = Some view ->
  setting SILENT_SIGNAL (settings_values (db w)) = Some "1" ->
  chats_behind view <> [] ->
  (forall l, l ∈ broadcast_message_logs (db w) -> (0 <= bl_attempts l)%Z) ->
  (exists l, l ∈ broadcast_message_logs (db w) /\ pending cycle_id max_attempts l = true) ->
  exists w', run (dispatch cycle_id) w = (Ok tt, w') /\ out w' = out w /\
  (forall l, l ∈ broadcast_message_logs (db w) -> pending cycle_id max_attempts l = true ->
     exists l', l' ∈ broadcast_message_logs (db w') /\ same_log l l' /\
       bl_status l' = LogStatus.PENDING /\ bl_attempts l' = bl_attempts l) /\
  kept parked_row (broadcast_message_chats (db w)) (broadcast_message_chats (db w')) /\
  forall c, c ∈ chats_behind view ->
    told (broadcast_message_chats (db w')) (chat_pair c)
      (Z.of_nat (length (dict_events (view_message view)))).
Proof.
  intros Hup Hv Hs Hb Hatt Hsome. rewrite (dispatch_up private_chat_ids max_attempts cycle_id w view Hup Hv Hsome).
  unfold deliver_phase. rewrite bool_decide_eq_true_2 by done. unfold park.
  destruct (chats_behind view) as [|b bs] eqn:Eb; [done|]. rewrite <-Eb. clear Hb.
  rewrite run_bind, (cycle_view_id _ _ _ Hv).
  set (w1 := set_db (claimed_db max_attempts cycle_id w) w).
  destruct (run_park_loop cycle_id (Z.of_nat (length (dict_events (view_message view))))
    (Some ("parked: " +:+ "silenced")) (chats_behind view) w1) as (w2 & -> & H2 & Ht2); [done| |].
  { intros c [Hc _]%elem_of_select_where. destruct (view_chat_row _ _ _ _ Hv Hc) as [Hin Hid].
    split; [done|]. by exists c. }
  destruct H2 as (Hup2 & Ho2 & Hn2 & _ & Hl2 & Hk2). cbv beta iota. rewrite run_bind.
  unfold defer_logs, assign_logs.
  destruct (map bl_id (claimed_logs max_attempts cycle_id w)) as [|i is_] eqn:Ei.
  { exfalso. destruct Hsome as (l & Hl & Hp). pose proof (claimed_id max_attempts cycle_id w l Hl Hp) as H.
    rewrite Ei in H. by apply not_elem_of_nil in H. }
  rewrite <-Ei, run_catch, run_bind, run_session_up by done. eexists. split; [done|]. cbn [db set_db out].
  split; [done|]. split; [|split; [done|done]].
  intros l Hl Hp. exists (defer_log "silenced" (now w2) (claim_log (now w) l)).
  split; [cbn; rewrite Hl2; by apply (closed_log max_attempts cycle_id w l)|].
  split; [transitivity (claim_log (now w) l); apply bl_update_same|]. split; [done|].
  cbn. specialize (Hatt l Hl). lia.
Qed.
End park.

(** ** Concrete dispatches *)
Definition sample_renderer : Renderer := {|
  render_body := fun m _ _ _ meta => Ok ((if meta then "private " else "public ") +:+ bm_actions m);
  render_notice := fun m i => Some (bm_actions m);
  render_stamped := fun _ _ _ _ _ _ => eq_refl
|}.

Definition sample_silence (v : string) : BrokerSetting :=
  {| bs_id := uid 90; bs_key := SILENT_SIGNAL; bs_value := v |}.

(** A world where a LONG was recorded; [s] and [answers] are still to come. *)
Definition sample_cycle_world (settings : list BrokerSetting) (s : list outcome) (answers : list tg_result) : World :=
  let w := (run (sample_record SigAction.LONG) (sample_world [] [uid 1; uid 2; uid 3; uid 4; uid 5])).2 in
  set_sched s (set_tg answers (set_db (set_broker_settings settings (db w)) w)).

Definition sample_dispatch : prog unit :=
  @dispatch_locked sample_settings sample_renderer None 5 (uid 1).

Definition sample_view (w : World) : BroadcastCycleView :=
  default {| view_message := new_cycle "" "" "" None SigAction.LONG [] (uid 0); view_chats := [];
             view_workers := [] |} (cycle_view (uid 1) (db w)).

(** Tables of concrete runs, checked by evaluation. *)
Lemma table_some {row} (p : row -> bool) (t : list row) :
  existsb p t = true -> exists r, r ∈ t /\ p r = true.
Proof. intros (r & Hr & Hp)%existsb_exists. exists r. by rewrite list_elem_of_In. Qed.

Lemma table_all {row} (p : row -> bool) (t : list row) :
  forallb p t = true -> forall r, r ∈ t -> p r = true.
Proof. intros H r Hr%list_elem_of_In. rewrite forallb_forall in H. by apply H. Qed.

Lemma dispatch_completes_witness :
  let w := sample_cycle_world [] [] [] in
  exists w', run sample_dispatch w = (Ok tt, w') /\
    forall l, l ∈ broadcast_message_logs (db w) -> pending (uid 1) 5 l = true ->
    exists l', l' ∈ broadcast_message_logs (db w') /\ same_log l l' /\ bl_status l' = LogStatus.DELIVERED.
Proof.
  intros w.
  destruct (@dispatch_completes sample_settings sample_renderer None 5 (uid 1) w (sample_view w))
    as (w' & H & Hl & _).
  - reflexivity.
  - reflexivity.
  - vm_compute. split; constructor.
  - split; [apply (bool_decide_eq_true_1 _); by vm_compute|]. vm_compute. by intros c ?%not_elem_of_nil.
  - vm_compute. reflexivity.
  - by vm_compute.
  - by vm_compute.
  - by vm_compute.
  - vm_compute. repeat constructor.
  - vm_compute. lia.
  - apply table_some. by vm_compute.
  - exists w'. split; [exact H|exact Hl].
Defined.

(** The message went out, its answer did not come back: one message, whatever
    passes follow. *)
Lemma unanswered_not_reposted_witness :
  let w := sample_cycle_world [] [] [TgNoAnswer true] in
  let deliver := fun v => @deliver_target sample_settings sample_renderer v [] (Audience.PRIVATE, mk_target "-1001" None) in
  exists w', run (deliver (sample_view w)) w = (Ok false, w') /\ length (out w') = 1.
Proof.
  intros w deliver.
  destruct (@unanswered_not_reposted sample_settings sample_renderer (uid 1) Audience.PRIVATE (mk_target "-1001" None)
    [] w (sample_view w) true []) as (w' & H & Ho & _).
  - reflexivity.
  - vm_compute. split; constructor.
  - split; [apply (bool_decide_eq_true_1 _); by vm_compute|]. vm_compute. by intros c ?%not_elem_of_nil.
  - by vm_compute.
  - by vm_compute.
  - reflexivity.
  - reflexivity.
  - vm_compute. by intros (c & [=] & _).
  - vm_compute. by intros c [=].
  - exists w'. split; [exact H|]. rewrite Ho. by vm_compute.
Defined.

Lemma notices_in_order_witness :
  exists k w' l, run (@notify_updates sample_settings (mk_target "-1001" None) "7"
      [Some "a"; Some "b"; Some "c"] (Some 1%Z) true) (set_tg [TgAnswer 200 "" (Some 9%Z); TgNoConnect] world0)
    = (Ok (1 + Z.of_nat k)%Z, w') /\ out w' = [] ++ l.
Proof.
  destruct (@notices_in_order sample_settings (mk_target "-1001" None) "7" [Some "a"; Some "b"; Some "c"] 1
    (set_tg [TgAnswer 200 "" (Some 9%Z); TgNoConnect] world0)) as (k & w' & l & H & Ho & _); [lia|].
  exists k, w', l. split; [exact H|exact Ho].
Defined.

(** A cycle one chat has been shown, then another signal, then silence. *)
Definition sample_behind_world : World :=
  let w := (run sample_dispatch (sample_cycle_world [] [] [])).2 in
  let w := (run (sample_record SigAction.TP1) w).2 in
  set_db (set_broker_settings [sample_silence "1"] (db w)) w.

Lemma parked_cycle_waits_witness :
  exists w', run sample_dispatch sample_behind_world = (Ok tt, w') /\ out w' = out sample_behind_world.
Proof.
  destruct (@parked_cycle_waits sample_settings sample_renderer None 5 (uid 1) sample_behind_world
    (sample_view sample_behind_world)) as (w' & H & Ho & _).
  - by vm_compute.
  - by vm_compute.
  - by vm_compute.
  - by vm_compute.
  - intros l Hl. apply Z.leb_le. revert l Hl. apply (table_all (fun l => (0 <=? bl_attempts l)%Z)). by vm_compute.
  - apply table_some. by vm_compute.
  - exists w'. split; [exact H|exact Ho].
Defined.

(** ** What a failed read costs *)

(** A failed read of the cycle drops its changes.  The database answers the
    claim and fails the read that follows: the pass closes the claimed change as
    DELIVERED although no message was sent to the one configured chat, and no later
    pass will find it. *)
Theorem failed_load_drops_change :
  exists w', run sample_dispatch (sample_cycle_world [] [Done; Failed] []) = (Ok tt, w') /\
    out w' = [] /\ map bl_status (broadcast_message_logs (db w')) = [LogStatus.DELIVERED] /\
    broadcast_message_chats (db w') = [].
Proof. eexists. split; [by vm_compute|]. by vm_compute. Qed.

(** A failed read of the settings breaks the silence.  [silent_signal] is "1"
    in the table; the read of the settings fails and answers no setting, and the
    pass posts the cycle to the private chat. *)
Theorem failed_settings_break_silence :
  let w := sample_cycle_world [sample_silence "1"] [Done; Done; Failed] [] in
  find_setting SILENT_SIGNAL (db w) = Some "1" /\
  exists text r, out (run sample_dispatch w).2 = [SentTg (TgSendMessage (mk_target "-1001" None) text) r].
Proof. split; [by vm_compute|]. eexists _, _. by vm_compute. Qed.
