(* ===== verification/DispatchSweep.v ===== *)
(** * What a sweep makes good

    A notification that nobody hears is not lost: [BroadcastDispatcher.sweep] reads
    the write log itself.  Over working services the sweeps of the dispatcher close
    every outstanding change of every cycle, whatever was heard of it. *)

From S2P Require Import Prelude PyStr Uuid PyTime Json Enums Schemas Models ChatTargets World.
From S2P Require Import Settings Samples StatusPolicies BroadcastRepo CycleLog.
From S2P Require Import CycleFlow Dispatcher DispatchSafety DispatchFlow DispatchLive.

(** ** Ordered tables under an update *)
Lemma insert_by_map {row} (key : row -> Z) (f : row -> row) r t :
  (forall x, key (f x) = key x) -> insert_by key (f r) (map f t) = map f (insert_by key r t).
Proof. intros H. induction t as [|x t IH]; [done|]. cbn. rewrite !H, IH. by destruct (_ <=? _)%Z. Qed.

Lemma order_by_map {row} (key : row -> Z) (f : row -> row) t :
  (forall x, key (f x) = key x) -> order_by key (map f t) = map f (order_by key t).
Proof. intros H. induction t as [|x t IH]; [done|]. cbn. by rewrite IH, insert_by_map. Qed.

Lemma update_update {row} (p q : row -> bool) f g (t : list row) :
  (forall r, r ∈ t -> q (if p r then f r else r) = p r) ->
  update_where q g (update_where p f t) = update_where p (fun r => g (f r)) t.
Proof.
  intros H. unfold update_where. rewrite map_map. apply map_ext_in. intros r Hr%list_elem_of_In.
  rewrite (H r Hr). by destruct (p r).
Qed.

(** Two updates one after the other, the second on rows the first left alone. *)
Lemma update_or {row} (p q : row -> bool) f (t : list row) :
  (forall r, r ∈ t -> p r = true -> q (f r) = false) ->
  update_where q f (update_where p f t) = update_where (fun r => p r || q r) f t.
Proof.
  intros H. unfold update_where. rewrite map_map. apply map_ext_in. intros r Hr%list_elem_of_In.
  destruct (p r) eqn:E; cbn; [by rewrite H|done].
Qed.

(** ** What is owed *)

(** The entries a sweep is to deliver: those not given up, waiting or stranded. *)
Definition owed_cycles (max_attempts : Z) (threshold : instant) (t : list BroadcastMessageLog) : list uuid :=
  distinct (map bl_broadcast_message_id (order_by bl_seq (select_where (outstanding max_attempts threshold) t))).

Lemma elem_of_owed max_attempts threshold t id :
  id ∈ owed_cycles max_attempts threshold t <->
  exists l, l ∈ t /\ outstanding max_attempts threshold l = true /\ bl_broadcast_message_id l = id.
Proof.
  unfold owed_cycles. rewrite elem_of_distinct, list_elem_of_fmap. setoid_rewrite elem_of_order_by.
  setoid_rewrite elem_of_select_where. naive_solver.
Qed.

(** An entry that waits for a claim. *)
Definition waiting (max_attempts : Z) (l : BroadcastMessageLog) : bool :=
  bool_decide (bl_status l = LogStatus.PENDING) && (bl_attempts l <? max_attempts)%Z.

Lemma pending_waiting id max_attempts l :
  pending id max_attempts l = bool_decide (bl_broadcast_message_id l = id) && waiting max_attempts l.
Proof. unfold pending, waiting. by rewrite andb_assoc. Qed.

(** A claimed and delivered entry. *)
Definition closed (max_attempts : Z) (t : instant) (l : BroadcastMessageLog) : BroadcastMessageLog :=
  finish_log t true None (Some max_attempts) (claim_log t l).

(** A stranded entry is back on the log. *)
Definition reclaimed (threshold t : instant) (logs : list BroadcastMessageLog) : list BroadcastMessageLog :=
  update_where (stale threshold) (reclaim_log t) logs.

Lemma outstanding_reclaimed max_attempts threshold t l :
  outstanding max_attempts threshold (if stale threshold l then reclaim_log t l else l) =
    outstanding max_attempts threshold l /\
  waiting max_attempts (if stale threshold l then reclaim_log t l else l) = outstanding max_attempts threshold l.
Proof.
  unfold outstanding, waiting. destruct (stale threshold l) eqn:E.
  - cbn. by rewrite orb_true_r, !andb_true_r.
  - by rewrite E, orb_false_r, andb_comm.
Qed.

Lemma owed_reclaimed max_attempts threshold t logs :
  owed_cycles max_attempts threshold (reclaimed threshold t logs) = owed_cycles max_attempts threshold logs.
Proof.
  unfold owed_cycles, reclaimed. rewrite select_update.
  - unfold update_where. rewrite order_by_map by (intros x; by destruct (stale threshold x)).
    rewrite map_map. f_equal. apply map_ext. intros x. by destruct (stale threshold x).
  - intros l _ Hs. pose proof (outstanding_reclaimed max_attempts threshold t l) as [H _]. by rewrite Hs in H.
Qed.

(** ** Sweeping over working services *)
Section sweep.
Context `{CFG : Settings} `{REN : Renderer}.
Context (private_chat_ids : option (list string)) (max_attempts stale_after : Z).

Abbreviation dispatch := (dispatch_locked private_chat_ids max_attempts).
Abbreviation targets_of values :=
  (dispatch_targets private_chat_ids (setting PUBLIC_BROADCAST_CHAT_IDS_KEY values)).

(** Everything answers, the tables are keyed, somebody is to be told, and there are
    fresh ids for [n] cycles. *)
Definition in_service (n : nat) (w : World) : Prop :=
  let targets := targets_of (settings_values (db w)) in
  db_up w /\ tg w = [] /\ chats_ok (broadcast_message_chats (db w)) /\ fresh_ids w /\
  NoDup (map bl_id (broadcast_message_logs (db w))) /\
  setting SILENT_SIGNAL (settings_values (db w)) <> Some "1" /\
  targets <> [] /\ Forall (fun t => ready t.2 = true) targets /\
  (n * length targets <= length (uuids w))%nat.

(** The cycles' identities and sequences. *)
Definition cycles_of (d : Db) : list (uuid * Z) := map (fun m => (bm_id m, bm_last_seq m)) (broadcast_messages d).

Lemma cycle_view_of id d :
  id ∈ (cycles_of d).*1 ->
  exists view, cycle_view id d = Some view /\ (id, bm_last_seq (view_message view)) ∈ cycles_of d.
Proof.
  intros ([i seq] & -> & (m & [= -> ->] & Hm)%list_elem_of_fmap)%list_elem_of_fmap. unfold cycle_view.
  destruct (select_first_is_Some (by_id (bm_id m)) (broadcast_messages d) m Hm) as [m' Hm'];
    [by apply bool_decide_eq_true|]. cbn [fst]. rewrite Hm'. eexists. split; [done|]. cbn.
  apply select_first_Some in Hm' as [Hin Hid]. apply bool_decide_eq_true in Hid. rewrite <-Hid.
  by apply (list_elem_of_fmap_2 (fun m => (bm_id m, bm_last_seq m))).
Qed.

(** Every stored cycle can be rendered at the current settings. *)
Definition renderable (d : Db) : Prop :=
  forall id view, cycle_view id d = Some view -> unrenderable view (settings_values d) = None.

Lemma settings_unwritten d d' : unwritten d' = unwritten d -> settings_values d' = settings_values d.
Proof. unfold unwritten, settings_values. by intros [= -> _]. Qed.

(** A cycle whose row was stamped at most is rendered as before. *)
Lemma renderable_stamped p t d d' :
  broadcast_messages d' = update_where p (bm_stamp t) (broadcast_messages d) -> unwritten d' = unwritten d ->
  renderable d -> renderable d'.
Proof.
  intros Hm Hu Hr id view. rewrite (settings_unwritten d d' Hu). unfold cycle_view.
  rewrite Hm, select_first_update by done.
  destruct (select_first (by_id id) (broadcast_messages d)) as [m|] eqn:E; [|done]. intros [= <-].
  specialize (Hr id). unfold cycle_view in Hr. rewrite E in Hr. specialize (Hr _ eq_refl).
  injection Hu as _ Hw. unfold unrenderable, rendered in *. cbn [view_message view_workers] in *. rewrite Hw.
  destruct (p m); [by rewrite !render_stamped|done].
Qed.

(** The row of a log after a pass on the cycles [ids]. *)
Definition of_cycles (ids : list uuid) (l : BroadcastMessageLog) : bool :=
  bool_decide (bl_broadcast_message_id l ∈ ids) && waiting max_attempts l.

(** A pass changes the log rows it claimed and no other. *)
Lemma pass_logs cycle_id w :
  NoDup (map bl_id (broadcast_message_logs (db w))) ->
  update_where (id_in (map bl_id (claimed_logs max_attempts cycle_id w))) (finish_log (now w) true None (Some max_attempts))
    (broadcast_message_logs (claimed_db max_attempts cycle_id w)) =
  update_where (pending cycle_id max_attempts) (closed max_attempts (now w)) (broadcast_message_logs (db w)).
Proof.
  intros Hnd. etransitivity; [apply update_update|done]. intros l Hl.
  assert (bl_id (if pending cycle_id max_attempts l then claim_log (now w) l else l) = bl_id l) as Hid
    by (by destruct (pending _ _ l)).
  unfold id_in. rewrite Hid. destruct (pending cycle_id max_attempts l) eqn:Ep.
  - apply bool_decide_eq_true. by apply (claimed_id max_attempts cycle_id w l).
  - apply bool_decide_eq_false. intros (c & Hc & (l' & -> & Hl')%list_elem_of_fmap)%list_elem_of_fmap.
    apply elem_of_order_by, elem_of_select_where in Hl' as [Hl' Hp].
    assert (l = l') as -> by (by apply (nodup_map_eq bl_id (broadcast_message_logs (db w)))). congruence.
Qed.

(** The passes of one sweep. *)
Definition swept (ids : list uuid) (w w' : World) : Prop :=
  now w' = now w /\ cycles_of (db w') = cycles_of (db w) /\ unwritten (db w') = unwritten (db w) /\
  renderable (db w') /\
  broadcast_message_logs (db w') =
    update_where (of_cycles ids) (closed max_attempts (now w)) (broadcast_message_logs (db w)) /\
  kept same_chat (broadcast_message_chats (db w)) (broadcast_message_chats (db w')) /\
  forall id seq audience chat, id ∈ ids -> (id, seq) ∈ cycles_of (db w) ->
    (audience, chat) ∈ targets_of (settings_values (db w)) ->
    holds (broadcast_message_chats (db w')) id (raw_id chat) seq.

Lemma run_pass n cycle_id w :
  in_service (S n) w -> renderable (db w) -> NoDup (cycles_of (db w)).*1 -> cycle_id ∈ (cycles_of (db w)).*1 ->
  (exists l, l ∈ broadcast_message_logs (db w) /\ pending cycle_id max_attempts l = true) ->
  exists w', run (dispatch cycle_id) w = (Ok tt, w') /\ in_service n w' /\ swept [cycle_id] w w'.
Proof.
  intros (Hup & Htg & Hok & Hf & Hnd & Hs & Hne & Hready & Hlen) Hrd Hcyc Hid Hsome.
  destruct (cycle_view_of _ _ Hid) as (view & Hv & Hseq).
  destruct (dispatch_done private_chat_ids max_attempts cycle_id w view Hup Htg Hok Hf Hv Hs (Hrd _ _ Hv) Hne Hready ltac:(lia) Hsome)
    as (w' & Hrun & Hup' & Htg' & Hn' & Hok' & Hf' & Hu' & Hb' & (p & Hm') & Hl' & Hk' & Hh').
  rewrite pass_logs in Hl' by done. exists w'. split; [done|].
  assert (broadcast_message_logs (db w') =
    update_where (of_cycles [cycle_id]) (closed max_attempts (now w)) (broadcast_message_logs (db w))) as Hl''.
  { rewrite Hl'. unfold update_where. apply map_ext. intros l. unfold of_cycles. rewrite pending_waiting.
    by rewrite (bool_decide_ext (bl_broadcast_message_id l ∈ [cycle_id]) (bl_broadcast_message_id l = cycle_id))
      by apply list_elem_of_singleton. }
  split.
  - unfold in_service. rewrite (settings_unwritten _ _ Hb'). split_and!; try done; [|lia].
    rewrite Hl''. by rewrite update_where_proj.
  - unfold swept. split_and!; try done.
    + unfold cycles_of. rewrite Hm'. by apply (update_where_proj (fun m => (bm_id m, bm_last_seq m))).
    + by eapply renderable_stamped.
    + intros id seq audience chat ->%list_elem_of_singleton Hin Hc.
      enough (seq = bm_last_seq (view_message view)) as -> by (by eapply Hh').
      assert (((cycle_id, seq) : uuid * Z) = (cycle_id, bm_last_seq (view_message view))) as [= E]
        by (by apply (nodup_map_eq fst (cycles_of (db w)))). done.
Qed.

Lemma run_passes ids n w :
  in_service (length ids + n) w -> renderable (db w) -> NoDup (cycles_of (db w)).*1 -> NoDup ids ->
  Forall (fun id => id ∈ (cycles_of (db w)).*1) ids ->
  Forall (fun id => exists l, l ∈ broadcast_message_logs (db w) /\ pending id max_attempts l = true) ids ->
  exists w', run (for_each ids dispatch) w = (Ok tt, w') /\ in_service n w' /\ swept ids w w'.
Proof.
  intros Hw Hrd Hc Hnd Hids Hp. revert w Hw Hrd Hc Hids Hp.
  induction Hnd as [|id ids Hid Hnd IH]; intros w Hw Hrd Hc Hids Hp.
  { exists w. split; [done|]. split; [done|]. unfold swept. split_and!; try done.
    - symmetry. apply update_where_none, Forall_true. intros l. unfold of_cycles.
      by rewrite bool_decide_eq_false_2 by apply not_elem_of_nil.
    - by intros ? ? ? ? ?%not_elem_of_nil. }
  apply Forall_cons in Hids as [Hin Hids]. apply Forall_cons in Hp as [Hp1 Hp].
  cbn [for_each length plus] in *. rewrite run_bind.
  destruct (run_pass _ id w Hw Hrd Hc Hin Hp1) as (w1 & -> & Hw1 & Hn1 & Hc1 & Hb1 & Hrd1 & Hl1 & Hk1 & Hh1).
  destruct (IH w1) as (w2 & -> & Hw2 & Hn2 & Hc2 & Hb2 & Hrd2 & Hl2 & Hk2 & Hh2); [done|done|by rewrite Hc1|by rewrite Hc1| |].
  { rewrite Forall_forall in Hp |- *. intros id' Hid'. destruct (Hp id' Hid') as (l & Hl & Hpl). exists l. split; [|done].
    rewrite Hl1. apply elem_of_update_where. exists l. split; [done|]. unfold of_cycles.
    rewrite pending_waiting in Hpl. apply andb_true_iff in Hpl as [Hl'%bool_decide_eq_true _].
    rewrite bool_decide_eq_false_2; [done|]. rewrite Hl'. intros ->%list_elem_of_singleton. done. }
  exists w2. split; [done|]. split; [done|]. unfold swept. split; [congruence|]. split; [congruence|]. split; [congruence|]. split; [done|].
  split; [|split].
  - rewrite Hl2, Hl1, Hn1, update_or.
    + unfold update_where. apply map_ext. intros l. unfold of_cycles. rewrite <-andb_orb_distrib_l.
      rewrite <-bool_decide_or.
      by rewrite (bool_decide_ext (_ ∨ _) (bl_broadcast_message_id l ∈ id :: ids))
        by (by rewrite list_elem_of_singleton, elem_of_cons).
    + intros l _ _. unfold of_cycles, waiting. cbn. by rewrite andb_false_r.
  - by etransitivity.
  - intros id' seq audience chat [->|Hin']%elem_of_cons Hs Ht.
    + eapply holds_kept; [exact Hk2|]. eapply Hh1; [by left|done|done].
    + eapply Hh2; [done|by rewrite Hc1|by rewrite (settings_unwritten _ _ Hb1)].
Qed.

(** ** One sweep *)
Definition SWEEP_LIMIT : nat := 50.

Abbreviation owed w := (owed_cycles max_attempts (minus_seconds (now w) stale_after) (broadcast_message_logs (db w))).

(** Outstanding entries belong to stored cycles. *)
Definition logs_have_cycles (d : Db) : Prop :=
  NoDup (cycles_of d).*1 /\
  Forall (fun l => bl_broadcast_message_id l ∈ (cycles_of d).*1) (broadcast_message_logs d).

Lemma cycles_ok_logs d : cycles_ok d -> logs_have_cycles d.
Proof.
  intros (Hid & _ & _ & _ & Hl). assert ((cycles_of d).*1 = map bm_id (broadcast_messages d)) as E
    by (unfold cycles_of; by rewrite <-list_fmap_compose).
  split; rewrite E; [done|]. eapply Forall_impl; [exact Hl|]. intros l (m & Hm & <-). by apply list_elem_of_fmap_2.
Qed.

(** The log after a sweep: what was stranded is reclaimed, and the waiting entries
    of the cycles swept are closed. *)
Definition sweep_logs (w : World) : list BroadcastMessageLog :=
  update_where (of_cycles (take SWEEP_LIMIT (owed w))) (closed max_attempts (now w))
    (reclaimed (minus_seconds (now w) stale_after) (now w) (broadcast_message_logs (db w))).

(** The world once what was stranded is reclaimed. *)
Definition reclaimed_world (w : World) : World :=
  set_db (set_logs (reclaimed (minus_seconds (now w) stale_after) (now w) (broadcast_message_logs (db w))) (db w)) w.

(** A sweep over a working database reclaims, then dispatches what is owed. *)
Lemma run_sweep_start w :
  db_up w ->
  run (sweep private_chat_ids max_attempts stale_after) w =
  run (do! for_each (take SWEEP_LIMIT (owed w)) dispatch in Ret (length (take SWEEP_LIMIT (owed w)))) (reclaimed_world w).
Proof.
  intros Hup. unfold sweep. rewrite run_bind. unfold reclaim_stale_logs, clock.
  rewrite run_bind, run_act, run_catch, run_session_up by done. cbv beta iota zeta.
  fold (reclaimed (minus_seconds (now w) stale_after) (now w) (broadcast_message_logs (db w))).
  fold (reclaimed_world w). rewrite run_bind. unfold list_cycles_with_pending_logs, clock.
  rewrite run_bind, run_act, run_catch, run_query_up by done. cbv beta iota zeta. rewrite set_db_same.
  fold (owed_cycles max_attempts (minus_seconds (now (reclaimed_world w)) stale_after)
          (broadcast_message_logs (db (reclaimed_world w)))).
  cbn [db now reclaimed_world set_db broadcast_message_logs set_logs]. by rewrite owed_reclaimed.
Qed.

(** A cycle that is owed has an entry to claim once the rest is reclaimed. *)
Lemma owed_pending w id :
  id ∈ owed w ->
  exists l, l ∈ broadcast_message_logs (db (reclaimed_world w)) /\ pending id max_attempts l = true.
Proof.
  intros (l & Hin & Ho & <-)%elem_of_owed. cbn [db reclaimed_world set_db broadcast_message_logs set_logs].
  eexists. split; [apply elem_of_update_where; by exists l|].
  destruct (outstanding_reclaimed max_attempts (minus_seconds (now w) stale_after) (now w) l) as [_ H].
  rewrite pending_waiting, H, Ho, andb_true_r. apply bool_decide_eq_true. by destruct (stale _ _).
Qed.

Lemma run_sweep n w :
  in_service (length (take SWEEP_LIMIT (owed w)) + n) w -> renderable (db w) -> logs_have_cycles (db w) ->
  exists w', run (sweep private_chat_ids max_attempts stale_after) w = (Ok (length (take SWEEP_LIMIT (owed w))), w') /\
    in_service n w' /\ renderable (db w') /\ now w' = now w /\ cycles_of (db w') = cycles_of (db w) /\
    unwritten (db w') = unwritten (db w) /\ broadcast_message_logs (db w') = sweep_logs w /\
    kept same_chat (broadcast_message_chats (db w)) (broadcast_message_chats (db w')) /\
    forall id seq audience chat, id ∈ take SWEEP_LIMIT (owed w) -> (id, seq) ∈ cycles_of (db w) ->
      (audience, chat) ∈ targets_of (settings_values (db w)) ->
      holds (broadcast_message_chats (db w')) id (raw_id chat) seq.
Proof.
  intros Hw Hrd [Hc Hl]. set (ids := take SWEEP_LIMIT (owed w)) in *.
  assert (Hup : db_up w) by apply Hw. rewrite run_sweep_start by done. fold ids. set (w1 := reclaimed_world w).
  assert (broadcast_message_logs (db w1) = reclaimed (minus_seconds (now w) stale_after) (now w) (broadcast_message_logs (db w)))
    as Hl1 by done.
  assert (in_service (length ids + n) w1) as Hw1.
  { destruct Hw as (?&?&?&?&Hnd&?). split_and!; try done; try apply H3. rewrite Hl1. unfold reclaimed. by rewrite update_where_proj. }
  rewrite run_bind.
  assert (forall id, id ∈ ids -> id ∈ owed w) as Hsub.
  { intros id Hid. rewrite <-(take_drop SWEEP_LIMIT (owed w)). apply elem_of_app. by left. }
  destruct (run_passes ids n w1 Hw1 Hrd Hc) as (w2 & -> & Hw2 & Hn2 & Hc2 & Hb2 & Hrd2 & Hl2 & Hk2 & Hh2).
  - pose proof (NoDup_distinct (map bl_broadcast_message_id (order_by bl_seq (select_where
      (outstanding max_attempts (minus_seconds (now w) stale_after)) (broadcast_message_logs (db w)))))) as Hnd.
    fold (owed_cycles max_attempts (minus_seconds (now w) stale_after) (broadcast_message_logs (db w))) in Hnd.
    rewrite <-(take_drop SWEEP_LIMIT) in Hnd. by apply NoDup_app in Hnd as [? _].
  - apply Forall_forall. intros id Hid%Hsub. apply elem_of_owed in Hid as (l & Hin & _ & <-).
    rewrite Forall_forall in Hl. by apply Hl.
  - apply Forall_forall. intros id Hid%Hsub. by apply owed_pending.
  - exists w2. do 6 (split; [done|]). split; [by rewrite Hl2, Hl1|].
    split; [done|]. exact Hh2.
Qed.

(** A delivered entry is left as it is. *)
Lemma sweep_keeps_delivered w l :
  l ∈ broadcast_message_logs (db w) -> bl_status l = LogStatus.DELIVERED -> l ∈ sweep_logs w.
Proof.
  intros Hl Hd. apply elem_of_update_where. exists l.
  assert (waiting max_attempts l = false) as Hw by (unfold waiting; by rewrite Hd).
  split; [|unfold of_cycles; by rewrite Hw, andb_false_r].
  apply elem_of_update_where. exists l. unfold stale. by rewrite Hd.
Qed.

(** An entry that was owed is delivered if its cycle was swept, and else still owed. *)
Lemma sweep_row w l :
  l ∈ broadcast_message_logs (db w) ->
  outstanding max_attempts (minus_seconds (now w) stale_after) l = true ->
  exists l', l' ∈ sweep_logs w /\ same_log l l' /\
    if bool_decide (bl_broadcast_message_id l ∈ take SWEEP_LIMIT (owed w)) then bl_status l' = LogStatus.DELIVERED
    else outstanding max_attempts (minus_seconds (now w) stale_after) l' = true.
Proof.
  intros Hl Ho. set (threshold := minus_seconds (now w) stale_after) in *.
  destruct (outstanding_reclaimed max_attempts threshold (now w) l) as [Ho1 Hw1].
  set (l1 := if stale threshold l then reclaim_log (now w) l else l) in *.
  assert (l1 ∈ reclaimed threshold (now w) (broadcast_message_logs (db w))) as Hin1
    by (apply elem_of_update_where; by exists l).
  assert (bl_broadcast_message_id l1 = bl_broadcast_message_id l) as Hid by (unfold l1; by destruct (stale _ _)).
  assert (same_log l l1) as Hs1 by (unfold l1; destruct (stale _ _); [apply bl_update_same|done]).
  eexists. split; [apply elem_of_update_where; exists l1; split; [exact Hin1|reflexivity]|].
  unfold of_cycles. fold threshold. rewrite Hid, Hw1, Ho, andb_true_r. case_bool_decide.
  - split; [|done]. transitivity l1; [done|]. transitivity (claim_log (now w) l1); apply bl_update_same.
  - split; [done|congruence].
Qed.

Lemma closed_not_owed threshold t l : outstanding max_attempts threshold (closed max_attempts t l) = false.
Proof. unfold outstanding, stale. cbn. by rewrite andb_false_r. Qed.

Lemma owed_after w w' :
  now w' = now w -> broadcast_message_logs (db w') = sweep_logs w -> owed w' ≡ₚ drop SWEEP_LIMIT (owed w).
Proof.
  intros Hn Hl. rewrite Hn, Hl. set (threshold := minus_seconds (now w) stale_after) in *.
  set (old := owed_cycles max_attempts threshold (broadcast_message_logs (db w))) in *.
  assert (NoDup old) as Hnd by apply NoDup_distinct. assert (Hnd' := Hnd).
  rewrite <-(take_drop SWEEP_LIMIT old) in Hnd'. apply NoDup_app in Hnd' as (_ & Hdis & Hnd').
  apply NoDup_Permutation; [apply NoDup_distinct|done|]. intros id. rewrite elem_of_owed. split.
  - intros (l & (l1 & Hl1 & ->)%elem_of_update_where & Ho & Hid).
    destruct (of_cycles _ l1) eqn:E; [by rewrite closed_not_owed in Ho|]. subst id.
    apply elem_of_update_where in Hl1 as (l0 & Hl0 & ->).
    destruct (outstanding_reclaimed max_attempts threshold (now w) l0) as [H1 H2]. fold threshold in Ho, E; fold threshold; fold old in E; rewrite Ho in H1.
    unfold of_cycles in E. rewrite H2, <-H1, andb_true_r in E. apply bool_decide_eq_false in E.
    assert (bl_broadcast_message_id l0 ∈ old) as Hin by (apply elem_of_owed; by exists l0).
    assert (bl_broadcast_message_id (if stale threshold l0 then reclaim_log (now w) l0 else l0) =
            bl_broadcast_message_id l0) as Hid by (by destruct (stale _ _)). rewrite Hid in *.
    rewrite <-(take_drop SWEEP_LIMIT old), elem_of_app in Hin. by destruct Hin.
  - intros Hin. assert (id ∈ old) as (l & Hl0 & Ho & <-)%elem_of_owed.
    { rewrite <-(take_drop SWEEP_LIMIT old), elem_of_app. by right. }
    destruct (sweep_row w l Hl0 Ho) as (l' & Hl' & Hs & H). exists l'. rewrite bool_decide_eq_false_2 in H.
    + split; [done|]. split; [done|]. by destruct Hs as (_ & ? & _).
    + intros Hin'. by apply (Hdis _ Hin').
Qed.

(** The turns over a log whose entries have their cycles. *)
Lemma run_sweeps n w :
  in_service (length (owed w)) w -> renderable (db w) -> logs_have_cycles (db w) -> (length (owed w) <= n * SWEEP_LIMIT)%nat ->
  exists w', run (sweep_loop private_chat_ids max_attempts stale_after n) w = (Ok tt, w') /\ owed w' = [] /\
  (forall l, l ∈ broadcast_message_logs (db w) ->
     outstanding max_attempts (minus_seconds (now w) stale_after) l = true \/ bl_status l = LogStatus.DELIVERED ->
     exists l', l' ∈ broadcast_message_logs (db w') /\ same_log l l' /\ bl_status l' = LogStatus.DELIVERED) /\
  kept same_chat (broadcast_message_chats (db w)) (broadcast_message_chats (db w')) /\
  (forall id seq audience chat, id ∈ owed w -> (id, seq) ∈ cycles_of (db w) ->
     (audience, chat) ∈ targets_of (settings_values (db w)) ->
     holds (broadcast_message_chats (db w')) id (raw_id chat) seq).
Proof.
  revert w. induction n as [|n IH]; intros w Hw Hrd Hlc Hlen.
  { assert (owed w = []) as E by (apply nil_length_inv; lia). exists w. rewrite E. split; [done|]. split; [done|].
    split; [|split; [done|by intros ? ? ? ? ?%not_elem_of_nil]].
    intros l Hin [Ho|Hd]; [|by exists l]. exfalso. apply (not_elem_of_nil (bl_broadcast_message_id l)). rewrite <-E.
    apply elem_of_owed. by exists l. }
  cbn [sweep_loop]. rewrite run_bind, run_catch, run_bind.
  destruct (run_sweep (length (drop SWEEP_LIMIT (owed w))) w) as (w1 & -> & Hw1 & Hrd1 & Hn1 & Hc1 & Hb1 & Hl1 & Hk1 & Hh1);
    [by rewrite <-length_app, take_drop|done|done|]. cbv beta iota.
  pose proof (owed_after w w1 Hn1 Hl1) as Hperm.
  destruct (IH w1) as (w2 & Hrun & Hnil & Hl2 & Hk2 & Hh2).
  - by rewrite Hperm.
  - done.
  - split; [by rewrite Hc1; apply Hlc|]. destruct Hlc as [_ Hlc]. rewrite Hc1, Hl1. unfold sweep_logs, reclaimed, update_where.
    rewrite map_map, Forall_fmap. eapply Forall_impl; [exact Hlc|]. intros l. cbn. destruct (stale _ _); by destruct (of_cycles _ _).
  - rewrite Hperm, length_drop. lia.
  - exists w2. split; [exact Hrun|]. split; [done|]. split; [|split; [by etransitivity|]].
    + intros l Hl [Ho|Hd].
      * destruct (sweep_row w l Hl Ho) as (l1 & Hin & Hs & Hcase). rewrite <-Hl1 in Hin.
        destruct (Hl2 l1 Hin) as (l2 & ? & ? & ?); [|exists l2; split; [done|]; split; [by etransitivity|done]].
        rewrite Hn1. case_bool_decide; [by right|by left].
      * apply Hl2; [|by right]. rewrite Hl1. by apply sweep_keeps_delivered.
    + intros id seq audience chat Hid Hseq Ht. rewrite <-(take_drop SWEEP_LIMIT (owed w)), elem_of_app in Hid.
      destruct Hid as [Hid|Hid]; [by eapply holds_kept; [exact Hk2|]; eapply Hh1|].
      eapply Hh2; [by rewrite Hperm|by rewrite Hc1|by rewrite (settings_unwritten _ _ Hb1)].
Qed.

(** C7. What was not heard is delivered all the same.  With the database and
    Telegram answering, every stored cycle rendered, broadcasting not silenced and
    somebody to tell: whatever
    entries of the write log are waiting, or were stranded by a dispatcher that died,
    as many turns of the sweeper as there are fifties of cycles leave every one of
    them DELIVERED, every destination of each of these cycles at its latest sequence,
    and nothing outstanding. *)
Theorem sweeps_catch_up n w :
  in_service (length (owed w)) w -> renderable (db w) -> cycles_ok (db w) -> (length (owed w) <= n * SWEEP_LIMIT)%nat ->
  exists w', run (sweep_loop private_chat_ids max_attempts stale_after n) w = (Ok tt, w') /\ owed w' = [] /\
  (forall l, l ∈ broadcast_message_logs (db w) ->
     outstanding max_attempts (minus_seconds (now w) stale_after) l = true ->
     exists l', l' ∈ broadcast_message_logs (db w') /\ same_log l l' /\ bl_status l' = LogStatus.DELIVERED) /\
  (forall id seq audience chat, id ∈ owed w -> (id, seq) ∈ cycles_of (db w) ->
     (audience, chat) ∈ targets_of (settings_values (db w)) ->
     holds (broadcast_message_chats (db w')) id (raw_id chat) seq).
Proof.
  intros H1 Hr H2%cycles_ok_logs H3. destruct (run_sweeps n w H1 Hr H2 H3) as (w' & ? & ? & Hl & _ & ?). exists w'.
  split_and!; [done|done| |done]. intros l Hin Ho. apply Hl; [done|by left].
Qed.

(** ** A cycle that cannot be rendered *)

(** A claimed entry is out of a sweep's sight until it goes stale. *)
Lemma outstanding_claimed t l :
  (0 <= stale_after)%Z -> outstanding max_attempts (minus_seconds t stale_after) (claim_log t l) = false.
Proof.
  intros Hs. unfold outstanding, stale, minus_seconds. cbn. rewrite andb_false_iff. right. apply Z.ltb_ge. lia.
Qed.

(** The log once the sweep claimed a cycle: it is no longer owed, the others are. *)
Lemma owed_claimed id w w' other :
  (0 <= stale_after)%Z -> now w' = now w ->
  broadcast_message_logs (db w') =
    update_where (pending id max_attempts) (claim_log (now w)) (broadcast_message_logs (db (reclaimed_world w))) ->
  other ∈ owed w' <-> other <> id /\ other ∈ owed w.
Proof.
  intros Hs Hn Hl. rewrite Hn, Hl, !elem_of_owed. cbn [db reclaimed_world set_db broadcast_message_logs set_logs].
  set (threshold := minus_seconds (now w) stale_after).
  assert (forall l, let l1 := if stale threshold l then reclaim_log (now w) l else l in
    bl_broadcast_message_id l1 = bl_broadcast_message_id l /\ outstanding max_attempts threshold l1 = outstanding max_attempts threshold l /\
    pending id max_attempts l1 = bool_decide (bl_broadcast_message_id l = id) && outstanding max_attempts threshold l) as Hrow.
  { intros l l1. destruct (outstanding_reclaimed max_attempts threshold (now w) l) as [H1 H2]. fold l1 in H1, H2.
    assert (bl_broadcast_message_id l1 = bl_broadcast_message_id l) as E by (unfold l1; by destruct (stale _ _)).
    rewrite pending_waiting, H1, H2, E. by split_and!. }
  split.
  - intros (l' & (l1 & (l & Hin & ->)%elem_of_update_where & ->)%elem_of_update_where & Ho & Hid).
    destruct (Hrow l) as (E1 & E2 & E3). cbv zeta in *. rewrite E3 in *.
    destruct (outstanding max_attempts threshold l) eqn:El; rewrite ?andb_true_r, ?andb_false_r in *.
    + case_bool_decide; [unfold threshold in Ho; by rewrite outstanding_claimed in Ho|]. split; [congruence|]. exists l. split_and!; congruence.
    + congruence.
  - intros (Hother & l & Hin & Ho & Hid). destruct (Hrow l) as (E1 & E2 & E3). cbv zeta in *.
    exists (if stale threshold l then reclaim_log (now w) l else l). split; [|split; congruence].
    apply elem_of_update_where. eexists. split; [apply elem_of_update_where; by exists l|].
    by rewrite E3, bool_decide_eq_false_2 by congruence.
Qed.

(** [sweep] dispatches one cycle after the other and catches nothing.  When the first
    one cannot be rendered, the sweep raises (and so does [BroadcastDispatcher.start],
    whose first sweep nothing guards): nothing is sent, every other cycle is left owed
    to a later sweep, and the entries of the first have spent an attempt and stay
    SENDING until they go stale. *)
Theorem unrenderable_cycle_holds_up id rest view e w :
  (0 <= stale_after)%Z -> db_up w -> owed w = id :: rest -> cycle_view id (db w) = Some view ->
  setting SILENT_SIGNAL (settings_values (db w)) <> Some "1" -> targets_of (settings_values (db w)) <> [] ->
  unrenderable view (settings_values (db w)) = Some e ->
  exists w', run (sweep private_chat_ids max_attempts stale_after) w = (Err e, w') /\ out w' = out w /\
    broadcast_message_chats (db w') = broadcast_message_chats (db w) /\
    broadcast_message_logs (db w') =
      update_where (pending id max_attempts) (claim_log (now w)) (broadcast_message_logs (db (reclaimed_world w))) /\
    forall other, other ∈ owed w' <-> other ∈ rest.
Proof.
  intros Hst Hup Ho Hv Hs Hne Hr. rewrite run_sweep_start by done.
  destruct (owed_pending w id) as (l & Hl & Hp); [rewrite Ho; by left|].
  set (w1 := reclaimed_world w) in *.
  assert (id ∉ rest) as Hrest by (apply NoDup_cons; rewrite <-Ho; apply NoDup_distinct).
  rewrite Ho. cbn [take SWEEP_LIMIT for_each]. rewrite !run_bind.
  rewrite (dispatch_up private_chat_ids max_attempts id w1 view) by (done || by exists l).
  unfold deliver_phase. change (settings_values (db w1)) with (settings_values (db w)).
  rewrite bool_decide_eq_false_2 by done. destruct (targets_of (settings_values (db w))) as [|t ts] eqn:Et; [done|].
  rewrite run_bind. unfold deliver_all. rewrite Hr. cbn [run]. eexists. split; [done|]. do 3 (split; [done|]).
  intros other. rewrite (owed_claimed id w) by done. rewrite Ho, elem_of_cons. naive_solver.
Qed.
End sweep.

(** ** On concrete input *)
Definition later (seconds : Z) (w : World) : World :=
  mk_world (db w) (out w) (sched w) (tg w) (uuids w) (now w + seconds * 1000000)%Z (nats_up w) (deferred w)
    (card_queue w) (caches w) (notices w) (bot w).

(** A signal is recorded and claimed by a dispatcher that dies; ninety seconds on, a
    second one is recorded that nobody hears of. *)
Definition sample_unheard : World :=
  let w := (run (sample_record SigAction.LONG) (sample_world [] [uid 1; uid 2; uid 3; uid 4; uid 5; uid 6])).2 in
  (run (sample_record SigAction.TP1) (later 90 (run (claim_pending_logs (uid 1) 5) w).2)).2.

Lemma unheard_ok : cycles_ok (db sample_unheard).
Proof.
  unfold sample_unheard. cbv zeta.
  apply (always_run broadcast_step (sample_record SigAction.TP1)); [apply step_record_event|].
  change (db (later _ ?w)) with (db w). apply (always_run broadcast_step (claim_pending_logs (uid 1) 5)); [apply step_claim|].
  apply (always_run broadcast_step (sample_record SigAction.LONG)); [apply step_record_event|apply empty_ok].
Qed.

Lemma sweeps_catch_up_witness :
  let w := sample_unheard in
  map bl_status (broadcast_message_logs (db w)) = [LogStatus.SENDING; LogStatus.PENDING] /\
  exists w', run (@sweep_loop sample_settings sample_renderer None 5 60 1) w = (Ok tt, w') /\
    forall l, l ∈ broadcast_message_logs (db w) ->
    exists l', l' ∈ broadcast_message_logs (db w') /\ same_log l l' /\ bl_status l' = LogStatus.DELIVERED.
Proof.
  intros w. split; [by vm_compute|].
  destruct (@sweeps_catch_up sample_settings sample_renderer None 5 60 1 w) as (w' & H & _ & Hl & _).
  - unfold in_service. split; [reflexivity|]. split; [reflexivity|]. split; [vm_compute; split; constructor|].
    split; [split; [apply (bool_decide_eq_true_1 _); by vm_compute|vm_compute; by intros c ?%not_elem_of_nil]|].
    split; [apply (bool_decide_eq_true_1 _); by vm_compute|]. split; [by vm_compute|]. split; [by vm_compute|].
    split; [vm_compute; repeat constructor|]. vm_compute. lia.
  - by intros id view _.
  - exact unheard_ok.
  - vm_compute. lia.
  - exists w'. split; [exact H|]. intros l Hin. apply Hl; [done|]. revert l Hin. apply table_all. by vm_compute.
Defined.
