(* ===== verification/EndToEnd.v ===== *)
(** * From the alert to its readers

    The signal path with the parts put together: the webhook, the worker of the
    stream, the processing service with the broadcast writer as its broadcaster, and
    the sweeper of the dispatcher.  Round by round: what a posted alert leaves on the
    stream, what handling that message leaves in the tables, and what sweeping them
    leaves in the chats. *)

From S2P Require Import Prelude PyStr Uuid PyTime Json JsonText Enums Schemas Models ChatTargets World.
From S2P Require Import Settings StatusPolicies Samples SignalRepo SignalHelper SignalService SignalSafety.
From S2P Require Import SignalFlow Webhook SignalWorker BroadcastRepo CycleLog CycleFlow BroadcastService.
From S2P Require Import Dispatcher DispatchSafety DispatchFlow DispatchLive DispatchSweep.

(** ** Inserts that find no clash *)
Lemma insert_unique_fresh {row} (clash : row -> row -> bool) r t :
  (forall x, x ∈ t -> clash r x = false) -> insert_unique clash r t = Some (t ++ [r]).
Proof.
  intros H. destruct (insert_unique clash r t) as [t'|] eqn:E.
  - by apply insert_unique_Some in E as [-> _].
  - apply insert_unique_None in E as (x & Hx & Hc). by rewrite H in Hc.
Qed.

(** ** What the rounds share *)

(** [w'] is [w] but for its tables, what was sent and the ids drawn. *)
Definition same_services (w w' : World) : Prop :=
  sched w' = sched w /\ tg w' = tg w /\ now w' = now w /\ nats_up w' = nats_up w.

#[local] Instance same_services_preorder : PreOrder same_services.
Proof. split; [by intros w|]. intros w1 w2 w3 (? & ? & ? & ?) (? & ? & ? & ?). split_and!; congruence. Qed.

(** ** The cycle of an alert *)
Section record.
Context (strategy uxid symbol : string) (timeframe : option string) (action : SignalActionEnum)
        (event : list (string * json)).

(** The last change of the cycle [row] is [event], and its entry of the write log
    waits. *)
Definition newly_told (row : BroadcastMessage) (l : BroadcastMessageLog) : Prop :=
  bm_key row = (symbol, strategy, uxid) /\ last (bm_events row) = Some (JObj event) /\
  bl_broadcast_message_id l = bm_id row /\ bl_seq l = bm_last_seq row /\ bl_payload l = JObj event /\
  bl_status l = LogStatus.PENDING /\ bl_attempts l = 0%Z.

Lemma log_seq_bound d l m :
  cycles_ok d -> l ∈ broadcast_message_logs d -> m ∈ broadcast_messages d ->
  bl_broadcast_message_id l = bm_id m -> (bl_seq l <= bm_last_seq m)%Z.
Proof.
  intros Hok Hl Hm Hid. destruct (cycle_of_ok _ _ Hok Hm) as (_ & _ & Hs & _).
  assert (bl_seq l ∈ map bl_seq (select_where (log_of (bm_id m)) (broadcast_message_logs d))) as Hin.
  { apply (list_elem_of_fmap_2 bl_seq), elem_of_select_where. split; [done|]. unfold log_of. by rewrite bool_decide_eq_true. }
  rewrite Hs in Hin. apply elem_of_seqZ in Hin. lia.
Qed.

Lemma extend_up v t row d :
  cycles_ok d -> row ∈ broadcast_messages d -> v ∉ map bl_id (broadcast_message_logs d) ->
  is_duplicate_event (bm_events row) event = false ->
  exists row' l ms, extend_cycle action event v t row d =
      Ok (row', set_logs (broadcast_message_logs d ++ [l]) (set_messages ms d)) /\
    (length ms <= S (length (broadcast_messages d)))%nat /\ row' ∈ ms /\ bm_id row' = bm_id row /\ bm_key row' = bm_key row /\
    last (bm_events row') = Some (JObj event) /\ bl_broadcast_message_id l = bm_id row' /\
    bl_seq l = bm_last_seq row' /\ bl_payload l = JObj event /\ bl_status l = LogStatus.PENDING /\ bl_attempts l = 0%Z.
Proof.
  intros Hok Hrow Hv Hd. unfold extend_cycle. rewrite Hd. cbv zeta. set (row' := bm_append action (JObj event) row).
  unfold save_cycle, insert_log. cbn [broadcast_message_logs set_messages].
  rewrite insert_unique_fresh.
  - eexists row', _, _. split; [reflexivity|]. cbn. split_and!; try done; [rewrite length_update_where; lia| |apply last_snoc].
    apply elem_of_update_where. exists row. unfold by_id. by rewrite bool_decide_eq_true_2.
  - intros l Hl. unfold log_clash. apply orb_false_iff. split; apply bool_decide_eq_false; cbn.
    + intros ->. by apply Hv, list_elem_of_fmap_2.
    + intros [= Hi Hs]. pose proof (log_seq_bound d l row Hok Hl Hrow (eq_sym Hi)). lia.
Qed.

Lemma open_up u v t d :
  cycles_ok d -> locked_cycle symbol strategy uxid d = None ->
  u ∉ map bm_id (broadcast_messages d) -> v ∉ map bl_id (broadcast_message_logs d) ->
  exists row l ms, open_cycle strategy uxid symbol timeframe action event u v t d =
      Ok (row, set_logs (broadcast_message_logs d ++ [l]) (set_messages ms d)) /\
    (length ms <= S (length (broadcast_messages d)))%nat /\ row ∈ ms /\ newly_told row l.
Proof.
  intros (_ & _ & _ & _ & Hfk) Hno Hu Hv. unfold open_cycle. cbv zeta. rewrite insert_unique_fresh.
  - unfold insert_log. cbn [broadcast_message_logs set_messages]. rewrite insert_unique_fresh.
    + eexists _, _, _. split; [reflexivity|]. split; [rewrite length_app; cbn; lia|].
      split; [apply elem_of_app; right; by left|by split_and!].
    + intros l Hl. unfold log_clash. apply orb_false_iff. split; apply bool_decide_eq_false; cbn.
      * intros ->. by apply Hv, list_elem_of_fmap_2.
      * intros [= Hi _]. rewrite Forall_forall in Hfk. destruct (Hfk l Hl) as (m & Hm & Hmi).
        apply Hu. rewrite Hi, <-Hmi. by apply list_elem_of_fmap_2.
  - intros m Hm. unfold message_clash. apply orb_false_iff. split; apply bool_decide_eq_false; cbn.
    + intros ->. by apply Hu, list_elem_of_fmap_2.
    + intros [= -> -> ->]. unfold locked_cycle in Hno. apply select_first_None in Hno. rewrite Forall_forall in Hno.
      specialize (Hno m Hm). unfold cycle_key in Hno. by rewrite !bool_decide_eq_true_2 in Hno.
Qed.

(** Recording a new change over a working database. *)
Lemma run_record_event_up w u v us :
  db_up w -> uuids w = u :: v :: us -> cycles_ok (db w) ->
  u ∉ map bm_id (broadcast_messages (db w)) -> v ∉ map bl_id (broadcast_message_logs (db w)) ->
  (forall row, locked_cycle symbol strategy uxid (db w) = Some row -> is_duplicate_event (bm_events row) event = false) ->
  exists row l ms, run (record_event strategy uxid symbol timeframe action event) w =
      (Ok (Some row), set_db (set_logs (broadcast_message_logs (db w) ++ [l]) (set_messages ms (db w))) (set_uuids us w)) /\
    (length ms <= S (length (broadcast_messages (db w))))%nat /\ row ∈ ms /\ newly_told row l /\
    cycles_ok (set_logs (broadcast_message_logs (db w) ++ [l]) (set_messages ms (db w))).
Proof.
  intros Hup Hus Hok Hu Hv Hdup.
  enough (exists row l ms, run (record_event strategy uxid symbol timeframe action event) w =
      (Ok (Some row), set_db (set_logs (broadcast_message_logs (db w) ++ [l]) (set_messages ms (db w))) (set_uuids us w)) /\
    (length ms <= S (length (broadcast_messages (db w))))%nat /\ row ∈ ms /\ newly_told row l)
    as (row & l & ms & Hrun & H1 & H2 & H3).
  { exists row, l, ms. do 4 (split; [done|]).
    destruct (always_run broadcast_step _ w (step_record_event strategy uxid symbol timeframe action event) Hok) as [H _].
    by rewrite Hrun in H. }
  unfold record_event. cbn [record_event_loop]. rewrite run_bind, run_attempt.
  unfold record_event_once, uuid4. rewrite run_bind, run_act, Hus. cbv beta iota.
  rewrite run_bind, run_act. cbn [uuids set_uuids]. cbv beta iota.
  rewrite run_bind, run_session_up by done. cbn [db set_uuids now].
  destruct (locked_cycle symbol strategy uxid (db w)) as [row|] eqn:El.
  - destruct (locked_cycle_Some _ _ _ _ _ El) as [Hrow Hk].
    destruct (extend_up v (now w) row (db w) Hok Hrow Hv (Hdup row eq_refl)) as (row' & l & ms & -> & Hlen & Hin & Hid & Hk' & H).
    exists row', l, ms. do 3 (split; [done|]). split; [congruence|done].
  - destruct (open_up u v (now w) (db w) Hok El Hu Hv) as (row & l & ms & Ho & Hlen & Hin & H).
    cbv beta iota. rewrite run_session_up by done. cbn [db set_db set_uuids now]. rewrite Ho. cbv beta iota.
    exists row, l, ms. by split_and!.
Qed.
End record.

(** ** The rounds *)
Section rounds.
Context `{PY : Pydantic} `{CFG : Settings} `{NOTIFIER : Notifier} `{JE : JsonErrors} `{WR : WebhookRequests}.
Context (deferred_maxsize : option Z) (max_attempts : Z).
Variable payload : WebhookPayload.

(** The message workers are sent for the row [signal_id] at time [t]. *)
Definition command (signal_id : string) (t : instant) : option sent :=
  if bool_decide (p_action (w_position payload) = SigAction.FLAT)
  then Some (SentFlat (w_strategy payload) signal_id (w_signal_uxid payload) (normalise_symbol (w_symbol payload))
               (w_timestamp payload))
  else match parse_signal payload signal_id t with
       | Ok s => Some (SentSignal (ts_strategy s) s)
       | Err _ => None
       end.

Definition envelope : json := JObj [("payload", dump_webhook payload)].

(** *** Posting it *)
Lemma run_post_up API_PREFIX body w u us :
  db_up w -> nats_up w = true -> uuids w = u :: us -> parse_request body = Parsed payload ->
  is_empty (wh_SECRET set_webhook) = false -> w_token payload = wh_SECRET set_webhook ->
  run (post_webhook deferred_maxsize API_PREFIX body) w =
    (Ok {| rs_status := 202;
           rs_content := JObj [("status", JStr "queued"); ("timestamp", JStr (isoformat (w_timestamp payload)))];
           rs_close := true |},
     emit (SentWebhook (jetstream_subject (w_strategy payload)) envelope (uuid_hex u)) (set_uuids us w)).
Proof.
  intros Hup Hn Hus Hb Hs Ht. rewrite run_post, Hb. unfold enqueue, verify_token. cbv zeta.
  rewrite Hs, Ht, String.eqb_refl. cbn [bind]. unfold uuid4. rewrite run_bind, run_act, Hus. cbv beta iota.
  rewrite run_bind, run_attempt. unfold publish_webhook_event, is_connected. rewrite run_bind, run_act.
  cbn [nats_up set_uuids]. rewrite Hn. cbv beta iota. by rewrite run_nats_up.
Qed.

(** *** Handling it *)
Lemma run_publish_up signal_id e w :
  db_up w -> command signal_id (now w) = Some e -> run (fanout_publish payload signal_id) w = (Ok tt, emit e w).
Proof.
  intros Hup. unfold command, fanout_publish, publish_flat_step, publish_flat, publish_signal, publish, clock.
  case_bool_decide; [intros [= <-]; by apply run_nats_up|].
  rewrite run_bind, run_act. cbv beta iota. destruct (parse_signal _ _ _) as [s|]; [|done]. intros [= <-]. by apply run_nats_up.
Qed.

(** The event the writer records. *)
Abbreviation event := (build_broadcast_event payload (attempt_number_for_notification max_attempts max_attempts)).
Abbreviation told row l :=
  (newly_told (w_strategy payload) (w_signal_uxid payload) (w_symbol payload) event row l).

(** A cycle does not end with this alert yet. *)
Definition unheard (d : Db) : Prop :=
  forall row, locked_cycle (w_symbol payload) (w_strategy payload) (w_signal_uxid payload) d = Some row ->
    is_duplicate_event (bm_events row) event = false.

(** A run of the fan-out for a row just stored. *)
Lemma run_fanout_up u v x us e w r :
  db_up w -> uuids w = v :: x :: us -> tg_ENABLED set_telegram = true -> cycles_ok (db w) ->
  v ∉ map bm_id (broadcast_messages (db w)) -> x ∉ map bl_id (broadcast_message_logs (db w)) -> unheard (db w) ->
  command (uuid_str u) (now w) = Some e ->
  select_first (fun r => bool_decide (sg_id r = u)) (signals (db w)) = Some r ->
  exists row l ms, (length ms <= S (length (broadcast_messages (db w))))%nat /\ row ∈ ms /\ told row l /\
    cycles_ok (set_logs (broadcast_message_logs (db w) ++ [l]) (set_messages ms (db w))) /\
    run (fanout (Some SignalBroadcastService) max_attempts (uuid_str u) payload max_attempts) w =
      (Ok (Accepted (uuid_str u) (isoformat (w_timestamp payload))),
       set_db (set_signals (update_where (fun r => bool_decide (sg_id r = u)) (publish_row (now w)) (signals (db w)))
                 (set_logs (broadcast_message_logs (db w) ++ [l]) (set_messages ms (db w))))
         (set_uuids us (emit e w))).
Proof.
  intros Hup Hus Hen Hok Hv Hx Hnew He Hr. unfold fanout. rewrite run_bind, run_attempt, run_publish_up with (e := e) by done.
  cbv beta iota. rewrite run_bind. unfold SignalService.broadcast_step. rewrite run_catch. cbn [broadcast SignalBroadcastService].
  unfold service_broadcast. rewrite Hen. cbn [negb]. rewrite run_bind.
  destruct (run_record_event_up (w_strategy payload) (w_signal_uxid payload) (w_symbol payload) (Some (w_timeframe payload))
    (p_action (w_position payload)) event (emit e w) v x us) as (row & l & ms & -> & Hlen & Hin & Ht & Hok'); [done..|].
  exists row, l, ms. do 4 (split; [done|]). cbv beta iota. cbn [run]. rewrite run_bind.
  unfold mark_published. rewrite uuid_parse_str, run_catch, run_bind, run_session_up by done.
  unfold assign_signal. cbn [db set_db signals set_logs set_messages set_uuids emit now] in *. rewrite Hr. done.
Qed.

(** A message that carries the envelope, not seen before. *)
Definition first_delivery (msg : Msg) (d : Db) : Prop :=
  m_data msg = Some envelope /\ (delivery_count msg <= 1)%Z /\
  forall r, r ∈ signals d -> opt_eqb (delivery_key_for msg) (sg_delivery_key r) = false.

(** What pydantic dumps it reads back. *)
Definition reads_back : Prop := exists raw, dump_webhook payload = JObj raw /\ validate_webhook raw = Some payload.

(** The ids a world will draw are new to the tables of the signal path. *)
Definition fresh_rows (w : World) : Prop :=
  forall u, u ∈ uuids w -> u ∉ map sg_id (signals (db w)) /\ u ∉ map bm_id (broadcast_messages (db w)) /\
    u ∉ map bl_id (broadcast_message_logs (db w)).

Lemma run_enqueued_up msg w u v x us :
  db_up w -> tg_ENABLED set_telegram = true -> cycles_ok (db w) -> uuids w = u :: v :: x :: us -> fresh_rows w ->
  find_setting SIGNAL_BLOCKED (db w) <> Some "1" -> unheard (db w) ->
  (forall id t, is_Some (command id t)) -> first_delivery msg (db w) ->
  exists e sg row l w', command (uuid_str u) (now w) = Some e /\
    run (handle_enqueued (Some SignalBroadcastService) max_attempts payload (delivery_key_for msg) false) w =
      (Ok (Accepted (uuid_str u) (isoformat (w_timestamp payload))), w') /\
    same_services w w' /\ uuids w' = us /\ out w' = out w ++ [e] /\ cycles_ok (db w') /\
    sg ∈ signals (db w') /\ sg_id sg = u /\ sg_raw sg = dump_webhook payload /\ sg_delivery_key sg = delivery_key_for msg /\
    sg_status sg = SigStatus.PUBLISHED /\
    (length (broadcast_messages (db w')) <= S (length (broadcast_messages (db w))))%nat /\
    row ∈ broadcast_messages (db w') /\ told row l /\
    broadcast_message_logs (db w') = broadcast_message_logs (db w) ++ [l] /\
    broadcast_message_chats (db w') = broadcast_message_chats (db w) /\ broker_settings (db w') = broker_settings (db w).
Proof.
  intros Hup Hen Hok Hus Hfresh Hblock Hnew Hcmd (_ & _ & Hkey). unfold handle_enqueued.
  assert (forall k : option string, run (match k with
      | Some key => if false then get_by_delivery_key key else Ret None | None => Ret None end) w = (Ok None, w)) as Hk
    by (by intros []).
  rewrite run_bind, Hk. cbv beta iota.
  rewrite run_bind. unfold is_blocked, setting_get_strict. rewrite run_bind, run_query_up, set_db_same by done. cbv beta iota.
  rewrite bool_decide_eq_false_2 by done. cbn [run]. cbv beta iota.
  unfold log_signal, uuid4. rewrite !run_bind, run_act, Hus. cbv beta iota. rewrite run_catch, run_bind, run_session_up by done.
  cbn [db set_uuids now]. destruct (Hfresh u) as (Hu & _); [rewrite Hus; by left|].
  set (sg := signal_row u (now w) payload (delivery_key_for msg) (Some max_attempts)).
  unfold insert_signal. rewrite insert_unique_fresh.
  2: { intros r Hr. unfold signal_clash. apply orb_false_iff. split; [|by apply Hkey].
       apply bool_decide_eq_false. intros E. apply Hu. unfold sg in E. cbn in E. rewrite E. by apply list_elem_of_fmap_2. }
  cbv beta iota. cbn [run]. cbv beta iota.
  destruct (Hcmd (uuid_str u) (now w)) as [e He].
  destruct (run_fanout_up u v x us e (set_db (set_signals (signals (db w) ++ [sg]) (db w)) (set_uuids (v :: x :: us) w)) sg)
    as (row & l & ms & Hlen & Hin & Ht & Hok' & ->); [done..| | | | | |].
  1: { apply Hfresh. rewrite Hus. right. by left. }
  1: { apply Hfresh. rewrite Hus. do 2 right. by left. }
  1: exact Hnew.
  1: done.
  1: { cbn [db set_db signals set_signals]. rewrite select_first_app.
       assert (select_first (fun r => bool_decide (sg_id r = u)) (signals (db w)) = None) as ->.
       { apply select_first_None, Forall_forall. intros r Hr. apply bool_decide_eq_false. intros E. apply Hu.
         rewrite <-E. by apply list_elem_of_fmap_2. }
       cbn. by rewrite bool_decide_eq_true_2. }
  exists e, (publish_row (now w) sg), row, l. eexists. split; [done|]. split; [reflexivity|].
  split_and!; try done.
  apply elem_of_update_where. exists sg. split; [apply elem_of_app; right; by left|]. cbn. by rewrite bool_decide_eq_true_2.
Qed.

(** The world at another time. *)
Definition at_time (t : instant) (w : World) : World :=
  mk_world (db w) (out w) (sched w) (tg w) (uuids w) t (nats_up w) (deferred w) (card_queue w) (caches w) (notices w) (bot w).

(** What the worker leaves of a message it was given for the first time. *)
Definition alert_handled (w w' : World) (msg : Msg) (e : sent) (sg : Signal) (row : BroadcastMessage)
    (l : BroadcastMessageLog) : Prop :=
  out w' = out w ++ [e; SentSettle (m_seq msg) Ack] /\
  command (uuid_str (sg_id sg)) (now w) = Some e /\
  sg ∈ signals (db w') /\ sg_raw sg = dump_webhook payload /\ sg_delivery_key sg = delivery_key_for msg /\
  sg_status sg = SigStatus.PUBLISHED /\
  row ∈ broadcast_messages (db w') /\ told row l /\
  broadcast_message_logs (db w') = broadcast_message_logs (db w) ++ [l].

Lemma run_handle_up delays msg w u v x us :
  db_up w -> tg_ENABLED set_telegram = true -> cycles_ok (db w) -> uuids w = u :: v :: x :: us -> fresh_rows w ->
  find_setting SIGNAL_BLOCKED (db w) <> Some "1" -> unheard (db w) -> reads_back ->
  (forall id t, is_Some (command id t)) -> first_delivery msg (db w) ->
  exists e sg row l w', run (handle_one (Some SignalBroadcastService) max_attempts delays msg) w = (Ok tt, w') /\
    alert_handled w w' msg e sg row l /\ same_services w w' /\ uuids w' = us /\ cycles_ok (db w') /\
    (length (broadcast_messages (db w')) <= S (length (broadcast_messages (db w))))%nat /\
    broadcast_message_chats (db w') = broadcast_message_chats (db w) /\ broker_settings (db w') = broker_settings (db w).
Proof.
  intros Hup Hen Hok Hus Hfresh Hblock Hnew (raw & Hraw & Hval) Hcmd Hmsg.
  rewrite (handle_one_valid _ _ _ _ payload).
  2: { unfold payload_of. destruct Hmsg as (-> & _). unfold envelope. rewrite Hraw. exact Hval. }
  destruct (run_enqueued_up msg w u v x us Hup Hen Hok Hus Hfresh Hblock Hnew Hcmd Hmsg)
    as (e & sg & row & l & w' & He & Hrun & Hsame & Hu' & Ho & Hok' & Hin & Hid & H).
  destruct Hmsg as (_ & Hcount & _). assert ((1 <? delivery_count msg)%Z = false) as -> by lia.
  exists e, sg, row, l, (emit (SentSettle (m_seq msg) Ack) w'). split; [|split].
  - destruct delays; cbn [process]; rewrite run_bind, run_attempt, Hrun; cbv beta iota; unfold settle_msg;
      (rewrite run_catch, run_nats_up; [done|]); unfold db_up; by destruct Hsame as (-> & _).
  - unfold alert_handled. cbn [out emit db]. rewrite Ho, <-app_assoc, Hid. naive_solver.
  - naive_solver.
Qed.
End rounds.

(** *** Sweeping it *)
Section sweeping.
Context `{CFG : Settings} `{REN : Renderer}.
Context (private_chat_ids : option (list string)) (max_attempts stale_after : Z).

Lemma owed_bound d threshold :
  logs_have_cycles d ->
  (length (owed_cycles max_attempts threshold (broadcast_message_logs d)) <= length (broadcast_messages d))%nat.
Proof.
  intros [Hnd Hl]. transitivity (length (cycles_of d).*1); [|unfold cycles_of; by rewrite !length_map].
  apply submseteq_length, NoDup_submseteq; [apply NoDup_distinct|]. intros id (l & Hin & _ & <-)%elem_of_owed.
  rewrite Forall_forall in Hl. by apply Hl.
Qed.

Lemma in_service_le n m w : (m <= n)%nat -> in_service private_chat_ids n w -> in_service private_chat_ids m w.
Proof.
  intros Hle (H1 & H2 & H3 & H4 & H5 & H6 & H7 & H8 & H9). unfold in_service. split_and!; try done. cbv zeta in *. nia.
Qed.

(** A change that waits is shown everywhere once swept. *)
Lemma run_sweep_change n w row l :
  in_service private_chat_ids (length (broadcast_messages (db w))) w -> renderable (db w) -> cycles_ok (db w) -> (0 < max_attempts)%Z ->
  (length (broadcast_messages (db w)) <= n * SWEEP_LIMIT)%nat ->
  row ∈ broadcast_messages (db w) -> l ∈ broadcast_message_logs (db w) -> bl_broadcast_message_id l = bm_id row ->
  bl_status l = LogStatus.PENDING -> bl_attempts l = 0%Z ->
  exists w', run (sweep_loop private_chat_ids max_attempts stale_after n) w = (Ok tt, w') /\
    (exists l', l' ∈ broadcast_message_logs (db w') /\ same_log l l' /\ bl_status l' = LogStatus.DELIVERED) /\
    forall audience chat,
      (audience, chat) ∈ dispatch_targets private_chat_ids (setting PUBLIC_BROADCAST_CHAT_IDS_KEY (settings_values (db w))) ->
      holds (broadcast_message_chats (db w')) (bm_id row) (raw_id chat) (bm_last_seq row).
Proof.
  intros Hw Hrd Hok Hmax Hn Hrow Hl Hid Hs Ha. pose proof (cycles_ok_logs _ Hok) as Hlc.
  set (threshold := minus_seconds (now w) stale_after).
  pose proof (owed_bound (db w) threshold Hlc) as Hle.
  destruct (run_sweeps private_chat_ids max_attempts stale_after n w) as (w' & Hrun & _ & Hd & _ & Hh);
    [by eapply in_service_le|done|done|fold threshold; lia|].
  assert (outstanding max_attempts threshold l = true) as Ho.
  { unfold outstanding. rewrite Hs, Ha. cbn. by apply andb_true_iff; split; [apply Z.ltb_lt|]. }
  exists w'. split; [done|]. split; [apply Hd; [done|by left]|].
  intros audience chat Hc. eapply Hh; [| |exact Hc].
  - apply elem_of_owed. by exists l.
  - by apply (list_elem_of_fmap_2 (fun m => (bm_id m, bm_last_seq m))).
Qed.
End sweeping.

(** ** All the way *)
Section end_to_end.
Context `{PY : Pydantic} `{CFG : Settings} `{NOTIFIER : Notifier} `{JE : JsonErrors} `{WR : WebhookRequests} `{REN : Renderer}.
Context (deferred_maxsize : option Z) (max_attempts : Z).
Context (private_chat_ids : option (list string)) (dispatch_attempts stale_after : Z).
Variable payload : WebhookPayload.

(** The services answer, there are fresh ids and somebody to tell, signals are not
    blocked, and no cycle ends with this alert yet. *)
Definition welcoming (w : World) : Prop :=
  in_service private_chat_ids (length (broadcast_messages (db w)) + 5) w /\ nats_up w = true /\
  cycles_ok (db w) /\ fresh_rows w /\ find_setting SIGNAL_BLOCKED (db w) <> Some "1" /\ unheard max_attempts payload (db w).

(** The settings are read from the settings table alone. *)
Lemma settings_from (w w2 : World) :
  broker_settings (db w2) = broker_settings (db w) -> settings_values (db w2) = settings_values (db w).
Proof. unfold settings_values. by intros ->. Qed.

(** Four fresh ids are there to be drawn, and what is left is enough for a sweep. *)
Lemma welcoming_ids w :
  welcoming w -> exists u0 u1 u2 u3 us, uuids w = u0 :: u1 :: u2 :: u3 :: us /\
    forall w2, sched w2 = sched w -> tg w2 = tg w -> uuids w2 = us -> cycles_ok (db w2) ->
      (length (broadcast_messages (db w2)) <= S (length (broadcast_messages (db w))))%nat ->
      broadcast_message_chats (db w2) = broadcast_message_chats (db w) -> broker_settings (db w2) = broker_settings (db w) ->
      forall t, in_service private_chat_ids (length (broadcast_messages (db w2))) (at_time t w2).
Proof.
  intros ((Hup & Htg & Hch & (Hnd & Hf) & Hlog & Hs & Hne & Hready & Hlen) & _). cbv zeta in *.
  assert (1 <= length (dispatch_targets private_chat_ids (setting PUBLIC_BROADCAST_CHAT_IDS_KEY (settings_values (db w)))))%nat
    as Hone by (destruct (dispatch_targets _ _); cbn; [done|lia]).
  destruct (uuids w) as [|u0 [|u1 [|u2 [|u3 us]]]] eqn:Hus; cbn [length] in Hlen; [nia..|].
  exists u0, u1, u2, u3, us. split; [done|]. intros w2 Hsc Htg2 Hus2 (_ & _ & Hl2 & _) Hm2 Hc2 Hb2 t.
  unfold in_service, fresh_ids, db_up. cbn [sched tg db uuids at_time].
  rewrite (settings_from w w2 Hb2), Hus2, Hc2, Hsc, Htg2. split_and!; try done; [| |nia].
  - do 4 apply NoDup_cons in Hnd as [_ Hnd]. done.
  - intros c Hin Hin'. apply (Hf c Hin). do 4 right. done.
Qed.

(** C3. An alert reaches the workers and the readers.  Over working services, while
    signals are not blocked: posted to the webhook with the right token, an alert is
    answered 202 and its envelope is sent to the stream; handled by the worker, at any
    later time, the message that carries it is acked, exactly one command for the
    strategy's workers is sent, under the id of a stored row that is PUBLISHED, and the
    alert is the last change of its cycle; and the sweeper, at any time and although
    nobody heard the notification, delivers that change, as long as the cycles stored by then can be rendered: every
    destination holds the cycle's message at that change or a later one. *)
Theorem alert_reaches_workers_and_readers API_PREFIX body w :
  parse_request body = Parsed payload -> is_empty (wh_SECRET set_webhook) = false -> w_token payload = wh_SECRET set_webhook ->
  tg_ENABLED set_telegram = true -> reads_back payload -> (forall id t, is_Some (command payload id t)) ->
  (0 < dispatch_attempts)%Z -> welcoming w ->
  exists resp w1 msg_id, run (post_webhook deferred_maxsize API_PREFIX body) w = (Ok resp, w1) /\ rs_status resp = 202%Z /\
    out w1 = out w ++ [SentWebhook (jetstream_subject (w_strategy payload)) (envelope payload) msg_id] /\
  forall msg delays t, first_delivery payload msg (db w) ->
  exists e sg row l w2,
    run (handle_one (Some SignalBroadcastService) max_attempts delays msg) (at_time t w1) = (Ok tt, w2) /\
    alert_handled max_attempts payload (at_time t w1) w2 msg e sg row l /\
  forall n t', (length (broadcast_messages (db w)) < n * SWEEP_LIMIT)%nat -> renderable (db w2) ->
  exists w3, run (sweep_loop private_chat_ids dispatch_attempts stale_after n) (at_time t' w2) = (Ok tt, w3) /\
    (exists l', l' ∈ broadcast_message_logs (db w3) /\ same_log l l' /\ bl_status l' = LogStatus.DELIVERED) /\
    forall audience chat,
      (audience, chat) ∈ dispatch_targets private_chat_ids (setting PUBLIC_BROADCAST_CHAT_IDS_KEY (settings_values (db w))) ->
      holds (broadcast_message_chats (db w3)) (bm_id row) (raw_id chat) (bm_last_seq row).
Proof.
  intros Hb Hs Ht Hen Hrb Hcmd Hda Hw. destruct (welcoming_ids w Hw) as (u0 & u1 & u2 & u3 & us & Hus & Hserve).
  destruct Hw as (Hin & Hn & Hok & Hfresh & Hblock & Hnew). assert (db_up w) as Hup by apply Hin.
  eexists _, _, _. split; [by apply (run_post_up deferred_maxsize payload API_PREFIX body w u0 (u1 :: u2 :: u3 :: us))|]. split; [done|]. split; [done|].
  set (w1 := emit _ _). intros msg delays t Hmsg.
  destruct (run_handle_up max_attempts payload delays msg (at_time t w1) u1 u2 u3 us)
    as (e & sg & row & l & w2 & Hrun & Hh & Hsame & Hus2 & Hok2 & Hlen & Hc & Hb2); try done.
  { intros u Hu. apply Hfresh. rewrite Hus. by right. }
  exists e, sg, row, l, w2. split; [exact Hrun|]. split; [exact Hh|]. intros n t' Hn' Hrd.
  destruct Hh as (_ & _ & _ & _ & _ & _ & Hrow & Ht2 & Hl).
  destruct (run_sweep_change private_chat_ids dispatch_attempts stale_after n (at_time t' w2) row l) as (w3 & Hrun3 & Hd & Hhold);
    try done; try (by apply Ht2).
  - by apply (Hserve w2); try done; apply Hsame.
  - cbn [db at_time]. cbn [db at_time w1 emit set_uuids] in Hlen. lia.
  - cbn [db at_time]. rewrite Hl. apply elem_of_app. right. by left.
  - exists w3. split; [done|]. split; [done|]. intros audience chat Hchat. eapply Hhold.
    cbn [db at_time]. by rewrite (settings_from w w2 Hb2).
Qed.
End end_to_end.

(** ** On concrete input *)
Module end_to_end_samples.
#[local] Instance sample_requests : WebhookRequests := {| parse_request _ := Parsed (sample_payload SigAction.TP1) |}.
#[local] Instance no_json_errors : JsonErrors := {| json_error_at _ := None |}.

(** A world in which the trade's LONG was recorded and not yet delivered. *)
Definition sample_opened : World :=
  let event := @build_broadcast_event sample_pydantic (sample_payload SigAction.LONG) (Some 1%Z) in
  (run (record_event "wt_bb_atr" "9F2C4B7E18A3D605" "OANDA:xauusd" (Some "15") SigAction.LONG event)
     (sample_world [] [uid 1; uid 2; uid 3; uid 4; uid 5; uid 6; uid 7; uid 8; uid 9; uid 10; uid 11; uid 12])).2.

Definition sample_stored : Msg :=
  {| m_seq := 7; m_data := Some (@envelope sample_pydantic (sample_payload SigAction.TP1));
     m_metadata := Some {| md_stream := "SIGNALS"; md_sequence := 7; md_timestamp := sample_time; md_num_delivered := 1 |} |}.

Lemma opened_welcoming : @welcoming sample_pydantic sample_settings 3 None (sample_payload SigAction.TP1) sample_opened.
Proof.
  split; [|split; [reflexivity|split; [|split; [|split]]]].
  - unfold in_service. split; [reflexivity|]. split; [reflexivity|]. split; [vm_compute; split; constructor|].
    split; [split; [apply (bool_decide_eq_true_1 _); by vm_compute|vm_compute; by intros c ?%not_elem_of_nil]|].
    split; [apply (bool_decide_eq_true_1 _); by vm_compute|]. split; [by vm_compute|]. split; [by vm_compute|].
    split; [vm_compute; repeat constructor|]. vm_compute. lia.
  - apply (always_run broadcast_step (record_event _ _ _ _ _ _)); [apply step_record_event|apply empty_ok].
  - unfold fresh_rows. rewrite <-Forall_forall. apply (bool_decide_eq_true_1 _). by vm_compute.
  - by vm_compute.
  - intros row H. vm_compute in H. injection H as <-. by vm_compute.
Qed.

Lemma alert_reaches_workers_and_readers_witness :
  exists resp w1, run (@post_webhook sample_pydantic sample_settings no_json_errors sample_requests (Some 500%Z) "api" "{}") sample_opened
      = (Ok resp, w1) /\ rs_status resp = 202%Z /\
  exists w2, run (@handle_one sample_pydantic sample_settings sample_notifier
      (Some (@SignalBroadcastService sample_pydantic sample_settings)) 3 [500]%Z sample_stored) (at_time 1000000%Z w1) = (Ok tt, w2) /\
  exists w3, run (@sweep_loop sample_settings sample_renderer None 5 60 1) (at_time 9000000%Z w2) = (Ok tt, w3) /\
  exists id seq, holds (broadcast_message_chats (db w3)) id "-1001" seq.
Proof.
  destruct (@alert_reaches_workers_and_readers sample_pydantic sample_settings sample_notifier no_json_errors sample_requests
    sample_renderer (Some 500%Z) 3 None 5 60 (sample_payload SigAction.TP1) "api" "{}" sample_opened)
    as (resp & w1 & msg_id & H1 & Hs & _ & Hrest).
  - reflexivity.
  - reflexivity.
  - reflexivity.
  - reflexivity.
  - eexists. split; reflexivity.
  - intros id t. by eexists.
  - lia.
  - apply opened_welcoming.
  - exists resp, w1. split; [exact H1|]. split; [exact Hs|].
    destruct (Hrest sample_stored [500]%Z 1000000%Z) as (e & sg & row & l & w2 & H2 & _ & Hsweep).
    { split; [reflexivity|]. split; [done|]. intros r Hr. by apply not_elem_of_nil in Hr. }
    exists w2. split; [exact H2|].
    destruct (Hsweep 1 9000000%Z) as (w3 & H3 & _ & Hh); [vm_compute; lia|by intros id view _|]. exists w3. split; [exact H3|].
    exists (bm_id row), (bm_last_seq row). apply (Hh Audience.PRIVATE (mk_target "-1001" None)). vm_compute. left.
Defined.
End end_to_end_samples.
