(* ===== verification/Migrations.v ===== *)
(** * The schema history

    The revisions under [alembic/versions]: the statements each [upgrade] and
    [downgrade] gives PostgreSQL, over a database that is a schema (enum types,
    trigger functions, tables, indexes) and the rows of its tables.  A statement is
    refused where PostgreSQL refuses it, and a script is one transaction.  A row maps
    the columns that are not NULL to their text. *)

From S2P Require Import Prelude JsonText.
From stdpp Require Import gmap.

(** ** Schemas *)

Inductive sqltype :=
  | VARCHAR (n : N) | TEXT | INTEGER | BIGINT | DOUBLE_PRECISION | NUMERIC (precision scale : N)
  | BOOLEAN | UUID | TIMESTAMPTZ | JSONB | ENUM (name : string).

#[global] Instance sqltype_eq_dec : EqDecision sqltype.
Proof. solve_decision. Defined.

(** The expressions used as column defaults; [CURRENT_TIMESTAMP] is [now()]. *)
Inductive sqldefault := Literal (text : string) | Now | GenRandomUuid.

#[global] Instance sqldefault_eq_dec : EqDecision sqldefault.
Proof. solve_decision. Defined.

Record sqlcolumn := Column { col_type : sqltype; col_nullable : bool; col_default : option sqldefault }.

#[global] Instance sqlcolumn_eq_dec : EqDecision sqlcolumn.
Proof. solve_decision. Defined.

Inductive ondelete := CASCADE | SET_NULL.

#[global] Instance ondelete_eq_dec : EqDecision ondelete.
Proof. solve_decision. Defined.

(** A foreign key to the [id] of another table. *)
Record foreign_key := ForeignKey { fk_column : string; fk_table : string; fk_ondelete : ondelete }.

#[global] Instance foreign_key_eq_dec : EqDecision foreign_key.
Proof. solve_decision. Defined.

Inductive trigger_event := BEFORE_UPDATE | AFTER_INSERT.

#[global] Instance trigger_event_eq_dec : EqDecision trigger_event.
Proof. solve_decision. Defined.

Record trigger := Trigger { tg_event : trigger_event; tg_function : string }.

#[global] Instance trigger_eq_dec : EqDecision trigger.
Proof. solve_decision. Defined.

(** [NEW.updatedAt = CURRENT_TIMESTAMP], and [pg_notify] of an object of NEW's columns. *)
Inductive function_body :=
  | TouchUpdatedAt
  | NotifyRow (channel : string) (members : list (string * string)).

#[global] Instance function_body_eq_dec : EqDecision function_body.
Proof. solve_decision. Defined.

Record sqltable := Table {
  tb_columns : gmap string sqlcolumn;
  tb_pkey : list string;
  tb_fkeys : list foreign_key;
  tb_triggers : gmap string trigger
}.

#[global] Instance sqltable_eq_dec : EqDecision sqltable.
Proof. solve_decision. Defined.

(** An index; a unique constraint is the unique index that backs it. *)
Record sqlindex := Index { ix_table : string; ix_columns : list string; ix_unique : bool; ix_constraint : bool }.

#[global] Instance sqlindex_eq_dec : EqDecision sqlindex.
Proof. solve_decision. Defined.

Record schema := Schema {
  types : gmap string (list string);
  functions : gmap string function_body;
  tables : gmap string sqltable;
  indexes : gmap string sqlindex
}.

#[global] Instance schema_eq_dec : EqDecision schema.
Proof. solve_decision. Defined.

Definition no_schema : schema := Schema ∅ ∅ ∅ ∅.

Definition set_types (f : gmap string (list string) -> gmap string (list string)) (s : schema) : schema :=
  Schema (f (types s)) (functions s) (tables s) (indexes s).
Definition set_functions (f : gmap string function_body -> gmap string function_body) (s : schema) : schema :=
  Schema (types s) (f (functions s)) (tables s) (indexes s).
Definition set_tables (f : gmap string sqltable -> gmap string sqltable) (s : schema) : schema :=
  Schema (types s) (functions s) (f (tables s)) (indexes s).
Definition set_indexes (f : gmap string sqlindex -> gmap string sqlindex) (s : schema) : schema :=
  Schema (types s) (functions s) (tables s) (f (indexes s)).

Definition set_columns (f : gmap string sqlcolumn -> gmap string sqlcolumn) (tb : sqltable) : sqltable :=
  Table (f (tb_columns tb)) (tb_pkey tb) (tb_fkeys tb) (tb_triggers tb).
Definition set_triggers (f : gmap string trigger -> gmap string trigger) (tb : sqltable) : sqltable :=
  Table (tb_columns tb) (tb_pkey tb) (tb_fkeys tb) (f (tb_triggers tb)).

(** ** Rows and the constraints on them *)

Abbreviation row := (gmap string string).
Abbreviation rows := (list row).
Abbreviation data := (gmap string (list row)).

Definition rows_of (d : data) (t : string) : rows := default [] (d !! t).

(** The values of some columns of a row, when none is NULL. *)
Definition row_key (cs : list string) (r : row) : option (list string) := mapM (fun c => r !! c) cs.

(** No two rows agree on columns that are all set. *)
Definition unique_on (cs : list string) (rs : rows) : Prop := NoDup (omap (row_key cs) rs).

Definition value_ok (s : schema) (ty : sqltype) (v : string) : Prop :=
  match ty with ENUM n => v ∈ default [] (types s !! n) | _ => True end.

#[global] Instance value_ok_dec s ty v : Decision (value_ok s ty v).
Proof. destruct ty; simpl; apply _. Defined.

Definition cell_ok (s : schema) (r : row) (c : string) (col : sqlcolumn) : Prop :=
  match r !! c with Some v => value_ok s (col_type col) v | None => col_nullable col = true end.

#[global] Instance cell_ok_dec s r c col : Decision (cell_ok s r c col).
Proof. unfold cell_ok. destruct (r !! c); apply _. Defined.

Definition row_ok (s : schema) (tb : sqltable) (r : row) : Prop :=
  dom r ⊆ dom (tb_columns tb) /\ map_Forall (cell_ok s r) (tb_columns tb).

Definition unique_ok (t : string) (rs : rows) (_ : string) (ix : sqlindex) : Prop :=
  ix_table ix = t -> ix_unique ix = true -> unique_on (ix_columns ix) rs.

Definition fkey_ok (d : data) (rs : rows) (fk : foreign_key) : Prop :=
  Forall (fun v => v ∈ omap (fun r => r !! "id") (rows_of d (fk_table fk)))
    (omap (fun r => r !! fk_column fk) rs).

Definition table_ok (s : schema) (d : data) (t : string) (tb : sqltable) : Prop :=
  Forall (row_ok s tb) (rows_of d t) /\ (tb_pkey tb = [] \/ unique_on (tb_pkey tb) (rows_of d t)) /\
  map_Forall (unique_ok t (rows_of d t)) (indexes s) /\ Forall (fkey_ok d (rows_of d t)) (tb_fkeys tb).

#[global] Instance table_ok_dec s d t tb : Decision (table_ok s d t tb).
Proof. unfold table_ok, unique_on, unique_ok, fkey_ok, row_ok. apply _. Defined.

(** A database whose rows satisfy its schema. *)
Definition db_ok (s : schema) (d : data) : Prop := dom d = dom (tables s) /\ map_Forall (table_ok s d) (tables s).

(** ** Statements *)

(** The statements of the scripts.  A unique constraint is created through its index
    ([CREATE_INDEX] with [ix_constraint]); the last three before the guards are the
    UPDATE of [c9d8e7f6a5b4], the INSERT ... SELECT of [f7a8b9c0d1e2] and the UPDATE
    of [e5f6a7b8c9d0]; the guards are [IF EXISTS] and [IF NOT EXISTS]. *)
Inductive stmt :=
  | CREATE_TYPE (n : string) (labels : list string)
  | DROP_TYPE (n : string)
  | ADD_VALUE (n label : string) (before : option string)
  | CREATE_FUNCTION (n : string) (body : function_body)
  | DROP_FUNCTION (n : string) (cascade : bool)
  | CREATE_TRIGGER (n t : string) (tg : trigger)
  | DROP_TRIGGER (n t : string)
  | CREATE_TABLE (n : string) (tb : sqltable) (uniques : list (string * list string))
  | DROP_TABLE (n : string)
  | ADD_COLUMN (t c : string) (col : sqlcolumn)
  | DROP_COLUMN (t c : string)
  | ALTER_TYPE (t c : string) (ty : sqltype)
  | CREATE_INDEX (n : string) (ix : sqlindex)
  | DROP_INDEX (n : string)
  | DROP_CONSTRAINT (n t : string)
  | INSERT_SETTINGS (kvs : list (string * string))
  | DELETE_SETTINGS (keys : list string)
  | BACKFILL_TRADES
  | SEED_TOKENS
  | UNMARK_TP1
  | IF_EXISTS (st : stmt)
  | IF_NOT_EXISTS (st : stmt).

Definition has_relation (s : schema) (n : string) : bool :=
  bool_decide (is_Some (tables s !! n)) || bool_decide (is_Some (indexes s !! n)).

Definition column_of (s : schema) (t c : string) : option sqlcolumn :=
  tb ← tables s !! t; tb_columns tb !! c.

Definition has_columns (s : schema) (t : string) (cs : list string) : bool :=
  forallb (fun c => bool_decide (is_Some (column_of s t c))) cs.

(** What a guard looks for: the object the statement creates or drops. *)
Fixpoint present (s : schema) (st : stmt) : bool :=
  match st with
  | CREATE_TYPE n _ | DROP_TYPE n => bool_decide (is_Some (types s !! n))
  | ADD_VALUE n label _ => bool_decide (label ∈ default [] (types s !! n))
  | CREATE_FUNCTION n _ | DROP_FUNCTION n _ => bool_decide (is_Some (functions s !! n))
  | CREATE_TRIGGER n t _ | DROP_TRIGGER n t =>
      bool_decide (is_Some (tb ← tables s !! t; tb_triggers tb !! n))
  | CREATE_TABLE n _ _ | CREATE_INDEX n _ | DROP_INDEX n => has_relation s n
  | DROP_TABLE n => bool_decide (is_Some (tables s !! n))
  | ADD_COLUMN t c _ | DROP_COLUMN t c => bool_decide (is_Some (column_of s t c))
  | DROP_CONSTRAINT n t => bool_decide (is_Some (indexes s !! n))
  | IF_EXISTS st' | IF_NOT_EXISTS st' => present s st'
  | _ => true
  end.

(** [CREATE TYPE .. AS ENUM] of a column. *)
Definition type_known (s : schema) (ty : sqltype) : bool :=
  match ty with ENUM n => bool_decide (is_Some (types s !! n)) | _ => true end.

Definition types_known (s : schema) (tb : sqltable) : Prop :=
  map_Forall (fun _ col => type_known s (col_type col) = true) (tb_columns tb).

Definition type_used (n : string) (_ : string) (tb : sqltable) : Prop :=
  map_Exists (fun _ col => col_type col = ENUM n) (tb_columns tb).

Definition references (n : string) (_ : string) (tb : sqltable) : Prop :=
  Exists (fun fk => fk_table fk = n) (tb_fkeys tb).

Definition calls (n : string) (_ : string) (tb : sqltable) : Prop :=
  map_Exists (fun _ tg => tg_function tg = n) (tb_triggers tb).

Definition add_before (label : string) (before : option string) (labels : list string) : list string :=
  match before with
  | None => labels ++ [label]
  | Some b => flat_map (fun x => if String.eqb x b then [label; x] else [x]) labels
  end.

Definition unique_constraints (t : string) (uniques : list (string * list string)) : gmap string sqlindex :=
  list_to_map (map (fun u => (u.1, Index t u.2 true true)) uniques).

(** The columns of NEW a trigger reads must exist; the broker's do. *)
Fixpoint exec_schema (st : stmt) (s : schema) : option schema :=
  match st with
  | CREATE_TYPE n labels =>
      match types s !! n with None => Some (set_types <[n := labels]> s) | Some _ => None end
  | DROP_TYPE n =>
      match types s !! n with
      | Some _ => if decide (map_Exists (type_used n) (tables s)) then None else Some (set_types (delete n) s)
      | None => None
      end
  | ADD_VALUE n label before =>
      match types s !! n with
      | Some labels =>
          if decide (label ∈ labels) then None
          else if forallb (fun b => bool_decide (b ∈ labels)) (option_list before)
          then Some (set_types <[n := add_before label before labels]> s) else None
      | None => None
      end
  | CREATE_FUNCTION n body => Some (set_functions <[n := body]> s)
  | DROP_FUNCTION n cascade =>
      match functions s !! n with
      | Some _ =>
          if cascade then
            Some (set_tables (fmap (set_triggers (filter (fun p => tg_function p.2 <> n)))) (set_functions (delete n) s))
          else if decide (map_Exists (calls n) (tables s)) then None else Some (set_functions (delete n) s)
      | None => None
      end
  | CREATE_TRIGGER n t tg =>
      match tables s !! t with
      | Some tb =>
          if present s st || negb (bool_decide (is_Some (functions s !! tg_function tg))) then None
          else Some (set_tables <[t := set_triggers <[n := tg]> tb]> s)
      | None => None
      end
  | DROP_TRIGGER n t =>
      if present s st then Some (set_tables (alter (set_triggers (delete n)) t) s) else None
  | CREATE_TABLE n tb uniques =>
      if has_relation s n || existsb (has_relation s) (map fst uniques) then None
      else if decide (NoDup (map fst uniques) /\ types_known s tb /\
                      Forall (fun fk => is_Some (tables s !! fk_table fk)) (tb_fkeys tb))
      then Some (set_indexes (fun ixs => unique_constraints n uniques ∪ ixs) (set_tables <[n := tb]> s))
      else None
  | DROP_TABLE n =>
      match tables s !! n with
      | Some _ =>
          if decide (map_Exists (references n) (delete n (tables s))) then None
          else Some (set_indexes (filter (fun p => ix_table p.2 <> n)) (set_tables (delete n) s))
      | None => None
      end
  | ADD_COLUMN t c col =>
      match tables s !! t with
      | Some tb =>
          if present s st || negb (type_known s (col_type col)) then None
          else Some (set_tables <[t := set_columns <[c := col]> tb]> s)
      | None => None
      end
  | DROP_COLUMN t c =>
      match tables s !! t with
      | Some tb =>
          if present s st then
            Some (set_indexes (filter (fun p => ~ (ix_table p.2 = t /\ c ∈ ix_columns p.2)))
              (set_tables <[t := Table (delete c (tb_columns tb)) (if decide (c ∈ tb_pkey tb) then [] else tb_pkey tb)
                                   (filter (fun fk => fk_column fk <> c) (tb_fkeys tb)) (tb_triggers tb)]> s))
          else None
      | None => None
      end
  | ALTER_TYPE t c ty =>
      match tables s !! t, column_of s t c with
      | Some tb, Some col =>
          if type_known s ty
          then Some (set_tables <[t := set_columns <[c := Column ty (col_nullable col) (col_default col)]> tb]> s)
          else None
      | _, _ => None
      end
  | CREATE_INDEX n ix =>
      if has_relation s n || negb (bool_decide (is_Some (tables s !! ix_table ix)))
         || negb (has_columns s (ix_table ix) (ix_columns ix)) then None
      else Some (set_indexes <[n := ix]> s)
  | DROP_INDEX n =>
      match indexes s !! n with
      | Some ix => if ix_constraint ix then None else Some (set_indexes (delete n) s)
      | None => None
      end
  | DROP_CONSTRAINT n t =>
      match indexes s !! n with
      | Some ix =>
          if ix_constraint ix && String.eqb (ix_table ix) t then Some (set_indexes (delete n) s) else None
      | None => None
      end
  | INSERT_SETTINGS _ =>
      if has_columns s "broker_settings" ["id"; "key"; "value"]
         && bool_decide (map_Exists (fun _ ix => ix_table ix = "broker_settings" /\ ix_columns ix = ["key"] /\
                                                ix_unique ix = true) (indexes s))
      then Some s else None
  | DELETE_SETTINGS _ => if has_columns s "broker_settings" ["key"] then Some s else None
  | BACKFILL_TRADES =>
      if has_columns s "trades" ["market"; "gateway"; "account_id"]
         && has_columns s "accounts" ["market"; "gateway"; "account_id"] then Some s else None
  | SEED_TOKENS =>
      if has_columns s "account_link_tokens" ["id"; "account_id"; "token"; "createdAt"; "updatedAt"]
         && has_columns s "accounts" ["id"] then Some s else None
  | UNMARK_TP1 => if has_columns s "broadcast_messages" ["status"] then Some s else None
  | IF_EXISTS st' => if present s st' then exec_schema st' s else Some s
  | IF_NOT_EXISTS st' => if present s st' then Some s else exec_schema st' s
  end.

(** ** Their effect on the rows *)

(** A key that the rows do not have yet. *)
Definition conflicts (k : string) (rs : rows) : bool :=
  existsb (fun r => bool_decide (r !! "key" = Some k)) rs.

Definition set_column (c : string) (v : option string) (r : row) : row :=
  match v with Some x => <[c := x]> r | None => delete c r end.

(** [t.market, t.gateway] from the account a trade names. *)
Definition owner_of (accounts : rows) (r : row) : option row :=
  match r !! "account_id" with
  | Some x => List.find (fun a => bool_decide (a !! "account_id" = Some x)) accounts
  | None => None
  end.

Definition backfilled (accounts : rows) (r : row) : option row :=
  match r !! "market" with
  | Some _ => None
  | None =>
      a ← owner_of accounts r;
      Some (set_column "gateway" (a !! "gateway") (set_column "market" (a !! "market") r))
  end.

Definition running_again (r : row) : option row :=
  if bool_decide (r !! "status" = Some "TP1") then Some (<["status" := "RUNNING"]> r) else None.

(** A [BEFORE UPDATE] trigger that stamps the row fires on a row that is updated. *)
Definition stamped (s : schema) (tb : sqltable) : bool :=
  bool_decide (map_Exists (fun _ tg => tg_event tg = BEFORE_UPDATE /\
    functions s !! tg_function tg = Some TouchUpdatedAt) (tb_triggers tb)).

Section Database.
(** [now()]; [gen_random_uuid()], which sees what is stored only in that it differs
    from it; PostgreSQL's conversion of a value to another type, where it is in range. *)
Variable current_timestamp : string.
Variable gen_random_uuid : data -> string.
Variable cast : sqltype -> string -> option string.

Definition default_value (df : sqldefault) (d : data) : string :=
  match df with Literal x => x | Now => current_timestamp | GenRandomUuid => gen_random_uuid d end.

(** [ADD COLUMN .. DEFAULT]: the rows get the default one after another. *)
Definition fill_column (t c : string) (df : option sqldefault) (rs : rows) (d : data) : rows :=
  match df with
  | None => rs
  | Some df => fold_left (fun acc r => acc ++ [<[c := default_value df (<[t := acc]> d)]> r]) rs []
  end.

Definition with_defaults (tb : sqltable) (d : data) (r : row) : row :=
  r ∪ omap (fun col => df ← col_default col; Some (default_value df d)) (tb_columns tb).

(** [INSERT] of a row, and [UPDATE] of the rows [f] picks; every constraint of the
    table is checked. *)
Definition insert_row (s : schema) (t : string) (r : row) (d : data) : option data :=
  tb ← tables s !! t;
  let d' := <[t := rows_of d t ++ [with_defaults tb d r]]> d in
  if decide (table_ok s d' t tb) then Some d' else None.

Definition update_rows (s : schema) (t : string) (f : row -> option row) (d : data) : option data :=
  tb ← tables s !! t;
  let touch r := if stamped s tb then <["updatedAt" := current_timestamp]> r else r in
  let d' := <[t := map (fun r => match f r with Some r' => touch r' | None => r end) (rows_of d t)]> d in
  if decide (table_ok s d' t tb) then Some d' else None.

Fixpoint insert_settings (s : schema) (kvs : list (string * string)) (d : data) : option data :=
  match kvs with
  | [] => Some d
  | (k, v) :: kvs' =>
      if conflicts k (rows_of d "broker_settings") then insert_settings s kvs' d
      else
        d' ← insert_row s "broker_settings" (<["id" := gen_random_uuid d]> (<["key" := k]> {["value" := v]})) d;
        insert_settings s kvs' d'
  end.

Fixpoint seed_tokens (s : schema) (accounts : rows) (d : data) : option data :=
  match accounts with
  | [] => Some d
  | a :: rest =>
      d' ← insert_row s "account_link_tokens"
             (set_column "account_id" (a !! "id")
               (<["id" := gen_random_uuid d]> (<["token" := gen_random_uuid d]>
                 (<["createdAt" := current_timestamp]> {["updatedAt" := current_timestamp]})))) d;
      seed_tokens s rest d'
  end.

(** [ALTER COLUMN .. TYPE .. USING]. *)
Definition convert (c : string) (ty : sqltype) (r : row) : option row :=
  match r !! c with
  | None => Some r
  | Some v => v' ← cast ty v; Some (<[c := v']> r)
  end.

Fixpoint exec_data (st : stmt) (s : schema) (d : data) : option data :=
  match st with
  | CREATE_TABLE n _ _ => Some (<[n := []]> d)
  | DROP_TABLE n => Some (delete n d)
  | ADD_COLUMN t c col =>
      if negb (col_nullable col) && negb (bool_decide (is_Some (col_default col)))
         && negb (bool_decide (rows_of d t = [])) then None
      else Some (<[t := fill_column t c (col_default col) (rows_of d t) d]> d)
  | DROP_COLUMN t c => Some (alter (map (delete c)) t d)
  | ALTER_TYPE t c ty =>
      rs ← mapM (convert c ty) (rows_of d t);
      s' ← exec_schema st s;
      tb ← tables s' !! t;
      let d' := <[t := rs]> d in
      if decide (table_ok s' d' t tb) then Some d' else None
  | CREATE_INDEX _ ix =>
      if ix_unique ix && negb (bool_decide (unique_on (ix_columns ix) (rows_of d (ix_table ix)))) then None
      else Some d
  | INSERT_SETTINGS kvs => insert_settings s kvs d
  | DELETE_SETTINGS keys =>
      Some (alter (filter (fun r => ~ (r !! "key" ∈ map Some keys))) "broker_settings" d)
  | BACKFILL_TRADES => update_rows s "trades" (backfilled (rows_of d "accounts")) d
  | SEED_TOKENS => seed_tokens s (rows_of d "accounts") d
  | UNMARK_TP1 => update_rows s "broadcast_messages" running_again d
  | IF_EXISTS st' => if present s st' then exec_data st' s d else Some d
  | IF_NOT_EXISTS st' => if present s st' then Some d else exec_data st' s d
  | _ => Some d
  end.

Definition exec (st : stmt) (sd : schema * data) : option (schema * data) :=
  s' ← exec_schema st sd.1; d' ← exec_data st sd.1 sd.2; Some (s', d').

Fixpoint run_script (sts : list stmt) (sd : schema * data) : option (schema * data) :=
  match sts with
  | [] => Some sd
  | st :: sts' => sd' ← exec st sd; run_script sts' sd'
  end.
End Database.

(** A script's effect on the schema. *)
Fixpoint run_schema (sts : list stmt) (s : schema) : option schema :=
  match sts with
  | [] => Some s
  | st :: sts' => s' ← exec_schema st s; run_schema sts' s'
  end.

(** ** The revisions

    [PgEnum.create(checkfirst=True)] and the [DO $$ .. IF NOT EXISTS] blocks are
    guarded statements.  An [upgrade] is given the schema its inspector sees. *)

Definition NOT_NULL (ty : sqltype) : sqlcolumn := Column ty false None.
Definition NULLABLE (ty : sqltype) : sqlcolumn := Column ty true None.
Definition DEFAULTING (ty : sqltype) (df : sqldefault) : sqlcolumn := Column ty false (Some df).

Definition columns (l : list (string * sqlcolumn)) : gmap string sqlcolumn := list_to_map l.

(** An index and a unique constraint of a table. *)
Definition on_columns (t : string) (cs : list string) : sqlindex := Index t cs false false.
Definition unique_index (t : string) (cs : list string) : sqlindex := Index t cs true false.
Definition unique_constraint (t : string) (cs : list string) : sqlindex := Index t cs true true.

Definition timestamp_columns : list (string * sqlcolumn) :=
  [("id", NOT_NULL UUID); ("createdAt", DEFAULTING TIMESTAMPTZ Now); ("updatedAt", DEFAULTING TIMESTAMPTZ Now)].

Definition upgrade_0001 (_ : schema) : list stmt :=
  [ IF_NOT_EXISTS (CREATE_TYPE "signalactionenum" ["LONG"; "SHORT"; "TP1"; "TP2"; "R_SL"; "SL"; "FLAT"]);
    CREATE_FUNCTION "update_updated_at_column" TouchUpdatedAt;
    IF_NOT_EXISTS (CREATE_TABLE "signals" (Table (columns
      [("id", DEFAULTING UUID GenRandomUuid); ("createdAt", DEFAULTING TIMESTAMPTZ Now);
       ("updatedAt", DEFAULTING TIMESTAMPTZ Now);
       ("symbol", NOT_NULL (VARCHAR 50)); ("timeframe", NOT_NULL (VARCHAR 20)); ("timestamp", NOT_NULL TIMESTAMPTZ);
       ("strategy", DEFAULTING (VARCHAR 50) (Literal "gold")); ("action", NOT_NULL (ENUM "signalactionenum"));
       ("price", NOT_NULL DOUBLE_PRECISION); ("quantity", NOT_NULL DOUBLE_PRECISION);
       ("sl", NULLABLE DOUBLE_PRECISION); ("tp1", NULLABLE DOUBLE_PRECISION); ("tp2", NULLABLE DOUBLE_PRECISION);
       ("is_running", DEFAULTING BOOLEAN (Literal "false"));
       ("risk_percent", DEFAULTING DOUBLE_PRECISION (Literal "0.0"));
       ("indicators", NULLABLE JSONB); ("inputs", NULLABLE JSONB); ("raw", NULLABLE JSONB)])
      ["id"] [] ∅) []);
    IF_NOT_EXISTS (CREATE_INDEX "idx_signals_symbol" (on_columns "signals" ["symbol"]));
    IF_NOT_EXISTS (CREATE_INDEX "idx_signals_timestamp" (on_columns "signals" ["timestamp"]));
    IF_EXISTS (DROP_TRIGGER "trg_update_signals_updated_at" "signals");
    CREATE_TRIGGER "trg_update_signals_updated_at" "signals" (Trigger BEFORE_UPDATE "update_updated_at_column");
    IF_NOT_EXISTS (CREATE_TYPE "tradestatusenum" ["OPENED"; "REJECTED"; "PARTIALLY_CLOSED"; "CLOSED"; "FLAT"]);
    IF_NOT_EXISTS (CREATE_TABLE "trades" (Table (columns
      [("id", DEFAULTING UUID GenRandomUuid); ("createdAt", DEFAULTING TIMESTAMPTZ Now);
       ("updatedAt", DEFAULTING TIMESTAMPTZ Now);
       ("account_id", NOT_NULL (VARCHAR 50)); ("account_leverage", NULLABLE INTEGER);
       ("account_balance_init", NULLABLE DOUBLE_PRECISION); ("account_balance", NULLABLE DOUBLE_PRECISION);
       ("ref_id", NULLABLE (VARCHAR 255)); ("comment", NULLABLE (VARCHAR 255));
       ("strategy_code", NOT_NULL (VARCHAR 255));
       ("strategy", DEFAULTING (VARCHAR 50) (Literal "gold")); ("symbol", NOT_NULL (VARCHAR 50));
       ("action", NOT_NULL (ENUM "signalactionenum"));
       ("price", NOT_NULL DOUBLE_PRECISION); ("quantity", NOT_NULL DOUBLE_PRECISION);
       ("sl", NULLABLE DOUBLE_PRECISION); ("tp1", NULLABLE DOUBLE_PRECISION); ("tp2", NULLABLE DOUBLE_PRECISION);
       ("is_running", DEFAULTING BOOLEAN (Literal "false"));
       ("risk_percent", DEFAULTING DOUBLE_PRECISION (Literal "0.0"));
       ("gateway_return_code", NULLABLE INTEGER);
       ("status", NOT_NULL (ENUM "tradestatusenum")); ("reject_reason", NULLABLE (VARCHAR 255))])
      ["id"] [] ∅) []);
    IF_NOT_EXISTS (CREATE_INDEX "uq_trades_account_ref_id" (unique_index "trades" ["account_id"; "ref_id"]));
    IF_NOT_EXISTS (CREATE_INDEX "idx_trades_account_id" (on_columns "trades" ["account_id"]));
    IF_NOT_EXISTS (CREATE_INDEX "idx_trades_strategy_code" (on_columns "trades" ["strategy_code"]));
    IF_NOT_EXISTS (CREATE_INDEX "idx_trades_symbol" (on_columns "trades" ["symbol"]));
    IF_EXISTS (DROP_TRIGGER "trg_update_trades_updated_at" "trades");
    CREATE_TRIGGER "trg_update_trades_updated_at" "trades" (Trigger BEFORE_UPDATE "update_updated_at_column") ].

Definition downgrade_0001 : list stmt :=
  [ IF_EXISTS (DROP_TRIGGER "trg_update_trades_updated_at" "trades"); IF_EXISTS (DROP_TABLE "trades");
    IF_EXISTS (DROP_TYPE "tradestatusenum");
    IF_EXISTS (DROP_TRIGGER "trg_update_signals_updated_at" "signals"); IF_EXISTS (DROP_TABLE "signals");
    IF_EXISTS (DROP_FUNCTION "update_updated_at_column" true); IF_EXISTS (DROP_TYPE "signalactionenum") ].

(** [inspector.get_table_names], [get_indexes] (which lists the indexes that back
    unique constraints too) and [get_unique_constraints]. *)
Definition get_table_names (s : schema) : list string := map fst (map_to_list (tables s)).
Definition get_indexes (s : schema) (t : string) : list string :=
  map fst (filter (fun p => ix_table p.2 = t) (map_to_list (indexes s))).
Definition get_unique_constraints (s : schema) (t : string) : list string :=
  map fst (filter (fun p => ix_table p.2 = t /\ ix_constraint p.2 = true) (map_to_list (indexes s))).

Definition when_in (n : string) (names : list string) (sts : list stmt) : list stmt :=
  if bool_decide (n ∈ names) then sts else [].
Definition when_not_in (n : string) (names : list string) (sts : list stmt) : list stmt :=
  if bool_decide (n ∈ names) then [] else sts.

Definition upgrade_54892682ef32 (s : schema) : list stmt :=
  [ IF_NOT_EXISTS (CREATE_TYPE "markettypeenum" ["FOREX"; "CRYPTO"]) ] ++
  when_not_in "accounts" (get_table_names s)
    [ CREATE_TABLE "accounts" (Table (columns
        ([("account_id", NOT_NULL (VARCHAR 50)); ("account_name", NULLABLE (VARCHAR 255));
          ("account_balance", NULLABLE DOUBLE_PRECISION); ("market", NOT_NULL (ENUM "markettypeenum"));
          ("last_activity_at", NULLABLE TIMESTAMPTZ)] ++ timestamp_columns)) ["id"] [] ∅)
        [("uq_accounts_account_id", ["account_id"])];
      CREATE_INDEX "ix_accounts_account_id" (on_columns "accounts" ["account_id"]) ] ++
  when_not_in "broker_settings" (get_table_names s)
    [ CREATE_TABLE "broker_settings" (Table (columns
        ([("key", NOT_NULL (VARCHAR 255)); ("value", NOT_NULL TEXT)] ++ timestamp_columns)) ["id"] [] ∅)
        [("uq_broker_settings_key", ["key"])];
      CREATE_INDEX "ix_broker_settings_key" (on_columns "broker_settings" ["key"]) ] ++
  when_in "idx_signals_symbol" (get_indexes s "signals") [ DROP_INDEX "idx_signals_symbol" ] ++
  when_in "idx_signals_timestamp" (get_indexes s "signals") [ DROP_INDEX "idx_signals_timestamp" ] ++
  when_not_in "ix_signals_symbol" (get_indexes s "signals")
    [ CREATE_INDEX "ix_signals_symbol" (on_columns "signals" ["symbol"]) ] ++
  when_in "idx_trades_account_id" (get_indexes s "trades") [ DROP_INDEX "idx_trades_account_id" ] ++
  when_in "idx_trades_strategy_code" (get_indexes s "trades") [ DROP_INDEX "idx_trades_strategy_code" ] ++
  when_in "idx_trades_symbol" (get_indexes s "trades") [ DROP_INDEX "idx_trades_symbol" ] ++
  when_in "uq_trades_account_ref_id" (get_indexes s "trades") [ DROP_INDEX "uq_trades_account_ref_id" ] ++
  when_not_in "uq_trades_account_ref_id" (get_unique_constraints s "trades")
    [ CREATE_INDEX "uq_trades_account_ref_id" (unique_constraint "trades" ["account_id"; "ref_id"]) ] ++
  when_not_in "ix_trades_account_id" (get_indexes s "trades")
    [ CREATE_INDEX "ix_trades_account_id" (on_columns "trades" ["account_id"]) ] ++
  when_not_in "ix_trades_strategy_code" (get_indexes s "trades")
    [ CREATE_INDEX "ix_trades_strategy_code" (on_columns "trades" ["strategy_code"]) ] ++
  when_not_in "ix_trades_symbol" (get_indexes s "trades")
    [ CREATE_INDEX "ix_trades_symbol" (on_columns "trades" ["symbol"]) ] ++
  when_not_in "ix_trades_ref_id" (get_indexes s "trades")
    [ CREATE_INDEX "ix_trades_ref_id" (on_columns "trades" ["ref_id"]) ] ++
  [ INSERT_SETTINGS [("prevent_signal", "0")] ].

Definition downgrade_54892682ef32 : list stmt :=
  [ DROP_INDEX "ix_trades_ref_id"; DROP_INDEX "ix_trades_symbol"; DROP_INDEX "ix_trades_strategy_code";
    DROP_INDEX "ix_trades_account_id"; DROP_CONSTRAINT "uq_trades_account_ref_id" "trades";
    IF_NOT_EXISTS (CREATE_INDEX "uq_trades_account_ref_id" (unique_index "trades" ["account_id"; "ref_id"]));
    IF_NOT_EXISTS (CREATE_INDEX "idx_trades_symbol" (on_columns "trades" ["symbol"]));
    IF_NOT_EXISTS (CREATE_INDEX "idx_trades_strategy_code" (on_columns "trades" ["strategy_code"]));
    IF_NOT_EXISTS (CREATE_INDEX "idx_trades_account_id" (on_columns "trades" ["account_id"]));
    DROP_INDEX "ix_signals_symbol";
    IF_NOT_EXISTS (CREATE_INDEX "idx_signals_timestamp" (on_columns "signals" ["timestamp"]));
    IF_NOT_EXISTS (CREATE_INDEX "idx_signals_symbol" (on_columns "signals" ["symbol"]));
    DROP_INDEX "ix_broker_settings_key"; DROP_TABLE "broker_settings";
    DROP_INDEX "ix_accounts_account_id"; DROP_TABLE "accounts"; IF_EXISTS (DROP_TYPE "markettypeenum") ].

Definition PRICE_TYPE : sqltype := NUMERIC 20 8.
Definition PCT_TYPE : sqltype := NUMERIC 10 4.

Definition upgrade_922c6a79dffc (_ : schema) : list stmt :=
  [ ALTER_TYPE "signals" "price" PRICE_TYPE; ALTER_TYPE "signals" "quantity" PRICE_TYPE;
    ALTER_TYPE "signals" "sl" PRICE_TYPE; ALTER_TYPE "signals" "tp1" PRICE_TYPE;
    ALTER_TYPE "signals" "tp2" PRICE_TYPE; ALTER_TYPE "signals" "risk_percent" PCT_TYPE;
    ALTER_TYPE "trades" "account_balance_init" PRICE_TYPE; ALTER_TYPE "trades" "account_balance" PRICE_TYPE;
    ALTER_TYPE "trades" "price" PRICE_TYPE; ALTER_TYPE "trades" "quantity" PRICE_TYPE;
    ALTER_TYPE "trades" "sl" PRICE_TYPE; ALTER_TYPE "trades" "tp1" PRICE_TYPE;
    ALTER_TYPE "trades" "tp2" PRICE_TYPE; ALTER_TYPE "trades" "risk_percent" PCT_TYPE;
    ALTER_TYPE "accounts" "account_balance" PRICE_TYPE ].

Definition downgrade_922c6a79dffc : list stmt :=
  map (fun c => ALTER_TYPE "signals" c DOUBLE_PRECISION) ["price"; "quantity"; "sl"; "tp1"; "tp2"; "risk_percent"] ++
  map (fun c => ALTER_TYPE "trades" c DOUBLE_PRECISION)
    ["account_balance_init"; "account_balance"; "price"; "quantity"; "sl"; "tp1"; "tp2"; "risk_percent"] ++
  [ ALTER_TYPE "accounts" "account_balance" DOUBLE_PRECISION ].

Definition upgrade_a4d6e1b9c5f7 (_ : schema) : list stmt :=
  [ INSERT_SETTINGS [("silent_signal", "0"); ("notification_include_signal_raw", "0")] ].
Definition downgrade_a4d6e1b9c5f7 : list stmt := [ DELETE_SETTINGS ["silent_signal"; "notification_include_signal_raw"] ].

Definition upgrade_b3f2a1d0e5c6 (_ : schema) : list stmt :=
  [ IF_NOT_EXISTS (ADD_COLUMN "signals" "is_scale_position" (DEFAULTING BOOLEAN (Literal "false")));
    IF_NOT_EXISTS (ADD_COLUMN "signals" "scale_strategy" (NULLABLE (VARCHAR 50))) ].
Definition downgrade_b3f2a1d0e5c6 : list stmt :=
  [ IF_EXISTS (DROP_COLUMN "signals" "is_scale_position"); IF_EXISTS (DROP_COLUMN "signals" "scale_strategy") ].

Definition upgrade_c1a2b3d4e5f6 (_ : schema) : list stmt := [ INSERT_SETTINGS [("crypto_allowed_symbol", "BTC,ETH")] ].
Definition downgrade_c1a2b3d4e5f6 : list stmt := [ DELETE_SETTINGS ["crypto_allowed_symbol"] ].

Definition upgrade_d2b3c4e5f6a7 (_ : schema) : list stmt := [ INSERT_SETTINGS [("crypto_max_leverage", "10")] ].
Definition downgrade_d2b3c4e5f6a7 : list stmt := [ DELETE_SETTINGS ["crypto_max_leverage"] ].

Definition upgrade_e3c4d5f6a7b8 (_ : schema) : list stmt := [ INSERT_SETTINGS [("notification_timezone", "7")] ].
Definition downgrade_e3c4d5f6a7b8 : list stmt := [ DELETE_SETTINGS ["notification_timezone"] ].

Definition upgrade_f4d5e6a7b8c9 (_ : schema) : list stmt :=
  [ IF_NOT_EXISTS (ADD_COLUMN "accounts" "gateway" (NULLABLE (VARCHAR 50))) ].
Definition downgrade_f4d5e6a7b8c9 : list stmt := [ IF_EXISTS (DROP_COLUMN "accounts" "gateway") ].

Definition upgrade_a5e6f7b8c9d0 (_ : schema) : list stmt :=
  [ IF_NOT_EXISTS (CREATE_TYPE "signalstatusenum" ["QUEUED"; "PUBLISHED"]);
    IF_NOT_EXISTS (ADD_COLUMN "signals" "status" (DEFAULTING (ENUM "signalstatusenum") (Literal "QUEUED")));
    IF_NOT_EXISTS (CREATE_INDEX "idx_signals_status" (on_columns "signals" ["status"]));
    INSERT_SETTINGS [("max_retry_timeout", "60")] ].
Definition downgrade_a5e6f7b8c9d0 : list stmt :=
  [ DELETE_SETTINGS ["max_retry_timeout"]; IF_EXISTS (DROP_INDEX "idx_signals_status");
    IF_EXISTS (DROP_COLUMN "signals" "status"); IF_EXISTS (DROP_TYPE "signalstatusenum") ].

Definition upgrade_b6f7a8c9d0e1 (_ : schema) : list stmt :=
  [ IF_NOT_EXISTS (ADD_VALUE "signalstatusenum" "FAILED" None);
    IF_NOT_EXISTS (ADD_COLUMN "signals" "attempts" (DEFAULTING INTEGER (Literal "0")));
    IF_NOT_EXISTS (ADD_COLUMN "signals" "last_attempt" (NULLABLE TIMESTAMPTZ)) ].
Definition downgrade_b6f7a8c9d0e1 : list stmt :=
  [ IF_EXISTS (DROP_COLUMN "signals" "last_attempt"); IF_EXISTS (DROP_COLUMN "signals" "attempts") ].

(** The owner's market and gateway on a trade; [(market, gateway, account_id)] keys. *)
Definition upgrade_c9d8e7f6a5b4 (_ : schema) : list stmt :=
  [ ADD_COLUMN "trades" "market" (NULLABLE (ENUM "markettypeenum"));
    ADD_COLUMN "trades" "gateway" (NULLABLE (VARCHAR 50));
    BACKFILL_TRADES;
    DROP_CONSTRAINT "uq_trades_account_ref_id" "trades";
    CREATE_INDEX "uq_trades_market_gateway_account_ref"
      (unique_constraint "trades" ["market"; "gateway"; "account_id"; "ref_id"]);
    DROP_CONSTRAINT "uq_accounts_account_id" "accounts";
    CREATE_INDEX "uq_accounts_market_gateway_account_id"
      (unique_constraint "accounts" ["market"; "gateway"; "account_id"]) ].
Definition downgrade_c9d8e7f6a5b4 : list stmt :=
  [ DROP_CONSTRAINT "uq_accounts_market_gateway_account_id" "accounts";
    CREATE_INDEX "uq_accounts_account_id" (unique_constraint "accounts" ["account_id"]);
    DROP_CONSTRAINT "uq_trades_market_gateway_account_ref" "trades";
    CREATE_INDEX "uq_trades_account_ref_id" (unique_constraint "trades" ["account_id"; "ref_id"]);
    DROP_COLUMN "trades" "gateway"; DROP_COLUMN "trades" "market" ].

Definition upgrade_f7a8b9c0d1e2 (_ : schema) : list stmt :=
  [ IF_NOT_EXISTS (CREATE_TYPE "botplatformtypeenum" ["TELEGRAM"]);
    CREATE_TABLE "account_bot_links" (Table (columns
      ([("account_id", NOT_NULL UUID); ("platform", NOT_NULL (ENUM "botplatformtypeenum"));
        ("platform_user_id", NOT_NULL (VARCHAR 64))] ++ timestamp_columns))
      ["id"] [ForeignKey "account_id" "accounts" CASCADE] ∅)
      [("uq_account_bot_links_platform_user_account", ["platform"; "platform_user_id"; "account_id"])];
    CREATE_INDEX "ix_account_bot_links_account_id" (on_columns "account_bot_links" ["account_id"]);
    CREATE_INDEX "ix_account_bot_links_platform_user_id" (on_columns "account_bot_links" ["platform_user_id"]);
    CREATE_TABLE "account_link_tokens" (Table (columns
      ([("account_id", NOT_NULL UUID); ("token", NOT_NULL UUID); ("expires_at", NULLABLE TIMESTAMPTZ);
        ("revoked_at", NULLABLE TIMESTAMPTZ); ("last_used_at", NULLABLE TIMESTAMPTZ)] ++ timestamp_columns))
      ["id"] [ForeignKey "account_id" "accounts" CASCADE] ∅) [];
    CREATE_INDEX "ix_account_link_tokens_account_id" (on_columns "account_link_tokens" ["account_id"]);
    CREATE_INDEX "ix_account_link_tokens_token" (unique_index "account_link_tokens" ["token"]);
    CREATE_TABLE "bot_sessions" (Table (columns
      ([("platform", NOT_NULL (ENUM "botplatformtypeenum")); ("platform_user_id", NOT_NULL (VARCHAR 64));
        ("active_account_id", NULLABLE UUID)] ++ timestamp_columns))
      ["id"] [ForeignKey "active_account_id" "accounts" SET_NULL] ∅)
      [("uq_bot_sessions_platform_user", ["platform"; "platform_user_id"])];
    CREATE_INDEX "ix_bot_sessions_platform_user_id" (on_columns "bot_sessions" ["platform_user_id"]);
    SEED_TOKENS ].
Definition downgrade_f7a8b9c0d1e2 : list stmt :=
  [ DROP_INDEX "ix_bot_sessions_platform_user_id"; DROP_TABLE "bot_sessions";
    DROP_INDEX "ix_account_link_tokens_token"; DROP_INDEX "ix_account_link_tokens_account_id";
    DROP_TABLE "account_link_tokens"; DROP_INDEX "ix_account_bot_links_platform_user_id";
    DROP_INDEX "ix_account_bot_links_account_id"; DROP_TABLE "account_bot_links";
    IF_EXISTS (DROP_TYPE "botplatformtypeenum") ].

Definition upgrade_a1b2c3d4e5f6 (_ : schema) : list stmt :=
  [ CREATE_TABLE "trade_broadcast_subscriptions" (Table (columns
      ([("platform", NOT_NULL (ENUM "botplatformtypeenum")); ("platform_user_id", NOT_NULL (VARCHAR 64))]
       ++ timestamp_columns)) ["id"] [] ∅)
      [("uq_trade_broadcast_subscriptions_platform_user", ["platform"; "platform_user_id"])];
    CREATE_INDEX "ix_trade_broadcast_subscriptions_platform_user_id"
      (on_columns "trade_broadcast_subscriptions" ["platform_user_id"]) ].
Definition downgrade_a1b2c3d4e5f6 : list stmt :=
  [ DROP_INDEX "ix_trade_broadcast_subscriptions_platform_user_id"; DROP_TABLE "trade_broadcast_subscriptions" ].

(** ['{"HOLD_TO_WIN": 9999}']. *)
Definition STRATEGY_MAGIC_MAP_VALUE : string := "{" +:+ String quote ("HOLD_TO_WIN" +:+ String quote ": 9999}").
Definition upgrade_f1a2b3c4d5e6 (_ : schema) : list stmt :=
  [ INSERT_SETTINGS [("strategy_magic_map", STRATEGY_MAGIC_MAP_VALUE)] ].
Definition downgrade_f1a2b3c4d5e6 : list stmt := [ DELETE_SETTINGS ["strategy_magic_map"] ].

Definition upgrade_a2c3d4e5f6b7 (_ : schema) : list stmt :=
  [ IF_NOT_EXISTS (CREATE_TYPE "broadcaststatusenum" ["RUNNING"; "CLOSED"]);
    IF_NOT_EXISTS (CREATE_TYPE "broadcastaudienceenum" ["PRIVATE"; "PUBLIC"]);
    ADD_COLUMN "signals" "signal_uxid" (NULLABLE (VARCHAR 16));
    CREATE_INDEX "ix_signals_signal_uxid" (on_columns "signals" ["signal_uxid"]);
    CREATE_TABLE "broadcast_messages" (Table (columns
      ([("strategy", NOT_NULL (VARCHAR 50)); ("signal_uxid", NOT_NULL (VARCHAR 16)); ("symbol", NOT_NULL (VARCHAR 50));
        ("timeframe", NULLABLE (VARCHAR 20)); ("actions", NOT_NULL TEXT);
        ("latest_action", NOT_NULL (ENUM "signalactionenum"));
        ("status", DEFAULTING (ENUM "broadcaststatusenum") (Literal "RUNNING")); ("events", NOT_NULL JSONB);
        ("last_broadcast_at", NULLABLE TIMESTAMPTZ)] ++ timestamp_columns)) ["id"] [] ∅)
      [("uq_broadcast_messages_strategy_signal_uxid", ["strategy"; "signal_uxid"])];
    CREATE_INDEX "ix_broadcast_messages_strategy" (on_columns "broadcast_messages" ["strategy"]);
    CREATE_INDEX "ix_broadcast_messages_signal_uxid" (on_columns "broadcast_messages" ["signal_uxid"]);
    CREATE_INDEX "ix_broadcast_messages_status" (on_columns "broadcast_messages" ["status"]);
    CREATE_TABLE "broadcast_message_chats" (Table (columns
      ([("broadcast_message_id", NOT_NULL UUID); ("audience", NOT_NULL (ENUM "broadcastaudienceenum"));
        ("chat_id", NOT_NULL (VARCHAR 64)); ("message_id", NULLABLE (VARCHAR 64)); ("message", NULLABLE TEXT);
        ("last_error", NULLABLE (VARCHAR 255))] ++ timestamp_columns))
      ["id"] [ForeignKey "broadcast_message_id" "broadcast_messages" CASCADE] ∅)
      [("uq_broadcast_message_chats_message_chat", ["broadcast_message_id"; "chat_id"])];
    CREATE_INDEX "ix_broadcast_message_chats_broadcast_message_id"
      (on_columns "broadcast_message_chats" ["broadcast_message_id"]);
    CREATE_INDEX "ix_broadcast_message_chats_chat_id" (on_columns "broadcast_message_chats" ["chat_id"]) ].
Definition downgrade_a2c3d4e5f6b7 : list stmt :=
  [ DROP_INDEX "ix_broadcast_message_chats_chat_id"; DROP_INDEX "ix_broadcast_message_chats_broadcast_message_id";
    DROP_TABLE "broadcast_message_chats";
    DROP_INDEX "ix_broadcast_messages_status"; DROP_INDEX "ix_broadcast_messages_signal_uxid";
    DROP_INDEX "ix_broadcast_messages_strategy"; DROP_TABLE "broadcast_messages";
    DROP_INDEX "ix_signals_signal_uxid"; DROP_COLUMN "signals" "signal_uxid";
    IF_EXISTS (DROP_TYPE "broadcastaudienceenum"); IF_EXISTS (DROP_TYPE "broadcaststatusenum") ].

Definition MIGRATION_PUBLIC_CHATS_KEY : string := "public_broadcast_chat_ids".
Definition CHANNEL : string := "broadcast_message_log".

(** [NOTIFY_FUNCTION]: the members of the payload and the columns they are taken from. *)
Definition NOTIFY_FUNCTION : function_body :=
  NotifyRow CHANNEL [("log_id", "id"); ("broadcast_message_id", "broadcast_message_id"); ("seq", "seq")].

Definition upgrade_b3d4e5f6a7c8 (_ : schema) : list stmt :=
  [ IF_NOT_EXISTS (CREATE_TYPE "broadcastlogkindenum" ["SIGNAL"; "EXECUTION"]);
    IF_NOT_EXISTS (CREATE_TYPE "broadcastlogstatusenum" ["PENDING"; "SENDING"; "DELIVERED"; "FAILED"]);
    ADD_COLUMN "broadcast_messages" "last_seq" (DEFAULTING BIGINT (Literal "0"));
    ADD_COLUMN "broadcast_message_chats" "delivered_seq" (DEFAULTING BIGINT (Literal "0"));
    CREATE_TABLE "broadcast_message_workers" (Table (columns
      ([("broadcast_message_id", NOT_NULL UUID); ("worker_id", NOT_NULL (VARCHAR 128));
        ("account_id", NOT_NULL (VARCHAR 50)); ("market", NULLABLE (ENUM "markettypeenum"));
        ("gateway", NULLABLE (VARCHAR 50)); ("latest_status", NOT_NULL (ENUM "tradestatusenum"));
        ("latest_action", NULLABLE (VARCHAR 20)); ("reject_reason", NULLABLE (VARCHAR 255));
        ("last_event_at", NULLABLE TIMESTAMPTZ)] ++ timestamp_columns))
      ["id"] [ForeignKey "broadcast_message_id" "broadcast_messages" CASCADE] ∅)
      [("uq_broadcast_message_workers_message_worker", ["broadcast_message_id"; "worker_id"])];
    CREATE_INDEX "ix_broadcast_message_workers_broadcast_message_id"
      (on_columns "broadcast_message_workers" ["broadcast_message_id"]);
    CREATE_INDEX "ix_broadcast_message_workers_worker_id" (on_columns "broadcast_message_workers" ["worker_id"]);
    CREATE_TABLE "broadcast_message_logs" (Table (columns
      ([("broadcast_message_id", NOT_NULL UUID); ("seq", NOT_NULL BIGINT);
        ("kind", NOT_NULL (ENUM "broadcastlogkindenum")); ("payload", NULLABLE JSONB);
        ("status", DEFAULTING (ENUM "broadcastlogstatusenum") (Literal "PENDING"));
        ("attempts", DEFAULTING INTEGER (Literal "0")); ("last_error", NULLABLE (VARCHAR 255));
        ("delivered_at", NULLABLE TIMESTAMPTZ)] ++ timestamp_columns))
      ["id"] [ForeignKey "broadcast_message_id" "broadcast_messages" CASCADE] ∅)
      [("uq_broadcast_message_logs_message_seq", ["broadcast_message_id"; "seq"])];
    CREATE_INDEX "ix_broadcast_message_logs_broadcast_message_id"
      (on_columns "broadcast_message_logs" ["broadcast_message_id"]);
    CREATE_INDEX "ix_broadcast_message_logs_status" (on_columns "broadcast_message_logs" ["status"]);
    CREATE_FUNCTION "notify_broadcast_message_log" NOTIFY_FUNCTION;
    CREATE_TRIGGER "broadcast_message_logs_notify" "broadcast_message_logs"
      (Trigger AFTER_INSERT "notify_broadcast_message_log");
    INSERT_SETTINGS [(MIGRATION_PUBLIC_CHATS_KEY, "")] ].
Definition downgrade_b3d4e5f6a7c8 : list stmt :=
  [ DELETE_SETTINGS [MIGRATION_PUBLIC_CHATS_KEY];
    IF_EXISTS (DROP_TRIGGER "broadcast_message_logs_notify" "broadcast_message_logs");
    IF_EXISTS (DROP_FUNCTION "notify_broadcast_message_log" false);
    DROP_INDEX "ix_broadcast_message_logs_status"; DROP_INDEX "ix_broadcast_message_logs_broadcast_message_id";
    DROP_TABLE "broadcast_message_logs";
    DROP_INDEX "ix_broadcast_message_workers_worker_id";
    DROP_INDEX "ix_broadcast_message_workers_broadcast_message_id"; DROP_TABLE "broadcast_message_workers";
    DROP_COLUMN "broadcast_message_chats" "delivered_seq"; DROP_COLUMN "broadcast_messages" "last_seq";
    IF_EXISTS (DROP_TYPE "broadcastlogstatusenum"); IF_EXISTS (DROP_TYPE "broadcastlogkindenum") ].

Definition upgrade_a7b8c9d0e1f2 (_ : schema) : list stmt :=
  [ IF_NOT_EXISTS (ADD_COLUMN "accounts" "settings" (DEFAULTING JSONB (Literal "{}"))) ].
Definition downgrade_a7b8c9d0e1f2 : list stmt := [ IF_EXISTS (DROP_COLUMN "accounts" "settings") ].

Definition upgrade_c4e5f6a7b8d9 (_ : schema) : list stmt :=
  [ ADD_COLUMN "broadcast_message_chats" "notified_event_count" (NULLABLE INTEGER) ].
Definition downgrade_c4e5f6a7b8d9 : list stmt := [ DROP_COLUMN "broadcast_message_chats" "notified_event_count" ].

Definition upgrade_ee01d4811f96 (_ : schema) : list stmt := [].
Definition downgrade_ee01d4811f96 : list stmt := [].

Definition upgrade_b8c9d0e1f2a3 (_ : schema) : list stmt :=
  [ ADD_COLUMN "trades" "last_action" (NULLABLE (VARCHAR 20));
    CREATE_TABLE "trade_notifications" (Table (columns
      ([("trade_id", NOT_NULL UUID); ("platform", NOT_NULL (ENUM "botplatformtypeenum"));
        ("chat_id", NOT_NULL (VARCHAR 64)); ("message_id", NOT_NULL INTEGER);
        ("status", NOT_NULL (ENUM "tradestatusenum"))] ++ timestamp_columns))
      ["id"] [ForeignKey "trade_id" "trades" CASCADE] ∅)
      [("uq_trade_notifications_trade_platform_chat", ["trade_id"; "platform"; "chat_id"])];
    CREATE_INDEX "ix_trade_notifications_trade_id" (on_columns "trade_notifications" ["trade_id"]);
    CREATE_INDEX "ix_trade_notifications_chat_id" (on_columns "trade_notifications" ["chat_id"]) ].
Definition downgrade_b8c9d0e1f2a3 : list stmt :=
  [ DROP_INDEX "ix_trade_notifications_chat_id"; DROP_INDEX "ix_trade_notifications_trade_id";
    DROP_TABLE "trade_notifications"; DROP_COLUMN "trades" "last_action" ].

Definition upgrade_0205b8abba12 (_ : schema) : list stmt :=
  [ INSERT_SETTINGS [("private_broadcast_reply_notify", "1"); ("public_broadcast_reply_notify", "1")] ].
Definition downgrade_0205b8abba12 : list stmt :=
  [ DELETE_SETTINGS ["private_broadcast_reply_notify"; "public_broadcast_reply_notify"] ].

Definition upgrade_d4e5f6a7b8c9 (_ : schema) : list stmt :=
  [ DROP_CONSTRAINT "uq_broadcast_messages_strategy_signal_uxid" "broadcast_messages";
    CREATE_INDEX "uq_broadcast_messages_symbol_strategy_signal_uxid"
      (unique_constraint "broadcast_messages" ["symbol"; "strategy"; "signal_uxid"]) ].
Definition downgrade_d4e5f6a7b8c9 : list stmt :=
  [ DROP_CONSTRAINT "uq_broadcast_messages_symbol_strategy_signal_uxid" "broadcast_messages";
    CREATE_INDEX "uq_broadcast_messages_strategy_signal_uxid"
      (unique_constraint "broadcast_messages" ["strategy"; "signal_uxid"]) ].

Definition upgrade_e5f6a7b8c9d0 (_ : schema) : list stmt :=
  [ IF_NOT_EXISTS (ADD_VALUE "broadcaststatusenum" "TP1" (Some "CLOSED")) ].
Definition downgrade_e5f6a7b8c9d0 : list stmt := [ UNMARK_TP1 ].

Definition upgrade_486671e7d451 (_ : schema) : list stmt :=
  [ ADD_COLUMN "account_bot_links" "trade_cards_enabled" (DEFAULTING BOOLEAN (Literal "false"));
    DROP_INDEX "ix_trade_broadcast_subscriptions_platform_user_id"; DROP_TABLE "trade_broadcast_subscriptions" ].
Definition downgrade_486671e7d451 : list stmt :=
  [ CREATE_TABLE "trade_broadcast_subscriptions" (Table (columns
      ([("platform", NOT_NULL (ENUM "botplatformtypeenum")); ("platform_user_id", NOT_NULL (VARCHAR 64))]
       ++ timestamp_columns)) ["id"] [] ∅)
      [("uq_trade_broadcast_subscriptions_platform_user", ["platform"; "platform_user_id"])];
    CREATE_INDEX "ix_trade_broadcast_subscriptions_platform_user_id"
      (on_columns "trade_broadcast_subscriptions" ["platform_user_id"]);
    DROP_COLUMN "account_bot_links" "trade_cards_enabled" ].

Definition upgrade_22876e598a6d (_ : schema) : list stmt :=
  [ ADD_COLUMN "signals" "delivery_key" (NULLABLE (VARCHAR 128));
    CREATE_INDEX "uq_signals_delivery_key" (unique_constraint "signals" ["delivery_key"]) ].
Definition downgrade_22876e598a6d : list stmt :=
  [ DROP_CONSTRAINT "uq_signals_delivery_key" "signals"; DROP_COLUMN "signals" "delivery_key" ].

(** [revision], [down_revision], [upgrade] and [downgrade] of a script. *)
Record revision := Revision {
  revision_id : string; down_revision : list string; upgrade : schema -> list stmt; downgrade : list stmt
}.

Definition versions : list revision :=
  [ Revision "0001" [] upgrade_0001 downgrade_0001;
    Revision "54892682ef32" ["0001"] upgrade_54892682ef32 downgrade_54892682ef32;
    Revision "922c6a79dffc" ["54892682ef32"] upgrade_922c6a79dffc downgrade_922c6a79dffc;
    Revision "a4d6e1b9c5f7" ["922c6a79dffc"] upgrade_a4d6e1b9c5f7 downgrade_a4d6e1b9c5f7;
    Revision "b3f2a1d0e5c6" ["a4d6e1b9c5f7"] upgrade_b3f2a1d0e5c6 downgrade_b3f2a1d0e5c6;
    Revision "c1a2b3d4e5f6" ["b3f2a1d0e5c6"] upgrade_c1a2b3d4e5f6 downgrade_c1a2b3d4e5f6;
    Revision "d2b3c4e5f6a7" ["c1a2b3d4e5f6"] upgrade_d2b3c4e5f6a7 downgrade_d2b3c4e5f6a7;
    Revision "e3c4d5f6a7b8" ["d2b3c4e5f6a7"] upgrade_e3c4d5f6a7b8 downgrade_e3c4d5f6a7b8;
    Revision "f4d5e6a7b8c9" ["e3c4d5f6a7b8"] upgrade_f4d5e6a7b8c9 downgrade_f4d5e6a7b8c9;
    Revision "a5e6f7b8c9d0" ["f4d5e6a7b8c9"] upgrade_a5e6f7b8c9d0 downgrade_a5e6f7b8c9d0;
    Revision "b6f7a8c9d0e1" ["a5e6f7b8c9d0"] upgrade_b6f7a8c9d0e1 downgrade_b6f7a8c9d0e1;
    Revision "c9d8e7f6a5b4" ["b6f7a8c9d0e1"] upgrade_c9d8e7f6a5b4 downgrade_c9d8e7f6a5b4;
    Revision "f7a8b9c0d1e2" ["c9d8e7f6a5b4"] upgrade_f7a8b9c0d1e2 downgrade_f7a8b9c0d1e2;
    Revision "a1b2c3d4e5f6" ["f7a8b9c0d1e2"] upgrade_a1b2c3d4e5f6 downgrade_a1b2c3d4e5f6;
    Revision "f1a2b3c4d5e6" ["a1b2c3d4e5f6"] upgrade_f1a2b3c4d5e6 downgrade_f1a2b3c4d5e6;
    Revision "a2c3d4e5f6b7" ["f1a2b3c4d5e6"] upgrade_a2c3d4e5f6b7 downgrade_a2c3d4e5f6b7;
    Revision "b3d4e5f6a7c8" ["a2c3d4e5f6b7"] upgrade_b3d4e5f6a7c8 downgrade_b3d4e5f6a7c8;
    Revision "a7b8c9d0e1f2" ["b3d4e5f6a7c8"] upgrade_a7b8c9d0e1f2 downgrade_a7b8c9d0e1f2;
    Revision "c4e5f6a7b8d9" ["b3d4e5f6a7c8"] upgrade_c4e5f6a7b8d9 downgrade_c4e5f6a7b8d9;
    Revision "ee01d4811f96" ["a7b8c9d0e1f2"; "c4e5f6a7b8d9"] upgrade_ee01d4811f96 downgrade_ee01d4811f96;
    Revision "b8c9d0e1f2a3" ["ee01d4811f96"] upgrade_b8c9d0e1f2a3 downgrade_b8c9d0e1f2a3;
    Revision "0205b8abba12" ["b8c9d0e1f2a3"] upgrade_0205b8abba12 downgrade_0205b8abba12;
    Revision "d4e5f6a7b8c9" ["0205b8abba12"] upgrade_d4e5f6a7b8c9 downgrade_d4e5f6a7b8c9;
    Revision "e5f6a7b8c9d0" ["d4e5f6a7b8c9"] upgrade_e5f6a7b8c9d0 downgrade_e5f6a7b8c9d0;
    Revision "486671e7d451" ["e5f6a7b8c9d0"] upgrade_486671e7d451 downgrade_486671e7d451;
    Revision "22876e598a6d" ["486671e7d451"] upgrade_22876e598a6d downgrade_22876e598a6d ].

(** The orders in which every revision can run after those it revises. *)
Definition ready (applied : list string) (r : revision) : bool :=
  forallb (fun x => bool_decide (x ∈ applied)) (down_revision r).

Fixpoint upgrade_orders (fuel : nat) (applied : list string) (todo : list revision) : list (list revision) :=
  match fuel, todo with
  | _, [] => [[]]
  | 0%nat, _ => []
  | S fuel', _ =>
      flat_map (fun r =>
        map (cons r) (upgrade_orders fuel' (revision_id r :: applied)
                        (filter (fun x => bool_decide (revision_id x <> revision_id r)) todo)))
        (filter (fun r => ready applied r) todo)
  end.

Definition orders : list (list revision) := upgrade_orders (length versions) [] versions.

(** The schema after the revisions of an order. *)
Fixpoint schema_after (rs : list revision) (s : schema) : option schema :=
  match rs with
  | [] => Some s
  | r :: rs' => s' ← run_schema (upgrade r s) s; schema_after rs' s'
  end.

(** [context.run_migrations()] of the revisions that are left; the transaction around
    it is committed or rolled back as a whole. *)
Section Running.
Variable current_timestamp : string.
Variable gen_random_uuid : data -> string.
Variable cast : sqltype -> string -> option string.

Fixpoint run_migrations (rs : list revision) (sd : schema * data) : option (schema * data) :=
  match rs with
  | [] => Some sd
  | r :: rs' =>
      sd' ← run_script current_timestamp gen_random_uuid cast (upgrade r sd.1) sd;
      run_migrations rs' sd'
  end.

Definition do_run_migrations (rs : list revision) (sd : schema * data) : bool * (schema * data) :=
  match run_migrations rs sd with Some sd' => (true, sd') | None => (false, sd) end.
End Running.
