(* ===== verification/MigrationFlow.v ===== *)
(** * What the schema history comes to

    The schema the ORM classes of [db/models.py] declare, and what the revisions of
    [Migrations] lead to: the declared schema up to a list of differences, from any
    revision and with every row preserved, and back. *)

From S2P Require Import Prelude Enums Migrations.
From stdpp Require Import gmap.

(** ** The declared schema

    [Enum(X)] is the type named after the class, with the members' names; [index=True]
    is an index [ix_<table>_<column>], unique with [unique=True]; a client-side
    [default] declares nothing. *)

Definition signal_status_name (s : SignalStatusEnum) : string :=
  match s with SigStatus.QUEUED => "QUEUED" | SigStatus.PUBLISHED => "PUBLISHED" | SigStatus.FAILED => "FAILED" end.
Definition audience_name (a : BroadcastAudienceEnum) : string :=
  match a with Audience.PRIVATE => "PRIVATE" | Audience.PUBLIC => "PUBLIC" end.
Definition log_kind_name (k : BroadcastLogKindEnum) : string :=
  match k with LogKind.SIGNAL => "SIGNAL" | LogKind.EXECUTION => "EXECUTION" end.
Definition log_status_name (s : BroadcastLogStatusEnum) : string :=
  match s with
  | LogStatus.PENDING => "PENDING" | LogStatus.SENDING => "SENDING"
  | LogStatus.DELIVERED => "DELIVERED" | LogStatus.FAILED => "FAILED"
  end.
Definition platform_name (p : BotPlatformTypeEnum) : string := match p with Platform.TELEGRAM => "TELEGRAM" end.

Definition declared_types : gmap string (list string) := list_to_map
  [ ("signalactionenum", map action_value action_members);
    ("signalstatusenum", map signal_status_name [SigStatus.QUEUED; SigStatus.PUBLISHED; SigStatus.FAILED]);
    ("tradestatusenum", map trade_status_value
       [TradeStatus.OPENED; TradeStatus.REJECTED; TradeStatus.PARTIALLY_CLOSED; TradeStatus.CLOSED; TradeStatus.FLAT]);
    ("markettypeenum", map market_value [Market.FOREX; Market.CRYPTO]);
    ("botplatformtypeenum", map platform_name [Platform.TELEGRAM]);
    ("broadcastaudienceenum", map audience_name [Audience.PRIVATE; Audience.PUBLIC]);
    ("broadcaststatusenum", map cycle_status_value [CycleStatus.RUNNING; CycleStatus.TP1; CycleStatus.CLOSED]);
    ("broadcastlogkindenum", map log_kind_name [LogKind.SIGNAL; LogKind.EXECUTION]);
    ("broadcastlogstatusenum", map log_status_name
       [LogStatus.PENDING; LogStatus.SENDING; LogStatus.DELIVERED; LogStatus.FAILED]) ].

(** [mapped_column(type, nullable=.., server_default=.., index=.., unique=..)]. *)
Record mapped_column := MappedColumn { mc_name : string; mc_column : sqlcolumn; mc_index : bool; mc_unique : bool }.

Definition plain (c : string) (ty : sqltype) : mapped_column := MappedColumn c (NOT_NULL ty) false false.
Definition optional (c : string) (ty : sqltype) : mapped_column := MappedColumn c (NULLABLE ty) false false.
Definition server_default (c : string) (ty : sqltype) (df : sqldefault) : mapped_column :=
  MappedColumn c (DEFAULTING ty df) false false.
Definition indexed (m : mapped_column) : mapped_column := MappedColumn (mc_name m) (mc_column m) true (mc_unique m).
Definition uniquely (m : mapped_column) : mapped_column := MappedColumn (mc_name m) (mc_column m) (mc_index m) true.

(** A class: its table, columns, foreign keys and [UniqueConstraint]s. *)
Record orm_class := OrmClass {
  tablename : string; mapped : list mapped_column; fkeys : list foreign_key; table_args : list (string * list string)
}.

Definition base_columns : list mapped_column :=
  [ plain "id" UUID; server_default "createdAt" TIMESTAMPTZ Now; server_default "updatedAt" TIMESTAMPTZ Now ].

Definition signal_class : orm_class := OrmClass "signals"
  [ plain "strategy" (VARCHAR 50); indexed (plain "symbol" (VARCHAR 50)); plain "timeframe" (VARCHAR 20);
    plain "timestamp" TIMESTAMPTZ; indexed (optional "signal_uxid" (VARCHAR 16));
    plain "action" (ENUM "signalactionenum"); plain "price" (NUMERIC 20 8); plain "quantity" (NUMERIC 20 8);
    optional "sl" (NUMERIC 20 8); optional "tp1" (NUMERIC 20 8); optional "tp2" (NUMERIC 20 8);
    plain "is_running" BOOLEAN; plain "risk_percent" (NUMERIC 10 4); plain "is_scale_position" BOOLEAN;
    optional "scale_strategy" (VARCHAR 50);
    indexed (server_default "status" (ENUM "signalstatusenum") (Literal "QUEUED"));
    server_default "attempts" INTEGER (Literal "0"); optional "last_attempt" TIMESTAMPTZ;
    optional "delivery_key" (VARCHAR 128); optional "indicators" JSONB; optional "inputs" JSONB; optional "raw" JSONB ]
  [] [("uq_signals_delivery_key", ["delivery_key"])].

Definition trade_class : orm_class := OrmClass "trades"
  [ indexed (plain "account_id" (VARCHAR 50)); optional "market" (ENUM "markettypeenum"); optional "gateway" (VARCHAR 50);
    optional "account_leverage" INTEGER; optional "account_balance_init" (NUMERIC 20 8);
    optional "account_balance" (NUMERIC 20 8); plain "strategy" (VARCHAR 50); indexed (plain "strategy_code" (VARCHAR 255));
    indexed (optional "ref_id" (VARCHAR 255)); indexed (plain "symbol" (VARCHAR 50));
    plain "action" (ENUM "signalactionenum"); plain "price" (NUMERIC 20 8); plain "quantity" (NUMERIC 20 8);
    optional "sl" (NUMERIC 20 8); optional "tp1" (NUMERIC 20 8); optional "tp2" (NUMERIC 20 8);
    plain "is_running" BOOLEAN; plain "risk_percent" (NUMERIC 10 4); optional "comment" (VARCHAR 255);
    optional "gateway_return_code" INTEGER; plain "status" (ENUM "tradestatusenum");
    optional "last_action" (VARCHAR 20); optional "reject_reason" (VARCHAR 255) ]
  [] [("uq_trades_market_gateway_account_ref", ["market"; "gateway"; "account_id"; "ref_id"])].

Definition account_class : orm_class := OrmClass "accounts"
  [ indexed (plain "account_id" (VARCHAR 50)); optional "account_name" (VARCHAR 255);
    optional "account_balance" (NUMERIC 20 8); plain "market" (ENUM "markettypeenum"); optional "gateway" (VARCHAR 50);
    optional "last_activity_at" TIMESTAMPTZ; server_default "settings" JSONB (Literal "{}") ]
  [] [("uq_accounts_market_gateway_account_id", ["market"; "gateway"; "account_id"])].

Definition account_bot_link_class : orm_class := OrmClass "account_bot_links"
  [ indexed (plain "account_id" UUID); plain "platform" (ENUM "botplatformtypeenum");
    indexed (plain "platform_user_id" (VARCHAR 64)); server_default "trade_cards_enabled" BOOLEAN (Literal "false") ]
  [ForeignKey "account_id" "accounts" CASCADE]
  [("uq_account_bot_links_platform_user_account", ["platform"; "platform_user_id"; "account_id"])].

Definition account_link_token_class : orm_class := OrmClass "account_link_tokens"
  [ indexed (plain "account_id" UUID); uniquely (indexed (plain "token" UUID)); optional "expires_at" TIMESTAMPTZ;
    optional "revoked_at" TIMESTAMPTZ; optional "last_used_at" TIMESTAMPTZ ]
  [ForeignKey "account_id" "accounts" CASCADE] [].

Definition bot_session_class : orm_class := OrmClass "bot_sessions"
  [ plain "platform" (ENUM "botplatformtypeenum"); indexed (plain "platform_user_id" (VARCHAR 64));
    optional "active_account_id" UUID ]
  [ForeignKey "active_account_id" "accounts" SET_NULL]
  [("uq_bot_sessions_platform_user", ["platform"; "platform_user_id"])].

Definition broadcast_message_class : orm_class := OrmClass "broadcast_messages"
  [ indexed (plain "strategy" (VARCHAR 50)); indexed (plain "signal_uxid" (VARCHAR 16)); plain "symbol" (VARCHAR 50);
    optional "timeframe" (VARCHAR 20); plain "actions" TEXT; plain "latest_action" (ENUM "signalactionenum");
    indexed (server_default "status" (ENUM "broadcaststatusenum") (Literal "RUNNING")); plain "events" JSONB;
    server_default "last_seq" BIGINT (Literal "0"); optional "last_broadcast_at" TIMESTAMPTZ ]
  [] [("uq_broadcast_messages_symbol_strategy_signal_uxid", ["symbol"; "strategy"; "signal_uxid"])].

Definition broadcast_message_chat_class : orm_class := OrmClass "broadcast_message_chats"
  [ indexed (plain "broadcast_message_id" UUID); plain "audience" (ENUM "broadcastaudienceenum");
    indexed (plain "chat_id" (VARCHAR 64)); optional "message_id" (VARCHAR 64); optional "message" TEXT;
    server_default "delivered_seq" BIGINT (Literal "0"); optional "notified_event_count" INTEGER;
    optional "last_error" (VARCHAR 255) ]
  [ForeignKey "broadcast_message_id" "broadcast_messages" CASCADE]
  [("uq_broadcast_message_chats_message_chat", ["broadcast_message_id"; "chat_id"])].

Definition broadcast_message_worker_class : orm_class := OrmClass "broadcast_message_workers"
  [ indexed (plain "broadcast_message_id" UUID); indexed (plain "worker_id" (VARCHAR 128));
    plain "account_id" (VARCHAR 50); optional "market" (ENUM "markettypeenum"); optional "gateway" (VARCHAR 50);
    plain "latest_status" (ENUM "tradestatusenum"); optional "latest_action" (VARCHAR 20);
    optional "reject_reason" (VARCHAR 255); optional "last_event_at" TIMESTAMPTZ ]
  [ForeignKey "broadcast_message_id" "broadcast_messages" CASCADE]
  [("uq_broadcast_message_workers_message_worker", ["broadcast_message_id"; "worker_id"])].

Definition broadcast_message_log_class : orm_class := OrmClass "broadcast_message_logs"
  [ indexed (plain "broadcast_message_id" UUID); plain "seq" BIGINT; plain "kind" (ENUM "broadcastlogkindenum");
    optional "payload" JSONB; indexed (server_default "status" (ENUM "broadcastlogstatusenum") (Literal "PENDING"));
    server_default "attempts" INTEGER (Literal "0"); optional "last_error" (VARCHAR 255);
    optional "delivered_at" TIMESTAMPTZ ]
  [ForeignKey "broadcast_message_id" "broadcast_messages" CASCADE]
  [("uq_broadcast_message_logs_message_seq", ["broadcast_message_id"; "seq"])].

Definition trade_notification_class : orm_class := OrmClass "trade_notifications"
  [ indexed (plain "trade_id" UUID); plain "platform" (ENUM "botplatformtypeenum"); indexed (plain "chat_id" (VARCHAR 64));
    plain "message_id" INTEGER; plain "status" (ENUM "tradestatusenum") ]
  [ForeignKey "trade_id" "trades" CASCADE]
  [("uq_trade_notifications_trade_platform_chat", ["trade_id"; "platform"; "chat_id"])].

Definition broker_setting_class : orm_class := OrmClass "broker_settings"
  [ indexed (plain "key" (VARCHAR 255)); plain "value" TEXT ] [] [("uq_broker_settings_key", ["key"])].

Definition orm_classes : list orm_class :=
  [ signal_class; trade_class; account_class; account_bot_link_class; account_link_token_class; bot_session_class;
    broadcast_message_class; broadcast_message_chat_class; broadcast_message_worker_class; broadcast_message_log_class;
    trade_notification_class; broker_setting_class ].

Definition declared_table (c : orm_class) : sqltable :=
  Table (columns (map (fun m => (mc_name m, mc_column m)) (mapped c ++ base_columns))) ["id"] (fkeys c) ∅.

Definition declared_indexes (c : orm_class) : list (string * sqlindex) :=
  map (fun m => ("ix_" +:+ tablename c +:+ "_" +:+ mc_name m, Index (tablename c) [mc_name m] (mc_unique m) false))
    (List.filter mc_index (mapped c)) ++
  map (fun u => (u.1, unique_constraint (tablename c) u.2)) (table_args c).

(** [Base.metadata]. *)
Definition target_metadata : schema :=
  Schema declared_types ∅ (list_to_map (map (fun c => (tablename c, declared_table c)) orm_classes))
    (list_to_map (concat (map declared_indexes orm_classes))).

(** ** The differences *)

Definition with_default (c : string) (df : sqldefault) : sqltable -> sqltable :=
  set_columns (alter (fun col => Column (col_type col) (col_nullable col) (Some df)) c).

Definition rename_index (old new : string) (ixs : gmap string sqlindex) : gmap string sqlindex :=
  match ixs !! old with Some ix => <[new := ix]> (delete old ixs) | None => ixs end.

(** What the revisions have and the classes do not declare: the trigger functions and
    triggers, the defaults of the first two tables, and another name for the index on
    [signals.status]. *)
Definition undeclared (s : schema) : schema :=
  set_functions (fun _ => {[ "update_updated_at_column" := TouchUpdatedAt;
                             "notify_broadcast_message_log" := NOTIFY_FUNCTION ]})
  (set_indexes (rename_index "ix_signals_status" "idx_signals_status")
  (set_tables (fun ts =>
     alter (fun tb => set_triggers <["trg_update_signals_updated_at" := Trigger BEFORE_UPDATE "update_updated_at_column"]>
       (with_default "id" GenRandomUuid (with_default "strategy" (Literal "gold")
       (with_default "is_running" (Literal "false") (with_default "risk_percent" (Literal "0.0")
       (with_default "is_scale_position" (Literal "false") tb)))))) "signals"
    (alter (fun tb => set_triggers <["trg_update_trades_updated_at" := Trigger BEFORE_UPDATE "update_updated_at_column"]>
       (with_default "id" GenRandomUuid (with_default "strategy" (Literal "gold")
       (with_default "is_running" (Literal "false") (with_default "risk_percent" (Literal "0.0") tb))))) "trades"
    (alter (set_triggers <["broadcast_message_logs_notify" := Trigger AFTER_INSERT "notify_broadcast_message_log"]>)
       "broadcast_message_logs" ts))) s)).

Definition head_schema : schema := undeclared target_metadata.

(** ** Keys and columns of rows *)

(** The values of a column. *)
Definition col_values (d : data) (t c : string) : list string := omap (fun r => r !! c) (rows_of d t).

Lemma elem_of_col_values d t c v : v ∈ col_values d t c <-> exists r, r ∈ rows_of d t /\ r !! c = Some v.
Proof. unfold col_values. rewrite list_elem_of_omap. done. Qed.

Lemma row_key_agree cs r1 r2 l c :
  row_key cs r1 = Some l -> row_key cs r2 = Some l -> c ∈ cs -> exists v, r1 !! c = Some v /\ r2 !! c = Some v.
Proof.
  unfold row_key. rewrite !mapM_Some. intros H1. revert r2. induction H1; intros r2 H2 Hc.
  - by apply not_elem_of_nil in Hc.
  - inversion H2; subst. apply elem_of_cons in Hc as [-> | Hc]; [by eexists | eauto].
Qed.

Lemma row_key_sub cs cs' r1 r2 l :
  cs ⊆ cs' -> row_key cs' r1 = Some l -> row_key cs' r2 = Some l ->
  exists l', row_key cs r1 = Some l' /\ row_key cs r2 = Some l'.
Proof.
  intros Hsub H1 H2. unfold row_key. induction cs as [|c cs IH]; [by eexists []|].
  destruct IH as (l' & E1 & E2); [set_solver|].
  destruct (row_key_agree cs' r1 r2 l c) as (v & V1 & V2); [done..|set_solver|].
  exists (v :: l'). simpl. by rewrite V1, V2; simpl; rewrite E1, E2.
Qed.

(** A constraint on more columns is a weaker one. *)
Lemma unique_on_sub cs cs' rs : cs ⊆ cs' -> unique_on cs rs -> unique_on cs' rs.
Proof.
  intros Hsub. unfold unique_on. induction rs as [|r rs IH]; [done|]. simpl.
  destruct (row_key cs' r) as [l|] eqn:E'.
  - destruct (row_key_sub cs cs' r r l Hsub E' E') as (l' & E & _). rewrite E.
    rewrite !NoDup_cons. intros [Hn Hd]. split; [|by apply IH].
    rewrite list_elem_of_omap. intros (r2 & Hr2 & E2). apply Hn. apply list_elem_of_omap.
    destruct (row_key_sub cs cs' r r2 l Hsub E' E2) as (l2 & A & B). exists r2. split; [done|congruence].
  - intros H. apply IH. destruct (row_key cs r); [by apply NoDup_cons in H as [_ H]|done].
Qed.

Lemma row_key_ext cs r r' : (forall c, c ∈ cs -> r' !! c = r !! c) -> row_key cs r' = row_key cs r.
Proof.
  intros H. unfold row_key. induction cs as [|c cs IH]; [done|]. simpl.
  rewrite H by set_solver. destruct (r !! c); simpl; [|done]. by rewrite IH by set_solver.
Qed.

Lemma omap_Forall2 {A B} (f : A -> option B) (l l' : list A) :
  Forall2 (fun x y => f y = f x) l l' -> omap f l' = omap f l.
Proof. induction 1 as [|x y l l' E _ IH]; [done|]. csimpl. rewrite E. by destruct (f x); rewrite IH. Qed.

Lemma unique_on_same cs rs rs' :
  Forall2 (fun r r' => forall c, c ∈ cs -> r' !! c = r !! c) rs rs' -> unique_on cs rs -> unique_on cs rs'.
Proof.
  intros H. unfold unique_on. rewrite (omap_Forall2 (row_key cs) rs rs'); [done|].
  eapply Forall2_impl; [done|]. intros r r' E. by apply row_key_ext.
Qed.

Lemma unique_on_snoc cs rs r :
  unique_on cs rs -> (forall r' l, r' ∈ rs -> row_key cs r = Some l -> row_key cs r' <> Some l) ->
  unique_on cs (rs ++ [r]).
Proof.
  unfold unique_on. intros Hd Hn. rewrite omap_app. apply NoDup_app. split; [done|]. simpl.
  destruct (row_key cs r) as [l|] eqn:E; [|split; [set_solver|constructor]].
  split; [|apply NoDup_singleton]. intros x Hx Hl. apply list_elem_of_singleton in Hl as ->.
  apply list_elem_of_omap in Hx as (r' & Hr & E'). by eapply Hn.
Qed.

Lemma unique_on_blank cs c d t : c ∈ cs -> col_values d t c = [] -> unique_on cs (rows_of d t).
Proof.
  intros Hc Hb. unfold unique_on. replace (omap (row_key cs) (rows_of d t)) with (@nil (list string)); [constructor|].
  symmetry. apply elem_of_nil_inv. intros l Hl. apply list_elem_of_omap in Hl as (r & Hr & E).
  destruct (row_key_agree cs r r l c) as (v & V & _); [done..|].
  assert (v ∈ col_values d t c) as Hin by (apply elem_of_col_values; eauto). rewrite Hb in Hin. set_solver.
Qed.

(** ** Databases that satisfy their schema *)

Lemma rows_of_insert_eq t rs (d : data) : rows_of (<[t := rs]> d) t = rs.
Proof. unfold rows_of. by rewrite lookup_insert_eq. Qed.

Lemma rows_of_insert_ne t t' rs (d : data) : t <> t' -> rows_of (<[t := rs]> d) t' = rows_of d t'.
Proof. intros H. unfold rows_of. by rewrite lookup_insert_ne. Qed.

Lemma fkey_ok_mono d d' rs fk :
  (forall v, v ∈ col_values d (fk_table fk) "id" -> v ∈ col_values d' (fk_table fk) "id") ->
  fkey_ok d rs fk -> fkey_ok d' rs fk.
Proof. unfold fkey_ok. intros H Hf. eapply Forall_impl; [done|]. intros v Hv. by apply H. Qed.

(** One table's rows change: the others stay in order when no [id] of it is lost. *)
Lemma db_ok_table s s' d t tb tb' rs :
  db_ok s d -> tables s !! t = Some tb -> tables s' = <[t := tb']> (tables s) -> types s' = types s ->
  indexes s' = indexes s -> table_ok s' (<[t := rs]> d) t tb' ->
  (forall v, v ∈ col_values d t "id" -> v ∈ col_values (<[t := rs]> d) t "id") -> db_ok s' (<[t := rs]> d).
Proof.
  intros [Hdom Hall] Ht Ets Ety Eix Hok Hid. split.
  - rewrite Ets, !dom_insert_L, Hdom. done.
  - intros t' tb'' Ht'. rewrite Ets in Ht'. destruct (decide (t' = t)) as [->|Hne].
    { rewrite lookup_insert_eq in Ht'. by simplify_eq. }
    rewrite lookup_insert_ne in Ht' by done.
    destruct (Hall t' tb'' Ht') as (H1 & H2 & H3 & H4). unfold table_ok. rewrite Eix.
    rewrite rows_of_insert_ne by done. repeat split; [|done|done|].
    { eapply Forall_impl; [done|]. intros r [Hd Hc]. split; [done|]. intros c col Hcol.
      specialize (Hc c col Hcol). unfold cell_ok, value_ok in *. by rewrite Ety. }
    eapply Forall_impl; [done|]. intros fk Hf. eapply fkey_ok_mono, Hf. intros v.
    destruct (decide (fk_table fk = t)) as [->|Hne']; [apply Hid|].
    unfold col_values. by rewrite rows_of_insert_ne.
Qed.

(** The schema asks no more than before. *)
Definition weaker_table (s s' : schema) (tb tb' : sqltable) : Prop :=
  tb_columns tb' = tb_columns tb /\ tb_pkey tb' = tb_pkey tb /\ tb_fkeys tb' = tb_fkeys tb /\
  forall c col v, tb_columns tb !! c = Some col -> value_ok s (col_type col) v -> value_ok s' (col_type col) v.

Lemma row_ok_weaker s s' tb tb' r : weaker_table s s' tb tb' -> row_ok s tb r -> row_ok s' tb' r.
Proof.
  intros (E1 & _ & _ & Hv) [Hd Hc]. unfold row_ok. rewrite E1. split; [done|].
  intros c col Hcol. specialize (Hc c col Hcol). unfold cell_ok in *. destruct (r !! c); eauto.
Qed.

Lemma table_ok_weaker s s' d t tb tb' :
  weaker_table s s' tb tb' -> indexes s' ⊆ indexes s -> table_ok s d t tb -> table_ok s' d t tb'.
Proof.
  intros W Hix (H1 & H2 & H3 & H4). pose proof W as (_ & E2 & E3 & _). unfold table_ok. rewrite E2, E3.
  repeat split; [|done| |done].
  - eapply Forall_impl; [done|]. intros r. by apply row_ok_weaker.
  - intros n ix Hn. by apply (H3 n ix), (lookup_weaken _ _ _ _ Hn).
Qed.

Lemma db_ok_weaker s s' d :
  (forall t tb', tables s' !! t = Some tb' -> exists tb, tables s !! t = Some tb /\ weaker_table s s' tb tb') ->
  dom (tables s') = dom (tables s) -> indexes s' ⊆ indexes s -> db_ok s d -> db_ok s' d.
Proof.
  intros Ht Hdom Hix [Hd Hall]. split; [congruence|].
  intros t tb' E'. destruct (Ht t tb' E') as (tb & E & W). eapply table_ok_weaker; eauto.
Qed.

Lemma weaker_table_refl s tb : weaker_table s s tb tb.
Proof. done. Qed.

(** ** What an upgrade keeps *)

(** The conversions of a script: table, column and new type. *)
Definition conversion (st : stmt) : list (string * string * sqltype) :=
  match st with ALTER_TYPE t c ty => [(t, c, ty)] | _ => [] end.
Definition conversions (sts : list stmt) : list (string * string * sqltype) := concat (map conversion sts).

Section Keeping.
Context (cast : sqltype -> string -> option string).

(** What becomes of a value under the conversions [cs]: a column among them has its cast,
    any other its old value. *)
Definition becomes (cs : list (string * string * sqltype)) (t c v v' : string) : Prop :=
  (forall ty, (t, c, ty) ∉ cs) /\ v' = v \/ exists ty, (t, c, ty) ∈ cs /\ cast ty v = Some v'.

(** [updatedAt] may be stamped. *)
Definition row_kept cs t (r r' : row) : Prop :=
  forall c v, r !! c = Some v -> c <> "updatedAt" -> exists v', r' !! c = Some v' /\ becomes cs t c v v'.

Definition rows_kept cs t (rs rs' : rows) : Prop := exists rs1 new, rs' = rs1 ++ new /\ Forall2 (row_kept cs t) rs rs1.

(** Every row of every table; the one table a revision drops is [trade_broadcast_subscriptions]. *)
Definition preserved cs (d d' : data) : Prop :=
  forall t rs, d !! t = Some rs -> t <> "trade_broadcast_subscriptions" ->
  exists rs', d' !! t = Some rs' /\ rows_kept cs t rs rs'.

Lemma becomes_same t c v : becomes [] t c v v.
Proof. left. split; [|done]. intros ty. apply not_elem_of_nil. Qed.

(** Two sets of conversions of different columns, one after the other. *)
Definition apart (cs cs' : list (string * string * sqltype)) : Prop := forall p q, p ∈ cs -> q ∈ cs' -> p.1 <> q.1.

Lemma becomes_app cs cs' t c v1 v2 v3 :
  apart cs cs' -> becomes cs t c v1 v2 -> becomes cs' t c v2 v3 -> becomes (cs ++ cs') t c v1 v3.
Proof.
  intros Ha [[Hn ->]|(ty & Hin & Hc)] [[Hn' ->]|(ty' & Hin' & Hc')].
  - left. split; [|done]. intros ty [?|?]%elem_of_app; [by eapply Hn|by eapply Hn'].
  - right. exists ty'. split; [|done]. apply elem_of_app. by right.
  - right. exists ty. split; [|done]. apply elem_of_app. by left.
  - destruct (Ha _ _ Hin Hin'). done.
Qed.

Lemma row_kept_app cs cs' t r1 r2 r3 :
  apart cs cs' -> row_kept cs t r1 r2 -> row_kept cs' t r2 r3 -> row_kept (cs ++ cs') t r1 r3.
Proof.
  intros Ha H12 H23 c v Hc Hn. destruct (H12 c v Hc Hn) as (v2 & E2 & R2).
  destruct (H23 c v2 E2 Hn) as (v3 & E3 & R3). exists v3. split; [done|by eapply becomes_app].
Qed.

Lemma rows_kept_app cs cs' t rs1 rs2 rs3 :
  apart cs cs' -> rows_kept cs t rs1 rs2 -> rows_kept cs' t rs2 rs3 -> rows_kept (cs ++ cs') t rs1 rs3.
Proof.
  intros Hap (a & n & -> & Ha) (b & m & -> & Hb). apply Forall2_app_inv_l in Hb as (b1 & b2 & Hb1 & Hb2 & ->).
  exists b1, (b2 ++ m). split; [by rewrite app_assoc|]. clear Hb2. revert b1 Hb1.
  induction Ha as [|r r1 l l1 Hr _ IH]; intros b1 Hb1; inversion_clear Hb1; constructor; [by eapply row_kept_app|by apply IH].
Qed.

Lemma preserved_app cs cs' d1 d2 d3 :
  apart cs cs' -> preserved cs d1 d2 -> preserved cs' d2 d3 -> preserved (cs ++ cs') d1 d3.
Proof.
  intros Ha H12 H23 t rs Ht Hn. destruct (H12 t rs Ht Hn) as (rs2 & E2 & K2).
  destruct (H23 t rs2 E2 Hn) as (rs3 & E3 & K3). exists rs3. split; [done|by eapply rows_kept_app].
Qed.

Lemma preserved_trans d1 d2 d3 : preserved [] d1 d2 -> preserved [] d2 d3 -> preserved [] d1 d3.
Proof. apply (preserved_app [] []). by intros p q ?%not_elem_of_nil. Qed.

(** Only which conversions there are matters. *)
Lemma preserved_equiv cs cs' d d' : (forall p, p ∈ cs <-> p ∈ cs') -> preserved cs d d' -> preserved cs' d d'.
Proof.
  intros He H t rs Ht Hn. destruct (H t rs Ht Hn) as (rs' & E & rs1 & new & -> & HF). exists (rs1 ++ new). split; [done|].
  exists rs1, new. split; [done|]. eapply Forall2_impl; [exact HF|]. intros r r' Hr c v Hc Hu.
  destruct (Hr c v Hc Hu) as (v' & E' & Hb). exists v'. split; [done|]. unfold becomes in *. setoid_rewrite <-He. exact Hb.
Qed.

Lemma row_kept_refl t r : row_kept [] t r r.
Proof. intros c v Hc _. exists v. split; [done|apply becomes_same]. Qed.

Lemma rows_kept_refl t rs : rows_kept [] t rs rs.
Proof. exists rs, []. rewrite app_nil_r. split; [done|]. apply Forall_Forall2_diag, Forall_true, row_kept_refl. Qed.

Lemma preserved_refl d : preserved [] d d.
Proof. intros t rs Ht _. exists rs. split; [done|apply rows_kept_refl]. Qed.

#[export] Instance preserved_nil_pre : PreOrder (preserved []).
Proof. split; [exact preserved_refl|exact preserved_trans]. Qed.

Lemma preserved_table cs d t rs rs' :
  (forall p, p ∈ cs -> p.1.1 = t) -> d !! t = Some rs -> rows_kept cs t rs rs' -> preserved cs d (<[t := rs']> d).
Proof.
  intros Hcs Ht Hk t' rs0 Ht' _. destruct (decide (t' = t)) as [->|Hne].
  - simplify_eq. exists rs'. by rewrite lookup_insert_eq.
  - exists rs0. rewrite lookup_insert_ne by done. split; [done|]. exists rs0, []. rewrite app_nil_r. split; [done|].
    apply Forall_Forall2_diag, Forall_true. intros r c v Hc _. exists v. split; [done|]. left. split; [|done].
    intros ty Hin%Hcs. by cbn in Hin.
Qed.

Lemma rows_kept_Forall2 cs t rs rs' : Forall2 (row_kept cs t) rs rs' -> rows_kept cs t rs rs'.
Proof. intros H. exists rs', []. by rewrite app_nil_r. Qed.

Lemma rows_kept_snoc t rs r : rows_kept [] t rs (rs ++ [r]).
Proof. exists rs, [r]. split; [done|]. apply Forall_Forall2_diag, Forall_true, row_kept_refl. Qed.
End Keeping.

(** ** A check of a script

    Run over the statements and the schema alone, it tells that no row stands in the
    way of a script and that no value is lost.  It is given facts that the script has
    established: a column that is NULL in every row, a table without rows, columns
    whose unique index was dropped. *)

Inductive known := Blank (t c : string) | Empty (t : string) | Keyed (t : string) (cs : list string).

#[global] Instance known_eq_dec : EqDecision known.
Proof. solve_decision. Defined.

Definition fact_ok (d : data) (f : known) : Prop :=
  match f with
  | Blank t c => col_values d t c = []
  | Empty t => rows_of d t = []
  | Keyed t cs => unique_on cs (rows_of d t)
  end.

(** The columns a statement may give new values to. *)
Fixpoint writes (st : stmt) (t c : string) : bool :=
  match st with
  | ADD_COLUMN t' c' _ | ALTER_TYPE t' c' _ => String.eqb t t' && String.eqb c c'
  | INSERT_SETTINGS _ => String.eqb t "broker_settings"
  | BACKFILL_TRADES => String.eqb t "trades" && bool_decide (c ∈ ["market"; "gateway"; "updatedAt"])
  | SEED_TOKENS => String.eqb t "account_link_tokens"
  | UNMARK_TP1 => String.eqb t "broadcast_messages" && bool_decide (c ∈ ["status"; "updatedAt"])
  | IF_EXISTS st' | IF_NOT_EXISTS st' => writes st' t c
  | _ => false
  end.

(** The table whose rows a statement changes. *)
Fixpoint touches (st : stmt) (t : string) : bool :=
  match st with
  | ADD_COLUMN t' _ _ | DROP_COLUMN t' _ | ALTER_TYPE t' _ _ => String.eqb t t'
  | INSERT_SETTINGS _ | DELETE_SETTINGS _ => String.eqb t "broker_settings"
  | BACKFILL_TRADES => String.eqb t "trades"
  | SEED_TOKENS => String.eqb t "account_link_tokens"
  | UNMARK_TP1 => String.eqb t "broadcast_messages"
  | IF_EXISTS st' | IF_NOT_EXISTS st' => touches st' t
  | _ => false
  end.

Definition is_enum (ty : sqltype) : bool := match ty with ENUM _ => true | _ => false end.

(** A column of no key. *)
Definition keyless (s : schema) (t : string) (tb : sqltable) (c : string) : bool :=
  bool_decide (c <> "id") && bool_decide (c ∉ tb_pkey tb) && bool_decide (c ∉ map fk_column (tb_fkeys tb)) &&
  bool_decide (map_Forall (fun _ ix => ix_table ix = t -> c ∉ ix_columns ix) (indexes s)).

Definition default_fits (s : schema) (col : sqlcolumn) : bool :=
  match col_default col with
  | None => col_nullable col
  | Some (Literal x) => bool_decide (value_ok s (col_type col) x)
  | Some _ => negb (is_enum (col_type col))
  end.

(** A row with values for [given] can be inserted, when its [id] and its [key] are new. *)
Definition insertable (s : schema) (t : string) (given key : list string) (fks : list foreign_key) : bool :=
  match tables s !! t with
  | Some tb =>
      bool_decide (tb_pkey tb = ["id"]) && bool_decide (tb_fkeys tb = fks) &&
      forallb (fun c => bool_decide (is_Some (tb_columns tb !! c))) given &&
      bool_decide (map_Forall (fun c col => (if bool_decide (c ∈ given) then negb (is_enum (col_type col))
                                             else default_fits s col) = true) (tb_columns tb)) &&
      bool_decide (map_Forall (fun _ ix => ix_table ix = t -> ix_unique ix = true -> ix_columns ix = key) (indexes s))
  | None => false
  end.

Definition same_type (s : schema) (t t' c : string) : bool :=
  match column_of s t c, column_of s t' c with
  | Some col, Some col' => bool_decide (col_type col = col_type col') && col_nullable col
  | _, _ => false
  end.

Definition backfillable (facts : list known) (s : schema) : bool :=
  match tables s !! "trades" with
  | Some tb =>
      bool_decide (Blank "trades" "gateway" ∈ facts) && same_type s "trades" "accounts" "market" &&
      same_type s "trades" "accounts" "gateway" && forallb (keyless s "trades" tb) ["market"; "gateway"; "updatedAt"] &&
      match tb_columns tb !! "updatedAt" with Some col => negb (is_enum (col_type col)) | None => false end
  | None => false
  end.

(** No two rows can agree on [cs]. *)
Definition gives_key (t : string) (cs : list string) (f : known) : bool :=
  match f with
  | Blank t' c => String.eqb t' t && bool_decide (c ∈ cs)
  | Empty t' => String.eqb t' t
  | Keyed t' cs' => String.eqb t' t && bool_decide (cs' ⊆ cs)
  end.

Fixpoint safe_stmt (facts : list known) (s : schema) (st : stmt) : bool :=
  match st with
  | CREATE_TYPE _ _ | DROP_TYPE _ | ADD_VALUE _ _ _ | CREATE_FUNCTION _ _ | CREATE_TRIGGER _ _ _ | DROP_TRIGGER _ _
  | CREATE_TABLE _ _ _ | DROP_INDEX _ | DROP_CONSTRAINT _ _ => true
  | DROP_TABLE n => String.eqb n "trade_broadcast_subscriptions"
  | ADD_COLUMN t c col =>
      match tables s !! t with
      | Some tb => keyless s t tb c && default_fits s col && negb (bool_decide (col_default col = Some GenRandomUuid))
      | None => false
      end
  | ALTER_TYPE t c ty =>
      match tables s !! t with Some tb => keyless s t tb c && negb (is_enum ty) | None => false end
  | CREATE_INDEX _ ix =>
      negb (ix_unique ix) || existsb (gives_key (ix_table ix) (ix_columns ix)) facts
  | INSERT_SETTINGS _ => insertable s "broker_settings" ["id"; "key"; "value"] ["key"] []
  | BACKFILL_TRADES => backfillable facts s
  | SEED_TOKENS =>
      insertable s "account_link_tokens" ["id"; "account_id"; "token"; "createdAt"; "updatedAt"] ["token"]
        [ForeignKey "account_id" "accounts" CASCADE] &&
      match column_of s "accounts" "id" with Some col => negb (col_nullable col) | None => false end
  | IF_EXISTS (ALTER_TYPE _ _ _) | IF_NOT_EXISTS (ALTER_TYPE _ _ _) => false
  | IF_EXISTS st' => negb (present s st') || safe_stmt facts s st'
  | IF_NOT_EXISTS st' => present s st' || safe_stmt facts s st'
  | _ => false
  end.

(** The facts after a statement. *)
Fixpoint learns (s : schema) (st : stmt) : list known :=
  match st with
  | ADD_COLUMN t c (Column _ _ None) => [Blank t c]
  | CREATE_TABLE n _ _ => [Empty n]
  | DROP_INDEX n | DROP_CONSTRAINT n _ =>
      match indexes s !! n with Some ix => if ix_unique ix then [Keyed (ix_table ix) (ix_columns ix)] else [] | None => [] end
  | IF_EXISTS st' => if present s st' then learns s st' else []
  | IF_NOT_EXISTS st' => if present s st' then [] else learns s st'
  | _ => []
  end.

Definition survives (st : stmt) (f : known) : bool :=
  match f with Blank t c => negb (writes st t c) | Empty t | Keyed t _ => negb (touches st t) end.

Definition facts_after (s : schema) (st : stmt) (facts : list known) : list known :=
  learns s st ++ List.filter (survives st) facts.

(** [later] are the conversions of the scripts that follow. *)
Fixpoint safe_script (facts : list known) (later : list (string * string * sqltype)) (s : schema) (sts : list stmt) : bool :=
  match sts with
  | [] => true
  | st :: sts' =>
      safe_stmt facts s st && forallb (fun p => negb (writes st p.1.1 p.1.2)) (conversions sts' ++ later) &&
      match exec_schema st s with Some s' => safe_script (facts_after s st facts) later s' sts' | None => false end
  end.

(** The columns [922c6a79dffc] converts, while it is to run. *)
Definition converted_columns : list (string * string * sqltype) := conversions (upgrade_922c6a79dffc no_schema).
Definition pending (rs : list revision) : list (string * string * sqltype) :=
  if bool_decide ("922c6a79dffc" ∈ map revision_id rs) then converted_columns else [].

Fixpoint safe_history (rs : list revision) (s : schema) : bool :=
  match rs with
  | [] => true
  | r :: rs' =>
      safe_script [] (pending rs') s (upgrade r s) &&
      forallb (fun p => bool_decide (p ∈ pending rs)) (conversions (upgrade r s) ++ pending rs') &&
      forallb (fun p => bool_decide (p ∈ conversions (upgrade r s) ++ pending rs')) (pending rs) &&
      forallb (fun p => negb (bool_decide (p.1 ∈ map fst (pending rs')))) (conversions (upgrade r s)) &&
      match run_schema (upgrade r s) s with Some s' => safe_history rs' s' | None => false end
  end.

(** ** The check is sound *)

Lemma value_ok_not_enum s ty v : is_enum ty = false -> value_ok s ty v.
Proof. by destruct ty. Qed.

Lemma tables_weaker_same s s' :
  tables s' = tables s -> (forall n, default [] (types s !! n) ⊆ default [] (types s' !! n)) ->
  forall t tb', tables s' !! t = Some tb' -> exists tb, tables s !! t = Some tb /\ weaker_table s s' tb tb'.
Proof.
  intros E Ht t tb' Htb. rewrite E in Htb. exists tb'. split; [done|]. repeat split.
  intros c col v _. unfold value_ok. destruct (col_type col); try done. apply Ht.
Qed.

(** The new schema differs in its types, functions or indexes only. *)
Lemma db_ok_same_tables s s' d :
  tables s' = tables s -> (forall n, default [] (types s !! n) ⊆ default [] (types s' !! n)) ->
  indexes s' ⊆ indexes s -> db_ok s d -> db_ok s' d.
Proof.
  intros E Ht Hix. apply db_ok_weaker; [by apply tables_weaker_same|by rewrite E|done].
Qed.

Lemma elem_of_add_before x label before labels : x ∈ labels -> x ∈ add_before label before labels.
Proof.
  intros Hx. unfold add_before. destruct before as [b|]; [|set_solver].
  apply list_elem_of_In, in_flat_map. exists x. split; [by apply list_elem_of_In|].
  destruct (String.eqb x b); simpl; auto.
Qed.

Lemma db_ok_add_value s n label before labels d :
  types s !! n = Some labels -> db_ok s d -> db_ok (set_types <[n := add_before label before labels]> s) d.
Proof.
  intros E. apply db_ok_same_tables; [done| |done]. intros n' x. simpl.
  destruct (decide (n' = n)) as [->|Hne]; [|by rewrite lookup_insert_ne].
  rewrite lookup_insert_eq, E. apply elem_of_add_before.
Qed.

Lemma db_ok_create_type s n labels d :
  types s !! n = None -> db_ok s d -> db_ok (set_types <[n := labels]> s) d.
Proof.
  intros E. apply db_ok_same_tables; [done| |done]. intros n' x. simpl.
  destruct (decide (n' = n)) as [->|Hne]; [by rewrite E; intros ?%not_elem_of_nil|by rewrite lookup_insert_ne].
Qed.

Lemma db_ok_drop_type s n d :
  ~ map_Exists (type_used n) (tables s) -> db_ok s d -> db_ok (set_types (delete n) s) d.
Proof.
  intros Hn. apply db_ok_weaker; [|done..]. intros t tb Htb. exists tb. split; [done|]. repeat split.
  intros c col v Hcol. unfold value_ok. destruct (col_type col) as [| | | | | | | | | |n'] eqn:Hty; try done.
  assert (n' <> n) as Hne; [|by simpl; rewrite lookup_delete_ne].
  intros ->. apply Hn. exists t, tb. split; [done|]. by exists c, col.
Qed.

(** A table's triggers do not matter to its rows. *)
Lemma db_ok_triggers s t f d : db_ok s d -> db_ok (set_tables (alter (set_triggers f) t) s) d.
Proof.
  apply db_ok_weaker; [|by simpl; rewrite dom_alter_L|done]. simpl. intros t' tb'.
  destruct (decide (t' = t)) as [->|Hne].
  - rewrite lookup_alter_eq. destruct (tables s !! t) as [tb|]; [|done]. intros [= <-]. by exists tb.
  - rewrite lookup_alter_ne by done. by exists tb'.
Qed.

Lemma db_ok_create_table s n tb uq d :
  has_relation s n = false -> existsb (has_relation s) (map fst uq) = false ->
  db_ok s d ->
  db_ok (set_indexes (fun ixs => unique_constraints n uq ∪ ixs) (set_tables <[n := tb]> s)) (<[n := []]> d).
Proof.
  intros Hn Huq [Hdom Hall]. apply orb_false_elim in Hn as [Hnt _].
  apply bool_decide_eq_false in Hnt. apply eq_None_not_Some in Hnt.
  split; [simpl; rewrite !dom_insert_L, Hdom; done|]. intros t tb' Ht. simpl in Ht.
  destruct (decide (t = n)) as [->|Hne].
  - rewrite lookup_insert_eq in Ht. simplify_eq. unfold table_ok. rewrite rows_of_insert_eq.
    repeat split; [done|right; constructor| |].
    + intros m ix _ _ _. constructor.
    + apply Forall_true. intros fk. unfold fkey_ok. by apply Forall_nil.
  - rewrite lookup_insert_ne in Ht by done. destruct (Hall t tb' Ht) as (H1 & H2 & H3 & H4).
    unfold table_ok. rewrite rows_of_insert_ne by done. repeat split; [done|done| |].
    + intros m ix Hm Hixt. simpl in Hm. apply lookup_union_Some_raw in Hm as [Hm|[_ Hm]]; [|by apply (H3 m ix)].
      apply elem_of_list_to_map_2, list_elem_of_fmap in Hm as (u & [= -> ->] & _). by simpl in Hixt.
    + eapply Forall_impl; [done|]. intros fk. apply fkey_ok_mono. intros v.
      destruct (decide (fk_table fk = n)) as [->|Hf]; [|by unfold col_values; rewrite rows_of_insert_ne].
      unfold col_values, rows_of. replace (d !! n) with (@None rows); [by intros ?%not_elem_of_nil|].
      symmetry. apply not_elem_of_dom. rewrite Hdom. by apply not_elem_of_dom.
Qed.

Lemma db_ok_drop_table s n d :
  ~ map_Exists (references n) (delete n (tables s)) -> db_ok s d ->
  db_ok (set_indexes (filter (fun p => ix_table p.2 <> n)) (set_tables (delete n) s)) (delete n d).
Proof.
  intros Href [Hdom Hall]. split; [simpl; by rewrite !dom_delete_L, Hdom|].
  intros t tb Ht. simpl in Ht. pose proof Ht as Ht0. apply lookup_delete_Some in Ht as [Hne Ht].
  destruct (Hall t tb Ht) as (H1 & H2 & H3 & H4).
  assert (forall t', n <> t' -> rows_of (delete n d) t' = rows_of d t') as Hrows
    by (intros; unfold rows_of; by rewrite lookup_delete_ne).
  unfold table_ok. rewrite Hrows by done. repeat split; [done|done| |].
  - intros m ix Hm. apply map_lookup_filter_Some in Hm as [Hm _]. by apply (H3 m ix).
  - apply Forall_forall. intros fk Hfk. rewrite Forall_forall in H4. eapply fkey_ok_mono, (H4 fk Hfk).
    intros v. unfold col_values. rewrite Hrows; [done|]. intros Heq. apply Href.
    exists t, tb. split; [done|]. apply Exists_exists. by exists fk.
Qed.

(** ** Rows changed in place *)

Definition same_keys (s : schema) (t : string) (tb : sqltable) (r r' : row) : Prop :=
  forall c, keyless s t tb c = false -> r' !! c = r !! c.

Lemma keyless_spec s t tb c :
  keyless s t tb c = true ->
  c <> "id" /\ c ∉ tb_pkey tb /\ c ∉ map fk_column (tb_fkeys tb) /\
  forall n ix, indexes s !! n = Some ix -> ix_table ix = t -> c ∉ ix_columns ix.
Proof.
  unfold keyless. rewrite !andb_true_iff. intros [[[H1 H2] H3] H4]. apply bool_decide_eq_true in H1, H2, H3, H4.
  repeat split; [done..|]. intros n ix Hn. by apply (H4 n ix).
Qed.

Lemma not_keyless s t tb c (P : Prop) : (keyless s t tb c = true -> ~ P) -> P -> keyless s t tb c = false.
Proof. intros H HP. destruct (keyless s t tb c) eqn:E; [exfalso; by apply H|done]. Qed.

Lemma Forall2_keys s t tb (rs rs' : rows) (P : string -> Prop) :
  (forall c, P c -> keyless s t tb c = false) -> Forall2 (same_keys s t tb) rs rs' ->
  Forall2 (fun r r' => forall c, P c -> r' !! c = r !! c) rs rs'.
Proof. intros H HF. eapply Forall2_impl; [done|]. intros r r' E c HP. by apply E, H. Qed.

Lemma same_ids s t tb rs d :
  Forall2 (same_keys s t tb) (rows_of d t) rs -> col_values (<[t := rs]> d) t "id" = col_values d t "id".
Proof.
  intros HF. unfold col_values. rewrite rows_of_insert_eq. apply omap_Forall2.
  eapply Forall2_impl; [done|]. intros r r' E. apply E. by apply (not_keyless _ _ _ _ ("id" = "id")); [intros [? _]%keyless_spec|].
Qed.

Lemma table_ok_rows s s' d t tb tb' rs :
  table_ok s d t tb -> Forall2 (same_keys s t tb) (rows_of d t) rs -> Forall (row_ok s' tb') rs ->
  tb_pkey tb' = tb_pkey tb -> tb_fkeys tb' = tb_fkeys tb -> indexes s' = indexes s ->
  table_ok s' (<[t := rs]> d) t tb'.
Proof.
  intros (H1 & H2 & H3 & H4) HF Hrow E1 E2 E3. unfold table_ok. rewrite rows_of_insert_eq, E1, E2, E3.
  repeat split; [done| | |].
  - destruct H2 as [H2|H2]; [by left|right]. eapply unique_on_same, H2.
    eapply Forall2_keys, HF. intros c Hc. eapply (not_keyless _ _ _ _ (c ∈ tb_pkey tb)); [|done].
    by intros (_ & ? & _)%keyless_spec.
  - intros n ix Hn Ht Hu. eapply unique_on_same, (H3 n ix Hn Ht Hu).
    eapply Forall2_keys, HF. intros c Hc. eapply (not_keyless _ _ _ _ (c ∈ ix_columns ix)); [|done].
    intros (_ & _ & _ & Hix)%keyless_spec. by eapply Hix.
  - apply Forall_forall. intros fk Hfk. rewrite Forall_forall in H4. specialize (H4 fk Hfk).
    unfold fkey_ok in *. rewrite (omap_Forall2 (fun r => r !! fk_column fk) (rows_of d t) rs).
    + eapply Forall_impl; [done|]. intros v Hv.
      destruct (decide (t = fk_table fk)) as [->|Hne]; [|by rewrite rows_of_insert_ne].
      pose proof (same_ids _ _ _ _ _ HF) as E. unfold col_values in E. by rewrite E.
    + eapply Forall2_impl; [done|]. intros r r' E. apply E.
      apply (not_keyless _ _ _ _ (fk_column fk ∈ map fk_column (tb_fkeys tb))); [by intros (_ & _ & ? & _)%keyless_spec|].
      apply list_elem_of_fmap. by exists fk.
Qed.

(** ** Statements that change rows *)

Section Statements.
Context (current_timestamp : string) (gen_random_uuid : data -> string) (cast : sqltype -> string -> option string).

(** [gen_random_uuid()] is a value not stored yet. *)
Definition fresh_uuids : Prop := forall d t c, gen_random_uuid d ∉ col_values d t c.

Abbreviation exec_data := (Migrations.exec_data current_timestamp gen_random_uuid cast).
Abbreviation insert_row := (Migrations.insert_row current_timestamp gen_random_uuid).
Abbreviation with_defaults := (Migrations.with_defaults current_timestamp gen_random_uuid).
Abbreviation insert_settings := (Migrations.insert_settings current_timestamp gen_random_uuid).
Abbreviation seed_tokens := (Migrations.seed_tokens current_timestamp gen_random_uuid).

(** A statement goes through and keeps what there is. *)
Definition goes_well (st : stmt) (s : schema) (d : data) : Prop :=
  exists s' d', exec_schema st s = Some s' /\ exec_data st s d = Some d' /\ db_ok s' d' /\ preserved cast (conversion st) d d'.

Lemma db_ok_rows s d t tb : db_ok s d -> tables s !! t = Some tb -> d !! t = Some (rows_of d t).
Proof.
  intros [Hdom _] Ht. unfold rows_of. destruct (d !! t) eqn:E; [done|].
  apply not_elem_of_dom in E. rewrite Hdom in E. by apply elem_of_dom_2 in Ht.
Qed.

Lemma db_ok_row s d t tb r c col :
  db_ok s d -> tables s !! t = Some tb -> r ∈ rows_of d t -> tb_columns tb !! c = Some col -> cell_ok s r c col.
Proof.
  intros [_ Hall] Ht Hr Hc. destruct (Hall t tb Ht) as (H1 & _). rewrite Forall_forall in H1.
  by apply (H1 r Hr).
Qed.

(** *** [ADD COLUMN] *)
Lemma fill_column_const t c df v rs d :
  (forall d', default_value current_timestamp gen_random_uuid df d' = v) ->
  fill_column current_timestamp gen_random_uuid t c (Some df) rs d = map (<[c := v]>) rs.
Proof.
  intros Hv. simpl.
  assert (forall acc, fold_left (fun acc r => acc ++ [<[c := default_value current_timestamp gen_random_uuid df
            (<[t := acc]> d)]> r]) rs acc = acc ++ map (<[c := v]>) rs) as H; [|apply H].
  induction rs as [|r rs IH]; intros acc; simpl; [by rewrite app_nil_r|]. by rewrite IH, Hv, <- app_assoc.
Qed.

(** The rows are as they were, or have the same value in the new column. *)
Lemma fill_column_rows t c col rs d :
  col_default col <> Some GenRandomUuid ->
  exists f : row -> row,
    fill_column current_timestamp gen_random_uuid t c (col_default col) rs d = map f rs /\
    (forall r c', c' <> c -> f r !! c' = r !! c') /\
    forall r s, default_fits s col = true -> r !! c = None -> cell_ok s (f r) c col.
Proof.
  intros Hg. unfold default_fits, cell_ok. destruct (col_default col) as [df|] eqn:E.
  - assert (exists v, forall d', default_value current_timestamp gen_random_uuid df d' = v) as [v Hv].
    { destruct df as [x| |]; [by exists x|by exists current_timestamp|done]. }
    exists (<[c := v]>). repeat split; [by apply fill_column_const|intros; by apply lookup_insert_ne|].
    intros r s Hf _. rewrite lookup_insert_eq. destruct df as [x| |]; [|by apply value_ok_not_enum, negb_true_iff|done].
    apply bool_decide_eq_true in Hf. by rewrite <- (Hv ∅).
  - exists id. rewrite map_id. repeat split; [done..|]. intros r s Hf Hr. unfold id. by rewrite Hr.
Qed.

Lemma add_column_ok facts s d t c col s' :
  safe_stmt facts s (ADD_COLUMN t c col) = true -> exec_schema (ADD_COLUMN t c col) s = Some s' -> db_ok s d ->
  goes_well (ADD_COLUMN t c col) s d.
Proof.
  unfold safe_stmt, goes_well. intros Hsafe Hs Hd. rewrite Hs. simpl in Hs.
  destruct (tables s !! t) as [tb|] eqn:Ht; [|done].
  rewrite !andb_true_iff in Hsafe. destruct Hsafe as [[Hk Hf] Hg].
  apply negb_true_iff, bool_decide_eq_false in Hg.
  destruct (bool_decide (is_Some (column_of s t c))) eqn:Hc; [done|]. simpl in Hs.
  apply bool_decide_eq_false, eq_None_not_Some in Hc. unfold column_of in Hc. rewrite Ht in Hc. simpl in Hc.
  destruct (type_known s (col_type col)); [|done]. injection Hs as <-.
  destruct (fill_column_rows t c col (rows_of d t) d Hg) as (f & Ef & Hfr & Hfc).
  assert (forall r, r ∈ rows_of d t -> r !! c = None) as Hnone.
  { intros r Hr. destruct Hd as [_ Hall]. destruct (Hall t tb Ht) as (H1 & _). rewrite Forall_forall in H1.
    destruct (H1 r Hr) as [Hdom _]. apply not_elem_of_dom. intros Hin. apply Hdom in Hin. by apply not_elem_of_dom in Hc. }
  assert (Forall2 (same_keys s t tb) (rows_of d t) (map f (rows_of d t))) as HF.
  { apply Forall2_fmap_r, Forall_Forall2_diag, Forall_true. intros r c' Hc'. apply Hfr. congruence. }
  eexists _, _. split; [done|]. split.
  { simpl. destruct (negb (col_nullable col) && negb (bool_decide (is_Some (col_default col)))) eqn:En; [|by rewrite Ef].
    unfold default_fits in Hf. destruct (col_default col); simpl in En; destruct (col_nullable col); done. }
  split.
  - eapply db_ok_table; [done..| |by rewrite (same_ids _ _ _ _ _ HF)].
    destruct Hd as [Hdom Hall]. eapply table_ok_rows; [by apply Hall|done| |done..].
    apply Forall_forall. intros r' (r & -> & Hr)%list_elem_of_fmap. destruct (Hall t tb Ht) as (H1 & _).
    rewrite Forall_forall in H1. destruct (H1 r Hr) as [Hrd Hrc]. split.
    + intros c' Hc'. simpl. rewrite dom_insert_L. destruct (decide (c' = c)) as [->|Hne]; [set_solver|].
      apply elem_of_union_r, Hrd. apply elem_of_dom. apply elem_of_dom in Hc'. by rewrite Hfr in Hc'.
    + intros c' col' Hc'. simpl in Hc'. destruct (decide (c' = c)) as [->|Hne].
      * rewrite lookup_insert_eq in Hc'. simplify_eq. apply Hfc; [done|by apply Hnone].
      * rewrite lookup_insert_ne in Hc' by done. unfold cell_ok. rewrite Hfr by done. by apply (Hrc c' col').
  - eapply preserved_table; [by intros p ?%not_elem_of_nil|by eapply db_ok_rows|]. apply rows_kept_Forall2.
    apply Forall2_fmap_r, Forall_Forall2_diag, Forall_forall. intros r Hr c' v Hv _.
    exists v. split; [|apply becomes_same]. rewrite Hfr; [done|]. intros ->. by rewrite Hnone in Hv.
Qed.

(** *** [ALTER COLUMN .. TYPE] *)
Lemma convert_rows c ty rs :
  (forall r v, r ∈ rs -> r !! c = Some v -> is_Some (cast ty v)) ->
  exists rs', mapM (convert cast c ty) rs = Some rs' /\
    Forall2 (fun r r' => (forall c', c' <> c -> r' !! c' = r !! c') /\
      match r !! c with Some v => exists v', cast ty v = Some v' /\ r' !! c = Some v' | None => r' !! c = None end) rs rs'.
Proof.
  induction rs as [|r rs IH]; intros H; [by exists []|].
  destruct IH as (rs' & E & HF); [intros r' v Hr'; apply H; by right|].
  destruct (r !! c) as [v|] eqn:Hv.
  - destruct (H r v) as [v' Hv']; [by left|done|].
    assert (convert cast c ty r = Some (<[c := v']> r)) as Ec by (unfold convert; by rewrite Hv; simpl; rewrite Hv').
    simpl. rewrite Ec. simpl. rewrite E. simpl. eexists. split; [done|]. constructor; [|done]. rewrite Hv.
    split; [intros; by apply lookup_insert_ne|]. exists v'. by rewrite lookup_insert_eq.
  - assert (convert cast c ty r = Some r) as Ec by (unfold convert; by rewrite Hv).
    simpl. rewrite Ec. simpl. rewrite E. simpl. eexists. split; [done|]. constructor; [|done]. by rewrite Hv.
Qed.

Lemma alter_type_ok facts s d t c ty s' :
  safe_stmt facts s (ALTER_TYPE t c ty) = true -> exec_schema (ALTER_TYPE t c ty) s = Some s' -> db_ok s d ->
  (forall v, v ∈ col_values d t c -> is_Some (cast ty v)) -> goes_well (ALTER_TYPE t c ty) s d.
Proof.
  unfold safe_stmt, goes_well. intros Hsafe Hs Hd Hfit. rewrite Hs. pose proof Hs as Hs0. simpl in Hs.
  destruct (tables s !! t) as [tb|] eqn:Ht; [|done]. rewrite andb_true_iff in Hsafe.
  destruct Hsafe as [Hk He]. apply negb_true_iff in He.
  unfold column_of in Hs. rewrite Ht in Hs. simpl in Hs.
  destruct (tb_columns tb !! c) as [col|] eqn:Hc; [|done].
  destruct (type_known s ty); [|done]. injection Hs as <-.
  destruct (convert_rows c ty (rows_of d t)) as (rs & Ers & HF).
  { intros r v Hr Hv. apply Hfit, elem_of_col_values. by exists r. }
  assert (Forall2 (same_keys s t tb) (rows_of d t) rs) as Hkeys.
  { eapply Forall2_impl; [done|]. intros r r' [Hn _] c' Hc'. apply Hn. congruence. }
  assert (table_ok (set_tables <[t := set_columns <[c := Column ty (col_nullable col) (col_default col)]> tb]> s)
    (<[t := rs]> d) t (set_columns <[c := Column ty (col_nullable col) (col_default col)]> tb)) as Hok.
  { destruct Hd as [Hdom Hall]. eapply table_ok_rows; [by apply Hall|done| |done..].
    destruct (Hall t tb Ht) as (H1 & _). clear -H1 HF Hc He Hfit. induction HF as [|r r' l l' [Hn Hv] _ IH]; [done|].
    apply Forall_cons in H1 as [[Hrd Hrc] H1]. constructor; [|by apply IH]. split.
    - intros c' Hc'. simpl. rewrite dom_insert_L. destruct (decide (c' = c)) as [->|Hne]; [set_solver|].
      apply elem_of_union_r, Hrd. apply elem_of_dom. apply elem_of_dom in Hc'. by rewrite Hn in Hc'.
    - intros c' col' Hc'. simpl in Hc'. destruct (decide (c' = c)) as [->|Hne].
      + rewrite lookup_insert_eq in Hc'. injection Hc' as <-. specialize (Hrc c col Hc). unfold cell_ok in *. simpl.
        destruct (r !! c); [|by rewrite Hv]. destruct Hv as (v' & _ & ->). by apply value_ok_not_enum.
      + rewrite lookup_insert_ne in Hc' by done. unfold cell_ok. rewrite Hn by done. by apply (Hrc c' col'). }
  eexists _, (<[t := rs]> d). split; [done|]. split; [|split].
  - cbn [Migrations.exec_data]. rewrite Ers, Hs0. cbn [mbind option_bind tables set_tables].
    rewrite lookup_insert_eq. cbn [mbind option_bind]. by rewrite decide_True.
  - eapply db_ok_table; [done..|by rewrite (same_ids _ _ _ _ _ Hkeys)].
  - change (conversion _) with [(t, c, ty)].
    eapply preserved_table; [by intros p ->%list_elem_of_singleton|by eapply db_ok_rows|]. apply rows_kept_Forall2.
    eapply Forall2_impl; [exact HF|]. intros r r' [Hn Hv] c' v Hc' _. destruct (decide (c' = c)) as [->|Hne].
    + rewrite Hc' in Hv. destruct Hv as (v' & Hcast & Hr'). exists v'. split; [done|]. right. exists ty.
      split; [by left|done].
    + exists v. rewrite Hn by done. split; [done|]. left. split; [|done]. intros ty' Hin%list_elem_of_singleton. congruence.
Qed.

(** *** [CREATE INDEX] *)
Lemma gives_key_sound d t cs f : fact_ok d f -> gives_key t cs f = true -> unique_on cs (rows_of d t).
Proof.
  destruct f as [t' c|t'|t' cs']; simpl.
  - intros H [Ht Hc]%andb_true_iff. apply String.eqb_eq in Ht as ->. apply bool_decide_eq_true in Hc.
    by eapply unique_on_blank.
  - intros H Ht. apply String.eqb_eq in Ht as ->. rewrite H. constructor.
  - intros H [Ht Hc]%andb_true_iff. apply String.eqb_eq in Ht as ->. apply bool_decide_eq_true in Hc.
    by eapply unique_on_sub.
Qed.

Lemma create_index_ok facts s d n ix s' :
  safe_stmt facts s (CREATE_INDEX n ix) = true -> exec_schema (CREATE_INDEX n ix) s = Some s' -> db_ok s d ->
  Forall (fact_ok d) facts -> goes_well (CREATE_INDEX n ix) s d.
Proof.
  unfold goes_well. intros Hsafe Hs Hd Hfacts. rewrite Hs. simpl in Hsafe, Hs.
  destruct (has_relation s n || _ || _); [done|]. injection Hs as <-.
  assert (ix_unique ix = true -> unique_on (ix_columns ix) (rows_of d (ix_table ix))) as Hu.
  { intros E. rewrite E in Hsafe. simpl in Hsafe. apply existsb_exists in Hsafe as (f & Hf%list_elem_of_In & Hg).
    rewrite Forall_forall in Hfacts. eapply gives_key_sound, Hg. by apply Hfacts. }
  eexists _, d. split; [done|]. split; [|split; [|done]].
  - simpl. destruct (ix_unique ix); [|done]. by rewrite bool_decide_eq_true_2 by auto.
  - destruct Hd as [Hdom Hall]. split; [done|]. intros t tb Ht. destruct (Hall t tb Ht) as (H1 & H2 & H3 & H4).
    repeat split; [done|done| |done]. intros m ix' Hm Hixt Hixu. simpl in Hm.
    apply lookup_insert_Some in Hm as [[<- <-]|[_ Hm]]; [subst; by apply Hu|by apply (H3 m ix')].
Qed.

(** *** [INSERT] *)
Lemma insertable_spec s t given key fks :
  insertable s t given key fks = true ->
  exists tb, tables s !! t = Some tb /\ tb_pkey tb = ["id"] /\ tb_fkeys tb = fks /\
    (forall c, c ∈ given -> is_Some (tb_columns tb !! c)) /\
    (forall c col, tb_columns tb !! c = Some col ->
      if decide (c ∈ given) then is_enum (col_type col) = false else default_fits s col = true) /\
    forall n ix, indexes s !! n = Some ix -> ix_table ix = t -> ix_unique ix = true -> ix_columns ix = key.
Proof.
  unfold insertable. destruct (tables s !! t) as [tb|]; [|done]. rewrite !andb_true_iff, forallb_forall.
  intros [[[[H1 H2] H3] H4] H5]. apply bool_decide_eq_true in H1, H2, H4, H5.
  exists tb. repeat split; [done..| | |].
  - intros c Hc. apply list_elem_of_In, H3 in Hc. by apply bool_decide_eq_true in Hc.
  - intros c col Hc. specialize (H4 c col Hc). simpl in H4. destruct (decide (c ∈ given)).
    + rewrite bool_decide_eq_true_2 in H4 by done. by apply negb_true_iff.
    + by rewrite bool_decide_eq_false_2 in H4 by done.
  - intros n ix Hn. by apply (H5 n ix).
Qed.

Lemma with_defaults_given tb d r c v : r !! c = Some v -> with_defaults tb d r !! c = Some v.
Proof. apply lookup_union_Some_l. Qed.

Lemma with_defaults_row_ok s tb d r (given : list string) :
  (forall c, is_Some (r !! c) <-> c ∈ given) -> (forall c, c ∈ given -> is_Some (tb_columns tb !! c)) ->
  (forall c col, tb_columns tb !! c = Some col ->
    if decide (c ∈ given) then is_enum (col_type col) = false else default_fits s col = true) ->
  row_ok s tb (with_defaults tb d r).
Proof.
  intros Hr Hg Hcol. split.
  - intros c Hc. apply elem_of_dom. apply elem_of_dom in Hc as [v Hv].
    apply lookup_union_Some_raw in Hv as [Hv|[_ Hv]]; [apply Hg, Hr; by eexists|].
    rewrite lookup_omap in Hv. by destruct (tb_columns tb !! c).
  - intros c col Hc. specialize (Hcol c col Hc). unfold cell_ok.
    destruct (r !! c) as [v|] eqn:Hv.
    + rewrite (with_defaults_given tb d r c v Hv). rewrite decide_True in Hcol by (apply Hr; by eexists).
      by apply value_ok_not_enum.
    + rewrite decide_False in Hcol by (intros [v Hv']%Hr; congruence).
      unfold Migrations.with_defaults. rewrite lookup_union_r, lookup_omap, Hc by done. simpl.
      unfold default_fits in Hcol. destruct (col_default col) as [df|]; [|done]. simpl.
      destruct df; simpl; [by apply bool_decide_eq_true in Hcol|by apply value_ok_not_enum, negb_true_iff..].
Qed.

Lemma insert_row_keeps s t r d d' :
  insert_row s t r d = Some d' -> db_ok s d ->
  db_ok s d' /\ preserved cast [] d d' /\ exists tb, tables s !! t = Some tb /\
    d' = <[t := rows_of d t ++ [with_defaults tb d r]]> d.
Proof.
  unfold Migrations.insert_row. destruct (tables s !! t) as [tb|] eqn:Ht; [|done]. simpl.
  destruct (decide _) as [Hok|]; [|done]. intros [= <-] Hd. split; [|split; [|by eexists]].
  - eapply db_ok_table; [done..| |done|done|done|]; [by rewrite insert_id|].
    intros v Hv. unfold col_values. rewrite rows_of_insert_eq, omap_app. by apply elem_of_app; left.
  - eapply preserved_table; [by intros p ?%not_elem_of_nil|by eapply db_ok_rows|apply rows_kept_snoc].
Qed.

Lemma insert_row_ok s t given key fks r d :
  fresh_uuids -> insertable s t given key fks = true -> db_ok s d ->
  (forall c, is_Some (r !! c) <-> c ∈ given) -> r !! "id" = Some (gen_random_uuid d) -> key <> [] ->
  (forall l r', r' ∈ rows_of d t -> (forall c, c ∈ key -> c ∈ given) -> row_key key r = Some l -> row_key key r' <> Some l) ->
  (forall c, c ∈ key -> c ∈ given) ->
  (forall fk v, fk ∈ fks -> r !! fk_column fk = Some v -> fk_table fk <> t /\ v ∈ col_values d (fk_table fk) "id") ->
  Forall (fun fk => fk_column fk ∈ given) fks ->
  exists d', insert_row s t r d = Some d'.
Proof.
  intros Hfresh Hi Hd Hr Hid Hkne Hkey Hkg Hfk Hfkg.
  destruct (insertable_spec _ _ _ _ _ Hi) as (tb & Ht & Hpk & Hfks & Hg & Hcol & Hix).
  unfold Migrations.insert_row. rewrite Ht. simpl.
  set (r' := with_defaults tb d r).
  assert (forall cs, (forall c, c ∈ cs -> c ∈ given) -> row_key cs r' = row_key cs r) as Hsame.
  { intros cs Hcs. apply row_key_ext. intros c Hc. apply Hcs, Hr in Hc as [v Hv]. rewrite Hv.
    by apply with_defaults_given. }
  destruct Hd as [Hdom Hall]. destruct (Hall t tb Ht) as (H1 & H2 & H3 & H4).
  rewrite decide_True; [by eexists|]. unfold table_ok. rewrite rows_of_insert_eq. repeat split.
  - apply Forall_app. split; [done|]. apply Forall_singleton. by apply (with_defaults_row_ok s tb d r given).
  - right. rewrite Hpk in H2 |- *. destruct H2 as [H2|H2]; [done|]. apply unique_on_snoc; [done|].
    intros r0 l Hr0 Hl Hl0. rewrite Hsame in Hl by (intros c ->%list_elem_of_singleton; apply Hr; by eexists).
    unfold row_key in Hl, Hl0. simpl in Hl, Hl0. rewrite Hid in Hl. simpl in Hl.
    destruct (r0 !! "id") as [v|] eqn:Hv; simpl in Hl0; [|done]. unfold mret, option_ret in *. simplify_eq.
    apply (Hfresh d t "id"), elem_of_col_values. by exists r0.
  - intros n ix Hn Hixt Hixu. rewrite (Hix n ix Hn Hixt Hixu). apply unique_on_snoc.
    + specialize (H3 n ix Hn Hixt Hixu). by rewrite (Hix n ix Hn Hixt Hixu) in H3.
    + intros r0 l Hr0. rewrite Hsame by done. by apply Hkey.
  - rewrite Hfks in *. apply Forall_forall. intros fk Hin. rewrite Forall_forall in H4, Hfkg.
    unfold fkey_ok. rewrite omap_app. apply Forall_app. split.
    + eapply (fkey_ok_mono d); [|by apply H4]. intros v. destruct (decide (t = fk_table fk)) as [->|Hne].
      * unfold col_values. rewrite rows_of_insert_eq, omap_app. intros. by apply elem_of_app; left.
      * unfold col_values. by rewrite rows_of_insert_ne.
    + apply Forall_forall. intros v Hv. apply list_elem_of_omap in Hv as (x & ->%list_elem_of_singleton & Hv).
      destruct (proj2 (Hr (fk_column fk)) (Hfkg fk Hin)) as [w Hw].
      unfold r' in Hv. rewrite (with_defaults_given _ _ _ _ _ Hw) in Hv. simplify_eq.
      destruct (Hfk fk v Hin Hw) as [Hne Hv]. by rewrite rows_of_insert_ne.
Qed.

Lemma conflicts_spec k rs : conflicts k rs = false -> forall r, r ∈ rs -> r !! "key" <> Some k.
Proof.
  unfold conflicts. intros H r Hr Hk. apply not_true_iff_false in H. apply H, existsb_exists.
  exists r. split; [by apply list_elem_of_In|by apply bool_decide_eq_true_2].
Qed.

(** [ON CONFLICT (key) DO NOTHING]. *)
Lemma insert_settings_ok s kvs d :
  fresh_uuids -> insertable s "broker_settings" ["id"; "key"; "value"] ["key"] [] = true -> db_ok s d ->
  exists d', insert_settings s kvs d = Some d' /\ db_ok s d' /\ preserved cast [] d d'.
Proof.
  intros Hfresh Hi. revert d. induction kvs as [|[k v] kvs IH]; intros d Hd; [by exists d|]. simpl.
  destruct (conflicts k (rows_of d "broker_settings")) eqn:Hc; [by apply IH|].
  set (r := <["id":=gen_random_uuid d]> (<["key":=k]> {["value":=v]}) : row).
  destruct (insert_row_ok s "broker_settings" _ _ _ r d Hfresh Hi Hd) as [d1 E]; [..|by apply Forall_nil|].
  - intros c. rewrite <- elem_of_dom. unfold r. rewrite !dom_insert_L, dom_singleton_L. set_solver.
  - apply lookup_insert_eq.
  - done.
  - intros l r' Hr' _ Hl Hl'. apply (conflicts_spec k _ Hc r' Hr').
    unfold row_key, mret, option_ret in Hl, Hl'. simpl in Hl, Hl'. unfold r in Hl.
    rewrite lookup_insert_ne, lookup_insert_eq in Hl by done. simpl in Hl.
    destruct (r' !! "key"); simpl in Hl'; [|done]. unfold mret, option_ret in *. by simplify_eq.
  - set_solver.
  - intros fk v' Hfk. by apply not_elem_of_nil in Hfk.
  - rewrite E. simpl. destruct (insert_row_keeps _ _ _ _ _ E Hd) as (Hd1 & Hk1 & _).
    destruct (IH d1 Hd1) as (d' & E' & Hd' & Hk'). exists d'. split; [done|]. split; [done|]. by etrans.
Qed.

(** One token per account. *)
Lemma seed_tokens_ok s accounts d :
  fresh_uuids ->
  insertable s "account_link_tokens" ["id"; "account_id"; "token"; "createdAt"; "updatedAt"] ["token"]
    [ForeignKey "account_id" "accounts" CASCADE] = true ->
  db_ok s d -> (forall a, a ∈ accounts -> a ∈ rows_of d "accounts" /\ is_Some (a !! "id")) ->
  exists d', seed_tokens s accounts d = Some d' /\ db_ok s d' /\ preserved cast [] d d'.
Proof.
  intros Hfresh Hi. revert d. induction accounts as [|a accounts IH]; intros d Hd Ha; [by exists d|]. simpl.
  destruct (Ha a) as [Hin [x Hx]]; [by left|]. rewrite Hx. simpl.
  set (r := <["account_id":=x]> (<["id":=gen_random_uuid d]> (<["token":=gen_random_uuid d]>
              (<["createdAt":=current_timestamp]> {["updatedAt":=current_timestamp]}))) : row).
  destruct (insert_row_ok s "account_link_tokens" _ _ _ r d Hfresh Hi Hd) as [d1 E].
  - intros c. rewrite <- elem_of_dom. unfold r. rewrite !dom_insert_L, dom_singleton_L. set_solver.
  - unfold r. by rewrite lookup_insert_ne, lookup_insert_eq.
  - done.
  - intros l r' Hr' _ Hl Hl'. unfold row_key in Hl, Hl'. simpl in Hl, Hl'. unfold r in Hl.
    rewrite !(lookup_insert_ne _ _ "token"), lookup_insert_eq in Hl by done. simpl in Hl.
    destruct (r' !! "token") as [y|] eqn:Hy; simpl in Hl'; [|done]. unfold mret, option_ret in *. simplify_eq.
    apply (Hfresh d "account_link_tokens" "token"), elem_of_col_values. by exists r'.
  - set_solver.
  - intros fk v Hfk%list_elem_of_singleton Hv. subst fk. unfold r in Hv. simpl in Hv.
    rewrite lookup_insert_eq in Hv. simplify_eq. split; [done|]. apply elem_of_col_values. by exists a.
  - apply Forall_singleton. set_solver.
  - rewrite E. simpl. destruct (insert_row_keeps _ _ _ _ _ E Hd) as (Hd1 & Hk1 & tb & _ & ->).
    destruct (IH _ Hd1) as (d' & E' & Hd' & Hk').
    { intros a' Ha'. rewrite rows_of_insert_ne by done. apply Ha. by right. }
    exists d'. split; [done|]. split; [done|]. by etrans.
Qed.

(** *** The UPDATE of [c9d8e7f6a5b4] *)
Lemma same_type_spec s t t' c :
  same_type s t t' c = true ->
  exists tb tb' col col', tables s !! t = Some tb /\ tables s !! t' = Some tb' /\ tb_columns tb !! c = Some col /\
    tb_columns tb' !! c = Some col' /\ col_type col = col_type col' /\ col_nullable col = true.
Proof.
  unfold same_type, column_of. destruct (tables s !! t) as [tb|] eqn:H1; [|done].
  destruct (tables s !! t') as [tb'|] eqn:H2; simpl; [|by destruct (tb_columns tb !! c)].
  destruct (tb_columns tb !! c) as [col|] eqn:H3; [|done]. destruct (tb_columns tb' !! c) as [col'|] eqn:H4; [|done].
  intros [E%bool_decide_eq_true Hn]%andb_true_iff. by exists tb, tb', col, col'.
Qed.

Lemma set_column_ne c c' v r : c' <> c -> set_column c v r !! c' = r !! c'.
Proof. intros H. destruct v; simpl; [by apply lookup_insert_ne|by apply lookup_delete_ne]. Qed.

Lemma set_column_eq c v r : set_column c v r !! c = v.
Proof. destruct v; simpl; [apply lookup_insert_eq|apply lookup_delete_eq]. Qed.

(** What the UPDATE makes of a row. *)
Definition updated (stamp : bool) (accounts : rows) (r : row) : row :=
  match backfilled accounts r with
  | Some r' => if stamp then <["updatedAt" := current_timestamp]> r' else r'
  | None => r
  end.

Lemma updated_cell stamp accounts r c :
  c <> "updatedAt" ->
  updated stamp accounts r !! c = r !! c \/
  (c = "market" \/ c = "gateway") /\ r !! "market" = None /\
  exists a, a ∈ accounts /\ updated stamp accounts r !! c = a !! c.
Proof.
  intros Hc. unfold updated, backfilled. destruct (r !! "market") eqn:Hm; [by left|].
  destruct (owner_of accounts r) as [a|] eqn:Ha; simpl; [|by left].
  assert (a ∈ accounts) as Hin.
  { unfold owner_of in Ha. destruct (r !! "account_id"); [|done]. apply List.find_some in Ha as [Ha _]. by apply list_elem_of_In. }
  replace ((if stamp then <["updatedAt":=current_timestamp]> _ else _) !! c) with
    (set_column "gateway" (a !! "gateway") (set_column "market" (a !! "market") r) !! c)
    by (destruct stamp; [by rewrite lookup_insert_ne|done]).
  destruct (decide (c = "gateway")) as [->|Hg]; [right; rewrite set_column_eq; eauto 8|].
  destruct (decide (c = "market")) as [->|Hm']; [right; rewrite set_column_ne, set_column_eq by done; eauto 8|].
  left. by rewrite !set_column_ne.
Qed.

Lemma updated_stamped stamp accounts r :
  updated stamp accounts r !! "updatedAt" = r !! "updatedAt" \/
  updated stamp accounts r !! "updatedAt" = Some current_timestamp.
Proof.
  unfold updated, backfilled. destruct (r !! "market"); [by left|].
  destruct (owner_of accounts r) as [a|]; simpl; [|by left]. destruct stamp.
  - right. by rewrite lookup_insert_eq.
  - left. by rewrite !set_column_ne.
Qed.

Lemma backfill_row_ok s d tb stamp r :
  db_ok s d -> tables s !! "trades" = Some tb -> row_ok s tb r ->
  same_type s "trades" "accounts" "market" = true -> same_type s "trades" "accounts" "gateway" = true ->
  (exists col, tb_columns tb !! "updatedAt" = Some col /\ is_enum (col_type col) = false) ->
  row_ok s tb (updated stamp (rows_of d "accounts") r).
Proof.
  intros Hd Ht [Hrd Hrc] Hm Hg (ucol & Hu & Hue).
  assert (forall c, c = "market" \/ c = "gateway" -> same_type s "trades" "accounts" c = true) as Hst
    by (by intros c [->| ->]).
  split.
  - intros c Hc. apply elem_of_dom. destruct (decide (c = "updatedAt")) as [->|Hne]; [by eexists|].
    apply elem_of_dom in Hc as [v Hv].
    destruct (updated_cell stamp (rows_of d "accounts") r c Hne) as [E|(Hcc & _)].
    + apply elem_of_dom, Hrd, elem_of_dom. rewrite <- E. by eexists.
    + destruct (same_type_spec _ _ _ _ (Hst c Hcc)) as (tb' & ta & col & col' & Ht' & _ & Hcol & _). simplify_eq.
      by eexists.
  - intros c col Hc. pose proof (Hrc c col Hc) as Hcell. unfold cell_ok in *.
    destruct (decide (c = "updatedAt")) as [->|Hne].
    + simplify_eq. destruct (updated_stamped stamp (rows_of d "accounts") r) as [-> | ->]; [done|].
      by apply value_ok_not_enum.
    + destruct (updated_cell stamp (rows_of d "accounts") r c Hne) as [-> |(Hcc & _ & a & Ha & ->)]; [done|].
      destruct (same_type_spec _ _ _ _ (Hst c Hcc)) as (tb' & ta & col1 & col' & Ht' & Hta & Hcol & Hcol' & Ety & Hn).
      simplify_eq. pose proof (db_ok_row s d "accounts" ta a c col' Hd Hta Ha Hcol') as Ha'. unfold cell_ok in Ha'.
      destruct (a !! c); [by rewrite Ety|done].
Qed.

Lemma backfill_ok facts s d :
  backfillable facts s = true -> db_ok s d -> Forall (fact_ok d) facts ->
  exists d', update_rows current_timestamp s "trades" (backfilled (rows_of d "accounts")) d = Some d' /\
    db_ok s d' /\ preserved cast [] d d'.
Proof.
  unfold backfillable, update_rows. intros Hb Hd Hfacts. destruct (tables s !! "trades") as [tb|] eqn:Ht; [|done].
  rewrite !andb_true_iff in Hb. destruct Hb as [[[[Hbl Hm] Hg] Hk] Hu]. apply bool_decide_eq_true in Hbl.
  rewrite Forall_forall in Hfacts. specialize (Hfacts _ Hbl). simpl in Hfacts.
  simpl. set (rs := map _ (rows_of d "trades")).
  assert (rs = map (updated (stamped s tb) (rows_of d "accounts")) (rows_of d "trades")) as Ers
    by (apply map_ext; intros r; unfold updated; by destruct (backfilled _ r)).
  assert (Forall2 (same_keys s "trades" tb) (rows_of d "trades") rs) as Hkeys.
  { rewrite Ers. apply Forall2_fmap_r, Forall_Forall2_diag, Forall_true. intros r c Hc.
    rewrite forallb_forall in Hk. assert (c ∉ ["market"; "gateway"; "updatedAt"]) as Hnk.
    { intros Hin%list_elem_of_In%Hk. congruence. }
    destruct (updated_cell (stamped s tb) (rows_of d "accounts") r c) as [E|([->| ->] & _)]; [set_solver|done|set_solver..]. }
  assert (table_ok s (<["trades" := rs]> d) "trades" tb) as Hok.
  { destruct Hd as [Hdom Hall]. eapply table_ok_rows; [by apply Hall|done| |done..].
    destruct (Hall _ tb Ht) as (H1 & _). rewrite Ers. apply Forall_fmap. eapply Forall_impl; [done|]. intros r Hr.
    eapply backfill_row_ok; [done..|]. destruct (tb_columns tb !! "updatedAt") as [col|] eqn:Hc; [|done].
    exists col. split; [done|by apply negb_true_iff]. }
  rewrite decide_True by done. eexists. split; [done|]. split.
  - eapply db_ok_table; [done..| |done|done|done|by rewrite (same_ids _ _ _ _ _ Hkeys)]. by rewrite insert_id.
  - eapply preserved_table; [by intros p ?%not_elem_of_nil|by eapply db_ok_rows|]. apply rows_kept_Forall2. rewrite Ers.
    apply Forall2_fmap_r, Forall_Forall2_diag, Forall_forall. intros r Hr c v Hv Hne. exists v. split; [|apply becomes_same].
    destruct (updated_cell (stamped s tb) (rows_of d "accounts") r c Hne) as [-> |([->| ->] & Hnull & _)]; [done|congruence|].
    assert (v ∈ col_values d "trades" "gateway") as Hin by (apply elem_of_col_values; eauto).
    rewrite Hfacts in Hin. by apply not_elem_of_nil in Hin.
Qed.

(** ** Facts and conversions along a script *)

Lemma insert_settings_rows s kvs d d' t :
  insert_settings s kvs d = Some d' -> t <> "broker_settings" -> rows_of d' t = rows_of d t.
Proof.
  revert d. induction kvs as [|[k v] kvs IH]; intros d E Ht; simpl in E; [by simplify_eq|].
  destruct (conflicts _ _); [by apply IH|]. destruct (insert_row _ _ _ d) as [d1|] eqn:E1; [|done]. simpl in E.
  rewrite (IH d1 E Ht). unfold Migrations.insert_row in E1. destruct (tables s !! "broker_settings"); [|done].
  simpl in E1. destruct (decide _); [|done]. simplify_eq. by apply rows_of_insert_ne.
Qed.

Lemma seed_tokens_rows s accounts d d' t :
  seed_tokens s accounts d = Some d' -> t <> "account_link_tokens" -> rows_of d' t = rows_of d t.
Proof.
  revert d. induction accounts as [|a accounts IH]; intros d E Ht; simpl in E; [by simplify_eq|].
  destruct (insert_row _ _ _ d) as [d1|] eqn:E1; [|done]. simpl in E.
  rewrite (IH d1 E Ht). unfold Migrations.insert_row in E1. destruct (tables s !! "account_link_tokens"); [|done].
  simpl in E1. destruct (decide _); [|done]. simplify_eq. by apply rows_of_insert_ne.
Qed.

Lemma update_rows_rows s t' f d d' t :
  update_rows current_timestamp s t' f d = Some d' -> t <> t' -> rows_of d' t = rows_of d t.
Proof.
  unfold update_rows. destruct (tables s !! t') as [tb|]; [|done]. simpl. destruct (decide _); [|done].
  intros [= <-] Ht. by apply rows_of_insert_ne.
Qed.

Lemma rows_of_alter_ne f t t' (d : data) : t <> t' -> rows_of (alter f t d) t' = rows_of d t'.
Proof. intros H. unfold rows_of. by rewrite lookup_alter_ne. Qed.

(** A table a statement does not touch keeps its rows, or is dropped or created. *)
Lemma untouched st s d d' t :
  exec_data st s d = Some d' -> touches st t = false -> rows_of d' t = rows_of d t \/ rows_of d' t = [].
Proof.
  revert d d'. induction st as [| | | | | | | n tb uq|n|t' c col|t' c|t' c ty|n ix| | |kvs|keys| | | |st IH|st IH];
    intros d d' E Ht; cbn [Migrations.exec_data touches] in E, Ht; try (by simplify_eq; left).
  - simplify_eq. destruct (decide (t = n)) as [->|]; [right; apply rows_of_insert_eq|left; by apply rows_of_insert_ne].
  - simplify_eq. destruct (decide (t = n)) as [->|Hne]; unfold rows_of.
    + right. by rewrite lookup_delete_eq.
    + left. by rewrite lookup_delete_ne.
  - apply String.eqb_neq in Ht. destruct (_ && _); [done|]. simplify_eq. left. by apply rows_of_insert_ne.
  - apply String.eqb_neq in Ht. simplify_eq. left. by apply rows_of_alter_ne.
  - apply String.eqb_neq in Ht. destruct (mapM _ _) as [rs|]; [|done]. cbn [mbind option_bind] in E.
    destruct (exec_schema _ s) as [s'|]; [|done]. cbn [mbind option_bind] in E.
    destruct (tables s' !! t'); [|done]. cbn [mbind option_bind] in E.
    destruct (decide _); [|done]. simplify_eq. left. by apply rows_of_insert_ne.
  - destruct (_ && _); [done|]. simplify_eq. by left.
  - apply String.eqb_neq in Ht. left. by eapply insert_settings_rows.
  - apply String.eqb_neq in Ht. simplify_eq. left. by apply rows_of_alter_ne.
  - apply String.eqb_neq in Ht. left. by eapply update_rows_rows.
  - apply String.eqb_neq in Ht. left. by eapply seed_tokens_rows.
  - apply String.eqb_neq in Ht. left. by eapply update_rows_rows.
  - destruct (present s st); [by apply IH|simplify_eq; by left].
  - destruct (present s st); [simplify_eq; by left|by apply IH].
Qed.

Lemma col_values_map f rs t c c' (d : data) :
  (forall r, r ∈ rows_of d t -> f r !! c' = r !! c') -> rs = map f (rows_of d t) -> c = c' ->
  col_values (<[t := rs]> d) t c = col_values d t c.
Proof.
  intros H -> ->. unfold col_values. rewrite rows_of_insert_eq. apply omap_Forall2.
  apply Forall2_fmap_r, Forall_Forall2_diag, Forall_forall. done.
Qed.

(** A column a statement does not write gets no new value. *)
Lemma unwritten facts st s d d' t c v :
  safe_stmt facts s st = true -> exec_data st s d = Some d' -> writes st t c = false ->
  v ∈ col_values d' t c -> v ∈ col_values d t c.
Proof.
  intros Hsafe E Hw. destruct (touches st t) eqn:Ht; last first.
  { unfold col_values. destruct (untouched st s d d' t E Ht) as [-> | ->]; [done|by intros ?%not_elem_of_nil]. }
  revert d d' E. induction st as [| | | | | | | n tb uq|n|t' c' col|t' c'|t' c' ty|n ix| | |kvs|keys| | | |st IH|st IH];
    intros d d' E; try discriminate; cbn [touches writes] in Ht, Hw.
  - apply String.eqb_eq in Ht as ->. rewrite String.eqb_refl in Hw. apply String.eqb_neq in Hw. simpl in E.
    destruct (_ && _); [done|]. injection E as <-. cbn [safe_stmt] in Hsafe. destruct (tables s !! t'); [|done].
    apply andb_true_iff in Hsafe as [_ Hg]. apply negb_true_iff, bool_decide_eq_false in Hg.
    destruct (fill_column_rows t' c' col (rows_of d t') d Hg) as (f & Ef & Hfr & _).
    by rewrite (col_values_map f _ t' c c d) by auto.
  - apply String.eqb_eq in Ht as ->. rewrite String.eqb_refl in Hw. apply String.eqb_neq in Hw.
    cbn [Migrations.exec_data] in E. destruct (mapM _ _) as [rs|] eqn:Er; [|done]. cbn [mbind option_bind] in E.
    destruct (exec_schema _ s) as [s'|]; [|done]. cbn [mbind option_bind] in E.
    destruct (tables s' !! t'); [|done]. cbn [mbind option_bind] in E. destruct (decide _); [|done]. injection E as <-.
    unfold col_values. rewrite rows_of_insert_eq. apply mapM_Some in Er.
    rewrite (omap_Forall2 _ (rows_of d t') rs); [done|]. eapply Forall2_impl; [done|]. intros r r' Hr. simpl in Hr.
    unfold convert in Hr. destruct (r !! c') as [x|]; [|by simplify_eq].
    destruct (cast ty x); [|done]. simpl in Hr. simplify_eq. by apply lookup_insert_ne.
  - by rewrite Hw in Ht.
  - apply String.eqb_eq in Ht as ->. simpl in E, Hw. apply bool_decide_eq_false in Hw. unfold update_rows in E.
    destruct (tables s !! "trades") as [tb|]; [|done]. simpl in E. destruct (decide _); [|done]. injection E as <-.
    erewrite (col_values_map (updated (stamped s tb) (rows_of d "accounts"))); [done| | |done].
    + intros r _. destruct (updated_cell (stamped s tb) (rows_of d "accounts") r c) as [E|([->| ->] & _)]; set_solver.
    + apply map_ext. intros r. unfold updated. by destruct (backfilled _ r).
  - by rewrite Hw in Ht.
  - cbn [Migrations.exec_data] in E. destruct (present s st) eqn:Hp; [|by simplify_eq].
    eapply (IH _ Hw Ht _ _ E). Unshelve. simpl in Hsafe. rewrite Hp in Hsafe. by destruct st.
  - cbn [Migrations.exec_data] in E. destruct (present s st) eqn:Hp; [by simplify_eq|].
    eapply (IH _ Hw Ht _ _ E). Unshelve. simpl in Hsafe. rewrite Hp in Hsafe. by destruct st.
Qed.

Definition fits (cs : list (string * string * sqltype)) (d : data) : Prop :=
  forall t c ty v, (t, c, ty) ∈ cs -> v ∈ col_values d t c -> is_Some (cast ty v).

Lemma goes_well_schema st s s' d :
  conversion st = [] -> exec_schema st s = Some s' -> exec_data st s d = Some d -> db_ok s' d -> goes_well st s d.
Proof. intros Hc ???. exists s', d. by rewrite Hc. Qed.

Lemma db_ok_drop_index s n d : db_ok s d -> db_ok (set_indexes (delete n) s) d.
Proof. apply db_ok_same_tables; [done|done|]. apply delete_subseteq. Qed.

Lemma db_ok_create_trigger s n t tg tb d :
  tables s !! t = Some tb -> db_ok s d -> db_ok (set_tables <[t := set_triggers <[n := tg]> tb]> s) d.
Proof.
  intros Ht. apply db_ok_weaker; [|simpl; rewrite dom_insert_L; apply elem_of_dom_2 in Ht; set_solver|done].
  intros t' tb' H. simpl in H. destruct (decide (t' = t)) as [->|Hne].
  - rewrite lookup_insert_eq in H. simplify_eq. by exists tb.
  - rewrite lookup_insert_ne in H by done. by exists tb'.
Qed.

(** A statement that passes the check goes through, whatever the rows. *)
Lemma safe_stmt_sound facts s st d s' :
  fresh_uuids -> safe_stmt facts s st = true -> exec_schema st s = Some s' -> db_ok s d -> Forall (fact_ok d) facts ->
  fits (conversion st) d -> goes_well st s d.
Proof.
  intros Hfresh. revert s'. induction st as
    [n labels|n|n label before|n body|n cascade|n t tg|n t|n tb uq|n|t c col|t c|t c ty|n ix|n|n t|kvs|keys| | | |st IH|st IH];
    intros s' Hsafe Hs Hd Hfacts Hfit; try discriminate.
  - pose proof Hs as Hs'. simpl in Hs'. destruct (types s !! n) eqn:E; [done|]. simplify_eq.
    by eapply goes_well_schema, db_ok_create_type.
  - pose proof Hs as Hs'. simpl in Hs'. destruct (types s !! n) eqn:E; [|done]. destruct (decide _) as [|Hn]; [done|].
    simplify_eq. by eapply goes_well_schema, db_ok_drop_type.
  - pose proof Hs as Hs'. simpl in Hs'. destruct (types s !! n) as [labels|] eqn:E; [|done]. destruct (decide _); [done|].
    destruct (forallb _ _); [|done]. simplify_eq. by eapply goes_well_schema, db_ok_add_value.
  - pose proof Hs as Hs'. simpl in Hs'. simplify_eq. eapply goes_well_schema; [done..|]. by apply (db_ok_same_tables s).
  - pose proof Hs as Hs'. cbn [exec_schema] in Hs'. destruct (tables s !! t) as [tb|] eqn:E; [|done].
    destruct (_ || _); [done|]. simplify_eq. by eapply goes_well_schema, db_ok_create_trigger.
  - pose proof Hs as Hs'. cbn [exec_schema] in Hs'. destruct (present _ _); [|done]. simplify_eq.
    by eapply goes_well_schema, db_ok_triggers.
  - pose proof Hs as Hs'. cbn [exec_schema] in Hs'. destruct (has_relation s n || _) eqn:Hr; [done|].
    apply orb_false_elim in Hr as [Hr1 Hr2]. destruct (decide _); [|done]. injection Hs' as <-.
    eexists _, _. split; [done|]. split; [done|]. split; [by apply db_ok_create_table|].
    intros t rs Ht _. assert (t <> n) as Hne.
    { intros ->. apply elem_of_dom_2 in Ht. destruct Hd as [Hdom _]. rewrite Hdom in Ht.
      apply orb_false_elim in Hr1 as [Hr1 _]. apply bool_decide_eq_false in Hr1. apply Hr1. by apply elem_of_dom. }
    exists rs. rewrite lookup_insert_ne by done. split; [done|apply rows_kept_refl].
  - pose proof Hs as Hs'. cbn [exec_schema] in Hs'. destruct (tables s !! n); [|done].
    destruct (decide _) as [|Hn]; [done|]. injection Hs' as <-. simpl in Hsafe. apply String.eqb_eq in Hsafe as ->.
    eexists _, _. split; [done|]. split; [done|]. split; [by apply db_ok_drop_table|].
    intros t rs Ht Hne. exists rs. rewrite lookup_delete_ne by done. split; [done|apply rows_kept_refl].
  - by eapply add_column_ok.
  - eapply alter_type_ok; [done..|]. intros v. apply Hfit. by left.
  - by eapply create_index_ok.
  - pose proof Hs as Hs'. simpl in Hs'. destruct (indexes s !! n) as [ix|]; [|done].
    destruct (ix_constraint ix); [done|]. simplify_eq. by eapply goes_well_schema, db_ok_drop_index.
  - pose proof Hs as Hs'. simpl in Hs'. destruct (indexes s !! n) as [ix|]; [|done].
    destruct (_ && _); [|done]. simplify_eq. by eapply goes_well_schema, db_ok_drop_index.
  - pose proof Hs as Hs'. cbn [exec_schema] in Hs'. destruct (_ && _); [|done]. simplify_eq.
    destruct (insert_settings_ok s' kvs d Hfresh Hsafe Hd) as (d' & E & Hd' & Hk). by exists s', d'.
  - pose proof Hs as Hs'. cbn [exec_schema] in Hs'. destruct (_ && _); [|done]. simplify_eq.
    destruct (backfill_ok facts s' d Hsafe Hd Hfacts) as (d' & E & Hd' & Hk). by exists s', d'.
  - pose proof Hs as Hs'. cbn [exec_schema] in Hs'. destruct (_ && _); [|done]. simplify_eq.
    cbn [safe_stmt] in Hsafe. apply andb_true_iff in Hsafe as [Hi Hn].
    destruct (seed_tokens_ok s' (rows_of d "accounts") d Hfresh Hi Hd) as (d' & E & Hd' & Hk); [|by exists s', d'].
    intros a Ha. split; [done|]. unfold column_of in Hn. destruct (tables s' !! "accounts") as [tb|] eqn:Ht; [|done].
    simpl in Hn. destruct (tb_columns tb !! "id") as [col|] eqn:Hc; [|done].
    pose proof (db_ok_row s' d "accounts" tb a "id" col Hd Ht Ha Hc) as Hcell. unfold cell_ok in Hcell.
    destruct (a !! "id"); [by eexists|]. by rewrite Hcell in Hn.
  - unfold goes_well. cbn [exec_schema Migrations.exec_data conversion] in *.
    destruct (present s st) eqn:Hp; [|exists s', d; by simplify_eq].
    assert (conversion st = []) as Ec by (by destruct st). rewrite <-Ec.
    eapply IH; [|done..|]; [simpl in Hsafe; rewrite Hp in Hsafe; by destruct st|by rewrite Ec].
  - unfold goes_well. cbn [exec_schema Migrations.exec_data conversion] in *.
    destruct (present s st) eqn:Hp; [exists s', d; by simplify_eq|].
    assert (conversion st = []) as Ec by (by destruct st). rewrite <-Ec.
    eapply IH; [|done..|]; [simpl in Hsafe; rewrite Hp in Hsafe; by destruct st|by rewrite Ec].
Qed.

(** What was known and survives, and what the statement teaches. *)
Lemma survives_ok facts st s d d' f :
  safe_stmt facts s st = true -> exec_data st s d = Some d' -> survives st f = true -> fact_ok d f -> fact_ok d' f.
Proof.
  intros Hsafe E Hsv Hf. destruct f as [t c|t|t cs]; simpl in *; apply negb_true_iff in Hsv.
  - apply elem_of_nil_inv. intros v Hv. eapply (unwritten facts st s d d' t c v Hsafe E Hsv) in Hv.
    rewrite Hf in Hv. by apply not_elem_of_nil in Hv.
  - by destruct (untouched st s d d' t E Hsv) as [-> | ->].
  - destruct (untouched st s d d' t E Hsv) as [-> | ->]; [done|constructor].
Qed.

Lemma learns_ok facts st s s' d d' :
  safe_stmt facts s st = true -> exec_schema st s = Some s' -> exec_data st s d = Some d' -> db_ok s d ->
  Forall (fact_ok d') (learns s st).
Proof.
  intros Hsafe Hs E Hd. revert d d' s' Hs E Hd.
  assert (forall n d d', match indexes s !! n with Some _ => Some d | None => None end = Some d' -> db_ok s d ->
    Forall (fact_ok d) match indexes s !! n with
      Some ix => if ix_unique ix then [Keyed (ix_table ix) (ix_columns ix)] else [] | None => [] end) as Hkey.
  { intros n d d' _ [Hdom Hall]. destruct (indexes s !! n) as [ix|] eqn:Hn; [|done]. destruct (ix_unique ix) eqn:Hu; [|done].
    apply Forall_singleton. simpl. destruct (tables s !! ix_table ix) as [tb|] eqn:Ht.
    - destruct (Hall _ tb Ht) as (_ & _ & H3 & _). by apply (H3 n ix).
    - unfold rows_of. replace (d !! ix_table ix) with (@None rows); [constructor|].
      symmetry. apply not_elem_of_dom. rewrite Hdom. by apply not_elem_of_dom. }
  induction st as [| | | | | | |n tb uq| |t c col| | | |n|n t| | | | | |st IH|st IH]; intros d d' s' Hs E Hd; try (constructor; fail).
  - simpl in E. injection E as <-. apply Forall_singleton. simpl. apply rows_of_insert_eq.
  - cbn [learns]. destruct col as [ty nl [df|]]; [constructor|]. apply Forall_singleton. simpl.
    simpl in E. destruct (_ && _); [done|]. injection E as <-.
    unfold col_values. rewrite rows_of_insert_eq. apply elem_of_nil_inv. intros v (r & Hr & Hv)%list_elem_of_omap.
    simpl in Hs. destruct (tables s !! t) as [tb|] eqn:Ht; [|done]. destruct Hd as [_ Hall].
    destruct (Hall t tb Ht) as (H1 & _). rewrite Forall_forall in H1. destruct (H1 r Hr) as [Hrd _].
    destruct (bool_decide (is_Some (column_of s t c))) eqn:Hc; [done|].
    apply bool_decide_eq_false in Hc. apply Hc. unfold column_of. rewrite Ht. simpl. apply elem_of_dom, Hrd, elem_of_dom.
    by eexists.
  - simpl in E. injection E as <-. apply (Hkey n d d); [|done]. simpl in Hs. by destruct (indexes s !! n).
  - simpl in E. injection E as <-. apply (Hkey n d d); [|done]. simpl in Hs. by destruct (indexes s !! n).
  - cbn [learns exec_schema Migrations.exec_data] in *. destruct (present s st) eqn:Hp; [|constructor].
    eapply IH; [|done..]. simpl in Hsafe. rewrite Hp in Hsafe. by destruct st.
  - cbn [learns exec_schema Migrations.exec_data] in *. destruct (present s st) eqn:Hp; [constructor|].
    eapply IH; [|done..]. simpl in Hsafe. rewrite Hp in Hsafe. by destruct st.
Qed.

Lemma facts_after_ok facts st s s' d d' :
  safe_stmt facts s st = true -> exec_schema st s = Some s' -> exec_data st s d = Some d' -> db_ok s d ->
  Forall (fact_ok d) facts -> Forall (fact_ok d') (facts_after s st facts).
Proof.
  intros Hsafe Hs E Hd Hf. apply Forall_app. split; [by eapply learns_ok|].
  apply Forall_forall. intros f Hin. apply list_elem_of_In, filter_In in Hin as [Hin Hsv].
  rewrite Forall_forall in Hf. eapply survives_ok; [done..|]. apply Hf. by apply list_elem_of_In.
Qed.

(** So does a script. *)
Lemma safe_script_sound facts later s sts d :
  fresh_uuids -> safe_script facts later s sts = true -> db_ok s d -> Forall (fact_ok d) facts ->
  fits (conversions sts ++ later) d ->
  exists s' d', run_schema sts s = Some s' /\
    run_script current_timestamp gen_random_uuid cast sts (s, d) = Some (s', d') /\ db_ok s' d' /\
    preserved cast (conversions sts) d d' /\
    fits later d'.
Proof.
  intros Hfresh. revert facts s d. induction sts as [|st sts IH]; intros facts s d Hsafe Hd Hfacts Hfit.
  { by exists s, d. }
  cbn [safe_script] in Hsafe. rewrite !andb_true_iff in Hsafe. destruct Hsafe as [[Hst Hw] Hrest].
  destruct (exec_schema st s) as [s1|] eqn:Hs; [|done].
  destruct (safe_stmt_sound facts s st d s1 Hfresh Hst Hs Hd Hfacts) as (s1' & d1 & Hs' & E & Hd1 & Hk1).
  { intros t c ty v Hin. apply Hfit. unfold conversions. simpl. rewrite !elem_of_app. by left; left. }
  rewrite Hs in Hs'. injection Hs' as <-.
  destruct (IH (facts_after s st facts) s1 d1 Hrest Hd1) as (s' & d' & Hs' & E' & Hd' & Hk' & Hf').
  - by eapply facts_after_ok.
  - intros t c ty v Hin Hv. apply (Hfit t c ty v).
    + unfold conversions. simpl. rewrite <- app_assoc. apply elem_of_app. by right.
    + eapply (unwritten facts st s d d1 t c v Hst E); [|done]. rewrite forallb_forall in Hw.
      apply list_elem_of_In, Hw in Hin. by apply negb_true_iff in Hin.
  - exists s', d'. cbn [run_schema]. rewrite Hs. simpl. split; [done|]. unfold exec. simpl. rewrite Hs. simpl.
    rewrite E. simpl. split; [done|]. split; [done|]. split; [|done].
    change (conversions (st :: sts)) with (conversion st ++ conversions sts). eapply preserved_app; [|done..].
    intros p q Hp Hq Heq. destruct st; try (by apply not_elem_of_nil in Hp). apply list_elem_of_singleton in Hp as ->.
    rewrite forallb_forall in Hw. specialize (Hw q (proj1 (list_elem_of_In _ _) (proj2 (elem_of_app _ _ _) (or_introl Hq)))).
    apply negb_true_iff in Hw. rewrite <-Heq in Hw. cbn in Hw. by rewrite !String.eqb_refl in Hw.
Qed.

Lemma safe_history_sound rs s d :
  fresh_uuids -> safe_history rs s = true -> db_ok s d -> fits (pending rs) d ->
  exists s' d', schema_after rs s = Some s' /\
    run_migrations current_timestamp gen_random_uuid cast rs (s, d) = Some (s', d') /\ db_ok s' d' /\
    preserved cast (pending rs) d d'.
Proof.
  intros Hfresh. revert s d. induction rs as [|r rs IH]; intros s d Hsafe Hd Hfit; [by exists s, d|].
  cbn [safe_history] in Hsafe. rewrite !andb_true_iff in Hsafe. destruct Hsafe as [[[[Hsc Hc] Hc'] Ha] Hrest].
  rewrite !forallb_forall in Hc, Hc', Ha.
  destruct (safe_script_sound [] (pending rs) s (upgrade r s) d Hfresh Hsc Hd) as (s1 & d1 & Hs & E & Hd1 & Hk1 & Hf1).
  - constructor.
  - intros t c ty v Hin. apply Hfit.
    apply list_elem_of_In, Hc in Hin. by apply bool_decide_eq_true in Hin.
  - rewrite Hs in Hrest. destruct (IH s1 d1 Hrest Hd1 Hf1) as (s' & d' & Hs' & E' & Hd' & Hk').
    exists s', d'. cbn [schema_after run_migrations]. rewrite Hs. simpl. split; [done|]. simpl. rewrite E. simpl.
    split; [done|]. split; [done|]. eapply preserved_equiv; [|eapply preserved_app; [|exact Hk1|exact Hk']].
    + intros p. split; intros Hp%list_elem_of_In; [apply Hc in Hp|apply Hc' in Hp]; by apply bool_decide_eq_true in Hp.
    + intros p q Hp%list_elem_of_In%Ha%negb_true_iff%bool_decide_eq_false Hq E1. apply Hp. rewrite E1. by apply list_elem_of_fmap_2.
Qed.
End Statements.

Lemma schema_after_app rs rs' s : schema_after (rs ++ rs') s = (s' ← schema_after rs s; schema_after rs' s').
Proof.
  revert s. induction rs as [|r rs IH]; intros s; [done|]. simpl. destruct (run_schema (upgrade r s) s); simpl; [apply IH|done].
Qed.

Lemma safe_history_drop rs rs' s s' :
  safe_history (rs ++ rs') s = true -> schema_after rs s = Some s' -> safe_history rs' s' = true.
Proof.
  revert s. induction rs as [|r rs IH]; intros s Hsafe Hs; [by simpl in *; simplify_eq|].
  cbn [app safe_history schema_after] in *. rewrite !andb_true_iff in Hsafe. destruct Hsafe as [_ Hrest].
  destruct (run_schema (upgrade r s) s); [|done]. by eapply IH.
Qed.

(** ** The properties *)

Lemma orders_checked :
  forallb (fun o => safe_history o no_schema && bool_decide (schema_after o no_schema = Some head_schema)) orders = true.
Proof. vm_compute. reflexivity. Qed.

Lemma order_checked o :
  o ∈ orders -> safe_history o no_schema = true /\ schema_after o no_schema = Some head_schema.
Proof.
  intros Ho. pose proof orders_checked as H. rewrite forallb_forall in H. apply list_elem_of_In, H in Ho.
  apply andb_true_iff in Ho as [H1 H2]. split; [done|by apply bool_decide_eq_true in H2].
Qed.

Lemma versions_in_orders : versions ∈ orders.
Proof. apply (list_elem_of_lookup_2 _ 0). reflexivity. Qed.

(** C27. In whichever order the two branches of the history are run, the revisions build
    from nothing the schema the ORM classes declare, but for the differences that
    [undeclared] lists. *)
Theorem upgrades_build_declared_schema o :
  o ∈ orders -> schema_after o no_schema = Some (undeclared target_metadata).
Proof. intros Ho. by apply order_checked. Qed.

Lemma upgrades_build_declared_schema_witness :
  versions ∈ orders /\ schema_after versions no_schema = Some (undeclared target_metadata).
Proof. split; [apply versions_in_orders|apply (upgrades_build_declared_schema versions versions_in_orders)]. Defined.

(** C18. At whichever revision a database is, and whatever its rows, as long as they
    satisfy that revision's schema and the numbers [922c6a79dffc] has yet to convert fit
    their new types, [alembic upgrade head] commits: the schema is the declared one but
    for the differences that [undeclared] lists, the rows satisfy it, and every row still
    has every value it had, but for [updatedAt], the table of the old subscriptions, and
    the fifteen columns of [922c6a79dffc] if that is yet to run, where a value is what
    PostgreSQL casts it to: a number rounded to eight decimals, or to four. *)
Theorem upgrade_head_keeps_rows current_timestamp gen_random_uuid cast o k s d :
  fresh_uuids gen_random_uuid -> o ∈ orders -> schema_after (take k o) no_schema = Some s -> db_ok s d ->
  fits cast (pending (drop k o)) d ->
  exists d', do_run_migrations current_timestamp gen_random_uuid cast (drop k o) (s, d) = (true, (head_schema, d')) /\
    db_ok head_schema d' /\ preserved cast (pending (drop k o)) d d'.
Proof.
  intros Hfresh Ho Hs Hd Hfit. destruct (order_checked o Ho) as [Hsafe Hhead].
  rewrite <- (take_drop k o) in Hsafe, Hhead. rewrite schema_after_app, Hs in Hhead. simpl in Hhead.
  destruct (safe_history_sound current_timestamp gen_random_uuid cast (drop k o) s d Hfresh) as (s' & d' & E & Er & Hd' & Hk);
    [by eapply safe_history_drop|done..|].
  rewrite Hhead in E. injection E as <-. exists d'. unfold do_run_migrations. by rewrite Er.
Qed.

(** Two accounts and a trade of one of them, at the revision before [c9d8e7f6a5b4]. *)
Definition sample_account (id account_id market gateway : string) : row :=
  list_to_map [("id", id); ("createdAt", "t0"); ("updatedAt", "t0"); ("account_id", account_id);
               ("market", market); ("gateway", gateway)].
Definition sample_trade : row :=
  list_to_map [("id", "9"); ("createdAt", "t0"); ("updatedAt", "t0"); ("account_id", "100234"); ("ref_id", "7");
               ("strategy_code", "S"); ("strategy", "gold"); ("symbol", "XAUUSD"); ("action", "LONG"); ("price", "1");
               ("quantity", "1"); ("is_running", "f"); ("risk_percent", "0"); ("status", "OPENED")].
Definition sample_data : data :=
  list_to_map [("signals", []); ("trades", [sample_trade]); ("broker_settings", []);
               ("accounts", [sample_account "1" "100234" "FOREX" "MT5"; sample_account "2" "55" "CRYPTO" "BINANCE"])].

(** A value that is nowhere in the database. *)
Definition all_values (d : data) : list string :=
  concat (map (fun p => concat (map (fun r : row => map snd (map_to_list r)) p.2)) (map_to_list d)).
Definition another_value (d : data) : string := fresh (all_values d).

Lemma another_value_fresh : fresh_uuids another_value.
Proof.
  intros d t c Hin. apply elem_of_col_values in Hin as (r & Hr & Hc).
  unfold rows_of in Hr. destruct (d !! t) as [rs|] eqn:Ht; [|by apply not_elem_of_nil in Hr].
  apply (infinite_is_fresh (all_values d)). unfold all_values at 2.
  apply list_elem_of_In, in_concat. eexists. split.
  - apply list_elem_of_In, list_elem_of_fmap. exists (t, rs). split; [done|]. by apply elem_of_map_to_list.
  - apply in_concat. eexists. split; [apply list_elem_of_In, list_elem_of_fmap; by exists r|].
    apply list_elem_of_In, list_elem_of_fmap. exists (c, another_value d). split; [done|]. by apply elem_of_map_to_list.
Qed.

Definition at_revision (k : nat) : schema := default no_schema (schema_after (take k versions) no_schema).

Lemma upgrade_head_keeps_rows_witness :
  exists d', do_run_migrations "now" another_value (fun _ v => Some v) (drop 11 versions) (at_revision 11, sample_data) =
      (true, (head_schema, d')) /\ db_ok head_schema d' /\
      preserved (fun _ v => Some v) [] sample_data d'.
Proof.
  apply (upgrade_head_keeps_rows "now" another_value (fun _ v => Some v) versions 11 (at_revision 11) sample_data).
  - apply another_value_fresh.
  - apply versions_in_orders.
  - vm_compute. reflexivity.
  - split; apply (bool_decide_eq_true_1 _); vm_compute; reflexivity.
  - intros t c ty v _ _. by eexists.
Defined.

(** ** Downgrades *)

(** The labels a downgrade leaves: PostgreSQL cannot drop one. *)
Definition labels_left (r : revision) (s : schema) : schema :=
  if String.eqb (revision_id r) "b6f7a8c9d0e1" then set_types <["signalstatusenum" := ["QUEUED"; "PUBLISHED"; "FAILED"]]> s
  else if String.eqb (revision_id r) "e5f6a7b8c9d0"
  then set_types <["broadcaststatusenum" := ["RUNNING"; "TP1"; "CLOSED"]]> s
  else s.

Definition undoes (r : revision) (s : schema) : bool :=
  match run_schema (upgrade r s) s with
  | Some s1 => bool_decide (run_schema (downgrade r) s1 = Some (labels_left r s)) &&
               bool_decide (run_schema (upgrade r (labels_left r s)) (labels_left r s) = Some s1)
  | None => false
  end.

Fixpoint undoes_all (rs : list revision) (s : schema) : bool :=
  match rs with
  | [] => true
  | r :: rs' => undoes r s && match run_schema (upgrade r s) s with Some s' => undoes_all rs' s' | None => false end
  end.

Lemma undoes_all_at rs s k r s' :
  undoes_all rs s = true -> rs !! k = Some r -> schema_after (take k rs) s = Some s' -> undoes r s' = true.
Proof.
  revert s k. induction rs as [|r0 rs IH]; intros s [|k] Hu Hr Hs; simplify_eq/=;
    apply andb_true_iff in Hu as [Hu Hrest]; [done|].
  destruct (run_schema (upgrade r0 s) s); [|done]. by eapply IH.
Qed.

Lemma orders_undone : forallb (fun o => undoes_all o no_schema) orders = true.
Proof. vm_compute. reflexivity. Qed.

(** C38. The downgrade of a revision takes back what its upgrade did to the schema, save
    the labels the upgrade added to a type, and after it the upgrade works again and
    leads to the same schema. *)
Theorem downgrade_undoes_upgrade o k r s :
  o ∈ orders -> o !! k = Some r -> schema_after (take k o) no_schema = Some s ->
  exists s1, run_schema (upgrade r s) s = Some s1 /\ run_schema (downgrade r) s1 = Some (labels_left r s) /\
    run_schema (upgrade r (labels_left r s)) (labels_left r s) = Some s1.
Proof.
  intros Ho Hr Hs. pose proof orders_undone as H. rewrite forallb_forall in H. apply list_elem_of_In, H in Ho.
  pose proof (undoes_all_at o no_schema k r s Ho Hr Hs) as Hu. unfold undoes in Hu.
  destruct (run_schema (upgrade r s) s) as [s1|]; [|done]. apply andb_true_iff in Hu as [H1 H2].
  apply bool_decide_eq_true in H1, H2. by exists s1.
Qed.

Lemma downgrade_undoes_upgrade_witness :
  exists r s1, versions !! 10%nat = Some r /\ run_schema (upgrade r (at_revision 10)) (at_revision 10) = Some s1 /\
    run_schema (downgrade r) s1 = Some (labels_left r (at_revision 10)).
Proof.
  destruct (downgrade_undoes_upgrade versions 10
    (Revision "b6f7a8c9d0e1" ["a5e6f7b8c9d0"] upgrade_b6f7a8c9d0e1 downgrade_b6f7a8c9d0e1) (at_revision 10))
    as (s1 & H1 & H2 & _).
  - apply versions_in_orders.
  - reflexivity.
  - vm_compute. reflexivity.
  - eexists _, s1. split; [reflexivity|]. split; [exact H1|exact H2].
Defined.

(** All of them leave nothing. *)
Lemma downgrade_base_leaves_nothing : run_schema (concat (map downgrade (rev versions))) head_schema = Some no_schema.
Proof. apply (bool_decide_eq_true_1 _). vm_compute. reflexivity. Qed.

(** A narrower key is refused where two rows agree on it. *)
Section Narrowing.
Context (current_timestamp : string) (gen_random_uuid : data -> string) (cast : sqltype -> string -> option string).

Abbreviation run := (run_script current_timestamp gen_random_uuid cast).

Lemma run_drop_constraint n t sts s s' d :
  run_schema (DROP_CONSTRAINT n t :: sts) s = Some s' ->
  exists s1, run_schema sts s1 = Some s' /\ run (DROP_CONSTRAINT n t :: sts) (s, d) = run sts (s1, d).
Proof.
  cbn [run_schema]. intros H. destruct (exec_schema (DROP_CONSTRAINT n t) s) as [s1|] eqn:E; [|done].
  exists s1. split; [done|]. cbn [run_script]. unfold exec. cbn [fst snd]. by rewrite E.
Qed.

Lemma run_unique n t cs sts s s' d :
  run_schema (CREATE_INDEX n (unique_constraint t cs) :: sts) s = Some s' ->
  exists s1, run_schema sts s1 = Some s' /\
    run (CREATE_INDEX n (unique_constraint t cs) :: sts) (s, d) =
    if decide (unique_on cs (rows_of d t)) then run sts (s1, d) else None.
Proof.
  cbn [run_schema]. intros H. destruct (exec_schema (CREATE_INDEX n (unique_constraint t cs)) s) as [s1|] eqn:E; [|done].
  exists s1. split; [done|]. cbn [run_script]. unfold exec. cbn [fst snd]. rewrite E. simpl.
  by case_bool_decide; case_decide.
Qed.

Lemma run_drop_column t c sts s s' d :
  run_schema (DROP_COLUMN t c :: sts) s = Some s' ->
  exists s1, run_schema sts s1 = Some s' /\
    run (DROP_COLUMN t c :: sts) (s, d) = run sts (s1, alter (map (delete c)) t d).
Proof.
  cbn [run_schema]. intros H. destruct (exec_schema (DROP_COLUMN t c) s) as [s1|] eqn:E; [|done].
  exists s1. split; [done|]. cbn [run_script]. unfold exec. cbn [fst snd]. by rewrite E.
Qed.

(** C39. Taking the symbol out of the cycle key again, or the market and gateway out of
    the account and trade keys, is refused exactly when two cycles share strategy and
    signal uxid, two accounts an account id, or two trades account id and ref id: no
    rows are merged or dropped.  Otherwise nothing but the two trade columns goes. *)
Theorem narrower_keys_refuse_clashes d s s' :
  (run_schema downgrade_d4e5f6a7b8c9 s = Some s' ->
   run downgrade_d4e5f6a7b8c9 (s, d) =
   if decide (unique_on ["strategy"; "signal_uxid"] (rows_of d "broadcast_messages")) then Some (s', d) else None) /\
  (run_schema downgrade_c9d8e7f6a5b4 s = Some s' ->
   run downgrade_c9d8e7f6a5b4 (s, d) =
   if decide (unique_on ["account_id"] (rows_of d "accounts") /\
              unique_on ["account_id"; "ref_id"] (rows_of d "trades"))
   then Some (s', alter (map (delete "market")) "trades" (alter (map (delete "gateway")) "trades" d)) else None).
Proof.
  split; intros H.
  - unfold downgrade_d4e5f6a7b8c9 in *. destruct (run_drop_constraint _ _ _ _ _ d H) as (s1 & H1 & ->).
    destruct (run_unique _ _ _ _ _ _ d H1) as (s2 & H2 & ->). by injection H2 as ->.
  - unfold downgrade_c9d8e7f6a5b4 in *. destruct (run_drop_constraint _ _ _ _ _ d H) as (s1 & H1 & ->).
    destruct (run_unique _ _ _ _ _ _ d H1) as (s2 & H2 & ->).
    destruct (decide (unique_on ["account_id"] _)) as [Ha|Ha]; [|by rewrite decide_False by tauto].
    destruct (run_drop_constraint _ _ _ _ _ d H2) as (s3 & H3 & ->).
    destruct (run_unique _ _ _ _ _ _ d H3) as (s4 & H4 & ->).
    destruct (decide (unique_on ["account_id"; "ref_id"] _)) as [Ht|Ht]; [|by rewrite decide_False by tauto].
    destruct (run_drop_column _ _ _ _ _ d H4) as (s5 & H5 & ->).
    destruct (run_drop_column _ _ _ _ _ (alter (map (delete "gateway")) "trades" d) H5) as (s6 & H6 & ->).
    injection H6 as ->. by rewrite decide_True.
Qed.
End Narrowing.

(** Two gateways' accounts with one bare id. *)
Definition colliding_data : data :=
  <["accounts" := [sample_account "1" "100234" "FOREX" "MT5"; sample_account "2" "100234" "CRYPTO" "BINANCE"]]> sample_data.

Lemma narrower_keys_refuse_clashes_witness :
  run_schema downgrade_c9d8e7f6a5b4 (at_revision 12) = Some (at_revision 11) /\
  run_script "now" another_value (fun _ v => Some v) downgrade_c9d8e7f6a5b4 (at_revision 12, colliding_data) = None /\
  run_script "now" another_value (fun _ v => Some v) downgrade_c9d8e7f6a5b4 (at_revision 12, sample_data) <> None.
Proof.
  assert (run_schema downgrade_c9d8e7f6a5b4 (at_revision 12) = Some (at_revision 11)) as H.
  { apply (bool_decide_eq_true_1 _). vm_compute. reflexivity. }
  split; [exact H|]. split.
  - rewrite (proj2 (narrower_keys_refuse_clashes "now" another_value (fun _ v => Some v) colliding_data
      (at_revision 12) (at_revision 11)) H).
    apply decide_False. intros [Hn _]. revert Hn. apply (bool_decide_eq_false_1 _). vm_compute. reflexivity.
  - rewrite (proj2 (narrower_keys_refuse_clashes "now" another_value (fun _ v => Some v) sample_data
      (at_revision 12) (at_revision 11)) H).
    rewrite decide_True; [done|]. split; apply (bool_decide_eq_true_1 _); vm_compute; reflexivity.
Defined.

(** The guard [54892682ef32] puts before the constraint on trades does not help a
    database that has it: the inspector lists the index behind a constraint too, so
    the script first drops that index, which PostgreSQL refuses. *)
Definition constraint_in_place : schema :=
  set_indexes <["uq_trades_account_ref_id" := unique_constraint "trades" ["account_id"; "ref_id"]]> (at_revision 1).

Example constraint_guard_of_no_use : run_schema (upgrade_54892682ef32 constraint_in_place) constraint_in_place = None.
Proof. vm_compute. reflexivity. Qed.

(** The setting the code reads to block signals is not the one [54892682ef32] seeds. *)
Definition seeds (st : stmt) : list string := match st with INSERT_SETTINGS kvs => map fst kvs | _ => [] end.
Definition seeded_keys : list string := concat (map (fun r => concat (map seeds (upgrade r no_schema))) versions).

Example seeded_settings :
  seeded_keys = ["prevent_signal"; "silent_signal"; "notification_include_signal_raw"; "crypto_allowed_symbol";
    "crypto_max_leverage"; "notification_timezone"; "max_retry_timeout"; "strategy_magic_map"; "public_broadcast_chat_ids";
    "private_broadcast_reply_notify"; "public_broadcast_reply_notify"].
Proof. vm_compute. reflexivity. Qed.
