(* ===== verification/ChangeListener.v ===== *)
(** * The change listener

    [PostgresChangeListener] ([db/listener.py]): one connection that LISTENs on the
    channel of the write log, a bounded queue between asyncpg's callback and the
    task that awaits the handler, and the supervisor that re-establishes the
    subscription.  The payload is the one the trigger on the log writes (the
    migration [b3d4e5f6a7c8]).  Between two awaits a task is not interrupted; timers
    fire when they like. *)

From S2P Require Import Prelude PyStr Uuid PyTime Json JsonText Enums Schemas Models ChatTargets World.
From S2P Require Import Settings Samples StatusPolicies BroadcastRepo CycleLog Dispatcher DispatchLive.
From Stdlib Require Import Ascii.

(** ** The notification *)

Definition json_quoted (s : string) : string := String quote (s +:+ String quote "").

(** [notify_broadcast_message_log()]: [json_build_object(..)::text] of an inserted row. *)
Definition notify_payload (l : BroadcastMessageLog) : string :=
  "{" +:+ json_quoted "log_id" +:+ " : " +:+ json_quoted (uuid_str (bl_id l)) +:+
  ", " +:+ json_quoted "broadcast_message_id" +:+ " : " +:+ json_quoted (uuid_str (bl_broadcast_message_id l)) +:+
  ", " +:+ json_quoted "seq" +:+ " : " +:+ str_int (bl_seq l) +:+ "}".

Definition notified (l : BroadcastMessageLog) : list (string * json) :=
  [("log_id", JStr (uuid_str (bl_id l))); ("broadcast_message_id", JStr (uuid_str (bl_broadcast_message_id l)));
   ("seq", JInt (bl_seq l))].

(** ** The listener *)

(** Where [start] and the supervisor are: not started, in [asyncpg.connect], in
    [add_listener], waiting for the next health check. *)
Module Phase.
Inductive phase := STOPPED | DIALLING | SUBSCRIBING | WATCHING.
End Phase.
Export Phase (phase).

(** [_conn] (with whether it is open) and whether the channel is subscribed on it,
    the connections this process has open on the server, [_queue], whether the drain
    task runs and the payload it is handling. *)
Record Listener := {
  pl_phase : phase;
  pl_conn : option bool;
  pl_listening : bool;
  pl_sockets : nat;
  pl_queue : list (list (string * json));
  pl_draining : bool;
  pl_handling : option (list (string * json))
}.

Definition QUEUE_MAXSIZE : nat := 1000.

Definition listener0 : Listener :=
  {| pl_phase := Phase.STOPPED; pl_conn := None; pl_listening := false; pl_sockets := 0; pl_queue := [];
     pl_draining := false; pl_handling := None |}.

Definition set_link (p : phase) (c : option bool) (listening : bool) (sockets : nat) (h : Listener) : Listener :=
  {| pl_phase := p; pl_conn := c; pl_listening := listening; pl_sockets := sockets; pl_queue := pl_queue h;
     pl_draining := pl_draining h; pl_handling := pl_handling h |}.

Definition set_drain (q : list (list (string * json))) (draining : bool) (handling : option (list (string * json)))
    (h : Listener) : Listener :=
  {| pl_phase := pl_phase h; pl_conn := pl_conn h; pl_listening := pl_listening h; pl_sockets := pl_sockets h;
     pl_queue := q; pl_draining := draining; pl_handling := handling |}.

(** [connected]. *)
Definition connected (h : Listener) : bool := match pl_conn h with Some true => true | _ => false end.

(** [start], up to its first await. *)
Definition listener_start (h : Listener) : Listener :=
  match pl_phase h with
  | Phase.STOPPED => set_link Phase.DIALLING (pl_conn h) (pl_listening h) (pl_sockets h) h
  | _ => h
  end.

(** [_connect] has returned: the drain and supervisor tasks run. *)
Definition tasks_running (h : Listener) : Listener := set_drain (pl_queue h) true (pl_handling h) h.

(** [asyncpg.connect] answers, with a connection or an exception. *)
Definition dialled (ok : bool) (h : Listener) : Listener :=
  match pl_phase h with
  | Phase.DIALLING =>
      if ok then set_link Phase.SUBSCRIBING (Some true) false (S (pl_sockets h)) h
      else tasks_running (set_link Phase.WATCHING None false (pl_sockets h) h)
  | _ => h
  end.

(** [add_listener] answers.  The [except] clause drops the reference to the
    connection without closing it. *)
Definition subscribed (ok : bool) (h : Listener) : Listener :=
  match pl_phase h with
  | Phase.SUBSCRIBING =>
      if ok && connected h then tasks_running (set_link Phase.WATCHING (pl_conn h) true (pl_sockets h) h)
      else tasks_running (set_link Phase.WATCHING None false (pl_sockets h) h)
  | _ => h
  end.

(** The connection goes away. *)
Definition dropped (h : Listener) : Listener :=
  if connected h then set_link (pl_phase h) (Some false) false (pred (pl_sockets h)) h else h.

(** A turn of [_supervise] whose wait timed out. *)
Definition health_check (h : Listener) : Listener :=
  match pl_phase h with
  | Phase.WATCHING =>
      if connected h then h else set_link Phase.DIALLING (pl_conn h) (pl_listening h) (pl_sockets h) h
  | _ => h
  end.

(** [_on_notify]. *)
Definition on_notify (payload : string) (h : Listener) : Listener :=
  match json_loads payload with
  | Some (JObj data) =>
      if (length (pl_queue h) <? QUEUE_MAXSIZE)%nat
      then set_drain (pl_queue h ++ [data]) (pl_draining h) (pl_handling h) h
      else h
  | _ => h
  end.

(** A NOTIFY on the channel, as far as this process hears it. *)
Definition pg_notify (payload : string) (h : Listener) : Listener :=
  if pl_listening h then on_notify payload h else h.

(** [_drain]: the next payload is taken and its handler called; then the handler has
    returned or raised. *)
Definition take_change (h : Listener) : option (list (string * json)) * Listener :=
  match pl_draining h, pl_handling h, pl_queue h with
  | true, None, data :: q => (Some data, set_drain q true (Some data) h)
  | _, _, _ => (None, h)
  end.

Definition handler_done (h : Listener) : Listener := set_drain (pl_queue h) (pl_draining h) None h.

(** [_disconnect]. *)
Definition disconnect (p : phase) (h : Listener) : Listener :=
  set_link p None false (if connected h then pred (pl_sockets h) else pl_sockets h) h.

(** [stop]: both tasks are cancelled and awaited, then [_disconnect]. *)
Definition listener_stop (h : Listener) : Listener :=
  set_drain (pl_queue h) false None (disconnect Phase.STOPPED h).

(** An insert into the log is heard. *)
Definition hears (h : Listener) : bool := pl_listening h && (length (pl_queue h) <? QUEUE_MAXSIZE)%nat.

(** [add_listener] raises on a connection that is open. *)
Definition is_refusal (ok : bool) (h : Listener) : bool :=
  match pl_phase h with Phase.SUBSCRIBING => negb ok && connected h | _ => false end.

(** What a listener may have been through: the rows inserted that it heard and those
    it missed, the payloads its handler was given, and how often the server refused
    LISTEN on a connection it had accepted. *)
Inductive listened : Listener -> list BroadcastMessageLog -> list BroadcastMessageLog ->
    list (list (string * json)) -> nat -> Prop :=
| ls_new : listened listener0 [] [] [] 0
| ls_insert h heard missed handed refused l :
    listened h heard missed handed refused ->
    listened (pg_notify (notify_payload l) h) (heard ++ if hears h then [l] else [])
      (missed ++ if hears h then [] else [l]) handed refused
| ls_noise h heard missed handed refused text :
    listened h heard missed handed refused -> (forall data, json_loads text <> Some (JObj data)) ->
    listened (pg_notify text h) heard missed handed refused
| ls_take h heard missed handed refused d h' :
    listened h heard missed handed refused -> take_change h = (d, h') ->
    listened h' heard missed (handed ++ match d with Some d => [d] | None => [] end) refused
| ls_done h heard missed handed refused : listened h heard missed handed refused -> listened (handler_done h) heard missed handed refused
| ls_start h heard missed handed refused : listened h heard missed handed refused -> listened (listener_start h) heard missed handed refused
| ls_dialled h heard missed handed refused ok : listened h heard missed handed refused -> listened (dialled ok h) heard missed handed refused
| ls_subscribed h heard missed handed refused ok :
    listened h heard missed handed refused -> listened (subscribed ok h) heard missed handed
      (refused + if is_refusal ok h then 1 else 0)%nat
| ls_dropped h heard missed handed refused : listened h heard missed handed refused -> listened (dropped h) heard missed handed refused
| ls_check h heard missed handed refused : listened h heard missed handed refused -> listened (health_check h) heard missed handed refused
| ls_stop h heard missed handed refused : listened h heard missed handed refused -> listened (listener_stop h) heard missed handed refused.

(** ** The payload is read back *)

(** A character that stands for itself in a JSON string. *)
Definition plain_char (c : ascii) : bool :=
  negb (Ascii.eqb c quote) && negb (Ascii.eqb c backslash) && negb (code c <? 32)%Z.

Lemma json_string_plain s rest :
  Forall (fun c => plain_char c = true) (chars s) -> json_string (s +:+ String quote rest) = Some (s, rest).
Proof.
  intros H. induction s as [|c s IH]; [done|]. apply Forall_cons in H as [Hc H].
  unfold plain_char in Hc. rewrite !andb_true_iff, !negb_true_iff in Hc. destruct Hc as [[H1 H2] H3].
  cbn [String.append json_string]. by rewrite H1, H2, H3, IH.
Qed.

Lemma plain_uuid u : Forall (fun c => plain_char c = true) (chars (uuid_str u)).
Proof.
  assert (forall n z, Forall (fun c => plain_char c = true) (chars (hex_fixed n z))) as H.
  { intros n z. eapply Forall_impl; [apply hex_fixed_chars|]. intros c (d & Hd & ->).
    revert d Hd. apply hex_char_all. repeat constructor. }
  assert (Forall (fun c => plain_char c = true) (chars "-")) as Hd by (repeat constructor).
  unfold uuid_str. rewrite !chars_app. repeat (apply Forall_app; split); auto.
Qed.

Lemma json_value_plain n s rest :
  Forall (fun c => plain_char c = true) (chars s) -> json_value (S n) (json_quoted s +:+ rest) = Some (JStr s, rest).
Proof.
  intros H. unfold json_quoted. cbn [String.append]. rewrite string_app_assoc. cbn [String.append json_value].
  change (eat quote (String quote ?r)) with (Some r). cbv iota. by rewrite json_string_plain.
Qed.

(** One member of an object, its key a literal. *)
Lemma json_members_quoted n key v text rest :
  Forall (fun c => plain_char c = true) (chars key) -> skip_ws (text +:+ rest) = text +:+ rest ->
  json_value n (text +:+ rest) = Some (v, rest) ->
  json_members (S n) (json_quoted key +:+ " : " +:+ text +:+ rest) =
  match eat "}" (skip_ws rest), eat "," (skip_ws rest) with
  | Some rest, _ => Some ([(key, v)], rest)
  | None, Some r => '(kvs, rest) ← json_members n (skip_ws r); Some ((key, v) :: kvs, rest)
  | None, None => None
  end.
Proof.
  intros Hk Hs Hv. unfold json_quoted. cbn [String.append]. rewrite string_app_assoc. cbn [String.append json_members].
  change (eat quote (String quote ?r)) with (Some r). cbn [mbind option_bind].
  rewrite json_string_plain by done. cbn [mbind option_bind].
  change (skip_ws (String " " (String ":" ?r))) with (String ":" r).
  change (eat ":" (String ":" ?r)) with (Some r). cbn [mbind option_bind].
  change (skip_ws (String " " ?r)) with (skip_ws r). rewrite Hs, Hv. done.
Qed.

(** What the trigger wrote about a row is what the handler is given. *)
Lemma notified_read l : json_loads (notify_payload l) = Some (JObj (notified l)).
Proof.
  rewrite (json_fuel (S (S (S (S (S (2 * String.length (notify_payload l)))))))) by lia.
  set (n := 2 * _). unfold notify_payload.
  change (skip_ws ("{" +:+ ?r)) with (String "{" r). remember (S (S (S (S n)))) as m eqn:Em. cbn [json_value].
  change (eat quote (String "{" ?r)) with (@None string). change (eat "{" (String "{" ?r)) with (Some r). cbv iota.
  change (skip_ws (json_quoted "log_id" +:+ ?r)) with (json_quoted "log_id" +:+ r).
  change (eat "}" (json_quoted "log_id" +:+ ?r)) with (@None string). cbv iota. subst m.
  rewrite (json_members_quoted _ "log_id" (JStr (uuid_str (bl_id l)))) by first [by repeat constructor | done | apply json_value_plain, plain_uuid].
  change (skip_ws (", " +:+ ?r)) with (String "," (String " " r)).
  change (eat "}" (String "," ?r)) with (@None string). change (eat "," (String "," ?r)) with (Some r). cbv iota.
  change (skip_ws (String " " (json_quoted "broadcast_message_id" +:+ ?r))) with (json_quoted "broadcast_message_id" +:+ r).
  rewrite (json_members_quoted _ "broadcast_message_id" (JStr (uuid_str (bl_broadcast_message_id l))))
    by first [by repeat constructor | done | apply json_value_plain, plain_uuid].
  change (skip_ws (", " +:+ ?r)) with (String "," (String " " r)).
  change (eat "}" (String "," ?r)) with (@None string). change (eat "," (String "," ?r)) with (Some r). cbv iota.
  change (skip_ws (String " " (json_quoted "seq" +:+ ?r))) with (json_quoted "seq" +:+ r).
  rewrite (json_members_quoted _ "seq" (JInt (bl_seq l)))
    by first [by repeat constructor | apply skip_ws_number | apply json_value_int; by right].
  done.
Qed.

Lemma notified_id l : change_id (notified l) = Some (bl_broadcast_message_id l).
Proof. unfold change_id. cbn. apply uuid_parse_str. Qed.

(** ** What it goes through *)

(** Payloads neither lost nor doubled. *)
Definition queue_inv (h : Listener) (heard : list BroadcastMessageLog) (handed : list (list (string * json))) : Prop :=
  handed ++ pl_queue h = map notified heard /\ length (pl_queue h) <= QUEUE_MAXSIZE.

(** One connection, subscribed while it is watched, besides those refused LISTEN. *)
Definition link_inv (h : Listener) (refused : nat) : Prop :=
  (pl_listening h = true -> connected h = true /\ pl_phase h = Phase.WATCHING) /\
  (connected h = true -> pl_phase h = Phase.SUBSCRIBING \/ pl_phase h = Phase.WATCHING) /\
  (pl_phase h = Phase.WATCHING -> connected h = true -> pl_listening h = true) /\
  pl_sockets h = (refused + if connected h then 1 else 0)%nat.

Lemma queue_inv_notify l h heard handed :
  queue_inv h heard handed ->
  queue_inv (pg_notify (notify_payload l) h) (heard ++ if hears h then [l] else []) handed.
Proof.
  intros [H1 H2]. unfold pg_notify, hears, on_notify. rewrite notified_read.
  destruct (pl_listening h); cbn [andb]; [|by rewrite app_nil_r].
  destruct (Nat.ltb_spec (length (pl_queue h)) QUEUE_MAXSIZE); [|by rewrite app_nil_r].
  split; cbn [pl_queue set_drain].
  - rewrite map_app, <-H1, <-app_assoc. done.
  - rewrite length_app. cbn. unfold QUEUE_MAXSIZE in *. lia.
Qed.

Lemma queue_inv_take h heard handed d h' :
  queue_inv h heard handed -> take_change h = (d, h') ->
  queue_inv h' heard (handed ++ match d with Some d => [d] | None => [] end).
Proof.
  intros [H1 H2]. unfold take_change.
  destruct (pl_draining h), (pl_handling h), (pl_queue h) as [|data q] eqn:E; intros [= <- <-];
    rewrite ?app_nil_r; try (by split; rewrite ?E).
  rewrite ?E in H1, H2. split; cbn in *; [by rewrite <-app_assoc|lia].
Qed.

Lemma notify_link text h : exists q, pg_notify text h = set_drain q (pl_draining h) (pl_handling h) h.
Proof.
  assert (h = set_drain (pl_queue h) (pl_draining h) (pl_handling h) h) as Hid by (by destruct h).
  unfold pg_notify, on_notify. repeat case_match; eauto.
Qed.

Lemma take_link h d h' : take_change h = (d, h') -> exists q b x, h' = set_drain q b x h.
Proof.
  assert (h = set_drain (pl_queue h) (pl_draining h) (pl_handling h) h) as Hid by (by destruct h).
  unfold take_change. repeat case_match; intros [= <- <-]; eauto.
Qed.

Lemma link_subscribed ok h refused :
  link_inv h refused -> link_inv (subscribed ok h) (refused + if is_refusal ok h then 1 else 0)%nat.
Proof.
  intros HL. unfold subscribed, is_refusal. destruct (pl_phase h) eqn:E; rewrite ?Nat.add_0_r; try exact HL.
  destruct HL as (_ & _ & _ & H). unfold link_inv, connected in *.
  destruct ok, (pl_conn h) as [[]|] eqn:Ec; cbn; rewrite ?Ec; split_and!; try done; try lia; auto.
Qed.

Lemma link_step h refused (f : Listener -> Listener) :
  f ∈ [listener_start; dialled true; dialled false; dropped; health_check; listener_stop] ->
  link_inv h refused -> link_inv (f h) refused.
Proof.
  intros Hf (H1 & H2 & H3 & H4). rewrite !elem_of_cons in Hf. unfold link_inv, connected in *.
  destruct Hf as [->|[->|[->|[->|[->|[->|[]%elem_of_nil]]]]]].
  all: unfold listener_start, dialled, dropped, health_check, listener_stop, disconnect, connected.
  all: destruct (pl_phase h) eqn:Ep, (pl_conn h) as [[]|] eqn:Ec; cbn; rewrite ?Ep, ?Ec; split_and!; try done; try lia;
    try (intros Hl; destruct (H1 Hl)); try (by destruct (H2 eq_refl)); try lia; by auto.
Qed.

Lemma inv_listened h heard missed handed refused :
  listened h heard missed handed refused -> queue_inv h heard handed /\ link_inv h refused.
Proof.
  induction 1 as [|h heard missed handed refused l _ [IH1 IH2]|h heard missed handed refused text _ [IH1 IH2] Ht
    |h heard missed handed refused d h' _ [IH1 IH2] Hd|h heard missed handed refused _ [IH1 IH2]
    |h heard missed handed refused _ [IH1 IH2]|h heard missed handed refused ok _ [IH1 IH2]
    |h heard missed handed refused ok _ [IH1 IH2]|h heard missed handed refused _ [IH1 IH2]
    |h heard missed handed refused _ [IH1 IH2]|h heard missed handed refused _ [IH1 IH2]].
  - split; [split; [done|cbn; lia]|]. by split_and!.
  - split; [by apply queue_inv_notify|]. by destruct (notify_link (notify_payload l) h) as [q ->].
  - unfold pg_notify, on_notify. destruct (pl_listening h); [|done]. destruct (json_loads text) as [[]|] eqn:E; try done.
    by destruct (Ht kvs).
  - split; [by eapply queue_inv_take|]. by destruct (take_link _ _ _ Hd) as (q & b & x & ->).
  - done.
  - split; [|by apply link_step; [set_solver|]]. unfold listener_start. by destruct (pl_phase h).
  - split; [|destruct ok; (apply link_step; [set_solver|done])]. unfold dialled. by destruct (pl_phase h), ok.
  - split; [|by apply link_subscribed]. unfold subscribed. by destruct (pl_phase h), (ok && connected h).
  - split; [|by apply link_step; [set_solver|]]. unfold dropped. by destruct (connected h).
  - split; [|by apply link_step; [set_solver|]]. unfold health_check. by destruct (pl_phase h), (connected h).
  - split; [|by apply link_step; [set_solver|]]. done.
Qed.

Section listener.
Context `{CFG : Settings} `{REN : Renderer}.
Context (private_chat_ids : option (list string)) (max_attempts : Z).

(** C23. A change that is heard wakes the dispatch of its cycle.  Whatever rows are
    inserted into the write log and whatever else is sent on the channel, however
    often the connection is lost and made again, and whatever the handler does: the
    payloads its handler was given and those still queued are, in order and one for
    one, the rows heard; the queue stays within its size; and what the handler does
    with a payload is the dispatch of the cycle its row belongs to.  A row is missed
    only while the channel is not subscribed or the queue is full.  Besides the
    connections the server refused LISTEN on, at most one is open at any time, and
    after [stop] none. *)
Theorem heard_changes_are_dispatched h heard missed handed refused :
  listened h heard missed handed refused ->
  handed ++ pl_queue h = map notified heard /\ length (pl_queue h) <= QUEUE_MAXSIZE /\
  map (on_change private_chat_ids max_attempts) (handed ++ pl_queue h) =
    map (fun l => dispatch_locked private_chat_ids max_attempts (bl_broadcast_message_id l)) heard /\
  (hears h = false -> connected h = false \/ pl_phase h = Phase.SUBSCRIBING \/ length (pl_queue h) = QUEUE_MAXSIZE) /\
  pl_sockets h <= S refused /\ pl_sockets (listener_stop h) = refused.
Proof.
  intros H. destruct (inv_listened _ _ _ _ _ H) as [[H1 H2] (H3 & H4 & H5 & H6)]. split; [done|]. split; [done|].
  split; [|split; [|split]].
  - rewrite H1, map_map. apply map_ext. intros l. unfold on_change. by rewrite notified_id.
  - unfold hears. intros Hh. destruct (connected h) eqn:Ec; [|by left]. right. destruct (H4 eq_refl) as [?|Hw]; [by left|right].
    rewrite (H5 Hw eq_refl) in Hh. apply Nat.ltb_ge in Hh. lia.
  - destruct (connected h); lia.
  - cbn. destruct (connected h); lia.
Qed.
End listener.

(** The listener subscribes again.  Once the server is back, the next health check of
    a listener that lost its connection has the channel subscribed. *)
Lemma health_check_resubscribes h :
  pl_phase h = Phase.WATCHING -> connected h = false ->
  let h' := subscribed true (dialled true (health_check h)) in
  pl_listening h' = true /\ pl_draining h' = true /\ pl_queue h' = pl_queue h.
Proof. intros Hp Hc. unfold health_check, dialled, subscribed, connected in *. rewrite Hp, Hc. done. Qed.

(** A server that accepts connections and refuses LISTEN (a standby, say) is left
    with one more open connection by every check, and [stop] closes none of them. *)
Fixpoint refused_checks (n : nat) (h : Listener) : Listener :=
  match n with O => h | S n => refused_checks n (subscribed false (dialled true (health_check h))) end.

Theorem refused_listen_leaks n h :
  pl_phase h = Phase.WATCHING -> connected h = false ->
  pl_sockets (listener_stop (refused_checks n h)) = (n + pl_sockets h)%nat.
Proof.
  revert h. induction n as [|n IH]; intros h Hp Hc.
  - cbn. by rewrite Hc.
  - cbn [refused_checks]. set (h' := subscribed _ _).
    assert (pl_phase h' = Phase.WATCHING /\ connected h' = false /\ pl_sockets h' = S (pl_sockets h)) as (? & ? & E).
    { unfold h', health_check, dialled, subscribed, connected in *. by rewrite Hp, Hc. }
    rewrite IH, E by done. lia.
Qed.

(** ** On concrete input *)
Definition sample_change : BroadcastMessageLog :=
  {| bl_id := uid 2; bl_updatedAt := 0%Z; bl_broadcast_message_id := uid 1; bl_seq := 7%Z; bl_kind := LogKind.SIGNAL;
     bl_payload := JNull; bl_status := LogStatus.PENDING; bl_attempts := 0%Z; bl_last_error := None; bl_delivered_at := None |}.

(** A row inserted before the channel is subscribed, one after it, and the drain's turn. *)
Definition sample_listener : Listener :=
  (take_change (pg_notify (notify_payload sample_change)
     (subscribed true (dialled true (pg_notify (notify_payload sample_change) (listener_start listener0)))))).2.

Lemma sample_listened : listened sample_listener [sample_change] [sample_change] [notified sample_change] 0.
Proof.
  exact (ls_take _ _ _ _ _ _ _
    (ls_insert _ _ _ _ _ sample_change
       (ls_subscribed _ _ _ _ _ true (ls_dialled _ _ _ _ _ true
          (ls_insert _ _ _ _ _ sample_change (ls_start _ _ _ _ _ ls_new))))) eq_refl).
Qed.

Lemma heard_changes_are_dispatched_witness :
  map (@on_change sample_settings sample_renderer None 5) [notified sample_change] =
    [@dispatch_locked sample_settings sample_renderer None 5 (uid 1)] /\ pl_sockets sample_listener <= 1.
Proof.
  destruct (@heard_changes_are_dispatched sample_settings sample_renderer None 5 _ _ _ _ _ sample_listened)
    as (_ & _ & H & _ & Ho & _).
  split; [exact H|exact Ho].
Defined.
