(* ===== verification/DispatchClose.v ===== *)
(** * How a pass leaves the write log

    Whatever Telegram answers, a pass over a working database closes every entry
    it claimed; an entry whose budget is spent is beyond the reach of any pass. *)

From S2P Require Import Prelude PyStr Uuid PyTime Json Enums Schemas Models ChatTargets World Settings.
From S2P Require Import Samples StatusPolicies BroadcastRepo CycleLog CycleFlow Dispatcher.
From S2P Require Import DispatchSafety DispatchFlow DispatchLive.

(** ** Steps that leave the log alone *)

(** The log table and the clock are as before, and a working database still works. *)
Definition logs_kept (w w' : World) : Prop :=
  broadcast_message_logs (db w') = broadcast_message_logs (db w) /\ now w' = now w /\
  (db_up w -> db_up w').

#[global] Instance logs_kept_preorder : PreOrder logs_kept.
Proof.
  split; [by intros w|]. intros w1 w2 w3 (?&?&?) (?&?&?). unfold logs_kept. split_and!; try congruence. auto.
Qed.

Lemma next_outcome_up w : (now (next_outcome w).2 = now w) /\ (db_up w -> db_up (next_outcome w).2).
Proof. unfold next_outcome, db_up. destruct (sched w) eqn:E; cbn; [rewrite E; done|done]. Qed.

Lemma kept_session {A} (t : instant -> Db -> res exn (A * Db)) :
  (forall i d a d', t i d = Ok (a, d') -> broadcast_message_logs d' = broadcast_message_logs d) ->
  always logs_kept (session t).
Proof.
  intros H. apply always_act. intros w. unfold session_step.
  destruct (next_outcome_frame w) as (Hd & _). destruct (next_outcome_up w) as [Hn Hup].
  destruct (next_outcome w) as [[| |] w1]; cbn [fst snd] in *.
  - destruct (t (now w1) (db w1)) as [[a d]|e] eqn:E; unfold logs_kept; cbn; [|by rewrite Hd].
    apply H in E. rewrite E, Hd. by split_and!.
  - unfold logs_kept; cbn. by rewrite Hd.
  - destruct (t (now w1) (db w1)) as [[a d]|e] eqn:E; unfold logs_kept; cbn; [|by rewrite Hd].
    apply H in E. rewrite E, Hd. by split_and!.
Qed.

Lemma kept_upsert id audience chat_id message_id message seq n error :
  always logs_kept (upsert_chat id audience chat_id message_id message seq n error).
Proof.
  apply always_bind.
  { apply always_act. intros w. unfold logs_kept, db_up. by destruct (uuids w). }
  intros u. apply always_catch; [|done]. apply always_bind; [|done]. apply kept_session.
  intros i d a d'. unfold write_chat. destruct (select_first _ _); [by intros [= _ <-]|].
  destruct (insert_unique _ _ _); [by intros [= _ <-]|done].
Qed.

Lemma kept_telegram c : always logs_kept (telegram c).
Proof. apply always_act. intros w. unfold logs_kept, db_up. by destruct (tg w). Qed.

Section close.
Context `{CFG : Settings} `{REN : Renderer}.

Lemma kept_notify_loop chat id sent index notices : always logs_kept (notify_loop chat id sent index notices).
Proof.
  revert sent index. induction notices as [|[n|] rest IH]; intros sent index; cbn [notify_loop]; [done| |apply IH].
  apply always_bind.
  { unfold notifier_reply. destruct (negb _); [done|]. apply always_bind; [apply kept_telegram|done]. }
  intros []; [apply IH|done].
Qed.

Lemma kept_deliver id audience chat text seq notices existing enabled :
  always logs_kept (deliver id audience chat text seq notices existing enabled).
Proof.
  assert (always logs_kept (deliver_new id audience chat text seq notices)) as Hnew.
  { apply always_bind.
    - unfold notifier_send. destruct (negb _); [done|]. apply always_bind; [apply kept_telegram|done].
    - intros [o [m|]]; destruct o; (apply always_bind; [apply kept_upsert|done]). }
  unfold deliver. destruct (match existing with Some c => _ | None => _ end); [done|].
  destruct (match existing with Some c => if has_message c then _ else _ | None => _ end); [|exact Hnew].
  apply always_bind.
  { unfold notifier_edit. destruct (negb _); [done|]. apply always_bind; [apply kept_telegram|done]. }
  intros []; [|exact Hnew|apply always_bind; [apply kept_upsert|done]].
  apply always_bind; [|intros k; apply always_bind; [apply kept_upsert|done]].
  unfold notify_updates. destruct (match existing with Some c => _ | None => _ end); [|done].
  destruct (negb enabled); [done|apply kept_notify_loop].
Qed.

Lemma kept_deliver_all view targets values : always logs_kept (deliver_all view targets values).
Proof.
  unfold deliver_all. destruct (unrenderable view values); [done|]. apply always_bind; [|done]. apply always_for_collect. intros [audience chat]. apply kept_deliver.
Qed.

Context (private_chat_ids : option (list string)) (max_attempts : Z).

Abbreviation dispatch := (dispatch_locked private_chat_ids max_attempts).
Abbreviation targets_of values :=
  (dispatch_targets private_chat_ids (setting PUBLIC_BROADCAST_CHAT_IDS_KEY values)).

(** A pass closes what it claimed.  Over a working database, broadcasting not
    silenced, some destination configured and the cycle rendered, whatever Telegram answers: the pass
    ends normally, and every entry it claimed is DELIVERED when all deliveries
    succeeded; otherwise it has spent exactly one attempt and is PENDING again, or
    FAILED when that attempt was the last of the budget.  None stays SENDING. *)
Theorem pass_closes_changes cycle_id w view :
  db_up w -> cycle_view cycle_id (db w) = Some view ->
  setting SILENT_SIGNAL (settings_values (db w)) <> Some "1" ->
  targets_of (settings_values (db w)) <> [] -> unrenderable view (settings_values (db w)) = None ->
  (exists l, l ∈ broadcast_message_logs (db w) /\ pending cycle_id max_attempts l = true) ->
  exists ok w1 w', run (deliver_all view (targets_of (settings_values (db w))) (settings_values (db w)))
      (set_db (claimed_db max_attempts cycle_id w) w) = (Ok ok, w1) /\
  run (dispatch cycle_id) w = (Ok tt, w') /\ out w' = out w1 /\
  forall l, l ∈ broadcast_message_logs (db w) -> pending cycle_id max_attempts l = true ->
    exists l', l' ∈ broadcast_message_logs (db w') /\ same_log l l' /\
      bl_attempts l' = (bl_attempts l + 1)%Z /\
      bl_status l' = if ok then LogStatus.DELIVERED
                     else if bool_decide (bl_attempts l + 1 = max_attempts)%Z then LogStatus.FAILED
                     else LogStatus.PENDING.
Proof.
  intros Hup Hv Hs Hne Hr Hsome.
  rewrite (dispatch_up private_chat_ids max_attempts cycle_id w view Hup Hv Hsome).
  unfold deliver_phase. rewrite bool_decide_eq_false_2 by done.
  set (w0 := set_db (claimed_db max_attempts cycle_id w) w).
  destruct (deliver_all_answers view (targets_of (settings_values (db w))) (settings_values (db w)) w0 Hr)
    as (ok & w1 & _ & Hd & _).
  pose proof (always_run logs_kept _ w0 (kept_deliver_all view (targets_of (settings_values (db w)))
    (settings_values (db w)))) as Hk.
  rewrite Hd in Hk. destruct Hk as (Hl1 & Hn1 & Hup1). cbn [fst snd] in *.
  assert (map bl_id (claimed_logs max_attempts cycle_id w) <> []) as Hids.
  { destruct Hsome as (l & Hl & Hp). pose proof (claimed_id max_attempts cycle_id w l Hl Hp) as H.
    intros E. rewrite E in H. by apply not_elem_of_nil in H. }
  assert (exists w', run (let! ok := deliver_all view (targets_of (settings_values (db w))) (settings_values (db w)) in
      do! finish_logs (map bl_id (claimed_logs max_attempts cycle_id w)) ok
            (if ok then None else Some "delivery failed") (Some max_attempts) in
      do! mark_broadcast cycle_id in Ret tt) w0 = (Ok tt, w') /\ out w' = out w1 /\
    broadcast_message_logs (db w') = update_where (id_in (map bl_id (claimed_logs max_attempts cycle_id w)))
      (finish_log (now w) ok (if ok then None else Some "delivery failed") (Some max_attempts))
      (broadcast_message_logs (claimed_db max_attempts cycle_id w))) as (w' & Hrun & Ho & Hl).
  { rewrite run_bind, Hd, run_bind, run_finish_up by auto. cbv beta iota. rewrite run_bind.
    unfold mark_broadcast. rewrite run_catch, run_session_up by (by apply Hup1). cbn [db set_db].
    rewrite Hn1, Hl1. destruct (select_first _ _); cbn; eauto. }
  exists ok, w1, w'. split; [done|]. split; [|split; [done|]].
  { destruct (targets_of (settings_values (db w))); [done|]. exact Hrun. }
  intros l Hl0 Hp. exists (finish_log (now w) ok (if ok then None else Some "delivery failed")
    (Some max_attempts) (claim_log (now w) l)).
  split; [rewrite Hl; by apply (closed_log max_attempts cycle_id w l)|].
  apply pending_spec in Hp as (_ & _ & Ha).
  split; [transitivity (claim_log (now w) l); [apply bl_update_same|apply finish_same]|].
  destruct ok; [done|]. split; [done|]. cbn.
  case_bool_decide; destruct (Z.leb_spec max_attempts (bl_attempts l + 1)); done || lia.
Qed.

(** ** An entry no pass can reach *)

(** The entry [id] is PENDING with its budget spent. *)
Definition stranded (id : uuid) (d : Db) : Prop :=
  NoDup (map bl_id (broadcast_message_logs d)) /\
  exists l, l ∈ broadcast_message_logs d /\ bl_id l = id /\ bl_status l = LogStatus.PENDING /\
    bl_attempts l = max_attempts.

Definition stays_stranded (id : uuid) (w w' : World) : Prop := stranded id (db w) -> stranded id (db w').

#[local] Instance stays_stranded_preorder id : PreOrder (stays_stranded id).
Proof. split; [intros w H; exact H|]. intros w1 w2 w3 H1 H2. unfold stays_stranded in *. auto. Qed.

Lemma stranded_same_logs id d d' :
  broadcast_message_logs d' = broadcast_message_logs d -> stranded id d -> stranded id d'.
Proof. unfold stranded. by intros ->. Qed.

(** An assignment that passes the entry by. *)
Lemma stranded_update id p f d :
  (forall l, bl_id (f l) = bl_id l) ->
  (forall l, bl_id l = id -> bl_status l = LogStatus.PENDING -> bl_attempts l = max_attempts -> p l = false) ->
  stranded id d -> stranded id (set_logs (update_where p f (broadcast_message_logs d)) d).
Proof.
  intros Hf Hp (Hnd & l & Hl & Hid & Hs & Ha). split; cbn; [by rewrite update_where_proj|].
  exists l. split; [|done]. apply elem_of_update_where. exists l. by rewrite Hp.
Qed.

Lemma stranded_session {A} id (t : instant -> Db -> res exn (A * Db)) :
  (forall i d a d', t i d = Ok (a, d') -> stranded id d -> stranded id d') ->
  always (stays_stranded id) (session t).
Proof.
  intros H. apply always_session.
  - intros w w' _ _ Hd. unfold stays_stranded. by rewrite Hd.
  - intros w w' a _ _ Ht Hs. by eapply H.
Qed.

Lemma stranded_kept {A} id (p : prog A) : always logs_kept p -> always (stays_stranded id) p.
Proof.
  apply always_mono. intros w w' (H & _). unfold stays_stranded. by apply stranded_same_logs.
Qed.

Lemma stranded_frame id : frame_ok (stays_stranded id).
Proof. intros w w' _ _ Hd. unfold stays_stranded. by rewrite Hd. Qed.

Lemma stranded_query {A} id (t : Db -> A) : always (stays_stranded id) (query t).
Proof. apply always_query, stranded_frame. Qed.

Lemma stranded_assign id ids f :
  (forall t l, bl_id (f t l) = bl_id l) -> id ∉ ids -> always (stays_stranded id) (assign_logs ids f).
Proof.
  intros Hf Hn. unfold assign_logs. destruct ids as [|i ids]; [done|].
  apply always_catch; [|done]. apply always_bind; [|done]. apply stranded_session.
  intros t d a d' [= _ <-]. apply stranded_update; [apply Hf|]. intros l <- _ _.
  unfold id_in. by apply bool_decide_eq_false.
Qed.

Lemma stranded_claim id cycle_id : always (stays_stranded id) (claim_pending_logs cycle_id max_attempts).
Proof.
  apply always_catch; [|done]. apply stranded_session. intros t d a d' [= _ <-].
  apply stranded_update; [done|]. intros l _ _ Ha. unfold pending. rewrite Ha, Z.ltb_irrefl.
  by rewrite andb_false_r.
Qed.

Lemma stranded_phase id cycle_id ids view values :
  id ∉ ids -> always (stays_stranded id) (deliver_phase private_chat_ids max_attempts cycle_id ids view values).
Proof.
  intros Hn.
  assert (forall reason, always (stays_stranded id) (park view ids reason)) as Hpark.
  { intros reason. unfold park. destruct (chats_behind view).
    - apply always_bind; [by apply stranded_assign; [intros; apply finish_same|]|done].
    - apply always_bind; [|intros _; apply always_bind; [by apply stranded_assign|done]].
      apply always_for_each. intros c. apply always_bind; [apply stranded_kept, kept_upsert|done]. }
  unfold deliver_phase. case_bool_decide; [apply Hpark|].
  destruct (targets_of values) eqn:Et; [apply Hpark|].
  apply always_bind; [apply stranded_kept, kept_deliver_all|]. intros ok.
  apply always_bind; [by apply stranded_assign; [intros; apply finish_same|]|]. intros _.
  apply always_bind; [|done]. apply always_catch; [|done]. apply stranded_session.
  intros t d a d'. destruct (select_first _ _); intros [= _ <-]; by apply stranded_same_logs.
Qed.

Lemma stranded_dispatch id cycle_id w :
  stranded id (db w) -> stranded id (db (run (dispatch cycle_id) w).2).
Proof.
  intros Hs. rewrite dispatch_unfold, run_bind.
  pose proof (claim_cases cycle_id max_attempts w) as Hc.
  pose proof (always_run _ _ w (stranded_claim id cycle_id) Hs) as Hs1.
  destruct (run (claim_pending_logs cycle_id max_attempts) w) as [r w1]. cbn [fst snd] in *.
  destruct Hc as (_ & rows & -> & Hrows). destruct rows as [|r0 rows]; [done|]. cbv beta iota.
  assert (id ∉ map bl_id (r0 :: rows)) as Hn.
  { destruct Hrows as [(? & _)|(-> & _)]; [done|]. intros (l' & -> & Hl')%list_elem_of_fmap.
    apply list_elem_of_fmap in Hl' as (l & -> & Hl). cbn in Hs.
    apply elem_of_order_by, elem_of_select_where in Hl as [Hl Hp]. destruct Hs as (Hnd & l0 & Hl0 & Hid & _ & Ha).
    assert (l0 = l) as -> by (apply (nodup_map_eq bl_id _ _ _ Hnd); done).
    apply pending_spec in Hp. lia. }
  rewrite run_bind. destruct (load_cases cycle_id w1) as (v & w2 & -> & Hd2 & _).
  assert (stranded id (db w2)) as Hs2 by (by rewrite Hd2). destruct v as [view|]; cbv beta iota.
  - rewrite run_bind. destruct (get_many_cases dispatch_settings w2) as (values & w3 & -> & Hd3 & _).
    apply (always_run _ _ w3 (stranded_phase id cycle_id _ view values Hn)). by rewrite Hd3.
  - assert (always (stays_stranded id) (do! finish_logs (map bl_id (r0 :: rows)) true None None in Ret tt)) as Hf.
    { apply always_bind; [|done]. apply stranded_assign; [intros; apply finish_same|done]. }
    by apply (always_run _ _ w2 Hf).
Qed.

(** A change whose last attempt was interrupted is stranded.  An entry returned
    to PENDING with its budget spent (the sweeper does so with an entry a
    dispatcher left SENDING on its last attempt) is never delivered and never
    marked FAILED: any number of further sweeps, whatever the database and
    Telegram do, leaves it exactly there, although the sweep that strands it is
    the one meant to recover it. *)
Theorem last_attempt_strands stale_after n l w :
  l ∈ broadcast_message_logs (db w) -> NoDup (map bl_id (broadcast_message_logs (db w))) ->
  bl_status l = LogStatus.SENDING -> bl_attempts l = max_attempts ->
  (bl_updatedAt l < now w - stale_after * 1000000)%Z -> db_up w ->
  stranded (bl_id l) (db (run (reclaim_stale_logs stale_after) w).2) /\
  forall w1, stranded (bl_id l) (db w1) ->
  stranded (bl_id l)
    (db (run (for_each (replicate n tt) (fun _ => do! sweep private_chat_ids max_attempts stale_after in Ret tt)) w1).2).
Proof.
  intros Hl Hnd Hs Ha Ht Hup. split.
  - unfold reclaim_stale_logs, clock. rewrite run_bind, run_act, run_catch, run_session_up by done. cbn.
    split; cbn; [by rewrite update_where_proj|]. exists (reclaim_log (now w) l). split; [|done].
    apply elem_of_update_where. exists l. unfold stale, minus_seconds.
    rewrite bool_decide_eq_true_2 by done. by rewrite (proj2 (Z.ltb_lt _ _) Ht).
  - generalize (bl_id l). intros id. induction n as [|n IH]; intros w1 Hw1; [done|].
    cbn [replicate for_each]. rewrite run_bind.
    assert (stranded id (db (run (do! sweep private_chat_ids max_attempts stale_after in Ret tt) w1).2)) as H1.
    { rewrite run_bind. unfold sweep. rewrite run_bind.
      assert (always (stays_stranded id) (reclaim_stale_logs stale_after)) as Hr.
      { apply always_bind; [apply always_clock, stranded_frame|]. intros t. apply always_catch; [|done].
        apply stranded_session. intros i d a d' [= _ <-]. apply stranded_update; [done|].
        intros x _ Hx _. unfold stale. by rewrite Hx, bool_decide_eq_false_2. }
      pose proof (always_run _ _ w1 Hr Hw1) as H2.
      destruct (run (reclaim_stale_logs stale_after) w1) as [[x|e] w2]; cbn [fst snd] in *; [|done].
      rewrite run_bind.
      assert (always (stays_stranded id) (list_cycles_with_pending_logs max_attempts stale_after 50)) as Hq.
      { apply always_bind; [apply always_clock, stranded_frame|]. intros t.
        apply always_catch; [apply stranded_query|done]. }
      pose proof (always_run _ _ w2 Hq H2) as H3.
      destruct (run (list_cycles_with_pending_logs _ _ _) w2) as [[ids|e] w3]; cbn [fst snd] in *; [|done].
      rewrite run_bind.
      assert (stranded id (db (run (for_each ids (dispatch_locked private_chat_ids max_attempts)) w3).2)) as H4.
      { clear H2 Hq. revert w3 H3. induction ids as [|i ids IHi]; intros w3 H3; [done|].
        cbn [for_each]. rewrite run_bind. pose proof (stranded_dispatch id i w3 H3) as H4.
        destruct (run (dispatch_locked _ _ i) w3) as [[[]|e] w4]; cbn [fst snd] in *; [by apply IHi|done]. }
      destruct (run (for_each ids _) w3) as [[[]|e] w4]; cbn [run fst snd] in *; done. }
    destruct (run (do! sweep private_chat_ids max_attempts stale_after in Ret tt) w1) as [[[]|e] w2];
      cbn [fst snd] in *; [by apply IH|done].
Qed.
End close.

(** A rate limit on the last attempt: the change is FAILED, not left SENDING. *)
Definition sample_log (status : BroadcastLogStatusEnum) (attempts : Z) : BroadcastMessageLog :=
  {| bl_id := uid 2; bl_updatedAt := (-90000000)%Z; bl_broadcast_message_id := uid 1; bl_seq := 1%Z;
     bl_kind := LogKind.SIGNAL; bl_payload := JNull; bl_status := status; bl_attempts := attempts;
     bl_last_error := None; bl_delivered_at := None |}.

Definition sample_log_world (l : BroadcastMessageLog) : World :=
  let w := sample_cycle_world [] [] [TgAnswer 429 "" None] in
  set_db (set_logs [l] (db w)) w.

Lemma pass_closes_changes_witness :
  let w := sample_log_world (sample_log LogStatus.PENDING 4%Z) in
  exists w', run sample_dispatch w = (Ok tt, w') /\
    map bl_status (broadcast_message_logs (db w')) = [LogStatus.FAILED].
Proof.
  intros w.
  destruct (@pass_closes_changes sample_settings sample_renderer None 5 (uid 1) w (sample_view w))
    as (ok & w1 & w' & _ & H & _ & _).
  - reflexivity.
  - by vm_compute.
  - by vm_compute.
  - by vm_compute.
  - reflexivity.
  - apply table_some. by vm_compute.
  - exists w'. split; [exact H|].
    assert (w' = (run sample_dispatch w).2) as -> by (unfold sample_dispatch; by rewrite H).
    by vm_compute.
Defined.

Lemma last_attempt_strands_witness :
  let l := sample_log LogStatus.SENDING 5%Z in
  let w := sample_log_world l in
  stranded 5 (uid 2) (db (run (reclaim_stale_logs 60) w).2).
Proof.
  intros l w.
  refine (proj1 (@last_attempt_strands sample_settings sample_renderer None 5 60 0 l w _ _ _ _ _ _)).
  - vm_compute. left.
  - vm_compute. repeat constructor; by intros ?%not_elem_of_nil.
  - reflexivity.
  - reflexivity.
  - by vm_compute.
  - reflexivity.
Defined.
