(* ===== verification/CycleLock.v ===== *)
(** * One dispatch per cycle

    [BroadcastDispatcher.dispatch] and [_CycleLock] ([services/broadcast_service.py]):
    the table of per-cycle locks, an entry of which is dropped when its last user
    leaves.  [asyncio.Lock] is modelled as it runs: a release leaves the lock
    unlocked and only marks the first waiter's future; the waiter takes the lock
    when its task is next resumed. *)

From S2P Require Import Prelude.

(** ** State *)

(** A task suspended in [acquire]: its id, the [key] it was called with, whether
    its future is done. *)
Record Waiter := {
  w_task : nat;
  w_key : string;
  w_woken : bool
}.

(** A [_CycleLock] object: [lock._locked], [lock._waiters], [users]. *)
Record CycleLock := {
  cl_locked : bool;
  cl_waiters : list Waiter;
  cl_users : Z
}.

(** A task inside [_dispatch_locked]. *)
Record Holder := {
  h_task : nat;
  h_key : string;
  h_entry : nat
}.

(** [self._locks], the heap of lock objects and the tasks that hold one. *)
Record Dispatches := {
  d_locks : gmap string nat;
  d_heap : gmap nat CycleLock;
  d_next : nat;
  d_holding : list Holder
}.

Definition no_dispatches : Dispatches :=
  {| d_locks := ∅; d_heap := ∅; d_next := 0; d_holding := [] |}.

Definition fresh_lock : CycleLock := {| cl_locked := false; cl_waiters := []; cl_users := 0 |}.

Definition set_lock (l : nat) (c : CycleLock) (s : Dispatches) : Dispatches :=
  {| d_locks := d_locks s; d_heap := <[l := c]> (d_heap s); d_next := d_next s; d_holding := d_holding s |}.

Definition set_holding (hs : list Holder) (s : Dispatches) : Dispatches :=
  {| d_locks := d_locks s; d_heap := d_heap s; d_next := d_next s; d_holding := hs |}.

(** ** Steps *)

(** [entry = self._locks.get(key)], created when absent. *)
Definition find_entry (key : string) (s : Dispatches) : nat * Dispatches :=
  match d_locks s !! key with
  | Some l => (l, s)
  | None =>
      (d_next s, {| d_locks := <[key := d_next s]> (d_locks s);
                    d_heap := <[d_next s := fresh_lock]> (d_heap s);
                    d_next := S (d_next s); d_holding := d_holding s |})
  end.

(** A call of [dispatch], up to its first suspension. *)
Definition enter (task : nat) (key : string) (s : Dispatches) : Dispatches :=
  let '(l, s) := find_entry key s in
  match d_heap s !! l with
  | None => s
  | Some c =>
      if negb (cl_locked c) && (length (cl_waiters c) =? 0)%nat
      then set_holding ({| h_task := task; h_key := key; h_entry := l |} :: d_holding s)
             (set_lock l {| cl_locked := true; cl_waiters := cl_waiters c; cl_users := cl_users c + 1 |} s)
      else set_lock l {| cl_locked := cl_locked c;
                         cl_waiters := cl_waiters c ++ [{| w_task := task; w_key := key; w_woken := false |}];
                         cl_users := cl_users c + 1 |} s
  end.

(** [_wake_up_first]. *)
Definition wake_up_first (ws : list Waiter) : list Waiter :=
  match ws with
  | [] => []
  | w :: rest => {| w_task := w_task w; w_key := w_key w; w_woken := true |} :: rest
  end.

(** The [finally] block: one user less, and the entry dropped with the last. *)
Definition leave (key : string) (l : nat) (c : CycleLock) (s : Dispatches) : Dispatches :=
  let c := {| cl_locked := cl_locked c; cl_waiters := cl_waiters c; cl_users := cl_users c - 1 |} in
  {| d_locks := if (cl_users c =? 0)%Z then delete key (d_locks s) else d_locks s;
     d_heap := <[l := c]> (d_heap s); d_next := d_next s; d_holding := d_holding s |}.

(** A woken waiter's task resumes and takes the lock. *)
Definition resume (l : nat) (c : CycleLock) (pre : list Waiter) (w : Waiter) (post : list Waiter)
    (s : Dispatches) : Dispatches :=
  set_holding ({| h_task := w_task w; h_key := w_key w; h_entry := l |} :: d_holding s)
    (set_lock l {| cl_locked := true; cl_waiters := pre ++ post; cl_users := cl_users c |} s).

(** A dispatch ends, normally or with an exception: release, then [finally]. *)
Definition finish (h : Holder) (c : CycleLock) (pre post : list Holder) (s : Dispatches) : Dispatches :=
  leave (h_key h) (h_entry h)
    {| cl_locked := false; cl_waiters := wake_up_first (cl_waiters c); cl_users := cl_users c |}
    (set_holding (pre ++ post) s).

(** A waiting task is cancelled: it leaves the queue, passes a wake-up on when the
    lock is free, and runs the [finally]. *)
Definition cancel (l : nat) (c : CycleLock) (pre : list Waiter) (w : Waiter) (post : list Waiter)
    (s : Dispatches) : Dispatches :=
  leave (w_key w) l
    {| cl_locked := cl_locked c;
       cl_waiters := if cl_locked c then pre ++ post else wake_up_first (pre ++ post);
       cl_users := cl_users c |} s.

Inductive dispatch_step : relation Dispatches :=
| step_enter task key s : dispatch_step s (enter task key s)
| step_resume l c pre w post s :
    d_heap s !! l = Some c -> cl_waiters c = pre ++ w :: post -> w_woken w = true ->
    dispatch_step s (resume l c pre w post s)
| step_finish h c pre post s :
    d_holding s = pre ++ h :: post -> d_heap s !! h_entry h = Some c ->
    dispatch_step s (finish h c pre post s)
| step_cancel l c pre w post s :
    d_heap s !! l = Some c -> cl_waiters c = pre ++ w :: post ->
    dispatch_step s (cancel l c pre w post s).

(** ** Invariant *)
Definition holders_of (l : nat) (hs : list Holder) : list Holder :=
  base.filter (fun h => h_entry h = l) hs.

#[local] Arguments holders_of : simpl never.

Definition asleep (ws : list Waiter) : Prop := Forall (fun w => w_woken w = false) ws.

(** Locked: one holder, nobody woken.  Free: no holder, and the first waiter, if
    any, is the one on its way to take it. *)
Definition queue_ok (c : CycleLock) (holders : nat) : Prop :=
  if cl_locked c then holders = 1%nat /\ asleep (cl_waiters c)
  else holders = 0%nat /\
       match cl_waiters c with [] => True | w :: rest => w_woken w = true /\ asleep rest end.

Definition lock_ok (s : Dispatches) (l : nat) (c : CycleLock) : Prop :=
  queue_ok c (length (holders_of l (d_holding s))) /\
  cl_users c = Z.of_nat (length (cl_waiters c) + length (holders_of l (d_holding s))) /\
  Forall (fun w => d_locks s !! w_key w = Some l) (cl_waiters c) /\ (l < d_next s)%nat.

Definition dispatches_ok (s : Dispatches) : Prop :=
  (forall l c, d_heap s !! l = Some c -> lock_ok s l c) /\
  (forall h, h ∈ d_holding s -> d_locks s !! h_key h = Some (h_entry h) /\ is_Some (d_heap s !! h_entry h)) /\
  (forall k l, d_locks s !! k = Some l -> exists c, d_heap s !! l = Some c /\ (0 < cl_users c)%Z) /\
  (forall k k' l, d_locks s !! k = Some l -> d_locks s !! k' = Some l -> k = k').

Lemma holders_cons l h hs :
  length (holders_of l (h :: hs)) = ((if decide (h_entry h = l) then 1 else 0) + length (holders_of l hs))%nat.
Proof. unfold holders_of. rewrite filter_cons. destruct (decide _); done. Qed.

Lemma holders_remove l h pre post :
  length (holders_of l (pre ++ h :: post)) =
  ((if decide (h_entry h = l) then 1 else 0) + length (holders_of l (pre ++ post)))%nat.
Proof.
  induction pre as [|x pre IH]; [apply holders_cons|].
  cbn [app]. rewrite !holders_cons, IH. lia.
Qed.

Lemma wake_length ws : length (wake_up_first ws) = length ws.
Proof. by destruct ws. Qed.

Lemma wake_keys (P : string -> Prop) ws :
  Forall (fun w => P (w_key w)) ws -> Forall (fun w => P (w_key w)) (wake_up_first ws).
Proof. destruct 1; by constructor. Qed.

(** The invariant while the entry [x] is between users. *)
Definition ok_but (x : nat) (s : Dispatches) : Prop :=
  (forall l c, d_heap s !! l = Some c -> lock_ok s l c) /\
  (forall h, h ∈ d_holding s -> d_locks s !! h_key h = Some (h_entry h) /\ is_Some (d_heap s !! h_entry h)) /\
  (forall k l, d_locks s !! k = Some l ->
     exists c, d_heap s !! l = Some c /\ (l <> x -> (0 < cl_users c)%Z)) /\
  (forall k k' l, d_locks s !! k = Some l -> d_locks s !! k' = Some l -> k = k').

Lemma ok_weaken x s : dispatches_ok s -> ok_but x s.
Proof.
  intros (H1 & H2 & H3 & H4). split_and!; try done. intros k l Hk. destruct (H3 k l Hk) as (c & ? & ?). eauto.
Qed.

(** One lock object and the holders change; other locks keep their holders. *)
Lemma ok_change l c c' hs s :
  ok_but l s -> d_heap s !! l = Some c ->
  (forall l', l' <> l -> length (holders_of l' hs) = length (holders_of l' (d_holding s))) ->
  queue_ok c' (length (holders_of l hs)) ->
  cl_users c' = Z.of_nat (length (cl_waiters c') + length (holders_of l hs)) ->
  Forall (fun w => d_locks s !! w_key w = Some l) (cl_waiters c') ->
  (forall h, h ∈ hs -> h ∈ d_holding s \/ (h_entry h = l /\ d_locks s !! h_key h = Some l)) ->
  ok_but l (set_holding hs (set_lock l c' s)).
Proof.
  intros (H1 & H2 & H3 & H4) Hc Hother Hq Hu Hw Hh. split_and!; cbn.
  - intros l' c2 Hl'. destruct (decide (l' = l)) as [->|Hne].
    + rewrite lookup_insert_eq in Hl'. injection Hl' as <-. unfold lock_ok. cbn. split_and!; try done.
      by destruct (H1 l c Hc) as (_ & _ & _ & ?).
    + rewrite lookup_insert_ne in Hl' by done. destruct (H1 l' c2 Hl') as (Hq' & Hu' & ? & ?).
      unfold lock_ok. cbn. rewrite Hother by done. by split_and!.
  - intros h Hin. destruct (Hh h Hin) as [Hold|[-> Hk]].
    + destruct (H2 h Hold) as [Hk Hx]. split; [done|]. destruct (decide (h_entry h = l)) as [->|].
      * rewrite lookup_insert_eq. by eexists.
      * by rewrite lookup_insert_ne.
    + rewrite lookup_insert_eq. split; [done|by eexists].
  - intros k l' Hk. destruct (H3 k l' Hk) as (c2 & Hc2 & Hpos). destruct (decide (l' = l)) as [->|].
    + rewrite lookup_insert_eq. by exists c'.
    + rewrite lookup_insert_ne by done. eauto.
  - done.
Qed.

(** An entry with users again. *)
Lemma ok_used l c s : ok_but l s -> d_heap s !! l = Some c -> (0 < cl_users c)%Z -> dispatches_ok s.
Proof.
  intros (H1 & H2 & H3 & H4) Hc Hu. split_and!; try done. intros k l' Hk.
  destruct (H3 k l' Hk) as (c' & Hc' & Hpos). exists c'. split; [done|].
  destruct (decide (l' = l)) as [->|]; [congruence|auto].
Qed.

(** The [finally] block, after the departing task has left the queue or the
    holders. *)
Lemma ok_leave key l c c' hs s :
  dispatches_ok s -> d_heap s !! l = Some c -> d_locks s !! key = Some l ->
  (forall l', l' <> l -> length (holders_of l' hs) = length (holders_of l' (d_holding s))) ->
  queue_ok c' (length (holders_of l hs)) ->
  (cl_users c' - 1 = Z.of_nat (length (cl_waiters c') + length (holders_of l hs)))%Z ->
  Forall (fun w => d_locks s !! w_key w = Some l) (cl_waiters c') ->
  (forall h, h ∈ hs -> h ∈ d_holding s) ->
  dispatches_ok (leave key l c' (set_holding hs s)).
Proof.
  intros Hok Hc Hkey Hother Hq Hu Hw Hh.
  set (c2 := {| cl_locked := cl_locked c'; cl_waiters := cl_waiters c'; cl_users := cl_users c' - 1 |}).
  assert (ok_but l (set_holding hs (set_lock l c2 s))) as Hbut.
  { apply (ok_change l c); try done; [by apply ok_weaken|]. intros h Hin. left. auto. }
  unfold leave. fold c2. destruct (Z.eqb_spec (cl_users c2) 0) as [H0|H0].
  2:{ apply (ok_used l c2); [exact Hbut|cbn; apply lookup_insert_eq|]. cbn in *. lia. }
  assert (cl_waiters c' = [] /\ length (holders_of l hs) = 0%nat) as [Hnw Hnh].
  { cbn in H0. destruct (cl_waiters c'); cbn in Hu; split; try done; lia. }
  destruct Hbut as (H1 & H2 & H3 & H4). cbn in H1, H2, H3, H4.
  assert (forall k l', d_locks s !! k = Some l' -> l' <> l -> delete key (d_locks s) !! k = Some l') as Hdel.
  { intros k l' Hk Hne. rewrite lookup_delete_ne; [done|]. intros <-. congruence. }
  split_and!; cbn.
  - intros l' c3 Hl'. destruct (H1 l' c3 Hl') as (Hq' & Hu' & Hw' & Hn'). unfold lock_ok. cbn in *.
    split_and!; try done. destruct (decide (l' = l)) as [->|Hne].
    + rewrite lookup_insert_eq in Hl'. injection Hl' as <-. cbn. by rewrite Hnw.
    + eapply Forall_impl; [exact Hw'|]. intros w Hk. by apply Hdel.
  - intros h Hin. destruct (H2 h Hin) as [Hk Hx]. split; [|done]. apply Hdel; [done|].
    intros Hl. assert (h ∈ holders_of l hs) as Hhl by (by apply list_elem_of_filter).
    destruct (holders_of l hs); [by apply not_elem_of_nil in Hhl|done].
  - intros k l' [Hne Hk]%lookup_delete_Some. destruct (H3 k l' Hk) as (c3 & Hc3 & Hpos).
    exists c3. split; [done|]. apply Hpos. intros ->. apply Hne. by eapply H4.
  - intros k k' l' [_ Hk]%lookup_delete_Some [_ Hk']%lookup_delete_Some. by eapply H4.
Qed.

(** ** Steps keep it *)
Lemma ok_find key s :
  dispatches_ok s ->
  let '(l, s') := find_entry key s in
  ok_but l s' /\ d_locks s' !! key = Some l /\ is_Some (d_heap s' !! l) /\ d_holding s' = d_holding s.
Proof.
  intros Hok. unfold find_entry. destruct (d_locks s !! key) as [l|] eqn:Ek.
  { split; [by apply ok_weaken|]. split; [done|]. split; [|done].
    destruct Hok as (_ & _ & H3 & _). destruct (H3 key l Ek) as (c & ? & _). eauto. }
  destruct Hok as (H1 & H2 & H3 & H4).
  assert (d_heap s !! d_next s = None) as Hfresh.
  { destruct (d_heap s !! d_next s) as [c|] eqn:E; [|done]. destruct (H1 _ _ E) as (_ & _ & _ & ?). lia. }
  assert (length (holders_of (d_next s) (d_holding s)) = 0%nat) as Hnone.
  { destruct (holders_of (d_next s) (d_holding s)) as [|h hs] eqn:E; [done|].
    assert (h ∈ holders_of (d_next s) (d_holding s)) as [He Hh]%list_elem_of_filter by (rewrite E; left).
    destruct (H2 h Hh) as [_ [c Hc]]. congruence. }
  split; [|cbn; rewrite !lookup_insert_eq; split; [done|split; [by eexists|done]]].
  split_and!; cbn.
  - intros l c Hl. unfold lock_ok. cbn. destruct (decide (l = d_next s)) as [->|Hne].
    + rewrite lookup_insert_eq in Hl. injection Hl as <-. cbn. rewrite Hnone. split_and!; try done. lia.
    + rewrite lookup_insert_ne in Hl by done. destruct (H1 l c Hl) as (Hq & Hu & Hw & Hn). split_and!; try done; [|lia].
      eapply Forall_impl; [exact Hw|]. intros w Hk. rewrite lookup_insert_ne; [done|congruence].
  - intros h Hin. destruct (H2 h Hin) as [Hk [c Hc]]. split.
    + rewrite lookup_insert_ne; [done|congruence].
    + rewrite lookup_insert_ne; [by eexists|congruence].
  - intros k l Hk. destruct (decide (k = key)) as [->|Hne].
    + rewrite lookup_insert_eq in Hk. injection Hk as <-. rewrite lookup_insert_eq. by eexists.
    + rewrite lookup_insert_ne in Hk by done. destruct (H3 k l Hk) as (c & Hc & Hpos).
      exists c. split; [|auto]. rewrite lookup_insert_ne; [done|congruence].
  - assert (forall k, d_locks s !! k <> Some (d_next s)) as Hno.
    { intros k Hk. destruct (H3 k _ Hk) as (c & Hc & _). congruence. }
    intros k k' l Hk Hk'. destruct (decide (k = key)) as [->|Hne], (decide (k' = key)) as [->|Hne']; [done| | |].
    + rewrite lookup_insert_eq in Hk. rewrite lookup_insert_ne in Hk' by done.
      injection Hk as <-. by apply Hno in Hk'.
    + rewrite lookup_insert_eq in Hk'. rewrite lookup_insert_ne in Hk by done.
      injection Hk' as <-. by apply Hno in Hk.
    + rewrite lookup_insert_ne in Hk, Hk' by done. by eapply H4.
Qed.

Lemma asleep_app ws w : asleep ws -> w_woken w = false -> asleep (ws ++ [w]).
Proof. intros H Hw. apply Forall_app. split; [done|]. by constructor. Qed.

Lemma ok_enter task key s : dispatches_ok s -> dispatches_ok (enter task key s).
Proof.
  intros Hok. pose proof (ok_find key s Hok) as Hf. unfold enter.
  destruct (find_entry key s) as [l s1]. destruct Hf as (Hbut & Hkey & [c Hc] & _). rewrite Hc.
  destruct Hbut as (H1 & H2 & H3 & H4). destruct (H1 l c Hc) as (Hq & Hu & Hw & Hn).
  destruct (negb (cl_locked c) && _) eqn:Efree.
  - apply andb_true_iff in Efree as [Hfree Hnw]. apply negb_true_iff in Hfree. apply Nat.eqb_eq in Hnw.
    unfold queue_ok in Hq. rewrite Hfree in Hq. destruct Hq as [Hh _].
    eapply ok_used; [eapply (ok_change l c)|cbn; apply lookup_insert_eq|cbn; lia]; try done.
    + intros l' Hne. rewrite holders_cons. cbn. by rewrite decide_False.
    + rewrite holders_cons. cbn. rewrite decide_True by done. unfold queue_ok. cbn.
      destruct (cl_waiters c); [|done]. split; [lia|by constructor].
    + rewrite holders_cons. cbn. rewrite decide_True by done. lia.
    + intros h [->|Hin]%elem_of_cons; [by right|by left].
  - change (set_lock l ?x s1) with (set_holding (d_holding s1) (set_lock l x s1)).
    eapply ok_used; [eapply (ok_change l c)|cbn; apply lookup_insert_eq|cbn; lia]; try done.
    + unfold queue_ok in *. cbn. destruct (cl_locked c).
      * destruct Hq as [? ?]. split; [done|]. by apply asleep_app.
      * destruct Hq as [? Hws]. split; [done|]. destruct (cl_waiters c) as [|w ws]; [done|].
        destruct Hws. cbn. split; [done|]. by apply asleep_app.
    + cbn. rewrite length_app. cbn. lia.
    + cbn. apply Forall_app. split; [done|]. by constructor.
    + by left.
Qed.

(** A woken waiter is the first one, and the lock is free for it. *)
Lemma woken_first s l c pre w post :
  dispatches_ok s -> d_heap s !! l = Some c -> cl_waiters c = pre ++ w :: post -> w_woken w = true ->
  pre = [] /\ cl_locked c = false /\ length (holders_of l (d_holding s)) = 0%nat /\ asleep post.
Proof.
  intros (H1 & _) Hc Hws Hw. destruct (H1 l c Hc) as (Hq & _). unfold queue_ok in Hq.
  assert (forall ws, asleep (ws ++ w :: post) -> False) as Hno.
  { intros ws [_ H]%Forall_app. inversion H; congruence. }
  rewrite Hws in Hq. destruct (cl_locked c); [destruct Hq as [_ H]; by apply Hno in H|].
  destruct Hq as [? H]. destruct pre as [|x pre]; cbn in H; [tauto|]. destruct H as [_ H]. by apply Hno in H.
Qed.

Lemma ok_resume l c pre w post s :
  dispatches_ok s -> d_heap s !! l = Some c -> cl_waiters c = pre ++ w :: post -> w_woken w = true ->
  dispatches_ok (resume l c pre w post s).
Proof.
  intros Hok Hc Hws Hw. destruct (woken_first s l c pre w post Hok Hc Hws Hw) as (-> & Hfree & Hh & Hp).
  pose proof Hok as (H1 & _). destruct (H1 l c Hc) as (_ & Hu & Hk & _). rewrite Hws in Hu, Hk. cbn in Hu.
  inversion_clear Hk.
  eapply ok_used; [eapply (ok_change l c)|cbn; apply lookup_insert_eq|cbn; lia]; try done; [by apply ok_weaken|..].
  - intros l' Hne. rewrite holders_cons. cbn. by rewrite decide_False.
  - rewrite holders_cons. cbn. rewrite decide_True by done. unfold queue_ok. cbn. split; [lia|done].
  - rewrite holders_cons. cbn. rewrite decide_True by done. lia.
  - intros h [->|Hin]%elem_of_cons; [by right|by left].
Qed.

Lemma wake_ok ws : asleep ws ->
  match wake_up_first ws with [] => True | w :: rest => w_woken w = true /\ asleep rest end.
Proof. destruct 1; done. Qed.

Lemma ok_finish h c pre post s :
  dispatches_ok s -> d_holding s = pre ++ h :: post -> d_heap s !! h_entry h = Some c ->
  dispatches_ok (finish h c pre post s).
Proof.
  intros Hok Hhs Hc. pose proof Hok as (H1 & H2 & _).
  destruct (H1 _ _ Hc) as (Hq & Hu & Hw & _).
  assert (h ∈ d_holding s) as Hin by (rewrite Hhs; apply elem_of_app; right; left).
  destruct (H2 h Hin) as [Hkey _]. rewrite Hhs, holders_remove, decide_True in Hq, Hu by done.
  unfold queue_ok in Hq. destruct (cl_locked c) eqn:El; [|destruct Hq; lia]. destruct Hq as [Hn Ha].
  apply (ok_leave _ _ c); try done; cbn.
  - intros l' Hne. rewrite Hhs, holders_remove. by rewrite decide_False.
  - unfold queue_ok. cbn. split; [lia|by apply wake_ok].
  - rewrite wake_length. lia.
  - by apply (wake_keys (fun k => d_locks s !! k = Some (h_entry h))).
  - intros x Hx. rewrite Hhs. apply elem_of_app in Hx as [Hx|Hx]; apply elem_of_app; [by left|right; by right].
Qed.

Lemma ok_cancel l c pre w post s :
  dispatches_ok s -> d_heap s !! l = Some c -> cl_waiters c = pre ++ w :: post ->
  dispatches_ok (cancel l c pre w post s).
Proof.
  intros Hok Hc Hws. pose proof Hok as (H1 & _). destruct (H1 _ _ Hc) as (Hq & Hu & Hk & _).
  rewrite Hws in Hu, Hk. apply Forall_app in Hk as [Hk1 Hk2]. inversion_clear Hk2.
  assert (Forall (fun w => d_locks s !! w_key w = Some l) (pre ++ post)) as Hkeys by (by apply Forall_app).
  change (cancel l c pre w post s) with (leave (w_key w) l
    {| cl_locked := cl_locked c;
       cl_waiters := if cl_locked c then pre ++ post else wake_up_first (pre ++ post);
       cl_users := cl_users c |} (set_holding (d_holding s) s)).
  apply (ok_leave _ _ c); try done; cbn.
  - unfold queue_ok in *. cbn. rewrite Hws in Hq. destruct (cl_locked c); cbn.
    + destruct Hq as [? Ha]. split; [done|]. apply Forall_app in Ha as [? Ha]. inversion_clear Ha.
      by apply Forall_app.
    + destruct Hq as [? Ha]. split; [done|]. destruct pre as [|x pre]; cbn in *; [apply wake_ok, Ha|].
      destruct Ha as [_ Ha]. split; [done|]. apply Forall_app in Ha as [? Ha]. inversion_clear Ha.
      by apply Forall_app.
  - assert (length (if cl_locked c then pre ++ post else wake_up_first (pre ++ post)) = length (pre ++ post)) as ->
      by (destruct (cl_locked c); [done|apply wake_length]).
    rewrite length_app in *. cbn in Hu. lia.
  - destruct (cl_locked c); [done|]. by apply (wake_keys (fun k => d_locks s !! k = Some l)).
Qed.

Lemma ok_step s s' : dispatches_ok s -> dispatch_step s s' -> dispatches_ok s'.
Proof.
  intros Hok Hs. destruct Hs; [by apply ok_enter|by apply ok_resume|by apply ok_finish|by apply ok_cancel].
Qed.

Lemma ok_reachable s : rtc dispatch_step no_dispatches s -> dispatches_ok s.
Proof.
  intros H. remember no_dispatches as s0 eqn:E. assert (dispatches_ok s0) as H0.
  { subst. split_and!; cbn; intros *; rewrite ?lookup_empty; try done. by intros ?%not_elem_of_nil. }
  clear E. induction H as [|s0 s1 s2 H1 _ IH]; [done|]. apply IH. by eapply ok_step.
Qed.

(** C37. At most one dispatch per cycle.  In every state reachable by tasks entering,
    waiting, being woken, finishing and being cancelled in any order: no two tasks
    are inside [_dispatch_locked] for the same cycle, although entries are dropped
    and created anew; a free lock with waiters has always woken its first one, so
    no dispatch is left waiting for nobody; and the table holds exactly the cycles
    somebody holds or awaits. *)
Theorem one_dispatch_per_cycle s :
  rtc dispatch_step no_dispatches s ->
  (forall key, (length (base.filter (fun h => h_key h = key) (d_holding s)) <= 1)%nat) /\
  (forall l c w ws, d_heap s !! l = Some c -> cl_locked c = false -> cl_waiters c = w :: ws ->
     w_woken w = true) /\
  (forall key l, d_locks s !! key = Some l <->
     exists c, d_heap s !! l = Some c /\
       ((exists h, h ∈ d_holding s /\ h_entry h = l /\ h_key h = key) \/
        exists w, w ∈ cl_waiters c /\ w_key w = key)).
Proof.
  intros (H1 & H2 & H3 & H4)%ok_reachable. split_and!.
  - intros key. destruct (d_locks s !! key) as [l|] eqn:Ek.
    + destruct (H3 key l Ek) as (c & Hc & _). destruct (H1 l c Hc) as (Hq & _).
      assert (length (base.filter (fun h => h_key h = key) (d_holding s)) <=
              length (holders_of l (d_holding s)))%nat as Hle.
      { unfold holders_of. clear Hq. induction (d_holding s) as [|h hs IH]; [done|].
        assert (forall x, x ∈ hs -> d_locks s !! h_key x = Some (h_entry x) /\ is_Some (d_heap s !! h_entry x)) as Hx
          by (intros x Hin; apply H2; by right).
        specialize (IH Hx). rewrite !filter_cons. destruct (H2 h ltac:(left)) as [Hk _].
        destruct (decide (h_key h = key)) as [<-|].
        - rewrite decide_True by congruence. cbn. lia.
        - destruct (decide (h_entry h = l)); cbn; lia. }
      unfold queue_ok in Hq. destruct (cl_locked c); destruct Hq; lia.
    + destruct (base.filter (fun h => h_key h = key) (d_holding s)) as [|h hs] eqn:E; [cbn; lia|].
      assert (h ∈ base.filter (fun h => h_key h = key) (d_holding s)) as [Hk Hin]%list_elem_of_filter
        by (rewrite E; left).
      destruct (H2 h Hin). congruence.
  - intros l c w ws Hc Hf Hw. destruct (H1 l c Hc) as (Hq & _). unfold queue_ok in Hq.
    rewrite Hf, Hw in Hq. tauto.
  - intros key l. split.
    + intros Hk. destruct (H3 key l Hk) as (c & Hc & Hpos). exists c. split; [done|].
      destruct (H1 l c Hc) as (_ & Hu & Hw & _). destruct (cl_waiters c) as [|w ws] eqn:Ew.
      * destruct (holders_of l (d_holding s)) as [|h hs] eqn:Eh; [cbn in Hu; lia|]. left. exists h.
        assert (h ∈ holders_of l (d_holding s)) as [He Hin]%list_elem_of_filter by (rewrite Eh; left).
        destruct (H2 h Hin) as [Hk' _]. split_and!; try done. apply (H4 _ _ l); congruence.
      * right. exists w. split; [left|]. inversion_clear Hw. by apply (H4 _ _ l).
    + intros (c & Hc & [(h & Hin & He & Hk)|(w & Hin & Hk)]).
      * destruct (H2 h Hin). congruence.
      * destruct (H1 l c Hc) as (_ & _ & Hw & _). rewrite Forall_forall in Hw. rewrite <-Hk. by apply Hw.
Qed.

(** Two dispatches of one cycle: the second waits, is woken, and a third that
    arrives before it resumes queues behind it. *)
Lemma one_dispatch_per_cycle_witness :
  let s := enter 3 "k" (finish {| h_task := 1; h_key := "k"; h_entry := 0 |}
    {| cl_locked := true; cl_waiters := [{| w_task := 2; w_key := "k"; w_woken := false |}]; cl_users := 2 |} [] []
    (enter 2 "k" (enter 1 "k" no_dispatches))) in
  map w_task (default [] (cl_waiters <$> d_heap s !! 0%nat)) = [2; 3] /\
  (length (base.filter (fun h => h_key h = "k") (d_holding s)) <= 1)%nat.
Proof.
  intros s. split; [by vm_compute|].
  assert (rtc dispatch_step no_dispatches s) as Hr.
  { eapply rtc_l; [apply (step_enter 1 "k")|]. eapply rtc_l; [apply (step_enter 2 "k")|].
    eapply rtc_l; [apply step_finish|apply rtc_once, step_enter]; by vm_compute. }
  exact (proj1 (one_dispatch_per_cycle s Hr) "k").
Defined.
