(* ===== verification/Notices.v ===== *)
(** * Reply notices

    [format_broadcast_update_notice] ([helpers/message_formatter.py]): the two
    lines posted under a trade's message when it changes. *)

From S2P Require Import Prelude PyStr Uuid PyTime Json Enums Schemas Models ChatTargets World Settings.
From S2P Require Import StatusPolicies Samples SignalRepo SignalHelper SignalService BroadcastRepo.
From S2P Require Import CycleLog BroadcastService Dispatcher.

(** ** The formatter *)

Definition STATUS_ICONS (s : BroadcastStatusEnum) : string :=
  match s with CycleStatus.RUNNING => "⏳" | CycleStatus.TP1 => "🎯" | CycleStatus.CLOSED => "🏁" end.

Definition DEFAULT_SIGNAL : string := "📡".

(** [[event for event in events if isinstance(event, dict)]]. *)
Definition event_dicts (m : BroadcastMessage) : list (list (string * json)) :=
  omap (fun e => match e with JObj kvs => Some kvs | _ => None end) (bm_events m).

Section formatter.
(** [str(v)] of a decoded value that is neither text nor an integer. *)
Variable py_repr : json -> string.

(** [_event_action]; the [_enum_value] of a JSON value is its [str]. *)
Definition event_action (event : list (string * json)) : option SignalActionEnum :=
  action_of (py_str py_repr (obj_get "action" event)).

(** One turn of the loop of [_status_through]. *)
Definition fold_status (status : option BroadcastStatusEnum) (event : list (string * json))
    : option BroadcastStatusEnum :=
  match event_action event with
  | None => status
  | Some action =>
      let incoming := status_for_action action in
      Some (match status with
            | None => incoming
            | Some s => merge_status (Member s) (Member incoming)
            end)
  end.

Definition status_through (events : list (list (string * json))) (index : nat)
    (fallback : BroadcastStatusEnum) : BroadcastStatusEnum :=
  default fallback (fold_left fold_status (take (S index) events) None).

(** [rstrip] of the two lines. *)
Definition notice_text (status : BroadcastStatusEnum) (icon label : string) : string :=
  rstrip_by is_space ("[" +:+ STATUS_ICONS status +:+ cycle_status_value status +:+ "]" +:+ newline +:+
                      icon +:+ " " +:+ label).

Definition format_broadcast_update_notice (record : BroadcastMessage) (event_index : Z) : option string :=
  if (event_index <? 0)%Z then None
  else
    let events := event_dicts record in
    match events !! Z.to_nat event_index with
    | None => None
    | Some event =>
        let status := status_through events (Z.to_nat event_index) (as_status (Member (bm_status record))) in
        let label := py_str py_repr (obj_get "action" event) in
        let icon := match event_action event with
                    | Some action => action_to_emoji action
                    | None => DEFAULT_SIGNAL
                    end in
        Some (notice_text status icon label)
    end.

(** The dispatcher's renderer, for any body. *)
Definition notice_renderer
    (body : BroadcastMessage -> list BroadcastMessageWorker -> option string -> bool -> bool -> res exn string)
    (stamped : forall t m workers timezone_offset include_raw include_meta,
       body (bm_stamp t m) workers timezone_offset include_raw include_meta =
       body m workers timezone_offset include_raw include_meta)
    : Renderer :=
  {| render_body := body; render_stamped := stamped;
     render_notice := fun m i => format_broadcast_update_notice m (Z.of_nat i) |}.

(** ** Cycles whose events name their actions *)
Definition told (m : BroadcastMessage) (trail : list SignalActionEnum) : Prop :=
  trail_ok m trail /\
  Forall2 (fun e a => exists kvs, e = JObj kvs /\ obj_get "action" kvs = JStr (action_value a))
    (bm_events m) trail.

Definition told_step (w w' : World) : Prop :=
  Forall (fun m => exists trail, told m trail) (broadcast_messages (db w)) ->
  Forall (fun m => exists trail, told m trail) (broadcast_messages (db w')).

#[global] Instance told_step_preorder : PreOrder told_step.
Proof.
  split; [intros w H; exact H|]. intros w1 w2 w3 H1 H2 H. exact (H2 (H1 H)).
Qed.

(** The broker's programs that write to a cycle. *)
Inductive cycle_program `{PY : Pydantic} `{CFG : Settings} `{REN : Renderer}
    : forall {A}, prog A -> Prop :=
| prog_broadcast payload n : cycle_program (service_broadcast payload n)
| prog_execution event trade : cycle_program (record_execution event trade)
| prog_dispatch private_chat_ids max_attempts id :
    cycle_program (dispatch_locked private_chat_ids max_attempts id).

(** ** Facts *)
Lemma fold_named status kvs a :
  obj_get "action" kvs = JStr (action_value a) ->
  fold_status status kvs =
  Some (match status with
        | None => status_for_action a
        | Some s => merge_status (Member s) (Member (status_for_action a))
        end).
Proof. intros Ha. unfold fold_status, event_action. rewrite Ha. cbn [py_str]. by rewrite action_of_value. Qed.

Lemma fold_told (events : list (list (string * json))) trail s :
  Forall2 (fun kvs a => obj_get "action" kvs = JStr (action_value a)) events trail ->
  fold_left fold_status events (Some s) = Some (status_after s trail).
Proof.
  intros H. revert s. induction H as [|kvs a events trail Ha _ IH]; intros s; [done|].
  cbn [fold_left]. rewrite (fold_named _ _ _ Ha). apply IH.
Qed.

Lemma dicts_told m trail :
  told m trail ->
  Forall2 (fun kvs a => obj_get "action" kvs = JStr (action_value a)) (event_dicts m) trail.
Proof.
  intros [_ H]. unfold event_dicts. induction H as [|e a events trail (kvs & -> & Ha) _ IH]; csimpl; by constructor.
Qed.

Lemma through_told events trail i a fallback :
  Forall2 (fun kvs a => obj_get "action" kvs = JStr (action_value a)) events trail ->
  trail !! i = Some a ->
  status_through events i fallback = status_after CycleStatus.RUNNING (take (S i) trail).
Proof.
  intros H Hi. unfold status_through. destruct H as [|kvs b events trail Hb H]; [done|].
  cbn [take fold_left]. rewrite (fold_named _ _ _ Hb), (fold_told _ (take i trail)) by (by apply Forall2_take).
  cbn. by destruct b.
Qed.

Lemma rstrip_app s t : rstrip_by is_space t = t -> t <> EmptyString ->
  rstrip_by is_space (s +:+ t) = s +:+ t.
Proof.
  intros Ht Hne. induction s as [|c s IH]; [done|]. simpl. rewrite IH.
  destruct (is_empty (s +:+ t)) eqn:E; [|done]. destruct s; [by destruct t|done].
Qed.

Lemma notice_ends status a :
  notice_text status (action_to_emoji a) (action_value a) =
  "[" +:+ STATUS_ICONS status +:+ cycle_status_value status +:+ "]" +:+ newline +:+
  action_to_emoji a +:+ " " +:+ action_value a.
Proof. by destruct status, a. Qed.

(** ** Programs keep cycles told *)
Lemma told_session {A} (t : instant -> Db -> res exn (A * Db)) :
  (forall i d a d', t i d = Ok (a, d') ->
     Forall (fun m => exists trail, told m trail) (broadcast_messages d) ->
     Forall (fun m => exists trail, told m trail) (broadcast_messages d')) ->
  always told_step (session t).
Proof.
  intros H. apply always_session.
  - intros w w' _ _ Hd. unfold told_step. by rewrite Hd.
  - intros w w' a _ _ Ht. exact (H _ _ _ _ Ht).
Qed.

Lemma told_frame : frame_ok told_step.
Proof. intros w w' _ _ Hd. unfold told_step. by rewrite Hd. Qed.

Lemma told_query {A} (t : Db -> A) : always told_step (query t).
Proof. apply always_query, told_frame. Qed.

Lemma told_map f (t : list BroadcastMessage) :
  (forall m trail, told m trail -> exists trail', told (f m) trail') ->
  forall p, Forall (fun m => exists trail, told m trail) t ->
  Forall (fun m => exists trail, told m trail) (update_where p f t).
Proof.
  intros Hf p H. rewrite Forall_forall in H |- *. intros m' (m & Hm & ->)%elem_of_update_where.
  destruct (p m); [|by apply H]. destruct (H m Hm) as [trail Ht]. by eapply Hf.
Qed.

Lemma told_save l row d r d' :
  (exists trail, told row trail) -> save_cycle l row d = Ok (r, d') ->
  Forall (fun m => exists trail, told m trail) (broadcast_messages d) ->
  Forall (fun m => exists trail, told m trail) (broadcast_messages d').
Proof.
  intros Hrow. unfold save_cycle, insert_log. destruct (insert_unique _ _ _); [|done].
  intros [= _ <-] H. cbn. apply told_map; [|done]. eauto.
Qed.

Lemma told_of d m :
  Forall (fun m => exists trail, told m trail) (broadcast_messages d) -> m ∈ broadcast_messages d ->
  exists trail, told m trail.
Proof. intros H Hm. rewrite Forall_forall in H. by apply H. Qed.

Lemma told_append m trail action kvs :
  told m trail -> obj_get "action" kvs = JStr (action_value action) ->
  told (bm_append action (JObj kvs) m) (trail ++ [action]).
Proof.
  intros [Ht He] Ha. split; [by apply trail_append|]. cbn. apply Forall2_app; [done|].
  constructor; [by exists kvs|constructor].
Qed.

Lemma told_record strategy uxid symbol timeframe action event :
  obj_get "action" event = JStr (action_value action) ->
  always told_step (record_event strategy uxid symbol timeframe action event).
Proof.
  intros Ha. assert (always told_step (record_event_once strategy uxid symbol timeframe action event)) as Honce.
  { apply always_bind; [apply always_uuid4, told_frame|]. intros u.
    apply always_bind; [apply always_uuid4, told_frame|]. intros v.
    apply always_bind; [|intros [row|]; [done|]]; apply told_session; intros i d a d'.
    - destruct (locked_cycle _ _ _ d) as [row|] eqn:El; [|by intros [= _ <-]].
      apply locked_cycle_Some in El as [Hrow _]. unfold extend_cycle.
      destruct (is_duplicate_event _ _); [by intros [= _ <-]|].
      destruct (save_cycle _ _ _) as [[r d1]|] eqn:E; [|done]. intros [= _ <-] H.
      eapply told_save; [|exact E|exact H]. destruct (told_of d row H Hrow) as [trail Ht].
      exists (trail ++ [action]). by apply told_append.
    - unfold open_cycle, insert_log. destruct (insert_unique message_clash _ _) as [ms|] eqn:E; [|done].
      apply insert_unique_Some in E as [-> _]. destruct (insert_unique log_clash _ _); [|done].
      intros [= _ <-] H. cbn. apply Forall_app. split; [done|]. apply Forall_singleton. exists [action].
      split; [unfold trail_ok; cbn; by destruct action|]. constructor; [by exists event|constructor]. }
  unfold record_event. generalize [1; 2]%Z. intros l. induction l as [|n l IH]; [done|].
  cbn [record_event_loop]. apply always_bind; [by apply always_attempt|].
  intros [row|e]; [done|]. destruct e; try done. by destruct (n =? 1)%Z.
Qed.

(** A transaction that leaves the cycles alone. *)
Lemma told_away {A} (t : instant -> Db -> res exn (A * Db)) :
  (forall i d a d', t i d = Ok (a, d') -> broadcast_messages d' = broadcast_messages d) ->
  always told_step (session t).
Proof. intros H. apply told_session. intros i d a d' ->%H. done. Qed.

Lemma told_worker symbol strategy uxid worker_id account_id market gateway status action reason at_ :
  always told_step (record_worker_execution symbol strategy uxid worker_id account_id market
                      gateway status action reason at_).
Proof.
  apply always_bind; [apply always_uuid4, told_frame|]. intros u.
  apply always_bind; [apply always_uuid4, told_frame|]. intros v.
  apply always_catch; [|done]. apply told_session. intros i d a d'. unfold record_worker.
  destruct (locked_cycle symbol strategy uxid d) as [row|] eqn:El; [|by intros [= _ <-]].
  apply locked_cycle_Some in El as [Hrow _].
  destruct (select_first _ _) as [worker|]; [destruct (worker_unchanged _ _ _); [by intros [= _ <-]|]|
    destruct (insert_unique worker_clash _ _); [|done]];
  (destruct (save_cycle _ _ _) as [[r d1]|] eqn:E; [|done]; intros [= _ <-] H;
   eapply told_save; [|exact E|exact H]; destruct (told_of d row H Hrow) as [trail Ht]; by exists trail).
Qed.

Lemma told_assign ids f : always told_step (assign_logs ids f).
Proof.
  unfold assign_logs. destruct ids; [done|]. apply always_catch; [|done]. apply always_bind; [|done].
  apply told_away. by intros i d a d' [= _ <-].
Qed.

Lemma told_upsert id audience chat_id message_id message seq n error :
  always told_step (upsert_chat id audience chat_id message_id message seq n error).
Proof.
  apply always_bind; [apply always_uuid4, told_frame|]. intros u. apply always_catch; [|done].
  apply always_bind; [|done]. apply told_away. intros i d a d'. unfold write_chat.
  destruct (select_first _ _); [by intros [= _ <-]|].
  destruct (insert_unique _ _ _); [by intros [= _ <-]|done].
Qed.

Lemma told_telegram c : always told_step (telegram c).
Proof. apply always_act. intros w H. by destruct (tg w). Qed.

(** Proves [always told_step p] by the structure of [p], its known calls first. *)
Ltac told_tac :=
  repeat first
    [ apply told_upsert | apply told_assign | apply told_telegram | apply told_query
    | apply always_ret | apply always_raise | apply always_bind; [|intros ?]
    | apply always_catch; [|intros ?] | case_match ].

Lemma told_send `{CFG : Settings} target text : always told_step (notifier_send target text).
Proof. unfold notifier_send. told_tac. Qed.

Lemma told_edit `{CFG : Settings} target id text : always told_step (notifier_edit target id text).
Proof. unfold notifier_edit. told_tac. Qed.

Lemma told_reply `{CFG : Settings} target id text : always told_step (notifier_reply target id text).
Proof. unfold notifier_reply. told_tac. Qed.

Lemma told_notify `{CFG : Settings} chat id sent index notices :
  always told_step (notify_loop chat id sent index notices).
Proof.
  revert sent index. induction notices as [|[n|] notices IH]; intros sent index; cbn [notify_loop]; [done| |apply IH].
  apply always_bind; [apply told_reply|]. intros [|]; [apply IH|done].
Qed.

Lemma told_deliver `{CFG : Settings} id audience chat text seq notices existing enabled :
  always told_step (deliver id audience chat text seq notices existing enabled).
Proof.
  assert (always told_step (deliver_new id audience chat text seq notices)) as Hnew.
  { unfold deliver_new. apply always_bind; [apply told_send|]. intros [[] []]; told_tac. }
  unfold deliver. destruct (match existing with Some c => (seq <=? bc_delivered_seq c)%Z | None => false end); [done|].
  cbv zeta. destruct (match existing with Some c => if has_message c then bc_message_id c else None | None => None end);
    [|done]. apply always_bind; [apply told_edit|].
  intros []; [|done|told_tac].
  apply always_bind; [|intros n; told_tac].
  unfold notify_updates. destruct (match existing with Some c => bc_notified_event_count c | None => None end); [|done].
  destruct enabled; [apply told_notify|done].
Qed.

Lemma told_park view ids reason : always told_step (park view ids reason).
Proof.
  unfold park. case_match; [told_tac|]. apply always_bind; [|intros _; told_tac].
  apply always_for_each. intros c. told_tac.
Qed.

Lemma told_mark id : always told_step (mark_broadcast id).
Proof.
  apply always_catch; [|done]. apply told_session. intros i d a d'.
  destruct (select_first _ _); intros [= _ <-] H; [|done]. cbn. apply told_map; [|done]. eauto.
Qed.

Lemma told_dispatch `{CFG : Settings} `{REN : Renderer} private n id :
  always told_step (dispatch_locked private n id).
Proof.
  unfold dispatch_locked. apply always_bind.
  { apply always_catch; [|done]. apply told_away. by intros i d a d' [= _ <-]. }
  intros [|l ls]; [done|]. apply always_bind; [told_tac|].
  intros [view|]; [|told_tac].
  apply always_bind; [told_tac|]. intros values.
  case_match; [apply told_park|]. case_match; [apply told_park|].
  apply always_bind.
  - unfold deliver_all. destruct (unrenderable view values); [done|].
    apply always_bind; [|done]. apply always_for_collect. intros [audience chat]. apply told_deliver.
  - intros ok. apply always_bind; [apply told_assign|]. intros _. apply always_bind; [apply told_mark|done].
Qed.

Lemma told_program `{PY : Pydantic} `{CFG : Settings} `{REN : Renderer} {A} (p : prog A) :
  cycle_program p -> always told_step p.
Proof.
  destruct 1 as [payload n|event trade|private n id].
  - unfold service_broadcast. case_match; [done|]. apply always_bind; [|done]. by apply told_record.
  - unfold record_execution. destruct (negb _); [done|]. destruct (ev_signal_id event) as [sid|]; [|done].
    destruct (is_empty sid); [done|]. destruct (to_trade_status _) as [st|]; [|done].
    apply always_bind; [unfold get_by_id; told_tac|].
    intros [signal|]; [|done]. destruct (sg_signal_uxid signal) as [uxid|]; [|done].
    destruct (is_empty uxid); [done|]. apply always_bind; [apply told_worker|done].
  - apply told_dispatch.
Qed.

(** The notices tell the cycle's story.  Every program of the broker that
    writes to a cycle, under any interleaving, database faults and crashes, leaves
    each event naming its action.  On such a cycle: there is a notice for every
    event and for no other index; notice [i] heads the status the first [i+1]
    actions lead to, so two events delivered together are each told in turn, and
    its label is the event's own action; and the last notice agrees with the row,
    its status and its latest action. *)
Theorem notices_tell_the_story `{PY : Pydantic} `{CFG : Settings} `{REN : Renderer} :
  (forall A (p : prog A) w evs w' o,
     cycle_program p -> Forall (fun m => exists trail, told m trail) (broadcast_messages (db w)) ->
     texec told_step p w evs w' o -> Forall (fun m => exists trail, told m trail) (broadcast_messages (db w'))) /\
  (forall m trail, told m trail ->
     (forall i, format_broadcast_update_notice m i =
        if (i <? 0)%Z then None
        else (fun a => notice_text (status_after CycleStatus.RUNNING (take (S (Z.to_nat i)) trail))
                         (action_to_emoji a) (action_value a)) <$> trail !! Z.to_nat i) /\
     format_broadcast_update_notice m (Z.of_nat (length trail) - 1) =
       Some ("[" +:+ STATUS_ICONS (bm_status m) +:+ cycle_status_value (bm_status m) +:+ "]" +:+ newline +:+
             action_to_emoji (bm_latest_action m) +:+ " " +:+ action_value (bm_latest_action m))).
Proof.
  split.
  { intros A p w evs w' o Hp H He. exact (texec_always told_step p w evs w' o (told_program p Hp) He H). }
  intros m trail Ht. pose proof (dicts_told m trail Ht) as Hd.
  assert (forall i, format_broadcast_update_notice m i =
        if (i <? 0)%Z then None
        else (fun a => notice_text (status_after CycleStatus.RUNNING (take (S (Z.to_nat i)) trail))
                         (action_to_emoji a) (action_value a)) <$> trail !! Z.to_nat i) as Hall.
  { intros i. unfold format_broadcast_update_notice. destruct (i <? 0)%Z; [done|].
    destruct (trail !! Z.to_nat i) as [a|] eqn:Ea.
    - destruct (Forall2_lookup_r _ _ _ _ _ Hd Ea) as (kvs & -> & Hk).
      rewrite (through_told _ _ _ _ _ Hd Ea). unfold event_action. rewrite Hk. cbn [py_str].
      by rewrite action_of_value.
    - apply lookup_ge_None in Ea. rewrite <-(Forall2_length _ _ _ Hd) in Ea.
      apply lookup_ge_None in Ea. by rewrite Ea. }
  split; [done|]. destruct Ht as [(Ha & Hl & Hn & Hs) _]. rewrite last_lookup in Hl.
  assert (0 < length trail) as Hpos.
  { destruct trail; [done|]. cbn. lia. }
  rewrite Hall. destruct (Z.ltb_spec (Z.of_nat (length trail) - 1) 0); [lia|].
  replace (Z.to_nat (Z.of_nat (length trail) - 1)) with (Nat.pred (length trail)) by lia.
  rewrite Hl, take_ge by lia. cbn [fmap option_fmap option_map]. by rewrite <-Hs, notice_ends.
Qed.
End formatter.

(** A trade opened, partly taken and stopped out: three notices; the second still
    says TP1 although the row is CLOSED. *)
Definition sample_story : World :=
  let w0 := sample_world [] [uid 1; uid 2; uid 3; uid 4; uid 5; uid 6] in
  let w1 := (run (sample_record SigAction.LONG) w0).2 in
  let w2 := (run (sample_record SigAction.TP1) w1).2 in
  (run (sample_record SigAction.SL) w2).2.

Lemma notices_tell_the_story_witness :
  exists m, m ∈ broadcast_messages (db sample_story) /\ bm_status m = CycleStatus.CLOSED /\
  format_broadcast_update_notice (fun _ => EmptyString) m 1 =
    Some ("[🎯TP1]" +:+ newline +:+ "🎯 TP1") /\
  format_broadcast_update_notice (fun _ => EmptyString) m 2 =
    Some ("[🏁CLOSED]" +:+ newline +:+ "⭕ SL").
Proof.
  destruct (broadcast_messages (db sample_story)) as [|m ms] eqn:E; [by vm_compute in E|].
  exists m. vm_compute in E. injection E as Em _.
  assert (told m [SigAction.LONG; SigAction.TP1; SigAction.SL]) as Ht.
  { rewrite <-Em. split; [by vm_compute|]. repeat (constructor; [eexists; split; reflexivity|]). constructor. }
  pose proof (notices_tell_the_story (fun _ => EmptyString) (PY := sample_pydantic) (CFG := sample_settings)
    (REN := notice_renderer (fun _ => EmptyString) (fun _ _ _ _ _ => Ok EmptyString) (fun _ _ _ _ _ _ => eq_refl))) as [_ H].
  destruct (H _ _ Ht) as [Hi Hlast]. split; [left|]. split; [by rewrite <-Em|]. split.
  - by rewrite Hi.
  - etransitivity; [exact Hlast|by rewrite <-Em].
Defined.
