(* ===== verification/MessageBody.v ===== *)
(** * The body of a cycle's message

    [format_broadcast_message] ([helpers/message_formatter.py]): the whole history of
    a cycle, rendered from its stored events for one audience. *)

From S2P Require Import Prelude PyStr Uuid PyTime Json JsonText Enums Schemas Models ChatTargets World Settings TimeZone.
From S2P Require Import StatusPolicies Samples SignalRepo SignalHelper SignalService BroadcastRepo.
From S2P Require Import CycleLog BroadcastService Dispatcher DispatchSweep Notices.
From Stdlib Require Import Ascii SpecFloat.

(** What the rendering raises: [decimal.InvalidOperation] on a number too long to
    write out, [TypeError] on a NaN or an infinity, [OverflowError] on a date no
    calendar shows. *)
Inductive body_error := InvalidOperation | NotANumber | DateOverflow.

(** ** Numbers *)

(** The digits before and after the point of [ds * 10^x], [x < 0]. *)
Definition point_at (ds : string) (x : Z) : string :=
  let k := Z.to_nat (- x) in
  let ds := zeros (S k - String.length ds) +:+ ds in
  let n := (String.length ds - k)%nat in
  take_str n ds +:+ "." +:+ drop_str n ds.

(** [f"{d:f}"] of the normalised decimal [ds * 10^x]; [quantize] refuses more than
    the 28 digits of the context. *)
Definition plain_decimal (ds : string) (x : Z) : res body_error string :=
  if (0 <? x)%Z then
    if (Z.of_nat (String.length ds) + x <=? 28)%Z then Ok (ds +:+ zeros (Z.to_nat x)) else Err InvalidOperation
  else if (x =? 0)%Z then Ok ds else Ok (point_at ds x).

Definition format_float (f : float) : res body_error string :=
  match f with
  | S754_nan | S754_infinity _ => Err NotANumber
  | S754_zero s => Ok (if s then "-0" else "0")
  | S754_finite s m e =>
      let '(ds, x) := repr_decimal m e in
      let? text := plain_decimal ds x in Ok ((if s then "-" else "") +:+ text)
  end.

(** An integer of more than 28 digits keeps 28 when it is normalised, and is then
    refused; a shorter one is written out. *)
Definition format_int (z : Z) : res body_error string :=
  if (Z.abs z <? 10 ^ 28)%Z then Ok (str_int z) else Err InvalidOperation.

Section formatter.
(** [str(v)] of a decoded value that is neither text nor an integer. *)
Variable py_repr : json -> string.

Definition format_number (value : json) : res body_error string :=
  match value with
  | JNull => Ok "—"
  | JInt z => format_int z
  | JFloat f => format_float f
  | v => Ok (py_str py_repr v)
  end.

(** ** Blocks *)

(** [parts.append(label + format_number(event[key]) + unit)], when the event has it. *)
Definition number_part (event : list (string * json)) (label key unit : string) : res body_error (list string) :=
  match obj_get key event with
  | JNull => Ok []
  | v => let? text := format_number v in Ok [label +:+ text +:+ unit]
  end.

Definition collect (parts : list (res body_error (list string))) : res body_error (list string) :=
  foldr (fun p acc => let? a := p in let? r := acc in Ok (a ++ r)) (Ok []) parts.

(** The parts of one line, when there are any. *)
Definition line_of (parts : list string) : list string :=
  match parts with [] => [] | _ => [join " | " parts] end.

Definition lines (l : list string) : string := join newline l.

Definition flag_icon (value : json) : string := if json_truthy value then "🟢" else "🔴".

Definition flag_part (event : list (string * json)) (label key : string) : list string :=
  match obj_get key event with JNull => [] | v => [label +:+ flag_icon v] end.

Definition scale_part (event : list (string * json)) : list string :=
  match obj_get "is_scale_position" event with
  | JNull => []
  | v => ["Scale: " +:+ flag_icon v +:+
          (let s := obj_get "scale_strategy" event in if json_truthy s then " " +:+ py_str py_repr s else "")]
  end.

Definition broadcast_flags_line (event : list (string * json)) : res body_error string :=
  let? tp1 := number_part event "TP1%: " "tp1_percent" "%" in
  Ok (join " | " (tp1 ++ flag_part event "SL→BE: " "move_sl_to_be" ++ flag_part event "Running: " "is_running" ++
                  scale_part event)).

Definition format_entry_block (event : list (string * json)) : res body_error string :=
  let? price := number_part event "Price: " "price" "" in
  let? qty_risk := collect [number_part event "Quantity: " "quantity" ""; number_part event "Risk: " "risk_percent" "%"] in
  let? levels := collect [number_part event "SL: " "sl" ""; number_part event "TP1: " "tp1" "";
                          number_part event "TP2: " "tp2" ""] in
  Ok (lines (price ++ line_of qty_risk ++ line_of levels)).

Section at_zone.
Context `{CFG : Settings}.
Variable timezone_offset : option string.

Definition event_time (value : json) : res body_error string :=
  match value with
  | JNull => Ok EmptyString
  | v =>
      match fromisoformat (py_str py_repr v) with
      | None => Ok (py_str py_repr v)
      | Some t =>
          match format_notification_time t timezone_offset with
          | Ok text => Ok text
          | Err TimeValueError => Ok (py_str py_repr v)
          | Err TimeOverflowError => Err DateOverflow
          end
      end
  end.

Definition event_icon (event : list (string * json)) : string :=
  match event_action py_repr event with Some action => action_to_emoji action | None => DEFAULT_SIGNAL end.

Definition format_action_block (event : list (string * json)) : res body_error string :=
  let? qty_risk := collect [number_part event "Price: " "price" ""; number_part event "Quantity: " "quantity" "";
                            number_part event "Risk: " "risk_percent" "%"] in
  let? stamp := event_time (obj_get "timestamp" event) in
  let attempt := obj_get "attempt" event in
  let time_line :=
    if is_empty stamp then []
    else [stamp +:+ (if json_truthy attempt then " 🔄 attempt " +:+ py_str py_repr attempt else "")] in
  Ok (lines ([event_icon event +:+ " " +:+ py_str py_repr (obj_get "action" event)] ++ line_of qty_risk ++ time_line)).

(** ** Workers *)

(** [s[-n:]] of a text longer than [n]. *)
Definition last_str (n : nat) (s : string) : string := drop_str (String.length s - n) s.

Definition masked (account_id : string) : string :=
  if (10 <? String.length account_id)%nat then take_str 4 account_id +:+ "****" +:+ last_str 4 account_id
  else if (4 <? String.length account_id)%nat then "****" +:+ last_str 4 account_id
  else if is_empty account_id then "?" else account_id.

Definition worker_label (worker : BroadcastMessageWorker) : string :=
  let gateway :=
    match bw_gateway worker with
    | Some g => if is_empty g then None else Some g
    | None => None
    end in
  let gateway :=
    match gateway with
    | Some g => g
    | None => match bw_market worker with Some m => market_value m | None => EmptyString end
    end in
  strip (gateway +:+ " " +:+ masked (bw_account_id worker)).

Fixpoint spaces (n : nat) : string := match n with O => EmptyString | S n => String " " (spaces n) end.

Definition ljust (width : nat) (s : string) : string := s +:+ spaces (width - String.length s).

Definition format_worker_table (workers : list BroadcastMessageWorker) : string :=
  match map (fun w => (worker_label w, trade_status_value (bw_latest_status w))) workers with
  | [] => EmptyString
  | rows =>
      let width := Nat.max (foldr Nat.max 0 (map (fun r => String.length r.1) rows)) (String.length "ID") in
      "Workers (" +:+ str_int (Z.of_nat (length rows)) +:+ ")" +:+ newline +:+
      ljust width "Name" +:+ "  Status" +:+ newline +:+
      lines (map (fun r => ljust width r.1 +:+ "  " +:+ r.2) rows)
  end.

(** ** Raw blocks *)
Definition raw_block (title : string) (data : json) : list string :=
  match data with
  | JObj kvs =>
      match base.filter (fun kv => negb (json_eqb kv.2 JNull) = true) kvs with
      | [] => []
      | values => [title +:+ ":" +:+ newline +:+ lines (map (fun kv => "  " +:+ kv.1 +:+ ": " +:+ py_str py_repr kv.2) values)]
      end
  | _ => []
  end.

Definition format_raw_dicts (indicators inputs : json) : string :=
  match (raw_block "Indicators" indicators ++ raw_block "Inputs" inputs)%list with
  | [] => EmptyString
  | parts => newline +:+ lines parts
  end.

(** ** The body *)
Definition DIVIDER : string := "-----------".

Definition box_break : string := newline +:+ "</pre>" +:+ newline +:+ "<pre>".

(** The cycle's status in the header. *)
Definition body_status (record : BroadcastMessage) : BroadcastStatusEnum :=
  let events := event_dicts record in
  let status := as_status (Member (bm_status record)) in
  match events with
  | [] => status
  | _ => merge_status (Member status) (Member (status_through py_repr events (length events - 1) status))
  end.

Definition position_box (record : BroadcastMessage) (include_meta : bool) : res body_error string :=
  let events := event_dicts record in
  let entry_event := default [] (head events) in
  let status := body_status record in
  let timeframe :=
    match bm_timeframe record with
    | Some t => if is_empty t then "" else " (" +:+ format_timeframe t +:+ ")"
    | None => ""
    end in
  let label := match entry_event with [] => EmptyString | _ => py_str py_repr (obj_get "action" entry_event) end in
  let icon := match entry_event with [] => DEFAULT_SIGNAL | _ => event_icon entry_event end in
  let? entry_block := match entry_event with [] => Ok EmptyString | _ => format_entry_block entry_event end in
  Ok (lines (["[" +:+ STATUS_ICONS status +:+ cycle_status_value status +:+ "]";
              icon +:+ " " +:+ (if is_empty label then "" else label +:+ " ") +:+ bm_symbol record +:+ timeframe;
              DIVIDER] ++
             (if is_empty entry_block then [] else [entry_block]) ++ [DIVIDER] ++
             (if negb include_meta && negb (is_empty (bm_signal_uxid record))
              then ["Signal: " +:+ bm_signal_uxid record; DIVIDER] else []))).

Definition actions_box (record : BroadcastMessage) : res body_error string :=
  match tail (event_dicts record) with
  | [] => Ok EmptyString
  | action_events =>
      let? blocks := collect (map (fun e => let? b := format_action_block e in Ok [b]) action_events) in
      Ok (box_break +:+ lines ["Actions:"; DIVIDER; join (newline +:+ newline) blocks; DIVIDER])
  end.

Definition settings_box (record : BroadcastMessage) (include_raw : bool) : res body_error string :=
  let events := event_dicts record in
  let entry_event := default [] (head events) in
  let? flags := match entry_event with [] => Ok EmptyString | _ => broadcast_flags_line entry_event end in
  let raw :=
    match events !! (length events - 1)%nat with
    | Some e => if include_raw then format_raw_dicts (obj_get "indicators" e) (obj_get "inputs" e) else EmptyString
    | None => EmptyString
    end in
  Ok (box_break +:+ lines (["Signal info:"; DIVIDER; "Strategy: " +:+ bm_strategy record;
                            "Signal: " +:+ bm_signal_uxid record; DIVIDER] ++
        (if is_empty flags then [] else ["📊Settings:"; DIVIDER; flags; DIVIDER]) ++
        (if is_empty raw then [] else [lstrip_by (Ascii.eqb "010") raw; DIVIDER]))).

Definition workers_box (workers : list BroadcastMessageWorker) : string :=
  let executions := format_worker_table workers in
  if is_empty executions then EmptyString else box_break +:+ executions.

Definition format_broadcast_message (record : BroadcastMessage) (workers : list BroadcastMessageWorker)
    (include_raw include_meta : bool) : res body_error string :=
  let? position := position_box record include_meta in
  let? actions := actions_box record in
  let? settings := if include_meta then settings_box record include_raw else Ok EmptyString in
  Ok (position +:+ actions +:+ settings +:+ (if include_meta then workers_box workers else EmptyString)).
End at_zone.

(** *** What the dispatcher renders with *)
Definition body_exn (e : body_error) : exn :=
  match e with NotANumber => TypeError | InvalidOperation | DateOverflow => ArithmeticError end.

Definition broadcast_body `{CFG : Settings} (record : BroadcastMessage) (workers : list BroadcastMessageWorker)
    (timezone_offset : option string) (include_raw include_meta : bool) : res exn string :=
  match format_broadcast_message timezone_offset record workers include_raw include_meta with
  | Ok text => Ok text
  | Err e => Err (body_exn e)
  end.

(** The stamp of a pass is not in the text. *)
Lemma broadcast_body_stamped `{CFG : Settings} t record workers timezone_offset include_raw include_meta :
  broadcast_body (bm_stamp t record) workers timezone_offset include_raw include_meta =
  broadcast_body record workers timezone_offset include_raw include_meta.
Proof. reflexivity. Qed.

(** The formatters the dispatcher calls: every theorem about it holds of them. *)
Definition broker_renderer `{CFG : Settings} : Renderer :=
  notice_renderer py_repr broadcast_body broadcast_body_stamped.
End formatter.

(** ** Who sees what *)

(** What the public body may tell of an event. *)
Definition public_keys : list string :=
  ["action"; "price"; "quantity"; "sl"; "tp1"; "tp2"; "risk_percent"; "timestamp"; "attempt"].

Definition public_event (event : list (string * json)) : bool * list json :=
  (match event with [] => true | _ => false end, map (fun k => obj_get k event) public_keys).

Section audience.
Context `{CFG : Settings} (py_repr : json -> string) (timezone_offset : option string).

Lemma public_key e e' k : public_event e = public_event e' -> k ∈ public_keys -> obj_get k e = obj_get k e'.
Proof.
  unfold public_event. intros [= _ H1 H2 H3 H4 H5 H6 H7 H8 H9] Hk.
  repeat (apply elem_of_cons in Hk as [->|Hk]; [done|]). by apply not_elem_of_nil in Hk.
Qed.

Lemma public_part e e' label k unit :
  public_event e = public_event e' -> k ∈ public_keys -> number_part py_repr e label k unit = number_part py_repr e' label k unit.
Proof. intros He Hk. unfold number_part. by rewrite (public_key e e' k He Hk). Qed.

Ltac in_public := unfold public_keys; rewrite !elem_of_cons; tauto.

Lemma public_action e e' : public_event e = public_event e' -> event_action py_repr e = event_action py_repr e'.
Proof. intros He. unfold event_action. by rewrite (public_key e e' "action" He) by in_public. Qed.

Lemma public_icon e e' : public_event e = public_event e' -> event_icon py_repr e = event_icon py_repr e'.
Proof. intros He. unfold event_icon. by rewrite (public_action e e' He). Qed.

Lemma public_entry e e' : public_event e = public_event e' -> format_entry_block py_repr e = format_entry_block py_repr e'.
Proof. intros He. unfold format_entry_block, collect. cbn [foldr]. by rewrite !(public_part e e') by (done || in_public). Qed.

Lemma public_block e e' :
  public_event e = public_event e' ->
  format_action_block py_repr timezone_offset e = format_action_block py_repr timezone_offset e'.
Proof.
  intros He. unfold format_action_block, collect. cbn [foldr]. rewrite !(public_part e e') by (done || in_public).
  rewrite (public_icon e e' He).
  by rewrite (public_key e e' "timestamp" He), (public_key e e' "attempt" He), (public_key e e' "action" He) by in_public.
Qed.

Lemma public_fold es es' s :
  Forall2 (fun e e' => public_event e = public_event e') es es' ->
  fold_left (fold_status py_repr) es s = fold_left (fold_status py_repr) es' s.
Proof.
  intros H. revert s. induction H as [|e e' es es' He _ IH]; intros s; [done|]. cbn. rewrite IH. f_equal.
  unfold fold_status. by rewrite (public_action e e' He).
Qed.

Lemma public_events es es' :
  map public_event es = map public_event es' -> Forall2 (fun e e' => public_event e = public_event e') es es'.
Proof.
  revert es'. induction es as [|e es IH]; intros [|e' es'] H; [by constructor|discriminate H..|].
  constructor; [exact (f_equal (fun l => hd (public_event e) l) H)|]. apply IH.
  exact (f_equal tail H).
Qed.

(** C20. The public body keeps the strategy's secrets.  The message posted to the
    public chats is a function of the symbol, the time frame, the signal's uxid, the
    status and of each event's action, prices, size, risk, time and attempt alone:
    neither the strategy's name, nor its inputs, indicators and flags, nor who
    executed the signal changes a character of it, whatever settings are on. *)
Theorem public_body_keeps_secrets r r' workers workers' include_raw include_raw' :
  (bm_symbol r, bm_timeframe r, bm_signal_uxid r, bm_status r) =
    (bm_symbol r', bm_timeframe r', bm_signal_uxid r', bm_status r') ->
  map public_event (event_dicts r) = map public_event (event_dicts r') ->
  format_broadcast_message py_repr timezone_offset r workers include_raw false =
  format_broadcast_message py_repr timezone_offset r' workers' include_raw' false.
Proof.
  intros [= Hsym Htf Hux Hst] He%public_events. unfold format_broadcast_message.
  assert (Hstatus : body_status py_repr r = body_status py_repr r').
  { unfold body_status. rewrite Hst, (Forall2_length _ _ _ He). unfold status_through.
    rewrite (public_fold _ (take (S (length (event_dicts r') - 1)) (event_dicts r'))) by (by apply Forall2_take).
    by inversion He. }
  assert (Hpos : position_box py_repr r false = position_box py_repr r' false).
  { unfold position_box. rewrite Hstatus, Hsym, Htf, Hux. destruct He as [|e e' es es' H1 _]; [done|]. cbn [head default from_option id].
    rewrite (public_entry e e' H1), (public_icon e e' H1), (public_key e e' "action" H1) by in_public.
    assert (match e with [] => true | _ => false end = match e' with [] => true | _ => false end) by (by injection H1).
    by destruct e, e'. }
  assert (Hact : actions_box py_repr timezone_offset r = actions_box py_repr timezone_offset r').
  { unfold actions_box. destruct He as [|e e' es es' _ H2]; [done|]. cbn [tail].
    assert (Hc : collect (map (fun e => let? b := format_action_block py_repr timezone_offset e in Ok [b]) es) =
            collect (map (fun e => let? b := format_action_block py_repr timezone_offset e in Ok [b]) es')).
    { clear -H2. induction H2 as [|e e' es es' H _ IH]; [done|]. unfold collect in *. cbn [map foldr]. by rewrite IH, (public_block e e' H). }
    destruct H2; [done|]. by rewrite Hc. }
  by rewrite Hpos, Hact.
Qed.

Definition header (s : BroadcastStatusEnum) : string :=
  "[" +:+ STATUS_ICONS s +:+ cycle_status_value s +:+ "]" +:+ newline.

Lemma opens_with s (b : string) (l : list string) rest :
  lines (("[" +:+ STATUS_ICONS s +:+ cycle_status_value s +:+ "]") :: b :: l) +:+ rest =
  header s +:+ (lines (b :: l) +:+ rest).
Proof. unfold lines, header. cbn [join]. by rewrite !string_app_assoc. Qed.

Lemma body_status_told m trail : told m trail -> body_status py_repr m = bm_status m.
Proof.
  intros Ht. pose proof (dicts_told m trail Ht) as Hd. destruct Ht as [(_ & Hl & _ & Hs) _]. unfold body_status.
  destruct (event_dicts m) as [|e es] eqn:E; [done|]. rewrite last_lookup in Hl.
  pose proof (Forall2_length _ _ _ Hd) as Hlen. replace (length (e :: es) - 1) with (Nat.pred (length trail)) by (cbn in *; lia).
  rewrite (through_told py_repr _ _ _ _ _ Hd Hl), take_ge by (cbn in Hlen; lia). rewrite <-Hs. cbn. by destruct (bm_status m).
Qed.

(** The message and the reply under it agree.  On every cycle the broker's
    programs leave behind, the body that is posted — for either audience — and the
    notice of its latest event open with the same line: the cycle's stored
    status. *)
Theorem body_and_notice_agree m trail workers include_raw include_meta :
  told m trail ->
  (exists rest, format_broadcast_update_notice py_repr m (Z.of_nat (length (bm_events m)) - 1) =
     Some (header (bm_status m) +:+ rest)) /\
  match format_broadcast_message py_repr timezone_offset m workers include_raw include_meta with
  | Ok body => exists rest, body = header (bm_status m) +:+ rest
  | Err _ => True
  end.
Proof.
  intros Ht. split.
  - pose proof (dicts_told m trail Ht) as Hd. pose proof Ht as [(_ & Hl & Hn & Hs) _]. rewrite last_lookup in Hl.
    unfold format_broadcast_update_notice. rewrite <-Hn.
    assert (0 < length trail) as Hpos by (destruct trail; [done|cbn; lia]).
    destruct (Z.ltb_spec (Z.of_nat (length trail) - 1) 0); [lia|].
    replace (Z.to_nat (Z.of_nat (length trail) - 1)) with (Nat.pred (length trail)) by lia.
    destruct (Forall2_lookup_r _ _ _ _ _ Hd Hl) as (kvs & Hk & Ha). rewrite Hk.
    rewrite (through_told py_repr _ _ _ _ _ Hd Hl), take_ge, <-Hs by lia. unfold event_action. rewrite Ha. cbn [py_str].
    rewrite action_of_value, notice_ends.
    exists (action_to_emoji (bm_latest_action m) +:+ " " +:+ action_value (bm_latest_action m)). unfold header. by rewrite !string_app_assoc.
  - unfold format_broadcast_message, position_box. rewrite (body_status_told m trail Ht).
    destruct (match default [] (head (event_dicts m)) with [] => _ | _ => _ end) as [block|]; [|done].
    destruct (actions_box _ _ _) as [acts|]; [|done].
    destruct (if include_meta then _ else _) as [sets|]; [|done].
    eexists. apply opens_with.
Qed.
End audience.

(** ** On concrete input *)
Module body_samples.
#[local] Existing Instance sample_settings.

(** A long opened with its levels, a first target hit, and who executed it. *)
Definition sample_cycle (strategy : string) (inputs : json) : BroadcastMessage :=
  {| bm_id := uid 1; bm_strategy := strategy; bm_signal_uxid := "9F2C4B7E18A3D605"; bm_symbol := "XAUUSD";
     bm_timeframe := Some "15"; bm_actions := "LONG,TP1"; bm_latest_action := SigAction.TP1;
     bm_status := CycleStatus.TP1;
     bm_events :=
       [JObj [("action", JStr "LONG"); ("price", JFloat (S754_finite false 10297 (-2))); ("quantity", JFloat f_one);
              ("sl", JInt 2300); ("risk_percent", JFloat (S754_finite false 1 (-1))); ("move_sl_to_be", JBool true);
              ("timestamp", JStr "2026-06-02T10:15:00+00:00"); ("inputs", inputs)];
        JObj [("action", JStr "TP1"); ("price", JFloat (S754_finite false 2600 0));
              ("timestamp", JStr "2026-06-02T18:30:00+00:00"); ("attempt", JInt 2); ("inputs", inputs)]];
     bm_last_seq := 2; bm_last_broadcast_at := None |}.

Definition sample_worker : BroadcastMessageWorker :=
  {| bw_id := uid 2; bw_createdAt := 0%Z; bw_broadcast_message_id := uid 1; bw_worker_id := "FOREX-MT5-123456789012";
     bw_account_id := "123456789012"; bw_market := Some Market.FOREX; bw_gateway := Some "MT5";
     bw_latest_status := TradeStatus.OPENED; bw_latest_action := None; bw_reject_reason := None;
     bw_last_event_at := None |}.

Definition text_lines (l : list string) : string := join newline l.

Example private_body :
  format_broadcast_message (fun _ => EmptyString) (Some "5.5") (sample_cycle "wt" (JObj [("len", JInt 9)]))
    [sample_worker] true true =
  Ok (text_lines
    ["[🎯TP1]"; "🟩 LONG XAUUSD (M15)"; "-----------"; "Price: 2574.25"; "Quantity: 1 | Risk: 0.5%"; "SL: 2300";
     "-----------";
     "</pre>"; "<pre>Actions:"; "-----------"; "🎯 TP1"; "Price: 2600"; "2026-06-03 00:00:00 (UTC+5.5) 🔄 attempt 2";
     "-----------";
     "</pre>"; "<pre>Signal info:"; "-----------"; "Strategy: wt"; "Signal: 9F2C4B7E18A3D605"; "-----------";
     "📊Settings:"; "-----------"; "SL→BE: 🟢"; "-----------"; "Inputs:"; "  len: 9"; "-----------";
     "</pre>"; "<pre>Workers (1)"; "Name              Status"; "MT5 1234****9012  OPENED"]).
Proof. vm_compute. reflexivity. Qed.

Lemma public_body_keeps_secrets_witness :
  format_broadcast_message (fun _ => EmptyString) None (sample_cycle "wt" (JObj [("len", JInt 9)])) [sample_worker] true false =
  format_broadcast_message (fun _ => EmptyString) None (sample_cycle "other" JNull) [] false false.
Proof.
  apply (public_body_keeps_secrets (fun _ => EmptyString) None (sample_cycle "wt" (JObj [("len", JInt 9)]))
    (sample_cycle "other" JNull) [sample_worker] [] true false); vm_compute; reflexivity.
Defined.

Lemma body_and_notice_agree_witness :
  told (sample_cycle "wt" JNull) [SigAction.LONG; SigAction.TP1] /\
  exists body rest, format_broadcast_message (fun _ => EmptyString) None (sample_cycle "wt" JNull) [] false false = Ok body /\
    body = header CycleStatus.TP1 +:+ rest.
Proof.
  assert (Ht : told (sample_cycle "wt" JNull) [SigAction.LONG; SigAction.TP1]).
  { split; [by vm_compute|]. repeat (constructor; [eexists; split; reflexivity|]). constructor. }
  split; [exact Ht|].
  destruct (body_and_notice_agree (fun _ => EmptyString) None (sample_cycle "wt" JNull) [SigAction.LONG; SigAction.TP1] [] false false Ht)
    as [_ H].
  destruct (format_broadcast_message (fun _ => EmptyString) None (sample_cycle "wt" JNull) [] false false) as [body|e] eqn:E.
  - destruct H as [rest H]. exact (ex_intro _ body (ex_intro _ rest (conj eq_refl H))).
  - exfalso. revert E. vm_compute. discriminate.
Defined.

(** A price of 29 digits cannot be written out, so its cycle cannot be rendered. *)
Example huge_price :
  format_entry_block (fun _ => EmptyString) [("action", JStr "LONG"); ("price", JFloat (float_of_decimal false 1 28))] =
  Err InvalidOperation.
Proof. vm_compute. reflexivity. Qed.

(** Recorded first, it holds up the sweep that was to deliver a second cycle as well;
    the next sweep, its entry still SENDING, delivers that one. *)
Example huge_price_holds_up :
  let record uxid price := record_event "wt_bb_atr" uxid "XAUUSD" None SigAction.LONG
    [("action", JStr "LONG"); ("price", price)] in
  let w := (run (do! record "9F2C4B7E18A3D605" (JFloat (float_of_decimal false 1 28)) in record "1B2C4B7E18A3D605" (JInt 2300))
    (sample_world [] [uid 1; uid 2; uid 3; uid 4; uid 5; uid 6])).2 in
  let sweep_once := @sweep sample_settings (broker_renderer (fun _ => EmptyString)) None 5 60 in
  let '(first, w1) := run sweep_once w in
  let '(second, w2) := run sweep_once w1 in
  first = Err ArithmeticError /\ map bl_status (broadcast_message_logs (db w1)) = [LogStatus.SENDING; LogStatus.PENDING] /\
  second = Ok 1 /\ map bl_status (broadcast_message_logs (db w2)) = [LogStatus.SENDING; LogStatus.DELIVERED].
Proof. vm_compute. repeat split. Qed.
End body_samples.
