(* ===== verification/TradeRepo.v ===== *)
(** * The trade repository

    [SqlAlchemyTradeRepository.upsert_by_position_event] and [_upsert_account]
    ([db/repository/trade.py]): a worker's report becomes the row of its trade and
    refreshes the row of its account, in one session.  The uuids of inserted rows
    are drawn up front. *)

From S2P Require Import Prelude PyStr Uuid PyTime Json Enums Schemas Models World.
From S2P Require Import StatusPolicies.

(** ** [.first()] of an unordered query

    The two queries may match an exact row and a legacy row without a gateway;
    which one the server returns first is its own choice. *)
Class RowChoice (row : Type) := {
  choose : list row -> option row;
  choose_elem : forall l r, choose l = Some r -> r ∈ l;
  choose_some : forall l, l <> [] -> is_Some (choose l)
}.

#[export] Instance first_row (row : Type) : RowChoice row | 10.
Proof.
  refine {| choose := head |}; [|intros [|x l] H; [done|by eexists]].
  intros [|x l] r; [done|]. intros [= ->]. left.
Defined.

(** Assigns to the columns of the row with [row]'s primary key; [None] is the
    [IntegrityError] of a unique constraint. *)
Definition update_unique {row} (key : row -> uuid) (clash : row -> row -> bool) (r : row) (t : list row)
    : option (list row) :=
  if existsb (fun r' => negb (bool_decide (key r' = key r)) && clash r r') t then None
  else Some (update_where (fun r' => bool_decide (key r' = key r)) (fun _ => r) t).

(** [or_(Row.gateway == gateway, Row.gateway.is_(None))]. *)
Definition gateway_matches (gateway row : option string) : bool :=
  match row with
  | None => true
  | Some g => match gateway with Some g' => String.eqb g g' | None => false end
  end.

Definition keep_or (new old : option string) : option string :=
  match new with Some _ => new | None => old end.

(** ** Accounts *)
Definition account_of_event (event : PositionEvent) (r : Account) : bool :=
  bool_decide (ac_account_id r = ev_account_id event) && bool_decide (ac_market r = ev_market event) &&
  gateway_matches (ev_gateway event) (ac_gateway r).

Definition touch_account (event : PositionEvent) (now : instant) (r : Account) : Account :=
  {| ac_id := ac_id r; ac_createdAt := ac_createdAt r; ac_account_id := ac_account_id r;
     ac_account_name := keep_or (ev_account_name event) (ac_account_name r);
     ac_account_balance := match ev_account_balance event with
                           | Some _ => ev_account_balance event
                           | None => ac_account_balance r
                           end;
     ac_market := ev_market event;
     ac_gateway := keep_or (ev_gateway event) (ac_gateway r);
     ac_last_activity_at := Some now; ac_settings := ac_settings r |}.

Definition new_account (event : PositionEvent) (fresh : uuid) (now : instant) : Account :=
  {| ac_id := fresh; ac_createdAt := now; ac_account_id := ev_account_id event; ac_account_name := ev_account_name event;
     ac_account_balance := ev_account_balance event; ac_market := ev_market event;
     ac_gateway := ev_gateway event; ac_last_activity_at := Some now; ac_settings := [] |}.

(** [_upsert_account], flushed by the next query of the session. *)
Definition upsert_account `{RowChoice Account} (event : PositionEvent) (fresh : uuid) (now : instant)
    (d : Db) : res exn Db :=
  let written :=
    match choose (select_where (account_of_event event) (accounts d)) with
    | Some row => update_unique ac_id account_clash (touch_account event now row) (accounts d)
    | None => insert_unique account_clash (new_account event fresh now) (accounts d)
    end in
  match written with
  | Some t => Ok (set_accounts t d)
  | None => Err IntegrityError
  end.

(** ** Trades *)
Definition trade_of_event (event : PositionEvent) (r : Trade) : bool :=
  bool_decide (tr_account_id r = ev_account_id event) && bool_decide (tr_ref_id r = Some (ev_ref_source_id event)) &&
  bool_decide (tr_market r = Some (ev_market event)) && gateway_matches (ev_gateway event) (tr_gateway r).

(** [event.closed_price if event.closed_price else event.opened_price]. *)
Definition event_price (event : PositionEvent) : float :=
  match ev_closed_price event with
  | Some p => if float_truthy p then p else ev_opened_price event
  | None => ev_opened_price event
  end.

(** The assignments to a row that exists. *)
Definition update_trade (event : PositionEvent) (status : TradeStatusEnum) (r : Trade) : Trade :=
  {| tr_id := tr_id r; tr_account_id := tr_account_id r; tr_market := Some (ev_market event);
     tr_gateway := keep_or (ev_gateway event) (tr_gateway r);
     tr_account_leverage := tr_account_leverage r;
     tr_account_balance_init := tr_account_balance_init r;
     tr_account_balance := match ev_account_balance event with
                           | Some _ => ev_account_balance event
                           | None => tr_account_balance r
                           end;
     tr_strategy := tr_strategy r; tr_strategy_code := tr_strategy_code r; tr_ref_id := tr_ref_id r;
     tr_symbol := tr_symbol r; tr_action := tr_action r; tr_price := event_price event;
     tr_quantity := ev_volume event; tr_sl := tr_sl r; tr_tp1 := tr_tp1 r; tr_tp2 := tr_tp2 r;
     tr_is_running := is_open (ev_status event); tr_risk_percent := tr_risk_percent r;
     tr_comment := keep_or (ev_comment event) (tr_comment r);
     tr_gateway_return_code := match ev_gateway_return_code event with
                               | Some _ => ev_gateway_return_code event
                               | None => tr_gateway_return_code r
                               end;
     tr_status := status; tr_last_action := to_last_action (ev_status event);
     tr_reject_reason := keep_or (ev_reject_reason event) (tr_reject_reason r) |}.

Definition new_trade (event : PositionEvent) (status : TradeStatusEnum) (action : SignalActionEnum)
    (fresh : uuid) : Trade :=
  {| tr_id := fresh; tr_account_id := ev_account_id event; tr_market := Some (ev_market event);
     tr_gateway := ev_gateway event; tr_account_leverage := ev_account_leverage event;
     tr_account_balance_init := ev_account_balance event; tr_account_balance := ev_account_balance event;
     tr_strategy := ev_strategy event; tr_strategy_code := default EmptyString (ev_strategy_code event);
     tr_ref_id := Some (ev_ref_source_id event); tr_symbol := ev_symbol event; tr_action := action;
     tr_price := event_price event; tr_quantity := ev_volume event; tr_sl := ev_sl event;
     tr_tp1 := ev_tp1 event; tr_tp2 := ev_tp2 event; tr_is_running := is_open (ev_status event);
     tr_risk_percent := ev_risk_percent event; tr_comment := ev_comment event;
     tr_gateway_return_code := ev_gateway_return_code event; tr_status := status;
     tr_last_action := to_last_action (ev_status event); tr_reject_reason := ev_reject_reason event |}.

Definition save_trades (written : option (list Trade)) (row : Trade) (d : Db) : res exn (Trade * Db) :=
  match written with
  | Some t => Ok (row, set_trades t d)
  | None => Err IntegrityError
  end.

(** The trade's part of the transaction.  A text that names no member of the
    [Enum(SignalActionEnum)] column is refused when it is flushed. *)
Definition write_trade `{RowChoice Trade} (event : PositionEvent) (status : TradeStatusEnum) (fresh : uuid)
    (d : Db) : res exn (Trade * Db) :=
  match choose (select_where (trade_of_event event) (trades d)) with
  | Some row =>
      if is_downgrade status (tr_status row) then Ok (row, d)
      else
        let row := update_trade event status row in
        save_trades (update_unique tr_id trade_clash row (trades d)) row d
  | None =>
      match action_of (upper (ev_action event)) with
      | None => Err DbError
      | Some action =>
          let row := new_trade event status action fresh in
          save_trades (insert_unique trade_clash row (trades d)) row d
      end
  end.

Section upsert.
Context `{CA : RowChoice Account} `{CT : RowChoice Trade}.

Definition apply_report (event : PositionEvent) (status : TradeStatusEnum) (fresh_account fresh_trade : uuid)
    (now : instant) (d : Db) : res exn (Trade * Db) :=
  match upsert_account event fresh_account now d with
  | Err e => Err e
  | Ok d => write_trade event status fresh_trade d
  end.

(** One session.  Its reads take no row lock; reports are applied one at a time by the
    TRADE consumer, so it is one action here. *)
Definition upsert_by_position_event (event : PositionEvent) : prog (option Trade) :=
  match to_trade_status (ev_status event) with
  | None => Ret None
  | Some status =>
      let! fresh_account := uuid4 in
      let! fresh_trade := uuid4 in
      let! row := session (apply_report event status fresh_account fresh_trade) in
      Ret (Some row)
  end.
End upsert.

(** ** Reads *)

Definition count_by_account (account_id : string) : prog Z :=
  catch (query (fun d =>
    Z.of_nat (length (select_where (fun r => bool_decide (tr_account_id r = account_id)) (trades d)))))
    (fun _ => Ret 0%Z).

(** ** Facts *)
Lemma choose_None `{RowChoice row} l : choose l = None -> l = [].
Proof. intros Hn. destruct l as [|r l]; [done|]. destruct (choose_some (r :: l)) as [x Hx]; [done|congruence]. Qed.

Lemma update_unique_Some {row} (key : row -> uuid) clash r t t' :
  update_unique key clash r t = Some t' ->
  t' = update_where (fun r' => bool_decide (key r' = key r)) (fun _ => r) t /\
  Forall (fun r' => key r' = key r \/ clash r r' = false) t.
Proof.
  unfold update_unique. destruct (existsb _ t) eqn:E; [done|]. intros [= <-]. split; [done|].
  apply Forall_forall. intros x Hx. destruct (decide (key x = key r)) as [|Hne]; [by left|]. right.
  destruct (clash r x) eqn:Ex; [|done].
  assert (existsb (fun r' => negb (bool_decide (key r' = key r)) && clash r r') t = true) as H; [|congruence].
  apply existsb_exists. exists x. split; [by apply list_elem_of_In|].
  by rewrite bool_decide_eq_false_2, Ex.
Qed.

Lemma update_unique_total {row} (key : row -> uuid) clash r t :
  Forall (fun r' => key r' = key r \/ clash r r' = false) t ->
  update_unique key clash r t =
  Some (update_where (fun r' => bool_decide (key r' = key r)) (fun _ => r) t).
Proof.
  intros H. unfold update_unique. destruct (existsb _ t) eqn:E; [|done]. exfalso.
  apply existsb_exists in E as (x & Hx%list_elem_of_In & [Hk Hc]%andb_true_iff).
  rewrite Forall_forall in H. destruct (H x Hx) as [Heq|?]; [|congruence].
  by rewrite Heq, bool_decide_eq_true_2 in Hk.
Qed.

Lemma trade_of_event_iff event r :
  trade_of_event event r = true <->
  tr_account_id r = ev_account_id event /\ tr_ref_id r = Some (ev_ref_source_id event) /\
  tr_market r = Some (ev_market event) /\ (tr_gateway r = None \/ tr_gateway r = ev_gateway event).
Proof.
  unfold trade_of_event. rewrite !andb_true_iff, !bool_decide_eq_true.
  assert (gateway_matches (ev_gateway event) (tr_gateway r) = true <->
          tr_gateway r = None \/ tr_gateway r = ev_gateway event) as ->; [|tauto].
  unfold gateway_matches. destruct (tr_gateway r) as [g|], (ev_gateway event) as [g'|]; try naive_solver.
  rewrite String.eqb_eq. naive_solver.
Qed.

(** An account is written before the trade, and never a trade. *)
Lemma upsert_account_trades `{RowChoice Account} event fresh now d d' :
  upsert_account event fresh now d = Ok d' -> trades d' = trades d.
Proof.
  unfold upsert_account. destruct (choose _) as [row|];
    [destruct (update_unique _ _ _ _)|destruct (insert_unique _ _ _)]; try done; by intros [= <-].
Qed.
