(* ===== verification/TradeFlow.v ===== *)
(** * The life of a trade

    What [upsert_by_position_event] ([db/repository/trade.py]) does to the table
    of trades, over any sequence of reports. *)

From S2P Require Import Prelude PyStr Uuid PyTime Json Enums Schemas Models World.
From S2P Require Import StatusPolicies Samples TradeRepo.

(** ** One transaction *)
Section write.
Context `{CA : RowChoice Account} `{CT : RowChoice Trade}.

(** The three ways a report's trade is written. *)
Inductive written (event : PositionEvent) (status : TradeStatusEnum) (t : list Trade)
    : Trade -> list Trade -> Prop :=
| w_ignored row :
    row ∈ t -> trade_of_event event row = true -> is_downgrade status (tr_status row) = true ->
    written event status t row t
| w_updated old :
    old ∈ t -> trade_of_event event old = true -> is_downgrade status (tr_status old) = false ->
    Forall (fun r => tr_id r = tr_id old \/ trade_clash (update_trade event status old) r = false) t ->
    written event status t (update_trade event status old)
      (update_where (fun r => bool_decide (tr_id r = tr_id old)) (fun _ => update_trade event status old) t)
| w_inserted action fresh :
    select_where (trade_of_event event) t = [] -> action_of (upper (ev_action event)) = Some action ->
    Forall (fun r => trade_clash (new_trade event status action fresh) r = false) t ->
    written event status t (new_trade event status action fresh) (t ++ [new_trade event status action fresh]).

Lemma write_trade_written event status fresh d row d' :
  write_trade event status fresh d = Ok (row, d') ->
  written event status (trades d) row (trades d').
Proof.
  unfold write_trade, save_trades. destruct (choose _) as [old|] eqn:Ec.
  - apply choose_elem, elem_of_select_where in Ec as [Hin Hm].
    destruct (is_downgrade _ _) eqn:Ed; [intros [= <- <-]; by apply w_ignored|].
    destruct (update_unique _ _ _ _) as [t|] eqn:Eu; [|done]. intros [= <- <-].
    apply update_unique_Some in Eu as [-> Hc]. cbn. by apply w_updated.
  - apply choose_None in Ec. destruct (action_of _) as [a|] eqn:Ea; [|done].
    destruct (insert_unique _ _ _) as [t|] eqn:Ei; [|done]. intros [= <- <-].
    apply insert_unique_Some in Ei as [-> Hc]. cbn. by apply w_inserted.
Qed.

Lemma apply_report_written event status fa ft now d row d' :
  apply_report event status fa ft now d = Ok (row, d') ->
  written event status (trades d) row (trades d').
Proof.
  unfold apply_report. destruct (upsert_account _ _ _ _) as [d1|] eqn:Ea; [|done].
  intros H%write_trade_written. by rewrite (upsert_account_trades _ _ _ _ _ Ea) in H.
Qed.
End write.

(** ** The table of trades *)

(** The columns of [uq_trades_market_gateway_account_ref], when none is [NULL]. *)
Definition trade_key (r : Trade) : option (MarketTypeEnum * string * string * string) :=
  match tr_market r, tr_gateway r, tr_ref_id r with
  | Some m, Some g, Some ref => Some (m, g, tr_account_id r, ref)
  | _, _, _ => None
  end.

Definition open_status (s : TradeStatusEnum) : Prop := s = TradeStatus.OPENED \/ s = TradeStatus.PARTIALLY_CLOSED.

(** [is_running] and [last_action] agree with [status]; a row older than the
    column has no [last_action]. *)
Definition row_ok (r : Trade) : Prop :=
  (tr_is_running r = true <-> open_status (tr_status r)) /\
  (forall a, tr_last_action r = Some a ->
     exists st, to_trade_status st = Some (tr_status r) /\ to_last_action st = Some a).

Definition trades_ok (t : list Trade) : Prop :=
  NoDup (map tr_id t) /\ unique_key trade_key t /\ Forall row_ok t.

(** What later reports may change of a trade. *)
Definition same_trade (r r' : Trade) : Prop :=
  (tr_id r', tr_account_id r', tr_ref_id r', tr_symbol r', tr_strategy r', tr_strategy_code r', tr_action r') =
  (tr_id r, tr_account_id r, tr_ref_id r, tr_symbol r, tr_strategy r, tr_strategy_code r, tr_action r) /\
  (tr_sl r', tr_tp1 r', tr_tp2 r', tr_risk_percent r', tr_account_balance_init r', tr_account_leverage r') =
  (tr_sl r, tr_tp1 r, tr_tp2 r, tr_risk_percent r, tr_account_balance_init r, tr_account_leverage r) /\
  tr_market r' = tr_market r /\ (is_Some (tr_gateway r) -> tr_gateway r' = tr_gateway r) /\
  (trade_status_rank (tr_status r) <= trade_status_rank (tr_status r'))%Z.

#[global] Instance same_trade_preorder : PreOrder same_trade.
Proof.
  split; [intros r; unfold same_trade; repeat (split; [done|]); lia|].
  intros r1 r2 r3 (H1 & H2 & H3 & H4 & H5) (K1 & K2 & K3 & K4 & K5). unfold same_trade.
  split; [congruence|]. split; [congruence|]. split; [congruence|]. split; [|lia].
  intros Hs. rewrite K4; rewrite (H4 Hs); done.
Qed.

Lemma update_same event status r :
  trade_of_event event r = true -> is_downgrade status (tr_status r) = false ->
  same_trade r (update_trade event status r).
Proof.
  intros (_ & _ & Hm & Hg)%trade_of_event_iff Hd. unfold same_trade. cbn.
  split; [done|]. split; [done|]. split; [done|]. split.
  - intros [g Hs]. destruct Hg as [?|Hg]; [congruence|]. unfold keep_or. by destruct (ev_gateway event).
  - unfold is_downgrade in Hd. apply Z.ltb_ge in Hd. done.
Qed.

Lemma report_row_ok st status r :
  to_trade_status st = Some status -> tr_status r = status ->
  tr_is_running r = is_open st -> tr_last_action r = to_last_action st -> row_ok r.
Proof.
  intros Ht Hs Hr Hl. unfold row_ok. rewrite Hr, Hl, Hs. split.
  - rewrite (is_open_status st status Ht). done.
  - intros a Ha. by exists st.
Qed.

(** Two rows of one full key clash. *)
Lemma clash_key r r' k : trade_key r = Some k -> trade_key r' = Some k -> trade_clash r r' = true.
Proof.
  unfold trade_key, trade_clash, null_eqb. destruct (tr_market r), (tr_gateway r), (tr_ref_id r); try done.
  destruct (tr_market r'), (tr_gateway r'), (tr_ref_id r'); try done. intros [= <-] [= -> -> -> ->].
  apply orb_true_intro. right. cbn. by rewrite !bool_decide_eq_true_2 by done.
Qed.

Lemma clash_id r r' : trade_clash r r' = false -> tr_id r <> tr_id r'.
Proof. unfold trade_clash. intros [H _]%orb_false_iff. by apply bool_decide_eq_false in H. Qed.

Lemma written_ok event status t row t' :
  to_trade_status (ev_status event) = Some status ->
  trades_ok t -> written event status t row t' -> trades_ok t' /\ kept same_trade t t'.
Proof.
  intros Hst (Hid & Hkey & Hrow) H.
  destruct H as [row Hin Hm Hd|old Hin Hm Hd Hc|action fresh Hnone Ha Hc]; [split; [done|reflexivity]|..].
  - assert (forall r, r ∈ t -> bool_decide (tr_id r = tr_id old) = true -> r = old) as Hold
      by (intros r Hr Hi%bool_decide_eq_true; exact (nodup_map_eq tr_id _ _ _ Hid Hr Hin Hi)).
    split; [|apply kept_update; [apply _|]; intros r Hr Hi; rewrite (Hold r Hr Hi); by apply update_same].
    split; [|split].
    + rewrite update_where_proj; [done|]. intros r Hi%bool_decide_eq_true. by rewrite Hi.
    + apply unique_key_assign; [done..|]. rewrite Forall_forall in Hc. intros r Hr Hne k Hk Hk'.
      destruct (Hc r Hr) as [?|Hcl]; [done|]. by rewrite (clash_key _ _ _ Hk Hk') in Hcl.
    + rewrite Forall_forall in Hrow |- *. intros r' (r & Hr & ->)%elem_of_update_where.
      destruct (bool_decide _); [|by apply Hrow]. by eapply report_row_ok.
  - split; [|apply kept_app, _]. rewrite Forall_forall in Hc. split; [|split].
    + apply nodup_map_snoc; [done|]. intros r Hr Heq. by apply (clash_id _ _ (Hc r Hr)).
    + apply unique_key_snoc; [done|]. intros k Hk. apply Forall_forall. intros r Hr Hk'.
      specialize (Hc r Hr). by rewrite (clash_key _ _ _ Hk Hk') in Hc.
    + apply Forall_app. split; [done|]. apply Forall_singleton. by eapply report_row_ok.
Qed.

(** ** Any number of reports, in any interleaving *)
Definition trade_step (w w' : World) : Prop :=
  trades_ok (trades (db w)) ->
  trades_ok (trades (db w')) /\ kept same_trade (trades (db w)) (trades (db w')).

#[global] Instance trade_step_preorder : PreOrder trade_step.
Proof.
  split; [intros w H; split; [done|reflexivity]|]. intros w1 w2 w3 H12 H23 H.
  destruct (H12 H) as [H2 K12]. destruct (H23 H2) as [H3 K23]. split; [done|by etransitivity].
Qed.

Section theorems.
Context `{CA : RowChoice Account} `{CT : RowChoice Trade}.

Lemma step_upsert event : always trade_step (upsert_by_position_event event).
Proof.
  assert (frame_ok trade_step) as Hf by (intros w w' _ _ Hd H; rewrite Hd; split; [done|reflexivity]).
  unfold upsert_by_position_event. destruct (to_trade_status _) as [status|] eqn:Es; [|done].
  apply always_bind; [by apply always_uuid4|]. intros fa. apply always_bind; [by apply always_uuid4|].
  intros ft. apply always_bind; [|done]. apply always_session.
  - intros w w' Ho Hq Hd. by apply Hf.
  - intros w w' row _ _ H%apply_report_written Hok. by eapply written_ok.
Qed.

(** C35. Reports move a trade forward only.  Whatever reports arrive, among any
    other uses of the repository and cut short anywhere, database faults
    included: a trade keeps its identity, what it was opened with and its gateway;
    the rank of its status never falls; one that is closed or flat is never
    running again; every trade's [is_running] and [last_action] agree with its
    status; and no two rows share a market, gateway, account and ticket. *)
Theorem trade_never_regresses event w evs w' o :
  trades_ok (trades (db w)) -> texec trade_step (upsert_by_position_event event) w evs w' o ->
  trades_ok (trades (db w')) /\ kept same_trade (trades (db w)) (trades (db w')) /\
  (forall r, r ∈ trades (db w) -> trade_status_rank (tr_status r) = 2%Z ->
     exists r', r' ∈ trades (db w') /\ tr_id r' = tr_id r /\ tr_is_running r' = false).
Proof.
  intros Hok He. destruct (texec_always trade_step _ w evs w' o (step_upsert event) He Hok) as [Hok' Hk].
  split; [done|]. split; [done|]. intros r Hr H2. destruct (Hk r Hr) as (r' & Hr' & Hsame & _ & _ & _ & Hrank).
  exists r'. split; [done|]. split; [congruence|]. destruct Hok' as (_ & _ & Hrow).
  rewrite Forall_forall in Hrow. destruct (Hrow r' Hr') as [Hrun _].
  destruct (tr_is_running r'); [|done]. destruct Hrun as [Hrun _]. destruct (Hrun eq_refl) as [E|E];
    rewrite E, H2 in Hrank; cbn in Hrank; lia.
Qed.
End theorems.

(** ** One trade, over a sequence of reports *)
Section converge.
Context `{CA : RowChoice Account} `{CT : RowChoice Trade}.

(** Reports applied one after the other; failed ones leave no trace. *)
Inductive applied : list PositionEvent -> Db -> Db -> Prop :=
| applied_nil d : applied [] d d
| applied_cons event es status fa ft now d row d1 d2 :
    to_trade_status (ev_status event) = Some status ->
    apply_report event status fa ft now d = Ok (row, d1) -> applied es d1 d2 ->
    applied (event :: es) d d2.

(** The trade of one ticket, whose reports name one gateway. *)
Context (account ref gateway : string) (market : MarketTypeEnum).

Definition of_trade (e : PositionEvent) : bool :=
  bool_decide (ev_account_id e = account) && bool_decide (ev_ref_source_id e = ref) &&
  bool_decide (ev_market e = market).

Definition row_of (r : Trade) : bool :=
  bool_decide (tr_account_id r = account) && bool_decide (tr_ref_id r = Some ref) &&
  bool_decide (tr_market r = Some market) && gateway_matches (Some gateway) (tr_gateway r).

Definition one_gateway (e : PositionEvent) : Prop := of_trade e = true -> ev_gateway e = Some gateway.

Definition rows (t : list Trade) : list Trade := select_where row_of t.

Definition rank (r : Trade) : Z := trade_status_rank (tr_status r).

Lemma of_trade_rows e r : of_trade e = true -> one_gateway e -> trade_of_event e r = row_of r.
Proof.
  intros Hof Hg. unfold trade_of_event, row_of. rewrite (Hg Hof).
  unfold of_trade in Hof. apply andb_true_iff in Hof as [[H1 H2]%andb_true_iff H3].
  apply bool_decide_eq_true in H1, H2, H3. by rewrite H1, H2, H3.
Qed.

Lemma other_trade_rows e r : of_trade e = false -> trade_of_event e r = true -> row_of r = false.
Proof.
  intros Hof (H1 & H2 & H3 & _)%trade_of_event_iff. unfold row_of. rewrite H1, H2, H3.
  destruct (gateway_matches _ _); rewrite ?andb_false_r, ?andb_true_r; [|done].
  unfold of_trade in Hof. rewrite <-Hof. f_equal; [f_equal|]; apply bool_decide_ext; naive_solver.
Qed.

Lemma update_matches e status r : trade_of_event e r = true -> trade_of_event e (update_trade e status r) = true.
Proof.
  rewrite !trade_of_event_iff. cbn. intros (? & ? & ? & Hg). repeat (split; [done|]).
  unfold keep_or. destruct (ev_gateway e); auto.
Qed.

Lemma insert_matches e status a fresh : trade_of_event e (new_trade e status a fresh) = true.
Proof. rewrite trade_of_event_iff. cbn. auto. Qed.

(** A report of the trade leaves the row it returned; any other leaves the trade
    alone. *)
Lemma written_rows e status t row t' :
  one_gateway e -> NoDup (map tr_id t) -> length (rows t) <= 1 -> written e status t row t' ->
  if of_trade e
  then rows t' = [row] /\ rank row = fold_right Z.max (trade_status_rank status) (map rank (rows t))
  else rows t' = rows t.
Proof.
  intros Hg Hid Hone Hw. destruct (of_trade e) eqn:Hof.
  - assert (rows t = select_where (trade_of_event e) t) as Hrows.
    { unfold rows, select_where. apply list_filter_iff. intros r. by rewrite (of_trade_rows e r Hof Hg). }
    assert (forall r, r ∈ t -> trade_of_event e r = true -> rows t = [r]) as Hsingle.
    { intros r Hr Hm. assert (r ∈ rows t) as Hin by (rewrite Hrows; by apply elem_of_select_where).
      destruct (rows t) as [|r1 [|r2 l]]; [by apply not_elem_of_nil in Hin| |cbn in Hone; lia].
      by apply list_elem_of_singleton in Hin as ->. }
    destruct Hw as [row Hin Hm Hd|old Hin Hm Hd _|a fresh Hnone Ha _].
    + rewrite (Hsingle _ Hin Hm). split; [done|]. cbn. unfold is_downgrade in Hd. apply Z.ltb_lt in Hd.
      unfold rank. lia.
    + unfold rows at 1. rewrite select_update.
      2:{ intros r Hr Hi%bool_decide_eq_true. rewrite (nodup_map_eq tr_id _ _ _ Hid Hr Hin Hi).
          rewrite <-!(of_trade_rows e _ Hof Hg), Hm. by apply update_matches. }
      fold (rows t). rewrite (Hsingle _ Hin Hm). cbn. rewrite bool_decide_eq_true_2 by done. split; [done|].
      unfold is_downgrade in Hd. apply Z.ltb_ge in Hd. unfold rank. cbn. lia.
    + unfold rows at 1. rewrite select_snoc. fold (rows t). rewrite Hrows, Hnone.
      rewrite <-(of_trade_rows e _ Hof Hg), insert_matches. done.
  - destruct Hw as [row Hin Hm Hd|old Hin Hm Hd _|a fresh Hnone Ha _]; [done|..].
    + assert (forall r, r ∈ t -> bool_decide (tr_id r = tr_id old) = true -> row_of r = false) as Hold.
      { intros r Hr Hi%bool_decide_eq_true. rewrite (nodup_map_eq tr_id _ _ _ Hid Hr Hin Hi).
        by eapply other_trade_rows. }
      unfold rows at 1. rewrite select_update.
      2:{ intros r Hr Hi. rewrite (Hold r Hr Hi).
          eapply other_trade_rows; [exact Hof|]. by apply update_matches. }
      apply update_where_none, Forall_forall. intros r [Hr Hp]%elem_of_select_where.
      destruct (bool_decide _) eqn:Hi; [|done]. by rewrite (Hold r Hr Hi) in Hp.
    + unfold rows at 1. rewrite select_snoc, (other_trade_rows e _ Hof (insert_matches _ _ _ _)).
      by rewrite app_nil_r.
Qed.

(** The ranks reported for the trade. *)
Definition reported (es : list PositionEvent) : list Z :=
  omap (fun e => if of_trade e then trade_status_rank <$> to_trade_status (ev_status e) else None) es.

Definition is_top (m : Z) (l : list Z) : Prop := m ∈ l /\ Forall (fun x => (x <= m)%Z) l.

Lemma is_top_perm m m' l l' : l ≡ₚ l' -> is_top m l -> is_top m' l' -> m = m'.
Proof.
  intros HP [H1 H2] [H1' H2']. rewrite HP in H1, H2. rewrite Forall_forall in H2, H2'.
  specialize (H2 _ H1'). specialize (H2' _ H1). lia.
Qed.

Lemma applied_rows es d d' :
  applied es d d' -> trades_ok (trades d) -> length (rows (trades d)) <= 1 -> Forall one_gateway es ->
  match rows (trades d') with
  | [] => rows (trades d) = [] /\ reported es = []
  | [r] => is_top (rank r) (map rank (rows (trades d)) ++ reported es)
  | _ => False
  end.
Proof.
  induction 1 as [d|e es status fa ft now d row d1 d2 Hst Hrep _ IH]; intros Hok Hone Hg.
  - destruct (rows (trades d)) as [|r [|]]; [done| |cbn in Hone; lia]. split; [left|]. by repeat constructor.
  - inversion_clear Hg as [|? ? Hge Hges]. apply apply_report_written in Hrep.
    destruct (written_ok _ _ _ _ _ Hst Hok Hrep) as [Hok1 _].
    pose proof (written_rows _ _ _ _ _ Hge (proj1 Hok) Hone Hrep) as Hw.
    assert (reported (e :: es) = (if of_trade e then [trade_status_rank status] else []) ++ reported es) as ->.
    { unfold reported. csimpl. rewrite Hst. by destruct (of_trade e). }
    destruct (of_trade e).
    + destruct Hw as [Hr1 Hmax]. rewrite Hr1 in IH. specialize (IH Hok1 ltac:(cbn; lia) Hges).
      destruct (rows (trades d2)) as [|r [|]]; [by destruct IH|..]; [|done]. destruct IH as [Hin Hall]. cbn in Hin, Hall.
      apply Forall_cons in Hall as [Hle Hall]. rewrite Hmax in Hin, Hle.
      destruct (rows (trades d)) as [|r0 [|]]; [| |cbn in Hone; lia]; cbn in Hin, Hle |- *.
      * split; [done|by constructor].
      * split; [|repeat constructor; [lia..|done]].
        apply elem_of_cons in Hin as [->|Hin]; [|by do 2 right].
        destruct (Z.max_spec (rank r0) (trade_status_rank status)) as [[_ ->]|[_ ->]]; [right; left|left].
    + rewrite Hw in IH. exact (IH Hok1 Hone Hges).
Qed.

Lemma reported_perm es es' : es ≡ₚ es' -> reported es ≡ₚ reported es'.
Proof. intros H. unfold reported. by rewrite H. Qed.

(** C33. Reports converge whatever their order.  A failed report comes back after
    later ones, and reports of other trades come in between: if the reports of a
    ticket name one gateway, it has at most one row, whose status has the highest
    rank among the reports and the row there was; so any two orders of the same
    reports end in the same rank. *)
Theorem reports_converge es d d' :
  applied es d d' -> trades_ok (trades d) -> length (rows (trades d)) <= 1 -> Forall one_gateway es ->
  match rows (trades d') with
  | [] => rows (trades d) = [] /\ reported es = []
  | [r] => is_top (rank r) (map rank (rows (trades d)) ++ reported es)
  | _ => False
  end /\
  (forall es' d'', es ≡ₚ es' -> applied es' d d'' -> map rank (rows (trades d'')) = map rank (rows (trades d'))).
Proof.
  intros Ha Hok Hone Hg. pose proof (applied_rows es d d' Ha Hok Hone Hg) as H. split; [done|].
  intros es' d'' HP Ha'. rewrite HP in Hg. pose proof (applied_rows es' d d'' Ha' Hok Hone Hg) as H'.
  pose proof (reported_perm _ _ HP) as HR.
  destruct (rows (trades d')) as [|r [|]], (rows (trades d'')) as [|r' [|]]; try done.
  - destruct H as [Hn He]. rewrite He in HR. apply Permutation_nil_l in HR.
    rewrite Hn, <-HR in H'. destruct H' as [Hin _]. by apply not_elem_of_nil in Hin.
  - destruct H' as [Hn He]. rewrite He in HR. symmetry in HR. apply Permutation_nil_l in HR.
    rewrite Hn, <-HR in H. destruct H as [Hin _]. by apply not_elem_of_nil in Hin.
  - cbn. f_equal. eapply is_top_perm; [|exact H'|exact H]. by rewrite HR.
Qed.
End converge.

(** ** A report delivered again *)

(** [r] is the one row of [t] a query finds, and its unique columns are its own. *)
Definition stands {row} (key : row -> uuid) (clash : row -> row -> bool) (p : row -> bool) (r : row)
    (t : list row) : Prop :=
  NoDup (map key t) /\ select_where p t = [r] /\ Forall (fun r' => key r' = key r \/ clash r r' = false) t.

Section stands.
Context {row : Type} (key : row -> uuid) (clash : row -> row -> bool) (p : row -> bool).
Hypothesis clash_on_key : forall r r', clash r r' = false -> key r <> key r'.

Lemma stands_updated old r t t' :
  NoDup (map key t) -> length (select_where p t) <= 1 -> old ∈ t -> p old = true -> p r = true ->
  key r = key old -> update_unique key clash r t = Some t' -> stands key clash p r t'.
Proof.
  intros Hid Hone Hin Hp Hpr Hkey [-> Hc]%update_unique_Some. rewrite Hkey.
  assert (forall x, x ∈ t -> bool_decide (key x = key old) = true -> x = old) as Hold
    by (intros x Hx Hk%bool_decide_eq_true; exact (nodup_map_eq key _ _ _ Hid Hx Hin Hk)).
  assert (select_where p t = [old]) as Hsel.
  { assert (old ∈ select_where p t) as H by (by apply elem_of_select_where).
    destruct (select_where p t) as [|x [|]]; [by apply not_elem_of_nil in H| |cbn in Hone; lia].
    by apply list_elem_of_singleton in H as ->. }
  split; [|split].
  - rewrite update_where_proj; [done|]. intros x Hk%bool_decide_eq_true. congruence.
  - rewrite select_update, Hsel.
    + cbn. by rewrite bool_decide_eq_true_2.
    + intros x Hx Hk. by rewrite (Hold x Hx Hk), Hp.
  - rewrite Forall_forall in Hc |- *. intros x' (x & Hx & ->)%elem_of_update_where.
    destruct (bool_decide _); [by left|by apply Hc].
Qed.

Lemma stands_inserted r t t' :
  NoDup (map key t) -> select_where p t = [] -> p r = true ->
  insert_unique clash r t = Some t' -> stands key clash p r t'.
Proof.
  intros Hid Hnone Hp [-> Hc]%insert_unique_Some. rewrite Forall_forall in Hc. split; [|split].
  - apply nodup_map_snoc; [done|]. intros x Hx Heq. by apply (clash_on_key _ _ (Hc x Hx)).
  - by rewrite select_snoc, Hnone, Hp.
  - apply Forall_forall. intros x [Hx|Hx]%elem_of_app; [right; by apply Hc|].
    apply list_elem_of_singleton in Hx as ->. by left.
Qed.

(** Assigning to a row that stands, without touching its unique columns. *)
Lemma stands_assign r r' t :
  stands key clash p r t -> key r' = key r -> (forall x, clash r' x = clash r x) ->
  update_unique key clash r' t = Some (update_where p (fun _ => r') t).
Proof.
  intros (Hid & Hsel & Hc) Hk Hcl. rewrite update_unique_total.
  - f_equal. unfold update_where. apply map_ext_in. intros x Hx%list_elem_of_In. rewrite Hk.
    assert (r ∈ select_where p t) as Hr by (rewrite Hsel; left).
    apply elem_of_select_where in Hr as [Hr Hp].
    destruct (bool_decide_reflect (key x = key r)) as [E|E].
    + rewrite (nodup_map_eq key _ _ _ Hid Hx Hr E). by rewrite Hp.
    + destruct (p x) eqn:Ex; [|done]. exfalso.
      assert (x ∈ select_where p t) as H by (by apply elem_of_select_where).
      rewrite Hsel in H. apply list_elem_of_singleton in H. congruence.
  - rewrite Forall_forall in Hc |- *. intros x Hx. rewrite Hk, Hcl. by apply Hc.
Qed.

Lemma stands_same r t : stands key clash p r t -> update_where p (fun _ => r) t = t.
Proof.
  intros (_ & Hsel & _). unfold update_where. rewrite <-(map_id t) at 2. apply map_ext_in.
  intros x Hx%list_elem_of_In. destruct (p x) eqn:Ex; [|done].
  assert (x ∈ select_where p t) as H by (by apply elem_of_select_where).
  rewrite Hsel in H. by apply list_elem_of_singleton in H.
Qed.

Lemma stands_choose `{RowChoice row} r t : stands key clash p r t -> choose (select_where p t) = Some r.
Proof.
  intros (_ & -> & _). destruct (choose_some [r]) as [x Hx]; [done|]. rewrite Hx.
  apply choose_elem in Hx. by apply list_elem_of_singleton in Hx as ->.
Qed.
End stands.

Section replay.
Context `{CA : RowChoice Account} `{CT : RowChoice Trade}.

Lemma account_clash_id r r' : account_clash r r' = false -> ac_id r <> ac_id r'.
Proof. unfold account_clash. intros [H _]%orb_false_iff. by apply bool_decide_eq_false in H. Qed.

Lemma account_of_event_iff event r :
  account_of_event event r = true <->
  ac_account_id r = ev_account_id event /\ ac_market r = ev_market event /\
  (ac_gateway r = None \/ ac_gateway r = ev_gateway event).
Proof.
  unfold account_of_event. rewrite !andb_true_iff, !bool_decide_eq_true.
  assert (gateway_matches (ev_gateway event) (ac_gateway r) = true <->
          ac_gateway r = None \/ ac_gateway r = ev_gateway event) as ->; [|tauto].
  unfold gateway_matches. destruct (ac_gateway r) as [g|], (ev_gateway event) as [g'|]; try naive_solver.
  rewrite String.eqb_eq. naive_solver.
Qed.

Lemma touch_matches event now r :
  account_of_event event r = true -> account_of_event event (touch_account event now r) = true.
Proof.
  rewrite !account_of_event_iff. cbn. intros (? & ? & Hg). repeat (split; [done|]).
  unfold keep_or. destruct (ev_gateway event); auto.
Qed.

(** [last_activity_at] alone. *)
Definition last_active (now : instant) (r : Account) : Account :=
  {| ac_id := ac_id r; ac_createdAt := ac_createdAt r; ac_account_id := ac_account_id r; ac_account_name := ac_account_name r;
     ac_account_balance := ac_account_balance r; ac_market := ac_market r; ac_gateway := ac_gateway r;
     ac_last_activity_at := Some now; ac_settings := ac_settings r |}.

Lemma account_stands event fresh now d d' :
  NoDup (map ac_id (accounts d)) -> length (select_where (account_of_event event) (accounts d)) <= 1 ->
  upsert_account event fresh now d = Ok d' ->
  exists r, d' = set_accounts (accounts d') d /\
    stands ac_id account_clash (account_of_event event) r (accounts d') /\
    forall now', touch_account event now' r = last_active now' r.
Proof.
  intros Hid Hone. unfold upsert_account. destruct (choose _) as [old|] eqn:Ec.
  - apply choose_elem, elem_of_select_where in Ec as [Hin Hm].
    destruct (update_unique _ _ _ _) as [t|] eqn:Eu; [|done]. intros [= <-]. eexists. split; [done|]. split.
    + by apply (stands_updated _ _ _ old _ _ _ Hid Hone Hin Hm (touch_matches event now old Hm) eq_refl Eu).
    + intros now'. unfold touch_account, last_active, keep_or. cbn. f_equal; by case_match.
  - apply choose_None in Ec. destruct (insert_unique _ _ _) as [t|] eqn:Ei; [|done]. intros [= <-].
    eexists. split; [done|]. split.
    + apply (stands_inserted _ _ _ account_clash_id _ _ _ Hid Ec); [|done].
      rewrite account_of_event_iff. cbn. auto.
    + intros now'. unfold touch_account, last_active, new_account, keep_or. cbn. f_equal; by case_match.
Qed.

(** What a report writes of its trade, it writes again. *)
Lemma trade_stands event status fresh d row d' :
  NoDup (map tr_id (trades d)) -> length (select_where (trade_of_event event) (trades d)) <= 1 ->
  write_trade event status fresh d = Ok (row, d') ->
  d' = set_trades (trades d') d /\ select_where (trade_of_event event) (trades d') = [row] /\
  (is_downgrade status (tr_status row) = true \/
   is_downgrade status (tr_status row) = false /\ update_trade event status row = row /\
   stands tr_id trade_clash (trade_of_event event) row (trades d')).
Proof.
  intros Hid Hone. unfold write_trade, save_trades. destruct (choose _) as [old|] eqn:Ec.
  - apply choose_elem, elem_of_select_where in Ec as [Hin Hm]. destruct (is_downgrade _ _) eqn:Ed.
    { intros [= <- <-]. split; [by destruct d|]. split; [|by left].
      assert (old ∈ select_where (trade_of_event event) (trades d)) as H by (by apply elem_of_select_where).
      destruct (select_where _ _) as [|x [|]]; [by apply not_elem_of_nil in H| |cbn in Hone; lia].
      by apply list_elem_of_singleton in H as ->. }
    destruct (update_unique _ _ _ _) as [t|] eqn:Eu; [|done]. intros [= <- <-].
    pose proof (stands_updated _ _ _ old _ _ _ Hid Hone Hin Hm (update_matches event status old Hm) eq_refl Eu) as Hs.
    split; [done|]. split; [by apply Hs|]. right. split; [by destruct status|]. split; [|done].
    unfold update_trade, keep_or. cbn. f_equal; by case_match.
  - apply choose_None in Ec. destruct (action_of _) as [a|] eqn:Ea; [|done].
    destruct (insert_unique _ _ _) as [t|] eqn:Ei; [|done]. intros [= <- <-].
    pose proof (stands_inserted _ _ _ clash_id _ _ _ Hid Ec (insert_matches event status a fresh) Ei) as Hs.
    split; [done|]. split; [by apply Hs|]. right. split; [by destruct status|]. split; [|done].
    unfold update_trade, new_trade, keep_or. cbn. f_equal; by case_match.
Qed.

(** Applying a report twice is applying it once.  A report is delivered again
    when its ack is lost; if it names one trade and one account, the second
    application commits, answers the same row, leaves every trade as it is and
    stamps the account's last activity, nothing else. *)
Theorem replayed_report_is_noop event status fa ft now d row d1 fa' ft' now' :
  NoDup (map ac_id (accounts d)) -> length (select_where (account_of_event event) (accounts d)) <= 1 ->
  NoDup (map tr_id (trades d)) -> length (select_where (trade_of_event event) (trades d)) <= 1 ->
  apply_report event status fa ft now d = Ok (row, d1) ->
  apply_report event status fa' ft' now' d1 =
  Ok (row, set_accounts (update_where (account_of_event event) (last_active now') (accounts d1)) d1).
Proof.
  intros Hai Ha1 Hti Ht1. unfold apply_report.
  destruct (upsert_account event fa now d) as [da|] eqn:Ea; [|done].
  destruct (account_stands _ _ _ _ _ Hai Ha1 Ea) as (r & Eda & Hr & Htouch). intros Hw.
  assert (trades da = trades d) as Etr by (by rewrite Eda).
  rewrite <-Etr in Hti, Ht1. destruct (trade_stands _ _ _ _ _ _ Hti Ht1 Hw) as (Ed1 & Hsel & Hrow).
  assert (accounts d1 = accounts da) as Eac by (by rewrite Ed1). rewrite <-Eac in Hr.
  set (d2 := set_accounts (update_where (account_of_event event) (last_active now') (accounts d1)) d1).
  assert (upsert_account event fa' now' d1 = Ok d2) as ->.
  { unfold upsert_account. rewrite (stands_choose _ _ _ _ _ Hr), Htouch.
    rewrite (stands_assign _ _ _ r (last_active now' r) _ Hr eq_refl) by done. unfold d2. do 2 f_equal.
    unfold update_where. apply map_ext_in. intros x Hx%list_elem_of_In. destruct (account_of_event event x) eqn:Ex; [|done].
    assert (x ∈ select_where (account_of_event event) (accounts d1)) as H by (by apply elem_of_select_where).
    destruct Hr as (_ & Hs & _). rewrite Hs in H. by apply list_elem_of_singleton in H as ->. }
  unfold write_trade. change (trades d2) with (trades d1). rewrite Hsel.
  destruct (choose [row]) as [x|] eqn:Ex; [|by apply choose_None in Ex].
  apply choose_elem, list_elem_of_singleton in Ex as ->.
  destruct Hrow as [->|(-> & Hup & Hst)]; [done|]. rewrite Hup.
  rewrite (stands_assign _ _ _ _ _ _ Hst eq_refl) by done. rewrite (stands_same _ _ _ _ _ Hst).
  cbn. by destruct d1.
Qed.
End replay.

(** ** Concrete reports *)
Definition sample_reports : list PositionEvent :=
  [sample_report "TP1" (Some "MT5"); sample_report "OPENED" (Some "MT5"); sample_report "SL" (Some "MT5")].

Definition sample_write (e : PositionEvent) (status : TradeStatusEnum) (d : Db) : Db :=
  match apply_report e status (uid 1) (uid 2) 0%Z d with Ok (_, d') => d' | Err _ => d end.

Definition sample_traded (statuses : list (string * TradeStatusEnum)) : Db :=
  fold_left (fun d p => sample_write (sample_report p.1 (Some "MT5")) p.2 d) statuses empty_db.

Lemma applied_write e es status d d' :
  to_trade_status (ev_status e) = Some status ->
  is_ok (apply_report e status (uid 1) (uid 2) 0%Z d) = true ->
  applied es (sample_write e status d) d' -> applied (e :: es) d d'.
Proof.
  intros Hs. unfold sample_write. destruct (apply_report _ _ _ _ _ _) as [[row d1]|] eqn:E; [|done].
  intros _ H. by eapply applied_cons.
Qed.

Lemma trade_never_regresses_witness :
  let w := set_db (sample_traded [("SL", TradeStatus.CLOSED)]) world0 in
  let w' := (run (upsert_by_position_event (sample_report "OPENED" (Some "MT5"))) w).2 in
  length (trades (db w)) = 1 /\
  exists r, r ∈ trades (db w') /\ tr_is_running r = false.
Proof.
  intros w w'. split; [by vm_compute|].
  assert (trades_ok (trades (db w))) as Hok.
  { split; [apply NoDup_singleton|]. split; [apply NoDup_singleton|]. apply Forall_singleton.
    by apply (report_row_ok "SL" TradeStatus.CLOSED). }
  destruct (trade_never_regresses (sample_report "OPENED" (Some "MT5")) w _ _ _ Hok (texec_run trade_step _ w))
    as (_ & _ & Hclosed).
  destruct (Hclosed _ (list_elem_of_here _ _) eq_refl) as (r & Hr & _ & Hrun). by exists r.
Defined.

(** The close arrives last, then first. *)
Lemma reports_converge_witness :
  let d' := sample_traded [("TP1", TradeStatus.PARTIALLY_CLOSED); ("OPENED", TradeStatus.OPENED);
                           ("SL", TradeStatus.CLOSED)] in
  let d'' := sample_traded [("SL", TradeStatus.CLOSED); ("TP1", TradeStatus.PARTIALLY_CLOSED);
                            ("OPENED", TradeStatus.OPENED)] in
  map tr_status (trades d') = [TradeStatus.CLOSED] /\
  map rank (rows "1234" "9001" "MT5" Market.FOREX (trades d'')) =
  map rank (rows "1234" "9001" "MT5" Market.FOREX (trades d')).
Proof.
  intros d' d''. split; [by vm_compute|].
  assert (applied sample_reports empty_db d') as H1.
  { do 3 (eapply applied_write; [reflexivity|by vm_compute|]). apply applied_nil. }
  assert (applied [sample_report "SL" (Some "MT5"); sample_report "TP1" (Some "MT5");
                   sample_report "OPENED" (Some "MT5")] empty_db d'') as H2.
  { do 3 (eapply applied_write; [reflexivity|by vm_compute|]). apply applied_nil. }
  refine (proj2 (reports_converge "1234" "9001" "MT5" Market.FOREX _ _ _ H1 _ _ _) _ d'' _ H2).
  - repeat constructor.
  - cbn. lia.
  - by repeat constructor.
  - change sample_reports with ([sample_report "TP1" (Some "MT5"); sample_report "OPENED" (Some "MT5")] ++
                                [sample_report "SL" (Some "MT5")]). by rewrite Permutation_app_comm.
Defined.

Lemma replayed_report_is_noop_witness :
  let e := sample_report "TP1" (Some "MT5") in
  let d := sample_traded [("OPENED", TradeStatus.OPENED)] in
  exists row d1, apply_report e TradeStatus.PARTIALLY_CLOSED (uid 3) (uid 4) 10%Z d = Ok (row, d1) /\
  apply_report e TradeStatus.PARTIALLY_CLOSED (uid 5) (uid 6) 20%Z d1 =
  Ok (row, set_accounts (update_where (account_of_event e) (last_active 20%Z) (accounts d1)) d1).
Proof.
  intros e d. destruct (apply_report e TradeStatus.PARTIALLY_CLOSED (uid 3) (uid 4) 10%Z d) as [[row d1]|] eqn:E.
  2:{ by vm_compute in E. }
  exists row, d1. split; [done|].
  apply (replayed_report_is_noop e _ (uid 3) (uid 4) 10%Z d row d1 (uid 5) (uid 6) 20%Z); [..|exact E].
  - apply NoDup_singleton.
  - vm_compute. lia.
  - apply NoDup_singleton.
  - vm_compute. lia.
Defined.

(** ** Reports that name the gateway, and reports that do not *)

(** A server that lists the newest row first. *)
#[local] Instance last_row (row : Type) : RowChoice row | 5.
Proof.
  refine {| choose := last |}; [intros l r; by apply last_Some_elem_of|].
  intros l Hl. destruct l as [|r l] using rev_ind; [done|]. rewrite last_snoc. by eexists.
Defined.

(** Mixed gateways block a report.  A report without a gateway does not see the
    rows an earlier one stored with it: it opens second rows for the same account
    and ticket.  A later report with the gateway matches both, and when the server
    lists the row without a gateway first, naming it clashes with the other one:
    the report fails, and fails again on every redelivery. *)
Theorem mixed_gateways_block_report fa ft now :
  let write st g fresh d :=
    match to_trade_status st with
    | Some s => match @apply_report (last_row _) (last_row _) (sample_report st g) s fresh fresh 0%Z d with
                | Ok (_, d') => d'
                | Err _ => d
                end
    | None => d
    end in
  let d := write "TP1" None (uid 2) (write "OPENED" (Some "MT5") (uid 1) empty_db) in
  length (trades d) = 2 /\ map tr_ref_id (trades d) = [Some "9001"; Some "9001"] /\
  @apply_report (last_row _) (last_row _) (sample_report "SL" (Some "MT5")) TradeStatus.CLOSED fa ft now d =
  Err IntegrityError.
Proof. by vm_compute. Qed.
