(* ===== verification/AccountRepo.v ===== *)
(** * The account repository

    [SqlAlchemyAccountRepository] ([db/repository/account.py]): the rows of
    [accounts], the invite tokens of [account_link_tokens], who may drive an
    account ([account_bot_links]), which account a user is driving
    ([bot_sessions]), and the settings blob.  One definition per method; the
    methods catch every exception and answer a default.  The uuids of inserted
    rows are drawn up front. *)

From S2P Require Import Prelude PyStr Uuid PyTime Json Enums Schemas Models World.
From S2P Require Import StatusPolicies TradeRepo.

#[export] Instance uuid_countable : Countable uuid.
Proof.
  refine (inj_countable u_int uuid_of_N _). intros [n H]. unfold uuid_of_N. cbn.
  destruct (decide _) as [H'|]; [|done]. f_equal. by apply uuid_ext.
Defined.

Definition is_some {A} (x : option A) : bool := match x with Some _ => true | None => false end.

(** ** Assignments *)
Definition set_gateway (gateway : string) (r : Account) : Account :=
  {| ac_id := ac_id r; ac_createdAt := ac_createdAt r; ac_account_id := ac_account_id r;
     ac_account_name := ac_account_name r; ac_account_balance := ac_account_balance r;
     ac_market := ac_market r; ac_gateway := Some gateway;
     ac_last_activity_at := ac_last_activity_at r; ac_settings := ac_settings r |}.

Definition set_settings (settings : list (string * json)) (r : Account) : Account :=
  {| ac_id := ac_id r; ac_createdAt := ac_createdAt r; ac_account_id := ac_account_id r;
     ac_account_name := ac_account_name r; ac_account_balance := ac_account_balance r;
     ac_market := ac_market r; ac_gateway := ac_gateway r;
     ac_last_activity_at := ac_last_activity_at r; ac_settings := settings |}.

Definition revoke_token (now : instant) (r : AccountLinkToken) : AccountLinkToken :=
  {| lt_id := lt_id r; lt_createdAt := lt_createdAt r; lt_account_id := lt_account_id r;
     lt_token := lt_token r; lt_expires_at := lt_expires_at r; lt_revoked_at := Some now;
     lt_last_used_at := lt_last_used_at r |}.

Definition use_token (now : instant) (r : AccountLinkToken) : AccountLinkToken :=
  {| lt_id := lt_id r; lt_createdAt := lt_createdAt r; lt_account_id := lt_account_id r;
     lt_token := lt_token r; lt_expires_at := lt_expires_at r; lt_revoked_at := lt_revoked_at r;
     lt_last_used_at := Some now |}.

Definition set_active (active : option uuid) (r : BotSession) : BotSession :=
  {| bo_id := bo_id r; bo_platform := bo_platform r; bo_platform_user_id := bo_platform_user_id r;
     bo_active_account_id := active |}.

(** ** New rows *)

(** An [Account] registered without a trade. *)
Definition registered (fresh : uuid) (now : instant) (account_id : string) (market : MarketTypeEnum)
    (gateway : string) (account_name : option string) : Account :=
  {| ac_id := fresh; ac_createdAt := now; ac_account_id := account_id; ac_account_name := account_name;
     ac_account_balance := None; ac_market := market; ac_gateway := Some gateway;
     ac_last_activity_at := Some now; ac_settings := [] |}.

(** [_new_link_token], with the secret [token]. *)
Definition new_link_token (fresh token : uuid) (now : instant) (account : uuid) : AccountLinkToken :=
  {| lt_id := fresh; lt_createdAt := now; lt_account_id := account; lt_token := token;
     lt_expires_at := None; lt_revoked_at := None; lt_last_used_at := None |}.

Definition new_link (fresh : uuid) (now : instant) (account : uuid) (user : string) : AccountBotLink :=
  {| al_id := fresh; al_createdAt := now; al_account_id := account; al_platform := Platform.TELEGRAM;
     al_platform_user_id := user; al_trade_cards_enabled := false |}.

Definition new_session (fresh : uuid) (user : string) (account : uuid) : BotSession :=
  {| bo_id := fresh; bo_platform := Platform.TELEGRAM; bo_platform_user_id := user;
     bo_active_account_id := Some account |}.

(** ** Queries *)
Definition link_of (user : string) (account : option uuid) (r : AccountBotLink) : bool :=
  bool_decide (al_platform r = Platform.TELEGRAM) && bool_decide (al_platform_user_id r = user) &&
  match account with Some id => bool_decide (al_account_id r = id) | None => true end.

Definition session_of (user : string) (r : BotSession) : bool :=
  bool_decide (bo_platform r = Platform.TELEGRAM) && bool_decide (bo_platform_user_id r = user).

(** The join condition of an account with the links of [user]. *)
Definition holds (user : string) (d : Db) (a : Account) : bool :=
  existsb (link_of user (Some (ac_id a))) (account_bot_links d).

(** [ORDER BY last_activity_at DESC]: Postgres puts [NULL]s first. *)
Definition by_last_activity (t : list Account) : list Account :=
  select_where (fun a => negb (is_some (ac_last_activity_at a))) t ++
  order_by (fun a => - default 0 (ac_last_activity_at a))%Z
    (select_where (fun a => is_some (ac_last_activity_at a)) t).

(** [..., createdAt ASC]. *)
Definition by_activity_then_age (t : list Account) : list Account := by_last_activity (order_by ac_createdAt t).

Definition accounts_held (user : string) (d : Db) : list Account :=
  by_activity_then_age (select_where (holds user d) (accounts d)).

(** The account [id], if [user] holds a link to it. *)
Definition held_account (user : string) (id : uuid) (d : Db) : option Account :=
  select_first (fun a => bool_decide (ac_id a = id) && holds user d a) (accounts d).

Definition live_token (now : instant) (r : AccountLinkToken) : bool :=
  negb (is_some (lt_revoked_at r)) &&
  match lt_expires_at r with None => true | Some t => (now <? t)%Z end.

(** ** Shared parts of the transactions *)
Definition add_account (a : Account) (token_id token : uuid) (now : instant) (d : Db) : res exn Db :=
  match insert_unique account_clash a (accounts d) with
  | None => Err IntegrityError
  | Some t =>
      match insert_unique token_clash (new_link_token token_id token now (ac_id a)) (account_link_tokens d) with
      | None => Err IntegrityError
      | Some k => Ok (set_link_tokens k (set_accounts t d))
      end
  end.

Definition add_link (fresh : uuid) (now : instant) (account : uuid) (user : string) (d : Db) : res exn Db :=
  match select_first (link_of user (Some account)) (account_bot_links d) with
  | Some _ => Ok d
  | None =>
      match insert_unique link_clash (new_link fresh now account user) (account_bot_links d) with
      | None => Err IntegrityError
      | Some t => Ok (set_links t d)
      end
  end.

(** Points the user's session at [account]; with [keep], only if it points
    nowhere. *)
Definition point_session (keep : bool) (fresh : uuid) (user : string) (account : uuid) (d : Db) : res exn Db :=
  match select_first (session_of user) (bot_sessions d) with
  | None =>
      match insert_unique session_clash (new_session fresh user account) (bot_sessions d) with
      | None => Err IntegrityError
      | Some t => Ok (set_sessions t d)
      end
  | Some s =>
      if keep && is_some (bo_active_account_id s) then Ok d
      else Ok (set_sessions (update_where (fun r => bool_decide (bo_id r = bo_id s)) (set_active (Some account))
                               (bot_sessions d)) d)
  end.

(** [link_telegram] and [admin_link_telegram] once the account is known. *)
Definition give_access (fresh_link fresh_session : uuid) (now : instant) (user : string) (a : Account) (d : Db)
    : res exn (option Account * Db) :=
  match add_link fresh_link now (ac_id a) user d with
  | Err e => Err e
  | Ok d =>
      match point_session true fresh_session user (ac_id a) d with
      | Err e => Err e
      | Ok d => Ok (Some a, d)
      end
  end.

(** [try: async with get_session() ...: t  except Exception: return default]. *)
Definition session_or {A} (answer : A) (t : instant -> Db -> res exn (A * Db)) : prog A :=
  catch (session t) (fun _ => Ret answer).

(** ** Accounts *)
Section repository.
Context `{CA : RowChoice Account}.

Definition gateway_row (account_id : string) (market : MarketTypeEnum) (gateway : string) (r : Account) : bool :=
  bool_decide (ac_account_id r = account_id) && bool_decide (ac_market r = market) &&
  gateway_matches (Some gateway) (ac_gateway r).

Definition write_gateway (fresh token_id token : uuid) (now : instant) (account_id : string)
    (market : MarketTypeEnum) (gateway : string) (d : Db) : res exn (unit * Db) :=
  match choose (select_where (gateway_row account_id market gateway) (accounts d)) with
  | Some row =>
      if bool_decide (ac_gateway row = Some gateway) then Ok (tt, d)
      else
        match update_unique ac_id account_clash (set_gateway gateway row) (accounts d) with
        | None => Err IntegrityError
        | Some t => Ok (tt, set_accounts t d)
        end
  | None =>
      match add_account (registered fresh now account_id market gateway None) token_id token now d with
      | Err e => Err e
      | Ok d => Ok (tt, d)
      end
  end.

Definition upsert_gateway (account_id : string) (market : MarketTypeEnum) (gateway : string) : prog unit :=
  let! fresh := uuid4 in
  let! token_id := uuid4 in
  let! token := uuid4 in
  session_or tt (fun now d => write_gateway fresh token_id token now account_id market gateway d).

Definition exact_account (account_id : string) (market : MarketTypeEnum) (gateway : string) (r : Account) : bool :=
  bool_decide (ac_account_id r = account_id) && bool_decide (ac_market r = market) &&
  bool_decide (ac_gateway r = Some gateway).

Definition write_account (fresh token_id token : uuid) (now : instant) (account_id : string)
    (market : MarketTypeEnum) (gateway : string) (account_name : option string) (d : Db)
    : res exn (option Account * Db) :=
  match select_first (exact_account account_id market gateway) (accounts d) with
  | Some _ => Ok (None, d)
  | None =>
      let a := registered fresh now account_id market gateway account_name in
      match add_account a token_id token now d with
      | Err e => Err e
      | Ok d => Ok (Some a, d)
      end
  end.

Definition create_account (account_id : string) (market : MarketTypeEnum) (gateway : string)
    (account_name : option string) : prog (option Account) :=
  let! fresh := uuid4 in
  let! token_id := uuid4 in
  let! token := uuid4 in
  session_or None (fun now d => write_account fresh token_id token now account_id market gateway account_name d).

Definition get_all : prog (list Account) :=
  catch (query (fun d => by_last_activity (accounts d))) (fun _ => Ret []).

Definition get_by_market (market : MarketTypeEnum) : prog (list Account) :=
  catch (query (fun d =>
    by_last_activity (select_where (fun a => bool_decide (ac_market a = market)) (accounts d)))) (fun _ => Ret []).

(** [AccountLinkSummary]. *)
Record AccountLinkSummary := {
  link_token : option uuid;
  linked_user_ids : list string
}.

Definition no_summary : AccountLinkSummary := {| link_token := None; linked_user_ids := [] |}.

(** [summaries.setdefault(id, AccountLinkSummary())], changed by [f]. *)
Definition summarise (f : AccountLinkSummary -> AccountLinkSummary) (id : uuid)
    (m : gmap uuid AccountLinkSummary) : gmap uuid AccountLinkSummary :=
  <[id := f (default no_summary (m !! id))]> m.

Definition link_summaries (account_ids : list uuid) (now : instant) (d : Db) : gmap uuid AccountLinkSummary :=
  let tokens := order_by lt_createdAt (select_where (fun r =>
    bool_decide (lt_account_id r ∈ account_ids) && live_token now r) (account_link_tokens d)) in
  let links := order_by al_createdAt (select_where (fun r =>
    bool_decide (al_account_id r ∈ account_ids) && bool_decide (al_platform r = Platform.TELEGRAM))
    (account_bot_links d)) in
  let m := fold_left (fun m r =>
    summarise (fun s => {| link_token := Some (lt_token r); linked_user_ids := linked_user_ids s |})
      (lt_account_id r) m) tokens ∅ in
  fold_left (fun m r =>
    summarise (fun s => {| link_token := link_token s;
                           linked_user_ids := linked_user_ids s ++ [al_platform_user_id r] |})
      (al_account_id r) m) links m.

Definition get_link_summaries (account_ids : list uuid) : prog (gmap uuid AccountLinkSummary) :=
  match account_ids with
  | [] => Ret ∅
  | _ =>
      let! now := clock in
      catch (query (link_summaries account_ids now)) (fun _ => Ret ∅)
  end.

(** ** Who drives what *)
Definition list_by_telegram_user_id (telegram_user_id : Z) : prog (list Account) :=
  catch (query (accounts_held (str_int telegram_user_id))) (fun _ => Ret []).

(** The first read of [get_active_account]. *)
Definition pointed_account (user : string) (d : Db) : option Account :=
  match select_first (session_of user) (bot_sessions d) with
  | None => None
  | Some s => match bo_active_account_id s with
              | None => None
              | Some id => held_account user id d
              end
  end.

Definition get_active_account (telegram_user_id : Z) : prog (option Account) :=
  let user := str_int telegram_user_id in
  let! pointed := attempt (query (pointed_account user)) in
  match pointed with
  | Err _ => Ret None
  | Ok (Some account) => Ret (Some account)
  | Ok None =>
      let! accounts := list_by_telegram_user_id telegram_user_id in
      match accounts with
      | [] => Ret None
      | fallback :: _ =>
          let! fresh := uuid4 in
          do! session_or tt (fun _ d =>
            match point_session false fresh user (ac_id fallback) d with
            | Err e => Err e
            | Ok d => Ok (tt, d)
            end) in
          Ret (Some fallback)
      end
  end.

Definition set_active_account (telegram_user_id : Z) (account_id : uuid) : prog (option Account) :=
  let user := str_int telegram_user_id in
  let! fresh := uuid4 in
  session_or None (fun _ d =>
    match held_account user account_id d with
    | None => Ok (None, d)
    | Some account =>
        match point_session false fresh user (ac_id account) d with
        | Err e => Err e
        | Ok d => Ok (Some account, d)
        end
    end).

(** The transaction of [link_telegram]. *)
Definition claim_account (fresh_link fresh_session : uuid) (now : instant) (token : uuid) (user : string)
    (created : instant) (d : Db) : res exn (option Account * Db) :=
  match select_first (fun r => bool_decide (lt_token r = token) && live_token now r) (account_link_tokens d) with
  | None => Ok (None, d)
  | Some k =>
      match select_first (fun a => bool_decide (ac_id a = lt_account_id k)) (accounts d) with
      | None => Ok (None, d)
      | Some a =>
          give_access fresh_link fresh_session created user a
            (set_link_tokens (update_where (fun r => bool_decide (lt_id r = lt_id k)) (use_token now)
                                (account_link_tokens d)) d)
      end
  end.

Definition link_telegram (token : uuid) (telegram_user_id : Z) : prog (option Account) :=
  let! now := clock in
  let! fresh_link := uuid4 in
  let! fresh_session := uuid4 in
  session_or None (fun created d =>
    claim_account fresh_link fresh_session now token (str_int telegram_user_id) created d).

Definition admin_link_telegram (account_uuid : uuid) (telegram_user_id : Z) : prog (option Account) :=
  let! fresh_link := uuid4 in
  let! fresh_session := uuid4 in
  session_or None (fun created d =>
    match select_first (fun a => bool_decide (ac_id a = account_uuid)) (accounts d) with
    | None => Ok (None, d)
    | Some a => give_access fresh_link fresh_session created (str_int telegram_user_id) a d
    end).

(** The transaction of [unlink_telegram]. *)
Definition drop_link (user : string) (active : uuid) (d : Db) : Db :=
  let d := set_links (delete_where (link_of user (Some active)) (account_bot_links d)) d in
  let remaining := head (by_activity_then_age (select_where (fun a =>
    holds user d a && negb (bool_decide (ac_id a = active))) (accounts d))) in
  match select_first (session_of user) (bot_sessions d) with
  | None => d
  | Some s => set_sessions (update_where (fun r => bool_decide (bo_id r = bo_id s))
                              (set_active (ac_id <$> remaining)) (bot_sessions d)) d
  end.

Definition unlink_telegram (telegram_user_id : Z) : prog bool :=
  let! active := get_active_account telegram_user_id in
  match active with
  | None => Ret false
  | Some active =>
      session_or false (fun _ d => Ok (true, drop_link (str_int telegram_user_id) (ac_id active) d))
  end.

(** The transaction of [rotate_link_token]. *)
Definition rotate (fresh new_token : uuid) (now created : instant) (account_id : string) (d : Db)
    : res exn (option uuid * Db) :=
  match choose (select_where (fun a => bool_decide (ac_account_id a = account_id)) (accounts d)) with
  | None => Ok (None, d)
  | Some a =>
      let tokens := update_where (fun r =>
        bool_decide (lt_account_id r = ac_id a) && negb (is_some (lt_revoked_at r))) (revoke_token now)
        (account_link_tokens d) in
      match insert_unique token_clash (new_link_token fresh new_token created (ac_id a)) tokens with
      | None => Err IntegrityError
      | Some tokens =>
          Ok (Some new_token,
              set_link_tokens tokens
                (set_links (delete_where (fun r => bool_decide (al_account_id r = ac_id a)) (account_bot_links d))
                   (set_sessions (update_where (fun r => bool_decide (bo_active_account_id r = Some (ac_id a)))
                                    (set_active None) (bot_sessions d)) d)))
      end
  end.

Definition rotate_link_token (account_id : string) : prog (option uuid) :=
  let! now := clock in
  let! new_token := uuid4 in
  let! fresh := uuid4 in
  session_or None (fun created d => rotate fresh new_token now created account_id d).

(** ** Settings *)
Definition get_settings (account_id : string) (market : MarketTypeEnum) (gateway : string)
    : prog (list (string * json)) :=
  catch (query (fun d =>
    match choose (select_where (gateway_row account_id market gateway) (accounts d)) with
    | Some row => ac_settings row
    | None => []
    end)) (fun _ => Ret []).

(** [old || patch] of two JSONB objects. *)
Definition jsonb_merge (old patch : list (string * json)) : list (string * json) :=
  base.filter (fun kv => kv.1 ∉ patch.*1) old ++ patch.

Definition update_settings (account_uuid : uuid) (patch : list (string * json))
    : prog (option (list (string * json))) :=
  session_or None (fun _ d =>
    let d' := set_accounts (update_where (fun a => bool_decide (ac_id a = account_uuid))
                (fun a => set_settings (jsonb_merge (ac_settings a) patch) a) (accounts d)) d in
    Ok (ac_settings <$> select_first (fun a => bool_decide (ac_id a = account_uuid)) (accounts d'), d')).
End repository.

(** ** The accounts a user holds *)
Lemma elem_of_by_activity x t : x ∈ by_activity_then_age t <-> x ∈ t.
Proof.
  unfold by_activity_then_age, by_last_activity.
  rewrite elem_of_app, elem_of_order_by, !elem_of_select_where, elem_of_order_by.
  destruct (is_some (ac_last_activity_at x)); cbn; tauto.
Qed.

Lemma elem_of_held user d x : x ∈ accounts_held user d <-> x ∈ accounts d /\ holds user d x = true.
Proof. unfold accounts_held. by rewrite elem_of_by_activity, elem_of_select_where. Qed.
