(* ===== verification/AccountFlow.v ===== *)
(** * Who may drive an account

    Access to an account is a link row.  What rotating an account's invite token
    takes away and from whom, what linking gives, which account a user is
    driving, and that settings are merged ([db/repository/account.py]). *)

From S2P Require Import Prelude PyStr Uuid PyTime Json Enums Schemas Models World.
From S2P Require Import StatusPolicies TradeRepo AccountRepo.

(** ** Calls on the repository *)
Inductive account_call :=
| UpsertGateway (account_id : string) (market : MarketTypeEnum) (gateway : string)
| CreateAccount (account_id : string) (market : MarketTypeEnum) (gateway : string) (name : option string)
| ListAccounts (user : Z)
| GetActive (user : Z)
| SetActive (user : Z) (account : uuid)
| Link (token : uuid) (user : Z)
| AdminLink (account : uuid) (user : Z)
| Unlink (user : Z)
| Rotate (account_id : string)
| UpdateSettings (account : uuid) (patch : list (string * json)).

Section access.
Context `{CA : RowChoice Account}.


(** A call, and the accounts it lets its user drive. *)
Definition run_call (c : account_call) : prog (list Account) :=
  match c with
  | UpsertGateway id m g => do! upsert_gateway id m g in Ret []
  | CreateAccount id m g n => do! create_account id m g n in Ret []
  | ListAccounts user => list_by_telegram_user_id user
  | GetActive user => let! a := get_active_account user in Ret (opt_list a)
  | SetActive user id => let! a := set_active_account user id in Ret (opt_list a)
  | Link token user => let! a := link_telegram token user in Ret (opt_list a)
  | AdminLink id user => let! a := admin_link_telegram id user in Ret (opt_list a)
  | Unlink user => do! unlink_telegram user in Ret []
  | Rotate id => do! rotate_link_token id in Ret []
  | UpdateSettings id patch => do! update_settings id patch in Ret []
  end.

(** ** Nobody has access *)

(** The account [a], named [name], has no link, and its only invite token that
    is not revoked is [t]. *)
Definition sealed (a : uuid) (name : string) (t : uuid) (d : Db) : Prop :=
  (exists r, r ∈ accounts d /\ ac_id r = a) /\
  Forall (fun r => ac_id r = a -> ac_account_id r = name) (accounts d) /\
  Forall (fun k => lt_account_id k = a -> lt_revoked_at k = None -> lt_token k = t) (account_link_tokens d) /\
  Forall (fun l => al_account_id l <> a) (account_bot_links d).

(** Calls that neither hold the new secret nor act on [a] with admin rights. *)
Definition outsider (a : uuid) (name : string) (t : uuid) (c : account_call) : Prop :=
  match c with
  | Link token _ => token <> t
  | AdminLink id _ => id <> a
  | Rotate id => id <> name
  | _ => True
  end.

Section sealed.
Context (a : uuid) (name : string) (t : uuid).

Definition sealed_step (w w' : World) : Prop := sealed a name t (db w) -> sealed a name t (db w').

#[local] Instance sealed_step_preorder : PreOrder sealed_step.
Proof. split; [intros w H; exact H|]. intros w1 w2 w3 H1 H2 H. by apply H2, H1. Qed.

Lemma sealed_frame : frame_ok sealed_step.
Proof. intros w w' _ _ Hd. unfold sealed_step. by rewrite Hd. Qed.

(** Answers that do not hand out [a]. *)
Definition without_a (l : list Account) : Prop := Forall (fun r => ac_id r <> a) l.

Lemma holds_not_sealed user d r : sealed a name t d -> holds user d r = true -> ac_id r <> a.
Proof.
  intros (_ & _ & _ & Hl) (l & Hin%list_elem_of_In & Hm)%existsb_exists Hr. rewrite Forall_forall in Hl.
  apply (Hl l Hin). unfold link_of in Hm. rewrite !andb_true_iff, !bool_decide_eq_true in Hm.
  destruct Hm as [_ ->]. done.
Qed.

Lemma held_not_sealed user d : sealed a name t d -> without_a (accounts_held user d).
Proof.
  intros Hs. apply Forall_forall. intros r Hr%(proj1 (elem_of_by_activity _ _)).
  apply elem_of_select_where in Hr as [_ Hr]. by eapply holds_not_sealed.
Qed.

Lemma held_account_not_sealed user id d r :
  sealed a name t d -> held_account user id d = Some r -> ac_id r <> a.
Proof.
  intros Hs [_ [_ Hh]%andb_prop]%select_first_Some. by eapply holds_not_sealed.
Qed.

(** ** Transactions keep an account sealed *)
Lemma sealed_accounts f p d :
  (forall r, r ∈ accounts d -> p r = true -> ac_id (f r) = ac_id r) ->
  (forall r, r ∈ accounts d -> p r = true -> ac_id (f r) = a -> ac_account_id (f r) = name) ->
  sealed a name t d -> sealed a name t (set_accounts (update_where p f (accounts d)) d).
Proof.
  intros Hf Hn ((r & Hr & Ha) & Hname & Ht & Hl). rewrite Forall_forall in Hname. split; [|split].
  - exists (if p r then f r else r). split; [apply elem_of_update_where; eauto|].
    destruct (p r) eqn:E; [by rewrite Hf|done].
  - apply Forall_forall. intros r' (r0 & Hr0 & ->)%elem_of_update_where. specialize (Hname r0 Hr0).
    destruct (p r0) eqn:E; [by apply Hn|done].
  - by split.
Qed.

Lemma sealed_add_account x k s now d d' :
  sealed a name t d -> add_account x k s now d = Ok d' -> sealed a name t d'.
Proof.
  intros ((r & Hr & Ha) & Hname & Ht & Hl). unfold add_account.
  destruct (insert_unique account_clash _ _) as [acc|] eqn:Ea; [|done].
  destruct (insert_unique token_clash _ _) as [tok|] eqn:Et; [|done]. intros [= <-].
  apply insert_unique_Some in Ea as [-> Hc]. apply insert_unique_Some in Et as [-> _].
  assert (ac_id x <> a) as Hx.
  { rewrite Forall_forall in Hc. specialize (Hc r Hr). unfold account_clash in Hc.
    apply orb_false_iff in Hc as [Hc%bool_decide_eq_false _]. congruence. }
  split; [|split; [|split; [|done]]]; cbn.
  - exists r. split; [apply elem_of_app; by left|done].
  - apply Forall_app. split; [done|]. by apply Forall_singleton.
  - apply Forall_app. split; [done|]. apply Forall_singleton. cbn. congruence.
Qed.

Lemma sealed_gateway fresh k s now id m g d x d' :
  sealed a name t d -> write_gateway fresh k s now id m g d = Ok (x, d') -> sealed a name t d'.
Proof.
  intros Hs. unfold write_gateway. destruct (choose _) as [row|] eqn:Ec.
  - destruct (bool_decide _); [by intros [= <- <-]|]. destruct (update_unique _ _ _ _) as [l|] eqn:E; [|done].
    intros [= <- <-]. apply choose_elem, elem_of_select_where in Ec as [Hin _].
    apply update_unique_Some in E as [-> _]. apply sealed_accounts; [| |done].
    + intros r _ Hr%bool_decide_eq_true. by rewrite Hr.
    + intros r _ _. destruct Hs as (_ & Hname & _). rewrite Forall_forall in Hname. apply (Hname row Hin).
  - destruct (add_account _ _ _ _ _) eqn:E; [|done]. intros [= <- <-]. by eapply sealed_add_account.
Qed.

Lemma sealed_add_link fresh now x user d d' :
  x <> a -> sealed a name t d -> add_link fresh now x user d = Ok d' -> sealed a name t d'.
Proof.
  intros Hx (Hr & Hname & Ht & Hl). unfold add_link. destruct (select_first _ _); [by intros [= <-]|].
  destruct (insert_unique _ _ _) as [l|] eqn:E; [|done]. intros [= <-].
  apply insert_unique_Some in E as [-> _]. split; [done|]. split; [done|]. split; [done|].
  apply Forall_app. split; [done|]. by apply Forall_singleton.
Qed.

Lemma sealed_sessions s d : sealed a name t d -> sealed a name t (set_sessions s d).
Proof. done. Qed.

Lemma sealed_point keep fresh user x d d' :
  sealed a name t d -> point_session keep fresh user x d = Ok d' -> sealed a name t d'.
Proof.
  intros Hs. unfold point_session. destruct (select_first _ _).
  - destruct (keep && _); by intros [= <-].
  - destruct (insert_unique _ _ _); [|done]. by intros [= <-].
Qed.

Lemma sealed_give fl fs now user x d r d' :
  ac_id x <> a -> sealed a name t d -> give_access fl fs now user x d = Ok (r, d') ->
  sealed a name t d' /\ r = Some x.
Proof.
  intros Hx Hs. unfold give_access. destruct (add_link _ _ _ _ _) as [d1|] eqn:E1; [|done].
  destruct (point_session _ _ _ _ _) as [d2|] eqn:E2; [|done]. intros [= <- <-]. split; [|done].
  eapply sealed_point; [|done]. by eapply sealed_add_link.
Qed.

Lemma sealed_tokens p f d :
  (forall k, lt_account_id (f k) = lt_account_id k) -> (forall k, lt_token (f k) = lt_token k) ->
  (forall k, lt_revoked_at (f k) = None -> lt_revoked_at k = None) ->
  sealed a name t d -> sealed a name t (set_link_tokens (update_where p f (account_link_tokens d)) d).
Proof.
  intros Ha Hk Hv (Hr & Hname & Ht & Hl). split; [done|]. split; [done|]. split; [|done].
  rewrite Forall_forall in Ht. apply Forall_forall. intros k' (k & Hin & ->)%elem_of_update_where.
  destruct (p k); [|by apply Ht]. rewrite Ha, Hk. intros ??. apply Ht; auto.
Qed.

Lemma sealed_claim fl fs now token user created d r d' :
  token <> t -> sealed a name t d -> claim_account fl fs now token user created d = Ok (r, d') ->
  sealed a name t d' /\ without_a (opt_list r).
Proof.
  intros Htok Hs. unfold claim_account. destruct (select_first _ (account_link_tokens d)) as [k|] eqn:Ek.
  2: { intros [= <- <-]. split; [done|constructor]. }
  destruct (select_first _ (accounts d)) as [x|] eqn:Ex; [|intros [= <- <-]; split; [done|constructor]].
  apply select_first_Some in Ek as [Hk [<-%bool_decide_eq_true Hlive]%andb_prop].
  apply select_first_Some in Ex as [_ Hx%bool_decide_eq_true].
  apply andb_prop in Hlive as [Hlive%negb_true_iff _].
  assert (ac_id x <> a) as Hxa.
  { intros Ha. destruct Hs as (_ & _ & Ht & _). rewrite Forall_forall in Ht. apply Htok, (Ht k Hk); [congruence|].
    by destruct (lt_revoked_at k). }
  intros H. eapply sealed_give in H as [H ->]; [|done|by apply sealed_tokens]. split; [done|].
  by apply Forall_singleton.
Qed.

Lemma sealed_drop user x d : sealed a name t d -> sealed a name t (drop_link user x d).
Proof.
  intros (Hr & Hname & Ht & Hl). unfold drop_link.
  assert (sealed a name t (set_links (delete_where (link_of user (Some x)) (account_bot_links d)) d)) as Hs.
  { split; [done|]. split; [done|]. split; [done|]. rewrite Forall_forall in Hl |- *. intros l Hin.
    apply elem_of_delete_where in Hin as [Hin _]. by apply Hl. }
  by destruct (select_first _ _).
Qed.

Lemma sealed_rotate fresh new now created id d r d' :
  id <> name -> sealed a name t d -> rotate fresh new now created id d = Ok (r, d') -> sealed a name t d'.
Proof.
  intros Hid Hs. unfold rotate. destruct (choose _) as [x|] eqn:Ec; [|by intros [= <- <-]].
  destruct (insert_unique _ _ _) as [toks|] eqn:Ei; [|done]. intros [= <- <-].
  apply choose_elem, elem_of_select_where in Ec as [Hx <-%bool_decide_eq_true].
  apply insert_unique_Some in Ei as [-> _].
  assert (ac_id x <> a) as Hxa.
  { intros Ha. destruct Hs as (_ & Hname & _). rewrite Forall_forall in Hname. by apply Hid, Hname. }
  pose proof (sealed_tokens (fun k => bool_decide (lt_account_id k = ac_id x) && negb (is_some (lt_revoked_at k)))
    (revoke_token now) d) as H. destruct H as (Hr & Hname & Ht & Hl); [done..|].
  split; [done|]. split; [done|]. split; cbn.
  - apply Forall_app. split; [done|]. apply Forall_singleton. cbn. congruence.
  - rewrite Forall_forall in Hl |- *. intros l Hin. apply elem_of_delete_where in Hin as [Hin _]. by apply Hl.
Qed.

(** ** Calls keep an account sealed *)
Definition sealed_post {A} (good : A -> Prop) (r : res exn A) (w : World) : Prop :=
  sealed a name t (db w) /\ match r with Ok x => good x | Err _ => True end.

Lemma wp_read {A} (f : World -> res exn A * World) w :
  sealed a name t (db w) -> (forall w, db (f w).2 = db w) ->
  wp sealed_step sealed_step (act f) (sealed_post (fun _ => True)) w.
Proof.
  intros Hs Hf. apply wp_act. intros w1 H1. unfold sealed_step, sealed_post. rewrite Hf.
  split; [done|]. split; [by apply H1|]. by destruct (f w1).1.
Qed.

Lemma wp_session {A} (good : A -> Prop) (f : instant -> Db -> res exn (A * Db)) w :
  sealed a name t (db w) ->
  (forall now d x d', sealed a name t d -> f now d = Ok (x, d') -> sealed a name t d' /\ good x) ->
  wp sealed_step sealed_step (session f) (sealed_post good) w.
Proof.
  intros Hs Hf. apply wp_act. intros w1 H1. specialize (H1 Hs). pose proof (session_cases f w1) as H.
  destruct (session_step f w1) as [r w2]. cbn. unfold sealed_step, sealed_post.
  destruct H as (_ & _ & [(e & -> & ->)|(x & d & Hx & -> & Hr)]); [done|].
  destruct (Hf _ _ _ _ H1 Hx) as [H2 Hg]. split; [done|]. split; [done|]. by destruct Hr as [-> | ->].
Qed.

Lemma wp_session_or {A} (good : A -> Prop) (answer : A) f w :
  sealed a name t (db w) -> good answer ->
  (forall now d x d', sealed a name t d -> f now d = Ok (x, d') -> sealed a name t d' /\ good x) ->
  wp sealed_step sealed_step (session_or answer f) (sealed_post good) w.
Proof.
  intros Hs Ha Hf. apply wp_catch. eapply wp_mono; [|by apply (wp_session good)].
  by intros [x|e] w' [H1 H2].
Qed.

Lemma wp_query_or {A} (good : A -> Prop) (answer : A) (q : Db -> A) w :
  sealed a name t (db w) -> good answer -> (forall d, sealed a name t d -> good (q d)) ->
  wp sealed_step sealed_step (catch (query q) (fun _ => Ret answer)) (sealed_post good) w.
Proof.
  intros Hs Ha Hq. apply (wp_session_or good answer (fun _ d => Ok (q d, d))); [done..|].
  intros now d x d' Hd [= <- <-]. auto.
Qed.

Lemma wp_after {A B} (good : A -> Prop) (good' : B -> Prop) (p : prog A) (q : A -> prog B) w :
  wp sealed_step sealed_step p (sealed_post good) w ->
  (forall x w', sealed a name t (db w') -> good x -> wp sealed_step sealed_step (q x) (sealed_post good') w') ->
  wp sealed_step sealed_step (bind p q) (sealed_post good') w.
Proof.
  intros Hp Hq. apply wp_bind. eapply wp_mono; [|exact Hp]. intros [x|e] w' [H1 H2]; [by apply Hq|by split].
Qed.

Lemma wp_fresh {B} (good : B -> Prop) (q : uuid -> prog B) w :
  sealed a name t (db w) ->
  (forall u w', sealed a name t (db w') -> wp sealed_step sealed_step (q u) (sealed_post good) w') ->
  wp sealed_step sealed_step (bind uuid4 q) (sealed_post good) w.
Proof.
  intros Hs Hq. apply (wp_after (fun _ => True)); [|intros; by apply Hq].
  apply wp_read; [done|]. intros w'. by destruct (uuids w').
Qed.

Lemma wp_now {B} (good : B -> Prop) (q : instant -> prog B) w :
  sealed a name t (db w) ->
  (forall u w', sealed a name t (db w') -> wp sealed_step sealed_step (q u) (sealed_post good) w') ->
  wp sealed_step sealed_step (bind clock q) (sealed_post good) w.
Proof.
  intros Hs Hq. apply (wp_after (fun _ => True)); [|intros; by apply Hq]. by apply wp_read.
Qed.

Lemma wp_get_active user w :
  sealed a name t (db w) ->
  wp sealed_step sealed_step (get_active_account user) (sealed_post (fun r => without_a (opt_list r))) w.
Proof.
  intros Hs. unfold get_active_account.
  apply (wp_after (fun r => match r with Ok x => without_a (opt_list x) | Err _ => True end)).
  { apply wp_attempt. eapply wp_mono; [|apply (wp_session (fun x => without_a (opt_list x))); [done|]].
    - by intros [x|e] w' [H1 H2].
    - intros now d x d' Hd [= <- <-]. split; [done|]. unfold pointed_account.
      destruct (select_first _ _) as [s|]; [|constructor]. destruct (bo_active_account_id s) as [id|]; [|constructor].
      destruct (held_account _ _ _) eqn:E; [|constructor]. apply Forall_singleton. by eapply held_account_not_sealed. }
  intros [[x|]|e] w1 H1 Hx; [by split| |by split; [|constructor]].
  apply (wp_after without_a).
  { apply wp_query_or; [done|constructor|]. intros d. apply held_not_sealed. }
  intros [|x l] w2 H2 Hl; [by split; [|constructor]|]. apply Forall_cons in Hl as [Hx' _].
  apply wp_fresh; [done|]. intros u w3 H3. apply (wp_after (fun _ => True)).
  - apply wp_session_or; [done..|]. intros now d y d' Hd. destruct (point_session _ _ _ _ _) as [d2|] eqn:E; [|done].
    intros [= <- <-]. split; [|done]. by eapply sealed_point.
  - intros _ w4 H4 _. split; [done|]. by apply Forall_singleton.
Qed.

Lemma wp_answer (p : prog (option Account)) w :
  wp sealed_step sealed_step p (sealed_post (fun r => without_a (opt_list r))) w ->
  wp sealed_step sealed_step (let! x := p in Ret (opt_list x)) (sealed_post without_a) w.
Proof. intros Hp. eapply wp_after; [exact Hp|]. intros x w' Hs Hg. by split. Qed.

Lemma wp_silent {A} (p : prog A) w :
  wp sealed_step sealed_step p (sealed_post (fun _ => True)) w ->
  wp sealed_step sealed_step (do! p in Ret []) (sealed_post without_a) w.
Proof. intros Hp. eapply wp_after; [exact Hp|]. intros x w' Hs _. by split; [|constructor]. Qed.

Lemma wp_call c w :
  outsider a name t c -> sealed a name t (db w) ->
  wp sealed_step sealed_step (run_call c) (sealed_post without_a) w.
Proof.
  intros Hc Hs. destruct c as [id m g|id m g n|user|user|user id|token user|id user|user|id|id patch]; cbn [run_call outsider] in *.
  - apply wp_silent. do 3 (apply wp_fresh; [done|]; intros ? ? ?). apply wp_session_or; [done..|].
    intros now d x d' Hd E. split; [|done]. by eapply sealed_gateway.
  - apply wp_silent. do 3 (apply wp_fresh; [done|]; intros ? ? ?). apply wp_session_or; [done..|].
    intros now d x d' Hd E. split; [|done]. unfold write_account in E.
    destruct (select_first _ _); [by injection E as <- <-|].
    destruct (add_account _ _ _ _ _) eqn:E'; [|done]. injection E as <- <-. by eapply sealed_add_account.
  - apply wp_query_or; [done|constructor|]. intros d. apply held_not_sealed.
  - by apply wp_answer, wp_get_active.
  - apply wp_answer, wp_fresh; [done|]. intros u w1 H1. apply wp_session_or; [done|constructor|].
    intros now d x d' Hd. destruct (held_account _ _ _) as [y|] eqn:E.
    2: { intros [= <- <-]. split; [done|constructor]. }
    destruct (point_session _ _ _ _ _) eqn:E'; [|done]. intros [= <- <-].
    split; [by eapply sealed_point|]. apply Forall_singleton. by eapply held_account_not_sealed.
  - apply wp_answer, wp_now; [done|]. intros now w1 H1. do 2 (apply wp_fresh; [done|]; intros ? ? ?).
    apply wp_session_or; [done|constructor|]. intros created d x d' Hd. by apply sealed_claim.
  - apply wp_answer. do 2 (apply wp_fresh; [done|]; intros ? ? ?). apply wp_session_or; [done|constructor|].
    intros now d x d' Hd. destruct (select_first _ _) as [y|] eqn:E.
    2: { intros [= <- <-]. split; [done|constructor]. }
    apply select_first_Some in E as [_ Hy%bool_decide_eq_true]. intros G.
    eapply sealed_give in G as [G ->]; [|congruence|done]. split; [done|]. apply Forall_singleton. congruence.
  - apply wp_silent. eapply wp_after; [by apply wp_get_active|]. intros [x|] w1 H1 _; [|by split].
    apply wp_session_or; [done..|]. intros now d y d' Hd [= <- <-]. split; [|done]. by apply sealed_drop.
  - apply wp_silent, wp_now; [done|]. intros now w1 H1. do 2 (apply wp_fresh; [done|]; intros ? ? ?).
    apply wp_session_or; [done..|]. intros created d x d' Hd E. split; [|done]. by eapply sealed_rotate.
  - apply wp_silent, wp_session_or; [done..|]. intros now d x d' Hd [= <- <-]. split; [|done].
    apply sealed_accounts; [done| |done]. intros r Hr _ Ha. destruct Hd as (_ & Hname & _).
    rewrite Forall_forall in Hname. by apply (Hname r Hr).
Qed.
End sealed.

(** ** Rotation *)
Lemma rotate_seals fresh new now created id d t d' :
  NoDup (map ac_id (accounts d)) -> rotate fresh new now created id d = Ok (Some t, d') ->
  exists a, a ∈ accounts d /\ ac_account_id a = id /\ sealed (ac_id a) id t d' /\
    accounts d' = accounts d /\
    (exists k, k ∈ account_link_tokens d' /\ lt_account_id k = ac_id a /\ lt_token k = t /\
       forall now', live_token now' k = true) /\
    (forall l, al_account_id l <> ac_id a -> (l ∈ account_bot_links d' <-> l ∈ account_bot_links d)) /\
    (forall k, lt_account_id k <> ac_id a -> (k ∈ account_link_tokens d' <-> k ∈ account_link_tokens d)) /\
    (forall s, s ∈ bot_sessions d -> bo_active_account_id s <> Some (ac_id a) -> s ∈ bot_sessions d').
Proof.
  intros Hnd. unfold rotate. destruct (choose _) as [a|] eqn:Ec; [|done].
  destruct (insert_unique _ _ _) as [toks|] eqn:Ei; [|done]. intros [= <- <-].
  apply choose_elem, elem_of_select_where in Ec as [Ha <-%bool_decide_eq_true].
  apply insert_unique_Some in Ei as [-> _]. exists a. cbn. split; [done|]. split; [done|].
  split; [|split; [done|split; [|split; [|split]]]].
  - split; [by exists a|]. split; [|split; cbn].
    + apply Forall_forall. intros r Hr He. by rewrite (nodup_map_eq ac_id _ _ _ Hnd Hr Ha He).
    + apply Forall_app. split; [|by apply Forall_singleton]. apply Forall_forall.
      intros k' (k & Hk & ->)%elem_of_update_where. destruct (bool_decide_reflect (lt_account_id k = ac_id a)); cbn [andb].
      * destruct (lt_revoked_at k) eqn:E; cbn; [by rewrite E|done].
      * done.
    + apply Forall_forall. by intros l [_ Hl%bool_decide_eq_false]%elem_of_delete_where.
  - eexists. split; [apply elem_of_app; right; apply list_elem_of_singleton; done|done].
  - intros l Hl. rewrite elem_of_delete_where, bool_decide_eq_false. tauto.
  - intros k Hk. rewrite elem_of_app, elem_of_update_where, list_elem_of_singleton. split.
    + intros [(k0 & Hin & ->)| ->]; [|done]. destruct (bool_decide_reflect (lt_account_id k0 = ac_id a)) as [E|]; [|done].
      exfalso. apply Hk. by destruct (negb _).
    + intros Hin. left. exists k. split; [done|]. by rewrite bool_decide_eq_false_2.
  - intros s Hs Hne. apply elem_of_update_where. exists s. split; [done|]. by rewrite bool_decide_eq_false_2.
Qed.

Lemma run_rotate id w t w' :
  run (rotate_link_token id) w = (Ok (Some t), w') ->
  exists fresh new created, rotate fresh new (now w) created id (db w) = Ok (Some t, db w').
Proof.
  unfold rotate_link_token, clock, uuid4. rewrite run_bind, run_act. cbv beta iota.
  rewrite run_bind, run_act.
  assert (forall w, exists u w1, (match uuids w with [] => (Ok (E:=exn) (uid 0), w) | u :: s => (Ok u, set_uuids s w) end)
                       = (Ok u, w1) /\ db w1 = db w) as Hu by (intros v; destruct (uuids v); eauto).
  destruct (Hu w) as (new & w1 & -> & Hd1). rewrite run_bind, run_act. destruct (Hu w1) as (fr & w2 & -> & Hd2).
  unfold session_or. rewrite run_catch. unfold session. rewrite run_act.
  match goal with |- context [session_step ?f w2] => pose proof (session_cases f w2) as H;
    destruct (session_step f w2) as [[x|e] w3] end; [|by cbn].
  intros [= -> <-]. exists fr, new, (now w2). destruct H as (_ & _ & [(e & [=] & _)|(x & d & Hx & -> & [[= ->]|[=]])]).
  by rewrite <-Hd1, <-Hd2.
Qed.

Lemma wp_call_texec a name t c w evs w' o :
  outsider a name t c -> sealed a name t (db w) -> texec (sealed_step a name t) (run_call c) w evs w' o ->
  sealed a name t (db w') /\ (forall l, o = Some (Ok l) -> Forall (fun r => ac_id r <> a) l).
Proof.
  intros Hc Hs He. pose proof (wp_call a name t c w Hc Hs) as Hwp. split.
  - refine (wp_stable (sealed_step a name t) (sealed_step a name t) (fun w _ => sealed a name t (db w))
              _ _ _ w evs w' o (SentNotice EmptyString) He _ Hwp Hs); intros w1 w2 _ H Hs1; by apply H.
  - intros l ->. destruct (wp_texec (sealed_step a name t) (sealed_step a name t) (fun _ _ => True)
      (fun _ _ _ _ _ => I) (fun _ _ _ _ _ => I)
      (fun _ _ _ => proj2 (Forall_forall _ _) (fun _ _ => I)) (run_call c) w evs w' (Some (Ok l)) _ He Hwp) as [_ H].
    by destruct (H _ eq_refl).
Qed.

(** C8. Rotating an invite token takes everybody's access away.  When
    [rotate_link_token] answers a new secret, it has acted on one account of the
    name it was given: that account has no linked user left, the new secret is
    its only invite token that is not revoked, and it is live; the accounts, and
    the links, tokens and active selections of other accounts, are as before.
    From then on, whatever calls users and administrators make, in any
    interleaving, cut short anywhere and with any database fault — as long as
    nobody presents the new secret, links a user to the account by hand or rotates
    it again — nobody gets a link to it, no earlier token works, and no call
    answers the account to anyone. *)
Theorem rotation_resets_access account_id w t w' :
  NoDup (map ac_id (accounts (db w))) ->
  run (rotate_link_token account_id) w = (Ok (Some t), w') ->
  exists a, a ∈ accounts (db w) /\ ac_account_id a = account_id /\ sealed (ac_id a) account_id t (db w') /\
    accounts (db w') = accounts (db w) /\
    (exists k, k ∈ account_link_tokens (db w') /\ lt_account_id k = ac_id a /\ lt_token k = t /\
       forall now', live_token now' k = true) /\
    (forall l, al_account_id l <> ac_id a -> (l ∈ account_bot_links (db w') <-> l ∈ account_bot_links (db w))) /\
    (forall k, lt_account_id k <> ac_id a -> (k ∈ account_link_tokens (db w') <-> k ∈ account_link_tokens (db w))) /\
    (forall s, s ∈ bot_sessions (db w) -> bo_active_account_id s <> Some (ac_id a) -> s ∈ bot_sessions (db w')) /\
    (forall c evs w'' o, outsider (ac_id a) account_id t c ->
       texec (sealed_step (ac_id a) account_id t) (run_call c) w' evs w'' o ->
       sealed (ac_id a) account_id t (db w'') /\
       (forall l, o = Some (Ok l) -> Forall (fun r => ac_id r <> ac_id a) l)).
Proof.
  intros Hnd H. apply run_rotate in H as (fresh & new & created & H).
  destruct (rotate_seals _ _ _ _ _ _ _ _ Hnd H) as (a & Ha & Hn & Hs & Hacc & Hk & Hl & Ht & Hse).
  exists a. repeat (split; [assumption|]). intros c evs w'' o Hc He. by eapply wp_call_texec.
Qed.
End access.
