(* ===== verification/AccountTables.v ===== *)
(** * The tables of accounts stay well formed

    Keys, unique constraints and references of [accounts], [account_bot_links],
    [account_link_tokens] and [bot_sessions] under every call of the repository
    ([db/repository/account.py]). *)

From S2P Require Import Prelude PyStr Uuid PyTime Json Enums Schemas Models World.
From S2P Require Import StatusPolicies Samples TradeRepo TradeFlow AccountRepo AccountFlow.

(** The full key of [uq_accounts_market_gateway_account_id], when no column is
    [NULL]. *)
Definition account_key (r : Account) : option (MarketTypeEnum * string * string) :=
  match ac_gateway r with Some g => Some (ac_market r, g, ac_account_id r) | None => None end.

Definition link_key (l : AccountBotLink) : BotPlatformTypeEnum * string * uuid :=
  (al_platform l, al_platform_user_id l, al_account_id l).

Definition session_key (s : BotSession) : BotPlatformTypeEnum * string := (bo_platform s, bo_platform_user_id s).

Definition refers {row} (ref : row -> uuid) (t : list row) (l : list Account) : Prop :=
  Forall (fun r => ref r ∈ map ac_id l) t.

(** Every active selection is of an account of [l]. *)
Definition points_in (t : list BotSession) (l : list Account) : Prop :=
  Forall (fun s => forall id, bo_active_account_id s = Some id -> id ∈ map ac_id l) t.

Record tables_ok (d : Db) : Prop := {
  ok_account_ids : NoDup (map ac_id (accounts d));
  ok_account_keys : unique_key account_key (accounts d);
  ok_link_ids : NoDup (map al_id (account_bot_links d));
  ok_link_keys : NoDup (map link_key (account_bot_links d));
  ok_link_refs : refers al_account_id (account_bot_links d) (accounts d);
  ok_token_ids : NoDup (map lt_id (account_link_tokens d));
  ok_tokens : NoDup (map lt_token (account_link_tokens d));
  ok_token_refs : refers lt_account_id (account_link_tokens d) (accounts d);
  ok_session_ids : NoDup (map bo_id (bot_sessions d));
  ok_session_keys : NoDup (map session_key (bot_sessions d));
  ok_session_refs : points_in (bot_sessions d) (accounts d)
}.

(** ** Inserts and updates *)
Lemma insert_keys {row K K'} (id : row -> K) (key : row -> K') clash r (t t' : list row) :
  insert_unique clash r t = Some t' ->
  (forall x, clash r x = false -> id x <> id r /\ key x <> key r) ->
  NoDup (map id t) -> NoDup (map key t) -> NoDup (map id t') /\ NoDup (map key t').
Proof.
  intros [-> Hc]%insert_unique_Some Hcl Hi Hk. rewrite Forall_forall in Hc.
  split; (apply nodup_map_snoc; [done|]); intros x Hx; by apply Hcl, Hc.
Qed.

Lemma refers_grow {row} (ref : row -> uuid) t l l' :
  map ac_id l ⊆ map ac_id l' -> refers ref t l -> refers ref t l'.
Proof. intros Hl H. eapply Forall_impl; [exact H|]. intros r. apply Hl. Qed.

Lemma refers_snoc {row} (ref : row -> uuid) t r l :
  refers ref t l -> ref r ∈ map ac_id l -> refers ref (t ++ [r]) l.
Proof. intros H Hr. apply Forall_app. split; [done|]. by apply Forall_singleton. Qed.

Lemma refers_update {row} (ref : row -> uuid) p f t l :
  (forall r, ref (f r) = ref r) -> refers ref t l -> refers ref (update_where p f t) l.
Proof.
  unfold refers. rewrite !Forall_forall. intros Hf H r' (r & Hr & ->)%elem_of_update_where.
  destruct (p r); rewrite ?Hf; by apply H.
Qed.

Lemma refers_delete {row} (ref : row -> uuid) p t l : refers ref t l -> refers ref (delete_where p t) l.
Proof. unfold refers. rewrite !Forall_forall. intros H r [Hr _]%elem_of_delete_where. by apply H. Qed.

Lemma points_grow t l l' : map ac_id l ⊆ map ac_id l' -> points_in t l -> points_in t l'.
Proof. intros Hl H. eapply Forall_impl; [exact H|]. cbn. intros s Hs id Hid. by apply Hl, Hs. Qed.

Lemma points_update p f t l :
  (forall s id, bo_active_account_id (f s) = Some id -> id ∈ map ac_id l) -> points_in t l -> points_in (update_where p f t) l.
Proof.
  unfold points_in. rewrite !Forall_forall. intros Hf H s' (s & Hs & ->)%elem_of_update_where.
  destruct (p s); [apply Hf|by apply H].
Qed.

Lemma link_clash_keys l x : link_clash l x = false -> al_id x <> al_id l /\ link_key x <> link_key l.
Proof.
  unfold link_clash. intros [H1%bool_decide_eq_false H2%bool_decide_eq_false]%orb_false_iff.
  split; [congruence|]. unfold link_key. congruence.
Qed.

Lemma token_clash_keys k x : token_clash k x = false -> lt_id x <> lt_id k /\ lt_token x <> lt_token k.
Proof.
  unfold token_clash. intros [H1%bool_decide_eq_false H2%bool_decide_eq_false]%orb_false_iff. split; congruence.
Qed.

Lemma session_clash_keys s x : session_clash s x = false -> bo_id x <> bo_id s /\ session_key x <> session_key s.
Proof.
  unfold session_clash. intros [H1%bool_decide_eq_false H2%bool_decide_eq_false]%orb_false_iff.
  split; [congruence|]. unfold session_key. congruence.
Qed.

Lemma account_clash_key a x k :
  account_clash a x = false -> account_key a = Some k -> account_key x <> Some k.
Proof.
  unfold account_clash, account_key, null_eqb, opt_eqb. intros [_ H]%orb_false_iff.
  destruct (ac_gateway a) as [g|]; [|done]. destruct (ac_gateway x) as [g'|]; [|done]. intros [= <-] [= E1 E2 E3].
  by rewrite !bool_decide_eq_true_2 in H.
Qed.

Lemma account_clash_other_id a x : account_clash a x = false -> ac_id x <> ac_id a.
Proof. unfold account_clash. intros [H%bool_decide_eq_false _]%orb_false_iff. congruence. Qed.

(** ** Transactions *)
Lemma ok_sessions d s :
  tables_ok d -> NoDup (map bo_id s) -> NoDup (map session_key s) -> points_in s (accounts d) -> tables_ok (set_sessions s d).
Proof. intros [] ???. by split. Qed.

Lemma ok_links d l :
  tables_ok d -> NoDup (map al_id l) -> NoDup (map link_key l) -> refers al_account_id l (accounts d) ->
  tables_ok (set_links l d).
Proof. intros [] ???. by split. Qed.

Lemma ok_link_tokens d k :
  tables_ok d -> NoDup (map lt_id k) -> NoDup (map lt_token k) -> refers lt_account_id k (accounts d) ->
  tables_ok (set_link_tokens k d).
Proof. intros [] ???. by split. Qed.

Lemma ok_accounts d l :
  tables_ok d -> NoDup (map ac_id l) -> unique_key account_key l -> map ac_id (accounts d) ⊆ map ac_id l ->
  tables_ok (set_accounts l d).
Proof. intros [] ???. split; try done; first [by eapply refers_grow|by eapply points_grow]. Qed.

Lemma ok_add_account a k s now d d' :
  tables_ok d -> add_account a k s now d = Ok d' -> tables_ok d'.
Proof.
  intros Hd. unfold add_account. destruct (insert_unique account_clash _ _) as [acc|] eqn:Ea; [|done].
  destruct (insert_unique token_clash _ _) as [tok|] eqn:Et; [|done]. intros [= <-].
  apply insert_unique_Some in Ea as [-> Hc]. rewrite Forall_forall in Hc. pose proof Hd as [].
  assert (tables_ok (set_accounts (accounts d ++ [a]) d)) as Hd1.
  { apply ok_accounts; [done| | |].
    - apply nodup_map_snoc; [done|]. intros x Hx. by apply account_clash_other_id, Hc.
    - apply unique_key_snoc; [done|]. intros key Hk. apply Forall_forall. intros x Hx.
      exact (account_clash_key a x key (Hc x Hx) Hk).
    - rewrite map_app. set_solver. }
  destruct (insert_keys lt_id lt_token _ _ _ _ Et (token_clash_keys _)) as [H1 H2]; [done..|].
  apply insert_unique_Some in Et as [-> _]. apply (ok_link_tokens (set_accounts _ d)); [done..|].
  apply refers_snoc; [apply Hd1|]. cbn. rewrite map_app. set_solver.
Qed.

Lemma ok_update_account r d l :
  tables_ok d -> r ∈ accounts d -> forall r', ac_id r' = ac_id r ->
  update_unique ac_id account_clash r' (accounts d) = Some l -> tables_ok (set_accounts l d).
Proof.
  intros Hd Hr r' Hi [-> Hc]%update_unique_Some. rewrite Forall_forall in Hc. pose proof Hd as [].
  assert (map ac_id (update_where (fun x => bool_decide (ac_id x = ac_id r')) (fun _ => r') (accounts d)) = map ac_id (accounts d))
    as Hm by (apply update_where_proj; by intros x ->%bool_decide_eq_true).
  apply ok_accounts; [done|by rewrite Hm| |by rewrite Hm]. apply unique_key_assign; [done..|].
  intros x Hx Hne k Hk Hxk. destruct (Hc x Hx) as [?|Hcl]; [done|]. by apply (account_clash_key r' x k).
Qed.

Lemma ok_point keep fresh user id d d' :
  tables_ok d -> id ∈ map ac_id (accounts d) -> point_session keep fresh user id d = Ok d' -> tables_ok d'.
Proof.
  intros Hd Hid. pose proof Hd as []. unfold point_session. destruct (select_first _ _) as [s|].
  - destruct (keep && _); [by intros [= <-]|]. intros [= <-]. apply ok_sessions; rewrite ?update_where_proj; try done.
    apply points_update; [|done]. by intros s' id' [= <-].
  - destruct (insert_unique _ _ _) as [t|] eqn:E; [|done]. intros [= <-].
    destruct (insert_keys bo_id session_key _ _ _ _ E (session_clash_keys _)); [done..|].
    apply insert_unique_Some in E as [-> _]. apply ok_sessions; [done..|]. apply Forall_app. split; [done|].
    apply Forall_singleton. by intros id' [= <-].
Qed.

Lemma ok_give fl fs now user a d r d' :
  tables_ok d -> a ∈ accounts d -> give_access fl fs now user a d = Ok (r, d') -> tables_ok d'.
Proof.
  intros Hd Ha. pose proof (list_elem_of_fmap_2 ac_id _ _ Ha) as Hid.
  unfold give_access. destruct (add_link _ _ _ _ _) as [d1|] eqn:El; [|done].
  assert (tables_ok d1 /\ accounts d1 = accounts d) as [Hd1 Ea].
  { revert El. unfold add_link. destruct (select_first _ _); [by intros [= <-]|].
    destruct (insert_unique _ _ _) as [t|] eqn:E; [|done]. intros [= <-]. split; [|done]. pose proof Hd as [].
    destruct (insert_keys al_id link_key _ _ _ _ E (link_clash_keys _)); [done..|].
    apply insert_unique_Some in E as [-> _]. apply ok_links; [done..|]. by apply refers_snoc. }
  destruct (point_session _ _ _ _ _) as [d2|] eqn:Ep; [|done]. intros [= _ <-].
  eapply ok_point; [exact Hd1| |exact Ep]. by rewrite Ea.
Qed.

Lemma ok_update_tokens p f d :
  (forall k, lt_id (f k) = lt_id k) -> (forall k, lt_token (f k) = lt_token k) ->
  (forall k, lt_account_id (f k) = lt_account_id k) ->
  tables_ok d -> tables_ok (set_link_tokens (update_where p f (account_link_tokens d)) d).
Proof.
  intros H1 H2 H3 Hd. pose proof Hd as []. apply ok_link_tokens; rewrite ?update_where_proj; auto.
  by apply refers_update.
Qed.

Section calls.
Context `{CA : RowChoice Account}.

Lemma ok_claim fl fs now token user created d r d' :
  tables_ok d -> claim_account fl fs now token user created d = Ok (r, d') -> tables_ok d'.
Proof.
  intros Hd. unfold claim_account. destruct (select_first _ (account_link_tokens d)) as [k|]; [|by intros [= _ <-]].
  destruct (select_first _ (accounts d)) as [a|] eqn:Ea; [|by intros [= _ <-]].
  apply select_first_Some in Ea as [Ha _]. intros H. eapply ok_give in H; [done| |exact Ha]. by apply ok_update_tokens.
Qed.

Lemma ok_drop user id d : tables_ok d -> tables_ok (drop_link user id d).
Proof.
  intros Hd. pose proof Hd as []. unfold drop_link. set (d1 := set_links _ d).
  assert (tables_ok d1) as Hd1 by (apply ok_links; [done|by apply nodup_map_delete|by apply nodup_map_delete|by apply refers_delete]).
  destruct (select_first _ _); [|done]. apply ok_sessions; rewrite ?update_where_proj; try done. apply points_update; [|done].
  intros s id'. cbn [bo_active_account_id set_active]. destruct (head _) as [x|] eqn:E; intros [= <-].
  apply head_Some_elem_of, elem_of_by_activity, elem_of_select_where in E as [E _]. by apply list_elem_of_fmap_2.
Qed.

Lemma ok_rotate fresh new now created id d r d' :
  tables_ok d -> rotate fresh new now created id d = Ok (r, d') -> tables_ok d'.
Proof.
  intros Hd. unfold rotate. destruct (choose _) as [a|] eqn:Ec; [|by intros [= _ <-]].
  destruct (insert_unique _ _ _) as [toks|] eqn:Ei; [|done]. intros [= _ <-].
  apply choose_elem, elem_of_select_where in Ec as [Ha _]. pose proof Hd as [].
  set (s := update_where _ (set_active None) _). set (l := delete_where _ (account_bot_links d)).
  assert (tables_ok (set_links l (set_sessions s d))) as Hd1.
  { apply (ok_links (set_sessions s d)); [|by apply nodup_map_delete..|by apply refers_delete].
    apply ok_sessions; [done|by unfold s; rewrite update_where_proj|by unfold s; rewrite update_where_proj|apply points_update; [by intros ? ? [=]|done]]. }
  destruct (insert_keys lt_id lt_token _ _ _ _ Ei (token_clash_keys _)) as [H1 H2]; [by rewrite update_where_proj..|].
  apply insert_unique_Some in Ei as [-> _].
  apply (ok_link_tokens (set_links l (set_sessions s d))); [done..|]. apply refers_snoc; [by apply refers_update|].
  exact (list_elem_of_fmap_2 ac_id _ _ Ha).
Qed.

Lemma ok_write_gateway fresh k s now id m g d r d' :
  tables_ok d -> write_gateway fresh k s now id m g d = Ok (r, d') -> tables_ok d'.
Proof.
  intros Hd. unfold write_gateway. destruct (choose _) as [row|] eqn:Ec.
  - destruct (bool_decide _); [by intros [= _ <-]|]. destruct (update_unique _ _ _ _) as [l|] eqn:E; [|done].
    intros [= _ <-]. apply choose_elem, elem_of_select_where in Ec as [Hr _].
    exact (ok_update_account row d l Hd Hr (set_gateway g row) eq_refl E).
  - destruct (add_account _ _ _ _ _) as [d1|] eqn:E; [|done]. intros [= _ <-]. by eapply ok_add_account.
Qed.

Lemma ok_write_account fresh k s now id m g n d r d' :
  tables_ok d -> write_account fresh k s now id m g n d = Ok (r, d') -> tables_ok d'.
Proof.
  intros Hd. unfold write_account. destruct (select_first _ _); [by intros [= _ <-]|].
  destruct (add_account _ _ _ _ _) as [d1|] eqn:E; [|done]. intros [= _ <-]. by eapply ok_add_account.
Qed.

Lemma ok_settings id patch d :
  tables_ok d -> tables_ok (set_accounts (update_where (fun a => bool_decide (ac_id a = id))
    (fun a => set_settings (jsonb_merge (ac_settings a) patch) a) (accounts d)) d).
Proof.
  intros Hd. pose proof Hd as []. apply ok_accounts; [done|by rewrite update_where_proj|by apply unique_key_update|].
  by rewrite update_where_proj.
Qed.

(** ** Accounts stay *)

(** No transaction takes an account away. *)
Definition accounts_stay (d d' : Db) : Prop := map ac_id (accounts d) ⊆ map ac_id (accounts d').

#[local] Instance accounts_stay_refl : Reflexive accounts_stay.
Proof. intros d. by unfold accounts_stay. Qed.

Lemma stay_point keep fresh user id d d' : point_session keep fresh user id d = Ok d' -> accounts d' = accounts d.
Proof.
  unfold point_session. destruct (select_first _ _); [destruct (keep && _); by intros [= <-]|].
  destruct (insert_unique _ _ _); by intros [= <-].
Qed.

Lemma stay_give fl fs now user a d r d' : give_access fl fs now user a d = Ok (r, d') -> accounts d' = accounts d.
Proof.
  unfold give_access, add_link. destruct (select_first _ _); cbn.
  - destruct (point_session _ _ _ _ _) eqn:E; [|done]. intros [= _ <-]. by eapply stay_point.
  - destruct (insert_unique _ _ _); [|done]. destruct (point_session _ _ _ _ _) eqn:E; [|done].
    intros [= _ <-]. by apply stay_point in E.
Qed.

Lemma stay_claim fl fs now token user created d r d' :
  claim_account fl fs now token user created d = Ok (r, d') -> accounts d' = accounts d.
Proof.
  unfold claim_account. destruct (select_first _ (account_link_tokens d)); [|by intros [= _ <-]].
  destruct (select_first _ (accounts d)); [|by intros [= _ <-]]. by intros H%stay_give.
Qed.

Lemma stay_rotate fresh new now created id d r d' : rotate fresh new now created id d = Ok (r, d') -> accounts d' = accounts d.
Proof.
  unfold rotate. destruct (choose _); [|by intros [= _ <-]]. destruct (insert_unique _ _ _); [|done]. by intros [= _ <-].
Qed.

Lemma stay_add a k s now d d' : add_account a k s now d = Ok d' -> accounts_stay d d'.
Proof.
  unfold add_account, accounts_stay. destruct (insert_unique account_clash _ _) eqn:E; [|done].
  destruct (insert_unique token_clash _ _); [|done]. intros [= <-]. apply insert_unique_Some in E as [-> _]. cbn.
  rewrite map_app. set_solver.
Qed.

Lemma stay_write_gateway fresh k s now id m g d r d' : write_gateway fresh k s now id m g d = Ok (r, d') -> accounts_stay d d'.
Proof.
  unfold write_gateway. destruct (choose _) as [row|].
  - destruct (bool_decide _); [by intros [= _ <-]|]. destruct (update_unique _ _ _ _) eqn:E; [|done].
    intros [= _ <-]. apply update_unique_Some in E as [-> _]. unfold accounts_stay. cbn.
    by rewrite update_where_proj by (by intros x ->%bool_decide_eq_true).
  - destruct (add_account _ _ _ _ _) eqn:E; [|done]. intros [= _ <-]. by eapply stay_add.
Qed.

Lemma stay_write_account fresh k s now id m g n d r d' : write_account fresh k s now id m g n d = Ok (r, d') -> accounts_stay d d'.
Proof.
  unfold write_account. destruct (select_first _ _); [by intros [= _ <-]|].
  destruct (add_account _ _ _ _ _) eqn:E; [|done]. intros [= _ <-]. by eapply stay_add.
Qed.

(** ** Calls *)
Definition tables_step (w w' : World) : Prop := tables_ok (db w) -> tables_ok (db w') /\ accounts_stay (db w) (db w').

#[export] Instance tables_step_preorder : PreOrder tables_step.
Proof.
  split; [by intros w H|]. intros w1 w2 w3 H1 H2 H. destruct (H1 H) as [Ha Hb]. destruct (H2 Ha) as [Hc Hd].
  split; [done|]. unfold accounts_stay in *. by etransitivity.
Qed.

Lemma tables_frame : frame_ok tables_step.
Proof. intros w w' _ _ Hd. unfold tables_step, accounts_stay. by rewrite Hd. Qed.

Lemma step_session_or {A} (answer : A) f :
  (forall now d x d', tables_ok d -> f now d = Ok (x, d') -> tables_ok d' /\ accounts_stay d d') ->
  always tables_step (session_or answer f).
Proof.
  intros Hf. apply always_catch; [|done]. apply always_session.
  - intros w w' Ho Hq Hd. by apply tables_frame.
  - intros w w' a _ _ H Hok. by eapply Hf.
Qed.

(** A program that keeps the tables well formed when they are. *)
Definition keeps_tables {A} (p : prog A) : Prop :=
  forall w, tables_ok (db w) -> wp tables_step tables_step p (fun _ _ => True) w.

Lemma keeps_always {A} (p : prog A) : always tables_step p -> keeps_tables p.
Proof. intros H w _. by apply always_wp. Qed.

Lemma ok_stable : stable tables_step (fun w => tables_ok (db w)).
Proof. intros w w' H Hw. by apply H. Qed.

Lemma listed_stable id : stable tables_step (fun w => tables_ok (db w) /\ id ∈ map ac_id (accounts (db w))).
Proof. intros w w' H [Hw Hid]. destruct (H Hw) as [? Hs]. split; [done|]. by apply Hs. Qed.

Lemma keeps_bind {A B} (p : prog A) (q : A -> prog B) :
  keeps_tables p -> (forall a, keeps_tables (q a)) -> keeps_tables (bind p q).
Proof.
  intros Hp Hq w Hw. apply wp_bind. eapply wp_mono; [|apply (wp_frame _ _ _ p _ w ok_stable ok_stable Hw (Hp w Hw))].
  intros [a|e] w' [_ Hw']; [by apply Hq|done].
Qed.

(** The accounts a query answers are stored. *)
Lemma wp_stored (q : Db -> list Account) w :
  tables_ok (db w) -> (forall d, Forall (fun a => a ∈ accounts d) (q d)) ->
  wp tables_step tables_step (catch (query q) (fun _ => Ret []))
    (fun r w' => tables_ok (db w') /\ match r with Ok l => Forall (fun a => a ∈ accounts (db w')) l | Err _ => True end) w.
Proof.
  intros Hw Hq. apply wp_catch, wp_act. intros w1 H1. destruct (H1 Hw) as [Hw1 _].
  pose proof (session_cases (fun _ d => Ok (q d, d)) w1) as H. destruct (session_step _ w1) as [r w2]. cbn.
  assert (db w2 = db w1) as E by (by destruct H as (_ & _ & [(e & _ & ?)|(x & d & [= <- <-] & ? & _)])).
  unfold tables_step. rewrite E. split; [by split|].
  destruct H as (_ & _ & [(e & -> & _)|(x & d & [= <- <-] & _ & [-> | ->])]); cbn; rewrite ?E; done.
Qed.

Lemma keeps_active user : keeps_tables (get_active_account user).
Proof.
  unfold get_active_account. apply keeps_bind; [apply keeps_always, always_attempt, always_query, tables_frame|].
  intros [[x|]|e]; [by apply keeps_always| |by apply keeps_always]. intros w Hw. apply wp_bind.
  eapply wp_mono; [|apply wp_stored; [done|]].
  - intros [[|x l]|e] w1 [Hw1 Hl]; [done| |done]. apply Forall_cons in Hl as [Hx _].
    assert (ac_id x ∈ map ac_id (accounts (db w1))) as Hid by (by apply list_elem_of_fmap_2).
    apply wp_bind. eapply wp_mono; [|apply (wp_frame _ _ _ uuid4 (fun _ _ => True) w1 (listed_stable (ac_id x)) (listed_stable (ac_id x))
      (conj Hw1 Hid)), always_wp, always_uuid4, tables_frame].
    intros [u|e] w2 [_ H2]; [|done]. apply wp_bind, wp_catch, wp_act. intros w3 H23.
    destruct (listed_stable _ _ _ H23 H2) as [H3 Hid3].
    set (f := fun (_ : instant) d => match point_session false u (str_int user) (ac_id x) d with Err e => Err e | Ok d => Ok (tt, d) end).
    pose proof (session_cases f w3) as H. destruct (session_step f w3) as [r w4]. cbn. split; [|by destruct r].
    destruct H as (_ & _ & [(e & -> & Hd)|(y & d & Hy & Hd & _)]); intros _; rewrite Hd; [done|].
    unfold f in Hy. destruct (point_session _ _ _ _ _) as [d1|] eqn:E; [|done]. injection Hy as _ <-.
    split; [by eapply ok_point|]. unfold accounts_stay. by rewrite (stay_point _ _ _ _ _ _ E).
  - intros d. apply Forall_forall. intros a Ha. by apply elem_of_held in Ha as [? _].
Qed.

Ltac step_tac :=
  apply keeps_always;
  repeat first
    [ apply always_ret
    | apply always_bind; [first [apply always_uuid4, tables_frame | apply always_clock, tables_frame | idtac]|intros ?] ].

Lemma keeps_call c : keeps_tables (run_call c).
Proof.
  assert (forall d d', accounts d' = accounts d -> accounts_stay d d') as Hsame by (intros d d' E; unfold accounts_stay; by rewrite E).
  destruct c as [id m g|id m g n|user|user|user id|token user|id user|user|id|id patch]; cbn [run_call];
    unfold upsert_gateway, create_account, set_active_account, link_telegram, admin_link_telegram, unlink_telegram,
      rotate_link_token, update_settings.
  - step_tac. apply step_session_or. intros now d x d' Hd E. split; [by eapply ok_write_gateway|by eapply stay_write_gateway].
  - step_tac. apply step_session_or. intros now d x d' Hd E. split; [by eapply ok_write_account|by eapply stay_write_account].
  - apply keeps_always, always_catch; [apply always_query, tables_frame|done].
  - apply keeps_bind; [apply keeps_active|intros a; by apply keeps_always].
  - step_tac. apply step_session_or. intros now d x d' Hd. destruct (held_account _ _ _) as [y|] eqn:Eh; [|by intros [= _ <-]].
    destruct (point_session _ _ _ _ _) as [d1|] eqn:E; [|done]. intros [= _ <-].
    apply select_first_Some in Eh as [Hy _]. split; [|by eapply Hsame, stay_point].
    eapply ok_point; [done| |exact E]. by apply list_elem_of_fmap_2.
  - step_tac. apply step_session_or. intros now d x d' Hd E. split; [by eapply ok_claim|by eapply Hsame, stay_claim].
  - step_tac. apply step_session_or. intros now d x d' Hd. destruct (select_first _ _) as [y|] eqn:Ey; [|by intros [= _ <-]].
    apply select_first_Some in Ey as [Hy _]. intros E. split; [by eapply ok_give|by eapply Hsame, stay_give].
  - apply keeps_bind; [|intros ?; by apply keeps_always]. apply keeps_bind; [apply keeps_active|].
    intros [a|]; [|by apply keeps_always]. apply keeps_always, step_session_or. intros now d x d' Hd [= _ <-].
    split; [by apply ok_drop|]. apply Hsame. unfold drop_link. by destruct (select_first _ _).
  - step_tac. apply step_session_or. intros now d x d' Hd E. split; [by eapply ok_rotate|by eapply Hsame, stay_rotate].
  - step_tac. apply step_session_or. intros now d x d' Hd [= _ <-]. split; [by apply ok_settings|].
    unfold accounts_stay. cbn. by rewrite update_where_proj.
Qed.

Lemma account_tables_kept c w evs w' o :
  tables_ok (db w) -> texec tables_step (run_call c) w evs w' o -> tables_ok (db w').
Proof.
  intros Hok He. refine (wp_stable tables_step tables_step (fun w _ => tables_ok (db w)) _ _ _ w evs w' o (SentNotice EmptyString) He _
    (keeps_call c w Hok) Hok); intros w1 w2 _ H Hs; by apply H.
Qed.

(** C26. The tables stay well formed.  Every call of the account repository, among
    any others, cut short anywhere and with any database fault, keeps the tables
    typed by their constraints: ids and secrets are unique; no two accounts share a
    market, gateway and number; a user is linked to an account at most once and has
    one session; every link, every invite token and every active selection is of a
    stored account. *)
Theorem account_tables_well_formed c w evs w' o :
  tables_ok (db w) -> texec tables_step (run_call c) w evs w' o -> tables_ok (db w').
Proof. apply account_tables_kept. Qed.
End calls.

(** The empty database is well formed, and so is what creating and claiming an
    account makes of it. *)
Lemma empty_tables_ok : tables_ok empty_db.
Proof. split; constructor. Qed.

Definition first_world : World := sample_world [] [uid 1; uid 2; uid 3; uid 4; uid 5].

Definition created_world : World := (run (run_call (CreateAccount "1234" Market.FOREX "MT5" None)) first_world).2.

Definition claimed_world : World := (run (run_call (Link (uid 3) 77)) created_world).2.

Lemma created_ok : tables_ok (db created_world).
Proof.
  exact (account_tables_kept (CreateAccount "1234" Market.FOREX "MT5" None) first_world _ created_world _ empty_tables_ok
    (texec_run tables_step _ first_world)).
Qed.

Lemma claimed_exec :
  texec tables_step (run_call (Link (uid 3) 77)) created_world (trace (run_call (Link (uid 3) 77)) created_world)
    claimed_world (Some (run (run_call (Link (uid 3) 77)) created_world).1).
Proof. exact (texec_run tables_step (run_call (Link (uid 3) 77)) created_world). Qed.

Lemma account_tables_well_formed_witness :
  length (account_bot_links (db claimed_world)) = 1 /\ tables_ok (db claimed_world).
Proof.
  split; [by vm_compute|].
  exact (account_tables_well_formed (Link (uid 3) 77) created_world _ claimed_world _ created_ok claimed_exec).
Defined.
