(* ===== verification/AccountLinks.v ===== *)
(** * Linking and the active account

    What linking a user to an account does, which account a user is then
    driving, and what unlinking leaves ([db/repository/account.py]), over a
    working database. *)

From S2P Require Import Prelude PyStr Uuid PyTime Json Enums Schemas Models World.
From S2P Require Import StatusPolicies TradeRepo AccountRepo.

(** ** Transactions *)

(** The account the user's session points at, validated or not. *)
Definition active_pointer (user : string) (d : Db) : option uuid :=
  match select_first (session_of user) (bot_sessions d) with
  | Some s => bo_active_account_id s
  | None => None
  end.

(** Drawn uuids are no row's. *)
Definition fresh_links (w : World) : Prop :=
  NoDup (uuids w) /\ (forall l, l ∈ account_bot_links (db w) -> al_id l ∉ uuids w) /\
  (forall s, s ∈ bot_sessions (db w) -> bo_id s ∉ uuids w).

Lemma link_of_true user id l :
  link_of user (Some id) l = true <->
  al_platform l = Platform.TELEGRAM /\ al_platform_user_id l = user /\ al_account_id l = id.
Proof. unfold link_of. rewrite !andb_true_iff, !bool_decide_eq_true. tauto. Qed.

Lemma session_of_true user s :
  session_of user s = true <-> bo_platform s = Platform.TELEGRAM /\ bo_platform_user_id s = user.
Proof. unfold session_of. by rewrite andb_true_iff, !bool_decide_eq_true. Qed.

Lemma holds_true user d a :
  holds user d a = true <-> exists l, l ∈ account_bot_links d /\ link_of user (Some (ac_id a)) l = true.
Proof.
  unfold holds. rewrite existsb_exists. split; intros (l & H1 & H2); exists l; (split; [|done]); by apply list_elem_of_In.
Qed.

Lemma holds_ext user d d' a :
  account_bot_links d = account_bot_links d' -> holds user d a = holds user d' a.
Proof. unfold holds. by intros ->. Qed.

Lemma add_link_ok fresh now account user d :
  (forall l, l ∈ account_bot_links d -> al_id l <> fresh) ->
  exists d', add_link fresh now account user d = Ok d' /\
    d' = set_links (account_bot_links d') d /\
    ((account_bot_links d' = account_bot_links d /\
      exists l, l ∈ account_bot_links d /\ link_of user (Some account) l = true) \/
     (account_bot_links d' = account_bot_links d ++ [new_link fresh now account user] /\
      Forall (fun l => link_of user (Some account) l = false) (account_bot_links d))).
Proof.
  intros Hf. unfold add_link. destruct (select_first _ _) as [l|] eqn:E.
  { exists d. split; [done|]. split; [by destruct d|]. left. apply select_first_Some in E. eauto. }
  apply select_first_None in E. destruct (insert_unique _ _ _) as [t|] eqn:Ei.
  - apply insert_unique_Some in Ei as [-> _]. eexists. split; [done|]. split; [done|]. by right.
  - exfalso. apply insert_unique_None in Ei as (l & Hl & Hc). apply orb_prop in Hc as [Hc|Hc].
    + apply bool_decide_eq_true in Hc. by apply (Hf l Hl).
    + apply bool_decide_eq_true in Hc. cbn in Hc. rewrite Forall_forall in E. specialize (E l Hl).
      enough (link_of user (Some account) l = true) by congruence. apply link_of_true.
      split_and!; congruence.
Qed.

Lemma point_session_ok keep fresh user account d :
  (forall s, s ∈ bot_sessions d -> bo_id s <> fresh) -> NoDup (map bo_id (bot_sessions d)) ->
  exists d', point_session keep fresh user account d = Ok d' /\
    d' = set_sessions (bot_sessions d') d /\
    active_pointer user d' = (if keep then match active_pointer user d with Some x => Some x | None => Some account end
                              else Some account) /\
    (forall user', user' <> user -> active_pointer user' d' = active_pointer user' d) /\
    (active_pointer user d = active_pointer user d' -> d' = d) /\
    NoDup (map bo_id (bot_sessions d')).
Proof.
  intros Hf Hnd. unfold point_session, active_pointer. destruct (select_first (session_of user) (bot_sessions d)) as [s|] eqn:Es.
  - destruct (keep && is_some (bo_active_account_id s)) eqn:Ek.
    { exists d. split; [done|]. split; [by destruct d|]. apply andb_prop in Ek as [-> Ek]. rewrite Es.
      by split; [destruct (bo_active_account_id s)|]. }
    apply select_first_Some in Es as Hs. destruct Hs as [Hs Hm].
    eexists. split; [done|]. split; [done|]. cbn.
    rewrite (select_first_update (session_of user)), Es by done. cbn. rewrite bool_decide_eq_true_2 by done. cbn.
    split; [destruct keep, (bo_active_account_id s); done|]. split; [|split].
    + intros user' Hu. rewrite (select_first_update (session_of user')) by done.
      destruct (select_first (session_of user') _) as [s'|] eqn:E'; [|done]. cbn.
      destruct (bool_decide_reflect (bo_id s' = bo_id s)) as [He|]; [|done]. exfalso.
      apply select_first_Some in E' as [Hs' Hm']. assert (s' = s) as -> by (by apply (nodup_map_eq bo_id (bot_sessions d))).
      apply session_of_true in Hm, Hm'. destruct Hm, Hm'. congruence.
    + intros He. destruct d. unfold set_sessions. cbn in *. f_equal. unfold update_where.
      rewrite <-(map_id bot_sessions) at 2. apply map_ext_in. intros r Hr%list_elem_of_In.
      destruct (bool_decide_reflect (bo_id r = bo_id s)) as [Hi|]; [|done].
      assert (r = s) as -> by (by apply (nodup_map_eq bo_id bot_sessions)). unfold set_active. rewrite <-He. by destruct s.
    + by rewrite update_where_proj.
  - apply select_first_None in Es as Hno. destruct (insert_unique _ _ _) as [t|] eqn:Ei.
    + apply insert_unique_Some in Ei as [-> _]. eexists. split; [done|]. split; [done|]. cbn.
      rewrite select_first_app, Es. cbn. assert (session_of user (new_session fresh user account) = true) as ->
        by (by apply session_of_true). split; [by destruct keep|].
      split; [|split; [done|apply nodup_map_snoc; [done|]; intros s Hs; apply Hf, Hs]].
      intros user' Hu. rewrite select_first_app. destruct (select_first (session_of user') _); [done|]. cbn.
      destruct (session_of user' (new_session fresh user account)) eqn:E; [|done].
      apply session_of_true in E as [_ E]. cbn in E. congruence.
    + exfalso. apply insert_unique_None in Ei as (s & Hs & Hc). apply orb_prop in Hc as [Hc|Hc].
      * apply bool_decide_eq_true in Hc. by apply (Hf s Hs).
      * apply bool_decide_eq_true in Hc. cbn in Hc. rewrite Forall_forall in Hno. specialize (Hno s Hs).
        enough (session_of user s = true) by congruence. apply session_of_true. split; congruence.
Qed.

(** What giving [user] access to [a] changes. *)
Definition access_given (user : string) (a : Account) (d d' : Db) : Prop :=
  holds user d' a = true /\
  (forall u x, u <> user \/ ac_id x <> ac_id a -> holds u d' x = holds u d x) /\
  active_pointer user d' = Some (default (ac_id a) (active_pointer user d)) /\
  (forall u, u <> user -> active_pointer u d' = active_pointer u d) /\
  accounts d' = accounts d /\
  (holds user d a = true -> is_Some (active_pointer user d) ->
     account_bot_links d' = account_bot_links d /\ bot_sessions d' = bot_sessions d).

Lemma give_access_ok fl fs now user a d :
  (forall l, l ∈ account_bot_links d -> al_id l <> fl) -> (forall s, s ∈ bot_sessions d -> bo_id s <> fs) ->
  NoDup (map bo_id (bot_sessions d)) ->
  exists d', give_access fl fs now user a d = Ok (Some a, d') /\ access_given user a d d' /\
    account_link_tokens d' = account_link_tokens d.
Proof.
  intros Hl Hs Hnd. unfold give_access.
  destruct (add_link_ok fl now (ac_id a) user d Hl) as (d1 & -> & Hd1 & Hlinks).
  destruct (point_session_ok true fs user (ac_id a) d1) as (d2 & -> & Hd2 & Hp & Ho & Hsame & _);
    [by rewrite Hd1|by rewrite Hd1|].
  exists d2. split; [done|].
  assert (account_bot_links d2 = account_bot_links d1) as El by (by rewrite Hd2).
  assert (bot_sessions d1 = bot_sessions d) as Es by (by rewrite Hd1).
  assert (forall u, active_pointer u d1 = active_pointer u d) as Ep by (intros u; unfold active_pointer; by rewrite Es).
  split; [|by rewrite Hd2, Hd1]. rewrite !Ep in *. split; [|split; [|split; [|split; [|split]]]].
  - apply holds_true. rewrite El. destruct Hlinks as [[-> H]|[-> _]]; [done|].
    exists (new_link fl now (ac_id a) user). split; [apply elem_of_app; right; by apply list_elem_of_singleton|].
    by apply link_of_true.
  - intros u x Hux. unfold holds. rewrite El. destruct Hlinks as [[-> _]|[-> _]]; [done|].
    rewrite existsb_app. cbn [existsb]. destruct (link_of u (Some (ac_id x)) (new_link _ _ _ _)) eqn:E.
    + apply link_of_true in E as (_ & E1 & E2). cbn in E1, E2. destruct Hux as [[]|[]]; congruence.
    + by rewrite !orb_false_r.
  - rewrite Hp. by destruct (active_pointer user d).
  - intros u Hu. by rewrite Ho, Ep.
  - by rewrite Hd2, Hd1.
  - intros Hh [x Hx]. rewrite El. destruct Hlinks as [[-> _]|[_ Hn]].
    + split; [done|]. rewrite Hx in Hp, Hsame. rewrite (Hsame (eq_sym Hp)). exact Es.
    + exfalso. apply holds_true in Hh as (l & Hin & Hm). rewrite Forall_forall in Hn. specialize (Hn l Hin). congruence.
Qed.

(** Tokens play no part in it. *)
Lemma give_access_tokens fl fs now user a k d :
  give_access fl fs now user a (set_link_tokens k d) =
  match give_access fl fs now user a d with
  | Ok (r, d') => Ok (r, set_link_tokens k d')
  | Err e => Err e
  end.
Proof.
  unfold give_access, add_link. cbn [account_bot_links set_link_tokens].
  destruct (select_first _ (account_bot_links d)); [|destruct (insert_unique _ _ _); [|done]];
    unfold point_session; cbn [bot_sessions set_link_tokens set_links];
    (destruct (select_first _ (bot_sessions d)); [destruct (true && _)|destruct (insert_unique _ _ _)]; done).
Qed.

Lemma claim_ok fl fs now token user created d k a :
  NoDup (map lt_token (account_link_tokens d)) -> NoDup (map ac_id (accounts d)) ->
  k ∈ account_link_tokens d -> lt_token k = token -> live_token now k = true ->
  a ∈ accounts d -> ac_id a = lt_account_id k ->
  claim_account fl fs now token user created d =
    match give_access fl fs created user a d with
    | Ok (r, d') => Ok (r, set_link_tokens (update_where (fun r => bool_decide (lt_id r = lt_id k)) (use_token now)
                             (account_link_tokens d)) d')
    | Err e => Err e
    end.
Proof.
  intros Htok Hacc Hk Ht Hlive Ha Hak. unfold claim_account.
  destruct (select_first_is_Some (fun r => bool_decide (lt_token r = token) && live_token now r)
              (account_link_tokens d) k Hk) as [k' E]; [by rewrite bool_decide_eq_true_2, Hlive|].
  rewrite E. apply select_first_Some in E as [Hk' [Ht'%bool_decide_eq_true _]%andb_prop].
  assert (k' = k) as -> by (apply (nodup_map_eq lt_token (account_link_tokens d)); congruence).
  destruct (select_first_is_Some (fun a => bool_decide (ac_id a = lt_account_id k)) (accounts d) a Ha) as [a' E];
    [by apply bool_decide_eq_true|].
  rewrite E. apply select_first_Some in E as [Ha' Hid%bool_decide_eq_true].
  assert (a' = a) as -> by (apply (nodup_map_eq ac_id (accounts d)); congruence).
  apply give_access_tokens.
Qed.

(** ** Calls over a working database *)
Lemma run_two_uuids {A} (q : uuid -> uuid -> prog A) w u1 u2 us :
  uuids w = u1 :: u2 :: us -> run (let! x := uuid4 in let! y := uuid4 in q x y) w = run (q u1 u2) (set_uuids us w).
Proof. intros H. unfold uuid4. rewrite run_bind, run_act, H, run_bind, run_act. done. Qed.

Lemma run_session_or {A} (answer : A) (f : instant -> Db -> res exn (A * Db)) w :
  db_up w -> run (session_or answer f) w =
    match f (now w) (db w) with Ok (x, d) => (Ok x, set_db d w) | Err _ => (Ok answer, w) end.
Proof.
  intros Hw. unfold session_or. rewrite run_catch, run_session_up by done. by destruct (f _ _) as [[x d]|e].
Qed.

Lemma run_link token tid w u1 u2 us :
  db_up w -> uuids w = u1 :: u2 :: us ->
  run (link_telegram token tid) w =
    match claim_account u1 u2 (now w) token (str_int tid) (now w) (db w) with
    | Ok (x, d) => (Ok x, set_db d (set_uuids us w))
    | Err _ => (Ok None, set_uuids us w)
    end.
Proof.
  intros Hw Hu. unfold link_telegram. rewrite run_bind. unfold clock. rewrite run_act. cbv beta iota.
  rewrite (run_two_uuids _ w u1 u2 us Hu), run_session_or by done. done.
Qed.

Lemma run_admin_link a tid w u1 u2 us :
  db_up w -> uuids w = u1 :: u2 :: us -> NoDup (map ac_id (accounts (db w))) -> a ∈ accounts (db w) ->
  run (admin_link_telegram (ac_id a) tid) w =
    match give_access u1 u2 (now w) (str_int tid) a (db w) with
    | Ok (x, d) => (Ok x, set_db d (set_uuids us w))
    | Err _ => (Ok None, set_uuids us w)
    end.
Proof.
  intros Hw Hu Hnd Ha. unfold admin_link_telegram. rewrite (run_two_uuids _ w u1 u2 us Hu), run_session_or by done.
  cbn [db now set_uuids].
  destruct (select_first_is_Some (fun x => bool_decide (ac_id x = ac_id a)) (accounts (db w)) a Ha) as [a' E];
    [by apply bool_decide_eq_true|].
  rewrite E. apply select_first_Some in E as [Ha' Hid%bool_decide_eq_true].
  by rewrite (nodup_map_eq ac_id (accounts (db w)) a' a).
Qed.

(** Linking an account the user holds, with one selected, is free. *)
Lemma give_access_again fl fs now user a d :
  holds user d a = true -> is_Some (active_pointer user d) -> give_access fl fs now user a d = Ok (Some a, d).
Proof.
  intros (l & Hl & Hm)%holds_true [x Hx]. unfold give_access, add_link.
  destruct (select_first_is_Some (link_of user (Some (ac_id a))) (account_bot_links d) l Hl Hm) as [l' ->].
  unfold point_session. unfold active_pointer in Hx. destruct (select_first _ (bot_sessions d)); [|done]. by rewrite Hx.
Qed.

(** A token that was used is as good as before. *)
Lemma used_again k now (t : list AccountLinkToken) :
  NoDup (map lt_token t) -> k ∈ t ->
  let t' := update_where (fun r => bool_decide (lt_id r = lt_id k)) (use_token now) t in
  NoDup (map lt_token t') /\ use_token now k ∈ t'.
Proof.
  intros Hnd Hk. cbv zeta. split; [by rewrite update_where_proj by done|].
  apply elem_of_update_where. exists k. split; [done|]. by rewrite bool_decide_eq_true_2.
Qed.

Lemma link_once_more token tid w k a u1 u2 us :
  db_up w -> uuids w = u1 :: u2 :: us -> NoDup (map lt_token (account_link_tokens (db w))) ->
  NoDup (map ac_id (accounts (db w))) ->
  k ∈ account_link_tokens (db w) -> lt_token k = token -> live_token (now w) k = true ->
  a ∈ accounts (db w) -> ac_id a = lt_account_id k ->
  holds (str_int tid) (db w) a = true -> is_Some (active_pointer (str_int tid) (db w)) ->
  exists w', run (link_telegram token tid) w = (Ok (Some a), w') /\
    account_bot_links (db w') = account_bot_links (db w) /\ bot_sessions (db w') = bot_sessions (db w).
Proof.
  intros Hw Hu Htok Hacc Hk Ht Hlive Ha Hak Hh Hp. rewrite (run_link token tid w u1 u2 us Hw Hu).
  rewrite (claim_ok u1 u2 (now w) token (str_int tid) (now w) (db w) k a) by done.
  rewrite (give_access_again u1 u2 (now w) (str_int tid) a (db w)) by done. by eexists.
Qed.


(** ** The account a user is driving *)

(** The active account: the one pointed at, if the user still holds it; else the
    first one the user holds. *)
Definition driving (user : string) (d : Db) : option Account :=
  match pointed_account user d with
  | Some x => Some x
  | None => head (accounts_held user d)
  end.

Lemma pointed_held user d x :
  pointed_account user d = Some x ->
  x ∈ accounts d /\ holds user d x = true /\ active_pointer user d = Some (ac_id x).
Proof.
  unfold pointed_account, active_pointer. destruct (select_first _ _) as [s|]; [|done].
  destruct (bo_active_account_id s) as [id|]; [|done].
  intros [Hx [<-%bool_decide_eq_true Hh]%andb_prop]%select_first_Some. done.
Qed.

Lemma driving_held user d x : driving user d = Some x -> x ∈ accounts d /\ holds user d x = true.
Proof.
  unfold driving. destruct (pointed_account user d) as [y|] eqn:E.
  - intros [= ->]. by apply pointed_held in E as (? & ? & _).
  - intros Hx. apply elem_of_held. by apply head_Some_elem_of.
Qed.

(** A pointer at an account the user holds is believed. *)
Lemma pointed_stands user d x :
  NoDup (map ac_id (accounts d)) -> x ∈ accounts d -> holds user d x = true ->
  active_pointer user d = Some (ac_id x) -> pointed_account user d = Some x.
Proof.
  intros Hnd Hx Hh. unfold active_pointer, pointed_account. destruct (select_first (session_of user) _) as [s|]; [|done].
  intros ->. unfold held_account.
  destruct (select_first_is_Some (fun a => bool_decide (ac_id a = ac_id x) && holds user d a) (accounts d) x Hx) as [y E];
    [by rewrite bool_decide_eq_true_2|].
  rewrite E. apply select_first_Some in E as [Hy [Hid%bool_decide_eq_true _]%andb_prop]. f_equal.
  by apply (nodup_map_eq ac_id (accounts d)).
Qed.

Lemma run_get_active tid w u us :
  db_up w -> uuids w = u :: us ->
  run (get_active_account tid) w =
    match pointed_account (str_int tid) (db w), head (accounts_held (str_int tid) (db w)) with
    | Some x, _ => (Ok (Some x), w)
    | None, None => (Ok None, w)
    | None, Some x =>
        (Ok (Some x), match point_session false u (str_int tid) (ac_id x) (db w) with
                      | Ok d => set_db d (set_uuids us w)
                      | Err _ => set_uuids us w
                      end)
    end.
Proof.
  intros Hw Hu. unfold get_active_account, list_by_telegram_user_id.
  rewrite run_bind, run_attempt, run_query_up, set_db_same by done. cbv beta iota.
  destruct (pointed_account _ _) as [x|]; [done|].
  rewrite run_bind, run_catch, run_query_up, set_db_same by done.
  destruct (accounts_held _ _) as [|x l]; [done|]. cbn [head]. unfold uuid4. rewrite run_bind, run_act, Hu.
  cbv beta iota. rewrite run_bind, run_session_or by done. cbn [db now set_uuids].
  by destruct (point_session _ _ _ _ _).
Qed.

Lemma get_active_ok tid w u us :
  let user := str_int tid in
  db_up w -> uuids w = u :: us -> fresh_links w ->
  NoDup (map ac_id (accounts (db w))) -> NoDup (map bo_id (bot_sessions (db w))) ->
  exists w1,
    run (get_active_account tid) w = (Ok (driving user (db w)), w1) /\ db_up w1 /\
    (uuids w1 = us \/ uuids w1 = uuids w) /\
    db w1 = set_sessions (bot_sessions (db w1)) (db w) /\
    (forall x, driving user (db w) = Some x -> active_pointer user (db w1) = Some (ac_id x)) /\
    (forall v, v <> user -> active_pointer v (db w1) = active_pointer v (db w)) /\
    (driving user (db w) = None -> w1 = w) /\
    NoDup (map bo_id (bot_sessions (db w1))).
Proof.
  intros user Hw Hu (_ & _ & Hfs) Hnd Hse. pose proof (driving_held user (db w)) as Hheld.
  rewrite (run_get_active tid w u us Hw Hu). fold user. unfold driving in *.
  assert (set_sessions (bot_sessions (db w)) (db w) = db w) as Hsame by (by destruct (db w)).
  destruct (pointed_account user (db w)) as [x|] eqn:Ep.
  { exists w. split_and!; eauto. intros y [= <-]. by destruct (pointed_held user (db w) x Ep) as (_ & _ & ?). }
  destruct (head (accounts_held user (db w))) as [x|] eqn:Eh; [|exists w; split_and!; eauto; done].
  destruct (point_session_ok false u user (ac_id x) (db w)) as (d' & -> & Hd' & Hp & Ho & _ & Hse'); [|done|].
  { intros s Hs He. apply (Hfs s Hs). rewrite Hu, He. left. }
  exists (set_db d' (set_uuids us w)). split_and!; try done; [by left|by intros y [= <-]].
Qed.

(** Asking again. *)
Lemma get_active_again tid w u us x :
  let user := str_int tid in
  db_up w -> uuids w = u :: us -> NoDup (map ac_id (accounts (db w))) ->
  x ∈ accounts (db w) -> holds user (db w) x = true -> active_pointer user (db w) = Some (ac_id x) ->
  run (get_active_account tid) w = (Ok (Some x), w).
Proof.
  intros user Hw Hu Hnd Hx Hh Hp. rewrite (run_get_active tid w u us Hw Hu). fold user.
  by rewrite (pointed_stands user (db w) x).
Qed.

Lemma drives_nobody user d :
  driving user d = None -> forall x, x ∈ accounts d -> holds user d x = false.
Proof.
  unfold driving. destruct (pointed_account user d); [done|]. intros Hh x Hx.
  destruct (holds user d x) eqn:E; [|done]. assert (x ∈ accounts_held user d) as Hin by (by apply elem_of_held).
  destruct (accounts_held _ _); [by apply elem_of_nil in Hin|done].
Qed.

(** The active account.  Over a working database [get_active_account] answers
    the account the user's session points at if the user still holds a link to
    it, and otherwise the first account the user holds, by activity and then age —
    never an account the user does not hold, and [None] only for a user with no
    account.  The answer is remembered: a second call answers the same and changes
    nothing, and no link, account or other user's selection is touched. *)
Theorem active_account_answers tid w u u' us :
  let user := str_int tid in
  db_up w -> uuids w = u :: u' :: us -> fresh_links w ->
  NoDup (map ac_id (accounts (db w))) -> NoDup (map bo_id (bot_sessions (db w))) ->
  exists w1 w2,
    run (get_active_account tid) w = (Ok (driving user (db w)), w1) /\
    (forall x, driving user (db w) = Some x ->
       x ∈ accounts (db w) /\ holds user (db w) x = true /\ active_pointer user (db w1) = Some (ac_id x)) /\
    (driving user (db w) = None -> forall x, x ∈ accounts (db w) -> holds user (db w) x = false) /\
    (account_bot_links (db w1), accounts (db w1)) = (account_bot_links (db w), accounts (db w)) /\
    (forall v, v <> user -> active_pointer v (db w1) = active_pointer v (db w)) /\
    run (get_active_account tid) w1 = (Ok (driving user (db w)), w2) /\ db w2 = db w1.
Proof.
  intros user Hw Hu Hf Hnd Hse.
  destruct (get_active_ok tid w u (u' :: us) Hw Hu Hf Hnd Hse) as (w1 & H1 & Hw1 & Hu1 & Hd1 & Hp & Ho & Hno & Hse1).
  fold user in H1, Hp, Ho, Hno. exists w1, w1. destruct (driving user (db w)) as [x|] eqn:Ed.
  - destruct (driving_held user (db w) x Ed) as [Hx Hh]. split_and!; try done.
    + intros y [= <-]. auto.
    + by rewrite Hd1.
    + assert (exists v vs, uuids w1 = v :: vs) as (v & vs & Ev) by (destruct Hu1 as [-> | ->]; rewrite ?Hu; eauto).
      apply (get_active_again tid w1 v vs x Hw1 Ev); [by rewrite Hd1..|by apply Hp].
  - specialize (Hno eq_refl) as ->. split_and!; try done. intros _. by apply drives_nobody.
Qed.

(** ** Unlinking *)
Lemma holds_dropped user x v y d :
  holds v (set_links (delete_where (link_of user (Some x)) (account_bot_links d)) d) y =
  holds v d y && negb (bool_decide (v = user) && bool_decide (ac_id y = x)).
Proof.
  destruct (holds v _ y) eqn:E.
  - apply holds_true in E as (l & [Hl Hn]%elem_of_delete_where & Hm). symmetry. apply andb_true_intro. split.
    + apply holds_true. eauto.
    + apply negb_true_iff. destruct (bool_decide_reflect (v = user)) as [->|], (bool_decide_reflect (ac_id y = x)) as [<-|];
        [congruence|done..].
  - symmetry. destruct (holds v d y) eqn:Eh; [|done]. apply holds_true in Eh as (l & Hl & Hm). cbn.
    apply negb_false_iff. destruct (link_of user (Some x) l) eqn:El.
    + apply link_of_true in El as (_ & <- & <-). apply link_of_true in Hm as (_ & -> & ->).
      by rewrite !bool_decide_eq_true_2.
    + exfalso. enough (holds v (set_links (delete_where (link_of user (Some x)) (account_bot_links d)) d) y = true) by congruence.
      apply holds_true. exists l. split; [|done]. by apply elem_of_delete_where.
Qed.

Lemma drop_link_ok user x d :
  NoDup (map bo_id (bot_sessions d)) -> is_Some (active_pointer user d) ->
  let d' := drop_link user x d in
  account_bot_links d' = delete_where (link_of user (Some x)) (account_bot_links d) /\
  accounts d' = accounts d /\
  active_pointer user d' = ac_id <$> head (accounts_held user d') /\
  (forall v, v <> user -> active_pointer v d' = active_pointer v d).
Proof.
  intros Hse [p Hp]. unfold drop_link, active_pointer in *. cbn [bot_sessions set_links].
  destruct (select_first (session_of user) (bot_sessions d)) as [s|] eqn:Es; [|done]. cbv zeta. cbn [bot_sessions set_sessions].
  split; [done|]. split; [done|]. apply select_first_Some in Es as Hs. destruct Hs as [Hs Hm].
  rewrite (select_first_update (session_of user)), Es by done. cbn. rewrite bool_decide_eq_true_2 by done. cbn. split.
  - refine (f_equal (fun l => ac_id <$> head (by_activity_then_age l)) _).
    apply list_filter_iff. intros y.
    rewrite andb_true_iff. split; [by intros [? _]|]. intros Hh. split; [done|].
    change (holds user (set_links (delete_where (link_of user (Some x)) (account_bot_links d)) d) y = true) in Hh.
    rewrite holds_dropped in Hh. apply andb_prop in Hh as [_ Hh]. by rewrite bool_decide_eq_true_2 in Hh.
  - intros v Hv. rewrite (select_first_update (session_of v)) by done.
    destruct (select_first (session_of v) _) as [s'|] eqn:E'; [|done]. cbn.
    destruct (bool_decide_reflect (bo_id s' = bo_id s)) as [He|]; [|done]. exfalso.
    apply select_first_Some in E' as [Hs' Hm']. assert (s' = s) as -> by (by apply (nodup_map_eq bo_id (bot_sessions d))).
    apply session_of_true in Hm, Hm'. destruct Hm, Hm'. congruence.
Qed.

(** A selection that is the first account held is the account driven. *)
Lemma driving_first user d :
  NoDup (map ac_id (accounts d)) -> active_pointer user d = ac_id <$> head (accounts_held user d) ->
  driving user d = head (accounts_held user d).
Proof.
  intros Hnd Hp. unfold driving. destruct (pointed_account user d) as [y|] eqn:E; [|done].
  apply pointed_held in E as (Hy & Hh & Hpy). rewrite Hpy in Hp.
  destruct (head (accounts_held user d)) as [z|] eqn:Ez; [|done]. injection Hp as Hp.
  apply head_Some_elem_of, elem_of_held in Ez as [Hz _]. f_equal. by apply (nodup_map_eq ac_id (accounts d)).
Qed.

(** Unlinking gives up the active account and nothing else.  Over a working
    database [unlink_telegram] answers [false] only for a user who holds nothing;
    otherwise exactly the user's link to the active account is gone — other users
    keep theirs, and the user every other one — and the user is now driving the
    first of the accounts still held, if any. *)
Theorem unlink_moves_on tid w u u' us :
  let user := str_int tid in
  db_up w -> uuids w = u :: u' :: us -> fresh_links w ->
  NoDup (map ac_id (accounts (db w))) -> NoDup (map bo_id (bot_sessions (db w))) ->
  match driving user (db w) with
  | None => run (unlink_telegram tid) w = (Ok false, w)
  | Some x =>
      exists w1,
        run (unlink_telegram tid) w = (Ok true, w1) /\
        (forall v y, holds v (db w1) y = holds v (db w) y && negb (bool_decide (v = user) && bool_decide (ac_id y = ac_id x))) /\
        accounts (db w1) = accounts (db w) /\
        (forall v, v <> user -> active_pointer v (db w1) = active_pointer v (db w)) /\
        driving user (db w1) = head (accounts_held user (db w1)) /\
        active_pointer user (db w1) = ac_id <$> driving user (db w1)
  end.
Proof.
  intros user Hw Hu Hf Hnd Hse.
  destruct (get_active_ok tid w u (u' :: us) Hw Hu Hf Hnd Hse) as (w1 & H1 & Hw1 & _ & Hd1 & Hp & Ho & Hno & Hse1).
  fold user in H1, Hp, Ho, Hno. unfold unlink_telegram. destruct (driving user (db w)) as [x|].
  2: { rewrite run_bind, H1. by rewrite (Hno eq_refl). }
  rewrite run_bind, H1. cbv beta iota. rewrite run_session_or by done. fold user.
  specialize (Hp x eq_refl). eexists. split; [done|].
  destruct (drop_link_ok user (ac_id x) (db w1) Hse1) as (El & Ea & Ep & Eo); [by rewrite Hp|].
  assert (driving user (drop_link user (ac_id x) (db w1)) = head (accounts_held user (drop_link user (ac_id x) (db w1)))) as Hdr
    by (apply driving_first; [by rewrite Ea, Hd1|done]).
  cbn [db set_db]. split; [|split; [|split; [|split]]].
  - intros v y. rewrite (holds_ext v _ (set_links (delete_where (link_of user (Some (ac_id x))) (account_bot_links (db w1))) (db w1)) y El).
    rewrite holds_dropped. by rewrite Hd1.
  - rewrite Ea. by rewrite Hd1.
  - intros v Hv. by rewrite Eo, Ho.
  - exact Hdr.
  - by rewrite Hdr.
Qed.
