(* ===== verification/Notifications.v ===== *)
(** * The operator's notification channels

    [Notification], [TelegramNotification] and [QueuedNotifier]
    ([services/notification_service.py]) with the factories of [providers.py]:
    a channel posts one text to every chat it is configured for and never raises;
    a queued channel takes the text and returns, and one background task sends. *)

From S2P Require Import Prelude PyStr Uuid PyTime Json Enums Schemas Models ChatTargets World Settings.
From S2P Require Import Samples SignalRepo SignalHelper SignalService Dispatcher.

(** A channel: its chat setting, its token, and whether SILENT_SIGNAL mutes it
    ([_setting_repository] given). *)
Record Channel := {
  ch_chat_id : string;
  ch_bot_token : string;
  ch_heeds_silence : bool
}.

Section channels.
Context `{CFG : Settings}.

(** [a or b] of two settings. *)
Definition or_else (a b : string) : string := if is_empty a then b else a.

(** [make_signals_notifier], [get_admin_notifier] and the channel of
    [lifespan]. *)
Definition make_signals_notifier : Channel :=
  {| ch_chat_id := or_else (tg_PRIVATE_BROADCAST_CHAT_IDS set_telegram) (tg_BROKER_LOG_CHAT_IDS set_telegram);
     ch_bot_token := tg_BOT_TOKEN set_telegram; ch_heeds_silence := true |}.

Definition get_admin_notifier : Channel :=
  {| ch_chat_id := tg_BROKER_LOG_CHAT_IDS set_telegram;
     ch_bot_token := tg_BOT_TOKEN set_telegram; ch_heeds_silence := false |}.

(** [_deliver]: one text to one chat. *)
Definition deliver_notice (text : string) (target : ChatTarget) : prog bool :=
  let! r := telegram (TgSendMessage target text) in
  Ret (match r with TgAnswer status _ _ => (status =? 200)%Z | _ => false end).

(** [should_send]. *)
Definition should_send (c : Channel) : prog bool :=
  if ch_heeds_silence c then
    let! silent := setting_get SILENT_SIGNAL in
    Ret (negb (match silent with Some v => String.eqb v "1" | None => false end))
  else Ret true.

(** [Notification.send_message]; the gathered calls are made in order. *)
Definition channel_send (c : Channel) (message_text : string) (chat_id : option string) : prog bool :=
  if negb (tg_ENABLED set_telegram) then Ret false
  else
    let raw_target := default (ch_chat_id c) chat_id in
    if is_empty (ch_bot_token c) || is_empty raw_target then Ret false
    else
      match parse_chat_targets (Some raw_target) with
      | [] => Ret false
      | targets =>
          let! wanted := should_send c in
          if negb wanted then Ret false
          else
            let! results := for_collect targets (deliver_notice (box message_text)) in
            Ret (forallb id results)
      end.

(** ** The queue in front of a channel *)
Definition NOTICE_QUEUE_MAXSIZE : nat := 200.

(** [QueuedNotifier.send_message]. *)
Definition queue_notice (message_text : string) (chat_id : option string) : prog bool :=
  with_notices (fun q =>
    if NOTICE_QUEUE_MAXSIZE <=? length q then (false, q) else (true, q ++ [(message_text, chat_id)])).

(** One turn of [_worker]: [None] when it waits for a message. *)
Definition notice_worker_step (c : Channel) : prog (option (string * option string)) :=
  let! next := with_notices (fun q => match q with [] => (None, []) | m :: q => (Some m, q) end) in
  match next with
  | None => Ret None
  | Some m => do! catch (channel_send c m.1 m.2) (fun _ => Ret false) in Ret (Some m)
  end.

(** [n] turns of [_worker]. *)
Fixpoint notice_worker_loop (c : Channel) (n : nat) : prog unit :=
  match n with
  | O => Ret tt
  | S n => do! notice_worker_step c in notice_worker_loop c n
  end.
End channels.

(** ** Facts *)

Definition accepted (r : tg_result) : bool :=
  match r with TgAnswer status _ _ => (status =? 200)%Z | _ => false end.

(** One text to many chats: one call each, in order, and the answers. *)
Lemma run_deliveries text targets w :
  exists rs w',
    run (for_collect targets (deliver_notice text)) w = (Ok (map accepted rs), w') /\
    length rs = length targets /\
    out w' = out w ++ zip_with SentTg (map (fun t => TgSendMessage t text) targets) rs /\
    db w' = db w /\ notices w' = notices w /\ now w' = now w /\ deferred w' = deferred w.
Proof.
  revert w. induction targets as [|t targets IH]; intros w.
  { exists [], w. cbn. rewrite app_nil_r. by split_and!. }
  cbn [for_collect]. unfold deliver_notice at 1. rewrite !run_bind.
  destruct (run_telegram_emit (TgSendMessage t text) w) as (r & s & ->). cbn [run]. rewrite run_bind.
  destruct (IH (emit (SentTg (TgSendMessage t text) r) (set_tg s w))) as (rs & w2 & -> & L & O & D & N & T & F).
  exists (r :: rs), w2. cbn in *. split; [done|]. split; [lia|]. rewrite O, <-app_assoc. by split_and!.
Qed.

Section channel_facts.
Context `{CFG : Settings}.

(** The chats one message of a channel goes to, and whether anything keeps it from
    being sent at all. *)
Definition destinations (c : Channel) (chat_id : option string) : list ChatTarget :=
  if negb (tg_ENABLED set_telegram) || is_empty (ch_bot_token c) then []
  else parse_chat_targets (Some (default (ch_chat_id c) chat_id)).

Lemma targets_loop_nodup specs acc :
  NoDup acc ->
  NoDup (fold_left (fun targets spec =>
          let spec := strip spec in
          if is_empty spec then targets
          else
            let target := target_of spec in
            if bool_decide (target ∈ targets) then targets else targets ++ [target]) specs acc).
Proof.
  revert acc. induction specs as [|s specs IH]; intros acc H; cbn; [done|]. apply IH.
  destruct (is_empty (strip s)); [done|]. case_bool_decide; [done|].
  apply NoDup_app. split; [done|]. split; [|apply NoDup_singleton]. intros x Hx Hs. apply list_elem_of_singleton in Hs as ->. done.
Qed.

Lemma parse_targets_nodup raw : NoDup (parse_chat_targets raw).
Proof.
  destruct raw as [raw|]; cbn; [|constructor]. destruct (is_empty raw); [constructor|].
  apply targets_loop_nodup. constructor.
Qed.

Lemma channel_send_eq c text chat_id :
  channel_send c text chat_id =
  match destinations c chat_id with
  | [] => Ret false
  | targets =>
      let! wanted := should_send c in
      if negb wanted then Ret false
      else let! results := for_collect targets (deliver_notice (box text)) in Ret (forallb id results)
  end.
Proof.
  unfold channel_send, destinations. destruct (tg_ENABLED set_telegram); cbn [negb orb]; [|done].
  destruct (is_empty (ch_bot_token c)); cbn [orb]; [done|].
  destruct (default (ch_chat_id c) chat_id); done.
Qed.

(** The channel's check of SILENT_SIGNAL: it mutes only when the stored setting
    says so, and always when the read works. *)
Lemma run_should_send c w :
  exists b s, run (should_send c) w = (Ok b, set_sched s w) /\
    (b = false -> ch_heeds_silence c = true /\ find_setting SILENT_SIGNAL (db w) = Some "1") /\
    (b = true -> ch_heeds_silence c = true -> find_setting SILENT_SIGNAL (db w) = Some "1" -> sched w <> []).
Proof.
  unfold should_send. destruct (ch_heeds_silence c).
  2: { exists true, (sched w). split; [by destruct w|done]. }
  unfold setting_get. rewrite run_bind, run_catch.
  destruct (run_query_sched (find_setting SILENT_SIGNAL) w) as (s & [->|[(e & ->) Hs]]); cbn.
  - eexists _, s. split; [done|]. destruct (find_setting SILENT_SIGNAL (db w)) as [v|]; cbn; [|naive_solver].
    destruct (String.eqb_spec v "1") as [->|]; cbn; naive_solver.
  - exists true, s. naive_solver.
Qed.

Lemma run_channel_send c text chat_id w :
  exists b w' targets rs,
    run (channel_send c text chat_id) w = (Ok b, w') /\
    (targets = destinations c chat_id /\
       (ch_heeds_silence c = true -> find_setting SILENT_SIGNAL (db w) = Some "1" -> targets = [] \/ sched w <> []) \/
     targets = [] /\ ch_heeds_silence c = true /\ find_setting SILENT_SIGNAL (db w) = Some "1") /\
    length rs = length targets /\
    out w' = out w ++ zip_with SentTg (map (fun t => TgSendMessage t (box text)) targets) rs /\
    db w' = db w /\ notices w' = notices w /\ now w' = now w /\ deferred w' = deferred w /\
    b = negb (bool_decide (targets = [])) && forallb accepted rs.
Proof.
  rewrite channel_send_eq. destruct (destinations c chat_id) as [|t ts] eqn:E.
  { exists false, w, [], []. cbn. rewrite app_nil_r. split_and!; eauto. }
  rewrite run_bind. destruct (run_should_send c w) as (b & s & -> & Hf & Ht).
  destruct b; cbn [negb].
  - rewrite run_bind. destruct (run_deliveries (box text) (t :: ts) (set_sched s w)) as (rs & w2 & -> & L & O & D & N & T & F).
    eexists _, w2, (t :: ts), rs. split; [done|]. split; [left; eauto|]. split_and!; try done.
    cbn. clear. induction rs as [|r rs IH]; cbn in *; [done|]. destruct (accepted r); cbn; [|done].
    apply IH.
  - exists false, (set_sched s w), [], []. cbn. rewrite app_nil_r. split_and!; eauto.
Qed.

(** A notice reaches every chat it is for.  Whatever the database and Telegram
    do, sending on a channel returns and changes nothing stored: it makes one call
    for each distinct chat and topic the channel names, in order, with the boxed
    text, or none when the channel has no chat, no token, is disabled, or is muted
    by a stored SILENT_SIGNAL; it answers [true] exactly when it had a chat and
    every chat accepted; and one chat's refusal keeps the text from no other. *)
Theorem notice_reaches_every_chat c text chat_id w :
  exists b w' targets rs,
    run (channel_send c text chat_id) w = (Ok b, w') /\ db w' = db w /\ NoDup targets /\
    out w' = out w ++ zip_with SentTg (map (fun t => TgSendMessage t (box text)) targets) rs /\
    length rs = length targets /\
    (b = true <-> targets <> [] /\ Forall (fun r => accepted r = true) rs) /\
    (targets = destinations c chat_id \/
     targets = [] /\ ch_heeds_silence c = true /\ find_setting SILENT_SIGNAL (db w) = Some "1") /\
    (ch_heeds_silence c = true -> find_setting SILENT_SIGNAL (db w) = Some "1" -> sched w = [] -> targets = []).
Proof.
  destruct (run_channel_send c text chat_id w) as (b & w' & targets & rs & Hr & Hc & L & O & D & _ & _ & _ & ->).
  exists (negb (bool_decide (targets = [])) && forallb accepted rs), w', targets, rs. split_and!; try done.
  - destruct Hc as [[-> _]|[-> _]]; [|constructor]. unfold destinations.
    destruct (_ || _); [constructor|]. apply parse_targets_nodup.
  - rewrite andb_true_iff, forallb_forall, List.Forall_forall, negb_true_iff, bool_decide_eq_false. done.
  - naive_solver.
  - naive_solver.
Qed.
End channel_facts.

(** ** The queue *)

(** What the rest of the broker does with the queue, and the turns of the task
    that empties it. *)
Inductive notice_op :=
| Submit (message_text : string) (chat_id : option string)
| Turn.

Section queue_facts.
Context `{CFG : Settings} (c : Channel).

(** A sequence of such steps: the texts the queue took, and those it handed over. *)
Fixpoint notice_ops (ops : list notice_op)
    : prog (list (string * option string) * list (string * option string)) :=
  match ops with
  | [] => Ret ([], [])
  | Submit text chat :: ops =>
      let! taken := queue_notice text chat in
      let! r := notice_ops ops in
      Ret (if taken then ((text, chat) :: r.1, r.2) else r)
  | Turn :: ops =>
      let! handed := notice_worker_step c in
      let! r := notice_ops ops in
      Ret (match handed with Some m => (r.1, m :: r.2) | None => r end)
  end.

(** The calls a sequence of messages makes: each message's own, in order. *)
Inductive sent_in_order : list (string * option string) -> list sent -> Prop :=
| sio_nil : sent_in_order [] []
| sio_cons m ms targets rs evs :
    (targets = destinations c m.2 \/ targets = [] /\ ch_heeds_silence c = true) ->
    length rs = length targets -> sent_in_order ms evs ->
    sent_in_order (m :: ms) (zip_with SentTg (map (fun t => TgSendMessage t (box m.1)) targets) rs ++ evs).

Lemma run_queue_notice text chat w :
  run (queue_notice text chat) w =
  if NOTICE_QUEUE_MAXSIZE <=? length (notices w) then (Ok false, w)
  else (Ok true, set_notices (notices w ++ [(text, chat)]) w).
Proof.
  unfold queue_notice, with_notices. rewrite run_act. destruct (_ <=? _)%nat; cbn; by destruct w.
Qed.

Lemma run_worker_step w :
  exists w',
    run (notice_worker_step c) w = (Ok (head (notices w)), w') /\ notices w' = tail (notices w) /\
    db w' = db w /\ exists evs, out w' = out w ++ evs /\
    sent_in_order (match notices w with [] => [] | m :: _ => [m] end) evs.
Proof.
  unfold notice_worker_step, with_notices. rewrite run_bind, run_act.
  destruct (notices w) as [|m q] eqn:E; cbn.
  { eexists. split; [done|]. cbn. split_and!; try done. exists []. rewrite app_nil_r. split; [done|constructor]. }
  rewrite run_bind, run_catch.
  destruct (run_channel_send c m.1 m.2 (set_notices q w)) as (b & w' & ts & rs & -> & Hc & L & O & D & N & _).
  exists w'. cbn. split_and!; try done. eexists. split; [exact O|].
  rewrite <-(app_nil_r (zip_with _ _ _)). constructor; [|done|constructor]. naive_solver.
Qed.

Lemma sent_in_order_app ms ms' evs evs' :
  sent_in_order ms evs -> sent_in_order ms' evs' -> sent_in_order (ms ++ ms') (evs ++ evs').
Proof. induction 1; intros H'; cbn; [done|]. rewrite <-app_assoc. constructor; auto. Qed.

(** The queue in front of a channel.  Whatever is submitted and whenever the task
    gets its turns, and whatever Telegram and the database answer: nothing stored
    changes; what the queue took is handed to the channel once each and in order;
    it never holds more than its size, so a text is refused only behind two
    hundred others; and as many turns as texts are waiting send every one. *)
Theorem notices_leave_in_order ops w :
  length (notices w) <= NOTICE_QUEUE_MAXSIZE ->
  exists taken handed w' evs,
    run (notice_ops ops) w = (Ok (taken, handed), w') /\ db w' = db w /\
    notices w ++ taken = handed ++ notices w' /\
    length (notices w') <= NOTICE_QUEUE_MAXSIZE /\
    out w' = out w ++ evs /\ sent_in_order handed evs /\
    (length (notices w) + length ops <= NOTICE_QUEUE_MAXSIZE ->
       taken = omap (fun op => match op with Submit t ch => Some (t, ch) | Turn => None end) ops) /\
    (exists w'', run (notice_ops (replicate (length (notices w')) Turn)) w' = (Ok ([], notices w'), w'') /\
       notices w'' = []).
Proof.
  assert (Hdrain : forall w, exists w'',
    run (notice_ops (replicate (length (notices w)) Turn)) w = (Ok ([], notices w), w'') /\ notices w'' = []).
  { clear. intros w. remember (notices w) as q eqn:E. revert w E. induction q as [|m q IH]; intros w E; [by exists w|].
    cbn [length replicate notice_ops]. rewrite run_bind. destruct (run_worker_step w) as (w1 & -> & N & _).
    rewrite <-E in N |- *. cbn in N |- *. rewrite run_bind. destruct (IH w1) as (w2 & -> & H2); [done|]. by exists w2. }
  revert w. induction ops as [|[text chat|] ops IH]; intros w Hw; cbn [notice_ops].
  - exists [], [], w, []. rewrite !app_nil_r. cbn. split_and!; try done; try apply sio_nil; apply Hdrain.
  - rewrite run_bind, run_queue_notice. destruct (Nat.leb_spec NOTICE_QUEUE_MAXSIZE (length (notices w))) as [Hf|Hf].
    + rewrite run_bind. destruct (IH w Hw) as (tk & hd & w' & evs & -> & D & Q & L & O & S & F & Dr).
      exists tk, hd, w', evs. split_and!; try done. cbn. lia.
    + rewrite run_bind. destruct (IH (set_notices (notices w ++ [(text, chat)]) w)) as (tk & hd & w' & evs & -> & D & Q & L & O & S & F & Dr).
      { cbn. rewrite length_app. cbn. lia. }
      exists ((text, chat) :: tk), hd, w', evs. cbn in *. rewrite <-app_assoc in Q. split_and!; try done.
      rewrite length_app in F. cbn in F. intros H. f_equal. apply F. lia.
  - rewrite run_bind. destruct (run_worker_step w) as (w1 & -> & N & D1 & ev1 & O1 & S1).
    rewrite run_bind. destruct (IH w1) as (tk & hd & w' & evs & -> & D & Q & L & O & S & F & Dr).
    { rewrite N. destruct (notices w); cbn in *; lia. }
    rewrite N in Q, F. rewrite O1, <-app_assoc in O. destruct (notices w) as [|m q]; cbn in *.
    + exists tk, hd, w', (ev1 ++ evs). split_and!; try done; [congruence| |].
      * inversion S1; subst. done.
      * intros H. apply F. lia.
    + exists tk, (m :: hd), w', (ev1 ++ evs). split_and!; try done; [congruence|cbn; congruence| |].
      * change (m :: hd) with ([m] ++ hd). by apply sent_in_order_app.
      * intros H. apply F. lia.
Qed.
End queue_facts.

(** The signal pipeline's notifier: the queue in front of the signals channel. *)
Definition QueuedNotifier : Notifier.
Proof.
  refine {| send_message := fun text => do! queue_notice text None in Ret tt |}.
  intros text. apply always_bind; [|done]. apply always_act. intros w.
  destruct (_ <=? _)%nat; cbn; (split_and!; [done..|]); exists []; by rewrite app_nil_r.
Defined.
