(* ===== verification/AccountSettings.v ===== *)
(** * The settings a worker runs on

    [services/account_settings_service.py]: an account's own settings resolved
    against the broker-wide default, and pushed to a connected worker; the worker
    ids of [schemas/account_schema.py]; the admin and system messages of
    [NatsPublisher] ([services/nats_service.py]). *)

From S2P Require Import Prelude PyStr Uuid PyTime Json Enums Schemas Models World Settings.
From S2P Require Import StatusPolicies Samples SignalRepo SignalHelper SignalService SignalWorker.
From S2P Require Import BroadcastRepo BroadcastService TradeRepo AccountRepo.

(** ** Worker ids *)

(** [decompose_worker_id]; [compose_worker_id] is in [BroadcastService]. *)
Definition decompose_worker_id (worker_id market gateway : string) : string :=
  removeprefix worker_id (market +:+ "-" +:+ gateway +:+ "-").

(** ** Publishing *)
Definition compose_admin_subject (market gateway account_id : string) : string :=
  topic_value TOPIC_ADMIN +:+ "." +:+ market +:+ "." +:+ gateway +:+ "." +:+ account_id.

(** [AdminSignal._require_market_gateway_with_account_id]. *)
Definition admin_signal_valid (s : AdminSignal) : bool :=
  match ad_account_id s, ad_market s, ad_gateway s with
  | Some _, Some _, Some _ => true
  | Some _, _, _ => false
  | None, _, _ => true
  end.

Definition admin_subject (s : AdminSignal) : string :=
  match ad_account_id s, ad_market s, ad_gateway s with
  | Some id, Some m, Some g => compose_admin_subject (market_value m) g id
  | _, _, _ => topic_value TOPIC_ADMIN
  end.

Definition publish_admin_signal (s : AdminSignal) : prog unit :=
  if admin_signal_valid s then nats (SentAdmin (admin_subject s) s) else Raise ValidationError.

(** [subject or PublishTopicEnum.SYSTEM.value]. *)
Definition system_target (subject : option string) : string :=
  match subject with Some s => if is_empty s then topic_value TOPIC_SYSTEM else s | None => topic_value TOPIC_SYSTEM end.

Definition publish_system_signal (subject : option string) (account_id : string) (symbols : option (list string))
    (default_leverage : option Z) : prog unit :=
  nats (SentSystem (system_target subject) (SystemCryptoLeverageInitSignal account_id symbols default_leverage)).

Definition publish_system_settings_update (subject : option string) (account_id : string)
    (settings : AccountSettings) : prog unit :=
  nats (SentSystem (system_target subject) (SystemWorkerSettingsUpdateSignal account_id settings)).

Definition publish_system_ack (subject : option string) (account_id : string) (strategy_magic_map : list (string * Z))
    (retry_signals : list TradingSignal) (settings : AccountSettings) (crypto : option CryptoLeverageConfig)
    : prog unit :=
  nats (SentSystem (system_target subject)
          (SystemWorkerConnectedAck account_id strategy_magic_map retry_signals settings crypto)).

(** [Optional[str]] of a decoded value: text and null; pydantic refuses the rest. *)
Definition optional_text (v : json) : option (option string) :=
  match v with JNull => Some None | JStr s => Some (Some s) | _ => None end.

Definition publish_system_error (subject : string) (account_id : json) (reason : string) : prog unit :=
  match optional_text account_id with
  | Some id => nats (SentSystem subject (SystemWorkerConnectedError id reason))
  | None => Raise ValidationError
  end.

(** ** Parsing and resolving *)

(** pydantic on the two fields of [AccountSettings] and on the handshake. *)
Class SettingsPydantic := {
  validate_signal_blocked : json -> option bool;
  validate_max_open_orders : json -> option (option Z);
  validate_worker_connected : list (string * json) -> option SystemWorkerConnectedSignal;
  validate_bool : forall b, validate_signal_blocked (JBool b) = Some b;
  validate_null : validate_max_open_orders JNull = Some None;
  validate_int : forall z, (0 <= z)%Z -> validate_max_open_orders (JInt z) = Some (Some z);
  validate_ge : forall v z, validate_max_open_orders v = Some (Some z) -> (0 <= z)%Z
}.

Definition parse_global_max_open_orders (raw : option string) : Z :=
  match raw with
  | None => DEFAULT_MAX_OPEN_ORDERS
  | Some raw =>
      match py_int 10 raw with
      | None => DEFAULT_MAX_OPEN_ORDERS
      | Some value => if (value <? 0)%Z then DEFAULT_MAX_OPEN_ORDERS else value
      end
  end.

Definition resolve_account_settings (settings : AccountSettings) (global_max_open_orders : Z) : AccountSettings :=
  match as_max_open_orders settings with
  | None => {| as_signal_blocked := as_signal_blocked settings; as_max_open_orders := Some global_max_open_orders |}
  | Some _ => settings
  end.

Section parse.
Context `{SP : SettingsPydantic}.

Definition default_account_settings : AccountSettings :=
  {| as_signal_blocked := false; as_max_open_orders := None |}.

(** [kept[name] = value] when [AccountSettings( **{name: value} )] accepts it. *)
Definition keep_field (s : AccountSettings) (kv : string * json) : AccountSettings :=
  let '(name, value) := kv in
  if String.eqb name ACCOUNT_SETTING_SIGNAL_BLOCKED then
    match validate_signal_blocked value with
    | Some b => {| as_signal_blocked := b; as_max_open_orders := as_max_open_orders s |}
    | None => s
    end
  else if String.eqb name ACCOUNT_SETTING_MAX_OPEN_ORDERS then
    match validate_max_open_orders value with
    | Some m => {| as_signal_blocked := as_signal_blocked s; as_max_open_orders := m |}
    | None => s
    end
  else s.

Definition parse_account_settings (raw : json) : AccountSettings :=
  match raw with
  | JObj kvs => fold_left keep_field kvs default_account_settings
  | _ => default_account_settings
  end.
End parse.

(** ** The live push *)

(** [not gateway]. *)
Definition no_gateway (gateway : option string) : bool :=
  match gateway with Some g => is_empty g | None => true end.

Definition push_worker_settings_update (account_id : string) (market : MarketTypeEnum) (gateway : option string)
    (settings : AccountSettings) : prog unit :=
  if no_gateway gateway then Ret tt
  else
    let worker_id := compose_worker_id (market_value market) (default EmptyString gateway) account_id in
    catch (publish_system_settings_update None worker_id settings) (fun _ => Ret tt).

(** ** Facts *)

(** A field's value, from its own key alone. *)
Lemma resolve_concrete s g : is_Some (as_max_open_orders (resolve_account_settings s g)).
Proof. unfold resolve_account_settings. destruct (as_max_open_orders s) eqn:E; [rewrite E|]; eauto. Qed.

Lemma decompose_compose market gateway account_id :
  decompose_worker_id (compose_worker_id market gateway account_id) market gateway = account_id.
Proof.
  unfold decompose_worker_id, compose_worker_id.
  replace (market +:+ "-" +:+ gateway +:+ "-" +:+ account_id)
    with ((market +:+ "-" +:+ gateway +:+ "-") +:+ account_id) by (by rewrite !string_app_assoc).
  apply removeprefix_app.
Qed.

Section facts.
Context `{SP : SettingsPydantic}.

Lemma keep_blocked kvs s :
  as_signal_blocked (fold_left keep_field kvs s) =
  match omap (fun kv => if String.eqb kv.1 ACCOUNT_SETTING_SIGNAL_BLOCKED then validate_signal_blocked kv.2 else None)
          (rev kvs) with
  | b :: _ => b
  | [] => as_signal_blocked s
  end.
Proof.
  revert s. induction kvs as [|[k v] kvs IH] using rev_ind; intros s; [done|].
  rewrite fold_left_app, rev_app_distr. cbn [fold_left rev app]. csimpl. unfold keep_field at 1.
  destruct (String.eqb k ACCOUNT_SETTING_SIGNAL_BLOCKED) eqn:E.
  - destruct (validate_signal_blocked v); [done|apply IH].
  - destruct (String.eqb k ACCOUNT_SETTING_MAX_OPEN_ORDERS); [|apply IH].
    destruct (validate_max_open_orders v); apply IH.
Qed.

Lemma keep_cap kvs s :
  as_max_open_orders (fold_left keep_field kvs s) =
  match omap (fun kv => if String.eqb kv.1 ACCOUNT_SETTING_MAX_OPEN_ORDERS then validate_max_open_orders kv.2 else None)
          (rev kvs) with
  | m :: _ => m
  | [] => as_max_open_orders s
  end.
Proof.
  revert s. induction kvs as [|[k v] kvs IH] using rev_ind; intros s; [done|].
  rewrite fold_left_app, rev_app_distr. cbn [fold_left rev app]. csimpl. unfold keep_field at 1.
  destruct (String.eqb k ACCOUNT_SETTING_SIGNAL_BLOCKED) eqn:E.
  - apply String.eqb_eq in E as ->. cbn. destruct (validate_signal_blocked v); apply IH.
  - destruct (String.eqb k ACCOUNT_SETTING_MAX_OPEN_ORDERS); [|apply IH].
    destruct (validate_max_open_orders v); [done|apply IH].
Qed.
End facts.
