(* ===== verification/AdminApi.v ===== *)
(** * The administrator's API

    The routes of [api/admin.py], from the validated request on, with the checks of
    [schemas/admin_schema.py] and the key check of [security/ensure_api_key.py]. *)

From S2P Require Import Prelude PyStr Uuid PyTime Json JsonText Enums Schemas Models ChatTargets World Settings TimeZone.
From S2P Require Import StatusPolicies Samples SignalRepo SignalHelper SignalService SignalWorker.
From S2P Require Import BroadcastRepo BroadcastService TradeRepo AccountRepo Notifications AccountSettings.
From Stdlib Require Import Ascii SpecFloat.

(** ** Answers *)
Record SettingToggleResponse := { st_setting : string; st_value : string; st_state : string }.
Record SettingValueResponse := { sv_setting : string; sv_value : string }.
Record RotateTokenResponse := { rt_account_id : string; rt_link_token : uuid }.
Record AdminResponse := { ar_action : string; ar_scope : string }.

(** ** Requests *)

(** [GATEWAYS_BY_MARKET.get(market, [])]. *)
Definition GATEWAYS_BY_MARKET (m : MarketTypeEnum) : list string :=
  match m with Market.FOREX => ["MT5"] | Market.CRYPTO => ["BINANCE"] end.

Record CreateAccountRequest := {
  ca_market : MarketTypeEnum;
  ca_gateway : string;
  ca_account_id : string;
  ca_account_name : option string
}.

Record FlatRequest := {
  fr_strategy : option string;
  fr_symbol : option string;
  fr_account_id : option string;
  fr_market : option MarketTypeEnum;
  fr_gateway : option string
}.

Definition str_len (s : string) : nat := length (code_points s).

(** The field constraints of [CreateAccountRequest]: lengths, and no colon or blank
    in the account id. *)
Definition create_account_valid (b : CreateAccountRequest) : bool :=
  (1 <=? str_len (ca_gateway b)) && (str_len (ca_gateway b) <=? 50) &&
  (1 <=? str_len (ca_account_id b)) && (str_len (ca_account_id b) <=? 50) &&
  forallb (fun c => negb (Ascii.eqb c ":") && negb (is_space c)) (chars (ca_account_id b)).

(** [FlatRequest._require_market_gateway_with_account_id]. *)
Definition flat_valid (b : FlatRequest) : bool :=
  match fr_account_id b, fr_market b, fr_gateway b with
  | None, _, _ => true
  | Some _, Some _, Some _ => true
  | Some _, _, _ => false
  end.

(** ** The key *)

Section admin.
Context `{CFG : Settings} `{SP : SettingsPydantic} `{CA : RowChoice Account}.

Definition ensure_api_key (api_key : option string) : prog unit :=
  if is_empty (api_API_KEY set_broker_api) then Raise (HTTPException 500 "Broker API key not configured")
  else
    match api_key with
    | Some key => if String.eqb key (api_API_KEY set_broker_api) then Ret tt
                  else Raise (HTTPException 401 "Invalid or missing API key")
    | None => Raise (HTTPException 401 "Invalid or missing API key")
    end.

(** ** Settings *)
Definition state_label (enabled : bool) : string := if enabled then "ENABLED" else "DISABLED".

Definition flag (enabled : bool) : string := if enabled then "1" else "0".

Definition not_updated : exn := HTTPException 500 "Failed to update broker setting".

(** The notice posted after a change, with its own last line. *)
Definition changed_notice (key line : string) : string :=
  "⚙️ <b>Broker setting changed</b>" +:+ newline +:+ "Setting: <code>" +:+ key +:+ "</code>" +:+ newline +:+
  line +:+ newline.

Definition notify_admin (text : string) : prog unit :=
  do! channel_send get_admin_notifier text None in Ret tt.

(** [ok = await setting_repo.set(...)], a failure answered 500. *)
Definition store_setting (key value : string) : prog unit :=
  let! ok := setting_set key value in
  if (ok : bool) then Ret tt else Raise not_updated.

(** [_reply_notify_state] and [_set_reply_notify]. *)
Definition reply_notify_state (key : string) : prog SettingToggleResponse :=
  let! value := setting_get key in
  let enabled := negb (match value with Some v => String.eqb v "0" | None => false end) in
  Ret {| st_setting := key; st_value := flag enabled; st_state := state_label enabled |}.

Definition set_reply_notify (key : string) (enabled : bool) : prog SettingToggleResponse :=
  do! store_setting key (flag enabled) in
  do! notify_admin (changed_notice key ("Reply notify: <b>" +:+ state_label enabled +:+ "</b>")) in
  Ret {| st_setting := key; st_value := flag enabled; st_state := state_label enabled |}.

(** [get_settings]. *)
Definition toggle_state (key : string) : prog SettingToggleResponse :=
  let! value := setting_get key in
  let value := match value with Some v => if is_empty v then "0" else v | None => "0" end in
  Ret {| st_setting := key; st_value := value; st_state := state_label (String.eqb value "1") |}.

Definition get_toggles : prog (list SettingToggleResponse) :=
  for_collect [SIGNAL_BLOCKED; SILENT_SIGNAL; NOTIFICATION_INCLUDE_SIGNAL_RAW] toggle_state.

(** The three toggles differ in the setting and in the notice's words. *)
Definition toggle (key words : string) : prog SettingToggleResponse :=
  let! current := setting_get key in
  let enabled := negb (match current with Some v => String.eqb v "1" | None => false end) in
  do! store_setting key (flag enabled) in
  do! notify_admin (changed_notice key (words +:+ ": <b>" +:+ state_label enabled +:+ "</b>")) in
  Ret {| st_setting := key; st_value := flag enabled; st_state := state_label enabled |}.

Definition toggle_block_signal : prog SettingToggleResponse := toggle SIGNAL_BLOCKED "Signal blocked".
Definition toggle_silent_signal : prog SettingToggleResponse := toggle SILENT_SIGNAL "Silent signal".
Definition toggle_include_signal_raw : prog SettingToggleResponse :=
  toggle NOTIFICATION_INCLUDE_SIGNAL_RAW "Include signal raw".

(** The routes that answer a setting as it is stored, or [""]. *)
Definition setting_value (key : string) : prog SettingValueResponse :=
  let! value := setting_get key in
  Ret {| sv_setting := key; sv_value := default EmptyString value |}.

Definition set_value (key value line : string) : prog SettingValueResponse :=
  do! store_setting key value in
  do! notify_admin (changed_notice key line) in
  Ret {| sv_setting := key; sv_value := value |}.

(** [dict.fromkeys(l)]: the first of equal values. *)
Definition fromkeys (l : list string) : list string :=
  fold_left (fun d s => if bool_decide (s ∈ d) then d else d ++ [s]) l [].

(** [_normalise_chat_ids]. *)
Definition normalise_chat_ids (raw : option string) : list string :=
  match raw with
  | None => []
  | Some raw =>
      if is_empty raw then []
      else fromkeys (base.filter (fun i => negb (is_empty i) && negb (String.eqb i "-") = true)
                       (map strip (split "," raw)))
  end.

Definition set_public_broadcast_chat_ids (chat_ids : list string) : prog SettingValueResponse :=
  let value := join "," (normalise_chat_ids (Some (join "," chat_ids))) in
  set_value PUBLIC_BROADCAST_CHAT_IDS_KEY value
    ("Chats: <b>" +:+ (if is_empty value then "(none — public broadcast off)" else value) +:+ "</b>").

(** ** Pushes to connected workers *)

(** [_push_crypto_leverage_init]. *)
Definition push_crypto_leverage_init : prog unit :=
  let! values := setting_get_many [CRYPTO_ALLOWED_SYMBOL_KEY; CRYPTO_MAX_LEVERAGE_KEY] in
  match assoc CRYPTO_ALLOWED_SYMBOL_KEY values, assoc CRYPTO_MAX_LEVERAGE_KEY values with
  | Some symbols_raw, Some leverage_raw =>
      let symbols := base.filter (fun s => negb (is_empty s) = true) (map strip (split "," symbols_raw)) in
      match py_int 10 leverage_raw with
      | None => Ret tt
      | Some default_leverage =>
          if (default_leverage <=? 0)%Z then Ret tt
          else
            let! accounts := get_by_market Market.CRYPTO in
            for_each accounts (fun account =>
              if no_gateway (ac_gateway account) then Ret tt
              else
                let worker_id := compose_worker_id (market_value (ac_market account))
                                   (default EmptyString (ac_gateway account)) (ac_account_id account) in
                catch (publish_system_signal None worker_id (Some symbols) (Some default_leverage)) (fun _ => Ret tt))
      end
  | _, _ => Ret tt
  end.

(** [_push_max_open_orders]. *)
Definition push_max_open_orders : prog unit :=
  let! raw := setting_get MAX_OPEN_ORDERS_KEY in
  let global_value := parse_global_max_open_orders raw in
  let! accounts := get_all in
  for_each accounts (fun account =>
    push_worker_settings_update (ac_account_id account) (ac_market account) (ac_gateway account)
      (resolve_account_settings (parse_account_settings (JObj (ac_settings account))) global_value)).

(** [list(dict.fromkeys(s.strip().upper() for s in symbols if s.strip()))]. *)
Definition clean_symbols (symbols : list string) : list string :=
  fromkeys (map (fun s => upper (strip s)) (base.filter (fun s => negb (is_empty (strip s)) = true) symbols)).

Definition set_crypto_allowed_symbol (symbols : list string) : prog SettingValueResponse :=
  match clean_symbols symbols with
  | [] => Raise (HTTPException 422 "symbols must contain at least one non-empty value")
  | symbols =>
      let value := join "," symbols in
      let! answer := set_value CRYPTO_ALLOWED_SYMBOL_KEY value ("Symbols: <b>" +:+ value +:+ "</b>") in
      do! push_crypto_leverage_init in
      Ret answer
  end.

Definition set_crypto_max_leverage (default_leverage : Z) : prog SettingValueResponse :=
  let value := str_int default_leverage in
  let! answer := set_value CRYPTO_MAX_LEVERAGE_KEY value ("Default leverage: <b>" +:+ value +:+ "</b>") in
  do! push_crypto_leverage_init in
  Ret answer.

Definition get_default_max_open_orders : prog SettingValueResponse :=
  let! raw := setting_get MAX_OPEN_ORDERS_KEY in
  Ret {| sv_setting := MAX_OPEN_ORDERS_KEY; sv_value := str_int (parse_global_max_open_orders raw) |}.

Definition set_default_max_open_orders (max_open_orders : Z) : prog SettingValueResponse :=
  let value := str_int max_open_orders in
  let! answer := set_value MAX_OPEN_ORDERS_KEY value
    ("Max open orders: <b>" +:+ value +:+ "</b>" +:+ newline +:+ "Accounts with their own cap are unaffected.") in
  do! push_max_open_orders in
  Ret answer.

Definition get_stored_magic_map : prog SettingValueResponse :=
  let! value := setting_get STRATEGY_MAGIC_MAP_KEY in
  Ret {| sv_setting := STRATEGY_MAGIC_MAP_KEY; sv_value := default "{}" value |}.

Definition set_strategy_magic_map (magic_map : list (string * Z)) : prog SettingValueResponse :=
  set_value STRATEGY_MAGIC_MAP_KEY (json_dumps magic_map)
    ("Strategies mapped: <b>" +:+ str_int (Z.of_nat (length magic_map)) +:+ "</b>").

Definition get_notification_timezone : prog SettingValueResponse :=
  let! raw := setting_get NOTIFICATION_TIMEZONE_KEY in
  Ret {| sv_setting := NOTIFICATION_TIMEZONE_KEY; sv_value := format_offset_value (parse_offset_hours raw) |}.

Definition set_notification_timezone (utc_offset_hours : float) : prog SettingValueResponse :=
  set_value NOTIFICATION_TIMEZONE_KEY (format_offset_value utc_offset_hours)
    ("Notification timezone: <b>" +:+ format_utc_label utc_offset_hours +:+ "</b>").

(** ** Trading *)
Definition scope_part (name : string) (value : option string) : list string :=
  match value with Some v => if is_empty v then [] else [name +:+ "=" +:+ v] | None => [] end.

Definition flat_scope (b : FlatRequest) : string :=
  let parts := scope_part "strategy" (fr_strategy b) ++ scope_part "symbol" (fr_symbol b) ++
               scope_part "account" (fr_account_id b) ++ scope_part "market" (market_value <$> fr_market b) ++
               scope_part "gateway" (fr_gateway b) in
  match parts with [] => "ALL" | _ => join ", " parts end.

Definition flat_signal (b : FlatRequest) (t : instant) : AdminSignal :=
  {| ad_action := ADMIN_FLAT; ad_timestamp := t; ad_strategy := fr_strategy b; ad_symbol := fr_symbol b;
     ad_account_id := fr_account_id b; ad_market := fr_market b; ad_gateway := fr_gateway b; ad_ref_id := None |}.

Definition flat_positions (b : FlatRequest) : prog AdminResponse :=
  let! t := clock in
  do! publish_admin_signal (flat_signal b t) in
  do! notify_admin ("🛡️ <b>[ADMIN]FLAT</b>" +:+ newline +:+ "Scope: <code>" +:+ flat_scope b +:+ "</code>" +:+ newline) in
  Ret {| ar_action := "FLAT"; ar_scope := flat_scope b |}.

(** ** Accounts *)

(** [AccountResponse.model_validate(account)] with the account's summary, when there
    is one. *)
Definition with_summary (account : Account) : prog AccountResponse :=
  let! summaries := get_link_summaries [ac_id account] in
  let summary := default no_summary (summaries !! ac_id account) in
  Ret {| rs_account := account; rs_link_token := link_token summary; rs_linked_user_ids := linked_user_ids summary |}.

(** [str] of a list of gateways. *)
Definition gateways_text (l : list string) : string :=
  "[" +:+ join ", " (map (fun g => "'" +:+ g +:+ "'") l) +:+ "]".

Definition register_account (b : CreateAccountRequest) : prog AccountResponse :=
  let valid_gateways := GATEWAYS_BY_MARKET (ca_market b) in
  if bool_decide (ca_gateway b ∈ valid_gateways) then
    let! account := create_account (ca_account_id b) (ca_market b) (ca_gateway b) (ca_account_name b) in
    match account with
    | None => Raise (HTTPException 409 "account_id already exists")
    | Some account => with_summary account
    end
  else Raise (HTTPException 422 ("gateway must be one of " +:+ gateways_text valid_gateways +:+ " for market=" +:+
                                 market_value (ca_market b))).

Definition account_not_found : exn := HTTPException 404 "Account not found".

Definition rotate_account_token (account_id : string) : prog RotateTokenResponse :=
  let! new_token := rotate_link_token account_id in
  match new_token with
  | None => Raise account_not_found
  | Some token => Ret {| rt_account_id := account_id; rt_link_token := token |}
  end.

Definition link_telegram_to_account (account_uuid : uuid) (telegram_user_id : Z) : prog AccountResponse :=
  let! account := admin_link_telegram account_uuid telegram_user_id in
  match account with
  | None => Raise account_not_found
  | Some account => with_summary account
  end.

(** ** The routes that change a setting *)
Inductive SettingRequest :=
| ToggleBlockSignal
| ToggleSilentSignal
| ToggleIncludeSignalRaw
| SetCryptoAllowedSymbol (symbols : list string)
| SetPublicBroadcastChatIds (chat_ids : list string)
| SetPrivateReplyNotify (enabled : bool)
| SetPublicReplyNotify (enabled : bool)
| SetCryptoMaxLeverage (default_leverage : Z)
| SetMaxOpenOrders (max_open_orders : Z)
| SetStrategyMagicMap (magic_map : list (string * Z))
| SetNotificationTimezone (utc_offset_hours : float).

Definition setting_of (r : SettingRequest) : string :=
  match r with
  | ToggleBlockSignal => SIGNAL_BLOCKED
  | ToggleSilentSignal => SILENT_SIGNAL
  | ToggleIncludeSignalRaw => NOTIFICATION_INCLUDE_SIGNAL_RAW
  | SetCryptoAllowedSymbol _ => CRYPTO_ALLOWED_SYMBOL_KEY
  | SetPublicBroadcastChatIds _ => PUBLIC_BROADCAST_CHAT_IDS_KEY
  | SetPrivateReplyNotify _ => PRIVATE_REPLY_NOTIFY_KEY
  | SetPublicReplyNotify _ => PUBLIC_REPLY_NOTIFY_KEY
  | SetCryptoMaxLeverage _ => CRYPTO_MAX_LEVERAGE_KEY
  | SetMaxOpenOrders _ => MAX_OPEN_ORDERS_KEY
  | SetStrategyMagicMap _ => STRATEGY_MAGIC_MAP_KEY
  | SetNotificationTimezone _ => NOTIFICATION_TIMEZONE_KEY
  end.

(** The constraints of the request bodies ([admin_schema]). *)
Definition setting_body_valid (r : SettingRequest) : bool :=
  match r with
  | SetCryptoAllowedSymbol symbols => negb (length symbols =? 0)
  | SetCryptoMaxLeverage z => (0 <? z)%Z
  | SetMaxOpenOrders z => (0 <=? z)%Z
  | SetStrategyMagicMap m => negb (length m =? 0)
  | SetNotificationTimezone h =>
      SFleb (float_of_decimal true 12 0) h && SFleb h (float_of_decimal false 14 0)
  | _ => true
  end.

Definition value_of_toggle (p : prog SettingToggleResponse) : prog string := let! r := p in Ret (st_value r).
Definition value_of_set (p : prog SettingValueResponse) : prog string := let! r := p in Ret (sv_value r).

(** The value each route answers. *)
Definition change_setting (r : SettingRequest) : prog string :=
  match r with
  | ToggleBlockSignal => value_of_toggle toggle_block_signal
  | ToggleSilentSignal => value_of_toggle toggle_silent_signal
  | ToggleIncludeSignalRaw => value_of_toggle toggle_include_signal_raw
  | SetCryptoAllowedSymbol symbols => value_of_set (set_crypto_allowed_symbol symbols)
  | SetPublicBroadcastChatIds ids => value_of_set (set_public_broadcast_chat_ids ids)
  | SetPrivateReplyNotify enabled => value_of_toggle (set_reply_notify PRIVATE_REPLY_NOTIFY_KEY enabled)
  | SetPublicReplyNotify enabled => value_of_toggle (set_reply_notify PUBLIC_REPLY_NOTIFY_KEY enabled)
  | SetCryptoMaxLeverage z => value_of_set (set_crypto_max_leverage z)
  | SetMaxOpenOrders z => value_of_set (set_default_max_open_orders z)
  | SetStrategyMagicMap m => value_of_set (set_strategy_magic_map m)
  | SetNotificationTimezone h => value_of_set (set_notification_timezone h)
  end.

(** A route behind the key: the key is checked before the body. *)
Definition behind_key {A} (api_key : option string) (valid : bool) (route : prog A) : prog A :=
  do! ensure_api_key api_key in
  if valid then route else Raise ValidationError.
End admin.
