(* ===== verification/SystemConsumer.v ===== *)
(** * The handshake of a worker

    [SystemEventConsumer] ([services/nats_service.py]): a worker announces itself
    on the SYSTEM subject and is answered with its whole initial configuration in
    one message. *)

From S2P Require Import Prelude PyStr Uuid PyTime Json JsonText Enums Schemas Models World Settings.
From S2P Require Import StatusPolicies Samples SignalRepo SignalHelper SignalService SignalWorker.
From S2P Require Import BroadcastRepo BroadcastService TradeRepo AccountRepo AccountSettings.
From Stdlib Require Import Ascii.

(** The data of a message: bytes that are not UTF-8, text that is not JSON, or a
    value. *)
Inductive SystemData := NotText | NotJson | Decoded (v : json).

(** A message of the SYSTEM subject; [sm_reply] is its inbox, or empty. *)
Record SystemMsg := {
  sm_data : SystemData;
  sm_reply : string
}.

(** 30 seconds, on the clock the caches are stamped with. *)
Definition CRYPTO_SETTINGS_CACHE_TTL : Z := 30000000.

(** [_parse_strategy_magic_map]. *)
Definition parse_strategy_magic_map (raw : option string) : list (string * Z) :=
  match raw with
  | None => []
  | Some raw =>
      if is_empty raw then []
      else
        match json_loads raw with
        | Some (JObj kvs) => omap (fun kv => match kv.2 with JInt z => Some (kv.1, z) | _ => None end) kvs
        | _ => []
        end
  end.

Section consumer.
Context `{PY : Pydantic} `{SP : SettingsPydantic} `{CA : RowChoice Account}.
(** Whether a [SignalRepository] is wired in. *)
Context (signals_wired : bool).

(** [_remember_worker]. *)
Definition remember_worker (event : SystemWorkerConnectedSignal) : prog unit :=
  let account_id := decompose_worker_id (wc_account_id event) (market_value (wc_market event)) (wc_gateway event) in
  catch (upsert_gateway account_id (wc_market event) (wc_gateway event)) (fun _ => Ret tt).

(** [_get_global_max_open_orders]. *)
Definition get_global_max_open_orders : prog Z :=
  let! raw := setting_get MAX_OPEN_ORDERS_KEY in
  Ret (parse_global_max_open_orders raw).

(** [_build_account_settings]. *)
Definition build_account_settings (event : SystemWorkerConnectedSignal) : prog AccountSettings :=
  let account_id := decompose_worker_id (wc_account_id event) (market_value (wc_market event)) (wc_gateway event) in
  let! raw := catch (let! settings := get_settings account_id (wc_market event) (wc_gateway event) in
                     Ret (JObj settings)) (fun _ => Ret JNull) in
  let! global := get_global_max_open_orders in
  Ret (resolve_account_settings (parse_account_settings raw) global).

(** [_get_strategy_magic_map]. *)
Definition get_strategy_magic_map : prog (list (string * Z)) :=
  let! now := clock in
  let! c := with_caches (fun c => (c, c)) in
  let read :=
    let! raw := setting_get STRATEGY_MAGIC_MAP_KEY in
    let m := parse_strategy_magic_map raw in
    with_caches (fun c => (m, {| crypto_settings_cache := crypto_settings_cache c;
                                 crypto_settings_cached_at := crypto_settings_cached_at c;
                                 magic_map_cache := Some m; magic_map_cached_at := now |})) in
  match magic_map_cache c with
  | Some m => if (now - magic_map_cached_at c <? CRYPTO_SETTINGS_CACHE_TTL)%Z then Ret m else read
  | None => read
  end.

(** [_build_strategy_magic_map]. *)
Definition build_strategy_magic_map (strategies : list string) : prog (list (string * Z)) :=
  match strategies with
  | [] => Ret []
  | _ =>
      let! magic_map := get_strategy_magic_map in
      Ret (base.filter (fun kv => kv.1 ∈ strategies) magic_map)
  end.

(** [_get_crypto_settings]. *)
Definition get_crypto_settings : prog (option string * option string) :=
  let! now := clock in
  let! c := with_caches (fun c => (c, c)) in
  let read :=
    let! values := setting_get_many [CRYPTO_ALLOWED_SYMBOL_KEY; CRYPTO_MAX_LEVERAGE_KEY] in
    let settings := (assoc CRYPTO_ALLOWED_SYMBOL_KEY values, assoc CRYPTO_MAX_LEVERAGE_KEY values) in
    with_caches (fun c => (settings, {| crypto_settings_cache := Some settings; crypto_settings_cached_at := now;
                                    magic_map_cache := magic_map_cache c;
                                    magic_map_cached_at := magic_map_cached_at c |})) in
  match crypto_settings_cache c with
  | Some settings => if (now - crypto_settings_cached_at c <? CRYPTO_SETTINGS_CACHE_TTL)%Z then Ret settings else read
  | None => read
  end.

(** [_reply_error]. *)
Definition reply_error (reply_to : string) (account_id : json) (reason : string) : prog unit :=
  if is_empty reply_to then Ret tt
  else catch (publish_system_error reply_to account_id reason) (fun _ => Ret tt).

(** What [_build_crypto_leverage] makes of the two settings; [Err] is the reason
    the handshake is refused with. *)
Definition crypto_config (settings : option string * option string) : res string CryptoLeverageConfig :=
  match settings with
  | (Some symbols_raw, Some leverage_raw) =>
      let symbols := base.filter (fun s => negb (is_empty s) = true) (map strip (split ","%char symbols_raw)) in
      match py_int 10 leverage_raw with
      | None => Err (CRYPTO_MAX_LEVERAGE_KEY +:+ " is not an integer")
      | Some default_leverage =>
          if (default_leverage <=? 0)%Z then Err (CRYPTO_MAX_LEVERAGE_KEY +:+ " must be a positive integer")
          else Ok {| cl_symbols := symbols; cl_default_leverage := default_leverage |}
      end
  | _ => Err "crypto settings not configured"
  end.

(** [_build_crypto_leverage]. *)
Definition build_crypto_leverage (account_id reply_to : string) : prog (option CryptoLeverageConfig) :=
  let! settings := get_crypto_settings in
  match crypto_config settings with
  | Err reason => do! reply_error reply_to (JStr account_id) reason in Ret None
  | Ok config => Ret (Some config)
  end.

(** [_get_max_retry_timeout_seconds]. *)
Definition get_max_retry_timeout_seconds : prog Z :=
  let! raw := setting_get MAX_RETRY_TIMEOUT_KEY in
  Ret (match raw with
       | None => DEFAULT_MAX_RETRY_TIMEOUT_SECONDS
       | Some raw =>
           match py_int 10 raw with
           | None => DEFAULT_MAX_RETRY_TIMEOUT_SECONDS
           | Some value => if (value <=? 0)%Z then DEFAULT_MAX_RETRY_TIMEOUT_SECONDS else value
           end
       end).

(** The replay of one stored envelope; a bad one is skipped. *)
Definition replay_signal (envelope : string * json) : prog (option TradingSignal) :=
  match envelope.2 with
  | JObj raw_payload =>
      if is_empty envelope.1 then Ret None
      else
        match validate_webhook raw_payload with
        | None => Ret None
        | Some payload =>
            let! t := clock in
            Ret (match parse_signal payload envelope.1 t with Ok s => Some s | Err _ => None end)
        end
  | _ => Ret None
  end.

(** [_build_retry_signals]. *)
Definition build_retry_signals (strategies : list string) : prog (list TradingSignal) :=
  if negb signals_wired then Ret []
  else
    match strategies with
    | [] => Ret []
    | _ =>
        let! window_seconds := get_max_retry_timeout_seconds in
        let! envelopes := attempt (list_recent_by_strategies strategies window_seconds) in
        match envelopes with
        | Err _ => Ret []
        | Ok envelopes =>
            let! signals := for_collect envelopes replay_signal in
            Ret (omap id signals)
        end
    end.

(** [_reply_ack]. *)
Definition reply_ack (reply_to account_id : string) (magic_map : list (string * Z)) (retry_signals : list TradingSignal)
    (settings : AccountSettings) (crypto : option CryptoLeverageConfig) : prog unit :=
  catch (publish_system_ack (Some reply_to) account_id magic_map retry_signals settings crypto) (fun _ => Ret tt).

(** The handshake of a valid announcement. *)
Definition answer_worker (reply_to : string) (event : SystemWorkerConnectedSignal) : prog unit :=
  do! remember_worker event in
  let! crypto_leverage :=
    match wc_market event with
    | Market.CRYPTO =>
        let! c := build_crypto_leverage (wc_account_id event) reply_to in
        Ret (match c with Some c => Some (Some c) | None => None end)
    | Market.FOREX => Ret (Some None)
    end in
  match crypto_leverage with
  | None => Ret tt
  | Some crypto_leverage =>
      let! magic_map := build_strategy_magic_map (wc_strategies event) in
      let! retry_signals := build_retry_signals (wc_strategies event) in
      let! account_settings := build_account_settings event in
      reply_ack reply_to (wc_account_id event) magic_map retry_signals account_settings crypto_leverage
  end.

Definition WORKER_CONNECTED : string := "WORKER_CONNECTED".

(** [handle_subject_system]. *)
Definition handle_subject_system (msg : SystemMsg) : prog unit :=
  match sm_data msg with
  | NotText => Raise (RuntimeError "UnicodeDecodeError")
  | NotJson => reply_error (sm_reply msg) JNull "malformed JSON"
  | Decoded (JObj data) =>
      if negb (json_eqb (obj_get "action" data) (JStr WORKER_CONNECTED)) then Ret tt
      else
        match validate_worker_connected data with
        | None => reply_error (sm_reply msg) (obj_get "account_id" data) "invalid WORKER_CONNECTED payload"
        | Some event => answer_worker (sm_reply msg) event
        end
  | Decoded _ => reply_error (sm_reply msg) JNull "malformed JSON"
  end.
End consumer.
