(* ===== verification/AdminFlow.v ===== *)
(** * What the administrator's API stores and sends

    Every change of a setting is stored before anyone hears of it, and what is
    pushed to connected workers is what is stored. *)

From S2P Require Import Prelude PyStr Uuid PyTime Json JsonText Enums Schemas Models ChatTargets World Settings TimeZone.
From S2P Require Import StatusPolicies Samples SignalRepo SignalHelper SignalService SignalWorker.
From S2P Require Import BroadcastRepo BroadcastService Dispatcher TradeRepo AccountRepo Notifications AccountSettings SystemConsumer AdminApi.

From Stdlib Require Import Ascii.

Section flow.
Context `{CFG : Settings} `{SP : SettingsPydantic} `{CA : RowChoice Account}.

(** ** Steps *)

(** The database but for the settings table. *)
Definition settings_only (d d' : Db) : Prop := d' = set_broker_settings (broker_settings d') d.

Lemma settings_only_refl d : settings_only d d.
Proof. by destruct d. Qed.

Lemma write_setting_frame u key value d d' :
  write_setting u key value d = Ok (tt, d') -> settings_only d d'.
Proof.
  unfold write_setting, settings_only. destruct (select_first _ _); [by intros [= <-]|].
  destruct (insert_unique _ _ _); [by intros [= <-]|done].
Qed.

Lemma run_setting_set key value w :
  NoDup (map bs_id (broker_settings (db w))) ->
  exists b w1, run (setting_set key value) w = (Ok b, w1) /\ out w1 = out w /\ settings_only (db w) (db w1) /\
    (forall k, k <> key -> find_setting k (db w1) = find_setting k (db w)) /\
    (b = true -> find_setting key (db w1) = Some value).
Proof.
  intros Hid. unfold setting_set. rewrite run_bind. destruct (run_uuid4 w) as (u & w0 & -> & Hd0 & Ho0).
  rewrite run_catch, run_bind. unfold session. rewrite run_act.
  pose proof (session_cases (fun _ d => write_setting u key value d) w0) as H.
  destruct (session_step _ w0) as [r w1]. destruct H as (Ho & _ & [(e & -> & Hd)|(a & d & Ht & Hd & Hr)]).
  - exists false, w1. rewrite Ho, Hd, Hd0. split_and!; try done. apply settings_only_refl.
  - destruct a. rewrite Hd0 in Ht. pose proof (write_setting_frame _ _ _ _ _ Ht) as Hf.
    apply write_setting_spec in Ht as [Hk Hx]; [|done]. rewrite <-Hd in Hf, Hk, Hx.
    destruct Hr as [-> | ->]; eexists _, w1; (split; [done|]); split_and!; auto; congruence.
Qed.

(** A worker a message is for: the worker of a stored account. *)
Definition worker_of (a : Account) : string :=
  compose_worker_id (market_value (ac_market a)) (default EmptyString (ac_gateway a)) (ac_account_id a).

(** What may be sent when a setting changes, given what is stored: notices to the
    administrators' chats, and pushes of stored configuration to stored accounts'
    workers. *)
Inductive announces (d : Db) : sent -> Prop :=
| an_notice target text r :
    target ∈ destinations get_admin_notifier None -> announces d (SentTg (TgSendMessage target text) r)
| an_crypto a config :
    a ∈ accounts d -> ac_market a = Market.CRYPTO -> no_gateway (ac_gateway a) = false ->
    crypto_config (find_setting CRYPTO_ALLOWED_SYMBOL_KEY d, find_setting CRYPTO_MAX_LEVERAGE_KEY d) = Ok config ->
    announces d (SentSystem (topic_value TOPIC_SYSTEM)
                   (SystemCryptoLeverageInitSignal (worker_of a) (Some (cl_symbols config))
                      (Some (cl_default_leverage config))))
| an_settings a global :
    a ∈ accounts d -> no_gateway (ac_gateway a) = false ->
    global = parse_global_max_open_orders (find_setting MAX_OPEN_ORDERS_KEY d) \/ global = DEFAULT_MAX_OPEN_ORDERS ->
    announces d (SentSystem (topic_value TOPIC_SYSTEM)
                   (SystemWorkerSettingsUpdateSignal (worker_of a)
                      (resolve_account_settings (parse_account_settings (JObj (ac_settings a))) global))).

(** A program that answers, stores nothing and announces only what is stored. *)
Definition announcing {A} (p : prog A) (w : World) : Prop :=
  exists a w1 evs, run p w = (Ok a, w1) /\ db w1 = db w /\ out w1 = out w ++ evs /\
    Forall (announces (db w)) evs.

Lemma announcing_bind {A B} (p : prog A) (q : A -> prog B) w :
  announcing p w -> (forall a w1, db w1 = db w -> announcing (q a) w1) -> announcing (bind p q) w.
Proof.
  intros (a & w1 & e1 & H1 & D1 & O1 & F1) Hq.
  destruct (Hq a w1 D1) as (b & w2 & e2 & H2 & D2 & O2 & F2). rewrite D1 in F2.
  exists b, w2, (e1 ++ e2). rewrite run_bind, H1, O2, O1, app_assoc. split_and!; auto; [congruence|by apply Forall_app].
Qed.

Lemma announcing_ret {A} (a : A) w : announcing (Ret a) w.
Proof. exists a, w, []. rewrite app_nil_r. by split_and!. Qed.

Lemma announcing_for_each {X} (l : list X) body w :
  (forall x w1, x ∈ l -> db w1 = db w -> announcing (body x) w1) -> announcing (for_each l body) w.
Proof.
  revert w. induction l as [|x l IH]; intros w H; cbn; [apply announcing_ret|].
  apply announcing_bind; [apply H; [left|done]|]. intros _ w1 D. apply IH. intros y w2 Hy D2.
  apply H; [by right|congruence].
Qed.

Lemma announcing_notify text w : announcing (notify_admin text) w.
Proof.
  unfold announcing, notify_admin. rewrite run_bind.
  destruct (run_channel_send get_admin_notifier text None w) as (b & w' & ts & rs & -> & Hc & L & O & D & _).
  exists tt, w'. eexists. split; [done|]. split; [done|]. split; [exact O|].
  assert (Hs : Forall (fun t => t ∈ destinations get_admin_notifier None) ts).
  { destruct Hc as [[-> _]|[-> _]]; [by apply Forall_forall|constructor]. }
  clear -L Hs. revert rs L. induction Hs as [|t ts Ht _ IH]; intros [|r rs] L; try done; cbn;
    [constructor..|]. constructor; [by constructor|]. apply IH. by injection L.
Qed.

(** A read, from which the program goes on knowing what is stored, or that the read
    failed. *)
Lemma announcing_read {A B} (t : Db -> A) (failed : A) (q : A -> prog B) w :
  (forall a w1, a = t (db w) \/ a = failed -> db w1 = db w -> announcing (q a) w1) ->
  announcing (bind (catch (query t) (fun _ => Ret failed)) q) w.
Proof.
  intros Hq. unfold announcing. rewrite run_bind, run_catch.
  destruct (run_query t w) as (w1 & D & O & _ & [-> | (e & ->)]); cbn;
    [destruct (Hq (t (db w)) w1) as (b & w2 & evs & -> & D2 & O2 & F)|
     destruct (Hq failed w1) as (b & w2 & evs & -> & D2 & O2 & F)]; auto;
    exists b, w2, evs; rewrite <-O, <-D; by split_and!.
Qed.

(** One push, whatever NATS answers. *)
Lemma announcing_push e w : announces (db w) e -> announcing (catch (nats e) (fun _ => Ret tt)) w.
Proof.
  intros He. unfold announcing. rewrite run_catch. unfold nats. rewrite run_act. pose proof (nats_cases e w) as H.
  destruct (nats_step e w) as [r w1].
  destruct H as (D & _ & _ & [[O [-> | ->]]|[O ->]]); [exists tt, w1, [e]..|exists tt, w1, []];
    rewrite ?app_nil_r; split_and!; auto.
Qed.

Lemma elem_of_by_last_activity t a : a ∈ by_last_activity t <-> a ∈ t.
Proof.
  unfold by_last_activity. rewrite elem_of_app, elem_of_order_by, !elem_of_select_where.
  destruct (is_some (ac_last_activity_at a)); cbn; naive_solver.
Qed.

Lemma announcing_push_max w : announcing push_max_open_orders w.
Proof.
  unfold push_max_open_orders, setting_get. apply announcing_read. intros raw w1 Hraw D1. unfold get_all.
  apply announcing_read. intros l w2 Hl D2. apply announcing_for_each. intros a w3 Ha D3.
  unfold push_worker_settings_update. destruct (no_gateway (ac_gateway a)) eqn:Hg; [apply announcing_ret|].
  apply announcing_push. apply an_settings; [|done|].
  - destruct Hl as [-> | ->]; [|by apply elem_of_nil in Ha]. rewrite elem_of_by_last_activity in Ha. by rewrite D3, D2.
  - rewrite D3, D2, D1. destruct Hraw as [-> | ->]; auto.
Qed.

(** [dict.get] of the two rows read together is the value stored. *)
Lemma assoc_get_many keys key d :
  key ∈ keys ->
  assoc key (map (fun r => (bs_key r, bs_value r))
               (select_where (fun r => existsb (String.eqb (bs_key r)) keys) (broker_settings d))) =
  find_setting key d.
Proof.
  intros Hk. unfold find_setting, select_where. induction (broker_settings d) as [|r t IH]; [done|].
  cbn [select_first]. rewrite filter_cons. destruct (String.eqb_spec (bs_key r) key) as [E|E].
  - rewrite decide_True.
    + cbn. by rewrite E, String.eqb_refl.
    + apply existsb_exists. exists key. split; [by apply list_elem_of_In|by apply String.eqb_eq].
  - apply not_eq_sym, String.eqb_neq in E. destruct (decide _); [|exact IH]. cbn. rewrite E. exact IH.
Qed.

Lemma announcing_push_crypto w : announcing push_crypto_leverage_init w.
Proof.
  unfold push_crypto_leverage_init, setting_get_many. apply announcing_read. intros values w1 Hv D1.
  destruct (assoc CRYPTO_ALLOWED_SYMBOL_KEY values) as [symbols|] eqn:Es; [|apply announcing_ret].
  destruct (assoc CRYPTO_MAX_LEVERAGE_KEY values) as [leverage|] eqn:El; [|apply announcing_ret].
  destruct Hv as [-> | ->]; [|done].
  destruct (py_int 10 leverage) as [z|] eqn:Ez; [|apply announcing_ret].
  destruct (z <=? 0)%Z eqn:Hz; [apply announcing_ret|].
  unfold get_by_market. apply announcing_read. intros l w2 Hl D2. apply announcing_for_each. intros a w3 Ha D3.
  destruct (no_gateway (ac_gateway a)) eqn:Hg; [apply announcing_ret|]. 
  rewrite !assoc_get_many in Es, El by (rewrite !elem_of_cons; auto).
  destruct Hl as [-> | ->]; [|by apply elem_of_nil in Ha].
  rewrite elem_of_by_last_activity, elem_of_select_where in Ha. destruct Ha as [Ha Hm]. apply bool_decide_eq_true in Hm.
  apply announcing_push. fold (worker_of a).
  set (config := {| cl_symbols := base.filter (fun s => negb (is_empty s) = true) (map strip (split ","%char symbols));
                    cl_default_leverage := z |}).
  refine (an_crypto (db w3) a config _ Hm Hg _); [by rewrite D3, D2|].
  rewrite D3, D2, D1, Es, El. cbn [crypto_config]. by rewrite Ez, Hz.
Qed.

(** ** The routes *)

Lemma announcing_value_of {A} (f : A -> string) (p : prog A) w :
  announcing p w -> announcing (let! r := p in Ret (f r)) w.
Proof. intros H. apply announcing_bind; [done|]. intros. apply announcing_ret. Qed.

(** A route: it stores its setting, or answers an error having announced nothing. *)
Definition stores (key : string) (p : prog string) (w : World) : Prop :=
  exists r w1 evs, run p w = (r, w1) /\ settings_only (db w) (db w1) /\
    (forall k, k <> key -> find_setting k (db w1) = find_setting k (db w)) /\ out w1 = out w ++ evs /\
    match r with
    | Ok v => find_setting key (db w1) = Some v /\ Forall (announces (db w1)) evs
    | Err e => evs = [] /\ exists status detail, e = HTTPException status detail
    end.

Lemma stores_then key value (q : prog string) w :
  NoDup (map bs_id (broker_settings (db w))) ->
  (forall w1, exists w2 evs, run q w1 = (Ok value, w2) /\ db w2 = db w1 /\ out w2 = out w1 ++ evs /\
     Forall (announces (db w1)) evs) ->
  stores key (do! store_setting key value in q) w.
Proof.
  intros Hid Hq. unfold stores, store_setting. rewrite !run_bind.
  destruct (run_setting_set key value w Hid) as (b & w1 & -> & O & F & X & S). destruct b; cbn [run].
  - destruct (Hq w1) as (w2 & evs & -> & D & O2 & A). exists (Ok value), w2, evs.
    rewrite D, O2, O. split_and!; auto.
  - exists (Err not_updated), w1, []. rewrite O, app_nil_r. split_and!; auto. eexists _, _. reflexivity.
Qed.

Lemma stores_toggle key words w :
  NoDup (map bs_id (broker_settings (db w))) -> stores key (value_of_toggle (toggle key words)) w.
Proof.
  intros Hid. unfold value_of_toggle, toggle, setting_get, stores. rewrite !run_bind, run_catch.
  destruct (run_query (find_setting key) w) as (w1 & D & O & _ & H).
  assert (exists cur, match run (query (find_setting key)) w with
                      | (Ok a, w') => (Ok a, w') | (Err e, w') => run (Ret None) w' end = (Ok cur, w1)) as (cur & ->).
  { destruct H as [-> | (e & ->)]; by eexists. }
  set (enabled := negb _).
  destruct (stores_then key (flag enabled)
              (let! r := (do! notify_admin (changed_notice key (words +:+ ": <b>" +:+ state_label enabled +:+ "</b>")) in
                          Ret {| st_setting := key; st_value := flag enabled; st_state := state_label enabled |}) in
               Ret (st_value r)) w1) as (r & w2 & evs & H2 & F & X & O2 & P).
  - by rewrite D.
  - intros v. rewrite !run_bind.
    destruct (announcing_notify (changed_notice key (words +:+ ": <b>" +:+ state_label enabled +:+ "</b>")) v)
      as (a & v1 & e1 & -> & D1 & O1 & F1). exists v1, e1. by split_and!.
  - rewrite run_bind in H2. rewrite run_bind. exists r, w2, evs. rewrite <-D, <-O. split_and!; auto.
    destruct (run (store_setting key (flag enabled)) w1) as [[[]|e] w3]; [|exact H2]. by rewrite run_bind in H2.
Qed.

Lemma stores_notified key value line (q : prog unit) w :
  NoDup (map bs_id (broker_settings (db w))) -> (forall w1, announcing q w1) ->
  stores key (value_of_set (let! answer := set_value key value line in do! q in Ret answer)) w.
Proof.
  intros Hid Hq. pose proof (stores_then key value
    (do! notify_admin (changed_notice key line) in do! q in Ret value) w Hid) as (r & w2 & evs & H2 & R).
  - intros v. destruct (announcing_notify (changed_notice key line) v) as (a & v1 & e1 & H1 & D1 & O1 & F1).
    destruct (Hq v1) as ([] & v2 & e2 & Hq2 & D2 & O2 & F2). rewrite D1 in F2.
    exists v2, (e1 ++ e2). rewrite run_bind, H1, run_bind, Hq2, O2, O1, app_assoc.
    split_and!; auto; [congruence|by apply Forall_app].
  - exists r, w2, evs. split; [|exact R]. rewrite <-H2. unfold value_of_set, set_value. rewrite !run_bind.
    destruct (run (store_setting key value) w) as [[[]|e] w1]; [|done]. rewrite !run_bind.
    destruct (run (notify_admin _) w1) as [[[]|e] w3]; [|done]. cbn [run]. rewrite !run_bind.
    destruct (run q w3) as [[[]|e] w4]; done.
Qed.

Lemma stores_value key value line w :
  NoDup (map bs_id (broker_settings (db w))) -> stores key (value_of_set (set_value key value line)) w.
Proof.
  intros Hid. destruct (stores_notified key value line (Ret tt) w Hid) as (r & w2 & evs & H2 & R).
  { intros. apply announcing_ret. }
  exists r, w2, evs. split; [|exact R]. rewrite <-H2. unfold value_of_set. rewrite !run_bind.
  by destruct (run (set_value key value line) w) as [[]].
Qed.

Lemma stores_reply key enabled w :
  NoDup (map bs_id (broker_settings (db w))) -> stores key (value_of_toggle (set_reply_notify key enabled)) w.
Proof.
  intros Hid. destruct (stores_value key (flag enabled) ("Reply notify: <b>" +:+ state_label enabled +:+ "</b>") w Hid)
    as (r & w2 & evs & H2 & R).
  exists r, w2, evs. split; [|exact R]. rewrite <-H2. unfold value_of_set, value_of_toggle, set_value, set_reply_notify.
  rewrite !run_bind. destruct (run (store_setting key _) w) as [[[]|e] w1]; [|done]. rewrite !run_bind.
  destruct (run (notify_admin _) w1) as [[[]|e] w3]; done.
Qed.

Lemma stores_change req w :
  NoDup (map bs_id (broker_settings (db w))) -> stores (setting_of req) (change_setting req) w.
Proof.
  intros Hid. destruct req; cbn [change_setting setting_of];
    try (by apply stores_toggle); try (by apply stores_value); try (by apply stores_reply).
  - unfold set_crypto_allowed_symbol. destruct (clean_symbols symbols) as [|x l].
    + exists (Err (HTTPException 422 "symbols must contain at least one non-empty value")), w, [].
      rewrite app_nil_r. split_and!; try done; [apply settings_only_refl|]. eexists _, _. reflexivity.
    + apply stores_notified; [done|]. intros. apply announcing_push_crypto.
  - apply stores_notified; [done|]. intros. apply announcing_push_crypto.
  - apply stores_notified; [done|]. intros. apply announcing_push_max.
Qed.

(** C17. A setting is stored before anyone hears of it.  Whatever the database, NATS
    and Telegram do, a route that changes a setting returns; it changes the
    settings table alone, and there only its own setting, and only for a caller with
    the key and a valid body.  An answer names the value now stored, and what was
    sent is announcements to the administrators' own chats and pushes that carry
    the stored configuration to workers of stored accounts (the cap may be the
    default one, when it could not be read back); a refused or failed request has
    announced and pushed nothing. *)
Theorem setting_stored_before_announced api_key req w :
  NoDup (map bs_id (broker_settings (db w))) ->
  exists (r : res exn string) w' evs,
    run (behind_key api_key (setting_body_valid req) (change_setting req)) w = (r, w') /\
    settings_only (db w) (db w') /\
    (forall k, k <> setting_of req -> find_setting k (db w') = find_setting k (db w)) /\
    out w' = out w ++ evs /\
    (api_key <> Some (api_API_KEY set_broker_api) \/ setting_body_valid req = false -> is_ok r = false /\ w' = w) /\
    match r with
    | Ok v => find_setting (setting_of req) (db w') = Some v /\ Forall (announces (db w')) evs
    | Err e => evs = []
    end.
Proof.
  intros Hid. unfold behind_key, ensure_api_key.
  assert (Hno : forall e, exists (r : res exn string) w' evs, (Err e, w) = (r, w') /\ settings_only (db w) (db w') /\
    (forall k, k <> setting_of req -> find_setting k (db w') = find_setting k (db w)) /\ out w' = out w ++ evs /\
    (api_key <> Some (api_API_KEY set_broker_api) \/ setting_body_valid req = false -> is_ok r = false /\ w' = w) /\
    match r with
    | Ok v => find_setting (setting_of req) (db w') = Some v /\ Forall (announces (db w')) evs
    | Err e => evs = []
    end).
  { intros e. exists (Err e), w, []. rewrite app_nil_r. split_and!; try done. apply settings_only_refl. }
  destruct (is_empty _); [apply Hno|]. destruct api_key as [key|]; [|apply Hno].
  destruct (String.eqb_spec key (api_API_KEY set_broker_api)) as [->|]; [|apply Hno].
  cbn [bind]. destruct (setting_body_valid req) eqn:Hv; [|apply Hno].
  destruct (stores_change req w Hid) as (r & w1 & evs & H1 & F & X & O & P).
  exists r, w1, evs. split_and!; auto; [naive_solver|]. destruct r; [done|by destruct P].
Qed.
End flow.
