(* ===== verification/Handshake.v ===== *)
(** * What a worker is answered

    Theorems on the handshake: at most one answer, what it carries, and how long
    a failed read of the settings lasts ([SystemEventConsumer],
    [services/nats_service.py]). *)

From S2P Require Import Prelude PyStr Uuid PyTime Json JsonText Enums Schemas Models World Settings.
From S2P Require Import StatusPolicies Samples SignalRepo SignalHelper SignalService SignalWorker.
From S2P Require Import BroadcastRepo BroadcastService TradeRepo AccountRepo AccountSettings SystemConsumer.
From Stdlib Require Import Ascii.

(** ** Programs that always answer and send nothing *)
Definition yields {A} (p : prog A) (Q : A -> Prop) : Prop :=
  forall w, exists a w', run p w = (Ok a, w') /\ out w' = out w /\ (db_up w -> db_up w') /\ Q a.

Definition any {A} (_ : A) : Prop := True.

Lemma yields_mono {A} (p : prog A) (Q Q' : A -> Prop) : (forall a, Q a -> Q' a) -> yields p Q -> yields p Q'.
Proof. intros HQ Hp w. destruct (Hp w) as (a & w' & ? & ? & ? & ?). exists a, w'. split_and!; auto. Qed.

Lemma yields_ret {A} (a : A) (Q : A -> Prop) : Q a -> yields (Ret a) Q.
Proof. intros H w. by exists a, w. Qed.

Lemma yields_bind {A B} (p : prog A) (q : A -> prog B) Q Q' :
  yields p Q -> (forall a, Q a -> yields (q a) Q') -> yields (bind p q) Q'.
Proof.
  intros Hp Hq w. destruct (Hp w) as (a & w1 & H1 & O1 & S1 & Ha).
  destruct (Hq a Ha w1) as (b & w2 & H2 & O2 & S2 & Hb). exists b, w2. rewrite run_bind, H1.
  split_and!; [done|congruence|auto|done].
Qed.

Lemma yields_attempt {A} (p : prog A) Q :
  yields p Q -> yields (attempt p) (fun r => exists a, r = Ok a /\ Q a).
Proof.
  intros Hp w. destruct (Hp w) as (a & w1 & H1 & O1 & S1 & Ha). exists (Ok a), w1. rewrite run_attempt, H1.
  split_and!; eauto.
Qed.

Lemma yields_catch {A} (p : prog A) h Q : yields p Q -> yields (catch p h) Q.
Proof.
  intros Hp w. destruct (Hp w) as (a & w1 & H1 & ?). exists a, w1. by rewrite run_catch, H1.
Qed.

Lemma yields_session_or {A} (answer : A) f Q :
  Q answer -> (forall t d a d', f t d = Ok (a, d') -> Q a) ->
  yields (catch (session f) (fun _ => Ret answer)) Q.
Proof.
  intros Ha Hf w. rewrite run_catch. unfold session. rewrite run_act. unfold session_step, next_outcome, db_up.
  destruct (sched w) as [|[| |] s] eqn:Es; cbn [db now set_sched];
    try (destruct (f (now w) (db w)) as [[a d]|e] eqn:E);
    (eexists _, _; split; [done|]; split; [done|]; split; [done|]; eauto).
Qed.

Lemma yields_query_or {A} (answer : A) (q : Db -> A) Q :
  Q answer -> (forall d, Q (q d)) -> yields (catch (query q) (fun _ => Ret answer)) Q.
Proof. intros Ha Hq. apply yields_session_or; [done|]. by intros t d a d' [= <- <-]. Qed.

Lemma yields_uuid4 : yields uuid4 any.
Proof. intros w. unfold uuid4. rewrite run_act. destruct (uuids w); eexists _, _; split_and!; done. Qed.

Lemma yields_clock : yields clock any.
Proof. intros w. unfold clock. rewrite run_act. by eexists _, _. Qed.

Lemma yields_caches {A} (f : SystemCaches -> A * SystemCaches) Q :
  (forall c, Q (f c).1) -> yields (with_caches f) Q.
Proof.
  intros Hf w. unfold with_caches. rewrite run_act. specialize (Hf (caches w)).
  destruct (f (caches w)) as [a c]. by exists a, (set_caches c w).
Qed.

Lemma yields_collect {X Y} (l : list X) (body : X -> prog Y) :
  (forall x, yields (body x) any) -> yields (for_collect l body) any.
Proof.
  intros H. induction l as [|x l IH]; cbn [for_collect]; [by apply yields_ret|].
  eapply yields_bind; [apply H|]. intros y _. eapply yields_bind; [exact IH|]. intros ys _. by apply yields_ret.
Qed.

Section handshake.
Context `{PY : Pydantic} `{SP : SettingsPydantic} `{CA : RowChoice Account}.
Context (signals_wired : bool).

Lemma setting_get_yields key : yields (setting_get key) any.
Proof. by apply yields_query_or. Qed.

Lemma remember_yields event : yields (remember_worker event) any.
Proof.
  unfold remember_worker, upsert_gateway. apply yields_catch.
  do 3 (eapply yields_bind; [apply yields_uuid4|]; intros ? _). by apply yields_session_or.
Qed.

Lemma settings_yield event :
  yields (build_account_settings event) (fun s => is_Some (as_max_open_orders s)).
Proof.
  unfold build_account_settings. eapply (yields_bind _ _ any).
  { apply yields_catch. eapply yields_bind; [by apply (yields_query_or _ _ any)|]. intros s _. by apply yields_ret. }
  intros raw _. unfold get_global_max_open_orders. eapply (yields_bind _ _ any).
  { eapply yields_bind; [apply setting_get_yields|]. intros g _. by apply yields_ret. }
  intros g _. apply yields_ret, resolve_concrete.
Qed.

Lemma magic_map_yields : yields get_strategy_magic_map any.
Proof.
  unfold get_strategy_magic_map. eapply yields_bind; [apply yields_clock|]. intros now _.
  eapply yields_bind; [by apply (yields_caches _ any)|]. intros c _. cbv zeta.
  assert (yields (let! raw := setting_get STRATEGY_MAGIC_MAP_KEY in
    with_caches (fun c => (parse_strategy_magic_map raw,
      {| crypto_settings_cache := crypto_settings_cache c; crypto_settings_cached_at := crypto_settings_cached_at c;
         magic_map_cache := Some (parse_strategy_magic_map raw); magic_map_cached_at := now |}))) any) as Hread.
  { eapply yields_bind; [apply setting_get_yields|]. intros raw _. by apply yields_caches. }
  destruct (magic_map_cache c); [|exact Hread]. destruct (_ <? _)%Z; [by apply yields_ret|exact Hread].
Qed.

Lemma build_map_yields strategies :
  yields (build_strategy_magic_map strategies) (fun m => Forall (fun kv => kv.1 ∈ strategies) m).
Proof.
  destruct strategies as [|x l]; [by apply yields_ret; constructor|]. unfold build_strategy_magic_map.
  eapply yields_bind; [apply magic_map_yields|]. intros m _. apply yields_ret, Forall_forall.
  by intros kv [H _]%list_elem_of_filter.
Qed.

Lemma crypto_settings_yield : yields get_crypto_settings any.
Proof.
  unfold get_crypto_settings. eapply yields_bind; [apply yields_clock|]. intros now _.
  eapply yields_bind; [by apply (yields_caches _ any)|]. intros c _. cbv zeta.
  match goal with |- yields (match _ with Some _ => if _ then _ else ?r | None => _ end) _ =>
    assert (yields r any) as Hread end.
  { eapply (yields_bind _ _ any); [by apply yields_query_or|]. intros raw _. by apply yields_caches. }
  destruct (crypto_settings_cache c); [|exact Hread]. destruct (_ <? _)%Z; [by apply yields_ret|exact Hread].
Qed.

Lemma recent_yields strategies seconds : yields (list_recent_by_strategies strategies seconds) any.
Proof.
  unfold list_recent_by_strategies. destruct strategies; [by apply yields_ret|].
  destruct (seconds <=? 0)%Z; [by apply yields_ret|]. eapply yields_bind; [apply yields_clock|]. intros t _.
  eapply (yields_bind _ _ any); [by apply yields_query_or|]. intros rows _. by apply yields_ret.
Qed.

Lemma retry_yields strategies : yields (build_retry_signals signals_wired strategies) any.
Proof.
  unfold build_retry_signals. destruct (negb signals_wired); [by apply yields_ret|].
  destruct strategies; [by apply yields_ret|]. eapply (yields_bind _ _ any).
  { unfold get_max_retry_timeout_seconds. eapply yields_bind; [apply setting_get_yields|]. intros r _. by apply yields_ret. }
  intros n _. eapply yields_bind; [apply yields_attempt, recent_yields|]. intros r (es & -> & _).
  eapply yields_bind; [|intros ss _; by apply yields_ret]. apply yields_collect.
  intros [i v]. unfold replay_signal. cbn [fst snd]. destruct v; try (by apply yields_ret).
  destruct (is_empty i); [by apply yields_ret|]. destruct (validate_webhook _); [|by apply yields_ret].
  eapply yields_bind; [apply yields_clock|]. intros t _. by apply yields_ret.
Qed.

(** ** One answer *)

(** The valid announcement a message carries. *)
Definition announced (msg : SystemMsg) : option SystemWorkerConnectedSignal :=
  match sm_data msg with
  | Decoded (JObj data) =>
      if json_eqb (obj_get "action" data) (JStr WORKER_CONNECTED) then validate_worker_connected data else None
  | _ => None
  end.

(** An error goes to the inbox of a worker that asked.  An ACK goes to the worker
    announced, with a concrete cap, magic numbers of its own strategies only, and
    a leverage block exactly when it trades crypto. *)
Definition answer_ok (msg : SystemMsg) (e : sent) : Prop :=
  match e with
  | SentSystem subject (SystemWorkerConnectedError _ _) => subject = sm_reply msg /\ is_empty subject = false
  | SentSystem subject (SystemWorkerConnectedAck id magic_map _ settings crypto) =>
      exists event, announced msg = Some event /\ id = wc_account_id event /\
        subject = system_target (Some (sm_reply msg)) /\
        Forall (fun kv => kv.1 ∈ wc_strategies event) magic_map /\
        is_Some (as_max_open_orders settings) /\
        match wc_market event with
        | Market.CRYPTO => exists c, crypto = Some c /\ (0 < cl_default_leverage c)%Z
        | Market.FOREX => crypto = None
        end
  | _ => False
  end.

(** At most one message leaves, acceptable to [P]; over working services one does
    if [must]. *)
Definition sends_one (P : sent -> Prop) (must : Prop) (p : prog unit) : Prop :=
  forall w, exists w' evs, run p w = (Ok tt, w') /\ out w' = out w ++ evs /\ length evs <= 1 /\ Forall P evs /\
    (db_up w -> must -> evs <> []).

Lemma sends_nothing P (p : prog unit) : yields p any -> sends_one P False p.
Proof.
  intros Hp w. destruct (Hp w) as ([] & w' & H & O & _ & _). exists w', []. rewrite app_nil_r. by split_and!; auto.
Qed.

Lemma sends_after {A} P must (p : prog A) q (Q : A -> Prop) :
  yields p Q -> (forall a, Q a -> sends_one P must (q a)) -> sends_one P must (bind p q).
Proof.
  intros Hp Hq w. destruct (Hp w) as (a & w1 & H1 & O1 & S1 & Ha).
  destruct (Hq a Ha w1) as (w2 & evs & H2 & O2 & L & F & M). exists w2, evs. rewrite run_bind, H1.
  split_and!; [done|congruence|done|done|auto].
Qed.

Lemma sends_weaken P must must' (p : prog unit) : (must' -> must) -> sends_one P must p -> sends_one P must' p.
Proof.
  intros Hm Hp w. destruct (Hp w) as (w' & evs & H). exists w', evs. destruct H as (? & ? & ? & ? & M).
  split_and!; try done. auto.
Qed.

Lemma sends_nats (P : sent -> Prop) e : P e -> sends_one P True (catch (nats e) (fun _ => Ret tt)).
Proof.
  intros He w. rewrite run_catch. unfold nats. rewrite run_act. unfold nats_step, next_outcome, db_up.
  destruct (sched w) as [|[| |] s]; cbn [out emit set_sched];
    [exists (emit e w), [e]|exists (emit e (set_sched s w)), [e]|exists (set_sched s w), []|
     exists (emit e (set_sched s w)), [e]]; (split; [done|]); cbn; rewrite ?app_nil_r;
    split_and!; auto; try done; lia.
Qed.

Lemma sends_error msg account_id reason :
  sends_one (answer_ok msg) (is_empty (sm_reply msg) = false /\ is_Some (optional_text account_id))
    (reply_error (sm_reply msg) account_id reason).
Proof.
  unfold reply_error, publish_system_error. destruct (is_empty (sm_reply msg)) eqn:E.
  { eapply sends_weaken; [|by apply sends_nothing, yields_ret]. by intros []. }
  destruct (optional_text account_id) as [i|].
  - eapply sends_weaken; [|by apply sends_nats]. done.
  - eapply sends_weaken; [|apply sends_nothing; intros w; by exists tt, w]. by intros [_ [? [=]]].
Qed.

Lemma crypto_config_positive settings c : crypto_config settings = Ok c -> (0 < cl_default_leverage c)%Z.
Proof.
  unfold crypto_config. destruct settings as [[symbols|] [raw|]]; try done. destruct (py_int 10 raw) as [n|]; [|done].
  destruct (Z.leb_spec n 0); [done|]. intros [= <-]. done.
Qed.

Lemma sends_answer msg event :
  announced msg = Some event ->
  sends_one (answer_ok msg) (is_empty (sm_reply msg) = false) (answer_worker signals_wired (sm_reply msg) event).
Proof.
  intros Ha. unfold answer_worker. eapply sends_after; [apply remember_yields|]. intros [] _.
  assert (forall crypto, match wc_market event with
      | Market.CRYPTO => exists c, crypto = Some c /\ (0 < cl_default_leverage c)%Z
      | Market.FOREX => crypto = None end ->
    sends_one (answer_ok msg) True
      (let! magic_map := build_strategy_magic_map (wc_strategies event) in
       let! retry_signals := build_retry_signals signals_wired (wc_strategies event) in
       let! account_settings := build_account_settings event in
       reply_ack (sm_reply msg) (wc_account_id event) magic_map retry_signals account_settings crypto)) as Hack.
  { intros crypto Hc. eapply sends_after; [apply build_map_yields|]. intros m Hm.
    eapply sends_after; [apply retry_yields|]. intros rs _. eapply sends_after; [apply settings_yield|]. intros st Hst.
    apply sends_nats. exists event. done. }
  destruct (wc_market event).
  - cbn [bind]. eapply sends_weaken; [|by apply Hack]. done.
  - unfold build_crypto_leverage. intros w. rewrite run_bind, run_bind, run_bind.
    destruct (crypto_settings_yield w) as (st & w1 & H1 & O1 & S1 & _). rewrite H1.
    destruct (crypto_config st) as [c|reason] eqn:Ec.
    + cbn [run]. destruct (Hack (Some c) (ex_intro _ c (conj eq_refl (crypto_config_positive _ _ Ec))) w1)
        as (w2 & evs & H2 & O2 & L & F & M). exists w2, evs. split_and!; [done|congruence|done|done|auto].
    + rewrite run_bind. destruct (sends_error msg (JStr (wc_account_id event)) reason w1)
        as (w2 & evs & -> & O2 & L & F & M). cbn [run]. exists w2, evs.
      split_and!; [done|congruence|done|done|]. intros Hw Hr. apply M; [by apply S1|]. split; [done|by eexists].
Qed.


(** ** A failed read is remembered *)
Definition stale_magic (w : World) : Prop :=
  match magic_map_cache (caches w) with
  | Some _ => (now w - magic_map_cached_at (caches w) <? CRYPTO_SETTINGS_CACHE_TTL)%Z = false
  | None => True
  end.

Definition stale_crypto (w : World) : Prop :=
  match crypto_settings_cache (caches w) with
  | Some _ => (now w - crypto_settings_cached_at (caches w) <? CRYPTO_SETTINGS_CACHE_TTL)%Z = false
  | None => True
  end.

Lemma run_cached {A} (f : SystemCaches -> A * SystemCaches) w :
  run (with_caches f) w = (Ok (f (caches w)).1, set_caches (f (caches w)).2 w).
Proof. unfold with_caches. rewrite run_act. by destruct (f (caches w)). Qed.

Lemma set_caches_same w : set_caches (caches w) w = w.
Proof. by destruct w. Qed.

Lemma run_failed_get key w s : sched w = Failed :: s -> run (setting_get key) w = (Ok None, set_sched s w).
Proof.
  intros Hs. unfold setting_get. rewrite run_catch. unfold query, session. rewrite run_act.
  unfold session_step, next_outcome. by rewrite Hs.
Qed.

Lemma run_failed_get_many keys w s : sched w = Failed :: s -> run (setting_get_many keys) w = (Ok [], set_sched s w).
Proof.
  intros Hs. unfold setting_get_many. rewrite run_catch. unfold query, session. rewrite run_act.
  unfold session_step, next_outcome. by rewrite Hs.
Qed.

(** The magic map read when the database does not answer. *)
Lemma magic_map_blip w s :
  sched w = Failed :: s -> stale_magic w ->
  exists c, run get_strategy_magic_map w = (Ok [], set_caches c (set_sched s w)) /\
    magic_map_cache c = Some [] /\ magic_map_cached_at c = now w.
Proof.
  intros Hs Hst. unfold get_strategy_magic_map, clock. rewrite run_bind, run_act. cbv beta iota.
  rewrite run_bind, run_cached. cbn [fst snd]. rewrite set_caches_same. cbv zeta. unfold stale_magic in Hst.
  destruct (magic_map_cache (caches w)); [rewrite Hst|];
    rewrite run_bind, (run_failed_get _ w s Hs), run_cached; eexists; (split; [done|]); done.
Qed.

Lemma crypto_blip w s :
  sched w = Failed :: s -> stale_crypto w ->
  exists c, run get_crypto_settings w = (Ok (None, None), set_caches c (set_sched s w)) /\
    crypto_settings_cache c = Some (None, None) /\ crypto_settings_cached_at c = now w.
Proof.
  intros Hs Hst. unfold get_crypto_settings, clock. rewrite run_bind, run_act. cbv beta iota.
  rewrite run_bind, run_cached. cbn [fst snd]. rewrite set_caches_same. cbv zeta. unfold stale_crypto in Hst.
  destruct (crypto_settings_cache (caches w)); [rewrite Hst|];
    rewrite run_bind, (run_failed_get_many _ w s Hs), run_cached; eexists; (split; [done|]); done.
Qed.

Lemma run_refuse account_id reply_to v :
  exists v', run (do! reply_error reply_to (JStr account_id) "crypto settings not configured" in
    Ret (A:=option CryptoLeverageConfig) None) v = (Ok None, v') /\ caches v' = caches v.
Proof.
  rewrite run_bind. unfold reply_error. destruct (is_empty reply_to); [by exists v|].
  rewrite run_catch. unfold publish_system_error. cbn [optional_text]. unfold nats. rewrite run_act.
  unfold nats_step, next_outcome. destruct (sched v) as [|[| |] s]; cbn; eexists; (split; [done|]); done.
Qed.

(** A failed read outlives the failure.  When the database does not answer the
    read of the magic map, an empty map is cached: for the next thirty seconds
    every worker that connects is handed no magic number — whatever is stored, the
    database working again — and runs on that until it reconnects.  The same of
    the two crypto settings: for thirty seconds every crypto worker is refused as
    "not configured". *)
Theorem failed_read_outlives_failure w s strategies account_id reply_to :
  sched w = Failed :: s -> stale_magic w -> stale_crypto w -> strategies <> [] ->
  exists w1 w2,
    run (build_strategy_magic_map strategies) w = (Ok [], w1) /\
    (forall v, caches v = caches w1 -> (now v < now w + CRYPTO_SETTINGS_CACHE_TTL)%Z ->
       run (build_strategy_magic_map strategies) v = (Ok [], v)) /\
    run (build_crypto_leverage account_id reply_to) w = (Ok None, w2) /\
    (forall v, caches v = caches w2 -> (now v < now w + CRYPTO_SETTINGS_CACHE_TTL)%Z ->
       exists v', run (build_crypto_leverage account_id reply_to) v = (Ok None, v')).
Proof.
  intros Hs Hm Hc Hne. destruct (magic_map_blip w s Hs Hm) as (c1 & H1 & E1 & N1).
  destruct (crypto_blip w s Hs Hc) as (c2 & H2 & E2 & N2).
  pose proof (run_refuse account_id reply_to) as Hrefuse.
  destruct (Hrefuse (set_caches c2 (set_sched s w))) as (w2 & Hw2 & Hk).
  exists (set_caches c1 (set_sched s w)), w2. unfold build_strategy_magic_map, build_crypto_leverage.
  destruct strategies as [|x l]; [done|]. split; [|split; [|split]].
  - by rewrite run_bind, H1.
  - intros v Hv Hnow. rewrite run_bind. unfold get_strategy_magic_map, clock. rewrite run_bind, run_act. cbv beta iota.
    rewrite run_bind, run_cached. cbn [fst snd]. rewrite set_caches_same, Hv. cbv zeta. cbn [caches set_caches].
    rewrite E1, N1. rewrite (proj2 (Z.ltb_lt _ _)) by lia. done.
  - by rewrite run_bind, H2.
  - intros v Hv Hnow. rewrite run_bind. unfold get_crypto_settings, clock. rewrite run_bind, run_act. cbv beta iota.
    rewrite run_bind, run_cached. cbn [fst snd]. rewrite set_caches_same, Hv. cbv zeta.
    rewrite Hk. cbn [caches set_caches]. rewrite E2, N2, (proj2 (Z.ltb_lt _ _)) by lia.
    destruct (Hrefuse v) as (v' & H & _). by exists v'.
Qed.
End handshake.
