(* ===== verification/TradeConsumer.v ===== *)
(** * The consumer of worker reports

    [TradeEventConsumer] ([services/nats_service.py]): parse a report, apply it to
    its trade, hand it to the cards and to the signal's broadcast cycle, settle the
    message. *)

From S2P Require Import Prelude PyStr Uuid PyTime Json Enums Schemas Models World Settings.
From S2P Require Import StatusPolicies Samples SignalRepo SignalHelper SignalService SignalWorker.
From S2P Require Import BroadcastRepo BroadcastService TradeRepo TradeFlow.

Definition TRADE_MAX_DELIVERIES : Z := 720.

Inductive TradeOutcome := PERSISTED | UNREADABLE | RETRY.

(** Nothing but tables other than the trades and accounts, and nothing sent. *)
Definition aside (w w' : World) : Prop :=
  trades (db w') = trades (db w) /\ accounts (db w') = accounts (db w) /\ out w' = out w.

#[global] Instance aside_preorder : PreOrder aside.
Proof.
  split; [by intros w|]. intros w1 w2 w3 (? & ? & ?) (? & ? & ?). unfold aside.
  split; [congruence|]. split; congruence.
Qed.

(** [TradeCardService.handle_event]: it queues the trade for its background task. *)
Class TradeCards := {
  handle_event : PositionEvent -> option Trade -> prog unit;
  handle_event_aside : forall event trade, always aside (handle_event event trade)
}.

Section consumer.
Context `{PY : Pydantic} `{CFG : Settings} `{CA : RowChoice Account} `{CT : RowChoice Trade}.
(** The injected card service and signal broadcast service. *)
Context (cards : option TradeCards) (signal_broadcast : bool).

(** What follows a persisted report; neither part may break it. *)
Definition fan_out (event : PositionEvent) (trade : option Trade) : prog unit :=
  do! match cards with
      | None => Ret tt
      | Some c => catch (handle_event event trade) (fun _ => Ret tt)
      end in
  if signal_broadcast then catch (record_execution event trade) (fun _ => Ret tt) else Ret tt.

Definition handle_subject_trade (msg : Msg) : prog TradeOutcome :=
  match m_data msg with
  | Some (JObj data) =>
      match validate_position_event data with
      | None => Ret UNREADABLE
      | Some event =>
          let! r := attempt (upsert_by_position_event event) in
          match r with
          | Err _ => Ret RETRY
          | Ok trade => do! fan_out event trade in Ret PERSISTED
          end
      end
  | _ => Ret UNREADABLE
  end.

(** [TradeEventConsumer._handle_one]. *)
Definition trade_handle_one (msg : Msg) : prog unit :=
  let deliveries := delivery_count msg in
  let! outcome := handle_subject_trade msg in
  match outcome with
  | PERSISTED => settle_msg msg Ack
  | UNREADABLE => settle_msg msg Term
  | RETRY => if (TRADE_MAX_DELIVERIES <=? deliveries)%Z then settle_msg msg Term else settle_msg msg Nak
  end.

(** The pull worker the consumer is, and its subscription over core NATS. *)
Record TradeIntake := { ti_pull : PullWorker; ti_core_sub : bool }.

(** [start]: [stream] and [core] say whether the two subscriptions answered. *)
Definition trade_start (stream core : bool) (s : TradeIntake) : res exn TradeIntake :=
  match pull_start stream (ti_pull s) with
  | Ok pull => Ok {| ti_pull := pull; ti_core_sub := ti_core_sub s |}
  | Err _ => if core then Ok {| ti_pull := ti_pull s; ti_core_sub := true |} else Err NatsError
  end.

(** [stop]; a failed [unsubscribe] is logged. *)
Definition trade_stop (s : TradeIntake) : TradeIntake :=
  {| ti_pull := pull_stop (ti_pull s); ti_core_sub := false |}.

(** A message that came over core NATS: its outcome is dropped. *)
Definition trade_callback (msg : Msg) : prog unit := do! handle_subject_trade msg in Ret tt.

(** ** Facts *)
Definition report_of (msg : Msg) : option PositionEvent :=
  match m_data msg with Some (JObj data) => validate_position_event data | _ => None end.

Lemma aside_frame : frame_ok aside.
Proof. intros w w' Ho _ Hd. unfold aside. by rewrite Hd. Qed.

Lemma aside_session {A} (t : instant -> Db -> res exn (A * Db)) :
  (forall i d a d', t i d = Ok (a, d') -> trades d' = trades d /\ accounts d' = accounts d) ->
  always aside (session t).
Proof.
  intros H. apply always_session; [intros w w' ???; by apply aside_frame|].
  intros w w' a Ho _ Ht. destruct (H _ _ _ _ Ht). by split_and!.
Qed.

Lemma execution_aside event trade : always aside (record_execution event trade).
Proof.
  unfold record_execution. destruct (negb _); [done|]. destruct (ev_signal_id event) as [sid|]; [|done].
  destruct (is_empty sid); [done|]. destruct (to_trade_status _) as [st|]; [|done].
  apply always_bind.
  { unfold get_by_id. destruct (uuid_parse sid); [|done]. apply always_catch; [|done].
    apply always_query, aside_frame. }
  intros [signal|]; [|done]. destruct (sg_signal_uxid signal) as [uxid|]; [|done].
  destruct (is_empty uxid); [done|]. apply always_bind; [|done].
  apply always_bind; [apply always_uuid4, aside_frame|]. intros u.
  apply always_bind; [apply always_uuid4, aside_frame|]. intros v.
  apply always_catch; [|done]. apply aside_session. intros i d a d'. unfold record_worker, save_cycle, insert_log.
  destruct (locked_cycle _ _ _ d); [|by intros [= _ <-]].
  destruct (select_first _ _); [destruct (worker_unchanged _ _ _); [by intros [= _ <-]|]|
    destruct (insert_unique worker_clash _ _); [|done]];
  (destruct (insert_unique log_clash _ _); [|done]; by intros [= _ <-]).
Qed.

Lemma fan_out_runs event trade w :
  exists w', run (fan_out event trade) w = (Ok tt, w') /\ aside w w'.
Proof.
  assert (always aside (fan_out event trade)) as Ha.
  { unfold fan_out. apply always_bind.
    - destruct cards; [|done]. apply always_catch; [apply handle_event_aside|done].
    - intros _. destruct signal_broadcast; [|done]. apply always_catch; [apply execution_aside|done]. }
  pose proof (always_run aside _ w Ha) as Hw.
  destruct (run (fan_out event trade) w) as [r w'] eqn:E. exists w'. split; [|done]. f_equal.
  unfold fan_out in E. rewrite run_bind in E.
  assert (forall (p : prog unit) w0, (run (catch p (fun _ => Ret tt)) w0).1 = Ok tt) as Hcatch.
  { intros p w0. rewrite run_catch. destruct (run p w0) as [[[]|e] w1]; done. }
  destruct (run (match cards with None => Ret tt | Some c => catch (handle_event event trade) (fun _ => Ret tt) end) w)
    as [r1 w1] eqn:E1.
  assert (r1 = Ok tt) as ->.
  { destruct cards; [pose proof (Hcatch (handle_event event trade) w) as H; by rewrite E1 in H|by injection E1]. }
  destruct signal_broadcast; [|by injection E].
  pose proof (Hcatch (record_execution event trade) w1) as H. by rewrite E in H.
Qed.

(** An application sends nothing; one that answers has its row in the table. *)
Lemma run_report event w :
  exists r w1, run (upsert_by_position_event event) w = (r, w1) /\ out w1 = out w /\
  match r, to_trade_status (ev_status event) with
  | Ok None, None => db w1 = db w
  | Ok (Some row), Some status => written event status (trades (db w)) row (trades (db w1))
  | Err _, Some status =>
      db w1 = db w \/ exists row, written event status (trades (db w)) row (trades (db w1))
  | _, _ => False
  end.
Proof.
  unfold upsert_by_position_event. destruct (to_trade_status _) as [status|]; [|by exists (Ok None), w].
  rewrite run_bind. destruct (run_uuid4 w) as (fa & w1 & -> & Hd1 & Ho1). cbv beta iota.
  rewrite run_bind. destruct (run_uuid4 w1) as (ft & w2 & -> & Hd2 & Ho2). cbv beta iota.
  rewrite run_bind. unfold session. rewrite run_act.
  pose proof (session_cases (apply_report event status fa ft) w2) as Hc.
  destruct (session_step _ w2) as [r w3]. destruct Hc as (Ho3 & _ & Hc).
  destruct Hc as [(e & -> & Hd3)|(row & d & Ht & Hd3 & [->| ->])].
  - exists (Err e), w3. split; [done|]. split; [congruence|]. left. congruence.
  - exists (Ok (Some row)), w3. split; [done|]. split; [congruence|]. apply apply_report_written in Ht.
    by rewrite Hd3, <-Hd1, <-Hd2.
  - exists (Err DbError), w3. split; [done|]. split; [congruence|]. right. exists row.
    apply apply_report_written in Ht. by rewrite Hd3, <-Hd1, <-Hd2.
Qed.

Lemma written_elem event status t row t' : written event status t row t' -> row ∈ t'.
Proof.
  destruct 1 as [row Hin|old Hin _ _ _|a fresh _ _ _]; [done| |apply elem_of_app; right; by left].
  apply elem_of_update_where. exists old. split; [done|]. by rewrite bool_decide_eq_true_2.
Qed.

(** One way in.  A consumer that started takes reports over exactly one of the two
    subscriptions, over the stream whenever that answered; it fails to start only
    when neither did; and a stopped one takes none. *)
Lemma trade_start_one_way stream core :
  let idle := {| ti_pull := new_pull_worker; ti_core_sub := false |} in
  match trade_start stream core idle with
  | Ok s => pw_sub (ti_pull s) = stream /\ pw_task (ti_pull s) = stream /\ ti_core_sub s = negb stream /\
            trade_stop s = {| ti_pull := pull_stop (ti_pull s); ti_core_sub := false |} /\
            pw_sub (ti_pull (trade_stop s)) = false
  | Err _ => stream = false /\ core = false
  end.
Proof. by destruct stream, core. Qed.

End consumer.
