(* ===== verification/TradeCards.v ===== *)
(** * Live trade cards

    [TradeCardService] ([services/trade_card_service.py]) with its keyboard
    ([helpers/trade_card.py]), its notifier ([TradeCardNotifier] of
    [services/notification_service.py]) and its two repositories
    ([db/repository/trade_notification.py], [db/repository/trade_broadcast.py]):
    one Telegram message per trade and subscriber, edited as the trade moves. *)

From S2P Require Import Prelude PyStr Uuid PyTime Json Enums Schemas Models ChatTargets World Settings.
From S2P Require Import Dispatcher StatusPolicies TradeRepo AccountRepo TradeConsumer.

(** ** Cards already posted *)

(** [TradeCard], the view of a [trade_notifications] row. *)
Record TradeCard := {
  card_id : uuid;
  card_chat_id : string;
  card_message_id : Z;
  card_status : TradeStatusEnum
}.

Definition card_view (r : TradeNotification) : TradeCard :=
  {| card_id := tn_id r; card_chat_id := tn_chat_id r; card_message_id := tn_message_id r;
     card_status := tn_status r |}.

Definition of_trade_id (trade_id : uuid) (r : TradeNotification) : bool :=
  bool_decide (tn_trade_id r = trade_id) && bool_decide (tn_platform r = Platform.TELEGRAM).

Definition cards_of (trade_id : uuid) (d : Db) : list TradeCard :=
  map card_view (select_where (of_trade_id trade_id) (trade_notifications d)).

(** [list_for_trade]. *)
Definition list_for_trade (trade_id : uuid) : prog (list TradeCard) :=
  catch (query (cards_of trade_id)) (fun _ => Ret []).

Definition of_recipient (trade_id : uuid) (chat_id : string) (r : TradeNotification) : bool :=
  of_trade_id trade_id r && bool_decide (tn_chat_id r = chat_id).

Definition assign_card (message_id : Z) (status : TradeStatusEnum) (r : TradeNotification) : TradeNotification :=
  {| tn_id := tn_id r; tn_trade_id := tn_trade_id r; tn_platform := tn_platform r;
     tn_chat_id := tn_chat_id r; tn_message_id := message_id; tn_status := status |}.

(** The transaction of [record]. *)
Definition write_card (fresh trade_id : uuid) (chat_id : string) (message_id : Z) (status : TradeStatusEnum)
    (d : Db) : res exn (unit * Db) :=
  match select_first (of_recipient trade_id chat_id) (trade_notifications d) with
  | Some row =>
      Ok (tt, set_notifications (update_where (fun r => bool_decide (tn_id r = tn_id row))
                                   (assign_card message_id status) (trade_notifications d)) d)
  | None =>
      match insert_unique notification_clash
              {| tn_id := fresh; tn_trade_id := trade_id; tn_platform := Platform.TELEGRAM;
                 tn_chat_id := chat_id; tn_message_id := message_id; tn_status := status |}
              (trade_notifications d) with
      | Some t => Ok (tt, set_notifications t d)
      | None => Err IntegrityError
      end
  end.

Definition record (trade_id : uuid) (chat_id : string) (message_id : Z) (status : TradeStatusEnum) : prog bool :=
  let! fresh := uuid4 in
  catch (do! session (fun _ d => write_card fresh trade_id chat_id message_id status d) in Ret true)
        (fun _ => Ret false).

(** [mark_status]. *)
Definition mark_status (id : uuid) (status : TradeStatusEnum) : prog bool :=
  catch (session (fun _ d =>
    match select_first (fun r => bool_decide (tn_id r = id)) (trade_notifications d) with
    | None => Ok (false, d)
    | Some row =>
        Ok (true, set_notifications (update_where (fun r => bool_decide (tn_id r = id))
                                       (fun r => assign_card (tn_message_id r) status r)
                                       (trade_notifications d)) d)
    end)) (fun _ => Ret false).

(** [delete]. *)
Definition forget_card (id : uuid) : prog bool :=
  catch (do! session (fun _ d =>
           Ok (tt, set_notifications (delete_where (fun r => bool_decide (tn_id r = id)) (trade_notifications d)) d))
         in Ret true) (fun _ => Ret false).

(** ** Subscriptions *)
Definition enable_link (enabled : bool) (r : AccountBotLink) : AccountBotLink :=
  {| al_id := al_id r; al_createdAt := al_createdAt r; al_account_id := al_account_id r; al_platform := al_platform r;
     al_platform_user_id := al_platform_user_id r; al_trade_cards_enabled := enabled |}.

(** The bulk [update] of [_set_enabled] and [_set_enabled_everywhere]; its
    [rowcount]. *)
Definition set_links_enabled (user : string) (account : option uuid) (enabled : bool) (d : Db) : Z * Db :=
  (Z.of_nat (length (select_where (link_of user account) (account_bot_links d))),
   set_links (update_where (link_of user account) (enable_link enabled) (account_bot_links d)) d).

(** [_set_enabled] ([subscribe], [unsubscribe]). *)
Definition set_enabled (telegram_user_id : Z) (account : uuid) (enabled : bool) : prog bool :=
  catch (let! rowcount := session (fun _ d =>
           Ok (set_links_enabled (str_int telegram_user_id) (Some account) enabled d)) in
         Ret (negb (rowcount =? 0)%Z))
        (fun _ => Ret false).

(** [_set_enabled_everywhere] ([subscribe_all], [unsubscribe_all]). *)
Definition set_enabled_everywhere (telegram_user_id : Z) (enabled : bool) : prog (option Z) :=
  catch (let! links := session (fun _ d => Ok (set_links_enabled (str_int telegram_user_id) None enabled d)) in
         Ret (Some links))
        (fun _ => Ret None).

Definition is_subscribed (telegram_user_id : Z) (account : uuid) : prog bool :=
  catch (query (fun d =>
    match select_first (link_of (str_int telegram_user_id) (Some account)) (account_bot_links d) with
    | Some r => al_trade_cards_enabled r
    | None => false
    end)) (fun _ => Ret false).

Definition account_matches (account_id : string) (market : option MarketTypeEnum) (gateway : option string)
    (r : Account) : bool :=
  bool_decide (ac_account_id r = account_id) &&
  match market with Some m => bool_decide (ac_market r = m) | None => true end &&
  match gateway with
  | Some g => match ac_gateway r with Some g' => String.eqb g' g | None => true end
  | None => true
  end.

(** The join of [list_broadcast_targets], in the order of the links;
    [distinct] is [dict.fromkeys]. *)
Definition targets_of (account_id : string) (market : option MarketTypeEnum) (gateway : option string) (d : Db)
    : list string :=
  distinct (map al_platform_user_id (select_where (fun l =>
    bool_decide (al_platform l = Platform.TELEGRAM) && al_trade_cards_enabled l &&
    existsb (fun a => bool_decide (ac_id a = al_account_id l) && account_matches account_id market gateway a)
      (accounts d)) (account_bot_links d))).

Definition list_broadcast_targets (account_id : string) (market : option MarketTypeEnum) (gateway : option string)
    : prog (list string) :=
  catch (query (targets_of account_id market gateway)) (fun _ => Ret []).

(** ** The notifier *)
Definition DM_GONE_MARKERS : list string :=
  message_gone_markers ++
  ["chat not found"; "bot was blocked by the user"; "user is deactivated"; "bot can't initiate conversation"].

(** [ChatTarget(chat_id)]. *)
Definition dm_target (chat_id : string) : ChatTarget :=
  {| ct_chat_id := chat_id; ct_message_thread_id := None |}.

Section notifier.
Context `{CFG : Settings}.

(** [TradeCardNotifier._ready]. *)
Definition card_ready (target : ChatTarget) : bool :=
  tg_ENABLED set_telegram && negb (is_empty (tg_SERVICE_BOT_TOKEN set_telegram)) &&
  negb (is_empty (ct_chat_id target)).

(** [send_and_get_message_id], its text read back by [int]. *)
Definition card_send (target : ChatTarget) (text : string) (reply_markup : option json) : prog (option Z) :=
  if negb (card_ready target) then Ret None
  else
    let! r := telegram (TgSendCard target text reply_markup) in
    Ret (match r with
         | TgAnswer status _ message_id => if (status =? 200)%Z then message_id else None
         | _ => None
         end).

(** [edit_message]. *)
Definition card_edit (target : ChatTarget) (message_id text : string) (reply_markup : option json)
    : prog EditOutcome :=
  if negb (card_ready target) then Ret Edit.FAILED
  else
    let! r := telegram (TgEditCard target message_id text reply_markup) in
    Ret (edit_outcome_by DM_GONE_MARKERS r).
End notifier.

(** ** The card *)
Definition TERMINAL_STATUSES : list TradeStatusEnum :=
  [TradeStatus.CLOSED; TradeStatus.FLAT; TradeStatus.REJECTED].

Definition is_terminal (trade : Trade) : bool := bool_decide (tr_status trade ∈ TERMINAL_STATUSES).

Definition button (text prefix : string) (trade_id : uuid) : json :=
  JObj [("text", JStr text); ("callback_data", JStr (prefix +:+ ":" +:+ uuid_str trade_id))].

Definition trade_card_keyboard (trade : Trade) (detailed : bool) : option json :=
  if is_terminal trade then None
  else
    let toggle := if detailed then button "⬆️ Summary" "tc:s" (tr_id trade)
                  else button "🔍 Detail" "tc:d" (tr_id trade) in
    Some (JObj [("inline_keyboard", JList [JList [toggle; button "🏁 Close" "tc:x" (tr_id trade)]])]).

(** [format_trade_card] of a trade and the time zone setting, which raises on a number
    or a time it cannot write ([CardText]). *)
Class CardRenderer := { format_trade_card : Trade -> option string -> res exn string }.

(** ** The service *)
Section service.
Context `{CFG : Settings} `{REN : CardRenderer}.

(** [_refresh]. *)
Definition refresh (card : TradeCard) (body : string) (markup : option json) (status : TradeStatusEnum)
    : prog bool :=
  if bool_decide (card_status card = status) then Ret false
  else
    let! outcome := card_edit (dm_target (card_chat_id card)) (str_int (card_message_id card)) body markup in
    match outcome with
    | Edit.OK => do! mark_status (card_id card) status in Ret true
    | Edit.MISSING => do! forget_card (card_id card) in Ret false
    | Edit.FAILED => Ret false
    end.

(** [_post]. *)
Definition post (chat_id : string) (trade : Trade) (body : string) (markup : option json)
    (status : TradeStatusEnum) : prog bool :=
  let! message_id := card_send (dm_target chat_id) body markup in
  match message_id with
  | None => Ret false
  | Some message_id => do! record (tr_id trade) chat_id message_id status in Ret true
  end.

Definition render (trade : Trade) (timezone_offset : option string) : prog string :=
  match format_trade_card trade timezone_offset with Ok body => Ret body | Err e => Raise e end.

(** [_apply]; the counts it logs are left out. *)
Definition apply_card (trade : Trade) : prog unit :=
  let! existing := list_for_trade (tr_id trade) in
  let! subscribers := list_broadcast_targets (tr_account_id trade) (tr_market trade) (tr_gateway trade) in
  match existing, subscribers with
  | [], [] => Ret tt
  | _, _ =>
      let! timezone_offset := setting_get NOTIFICATION_TIMEZONE_KEY in
      let! body := render trade timezone_offset in
      let markup := trade_card_keyboard trade false in
      let status := tr_status trade in
      let carded := map card_chat_id existing in
      do! for_each existing (fun card => do! refresh card body markup status in Ret tt) in
      for_each subscribers (fun chat_id =>
        if bool_decide (chat_id ∈ carded) then Ret tt
        else do! post chat_id trade body markup status in Ret tt)
  end.

(** ** Its queue *)
Definition QUEUE_MAXSIZE : nat := 200.

(** [put_nowait], a full queue dropping the update. *)
Definition queue_card (event : PositionEvent) (trade : option Trade) : prog unit :=
  match trade with
  | None => Ret tt
  | Some trade =>
      with_cards (fun q => (tt, if QUEUE_MAXSIZE <=? length q then q else q ++ [trade]))
  end.

(** One turn of [_worker]: [None] when the queue is empty and it waits. *)
Definition card_worker_step : prog (option Trade) :=
  let! next := with_cards (fun q => match q with [] => (None, []) | t :: q => (Some t, q) end) in
  match next with
  | None => Ret None
  | Some trade => do! catch (apply_card trade) (fun _ => Ret tt) in Ret (Some trade)
  end.

Lemma queue_card_aside event trade : always aside (queue_card event trade).
Proof. destruct trade as [t|]; [|done]. apply always_act. by intros w. Qed.

(** What the consumer of reports expects of the cards. *)
Definition TradeCardService : TradeCards := {|
  handle_event := queue_card;
  handle_event_aside := queue_card_aside
|}.
End service.
