(* ===== verification/CardFlow.v ===== *)
(** * What a trade's cards do

    What one turn of the card service ([TradeCardService._apply]) sends to
    Telegram, that it brings every card of a trade to the trade's status, and
    how a lost answer or a failed read leaves two cards for one trade. *)

From S2P Require Import Prelude PyStr Uuid PyTime Json Enums Schemas Models ChatTargets World Settings.
From S2P Require Import Dispatcher StatusPolicies Samples TradeRepo AccountRepo TradeConsumer TradeCards.

(** ** The calls of one pass *)
Section calls.
Context `{CFG : Settings} `{REN : CardRenderer}.

Definition edit_of (trade : Trade) (body : string) (card : TradeCard) : list tg_call :=
  if bool_decide (card_status card = tr_status trade) || negb (card_ready (dm_target (card_chat_id card)))
  then []
  else [TgEditCard (dm_target (card_chat_id card)) (str_int (card_message_id card)) body
          (trade_card_keyboard trade false)].

Definition send_of (trade : Trade) (body : string) (existing : list TradeCard) (chat_id : string) : list tg_call :=
  if bool_decide (chat_id ∈ map card_chat_id existing) || negb (card_ready (dm_target chat_id)) then []
  else [TgSendCard (dm_target chat_id) body (trade_card_keyboard trade false)].

(** Edits of the cards that show another status, then first cards. *)
Definition pass_calls (trade : Trade) (body : string) (existing : list TradeCard) (subscribers : list string)
    : list tg_call :=
  flat_map (edit_of trade body) existing ++ flat_map (send_of trade body existing) subscribers.

(** Telegram was called with [calls], and nothing else left the process. *)
Definition called (calls : list tg_call) (w w' : World) : Prop :=
  exists results, length results = length calls /\
    out w' = out w ++ zip_with SentTg calls results.

Lemma called_nil w w' : out w' = out w -> called [] w w'.
Proof. intros H. exists []. by rewrite app_nil_r. Qed.

Lemma called_app c1 c2 w1 w2 w3 : called c1 w1 w2 -> called c2 w2 w3 -> called (c1 ++ c2) w1 w3.
Proof.
  intros (r1 & L1 & H1) (r2 & L2 & H2). exists (r1 ++ r2). split; [by rewrite !length_app, L1, L2|].
  rewrite H2, H1, zip_with_app by done. by rewrite app_assoc.
Qed.

Lemma called_same c w1 w2 w3 : called c w1 w2 -> out w3 = out w2 -> called c w1 w3.
Proof. intros (r & L & H) E. exists r. by rewrite E. Qed.

Lemma called_telegram c w r w' : run (telegram c) w = (Ok r, w') -> called [c] w w'.
Proof.
  intros H. destruct (run_telegram c w) as (r' & w1 & H1 & Ho & _).
  rewrite H1 in H. injection H as -> ->. by exists [r].
Qed.

(** A session whose failure is swallowed answers and sends nothing. *)
Lemma run_session_aside {A B} (t : instant -> Db -> res exn (A * Db)) (f : A -> B) (b : B) w :
  exists r w', run (catch (let! x := session t in Ret (f x)) (fun _ => Ret b)) w = (Ok r, w') /\ out w' = out w.
Proof.
  rewrite run_catch, run_bind. unfold session. rewrite run_act.
  pose proof (session_cases t w) as H. destruct (session_step t w) as [[a|e] w']; cbn; naive_solver.
Qed.

Lemma run_record_card trade_id chat_id message_id status w :
  exists b w', run (record trade_id chat_id message_id status) w = (Ok b, w') /\ out w' = out w.
Proof.
  unfold record. rewrite run_bind. cbn.
  assert (exists u w1, (match uuids w with [] => (Ok (E:=exn) (uid 0), w) | u :: s => (Ok u, set_uuids s w) end)
                       = (Ok u, w1) /\ out w1 = out w) as (u & w1 & -> & Ho) by (destruct (uuids w); eauto).
  cbn. destruct (run_session_aside (fun _ d => write_card u trade_id chat_id message_id status d)
                   (fun _ => true) false w1) as (b & w2 & H2 & Ho2). exists b, w2. split; [exact H2|congruence].
Qed.

Lemma run_mark_status id status w :
  exists b w', run (mark_status id status) w = (Ok b, w') /\ out w' = out w.
Proof.
  unfold mark_status. rewrite run_catch. unfold session. rewrite run_act.
  match goal with |- context [session_step ?t w] => pose proof (session_cases t w) as H;
    destruct (session_step t w) as [[a|e] w'] end; cbn; naive_solver.
Qed.

Lemma run_forget_card id w :
  exists b w', run (forget_card id) w = (Ok b, w') /\ out w' = out w.
Proof. apply (run_session_aside _ (fun _ => true) false). Qed.

Lemma refresh_called trade body card w :
  exists b w', run (refresh card body (trade_card_keyboard trade false) (tr_status trade)) w = (Ok b, w') /\
    called (edit_of trade body card) w w'.
Proof.
  unfold refresh, edit_of, card_edit. destruct (bool_decide _); cbn [orb].
  { exists false, w. split; [done|]. by apply called_nil. }
  destruct (card_ready _); cbn [negb]; [|exists false, w; split; [done|]; by apply called_nil].
  rewrite run_bind, run_bind.
  match goal with |- context [run (telegram ?c) w] => destruct (run_telegram c w) as (r & w1 & H1 & _) end.
  rewrite H1. cbn [run]. apply called_telegram in H1.
  destruct (edit_outcome_by _ _).
  - rewrite run_bind. destruct (run_mark_status (card_id card) (tr_status trade) w1) as (b & w2 & -> & Ho).
    exists true, w2. split; [done|]. by eapply called_same.
  - rewrite run_bind. destruct (run_forget_card (card_id card) w1) as (b & w2 & -> & Ho).
    exists false, w2. split; [done|]. by eapply called_same.
  - by exists false, w1.
Qed.

Lemma post_called trade body existing chat_id w :
  exists w', run (if bool_decide (chat_id ∈ map card_chat_id existing) then Ret tt
                  else do! post chat_id trade body (trade_card_keyboard trade false) (tr_status trade) in Ret tt) w
             = (Ok tt, w') /\ called (send_of trade body existing chat_id) w w'.
Proof.
  unfold send_of, post, card_send. destruct (bool_decide _); cbn [orb].
  { exists w. split; [done|]. by apply called_nil. }
  destruct (card_ready _); cbn [negb]; [|exists w; split; [done|]; by apply called_nil].
  rewrite !run_bind.
  match goal with |- context [run (telegram ?c) w] => destruct (run_telegram c w) as (r & w1 & H1 & _) end.
  rewrite H1. cbn [run]. apply called_telegram in H1.
  destruct (match r with TgAnswer _ _ _ => _ | _ => _ end) as [i|]; [|by exists w1].
  rewrite run_bind. destruct (run_record_card (tr_id trade) chat_id i (tr_status trade) w1) as (b & w2 & -> & Ho).
  exists w2. split; [done|]. by eapply called_same.
Qed.

(** A loop whose every turn answers makes the calls of its turns. *)
Lemma for_each_called {X} (l : list X) body (calls : X -> list tg_call) w :
  (forall x w, exists w', run (body x) w = (Ok tt, w') /\ called (calls x) w w') ->
  exists w', run (for_each l body) w = (Ok tt, w') /\ called (flat_map calls l) w w'.
Proof.
  intros H. revert w. induction l as [|x l IH]; intros w; cbn [for_each flat_map].
  { exists w. split; [done|]. by apply called_nil. }
  rewrite run_bind. destruct (H x w) as (w1 & -> & H1). destruct (IH w1) as (w2 & -> & H2).
  exists w2. split; [done|]. by eapply called_app.
Qed.

(** A read whose failure answers [[]]. *)
Lemma run_list_query {A} (t : Db -> list A) w :
  exists l w', run (catch (query t) (fun _ => Ret [])) w = (Ok l, w') /\ out w' = out w /\ db w' = db w /\
    (l = t (db w) \/ (l = [] /\ sched w <> [])) /\ (sched w = [] -> sched w' = []).
Proof.
  rewrite run_catch. unfold query, session. rewrite run_act. unfold session_step, next_outcome.
  destruct (sched w) as [|[| |] s] eqn:E; cbn; eexists _, _; split_and!; eauto; try done; by right.
Qed.

(** What a pass does with what it read. *)
Definition bring_up_to_date (trade : Trade) (body : string) (existing : list TradeCard) (subscribers : list string)
    : prog unit :=
  do! for_each existing (fun card =>
        do! refresh card body (trade_card_keyboard trade false) (tr_status trade) in Ret tt) in
  for_each subscribers (fun chat_id =>
    if bool_decide (chat_id ∈ map card_chat_id existing) then Ret tt
    else do! post chat_id trade body (trade_card_keyboard trade false) (tr_status trade) in Ret tt).

Definition turn (trade : Trade) (existing : list TradeCard) (subscribers : list string) : prog unit :=
  match existing, subscribers with
  | [], [] => Ret tt
  | _, _ =>
      let! tz := setting_get NOTIFICATION_TIMEZONE_KEY in
      let! body := render trade tz in
      bring_up_to_date trade body existing subscribers
  end.

Lemma apply_card_turn trade :
  apply_card trade =
  let! existing := list_for_trade (tr_id trade) in
  let! subscribers := list_broadcast_targets (tr_account_id trade) (tr_market trade) (tr_gateway trade) in
  turn trade existing subscribers.
Proof. done. Qed.

(** The time zone setting as it is stored. *)
Definition stored_timezone (d : Db) : option string := find_setting NOTIFICATION_TIMEZONE_KEY d.

Lemma run_setting_get key w :
  exists v w', run (setting_get key) w = (Ok v, w') /\ out w' = out w /\ (sched w = [] -> v = find_setting key (db w)).
Proof.
  unfold setting_get. rewrite run_catch. unfold query, session. rewrite run_act.
  unfold session_step, next_outcome. destruct (sched w) as [|[| |] s]; cbn; eexists _, _; split_and!; done.
Qed.

Lemma up_to_date_called trade body existing subscribers w :
  exists w', run (bring_up_to_date trade body existing subscribers) w = (Ok tt, w') /\
    called (pass_calls trade body existing subscribers) w w'.
Proof.
  destruct (for_each_called existing (fun card => do! refresh card body
     (trade_card_keyboard trade false) (tr_status trade) in Ret tt) (edit_of trade body) w) as (w2 & H2 & C2).
  { intros c v. rewrite run_bind. destruct (refresh_called trade body c v) as (b & v' & -> & ?). by exists v'. }
  destruct (for_each_called subscribers _ (send_of trade body existing) w2
    (post_called trade body existing)) as (w3 & H3 & C3).
  exists w3. unfold bring_up_to_date. rewrite run_bind, H2. split; [exact H3|]. by eapply called_app.
Qed.

(** What a pass calls when the card comes out as [rendered]. *)
Definition pass_outcome (trade : Trade) (rendered : res exn string) (existing : list TradeCard) (subscribers : list string)
    (r : res exn unit) (w w' : World) : Prop :=
  match rendered with
  | Ok body => r = Ok tt /\ called (pass_calls trade body existing subscribers) w w'
  | Err _ => called [] w w'
  end.

Lemma turn_called trade existing subscribers w :
  exists tz r w', run (turn trade existing subscribers) w = (r, w') /\
    (sched w = [] -> tz = stored_timezone (db w)) /\
    pass_outcome trade (format_trade_card trade tz) existing subscribers r w w'.
Proof.
  destruct (run_setting_get NOTIFICATION_TIMEZONE_KEY w) as (tz & w1 & Htz & Ho1 & Hv). exists tz.
  assert (existing = [] /\ subscribers = [] \/
    turn trade existing subscribers = let! tz := setting_get NOTIFICATION_TIMEZONE_KEY in
      let! body := render trade tz in bring_up_to_date trade body existing subscribers) as [[-> ->]| ->]
    by (destruct existing, subscribers; auto).
  { exists (Ok tt), w. split; [done|]. split; [done|]. unfold pass_outcome.
    destruct (format_trade_card trade tz); [split; [done|]|]; by apply called_nil. }
  rewrite run_bind, Htz. cbv beta iota. rewrite run_bind. unfold render, pass_outcome.
  destruct (format_trade_card trade tz) as [body|e]; cbn [run].
  - destruct (up_to_date_called trade body existing subscribers w1) as (w2 & H2 & C2). exists (Ok tt), w2.
    split; [exact H2|]. split; [done|]. split; [done|]. eapply (called_app []); [by apply called_nil|done].
  - exists (Err e), w1. split; [done|]. split; [done|]. by apply called_nil.
Qed.

(** The Telegram traffic of a trade event, whatever the database and
    Telegram answer: where the card can be rendered one turn of the card service
    returns, and it calls the Bot API exactly for the cards it read that show another status than the
    trade's — one edit each, in the cards' own chats — and then for the enabled
    links it read that hold no card, one new message each; every call carries the
    card of the trade as it was queued, with buttons only while the trade is not
    over.  Where it cannot be rendered nothing is called.  What it read is what is
    stored, or nothing when the read failed. *)
Theorem card_pass_calls trade w :
  exists existing subscribers tz r w',
    run (apply_card trade) w = (r, w') /\
    pass_outcome trade (format_trade_card trade tz) existing subscribers r w w' /\
    (existing = cards_of (tr_id trade) (db w) \/ existing = [] /\ sched w <> []) /\
    (subscribers = targets_of (tr_account_id trade) (tr_market trade) (tr_gateway trade) (db w) \/
     subscribers = [] /\ sched w <> []) /\
    NoDup subscribers /\
    (is_terminal trade = true -> trade_card_keyboard trade false = None).
Proof.
  rewrite apply_card_turn. unfold list_for_trade, list_broadcast_targets. rewrite run_bind.
  destruct (run_list_query (cards_of (tr_id trade)) w) as (ex & w1 & -> & Ho1 & Hd1 & Hex & Hs1).
  rewrite run_bind.
  match goal with |- context [run (catch (query ?t) _) w1] => destruct (run_list_query t w1)
    as (subs & w2 & -> & Ho2 & Hd2 & Hsub & _) end.
  destruct (turn_called trade ex subs w2) as (tz & r & w3 & H3 & _ & C3). exists ex, subs, tz, r, w3.
  rewrite Hd1 in Hsub. assert (called [] w w2) as C2 by (apply called_nil; congruence). split_and!; try done.
  - unfold pass_outcome in *. destruct (format_trade_card trade tz).
    + destruct C3 as [-> C3]. split; [done|]. by eapply (called_app []).
    + by eapply (called_app [] []).
  - destruct Hsub as [->|[-> Hs]]; [by left|right]. split; [done|]. intros E. by apply Hs, Hs1.
  - destruct Hsub as [->|[-> _]]; [apply NoDup_distinct|constructor].
  - unfold trade_card_keyboard. by intros ->.
Qed.
End calls.

(** ** Cards over working services *)
Section follow.
Context `{CFG : Settings} `{REN : CardRenderer}.

(** Neither the database nor Telegram fails. *)
Definition calm (w : World) : Prop := db_up w /\ tg w = [].

Definition with_notifications (t : list TradeNotification) (w : World) : World -> Prop := fun w' =>
  calm w' /\ db w' = set_notifications t (db w).

Definition set_status (status : TradeStatusEnum) (r : TradeNotification) : TradeNotification :=
  assign_card (tn_message_id r) status r.

(** The rows a pass brings to the trade's status. *)
Definition marked (trade : Trade) (existing : list TradeCard) (r : TradeNotification) : bool :=
  existsb (fun c => bool_decide (tn_id r = card_id c) && negb (bool_decide (card_status c = tr_status trade)) &&
                    card_ready (dm_target (card_chat_id c))) existing.

Lemma edit_answered markers i : edit_outcome_by markers (TgAnswer 200 EmptyString (Some i)) = Edit.OK.
Proof. done. Qed.

Lemma set_notifications_same d : set_notifications (trade_notifications d) d = d.
Proof. by destruct d. Qed.

Lemma set_notifications_twice t t' d : set_notifications t (set_notifications t' d) = set_notifications t d.
Proof. done. Qed.

(** A call Telegram accepted, and the message it answered with. *)
Definition accepted (c : tg_call) (i : Z) : sent := SentTg c (TgAnswer 200 EmptyString (Some i)).

(** The edit of a card to the trade's state, and the first card of a chat. *)
Definition edit_call (trade : Trade) (body : string) (card : TradeCard) : tg_call :=
  TgEditCard (dm_target (card_chat_id card)) (str_int (card_message_id card)) body (trade_card_keyboard trade false).
Definition send_call (trade : Trade) (body chat_id : string) : tg_call :=
  TgSendCard (dm_target chat_id) body (trade_card_keyboard trade false).

(** The cards a pass edits. *)
Definition stale (trade : Trade) (existing : list TradeCard) : list TradeCard :=
  base.filter (fun c => card_status c <> tr_status trade) existing.

(** Telegram accepted the edits of [cards], in this order, and nothing else was sent. *)
Definition edited (trade : Trade) (body : string) (cards : list TradeCard) (w w' : World) : Prop :=
  exists ids, length ids = length cards /\ out w' = out w ++ zip_with accepted (map (edit_call trade body) cards) ids.

Lemma edited_nil trade body w w' : out w' = out w -> edited trade body [] w w'.
Proof. intros H. exists []. by rewrite app_nil_r. Qed.

Lemma edited_app trade body c1 c2 w1 w2 w3 :
  edited trade body c1 w1 w2 -> edited trade body c2 w2 w3 -> edited trade body (c1 ++ c2) w1 w3.
Proof.
  intros (i1 & L1 & H1) (i2 & L2 & H2). exists (i1 ++ i2). split; [by rewrite !length_app, L1, L2|].
  rewrite H2, H1, map_app, zip_with_app by (by rewrite length_map). by rewrite app_assoc.
Qed.

Lemma run_telegram_calm c w :
  calm w -> exists i w', run (telegram c) w = (Ok (TgAnswer 200 EmptyString (Some i)), w') /\
    calm w' /\ db w' = db w /\ uuids w' = uuids w /\ out w' = out w ++ [accepted c i].
Proof.
  intros [Hs Ht]. destruct (run_telegram c w) as (r & w' & H & Ho & Hd & Hs' & _ & Hu & Hr & _).
  destruct (Hr Ht) as [Ht' [i ->]]. exists i, w'. unfold calm, db_up in *. by rewrite Hs', Ht'.
Qed.

Lemma run_mark_up id status w :
  calm w -> exists b w', run (mark_status id status) w = (Ok b, w') /\ uuids w' = uuids w /\ out w' = out w /\
    with_notifications (update_where (fun r => bool_decide (tn_id r = id)) (set_status status)
                          (trade_notifications (db w))) w w'.
Proof.
  intros [Hs Ht]. unfold mark_status. rewrite run_catch, run_session_up by done.
  destruct (select_first _ _) as [row|] eqn:E; eexists _, _; (split; [done|]); (split; [done|]); (split; [done|]); (split; [done|]).
  - done.
  - apply select_first_None in E. rewrite update_where_none by done. cbn. by rewrite set_notifications_same.
Qed.

Lemma unmarked p f w :
  (forall r, p r = false) -> calm w ->
  with_notifications (update_where p f (trade_notifications (db w))) w w.
Proof.
  intros Hp Hw. split; [done|].
  rewrite update_where_none, set_notifications_same by (apply Forall_forall; auto). done.
Qed.

Lemma refresh_up trade body card w :
  calm w -> card_ready (dm_target (card_chat_id card)) = true ->
  exists b w', run (refresh card body (trade_card_keyboard trade false) (tr_status trade)) w = (Ok b, w') /\
    uuids w' = uuids w /\ edited trade body (stale trade [card]) w w' /\
    with_notifications (update_where (marked trade [card]) (set_status (tr_status trade))
                          (trade_notifications (db w))) w w'.
Proof.
  intros Hw Er. unfold refresh, card_edit, stale. rewrite filter_cons, filter_nil.
  destruct (bool_decide_reflect (card_status card = tr_status trade)) as [Es|Es].
  { rewrite decide_False by (by intros ?). exists false, w. split; [done|]. split; [done|]. split; [by apply edited_nil|].
    apply unmarked; [|done]. intros r. unfold marked. cbn [existsb]. by rewrite (bool_decide_eq_true_2 _ Es), andb_false_r. }
  rewrite decide_True by done. rewrite Er. cbn [negb]. rewrite run_bind, run_bind.
  match goal with |- context [run (telegram ?c) w] =>
    destruct (run_telegram_calm c w Hw) as (i & w1 & -> & Hc & Hd & Hu & Ho) end.
  cbn [run]. rewrite edit_answered, run_bind.
  destruct (run_mark_up (card_id card) (tr_status trade) w1 Hc) as (b & w2 & -> & Hu2 & Ho2 & Hc2 & Hd2).
  exists true, w2. split; [done|]. split; [congruence|]. split; [exists [i]; split; [done|by rewrite Ho2, Ho]|].
  split; [done|]. rewrite Hd2, Hd. f_equal.
  unfold update_where. apply map_ext. intros r. unfold marked. cbn [existsb].
  by rewrite (bool_decide_eq_false_2 _ Es), Er, !andb_true_r, orb_false_r.
Qed.

Lemma update_where_fuse {row} (p q : row -> bool) f (t : list row) :
  (forall r, q (f r) = q r) -> (forall r, f (f r) = f r) ->
  update_where q f (update_where p f t) = update_where (fun r => p r || q r) f t.
Proof.
  intros Hq Hf. unfold update_where. rewrite map_map. apply map_ext. intros r.
  destruct (p r); cbn [orb]; rewrite ?Hq, ?Hf; by destruct (q r).
Qed.

Lemma refresh_all trade body existing w :
  calm w -> Forall (fun c => card_ready (dm_target (card_chat_id c)) = true) existing ->
  exists w', run (for_each existing (fun card =>
      do! refresh card body (trade_card_keyboard trade false) (tr_status trade) in Ret tt)) w = (Ok tt, w') /\
    uuids w' = uuids w /\ edited trade body (stale trade existing) w w' /\
    with_notifications (update_where (marked trade existing) (set_status (tr_status trade))
                          (trade_notifications (db w))) w w'.
Proof.
  revert w. induction existing as [|c l IH]; intros w Hw Hr; cbn [for_each].
  { exists w. split; [done|]. split; [done|]. split; [by apply edited_nil|]. split; [done|].
    rewrite update_where_none, set_notifications_same by (by apply Forall_forall). done. }
  apply Forall_cons in Hr as [Hr Hl].
  rewrite !run_bind. destruct (refresh_up trade body c w Hw Hr) as (b & w1 & -> & Hu1 & He1 & Hc1 & Hd1). cbn [run].
  destruct (IH w1 Hc1 Hl) as (w2 & -> & Hu2 & He2 & Hc2 & Hd2). exists w2. split; [done|]. split; [congruence|].
  split; [change (c :: l) with ([c] ++ l); unfold stale; rewrite filter_app; by eapply edited_app|].
  split; [done|]. rewrite Hd2, Hd1, set_notifications_twice. f_equal. cbn [trade_notifications set_notifications].
  rewrite update_where_fuse by done.
  unfold update_where. apply map_ext. intros r. unfold marked. cbn [existsb]. by rewrite orb_false_r.
Qed.

(** Uuids still to be drawn are no row's. *)
Definition fresh_cards (w : World) : Prop :=
  NoDup (uuids w) /\ forall r, r ∈ trade_notifications (db w) -> tn_id r ∉ uuids w.

Definition posted (trade : Trade) (chat_id : string) (r : TradeNotification) : Prop :=
  tn_trade_id r = tr_id trade /\ tn_platform r = Platform.TELEGRAM /\ tn_status r = tr_status trade /\
  tn_chat_id r = chat_id.

(** The rows of the first cards hold the messages Telegram answered with. *)
Definition cards_sent (trade : Trade) (body : string) (rows : list TradeNotification) (w w' : World) : Prop :=
  out w' = out w ++ map (fun r => accepted (send_call trade body (tn_chat_id r)) (tn_message_id r)) rows.

Lemma run_record_up trade chat_id i w u us :
  calm w -> fresh_cards w -> uuids w = u :: us ->
  Forall (fun r => of_recipient (tr_id trade) chat_id r = false) (trade_notifications (db w)) ->
  exists r w', run (record (tr_id trade) chat_id i (tr_status trade)) w = (Ok true, w') /\
    posted trade chat_id r /\ tn_message_id r = i /\ uuids w' = us /\ out w' = out w /\ fresh_cards w' /\
    with_notifications (trade_notifications (db w) ++ [r]) w w'.
Proof.
  intros [Hs Ht] [Hnd Hfr] Hu Hno. unfold record. rewrite run_bind. unfold uuid4. rewrite run_act, Hu.
  cbv beta iota. rewrite run_catch, run_bind, run_session_up by done. unfold write_card.
  cbn [set_uuids db now]. rewrite (proj2 (select_first_None _ _) Hno).
  set (r := {| tn_id := u |}).
  assert (insert_unique notification_clash r (trade_notifications (db w)) = Some (trade_notifications (db w) ++ [r])) as ->.
  { destruct (insert_unique _ _ _) eqn:E; [by apply insert_unique_Some in E as [-> _]|].
    apply insert_unique_None in E as (r' & Hin & Hc). exfalso.
    apply orb_prop in Hc as [Hc%bool_decide_eq_true|Hc].
    - apply (Hfr r' Hin). rewrite Hu, <-Hc. left.
    - rewrite Forall_forall in Hno. specialize (Hno r' Hin). unfold of_recipient, of_trade_id in Hno.
      cbn in Hc. rewrite !andb_true_iff, !bool_decide_eq_true in Hc. destruct Hc as [[H1 H2] H3].
      by rewrite !bool_decide_eq_true_2 in Hno by congruence. }
  eexists r, _. do 5 (split; [done|]). rewrite Hu in Hnd, Hfr.
  apply NoDup_cons in Hnd as [Hn Hnd]. split; [|done]. split; [done|]. cbn.
  intros r' [Hin| ->%list_elem_of_singleton]%elem_of_app; [|done]. intros Hx. by apply (Hfr r' Hin); right.
Qed.

(** The subscribers a pass posts a card to. *)
Definition newcomers (existing : list TradeCard) (subscribers : list string) : list string :=
  base.filter (fun c => c ∉ map card_chat_id existing) subscribers.

Lemma post_all trade body existing subscribers w :
  calm w -> fresh_cards w -> NoDup subscribers ->
  (forall c, c ∈ newcomers existing subscribers ->
     card_ready (dm_target c) = true /\
     Forall (fun r => of_recipient (tr_id trade) c r = false) (trade_notifications (db w))) ->
  length (newcomers existing subscribers) <= length (uuids w) ->
  exists rows w', run (for_each subscribers (fun chat_id =>
        if bool_decide (chat_id ∈ map card_chat_id existing) then Ret tt
        else do! post chat_id trade body (trade_card_keyboard trade false) (tr_status trade) in Ret tt)) w
      = (Ok tt, w') /\
    Forall2 (posted trade) (newcomers existing subscribers) rows /\ cards_sent trade body rows w w' /\
    with_notifications (trade_notifications (db w) ++ rows) w w'.
Proof.
  unfold newcomers. revert w. induction subscribers as [|c l IH]; intros w Hw Hf Hnd Hnew Hlen; cbn [for_each].
  { exists [], w. split; [done|]. split; [done|]. unfold cards_sent. rewrite !app_nil_r. split; [done|]. split; [done|].
    by rewrite set_notifications_same. }
  apply NoDup_cons in Hnd as [Hc Hnd]. rewrite filter_cons in *. rewrite run_bind.
  destruct (decide (c ∉ map card_chat_id existing)) as [Hn|Hn].
  2: { apply dec_stable in Hn. rewrite bool_decide_eq_true_2 by done. cbn [run]. by apply IH. }
  rewrite bool_decide_eq_false_2 by done. destruct (Hnew c ltac:(left)) as [Hr Hno].
  set (rest := for_each l _). unfold post, card_send. rewrite Hr. cbn [negb]. rewrite !run_bind.
  match goal with |- context [run (telegram ?c) w] => destruct (run_telegram_calm c w Hw) as (i & w1 & -> & Hc1 & Hd1 & Hu1 & Ho1) end.
  change (200 =? 200)%Z with true. cbn [run]. rewrite run_bind.
  destruct (uuids w) as [|u us] eqn:Eu; [cbn in Hlen; lia|].
  destruct (run_record_up trade c i w1 u us Hc1) as (r & w2 & -> & Hp & Hi & Hu2 & Ho2 & Hf2 & Hc2 & Hd2).
  { unfold fresh_cards. by rewrite Hu1, Hd1, <-Eu. }
  { congruence. }
  { by rewrite Hd1. }
  cbn [run]. rewrite Hd1 in Hd2. subst rest.
  destruct (IH w2 Hc2 Hf2 Hnd) as (rows & w3 & -> & Hrows & Hs3 & Hc3 & Hd3).
  - intros c' Hc'. destruct (Hnew c' ltac:(by right)) as [? Hno']. split; [done|]. rewrite Hd2. cbn.
    apply Forall_app. split; [done|]. apply Forall_singleton. unfold of_recipient.
    destruct Hp as (_ & _ & _ & ->). apply andb_false_intro2, bool_decide_eq_false. intros ->.
    by apply list_elem_of_filter in Hc' as [_ ?].
  - rewrite Hu2. cbn in Hlen. lia.
  - exists (r :: rows), w3. split; [done|]. split; [by constructor|]. split.
    { unfold cards_sent in *. destruct Hp as (_ & _ & _ & Hch). cbn [map]. rewrite Hs3, Ho2, Ho1, <-app_assoc, Hch, Hi. done. }
    split; [done|].
    rewrite Hd3, Hd2. cbn. by rewrite <-app_assoc.
Qed.

Lemma apply_card_calm trade w :
  calm w -> run (apply_card trade) w =
    run (turn trade (cards_of (tr_id trade) (db w))
           (targets_of (tr_account_id trade) (tr_market trade) (tr_gateway trade) (db w))) w.
Proof.
  intros [Hs Ht]. rewrite apply_card_turn. unfold list_for_trade, list_broadcast_targets.
  rewrite run_bind, run_catch, run_query_up, set_db_same by done.
  by rewrite run_bind, run_catch, run_query_up, set_db_same by done.
Qed.

Lemma turn_calm trade body existing subscribers w :
  format_trade_card trade (stored_timezone (db w)) = Ok body ->
  calm w -> fresh_cards w -> NoDup subscribers -> existing = cards_of (tr_id trade) (db w) ->
  (forall c, c ∈ map card_chat_id existing ++ newcomers existing subscribers -> card_ready (dm_target c) = true) ->
  length (newcomers existing subscribers) <= length (uuids w) ->
  exists rows w1 w', run (turn trade existing subscribers) w = (Ok tt, w') /\
    Forall2 (posted trade) (newcomers existing subscribers) rows /\
    edited trade body (stale trade existing) w w1 /\ cards_sent trade body rows w1 w' /\
    with_notifications (update_where (marked trade existing) (set_status (tr_status trade))
                          (trade_notifications (db w)) ++ rows) w w'.
Proof.
  intros Hbody Hw Hf Hnd He Hready Hlen.
  assert (existing = [] /\ subscribers = [] \/ (existing <> [] \/ subscribers <> [])) as [[-> ->]|Hne]
    by (destruct existing, subscribers; naive_solver).
  { exists [], w, w. split; [done|]. split; [done|]. split; [by apply edited_nil|]. split; [by unfold cards_sent; rewrite app_nil_r|].
    rewrite app_nil_r. by apply unmarked. }
  assert (run (setting_get NOTIFICATION_TIMEZONE_KEY) w = (Ok (stored_timezone (db w)), w)) as Htz.
  { unfold setting_get. by rewrite run_catch, run_query_up, set_db_same by apply Hw. }
  destruct (refresh_all trade body existing w Hw) as (w1 & H1 & Hu1 & He1 & Hc1 & Hd1).
  { apply Forall_forall. intros c Hc. by apply Hready, elem_of_app; left; apply list_elem_of_fmap_2. }
  destruct (post_all trade body existing subscribers w1 Hc1) as (rows & w2 & H2 & Hrows & Hs2 & Hc2 & Hd2).
  - destruct Hf as [Hf1 Hf2]. unfold fresh_cards. rewrite Hu1, Hd1. cbn. split; [done|].
    intros r' (r & Hr & ->)%elem_of_update_where. specialize (Hf2 r Hr). by destruct (marked _ _ r).
  - done.
  - intros c Hc. split; [by apply Hready, elem_of_app; right|]. rewrite Hd1. cbn. apply Forall_forall.
    intros r' (r & Hr & ->)%elem_of_update_where. apply list_elem_of_filter in Hc as [Hc _].
    destruct (of_recipient (tr_id trade) c r) eqn:E; [|by destruct (marked _ _ r)]. exfalso. apply Hc.
    apply andb_prop in E as [E1 <-%bool_decide_eq_true]. rewrite He. unfold cards_of. rewrite map_map.
    apply list_elem_of_fmap. exists r. split; [done|]. by apply elem_of_select_where.
  - by rewrite Hu1.
  - exists rows, w1, w2. split; [|do 4 (split; [done|]); by rewrite Hd2, Hd1].
    unfold turn. destruct existing, subscribers; try (destruct Hne; done);
      rewrite run_bind, Htz; cbv beta iota; rewrite run_bind; unfold render; rewrite Hbody; cbn [run];
      unfold bring_up_to_date; rewrite run_bind, H1; exact H2.
Qed.

Lemma cards_after trade t rows existing (news : list string) :
  existing = map card_view (select_where (of_trade_id (tr_id trade)) t) ->
  (forall c, c ∈ map card_chat_id existing -> card_ready (dm_target c) = true) ->
  Forall2 (posted trade) news rows ->
  let t' := update_where (marked trade existing) (set_status (tr_status trade)) t ++ rows in
  let after := map card_view (select_where (of_trade_id (tr_id trade)) t') in
  map card_chat_id after = map card_chat_id existing ++ news /\
  map card_message_id after = map card_message_id existing ++ map tn_message_id rows /\
  Forall (fun c => card_status c = tr_status trade) after /\
  select_where (fun r => negb (of_trade_id (tr_id trade) r)) t' =
    update_where (marked trade existing) (set_status (tr_status trade))
      (select_where (fun r => negb (of_trade_id (tr_id trade) r)) t).
Proof.
  intros He Hready Hrows. cbv zeta.
  assert (Forall (fun r => of_trade_id (tr_id trade) r = true) rows) as Hmine.
  { clear -Hrows. induction Hrows as [|c r cs rs (Ht & Hp & _) _ IH]; constructor; [|done].
    unfold of_trade_id. by rewrite !bool_decide_eq_true_2 by done. }
  assert (select_where (of_trade_id (tr_id trade)) rows = rows) as Hsel.
  { clear -Hmine. unfold select_where. induction Hmine as [|r rs Hr _ IH]; [done|].
    rewrite filter_cons, decide_True by done. by rewrite IH. }
  rewrite !select_where_app, Hsel, !select_update, !map_app by done. split_and!.
  - rewrite He, !map_map. f_equal; [by apply (update_where_proj tn_chat_id)|].
    clear -Hrows. induction Hrows as [|c r cs rs (_ & _ & _ & Hc) _ IH]; [done|]. cbn [map]. by rewrite IH, <-Hc.
  - rewrite He, !map_map. f_equal. by apply (update_where_proj tn_message_id).
  - apply Forall_app. split.
    + apply Forall_forall. intros c (r & -> & Hr)%list_elem_of_fmap.
      apply elem_of_update_where in Hr as (r0 & Hr0 & ->).
      destruct (marked trade existing r0) eqn:Em; [done|].
      destruct (bool_decide_reflect (tn_status r0 = tr_status trade)) as [Hs|Hs]; [done|].
      assert (card_view r0 ∈ existing) as Hin by (rewrite He; by apply list_elem_of_fmap_2).
      enough (marked trade existing r0 = true) by congruence. apply existsb_exists. exists (card_view r0).
      split; [by apply list_elem_of_In|]. rewrite (Hready (card_chat_id (card_view r0))) by (by apply list_elem_of_fmap_2).
      cbn. by rewrite bool_decide_eq_true_2, bool_decide_eq_false_2.
    + clear -Hrows. induction Hrows as [|c r cs rs (_ & _ & Hs & _) _ IH]; by constructor.
  - rewrite (select_where_none _ rows), app_nil_r; [done|]. eapply Forall_impl; [exact Hmine|].
    by intros r ->.
Qed.

(** A row of another trade is not one of the trade's cards. *)
Lemma unmarked_others trade t :
  NoDup (map tn_id t) ->
  update_where (marked trade (map card_view (select_where (of_trade_id (tr_id trade)) t)))
    (set_status (tr_status trade)) (select_where (fun r => negb (of_trade_id (tr_id trade) r)) t) =
  select_where (fun r => negb (of_trade_id (tr_id trade) r)) t.
Proof.
  intros Hnd. apply update_where_none, Forall_forall. intros r [Hr Ho%negb_true_iff]%elem_of_select_where.
  destruct (marked _ _ r) eqn:Em; [|done]. apply existsb_exists in Em as (c & Hc & H).
  apply list_elem_of_In, list_elem_of_fmap in Hc as (r' & -> & [Hr' Hm]%elem_of_select_where).
  rewrite !andb_true_iff, bool_decide_eq_true in H. destruct H as [[Hid _] _].
  assert (r = r') as -> by (by apply (nodup_map_eq tn_id t)). congruence.
Qed.

Lemma others_only id trade (t : list TradeNotification) :
  id <> tr_id trade ->
  select_where (of_trade_id id) (select_where (fun r => negb (of_trade_id (tr_id trade) r)) t) =
  select_where (of_trade_id id) t.
Proof.
  intros Hid. unfold select_where. rewrite list_filter_filter. apply list_filter_iff. intros r. split; [tauto|].
  intros H. split; [done|]. apply negb_true_iff. unfold of_trade_id in *.
  apply andb_prop in H as [<-%bool_decide_eq_true _]. by rewrite bool_decide_eq_false_2.
Qed.

Lemma flat_map_nil {X Y} (f : X -> list Y) l : (forall x, x ∈ l -> f x = []) -> flat_map f l = [].
Proof.
  induction l as [|x l IH]; intros H; [done|]. cbn [flat_map]. rewrite (H x ltac:(left)).
  apply IH. intros y Hy. apply H. by right.
Qed.

Lemma no_calls trade body existing subscribers :
  Forall (fun c => card_status c = tr_status trade) existing ->
  (forall c, c ∈ subscribers -> c ∈ map card_chat_id existing) ->
  pass_calls trade body existing subscribers = [].
Proof.
  rewrite Forall_forall. intros Hs Hin. unfold pass_calls. rewrite !flat_map_nil; [done|..].
  - intros c Hc. unfold send_of. by rewrite bool_decide_eq_true_2 by auto.
  - intros c Hc. unfold edit_of. by rewrite bool_decide_eq_true_2 by auto.
Qed.

(** The sends of the rows, chat by chat. *)
Lemma sent_by_chat trade body news rows :
  Forall2 (posted trade) news rows ->
  map (fun r => accepted (send_call trade body (tn_chat_id r)) (tn_message_id r)) rows =
  zip_with accepted (map (send_call trade body) news) (map tn_message_id rows).
Proof. induction 1 as [|c r cs rs (_ & _ & _ & Hc) _ IH]; [done|]. cbn [map zip_with]. by rewrite Hc, IH. Qed.

(** C14. Cards follow their trade.  With the database and Telegram answering, every
    chat reachable and the card one that can be rendered, one turn of the card service
    sends this and nothing else: for every card of the trade that shows another status
    one edit of that card's message in its chat, and for every enabled link whose chat
    holds no card one first message, all of them accepted and carrying the card of the
    trade with its buttons.  Afterwards the cards are those that existed, in
    their chats with their messages, and after them one for each first message, under the message id
    Telegram answered with; every one shows the trade's status, no chat
    holds two if none did, and the cards of other trades are untouched.  Handling the same
    state of the trade again sends nothing. *)
Theorem cards_follow_trade trade body w :
  format_trade_card trade (stored_timezone (db w)) = Ok body ->
  let existing := cards_of (tr_id trade) (db w) in
  let subscribers := targets_of (tr_account_id trade) (tr_market trade) (tr_gateway trade) (db w) in
  calm w -> fresh_cards w -> NoDup (map tn_id (trade_notifications (db w))) ->
  length subscribers <= length (uuids w) ->
  (forall c, c ∈ map card_chat_id existing ++ subscribers -> card_ready (dm_target c) = true) ->
  exists edits ids w' w'',
    run (apply_card trade) w = (Ok tt, w') /\
    out w' = out w ++ zip_with accepted (map (edit_call trade body) (stale trade existing)) edits ++
                      zip_with accepted (map (send_call trade body) (newcomers existing subscribers)) ids /\
    length edits = length (stale trade existing) /\ length ids = length (newcomers existing subscribers) /\
    map card_chat_id (cards_of (tr_id trade) (db w')) =
      map card_chat_id existing ++ newcomers existing subscribers /\
    map card_message_id (cards_of (tr_id trade) (db w')) = map card_message_id existing ++ ids /\
    Forall (fun c => card_status c = tr_status trade) (cards_of (tr_id trade) (db w')) /\
    (NoDup (map card_chat_id existing) -> NoDup (map card_chat_id (cards_of (tr_id trade) (db w')))) /\
    (forall id, id <> tr_id trade -> cards_of id (db w') = cards_of id (db w)) /\
    run (apply_card trade) w' = (Ok tt, w'') /\ out w'' = out w'.
Proof.
  intros Hbody existing subscribers Hw Hf Hnd Hlen Hready.
  destruct (turn_calm trade body existing subscribers w Hbody Hw Hf)
    as (rows & w1 & w' & H' & Hrows & (edits & Hle & He) & Hsent & Hc & Hd); [apply NoDup_distinct|done|..].
  { intros c [Hc|[_ Hc]%list_elem_of_filter]%elem_of_app; apply Hready, elem_of_app; [by left|by right]. }
  { etransitivity; [apply length_filter|exact Hlen]. }
  destruct (cards_after trade (trade_notifications (db w)) rows existing _ eq_refl
    (fun c Hin => Hready c (proj2 (elem_of_app _ _ _) (or_introl Hin))) Hrows) as (K1 & K2 & K3 & K4).
  assert (trade_notifications (db w') = update_where (marked trade existing) (set_status (tr_status trade))
            (trade_notifications (db w)) ++ rows) as Ht by (by rewrite Hd).
  rewrite <-Ht in K1, K2, K3, K4. change (map card_view _) with (cards_of (tr_id trade) (db w')) in K1, K2, K3.
  destruct (turn_called trade (cards_of (tr_id trade) (db w')) subscribers w') as (tz & r & w'' & H'' & Htz & Hcall).
  assert (format_trade_card trade tz = Ok body) as Hbody' by (rewrite Htz, Hd by apply Hc; exact Hbody).
  unfold pass_outcome in Hcall. rewrite Hbody' in Hcall. destruct Hcall as [-> Hcall].
  exists edits, (map tn_message_id rows), w', w''. rewrite !apply_card_calm by done. split_and!.
  - exact H'.
  - unfold cards_sent in Hsent. by rewrite Hsent, He, <-app_assoc, (sent_by_chat trade body _ rows Hrows).
  - exact Hle.
  - rewrite length_map. by rewrite (Forall2_length _ _ _ Hrows).
  - exact K1.
  - exact K2.
  - exact K3.
  - intros Hex. rewrite K1. apply NoDup_app. split; [done|]. split; [|apply NoDup_filter, NoDup_distinct].
    by intros c Hin [Hn _]%list_elem_of_filter.
  - intros id Hid. unfold cards_of. f_equal.
    rewrite <-(others_only id trade (trade_notifications (db w'))), K4 by done.
    unfold existing, cards_of. by rewrite unmarked_others, others_only by done.
  - by rewrite Hd in H'' |- *.
  - rewrite no_calls in Hcall; [by destruct Hcall as ([|? ?] & ? & ->); [apply app_nil_r|]|done|].
    intros c Hc'. rewrite K1. destruct (decide (c ∈ map card_chat_id existing)) as [Hin|Hn]; apply elem_of_app; [by left|right].
    by apply list_elem_of_filter.
Qed.
End follow.

(** ** A failed read *)
Section orphan.
Context `{CFG : Settings} `{REN : CardRenderer}.

Lemma record_existing trade_id chat_id i status w row :
  calm w -> NoDup (map tn_id (trade_notifications (db w))) ->
  select_where (of_trade_id trade_id) (trade_notifications (db w)) = [row] -> tn_chat_id row = chat_id ->
  exists w', run (record trade_id chat_id i status) w = (Ok true, w') /\ out w' = out w /\
    cards_of trade_id (db w') = [card_view (assign_card i status row)].
Proof.
  intros [Hs Ht] Hnd Hsel Hc.
  assert (row ∈ trade_notifications (db w) /\ of_trade_id trade_id row = true) as [Hin Hm]
    by (apply elem_of_select_where; rewrite Hsel; left).
  destruct (select_first_is_Some (of_recipient trade_id chat_id) (trade_notifications (db w)) row Hin)
    as [row' Hf]; [unfold of_recipient; by rewrite Hm, bool_decide_eq_true_2|].
  assert (row' = row) as ->.
  { apply select_first_Some in Hf as [Hin' [Hm' _]%andb_prop].
    apply list_elem_of_singleton. rewrite <-Hsel. by apply elem_of_select_where. }
  unfold record, uuid4. rewrite run_bind, run_act.
  assert (exists u w1, (match uuids w with [] => (Ok (E:=exn) (uid 0), w) | u :: s => (Ok u, set_uuids s w) end)
                       = (Ok u, w1) /\ out w1 = out w /\ db w1 = db w /\ db_up w1)
    as (u & w1 & -> & Ho & Hd & Hup) by (destruct (uuids w); eauto 10).
  cbv beta iota. rewrite run_catch, run_bind, run_session_up by done. unfold write_card. rewrite Hd, Hf.
  eexists. split; [done|]. split; [done|]. unfold cards_of. cbn [db set_db trade_notifications set_notifications].
  rewrite select_update, Hsel; [|done]. unfold update_where. cbn [map]. by rewrite bool_decide_eq_true_2.
Qed.

(** A failed read orphans a card.  When the database does not answer the
    read of a trade's cards, the service takes the trade for one without cards:
    a subscriber whose card is up is sent a second one, and the stored row is
    moved to the new message, so that the first card — still in the chat, with
    the status and the buttons it had — is never edited again. *)
Theorem failed_read_orphans_card trade body w row :
  format_trade_card trade (stored_timezone (db w)) = Ok body ->
  sched w = [Failed] -> tg w = [] -> NoDup (map tn_id (trade_notifications (db w))) ->
  select_where (of_trade_id (tr_id trade)) (trade_notifications (db w)) = [row] ->
  targets_of (tr_account_id trade) (tr_market trade) (tr_gateway trade) (db w) = [tn_chat_id row] ->
  card_ready (dm_target (tn_chat_id row)) = true ->
  exists i w',
    run (apply_card trade) w = (Ok tt, w') /\
    out w' = out w ++ [SentTg (TgSendCard (dm_target (tn_chat_id row)) body (trade_card_keyboard trade false)) (TgAnswer 200 EmptyString (Some i))] /\
    map card_message_id (cards_of (tr_id trade) (db w')) = [i].
Proof.
  intros Hbody Hs Ht Hnd Hsel Htar Hr. rewrite apply_card_turn. unfold list_for_trade, list_broadcast_targets.
  rewrite run_bind, run_catch. unfold query at 1, session at 1. rewrite run_act. unfold session_step, next_outcome.
  rewrite Hs. cbv beta iota. cbn [run]. set (w1 := set_sched [] w).
  rewrite run_bind, run_catch, run_query_up, set_db_same by done. change (db w1) with (db w). rewrite Htar.
  unfold turn. rewrite run_bind. unfold setting_get. rewrite run_catch, run_query_up, set_db_same by done.
  rewrite run_bind. unfold render. change (find_setting _ _) with (stored_timezone (db w)). rewrite Hbody. cbn [run].
  unfold bring_up_to_date. cbn [for_each]. rewrite run_bind. cbn [run].
  rewrite bool_decide_eq_false_2 by apply not_elem_of_nil. unfold post, card_send. rewrite Hr. cbn [negb].
  rewrite !run_bind.
  match goal with |- context [run (telegram ?c) w1] => destruct (run_telegram c w1)
    as (r & w2 & -> & Ho & Hd & Hs2 & _ & _ & Hans & _) end.
  destruct (Hans Ht) as [Ht2 [i ->]]. change (200 =? 200)%Z with true. cbn [run]. rewrite run_bind.
  destruct (record_existing (tr_id trade) (tn_chat_id row) i (tr_status trade) w2 row) as (w3 & -> & Ho3 & Hc3);
    [by split|by rewrite Hd|by rewrite Hd|done|].
  exists i, w3. split; [done|]. split; [by rewrite Ho3, Ho|]. by rewrite Hc3.
Qed.
End orphan.

(** ** On concrete input *)
Module card_samples.
Definition sample_trade : Trade :=
  {| tr_id := uid 40; tr_account_id := "1234"; tr_market := Some Market.FOREX; tr_gateway := None;
     tr_account_leverage := None; tr_account_balance_init := None; tr_account_balance := None;
     tr_strategy := "wt_bb_atr"; tr_strategy_code := "wt"; tr_ref_id := Some "9001"; tr_symbol := "XAUUSD";
     tr_action := SigAction.LONG; tr_price := f_zero; tr_quantity := f_zero; tr_sl := None; tr_tp1 := None;
     tr_tp2 := None; tr_is_running := true; tr_risk_percent := f_zero; tr_comment := None;
     tr_gateway_return_code := None; tr_status := TradeStatus.PARTIALLY_CLOSED; tr_last_action := None;
     tr_reject_reason := None |}.

Definition sample_account : Account :=
  {| ac_id := uid 41; ac_createdAt := 0%Z; ac_account_id := "1234"; ac_account_name := None; ac_account_balance := None;
     ac_market := Market.FOREX; ac_gateway := None; ac_last_activity_at := None; ac_settings := [] |}.

Definition sample_link (id : uuid) (user : string) : AccountBotLink :=
  {| al_id := id; al_createdAt := 0%Z; al_account_id := uid 41; al_platform := Platform.TELEGRAM; al_platform_user_id := user;
     al_trade_cards_enabled := true |}.

Definition sample_card : TradeNotification :=
  {| tn_id := uid 50; tn_trade_id := uid 40; tn_platform := Platform.TELEGRAM; tn_chat_id := "100";
     tn_message_id := 7; tn_status := TradeStatus.OPENED |}.

Definition sample_db (links : list AccountBotLink) : Db :=
  set_notifications [sample_card] (set_links links (set_accounts [sample_account] (set_trades [sample_trade] empty_db))).

#[local] Instance sample_renderer : CardRenderer := {| format_trade_card t tz := Ok (tr_symbol t) |}.
#[local] Existing Instance sample_settings.

Definition sample_card_world : World :=
  set_db (sample_db [sample_link (uid 42) "100"; sample_link (uid 43) "200"]) (sample_world [] [uid 60; uid 61]).

Definition sample_failing_world : World :=
  set_db (sample_db [sample_link (uid 42) "100"]) (sample_world [Failed] [uid 60]).

Lemma cards_follow_trade_witness :
  map card_chat_id (cards_of (uid 40) (db (run (apply_card sample_trade) sample_card_world).2)) = ["100"; "200"] /\
  exists w' w'', run (apply_card sample_trade) sample_card_world = (Ok tt, w') /\
    run (apply_card sample_trade) w' = (Ok tt, w'') /\ out w'' = out w'.
Proof.
  split; [by vm_compute|].
  destruct (cards_follow_trade sample_trade "XAUUSD" sample_card_world) as
    (edits & ids & w' & w'' & H1 & _ & _ & _ & _ & _ & _ & _ & _ & H2 & H3).
  - done.
  - done.
  - split; [by apply (bool_decide_unpack _); vm_compute|].
    intros r Hr. apply list_elem_of_singleton in Hr as ->. by apply (bool_decide_unpack _); vm_compute.
  - apply NoDup_singleton.
  - by vm_compute.
  - intros c Hc. assert (c = "100" \/ c = "200") as [-> | ->]; [|by vm_compute..].
    change (c ∈ ["100"; "100"; "200"]) in Hc. set_solver.
  - exists w', w''. done.
Defined.

Lemma failed_read_orphans_card_witness :
  map card_message_id (cards_of (uid 40) (db sample_failing_world)) = [7%Z] /\
  exists i w', run (apply_card sample_trade) sample_failing_world = (Ok tt, w') /\
    map card_message_id (cards_of (uid 40) (db w')) = [i].
Proof.
  split; [by vm_compute|].
  destruct (failed_read_orphans_card sample_trade "XAUUSD" sample_failing_world sample_card) as (i & w' & H & _ & Hc);
    [done|done|done|apply NoDup_singleton|by vm_compute|by vm_compute|by vm_compute|].
  by exists i, w'.
Defined.
End card_samples.
