(* ===== verification/TelegramApi.v ===== *)
(** * The routes of the Telegram bot, and the listings

    The endpoints under [/v1/telegram] ([api/telegram.py]), one definition per
    route, and the trade lookup they authorise with
    ([get_for_telegram_user] of [db/repository/trade.py]).  A route returns its
    response or raises the [HTTPException] of its error answer; request bodies are
    already validated.  The read-only routes of [api/telegram.py], [api/api.py] and
    [api/admin.py] over trades and accounts follow them. *)

From S2P Require Import Prelude PyStr Uuid PyTime Json Enums Schemas Models ChatTargets BotState World.
From S2P Require Import Settings TimeZone StatusPolicies Samples SignalRepo SignalHelper.
From S2P Require Import SignalService SignalWorker BroadcastRepo BroadcastService Dispatcher TradeRepo.
From S2P Require Import AccountRepo Notifications AccountSettings AdminApi TradeConsumer TradeCards.

(** ** Responses *)
Record LinkedAccountResponse := {
  la_account : Account;
  la_is_active : bool
}.

Record CommandResultResponse := {
  cr_action : string;
  cr_scope : string;
  cr_settings : option (list (string * json))
}.

Record MaxOpenOrdersResponse := {
  mo_max_open_orders : Z;
  mo_source : string;
  mo_global_max_open_orders : Z
}.

Record BroadcastSubscriptionResponse := {
  su_subscribed : bool;
  su_account_id : string;
  su_market : MarketTypeEnum;
  su_gateway : option string
}.

(** ** Who is asking *)
Definition not_linked : exn := HTTPException 404 "No account linked to this Telegram user".

(** [account_id] and [market] equal and [Account.gateway] equal or [NULL]; a
    comparison with [NULL] is not true. *)
Definition account_of_trade (t : Trade) (a : Account) : bool :=
  bool_decide (ac_account_id a = tr_account_id t) && bool_decide (Some (ac_market a) = tr_market t) &&
  match ac_gateway a with
  | None => true
  | Some g => bool_decide (Some g = tr_gateway t)
  end.

(** The trade [trade_id], if one of the accounts of [user] owns it. *)
Definition own_trade (trade_id : uuid) (user : string) (d : Db) : option Trade :=
  select_first (fun t => bool_decide (tr_id t = trade_id) &&
    existsb (fun a => account_of_trade t a && holds user d a) (accounts d)) (trades d).

Definition get_for_telegram_user (trade_id : uuid) (telegram_user_id : Z) : prog (option Trade) :=
  catch (query (own_trade trade_id (str_int telegram_user_id))) (fun _ => Ret None).

Definition get_linked_account (telegram_user_id : Z) : prog Account :=
  let! account := get_active_account telegram_user_id in
  match account with
  | None => Raise not_linked
  | Some account => Ret account
  end.

Definition get_own_trade (telegram_user_id : Z) (trade_id : uuid) : prog Trade :=
  let! trade := get_for_telegram_user trade_id telegram_user_id in
  match trade with
  | None => Raise (HTTPException 404 "Trade not found")
  | Some trade => Ret trade
  end.

(** [_scope]. *)
Definition scope (account_id : string) (strategy symbol : option string) : string :=
  let part name (v : option string) :=
    match v with Some s => if is_empty s then [] else [name +:+ s] | None => [] end in
  join ", " (part "strategy=" strategy ++ part "symbol=" symbol ++ ["account=" +:+ account_id]).

Definition is_active (account : Account) (active : option Account) : bool :=
  match active with Some a => bool_decide (ac_id a = ac_id account) | None => false end.

(** ** Accounts *)
Definition link_account (token : uuid) (telegram_user_id : Z) : prog LinkedAccountResponse :=
  let! account := link_telegram token telegram_user_id in
  match account with
  | None => Raise (HTTPException 404 "Invalid link token")
  | Some account =>
      let! active := get_active_account telegram_user_id in
      Ret {| la_account := account; la_is_active := is_active account active |}
  end.

Definition get_account (telegram_user_id : Z) : prog LinkedAccountResponse :=
  let! account := get_linked_account telegram_user_id in
  Ret {| la_account := account; la_is_active := true |}.

(** The two gathered reads, one after the other. *)
Definition list_accounts (telegram_user_id : Z) : prog (list LinkedAccountResponse) :=
  let! accounts := list_by_telegram_user_id telegram_user_id in
  let! active := get_active_account telegram_user_id in
  Ret (map (fun a => {| la_account := a; la_is_active := is_active a active |}) accounts).

Definition switch_account (telegram_user_id : Z) (account_id : uuid) : prog LinkedAccountResponse :=
  let! account := set_active_account telegram_user_id account_id in
  match account with
  | None => Raise (HTTPException 404 "Account not found or not linked to this Telegram user")
  | Some account => Ret {| la_account := account; la_is_active := true |}
  end.

Definition unlink_account (telegram_user_id : Z) : prog unit :=
  let! ok := unlink_telegram telegram_user_id in
  if ok then Ret tt else Raise not_linked.

(** ** One trade *)
Definition get_trade (telegram_user_id : Z) (trade_id : uuid) : prog Trade := get_own_trade telegram_user_id trade_id.

(** The FLAT of one trade. *)
Definition exit_signal (trade : Trade) (t : instant) : AdminSignal :=
  {| ad_action := ADMIN_FLAT; ad_timestamp := t; ad_strategy := Some (tr_strategy trade);
     ad_symbol := Some (tr_symbol trade); ad_account_id := Some (tr_account_id trade);
     ad_market := tr_market trade; ad_gateway := tr_gateway trade; ad_ref_id := tr_ref_id trade |}.

Definition exit_trade (telegram_user_id : Z) (trade_id : uuid) : prog CommandResultResponse :=
  let! trade := get_own_trade telegram_user_id trade_id in
  if is_terminal trade then Raise (HTTPException 409 "Trade is already closed")
  else
    let! t := clock in
    do! publish_admin_signal (exit_signal trade t) in
    Ret {| cr_action := admin_action_value ADMIN_FLAT;
           cr_scope := scope (tr_account_id trade) (Some (tr_strategy trade)) (Some (tr_symbol trade));
           cr_settings := None |}.

(** ** Commands *)

(** A directive to the worker of [account]. *)
Definition command_signal (action : AdminActionEnum) (account : Account) (strategy symbol : option string)
    (t : instant) : AdminSignal :=
  {| ad_action := action; ad_timestamp := t; ad_strategy := strategy; ad_symbol := symbol;
     ad_account_id := Some (ac_account_id account); ad_market := Some (ac_market account);
     ad_gateway := ac_gateway account; ad_ref_id := None |}.

Definition flat (telegram_user_id : Z) (strategy symbol : option string) : prog CommandResultResponse :=
  let! account := get_linked_account telegram_user_id in
  let! t := clock in
  do! publish_admin_signal (command_signal ADMIN_FLAT account strategy symbol t) in
  Ret {| cr_action := admin_action_value ADMIN_FLAT; cr_scope := scope (ac_account_id account) strategy symbol;
         cr_settings := None |}.

Definition not_persisted : exn := HTTPException 500 "Failed to persist account settings".

Definition prevent (telegram_user_id : Z) (enabled : bool) : prog CommandResultResponse :=
  let! account := get_linked_account telegram_user_id in
  let action := if enabled then BLOCK_SIGNAL else ALLOW_SIGNAL in
  let! settings := update_settings (ac_id account) [(ACCOUNT_SETTING_SIGNAL_BLOCKED, JBool enabled)] in
  match settings with
  | None => Raise not_persisted
  | Some settings =>
      let! t := clock in
      do! publish_admin_signal (command_signal action account None None t) in
      Ret {| cr_action := admin_action_value action; cr_scope := scope (ac_account_id account) None None;
             cr_settings := Some settings |}
  end.

(** ** Settings *)
Section settings_routes.
Context `{SP : SettingsPydantic}.

Definition get_max_open_orders (telegram_user_id : Z) : prog MaxOpenOrdersResponse :=
  let! account := get_linked_account telegram_user_id in
  let! raw := setting_get MAX_OPEN_ORDERS_KEY in
  let global_value := parse_global_max_open_orders raw in
  let own := as_max_open_orders (parse_account_settings (JObj (ac_settings account))) in
  Ret {| mo_max_open_orders := default global_value own;
         mo_source := match own with None => "global" | Some _ => "account" end;
         mo_global_max_open_orders := global_value |}.

Definition json_opt_int (v : option Z) : json := match v with Some z => JInt z | None => JNull end.

Definition set_max_open_orders (telegram_user_id : Z) (max_open_orders : option Z) : prog MaxOpenOrdersResponse :=
  let! account := get_linked_account telegram_user_id in
  let! stored := update_settings (ac_id account) [(ACCOUNT_SETTING_MAX_OPEN_ORDERS, json_opt_int max_open_orders)] in
  match stored with
  | None => Raise not_persisted
  | Some stored =>
      let! raw := setting_get MAX_OPEN_ORDERS_KEY in
      let global_value := parse_global_max_open_orders raw in
      let resolved := resolve_account_settings (parse_account_settings (JObj stored)) global_value in
      do! push_worker_settings_update (ac_account_id account) (ac_market account) (ac_gateway account) resolved in
      match as_max_open_orders resolved with
      | None => Raise ValidationError
      | Some cap =>
          Ret {| mo_max_open_orders := cap;
                 mo_source := match max_open_orders with None => "global" | Some _ => "account" end;
                 mo_global_max_open_orders := global_value |}
      end
  end.
End settings_routes.

(** ** Trade-card opt-in *)
Definition subscription_response (account : Account) (subscribed : bool) : BroadcastSubscriptionResponse :=
  {| su_subscribed := subscribed; su_account_id := ac_account_id account; su_market := ac_market account;
     su_gateway := ac_gateway account |}.

Definition get_broadcast_subscription (telegram_user_id : Z) : prog BroadcastSubscriptionResponse :=
  let! account := get_linked_account telegram_user_id in
  let! subscribed := is_subscribed telegram_user_id (ac_id account) in
  Ret (subscription_response account subscribed).

Definition subscription_failed : exn := HTTPException 500 "Failed to update broadcast subscription".

(** [subscribe_broadcast] and [unsubscribe_broadcast]. *)
Definition switch_broadcast (telegram_user_id : Z) (enabled : bool) : prog BroadcastSubscriptionResponse :=
  let! account := get_linked_account telegram_user_id in
  let! ok := set_enabled telegram_user_id (ac_id account) enabled in
  if ok then Ret (subscription_response account enabled) else Raise subscription_failed.

(** [subscribe_all_broadcast] and [unsubscribe_all_broadcast], the number of
    accounts switched. *)
Definition switch_broadcast_all (telegram_user_id : Z) (enabled : bool) : prog Z :=
  let! links := set_enabled_everywhere telegram_user_id enabled in
  match links with
  | None => Raise subscription_failed
  | Some links => if (links =? 0)%Z then Raise not_linked else Ret links
  end.

(** ** The listing routes

    The read-only routes of [api/telegram.py], [api/api.py] and [api/admin.py] over
    trades and accounts, with the queries of [db/repository/trade.py] they page
    through. *)

(** What Postgres keeps beside the columns of the model: the two timestamps it sets
    itself, and the order in which it compares texts. *)
Class TradeColumns := {
  createdAt : Db -> Trade -> instant;
  updatedAt : Db -> Trade -> instant;
  collate : list string -> list string;
  collate_perm l : collate l ≡ₚ l
}.

(** [TradeResponse]: the row with its timestamps. *)
Record TradeResponse := {
  tp_trade : Trade;
  tp_createdAt : instant;
  tp_updatedAt : instant
}.

(** [PageMeta]; the order is the one asked for. *)
Record PageMeta := { pm_total : Z; pm_limit : Z; pm_offset : Z }.

Record TradeListResponse := { tl_data : list TradeResponse; tl_page : PageMeta }.

Record OpenPositionsResponse := { op_count : Z; op_data : list TradeResponse }.

(** [limit: Query(20, ge=1, le=100)] and [offset: Query(0, ge=0)]. *)
Definition page_valid (limit offset : Z) : bool := (1 <=? limit)%Z && (limit <=? 100)%Z && (0 <=? offset)%Z.

Section listings.
Context `{TC : TradeColumns}.

Definition trade_response (d : Db) (t : Trade) : TradeResponse :=
  {| tp_trade := t; tp_createdAt := createdAt d t; tp_updatedAt := updatedAt d t |}.

(** [ORDER BY "updatedAt" DESC]; rows updated in one instant in any order. *)
Definition latest_first (d : Db) (l : list Trade) : list Trade := order_by (fun t => - updatedAt d t)%Z l.

(** ** The queries *)
Definition list_by_account (account_id : string) (limit offset : Z) : prog (list TradeResponse) :=
  catch (query (fun d =>
    map (trade_response d)
      (take (Z.to_nat limit) (drop (Z.to_nat offset)
        (latest_first d (select_where (fun t => bool_decide (tr_account_id t = account_id)) (trades d)))))))
    (fun _ => Ret []).

Definition list_open_by_account (account_id : string) : prog (list TradeResponse) :=
  catch (query (fun d =>
    map (trade_response d)
      (latest_first d (select_where (fun t => bool_decide (tr_account_id t = account_id) && tr_is_running t) (trades d)))))
    (fun _ => Ret []).

(** [SELECT DISTINCT strategy ... ORDER BY strategy]. *)
Definition list_distinct_strategies : prog (list string) :=
  catch (query (fun d => collate (distinct (base.filter (fun s => negb (is_empty s) = true) (map tr_strategy (trades d))))))
    (fun _ => Ret []).

(** ** The routes *)
Definition trade_page (account_id : string) (limit offset : Z) : prog TradeListResponse :=
  let! trades := list_by_account account_id limit offset in
  let! total := count_by_account account_id in
  Ret {| tl_data := trades; tl_page := {| pm_total := total; pm_limit := limit; pm_offset := offset |} |}.

(** [GET /v1/telegram/{id}/trades]. *)
Definition list_trades (telegram_user_id limit offset : Z) : prog TradeListResponse :=
  let! account := get_linked_account telegram_user_id in
  trade_page (ac_account_id account) limit offset.

(** [GET /v1/telegram/{id}/positions]. *)
Definition list_open_positions (telegram_user_id : Z) : prog OpenPositionsResponse :=
  let! account := get_linked_account telegram_user_id in
  let! trades := list_open_by_account (ac_account_id account) in
  Ret {| op_count := Z.of_nat (length trades); op_data := trades |}.

(** [GET /v1/telegram/{id}/trades/{trade_id}]. *)
Definition get_trade_response (telegram_user_id : Z) (trade_id : uuid) : prog TradeResponse :=
  let! trade := catch (query (fun d => trade_response d <$> own_trade trade_id (str_int telegram_user_id) d))
                  (fun _ => Ret None) in
  match trade with
  | None => Raise (HTTPException 404 "Trade not found")
  | Some trade => Ret trade
  end.

(** [GET /v1/accounts]. *)
Definition list_all_accounts : prog (list AccountResponse) :=
  let! accounts := get_all in
  let! summaries := get_link_summaries (map ac_id accounts) in
  Ret (map (fun a => let summary := default no_summary (summaries !! ac_id a) in
                     {| rs_account := a; rs_link_token := link_token summary;
                        rs_linked_user_ids := linked_user_ids summary |}) accounts).

(** [GET /admin/strategies]. *)
Definition list_strategies : prog (list string) := list_distinct_strategies.
End listings.
