(* ===== verification/BotClient.v ===== *)
(** * The bot's HTTP client

    [services/broker_client.py]: the requests the bot makes, each the route of the
    broker it reaches, behind the broker's key.  A request may be answered, never
    arrive, or be handled while its answer is lost; the client turns what comes back
    into the parsed body or [None].  A card's trade id goes into the path as it came:
    one that is no segment of it makes a request elsewhere. *)

From S2P Require Import Prelude PyStr Uuid PyTime Json Enums Schemas Models ChatTargets BotState World Settings TimeZone.
From S2P Require Import StatusPolicies Samples SignalRepo SignalHelper SignalService SignalWorker.
From S2P Require Import BroadcastRepo BroadcastService Dispatcher TradeRepo AccountRepo Notifications AccountSettings.
From S2P Require Import TradeConsumer TradeCards TelegramApi AdminApi.
From Stdlib Require Import Ascii.

(** ** [config.py] *)
Class BotSettings := {
  bot_TELEGRAM_ADMIN_IDS : string;
  bot_BROKER_API_KEY : string
}.

(** [str.isdigit()], on ASCII. *)
Definition is_digit (c : ascii) : bool := (48 <=? Z.of_N (N_of_ascii c))%Z && (Z.of_N (N_of_ascii c) <=? 57)%Z.

Definition isdigit (s : string) : bool := negb (is_empty s) && forallb is_digit (chars s).

(** [int] of a text of digits. *)
Definition int_of_digits (s : string) : Z := default 0%Z (py_int 10 s).

Definition admin_ids `{BotSettings} : list Z :=
  map int_of_digits (base.filter (fun part => isdigit part = true) (map strip (split ","%char bot_TELEGRAM_ADMIN_IDS))).

(** Third-party code between the bot and the broker's routes.  pydantic reads a uuid
    out of a path or a body, at least the canonical text.  A path that does not have the form of its
    endpoint's template goes elsewhere: httpx resolves its dot segments and ends it at a
    [?] or [#], and the router finds any route of the broker, or none.  What comes back
    is read as a trade, or as a command's result, or cannot be. *)
Class BotHttp := {
  uuid_field : string -> option uuid;
  uuid_field_str u : uuid_field (uuid_str u) = Some u;
  get_elsewhere : string -> prog (option TradeResponse);
  post_elsewhere : string -> prog (option CommandResultResponse);
  get_elsewhere_bot path w : bot (run (get_elsewhere path) w).2 = bot w;
  post_elsewhere_bot path w : bot (run (post_elsewhere path) w).2 = bot w
}.

(** Text that httpx takes in a URL: it refuses control characters. *)
Definition printable_char (c : ascii) : bool := (32 <=? N_of_ascii c)%N && negb (N_of_ascii c =? 127)%N.
Definition printable (s : string) : bool := forallb printable_char (chars s).

(** Text that stays one segment of a path. *)
Definition segment_char (c : ascii) : bool := negb (existsb (Ascii.eqb c) ["/"; "?"; "#"; "%"]%char).

Definition one_segment (s : string) : bool :=
  negb (is_empty s) && negb (String.eqb s ".") && negb (String.eqb s "..") && forallb segment_char (chars s).

(** [_path] of [ENDPOINTS.TRADE] and [ENDPOINTS.TRADE_EXIT]. *)
Definition trade_path (telegram_id : Z) (trade_id : string) : string :=
  "/v1/telegram/" +:+ str_int telegram_id +:+ "/trades/" +:+ trade_id.

Definition trade_exit_path (telegram_id : Z) (trade_id : string) : string := trade_path telegram_id trade_id +:+ "/exit".

(** [MarketTypeEnum] of a body. *)
Definition market_field (m : string) : option MarketTypeEnum :=
  if String.eqb m (market_value Market.FOREX) then Some Market.FOREX
  else if String.eqb m (market_value Market.CRYPTO) then Some Market.CRYPTO
  else None.

Section client.
Context `{CFG : Settings} `{SP : SettingsPydantic} `{CA : RowChoice Account} `{TC : TradeColumns}.
Context `{BS : BotSettings} `{UP : BotHttp}.

(** ** Requests *)

(** What the network does to the next request. *)
Definition next_net : prog net_outcome :=
  with_bot (fun b => match bt_net b with
                     | [] => (Ok NetAnswered, b)
                     | n :: l => (Ok n, {| bt_fsm := bt_fsm b; bt_applied := bt_applied b; bt_said := bt_said b;
                                           bt_net := l; bt_api := bt_api b |})
                     end).

(** What [_request] hands on: a body, or the 404 it lets through. *)
Inductive response (A : Type) := Body (a : A) | NotFound.
#[global] Arguments Body {A} a.
#[global] Arguments NotFound {A}.

(** [_request]: the route runs behind the key and with its body validated; an error
    answer other than 404 and a transport error are [None]. *)
Definition request {B A} (body : option B) (route : B -> prog A) : prog (option (response A)) :=
  let server := do! ensure_api_key (Some bot_BROKER_API_KEY) in
                match body with Some b => route b | None => Raise ValidationError end in
  let! net := next_net in
  match net with
  | NetDown => Ret None
  | NetLost => let! _ := attempt server in Ret None
  | NetAnswered =>
      let! r := attempt server in
      Ret (match r with
           | Ok a => Some (Body a)
           | Err (HTTPException status_code _) => if (status_code =? 404)%Z then Some NotFound else None
           | Err _ => None
           end)
  end.

(** [_json_or_none]. *)
Definition json_or_none {A} (resp : option (response A)) : option A :=
  match resp with Some (Body a) => Some a | _ => None end.

Definition call {B A} (body : option B) (route : B -> prog A) : prog (option A) :=
  let! resp := request body route in Ret (json_or_none resp).

(** A request whose body needs no checking. *)
Abbreviation plain := (Some tt).

(** ** [BrokerClientUser] *)
Definition client_link (token : string) (telegram_user_id : Z) : prog (option LinkedAccountResponse) :=
  call (uuid_field token) (fun token => link_account token telegram_user_id).

Definition resolve_account (telegram_user_id : Z) : prog (bool * option LinkedAccountResponse) :=
  let! resp := request plain (fun _ => get_account telegram_user_id) in
  Ret (match resp with
       | None => (false, None)
       | Some NotFound => (true, None)
       | Some (Body account) => (true, Some account)
       end).

Definition client_get_account (telegram_user_id : Z) : prog (option LinkedAccountResponse) :=
  let! r := resolve_account telegram_user_id in Ret r.2.

Definition client_list_accounts (telegram_user_id : Z) : prog (option (list LinkedAccountResponse)) :=
  call plain (fun _ => list_accounts telegram_user_id).

Definition client_switch_account (telegram_user_id : Z) (account_id : string) : prog (option LinkedAccountResponse) :=
  call (uuid_field account_id) (fun id => switch_account telegram_user_id id).

Definition client_list_trades (telegram_user_id limit offset : Z) : prog (option TradeListResponse) :=
  call (if page_valid limit offset then plain else None) (fun _ => list_trades telegram_user_id limit offset).

Definition client_list_open_positions (telegram_user_id : Z) : prog (option OpenPositionsResponse) :=
  call plain (fun _ => list_open_positions telegram_user_id).

(** A request whose path holds the text [trade_id] as it is: [httpx.InvalidURL], which
    is no [HTTPError], is raised on a control character. *)
Definition trade_request {A} (trade_id path : string) (route : uuid -> prog A) (elsewhere : string -> prog (option A))
    : prog (option A) :=
  if negb (printable trade_id) then Raise ValueError
  else if one_segment trade_id then call (uuid_field trade_id) route
  else
    let! r := call plain (fun _ => elsewhere path) in
    match r with
    | Some (Some a) => Ret (Some a)
    | Some None => Raise TypeError
    | None => Ret None
    end.

Definition client_get_trade (telegram_user_id : Z) (trade_id : string) : prog (option TradeResponse) :=
  trade_request trade_id (trade_path telegram_user_id trade_id) (get_trade_response telegram_user_id) get_elsewhere.

Definition client_exit_trade (telegram_user_id : Z) (trade_id : string) : prog (option CommandResultResponse) :=
  trade_request trade_id (trade_exit_path telegram_user_id trade_id) (exit_trade telegram_user_id) post_elsewhere.

(** The canonical text of an id names the trade's own route. *)
Lemma hex_segment c : is_hex c -> printable_char c = true /\ segment_char c = true.
Proof.
  intros (d & Hd & ->). revert d Hd. apply (hex_char_all (fun d => printable_char (hex_char d) = true /\ segment_char (hex_char d) = true)).
  by repeat constructor.
Qed.

Lemma uuid_segment_chars id : Forall (fun c => printable_char c = true /\ segment_char c = true) (chars (uuid_str id)).
Proof.
  assert (forall n z, Forall (fun c => printable_char c = true /\ segment_char c = true) (chars (hex_fixed n z))) as Hh.
  { intros. eapply Forall_impl; [apply hex_fixed_chars|exact hex_segment]. }
  unfold uuid_str. cbv zeta. rewrite !chars_app, !Forall_app.
  repeat first [split | apply Hh | by repeat constructor].
Qed.

Lemma uuid_segment id : printable (uuid_str id) = true /\ one_segment (uuid_str id) = true.
Proof.
  pose proof (uuid_segment_chars id) as H. assert (String.length (uuid_str id) = 36) as Hl.
  { unfold uuid_str. cbv zeta. by rewrite !length_string_app, !hex_fixed_length. }
  split; [|unfold one_segment; rewrite !andb_true_iff; split_and!].
  - apply forallb_forall. intros c Hc%list_elem_of_In. rewrite Forall_forall in H. by apply H.
  - by destruct (uuid_str id).
  - apply negb_true_iff, String.eqb_neq. intros E. by rewrite E in Hl.
  - apply negb_true_iff, String.eqb_neq. intros E. by rewrite E in Hl.
  - apply forallb_forall. intros c Hc%list_elem_of_In. rewrite Forall_forall in H. by apply H.
Qed.

Lemma trade_request_canonical {A} id path (route : uuid -> prog A) elsewhere :
  trade_request (uuid_str id) path route elsewhere = call (Some id) route.
Proof.
  unfold trade_request. destruct (uuid_segment id) as [-> ->]. by rewrite uuid_field_str.
Qed.

Definition client_flat (telegram_user_id : Z) (symbol strategy : option string) : prog (option CommandResultResponse) :=
  call plain (fun _ => flat telegram_user_id strategy symbol).

Definition client_prevent (telegram_user_id : Z) (enabled : bool) : prog (option CommandResultResponse) :=
  call plain (fun _ => prevent telegram_user_id enabled).

Definition client_get_max_open_orders (telegram_user_id : Z) : prog (option MaxOpenOrdersResponse) :=
  call plain (fun _ => get_max_open_orders telegram_user_id).

(** [MaxOpenOrdersRequest]: [None], or 0 or more. *)
Definition client_set_max_open_orders (telegram_user_id : Z) (max_open_orders : option Z)
    : prog (option MaxOpenOrdersResponse) :=
  let valid := match max_open_orders with Some z => (0 <=? z)%Z | None => true end in
  call (if valid then plain else None) (fun _ => set_max_open_orders telegram_user_id max_open_orders).

Definition client_unlink (telegram_user_id : Z) : prog bool :=
  let! resp := request plain (fun _ => unlink_account telegram_user_id) in
  Ret (match resp with Some (Body _) => true | _ => false end).

Definition client_get_broadcast_subscription (telegram_user_id : Z) : prog (option BroadcastSubscriptionResponse) :=
  call plain (fun _ => get_broadcast_subscription telegram_user_id).

(** [subscribe_broadcast] and [unsubscribe_broadcast]. *)
Definition client_switch_broadcast (telegram_user_id : Z) (enabled : bool)
    : prog (option BroadcastSubscriptionResponse) :=
  call plain (fun _ => switch_broadcast telegram_user_id enabled).

(** [subscribe_all_broadcast] and [unsubscribe_all_broadcast], the accounts switched. *)
Definition client_switch_broadcast_all (telegram_user_id : Z) (enabled : bool) : prog (option Z) :=
  call plain (fun _ => switch_broadcast_all telegram_user_id enabled).

(** ** [BrokerClientAdmin] *)
Definition client_admin_list_accounts : prog (option (list AccountResponse)) :=
  call plain (fun _ => list_all_accounts).

Definition client_admin_create_account (account_id market gateway : string) (account_name : option string)
    : prog (option AccountResponse) :=
  let body := m ← market_field market;
              let b := {| ca_market := m; ca_gateway := gateway; ca_account_id := account_id;
                          ca_account_name := account_name |} in
              if create_account_valid b then Some b else None in
  call body register_account.

Definition client_admin_list_trades (account_id : string) (limit offset : Z) : prog (option TradeListResponse) :=
  call (if page_valid limit offset then plain else None) (fun _ => trade_page account_id limit offset).

Definition client_admin_flat (strategy symbol account_id market gateway : option string) : prog (option AdminResponse) :=
  let body := m ← match market with None => Some None | Some m => Some <$> market_field m end;
              let b := {| fr_strategy := strategy; fr_symbol := symbol; fr_account_id := account_id;
                          fr_market := m; fr_gateway := gateway |} in
              if flat_valid b then Some b else None in
  call body flat_positions.

Definition client_admin_list_strategies : prog (option (list string)) := call plain (fun _ => list_strategies).

Definition client_admin_rotate_token (account_id : string) : prog (option RotateTokenResponse) :=
  call plain (fun _ => rotate_account_token account_id).

Definition client_admin_link_telegram (account_uuid : string) (telegram_user_id : Z) : prog (option AccountResponse) :=
  call (uuid_field account_uuid) (fun id => link_telegram_to_account id telegram_user_id).

Definition client_admin_get_settings : prog (option (list SettingToggleResponse)) := call plain (fun _ => get_toggles).

(** The routes [POST /admin/settings/{slug}] that take no body; any other is refused. *)
Definition toggle_route (slug : string) : prog SettingToggleResponse :=
  if String.eqb slug "block-signal" then toggle_block_signal
  else if String.eqb slug "silent-signal" then toggle_silent_signal
  else if String.eqb slug "include-signal-raw" then toggle_include_signal_raw
  else Raise ValidationError.

Definition client_admin_toggle_setting (slug : string) : prog (option SettingToggleResponse) :=
  call plain (fun _ => toggle_route slug).

Definition client_get_notification_timezone : prog (option SettingValueResponse) :=
  call plain (fun _ => get_notification_timezone).

Definition client_get_strategy_magic_map : prog (option SettingValueResponse) := call plain (fun _ => get_stored_magic_map).

Definition client_set_strategy_magic_map (magic_map : list (string * Z)) : prog (option SettingValueResponse) :=
  call (if setting_body_valid (SetStrategyMagicMap magic_map) then plain else None)
    (fun _ => set_strategy_magic_map magic_map).

Definition client_get_crypto_allowed_symbol : prog (option SettingValueResponse) :=
  call plain (fun _ => setting_value CRYPTO_ALLOWED_SYMBOL_KEY).

Definition client_set_crypto_allowed_symbol (symbols : list string) : prog (option SettingValueResponse) :=
  call (if setting_body_valid (SetCryptoAllowedSymbol symbols) then plain else None)
    (fun _ => set_crypto_allowed_symbol symbols).

Definition client_get_crypto_max_leverage : prog (option SettingValueResponse) :=
  call plain (fun _ => setting_value CRYPTO_MAX_LEVERAGE_KEY).

Definition client_set_crypto_max_leverage (default_leverage : Z) : prog (option SettingValueResponse) :=
  call (if setting_body_valid (SetCryptoMaxLeverage default_leverage) then plain else None)
    (fun _ => set_crypto_max_leverage default_leverage).

(** [BrokerClientAdmin.get_max_open_orders] and [set_max_open_orders]. *)
Definition client_get_default_max_open_orders : prog (option SettingValueResponse) :=
  call plain (fun _ => get_default_max_open_orders).

Definition client_set_default_max_open_orders (max_open_orders : Z) : prog (option SettingValueResponse) :=
  call (if setting_body_valid (SetMaxOpenOrders max_open_orders) then plain else None)
    (fun _ => set_default_max_open_orders max_open_orders).

Definition client_get_public_broadcast_chat_ids : prog (option SettingValueResponse) :=
  call plain (fun _ => setting_value PUBLIC_BROADCAST_CHAT_IDS_KEY).

Definition client_set_public_broadcast_chat_ids (chat_ids : list string) : prog (option SettingValueResponse) :=
  call plain (fun _ => set_public_broadcast_chat_ids chat_ids).

(** The four reply-notify requests, of either audience. *)
Definition client_get_reply_notify (key : string) : prog (option SettingToggleResponse) :=
  call plain (fun _ => reply_notify_state key).

Definition client_set_reply_notify (key : string) (enabled : bool) : prog (option SettingToggleResponse) :=
  call plain (fun _ => set_reply_notify key enabled).
End client.
