(* ===== verification/BotTable.v ===== *)
(** * Pages and tables

    [utils/pagination.py] and [utils/table.py] of the bot: slicing a list into
    pages with their Prev/Next buttons, and fixed-width text tables. *)

From S2P Require Import Prelude PyStr JsonText BotState.
From Stdlib Require Import Ascii.

(** ** Pages *)
Record Page := { pg_total : Z; pg_limit : Z; pg_offset : Z }.

Section pages.
Context {T : Type}.

Definition paginate (items : list T) (limit offset : Z) : list T * Page :=
  let limit := Z.max 1 limit in
  let total := Z.of_nat (length items) in
  let offset := if (offset <? 0)%Z || (total <=? offset)%Z then 0%Z else offset in
  (take (Z.to_nat limit) (drop (Z.to_nat offset) items),
   {| pg_total := total; pg_limit := limit; pg_offset := offset |}).
End pages.

Definition build_pagination_row (page : Page) (callback_for : Z -> string) : list Button :=
  let limit := if (pg_limit page =? 0)%Z then 1%Z else pg_limit page in
  (if (0 <? pg_offset page)%Z
   then [{| bt_text := "⬅️ Prev"; bt_callback_data := callback_for (Z.max 0 (pg_offset page - limit)) |}] else []) ++
  (if (pg_offset page + limit <? pg_total page)%Z
   then [{| bt_text := "Next ➡️"; bt_callback_data := callback_for (pg_offset page + limit)%Z |}] else []).

Definition build_pagination_keyboard (page : Page) (callback_for : Z -> string) : option Keyboard :=
  match build_pagination_row page callback_for with
  | [] => None
  | row => Some [row]
  end.

(** ** Tables *)

(** A Python text is its code points: [len], slices and padding count those. *)
Definition points (s : string) : nat := length (code_points s).

Definition take_points (n : nat) (s : string) : string := utf8s (take n (code_points s)).

Definition spaces (n : nat) : string := String.concat EmptyString (repeat " " n).

Definition ljust (w : nat) (s : string) : string := s +:+ spaces (w - points s).
Definition rjust (w : nat) (s : string) : string := spaces (w - points s) +:+ s.

Definition ACTIVE_MARK : string := "★".
Definition ELLIPSIS : string := "…".
Definition COL_SEP : string := "  ".
Definition RULE_CHAR : string := "─".

Fixpoint times (n : nat) (s : string) : string := match n with O => EmptyString | S n => s +:+ times n s end.

(** [html.escape], of which [quote] is the second half. *)
Definition escape_char (quote_too : bool) (c : ascii) : string :=
  if Ascii.eqb c "&" then "&amp;"
  else if Ascii.eqb c "<" then "&lt;"
  else if Ascii.eqb c ">" then "&gt;"
  else if quote_too && Ascii.eqb c quote then "&quot;"
  else if quote_too && Ascii.eqb c "'" then "&#x27;"
  else String c EmptyString.

Fixpoint html_escape (quote_too : bool) (s : string) : string :=
  match s with
  | EmptyString => EmptyString
  | String c s => escape_char quote_too c +:+ html_escape quote_too s
  end.

(** [_truncate]. *)
Definition truncate (text : string) (width : option nat) : string :=
  match width with
  | None | Some O => text
  | Some w => if points text <=? w then text
              else if w =? 1 then ELLIPSIS
              else take_points (w - 1) text +:+ ELLIPSIS
  end.

Inductive Align := AlignLeft | AlignRight.

(** The cells of one row: as many as there are columns, cut to their widths. *)
Definition row_cells (n : nat) (caps : list (option nat)) (row : list (option string)) : list string :=
  zip_with truncate (map (default EmptyString) (take n row ++ repeat None (n - length row))) caps.

Definition column_widths (n : nat) (rows : list (list string)) : list nat :=
  map (fun i => max_list (map (fun r => points (default EmptyString (r !! i))) rows)) (seq 0 n).

Definition pad (cell : string) (col : nat * Align) : string :=
  match col.2 with AlignRight => rjust col.1 cell | AlignLeft => ljust col.1 cell end.

(** A line before its trailing blanks are cut. *)
Definition full_line (cols : list (nat * Align)) (values : list string) : string :=
  join COL_SEP (zip_with pad values cols).

Definition table_width (cols : list (nat * Align)) : nat := sum_list (map fst cols) + 2 * (length cols - 1).

Definition render_table (headers : list string) (rows : list (list (option string)))
    (aligns : list Align) (max_widths : list (option nat)) : string :=
  let n := length headers in
  let caps := max_widths ++ repeat None (n - length max_widths) in
  let head := row_cells n caps (map Some headers) in
  let cells := map (row_cells n caps) rows in
  let cols := zip (column_widths n (head :: cells)) (aligns ++ repeat AlignLeft n) in
  let line values := rstrip_by is_space (full_line cols values) in
  let rule := times (table_width cols) RULE_CHAR in
  "<pre>" +:+ html_escape false (join newline (line head :: rule :: map line cells)) +:+ "</pre>".

Example two_columns :
  render_table ["★"; "ACCOUNT"] [[Some "★"; Some "a<b"]; [None; Some "0123456789"]] [AlignLeft; AlignRight]
    [Some 1; Some 8] =
  "<pre>" +:+ join newline ["★   ACCOUNT"; "───────────"; "★       a&lt;b"; "   0123456…"] +:+ "</pre>".
Proof. vm_compute. reflexivity. Qed.

Example second_page :
  paginate [1; 2; 3; 4; 5] 2 2 = ([3; 4], {| pg_total := 5; pg_limit := 2; pg_offset := 2 |}).
Proof. reflexivity. Qed.

(** ** The pages of a list *)
Section browsing.
Context {T : Type} (items : list T) (limit : Z).

Let L : nat := Z.to_nat (Z.max 1 limit).

(** The page the [i]th tap on Next leads to, and how many there are. *)
Definition nth_page (i : nat) : list T * Page := paginate items limit (Z.of_nat i * Z.max 1 limit).

Definition page_count : nat := Nat.max 1 ((length items + L - 1) / L).

Lemma page_count_spec : L <> 0 /\ length items <= page_count * L /\ (forall i, 0 < i < page_count -> i * L < length items).
Proof.
  assert (L <> 0) as HL by (unfold L; lia). split; [done|].
  pose proof (Nat.div_mod (length items + L - 1) L HL). pose proof (Nat.mod_upper_bound (length items + L - 1) L HL).
  unfold page_count. split; [nia|]. intros i Hi.
  assert (i < (length items + L - 1) / L) by lia. nia.
Qed.

Lemma nth_page_at i :
  i < page_count ->
  nth_page i = (take L (drop (i * L) items),
                {| pg_total := Z.of_nat (length items); pg_limit := Z.max 1 limit; pg_offset := Z.of_nat (i * L) |}).
Proof.
  intros Hi. destruct page_count_spec as (HL & _ & Hin). unfold nth_page, paginate.
  assert (Z.of_nat i * Z.max 1 limit = Z.of_nat (i * L))%Z as -> by (unfold L; lia).
  destruct (Z.ltb_spec (Z.of_nat (i * L)) 0); [lia|]. cbn [orb].
  destruct (Z.leb_spec (Z.of_nat (length items)) (Z.of_nat (i * L))) as [Hle|_]; [|by rewrite Nat2Z.id].
  assert (i = 0) as -> by (destruct i; [done|]; specialize (Hin (S i)); lia). by rewrite Nat.mul_0_l.
Qed.

Lemma slices n : concat (map (fun i => take L (drop (i * L) items)) (seq 0 n)) = take (n * L) items.
Proof.
  induction n as [|n IH]; [done|]. rewrite seq_S, map_app, concat_app, IH. cbn [map concat]. rewrite app_nil_r.
  replace (S n * L) with (n * L + L) by lia. by rewrite <-take_take_drop.
Qed.

(** Paging shows every row once.  The pages reached by tapping Next from the
    first one, as many as there are, put together are the list; each carries a Prev
    button to the page before it unless it is the first and a Next button to the
    page after it unless it is the last; and an offset outside the list, which an old
    button may still carry, shows the first page. *)
Theorem pages_cover_list :
  concat (map (fun i => (nth_page i).1) (seq 0 page_count)) = items /\
  (forall i callback_for, i < page_count ->
     build_pagination_row (nth_page i).2 callback_for =
       (if i =? 0 then [] else
          [{| bt_text := "⬅️ Prev"; bt_callback_data := callback_for (Z.of_nat (i - 1) * Z.max 1 limit)%Z |}]) ++
       (if S i =? page_count then [] else
          [{| bt_text := "Next ➡️"; bt_callback_data := callback_for (Z.of_nat (S i) * Z.max 1 limit)%Z |}])) /\
  (forall offset, (offset < 0 \/ Z.of_nat (length items) <= offset)%Z -> paginate items limit offset = nth_page 0).
Proof.
  destruct page_count_spec as (HL & Hlen & Hin). split; [|split].
  - rewrite (map_ext_in _ (fun i => take L (drop (i * L) items))).
    + rewrite slices. by apply take_ge.
    + intros i [_ Hi]%in_seq. by rewrite nth_page_at by lia.
  - intros i cb Hi. rewrite nth_page_at by done. unfold build_pagination_row. cbn [snd pg_limit pg_offset pg_total].
    destruct (Z.eqb_spec (Z.max 1 limit) 0); [lia|]. f_equal.
    + destruct (Nat.eqb_spec i 0) as [->|]; [done|].
      destruct (Z.ltb_spec 0 (Z.of_nat (i * L))) as [_|Hx]; [|nia]. do 3 f_equal. unfold L. nia.
    + assert (Z.of_nat (i * L) + Z.max 1 limit = Z.of_nat (S i) * Z.max 1 limit)%Z as -> by (unfold L; lia).
      destruct (Nat.eqb_spec (S i) page_count) as [E|].
      * destruct (Z.ltb_spec (Z.of_nat (S i) * Z.max 1 limit) (Z.of_nat (length items))) as [Hx|]; [|done].
        rewrite <-E in Hlen. unfold L in Hlen. lia.
      * specialize (Hin (S i)).
        destruct (Z.ltb_spec (Z.of_nat (S i) * Z.max 1 limit) (Z.of_nat (length items))) as [_|Hx]; [done|].
        unfold L in Hin. lia.
  - intros offset H. unfold nth_page, paginate. cbn [Z.of_nat Z.mul].
    assert ((offset <? 0)%Z || (Z.of_nat (length items) <=? offset)%Z = true) as ->.
    { apply orb_true_iff. rewrite Z.ltb_lt, Z.leb_le. lia. }
    by destruct (_ || _).
Qed.
End browsing.
