(* ===== verification/BotText.v ===== *)
(** * What the bot says

    [presenters/messages.py], [presenters/trade_card.py], [keyboards/inline.py] and
    [utils/timezone.py] of the bot: the texts and keyboards it builds from the
    broker's answers.  Emoji are the glyphs the [emoji] library gives for the names in
    [emojis.py]. *)

From S2P Require Import Prelude PyStr Uuid PyTime Json JsonText Enums Schemas Models ChatTargets BotState World Settings TimeZone.
From S2P Require Import StatusPolicies Samples SignalRepo SignalHelper SignalService SignalWorker.
From S2P Require Import BroadcastRepo BroadcastService Dispatcher TradeRepo AccountRepo Notifications AccountSettings.
From S2P Require Import TradeConsumer TradeCards TelegramApi AdminApi BotClient BotTable.
From Stdlib Require Import Ascii SpecFloat.

(** ** Values *)

(** [_esc]. *)
Definition esc (s : string) : string := html_escape true s.
Definition esc_opt (s : option string) : string := match s with Some s => esc s | None => "—" end.

(** [f"{x:.nf}"]: the whole and the fraction digits of the magnitude, rounded half to
    even. *)
Definition fixed_digits (n : nat) (m : positive) (e : Z) : string * string :=
  let '(a, b) := fraction m e in
  let ds := str_int (round_div (a * 10 ^ Z.of_nat n) b) in
  let ds := zeros (S n - String.length ds) +:+ ds in
  (take_str (String.length ds - n) ds, drop_str (String.length ds - n) ds).

(** [","] between each three digits. *)
Fixpoint thousands (fuel : nat) (ds : string) : string :=
  match fuel with
  | O => ds
  | S fuel =>
      if String.length ds <=? 3 then ds
      else thousands fuel (take_str (String.length ds - 3) ds) +:+ "," +:+ drop_str (String.length ds - 3) ds
  end.

Definition format_fixed (commas : bool) (n : nat) (f : float) : string :=
  let group ds := if commas then thousands (String.length ds) ds else ds in
  match f with
  | S754_nan => "nan"
  | S754_infinity s => (if s then "-" else "") +:+ "inf"
  | S754_zero s => (if s then "-" else "") +:+ "0." +:+ zeros n
  | S754_finite s m e =>
      let '(whole, frac) := fixed_digits n m e in (if s then "-" else "") +:+ group whole +:+ "." +:+ frac
  end.

Example fixed_samples :
  map (fun t => format_fixed true 2 <$> py_float t) ["1234567.891"; "0.005"; "-0.004"; "999.995"; "0"] =
  [Some "1,234,567.89"; Some "0.01"; Some "-0.00"; Some "1,000.00"; Some "0.00"].
Proof. vm_compute. reflexivity. Qed.

(** [_fmt_num] and [_fmt_pnl]. *)
Definition fmt_num (value : option float) : string :=
  match value with Some f => format_fixed true 2 f | None => "—" end.

Definition signed (commas : bool) (f : float) : string :=
  (if SFleb f_zero f then "+" else "") +:+ format_fixed commas 2 f.

Definition fmt_pnl (balance balance_init : option float) : string :=
  match balance, balance_init with
  | Some b, Some i => signed true (SFsub 53 1024 b i)
  | _, _ => "—"
  end.

(** [_num] of the card: eight decimals without the trailing zeros. *)
Definition num (value : option float) : string :=
  match value with
  | None => "—"
  | Some f =>
      let text := rstrip_by (fun c => Ascii.eqb c ".") (rstrip_by is_zero_char (format_fixed false 8 f)) in
      if is_empty text then "0" else text
  end.

(** ** Time ([utils/timezone.py]) *)
Definition DEFAULT_OFFSET_HOURS : float := float_of_decimal false 7 0.

Definition offset_hours_from_payload (payload : option SettingValueResponse) : float :=
  match payload with
  | Some p => default DEFAULT_OFFSET_HOURS (py_float (sv_value p))
  | None => DEFAULT_OFFSET_HOURS
  end.

Definition bot_utc_label (hours : float) : string :=
  "UTC" +:+ (if SFleb f_zero hours then "+" else "") +:+ format_g hours.

(** ["%Y-%m-%d %H:%M:%S"] and ["%m-%d %H:%M"]. *)
Definition FULL_TIME_FMT : datetime -> string := strftime.
Definition SHORT_TIME_FMT (t : datetime) : string :=
  dec_fixed 2 (dt_month t) +:+ "-" +:+ dec_fixed 2 (dt_day t) +:+ " " +:+
  dec_fixed 2 (dt_hour t) +:+ ":" +:+ dec_fixed 2 (dt_minute t).

(** [format_local_time] of a timestamp the broker sent, which is in UTC. *)
Definition format_local_time (value : instant) (offset_hours : float) (fmt : datetime -> string) (with_label : bool)
    : res time_error string :=
  let suffix := if with_label then " (" +:+ bot_utc_label offset_hours +:+ ")" else EmptyString in
  let? off := display_offset offset_hours in
  match wall_clock (value + off) with
  | None => Err TimeOverflowError
  | Some local => Ok (fmt local +:+ suffix)
  end.

(** ** Shared presenters *)
Definition trade_page_meta (p : PageMeta) : Page :=
  {| pg_total := pm_total p; pg_limit := pm_limit p; pg_offset := pm_offset p |}.

Definition page_range (page : Page) (shown : nat) : string :=
  str_int (pg_offset page + 1) +:+ "–" +:+ str_int (pg_offset page + Z.of_nat shown) +:+ " / " +:+ str_int (pg_total page).

Definition ACTION_LABEL (action : string) : string :=
  if String.eqb action "FLAT" then "Flat"
  else if String.eqb action "BLOCK_SIGNAL" then "Prevent"
  else if String.eqb action "ALLOW_SIGNAL" then "Allow"
  else esc action.

Definition STATUS_LABEL (s : TradeStatusEnum) : string :=
  match s with
  | TradeStatus.OPENED => "OPEN"
  | TradeStatus.CLOSED => "CLOSED"
  | TradeStatus.FLAT => "FLAT"
  | TradeStatus.REJECTED => "REJECT"
  | TradeStatus.PARTIALLY_CLOSED => "PARTIAL"
  end.

Definition or_dash (s : string) : string := if is_empty s then "—" else s.

Definition trade_row (r : TradeResponse) (tz_offset_hours : float) : res time_error (list (option string)) :=
  let t := tp_trade r in
  let? time := format_local_time (tp_updatedAt r) tz_offset_hours SHORT_TIME_FMT false in
  Ok (map Some [or_dash (tr_symbol t); or_dash (action_value (tr_action t)); STATUS_LABEL (tr_status t);
                fmt_num (Some (tr_price t)); fmt_num (Some (tr_quantity t)); fmt_num (tr_account_balance t);
                fmt_pnl (tr_account_balance t) (tr_account_balance_init t); time]).

Fixpoint all_ok {E A} (l : list (res E A)) : res E (list A) :=
  match l with [] => Ok [] | r :: l => let? a := r in let? as_ := all_ok l in Ok (a :: as_) end.

Definition trades_table (data : list TradeResponse) (tz_offset_hours : float) : res time_error string :=
  let? rows := all_ok (map (fun t => trade_row t tz_offset_hours) data) in
  Ok (render_table ["SYMBOL"; "ACTION"; "STATUS"; "PRICE"; "QTY"; "BALANCE"; "PNL"; "TIME"] rows
        [AlignLeft; AlignLeft; AlignLeft; AlignRight; AlignRight; AlignRight; AlignRight; AlignLeft]
        [Some 12; Some 6; Some 7; None; None; None; None; None]).

Definition format_command_result (action scope : string) : string :=
  "✅ Command <b>" +:+ ACTION_LABEL action +:+ "</b> done" +:+ newline +:+
  "Scope: <code>" +:+ esc scope +:+ "</code>" +:+ newline +:+ newline +:+
  "<i>The command has been dispatched to the worker via the broker.</i>".

(** ** [UserMessages] *)
Definition COMMANDS_HINT : string :=
  join newline
    ["<b>Available commands</b>"; "/trades — Recent trades"; "/flat — Close all positions";
     "/prevent — Block new orders"; "/allow — Allow new orders"; "/maxorders — Max open positions";
     "/status — Account info + open positions"; "/myaccounts — List linked accounts"; "/link — Add another account";
     "/switch — Change active account"; "/unlink — Unlink active account";
     "/subscribe — Live trade alerts (active account)"; "/unsubscribe — Stop trade alerts (active account)";
     "/subscribeall — Live trade alerts (all accounts)"; "/unsubscribeall — Stop trade alerts (all accounts)"].

Definition HELP_TEXT : string :=
  "🤖 <b>Trading Bot</b>" +:+ newline +:+ newline +:+
  "This bot helps you track trades and control your account." +:+ newline +:+ newline +:+
  "Start with /start and enter the <b>UUID</b> code your admin gave you to link." +:+ newline +:+ newline +:+ COMMANDS_HINT.

(** The cap, in words. *)
Definition shown_limit (limit : Z) : string :=
  if (limit =? 0)%Z then "<b>no limit</b>" else "<b>" +:+ str_int limit +:+ "</b>".

Definition format_max_open_orders (state : MaxOpenOrdersResponse) (account_id : option string) : string :=
  let inherited := negb (String.eqb (mo_source state) "account") in
  let origin := if inherited then "the broker-wide default" else "your own setting for this account" in
  "⚙️ <b>Max open positions</b>" +:+ newline +:+
  match account_id with Some a => "Account: <code>" +:+ esc a +:+ "</code>" +:+ newline | None => EmptyString end +:+
  "Current: " +:+ shown_limit (mo_max_open_orders state) +:+ " — " +:+ origin +:+ newline +:+
  (if inherited then EmptyString
   else "Default if you clear it: <b>" +:+ str_int (mo_global_max_open_orders state) +:+ "</b>" +:+ newline) +:+
  newline +:+ "This caps how many positions your account may hold at once. A new entry " +:+
  "beyond it is not placed — it is recorded as rejected and reported back." +:+ newline +:+ newline +:+
  "Send a new number (<code>0</code> = no limit), <code>-</code> to go back to " +:+
  "the default, or /cancel to abort.".

Definition format_max_open_orders_updated (state : MaxOpenOrdersResponse) : string :=
  let suffix := if String.eqb (mo_source state) "account" then EmptyString else " (the broker-wide default)" in
  "✅ <b>Max open positions updated</b>" +:+ newline +:+
  "Now: " +:+ shown_limit (mo_max_open_orders state) +:+ suffix +:+ newline +:+ newline +:+
  "<i>Your worker has been notified, and will apply it on reconnect regardless.</i>".

Definition format_broadcast_subscription (subscribed : bool) (account : BroadcastSubscriptionResponse) : string :=
  let kind := join "/" (base.filter (fun p => negb (is_empty p) = true)
                          [market_value (su_market account); default EmptyString (su_gateway account)]) in
  let label := "<code>" +:+ esc (su_account_id account) +:+ "</code>" +:+
               (if is_empty kind then EmptyString else " (" +:+ esc kind +:+ ")") in
  if subscribed then
    "✅ <b>Subscribed</b> — " +:+ label +:+ newline +:+ newline +:+
    "You'll now get a message here the moment this account opens a trade. " +:+
    "Each message updates itself as the trade moves — partial close, " +:+
    "close, flat — and carries 🔍 <b>Detail</b> and 🏁 <b>Close</b> buttons while the trade is still " +:+
    "running." +:+ newline +:+ newline +:+
    "This covers this account only; your other linked accounts are " +:+
    "unchanged (/switch to change one). Use /unsubscribe to stop."
  else
    "✅ <b>Unsubscribed</b> — " +:+ label +:+ newline +:+ newline +:+
    "You'll no longer get trade alerts for this account. Trades already " +:+
    "showing in this chat keep updating until they close." +:+ newline +:+ newline +:+
    "Your other linked accounts are unchanged (/switch to change one). " +:+
    "Use /subscribe to turn it back on.".

Definition format_broadcast_subscription_all (subscribed : bool) (count : Z) : string :=
  let accounts := str_int count +:+ " linked account" +:+ (if (count =? 1)%Z then EmptyString else "s") in
  if subscribed then
    "✅ <b>Subscribed</b> — all accounts (" +:+ str_int count +:+ ")" +:+ newline +:+ newline +:+
    "You'll now get a trade card for each of your " +:+ accounts +:+ ": a message the " +:+
    "moment one opens a trade, updating itself until it closes." +:+ newline +:+ newline +:+
    "An account you link later starts off — /subscribe on it, or run " +:+
    "/subscribeall again. Use /unsubscribeall to stop for all of them, or " +:+
    "/switch and /unsubscribe for just one."
  else
    "✅ <b>Unsubscribed</b> — all accounts (" +:+ str_int count +:+ ")" +:+ newline +:+ newline +:+
    "No more trade alerts for any of your " +:+ accounts +:+ ". Trades already showing " +:+
    "in this chat keep updating until they close." +:+ newline +:+ newline +:+
    "Use /subscribeall to turn them all back on, or /switch and /subscribe for just one.".

Definition format_account (account : LinkedAccountResponse) : string :=
  let a := la_account account in
  "<b>📂 Account</b>" +:+ newline +:+
  "• ID: <code>" +:+ esc (ac_account_id a) +:+ "</code>" +:+ newline +:+
  "• Name: " +:+ esc_opt (ac_account_name a) +:+ newline +:+
  "• Balance: <b>" +:+ fmt_num (ac_account_balance a) +:+ "</b>" +:+ newline +:+
  "• Market: " +:+ esc (market_value (ac_market a)).

Definition gateway_or_unknown (g : option string) : string :=
  match g with Some g => if is_empty g then "?" else g | None => "?" end.

Definition format_accounts_list (accounts : list LinkedAccountResponse) (page : Page) (with_switch_hint : bool) : string :=
  match accounts with
  | [] => "📭 No linked accounts."
  | _ =>
      let table := render_table [ACTIVE_MARK; "MARKET"; "GATEWAY"; "ACCOUNT"]
        (map (fun r => let a := la_account r in
                map Some [if la_is_active r then ACTIVE_MARK else EmptyString; market_value (ac_market a);
                          gateway_or_unknown (ac_gateway a); ac_account_id a]) accounts)
        [] [Some 1; None; None; Some 24] in
      join newline (["<b>📂 Your accounts</b> (" +:+ page_range page (length accounts) +:+ ")"; EmptyString; table] ++
                    (if with_switch_hint then [newline +:+ "<i>Tap an account below to make it active.</i>"] else []))
  end.

Definition format_trades (payload : TradeListResponse) (tz_offset_hours : float) : res time_error string :=
  match tl_data payload with
  | [] => Ok "📭 No trades yet."
  | data =>
      let? table := trades_table data tz_offset_hours in
      Ok ("<b>📊 Trades</b> (" +:+ page_range (trade_page_meta (tl_page payload)) (length data) +:+ ") · times in " +:+
          bot_utc_label tz_offset_hours +:+ newline +:+ newline +:+ table)
  end.

Definition format_status (account : LinkedAccountResponse) (positions : option OpenPositionsResponse)
    (tz_offset_hours : float) : res time_error string :=
  let count_line := match positions with
                    | None => "• Open positions: ⚠️ failed to load"
                    | Some p => "• Open positions: <b>" +:+ str_int (op_count p) +:+ "</b>"
                    end in
  let head := format_account account +:+ newline +:+ count_line in
  match positions with
  | Some p =>
      match op_data p with
      | [] => Ok head
      | data =>
          let? table := trades_table data tz_offset_hours in
          Ok (head +:+ newline +:+ newline +:+ "<b>📊 Open positions</b> · times in " +:+
              bot_utc_label tz_offset_hours +:+ newline +:+ newline +:+ table)
      end
  | None => Ok head
  end.

(** ** [AdminMessages] *)

(** [SETTING_META]: the label and the slug of a setting. *)
Definition SETTING_META (key : string) : option (string * string) :=
  if String.eqb key SIGNAL_BLOCKED then Some ("Block signal", "block-signal")
  else if String.eqb key SILENT_SIGNAL then Some ("Mute notifications", "silent-signal")
  else if String.eqb key NOTIFICATION_INCLUDE_SIGNAL_RAW then Some ("Include raw in notification", "include-signal-raw")
  else None.

Definition format_accounts_admin (accounts : list AccountResponse) (page : Page) : string :=
  match accounts with
  | [] => "📭 No accounts yet."
  | _ =>
      let table := render_table ["MARKET"; "GATEWAY"; "ACCOUNT"; "NAME"; "BALANCE"; "USERS"]
        (map (fun r => let a := rs_account r in
                map Some [market_value (ac_market a); gateway_or_unknown (ac_gateway a); ac_account_id a;
                          match ac_account_name a with Some n => or_dash n | None => "—" end;
                          fmt_num (ac_account_balance a); str_int (Z.of_nat (length (rs_linked_user_ids r)))]) accounts)
        [AlignLeft; AlignLeft; AlignLeft; AlignLeft; AlignRight; AlignRight] [None; None; Some 24; Some 20; None; None] in
      join newline ["<b>📂 Accounts</b> (" +:+ page_range page (length accounts) +:+ ")"; EmptyString; table]
  end.

Definition format_admin_trades (account_id : string) (payload : TradeListResponse) (tz_offset_hours : float)
    : res time_error string :=
  let? text := format_trades payload tz_offset_hours in
  Ok ("<b>Account</b> <code>" +:+ esc account_id +:+ "</code>" +:+ newline +:+ newline +:+ text).

Definition format_settings (states : list SettingToggleResponse) : string :=
  match states with
  | [] => "📭 No settings found."
  | _ =>
      let label key := match SETTING_META key with Some (l, _) => l | None => key end in
      let table := render_table ["STATE"; "SETTING"]
                     (map (fun s => map Some [st_state s; label (st_setting s)]) states) [] [] in
      "<b>⚙️ Broker settings</b>" +:+ newline +:+ newline +:+ table +:+ newline +:+ newline +:+
      "<i>Tap a button below to toggle.</i>"
  end.

Definition spoiler (s : string) : string := "<tg-spoiler>" +:+ s +:+ "</tg-spoiler>".

Definition token_text (t : option uuid) : option string := uuid_str <$> t.

Definition format_account_created (account : AccountResponse) (invite_url : option string) : string :=
  let a := rs_account account in
  "✅ <b>Account created</b>" +:+ newline +:+
  "• ID: <code>" +:+ esc (ac_account_id a) +:+ "</code>" +:+ newline +:+
  "• Market: " +:+ esc (market_value (ac_market a)) +:+ newline +:+
  "• Gateway: " +:+ esc_opt (ac_gateway a) +:+ newline +:+ newline +:+
  "🔑 Link token:" +:+ newline +:+ spoiler (esc_opt (token_text (rs_link_token account))) +:+ newline +:+ newline +:+
  match invite_url with
  | Some url => "🔗 Invite link:" +:+ newline +:+ spoiler (esc url) +:+ newline +:+ newline
  | None => EmptyString
  end.

Definition format_rotate_result (result : RotateTokenResponse) : string :=
  "🔑 New link token for <code>" +:+ esc (rt_account_id result) +:+ "</code>:" +:+ newline +:+
  spoiler ("<code>" +:+ esc (uuid_str (rt_link_token result)) +:+ "</code>") +:+ newline +:+ newline +:+
  "<i>Previous tokens have been revoked and every Telegram user that was " +:+
  "linked to this account has been unlinked. Send this new token to whoever " +:+
  "should have access now — the new token is the only way back in.</i>".

(** ["(market/gateway)"] after an account's id. *)
Definition account_line (a : Account) : string :=
  "• Account: <code>" +:+ esc (ac_account_id a) +:+ "</code> (" +:+ esc (market_value (ac_market a)) +:+ "/" +:+
  esc_opt (ac_gateway a) +:+ ")" +:+ newline.

Definition format_invite_url (url : string) (account : option AccountResponse) : string :=
  "🔗 <b>Invite link</b>" +:+ newline +:+
  match account with Some r => account_line (rs_account r) | None => EmptyString end +:+ newline +:+
  spoiler (esc url) +:+ newline +:+ newline +:+
  "<i>Send this to the end user. Opening it starts the bot and links the " +:+
  "account straight away — no UUID to type. It carries the link token, so " +:+
  "share it privately; /admin_rotate revokes it.</i>".

Definition ADMIN_HELP : string :=
  join newline
    ["⚙️ <b>Admin commands</b>"; "/admin_accounts — Account list"; "/admin_newaccount — Register a new account";
     "/admin_trades — Trades for an account";
     "/admin_flat — FLAT with strategy/market/gateway pickers (each has All) / one account";
     "/admin_rotate — Rotate token + unlink users"; "/admin_settings — Broker settings";
     "/admin_magicmap — Edit strategy magic map"; "/admin_crypto_symbols — Set crypto allowed symbols";
     "/admin_crypto_leverage — Set crypto max leverage"; "/admin_max_orders — Set the default max open positions";
     "/admin_public_chats — Public broadcast chats"; "/admin_private_reply_notify — Toggle private broadcast reply notify";
     "/admin_public_reply_notify — Toggle public broadcast reply notify";
     "/admin_linkaccount — Link a Telegram user to an account"; "/admin_invite_url — One-tap invite link for an account"].

Definition quoted (s : string) : string := String quote s +:+ String quote EmptyString.

Definition format_magic_map_prompt (current_value : option string) : string :=
  let body := match current_value with Some v => if is_empty v then "—" else esc v | None => "—" end in
  "⚙️ <b>Strategy magic map</b>" +:+ newline +:+ newline +:+
  "Current value:" +:+ newline +:+ "<code>" +:+ body +:+ "</code>" +:+ newline +:+ newline +:+
  "Send the new value as a JSON object mapping each strategy to its magic number, e.g." +:+ newline +:+
  "<code>{" +:+ quoted "MT5_GOLD_M5_V1" +:+ ": 20260409, " +:+ quoted "MT5_MULTI_M5_V1" +:+ ": 20260708}</code>".

Definition format_magic_map_updated (value : string) : string :=
  "✅ <b>Strategy magic map updated</b>" +:+ newline +:+ newline +:+ "<code>" +:+ esc value +:+ "</code>" +:+
  newline +:+ newline +:+ "<i>Workers apply the new map on their next connect.</i>".

Definition format_linked_account (account : AccountResponse) (telegram_user_id : Z) : string :=
  "✅ <b>Telegram user linked</b>" +:+ newline +:+ account_line (rs_account account) +:+
  "• Telegram user: <code>" +:+ str_int telegram_user_id +:+ "</code>" +:+ newline +:+
  "• Linked users now: " +:+ str_int (Z.of_nat (length (rs_linked_user_ids account))).

(** ** The card ([presenters/trade_card.py]) *)
Definition STATUS_EMOJI (s : TradeStatusEnum) : string :=
  match s with
  | TradeStatus.OPENED => "🔵"
  | TradeStatus.PARTIALLY_CLOSED => "🎯"
  | TradeStatus.CLOSED => "🏁"
  | TradeStatus.FLAT => "🏳️"
  | TradeStatus.REJECTED => "🚫"
  end.

(** [_ACTION_EMOJI.get(word)]. *)
Definition ACTION_EMOJI (word : string) : option string :=
  action_to_emoji <$> List.find (fun a => String.eqb (action_value a) word) action_members.

Definition action_icon (last_action : string) (status : TradeStatusEnum) : string :=
  default (STATUS_EMOJI status) (ACTION_EMOJI last_action).

(** [is_closed], by the bot's own copy of the statuses in [constants.py]. *)
Definition TERMINAL_TRADE_STATUSES : list string := ["CLOSED"; "FLAT"; "REJECTED"].

Definition is_closed (t : Trade) : bool :=
  existsb (String.eqb (trade_status_value (tr_status t))) TERMINAL_TRADE_STATUSES.

Lemma is_closed_terminal t : is_closed t = is_terminal t.
Proof. unfold is_closed, is_terminal. by destruct (tr_status t). Qed.

(** [_header_status]. *)
Definition header_status (t : Trade) : string * string :=
  if is_closed t then ("🏁", "CLOSED")
  else if bool_decide (tr_status t = TradeStatus.PARTIALLY_CLOSED) || bool_decide (tr_last_action t = Some "TP1")
       then ("🎯", "TP1")
  else ("⏳", "RUNNING").

Definition CARD_DIVIDER : string := "-----------".

(** [_last_action_block]. *)
Definition last_action_block (t : Trade) : list string :=
  match tr_last_action t with
  | None => []
  | Some last_action =>
      if is_empty last_action || String.eqb last_action "OPENED" || String.eqb last_action (action_value (tr_action t))
      then []
      else [EmptyString; "Actions:"; CARD_DIVIDER; action_icon last_action (tr_status t) +:+ " " +:+ esc last_action;
            CARD_DIVIDER]
  end.

Definition code_line (label value : string) : string := label +:+ ": <code>" +:+ value +:+ "</code>".
Definition bold_line (label value : string) : string := label +:+ ": <b>" +:+ value +:+ "</b>".

(** A line for a text that is there and not empty. *)
Definition text_line (line : string -> string) (value : option string) : list string :=
  match value with Some v => if is_empty v then [] else [line (esc v)] | None => [] end.

(** The lines the Detail button adds. *)
Definition detail_lines (r : TradeResponse) (tz_offset_hours : float) : res time_error (list string) :=
  let t := tp_trade r in
  let? opened := format_local_time (tp_createdAt r) tz_offset_hours FULL_TIME_FMT true in
  Ok ([EmptyString; bold_line "Strategy" (esc (tr_strategy t)); code_line "Account" (esc (tr_account_id t));
       "Market: <b>" +:+ esc_opt (market_value <$> tr_market t) +:+ "</b> / <b>" +:+ esc_opt (tr_gateway t) +:+ "</b>"] ++
      match tr_account_leverage t with Some z => [bold_line "Leverage" (str_int z)] | None => [] end ++
      text_line (code_line "Ref") (tr_ref_id t) ++ text_line (fun s => "Comment: " +:+ s) (tr_comment t) ++
      text_line (bold_line "Reject reason") (tr_reject_reason t) ++ ["Opened: " +:+ opened]).

Definition format_bot_card (r : TradeResponse) (tz_offset_hours : float) (detailed : bool) (footer : option string)
    : res time_error string :=
  let t := tp_trade r in
  let action := action_value (tr_action t) in
  let '(status_icon, status_word) := header_status t in
  let? details := if detailed then detail_lines r tz_offset_hours else Ok [] in
  let? updated := format_local_time (tp_updatedAt r) tz_offset_hours FULL_TIME_FMT true in
  Ok (join newline
    (["[" +:+ status_icon +:+ status_word +:+ "]";
      action_to_emoji (tr_action t) +:+ " <b>" +:+ esc action +:+ "</b> <b>" +:+ esc (tr_symbol t) +:+ "</b>";
      CARD_DIVIDER; code_line (if is_closed t then "Close price" else "Price") (num (Some (tr_price t)));
      code_line "Quantity" (num (Some (tr_quantity t))) +:+ " | " +:+
        "Risk: <code>" +:+ num (Some (tr_risk_percent t)) +:+ "%</code>";
      code_line "SL" (num (tr_sl t)) +:+ " | " +:+ code_line "TP1" (num (tr_tp1 t)) +:+ " | " +:+
        code_line "TP2" (num (tr_tp2 t));
      CARD_DIVIDER] ++
     match tr_account_balance t with Some b => [bold_line "Balance" (num (Some b))] | None => [] end ++
     match tr_account_balance t, tr_account_balance_init t with
     | Some b, Some i => [bold_line "PnL" (signed false (SFsub 53 1024 b i))]
     | _, _ => []
     end ++
     details ++ ["Updated: " +:+ updated] ++ last_action_block t ++
     match footer with Some f => if is_empty f then [] else [EmptyString; f] | None => [] end)).

Definition format_exit_prompt (t : Trade) : string :=
  "⚠️ Close <b>" +:+ esc (tr_symbol t) +:+ "</b> (<b>" +:+ esc (action_value (tr_action t)) +:+ "</b>) now?" +:+
  newline +:+ newline +:+ "<i>This closes exactly this trade. Any other positions for strategy " +:+
  "<code>" +:+ esc (tr_strategy t) +:+ "</code> on <code>" +:+ esc (tr_symbol t) +:+ "</code> are not affected.</i>".

Definition EXIT_REQUESTED_FOOTER : string :=
  "⏳ <i>Close requested — waiting for the worker to close it. This card updates itself when it does.</i>".

(** ** Keyboards ([keyboards/inline.py]) *)
Definition inline_button (text callback_data : string) : Button := {| bt_text := text; bt_callback_data := callback_data |}.

Definition confirm_keyboard (action : string) : Keyboard :=
  [[inline_button "✅ Confirm" (action +:+ ":confirm"); inline_button "✖️ Cancel" (action +:+ ":cancel")]].

Definition offset_data (prefix : string) (offset : Z) : string := prefix +:+ ":" +:+ str_int offset.

Definition linked_accounts_picker (accounts : list LinkedAccountResponse) (page : Page) : Keyboard :=
  map (fun r => let a := la_account r in
         [inline_button ((if la_is_active r then "⭐ " else EmptyString) +:+ market_value (ac_market a) +:+ "-" +:+
                  gateway_or_unknown (ac_gateway a) +:+ "-" +:+ ac_account_id a)
                 ("swacc:" +:+ uuid_str (ac_id a))]) accounts ++
  match build_pagination_row page (offset_data "swpg") with [] => [] | nav => [nav] end.

Definition trades_pagination (page : Page) : option Keyboard := build_pagination_keyboard page (offset_data "trades").
Definition accounts_pagination (page : Page) : option Keyboard := build_pagination_keyboard page (offset_data "myacc").
Definition admin_accounts_pagination (page : Page) : option Keyboard := build_pagination_keyboard page (offset_data "aacc").
Definition admin_trades_pagination (account_id : string) (page : Page) : option Keyboard :=
  build_pagination_keyboard page (offset_data ("atr:" +:+ account_id)).

(** [constants.py]. *)
Definition CB_TRADE_DETAIL : string := "tc:d".
Definition CB_TRADE_SUMMARY : string := "tc:s".
Definition CB_TRADE_EXIT : string := "tc:x".
Definition CB_TRADE_EXIT_CONFIRM : string := "tc:xy".
Definition CB_TRADE_EXIT_CANCEL : string := "tc:xn".

Definition trade_card (trade_id : string) (detailed closed : bool) : option Keyboard :=
  if closed then None
  else
    let toggle := if detailed then inline_button "⬆️ Summary" (CB_TRADE_SUMMARY +:+ ":" +:+ trade_id)
                  else inline_button "🔍 Detail" (CB_TRADE_DETAIL +:+ ":" +:+ trade_id) in
    Some [[toggle; inline_button "🏁 Close" (CB_TRADE_EXIT +:+ ":" +:+ trade_id)]].

Definition trade_exit_confirm (trade_id : string) : Keyboard :=
  [[inline_button "✅ Close it" (CB_TRADE_EXIT_CONFIRM +:+ ":" +:+ trade_id);
    inline_button "✖️ Cancel" (CB_TRADE_EXIT_CANCEL +:+ ":" +:+ trade_id)]].

(** [account_name or account_id]. *)
Definition name_or_id (a : Account) : string :=
  match ac_account_name a with Some n => if is_empty n then ac_account_id a else n | None => ac_account_id a end.

Definition accounts_picker (accounts : list AccountResponse) (action_prefix : string) : Keyboard :=
  map (fun r => let a := rs_account r in
         [inline_button (name_or_id a +:+ " · " +:+ ac_account_id a) (action_prefix +:+ ":" +:+ ac_account_id a)]) accounts.

Definition accounts_uuid_picker (accounts : list AccountResponse) (action_prefix : string) : Keyboard :=
  map (fun r => let a := rs_account r in
         [inline_button (market_value (ac_market a) +:+ "/" +:+ gateway_or_unknown (ac_gateway a) +:+ " · " +:+
                  name_or_id a +:+ " · " +:+ ac_account_id a)
                 (action_prefix +:+ ":" +:+ uuid_str (ac_id a))]) accounts.

(** [f"{i}"] of the place of each element. *)
Definition numbered {A} (l : list A) : list (string * A) := imap (fun i x => (str_int (Z.of_nat i), x)) l.

(** [str] of an optional text. *)
Definition str_opt (s : option string) : string := default "None" s.

Definition aflat_candidates_picker (accounts : list AccountResponse) : Keyboard :=
  map (fun '(i, r) => let a := rs_account r in
         [inline_button (market_value (ac_market a) +:+ "/" +:+ str_opt (ac_gateway a) +:+ " · " +:+ name_or_id a)
                 ("aflatc:" +:+ i)]) (numbered accounts).

Definition MARKETS : list string := ["FOREX"; "CRYPTO"].

(** The bot's own copy of the gateways of each market, in [constants.py]. *)
Definition BOT_GATEWAYS_BY_MARKET : list (string * list string) := [("FOREX", ["MT5"]); ("CRYPTO", ["BINANCE"])].

Definition gateways_of (market : string) : list string := default [] (assoc market BOT_GATEWAYS_BY_MARKET).
Definition all_gateways : list string := concat (map snd BOT_GATEWAYS_BY_MARKET).

Definition AFLAT_ALL : string := "a".

Definition aflat_strategy_picker (strategies : list string) : Keyboard :=
  [inline_button "All strategies" ("afls:" +:+ AFLAT_ALL)] ::
  map (fun '(i, name) => [inline_button name ("afls:" +:+ i)]) (numbered strategies).

Definition aflat_market_picker : Keyboard :=
  [inline_button "All markets" ("aflm:" +:+ AFLAT_ALL)] :: map (fun m => [inline_button m ("aflm:" +:+ m)]) MARKETS.

Definition aflat_gateway_picker (market : option string) : Keyboard :=
  let gateways := match market with None => fromkeys all_gateways | Some m => gateways_of m end in
  [inline_button "All gateways" ("aflg:" +:+ AFLAT_ALL)] :: map (fun g => [inline_button g ("aflg:" +:+ g)]) gateways.

Definition settings_keyboard (states : list SettingToggleResponse) : Keyboard :=
  map (fun s =>
         let key := st_setting s in
         let '(label, slug) := default (key, key) (SETTING_META key) in
         let dot := if String.eqb (st_state s) "ENABLED" then "🟢" else "⚪" in
         [inline_button (dot +:+ " " +:+ label) ("aset:" +:+ slug)]) states.

Definition market_picker : Keyboard := [map (fun m => inline_button m ("nacc:m:" +:+ m)) MARKETS].

Definition gateway_picker (market : string) : Keyboard :=
  map (fun g => [inline_button g ("nacc:g:" +:+ market +:+ ":" +:+ g)]) (gateways_of market).

Definition admin_confirm (action arg : string) : Keyboard :=
  [[inline_button "✅ Confirm" (action +:+ ":" +:+ arg +:+ ":ok"); inline_button "✖️ Cancel" (action +:+ ":" +:+ arg +:+ ":no")]].
