(* ===== verification/CardText.v ===== *)
(** * The text of a trade card

    [format_trade_card] of [helpers/trade_card.py], the body of the card the broker
    posts and edits, beside the one the bot renders when a button of the card is
    tapped ([BotText.format_bot_card]). *)

From S2P Require Import Prelude PyStr Uuid PyTime Json JsonText Enums Schemas Models ChatTargets BotState World Settings TimeZone.
From S2P Require Import StatusPolicies Samples SignalRepo SignalHelper SignalService SignalWorker.
From S2P Require Import BroadcastRepo BroadcastService Dispatcher MessageBody TradeRepo AccountRepo Notifications AccountSettings.
From S2P Require Import TradeConsumer TradeCards CardFlow TelegramApi AdminApi BotClient BotTable BotText.
From Stdlib Require Import Ascii SpecFloat.

(** What rendering raises. *)
Inductive card_error := NumberError (e : body_error) | TimeError (e : time_error).

Definition or_number_error {A} (r : res body_error A) : res card_error A :=
  match r with Ok a => Ok a | Err e => Err (NumberError e) end.
Definition or_time_error {A} (r : res time_error A) : res card_error A :=
  match r with Ok a => Ok a | Err e => Err (TimeError e) end.

(** [format_number] of a numeric column. *)
Definition column_text (value : option float) : res card_error string :=
  match value with None => Ok "—" | Some f => or_number_error (format_float f) end.

Section card.
Context `{CFG : Settings}.

(** [format_notification_time] of a timestamp column, which is aware and in UTC. *)
Definition column_time (value : instant) (timezone_offset : option string) : res card_error string :=
  match wall_clock value with
  | None => Err (TimeError TimeOverflowError)
  | Some t => or_time_error (format_notification_time t timezone_offset)
  end.

(** [_enum_value] of a column that may be empty. *)
Definition enum_value (v : option string) : string := default "None" v.

(** [_action_icon], [_header_status], [_last_action_block]. *)
Definition card_action_icon (last_action : string) (status : TradeStatusEnum) : string :=
  match List.find (fun a => String.eqb (action_value a) last_action) action_members with
  | Some a => action_to_emoji a
  | None =>
      match status with
      | TradeStatus.OPENED => "🔵"
      | TradeStatus.PARTIALLY_CLOSED => "🎯"
      | TradeStatus.CLOSED => "🏁"
      | TradeStatus.FLAT => "🏳️"
      | TradeStatus.REJECTED => "🚫"
      end
  end.

Definition card_header_status (t : Trade) : string * string :=
  if bool_decide (tr_status t ∈ TERMINAL_STATUSES) then ("🏁", "CLOSED")
  else if bool_decide (tr_status t = TradeStatus.PARTIALLY_CLOSED) || String.eqb (enum_value (tr_last_action t)) "TP1"
       then ("🎯", action_value SigAction.TP1)
  else ("⏳", "RUNNING").

Definition card_last_action_block (t : Trade) : list string :=
  match tr_last_action t with
  | None => []
  | Some last_action =>
      if is_empty last_action || existsb (String.eqb last_action) ["OPENED"; action_value (tr_action t)] then []
      else [EmptyString; "Actions:"; CARD_DIVIDER;
            card_action_icon last_action (tr_status t) +:+ " " +:+ esc last_action; CARD_DIVIDER]
  end.

(** [_pnl]. *)
Definition card_pnl (t : Trade) : option float :=
  match tr_account_balance t, tr_account_balance_init t with
  | Some b, Some i => Some (SFsub 53 1024 b i)
  | _, _ => None
  end.

(** The lines of the detailed view. *)
Definition card_details (r : TradeResponse) (timezone_offset : option string) : res card_error (list string) :=
  let t := tp_trade r in
  let? opened := column_time (tp_createdAt r) timezone_offset in
  Ok ([EmptyString; "Strategy: <b>" +:+ esc (tr_strategy t) +:+ "</b>";
       "Account: <code>" +:+ esc (tr_account_id t) +:+ "</code>";
       "Market: <b>" +:+ esc (enum_value (market_value <$> tr_market t)) +:+ "</b> / <b>" +:+ esc_opt (tr_gateway t) +:+ "</b>"] ++
      match tr_account_leverage t with Some z => ["Leverage: <b>" +:+ str_int z +:+ "</b>"] | None => [] end ++
      text_line (fun s => "Ref: <code>" +:+ s +:+ "</code>") (tr_ref_id t) ++
      text_line (fun s => "Comment: " +:+ s) (tr_comment t) ++
      text_line (fun s => "Reject reason: <b>" +:+ s +:+ "</b>") (tr_reject_reason t) ++
      ["Opened: " +:+ opened]).

Definition format_trade_card_text (r : TradeResponse) (timezone_offset : option string) (detailed : bool)
    (footer : option string) : res card_error string :=
  let t := tp_trade r in
  let '(status_icon, status_word) := card_header_status t in
  let price_label := if bool_decide (tr_status t ∈ TERMINAL_STATUSES) then "Close price" else "Price" in
  let? price := column_text (Some (tr_price t)) in
  let? quantity := column_text (Some (tr_quantity t)) in
  let? risk := column_text (Some (tr_risk_percent t)) in
  let? sl := column_text (tr_sl t) in
  let? tp1 := column_text (tr_tp1 t) in
  let? tp2 := column_text (tr_tp2 t) in
  let? balance := match tr_account_balance t with
                  | None => Ok []
                  | Some b => let? text := column_text (Some b) in Ok ["Balance: <b>" +:+ text +:+ "</b>"]
                  end in
  let? details := if detailed then card_details r timezone_offset else Ok [] in
  let? updated := column_time (tp_updatedAt r) timezone_offset in
  Ok (join newline
    (["[" +:+ status_icon +:+ status_word +:+ "]";
      action_to_emoji (tr_action t) +:+ " <b>" +:+ esc (action_value (tr_action t)) +:+ "</b> <b>" +:+ esc (tr_symbol t) +:+ "</b>";
      CARD_DIVIDER; price_label +:+ ": <code>" +:+ price +:+ "</code>";
      join " | " ["Quantity: <code>" +:+ quantity +:+ "</code>"; "Risk: <code>" +:+ risk +:+ "%</code>"];
      join " | " ["SL: <code>" +:+ sl +:+ "</code>"; "TP1: <code>" +:+ tp1 +:+ "</code>"; "TP2: <code>" +:+ tp2 +:+ "</code>"];
      CARD_DIVIDER] ++
     balance ++
     match card_pnl t with
     | Some pnl => ["PnL: <b>" +:+ (if SFleb f_zero pnl then "+" else "") +:+ format_fixed false 2 pnl +:+ "</b>"]
     | None => []
     end ++
     details ++ ["Updated: " +:+ updated] ++ card_last_action_block t ++
     match footer with Some f => if is_empty f then [] else [EmptyString; f] | None => [] end)).

(** The renderer the card service is used with; a queued row brings its timestamps. *)
Definition card_renderer (created updated : Trade -> instant) : CardRenderer :=
  {| format_trade_card trade timezone_offset :=
       match format_trade_card_text {| tp_trade := trade; tp_createdAt := created trade; tp_updatedAt := updated trade |}
               timezone_offset false None with
       | Ok body => Ok body
       | Err _ => Err ValueError
       end |}.
End card.

(** ** The broker's card and the bot's *)
Section alike.
Context `{CFG : Settings}.

(** A timestamp between the years 1 and 9999. *)
Definition in_calendar (us : instant) : Prop := (-719162 * day_micros <= us < 2932897 * day_micros)%Z.

Lemma column_time_alike us offset :
  in_calendar us ->
  column_time us offset = or_time_error (format_local_time us (parse_offset_hours offset) FULL_TIME_FMT true).
Proof.
  intros H. unfold column_time, format_notification_time, format_local_time, to_utc.
  destruct (wall_clock_ok us H) as (t & -> & Hw & Htz & _). rewrite Htz, Hw. cbn [default]. rewrite Z.mul_0_r, Z.sub_0_r.
  destruct (display_offset _) as [off|e]; [|done]. destruct (wall_clock (us + off)) as [local|]; [|done].
  unfold FULL_TIME_FMT, bot_utc_label, format_utc_label, format_offset_value. cbn [or_time_error]. f_equal.
Qed.

(** A number both programs write alike. *)
Definition same_digits (f : float) : bool :=
  match format_float f with Ok text => String.eqb text (num (Some f)) | Err _ => false end.

Definition card_numbers (t : Trade) : list float :=
  [tr_price t; tr_quantity t; tr_risk_percent t] ++
  opt_list (tr_sl t) ++ opt_list (tr_tp1 t) ++ opt_list (tr_tp2 t) ++ opt_list (tr_account_balance t).

Lemma column_text_alike v : forallb same_digits (opt_list v) = true -> column_text v = Ok (num v).
Proof.
  destruct v as [f|]; [|done]. cbn [opt_list forallb column_text]. unfold same_digits.
  destruct (format_float f) as [text|]; [|done]. rewrite andb_true_r. by intros ->%String.eqb_eq.
Qed.

Lemma header_alike t : card_header_status t = header_status t.
Proof.
  unfold card_header_status, header_status. rewrite is_closed_terminal. unfold is_terminal.
  assert (String.eqb (enum_value (tr_last_action t)) "TP1" = bool_decide (tr_last_action t = Some "TP1")) as ->; [|done].
  destruct (tr_last_action t) as [w|]; cbn [enum_value default id]; case_bool_decide as E; try done.
  - injection E as ->. done.
  - destruct (String.eqb_spec w "TP1") as [->|]; [by destruct E|done].
Qed.

Lemma last_action_alike t : card_last_action_block t = last_action_block t.
Proof.
  unfold card_last_action_block, last_action_block. destruct (tr_last_action t) as [w|]; [|done].
  cbn [existsb]. rewrite orb_false_r, orb_assoc. destruct (_ || _ || _); [done|]. do 4 f_equal.
  unfold card_action_icon, action_icon, ACTION_EMOJI. destruct (List.find _ _); [done|]. by destruct (tr_status t).
Qed.

Lemma details_alike r offset (detailed : bool) :
  tr_market (tp_trade r) <> None -> in_calendar (tp_createdAt r) ->
  (if detailed then card_details r offset else Ok []) =
    or_time_error (if detailed then detail_lines r (parse_offset_hours offset) else Ok []).
Proof.
  intros Hm Hc. destruct detailed; [|done]. unfold card_details, detail_lines. rewrite column_time_alike by done.
  destruct (format_local_time _ _ _ _) as [opened|e]; [|done]. destruct (tr_market (tp_trade r)) as [m|]; [|done]. done.
Qed.

Lemma pnl_alike t :
  match card_pnl t with
  | Some pnl => ["PnL: <b>" +:+ (if SFleb f_zero pnl then "+" else "") +:+ format_fixed false 2 pnl +:+ "</b>"]
  | None => []
  end =
  match tr_account_balance t, tr_account_balance_init t with
  | Some b, Some i => [bold_line "PnL" (signed false (SFsub 53 1024 b i))]
  | _, _ => []
  end.
Proof.
  unfold card_pnl. destruct (tr_account_balance t), (tr_account_balance_init t); try done.
  unfold bold_line, signed. by rewrite string_app_assoc.
Qed.

(** C25. The bot redraws the card the broker posted.  For every trade with a market,
    at every time of the calendar, whatever its status, last action, texts and the time
    zone setting: when both programs write its numbers alike, the summary, the
    detailed view and any footer come out of the bot's [format_trade_card] character for
    character as out of the broker's, and where one cannot show a time neither can
    the other. *)
Theorem card_shown_alike r offset detailed footer :
  forallb same_digits (card_numbers (tp_trade r)) = true ->
  tr_market (tp_trade r) <> None -> in_calendar (tp_createdAt r) -> in_calendar (tp_updatedAt r) ->
  format_trade_card_text r offset detailed footer =
    or_time_error (format_bot_card r (parse_offset_hours offset) detailed footer).
Proof.
  intros Hn Hm Hc Hu. unfold card_numbers in Hn. rewrite !forallb_app in Hn. cbn [forallb] in Hn.
  rewrite !andb_true_iff in Hn. destruct Hn as [(H1 & H2 & H3 & _) (H4 & H5 & H6 & H7)].
  unfold format_trade_card_text, format_bot_card. rewrite header_alike, last_action_alike, is_closed_terminal.
  destruct (header_status _) as [icon word].
  rewrite (column_text_alike (Some (tr_price _))), (column_text_alike (Some (tr_quantity _))),
    (column_text_alike (Some (tr_risk_percent _))), !column_text_alike by (done || by cbn; rewrite ?H1, ?H2, ?H3).
  assert ((match tr_account_balance (tp_trade r) with
           | None => Ok []
           | Some b => let? text := column_text (Some b) in Ok ["Balance: <b>" +:+ text +:+ "</b>"]
           end : res card_error (list string)) =
          Ok (match tr_account_balance (tp_trade r) with Some b => [bold_line "Balance" (num (Some b))] | None => [] end)) as ->.
  { destruct (tr_account_balance (tp_trade r)) as [b|]; [|done]. by rewrite (column_text_alike (Some b)). }
  rewrite column_time_alike, details_alike, pnl_alike by done.
  destruct (if detailed then _ else _) as [details|e]; [|done]. cbn [or_time_error].
  by destruct (format_local_time _ _ _ _).
Qed.
End alike.

(** ** On concrete input *)
Module card_text_samples.
#[local] Existing Instance sample_settings.

Definition price (m e : Z) : float := float_of_decimal false m e.

(** A trade that closed at its stop, with a comment Telegram would take for markup. *)
Definition stopped_trade : TradeResponse :=
  {| tp_trade := {| tr_id := uid 40; tr_account_id := "1234"; tr_market := Some Market.FOREX; tr_gateway := Some "MT5";
       tr_account_leverage := Some 100%Z; tr_account_balance_init := Some (price 10000 0);
       tr_account_balance := Some (price 998775 (-2)); tr_strategy := "wt_bb_atr"; tr_strategy_code := "wt";
       tr_ref_id := Some "9001"; tr_symbol := "XAUUSD"; tr_action := SigAction.LONG; tr_price := price 23405 (-1);
       tr_quantity := price 1 (-1); tr_sl := Some (price 23393 (-1)); tr_tp1 := Some (price 2342 0); tr_tp2 := None;
       tr_is_running := false; tr_risk_percent := price 5 (-1); tr_comment := Some "a<b"; tr_gateway_return_code := None;
       tr_status := TradeStatus.CLOSED; tr_last_action := Some "SL"; tr_reject_reason := None |};
     tp_createdAt := 1700000000000000%Z; tp_updatedAt := 1700003600000000%Z |}.

Lemma card_shown_alike_witness :
  format_trade_card_text stopped_trade (Some "2") true None =
    or_time_error (format_bot_card stopped_trade (parse_offset_hours (Some "2")) true None) /\
  format_trade_card_text stopped_trade (Some "2") false None = Ok (join newline
    ["[🏁CLOSED]"; "🟩 <b>LONG</b> <b>XAUUSD</b>"; "-----------"; "Close price: <code>2340.5</code>";
     "Quantity: <code>0.1</code> | Risk: <code>0.5%</code>";
     "SL: <code>2339.3</code> | TP1: <code>2342</code> | TP2: <code>—</code>"; "-----------";
     "Balance: <b>9987.75</b>"; "PnL: <b>-12.25</b>"; "Updated: 2023-11-15 01:13:20 (UTC+2)"; EmptyString; "Actions:";
     "-----------"; "⭕ SL"; "-----------"]).
Proof.
  split; [|by vm_compute].
  apply card_shown_alike; [by vm_compute|done|split; by vm_compute|split; by vm_compute].
Defined.

Example card_renders :
  match @format_trade_card (card_renderer (fun _ => 1700000000000000%Z) (fun _ => 1700003600000000%Z))
          (tp_trade stopped_trade) None with
  | Ok body => startswith "[🏁CLOSED]" body = true
  | Err _ => False
  end.
Proof. by vm_compute. Qed.
End card_text_samples.
