(* ===== verification/BotCore.v ===== *)
(** * The bot's machinery

    What the handlers share: an update, the calls to Telegram, the conversation
    context of aiogram's [MemoryStorage], the command menus ([commands.py],
    [services/menu.py]) and invite codes ([utils/invite.py]). *)

From S2P Require Import Prelude PyStr Uuid PyTime Json JsonText Enums Schemas Models ChatTargets BotState World Settings TimeZone.
From S2P Require Import StatusPolicies Samples SignalRepo SignalHelper SignalService SignalWorker.
From S2P Require Import BroadcastRepo BroadcastService Dispatcher TradeRepo AccountRepo Notifications AccountSettings.
From S2P Require Import TradeConsumer TradeCards TelegramApi AdminApi BotClient BotTable BotText.
From stdpp Require Import gmap.

(** ** Updates

    An incoming update as aiogram hands it to its filters: a command with its
    arguments, another text (one that does not start with a slash), a message
    without text, or a tap on a button. *)
Inductive Event :=
| MsgCommand (command args : string)
| MsgText (text : string)
| MsgOther
| Callback (data : string).

Record Update := {
  up_user : Z;
  up_chat : Z;
  up_private : bool;
  up_is_bot : bool;
  up_event : Event
}.

(** ** Telegram *)
Definition bot_api (c : bot_call) : prog bot_api_result :=
  with_bot (fun b =>
    let '(r, api) := match bt_api b with [] => (ApiOk, []) | r :: l => (r, l) end in
    (Ok r, {| bt_fsm := bt_fsm b; bt_applied := bt_applied b; bt_said := bt_said b ++ [(c, r)];
              bt_net := bt_net b; bt_api := api |})).

(** A call whose every refusal raises. *)
Definition bot_api_strict (c : bot_call) : prog unit :=
  let! r := bot_api c in
  match r with ApiOk => Ret tt | _ => Raise TelegramAPIError end.

(** [message.answer], [safe_edit_text] of [utils/telegram.py], [call.answer]. *)
Definition answer (u : Update) (text : string) (reply_markup : option Keyboard) : prog unit :=
  bot_api_strict (AnswerMessage (up_chat u) text reply_markup).

Definition safe_edit_text (u : Update) (text : string) (reply_markup : option Keyboard) : prog unit :=
  let! r := bot_api (EditMessageText (up_chat u) text reply_markup) in
  match r with ApiError | ApiLost => Raise TelegramAPIError | _ => Ret tt end.

Definition call_answer (u : Update) (text : option string) (show_alert : bool) : prog unit :=
  bot_api_strict (AnswerCallback (up_user u) text show_alert).

(** [await call.answer()]. *)
Definition call_done (u : Update) : prog unit := call_answer u None false.

(** ** The conversation *)
Definition fsm_key (u : Update) : Z * Z := (up_chat u, up_user u).

Definition context_of (u : Update) (b : BotState) : FsmContext := default no_context (bt_fsm b !! fsm_key u).

Definition set_context (u : Update) (c : FsmContext) (b : BotState) : BotState :=
  {| bt_fsm := <[fsm_key u := c]> (bt_fsm b); bt_applied := bt_applied b; bt_said := bt_said b;
     bt_net := bt_net b; bt_api := bt_api b |}.

Definition get_state (u : Update) : prog (option BotFsm) := with_bot (fun b => (Ok (fs_state (context_of u b)), b)).
Definition get_data (u : Update) : prog FsmData := with_bot (fun b => (Ok (fs_data (context_of u b)), b)).

Definition set_state (u : Update) (s : BotFsm) : prog unit :=
  with_bot (fun b => (Ok tt, set_context u {| fs_state := Some s; fs_data := fs_data (context_of u b) |} b)).

Definition update_data (u : Update) (f : FsmData -> FsmData) : prog unit :=
  with_bot (fun b => (Ok tt, set_context u {| fs_state := fs_state (context_of u b); fs_data := f (fs_data (context_of u b)) |} b)).

Definition clear_state (u : Update) : prog unit := with_bot (fun b => (Ok tt, set_context u no_context b)).

(** The keys the handlers set. *)
Definition set_fd_account_id (v : option string) (d : FsmData) : FsmData :=
  {| fd_account_id := v; fd_aflat_target := fd_aflat_target d; fd_aflat_candidates := fd_aflat_candidates d;
     fd_aflat_strategies := fd_aflat_strategies d; fd_aflat_scope := fd_aflat_scope d;
     fd_alink_account_uuid := fd_alink_account_uuid d; fd_market := fd_market d; fd_gateway := fd_gateway d |}.

Definition set_fd_target (t : option FlatTarget) (c : option (list AccountResponse)) (d : FsmData) : FsmData :=
  {| fd_account_id := fd_account_id d; fd_aflat_target := t; fd_aflat_candidates := c;
     fd_aflat_strategies := fd_aflat_strategies d; fd_aflat_scope := fd_aflat_scope d;
     fd_alink_account_uuid := fd_alink_account_uuid d; fd_market := fd_market d; fd_gateway := fd_gateway d |}.

Definition set_fd_scope (s : option FlatScope) (d : FsmData) : FsmData :=
  {| fd_account_id := fd_account_id d; fd_aflat_target := fd_aflat_target d; fd_aflat_candidates := fd_aflat_candidates d;
     fd_aflat_strategies := fd_aflat_strategies d; fd_aflat_scope := s;
     fd_alink_account_uuid := fd_alink_account_uuid d; fd_market := fd_market d; fd_gateway := fd_gateway d |}.

Definition set_fd_strategies (s : option (list string)) (d : FsmData) : FsmData :=
  {| fd_account_id := fd_account_id d; fd_aflat_target := fd_aflat_target d; fd_aflat_candidates := fd_aflat_candidates d;
     fd_aflat_strategies := s; fd_aflat_scope := fd_aflat_scope d;
     fd_alink_account_uuid := fd_alink_account_uuid d; fd_market := fd_market d; fd_gateway := fd_gateway d |}.

Definition set_fd_alink (v : option string) (d : FsmData) : FsmData :=
  {| fd_account_id := fd_account_id d; fd_aflat_target := fd_aflat_target d; fd_aflat_candidates := fd_aflat_candidates d;
     fd_aflat_strategies := fd_aflat_strategies d; fd_aflat_scope := fd_aflat_scope d;
     fd_alink_account_uuid := v; fd_market := fd_market d; fd_gateway := fd_gateway d |}.

Definition set_fd_pair (market gateway : option string) (d : FsmData) : FsmData :=
  {| fd_account_id := fd_account_id d; fd_aflat_target := fd_aflat_target d; fd_aflat_candidates := fd_aflat_candidates d;
     fd_aflat_strategies := fd_aflat_strategies d; fd_aflat_scope := fd_aflat_scope d;
     fd_alink_account_uuid := fd_alink_account_uuid d; fd_market := market; fd_gateway := gateway |}.

(** ** Command menus *)
Definition START_ONLY_COMMANDS : list (string * string) := [("start", "Link account")].

Definition USER_COMMANDS : list (string * string) :=
  [("start", "Link account"); ("status", "Account info + open positions"); ("trades", "Recent trades");
   ("flat", "Close all positions"); ("prevent", "Block new orders"); ("allow", "Allow new orders");
   ("maxorders", "Max open positions"); ("myaccounts", "List linked accounts"); ("link", "Add another account");
   ("switch", "Change active account"); ("unlink", "Unlink active account");
   ("subscribe", "Live trade alerts for the active account"); ("unsubscribe", "Stop trade alerts for the active account");
   ("subscribeall", "Live trade alerts for all accounts"); ("unsubscribeall", "Stop trade alerts for all accounts");
   ("help", "Help")].

Definition ADMIN_EXTRA_COMMANDS : list (string * string) :=
  [("admin_help", "───────── ADMIN ─────────"); ("admin_accounts", "[ADMIN] Account list");
   ("admin_newaccount", "[ADMIN] Register a new account"); ("admin_trades", "[ADMIN] Trades for an account");
   ("admin_flat", "[ADMIN] FLAT system-wide / account"); ("admin_rotate", "[ADMIN] Rotate token + unlink users");
   ("admin_settings", "[ADMIN] Broker settings"); ("admin_magicmap", "[ADMIN] Edit strategy magic map");
   ("admin_crypto_symbols", "[ADMIN] Crypto allowed symbols"); ("admin_crypto_leverage", "[ADMIN] Crypto max leverage");
   ("admin_max_orders", "[ADMIN] Default max open positions"); ("admin_public_chats", "[ADMIN] Public broadcast chats");
   ("admin_private_reply_notify", "[ADMIN] Private broadcast reply notify");
   ("admin_public_reply_notify", "[ADMIN] Public broadcast reply notify");
   ("admin_linkaccount", "[ADMIN] Link a Telegram user"); ("admin_invite_url", "[ADMIN] One-tap invite link")].

Definition menu_for (linked is_admin : bool) : list (string * string) :=
  (if linked then USER_COMMANDS else START_ONLY_COMMANDS) ++ (if is_admin then ADMIN_EXTRA_COMMANDS else []).

Section menu.
Context `{CFG : Settings} `{SP : SettingsPydantic} `{CA : RowChoice Account} `{TC : TradeColumns}.
Context `{BS : BotSettings} `{UP : BotHttp}.

(** [IsAdmin] of [filters/is_admin.py]. *)
Definition is_admin (user_id : Z) : bool := bool_decide (user_id ∈ admin_ids).

Definition applied_menu (user_id : Z) : prog (option (list string)) := with_bot (fun b => (Ok (bt_applied b !! user_id), b)).

Definition set_applied (f : gmap Z (list string) -> gmap Z (list string)) : prog unit :=
  with_bot (fun b => (Ok tt, {| bt_fsm := bt_fsm b; bt_applied := f (bt_applied b); bt_said := bt_said b;
                                bt_net := bt_net b; bt_api := bt_api b |})).

(** [CommandMenu.sync]. *)
Definition sync (user_id : Z) (linked : bool) : prog unit :=
  let commands := menu_for linked (is_admin user_id) in
  let applied := map fst commands in
  let! current := applied_menu user_id in
  if bool_decide (current = Some applied) then Ret tt
  else
    let! r := bot_api (SetMyCommands (Some user_id) commands) in
    match r with
    | ApiOk => set_applied <[user_id := applied]>
    | _ => Ret tt
    end.

(** [CommandMenu.refresh]. *)
Definition menu_refresh (user_id : Z) : prog unit :=
  let! r := resolve_account user_id in
  if r.1 then sync user_id (is_some r.2) else Ret tt.

(** [CommandMenu.setup]. *)
Definition menu_setup : prog unit :=
  do! bot_api_strict (SetMyCommands None START_ONLY_COMMANDS) in
  do! set_applied (fun _ => ∅) in
  for_each (remove_dups admin_ids) menu_refresh.
End menu.

(** ** Invite codes *)
Definition parse_code (raw : string) : option string := uuid_str <$> uuid_parse (strip raw).
Definition to_payload (code : string) : option string := uuid_hex <$> uuid_parse (strip code).
