(* ===== verification/BotUser.v ===== *)
(** * The users' handlers

    [handlers/start.py], [handlers/link.py], [handlers/trades.py],
    [handlers/commands.py], [handlers/account.py] and [handlers/trade_card.py] of the
    bot, one definition per handler.  [account] is the account the middleware
    resolved for the update. *)

From S2P Require Import Prelude PyStr Uuid PyTime Json JsonText Enums Schemas Models ChatTargets BotState World Settings TimeZone.
From S2P Require Import StatusPolicies Samples SignalRepo SignalHelper SignalService SignalWorker.
From S2P Require Import BroadcastRepo BroadcastService Dispatcher TradeRepo AccountRepo Notifications AccountSettings.
From S2P Require Import TradeConsumer TradeCards TelegramApi AdminApi BotClient BotTable BotText BotCore.
From Stdlib Require Import Ascii.

(** The rest of a callback's data after its first colon. *)
Definition after_colon (data : string) : option string :=
  match split ":"%char data with
  | _ :: x :: rest => Some (join ":" (x :: rest))
  | _ => None
  end.

(** [_offset_from]. *)
Definition offset_from (data : string) : option Z :=
  let raw := default EmptyString (after_colon data) in
  if isdigit raw then Some (int_of_digits raw) else None.

(** A presenter's exception. *)
Definition rendered {A} (r : res time_error A) : prog A :=
  match r with Ok a => Ret a | Err _ => Raise ValueError end.

Definition TRADES_PER_PAGE : Z := 10.
Definition ACCOUNTS_PER_PAGE : Z := 10.

Section user.
Context `{CFG : Settings} `{SP : SettingsPydantic} `{CA : RowChoice Account} `{TC : TradeColumns}.
Context `{BS : BotSettings} `{UP : BotHttp}.

(** ** [handlers/link.py] and [handlers/start.py] *)
Definition start_link_flow (u : Update) (already_linked : bool) : prog unit :=
  do! set_state u LinkAccount_waiting_for_token in
  answer u
    (if already_linked then
       "Send the <b>UUID code</b> for the account you'd like to add." +:+ newline +:+ newline +:+
       "<i>Example: b5dc0374-9639-4861-acf4-2d239aa5c1b4</i>"
     else
       "👋 <b>Welcome!</b>" +:+ newline +:+ newline +:+
       "Please send me the <b>UUID code</b> your admin gave you to link your account." +:+ newline +:+ newline +:+
       "<i>Example: b5dc0374-9639-4861-acf4-2d239aa5c1b4</i>") None.

Definition cmd_link (u : Update) : prog unit :=
  let! account := client_get_account (up_user u) in
  start_link_flow u (is_some account).

Definition apply_link_token (u : Update) (raw : string) : prog bool :=
  match parse_code raw with
  | None =>
      do! answer u "⚠️ Invalid code. Please send the correct <b>UUID</b> your admin gave you." None in Ret false
  | Some token =>
      let! account := client_link token (up_user u) in
      match account with
      | None =>
          do! answer u "❌ No account found with this code. Double-check it or contact your admin." None in Ret false
      | Some account =>
          do! clear_state u in
          do! sync (up_user u) true in
          let headline := if la_is_active account then "✅ <b>Linked successfully!</b>"
                          else "✅ <b>Account added.</b> Still using another account as active — use /switch to change." in
          do! answer u (headline +:+ newline +:+ newline +:+ format_account account +:+ newline +:+ newline +:+ COMMANDS_HINT)
                None in
          Ret true
      end
  end.

Definition receive_token (u : Update) (text : string) : prog unit :=
  let! _ := apply_link_token u text in Ret tt.

Definition prompt_text_token (u : Update) : prog unit :=
  answer u "⚠️ Please send the <b>UUID</b> code as text (not a photo/sticker)." None.

Definition cmd_start_deeplink (u : Update) (args : string) : prog unit :=
  do! clear_state u in
  let! ok := apply_link_token u args in
  if (ok : bool) then Ret tt
  else
    let! account := client_get_account (up_user u) in
    start_link_flow u (is_some account).

Definition cmd_start (u : Update) : prog unit :=
  let! account := client_get_account (up_user u) in
  match account with
  | Some account =>
      do! clear_state u in
      answer u ("✅ Your account is already linked." +:+ newline +:+ newline +:+ format_account account +:+
                newline +:+ newline +:+ COMMANDS_HINT) None
  | None => start_link_flow u false
  end.

Definition cmd_help (u : Update) : prog unit := answer u HELP_TEXT None.

(** ** [handlers/trades.py] *)
Definition tz_offset : prog float :=
  let! tz := client_get_notification_timezone in Ret (offset_hours_from_payload tz).

Definition cmd_trades (u : Update) : prog unit :=
  let! payload := client_list_trades (up_user u) TRADES_PER_PAGE 0 in
  match payload with
  | None => answer u "⚠️ Failed to fetch trade data. Try again later." None
  | Some payload =>
      let! tz := tz_offset in
      let! text := rendered (format_trades payload tz) in
      answer u text (trades_pagination (trade_page_meta (tl_page payload)))
  end.

Definition cb_trades_page (u : Update) (data : string) : prog unit :=
  match after_colon data ≫= py_int 10 with
  | None => call_done u
  | Some offset =>
      let! payload := client_list_trades (up_user u) TRADES_PER_PAGE offset in
      match payload with
      | None => call_answer u (Some "Failed to load data") true
      | Some payload =>
          let! tz := tz_offset in
          let! text := rendered (format_trades payload tz) in
          do! safe_edit_text u text (trades_pagination (trade_page_meta (tl_page payload))) in
          call_done u
      end
  end.

(** ** [handlers/commands.py] *)

(** The prompts of [cmd_flat], [cmd_prevent] and [cmd_allow]. *)
Definition command_prompt (action : string) (account : LinkedAccountResponse) : string :=
  let id := ac_account_id (la_account account) in
  if String.eqb action "flat" then "⚠️ Confirm <b>FLAT</b> (close all positions) for account <code>" +:+ id +:+ "</code>?"
  else if String.eqb action "prevent" then "⚠️ Confirm <b>BLOCK</b> new orders for account <code>" +:+ id +:+ "</code>?"
  else "Confirm <b>ALLOW</b> new orders for account <code>" +:+ id +:+ "</code>?".

Definition cmd_prompt (action : string) (u : Update) (account : LinkedAccountResponse) : prog unit :=
  answer u (command_prompt action account) (Some (confirm_keyboard action)).

Definition cmd_max_orders (u : Update) (account : LinkedAccountResponse) : prog unit :=
  do! clear_state u in
  let! current := client_get_max_open_orders (up_user u) in
  match current with
  | None => answer u "⚠️ Failed to fetch the current limit." None
  | Some current =>
      let account_id := Some (ac_account_id (la_account account)) in
      do! set_state u SetMaxOpenOrders_waiting_for_value in
      do! update_data u (set_fd_account_id account_id) in
      answer u (format_max_open_orders current account_id) None
  end.

(** [cancel_max_orders] and its like. *)
Definition cancel_flow (u : Update) : prog unit := do! clear_state u in answer u "Cancelled." None.

Definition receive_max_orders (u : Update) (account : LinkedAccountResponse) (text : string) : prog unit :=
  let! data := get_data u in
  let active := ac_account_id (la_account account) in
  if bool_decide (fd_account_id data = Some active) then
    let raw := strip text in
    let value := if String.eqb raw "-" then Some None else Some <$> py_int 10 raw in
    match value with
    | None =>
        answer u ("⚠️ Please send a whole number (e.g. <code>5</code>), <code>0</code> for no limit, or " +:+
                  "<code>-</code> for the default. Send /cancel to abort.") None
    | Some value =>
        if match value with Some z => (z <? 0)%Z | None => false end then
          answer u ("⚠️ The limit cannot be negative. Send <code>0</code> for no limit, or <code>-</code> for " +:+
                    "the default. Send /cancel to abort.") None
        else
          let! result := client_set_max_open_orders (up_user u) value in
          do! clear_state u in
          match result with
          | None => answer u "❌ Failed to update the limit. Run /maxorders to retry." None
          | Some result => answer u (format_max_open_orders_updated result) None
          end
    end
  else
    do! clear_state u in
    answer u ("⚠️ Nothing was changed — your active account is now <code>" +:+ active +:+
              "</code>, but that prompt was for <code>" +:+ str_opt (fd_account_id data) +:+
              "</code>. Run /maxorders again to set the limit for the account you have active.") None.

Definition prompt_max_orders_text (u : Update) : prog unit :=
  answer u "⚠️ Please send the limit as a number, or <code>-</code> for the default." None.

Definition cb_confirm (u : Update) (action : string) : prog unit :=
  let! result := if String.eqb action "flat" then client_flat (up_user u) None None
                 else if String.eqb action "prevent" then client_prevent (up_user u) true
                 else client_prevent (up_user u) false in
  do! match result with
      | None => safe_edit_text u "❌ Command failed. Try again later." None
      | Some result => safe_edit_text u (format_command_result (cr_action result) (cr_scope result)) None
      end in
  call_done u.

Definition cb_cancel (u : Update) : prog unit := do! safe_edit_text u "Cancelled." None in call_done u.

(** ** [handlers/account.py] *)
Definition cmd_status (u : Update) (account : LinkedAccountResponse) : prog unit :=
  let! positions := client_list_open_positions (up_user u) in
  let! tz := tz_offset in
  let! text := rendered (format_status account positions tz) in
  answer u text None.

Definition myaccounts_view (telegram_user_id offset : Z) : prog (option (string * option Keyboard)) :=
  let! accounts := client_list_accounts telegram_user_id in
  Ret (match accounts with
       | None => None
       | Some accounts =>
           let '(rows, page) := paginate accounts ACCOUNTS_PER_PAGE offset in
           Some (format_accounts_list rows page false, accounts_pagination page)
       end).

Definition fetch_failed : string := "⚠️ Failed to fetch your accounts. Try again later.".

(** A view shown as a new message, and one put in place of the old. *)
Definition show_view (u : Update) (view : option (string * option Keyboard)) (failure : string) : prog unit :=
  match view with
  | None => answer u failure None
  | Some (text, kb) => answer u text kb
  end.

Definition replace_view (u : Update) (view : option (string * option Keyboard)) : prog unit :=
  match view with
  | None => call_answer u (Some "Failed to load data") true
  | Some (text, kb) => do! safe_edit_text u text kb in call_done u
  end.

Definition cmd_myaccounts (u : Update) : prog unit :=
  let! view := myaccounts_view (up_user u) 0 in show_view u view fetch_failed.

Definition cb_myaccounts_page (u : Update) (data : string) : prog unit :=
  match offset_from data with
  | None => call_done u
  | Some offset => let! view := myaccounts_view (up_user u) offset in replace_view u view
  end.

Definition switch_view (telegram_user_id offset : Z) : prog (option (string * option Keyboard)) :=
  let! accounts := client_list_accounts telegram_user_id in
  Ret (match accounts with
       | None => None
       | Some accounts =>
           let '(rows, page) := paginate accounts ACCOUNTS_PER_PAGE offset in
           Some (format_accounts_list rows page true, Some (linked_accounts_picker rows page))
       end).

Definition cmd_switch (u : Update) : prog unit :=
  let! accounts := client_list_accounts (up_user u) in
  match accounts with
  | None => answer u fetch_failed None
  | Some accounts =>
      if length accounts <=? 1 then
        answer u "You only have one linked account — nothing to switch to. Use /link to add another." None
      else
        let! view := switch_view (up_user u) 0 in show_view u view fetch_failed
  end.

Definition cb_switch_page (u : Update) (data : string) : prog unit :=
  match offset_from data with
  | None => call_done u
  | Some offset => let! view := switch_view (up_user u) offset in replace_view u view
  end.

Definition cb_switch_account (u : Update) (data : string) : prog unit :=
  let! result := client_switch_account (up_user u) (default EmptyString (after_colon data)) in
  do! match result with
      | None => safe_edit_text u "❌ Switch failed. Try again later." None
      | Some account =>
          safe_edit_text u ("✅ Active account switched." +:+ newline +:+ newline +:+ format_account account) None
      end in
  call_done u.

Definition subscription_failed_text : string := "⚠️ Failed to update subscription. Try again later.".

(** [cmd_subscribe] and [cmd_unsubscribe]; [cmd_subscribe_all] and [cmd_unsubscribe_all]. *)
Definition cmd_subscription (enabled : bool) (u : Update) : prog unit :=
  let! result := client_switch_broadcast (up_user u) enabled in
  match result with
  | None => answer u subscription_failed_text None
  | Some result => answer u (format_broadcast_subscription enabled result) None
  end.

Definition cmd_subscription_all (enabled : bool) (u : Update) : prog unit :=
  let! result := client_switch_broadcast_all (up_user u) enabled in
  match result with
  | None => answer u subscription_failed_text None
  | Some result => answer u (format_broadcast_subscription_all enabled result) None
  end.

Definition cmd_unlink (u : Update) (account : LinkedAccountResponse) : prog unit :=
  answer u ("Are you sure you want to <b>unlink</b> your active account (<code>" +:+
            ac_account_id (la_account account) +:+ "</code>) from Telegram?") (Some (confirm_keyboard "unlink")).

Definition cb_unlink (u : Update) : prog unit :=
  let! ok := client_unlink (up_user u) in
  do! (if ok : bool then menu_refresh (up_user u) else Ret tt) in
  do! safe_edit_text u (if ok then "✅ Unlinked. Type /start to link again." else "❌ Unlink failed. Try again later.") None in
  call_done u.

(** ** [handlers/trade_card.py] *)

(** [_trade_id]. *)
Definition trade_id_of (data : string) : option string :=
  match split ":"%char data with
  | [_; _; id] => if is_empty id then None else Some id
  | _ => None
  end.

Definition UNAVAILABLE : string := "This trade is no longer available.".
Definition EXIT_FAILED : string := "Couldn't send the close order. The trade may already be closed.".

(** [_render]. *)
Definition render_card (telegram_user_id : Z) (trade_id : string) (detailed : bool) (footer : option string)
    : prog (option (string * option Keyboard)) :=
  let! trade := client_get_trade telegram_user_id trade_id in
  match trade with
  | None => Ret None
  | Some trade =>
      let! tz := tz_offset in
      let! text := rendered (format_bot_card trade tz detailed footer) in
      Ret (Some (text, trade_card trade_id detailed (is_closed (tp_trade trade))))
  end.

(** [_show]. *)
Definition show_card (u : Update) (data : string) (detailed : bool) (footer alert : option string) : prog unit :=
  match trade_id_of data with
  | None => call_done u
  | Some trade_id =>
      let! view := render_card (up_user u) trade_id detailed footer in
      match view with
      | None => call_answer u (Some UNAVAILABLE) true
      | Some (text, markup) => do! safe_edit_text u text markup in call_answer u alert (is_some alert)
      end
  end.

Definition cb_detail (u : Update) (data : string) : prog unit := show_card u data true None None.
Definition cb_summary (u : Update) (data : string) : prog unit := show_card u data false None None.
Definition cb_exit_cancel (u : Update) (data : string) : prog unit := show_card u data false None None.

Definition cb_exit (u : Update) (data : string) : prog unit :=
  match trade_id_of data with
  | None => call_done u
  | Some trade_id =>
      let! trade := client_get_trade (up_user u) trade_id in
      match trade with
      | None => call_answer u (Some UNAVAILABLE) true
      | Some trade =>
          if is_closed (tp_trade trade) then call_answer u (Some "This trade is already closed.") true
          else
            do! safe_edit_text u (format_exit_prompt (tp_trade trade)) (Some (trade_exit_confirm trade_id)) in
            call_done u
      end
  end.

Definition cb_exit_confirm (u : Update) (data : string) : prog unit :=
  match trade_id_of data with
  | None => call_done u
  | Some trade_id =>
      let! result := client_exit_trade (up_user u) trade_id in
      match result with
      | Some _ => show_card u data false (Some EXIT_REQUESTED_FOOTER) None
      | None => show_card u data false None (Some EXIT_FAILED)
      end
  end.

Definition cb_unknown (u : Update) : prog unit :=
  call_answer u (Some "⚠️ This button isn't supported by the running bot version.") true.
End user.
