(* ===== verification/BotAdmin.v ===== *)
(** * The administrators' handlers

    [handlers/admin.py] of the bot, one definition per handler.  The router they
    are on lets only the configured administrators through ([BotApp]). *)

From S2P Require Import Prelude PyStr Uuid PyTime Json JsonText Enums Schemas Models ChatTargets BotState World Settings TimeZone.
From S2P Require Import StatusPolicies Samples SignalRepo SignalHelper SignalService SignalWorker.
From S2P Require Import BroadcastRepo BroadcastService Dispatcher TradeRepo AccountRepo Notifications AccountSettings.
From S2P Require Import TradeConsumer TradeCards TelegramApi AdminApi BotClient BotTable BotText BotCore BotUser.
From Stdlib Require Import Ascii.

(** aiogram's deep link for a payload, and the text of [json]'s complaint about an
    input. *)
Class BotEnv := {
  create_start_link : string -> string;
  json_error : string -> string
}.

Definition ADMIN_ACCOUNTS_PER_PAGE : Z := 50.

(** A non-empty text, or [None]. *)
Definition truthy (s : option string) : option string :=
  match s with Some v => if is_empty v then None else Some v | None => None end.

Section admin_handlers.
Context `{CFG : Settings} `{SP : SettingsPydantic} `{CA : RowChoice Account} `{TC : TradeColumns}.
Context `{BS : BotSettings} `{UP : BotHttp} `{BE : BotEnv}.

(** ** /accounts *)
Definition accounts_view (offset : Z) : prog (option (string * option Keyboard)) :=
  let! accounts := client_admin_list_accounts in
  Ret (match accounts with
       | None => None
       | Some accounts =>
           let '(rows, page) := paginate accounts ADMIN_ACCOUNTS_PER_PAGE offset in
           Some (format_accounts_admin rows page, admin_accounts_pagination page)
       end).

Definition cmd_accounts (u : Update) : prog unit :=
  let! view := accounts_view 0 in show_view u view "⚠️ Failed to fetch account list.".

Definition cb_accounts_page (u : Update) (data : string) : prog unit :=
  match offset_from data with
  | None => call_done u
  | Some offset => let! view := accounts_view offset in replace_view u view
  end.

(** ** /atrades *)
Definition atrades_view (account_id : string) (offset : Z) : prog (option (string * option Keyboard)) :=
  let! payload := client_admin_list_trades account_id TRADES_PER_PAGE offset in
  match payload with
  | None => Ret None
  | Some payload =>
      let! tz := tz_offset in
      let! text := rendered (format_admin_trades account_id payload tz) in
      Ret (Some (text, admin_trades_pagination account_id (trade_page_meta (tl_page payload))))
  end.

(** The pickers offered when a command names no account. *)
Definition pick_account (u : Update) (prompt : string) (keyboard : list AccountResponse -> Keyboard) : prog unit :=
  let! accounts := client_admin_list_accounts in
  match accounts with
  | None | Some [] => answer u "No accounts." None
  | Some accounts => answer u prompt (Some (keyboard accounts))
  end.

Definition cmd_atrades (u : Update) (args : string) : prog unit :=
  let arg := strip args in
  if is_empty arg then pick_account u "Choose an account to view trades:" (fun l => accounts_picker l "atrp")
  else let! view := atrades_view arg 0 in show_view u view "⚠️ Failed to fetch trades for this account.".

Definition cb_atrades_pick (u : Update) (data : string) : prog unit :=
  let! view := atrades_view (default EmptyString (after_colon data)) 0 in replace_view u view.

Definition cb_atrades_page (u : Update) (data : string) : prog unit :=
  match split ":"%char data with
  | [_; account_id; offset] =>
      if isdigit offset then let! view := atrades_view account_id (int_of_digits offset) in replace_view u view
      else call_done u
  | _ => call_done u
  end.

(** ** /aflat *)
Definition scope_text_part (name open close : string) (v : option string) : string :=
  name +:+ "=" +:+ match truthy v with Some v => open +:+ esc v +:+ close | None => "<b>ALL</b>" end.

Definition aflat_scope_text (scope : FlatScope) : string :=
  join " · " [scope_text_part "strategy" "<code>" "</code>" (sc_strategy scope);
              scope_text_part "market" "<b>" "</b>" (sc_market scope);
              scope_text_part "gateway" "<b>" "</b>" (sc_gateway scope)].

Definition aflat_target_confirm_text (account : AccountResponse) : string :=
  let a := rs_account account in
  "⚠️ Confirm <b>FLAT</b> (close positions) for account <code>" +:+ esc (ac_account_id a) +:+ "</code> (" +:+
  esc (market_value (ac_market a)) +:+ "/" +:+ esc (str_opt (ac_gateway a)) +:+ ")?".

Definition aflat_scope_confirm_text (scope : FlatScope) : string :=
  "⚠️ Confirm <b>FLAT</b> (close positions) with scope:" +:+ newline +:+ aflat_scope_text scope.

Definition no_scope : FlatScope := {| sc_strategy := None; sc_market := None; sc_gateway := None |}.

Definition aflat_start_scope_flow (u : Update) : prog unit :=
  let! strategies := client_admin_list_strategies in
  let strategies := default [] strategies in
  do! update_data u (fun d => set_fd_scope (Some no_scope) (set_fd_strategies (Some strategies)
                                (set_fd_target (Some FlatEverything) None d))) in
  answer u "⚠️ <b>FLAT</b> scope — pick a strategy (or All):" (Some (aflat_strategy_picker strategies)).

Definition cmd_aflat (u : Update) (args : string) : prog unit :=
  let arg := strip args in
  if is_empty arg then aflat_start_scope_flow u
  else
    let! accounts := client_admin_list_accounts in
    match base.filter (fun r => ac_account_id (rs_account r) = arg) (default [] accounts) with
    | [] => answer u ("⚠️ No account found with id <code>" +:+ esc arg +:+ "</code>.") None
    | [account] =>
        do! update_data u (set_fd_target (Some (FlatAccount account)) None) in
        answer u (aflat_target_confirm_text account) (Some (confirm_keyboard "aflat"))
    | matches =>
        do! update_data u (set_fd_target None (Some matches)) in
        answer u ("⚠️ <code>" +:+ esc arg +:+ "</code> matches " +:+ str_int (Z.of_nat (length matches)) +:+
                  " accounts on different gateways — pick the one to flat:") (Some (aflat_candidates_picker matches))
    end.

Definition expired (u : Update) : prog unit := call_answer u (Some "⚠️ Expired — run /aflat again.") true.

(** [l[int(raw)]], within the list. *)
Definition nth_of {A} (l : list A) (i : Z) : option A := if (i <? 0)%Z then None else l !! Z.to_nat i.

Definition cb_aflat_pick (u : Update) (data : string) : prog unit :=
  match after_colon data ≫= py_int 10 with
  | None => call_done u
  | Some idx =>
      let! d := get_data u in
      match nth_of (default [] (fd_aflat_candidates d)) idx with
      | None => expired u
      | Some account =>
          do! update_data u (set_fd_target (Some (FlatAccount account)) None) in
          do! safe_edit_text u (aflat_target_confirm_text account) (Some (confirm_keyboard "aflat")) in
          call_done u
      end
  end.

(** The three pickers store the scope chosen so far and show the next step. *)
Definition scope_step (u : Update) (scope : FlatScope) (text : string) (keyboard : Keyboard) : prog unit :=
  do! update_data u (set_fd_scope (Some scope)) in
  do! safe_edit_text u text (Some keyboard) in
  call_done u.

Definition cb_aflat_pick_strategy (u : Update) (data : string) : prog unit :=
  let raw := default EmptyString (after_colon data) in
  let! d := get_data u in
  let scope := default no_scope (fd_aflat_scope d) in
  let next strategy :=
    let scope := {| sc_strategy := strategy; sc_market := sc_market scope; sc_gateway := sc_gateway scope |} in
    scope_step u scope ("⚠️ <b>FLAT</b> scope — pick a market (or All):" +:+ newline +:+ aflat_scope_text scope)
      aflat_market_picker in
  if String.eqb raw AFLAT_ALL then next None
  else match py_int 10 raw with
       | None => call_done u
       | Some idx =>
           match nth_of (default [] (fd_aflat_strategies d)) idx with
           | None => expired u
           | Some strategy => next (Some strategy)
           end
       end.

Definition cb_aflat_pick_market (u : Update) (data : string) : prog unit :=
  let raw := default EmptyString (after_colon data) in
  let! d := get_data u in
  let scope := default no_scope (fd_aflat_scope d) in
  let next market :=
    let scope := {| sc_strategy := sc_strategy scope; sc_market := market; sc_gateway := sc_gateway scope |} in
    scope_step u scope ("⚠️ <b>FLAT</b> scope — pick a gateway (or All):" +:+ newline +:+ aflat_scope_text scope)
      (aflat_gateway_picker market) in
  if String.eqb raw AFLAT_ALL then next None
  else if bool_decide (raw ∈ MARKETS) then next (Some raw)
  else call_done u.

Definition cb_aflat_pick_gateway (u : Update) (data : string) : prog unit :=
  let raw := default EmptyString (after_colon data) in
  let! d := get_data u in
  let scope := default no_scope (fd_aflat_scope d) in
  let next gateway :=
    let scope := {| sc_strategy := sc_strategy scope; sc_market := sc_market scope; sc_gateway := gateway |} in
    scope_step u scope (aflat_scope_confirm_text scope) (confirm_keyboard "aflat") in
  if String.eqb raw AFLAT_ALL then next None
  else
    let valid := match truthy (sc_market scope) with Some m => gateways_of m | None => all_gateways end in
    if bool_decide (raw ∈ valid) then next (Some raw) else call_done u.

Definition clear_aflat (d : FsmData) : FsmData :=
  set_fd_scope None (set_fd_strategies None (set_fd_target None None d)).

Definition cb_aflat (u : Update) (data : string) : prog unit :=
  let confirmed := String.eqb data "aflat:confirm" in
  let! d := get_data u in
  let scope := default no_scope (fd_aflat_scope d) in
  do! update_data u clear_aflat in
  match fd_aflat_target d with
  | Some target =>
      if confirmed then
        let! result :=
          match target with
          | FlatEverything => client_admin_flat (sc_strategy scope) None None (sc_market scope) (sc_gateway scope)
          | FlatAccount account =>
              let a := rs_account account in
              client_admin_flat None None (Some (ac_account_id a)) (Some (market_value (ac_market a))) (ac_gateway a)
          end in
        do! match result with
            | None => safe_edit_text u "❌ FLAT failed." None
            | Some result => safe_edit_text u (format_command_result (ar_action result) (ar_scope result)) None
            end in
        call_done u
      else cb_cancel u
  | None => cb_cancel u
  end.

(** ** /rotate *)
Definition rotate_prompt (account_id : string) : string :=
  "⚠️ Rotate link token for <code>" +:+ esc account_id +:+ "</code>? The old token will be revoked.".

Definition cmd_rotate (u : Update) (args : string) : prog unit :=
  let arg := strip args in
  if is_empty arg then pick_account u "Choose an account to rotate its token:" (fun l => accounts_picker l "arotp")
  else answer u (rotate_prompt arg) (Some (admin_confirm "arot" arg)).

Definition cb_rotate_pick (u : Update) (data : string) : prog unit :=
  let account_id := default EmptyString (after_colon data) in
  do! safe_edit_text u (rotate_prompt account_id) (Some (admin_confirm "arot" account_id)) in
  call_done u.

Definition cb_rotate (u : Update) (data : string) : prog unit :=
  match split ":"%char data with
  | [_; account_id; decision] =>
      if String.eqb decision "ok" then
        let! result := client_admin_rotate_token account_id in
        do! match result with
            | None => safe_edit_text u "❌ Token rotation failed." None
            | Some result => safe_edit_text u (format_rotate_result result) None
            end in
        call_done u
      else cb_cancel u
  | _ => call_done u
  end.

Definition cmd_admin_help (u : Update) : prog unit := answer u ADMIN_HELP None.

(** ** /admin_linkaccount *)
Definition cmd_admin_linkaccount (u : Update) : prog unit :=
  do! clear_state u in
  pick_account u "Choose an account to link a Telegram user to:" (fun l => accounts_uuid_picker l "alink").

Definition cb_admin_linkaccount_pick (u : Update) (data : string) : prog unit :=
  let account_uuid := default EmptyString (after_colon data) in
  do! update_data u (set_fd_alink (Some account_uuid)) in
  do! set_state u AdminLinkAccount_waiting_for_telegram_id in
  do! safe_edit_text u ("Send the <b>Telegram user id</b> (numeric) to link to account <code>" +:+ esc account_uuid +:+
                        "</code>:") None in
  call_done u.

Definition receive_link_telegram_id (u : Update) (text : string) : prog unit :=
  let raw := strip text in
  if isdigit raw then
    let! d := get_data u in
    match truthy (fd_alink_account_uuid d) with
    | None => do! clear_state u in answer u "❌ Session expired. Run /admin_linkaccount again." None
    | Some account_uuid =>
        let user_id := int_of_digits raw in
        let! account := client_admin_link_telegram account_uuid user_id in
        do! clear_state u in
        match account with
        | None => answer u "❌ Failed to link (account not found?). Run /admin_linkaccount to retry." None
        | Some account =>
            do! sync user_id true in
            answer u (format_linked_account account user_id) None
        end
    end
  else answer u "⚠️ Please send a numeric Telegram user id." None.

(** ** /admin_invite_url *)

(** [_invite_url]. *)
Definition invite_url (code : option string) : option string :=
  create_start_link <$> (truthy code ≫= to_payload).

Definition answer_invite_url (u : Update) (code : string) (account : option AccountResponse) : prog unit :=
  match invite_url (Some code) with
  | None => answer u ("⚠️ <code>" +:+ esc code +:+ "</code> is not a valid UUID code.") None
  | Some url => answer u (format_invite_url url account) None
  end.

Definition cmd_invite_url (u : Update) (args : string) : prog unit :=
  let arg := strip args in
  if is_empty arg then pick_account u "Choose an account to create an invite link for:" (fun l => accounts_uuid_picker l "ainv")
  else answer_invite_url u arg None.

Definition cb_invite_url_pick (u : Update) (data : string) : prog unit :=
  let account_uuid := default EmptyString (after_colon data) in
  let! accounts := client_admin_list_accounts in
  let account := List.find (fun r => String.eqb (uuid_str (ac_id (rs_account r))) account_uuid) (default [] accounts) in
  match account with
  | Some r =>
      match rs_link_token r with
      | Some token => do! answer_invite_url u (uuid_str token) account in call_done u
      | None => call_answer u (Some "Account not found") true
      end
  | None => call_answer u (Some "Account not found") true
  end.

(** ** /newaccount *)
Definition cmd_newaccount (u : Update) : prog unit :=
  do! clear_state u in
  answer u ("📂 <b>New account</b>" +:+ newline +:+ newline +:+ "Choose a market:") (Some market_picker).

Definition cb_newaccount_market (u : Update) (data : string) : prog unit :=
  let market := default EmptyString (after_colon data ≫= after_colon) in
  if bool_decide (market ∈ MARKETS) then
    do! safe_edit_text u ("Market: <b>" +:+ market +:+ "</b>" +:+ newline +:+ newline +:+ "Choose a gateway:")
          (Some (gateway_picker market)) in
    call_done u
  else call_done u.

Definition nth_part (i : nat) (data : string) : string := default EmptyString (split ":"%char data !! i).

Definition cb_newaccount_gateway (u : Update) (data : string) : prog unit :=
  let market := nth_part 2 data in
  let gateway := nth_part 3 data in
  if bool_decide (gateway ∈ gateways_of market) then
    let! accounts := client_admin_list_accounts in
    let existing := base.filter (fun r => String.eqb (market_value (ac_market (rs_account r))) market = true /\
                                          ac_gateway (rs_account r) = Some gateway) (default [] accounts) in
    do! update_data u (set_fd_pair (Some market) (Some gateway)) in
    do! set_state u CreateAccount_waiting_for_account_id in
    let ids := join ", " (map (fun r => "<code>" +:+ esc (ac_account_id (rs_account r)) +:+ "</code>") existing) in
    do! safe_edit_text u
      ("Market: <b>" +:+ market +:+ "</b> · Gateway: <b>" +:+ gateway +:+ "</b>" +:+ newline +:+ newline +:+
       match existing with
       | [] => EmptyString
       | _ => "Existing account_id(s) for this pair: " +:+ ids +:+ newline +:+ newline
       end +:+
       "Send the account_id to register (no market/gateway prefix — just the raw id, no ':' or spaces):") None in
    call_done u
  else call_done u.

(** The check [receive_new_account_id] makes before it asks the broker. *)
Definition account_id_valid (raw : string) : bool :=
  negb (is_empty raw) && (points raw <=? 50) &&
  forallb (fun c => negb (is_space c) && negb (Ascii.eqb c ":")) (chars raw).

Definition receive_new_account_id (u : Update) (text : string) : prog unit :=
  let raw := strip text in
  if account_id_valid raw then
    let! d := get_data u in
    match truthy (fd_market d), truthy (fd_gateway d) with
    | Some market, Some gateway =>
        let! account := client_admin_create_account raw market gateway None in
        do! clear_state u in
        match account with
        | None => answer u "❌ Failed to create account (it may already exist). Run /newaccount to retry." None
        | Some account => answer u (format_account_created account (invite_url (token_text (rs_link_token account)))) None
        end
    | _, _ => do! clear_state u in answer u "❌ Session expired. Run /newaccount again." None
    end
  else answer u "⚠️ Invalid account_id (no ':' or spaces, max 50 chars). Please try again." None.

(** ** /settings *)
Definition render_settings : prog (option (string * option Keyboard)) :=
  let! states := client_admin_get_settings in
  Ret ((fun states => (format_settings states, Some (settings_keyboard states))) <$> states).

Definition cmd_settings (u : Update) : prog unit :=
  let! view := render_settings in show_view u view "⚠️ Failed to fetch broker settings.".

Definition cb_settings_toggle (u : Update) (data : string) : prog unit :=
  let! _ := client_admin_toggle_setting (default EmptyString (after_colon data)) in
  let! view := render_settings in
  match view with
  | None => call_answer u (Some "Error") true
  | Some (text, kb) => do! safe_edit_text u text kb in call_answer u (Some "Updated") false
  end.

(** ** /admin_magicmap *)

(** The members of a map whose values are all integers, or the key of the first
    that is not. *)
Fixpoint int_members (kvs : list (string * json)) : res string (list (string * Z)) :=
  match kvs with
  | [] => Ok []
  | (k, JInt z) :: kvs => let? m := int_members kvs in Ok ((k, z) :: m)
  | (k, _) :: _ => Err k
  end.

(** [_parse_magic_map_input]: the map, or what to tell the administrator. *)
Definition parse_magic_map_input (raw : string) : res string (list (string * Z)) :=
  match json_loads raw with
  | None => Err ("Invalid JSON: " +:+ esc (json_error raw))
  | Some (JObj []) => Err "Provide at least one strategy → magic number entry."
  | Some (JObj kvs) =>
      match int_members kvs with
      | Ok m => Ok m
      | Err k => Err ("Magic number for '" +:+ esc k +:+ "' must be an integer.")
      end
  | Some _ => Err ("Expected a JSON object, e.g. {" +:+ quoted "MT5_GOLD_M5_V1" +:+ ": 20260409}.")
  end.

Definition apply_magic_map (u : Update) (raw : string) : prog bool :=
  match parse_magic_map_input raw with
  | Err error => do! answer u ("⚠️ " +:+ error) None in Ret false
  | Ok parsed =>
      let! result := client_set_strategy_magic_map parsed in
      match result with
      | None => do! answer u "❌ Failed to update the strategy magic map. Please try again." None in Ret false
      | Some result => do! answer u (format_magic_map_updated (sv_value result)) None in Ret true
      end
  end.

Definition cmd_magicmap (u : Update) (args : string) : prog unit :=
  do! clear_state u in
  let arg := strip args in
  if is_empty arg then
    let! current := client_get_strategy_magic_map in
    do! set_state u SetStrategyMagicMap_waiting_for_value in
    answer u (format_magic_map_prompt (sv_value <$> current)) None
  else let! _ := apply_magic_map u arg in Ret tt.

Definition receive_magic_map (u : Update) (text : string) : prog unit :=
  let! applied := apply_magic_map u (strip text) in
  if (applied : bool) then clear_state u else Ret tt.

(** ** The settings typed after a prompt *)

(** The command: clear, show the current value, wait for a new one. *)
Definition prompt_setting (u : Update) (current : prog (option SettingValueResponse)) (failed : string) (s : BotFsm)
    (text : string -> string) : prog unit :=
  do! clear_state u in
  let! current := current in
  match current with
  | None => answer u failed None
  | Some current => do! set_state u s in answer u (text (sv_value current)) None
  end.

(** The answer once the value was sent. *)
Definition report_setting (u : Update) (set : prog (option SettingValueResponse)) (failed : string)
    (text : string -> string) : prog unit :=
  let! result := set in
  do! clear_state u in
  match result with
  | None => answer u failed None
  | Some result => answer u (text (sv_value result)) None
  end.

Definition or_shown (unset value : string) : string := if is_empty value then unset else esc value.

Definition cmd_admin_crypto_symbols (u : Update) : prog unit :=
  prompt_setting u client_get_crypto_allowed_symbol "⚠️ Failed to fetch current symbols."
    AdminCryptoAllowedSymbol_waiting_for_symbols
    (fun value => "⚙️ <b>Crypto allowed symbols</b>" +:+ newline +:+ newline +:+
       "Current: <code>" +:+ or_shown "<i>(unset)</i>" value +:+ "</code>" +:+ newline +:+ newline +:+
       "Send the new list, comma-separated (e.g. <code>BTC, ETH, SOL</code>). Send /cancel to abort.").

(** [[s.strip() for s in raw.split(",") if s.strip()]]. *)
Definition comma_list (raw : string) : list string :=
  base.filter (fun s => negb (is_empty s) = true) (map strip (split ","%char raw)).

Definition receive_admin_crypto_symbols (u : Update) (text : string) : prog unit :=
  match comma_list (strip text) with
  | [] => answer u "⚠️ Send at least one symbol, comma-separated. Send /cancel to abort." None
  | symbols =>
      report_setting u (client_set_crypto_allowed_symbol symbols)
        "❌ Failed to update allowed symbols. Run /admin_crypto_symbols to retry."
        (fun value => "✅ <b>Crypto allowed symbols updated</b>" +:+ newline +:+
                      "New value: <code>" +:+ esc value +:+ "</code>")
  end.

Definition cmd_admin_crypto_leverage (u : Update) : prog unit :=
  prompt_setting u client_get_crypto_max_leverage "⚠️ Failed to fetch current leverage."
    AdminCryptoMaxLeverage_waiting_for_leverage
    (fun value => "⚙️ <b>Crypto max leverage</b>" +:+ newline +:+ newline +:+
       "Current: <code>" +:+ or_shown "<i>(unset)</i>" value +:+ "</code>" +:+ newline +:+ newline +:+
       "Send the new default leverage as a positive integer (e.g. <code>20</code>). Send /cancel to abort.").

Definition receive_admin_crypto_leverage (u : Update) (text : string) : prog unit :=
  match py_int 10 (strip text) with
  | None => answer u "⚠️ Please send an integer (e.g. <code>20</code>). Send /cancel to abort." None
  | Some leverage =>
      if (leverage <=? 0)%Z then answer u "⚠️ Leverage must be a positive integer. Send /cancel to abort." None
      else
        report_setting u (client_set_crypto_max_leverage leverage)
          "❌ Failed to update leverage. Run /admin_crypto_leverage to retry."
          (fun value => "✅ <b>Crypto max leverage updated</b>" +:+ newline +:+
                        "New value: <code>" +:+ esc value +:+ "</code>")
  end.

Definition cmd_admin_max_orders (u : Update) : prog unit :=
  prompt_setting u client_get_default_max_open_orders "⚠️ Failed to fetch the current default."
    AdminMaxOpenOrders_waiting_for_value
    (fun value => "⚙️ <b>Default max open positions</b>" +:+ newline +:+ newline +:+
       "Current: <code>" +:+ esc value +:+ "</code>" +:+ newline +:+ newline +:+
       "Every account that has not set its own limit with /maxorders inherits " +:+
       "this one; the ones that did keep theirs." +:+ newline +:+ newline +:+
       "Send the new default as a whole number (<code>0</code> = no limit). Send /cancel to abort.").

Definition receive_admin_max_orders (u : Update) (text : string) : prog unit :=
  match py_int 10 (strip text) with
  | None =>
      answer u ("⚠️ Please send a whole number (e.g. <code>5</code>, or <code>0</code> for no limit). " +:+
                "Send /cancel to abort.") None
  | Some max_open_orders =>
      if (max_open_orders <? 0)%Z then
        answer u ("⚠️ The default cannot be negative. Send <code>0</code> to disable the cap. " +:+
                  "Send /cancel to abort.") None
      else
        report_setting u (client_set_default_max_open_orders max_open_orders)
          "❌ Failed to update the default. Run /admin_max_orders to retry."
          (fun value => "✅ <b>Default max open positions updated</b>" +:+ newline +:+
             "New value: <code>" +:+ esc value +:+ "</code>" +:+ newline +:+ newline +:+
             "<i>Pushed to every connected worker; accounts with their own limit are unaffected.</i>")
  end.

Definition chats_off : string := "<i>(none — public broadcast off)</i>".

Definition cmd_admin_public_chats (u : Update) : prog unit :=
  prompt_setting u client_get_public_broadcast_chat_ids "⚠️ Failed to fetch current chats."
    AdminPublicBroadcastChats_waiting_for_chat_ids
    (fun value => "⚙️ <b>Public broadcast chats</b>" +:+ newline +:+ newline +:+
       "Current: <code>" +:+ or_shown chats_off value +:+ "</code>" +:+ newline +:+ newline +:+
       "Send the new list, comma-separated (e.g. <code>-1001234567890, @my_channel</code>)." +:+ newline +:+
       "Send <code>-</code> to turn the public broadcast off, or /cancel to abort.").

Definition receive_admin_public_chats (u : Update) (text : string) : prog unit :=
  let raw := strip text in
  let chat_ids := if String.eqb raw "-" then [] else comma_list raw in
  report_setting u (client_set_public_broadcast_chat_ids chat_ids)
    "❌ Failed to update public chats. Run /admin_public_chats to retry."
    (fun value => "✅ <b>Public broadcast chats updated</b>" +:+ newline +:+
                  "New value: <code>" +:+ or_shown chats_off value +:+ "</code>").

(** The prompts for a text after a message without one. *)
Definition prompt_text_for (s : BotFsm) : string :=
  match s with
  | LinkAccount_waiting_for_token => "⚠️ Please send the <b>UUID</b> code as text (not a photo/sticker)."
  | CreateAccount_waiting_for_account_id => "⚠️ Please send the account_id as text."
  | AdminLinkAccount_waiting_for_telegram_id => "⚠️ Please send the Telegram user id as text."
  | SetStrategyMagicMap_waiting_for_value => "⚠️ Please send the magic map as JSON text."
  | AdminCryptoAllowedSymbol_waiting_for_symbols => "⚠️ Please send the symbols as text, comma-separated."
  | AdminCryptoMaxLeverage_waiting_for_leverage => "⚠️ Please send the leverage as a numeric text value."
  | SetMaxOpenOrders_waiting_for_value => "⚠️ Please send the limit as a number, or <code>-</code> for the default."
  | AdminMaxOpenOrders_waiting_for_value => "⚠️ Please send the default as a numeric text value."
  | AdminPublicBroadcastChats_waiting_for_chat_ids => "⚠️ Please send the chat ids as text, comma-separated."
  end.

(** ** /admin_private_reply_notify and /admin_public_reply_notify *)
Definition parse_enable_disable (raw : string) : option bool :=
  let value := lower (strip raw) in
  if String.eqb value "enable" then Some true else if String.eqb value "disable" then Some false else None.

(** [label.lower()] of the two labels. *)
Definition handle_reply_notify_command (u : Update) (args label command_name key : string) : prog unit :=
  let arg := strip args in
  if is_empty arg then
    let! current := client_get_reply_notify key in
    let state := match current with Some r => st_state r | None => "UNKNOWN" end in
    answer u ("⚙️ <b>" +:+ label +:+ " reply notify</b>" +:+ newline +:+ newline +:+
              "Current: <b>" +:+ state +:+ "</b>" +:+ newline +:+ newline +:+
              "Usage: <code>/" +:+ command_name +:+ " enable</code> or <code>/" +:+ command_name +:+ " disable</code>") None
  else
    match parse_enable_disable arg with
    | None => answer u "⚠️ Send <code>enable</code> or <code>disable</code>." None
    | Some parsed =>
        let! result := client_set_reply_notify key parsed in
        match result with
        | None => answer u ("❌ Failed to update " +:+ lower label +:+ " reply notify. Run /" +:+ command_name +:+
                            " to retry.") None
        | Some result => answer u ("✅ <b>" +:+ label +:+ " reply notify</b>: <b>" +:+ st_state result +:+ "</b>") None
        end
    end.

Definition cmd_private_reply_notify (u : Update) (args : string) : prog unit :=
  handle_reply_notify_command u args "Private broadcast" "admin_private_reply_notify" PRIVATE_REPLY_NOTIFY_KEY.

Definition cmd_public_reply_notify (u : Update) (args : string) : prog unit :=
  handle_reply_notify_command u args "Public broadcast" "admin_public_reply_notify" PUBLIC_REPLY_NOTIFY_KEY.
End admin_handlers.
