(* ===== verification/BotApp.v ===== *)
(** * An update's way through the bot

    The middlewares ([middlewares/menu.py], [middlewares/auth.py]), the filters of
    the routers in the order [handlers/__init__.py] includes them, and
    [handle_update]: what one update makes the bot do. *)

From S2P Require Import Prelude PyStr Uuid PyTime Json JsonText Enums Schemas Models ChatTargets BotState World Settings TimeZone.
From S2P Require Import StatusPolicies Samples SignalRepo SignalHelper SignalService SignalWorker.
From S2P Require Import BroadcastRepo BroadcastService Dispatcher TradeRepo AccountRepo Notifications AccountSettings.
From S2P Require Import TradeConsumer TradeCards TelegramApi AdminApi BotClient BotTable BotText BotCore BotUser BotAdmin.
From Stdlib Require Import Ascii.

Section app.
Context `{CFG : Settings} `{SP : SettingsPydantic} `{CA : RowChoice Account} `{TC : TradeColumns}.
Context `{BS : BotSettings} `{UP : BotHttp} `{BE : BotEnv}.

(** ** Middlewares *)

(** [CommandMenuMiddleware]: the account it hands on. *)
Definition menu_middleware (u : Update) : prog (option LinkedAccountResponse) :=
  if up_is_bot u then Ret None
  else
    let! r := resolve_account (up_user u) in
    do! (if r.1 && up_private u then sync (up_user u) (is_some r.2) else Ret tt) in
    Ret r.2.

Definition NOT_LINKED : string := "You haven't linked an account yet. Type /start to link using your UUID code.".

(** [AuthMiddleware._deny]. *)
Definition deny (u : Update) : prog unit :=
  match up_event u with
  | Callback _ => call_answer u (Some NOT_LINKED) true
  | _ => answer u NOT_LINKED None
  end.

(** [AuthMiddleware] around a handler. *)
Definition with_account (u : Update) (account : option LinkedAccountResponse)
    (handler : LinkedAccountResponse -> prog unit) : prog unit :=
  let! account := match account with Some a => Ret (Some a) | None => client_get_account (up_user u) end in
  match account with
  | None => deny u
  | Some account => handler account
  end.

(** ** Routers

    Each answers the handler of the first filter an update passes. *)
Definition one_of (c : string) (names : list string) : bool := existsb (String.eqb c) names.

Definition admin_commands (u : Update) (state : option BotFsm) (c args : string) : option (prog unit) :=
  if one_of c ["admin_accounts"; "accounts"] then Some (cmd_accounts u)
  else if one_of c ["admin_trades"; "atrades"] then Some (cmd_atrades u args)
  else if one_of c ["admin_flat"; "aflat"] then Some (cmd_aflat u args)
  else if one_of c ["admin_rotate"; "rotate"] then Some (cmd_rotate u args)
  else if one_of c ["admin_help"] then Some (cmd_admin_help u)
  else if one_of c ["admin_linkaccount"; "linkaccount"] then Some (cmd_admin_linkaccount u)
  else if one_of c ["admin_invite_url"; "invite_url"; "invite"] then Some (cmd_invite_url u args)
  else if one_of c ["admin_newaccount"; "newaccount"] then Some (cmd_newaccount u)
  else if one_of c ["admin_settings"; "settings"] then Some (cmd_settings u)
  else if one_of c ["admin_magicmap"; "magicmap"] then Some (cmd_magicmap u args)
  else if one_of c ["admin_crypto_symbols"; "crypto_symbols"] then Some (cmd_admin_crypto_symbols u)
  else if one_of c ["admin_crypto_leverage"; "crypto_leverage"] then Some (cmd_admin_crypto_leverage u)
  else if one_of c ["admin_max_orders"; "max_orders"] then Some (cmd_admin_max_orders u)
  else if one_of c ["admin_public_chats"; "public_chats"] then Some (cmd_admin_public_chats u)
  else if one_of c ["admin_private_reply_notify"; "private_reply_notify"] then Some (cmd_private_reply_notify u args)
  else if one_of c ["admin_public_reply_notify"; "public_reply_notify"] then Some (cmd_public_reply_notify u args)
  else if one_of c ["cancel"] then
    match state with
    | Some (AdminCryptoAllowedSymbol_waiting_for_symbols | AdminCryptoMaxLeverage_waiting_for_leverage
            | AdminMaxOpenOrders_waiting_for_value | AdminPublicBroadcastChats_waiting_for_chat_ids) => Some (cancel_flow u)
    | _ => None
    end
  else None.

Definition admin_text (u : Update) (state : option BotFsm) (text : string) : option (prog unit) :=
  match state with
  | Some AdminLinkAccount_waiting_for_telegram_id => Some (receive_link_telegram_id u text)
  | Some CreateAccount_waiting_for_account_id => Some (receive_new_account_id u text)
  | Some SetStrategyMagicMap_waiting_for_value => Some (receive_magic_map u text)
  | Some AdminCryptoAllowedSymbol_waiting_for_symbols => Some (receive_admin_crypto_symbols u text)
  | Some AdminCryptoMaxLeverage_waiting_for_leverage => Some (receive_admin_crypto_leverage u text)
  | Some AdminMaxOpenOrders_waiting_for_value => Some (receive_admin_max_orders u text)
  | Some AdminPublicBroadcastChats_waiting_for_chat_ids => Some (receive_admin_public_chats u text)
  | _ => None
  end.

Definition admin_state (s : BotFsm) : bool :=
  match s with LinkAccount_waiting_for_token | SetMaxOpenOrders_waiting_for_value => false | _ => true end.

(** The message without a text a conversation does not expect. *)
Definition no_text (u : Update) (mine : BotFsm -> bool) (state : option BotFsm) : option (prog unit) :=
  match state with
  | Some s => if mine s then Some (answer u (prompt_text_for s) None) else None
  | None => None
  end.

Definition admin_callbacks (u : Update) (data : string) : option (prog unit) :=
  if startswith "aacc:" data then Some (cb_accounts_page u data)
  else if startswith "atrp:" data then Some (cb_atrades_pick u data)
  else if startswith "atr:" data then Some (cb_atrades_page u data)
  else if startswith "aflatc:" data then Some (cb_aflat_pick u data)
  else if startswith "afls:" data then Some (cb_aflat_pick_strategy u data)
  else if startswith "aflm:" data then Some (cb_aflat_pick_market u data)
  else if startswith "aflg:" data then Some (cb_aflat_pick_gateway u data)
  else if one_of data ["aflat:confirm"; "aflat:cancel"] then Some (cb_aflat u data)
  else if startswith "arotp:" data then Some (cb_rotate_pick u data)
  else if startswith "arot:" data then Some (cb_rotate u data)
  else if startswith "alink:" data then Some (cb_admin_linkaccount_pick u data)
  else if startswith "ainv:" data then Some (cb_invite_url_pick u data)
  else if startswith "nacc:m:" data then Some (cb_newaccount_market u data)
  else if startswith "nacc:g:" data then Some (cb_newaccount_gateway u data)
  else if startswith "aset:" data then Some (cb_settings_toggle u data)
  else None.

(** [handlers/admin.py], behind [IsAdmin]. *)
Definition admin_router (u : Update) (state : option BotFsm) : option (prog unit) :=
  if is_admin (up_user u) then
    match up_event u with
    | MsgCommand c args => admin_commands u state c args
    | MsgText text => admin_text u state text
    | MsgOther => no_text u admin_state state
    | Callback data => admin_callbacks u data
    end
  else None.

Definition start_router (u : Update) : option (prog unit) :=
  match up_event u with
  | MsgCommand c args =>
      if String.eqb c "start" then Some (if is_empty args then cmd_start u else cmd_start_deeplink u args) else None
  | _ => None
  end.

Definition link_router (u : Update) (state : option BotFsm) : option (prog unit) :=
  match up_event u with
  | MsgCommand c _ => if String.eqb c "link" then Some (cmd_link u) else None
  | MsgText text => match state with Some LinkAccount_waiting_for_token => Some (receive_token u text) | _ => None end
  | MsgOther => no_text u (fun s => bool_decide (s = LinkAccount_waiting_for_token)) state
  | Callback _ => None
  end.

Definition trade_card_router (u : Update) : option (prog unit) :=
  match up_event u with
  | Callback data =>
      if startswith (CB_TRADE_DETAIL +:+ ":") data then Some (cb_detail u data)
      else if startswith (CB_TRADE_SUMMARY +:+ ":") data then Some (cb_summary u data)
      else if startswith (CB_TRADE_EXIT +:+ ":") data then Some (cb_exit u data)
      else if startswith (CB_TRADE_EXIT_CANCEL +:+ ":") data then Some (cb_exit_cancel u data)
      else if startswith (CB_TRADE_EXIT_CONFIRM +:+ ":") data then Some (cb_exit_confirm u data)
      else if startswith "tc:" data then Some (cb_unknown u)
      else None
  | _ => None
  end.

(** The routers behind [AuthMiddleware]: [start.help_router], [trades], [commands],
    [account]; what they do with the account. *)
Definition help_router (u : Update) : option (LinkedAccountResponse -> prog unit) :=
  match up_event u with
  | MsgCommand c _ => if String.eqb c "help" then Some (fun _ => cmd_help u) else None
  | _ => None
  end.

Definition trades_router (u : Update) : option (LinkedAccountResponse -> prog unit) :=
  match up_event u with
  | MsgCommand c _ => if String.eqb c "trades" then Some (fun _ => cmd_trades u) else None
  | Callback data => if startswith "trades:" data then Some (fun _ => cb_trades_page u data) else None
  | _ => None
  end.

Definition commands_router (u : Update) (state : option BotFsm) : option (LinkedAccountResponse -> prog unit) :=
  let waiting := bool_decide (state = Some SetMaxOpenOrders_waiting_for_value) in
  match up_event u with
  | MsgCommand c _ =>
      if one_of c ["flat"; "prevent"; "allow"] then Some (cmd_prompt c u)
      else if String.eqb c "maxorders" then Some (cmd_max_orders u)
      else if waiting && String.eqb c "cancel" then Some (fun _ => cancel_flow u)
      else None
  | MsgText text => if waiting then Some (fun account => receive_max_orders u account text) else None
  | MsgOther => if waiting then Some (fun _ => prompt_max_orders_text u) else None
  | Callback data =>
      if one_of data ["flat:confirm"; "prevent:confirm"; "allow:confirm"]
      then Some (fun _ => cb_confirm u (default EmptyString (head (split ":"%char data))))
      else if one_of data ["flat:cancel"; "prevent:cancel"; "allow:cancel"] then Some (fun _ => cb_cancel u)
      else None
  end.

Definition account_router (u : Update) : option (LinkedAccountResponse -> prog unit) :=
  match up_event u with
  | MsgCommand c _ =>
      if String.eqb c "status" then Some (cmd_status u)
      else if String.eqb c "myaccounts" then Some (fun _ => cmd_myaccounts u)
      else if String.eqb c "switch" then Some (fun _ => cmd_switch u)
      else if String.eqb c "subscribe" then Some (fun _ => cmd_subscription true u)
      else if String.eqb c "unsubscribe" then Some (fun _ => cmd_subscription false u)
      else if String.eqb c "subscribeall" then Some (fun _ => cmd_subscription_all true u)
      else if String.eqb c "unsubscribeall" then Some (fun _ => cmd_subscription_all false u)
      else if String.eqb c "unlink" then Some (cmd_unlink u)
      else None
  | Callback data =>
      if startswith "myacc:" data then Some (fun _ => cb_myaccounts_page u data)
      else if startswith "swpg:" data then Some (fun _ => cb_switch_page u data)
      else if startswith "swacc:" data then Some (fun _ => cb_switch_account u data)
      else if String.eqb data "unlink:confirm" then Some (fun _ => cb_unlink u)
      else if String.eqb data "unlink:cancel" then Some (fun _ => cb_cancel u)
      else None
  | _ => None
  end.

(** ** One update *)
Definition or_next {A} (r next : option A) : option A := match r with Some h => Some h | None => next end.

(** [get_routers()], in its order. *)
Definition route_update (u : Update) (state : option BotFsm) (account : option LinkedAccountResponse) : option (prog unit) :=
  let auth (h : option (LinkedAccountResponse -> prog unit)) :=
    match h with Some h => Some (with_account u account h) | None => None end in
  or_next (admin_router u state) (or_next (start_router u) (or_next (auth (help_router u))
    (or_next (link_router u state) (or_next (trade_card_router u) (or_next (auth (trades_router u))
      (or_next (auth (commands_router u state)) (auth (account_router u)))))))).

(** The state is read as the update comes in, before the middlewares; an update no
    filter takes is dropped. *)
Definition handle_update (u : Update) : prog unit :=
  let! state := get_state u in
  let! account := menu_middleware u in
  match route_update u state account with Some handler => handler | None => Ret tt end.

(** Updates handled one after the other, each handler's exception logged by
    aiogram. *)
Definition handle_updates (us : list Update) : prog unit :=
  for_each us (fun u => catch (handle_update u) (fun _ => Ret tt)).
End app.
