(* ===== verification/TelegramFlow.v ===== *)
(** * What the bot's commands do

    Theorems on the routes of the Telegram bot ([api/telegram.py]): whose worker a
    command reaches, that a setting is stored before it is announced, and that
    what an owner set is what the worker is told on the next handshake. *)

From S2P Require Import Prelude PyStr Uuid PyTime Json Enums Schemas Models World Settings.
From S2P Require Import StatusPolicies Samples SignalRepo SignalHelper SignalService SignalWorker.
From S2P Require Import BroadcastRepo BroadcastService Dispatcher TradeRepo AccountRepo AccountLinks AccountSettings.
From S2P Require Import SystemConsumer Handshake TradeConsumer TradeCards TelegramApi.

(** ** Merging settings *)
Lemma jsonb_merge_one old k v : jsonb_merge old [(k, v)] = base.filter (fun kv => kv.1 <> k) old ++ [(k, v)].
Proof.
  unfold jsonb_merge. f_equal. apply list_filter_iff. intros [k' v']. cbn. rewrite list_elem_of_singleton. done.
Qed.

Lemma assoc_filter_ne {V} k k' (kvs : list (string * V)) :
  k <> k' -> assoc k' (base.filter (fun kv => kv.1 <> k) kvs) = assoc k' kvs.
Proof.
  intros Hk. induction kvs as [|[x v] kvs IH]; [done|]. rewrite filter_cons. cbn [fst]. case_decide as Hx.
  - cbn. by rewrite IH.
  - subst x. cbn. assert (String.eqb k' k = false) as -> by (by apply String.eqb_neq). exact IH.
Qed.

Lemma assoc_filter_self {V} k (kvs : list (string * V)) : assoc k (base.filter (fun kv => kv.1 <> k) kvs) = None.
Proof.
  induction kvs as [|[x v] kvs IH]; [done|]. rewrite filter_cons. cbn [fst]. case_decide as Hx; [|exact IH].
  cbn. assert (String.eqb k x = false) as -> by (apply String.eqb_neq; congruence). exact IH.
Qed.

(** A merge of one key sets that key and keeps the others. *)
Lemma assoc_merge old k v k' :
  assoc k' (jsonb_merge old [(k, v)]) = if String.eqb k' k then Some v else assoc k' old.
Proof.
  rewrite jsonb_merge_one, assoc_snoc. destruct (String.eqb k' k) eqn:E.
  - apply String.eqb_eq in E as ->. by rewrite assoc_filter_self.
  - apply String.eqb_neq in E. rewrite assoc_filter_ne by congruence. by destruct (assoc k' old).
Qed.

Section settings.
Context `{SP : SettingsPydantic}.

Lemma cap_unaffected kvs s s' :
  as_max_open_orders s = as_max_open_orders s' ->
  as_max_open_orders (fold_left keep_field (base.filter (fun kv => kv.1 <> ACCOUNT_SETTING_SIGNAL_BLOCKED) kvs) s) =
  as_max_open_orders (fold_left keep_field kvs s').
Proof.
  revert s s'. induction kvs as [|[k v] kvs IH]; intros s s' Hs; [done|]. rewrite filter_cons. cbn [fst]. case_decide as Hk.
  - cbn [fold_left]. apply IH. unfold keep_field. rewrite (proj2 (String.eqb_neq _ _) Hk).
    destruct (String.eqb k _); [|done]. by destruct (validate_max_open_orders v).
  - subst k. cbn [fold_left]. apply IH. unfold keep_field. rewrite String.eqb_refl.
    by destruct (validate_signal_blocked v).
Qed.

Lemma blocked_unaffected kvs s s' :
  as_signal_blocked s = as_signal_blocked s' ->
  as_signal_blocked (fold_left keep_field (base.filter (fun kv => kv.1 <> ACCOUNT_SETTING_MAX_OPEN_ORDERS) kvs) s) =
  as_signal_blocked (fold_left keep_field kvs s').
Proof.
  revert s s'. induction kvs as [|[k v] kvs IH]; intros s s' Hs; [done|]. rewrite filter_cons. cbn [fst]. case_decide as Hk.
  - cbn [fold_left]. apply IH. unfold keep_field. destruct (String.eqb k _).
    + by destruct (validate_signal_blocked v).
    + by rewrite (proj2 (String.eqb_neq _ _) Hk).
  - subst k. cbn [fold_left]. apply IH. unfold keep_field. cbn.
    by destruct (validate_max_open_orders v).
Qed.

(** Blocking changes the block and nothing else a worker is told. *)
Lemma parse_blocked old b :
  parse_account_settings (JObj (jsonb_merge old [(ACCOUNT_SETTING_SIGNAL_BLOCKED, JBool b)])) =
  {| as_signal_blocked := b; as_max_open_orders := as_max_open_orders (parse_account_settings (JObj old)) |}.
Proof.
  rewrite jsonb_merge_one. cbn [parse_account_settings]. rewrite fold_left_app. cbn [fold_left].
  unfold keep_field at 1. rewrite String.eqb_refl, validate_bool. f_equal. by apply cap_unaffected.
Qed.

(** So does a cap. *)
Lemma parse_cap old m :
  (forall z, m = Some z -> (0 <= z)%Z) ->
  parse_account_settings (JObj (jsonb_merge old [(ACCOUNT_SETTING_MAX_OPEN_ORDERS, json_opt_int m)])) =
  {| as_signal_blocked := as_signal_blocked (parse_account_settings (JObj old)); as_max_open_orders := m |}.
Proof.
  intros Hm. rewrite jsonb_merge_one. cbn [parse_account_settings]. rewrite fold_left_app. cbn [fold_left].
  unfold keep_field at 1. cbn [String.eqb ACCOUNT_SETTING_MAX_OPEN_ORDERS ACCOUNT_SETTING_SIGNAL_BLOCKED].
  assert (validate_max_open_orders (json_opt_int m) = Some m) as Hv
    by (destruct m as [z|]; [apply validate_int; auto|apply validate_null]).
  cbn. rewrite Hv. f_equal. by apply blocked_unaffected.
Qed.
End settings.

(** ** The caller's account, whatever fails *)

(** What every run of a lookup leaves alone. *)
Definition looked_up (w w' : World) : Prop :=
  accounts (db w') = accounts (db w) /\ account_bot_links (db w') = account_bot_links (db w) /\
  trades (db w') = trades (db w) /\ out w' = out w.

#[export] Instance looked_up_preorder : PreOrder looked_up.
Proof. split; [by intros w|]. intros w1 w2 w3 (?&?&?&?) (?&?&?&?). split_and!; congruence. Qed.

Lemma looked_up_frame : frame_ok looked_up.
Proof. intros w w' Ho _ Hd. unfold looked_up. by rewrite Hd. Qed.

Lemma point_looked_up keep fresh user id d d' :
  point_session keep fresh user id d = Ok d' ->
  accounts d' = accounts d /\ account_bot_links d' = account_bot_links d /\ trades d' = trades d.
Proof.
  unfold point_session. destruct (select_first _ _); [destruct (keep && _); by intros [= <-]|].
  destruct (insert_unique _ _ _); [by intros [= <-]|done].
Qed.

Lemma active_looked_up tid : always looked_up (get_active_account tid).
Proof.
  unfold get_active_account. apply always_bind; [apply always_attempt, always_query, looked_up_frame|].
  intros [[x|]|e]; [done| |done]. apply always_bind.
  { apply always_catch; [apply always_query, looked_up_frame|done]. }
  intros [|x l]; [done|]. apply always_bind; [apply always_uuid4, looked_up_frame|]. intros u.
  apply always_bind; [|done]. unfold session_or. apply always_catch; [|done]. apply always_session.
  - intros w w' Ho Hq Hd. by apply looked_up_frame.
  - intros w w' a Ho _ H. destruct (point_session _ _ _ _ _) as [d|] eqn:E; [|done]. injection H as _ H.
    apply point_looked_up in E as (?&?&?). unfold looked_up. rewrite <-H. done.
Qed.

Lemma run_query_cases {A} (q : Db -> A) w :
  exists w', db w' = db w /\ out w' = out w /\
    (run (query q) w = (Ok (q (db w)), w') \/ exists e, run (query q) w = (Err e, w')).
Proof. destruct (run_query q w) as (w' & ? & ? & _ & ?). by exists w'. Qed.

Lemma run_active_held tid w a w1 :
  run (get_active_account tid) w = (Ok (Some a), w1) ->
  a ∈ accounts (db w) /\ holds (str_int tid) (db w) a = true.
Proof.
  unfold get_active_account. rewrite run_bind, run_attempt.
  destruct (run_query_cases (pointed_account (str_int tid)) w) as (v & Hd & _ & [-> | [e ->]]); [|done].
  cbv beta iota. destruct (pointed_account _ (db w)) as [x|] eqn:E.
  { intros [= -> _]. by apply pointed_held in E as (? & ? & _). }
  unfold list_by_telegram_user_id. rewrite run_bind, run_catch.
  destruct (run_query_cases (accounts_held (str_int tid)) v) as (v' & Hd' & _ & [-> | [e ->]]); [|done].
  rewrite Hd. destruct (accounts_held (str_int tid) (db w)) as [|x l] eqn:El; [done|].
  rewrite run_bind. unfold uuid4. rewrite run_act. destruct (uuids v'); cbv beta iota; rewrite run_bind;
    (match goal with |- context [run (session_or ?a ?f) ?v] => destruct (run (session_or a f) v) as [[[]|e] v2] end);
    try done; intros [= -> _]; apply elem_of_held; rewrite El; left.
Qed.

(** ** Commands *)
Lemma run_linked tid w :
  exists w1, looked_up w w1 /\
    ((exists a, run (get_linked_account tid) w = (Ok a, w1) /\ a ∈ accounts (db w) /\ holds (str_int tid) (db w) a = true) \/
     exists e, run (get_linked_account tid) w = (Err e, w1)).
Proof.
  unfold get_linked_account. pose proof (always_run looked_up _ w (active_looked_up tid)) as Hl.
  destruct (run (get_active_account tid) w) as [[[a|]|e] w1] eqn:E; exists w1; (split; [exact Hl|]); rewrite run_bind, E.
  - left. exists a. split; [done|]. by apply run_active_held in E.
  - right. by eexists.
  - right. by eexists.
Qed.

Lemma select_settings id patch (l : list Account) :
  ac_settings <$> select_first (fun a => bool_decide (ac_id a = id))
    (update_where (fun a => bool_decide (ac_id a = id)) (fun a => set_settings (jsonb_merge (ac_settings a) patch) a) l) =
  (fun a => jsonb_merge (ac_settings a) patch) <$> select_first (fun a => bool_decide (ac_id a = id)) l.
Proof.
  rewrite (select_first_update (fun a => bool_decide (ac_id a = id))) by done.
  destruct (select_first _ l) as [r|] eqn:E; [|done]. apply select_first_Some in E as [_ H]. cbn in *. by rewrite H.
Qed.

(** A write that answers has stored the merge. *)
Lemma run_update_settings id patch w :
  exists w1, out w1 = out w /\
    ((exists r, run (update_settings id patch) w = (Ok (Some (jsonb_merge (ac_settings r) patch)), w1) /\
        r ∈ accounts (db w) /\ ac_id r = id /\
        db w1 = set_accounts (update_where (fun a => bool_decide (ac_id a = id))
                  (fun a => set_settings (jsonb_merge (ac_settings a) patch) a) (accounts (db w))) (db w)) \/
     run (update_settings id patch) w = (Ok None, w1)).
Proof.
  unfold update_settings, session_or. rewrite run_catch. unfold session. rewrite run_act.
  match goal with |- context [session_step ?f w] => pose proof (session_cases f w) as H;
    destruct (session_step f w) as [r w1] end.
  destruct H as (Ho & _ & [(e & -> & Hd)|(x & d & Hx & Hd & [-> | ->])]); exists w1; (split; [done|]); [by right| |by right].
  injection Hx as <- <-. cbn [accounts set_accounts] in *. rewrite select_settings.
  destruct (select_first _ (accounts (db w))) as [r|] eqn:E; [|by right]. left. exists r. cbn.
  apply select_first_Some in E as [Hr Hid%bool_decide_eq_true]. done.
Qed.

Lemma run_publish_admin s w :
  exists w1, db w1 = db w /\
    ((admin_signal_valid s = true /\ out w1 = out w ++ [SentAdmin (admin_subject s) s] /\
      (run (publish_admin_signal s) w = (Ok tt, w1) \/ run (publish_admin_signal s) w = (Err NatsError, w1))) \/
     (exists e, run (publish_admin_signal s) w = (Err e, w1) /\ out w1 = out w)).
Proof.
  unfold publish_admin_signal. destruct (admin_signal_valid s); [|exists w; split; [done|]; right; by eexists].
  unfold nats. rewrite run_act. pose proof (nats_cases (SentAdmin (admin_subject s) s) w) as H.
  destruct (nats_step _ w) as [r w1]. destruct H as (Hd & _ & _ & [[Ho [-> | ->]]|[Ho ->]]); exists w1; split; eauto 10.
Qed.

(** A command's message and its addressee. *)
Lemma command_subject action a strategy symbol t :
  admin_signal_valid (command_signal action a strategy symbol t) = true ->
  exists g, ac_gateway a = Some g /\
    admin_subject (command_signal action a strategy symbol t) =
      compose_admin_subject (market_value (ac_market a)) g (ac_account_id a).
Proof. unfold admin_signal_valid, admin_subject. cbn. destruct (ac_gateway a) as [g|]; [|done]. by exists g. Qed.

(** C9. A block is stored before it is announced.  However the database and NATS
    behave, [/prevent] and [/allow] publish at most one message, and only once the
    caller's own row says what the message says: it goes to the private subject of
    an account the caller holds, and that account's stored settings carry the flag
    and every other key they had.  A success answer means both happened; an answer
    of a failed write means nothing was published. *)
Theorem prevent_stores_first tid enabled w r w' :
  run (prevent tid enabled) w = (r, w') ->
  exists evs, out w' = out w ++ evs /\
    (evs = [] /\ is_ok r = false \/
     exists a g t,
       a ∈ accounts (db w) /\ holds (str_int tid) (db w) a = true /\ ac_gateway a = Some g /\
       evs = [SentAdmin (compose_admin_subject (market_value (ac_market a)) g (ac_account_id a))
                (command_signal (if enabled then BLOCK_SIGNAL else ALLOW_SIGNAL) a None None t)] /\
       (forall x, x ∈ accounts (db w') -> ac_id x = ac_id a ->
          assoc ACCOUNT_SETTING_SIGNAL_BLOCKED (ac_settings x) = Some (JBool enabled)) /\
       (forall x, x ∈ accounts (db w) -> exists x', x' ∈ accounts (db w') /\ ac_id x' = ac_id x /\
          forall k, k <> ACCOUNT_SETTING_SIGNAL_BLOCKED -> assoc k (ac_settings x') = assoc k (ac_settings x))) /\
    (r = Err not_persisted -> evs = []).
Proof.
  unfold prevent. rewrite run_bind. destruct (run_linked tid w) as (w1 & (Ha1 & _ & _ & Ho1) & [(a & -> & Ha & Hh)|[e ->]]).
  2: { intros [= <- <-]. exists []. rewrite app_nil_r. split; [done|]. split; [by left|done]. }
  rewrite run_bind.
  destruct (run_update_settings (ac_id a) [(ACCOUNT_SETTING_SIGNAL_BLOCKED, JBool enabled)] w1)
    as (w2 & Ho2 & [(row & -> & Hrow & Hid & Hd2)| ->]).
  2: { intros [= <- <-]. exists []. rewrite app_nil_r. split; [congruence|]. split; [by left|done]. }
  rewrite run_bind. unfold clock. rewrite run_act. cbv beta iota. rewrite run_bind.
  set (s := command_signal _ a None None (now w2)).
  destruct (run_publish_admin s w2) as (w3 & Hd3 & [(Hv & Ho3 & Hr)|(e & -> & Ho3)]).
  2: { intros [= <- <-]. exists []. rewrite app_nil_r. split; [congruence|]. split; [by left|done]. }
  destruct (command_subject _ _ _ _ _ Hv) as (g & Hg & Hsub). intros H.
  assert (w' = w3 /\ r <> Err not_persisted) as [-> Hnp] by (destruct Hr as [E|E]; rewrite E in H; injection H as <- <-; done).
  exists [SentAdmin (admin_subject s) s]. split; [congruence|]. split; [|done]. right. exists a, g, (now w2).
  split; [done|]. split; [done|]. split; [done|]. split; [by rewrite <-Hsub|].
  rewrite Hd3, Hd2. cbn [accounts set_accounts]. rewrite Ha1. split.
  - intros x (y & Hy & ->)%elem_of_update_where Hx. destruct (bool_decide_reflect (ac_id y = ac_id a)) as [E|E]; [|done].
    cbn. by rewrite assoc_merge, String.eqb_refl.
  - intros x Hx. eexists. split; [apply elem_of_update_where; by exists x|].
    destruct (bool_decide (ac_id x = ac_id a)); [|done]. split; [done|]. intros k Hk. cbn.
    by rewrite assoc_merge, (proj2 (String.eqb_neq _ _) Hk).
Qed.

(** C15. The Close button closes the caller's own open trade.  However the database
    and NATS behave, [exit_trade] changes nothing stored and publishes at most one
    message: a FLAT on the private subject of the trade's own account, naming the
    trade's strategy, symbol and ticket, for a stored trade with that id that is
    not over and that an account held by the caller owns.  A trade that is over is
    answered 409. *)
Theorem exit_closes_own_trade tid trade_id w r w' :
  run (exit_trade tid trade_id) w = (r, w') ->
  db w' = db w /\
  (out w' = out w /\ is_ok r = false \/
   exists trade a m g t,
     trade ∈ trades (db w) /\ tr_id trade = trade_id /\ is_terminal trade = false /\
     a ∈ accounts (db w) /\ account_of_trade trade a = true /\ holds (str_int tid) (db w) a = true /\
     tr_market trade = Some m /\ tr_gateway trade = Some g /\
     out w' = out w ++ [SentAdmin (compose_admin_subject (market_value m) g (tr_account_id trade)) (exit_signal trade t)]) /\
  (forall trade, own_trade trade_id (str_int tid) (db w) = Some trade -> is_terminal trade = true -> db_up w ->
     r = Err (HTTPException 409 "Trade is already closed")).
Proof.
  unfold exit_trade, get_own_trade, get_for_telegram_user. rewrite run_bind, run_bind, run_catch.
  destruct (run_query_cases (own_trade trade_id (str_int tid)) w) as (w1 & Hd1 & Ho1 & [Hq|[e Hq]]); rewrite Hq.
  2: { cbn [run]. intros [= <- <-]. split; [done|]. split; [by left|]. intros trade Ht _ Hw.
       by rewrite run_query_up in Hq. }
  destruct (own_trade trade_id (str_int tid) (db w)) as [trade|] eqn:Et; cbn [run].
  2: { intros [= <- <-]. split; [done|]. by split; [left|]. }
  pose proof Et as [Hin Hown]%select_first_Some. apply andb_prop in Hown as [Hid%bool_decide_eq_true Hown].
  apply existsb_exists in Hown as (a & Ha%list_elem_of_In & [Hat Hh]%andb_prop).
  destruct (is_terminal trade) eqn:Eterm.
  { intros [= <- <-]. split; [done|]. by split; [left|]. }
  rewrite run_bind. unfold clock. rewrite run_act. cbv beta iota. rewrite run_bind.
  destruct (run_publish_admin (exit_signal trade (now w1)) w1) as (w2 & Hd2 & [(Hv & Ho2 & Hr)|(e & -> & Ho2)]).
  2: { intros [= <- <-]. split; [congruence|]. split; [left; by split; [congruence|]|]. intros ? [= <-]. congruence. }
  intros H. assert (w' = w2) as -> by (destruct Hr as [E|E]; rewrite E in H; injection H as <- <-; done).
  split; [congruence|]. split; [|intros ? [= <-]; congruence]. right.
  unfold admin_signal_valid, admin_subject in *. cbn in Hv, Ho2.
  destruct (tr_market trade) as [m|] eqn:Em; [|done]. destruct (tr_gateway trade) as [g|] eqn:Eg; [|done].
  exists trade, a, m, g, (now w1). split_and!; try done. by rewrite Ho2, Ho1.
Qed.

(** ** What the worker is told *)
Section told.
Context `{SP : SettingsPydantic} `{CA : RowChoice Account}.

Lemma choose_one {row} `{RowChoice row} (x : row) : choose [x] = Some x.
Proof. destruct (choose_some [x]) as [y Hy]; [done|]. pose proof (choose_elem _ _ Hy) as Hin. by apply list_elem_of_singleton in Hin as ->. Qed.

(** The announcement of the worker of [a] behind gateway [g]. *)
Definition announces (event : SystemWorkerConnectedSignal) (a : Account) (g : string) : Prop :=
  wc_account_id event = compose_worker_id (market_value (ac_market a)) g (ac_account_id a) /\
  wc_market event = ac_market a /\ wc_gateway event = g.

Lemma build_chosen event (a : Account) g (x : Account) v :
  announces event a g -> db_up v ->
  choose (select_where (gateway_row (ac_account_id a) (ac_market a) g) (accounts (db v))) = Some x ->
  exists s, run (build_account_settings event) v = (Ok s, v) /\
    s = resolve_account_settings (parse_account_settings (JObj (ac_settings x)))
          (parse_global_max_open_orders (find_setting MAX_OPEN_ORDERS_KEY (db v))).
Proof.
  intros (He & Hm & Hg) Hv Hch. eexists. split; [|done]. unfold build_account_settings. rewrite He, Hm, Hg, decompose_compose.
  rewrite run_bind, run_catch, run_bind. unfold get_settings. rewrite run_catch, run_query_up, set_db_same by done.
  rewrite Hch. cbn [run]. unfold get_global_max_open_orders, setting_get.
  by rewrite run_bind, run_bind, run_catch, run_query_up, set_db_same by done.
Qed.

Lemma build_up event (a : Account) g (x : Account) v :
  announces event a g -> db_up v ->
  select_where (gateway_row (ac_account_id a) (ac_market a) g) (accounts (db v)) = [x] ->
  run (build_account_settings event) v =
    (Ok (resolve_account_settings (parse_account_settings (JObj (ac_settings x)))
           (parse_global_max_open_orders (find_setting MAX_OPEN_ORDERS_KEY (db v)))), v).
Proof.
  intros He Hv Hsel. destruct (build_chosen event a g x v He Hv) as (s & Hs & ->); [|done].
  by rewrite Hsel, choose_one.
Qed.

Lemma run_update_up a patch w :
  db_up w -> NoDup (map ac_id (accounts (db w))) -> a ∈ accounts (db w) ->
  run (update_settings (ac_id a) patch) w =
    (Ok (Some (jsonb_merge (ac_settings a) patch)),
     set_db (set_accounts (update_where (fun x => bool_decide (ac_id x = ac_id a))
        (fun x => set_settings (jsonb_merge (ac_settings x) patch) x) (accounts (db w))) (db w)) w).
Proof.
  intros Hw Hnd Ha. unfold update_settings. rewrite run_session_or by done. cbn [accounts set_accounts].
  rewrite select_settings.
  destruct (select_first_is_Some (fun x => bool_decide (ac_id x = ac_id a)) (accounts (db w)) a Ha) as [y E];
    [by apply bool_decide_eq_true|].
  rewrite E. apply select_first_Some in E as [Hy Hid%bool_decide_eq_true].
  by rewrite (nodup_map_eq ac_id (accounts (db w)) y a).
Qed.

(** The worker's row after the write is still the only one it matches. *)
Lemma select_written a g patch (l : list Account) :
  select_where (gateway_row (ac_account_id a) (ac_market a) g) l = [a] ->
  select_where (gateway_row (ac_account_id a) (ac_market a) g)
    (update_where (fun x => bool_decide (ac_id x = ac_id a)) (fun x => set_settings (jsonb_merge (ac_settings x) patch) x) l) =
  [set_settings (jsonb_merge (ac_settings a) patch) a].
Proof. intros H. rewrite select_update, H by done. cbn. by rewrite bool_decide_eq_true_2. Qed.

(** The caller's account over a working database. *)
Lemma run_linked_up tid w u us a :
  db_up w -> uuids w = u :: us -> fresh_links w ->
  NoDup (map ac_id (accounts (db w))) -> NoDup (map bo_id (bot_sessions (db w))) ->
  driving (str_int tid) (db w) = Some a ->
  exists w1, run (get_linked_account tid) w = (Ok a, w1) /\ db_up w1 /\ looked_up w w1 /\
    db w1 = set_sessions (bot_sessions (db w1)) (db w).
Proof.
  intros Hw Hu Hf Hnd Hse Hd. destruct (get_active_ok tid w u us Hw Hu Hf Hnd Hse) as (w1 & H1 & Hw1 & _ & Hd1 & _).
  rewrite Hd in H1. exists w1. unfold get_linked_account. rewrite run_bind, H1.
  pose proof (always_run looked_up _ w (active_looked_up tid)) as Hl. rewrite H1 in Hl. done.
Qed.

(** The commands on an account that was looked up, over a working database. *)
Section account.
Context (tid : Z) (w w1 : World) (a : Account) (g : string) (event : SystemWorkerConnectedSignal).
Hypothesis Hlinked : run (get_linked_account tid) w = (Ok a, w1).
Hypothesis Hup : db_up w1.
Hypothesis Hnd : NoDup (map ac_id (accounts (db w1))).
Hypothesis Ha : a ∈ accounts (db w1).
Hypothesis Hg : ac_gateway a = Some g.
Hypothesis Hge : is_empty g = false.
Hypothesis He : announces event a g.
Hypothesis Hsel : select_where (gateway_row (ac_account_id a) (ac_market a) g) (accounts (db w1)) = [a].

Let own := parse_account_settings (JObj (ac_settings a)).
Let global := parse_global_max_open_orders (find_setting MAX_OPEN_ORDERS_KEY (db w1)).

Definition written (patch : list (string * json)) : Db :=
  set_accounts (update_where (fun x => bool_decide (ac_id x = ac_id a))
    (fun x => set_settings (jsonb_merge (ac_settings x) patch) x) (accounts (db w1))) (db w1).

Lemma told_after patch v :
  db_up v -> db v = written patch ->
  run (build_account_settings event) v =
    (Ok (resolve_account_settings (parse_account_settings (JObj (jsonb_merge (ac_settings a) patch))) global), v).
Proof.
  intros Hv Hd. rewrite (build_up event a g (set_settings (jsonb_merge (ac_settings a) patch) a)); [by rewrite Hd|done|done|].
  rewrite Hd. by apply select_written.
Qed.

Lemma cap_told m :
  (forall z, m = Some z -> (0 <= z)%Z) ->
  exists resp w2,
    let s := {| as_signal_blocked := as_signal_blocked own; as_max_open_orders := Some (default global m) |} in
    run (set_max_open_orders tid m) w = (Ok resp, w2) /\ mo_max_open_orders resp = default global m /\
    out w2 = out w1 ++ [SentSystem (topic_value TOPIC_SYSTEM) (SystemWorkerSettingsUpdateSignal (wc_account_id event) s)] /\
    run (build_account_settings event) w2 = (Ok s, w2).
Proof.
  intros Hm.
  assert (forall x, resolve_account_settings {| as_signal_blocked := as_signal_blocked own; as_max_open_orders := x |} global
    = {| as_signal_blocked := as_signal_blocked own; as_max_open_orders := Some (default global x) |}) as Hres by (by intros [z|]).
  unfold set_max_open_orders. rewrite run_bind, Hlinked. cbv beta iota.
  set (patch := [(_, json_opt_int m)]).
  rewrite run_bind, (run_update_up a patch w1 Hup Hnd Ha). cbv beta iota. fold (written patch).
  set (w2 := set_db (written patch) w1). assert (db_up w2) as Hw2 by exact Hup.
  rewrite run_bind. unfold setting_get. rewrite run_catch, run_query_up, set_db_same by done. cbv beta iota zeta.
  change (find_setting MAX_OPEN_ORDERS_KEY (db w2)) with (find_setting MAX_OPEN_ORDERS_KEY (db w1)). fold global.
  unfold patch at 1 2. rewrite parse_cap by done. fold own. rewrite Hres.
  unfold push_worker_settings_update. rewrite Hg. cbn [no_gateway default]. rewrite Hge.
  rewrite run_bind, run_catch. unfold publish_system_settings_update. rewrite run_nats_up by done. cbv beta iota.
  cbn [as_max_open_orders run]. eexists _, _. cbv zeta. split; [done|]. split; [done|].
  destruct He as (Hid & _). split; [cbn; by rewrite Hid|].
  rewrite (told_after patch) by done. unfold patch. rewrite parse_cap by done. fold own. by rewrite Hres.
Qed.

Lemma block_told enabled :
  exists resp w2 signal,
    run (prevent tid enabled) w = (Ok resp, w2) /\
    out w2 = out w1 ++ [SentAdmin (compose_admin_subject (market_value (ac_market a)) g (ac_account_id a)) signal] /\
    ad_action signal = (if enabled then BLOCK_SIGNAL else ALLOW_SIGNAL) /\
    run (build_account_settings event) w2 =
      (Ok {| as_signal_blocked := enabled;
             as_max_open_orders := Some (default global (as_max_open_orders own)) |}, w2).
Proof.
  unfold prevent. rewrite run_bind, Hlinked. cbv beta iota zeta. set (patch := [(_, JBool enabled)]).
  rewrite run_bind, (run_update_up a patch w1 Hup Hnd Ha). cbv beta iota. fold (written patch).
  set (w2 := set_db (written patch) w1). assert (db_up w2) as Hw2 by exact Hup.
  rewrite run_bind. unfold clock. rewrite run_act. cbv beta iota. rewrite run_bind.
  unfold publish_admin_signal. set (s := command_signal _ a None None (now w2)).
  assert (admin_signal_valid s = true) as Hv by (unfold admin_signal_valid; cbn; by rewrite Hg).
  rewrite Hv, run_nats_up by done. cbv beta iota. eexists _, _, s. split; [done|].
  destruct (command_subject _ _ _ _ _ Hv) as (g' & Hg' & Hsub). assert (g' = g) as -> by congruence.
  split; [by rewrite <-Hsub|]. split; [done|].
  rewrite (told_after patch) by done. unfold patch. rewrite parse_blocked. fold own. by destruct (as_max_open_orders own).
Qed.
End account.

(** C24. A worker is told what its owner set.  For an account whose worker is
    behind a known gateway and which is the only row that worker matches, over
    working services: setting a cap pushes one complete block to that worker — the
    new cap, or the broker-wide default when the cap is cleared, and the block
    flag as stored — and [/prevent] and [/allow] publish their directive; and in
    both cases the next handshake of that worker carries the same block flag and
    the same cap. *)
Theorem told_what_was_set tid w u us a g event m enabled :
  let user := str_int tid in
  let global := parse_global_max_open_orders (find_setting MAX_OPEN_ORDERS_KEY (db w)) in
  let own := parse_account_settings (JObj (ac_settings a)) in
  db_up w -> uuids w = u :: us -> fresh_links w ->
  NoDup (map ac_id (accounts (db w))) -> NoDup (map bo_id (bot_sessions (db w))) ->
  driving user (db w) = Some a -> ac_gateway a = Some g -> is_empty g = false -> announces event a g ->
  select_where (gateway_row (ac_account_id a) (ac_market a) g) (accounts (db w)) = [a] ->
  (forall z, m = Some z -> (0 <= z)%Z) ->
  (exists resp w1,
     let s := {| as_signal_blocked := as_signal_blocked own; as_max_open_orders := Some (default global m) |} in
     run (set_max_open_orders tid m) w = (Ok resp, w1) /\ mo_max_open_orders resp = default global m /\
     out w1 = out w ++ [SentSystem (topic_value TOPIC_SYSTEM) (SystemWorkerSettingsUpdateSignal (wc_account_id event) s)] /\
     run (build_account_settings event) w1 = (Ok s, w1)) /\
  (exists resp w2 signal,
     run (prevent tid enabled) w = (Ok resp, w2) /\
     out w2 = out w ++ [SentAdmin (compose_admin_subject (market_value (ac_market a)) g (ac_account_id a)) signal] /\
     ad_action signal = (if enabled then BLOCK_SIGNAL else ALLOW_SIGNAL) /\
     run (build_account_settings event) w2 =
       (Ok {| as_signal_blocked := enabled;
              as_max_open_orders := Some (default global (as_max_open_orders own)) |}, w2)).
Proof.
  intros user global own Hw Hu Hf Hnd Hse Hdrv Hg Hge He Hsel Hm.
  assert (a ∈ accounts (db w)) as Ha by (apply (driving_held user); done).
  destruct (run_linked_up tid w u us a Hw Hu Hf Hnd Hse Hdrv) as (w1 & H1 & Hw1 & (Ha1 & _ & _ & Ho1) & Hd1).
  rewrite <-Ha1 in Hnd, Ha, Hsel. rewrite <-Ho1.
  assert (global = parse_global_max_open_orders (find_setting MAX_OPEN_ORDERS_KEY (db w1))) as Hgl by (by rewrite Hd1).
  rewrite Hgl. split; [by apply (cap_told tid w w1 a g event)|by apply (block_told tid w w1 a g event)].
Qed.
End told.
