(* ===== verification/BotRun.v ===== *)
(** * The bot over working services

    What the bot's machinery does when the requests are answered and Telegram
    accepts every call. *)

From S2P Require Import Prelude PyStr Uuid PyTime Json JsonText Enums Schemas Models ChatTargets BotState World Settings TimeZone.
From S2P Require Import StatusPolicies Samples SignalRepo SignalHelper SignalService SignalWorker.
From S2P Require Import BroadcastRepo BroadcastService Dispatcher TradeRepo AccountRepo AccountLinks Notifications AccountSettings.
From S2P Require Import TradeConsumer TradeCards TelegramApi AdminApi BotClient BotTable BotText BotCore BotUser BotAdmin BotApp TelegramFlow.
From stdpp Require Import gmap.

(** ** The broker leaves the bot alone

    No route touches the bot's state, and a database that works goes on working. *)
Definition same_bot (w w' : World) : Prop := bot w' = bot w /\ (db_up w -> db_up w').

#[export] Instance same_bot_preorder : PreOrder same_bot.
Proof. split; [by intros w|]. intros w1 w2 w3 [??] [??]. split; [congruence|auto]. Qed.

Lemma outcome_same_bot w : same_bot w (next_outcome w).2.
Proof. unfold next_outcome, same_bot, db_up. destruct (sched w) eqn:E; cbn; by rewrite ?E. Qed.

Lemma session_same_bot {A} (t : instant -> Db -> res exn (A * Db)) : always same_bot (session t).
Proof.
  apply always_act. intros w. unfold session_step. pose proof (outcome_same_bot w) as H.
  destruct (next_outcome w) as [[| |] w1]; cbn in H; [|done|]; by destruct (t _ _) as [[a d]|e].
Qed.

Lemma query_same_bot {A} (t : Db -> A) : always same_bot (query t).
Proof. apply session_same_bot. Qed.

Lemma nats_same_bot e : always same_bot (nats e).
Proof.
  apply always_act. intros w. unfold nats_step. pose proof (outcome_same_bot w) as H.
  by destruct (next_outcome w) as [[| |] w1].
Qed.

Lemma uuid4_same_bot : always same_bot uuid4.
Proof. apply always_act. intros w. unfold same_bot. by destruct (uuids w). Qed.

Lemma clock_same_bot : always same_bot clock.
Proof. by apply always_act. Qed.

Lemma connected_same_bot : always same_bot is_connected.
Proof. by apply always_act. Qed.

Lemma notices_same_bot {A} (f : list (string * option string) -> A * list (string * option string)) :
  always same_bot (with_notices f).
Proof. apply always_act. intros w. unfold same_bot. by destruct (f _). Qed.

Lemma telegram_same_bot c : always same_bot (telegram c).
Proof. apply always_act. intros w. unfold same_bot. by destruct (tg w). Qed.

Create HintDb same_bot.

Ltac head t := lazymatch t with ?f _ => head f | _ => t end.

(** Follows a route down to its steps. *)
Ltac bot_steps :=
  repeat first
    [ apply always_ret | apply always_raise
    | apply session_same_bot | apply query_same_bot | apply nats_same_bot | apply telegram_same_bot | apply uuid4_same_bot
    | apply clock_same_bot | apply connected_same_bot | apply notices_same_bot
    | apply always_bind; [|intros ?] | apply always_catch; [|intros ?] | apply always_attempt
    | apply always_for_each; intros ? | apply always_for_collect; intros ?
    | case_match
    | progress cbv zeta beta
    | match goal with |- always _ ?p => let h := head p in unfold h end ].

(** ** Working services *)

(** Every request is answered and every call to Telegram accepted. *)
Definition answering (b : BotState) : Prop := bt_net b = [] /\ bt_api b = [].

Definition bot_up (w : World) : Prop := db_up w /\ answering (bot w).

Lemma set_bot_same w : set_bot (bot w) w = w.
Proof. by destruct w. Qed.

Lemma set_bot_twice b b' w : set_bot b (set_bot b' w) = set_bot b w.
Proof. done. Qed.

(** The bot after a call Telegram accepted. *)
Definition tell (c : bot_call) (b : BotState) : BotState :=
  {| bt_fsm := bt_fsm b; bt_applied := bt_applied b; bt_said := bt_said b ++ [(c, ApiOk)];
     bt_net := bt_net b; bt_api := bt_api b |}.

Definition told (c : bot_call) (w : World) : World := set_bot (tell c (bot w)) w.

Lemma run_bot_api c w : answering (bot w) -> run (bot_api c) w = (Ok ApiOk, told c w).
Proof. intros [_ H]. unfold bot_api, with_bot. rewrite run_act, H. unfold told, tell. by rewrite H. Qed.

Lemma run_api_strict c w : answering (bot w) -> run (bot_api_strict c) w = (Ok tt, told c w).
Proof. intros H. unfold bot_api_strict. by rewrite run_bind, run_bot_api. Qed.

Lemma run_answer u text kb w :
  answering (bot w) -> run (answer u text kb) w = (Ok tt, told (AnswerMessage (up_chat u) text kb) w).
Proof. apply run_api_strict. Qed.

Lemma run_edit u text kb w :
  answering (bot w) -> run (safe_edit_text u text kb) w = (Ok tt, told (EditMessageText (up_chat u) text kb) w).
Proof. intros H. unfold safe_edit_text. by rewrite run_bind, run_bot_api. Qed.

Lemma run_call_answer u text alert w :
  answering (bot w) -> run (call_answer u text alert) w = (Ok tt, told (AnswerCallback (up_user u) text alert) w).
Proof. apply run_api_strict. Qed.

(** ** The conversation *)
Lemma run_with_bot {A} (f : BotState -> res exn A * BotState) w :
  run (with_bot f) w = ((f (bot w)).1, set_bot (f (bot w)).2 w).
Proof. unfold with_bot. rewrite run_act. by destruct (f (bot w)). Qed.

Lemma run_get_state u w : run (get_state u) w = (Ok (fs_state (context_of u (bot w))), w).
Proof. unfold get_state. rewrite run_with_bot. cbn. by rewrite set_bot_same. Qed.

Lemma run_get_data u w : run (get_data u) w = (Ok (fs_data (context_of u (bot w))), w).
Proof. unfold get_data. rewrite run_with_bot. cbn. by rewrite set_bot_same. Qed.

Lemma context_set u c b : context_of u (set_context u c b) = c.
Proof. unfold context_of, set_context. cbn. by rewrite lookup_insert_eq. Qed.

(** ** The account a user drives, asked for *)
Lemma point_sets fresh user id d d' : point_session false fresh user id d = Ok d' -> active_pointer user d' = Some id.
Proof.
  unfold point_session, active_pointer. destruct (select_first (session_of user) (bot_sessions d)) as [s|] eqn:E; cbn.
  - intros [= <-]. cbn. rewrite (select_first_update (session_of user)), E by done. cbn. by rewrite bool_decide_eq_true_2.
  - destruct (insert_unique _ _ _) as [t|] eqn:Ei; [|done]. intros [= <-]. apply insert_unique_Some in Ei as [-> _].
    cbn. rewrite select_first_app, E. cbn. assert (session_of user (new_session fresh user id) = true) as -> by (by apply session_of_true).
    done.
Qed.

(** Asking changes neither the answer nor who holds what. *)
Lemma run_active tid w u us :
  bot_up w -> uuids w = u :: us -> NoDup (map ac_id (accounts (db w))) ->
  exists w1, run (get_active_account tid) w = (Ok (driving (str_int tid) (db w)), w1) /\
    bot_up w1 /\ bot w1 = bot w /\ driving (str_int tid) (db w1) = driving (str_int tid) (db w) /\
    accounts (db w1) = accounts (db w) /\ account_bot_links (db w1) = account_bot_links (db w).
Proof.
  intros [Hw Hb] Hu Hnd. rewrite (run_get_active tid w u us Hw Hu). unfold driving at 1 3.
  destruct (pointed_account _ (db w)) as [x|] eqn:Ep; [exists w; split_and!; try done; unfold driving; by rewrite Ep|].
  destruct (head (accounts_held _ (db w))) as [x|] eqn:Eh;
    [|exists w; split_and!; try done; unfold driving; by rewrite Ep].
  destruct (point_session false u (str_int tid) (ac_id x) (db w)) as [d|] eqn:E;
    [|eexists; split; [done|]; split_and!; try done; unfold driving; cbn; by rewrite Ep].
  eexists. split; [done|]. split; [done|]. split; [done|]. cbn.
  apply head_Some_elem_of, elem_of_held in Eh as [Hx Hh].
  assert (accounts d = accounts (db w) /\ account_bot_links d = account_bot_links (db w)) as [Ha Hl].
  { apply point_looked_up in E. tauto. }
  split; [|done]. unfold driving. rewrite (pointed_stands (str_int tid) d x); [done|by rewrite Ha|by rewrite Ha| |by eapply point_sets].
  by rewrite (holds_ext _ d (db w)).
Qed.

(** ** Requests *)
Section requests.
Context `{CFG : Settings} `{SP : SettingsPydantic} `{CA : RowChoice Account} `{TC : TradeColumns}.
Context `{BS : BotSettings} `{UP : BotHttp} `{BE : BotEnv}.
Hypothesis key : ensure_api_key (Some bot_BROKER_API_KEY) = Ret tt.

(** What the client makes of a route's answer. *)
Definition answered {A} (r : res exn A) : option (response A) :=
  match r with
  | Ok a => Some (Body a)
  | Err (HTTPException status_code _) => if (status_code =? 404)%Z then Some NotFound else None
  | Err _ => None
  end.

Lemma run_next_net w : answering (bot w) -> run next_net w = (Ok NetAnswered, w).
Proof. intros [H _]. unfold next_net. rewrite run_with_bot, H. cbn. by rewrite set_bot_same. Qed.

Lemma run_request {B A} (b : B) (route : B -> prog A) w :
  answering (bot w) ->
  run (request (Some b) route) w = (Ok (answered (run (route b) w).1), (run (route b) w).2).
Proof.
  intros H. unfold request. rewrite run_bind, run_next_net, run_bind, run_attempt, key by done. cbn [bind].
  by destruct (run (route b) w).
Qed.

Lemma run_call {B A} (b : B) (route : B -> prog A) w :
  answering (bot w) ->
  run (call (Some b) route) w = (Ok (json_or_none (answered (run (route b) w).1)), (run (route b) w).2).
Proof. intros H. unfold call. by rewrite run_bind, run_request. Qed.

(** A request the broker does not take. *)
Lemma run_call_refused {B A} (route : B -> prog A) w :
  answering (bot w) -> run (call None route) w = (Ok None, w).
Proof.
  intros H. unfold call, request. by rewrite run_bind, run_bind, run_next_net, run_bind, run_attempt, key by done.
Qed.

(** ** The caller's account *)
Lemma run_linked_answers tid w u us :
  db_up w -> uuids w = u :: us ->
  exists w1, run (get_linked_account tid) w =
      (match driving (str_int tid) (db w) with Some a => Ok a | None => Err not_linked end, w1) /\
    db_up w1 /\ bot w1 = bot w /\ looked_up w w1.
Proof.
  intros Hw Hu. pose proof (always_run looked_up _ w (active_looked_up tid)) as Hl.
  unfold get_linked_account. rewrite run_bind. rewrite (run_get_active tid w u us Hw Hu) in *. unfold driving.
  destruct (pointed_account _ (db w)) as [x|]; [by exists w|].
  destruct (head (accounts_held _ (db w))) as [x|]; [|by exists w].
  eexists. split; [done|]. split; [by destruct (point_session _ _ _ _ _)|]. split; [by destruct (point_session _ _ _ _ _)|done].
Qed.

Lemma run_resolve tid w u us :
  bot_up w -> uuids w = u :: us ->
  exists w1, run (resolve_account tid) w =
      (Ok (true, (fun a => {| la_account := a; la_is_active := true |}) <$> driving (str_int tid) (db w)), w1) /\
    bot_up w1 /\ bot w1 = bot w /\ looked_up w w1.
Proof.
  intros [Hw Hb] Hu. destruct (run_linked_answers tid w u us Hw Hu) as (w1 & H1 & Hw1 & Hb1 & Hl).
  unfold resolve_account. rewrite run_bind, run_request by done. unfold get_account. rewrite run_bind, H1.
  destruct (driving _ (db w)) as [a|]; exists w1; cbn; (split; [done|]); unfold bot_up; rewrite Hb1; done.
Qed.
(** With nothing of the database's in question, the answer once more: the session may
    have been pointed at the account. *)
Lemma run_active_fresh tid w u us :
  bot_up w -> uuids w = u :: us -> fresh_links w -> NoDup (map bo_id (bot_sessions (db w))) ->
  exists w1, run (get_active_account tid) w = (Ok (driving (str_int tid) (db w)), w1) /\
    bot_up w1 /\ bot w1 = bot w /\ out w1 = out w /\ now w1 = now w /\ db w1 = set_sessions (bot_sessions (db w1)) (db w) /\
    (uuids w1 = us \/ uuids w1 = uuids w) /\ fresh_links w1 /\ NoDup (map bo_id (bot_sessions (db w1))) /\
    (forall v, v <> str_int tid -> active_pointer v (db w1) = active_pointer v (db w)).
Proof.
  intros [Hw Hb] Hu (Hn & Hfl & Hfs) Hse. rewrite (run_get_active tid w u us Hw Hu). unfold driving.
  assert (set_sessions (bot_sessions (db w)) (db w) = db w) as Hsame by (by destruct (db w)).
  destruct (pointed_account _ (db w)) as [x|]; [exists w; split_and!; eauto; by split|].
  destruct (head (accounts_held _ (db w))) as [x|]; [|exists w; split_and!; eauto; by split].
  destruct (point_session_ok false u (str_int tid) (ac_id x) (db w)) as (d' & E & Hd' & _ & Ho & _ & Hse'); [|done|].
  { intros s Hs He. apply (Hfs s Hs). rewrite Hu, He. left. }
  rewrite E. eexists. split; [done|]. split; [done|]. split; [done|]. split; [done|]. split; [done|]. split; [exact Hd'|].
  split; [by left|]. split; [|by split].
  rewrite Hu in Hn, Hfl, Hfs. apply NoDup_cons in Hn as [Hnu Hn]. split; [done|]. split.
  - cbn. rewrite Hd'. intros l Hl Hin. apply (Hfl l Hl). by right.
  - cbn. intros s Hs Hin. unfold point_session in E. destruct (select_first _ (bot_sessions (db w))) as [s0|].
    + cbn in E. injection E as <-. cbn in Hs. apply elem_of_update_where in Hs as (s1 & Hs1 & ->).
      destruct (bool_decide _); cbn in Hin; apply (Hfs s1 Hs1); by right.
    + destruct (insert_unique _ _ _) as [t|] eqn:Ei; [|done]. injection E as <-. apply insert_unique_Some in Ei as [-> _].
      cbn in Hs. apply elem_of_app in Hs as [Hs| ->%list_elem_of_singleton]; [apply (Hfs s Hs); by right|done].
Qed.

(** The menu, when Telegram accepts it. *)
Lemma run_sync tid linked w :
  bot_up w -> exists w1, run (sync tid linked) w = (Ok tt, w1) /\ bot_up w1 /\ db w1 = db w /\ out w1 = out w /\
    uuids w1 = uuids w /\ now w1 = now w /\ bt_fsm (bot w1) = bt_fsm (bot w).
Proof.
  intros [Hw Hb]. unfold sync, applied_menu. cbv zeta. rewrite run_bind, run_with_bot. cbn [fst snd]. rewrite set_bot_same.
  case_bool_decide; [by exists w|]. rewrite run_bind, run_bot_api by done. cbv beta iota. unfold set_applied. rewrite run_with_bot.
  eexists. split; [done|]. done.
Qed.

(** The middleware, when the broker answers. *)
Lemma run_middleware up w u us :
  bot_up w -> uuids w = u :: us -> fresh_links w -> NoDup (map bo_id (bot_sessions (db w))) ->
  exists w1 account, run (menu_middleware up) w = (Ok account, w1) /\
    account = (if up_is_bot up then None
               else (fun a => {| la_account := a; la_is_active := true |}) <$> driving (str_int (up_user up)) (db w)) /\
    bot_up w1 /\ bt_fsm (bot w1) = bt_fsm (bot w) /\ out w1 = out w /\ now w1 = now w /\
    db w1 = set_sessions (bot_sessions (db w1)) (db w) /\
    (uuids w1 = us \/ uuids w1 = uuids w) /\ fresh_links w1 /\ NoDup (map bo_id (bot_sessions (db w1))) /\
    (forall v, v <> str_int (up_user up) -> active_pointer v (db w1) = active_pointer v (db w)).
Proof.
  intros Hup Hu Hf Hse. assert (db w = set_sessions (bot_sessions (db w)) (db w)) as Hsame by (by destruct (db w)).
  unfold menu_middleware. destruct (up_is_bot up); [exists w, None; cbn; split_and!; eauto; apply Hup|].
  destruct (run_active_fresh (up_user up) w u us Hup Hu Hf Hse) as (w1 & E & Hup1 & Hb & Ho & Hnow & Hd & Huu & Hf1 & Hse1 & Hp).
  rewrite run_bind. unfold resolve_account at 1. rewrite run_bind, run_request by apply Hup.
  unfold get_account, get_linked_account. rewrite run_bind, run_bind, E.
  assert (exists w2, run (if up_private up then sync (up_user up) (is_some (driving (str_int (up_user up)) (db w))) else Ret tt) w1 =
            (Ok tt, w2) /\ bot_up w2 /\ db w2 = db w1 /\ out w2 = out w1 /\ uuids w2 = uuids w1 /\ now w2 = now w1 /\
            bt_fsm (bot w2) = bt_fsm (bot w1)) as (w2 & E2 & Hup2 & Hd2 & Ho2 & Hu2 & Hn2 & Hb2).
  { destruct (up_private up); [by apply run_sync|by exists w1]. }
  assert (fresh_links w2) as Hf2 by (unfold fresh_links; by rewrite Hd2, Hu2).
  destruct (driving (str_int (up_user up)) (db w)) as [a|]; cbn [run fst snd] in *;
    try change (answered (Err not_linked)) with (Some (@NotFound LinkedAccountResponse)); cbn [answered run];
    rewrite run_bind; cbn [fst snd is_some andb] in *; rewrite E2; cbn [run]; eexists w2, _; rewrite Hd2;
    (split; [done|]); split_and!; try done; congruence.
Qed.
(** An update reaches its router. *)
Lemma run_front u w :
  bot_up w -> exists account w1, run (menu_middleware u) w = (Ok account, w1) /\ bot_up w1 /\
    bt_fsm (bot w1) = bt_fsm (bot w) /\ looked_up w w1.
Proof.
  intros Hup. unfold menu_middleware. destruct (up_is_bot u); [by exists None, w|].
  rewrite run_bind. unfold resolve_account. rewrite run_bind, run_request by apply Hup.
  assert (always same_bot (get_account (up_user u))) as Hs by bot_steps.
  assert (always looked_up (get_account (up_user u))) as Hl.
  { unfold get_account, get_linked_account. apply always_bind; [apply always_bind; [apply active_looked_up|]|done].
    by intros [a|]. }
  apply (always_run same_bot _ w) in Hs as [Hb Hd]. apply (always_run looked_up _ w) in Hl.
  destruct (run (get_account (up_user u)) w) as [r w1]. cbn [fst snd run] in *.
  assert (bot_up w1) as Hup1 by (split; [by apply Hd, Hup|by rewrite Hb; apply Hup]). cbv beta iota. cbn [run].
  set (p := match answered r with None => _ | Some _ => _ end). rewrite run_bind.
  destruct (p.1 && up_private u); [|exists p.2, w1; by rewrite <-Hb].
  destruct (run_sync (up_user u) (is_some p.2) w1 Hup1) as (w2 & E & Hup2 & Hd2 & Ho2 & _ & _ & Hf2). rewrite E.
  exists p.2, w2. split; [done|]. split; [done|]. split; [by rewrite Hf2, Hb|]. unfold looked_up. by rewrite Hd2, Ho2.
Qed.
End requests.
