(* ===== verification/BotSafety.v ===== *)
(** * What a user can do through the bot

    An update of a user who is no administrator moves only the user's own links and
    session, the settings of accounts the user holds, and directives to the workers
    of those accounts. *)

From S2P Require Import Prelude PyStr Uuid PyTime Json JsonText Enums Schemas Models ChatTargets BotState World Settings TimeZone.
From S2P Require Import StatusPolicies Samples SignalRepo SignalHelper SignalService SignalWorker.
From S2P Require Import BroadcastRepo BroadcastService Dispatcher TradeRepo AccountRepo AccountLinks Notifications AccountSettings.
From S2P Require Import TradeConsumer TradeCards TelegramApi AdminApi BotClient BotTable BotText BotCore BotUser BotAdmin BotApp TelegramFlow.

(** ** The step a user may cause *)

(** A message to the worker of [a], or, for a row without gateway, of one of the
    gateways it stands for. *)
Definition speaks_to (a : Account) (e : sent) : Prop :=
  exists g, (forall g', ac_gateway a = Some g' -> g' = g) /\
  match e with
  | SentAdmin subject s =>
      subject = compose_admin_subject (market_value (ac_market a)) g (ac_account_id a) /\
      ad_account_id s = Some (ac_account_id a) /\ ad_action s ∈ [ADMIN_FLAT; BLOCK_SIGNAL; ALLOW_SIGNAL]
  | SentSystem subject (SystemWorkerSettingsUpdateSignal id _) =>
      subject = system_target None /\ id = compose_worker_id (market_value (ac_market a)) g (ac_account_id a)
  | _ => False
  end.

(** Everything a secret has but the time of its last use. *)
Definition token_face (k : AccountLinkToken) : uuid * instant * uuid * uuid * option instant * option instant :=
  (lt_id k, lt_createdAt k, lt_account_id k, lt_token k, lt_expires_at k, lt_revoked_at k).

Definition others_links (user : string) (d : Db) : list AccountBotLink :=
  base.filter (fun l => link_of user None l = false) (account_bot_links d).

Definition others_sessions (user : string) (d : Db) : list BotSession :=
  base.filter (fun s => session_of user s = false) (bot_sessions d).

(** The links of [user] in [d'] lead to accounts those in [d] lead to. *)
Definition no_new_links (user : string) (d d' : Db) : Prop :=
  forall l', l' ∈ account_bot_links d' -> link_of user None l' = true ->
    exists l, l ∈ account_bot_links d /\ link_of user None l = true /\ al_account_id l = al_account_id l'.

(** What the database keeps when [user] acts on the accounts [may]; with [linking],
    links of the user may appear. *)
Record user_db_step (user : string) (may : uuid -> Prop) (linking : bool) (d d' : Db) : Prop := {
  us_signals : signals d' = signals d;
  us_settings : broker_settings d' = broker_settings d;
  us_cycles : broadcast_messages d' = broadcast_messages d /\ broadcast_message_chats d' = broadcast_message_chats d /\
              broadcast_message_workers d' = broadcast_message_workers d /\ broadcast_message_logs d' = broadcast_message_logs d;
  us_trades : trades d' = trades d /\ trade_notifications d' = trade_notifications d;
  us_accounts : Forall2 (fun a a' => a' = a \/ may (ac_id a) /\ exists s, a' = set_settings s a) (accounts d) (accounts d');
  us_links : others_links user d' = others_links user d;
  us_own_links : linking = false -> no_new_links user d d';
  us_tokens : map token_face (account_link_tokens d') = map token_face (account_link_tokens d);
  us_sessions : NoDup (map bo_id (bot_sessions d)) ->
    NoDup (map bo_id (bot_sessions d')) /\ others_sessions user d' = others_sessions user d
}.

Definition user_step (user : string) (may : uuid -> Prop) (linking : bool) (w w' : World) : Prop :=
  user_db_step user may linking (db w) (db w') /\
  exists evs, out w' = out w ++ evs /\
    Forall (fun e => exists a, a ∈ accounts (db w) /\ may (ac_id a) /\ speaks_to a e) evs.

Lemma accounts_step_refl may (l : list Account) :
  Forall2 (fun a a' => a' = a \/ may (ac_id a) /\ exists s, a' = set_settings s a) l l.
Proof. apply Forall_Forall2_diag, Forall_forall. auto. Qed.

#[export] Instance user_db_step_preorder user may linking : PreOrder (user_db_step user may linking).
Proof.
  split.
  - intros d. split; try done; [apply accounts_step_refl|]. intros _ l Hl Hu. eauto.
  - intros d1 d2 d3 [] []. split; try congruence; try tauto.
    + destruct_and!. split_and!; congruence.
    + destruct_and!. split_and!; congruence.
    + eapply Forall2_trans; [|done..]. cbn. intros a b c [-> | [Ha [s ->]]] [-> | [Hb [s' ->]]]; eauto.
    + intros Hf l Hl Hu. destruct (us_own_links1 Hf l Hl Hu) as (l2 & H2 & Hu2 & <-).
      by destruct (us_own_links0 Hf l2 H2 Hu2) as (l1 & H1 & Hu1 & <-); exists l1.
    + intros Hn. destruct (us_sessions0 Hn) as [Hn' E]. destruct (us_sessions1 Hn') as [? E']. split; [done|congruence].
Qed.

(** The same account, as a worker is addressed. *)
Definition same_worker (a a' : Account) : Prop :=
  ac_id a' = ac_id a /\ ac_account_id a' = ac_account_id a /\ ac_market a' = ac_market a /\ ac_gateway a' = ac_gateway a.

Lemma same_worker_speaks a a' e : same_worker a a' -> speaks_to a' e <-> speaks_to a e.
Proof. intros (_ & H1 & H2 & H3). unfold speaks_to. by rewrite H1, H2, H3. Qed.

Lemma stepped_account user may linking d d' a' :
  user_db_step user may linking d d' -> a' ∈ accounts d' -> exists a, a ∈ accounts d /\ same_worker a a'.
Proof.
  intros [] (i & Hi)%list_elem_of_lookup. destruct (Forall2_lookup_r _ _ _ _ _ us_accounts0 Hi) as (a & Ha & H).
  exists a. split; [by eapply list_elem_of_lookup_2|]. by destruct H as [-> | [_ [s ->]]].
Qed.

Lemma account_steps user may linking d d' a :
  user_db_step user may linking d d' -> a ∈ accounts d -> exists a', a' ∈ accounts d' /\ same_worker a a'.
Proof.
  intros [] (i & Hi)%list_elem_of_lookup. destruct (Forall2_lookup_l _ _ _ _ _ us_accounts0 Hi) as (a' & Ha & H).
  exists a'. split; [by eapply list_elem_of_lookup_2|]. by destruct H as [-> | [_ [s ->]]].
Qed.

#[export] Instance user_step_preorder user may linking : PreOrder (user_step user may linking).
Proof.
  split.
  - intros w. split; [reflexivity|]. exists []. by rewrite app_nil_r.
  - intros w1 w2 w3 [Hd1 (e1 & Ho1 & H1)] [Hd2 (e2 & Ho2 & H2)]. split; [by etransitivity|].
    exists (e1 ++ e2). split; [by rewrite Ho2, Ho1, app_assoc|]. apply Forall_app. split; [done|].
    eapply Forall_impl; [exact H2|]. cbn. intros e (a & Ha & Hm & Hs).
    destruct (stepped_account _ _ _ _ _ _ Hd1 Ha) as (a0 & Ha0 & Hw). exists a0.
    split; [done|]. split; [by rewrite <-(proj1 Hw)|]. by apply (same_worker_speaks a0 a).
Qed.

Lemma user_same user may linking w w' : db w' = db w -> out w' = out w -> user_step user may linking w w'.
Proof. intros Hd Ho. split; [by rewrite Hd|]. exists []. by rewrite app_nil_r. Qed.

Lemma user_frame user may linking : frame_ok (user_step user may linking).
Proof. intros w w' Ho _ Hd. by apply user_same. Qed.

Lemma user_step_mono user (may may' : uuid -> Prop) (linking linking' : bool) w w' :
  (forall id, may id -> may' id) -> (linking' = false -> linking = false) ->
  user_step user may linking w w' -> user_step user may' linking' w w'.
Proof.
  intros Hm Hl [[] (evs & Ho & He)]. split; [split; auto|].
  - eapply Forall2_impl; [done|]. cbn. intros a b [-> | [? ?]]; auto.
  - exists evs. split; [done|]. eapply Forall_impl; [done|]. cbn. intros e (a & ? & ? & ?). eauto.
Qed.

(** ** Rows of other users *)
Lemma link_of_none user account l : link_of user account l = true -> link_of user None l = true.
Proof. unfold link_of. rewrite !andb_true_iff. tauto. Qed.

(** An update that touches only rows outside a selection, or keeps them outside it. *)
Lemma filter_update_others {row} (own p : row -> bool) f (t : list row) :
  (forall r, r ∈ t -> p r = true -> own r = true /\ own (f r) = true) ->
  base.filter (fun r => own r = false) (update_where p f t) = base.filter (fun r => own r = false) t.
Proof.
  induction t as [|r t IH]; intros H; [done|].
  change (update_where p f (r :: t)) with ((if p r then f r else r) :: update_where p f t).
  rewrite !filter_cons, IH by (intros; apply H; [by right|done]).
  destruct (p r) eqn:E; [|done]. destruct (H r) as [H1 H2]; [left|done|]. by rewrite H1, H2.
Qed.

Lemma filter_delete_others {row} (own p : row -> bool) (t : list row) :
  (forall r, p r = true -> own r = true) ->
  base.filter (fun r => own r = false) (delete_where p t) = base.filter (fun r => own r = false) t.
Proof.
  intros H. unfold delete_where. rewrite list_filter_filter. apply list_filter_iff. intros r.
  specialize (H r). destruct (p r), (own r); naive_solver.
Qed.

Section transactions.
Context (user : string) (may : uuid -> Prop).
Abbreviation step := (user_db_step user may).

Lemma step_same linking d d' :
  signals d' = signals d -> broker_settings d' = broker_settings d ->
  broadcast_messages d' = broadcast_messages d /\ broadcast_message_chats d' = broadcast_message_chats d /\
    broadcast_message_workers d' = broadcast_message_workers d /\ broadcast_message_logs d' = broadcast_message_logs d ->
  trades d' = trades d /\ trade_notifications d' = trade_notifications d -> accounts d' = accounts d ->
  others_links user d' = others_links user d -> (linking = false -> no_new_links user d d') ->
  map token_face (account_link_tokens d') = map token_face (account_link_tokens d) ->
  (NoDup (map bo_id (bot_sessions d)) -> NoDup (map bo_id (bot_sessions d')) /\ others_sessions user d' = others_sessions user d) ->
  step linking d d'.
Proof. intros. split; try done. replace (accounts d') with (accounts d). apply accounts_step_refl. Qed.

Lemma no_new_links_same d d' : account_bot_links d' = account_bot_links d -> no_new_links user d d'.
Proof. intros E l. rewrite E. eauto. Qed.

Lemma step_update_session linking s v d :
  session_of user s = true -> s ∈ bot_sessions d ->
  step linking d (set_sessions (update_where (fun r => bool_decide (bo_id r = bo_id s)) (set_active v) (bot_sessions d)) d).
Proof.
  intros Hs Hin. apply step_same; try done. { intros _. by apply no_new_links_same. }
  intros Hn. cbn. rewrite update_where_proj by done. split; [done|]. apply filter_update_others.
  intros r Hr E%bool_decide_eq_true. assert (r = s) as -> by (by eapply (nodup_map_eq bo_id)). done.
Qed.

Lemma step_pointed linking keep fresh id d d' : point_session keep fresh user id d = Ok d' -> step linking d d'.
Proof.
  unfold point_session. destruct (select_first _ _) as [s|] eqn:E.
  - apply select_first_Some in E as [Hs Hu]. destruct (keep && _); intros [= <-]; [reflexivity|].
    by apply step_update_session.
  - destruct (insert_unique _ _ _) as [t|] eqn:Ei; [|done]. intros [= <-]. apply insert_unique_Some in Ei as [-> Hc].
    apply step_same; try done. { intros _. by apply no_new_links_same. }
    intros Hn. cbn. split.
    + apply nodup_map_snoc; [done|]. rewrite Forall_forall in Hc. intros x Hx E'.
      specialize (Hc x Hx). unfold session_clash in Hc. by rewrite bool_decide_eq_true_2 in Hc.
    + unfold others_sessions. cbn. rewrite filter_app. 
      assert (session_of user (new_session fresh user id) = true) as E' by (by apply session_of_true).
      rewrite filter_cons, E'. cbn. by rewrite app_nil_r.
Qed.

Lemma step_settings id patch d :
  may id ->
  step false d (set_accounts (update_where (fun a => bool_decide (ac_id a = id))
    (fun a => set_settings (jsonb_merge (ac_settings a) patch) a) (accounts d)) d).
Proof.
  intros Hm. split; try done.
  - cbn. unfold update_where. apply Forall2_fmap_r, Forall_Forall2_diag, Forall_forall. intros a _. cbn.
    case_bool_decide as E; [|by left]. right. subst. eauto.
  - intros _. by apply no_new_links_same.
Qed.

Lemma step_cards acc enabled d : step false d (set_links_enabled user acc enabled d).2.
Proof.
  unfold set_links_enabled. cbn. apply step_same; try done.
  - apply filter_update_others. intros r _ Hr%link_of_none. done.
  - intros _ l' (l & Hl & ->)%elem_of_update_where Hu. exists l. split; [done|]. by destruct (link_of user acc l).
Qed.

Lemma step_drop id d : step false d (drop_link user id d).
Proof.
  assert (step false d (set_links (delete_where (link_of user (Some id)) (account_bot_links d)) d)) as H1.
  { apply step_same; try done.
    - apply filter_delete_others. apply link_of_none.
    - intros _ l [Hl _]%elem_of_delete_where. eauto. }
  unfold drop_link. destruct (select_first _ _) as [s|] eqn:E; [|done].
  etransitivity; [exact H1|]. apply select_first_Some in E as [Hs Hu]. by apply step_update_session.
Qed.

Lemma step_add_link fresh now id d d' : add_link fresh now id user d = Ok d' -> step true d d'.
Proof.
  unfold add_link. destruct (select_first _ _); [by intros [= <-]|].
  destruct (insert_unique _ _ _) as [t|] eqn:E; [|done]. intros [= <-]. apply insert_unique_Some in E as [-> _].
  apply step_same; try done. unfold others_links. cbn. rewrite filter_app, filter_cons.
  assert (link_of user None (new_link fresh now id user) = true) as -> by (unfold link_of; cbn; by rewrite !bool_decide_eq_true_2).
  cbn. by rewrite app_nil_r.
Qed.

Lemma step_claimed fl fs now token created d r d' : claim_account fl fs now token user created d = Ok (r, d') -> step true d d'.
Proof.
  unfold claim_account, give_access. destruct (select_first _ _) as [k|]; [|by intros [= _ <-]].
  destruct (select_first _ (accounts d)) as [a|]; [|by intros [= _ <-]].
  set (d1 := set_link_tokens _ d). assert (step true d d1) as H1.
  { apply step_same; try done. cbn. by rewrite update_where_proj. }
  destruct (add_link _ _ _ _ d1) as [d2|] eqn:E2; [|done].
  destruct (point_session _ _ _ _ d2) as [d3|] eqn:E3; [|done]. intros [= _ <-].
  etransitivity; [exact H1|]. etransitivity; [by eapply step_add_link|]. by eapply step_pointed.
Qed.
End transactions.

(** ** The routes *)
Lemma always_user_session {A} user may linking (t : instant -> Db -> res exn (A * Db)) :
  (forall now d a d', t now d = Ok (a, d') -> user_db_step user may linking d d') ->
  always (user_step user may linking) (session t).
Proof.
  intros H. apply always_session; [apply user_frame|]. intros w w' a Ho _ Ht.
  split; [by eapply H|]. exists []. by rewrite app_nil_r.
Qed.

Create HintDb user_steps.

(** Follows a program's structure down to its steps. *)
Ltac user_steps :=
  repeat first
    [ apply always_ret | apply always_raise
    | progress eauto 1 with user_steps
    | apply always_uuid4, user_frame | apply always_clock, user_frame | apply always_query, user_frame
    | apply always_bind; [|intros ?] | apply always_catch; [|intros ?] | apply always_attempt
    | case_match ].

Section routes.
Context `{CFG : Settings} `{SP : SettingsPydantic} `{CA : RowChoice Account} `{TC : TradeColumns}.
Context `{BS : BotSettings} `{UP : BotHttp}.
Context (tid : Z) (may : uuid -> Prop).
Abbreviation G := (user_step (str_int tid) may).

Lemma user_active linking : always (G linking) (get_active_account tid).
Proof.
  unfold get_active_account, list_by_telegram_user_id, session_or. user_steps.
  apply always_user_session. intros now d [] d'. destruct (point_session _ _ _ _ d) eqn:E; [|done]. intros [= <-].
  by eapply step_pointed.
Qed.
#[local] Hint Resolve user_active : user_steps.

Lemma user_linked linking : always (G linking) (get_linked_account tid).
Proof. unfold get_linked_account. user_steps. Qed.
#[local] Hint Resolve user_linked : user_steps.

Lemma user_get_account linking : always (G linking) (get_account tid).
Proof. unfold get_account. user_steps. Qed.

Lemma user_list_accounts : always (G false) (list_accounts tid).
Proof. unfold list_accounts, list_by_telegram_user_id. user_steps. Qed.

Lemma user_switch id : always (G false) (switch_account tid id).
Proof.
  unfold switch_account, set_active_account, session_or. user_steps. apply always_user_session.
  intros now d r d'. destruct (held_account _ _ d) as [x|]; [|by intros [= _ <-]].
  destruct (point_session _ _ _ _ d) eqn:E; [|done]. intros [= _ <-]. by eapply step_pointed.
Qed.

Lemma user_unlink : always (G false) (unlink_account tid).
Proof.
  unfold unlink_account, unlink_telegram, session_or. user_steps. apply always_user_session.
  intros now d r d' [= _ <-]. apply step_drop.
Qed.

Lemma user_link token : always (G true) (link_account token tid).
Proof.
  unfold link_account, link_telegram, session_or. user_steps. apply always_user_session.
  intros. by eapply step_claimed.
Qed.

Lemma user_cards enabled : always (G false) (switch_broadcast tid enabled).
Proof.
  unfold switch_broadcast, set_enabled. user_steps. apply always_user_session. intros now d r d' [= _ <-].
  apply step_cards.
Qed.

Lemma user_cards_all enabled : always (G false) (switch_broadcast_all tid enabled).
Proof.
  unfold switch_broadcast_all, set_enabled_everywhere. user_steps. apply always_user_session.
  intros now d r d' [= _ <-]. apply step_cards.
Qed.

Lemma user_trades limit offset : always (G false) (list_trades tid limit offset).
Proof. unfold list_trades, trade_page, list_by_account, count_by_account. user_steps. Qed.

Lemma user_positions : always (G false) (list_open_positions tid).
Proof. unfold list_open_positions, list_open_by_account. user_steps. Qed.

Lemma user_trade id : always (G false) (get_trade_response tid id).
Proof. unfold get_trade_response. user_steps. Qed.

Lemma user_get_cap : always (G false) (get_max_open_orders tid).
Proof. unfold get_max_open_orders, setting_get. user_steps. Qed.

Lemma user_timezone : always (G false) get_notification_timezone.
Proof. unfold get_notification_timezone, setting_get. user_steps. Qed.
End routes.

(** ** Runs that keep a fact *)

(** From any world where [I] holds, [p] runs through steps of [G]. *)
Definition tame {A} (I : World -> Prop) (G : relation World) (p : prog A) : Prop :=
  forall w, I w -> G w (run p w).2.

Section tame.
Context (I : World -> Prop) (G : relation World) `{!PreOrder G}.
Hypothesis kept : stable G I.

Lemma tame_always {A} (p : prog A) : always G p -> tame I G p.
Proof. intros H w _. by apply always_run. Qed.

Lemma tame_bind {A B} (p : prog A) (q : A -> prog B) : tame I G p -> (forall a, tame I G (q a)) -> tame I G (bind p q).
Proof.
  intros Hp Hq w Hw. rewrite run_bind. specialize (Hp w Hw). destruct (run p w) as [[a|e] w1]; [|done].
  cbn in Hp. etransitivity; [exact Hp|]. apply Hq. by eapply kept.
Qed.

Lemma tame_catch {A} (p : prog A) h : tame I G p -> (forall e, tame I G (h e)) -> tame I G (catch p h).
Proof.
  intros Hp Hq w Hw. rewrite run_catch. specialize (Hp w Hw). destruct (run p w) as [[a|e] w1]; [done|].
  cbn in Hp. etransitivity; [exact Hp|]. apply Hq. by eapply kept.
Qed.

Lemma tame_attempt {A} (p : prog A) : tame I G p -> tame I G (attempt p).
Proof. intros Hp w Hw. rewrite run_attempt. specialize (Hp w Hw). by destruct (run p w). Qed.

Lemma tame_ret {A} (a : A) : tame I G (Ret a).
Proof. intros w _. reflexivity. Qed.

Lemma tame_raise {A} e : tame I G (Raise (A:=A) e).
Proof. intros w _. reflexivity. Qed.
End tame.

(** Everything [user] holds is in [may]. *)
Definition mine (user : string) (may : uuid -> Prop) (w : World) : Prop :=
  forall a, a ∈ accounts (db w) -> holds user (db w) a = true -> may (ac_id a).

Lemma mine_kept user may : stable (user_step user may false) (mine user may).
Proof.
  intros w w' [Hd _] Hm a' Ha' (l' & Hl' & (Hp & Hu & Hid)%link_of_true)%holds_true.
  destruct (stepped_account _ _ _ _ _ _ Hd Ha') as (a & Ha & Ei & _). rewrite Ei.
  destruct (us_own_links _ _ _ _ _ Hd eq_refl l' Hl') as (l & Hl & Hu1 & Hid1).
  { unfold link_of. by rewrite !bool_decide_eq_true_2. }
  apply Hm; [done|]. apply holds_true. exists l. split; [done|]. unfold link_of in *. rewrite andb_true_r in Hu1.
  rewrite Hu1. apply bool_decide_eq_true. congruence.
Qed.

Section commands.
Context `{CFG : Settings} `{SP : SettingsPydantic} `{CA : RowChoice Account} `{TC : TradeColumns}.
Context `{BS : BotSettings} `{UP : BotHttp}.
Context (tid : Z) (may : uuid -> Prop).
Abbreviation G := (user_step (str_int tid) may false).
Abbreviation I := (mine (str_int tid) may).
Abbreviation tamed := (tame I G).

(** The account [a] is still registered, as its worker is addressed. *)
Definition known (a : Account) (w : World) : Prop := exists a', a' ∈ accounts (db w) /\ same_worker a a'.

Lemma known_kept a : stable G (known a).
Proof.
  intros w w' [Hd _] (a' & Ha & Hw). destruct (account_steps _ _ _ _ _ _ Hd Ha) as (x & Hx & Hw').
  exists x. split; [done|]. unfold same_worker in *. destruct_and!. split_and!; congruence.
Qed.

(** What runs once the account is known may act on it. *)
Lemma tame_linked {B} (q : Account -> prog B) :
  (forall a, may (ac_id a) -> tame (known a) G (q a)) -> tamed (bind (get_linked_account tid) q).
Proof.
  intros Hq w Hw. rewrite run_bind. pose proof (always_run G _ w (user_linked tid may false)) as Hs.
  destruct (run_linked tid w) as (w1 & (Ha & Hl & _) & [(a & E & Hin & Hh)|[e E]]); rewrite E in *; cbn in *; [|done].
  etransitivity; [exact Hs|]. apply Hq; [by apply Hw|]. exists a. by rewrite Ha.
Qed.

(** A message to the worker of [a]. *)
Lemma sent_step a e w w' :
  may (ac_id a) -> known a w -> speaks_to a e -> db w' = db w -> out w' = out w ++ [e] -> G w w'.
Proof.
  intros Hm (a' & Ha & Hw) Hs Hd Ho. split; [by rewrite Hd|]. exists [e]. split; [done|]. apply Forall_singleton.
  exists a'. split; [done|]. split; [by rewrite (proj1 Hw)|]. by apply (same_worker_speaks a a').
Qed.

Lemma publish_step a s :
  may (ac_id a) -> (admin_signal_valid s = true -> speaks_to a (SentAdmin (admin_subject s) s)) ->
  tame (known a) G (publish_admin_signal s).
Proof.
  intros Hm Hs w Ha. destruct (run_publish_admin s w) as (w1 & Hd & [(Hv & Ho & Hr)|(e & E & Ho)]).
  - assert ((run (publish_admin_signal s) w).2 = w1) as -> by (by destruct Hr as [-> | ->]).
    by apply (sent_step a (SentAdmin (admin_subject s) s)); [| |auto|..].
  - rewrite E. by apply user_same.
Qed.

Lemma command_step action a strategy symbol t :
  may (ac_id a) -> action ∈ [ADMIN_FLAT; BLOCK_SIGNAL; ALLOW_SIGNAL] ->
  tame (known a) G (publish_admin_signal (command_signal action a strategy symbol t)).
Proof.
  intros Hm Hact. apply publish_step; [done|]. intros Hv. destruct (command_subject _ _ _ _ _ Hv) as (g & Hg & Hsub).
  exists g. split; [congruence|]. done.
Qed.

Lemma push_step a settings :
  may (ac_id a) ->
  tame (known a) G (push_worker_settings_update (ac_account_id a) (ac_market a) (ac_gateway a) settings).
Proof.
  intros Hm. unfold push_worker_settings_update. destruct (ac_gateway a) as [g|] eqn:Eg; [|by apply tame_ret; apply _].
  cbn [no_gateway]. destruct (is_empty g); [by apply tame_ret; apply _|].
  apply tame_catch; [apply _|apply known_kept| |intros; apply tame_ret; apply _].
  intros w Ha. unfold publish_system_settings_update, nats. rewrite run_act.
  match goal with |- context [nats_step ?e w] => set (ev := e); pose proof (nats_cases ev w) as H end.
  destruct (nats_step ev w) as [r w']. destruct H as (Hd & _ & _ & [[Ho _]|[Ho _]]); [|by apply user_same].
  apply (sent_step a ev); try done. exists g. split; [congruence|done].
Qed.

Lemma update_step a patch : may (ac_id a) -> tame (known a) G (update_settings (ac_id a) patch).
Proof.
  intros Hm. apply tame_always; [apply _|]. unfold update_settings, session_or. user_steps. apply always_user_session.
  intros now d r d' [= _ <-]. by apply step_settings.
Qed.

Ltac known_steps :=
  repeat first
    [ apply tame_ret; apply _ | apply tame_raise; apply _
    | apply update_step; assumption | apply push_step; assumption
    | apply command_step; [assumption|repeat case_match; set_solver]
    | apply tame_always; [apply _|]; unfold setting_get; solve [user_steps]
    | apply tame_bind; [apply _|apply known_kept| |intros ?]
    | case_match ].

Lemma user_flat strategy symbol : tamed (flat tid strategy symbol).
Proof. apply tame_linked. intros a Hm. known_steps. Qed.

Lemma user_prevent enabled : tamed (prevent tid enabled).
Proof. apply tame_linked. intros a Hm. cbv zeta. known_steps. Qed.

Lemma user_set_cap m : tamed (set_max_open_orders tid m).
Proof. apply tame_linked. intros a Hm. cbv zeta. known_steps. Qed.

Lemma user_exit id : tamed (exit_trade tid id).
Proof.
  intros w Hw. unfold exit_trade, get_own_trade, get_for_telegram_user. rewrite run_bind, run_bind, run_catch.
  destruct (run_query_cases (own_trade id (str_int tid)) w) as (w1 & Hd1 & Ho1 & [E|[e E]]); rewrite E;
    [|by apply user_same].
  destruct (own_trade id (str_int tid) (db w)) as [trade|] eqn:Et; cbn [run]; [|by apply user_same].
  apply select_first_Some in Et as [_ [_ Hown]%andb_prop].
  apply existsb_exists in Hown as (a & Ha%list_elem_of_In & [Hat Hh]%andb_prop).
  destruct (is_terminal trade); [by apply user_same|]. transitivity w1; [by apply user_same|].
  assert (may (ac_id a)) as Hm by (by apply Hw). assert (known a w1) as Hk by (exists a; by rewrite Hd1).
  clear E Hd1 Ho1. revert w1 Hk. apply tame_bind; [apply _|apply known_kept|apply tame_always; [apply _|user_steps]|].
  intros t. apply tame_bind; [apply _|apply known_kept| |intros; apply tame_ret; apply _].
  apply publish_step; [done|]. unfold admin_signal_valid, admin_subject. cbn.
  apply andb_prop in Hat as [[H1%bool_decide_eq_true H2%bool_decide_eq_true]%andb_prop H3].
  rewrite <-H2. destruct (tr_gateway trade) as [g|] eqn:Eg; [|done]. intros _. exists g. split.
  - intros g' Hg'. rewrite Hg' in H3. apply bool_decide_eq_true in H3. congruence.
  - cbn. rewrite <-H1. split; [done|]. split; [done|]. set_solver.
Qed.
End commands.

(** ** Through the bot *)
Section through_bot.
Context `{CFG : Settings} `{SP : SettingsPydantic} `{CA : RowChoice Account} `{TC : TradeColumns}.
Context `{BS : BotSettings} `{UP : BotHttp} `{BE : BotEnv}.

Section generic.
Context (user : string) (may : uuid -> Prop) (linking : bool) (I : World -> Prop).
Abbreviation G := (user_step user may linking).
Hypothesis kept : stable G I.

(** What the bot does to itself and to Telegram is no step of the broker. *)
Lemma with_bot_tame {A} (f : BotState -> res exn A * BotState) : tame I G (with_bot f).
Proof. intros w _. unfold with_bot. rewrite run_act. destruct (f (bot w)). by apply user_same. Qed.

Lemma request_tame {B A} (body : option B) (route : B -> prog A) :
  (forall b, tame I G (route b)) -> tame I G (request body route).
Proof.
  intros Hr. unfold request.
  assert (tame I G (attempt (do! ensure_api_key (Some bot_BROKER_API_KEY) in
            match body with Some b => route b | None => Raise ValidationError end))) as Hs.
  { apply tame_attempt, tame_bind; [apply _|done| |intros _; destruct body; [done|by apply tame_raise, _]].
    unfold ensure_api_key. repeat case_match; first [apply tame_ret, _|apply tame_raise, _]. }
  apply tame_bind; [apply _|done|apply with_bot_tame|]. intros [| |].
  - apply tame_bind; [apply _|done|done|]. intros. apply tame_ret, _.
  - apply tame_ret, _.
  - apply tame_bind; [apply _|done|done|]. intros. apply tame_ret, _.
Qed.

Lemma call_tame {B A} (body : option B) (route : B -> prog A) :
  (forall b, tame I G (route b)) -> tame I G (call body route).
Proof.
  intros Hr. apply tame_bind; [apply _|done|by apply request_tame|]. intros. apply tame_ret, _.
Qed.

(** A trade named by one segment of the path is asked for at its own route. *)
Lemma trade_request_tame {A} id path (route : uuid -> prog A) elsewhere :
  one_segment id = true -> (forall b, tame I G (route b)) -> tame I G (trade_request id path route elsewhere).
Proof.
  intros Hs Hr. unfold trade_request. rewrite Hs. destruct (negb _); [by apply tame_raise, _|by apply call_tame].
Qed.
End generic.

(** Follows a handler down to its requests. *)
Ltac head t := lazymatch t with ?f _ => head f | _ => t end.

Ltac handler_step kept routes :=
  first
    [ apply tame_ret; apply _ | apply tame_raise; apply _
    | apply with_bot_tame
    | apply trade_request_tame; [exact kept|solve [eauto]|intros ?; routes]
    | apply call_tame; [exact kept|intros ?; routes]
    | apply request_tame; [exact kept|intros ?; routes]
    | apply tame_bind; [apply _|exact kept| |intros ?]
    | case_match
    | progress cbv zeta beta
    | match goal with |- tame _ _ ?p => let h := head p in unfold h end ].

Ltac handler kept routes := repeat handler_step kept routes.

Section one_user.
Context (u : Update).
Abbreviation user := (str_int (up_user u)).

Abbreviation linking_only := (tame (fun _ => True) (user_step user (fun _ => False) true)).
Abbreviation on_own := (fun may => tame (mine user may) (user_step user may false)).

Lemma anything_kept : stable (user_step user (fun _ => False) true) (fun _ => True).
Proof. done. Qed.

Ltac linking_routes := apply tame_always; [apply _|]; eauto using user_link, user_get_account.

Ltac own_routes :=
  first
    [ apply user_flat | apply user_prevent | apply user_set_cap | apply user_exit
    | apply tame_always; [apply _|];
      eauto using user_get_account, user_list_accounts, user_switch, user_unlink, user_cards, user_cards_all, user_trades,
        user_positions, user_trade, user_get_cap, user_timezone ].

(** An update that may carry an invite code: a deep link, or a text sent after
    [/link]. *)
Definition presents_code (state : option BotFsm) : bool :=
  match up_event u with
  | MsgCommand c args => String.eqb c "start" && negb (is_empty args)
  | MsgText _ => bool_decide (state = Some LinkAccount_waiting_for_token)
  | _ => false
  end.

(** Unless it is a card's button whose third part, which is taken for the trade's id,
    is no segment of a path. *)
Definition plain_card : bool :=
  match trade_card_router u, up_event u with
  | Some _, Callback data => match trade_id_of data with Some id => one_segment id | None => true end
  | _, _ => true
  end.

Section own.
Context (may : uuid -> Prop).

Lemma own_start_tame state h : start_router u = Some h -> presents_code state = false -> on_own may h.
Proof.
  unfold start_router, presents_code. destruct (up_event u) as [c args| | |]; [|done..]. destruct (String.eqb c "start"); [|done].
  destruct (is_empty args); [|done]. intros [= <-] _. handler (mine_kept user may) own_routes.
Qed.

Lemma own_link_tame state h : link_router u state = Some h -> presents_code state = false -> on_own may h.
Proof.
  unfold link_router, no_text, presents_code. destruct (up_event u) as [c args|text| |data];
    [destruct (String.eqb c "link"); [|done]|..|done]; repeat case_match; intros [= <-] ?; subst; try done;
    handler (mine_kept user may) own_routes.
Qed.
End own.

(** An update with a code gives access; it acts on no account. *)
Lemma start_tame h : start_router u = Some h -> linking_only h.
Proof.
  unfold start_router. destruct (up_event u) as [c args| | |]; [|done..]. destruct (String.eqb c "start"); [|done].
  intros [= <-]. handler anything_kept linking_routes.
Qed.

Lemma linking_middleware : linking_only (menu_middleware u).
Proof. handler anything_kept linking_routes. Qed.

Lemma link_tame state h : link_router u state = Some h -> linking_only h.
Proof.
  unfold link_router, no_text. destruct (up_event u) as [c args|text| |data]; [destruct (String.eqb c "link"); [|done]|..|done];
    repeat case_match; intros [= <-]; handler anything_kept linking_routes.
Qed.

Section own.
Context (may : uuid -> Prop).

Lemma card_tame h : plain_card = true -> trade_card_router u = Some h -> on_own may h.
Proof.
  intros Hp Hr. unfold plain_card in Hp. rewrite Hr in Hp. revert Hr.
  unfold trade_card_router. destruct (up_event u) as [| | |data]; [done..|].
  assert (forall id, trade_id_of data = Some id -> one_segment id = true) as Hseg by (intros id E; by rewrite E in Hp).
  clear Hp. repeat case_match; intros [= <-]; handler (mine_kept user may) own_routes.
Qed.

Lemma auth_tame account (h : LinkedAccountResponse -> prog unit) :
  (forall a, on_own may (h a)) -> on_own may (with_account u account h).
Proof.
  intros Hh. unfold with_account. apply tame_bind; [apply _|apply mine_kept| |].
  - destruct account; handler (mine_kept user may) own_routes.
  - intros [a|]; [apply Hh|]. handler (mine_kept user may) own_routes.
Qed.

Lemma trades_tame h a : trades_router u = Some h -> on_own may (h a).
Proof.
  unfold trades_router. destruct (up_event u) as [c args|text| |data]; try done; case_match; try done; intros [= <-];
    handler (mine_kept user may) own_routes.
Qed.

Lemma help_tame h a : help_router u = Some h -> on_own may (h a).
Proof.
  unfold help_router. destruct (up_event u) as [c args|text| |data]; try done; case_match; try done; intros [= <-];
    handler (mine_kept user may) own_routes.
Qed.

Lemma commands_tame state h a : commands_router u state = Some h -> on_own may (h a).
Proof.
  unfold commands_router. destruct (up_event u) as [c args|text| |data]; repeat case_match; try done; intros [= <-];
    handler (mine_kept user may) own_routes.
Qed.

Lemma account_tame h a : account_router u = Some h -> on_own may (h a).
Proof.
  unfold account_router. destruct (up_event u) as [c args|text| |data]; repeat case_match; try done; intros [= <-];
    handler (mine_kept user may) own_routes.
Qed.

Lemma middleware_tame : on_own may (menu_middleware u).
Proof. handler (mine_kept user may) own_routes. Qed.
End own.

(** An update of a user who is no administrator, whatever router takes it. *)
Lemma route_tame may state account h w :
  is_admin (up_user u) = false -> plain_card = true -> route_update u state account = Some h -> mine user may w ->
  user_step user may (presents_code state) w (run h w).2.
Proof.
  intros Ha Hpc Hr Hw. assert (forall p : prog unit, on_own may p -> user_step user may (presents_code state) w (run p w).2) as Hown.
  { intros p Hp. eapply user_step_mono; [| |by apply Hp]; done. }
  assert (forall p : prog unit, linking_only p -> presents_code state = true ->
            user_step user may (presents_code state) w (run p w).2) as Hlink.
  { intros p Hp E. eapply user_step_mono; [| |by apply Hp]; [done|]. rewrite E. done. }
  unfold route_update, admin_router in Hr. rewrite Ha in Hr. cbn [or_next] in Hr.
  destruct (start_router u) eqn:E; cbn [or_next] in Hr.
  { injection Hr as <-. destruct (presents_code state) eqn:Ep; [apply Hlink; [by apply start_tame|done]|].
    apply Hown. by eapply own_start_tame. }
  clear E. destruct (help_router u) eqn:E; cbn [or_next] in Hr.
  { injection Hr as <-. apply Hown, auth_tame. intros. by eapply help_tame. }
  clear E. destruct (link_router u state) eqn:E; cbn [or_next] in Hr.
  { injection Hr as <-. destruct (presents_code state) eqn:Ep; [apply Hlink; [by eapply link_tame|done]|].
    apply Hown. by eapply own_link_tame. }
  clear E. destruct (trade_card_router u) eqn:E; cbn [or_next] in Hr.
  { injection Hr as <-. apply Hown. by apply card_tame. }
  clear E. destruct (trades_router u) eqn:E; cbn [or_next] in Hr.
  { injection Hr as <-. apply Hown, auth_tame. intros. by eapply trades_tame. }
  clear E. destruct (commands_router u state) eqn:E; cbn [or_next] in Hr.
  { injection Hr as <-. apply Hown, auth_tame. intros. by eapply commands_tame. }
  clear E. destruct (account_router u) eqn:E; [|done].
  injection Hr as <-. apply Hown, auth_tame. intros. by eapply account_tame.
Qed.
End one_user.

(** The accounts [user] is linked to. *)
Definition held_by (user : string) (d : Db) (id : uuid) : Prop :=
  exists a, a ∈ accounts d /\ ac_id a = id /\ holds user d a = true.

(** C16. A user acts on the user's own accounts only.  Whatever an update of a user
    who is no administrator says or taps — an administrator's command, a forged
    button, another user's trade id — as long as a tapped card's id stays one segment of the path it is
    put into (one that does not can reach any route of the broker), and whatever the database, NATS, the HTTP
    requests and Telegram do: no broker setting, signal, cycle, trade, card or secret
    changes (but a secret's time of last use), other users' links and sessions
    stay; an account's settings change only if the user held it; links of the user
    appear only where the update carries an invite code; and everything sent to NATS
    is a directive or a settings push addressed to the worker of an account the
    user held. *)
Theorem user_acts_on_own_accounts u w r w' :
  is_admin (up_user u) = false -> plain_card u = true -> run (handle_update u) w = (r, w') ->
  let user := str_int (up_user u) in
  user_step user (held_by user (db w)) (presents_code u (fs_state (context_of u (bot w)))) w w'.
Proof.
  intros Ha Hpc. cbv zeta. set (user := str_int (up_user u)). set (may := held_by user (db w)). intros H.
  assert (mine user may w) as Hw by (intros a Hin Hh; by exists a).
  unfold handle_update in H. rewrite run_bind in H. unfold get_state, with_bot in H. rewrite run_act in H. cbv beta iota in H.
  set (state := fs_state (context_of u (bot w))) in *. set (w1 := set_bot _ w) in H.
  assert (mine user may w1) as Hw1 by exact Hw.
  transitivity w1; [by apply user_same|]. rewrite run_bind in H. pose proof (middleware_tame u may w1 Hw1) as Hm.
  destruct (run (menu_middleware u) w1) as [[account|e] w2]; cbn in Hm.
  - assert (mine user may w2) as Hw2 by (by eapply mine_kept).
    transitivity w2; [by eapply user_step_mono; [| |exact Hm]|].
    destruct (route_update u state account) as [h|] eqn:E; [|cbn in H; injection H as <- <-; reflexivity].
    pose proof (route_tame u may state account h w2 Ha Hpc E Hw2) as Hs. rewrite H in Hs. exact Hs.
  - injection H as <- <-. by eapply user_step_mono; [| |exact Hm].
Qed.
End through_bot.
