(* ===== verification/BotMenu.v ===== *)
(** * The command menus

    [services/menu.py]: what the bot remembers of the menus it applied is what
    the chats show, as long as updates are handled one after the other and no answer
    of Telegram is lost on its way back. *)

From S2P Require Import Prelude PyStr Uuid PyTime Json JsonText Enums Schemas Models ChatTargets BotState World Settings TimeZone.
From S2P Require Import StatusPolicies Samples SignalRepo SignalHelper SignalService SignalWorker.
From S2P Require Import BroadcastRepo BroadcastService Dispatcher TradeRepo AccountRepo AccountLinks Notifications AccountSettings.
From S2P Require Import TradeConsumer TradeCards TelegramApi AdminApi BotClient BotTable BotText BotCore BotUser BotAdmin BotApp TelegramFlow BotRun BotSafety.
From stdpp Require Import gmap.

(** ** What a chat shows *)

(** The menu Telegram accepted last for [chat], whether its answer arrived or not. *)
Definition shown_after (chat : Z) (m : option (list (string * string))) (x : bot_call * bot_api_result)
    : option (list (string * string)) :=
  match x with
  | (SetMyCommands (Some id) commands, ApiOk) | (SetMyCommands (Some id) commands, ApiLost) => if Z.eqb id chat then Some commands else m
  | _ => m
  end.

Definition shown (chat : Z) (said : list (bot_call * bot_api_result)) : option (list (string * string)) :=
  fold_left (shown_after chat) said None.

(** The answer to the last menu accepted for [chat] was lost. *)
Definition unsure_after (chat : Z) (b : bool) (x : bot_call * bot_api_result) : bool :=
  match x with
  | (SetMyCommands (Some id) _, ApiOk) => if Z.eqb id chat then false else b
  | (SetMyCommands (Some id) _, ApiLost) => if Z.eqb id chat then true else b
  | _ => b
  end.

Definition unsure (chat : Z) (said : list (bot_call * bot_api_result)) : bool := fold_left (unsure_after chat) said false.

#[global] Arguments shown : simpl never.
#[global] Arguments unsure : simpl never.

Lemma shown_snoc chat said x : shown chat (said ++ [x]) = shown_after chat (shown chat said) x.
Proof. unfold shown. by rewrite fold_left_app. Qed.

Lemma unsure_snoc chat said x : unsure chat (said ++ [x]) = unsure_after chat (unsure chat said) x.
Proof. unfold unsure. by rewrite fold_left_app. Qed.

(** A call that sets no chat's menu. *)
Definition no_menu (c : bot_call) : Prop := match c with SetMyCommands (Some _) _ => False | _ => True end.

Lemma shown_other chat said c r : no_menu c -> shown chat (said ++ [(c, r)]) = shown chat said.
Proof. intros H. rewrite shown_snoc. by destruct c as [| | |[|] ?]. Qed.

Lemma unsure_other chat said c r : no_menu c -> unsure chat (said ++ [(c, r)]) = unsure chat said.
Proof. intros H. rewrite unsure_snoc. by destruct c as [| | |[|] ?]. Qed.

Section menus.
Context `{CFG : Settings} `{SP : SettingsPydantic} `{CA : RowChoice Account} `{TC : TradeColumns}.
Context `{BS : BotSettings} `{UP : BotHttp} `{BE : BotEnv}.

(** Every menu a chat shows is one of the two its user may have.  So is every menu the
    bot remembers, and it is the one the chat shows, unless the last answer
    about it was lost. *)
Definition menus_ok (b : BotState) : Prop :=
  (forall chat c, shown chat (bt_said b) = Some c -> exists linked, c = menu_for linked (is_admin chat)) /\
  (forall chat m, bt_applied b !! chat = Some m ->
    exists linked, m = map fst (menu_for linked (is_admin chat)) /\
      (unsure chat (bt_said b) = false -> shown chat (bt_said b) = Some (menu_for linked (is_admin chat)))).

Definition truthful (w : World) : Prop := menus_ok (bot w).
Definition menu_step (w w' : World) : Prop := truthful w -> truthful w'.

#[local] Instance menu_step_preorder : PreOrder menu_step.
Proof. split; [by intros w H|]. intros w1 w2 w3 H1 H2 H. exact (H2 (H1 H)). Qed.

Lemma truthful_kept : stable menu_step truthful.
Proof. intros w w' H. apply H. Qed.

Lemma menus_frame b b' : bt_applied b' = bt_applied b -> bt_said b' = bt_said b -> menus_ok b -> menus_ok b'.
Proof. unfold menus_ok. by intros -> ->. Qed.

Abbreviation tamed := (tame truthful menu_step).

Lemma tame_same_bot {A} (p : prog A) : always same_bot p -> tamed p.
Proof. intros H w _. destruct (always_run same_bot p w H) as [E _]. unfold menu_step, truthful. by rewrite E. Qed.

Lemma tame_with_bot {A} (f : BotState -> res exn A * BotState) :
  (forall b, bt_applied (f b).2 = bt_applied b /\ bt_said (f b).2 = bt_said b) -> tamed (with_bot f).
Proof.
  intros Hf w _. rewrite run_with_bot. destruct (Hf (bot w)). unfold menu_step, truthful. by apply menus_frame.
Qed.

Lemma run_api c w :
  exists r l, run (bot_api c) w =
    (Ok r, set_bot {| bt_fsm := bt_fsm (bot w); bt_applied := bt_applied (bot w); bt_said := bt_said (bot w) ++ [(c, r)];
                      bt_net := bt_net (bot w); bt_api := l |} w).
Proof. unfold bot_api. rewrite run_with_bot. destruct (bt_api (bot w)) as [|r l]; eauto. Qed.

Lemma tame_api c : no_menu c -> tamed (bot_api c).
Proof.
  intros Hc w [Hw1 Hw2] _. destruct (run_api c w) as (r & l & ->). unfold truthful, menus_ok. cbn.
  split; intros chat; rewrite shown_other, ?unsure_other by done; [apply Hw1|apply Hw2].
Qed.

(** A menu sent to a chat, and what the bot remembers after it. *)
Lemma menus_sent chat linked r applied b :
  menus_ok b -> applied = (match r with ApiOk => <[chat := map fst (menu_for linked (is_admin chat))]> | _ => fun m => m end) (bt_applied b) ->
  forall fsm net api, menus_ok {| bt_fsm := fsm; bt_applied := applied;
    bt_said := bt_said b ++ [(SetMyCommands (Some chat) (menu_for linked (is_admin chat)), r)]; bt_net := net; bt_api := api |}.
Proof.
  intros [H1 H2] -> fsm net api. split; cbn; intros id.
  - intros c. rewrite shown_snoc. cbn. destruct r; try apply H1; (destruct (Z.eqb_spec chat id) as [<-|]; [intros [= <-]; by exists linked|apply H1]).
  - intros m. rewrite shown_snoc, unsure_snoc. cbn. destruct (Z.eqb_spec chat id) as [<-|Hne].
    + destruct r; try apply H2; [rewrite lookup_insert_eq; intros [= <-]; by exists linked|].
      intros (k & E & _)%H2. by exists k.
    + destruct r; try apply H2. rewrite lookup_insert_ne by done. apply H2.
Qed.

Lemma tame_sync user_id linked : tamed (sync user_id linked).
Proof.
  intros w Hw _. unfold sync, applied_menu. cbv zeta. rewrite run_bind, run_with_bot. cbn [fst snd]. rewrite set_bot_same.
  case_bool_decide; [done|]. rewrite run_bind.
  destruct (run_api (SetMyCommands (Some user_id) (menu_for linked (is_admin user_id))) w) as (r & l & ->). cbv beta iota.
  destruct r; [unfold set_applied; rewrite run_with_bot|..]; cbn [fst snd]; by apply (menus_sent user_id linked _ _ (bot w)).
Qed.

Lemma tame_untouched {A} (p : prog A) : (forall w, bot (run p w).2 = bot w) -> tamed p.
Proof. intros H w _. unfold menu_step, truthful. by rewrite H. Qed.

Lemma tame_request_untouched {B A} (body : option B) (route : B -> prog A) :
  (forall b w, bot (run (route b) w).2 = bot w) -> tamed (request body route).
Proof.
  intros Hr. unfold request. apply tame_bind; [apply _|exact truthful_kept| |].
  - apply tame_with_bot. intros b. by destruct (bt_net b).
  - assert (tamed (attempt (do! ensure_api_key (Some bot_BROKER_API_KEY) in
              match body with Some b => route b | None => Raise ValidationError end))) as Hs.
    { apply tame_untouched. intros v. rewrite run_attempt, run_bind.
      assert (run (ensure_api_key (Some bot_BROKER_API_KEY)) v = (Ok tt, v) \/ exists e, run (ensure_api_key (Some bot_BROKER_API_KEY)) v = (Err e, v))
        as [-> | [e ->]] by (unfold ensure_api_key; repeat case_match; eauto); [|done].
      destruct body as [b|]; [|done]. specialize (Hr b v). by destruct (run (route b) v). }
    intros [| |]; [|apply tame_ret, _|]; (apply tame_bind; [apply _|exact truthful_kept|exact Hs|]);
      intros ?; apply tame_ret, _.
Qed.

Lemma tame_request {B A} (body : option B) (route : B -> prog A) :
  (forall b, always same_bot (route b)) -> tamed (request body route).
Proof. intros Hr. apply tame_request_untouched. intros b w. by apply (always_run same_bot). Qed.

Lemma same_link token tid : always same_bot (link_account token tid). Proof. bot_steps. Qed.
Lemma same_get tid : always same_bot (get_account tid). Proof. bot_steps. Qed.
Lemma same_register b : always same_bot (register_account b). Proof. bot_steps. Qed.
Lemma same_flat b : always same_bot (flat_positions b). Proof. bot_steps. Qed.
Lemma same_rotate id : always same_bot (rotate_account_token id). Proof. bot_steps. Qed.
Lemma same_admin_link id tid : always same_bot (link_telegram_to_account id tid). Proof. bot_steps. Qed.
Lemma same_accounts : always same_bot list_all_accounts. Proof. bot_steps. Qed.
Lemma same_page id limit offset : always same_bot (trade_page id limit offset). Proof. bot_steps. Qed.
Lemma same_timezone : always same_bot get_notification_timezone. Proof. bot_steps. Qed.
Lemma same_value key : always same_bot (setting_value key). Proof. bot_steps. Qed.
Lemma same_toggle slug : always same_bot (toggle_route slug). Proof. bot_steps. Qed.
Lemma same_magic m : always same_bot (set_strategy_magic_map m). Proof. bot_steps. Qed.
Lemma same_symbols l : always same_bot (set_crypto_allowed_symbol l). Proof. bot_steps. Qed.
Lemma same_leverage z : always same_bot (set_crypto_max_leverage z). Proof. bot_steps. Qed.
Lemma same_cap z : always same_bot (set_default_max_open_orders z). Proof. bot_steps. Qed.
Lemma same_chats l : always same_bot (set_public_broadcast_chat_ids l). Proof. bot_steps. Qed.
Lemma same_notify key b : always same_bot (set_reply_notify key b). Proof. bot_steps. Qed.

#[local] Hint Resolve same_link same_get same_register same_flat same_rotate same_admin_link same_accounts same_page
  same_timezone same_value same_toggle same_magic same_symbols same_leverage same_cap same_chats same_notify : same_bot.

(** Follows a handler down to its requests and its calls. *)
Ltac menu_step :=
  lazymatch goal with |- tame _ _ ?p =>
    let h := head p in
    lazymatch h with
    | @Ret => apply tame_ret; apply _
    | @Raise => apply tame_raise; apply _
    | @sync => apply tame_sync
    | @bot_api => apply tame_api; exact I
    | @with_bot => apply tame_with_bot; intros ?; cbn; repeat case_match; done
    | @request =>
        first [apply tame_request_untouched; intros ? ?; solve [apply get_elsewhere_bot | apply post_elsewhere_bot]
              |apply tame_request]; intros ?; cbv beta; first [solve [eauto 1 with same_bot] | bot_steps]
    | @bind => apply tame_bind; [apply _|exact truthful_kept| |intros ?]
    | _ => first [progress cbv zeta beta | unfold h | case_match]
    end
  end.

Ltac menu_steps := repeat menu_step.

Lemma middleware_menus u : tamed (menu_middleware u).
Proof. menu_steps. Qed.

Lemma admin_menus u state h : admin_router u state = Some h -> tamed h.
Proof.
  unfold admin_router. destruct (is_admin (up_user u)); [|done].
  destruct (up_event u) as [c args|text| |data].
  - unfold admin_commands. repeat case_match; intros [= <-]; menu_steps.
  - unfold admin_text. repeat case_match; intros [= <-]; menu_steps.
  - unfold no_text. repeat case_match; intros [= <-]; menu_steps.
  - unfold admin_callbacks. repeat case_match; intros [= <-]; menu_steps.
Qed.
Lemma auth_menus u account (h : LinkedAccountResponse -> prog unit) :
  (forall a, tamed (h a)) -> tamed (with_account u account h).
Proof.
  intros Hh. unfold with_account. apply tame_bind; [apply _|exact truthful_kept| |].
  - destruct account; menu_steps.
  - intros [a|]; [apply Hh|]. menu_steps.
Qed.

Lemma trades_menus u h a : trades_router u = Some h -> tamed (h a).
Proof. unfold trades_router. repeat case_match; try done; intros [= <-]; menu_steps. Qed.

Lemma help_menus u h a : help_router u = Some h -> tamed (h a).
Proof. unfold help_router. repeat case_match; try done; intros [= <-]; menu_steps. Qed.

Lemma commands_menus u state h a : commands_router u state = Some h -> tamed (h a).
Proof. unfold commands_router. repeat case_match; try done; intros [= <-]; menu_steps. Qed.

Lemma account_menus u h a : account_router u = Some h -> tamed (h a).
Proof. unfold account_router. repeat case_match; try done; intros [= <-]; menu_steps. Qed.

Lemma start_menus u h : start_router u = Some h -> tamed h.
Proof. unfold start_router. repeat case_match; try done; intros [= <-]; menu_steps. Qed.

Lemma link_menus u state h : link_router u state = Some h -> tamed h.
Proof. unfold link_router, no_text. repeat case_match; try done; intros [= <-]; menu_steps. Qed.

Lemma card_menus u h : trade_card_router u = Some h -> tamed h.
Proof. unfold trade_card_router. repeat case_match; try done; intros [= <-]; menu_steps. Qed.

Lemma route_menus u state account h : route_update u state account = Some h -> tamed h.
Proof.
  unfold route_update. destruct (admin_router u state) eqn:E; cbn [or_next]; [intros [= <-]; by eapply admin_menus|clear E].
  destruct (start_router u) eqn:E; cbn [or_next]; [intros [= <-]; by eapply start_menus|clear E].
  destruct (help_router u) eqn:E; cbn [or_next]; [intros [= <-]; apply auth_menus; intros; by eapply help_menus|clear E].
  destruct (link_router u state) eqn:E; cbn [or_next]; [intros [= <-]; by eapply link_menus|clear E].
  destruct (trade_card_router u) eqn:E; cbn [or_next]; [intros [= <-]; by eapply card_menus|clear E].
  destruct (trades_router u) eqn:E; cbn [or_next]; [intros [= <-]; apply auth_menus; intros; by eapply trades_menus|clear E].
  destruct (commands_router u state) eqn:E; cbn [or_next];
    [intros [= <-]; apply auth_menus; intros; by eapply commands_menus|clear E].
  destruct (account_router u) eqn:E; [|done]. intros [= <-]; apply auth_menus; intros; by eapply account_menus.
Qed.

Lemma update_menus u : tamed (handle_update u).
Proof.
  unfold handle_update. apply tame_bind; [apply _|exact truthful_kept|menu_steps|]. intros state.
  apply tame_bind; [apply _|exact truthful_kept|apply middleware_menus|]. intros account.
  destruct (route_update u state account) as [h|] eqn:E; [by eapply route_menus|menu_steps].
Qed.

(** Starting up forgets what was remembered. *)
Lemma setup_menus : tamed menu_setup.
Proof.
  unfold menu_setup. apply tame_bind; [apply _|exact truthful_kept|menu_steps|]. intros _.
  apply tame_bind; [apply _|exact truthful_kept| |].
  - intros w [H _] _. unfold set_applied. rewrite run_with_bot. split; [exact H|]. intros chat m Hm. cbn in Hm. by rewrite lookup_empty in Hm.
  - intros _. generalize (remove_dups admin_ids). intros l. induction l as [|x l IH]; [menu_steps|].
    change (tamed (do! menu_refresh x in for_each l menu_refresh)). apply tame_bind; [apply _|exact truthful_kept| |intros _; exact IH]. menu_steps.
Qed.

(** A lost answer leaves the wrong menu.  When Telegram changes a chat's menu and its
    answer is lost, the bot goes on remembering the menu before; when the user then
    is linked, or not, as before, it takes that menu for the one in place and sets
    none, and the chat keeps the other one. *)
Theorem lost_answer_leaves_wrong_menu tid linked w l :
  bt_applied (bot w) !! tid = Some (map fst (menu_for linked (is_admin tid))) -> bt_api (bot w) = ApiLost :: l ->
  let w1 := (run (sync tid (negb linked)) w).2 in
  run (sync tid linked) w1 = (Ok tt, w1) /\
  shown tid (bt_said (bot w1)) = Some (menu_for (negb linked) (is_admin tid)).
Proof.
  intros Hm Hl. cbv zeta. assert (map fst (menu_for linked (is_admin tid)) <> map fst (menu_for (negb linked) (is_admin tid))) as Hne
    by (destruct linked, (is_admin tid); by vm_compute).
  assert (run (sync tid (negb linked)) w = (Ok tt, set_bot {| bt_fsm := bt_fsm (bot w); bt_applied := bt_applied (bot w);
      bt_said := bt_said (bot w) ++ [(SetMyCommands (Some tid) (menu_for (negb linked) (is_admin tid)), ApiLost)];
      bt_net := bt_net (bot w); bt_api := l |} w)) as ->.
  { unfold sync, applied_menu. cbv zeta. rewrite run_bind, run_with_bot. cbn [fst snd]. rewrite set_bot_same, Hm.
    rewrite bool_decide_eq_false_2 by (by intros [= ?]). rewrite run_bind. unfold bot_api. rewrite run_with_bot, Hl. done. }
  cbn [fst snd]. split.
  - unfold sync, applied_menu. cbv zeta. rewrite run_bind, run_with_bot. cbn [fst snd]. rewrite set_bot_same.
    change (bt_applied _) with (bt_applied (bot w)). by rewrite Hm, bool_decide_eq_true_2.
  - cbn. rewrite shown_snoc. cbn. by rewrite Z.eqb_refl.
Qed.

(** C30. A menu the bot remembers is the menu the chat shows.  Whatever an update is
    and whatever fails on the way, handling it, with no other update in between, leaves
    the memory of [CommandMenu]
    true, and so does a start: every chat shows, if any, one of the two menus — linked
    or not — its user may have, and a remembered menu is the one the chat shows,
    as long as Telegram's answer to the last menu it accepted for that chat was not lost.
    Over working services the middleware brings a private chat's menu in step with
    the user's links before any handler runs, unless such an answer was lost and the bot not
    started since; when the broker does not answer, it
    sets no menu. *)
Theorem menus_follow_links u w :
  (menus_ok (bot w) -> menus_ok (bot (run (handle_update u) w).2) /\ menus_ok (bot (run menu_setup w).2)) /\
  (forall v us, ensure_api_key (Some bot_BROKER_API_KEY) = Ret tt ->
     menus_ok (bot w) -> unsure (up_user u) (bt_said (bot w)) = false \/ bt_applied (bot w) !! up_user u = None ->
     bot_up w -> uuids w = v :: us -> up_private u = true -> up_is_bot u = false ->
     exists w1 account, run (menu_middleware u) w = (Ok account, w1) /\
       la_account <$> account = driving (str_int (up_user u)) (db w) /\
       shown (up_user u) (bt_said (bot w1)) =
         Some (menu_for (is_some (driving (str_int (up_user u)) (db w))) (is_admin (up_user u)))) /\
  (forall n l, bt_net (bot w) = n :: l -> n <> NetAnswered ->
     bt_said (bot (run (menu_middleware u) w).2) = bt_said (bot w) /\
     bt_applied (bot (run (menu_middleware u) w).2) = bt_applied (bot w)).
Proof.
  split; [|split].
  - intros Hw. split; [by apply update_menus|by apply setup_menus].
  - intros v us Hkey [_ Hok] Hsure Hup Hu Hp Hb.
    destruct (run_resolve Hkey (up_user u) w v us Hup Hu) as (w1 & H1 & [_ Ha] & Hbot & _).
    unfold menu_middleware. rewrite Hb, run_bind, H1. cbv beta iota. cbn [fst snd]. rewrite Hp. cbn [andb].
    set (linked := is_some _). assert (is_some (driving (str_int (up_user u)) (db w)) = linked) as -> by (unfold linked; by destruct (driving _ _)).
    unfold sync, applied_menu. cbv zeta. rewrite run_bind, run_bind, run_with_bot. cbn [fst snd]. rewrite set_bot_same.
    rewrite Hbot in *. case_bool_decide as E.
    + eexists _, _. split; [done|]. split; [by destruct (driving _ _)|]. rewrite Hbot.
      destruct (Hok _ _ E) as (k & Ek & Hs). destruct Hsure as [Hsure|Hsure]; [|by rewrite E in Hsure].
      rewrite (Hs Hsure). f_equal. revert Ek. destruct k, linked; [done| |..|done]; by destruct (is_admin _).
    + rewrite run_bind, run_bot_api by (rewrite Hbot; exact Ha). cbv beta iota. unfold set_applied. rewrite run_with_bot. cbv beta iota.
      eexists _, _. split; [done|]. split; [by destruct (driving _ _)|].
      etransitivity; [apply shown_snoc|]. cbn. by rewrite Z.eqb_refl.
  - intros n l Hn Hne. unfold menu_middleware. destruct (up_is_bot u); [done|].
    unfold resolve_account, request. rewrite run_bind, run_bind, run_bind. unfold next_net. rewrite run_with_bot, Hn. cbv beta iota. cbn [fst snd].
    set (b := Build_BotState _ _ _ _ _).
    destruct n; [done|done|]. rewrite run_bind, run_attempt.
    set (server := bind (ensure_api_key _) _).
    assert (always same_bot server) as Hs by (unfold server; bot_steps).
    destruct (always_run same_bot server (set_bot b w) Hs) as [Hb _]. destruct (run server (set_bot b w)) as [r w1]. cbn in *.
    rewrite Hb. done.
Qed.
End menus.
