(* ===== verification/TelegramCases.v ===== *)
(** * Where commands and handshakes miss

    Rows without a gateway: a legacy account row that answers for the account a
    user blocked, and cards whose buttons nobody may press.  Then the concrete
    inputs on which the theorems on accounts, handshakes and commands are
    exercised. *)

From S2P Require Import Prelude PyStr Uuid PyTime Json Enums Schemas Models World Settings.
From S2P Require Import StatusPolicies Samples SignalRepo SignalHelper SignalService SignalWorker.
From S2P Require Import BroadcastRepo BroadcastService Dispatcher TradeRepo AccountRepo AccountFlow AccountLinks AccountSettings.
From S2P Require Import SystemConsumer Handshake TradeConsumer TradeCards CardFlow TelegramApi TelegramFlow.

(** ** A legacy row *)
Section legacy.
Context `{SP : SettingsPydantic} `{CA : RowChoice Account}.

(** [b] is the row without a gateway beside [a]. *)
Definition legacy_of (a b : Account) (g : string) : Prop :=
  ac_gateway a = Some g /\ ac_gateway b = None /\ ac_account_id b = ac_account_id a /\ ac_market b = ac_market a /\
  ac_id b <> ac_id a.

Lemma legacy_matches a b g : legacy_of a b g -> gateway_row (ac_account_id a) (ac_market a) g b = true.
Proof.
  intros (_ & Hb & Hid & Hm & _). unfold gateway_row, gateway_matches. rewrite Hb.
  by rewrite !bool_decide_eq_true_2.
Qed.

(** The handshake cannot give the legacy row the gateway another row has. *)
Lemma remember_refused event a b g v :
  announces event a g -> legacy_of a b g -> db_up v ->
  (exists a', a' ∈ accounts (db v) /\ ac_id a' = ac_id a /\ ac_account_id a' = ac_account_id a /\
     ac_market a' = ac_market a /\ ac_gateway a' = Some g) ->
  choose (select_where (gateway_row (ac_account_id a) (ac_market a) g) (accounts (db v))) = Some b ->
  exists v', run (remember_worker event) v = (Ok tt, v') /\ db v' = db v /\ db_up v'.
Proof.
  intros (He & Hm & Hg) (Hag & Hbg & Hid & Hbm & Hne) Hv (a' & Ha' & Hi & Hn & Hma & Hga) Hch.
  unfold remember_worker. rewrite He, Hm, Hg, decompose_compose. rewrite run_catch. unfold upsert_gateway.
  assert (forall w, exists u w1, run uuid4 w = (Ok u, w1) /\ db w1 = db w /\ sched w1 = sched w) as Hu.
  { intros w. unfold uuid4. rewrite run_act. destruct (uuids w); eauto 10. }
  rewrite run_bind. destruct (Hu v) as (u1 & v1 & -> & D1 & S1).
  rewrite run_bind. destruct (Hu v1) as (u2 & v2 & -> & D2 & S2).
  rewrite run_bind. destruct (Hu v2) as (u3 & v3 & -> & D3 & S3).
  assert (db_up v3) as Hv3 by (unfold db_up in *; congruence).
  rewrite run_session_or by done. unfold write_gateway. rewrite D3, D2, D1, Hch.
  rewrite bool_decide_eq_false_2 by (rewrite Hbg; done).
  assert (update_unique ac_id account_clash (set_gateway g b) (accounts (db v)) = None) as ->.
  { unfold update_unique. assert (existsb (fun r' => negb (bool_decide (ac_id r' = ac_id (set_gateway g b))) &&
      account_clash (set_gateway g b) r') (accounts (db v)) = true) as ->; [|done].
    apply existsb_exists. exists a'. split; [by apply list_elem_of_In|]. cbn. rewrite bool_decide_eq_false_2 by congruence.
    unfold account_clash, null_eqb, opt_eqb. cbn. rewrite Hga. apply orb_true_intro. right.
    by rewrite !bool_decide_eq_true_2 by congruence. }
  exists v3. split; [done|]. split; [congruence|done].
Qed.

(** A legacy row lifts a block.  When an account has a second row without a
    gateway, from before its gateway was known, and the server lists that row
    first, [/prevent] stores the block on the row the user drives and answers
    success, and the next handshake of the worker reads the other row: the worker
    is told it is not blocked. *)
Theorem legacy_row_lifts_block tid w u us a b g event :
  db_up w -> uuids w = u :: us -> fresh_links w ->
  NoDup (map ac_id (accounts (db w))) -> NoDup (map bo_id (bot_sessions (db w))) ->
  driving (str_int tid) (db w) = Some a -> is_empty g = false -> announces event a g ->
  legacy_of a b g -> b ∈ accounts (db w) -> ac_settings b = [] ->
  (forall l, NoDup (map ac_id l) -> b ∈ l -> choose l = Some b) ->
  exists resp w1 w2 w3 s,
    run (prevent tid true) w = (Ok resp, w1) /\
    (exists x, x ∈ accounts (db w1) /\ ac_id x = ac_id a /\
       assoc ACCOUNT_SETTING_SIGNAL_BLOCKED (ac_settings x) = Some (JBool true)) /\
    run (remember_worker event) w1 = (Ok tt, w2) /\
    run (build_account_settings event) w2 = (Ok s, w3) /\ as_signal_blocked s = false.
Proof.
  intros Hw Hu Hf Hnd Hse Hdrv Hge He Hleg Hb Hbs Hfirst.
  assert (a ∈ accounts (db w)) as Ha by (by apply (driving_held (str_int tid))).
  destruct (run_linked_up tid w u us a Hw Hu Hf Hnd Hse Hdrv) as (v & H1 & Hv & (Hacc & _ & _ & _) & _).
  rewrite <-Hacc in Hnd, Ha, Hb. pose proof Hleg as (Hag & _ & _ & _ & Hne).
  unfold prevent. rewrite run_bind, H1. cbv beta iota zeta. set (patch := [(_, JBool true)]).
  rewrite run_bind, (run_update_up a patch v Hv Hnd Ha). cbv beta iota. set (v2 := set_db _ v).
  assert (db_up v2) as Hv2 by exact Hv.
  rewrite run_bind. unfold clock. rewrite run_act. cbv beta iota. rewrite run_bind.
  unfold publish_admin_signal. set (sg := command_signal _ a None None (now v2)).
  assert (admin_signal_valid sg = true) as -> by (unfold admin_signal_valid; cbn; by rewrite Hag).
  rewrite run_nats_up by done. cbv beta iota. set (w1 := emit _ v2). assert (db_up w1) as Hw1 by exact Hv.
  set (a' := set_settings (jsonb_merge (ac_settings a) patch) a).
  assert (a' ∈ accounts (db w1)) as Ha'.
  { apply elem_of_update_where. exists a. split; [done|]. by rewrite bool_decide_eq_true_2. }
  assert (choose (select_where (gateway_row (ac_account_id a) (ac_market a) g) (accounts (db w1))) = Some b) as Hch.
  { apply Hfirst.
    { apply nodup_map_select. cbn. by rewrite update_where_proj. }
    apply elem_of_select_where. split; [|by apply legacy_matches]. apply elem_of_update_where. exists b.
    split; [done|]. by rewrite bool_decide_eq_false_2. }
  destruct (remember_refused event a b g w1 He Hleg Hw1) as (w2 & H2 & Hd2 & Hw2); [by exists a'|done|].
  destruct (build_chosen event a g b w2 He Hw2) as (s & Hs & Hsb); [by rewrite Hd2|].
  eexists _, w1, w2, w2, s. split; [done|]. split; [|split; [done|split; [done|]]].
  - exists a'. split; [done|]. split; [done|]. unfold a', patch. cbn. by rewrite assoc_merge, String.eqb_refl.
  - rewrite Hsb, Hbs. done.
Qed.
End legacy.

(** ** Cards without a gateway *)

(** Cards nobody may press.  A trade whose worker reports no gateway is shown
    to every enabled link of its account, with a Close button while it runs; but a
    user whose accounts all have a gateway is then not recognised as its owner: the
    button is answered 404. *)
Theorem card_without_gateway_is_dead `{CFG : Settings} tid w trade a l :
  db_up w -> trade ∈ trades (db w) -> tr_market trade = Some (ac_market a) -> tr_gateway trade = None ->
  a ∈ accounts (db w) -> ac_account_id a = tr_account_id trade ->
  l ∈ account_bot_links (db w) -> link_of (str_int tid) (Some (ac_id a)) l = true -> al_trade_cards_enabled l = true ->
  (forall x, x ∈ accounts (db w) -> holds (str_int tid) (db w) x = true -> is_Some (ac_gateway x)) ->
  is_terminal trade = false -> NoDup (map tr_id (trades (db w))) ->
  str_int tid ∈ targets_of (tr_account_id trade) (tr_market trade) (tr_gateway trade) (db w) /\
  is_Some (trade_card_keyboard trade false) /\
  (run (exit_trade tid (tr_id trade)) w).1 = Err (HTTPException 404 "Trade not found").
Proof.
  intros Hw Ht Hm Hg Ha Hid Hl Hlink Hen Hgw Hterm Hnd. split; [|split].
  - apply elem_of_distinct, list_elem_of_fmap. exists l. apply link_of_true in Hlink as (Hp & Hu & Hal).
    split; [done|]. apply elem_of_select_where. split; [done|]. rewrite Hp, Hen, bool_decide_eq_true_2 by done. cbn.
    apply existsb_exists. exists a. split; [by apply list_elem_of_In|]. unfold account_matches. rewrite Hm, Hg.
    by rewrite !bool_decide_eq_true_2 by congruence.
  - unfold trade_card_keyboard. rewrite Hterm. by eexists.
  - unfold exit_trade, get_own_trade, get_for_telegram_user.
    rewrite run_bind, run_bind, run_catch, run_query_up, set_db_same by done.
    assert (own_trade (tr_id trade) (str_int tid) (db w) = None) as ->; [|done].
    apply select_first_None, Forall_forall. intros t Hin. destruct (bool_decide_reflect (tr_id t = tr_id trade)) as [E|]; [|done].
    assert (t = trade) as -> by (by apply (nodup_map_eq tr_id (trades (db w)))). cbn.
    destruct (existsb _ _) eqn:Ex; [|done]. apply existsb_exists in Ex as (x & Hx%list_elem_of_In & [Hat Hh]%andb_prop).
    destruct (Hgw x Hx Hh) as [gx Hgx]. unfold account_of_trade in Hat. rewrite Hgx, Hg in Hat.
    by rewrite andb_false_r in Hat.
Qed.

(** ** On concrete input *)
Module api_samples.
#[local] Existing Instances sample_pydantic sample_settings.

Definition sample_validate_worker (data : list (string * json)) : option SystemWorkerConnectedSignal :=
  match assoc "account_id" data with
  | Some (JStr id) => Some {| wc_account_id := id; wc_market := Market.FOREX; wc_gateway := "MT5"; wc_strategies := ["wt"] |}
  | _ => None
  end.

#[local] Instance sample_settings_pydantic : SettingsPydantic.
Proof.
  refine {| validate_signal_blocked v := match v with JBool b => Some b | _ => None end;
            validate_max_open_orders v :=
              match v with
              | JNull => Some None
              | JInt z => if (0 <=? z)%Z then Some (Some z) else None
              | _ => None
              end;
            validate_worker_connected := sample_validate_worker |}.
  - done.
  - done.
  - intros z Hz. cbn. by rewrite (proj2 (Z.leb_le _ _) Hz).
  - intros v z. destruct v; try done. destruct (Z.leb_spec 0 z0); [|done]. by intros [= <-].
Defined.


(** An account behind a gateway, and its legacy row. *)
Definition acct : Account :=
  {| ac_id := uid 41; ac_createdAt := 0%Z; ac_account_id := "1234"; ac_account_name := None;
     ac_account_balance := None; ac_market := Market.FOREX; ac_gateway := Some "MT5";
     ac_last_activity_at := None; ac_settings := [("theme", JStr "dark")] |}.

Definition legacy : Account :=
  {| ac_id := uid 44; ac_createdAt := 0%Z; ac_account_id := "1234"; ac_account_name := None;
     ac_account_balance := None; ac_market := Market.FOREX; ac_gateway := None;
     ac_last_activity_at := Some 5%Z; ac_settings := [] |}.

Definition link77 : AccountBotLink :=
  {| al_id := uid 42; al_createdAt := 0%Z; al_account_id := uid 41; al_platform := Platform.TELEGRAM;
     al_platform_user_id := "77"; al_trade_cards_enabled := true |}.

Definition api_trade (gateway : option string) (status : TradeStatusEnum) : Trade :=
  {| tr_id := uid 40; tr_account_id := "1234"; tr_market := Some Market.FOREX; tr_gateway := gateway;
     tr_account_leverage := None; tr_account_balance_init := None; tr_account_balance := None;
     tr_strategy := "wt_bb_atr"; tr_strategy_code := "wt"; tr_ref_id := Some "9001"; tr_symbol := "XAUUSD";
     tr_action := SigAction.LONG; tr_price := f_zero; tr_quantity := f_zero; tr_sl := None; tr_tp1 := None;
     tr_tp2 := None; tr_is_running := true; tr_risk_percent := f_zero; tr_comment := None;
     tr_gateway_return_code := None; tr_status := status; tr_last_action := None;
     tr_reject_reason := None |}.

Definition api_world (accs : list Account) (ts : list Trade) (s : list outcome) : World :=
  set_db (set_trades ts (set_accounts accs (set_links [link77]
            (set_link_tokens [new_link_token (uid 70) (uid 71) 0%Z (uid 41)] empty_db))))
    (sample_world s [uid 60; uid 61; uid 62; uid 63; uid 64; uid 65]).

Definition event : SystemWorkerConnectedSignal :=
  {| wc_account_id := "FOREX-MT5-1234"; wc_market := Market.FOREX; wc_gateway := "MT5"; wc_strategies := ["wt"] |}.

Lemma api_fresh accs ts s : fresh_links (api_world accs ts s).
Proof.
  split; [by apply (bool_decide_unpack _); vm_compute|]. split.
  - intros l Hl. apply list_elem_of_singleton in Hl as ->. by apply (bool_decide_unpack _); vm_compute.
  - intros l Hl. by apply not_elem_of_nil in Hl.
Qed.

Lemma rotation_resets_access_witness :
  (run (rotate_link_token "1234") (api_world [acct] [] [])).1 = Ok (Some (uid 60)) /\
  exists a, a ∈ [acct] /\ sealed (ac_id a) "1234" (uid 60) (db (run (rotate_link_token "1234") (api_world [acct] [] [])).2).
Proof.
  split; [by vm_compute|].
  destruct (rotation_resets_access "1234" (api_world [acct] [] []) (uid 60)
    (run (rotate_link_token "1234") (api_world [acct] [] [])).2) as (a & Ha & _ & Hs & _).
  - apply NoDup_singleton.
  - by vm_compute.
  - by exists a.
Defined.



Lemma failed_read_outlives_failure_witness :
  exists w1, run (build_strategy_magic_map ["wt"]) (api_world [acct] [] [Failed]) = (Ok [], w1) /\
    run (build_strategy_magic_map ["wt"]) w1 = (Ok [], w1).
Proof.
  destruct (failed_read_outlives_failure (api_world [acct] [] [Failed]) [] ["wt"] "CRYPTO-BINANCE-1" "_INBOX.1")
    as (w1 & w2 & H1 & H2 & _); [done|done|done|done|].
  exists w1. split; [exact H1|]. apply H2; [done|].
  assert (now w1 = now (run (build_strategy_magic_map ["wt"]) (api_world [acct] [] [Failed])).2) as -> by (by rewrite H1).
  by vm_compute.
Defined.

Lemma prevent_stores_first_witness :
  exists evs, out (run (prevent 77 true) (api_world [acct] [] [])).2 = [] ++ evs /\ evs <> [].
Proof.
  destruct (prevent_stores_first 77 true (api_world [acct] [] []) (run (prevent 77 true) (api_world [acct] [] [])).1
    (run (prevent 77 true) (api_world [acct] [] [])).2) as (evs & Ho & [[_ H]|(a & g & t & _ & _ & _ & -> & _)] & _).
  - apply surjective_pairing.
  - exfalso. revert H. by vm_compute.
  - eexists. by split.
Defined.

Lemma exit_closes_own_trade_witness :
  length (out (run (exit_trade 77 (uid 40)) (api_world [acct] [api_trade (Some "MT5") TradeStatus.OPENED] [])).2) = 1 /\
  db (run (exit_trade 77 (uid 40)) (api_world [acct] [api_trade (Some "MT5") TradeStatus.OPENED] [])).2 =
    db (api_world [acct] [api_trade (Some "MT5") TradeStatus.OPENED] []).
Proof.
  split; [by vm_compute|].
  apply (exit_closes_own_trade 77 (uid 40) (api_world [acct] [api_trade (Some "MT5") TradeStatus.OPENED] [])
    (run (exit_trade 77 (uid 40)) (api_world [acct] [api_trade (Some "MT5") TradeStatus.OPENED] [])).1
    (run (exit_trade 77 (uid 40)) (api_world [acct] [api_trade (Some "MT5") TradeStatus.OPENED] [])).2).
  apply surjective_pairing.
Defined.

Lemma told_what_was_set_witness :
  exists resp w1, run (set_max_open_orders 77 (Some 3%Z)) (api_world [acct] [] []) = (Ok resp, w1) /\
    mo_max_open_orders resp = 3%Z.
Proof.
  destruct (told_what_was_set 77 (api_world [acct] [] []) (uid 60) [uid 61; uid 62; uid 63; uid 64; uid 65] acct "MT5"
    event (Some 3%Z) true) as [(resp & w1 & H & Hm & _) _];
    [done|done|apply api_fresh|apply NoDup_singleton|constructor|by vm_compute|done|done|done|by vm_compute|by intros z [= <-]|].
  exists resp, w1. done.
Defined.

(** The server lists the legacy row first. *)
#[local] Instance legacy_first : RowChoice Account | 0.
Proof.
  refine {| choose l := if bool_decide (ac_id legacy ∈ map ac_id l)
                        then select_first (fun a => bool_decide (ac_id a = ac_id legacy)) l else head l |}.
  - intros l r. case_bool_decide; [by intros [? _]%select_first_Some|apply head_Some_elem_of].
  - intros l Hl. case_bool_decide as H; [|by destruct l].
    apply list_elem_of_fmap in H as (a & He & Ha). apply (select_first_is_Some _ l a Ha). by apply bool_decide_eq_true.
Defined.

Lemma legacy_chosen l : NoDup (map ac_id l) -> legacy ∈ l -> choose l = Some legacy.
Proof.
  intros Hnd Hl. change (choose l) with (if bool_decide (ac_id legacy ∈ map ac_id l)
    then select_first (fun a => bool_decide (ac_id a = ac_id legacy)) l else head l).
  rewrite bool_decide_eq_true_2 by (by apply (list_elem_of_fmap_2 ac_id)).
  destruct (select_first_is_Some (fun a => bool_decide (ac_id a = ac_id legacy)) l legacy Hl) as [x E];
    [by apply bool_decide_eq_true|].
  rewrite E. apply select_first_Some in E as [Hx Hi%bool_decide_eq_true].
  by rewrite (nodup_map_eq ac_id l x legacy).
Qed.

Lemma legacy_row_lifts_block_witness :
  exists resp w1 w2 w3 s,
    run (prevent 77 true) (api_world [acct; legacy] [] []) = (Ok resp, w1) /\
    run (remember_worker event) w1 = (Ok tt, w2) /\
    run (build_account_settings event) w2 = (Ok s, w3) /\ as_signal_blocked s = false.
Proof.
  destruct (legacy_row_lifts_block 77 (api_world [acct; legacy] [] []) (uid 60) [uid 61; uid 62; uid 63; uid 64; uid 65]
    acct legacy "MT5" event) as (resp & w1 & w2 & w3 & s & H1 & _ & H2 & H3 & H4).
  - done.
  - done.
  - apply api_fresh.
  - by apply (bool_decide_unpack _); vm_compute.
  - constructor.
  - by vm_compute.
  - done.
  - done.
  - done.
  - right; left.
  - done.
  - apply legacy_chosen.
  - by exists resp, w1, w2, w3, s.
Defined.

Lemma card_without_gateway_is_dead_witness :
  (run (exit_trade 77 (uid 40)) (api_world [acct] [api_trade None TradeStatus.OPENED] [])).1 =
    Err (HTTPException 404 "Trade not found").
Proof.
  destruct (card_without_gateway_is_dead 77 (api_world [acct] [api_trade None TradeStatus.OPENED] [])
    (api_trade None TradeStatus.OPENED) acct link77) as (_ & _ & H).
  - done.
  - left.
  - done.
  - done.
  - left.
  - done.
  - left.
  - by vm_compute.
  - done.
  - intros x [-> | Hx%not_elem_of_nil]%elem_of_cons _; [by eexists|done].
  - by vm_compute.
  - apply NoDup_singleton.
  - exact H.
Defined.
End api_samples.
