(* ===== verification/AdminCases.v ===== *)
(** * The administrator's API and the rest of the broker

    What a change of a setting means to the workers, what a new account's invite
    gives, and two consequences of a failed read, on the routes of [AdminApi]. *)

From S2P Require Import Prelude PyStr Uuid PyTime Json JsonText Enums Schemas Models ChatTargets World Settings TimeZone.
From S2P Require Import StatusPolicies Samples SignalRepo SignalHelper SignalService SignalWorker.
From S2P Require Import BroadcastRepo BroadcastService Dispatcher TradeRepo AccountRepo AccountLinks Notifications AccountSettings AdminApi.
From S2P Require Import SystemConsumer AdminFlow TradeConsumer TradeCards CardFlow TelegramApi TelegramFlow TelegramCases.

(** ** Runs whose next step works *)

Definition works (w : World) : Prop := default Done (head (sched w)) = Done.

(** What a step leaves of the environment's decisions. *)
Definition after_step (w : World) : World := set_sched (tail (sched w)) w.

Lemma run_session_works {A} (t : instant -> Db -> res exn (A * Db)) w :
  works w ->
  run (session t) w = match t (now w) (db w) with
                      | Ok (a, d) => (Ok a, set_db d (after_step w))
                      | Err e => (Err e, after_step w)
                      end.
Proof.
  unfold works, session, session_step, next_outcome, after_step. rewrite run_act.
  destruct (sched w) as [|o s] eqn:E; [|intros H; cbn in H; subst o; done].
  intros _. cbn. rewrite <-E. replace (set_sched (sched w) w) with w by (by destruct w). done.
Qed.

Lemma run_query_works {A} (t : Db -> A) w : works w -> run (query t) w = (Ok (t (db w)), after_step w).
Proof. intros H. unfold query. rewrite run_session_works by done. unfold after_step. by destruct w. Qed.

(** A read that fails. *)
Lemma run_query_fails {A} (t : Db -> A) w s :
  sched w = Failed :: s -> run (query t) w = (Err DbError, set_sched s w).
Proof. intros H. unfold query, session, session_step, next_outcome. rewrite run_act, H. done. Qed.

(** The drawn uuid is no setting's. *)
Definition fresh_setting (w : World) : Prop :=
  forall r, r ∈ broker_settings (db w) -> bs_id r <> default (uid 0) (head (uuids w)).

(** Storing a setting over a database that works this once. *)
Lemma run_store key value w :
  NoDup (map bs_id (broker_settings (db w))) -> fresh_setting w -> works w ->
  exists d us, run (store_setting key value) w = (Ok tt, set_db d (set_sched (tail (sched w)) (set_uuids us w))) /\
    find_setting key d = Some value /\ settings_only (db w) d.
Proof.
  intros Hid Hf Hw. unfold store_setting, setting_set. rewrite run_bind, run_bind. unfold uuid4. rewrite run_act.
  set (u := default (uid 0) (head (uuids w))).
  assert (Hd : exists d, write_setting u key value (db w) = Ok (tt, d)).
  { unfold write_setting. destruct (select_first _ _) as [row|] eqn:E; [by eexists|].
    destruct (insert_unique _ _ _) eqn:Ei; [by eexists|]. exfalso.
    apply insert_unique_None in Ei as (r & Hr & Hc). unfold setting_clash in Hc. cbn in Hc. apply orb_prop in Hc as [Hc|Hc].
    - apply bool_decide_eq_true in Hc. apply (Hf r Hr). by rewrite <-Hc.
    - apply bool_decide_eq_true in Hc. rewrite select_first_None, Forall_forall in E. specialize (E r Hr). cbn in E.
      rewrite <-Hc, String.eqb_refl in E. done. }
  destruct Hd as [d Hd]. pose proof (write_setting_frame _ _ _ _ _ Hd) as Hs.
  destruct (write_setting_spec _ _ _ _ _ Hid Hd) as [Hk _].
  destruct (uuids w) as [|u' us] eqn:Eu; [exists d, []|exists d, us]; subst u; cbn in Hd;
    (rewrite run_catch, run_bind, run_session_works by exact Hw); cbn [db set_uuids]; rewrite Hd; cbn;
    (split; [|done]); unfold after_step; destruct w; cbn in *; by subst.
Qed.

(** A notice to the administrators: calls to Telegram only. *)
Definition is_notice (e : sent) : Prop := exists target text r, e = SentTg (TgSendMessage target text) r.

Lemma run_deliveries_frame text targets w :
  exists rs w' evs, run (for_collect targets (deliver_notice text)) w = (Ok rs, w') /\
    out w' = out w ++ evs /\ Forall is_notice evs /\
    (db w', sched w', now w', caches w', uuids w') = (db w, sched w, now w, caches w, uuids w).
Proof.
  revert w. induction targets as [|t targets IH]; intros w.
  { exists [], w, []. rewrite app_nil_r. by split_and!. }
  cbn [for_collect]. unfold deliver_notice at 1. rewrite !run_bind.
  destruct (run_telegram_emit (TgSendMessage t text) w) as (r & s & ->). cbn [run]. rewrite run_bind.
  destruct (IH (emit (SentTg (TgSendMessage t text) r) (set_tg s w))) as (rs & w2 & evs & -> & O & F & E).
  eexists (_ :: rs), w2, (_ :: evs). split; [done|]. split; [by rewrite O; cbn; rewrite <-app_assoc|].
  split; [|exact E]. constructor; [by repeat eexists|done].
Qed.

Section notices.
Context `{CFG : Settings}.

Lemma run_admin_notice text w :
  exists w' evs, run (notify_admin text) w = (Ok tt, w') /\ out w' = out w ++ evs /\ Forall is_notice evs /\
    (db w', sched w', now w', caches w', uuids w') = (db w, sched w, now w, caches w, uuids w).
Proof.
  unfold notify_admin. rewrite run_bind, channel_send_eq.
  destruct (destinations get_admin_notifier None) as [|t ts].
  { exists w, []. rewrite app_nil_r. by split_and!. }
  unfold should_send. cbn [ch_heeds_silence get_admin_notifier negb bind].
  destruct (run_deliveries_frame (box text) (t :: ts) w) as (b & w' & evs & H & R).
  exists w', evs. rewrite run_bind, H. done.
Qed.
End notices.

(** ** Routes over a database that works when it is written *)
Section routes.
Context `{CFG : Settings} `{SP : SettingsPydantic} `{CA : RowChoice Account}.

(** [w'] is [w] after a setting was stored and the administrators were told. *)
Definition stored_and_told (key value : string) (evs : list sent) (w w' : World) : Prop :=
  find_setting key (db w') = Some value /\ settings_only (db w) (db w') /\
  out w' = out w ++ evs /\ Forall is_notice evs /\
  (sched w', now w', caches w') = (tail (sched w), now w, caches w).

Lemma run_set_value key value line w :
  NoDup (map bs_id (broker_settings (db w))) -> fresh_setting w -> works w ->
  exists w' evs, run (set_value key value line) w = (Ok {| sv_setting := key; sv_value := value |}, w') /\
    stored_and_told key value evs w w'.
Proof.
  intros Hid Hf Hw. unfold set_value. rewrite run_bind.
  destruct (run_store key value w Hid Hf Hw) as (d & us & -> & Hk & Hs).
  rewrite run_bind. set (w1 := set_db _ _).
  destruct (run_admin_notice (changed_notice key line) w1) as (w' & evs & -> & O & F & E).
  exists w', evs. split; [done|]. injection E as Ed Es En Ec _. unfold stored_and_told. rewrite Ed, Es, En, Ec. done.
Qed.

(** The pushes of a broker-wide cap, account by account. *)
Definition pushes (l : list Account) (g : Z) : list sent :=
  omap (fun a => if no_gateway (ac_gateway a) then None
                 else Some (SentSystem (topic_value TOPIC_SYSTEM)
                        (SystemWorkerSettingsUpdateSignal (worker_of a)
                           (resolve_account_settings (parse_account_settings (JObj (ac_settings a))) g)))) l.

Lemma run_pushes l g w :
  db_up w ->
  exists w', run (for_each l (fun account =>
      push_worker_settings_update (ac_account_id account) (ac_market account) (ac_gateway account)
        (resolve_account_settings (parse_account_settings (JObj (ac_settings account))) g))) w = (Ok tt, w') /\
    out w' = out w ++ pushes l g /\ (db w', sched w', now w', caches w') = (db w, [], now w, caches w).
Proof.
  revert w. induction l as [|a l IH]; intros w Hw.
  { exists w. rewrite app_nil_r. split_and!; try done. by rewrite Hw. }
  cbn [for_each]. rewrite run_bind. unfold push_worker_settings_update, pushes. cbn [omap list_omap].
  destruct (no_gateway (ac_gateway a)); [by apply IH|]. unfold publish_system_settings_update.
  rewrite run_catch, run_nats_up by done.
  destruct (IH (emit (SentSystem (topic_value TOPIC_SYSTEM) (SystemWorkerSettingsUpdateSignal (worker_of a)
              (resolve_account_settings (parse_account_settings (JObj (ac_settings a))) g))) w) Hw) as (w' & H & O & E).
  exists w'. cbn in O. rewrite <-app_assoc in O. split; [exact H|]. split; [exact O|exact E].
Qed.

(** The route that sets the broker-wide cap, when the cap is read back or when only
    that read fails. *)
Lemma run_set_cap z w :
  NoDup (map bs_id (broker_settings (db w))) -> fresh_setting w -> (0 <= z)%Z ->
  db_up w \/ sched w = [Done; Failed] ->
  exists w' evs,
    run (set_default_max_open_orders z) w = (Ok {| sv_setting := MAX_OPEN_ORDERS_KEY; sv_value := str_int z |}, w') /\
    find_setting MAX_OPEN_ORDERS_KEY (db w') = Some (str_int z) /\ settings_only (db w) (db w') /\ db_up w' /\
    Forall is_notice evs /\
    out w' = out w ++ evs ++ pushes (by_last_activity (accounts (db w)))
                               (match sched w with [] => z | _ => DEFAULT_MAX_OPEN_ORDERS end).
Proof.
  intros Hid Hf Hz Hw. assert (Hworks : works w) by (unfold works; destruct Hw as [-> | ->]; done).
  unfold set_default_max_open_orders. rewrite run_bind.
  destruct (run_set_value MAX_OPEN_ORDERS_KEY (str_int z)
    ("Max open orders: <b>" +:+ str_int z +:+ "</b>" +:+ newline +:+ "Accounts with their own cap are unaffected.") w Hid Hf Hworks)
    as (w1 & evs & -> & Hk & Hs & O & F & E). injection E as Es En Ec.
  rewrite run_bind. unfold push_max_open_orders, setting_get. rewrite run_bind, run_catch.
  assert (Hacc : accounts (db w1) = accounts (db w)) by (by rewrite Hs).
  assert (Hpush : forall g v, db v = db w1 -> db_up v -> out v = out w1 ->
    exists w', run (let! accounts := get_all in for_each accounts (fun account =>
        push_worker_settings_update (ac_account_id account) (ac_market account) (ac_gateway account)
          (resolve_account_settings (parse_account_settings (JObj (ac_settings account))) g))) v = (Ok tt, w') /\
      db w' = db w1 /\ db_up w' /\ out w' = out w1 ++ pushes (by_last_activity (accounts (db w))) g).
  { intros g v Dv Uv Ov. unfold get_all. rewrite run_bind, run_catch, run_query_up, set_db_same by done.
    rewrite Dv, Hacc. destruct (run_pushes (by_last_activity (accounts (db w))) g v Uv) as (w' & -> & O' & E').
    injection E' as Ed Es' _ _. exists w'. rewrite O', Ov. split_and!; try done. congruence. }
  destruct Hw as [Hup|Hlost].
  - rewrite Hup in Es |- *. rewrite run_query_up, set_db_same, Hk by done. cbn [parse_global_max_open_orders].
    rewrite py_int_str_int. destruct (Z.ltb_spec z 0); [lia|].
    destruct (Hpush z w1) as (w' & -> & D & U & O'); [done..|]. exists w', evs. rewrite D, O', O, <-app_assoc. by split_and!.
  - rewrite Hlost in Es |- *. rewrite (run_query_fails _ _ []) by done. cbn [run parse_global_max_open_orders].
    destruct (Hpush DEFAULT_MAX_OPEN_ORDERS (set_sched [] w1)) as (w' & -> & D & U & O'); [done..|].
    exists w', evs. rewrite D, O', O, <-app_assoc. by split_and!.
Qed.

(** A broker-wide cap reaches every worker.  Over a working database, setting
    it answers the cap, stores it, and pushes to the worker of every account with a
    gateway the settings that account resolves to with it — and these are the very
    settings the worker would be given if it connected afterwards. *)
Theorem cap_change_reaches_workers z w :
  NoDup (map bs_id (broker_settings (db w))) -> fresh_setting w -> (0 <= z)%Z -> db_up w ->
  exists w' evs,
    run (set_default_max_open_orders z) w = (Ok {| sv_setting := MAX_OPEN_ORDERS_KEY; sv_value := str_int z |}, w') /\
    find_setting MAX_OPEN_ORDERS_KEY (db w') = Some (str_int z) /\ settings_only (db w) (db w') /\
    Forall is_notice evs /\ out w' = out w ++ evs ++ pushes (by_last_activity (accounts (db w))) z /\
    forall a g event,
      a ∈ accounts (db w) -> ac_gateway a = Some g -> is_empty g = false -> announces event a g ->
      select_where (gateway_row (ac_account_id a) (ac_market a) g) (accounts (db w)) = [a] ->
      exists s, run (build_account_settings event) w' = (Ok s, w') /\
        SentSystem (topic_value TOPIC_SYSTEM) (SystemWorkerSettingsUpdateSignal (wc_account_id event) s) ∈ out w'.
Proof.
  intros Hid Hf Hz Hw. destruct (run_set_cap z w Hid Hf Hz (or_introl Hw)) as (w' & evs & H & Hk & Hs & Hup & F & O).
  rewrite Hw in O. exists w', evs. split_and!; try done. intros a g event Ha Hg Hne He Hsel. eexists. split.
  - apply (build_up event a g a w' He Hup). rewrite Hs. exact Hsel.
  - rewrite Hk. cbn [parse_global_max_open_orders]. rewrite py_int_str_int. destruct (Z.ltb_spec z 0); [lia|].
    rewrite O, !elem_of_app. right; right. unfold pushes. apply list_elem_of_omap. exists a. split.
    + apply elem_of_by_last_activity. exact Ha.
    + rewrite Hg. cbn. rewrite Hne. destruct He as (-> & _). unfold worker_of. by rewrite Hg.
Qed.

(** A failed read-back tells every worker the wrong cap.  When the cap is
    stored and only the read that follows it fails, the route still answers the cap
    that was set, and pushes the built-in default to every worker whose account has
    no cap of its own, although the stored cap is another. *)
Theorem failed_read_back_pushes_default z w :
  NoDup (map bs_id (broker_settings (db w))) -> fresh_setting w -> (0 <= z)%Z -> sched w = [Done; Failed] ->
  exists w' evs,
    run (set_default_max_open_orders z) w = (Ok {| sv_setting := MAX_OPEN_ORDERS_KEY; sv_value := str_int z |}, w') /\
    find_setting MAX_OPEN_ORDERS_KEY (db w') = Some (str_int z) /\
    Forall is_notice evs /\
    out w' = out w ++ evs ++ pushes (by_last_activity (accounts (db w))) DEFAULT_MAX_OPEN_ORDERS.
Proof.
  intros Hid Hf Hz Hw. destruct (run_set_cap z w Hid Hf Hz (or_intror Hw)) as (w' & evs & H & Hk & _ & _ & F & O).
  rewrite Hw in O. by exists w', evs.
Qed.

(** A toggle whose read fails turns the setting on.  When the write works, a
    toggle stores and answers the opposite of what is stored — any value other than
    ["1"] counts as off — and after a failed read it stores and answers on,
    whatever is stored: a block the administrator meant to lift stays. *)
Theorem toggle_after_failed_read key words w o s :
  NoDup (map bs_id (broker_settings (db w))) -> fresh_setting w ->
  sched w = o :: s -> default Done (head s) = Done ->
  let on := match o with Done => negb (bool_decide (find_setting key (db w) = Some "1")) | _ => true end in
  exists w' evs,
    run (toggle key words) w = (Ok {| st_setting := key; st_value := flag on; st_state := state_label on |}, w') /\
    find_setting key (db w') = Some (flag on) /\ settings_only (db w) (db w') /\
    out w' = out w ++ evs /\ Forall is_notice evs.
Proof.
  intros Hid Hf Ho Hs on. unfold toggle, setting_get. rewrite run_bind, run_catch.
  assert (Hread : run (catch (query (find_setting key)) (fun _ => Ret None)) w =
    (Ok (match o with Done => find_setting key (db w) | _ => None end), set_sched s w)).
  { rewrite run_catch. unfold query, session, session_step, next_outcome. rewrite run_act, Ho.
    destruct o; cbn; by destruct w. }
  rewrite <-run_catch, Hread. rewrite run_bind.
  replace (negb _) with on.
  2: { unfold on. destruct o; try done. destruct (find_setting key (db w)) as [v|]; [|done]. f_equal.
       destruct (String.eqb_spec v "1") as [->|]; [by apply bool_decide_eq_true|apply bool_decide_eq_false; congruence]. }
  destruct (run_store key (flag on) (set_sched s w)) as (d & us & -> & Hk & Hd); [done..|].
  rewrite run_bind. set (w1 := set_db _ _).
  destruct (run_admin_notice (changed_notice key (words +:+ ": <b>" +:+ state_label on +:+ "</b>")) w1)
    as (w' & evs & -> & O & F & E). injection E as Ed _ _ _ _.
  exists w', evs. rewrite Ed. split_and!; try done.
Qed.


(** A time zone is read back as it was set.  For every quarter-hour offset from
    -12 to +14 a request names, storing it is accepted as valid, and what is then
    read for the notifications is exactly that offset. *)
Theorem timezone_read_back k w r w1 :
  NoDup (map bs_id (broker_settings (db w))) -> (-48 <= k <= 56)%Z ->
  run (behind_key (Some (api_API_KEY set_broker_api)) (setting_body_valid (SetNotificationTimezone (quarter_hours k)))
         (set_notification_timezone (quarter_hours k))) w = (Ok r, w1) ->
  setting_body_valid (SetNotificationTimezone (quarter_hours k)) = true /\
  parse_offset_hours (find_setting NOTIFICATION_TIMEZONE_KEY (db w1)) = quarter_hours k.
Proof.
  intros Hid Hkk H. split.
  { clear H. revert k Hkk. apply quarter_range. vm_compute. reflexivity. }
  unfold behind_key, ensure_api_key in H.
  destruct (is_empty _); [done|]. rewrite String.eqb_refl in H. cbn [bind] in H.
  destruct (setting_body_valid _); [|done]. unfold set_notification_timezone in H.
  destruct (stores_value NOTIFICATION_TIMEZONE_KEY (format_offset_value (quarter_hours k))
     ("Notification timezone: <b>" +:+ format_utc_label (quarter_hours k) +:+ "</b>") w Hid) as (q & v & evs & Hrun & _ & _ & _ & P).
  unfold value_of_set in Hrun. rewrite run_bind, H in Hrun. cbn in Hrun. injection Hrun as <- ->.
  destruct P as [P _]. rewrite P.
  assert (sv_value r = format_offset_value (quarter_hours k)) as ->; [|by apply offset_roundtrip].
  unfold set_value in H. rewrite run_bind in H. destruct (run (store_setting _ _) w) as [[[]|e] w0]; [|done]. rewrite run_bind in H.
  destruct (run (notify_admin _) w0) as [[[]|e] w0']; [|done]. by injection H as <- _.
Qed.
End routes.

(** ** A new account *)

(** What a registration draws is nobody's: the account's uuid, the token's, and the
    token itself. *)
Definition fresh_account (fresh token_id token : uuid) (d : Db) : Prop :=
  (forall a, a ∈ accounts d -> ac_id a <> fresh) /\
  (forall k, k ∈ account_link_tokens d -> lt_id k <> token_id /\ lt_token k <> token /\ lt_account_id k <> fresh) /\
  (forall l, l ∈ account_bot_links d -> al_account_id l <> fresh).

Lemma add_account_ok (a : Account) token_id token now d g :
  fresh_account (ac_id a) token_id token d -> ac_gateway a = Some g ->
  Forall (fun r => exact_account (ac_account_id a) (ac_market a) g r = false) (accounts d) ->
  add_account a token_id token now d =
    Ok (set_link_tokens (account_link_tokens d ++ [new_link_token token_id token now (ac_id a)])
          (set_accounts (accounts d ++ [a]) d)).
Proof.
  intros (Ha & Hk & _) Hg Hno. unfold add_account.
  destruct (insert_unique account_clash _ _) as [t|] eqn:E.
  2: { exfalso. apply insert_unique_None in E as (r & Hr & Hc). unfold account_clash in Hc. apply orb_prop in Hc as [Hc|Hc].
       - apply bool_decide_eq_true in Hc. by apply (Ha r Hr).
       - apply andb_prop in Hc as [[Hm Hg']%andb_prop Hid]. apply bool_decide_eq_true in Hm, Hid.
         rewrite Forall_forall in Hno. specialize (Hno r Hr). unfold exact_account in Hno.
         rewrite Hg in Hg'. unfold null_eqb in Hg'. destruct (ac_gateway r) as [g'|] eqn:Er; [|done].
         apply bool_decide_eq_true in Hg' as <-. rewrite !bool_decide_eq_true_2 in Hno by congruence. done. }
  apply insert_unique_Some in E as [-> _].
  destruct (insert_unique token_clash _ _) as [t|] eqn:E.
  2: { exfalso. apply insert_unique_None in E as (r & Hr & Hc). destruct (Hk r Hr) as (H1 & H2 & _).
       unfold token_clash in Hc. apply orb_prop in Hc as [Hc|Hc]; apply bool_decide_eq_true in Hc; cbn in Hc; congruence. }
  by apply insert_unique_Some in E as [-> _].
Qed.

(** The summary of a new account: its token, and no user yet. *)
Lemma new_summary id token_id token now (d : Db) :
  (forall k, k ∈ account_link_tokens d -> lt_account_id k <> id) ->
  (forall l, l ∈ account_bot_links d -> al_account_id l <> id) ->
  link_summaries [id] now (set_link_tokens (account_link_tokens d ++ [new_link_token token_id token now id]) d) =
    {[ id := {| link_token := Some token; linked_user_ids := [] |} ]}.
Proof.
  intros Hk Hl. unfold link_summaries. cbn [account_link_tokens account_bot_links set_link_tokens].
  rewrite select_where_app, (select_where_none _ (account_link_tokens d)), select_where_single.
  2: { apply Forall_forall. intros k Hin. apply andb_false_iff. left. apply bool_decide_eq_false.
       intros Hx%list_elem_of_singleton. by apply (Hk k). }
  rewrite (select_where_none _ (account_bot_links d)).
  2: { apply Forall_forall. intros l Hin. apply andb_false_iff. left. apply bool_decide_eq_false.
       intros Hx%list_elem_of_singleton. by apply (Hl l). }
  cbn. rewrite bool_decide_eq_true_2 by (by apply list_elem_of_singleton). cbn.
  unfold summarise. rewrite lookup_empty. cbn. done.
Qed.

Section invites.
Context `{CFG : Settings} `{CA : RowChoice Account}.

(** A new account comes with a working invite.  Over a working database,
    registering an account whose gateway the market has answers it, with a token
    and no user; and whoever presents that token is linked to exactly this account.
    A gateway the market does not have is refused before anything is read, and an
    account that is already stored with this gateway is refused and left alone. *)
Theorem new_account_has_invite b w u1 u2 u3 u4 u5 us tid :
  db_up w -> uuids w = u1 :: u2 :: u3 :: u4 :: u5 :: us -> fresh_account u1 u2 u3 (db w) -> fresh_links w ->
  NoDup (map ac_id (accounts (db w))) -> NoDup (map lt_token (account_link_tokens (db w))) ->
  NoDup (map bo_id (bot_sessions (db w))) ->
  if bool_decide (ca_gateway b ∈ GATEWAYS_BY_MARKET (ca_market b)) then
    if existsb (exact_account (ca_account_id b) (ca_market b) (ca_gateway b)) (accounts (db w)) then
      exists w1, run (register_account b) w = (Err (HTTPException 409 "account_id already exists"), w1) /\ db w1 = db w
    else
      exists r w1 w2,
        run (register_account b) w = (Ok r, w1) /\ rs_link_token r = Some u3 /\ rs_linked_user_ids r = [] /\
        accounts (db w1) = accounts (db w) ++ [rs_account r] /\
        (ac_account_id (rs_account r), ac_market (rs_account r), ac_gateway (rs_account r), ac_account_name (rs_account r)) =
          (ca_account_id b, ca_market b, Some (ca_gateway b), ca_account_name b) /\
        run (link_telegram u3 tid) w1 = (Ok (Some (rs_account r)), w2) /\
        access_given (str_int tid) (rs_account r) (db w1) (db w2)
  else exists e, run (register_account b) w = (Err e, w).
Proof.
  intros Hw Hu Hfresh (Hnd & Hfl & Hfs) Hacc Htok Hses. unfold register_account.
  destruct (bool_decide (ca_gateway b ∈ _)); [|by eexists].
  rewrite run_bind. unfold create_account, uuid4. rewrite run_bind, run_act, Hu, run_bind, run_act. cbv beta iota.
  cbn [uuids set_uuids]. rewrite run_bind, run_act. cbn [uuids set_uuids]. cbv beta iota.
  rewrite run_session_or by done. cbn [db now set_uuids]. unfold write_account.
  destruct (existsb _ _) eqn:Eex.
  - apply existsb_exists in Eex as (a & Ha & He). apply list_elem_of_In in Ha.
    destruct (select_first_is_Some _ (accounts (db w)) a Ha He) as [x ->]. eexists. by split.
  - assert (Hno : Forall (fun r => exact_account (ca_account_id b) (ca_market b) (ca_gateway b) r = false) (accounts (db w))).
    { apply Forall_forall. intros a Ha. apply not_true_iff_false. intros He. apply not_true_iff_false in Eex. apply Eex.
      apply existsb_exists. exists a. split; [by apply list_elem_of_In|done]. }
    apply select_first_None in Hno as Hsel. rewrite Hsel.
    set (a := registered u1 _ _ _ _ _).
    rewrite (add_account_ok a u2 u3 _ (db w) (ca_gateway b)) by done. destruct Hfresh as (F1 & F2 & F3).
    set (d1 := set_link_tokens _ _). set (w1 := set_db d1 _).
    unfold with_summary. rewrite run_bind. unfold get_link_summaries, clock. rewrite run_bind, run_act.
    pose proof (new_summary (ac_id a) u2 u3 (now w) (set_accounts (accounts (db w) ++ [a]) (db w))) as Hs.
    change (set_link_tokens _ _) with d1 in Hs.
    rewrite run_catch, run_query_up, set_db_same by done. cbn [ac_id registered]. change (now w1) with (now w).
    change (db w1) with d1. change (ac_id a) with u1 in *. rewrite Hs by naive_solver. clear Hs.
    cbn [run]. rewrite lookup_singleton_eq. cbn [default].
    set (k := new_link_token u2 u3 (now w) u1).
    rewrite Hu in Hnd, Hfl, Hfs.
    destruct (give_access_ok u4 u5 (now w) (str_int tid) a d1) as (d2 & Hg & Hgiven & _).
    { intros l Hl He. apply (Hfl l Hl). rewrite He. set_solver. }
    { intros s Hs He. apply (Hfs s Hs). rewrite He. set_solver. }
    { done. }
    eexists _, w1, _. split; [done|]. split; [done|]. split; [done|]. split; [done|]. split; [done|].
    rewrite (run_link u3 tid w1 u4 u5 us) by done.
    rewrite (claim_ok u4 u5 (now w1) u3 (str_int tid) (now w1) (db w1) k a); try done.
    + change (db w1) with d1. change (now w1) with (now w). rewrite Hg. split; [done|]. exact Hgiven.
    + change (account_link_tokens (db w1)) with (account_link_tokens (db w) ++ [k]). apply nodup_map_snoc; [done|].
      intros x Hx. by destruct (F2 x Hx) as (_ & ? & _).
    + change (accounts (db w1)) with (accounts (db w) ++ [a]). by apply nodup_map_snoc.
    + change (account_link_tokens (db w1)) with (account_link_tokens (db w) ++ [k]). apply elem_of_app. right. left.
    + change (accounts (db w1)) with (accounts (db w) ++ [a]). apply elem_of_app. right. left.
Qed.
End invites.

(** ** On concrete input *)
Module admin_samples.
Import api_samples.
#[local] Existing Instances sample_settings sample_settings_pydantic.

Abbreviation forex := (api_world [acct] [] []).

Lemma setting_stored_before_announced_witness :
  exists v w', run (behind_key (Some "key") true (change_setting (SetMaxOpenOrders 7))) forex = (Ok v, w') /\
    find_setting MAX_OPEN_ORDERS_KEY (db w') = Some v /\ v = "7".
Proof.
  destruct (setting_stored_before_announced (Some "key") (SetMaxOpenOrders 7) forex (NoDup_nil_2 : NoDup (map bs_id [])))
    as (r & w' & evs & H & _ & _ & _ & _ & Hr).
  assert (r = (run (behind_key (Some "key") true (change_setting (SetMaxOpenOrders 7))) forex).1) as Er
    by exact (eq_sym (f_equal fst H)).
  vm_compute in Er. subst r. exists "7", w'. destruct Hr as [Hk _]. done.
Defined.

Lemma notices_leave_in_order_witness :
  length (notices world0) <= NOTICE_QUEUE_MAXSIZE /\
  exists w', run (notice_ops get_admin_notifier [Submit "a" None; Submit "b" (Some "-1005"); Turn]) world0 =
    (Ok ([("a", None); ("b", Some "-1005")], [("a", None)]), w') /\ db w' = empty_db /\ notices w' = [("b", Some "-1005")].
Proof.
  split; [cbn; lia|].
  destruct (notices_leave_in_order get_admin_notifier [Submit "a" None; Submit "b" (Some "-1005"); Turn] world0)
    as (taken & handed & w' & evs & H & D & Q & _); [cbn; lia|].
  assert ((taken, handed) = ([("a", None); ("b", Some "-1005")], [("a", None : option string)])) as E.
  { enough (Ok (taken, handed) = (run (notice_ops get_admin_notifier [Submit "a" None; Submit "b" (Some "-1005"); Turn]) world0).1)
      as He by (vm_compute in He; congruence). by rewrite H. }
  injection E as -> ->. exists w'. split; [exact H|]. split; [exact D|]. cbn in Q. by injection Q as <-.
Defined.

Lemma cap_change_reaches_workers_witness :
  exists w' s, run (set_default_max_open_orders 7) forex =
      (Ok {| sv_setting := MAX_OPEN_ORDERS_KEY; sv_value := "7" |}, w') /\
    run (build_account_settings event) w' = (Ok s, w') /\ as_max_open_orders s = Some 7%Z.
Proof.
  destruct (cap_change_reaches_workers 7 forex) as (w' & evs & H & _ & _ & _ & _ & Hw);
    [constructor|by intros r Hr%not_elem_of_nil|lia|done|].
  destruct (Hw acct "MT5" event) as (s & Hs & _); [left|done|done|done|by vm_compute|].
  exists w', s. split; [exact H|]. split; [exact Hs|].
  assert (Ok s = (run (build_account_settings event) (run (set_default_max_open_orders 7) forex).2).1) as He
    by (by rewrite H; cbn [snd]; rewrite Hs).
  vm_compute in He. by injection He as ->.
Defined.

Lemma failed_read_back_pushes_default_witness :
  exists w' evs, find_setting MAX_OPEN_ORDERS_KEY (db w') = Some "7" /\
    out w' = evs ++ pushes [acct] 5 /\ length (pushes [acct] 5) = 1.
Proof.
  destruct (failed_read_back_pushes_default 7 (api_world [acct] [] [Done; Failed])) as (w' & evs & _ & Hk & _ & O);
    [constructor|by intros r Hr%not_elem_of_nil|lia|done|].
  exists w', evs. split; [exact Hk|]. split; [exact O|by vm_compute].
Defined.

Definition sample_map : list (string * Z) := [("wt", 9%Z); ("wt_bb_atr", (-20)%Z)].


Lemma timezone_read_back_witness :
  parse_offset_hours (find_setting NOTIFICATION_TIMEZONE_KEY
    (db (run (behind_key (Some "key") true (set_notification_timezone (quarter_hours 21))) forex).2)) = quarter_hours 21.
Proof.
  destruct (run (behind_key (Some "key") true (set_notification_timezone (quarter_hours 21))) forex) as [r w1] eqn:E.
  assert (r = (run (behind_key (Some "key") true (set_notification_timezone (quarter_hours 21))) forex).1) as Er by (by rewrite E).
  vm_compute in Er. subst r.
  destruct (timezone_read_back 21 forex _ w1 (NoDup_nil_2 : NoDup (map bs_id [])) ltac:(lia) E) as [_ H]. exact H.
Defined.

Definition sample_request : CreateAccountRequest :=
  {| ca_market := Market.FOREX; ca_gateway := "MT5"; ca_account_id := "777"; ca_account_name := Some "mine" |}.

Lemma new_account_has_invite_witness :
  exists r w1 w2, run (register_account sample_request) forex = (Ok r, w1) /\
    run (link_telegram (uid 62) 99) w1 = (Ok (Some (rs_account r)), w2) /\ holds "99" (db w2) (rs_account r) = true.
Proof.
  pose proof (new_account_has_invite sample_request forex (uid 60) (uid 61) (uid 62) (uid 63) (uid 64) [uid 65] 99) as H.
  destruct H as (r & w1 & w2 & H1 & _ & _ & _ & _ & H2 & Hg & _).
  - done.
  - done.
  - split_and!.
    + intros a ->%list_elem_of_singleton. done.
    + intros k ->%list_elem_of_singleton. done.
    + intros l ->%list_elem_of_singleton. done.
  - apply api_fresh.
  - apply NoDup_singleton.
  - apply NoDup_singleton.
  - constructor.
  - by exists r, w1, w2.
Defined.
End admin_samples.
