(* ===== verification/BotInvite.v ===== *)
(** * Invite links, from the administrator to the user

    [utils/invite.py] and the way of a deep link through the bot into the broker. *)

From S2P Require Import Prelude PyStr Uuid PyTime Json JsonText Enums Schemas Models ChatTargets BotState World Settings TimeZone.
From S2P Require Import StatusPolicies Samples SignalRepo SignalHelper SignalService SignalWorker.
From S2P Require Import BroadcastRepo BroadcastService Dispatcher TradeRepo AccountRepo AccountLinks Notifications AccountSettings.
From S2P Require Import TradeConsumer TradeCards TelegramApi AdminApi BotClient BotTable BotText BotCore BotUser BotAdmin BotApp.
From S2P Require Import TelegramFlow TelegramCases BotRun BotSafety.
From stdpp Require Import gmap.
From Stdlib Require Import Ascii.

(** ** Codes *)
Lemma hex_char_no_space n z : Forall (fun c => is_space c = false) (chars (hex_fixed n z)).
Proof. eapply Forall_impl; [apply hex_fixed_chars|]. intros c (d & Hd & ->). by apply hex_char_space. Qed.

Lemma strip_uuid_str u : strip (uuid_str u) = uuid_str u.
Proof.
  apply strip_by_none. unfold uuid_str. rewrite !chars_app, !Forall_app. cbn zeta.
  repeat split; try apply hex_char_no_space; by apply Forall_singleton.
Qed.

Lemma strip_uuid_hex u : strip (uuid_hex u) = uuid_hex u.
Proof. apply strip_by_none, hex_char_no_space. Qed.

Lemma uuid_parse_hex u : uuid_parse (uuid_hex u) = Some u.
Proof.
  unfold uuid_parse, uuid_hex.
  rewrite (delete_sub_none "urn:" _ ":") by (try apply hex_fixed_notin; csimpl; set_solver).
  rewrite (delete_sub_none "uuid:" _ ":") by (try apply hex_fixed_notin; csimpl; set_solver).
  rewrite strip_by_none.
  2:{ apply Forall_forall. intros c Hc. unfold is_brace.
      apply orb_false_intro; apply Ascii.eqb_neq; intros ->; revert Hc; apply hex_fixed_notin; set_solver. }
  rewrite (delete_sub_none "-" _ "-") by (try apply hex_fixed_notin; csimpl; set_solver).
  rewrite hex_fixed_length, decide_True by done. rewrite py_int_hex.
  rewrite N.mod_small by (pose proof (u_ok u) as H; apply N.ltb_lt in H; exact H).
  destruct (Z.ltb_spec (Z.of_N (u_int u)) 0) as [|_]; [lia|].
  rewrite N2Z.id. apply uuid_of_N_int.
Qed.

Lemma parse_payload u : parse_code (uuid_hex u) = Some (uuid_str u).
Proof. unfold parse_code. by rewrite strip_uuid_hex, uuid_parse_hex. Qed.

Lemma payload_not_empty u : is_empty (uuid_hex u) = false.
Proof. unfold uuid_hex. pose proof (hex_fixed_length 32 (u_int u)) as H. by destruct (hex_fixed 32 _). Qed.

Lemma code_not_empty u : is_empty (uuid_str u) = false.
Proof.
  unfold uuid_str. cbv zeta. pose proof (hex_fixed_length 8 (u_int u / 16 ^ 24)) as H. by destruct (hex_fixed 8 _).
Qed.

(** The characters Telegram allows in a deep link's payload: [A-Za-z0-9_-]. *)
Definition payload_char (c : ascii) : bool :=
  let n := N_of_ascii c in
  ((48 <=? n) && (n <=? 57) || (65 <=? n) && (n <=? 90) || (97 <=? n) && (n <=? 122) || (n =? 95) || (n =? 45))%N.

Lemma hex_payload n z : forallb payload_char (chars (hex_fixed n z)) = true.
Proof.
  apply forallb_forall. intros c Hc%list_elem_of_In. pose proof (hex_fixed_chars n z) as H. rewrite Forall_forall in H.
  destruct (H c Hc) as (d & Hd & ->). clear -Hd. revert d Hd. apply hex_char_all. repeat constructor.
Qed.

(** ** The way of a deep link *)
Section deeplink.
Context `{CFG : Settings} `{SP : SettingsPydantic} `{CA : RowChoice Account} `{TC : TradeColumns}.
Context `{BS : BotSettings} `{UP : BotHttp} `{BE : BotEnv}.

Lemma no_admin_start u state args : admin_commands u state "start" args = None.
Proof. reflexivity. Qed.

Lemma route_deeplink u state account args :
  up_event u = MsgCommand "start" args -> is_empty args = false ->
  route_update u state account = Some (cmd_start_deeplink u args).
Proof.
  intros He Ha. unfold route_update, admin_router, start_router. rewrite He, no_admin_start. cbn [String.eqb]. rewrite Ha.
  by destruct (is_admin _).
Qed.

(** The first message of a link that worked. *)
Definition linked_text (account : LinkedAccountResponse) : string :=
  (if la_is_active account then "✅ <b>Linked successfully!</b>"
   else "✅ <b>Account added.</b> Still using another account as active — use /switch to change.") +:+
  newline +:+ newline +:+ format_account account +:+ newline +:+ newline +:+ COMMANDS_HINT.

(** A deep link gives access and does nothing else to the broker. *)
Lemma deeplink_step u w args :
  up_event u = MsgCommand "start" args -> is_empty args = false ->
  user_step (str_int (up_user u)) (fun _ => False) true w (run (handle_update u) w).2.
Proof.
  intros He Ha. unfold handle_update. rewrite run_bind, run_get_state. cbv beta iota. rewrite run_bind.
  pose proof (linking_middleware u w I) as Hm. destruct (run (menu_middleware u) w) as [[account|e] w1]; [|exact Hm].
  rewrite (route_deeplink u _ _ args He Ha). etransitivity; [exact Hm|]. apply (start_tame u); [|done].
  unfold start_router. rewrite He. cbn [String.eqb]. by rewrite Ha.
Qed.

(** A live code over working services. *)
Lemma run_link_code u w token k a v1 v2 v3 vs :
  ensure_api_key (Some bot_BROKER_API_KEY) = Ret tt -> bot_up w -> uuids w = v1 :: v2 :: v3 :: vs -> fresh_links w ->
  NoDup (map bo_id (bot_sessions (db w))) -> NoDup (map lt_token (account_link_tokens (db w))) ->
  NoDup (map ac_id (accounts (db w))) ->
  k ∈ account_link_tokens (db w) -> lt_token k = token -> live_token (now w) k = true ->
  a ∈ accounts (db w) -> ac_id a = lt_account_id k ->
  let user := str_int (up_user u) in
  exists w' active, run (apply_link_token u (uuid_hex token)) w = (Ok true, w') /\
    holds user (db w') a = true /\ context_of u (bot w') = no_context /\
    (active = true <-> driving user (db w') = Some a) /\
    last (bt_said (bot w')) =
      Some (AnswerMessage (up_chat u) (linked_text {| la_account := a; la_is_active := active |}) None, ApiOk).
Proof.
  intros Hkey Hup Hv Hf Hse Htok Hacc Hk Ht Hlive Ha Hak. cbv zeta. set (user := str_int (up_user u)).
  unfold apply_link_token. rewrite parse_payload.
  rewrite run_bind. unfold client_link. rewrite uuid_field_str, run_call by (exact Hkey || apply Hup).
  unfold link_account. rewrite run_bind.
  rewrite (run_link token (up_user u) w v1 v2 (v3 :: vs)) by (done || apply Hup). fold user.
  rewrite (claim_ok v1 v2 (now w) token user (now w) (db w) k a Htok Hacc Hk Ht Hlive Ha Hak).
  destruct Hf as (Hnd & Hfl & Hfs). rewrite Hv in Hnd, Hfl, Hfs.
  destruct (give_access_ok v1 v2 (now w) user a (db w)) as (d & Eg & (Hh & _ & _ & _ & Hac & _) & _).
  { intros l Hl Hx. apply (Hfl l Hl). rewrite Hx. left. }
  { intros s Hs Hx. apply (Hfs s Hs). rewrite Hx. right; left. }
  { exact Hse. }
  rewrite Eg. cbv beta iota. set (d' := set_link_tokens _ d). rewrite run_bind.
  set (w3 := set_db d' (set_uuids (v3 :: vs) w)).
  destruct (run_active (up_user u) w3 v3 vs) as (w4 & E4 & Hup4 & Hb4 & Hdr & Ha4 & Hl4).
  { exact Hup. }
  { done. }
  { change (NoDup (map ac_id (accounts d))). by rewrite Hac. }
  rewrite E4. cbn [run]. fold user in Hdr |- *. set (resp := {| la_account := a; la_is_active := _ |}).
  cbn [answered json_or_none fst snd]. cbv beta iota. rewrite run_bind. unfold clear_state at 1. rewrite run_with_bot.
  cbn [fst snd]. cbv beta iota. set (w5 := set_bot _ w4). rewrite run_bind.
  destruct (run_sync (up_user u) true w5) as (w6 & E6 & Hup6 & Hd6 & Ho6 & _ & _ & Hf6); [by split; apply Hup4|].
  rewrite E6. cbv beta iota. rewrite run_bind, run_answer by apply Hup6. cbn [run]. cbv beta iota.
  eexists _, (la_is_active resp). split; [done|]. change (db (told _ w6)) with (db w6). rewrite Hd6. change (db w5) with (db w4).
  split_and!.
  + rewrite <-Hh. apply holds_ext. by rewrite Hl4.
  + unfold told, tell, context_of. cbn [bot set_bot bt_fsm]. rewrite Hf6. unfold w5, context_of, set_context. cbn. by rewrite lookup_insert_eq.
  + rewrite Hdr. unfold resp, is_active. cbn [la_is_active]. destruct (driving user (db w3)) as [b|] eqn:Edr; [|done].
    rewrite bool_decide_eq_true. split; [|congruence]. intros Hid. f_equal.
    apply driving_held in Edr as [Hb _]. change (b ∈ accounts d) in Hb. rewrite Hac in Hb.
    by apply (nodup_map_eq ac_id (accounts (db w))).
  + unfold told, tell. cbn [bot set_bot bt_said]. by rewrite last_snoc.
Qed.

(** C29. An invite link opens the account it was made for.  The link an
    administrator is shown for a token carries a payload Telegram accepts, 32
    characters of its alphabet, and every spelling of the code the bot reads leads to
    the same payload, which is read back as the canonical code.  Over working
    services, the user who follows the link — whoever that is, with whatever the
    conversation was at — holds the account whose live token it is when the update
    is handled: the conversation is cleared, the user is told so and which account is
    active, nothing is sent to NATS, no account changes, and no other user's links
    or active account do. *)
Theorem invite_link_opens_account u w token k a u1 u2 u3 u4 us :
  (forall raw code payload, parse_code raw = Some code -> to_payload raw = Some payload ->
     String.length payload = 32 /\ forallb payload_char (chars payload) = true /\ parse_code payload = Some code) /\
  invite_url (Some (uuid_str token)) = Some (create_start_link (uuid_hex token)) /\
  (ensure_api_key (Some bot_BROKER_API_KEY) = Ret tt -> bot_up w -> uuids w = u1 :: u2 :: u3 :: u4 :: us -> fresh_links w ->
   NoDup (map bo_id (bot_sessions (db w))) -> NoDup (map lt_token (account_link_tokens (db w))) ->
   NoDup (map ac_id (accounts (db w))) ->
   k ∈ account_link_tokens (db w) -> lt_token k = token -> live_token (now w) k = true ->
   a ∈ accounts (db w) -> ac_id a = lt_account_id k ->
   up_event u = MsgCommand "start" (uuid_hex token) ->
   let user := str_int (up_user u) in
   exists w' active, run (handle_update u) w = (Ok tt, w') /\
     holds user (db w') a = true /\ user_step user (fun _ => False) true w w' /\
     context_of u (bot w') = no_context /\
     (active = true <-> driving user (db w') = Some a) /\
     last (bt_said (bot w')) =
       Some (AnswerMessage (up_chat u) (linked_text {| la_account := a; la_is_active := active |}) None, ApiOk)).
Proof.
  split; [|split].
  - intros raw code payload. unfold parse_code, to_payload. destruct (uuid_parse (strip raw)) as [v|]; [|done].
    intros [= <-] [= <-]. split; [apply hex_fixed_length|]. split; [apply hex_payload|]. apply parse_payload.
  - unfold invite_url, to_payload, truthy. rewrite code_not_empty. cbn [mbind option_bind].
    by rewrite strip_uuid_str, uuid_parse_str.
  - intros Hkey Hup Hu Hf Hse Htok Hacc Hk Ht Hlive Ha Hak He. cbv zeta. set (user := str_int (up_user u)).
    pose proof (deeplink_step u w (uuid_hex token) He (payload_not_empty token)) as Hstep.
    assert (exists w' active, run (handle_update u) w = (Ok tt, w') /\ holds user (db w') a = true /\
      context_of u (bot w') = no_context /\ (active = true <-> driving user (db w') = Some a) /\
      last (bt_said (bot w')) =
        Some (AnswerMessage (up_chat u) (linked_text {| la_account := a; la_is_active := active |}) None, ApiOk))
      as (w' & active & E & H1 & H2 & H3 & H4).
    2: { exists w', active. rewrite E in Hstep. by split_and!. }
    clear Hstep. unfold handle_update. rewrite run_bind, run_get_state. cbv beta iota. rewrite run_bind.
    destruct (run_middleware Hkey u w u1 (u2 :: u3 :: u4 :: us) Hup Hu Hf Hse)
      as (w1 & account & E1 & _ & Hup1 & _ & Ho1 & Hn1 & Hd & Hu1 & Hf1 & Hse1 & Hp1). rewrite E1. cbv beta iota.
    assert (accounts (db w1) = accounts (db w) /\ account_bot_links (db w1) = account_bot_links (db w) /\
            account_link_tokens (db w1) = account_link_tokens (db w)) as Hd1 by (by rewrite Hd).
    clear Hd.
    assert (exists v1 v2 v3 vs, uuids w1 = v1 :: v2 :: v3 :: vs) as (v1 & v2 & v3 & vs & Hv)
      by (destruct Hu1 as [-> | ->]; [|rewrite Hu]; eauto 10).
    rewrite (route_deeplink u _ _ (uuid_hex token) He (payload_not_empty token)).
    unfold cmd_start_deeplink. rewrite run_bind. unfold clear_state at 1. rewrite run_with_bot. cbv beta iota. cbn [fst snd].
    set (w2 := set_bot _ w1). rewrite run_bind.
    destruct Hd1 as (Hac1 & _ & Htk1). rewrite <-Hac1 in Hacc, Ha. rewrite <-Htk1 in Htok, Hk. rewrite <-Hn1 in Hlive.
    destruct (run_link_code u w2 token k a v1 v2 v3 vs) as (w' & active & E & H); try assumption.
    rewrite E. by exists w', active.
Qed.
End deeplink.
