(* ===== verification/BotCases.v ===== *)
(** * What a confirmation confirms

    The administrators' FLAT and the users' confirmations end to end: from the
    updates to what the broker publishes; and what the prompts of
    [handlers/commands.py] name and their answers act on when the user switches the
    active account in between. *)

From S2P Require Import Prelude PyStr Uuid PyTime Json JsonText Enums Schemas Models ChatTargets BotState.
From S2P Require Import World Settings TimeZone StatusPolicies Samples SignalRepo SignalHelper SignalService.
From S2P Require Import SignalWorker BroadcastRepo BroadcastService Dispatcher TradeRepo AccountRepo.
From S2P Require Import AccountLinks Notifications AccountSettings AdminApi TradeConsumer TradeCards.
From S2P Require Import TelegramApi BotClient BotTable BotText BotCore BotUser BotAdmin BotApp TelegramFlow.
From S2P Require Import BotRun TelegramCases AdminCases.
From stdpp Require Import gmap.
From Stdlib Require Import Ascii.

Lemma filter_of_map {A B} (f : A -> B) (P : B -> Prop) `{!forall x, Decision (P x)} (l : list A) :
  base.filter P (map f l) = map f (base.filter (fun x => P (f x)) l).
Proof. induction l as [|x l IH]; [done|]. cbn [map]. rewrite !filter_cons, IH. by case_decide. Qed.

Section confirmations.
Context `{CFG : Settings} `{SP : SettingsPydantic} `{CA : RowChoice Account} `{TC : TradeColumns}.
Context `{BS : BotSettings} `{UP : BotHttp} `{BE : BotEnv}.
Hypothesis key : ensure_api_key (Some bot_BROKER_API_KEY) = Ret tt.

(** An update whose router does not depend on the account. *)
Lemma run_update u w h :
  bot_up w -> (forall account, route_update u (fs_state (context_of u (bot w))) account = Some h) ->
  exists w1, run (handle_update u) w = run h w1 /\ bot_up w1 /\ bt_fsm (bot w1) = bt_fsm (bot w) /\ looked_up w w1.
Proof.
  intros Hup Hr. unfold handle_update. rewrite run_bind, run_get_state. cbv beta iota. rewrite run_bind.
  destruct (run_front key u w Hup) as (account & w1 & E & Hup1 & Hf & Hl). rewrite E, Hr. by exists w1.
Qed.

(** ** The administrators' FLAT *)
Lemma run_all_accounts w :
  bot_up w -> exists summary, run client_admin_list_accounts w =
    (Ok (Some (map (fun a => {| rs_account := a; rs_link_token := link_token (summary a);
                                rs_linked_user_ids := linked_user_ids (summary a) |})
                   (by_last_activity (accounts (db w))))), w).
Proof.
  intros [Hw Hb]. unfold client_admin_list_accounts. rewrite run_call by done. unfold list_all_accounts, get_all.
  rewrite run_bind, run_catch, run_query_up, set_db_same by done. rewrite run_bind.
  unfold get_link_summaries. destruct (map ac_id _) as [|id ids].
  - eexists (fun a => default no_summary (∅ !! ac_id a)). done.
  - unfold clock. rewrite run_bind, run_act. cbv beta iota. rewrite run_catch, run_query_up, set_db_same by done.
    eexists (fun a => default no_summary (_ !! ac_id a)). done.
Qed.

(** The strategies the picker offers. *)
Definition stored_strategies (d : Db) : list string :=
  collate (distinct (base.filter (fun s => negb (is_empty s) = true) (map tr_strategy (trades d)))).

(** The routes of the two commands and of their button. *)
Lemma route_aflat u state account args :
  is_admin (up_user u) = true -> up_event u = MsgCommand "aflat" args ->
  route_update u state account = Some (cmd_aflat u args).
Proof. intros Ha He. unfold route_update, admin_router. by rewrite Ha, He. Qed.

Lemma route_aflat_confirm u state account :
  is_admin (up_user u) = true -> up_event u = Callback "aflat:confirm" ->
  route_update u state account = Some (cb_aflat u "aflat:confirm").
Proof. intros Ha He. unfold route_update, admin_router. by rewrite Ha, He. Qed.

(** [/aflat id] over working services. *)
Lemma run_aflat_account u w id a :
  bot_up w -> strip id = id -> is_empty id = false ->
  base.filter (fun x => ac_account_id x = id) (by_last_activity (accounts (db w))) = [a] ->
  exists w' r, run (cmd_aflat u id) w = (Ok tt, w') /\ bot_up w' /\ db w' = db w /\ out w' = out w /\ rs_account r = a /\
    fd_aflat_target (fs_data (context_of u (bot w'))) = Some (FlatAccount r) /\
    last (bt_said (bot w')) =
      Some (AnswerMessage (up_chat u) (aflat_target_confirm_text r) (Some (confirm_keyboard "aflat")), ApiOk).
Proof.
  intros Hup Hs He Hf. unfold cmd_aflat. cbv zeta. rewrite Hs, He. rewrite run_bind.
  destruct (run_all_accounts w Hup) as (summary & E). rewrite E. cbv beta iota. cbn [default from_option Datatypes.id]. clear E.
  rewrite filter_of_map. cbn [rs_account]. rewrite Hf. cbn [map].
  unfold update_data. rewrite run_bind, run_with_bot. cbv beta iota. cbn [fst snd].
  rewrite run_answer by apply Hup. eexists _, _. split; [done|]. split; [exact Hup|]. split; [done|]. split; [done|].
  split; [|split]; [|unfold context_of, told, set_context; cbn; by rewrite lookup_insert_eq|].
  - done.
  - unfold told, tell. cbn. by rewrite last_snoc.
Qed.
(** The request, taken. *)
Lemma run_flat_positions b w :
  bot_up w -> flat_valid b = true ->
  exists w' evs, run (call (Some b) flat_positions) w = (Ok (Some {| ar_action := "FLAT"; ar_scope := flat_scope b |}), w') /\
    bot_up w' /\ bot w' = bot w /\ db w' = db w /\ Forall is_notice evs /\
    out w' = out w ++ SentAdmin (admin_subject (flat_signal b (now w))) (flat_signal b (now w)) :: evs.
Proof.
  intros Hup Hv. rewrite run_call by (exact key || apply Hup).
  assert (always same_bot (flat_positions b)) as Hs by bot_steps. apply (always_run same_bot _ w) in Hs as [Hb Hd].
  revert Hb Hd. unfold flat_positions. rewrite run_bind. unfold clock. rewrite run_act. cbv beta iota. rewrite run_bind.
  unfold publish_admin_signal. assert (admin_signal_valid (flat_signal b (now w)) = true) as ->.
  { revert Hv. unfold flat_valid, admin_signal_valid. cbn. by destruct (fr_account_id b), (fr_market b), (fr_gateway b). }
  rewrite run_nats_up by apply Hup. cbv beta iota. rewrite run_bind.
  destruct (run_admin_notice ("🛡️ <b>[ADMIN]FLAT</b>" +:+ newline +:+ "Scope: <code>" +:+ flat_scope b +:+ "</code>" +:+ newline)
    (emit (SentAdmin (admin_subject (flat_signal b (now w))) (flat_signal b (now w))) w)) as (w' & evs & E & Ho & Hn & Hrest).
  rewrite E. cbv beta iota. cbn [run fst snd]. intros Hb Hd. exists w', evs. split; [done|].
  split; [split; [by apply Hd, Hup|rewrite Hb; apply Hup]|]. split; [done|]. split; [by injection Hrest|]. split; [done|].
  rewrite Ho. cbn. by rewrite <-app_assoc.
Qed.

(** What the button does: what the conversation holds. *)
Definition held_flat (d : FsmData) : option FlatRequest :=
  match fd_aflat_target d with
  | None => None
  | Some FlatEverything =>
      let scope := default no_scope (fd_aflat_scope d) in
      match sc_market scope with
      | None => Some {| fr_strategy := sc_strategy scope; fr_symbol := None; fr_account_id := None; fr_market := None;
                        fr_gateway := sc_gateway scope |}
      | Some m => (fun m => {| fr_strategy := sc_strategy scope; fr_symbol := None; fr_account_id := None; fr_market := Some m;
                               fr_gateway := sc_gateway scope |}) <$> market_field m
      end
  | Some (FlatAccount r) =>
      let a := rs_account r in
      Some {| fr_strategy := None; fr_symbol := None; fr_account_id := Some (ac_account_id a); fr_market := Some (ac_market a);
              fr_gateway := ac_gateway a |}
  end.

Lemma market_field_value m : market_field (market_value m) = Some m.
Proof. by destruct m. Qed.

Lemma run_confirm u w b :
  bot_up w -> held_flat (fs_data (context_of u (bot w))) = Some b -> flat_valid b = true ->
  exists w' evs, run (cb_aflat u "aflat:confirm") w = (Ok tt, w') /\ bot_up w' /\
    fd_aflat_target (fs_data (context_of u (bot w'))) = None /\ Forall is_notice evs /\
    out w' = out w ++ SentAdmin (admin_subject (flat_signal b (now w))) (flat_signal b (now w)) :: evs.
Proof.
  intros Hup Hd Hv. unfold cb_aflat. cbn [String.eqb Ascii.eqb Bool.eqb]. cbv zeta. rewrite run_bind, run_get_data. cbv beta iota.
  unfold update_data. rewrite run_bind, run_with_bot. cbv beta iota. cbn [fst snd]. set (w1 := set_bot _ w).
  unfold held_flat in Hd. destruct (fd_aflat_target _) as [target|]; [|done].
  assert (bot_up w1) as Hup1 by exact Hup.
  destruct (run_flat_positions b w1 Hup1 Hv) as (w2 & evs & E & Hup2 & Hb2 & Hd2 & Hn & Ho).
  assert (fd_aflat_target (fs_data (context_of u (bot w2))) = None) as Hctx.
  { rewrite Hb2. unfold w1, context_of, set_context. cbn. by rewrite lookup_insert_eq. }
  assert (forall p, p = call (Some b) flat_positions ->
    exists w' evs, run (let! result := p in do! match result with
            | None => safe_edit_text u "❌ FLAT failed." None
            | Some result => safe_edit_text u (format_command_result (ar_action result) (ar_scope result)) None
            end in call_done u) w1 = (Ok tt, w') /\ bot_up w' /\
      fd_aflat_target (fs_data (context_of u (bot w'))) = None /\ Forall is_notice evs /\
      out w' = out w1 ++ SentAdmin (admin_subject (flat_signal b (now w1))) (flat_signal b (now w1)) :: evs) as Hdone.
  { intros p ->. rewrite run_bind, E. cbv beta iota. rewrite run_bind, run_edit by apply Hup2. cbv beta iota.
    unfold call_done. rewrite run_call_answer by apply Hup2. eexists _, evs. split; [done|]. split; [exact Hup2|]. by split. }
  apply Hdone. destruct target as [|r].
  - destruct (sc_market _) as [m|]; cbn in Hd.
    + unfold client_admin_flat. destruct (market_field m) as [m'|]; [|done]. injection Hd as <-. done.
    + injection Hd as <-. unfold client_admin_flat. cbn. done.
  - injection Hd as <-. unfold client_admin_flat. rewrite market_field_value. cbn in Hv |- *.
    by destruct (ac_gateway (rs_account r)).
Qed.
(** ** A conversation *)

(** Another update of the same user in the same chat. *)
Definition then_comes (u : Update) (e : Event) : Update :=
  {| up_user := up_user u; up_chat := up_chat u; up_private := up_private u; up_is_bot := up_is_bot u; up_event := e |}.

Lemma context_then u e b : context_of (then_comes u e) b = context_of u b.
Proof. done. Qed.

(** The data of the pickers' buttons. *)
Definition pick_data (prefix : string) (choice : option string) : string := prefix +:+ ":" +:+ default AFLAT_ALL choice.

Lemma after_colon_app prefix x : ":"%char ∉ chars prefix -> after_colon (prefix +:+ ":" +:+ x) = Some x.
Proof.
  intros Hp. unfold after_colon. change (prefix +:+ ":" +:+ x) with (prefix +:+ String ":" x).
  rewrite split_concat, (split_id _ prefix Hp). cbn [app]. pose proof (join_split ":"%char x) as Hj.
  pose proof (split_nonempty ":"%char x) as H. revert Hj H. destruct (PyStr.split ":"%char x); [done|].
  by intros ->.
Qed.

Lemma pick_colon prefix choice : ":"%char ∉ chars prefix -> after_colon (pick_data prefix choice) = Some (default AFLAT_ALL choice).
Proof. apply after_colon_app. Qed.

Lemma route_pick u prefix choice state account :
  is_admin (up_user u) = true -> prefix ∈ ["afls"; "aflm"; "aflg"] ->
  route_update (then_comes u (Callback (pick_data prefix choice))) state account =
    Some (let u := then_comes u (Callback (pick_data prefix choice)) in
          if String.eqb prefix "afls" then cb_aflat_pick_strategy u (pick_data prefix choice)
          else if String.eqb prefix "aflm" then cb_aflat_pick_market u (pick_data prefix choice)
          else cb_aflat_pick_gateway u (pick_data prefix choice)).
Proof.
  intros Ha Hp. unfold route_update, admin_router. cbn [up_user up_event then_comes]. rewrite Ha.
  apply list_elem_of_In in Hp. destruct Hp as [<-|[<-|[<-|[]]]]; reflexivity.
Qed.

(** A picker's step over working services. *)
Lemma run_scope_step u scope text kb w :
  bot_up w -> exists w', run (scope_step u scope text kb) w = (Ok tt, w') /\ bot_up w' /\ out w' = out w /\ db w' = db w /\
    fs_data (context_of u (bot w')) = set_fd_scope (Some scope) (fs_data (context_of u (bot w))) /\
    bt_said (bot w') = bt_said (bot w) ++ [(EditMessageText (up_chat u) text (Some kb), ApiOk); (AnswerCallback (up_user u) None false, ApiOk)].
Proof.
  intros Hup. unfold scope_step, update_data, call_done. rewrite run_bind, run_with_bot. cbv beta iota. cbn [fst snd].
  rewrite run_bind, run_edit by exact (proj2 Hup). cbv beta iota. rewrite run_call_answer by exact (proj2 Hup).
  eexists. split; [done|]. split; [exact Hup|]. split; [done|]. split; [done|]. split.
  - unfold context_of, told, tell, set_context. cbn. by rewrite lookup_insert_eq.
  - unfold told, tell. cbn. by rewrite <-app_assoc.
Qed.
Lemma run_start_scope u w :
  bot_up w -> exists w', run (cmd_aflat u EmptyString) w = (Ok tt, w') /\ bot_up w' /\ out w' = out w /\ db w' = db w /\
    fs_data (context_of u (bot w')) =
      set_fd_scope (Some no_scope) (set_fd_strategies (Some (stored_strategies (db w)))
        (set_fd_target (Some FlatEverything) None (fs_data (context_of u (bot w))))).
Proof.
  intros Hup. unfold cmd_aflat. cbn [strip strip_by lstrip_by rstrip_by is_empty]. unfold aflat_start_scope_flow.
  unfold client_admin_list_strategies. rewrite run_bind, run_call by (exact key || apply Hup).
  unfold list_strategies, list_distinct_strategies. rewrite run_catch, run_query_up, set_db_same by apply Hup.
  cbn [fst snd answered json_or_none]. cbv beta iota zeta. cbn [default from_option Datatypes.id].
  unfold update_data. rewrite run_bind, run_with_bot. cbv beta iota. cbn [fst snd]. rewrite run_answer by exact (proj2 Hup).
  eexists. split; [done|]. split; [exact Hup|]. split; [done|]. split; [done|].
  unfold context_of, told, tell, set_context. cbn. by rewrite lookup_insert_eq.
Qed.

(** The choices of the pickers: a strategy by its place in the list. *)
Definition strategy_choice (s : option (nat * string)) : option string := (fun p => str_int (Z.of_nat p.1)) <$> s.

Definition picked_strategy (s : option (nat * string)) : option string := snd <$> s.

Lemma run_pick_strategy u w s strategies :
  bot_up w -> fd_aflat_strategies (fs_data (context_of u (bot w))) = Some strategies ->
  (forall i name, s = Some (i, name) -> strategies !! i = Some name) ->
  let scope := default no_scope (fd_aflat_scope (fs_data (context_of u (bot w)))) in
  let scope' := {| sc_strategy := picked_strategy s; sc_market := sc_market scope; sc_gateway := sc_gateway scope |} in
  exists w', run (cb_aflat_pick_strategy u (pick_data "afls" (strategy_choice s))) w = (Ok tt, w') /\
    bot_up w' /\ out w' = out w /\ db w' = db w /\
    fs_data (context_of u (bot w')) = set_fd_scope (Some scope') (fs_data (context_of u (bot w))).
Proof.
  intros Hup Hst Hs. cbv zeta. unfold cb_aflat_pick_strategy. rewrite pick_colon by (apply (bool_decide_unpack _); by vm_compute).
  cbn [default from_option Datatypes.id]. rewrite run_bind, run_get_data. cbv beta iota zeta.
  destruct s as [[i name]|]; cbn [strategy_choice picked_strategy fmap option_fmap option_map fst snd default from_option Datatypes.id].
  - assert (String.eqb (str_int (Z.of_nat i)) AFLAT_ALL = false) as ->.
    { apply String.eqb_neq. intros E. apply (f_equal (py_int 10)) in E. rewrite py_int_str_int in E. by vm_compute in E. }
    rewrite py_int_str_int, Hst. cbn [default from_option Datatypes.id]. unfold nth_of.
    rewrite (proj2 (Z.ltb_ge _ _)) by lia. rewrite Nat2Z.id, (Hs i name) by done.
    edestruct run_scope_step as (w' & E & ? & ? & ? & ? & _); [exact Hup|]. rewrite E. by exists w'.
  - cbn [String.eqb AFLAT_ALL Ascii.eqb Bool.eqb].
    edestruct run_scope_step as (w' & E & ? & ? & ? & ? & _); [exact Hup|]. rewrite E. by exists w'.
Qed.

Lemma run_pick_market u w m :
  bot_up w -> (forall x, m = Some x -> x ∈ MARKETS) ->
  let scope := default no_scope (fd_aflat_scope (fs_data (context_of u (bot w)))) in
  let scope' := {| sc_strategy := sc_strategy scope; sc_market := m; sc_gateway := sc_gateway scope |} in
  exists w', run (cb_aflat_pick_market u (pick_data "aflm" m)) w = (Ok tt, w') /\
    bot_up w' /\ out w' = out w /\ db w' = db w /\
    fs_data (context_of u (bot w')) = set_fd_scope (Some scope') (fs_data (context_of u (bot w))).
Proof.
  intros Hup Hm. cbv zeta. unfold cb_aflat_pick_market. rewrite pick_colon by (apply (bool_decide_unpack _); by vm_compute).
  cbn [default from_option Datatypes.id]. rewrite run_bind, run_get_data. cbv beta iota zeta.
  destruct m as [x|]; cbn [default from_option Datatypes.id].
  - specialize (Hm x eq_refl). assert (String.eqb x AFLAT_ALL = false) as ->.
    { apply String.eqb_neq. intros ->. revert Hm. apply (bool_decide_unpack _). by vm_compute. }
    rewrite bool_decide_eq_true_2 by done.
    edestruct run_scope_step as (w' & E & ? & ? & ? & ? & _); [exact Hup|]. rewrite E. by exists w'.
  - cbn [String.eqb AFLAT_ALL Ascii.eqb Bool.eqb].
    edestruct run_scope_step as (w' & E & ? & ? & ? & ? & _); [exact Hup|]. rewrite E. by exists w'.
Qed.

Lemma run_pick_gateway u w g :
  bot_up w ->
  let scope := default no_scope (fd_aflat_scope (fs_data (context_of u (bot w)))) in
  (forall x, g = Some x -> x ∈ match truthy (sc_market scope) with Some m => gateways_of m | None => all_gateways end) ->
  AFLAT_ALL ∉ match truthy (sc_market scope) with Some m => gateways_of m | None => all_gateways end ->
  let scope' := {| sc_strategy := sc_strategy scope; sc_market := sc_market scope; sc_gateway := g |} in
  exists w', run (cb_aflat_pick_gateway u (pick_data "aflg" g)) w = (Ok tt, w') /\
    bot_up w' /\ out w' = out w /\ db w' = db w /\
    fs_data (context_of u (bot w')) = set_fd_scope (Some scope') (fs_data (context_of u (bot w))) /\
    (EditMessageText (up_chat u) (aflat_scope_confirm_text scope') (Some (confirm_keyboard "aflat")), ApiOk) ∈ bt_said (bot w').
Proof.
  intros Hup. cbv zeta. intros Hg Hno. unfold cb_aflat_pick_gateway. rewrite pick_colon by (apply (bool_decide_unpack _); by vm_compute).
  cbn [default from_option Datatypes.id]. rewrite run_bind, run_get_data. cbv beta iota zeta.
  destruct g as [x|]; cbn [default from_option Datatypes.id].
  - specialize (Hg x eq_refl). assert (String.eqb x AFLAT_ALL = false) as -> by (apply String.eqb_neq; by intros ->).
    rewrite bool_decide_eq_true_2 by done.
    edestruct run_scope_step as (w' & E & ? & ? & ? & ? & Hs); [exact Hup|]. rewrite E. exists w'. split_and!; try done.
    rewrite Hs. set_solver.
  - cbn [String.eqb AFLAT_ALL Ascii.eqb Bool.eqb].
    edestruct run_scope_step as (w' & E & ? & ? & ? & ? & Hs); [exact Hup|]. rewrite E. exists w'. split_and!; try done.
    rewrite Hs. set_solver.
Qed.
(** One update of a conversation: what its handler does, from where the middleware
    left. *)
Lemma run_step u w h (P : World -> Prop) :
  bot_up w -> (forall state account, route_update u state account = Some h) ->
  (forall w1, bot_up w1 -> bt_fsm (bot w1) = bt_fsm (bot w) -> looked_up w w1 -> exists w2, run h w1 = (Ok tt, w2) /\ P w2) ->
  exists w2, run (handle_updates [u]) w = (Ok tt, w2) /\ P w2.
Proof.
  intros Hup Hr Hh. destruct (run_update u w h Hup) as (w1 & E & Hup1 & Hf & Hl); [done|].
  destruct (Hh w1 Hup1 Hf Hl) as (w2 & E2 & HP). exists w2. split; [|done].
  unfold handle_updates. cbn [for_each]. by rewrite run_bind, run_catch, E, E2.
Qed.

Lemma run_then us vs w w1 r :
  run (handle_updates us) w = (Ok tt, w1) -> run (handle_updates vs) w1 = r -> run (handle_updates (us ++ vs)) w = r.
Proof.
  unfold handle_updates. revert w. induction us as [|x us IH]; intros w; [by intros [= <-]|]. cbn [for_each app].
  rewrite !run_bind. destruct (run (catch _ _) w) as [[[]|e] v]; [apply IH|done].
Qed.

Lemma context_same u b b' : bt_fsm b' = bt_fsm b -> context_of u b' = context_of u b.
Proof. unfold context_of. by intros ->. Qed.

(** The request of a scope. *)
Definition scope_request (s m g : option string) : FlatRequest :=
  {| fr_strategy := s; fr_symbol := None; fr_account_id := None; fr_market := m ≫= market_field; fr_gateway := g |}.

(** The conversation has come to [scope], with the strategies of [w0] on offer and
    nothing sent since. *)
Record at_scope (u : Update) (w0 : World) (scope : FlatScope) (w : World) : Prop := {
  at_up : bot_up w;
  at_out : out w = out w0;
  at_target : fd_aflat_target (fs_data (context_of u (bot w))) = Some FlatEverything;
  at_strategies : fd_aflat_strategies (fs_data (context_of u (bot w))) = Some (stored_strategies (db w0));
  at_chosen : fd_aflat_scope (fs_data (context_of u (bot w))) = Some scope
}.

Lemma at_scope_same u w0 scope w w1 :
  at_scope u w0 scope w -> bot_up w1 -> bt_fsm (bot w1) = bt_fsm (bot w) -> out w1 = out w -> at_scope u w0 scope w1.
Proof. intros [] Hup Hf Ho. split; [done|congruence|..]; by rewrite (context_same u (bot w) (bot w1)). Qed.

Lemma at_scope_next u w0 scope scope' w w1 :
  at_scope u w0 scope w -> bot_up w1 -> out w1 = out w ->
  fs_data (context_of u (bot w1)) = set_fd_scope (Some scope') (fs_data (context_of u (bot w))) -> at_scope u w0 scope' w1.
Proof. intros [] Hup Ho Hc. split; [done|congruence|..]; by rewrite Hc. Qed.

Section conversation.
Context (u : Update) (w0 : World).
Hypothesis admin : is_admin (up_user u) = true.

Lemma conv_start :
  bot_up w0 -> exists w1, run (handle_updates [then_comes u (MsgCommand "aflat" EmptyString)]) w0 = (Ok tt, w1) /\
    at_scope u w0 no_scope w1.
Proof.
  intros Hup. apply (run_step _ w0 (cmd_aflat (then_comes u (MsgCommand "aflat" EmptyString)) EmptyString)); [done|by intros; apply route_aflat|].
  intros v Hv Hf (_ & _ & Ht & Ho). destruct (run_start_scope (then_comes u (MsgCommand "aflat" EmptyString)) v Hv) as (v' & E & Hv' & Ho' & _ & Hc).
  exists v'. split; [done|]. change (context_of (then_comes u _)) with (context_of u) in Hc.
  split; [done|congruence| | |]; rewrite Hc; [done| |done]. cbn. unfold stored_strategies. by rewrite Ht.
Qed.

(** One of the three pickers. *)
Lemma conv_pick prefix choice (h : Update -> prog unit) scope scope' (P : World -> Prop) w :
  (forall state account, route_update (then_comes u (Callback (pick_data prefix choice))) state account =
     Some (h (then_comes u (Callback (pick_data prefix choice))))) ->
  at_scope u w0 scope w ->
  (forall v, at_scope u w0 scope v -> exists w', run (h (then_comes u (Callback (pick_data prefix choice)))) v = (Ok tt, w') /\
    bot_up w' /\ out w' = out v /\ db w' = db v /\
    fs_data (context_of u (bot w')) = set_fd_scope (Some scope') (fs_data (context_of u (bot v))) /\ P w') ->
  exists w1, run (handle_updates [then_comes u (Callback (pick_data prefix choice))]) w = (Ok tt, w1) /\
    at_scope u w0 scope' w1 /\ P w1.
Proof.
  intros Hr Hat Hh. apply (run_step _ w (h (then_comes u (Callback (pick_data prefix choice))))); [apply Hat|apply Hr|].
  intros v Hv Hf (_ & _ & _ & Ho). assert (at_scope u w0 scope v) as Hat' by (by eapply at_scope_same).
  destruct (Hh v Hat') as (w' & E & Hup' & Ho' & _ & Hc & HP). exists w'. split; [done|]. split; [|done].
  by eapply at_scope_next.
Qed.

Lemma conv_strategy s scope w :
  at_scope u w0 scope w -> (forall i name, s = Some (i, name) -> stored_strategies (db w0) !! i = Some name) ->
  exists w1, run (handle_updates [then_comes u (Callback (pick_data "afls" (strategy_choice s)))]) w = (Ok tt, w1) /\
    at_scope u w0 {| sc_strategy := picked_strategy s; sc_market := sc_market scope; sc_gateway := sc_gateway scope |} w1 /\ True.
Proof.
  intros Hat Hs. eapply (conv_pick _ _ (fun c => cb_aflat_pick_strategy c (pick_data "afls" (strategy_choice s)))); [|exact Hat|].
  { intros. apply (route_pick u "afls" (strategy_choice s)); [done|set_solver]. }
  intros v Hv. destruct (run_pick_strategy (then_comes u (Callback (pick_data "afls" (strategy_choice s)))) v s _ (at_up _ _ _ _ Hv) (at_strategies _ _ _ _ Hv) Hs)
    as (w' & E & ? & ? & ? & Hc). exists w'. split_and!; try done. change (context_of (then_comes u _)) with (context_of u) in Hc.
  rewrite (at_chosen _ _ _ _ Hv) in Hc. exact Hc.
Qed.

Lemma conv_market m scope w :
  at_scope u w0 scope w -> (forall x, m = Some x -> x ∈ MARKETS) ->
  exists w1, run (handle_updates [then_comes u (Callback (pick_data "aflm" m))]) w = (Ok tt, w1) /\
    at_scope u w0 {| sc_strategy := sc_strategy scope; sc_market := m; sc_gateway := sc_gateway scope |} w1 /\ True.
Proof.
  intros Hat Hm. eapply (conv_pick _ _ (fun c => cb_aflat_pick_market c (pick_data "aflm" m))); [|exact Hat|].
  { intros. apply (route_pick u "aflm" m); [done|set_solver]. }
  intros v Hv. destruct (run_pick_market (then_comes u (Callback (pick_data "aflm" m))) v m (at_up _ _ _ _ Hv) Hm)
    as (w' & E & ? & ? & ? & Hc). exists w'. split_and!; try done. change (context_of (then_comes u _)) with (context_of u) in Hc.
  rewrite (at_chosen _ _ _ _ Hv) in Hc. exact Hc.
Qed.

Lemma conv_gateway g scope w :
  at_scope u w0 scope w ->
  (forall x, g = Some x -> x ∈ match truthy (sc_market scope) with Some m => gateways_of m | None => all_gateways end) ->
  AFLAT_ALL ∉ match truthy (sc_market scope) with Some m => gateways_of m | None => all_gateways end ->
  let scope' := {| sc_strategy := sc_strategy scope; sc_market := sc_market scope; sc_gateway := g |} in
  exists w1, run (handle_updates [then_comes u (Callback (pick_data "aflg" g))]) w = (Ok tt, w1) /\
    at_scope u w0 scope' w1 /\
    (EditMessageText (up_chat u) (aflat_scope_confirm_text scope') (Some (confirm_keyboard "aflat")), ApiOk) ∈ bt_said (bot w1).
Proof.
  intros Hat Hg Hno scope'. eapply (conv_pick _ _ (fun c => cb_aflat_pick_gateway c (pick_data "aflg" g))); [|exact Hat|].
  { intros. apply (route_pick u "aflg" g); [done|set_solver]. }
  intros v Hv. pose proof (run_pick_gateway (then_comes u (Callback (pick_data "aflg" g))) v g (at_up _ _ _ _ Hv)) as H.
  change (context_of (then_comes u _)) with (context_of u) in H. rewrite (at_chosen _ _ _ _ Hv) in H.
  destruct (H Hg Hno) as (w' & E & ? & ? & ? & Hc & Hs). exists w'. by split_and!.
Qed.

Lemma conv_confirm scope b w :
  at_scope u w0 scope w -> held_flat (set_fd_scope (Some scope) (set_fd_target (Some FlatEverything) None no_data)) = Some b ->
  flat_valid b = true ->
  exists w1, run (handle_updates [then_comes u (Callback "aflat:confirm")]) w = (Ok tt, w1) /\
    exists t evs, Forall is_notice evs /\ out w1 = out w0 ++ SentAdmin (admin_subject (flat_signal b t)) (flat_signal b t) :: evs.
Proof.
  intros Hat Hb Hv. apply (run_step _ w (cb_aflat (then_comes u (Callback "aflat:confirm")) "aflat:confirm")); [apply Hat|by intros; apply route_aflat_confirm|].
  intros v Hup Hf (_ & _ & _ & Ho). assert (at_scope u w0 scope v) as Hat' by (by eapply at_scope_same).
  destruct (run_confirm (then_comes u (Callback "aflat:confirm")) v b Hup) as (w' & evs & E & _ & _ & Hn & Ho').
  { change (context_of (then_comes u _)) with (context_of u). rewrite <-Hb. unfold held_flat.
    by rewrite (at_target _ _ _ _ Hat'), (at_chosen _ _ _ _ Hat'). }
  { done. }
  exists w'. split; [done|]. exists (now v), evs. by rewrite Ho', (at_out _ _ _ _ Hat').
Qed.
End conversation.

(** A FLAT closes what was picked.  Over working services, an administrator who
    runs [/aflat], picks a strategy of the list or all, a market or all, a gateway
    of that market or all, and confirms is shown exactly this scope in the prompt, and
    only the confirmation sends anything: one FLAT, to every worker, with exactly the
    strategy, market and gateway picked and no account or symbol, besides the
    notices to the administrators. *)
Theorem flat_closes_what_was_picked u w s m g :
  is_admin (up_user u) = true -> bot_up w ->
  (forall i name, s = Some (i, name) -> stored_strategies (db w) !! i = Some name) ->
  (forall x, m = Some x -> x ∈ MARKETS) ->
  (forall x, g = Some x -> x ∈ match m with Some m => gateways_of m | None => all_gateways end) ->
  let scope := {| sc_strategy := picked_strategy s; sc_market := m; sc_gateway := g |} in
  exists w1 w2 t evs,
    run (handle_updates [then_comes u (MsgCommand "aflat" EmptyString);
                         then_comes u (Callback (pick_data "afls" (strategy_choice s)));
                         then_comes u (Callback (pick_data "aflm" m));
                         then_comes u (Callback (pick_data "aflg" g))]) w = (Ok tt, w1) /\
    (EditMessageText (up_chat u) (aflat_scope_confirm_text scope) (Some (confirm_keyboard "aflat")), ApiOk) ∈ bt_said (bot w1) /\
    out w1 = out w /\
    run (handle_updates [then_comes u (Callback "aflat:confirm")]) w1 = (Ok tt, w2) /\
    out w2 = out w ++ SentAdmin (topic_value TOPIC_ADMIN) (flat_signal (scope_request (picked_strategy s) m g) t) :: evs /\
    Forall is_notice evs.
Proof.
  intros Ha Hup Hs Hm Hg scope.
  destruct (conv_start u w Ha Hup) as (v0 & E0 & H0).
  destruct (conv_strategy u w Ha s _ v0 H0 Hs) as (v1 & E1 & H1 & _).
  destruct (conv_market u w Ha m _ v1 H1 Hm) as (v2 & E2 & H2 & _). cbn in H2.
  assert (truthy m = m) as Htm.
  { destruct m as [x|]; [|done]. specialize (Hm x eq_refl). unfold truthy. by destruct x; [apply list_elem_of_In in Hm; destruct Hm as [|[|[]]]|]. }
  destruct (conv_gateway u w Ha g _ v2 H2) as (v3 & E3 & H3 & Hsaid).
  { cbn. by rewrite Htm. }
  { cbn. rewrite Htm. destruct m as [x|]; [specialize (Hm x eq_refl)|by apply (bool_decide_unpack _); vm_compute].
    apply list_elem_of_In in Hm. destruct Hm as [<-|[<-|[]]]; by apply (bool_decide_unpack _); vm_compute. }
  destruct (conv_confirm u w Ha _ (scope_request (picked_strategy s) m g) v3 H3) as (v4 & E4 & t & evs & Hn & Ho).
  { unfold held_flat, scope_request. cbn. destruct m as [x|]; [|done]. specialize (Hm x eq_refl).
    apply list_elem_of_In in Hm. by destruct Hm as [<-|[<-|[]]]. }
  { done. }
  exists v3, v4, t, evs. split; [|by split_and!; [|apply H3|..]].
  exact (run_then [_] _ _ _ _ E0 (run_then [_] _ _ _ _ E1 (run_then [_] _ _ _ _ E2 E3))).
Qed.
(** The FLAT of one account. *)
Definition account_request (a : Account) : FlatRequest :=
  {| fr_strategy := None; fr_symbol := None; fr_account_id := Some (ac_account_id a); fr_market := Some (ac_market a);
     fr_gateway := ac_gateway a |}.

(** An old confirmation confirms something else.  [/aflat id] asks an
    administrator to confirm closing the positions of that one account, and the
    Confirm button under this prompt does just that when it is tapped at once.  But
    every FLAT prompt's button carries the same data, and what it does is whatever
    the conversation holds last: after another [/aflat], tapping Confirm under the
    first prompt, which still names the one account, closes every position of every
    account. *)
Theorem stale_confirm_flats_everything u w id a g :
  is_admin (up_user u) = true -> bot_up w -> strip id = id -> is_empty id = false -> ac_gateway a = Some g ->
  base.filter (fun x => ac_account_id x = id) (by_last_activity (accounts (db w))) = [a] ->
  let tap := then_comes u (Callback "aflat:confirm") in
  exists w1 r,
    run (handle_updates [then_comes u (MsgCommand "aflat" id)]) w = (Ok tt, w1) /\ out w1 = out w /\ rs_account r = a /\
    last (bt_said (bot w1)) =
      Some (AnswerMessage (up_chat u) (aflat_target_confirm_text r) (Some (confirm_keyboard "aflat")), ApiOk) /\
    (exists confirm cancel, confirm_keyboard "aflat" = [[confirm; cancel]] /\ up_event tap = Callback (bt_callback_data confirm)) /\
    (exists w2 t evs, run (handle_updates [tap]) w1 = (Ok tt, w2) /\ Forall is_notice evs /\
       out w2 = out w ++ SentAdmin (compose_admin_subject (market_value (ac_market a)) g id) (flat_signal (account_request a) t) :: evs) /\
    (exists w2 t evs, run (handle_updates [then_comes u (MsgCommand "aflat" EmptyString); tap]) w1 = (Ok tt, w2) /\
       Forall is_notice evs /\
       out w2 = out w ++ SentAdmin (topic_value TOPIC_ADMIN) (flat_signal (scope_request None None None) t) :: evs).
Proof.
  intros Ha Hup Hstrip Hne Hg Hf tap.
  assert (ac_account_id a = id) as Hid.
  { assert (a ∈ base.filter (fun x => ac_account_id x = id) (by_last_activity (accounts (db w)))) as Hin by (rewrite Hf; left).
    by apply list_elem_of_filter in Hin as [? _]. }
  destruct (run_step (then_comes u (MsgCommand "aflat" id)) w (cmd_aflat (then_comes u (MsgCommand "aflat" id)) id)
    (fun v => bot_up v /\ out v = out w /\ exists r, rs_account r = a /\
       fd_aflat_target (fs_data (context_of u (bot v))) = Some (FlatAccount r) /\
       last (bt_said (bot v)) = Some (AnswerMessage (up_chat u) (aflat_target_confirm_text r) (Some (confirm_keyboard "aflat")), ApiOk)))
    as (w1 & E1 & Hup1 & Ho1 & r & Hr & Ht & Hl); [done|by intros; apply route_aflat| |].
  { intros v Hv _ (Hac & _ & _ & Ho). rewrite <-Hac in Hf.
    destruct (run_aflat_account (then_comes u (MsgCommand "aflat" id)) v id a Hv Hstrip Hne Hf) as (v' & r & E & ? & _ & Ho' & ? & ? & ?).
    exists v'. split; [done|]. split; [done|]. split; [congruence|]. by exists r. }
  exists w1, r. split_and!; try done; [by eexists _, _| |].
  - destruct (run_step tap w1 (cb_aflat tap "aflat:confirm") (fun v => exists t evs, Forall is_notice evs /\
      out v = out w ++ SentAdmin (compose_admin_subject (market_value (ac_market a)) g id) (flat_signal (account_request a) t) :: evs))
      as (w2 & E2 & t & evs & H); [done|by intros; apply route_aflat_confirm| |by exists w2, t, evs].
    intros v Hv Hfs (_ & _ & _ & Ho). destruct (run_confirm tap v (account_request a) Hv) as (w2 & evs & E & _ & _ & Hn & Ho2).
    { rewrite (context_same tap (bot w1) (bot v)) by done. unfold held_flat. change (context_of tap) with (context_of u).
      by rewrite Ht, Hr. }
    { unfold flat_valid. cbn. by rewrite Hg. }
    exists w2. split; [done|]. exists (now v), evs. split; [done|]. rewrite Ho2, Ho, Ho1. unfold admin_subject. cbn.
    by rewrite Hg, Hid.
  - destruct (conv_start u w1 Ha Hup1) as (w2 & E2 & H2).
    destruct (conv_confirm u w1 Ha _ (scope_request None None None) w2 H2) as (w3 & E3 & t & evs & Hn & Ho3); [done..|].
    exists w3, t, evs. split; [exact (run_then [_] _ _ _ _ E2 E3)|]. split; [done|]. by rewrite Ho3, Ho1.
Qed.
End confirmations.

(** ** Confirming after switching accounts *)

Section switching.
Context `{CFG : Settings} `{SP : SettingsPydantic} `{CA : RowChoice Account} `{TC : TradeColumns}.
Context `{BS : BotSettings} `{UP : BotHttp} `{BE : BotEnv}.
Hypothesis key : ensure_api_key (Some bot_BROKER_API_KEY) = Ret tt.

(** ** A user whose active account is known *)
Lemma run_pointed tid w x :
  db_up w -> pointed_account (str_int tid) (db w) = Some x -> run (get_active_account tid) w = (Ok (Some x), w).
Proof.
  intros Hw Hp. unfold get_active_account. cbv zeta. rewrite run_bind, run_attempt, run_query_up, set_db_same by done.
  cbv beta iota. by rewrite Hp.
Qed.

Lemma run_linked_pointed tid w x :
  db_up w -> pointed_account (str_int tid) (db w) = Some x -> run (get_linked_account tid) w = (Ok x, w).
Proof. intros Hw Hp. unfold get_linked_account. by rewrite run_bind, (run_pointed tid w x). Qed.

(** What the middleware hands on. *)
Definition as_active (x : Account) : LinkedAccountResponse := {| la_account := x; la_is_active := true |}.

(** The user drives [x], the bot works, and nothing was sent since [w0]. *)
Record driven (tid : Z) (w0 : World) (x : Account) (w : World) : Prop := {
  dr_up : bot_up w;
  dr_out : out w = out w0;
  dr_pointed : pointed_account (str_int tid) (db w) = Some x
}.

Lemma run_front_driven u w0 x w :
  up_is_bot u = false -> driven (up_user u) w0 x w ->
  exists w1, run (menu_middleware u) w = (Ok (Some (as_active x)), w1) /\ driven (up_user u) w0 x w1 /\ db w1 = db w /\
    bt_fsm (bot w1) = bt_fsm (bot w).
Proof.
  intros Hb [Hup Ho Hp]. unfold menu_middleware. rewrite Hb, run_bind. unfold resolve_account.
  rewrite run_bind, run_request by (done || apply Hup). unfold get_account.
  rewrite run_bind, (run_linked_pointed _ w x) by (done || apply Hup). cbn [run answered fst snd andb is_some]. cbv beta iota.
  rewrite run_bind. destruct (up_private u); [|exists w; split; [done|]; split; [by split|done]].
  destruct (run_sync (up_user u) true w Hup) as (w1 & E & Hup1 & Hd & Ho1 & _ & _ & Hf). rewrite E.
  exists w1. split; [done|]. split; [split; [done|congruence|by rewrite Hd]|done].
Qed.

(** One update of such a user, handled by [h] behind [AuthMiddleware]. *)
Lemma run_driven u w0 x w h (P : World -> Prop) :
  up_is_bot u = false -> driven (up_user u) w0 x w ->
  route_update u (fs_state (context_of u (bot w))) (Some (as_active x)) = Some (with_account u (Some (as_active x)) h) ->
  (forall w1, driven (up_user u) w0 x w1 -> db w1 = db w -> bt_fsm (bot w1) = bt_fsm (bot w) ->
     exists w2, run (h (as_active x)) w1 = (Ok tt, w2) /\ P w2) ->
  exists w2, run (handle_updates [u]) w = (Ok tt, w2) /\ P w2.
Proof.
  intros Hb Hd Hr Hh. destruct (run_front_driven u w0 x w Hb Hd) as (w1 & E & Hd1 & Hdb & Hf).
  destruct (Hh w1 Hd1 Hdb Hf) as (w2 & E2 & HP). exists w2. split; [|done].
  unfold handle_updates. cbn [for_each]. rewrite run_bind, run_catch. unfold handle_update.
  rewrite run_bind, run_get_state. cbv beta iota. rewrite run_bind, E, Hr. unfold with_account.
  by rewrite run_bind; cbn [run]; rewrite E2.
Qed.

(** ** The routes *)
Section routes.
Context (u : Update) (state : option BotFsm) (account : option LinkedAccountResponse).

Lemma route_prompt action args :
  action ∈ ["flat"; "prevent"; "allow"] ->
  route_update (then_comes u (MsgCommand action args)) state account =
    Some (with_account (then_comes u (MsgCommand action args)) account (cmd_prompt action (then_comes u (MsgCommand action args)))).
Proof.
  intros Ha%list_elem_of_In. unfold route_update, admin_router. cbn [up_user up_event then_comes].
  destruct Ha as [<-|[<-|[<-|[]]]]; by destruct (is_admin _).
Qed.

Lemma route_confirm action :
  action ∈ ["flat"; "prevent"; "allow"] ->
  route_update (then_comes u (Callback (action +:+ ":confirm"))) state account =
    Some (with_account (then_comes u (Callback (action +:+ ":confirm"))) account
            (fun _ => cb_confirm (then_comes u (Callback (action +:+ ":confirm"))) action)).
Proof.
  intros Ha%list_elem_of_In. unfold route_update, admin_router. cbn [up_user up_event then_comes].
  destruct Ha as [<-|[<-|[<-|[]]]]; by destruct (is_admin _).
Qed.

Lemma route_switch id :
  route_update (then_comes u (Callback ("swacc:" +:+ id))) state account =
    Some (with_account (then_comes u (Callback ("swacc:" +:+ id))) account
            (fun _ => cb_switch_account (then_comes u (Callback ("swacc:" +:+ id))) ("swacc:" +:+ id))).
Proof. unfold route_update, admin_router. cbn [up_user up_event then_comes]. by destruct (is_admin _). Qed.

Lemma route_maxorders args :
  route_update (then_comes u (MsgCommand "maxorders" args)) state account =
    Some (with_account (then_comes u (MsgCommand "maxorders" args)) account (cmd_max_orders (then_comes u (MsgCommand "maxorders" args)))).
Proof. unfold route_update, admin_router. cbn [up_user up_event then_comes]. by destruct (is_admin _). Qed.

Lemma route_cap text :
  route_update (then_comes u (MsgText text)) (Some SetMaxOpenOrders_waiting_for_value) account =
    Some (with_account (then_comes u (MsgText text)) account
            (fun account => receive_max_orders (then_comes u (MsgText text)) account text)).
Proof. unfold route_update, admin_router. cbn [up_user up_event then_comes]. by destruct (is_admin _). Qed.
End routes.
(** ** The handlers *)

(** Everything of the database but the selections. *)
Definition same_but_sessions (d d' : Db) : Prop := d' = set_sessions (bot_sessions d') d.

Lemma same_but_refl d : same_but_sessions d d.
Proof. by destruct d. Qed.

Lemma run_uuid4_any w : exists v, run uuid4 w = (Ok v, set_uuids (tail (uuids w)) w).
Proof. unfold uuid4. rewrite run_act. destruct (uuids w) as [|v l] eqn:E; [|by exists v]. exists (uid 0). destruct w. cbn in *. by subst. Qed.

Lemma run_switch_account tid w a b :
  db_up w -> NoDup (map ac_id (accounts (db w))) -> pointed_account (str_int tid) (db w) = Some a ->
  b ∈ accounts (db w) -> holds (str_int tid) (db w) b = true ->
  exists d us, run (switch_account tid (ac_id b)) w = (Ok (as_active b), set_db d (set_uuids us w)) /\
    pointed_account (str_int tid) d = Some b /\ same_but_sessions (db w) d.
Proof.
  intros Hw Hnd Hp Hb Hh. set (user := str_int tid) in *. unfold switch_account, set_active_account. cbv zeta. fold user.
  rewrite run_bind, run_bind. destruct (run_uuid4_any w) as (v & ->). cbv beta iota. set (w1 := set_uuids _ w).
  rewrite run_session_or by exact Hw. change (db w1) with (db w).
  assert (held_account user (ac_id b) (db w) = Some b) as ->.
  { unfold held_account. destruct (select_first_is_Some (fun a => bool_decide (ac_id a = ac_id b) && holds user (db w) a) (accounts (db w)) b Hb)
      as [y E]; [by rewrite bool_decide_eq_true_2, Hh|].
    rewrite E. apply select_first_Some in E as [Hy [Hid%bool_decide_eq_true _]%andb_prop]. f_equal.
    by apply (nodup_map_eq ac_id (accounts (db w))). }
  destruct (point_session false v user (ac_id b) (db w)) as [d|e] eqn:Ep.
  2: { exfalso. unfold pointed_account in Hp. unfold point_session in Ep. by destruct (select_first _ (bot_sessions (db w))). }
  pose proof (point_sets _ _ _ _ _ Ep) as Hpt. pose proof (point_looked_up _ _ _ _ _ _ Ep) as (Ha & Hl & _).
  exists d, (tail (uuids w)). split; [done|]. split.
  - apply pointed_stands; [by rewrite Ha|by rewrite Ha| |done]. by rewrite (holds_ext _ d (db w)).
  - revert Ep. unfold point_session, same_but_sessions.
    destruct (select_first _ _); [destruct (false && _)|destruct (insert_unique _ _ _); [|done]]; intros [= <-]; [|done..].
    by destruct (db w).
Qed.

Lemma run_switch u w0 a b w :
  driven (up_user u) w0 a w -> NoDup (map ac_id (accounts (db w))) -> b ∈ accounts (db w) -> holds (str_int (up_user u)) (db w) b = true ->
  exists w', run (cb_switch_account u ("swacc:" +:+ uuid_str (ac_id b))) w = (Ok tt, w') /\ driven (up_user u) w0 b w' /\
    bt_fsm (bot w') = bt_fsm (bot w) /\ same_but_sessions (db w) (db w').
Proof.
  intros [Hup Ho Hp] Hnd Hb Hh. destruct (run_switch_account (up_user u) w a b (proj1 Hup) Hnd Hp Hb Hh) as (d & us & E & Hpd & Hd).
  unfold cb_switch_account.
  assert (after_colon ("swacc:" +:+ uuid_str (ac_id b)) = Some (uuid_str (ac_id b))) as ->.
  { apply (after_colon_app "swacc" (uuid_str (ac_id b))). by apply (bool_decide_unpack _); vm_compute. }
  cbn [default from_option Datatypes.id]. unfold client_switch_account. rewrite uuid_field_str.
  rewrite run_bind, run_call by (exact key || apply Hup). rewrite E. cbn [fst snd answered json_or_none]. cbv beta iota.
  rewrite run_bind, run_edit by exact (proj2 Hup). cbv beta iota.
  unfold call_done. rewrite run_call_answer by exact (proj2 Hup).
  eexists. split; [done|]. split; [split; [exact Hup|exact Ho|exact Hpd]|]. by split.
Qed.

(** The prompt, and the tap on its Confirm. *)
Lemma run_prompt u w0 x action w :
  driven (up_user u) w0 x w -> exists w', run (cmd_prompt action u (as_active x)) w = (Ok tt, w') /\ driven (up_user u) w0 x w' /\ db w' = db w /\
    bt_fsm (bot w') = bt_fsm (bot w) /\
    last (bt_said (bot w')) = Some (AnswerMessage (up_chat u) (command_prompt action (as_active x)) (Some (confirm_keyboard action)), ApiOk).
Proof.
  intros [Hup Ho Hp]. unfold cmd_prompt. rewrite run_answer by apply Hup. eexists. split; [done|].
  split; [by split|]. split; [done|]. split; [done|]. unfold told, tell. cbn. by rewrite last_snoc.
Qed.

Lemma run_flat tid x g w :
  db_up w -> pointed_account (str_int tid) (db w) = Some x -> ac_gateway x = Some g ->
  exists r, run (flat tid None None) w =
    (Ok r, emit (SentAdmin (compose_admin_subject (market_value (ac_market x)) g (ac_account_id x))
                   (command_signal ADMIN_FLAT x None None (now w))) w).
Proof.
  intros Hw Hp Hg. unfold flat. rewrite run_bind, (run_linked_pointed _ w x) by done. cbv beta iota. unfold clock.
  rewrite run_bind, run_act. cbv beta iota. unfold publish_admin_signal.
  set (sg := command_signal ADMIN_FLAT x None None (now w)).
  assert (admin_signal_valid sg = true) as -> by (unfold admin_signal_valid; cbn; by rewrite Hg).
  rewrite run_bind, run_nats_up by done. eexists. cbn [run]. unfold admin_subject. cbn. by rewrite Hg.
Qed.

Lemma run_flat_confirm u w0 x g w :
  driven (up_user u) w0 x w -> ac_gateway x = Some g ->
  exists w', run (cb_confirm u "flat") w = (Ok tt, w') /\
    out w' = out w0 ++ [SentAdmin (compose_admin_subject (market_value (ac_market x)) g (ac_account_id x))
                          (command_signal ADMIN_FLAT x None None (now w))].
Proof.
  intros [Hup Ho Hp] Hg. destruct (run_flat (up_user u) x g w (proj1 Hup) Hp Hg) as (r & E).
  unfold cb_confirm. cbn [String.eqb Ascii.eqb Bool.eqb]. unfold client_flat.
  rewrite run_bind, run_call by (exact key || apply Hup). rewrite E. cbn [fst snd answered json_or_none]. cbv beta iota.
  rewrite run_bind, run_edit by exact (proj2 Hup). cbv beta iota. unfold call_done. rewrite run_call_answer by exact (proj2 Hup).
  eexists. split; [done|]. cbn. by rewrite Ho.
Qed.

(** ** /maxorders *)

(** The conversation waits for the cap of the account [id]. *)
Definition waits_for_cap (u : Update) (id : string) (w : World) : Prop :=
  fs_state (context_of u (bot w)) = Some SetMaxOpenOrders_waiting_for_value /\
  fd_account_id (fs_data (context_of u (bot w))) = Some id.

Lemma run_max_orders u w0 x w :
  driven (up_user u) w0 x w ->
  exists w', run (cmd_max_orders u (as_active x)) w = (Ok tt, w') /\ driven (up_user u) w0 x w' /\ db w' = db w /\
    waits_for_cap u (ac_account_id x) w'.
Proof.
  intros [Hup Ho Hp]. unfold cmd_max_orders. rewrite run_bind. unfold clear_state. rewrite run_with_bot. cbv beta iota. cbn [fst snd].
  set (w1 := set_bot _ w). assert (bot_up w1) as Hup1 by exact Hup. unfold client_get_max_open_orders.
  assert (exists r, run (get_max_open_orders (up_user u)) w1 = (Ok r, w1)) as (r & E).
  { unfold get_max_open_orders. rewrite run_bind, (run_linked_pointed _ w1 x) by (exact Hp || apply Hup). cbv beta iota.
    unfold setting_get. rewrite run_bind, run_catch, run_query_up, set_db_same by apply Hup. by eexists. }
  rewrite run_bind, run_call, E by (exact key || apply Hup1). cbn [fst snd answered json_or_none]. cbv beta iota zeta.
  unfold set_state, update_data. rewrite run_bind, run_with_bot. cbv beta iota. cbn [fst snd].
  rewrite run_bind, run_with_bot. cbv beta iota. cbn [fst snd]. rewrite run_answer by exact (proj2 Hup).
  eexists. split; [done|]. split; [split; [exact Hup|exact Ho|exact Hp]|]. split; [done|].
  unfold waits_for_cap, told, tell, context_of, set_context. cbn. by rewrite !lookup_insert_eq.
Qed.

(** The rows once [x] has the cap. *)
Definition capped (x : Account) (z : Z) (d : Db) : Db :=
  set_accounts (update_where (fun y => bool_decide (ac_id y = ac_id x))
    (fun y => set_settings (jsonb_merge (ac_settings y) [(ACCOUNT_SETTING_MAX_OPEN_ORDERS, JInt z)]) y) (accounts d)) d.

(** The push to the worker of [x]. *)
Definition pushes_cap (x : Account) (g : string) (z : Z) (e : sent) : Prop :=
  exists settings, as_max_open_orders settings = Some z /\
    e = SentSystem (topic_value TOPIC_SYSTEM)
          (SystemWorkerSettingsUpdateSignal (compose_worker_id (market_value (ac_market x)) g (ac_account_id x)) settings).

Lemma run_cap_request tid x g z w :
  bot_up w -> pointed_account (str_int tid) (db w) = Some x -> NoDup (map ac_id (accounts (db w))) ->
  ac_gateway x = Some g -> is_empty g = false -> (0 <= z)%Z ->
  exists r w' e, run (set_max_open_orders tid (Some z)) w = (Ok r, w') /\ bot_up w' /\ bot w' = bot w /\
    db w' = capped x z (db w) /\ out w' = out w ++ [e] /\ pushes_cap x g z e.
Proof.
  intros [Hw Hb] Hp Hnd Hg Hge Hz. unfold set_max_open_orders. rewrite run_bind, (run_linked_pointed _ w x) by done. cbv beta iota.
  apply pointed_held in Hp as (Hx & _). rewrite run_bind, (run_update_up x _ w Hw Hnd Hx). cbv beta iota. cbn [json_opt_int].
  fold (capped x z (db w)). set (w2 := set_db _ w). assert (db_up w2) as Hw2 by exact Hw.
  rewrite run_bind. unfold setting_get. rewrite run_catch, run_query_up, set_db_same by done. cbv beta iota zeta.
  change (JInt z) with (json_opt_int (Some z)). rewrite parse_cap by (by intros ? [= <-]). cbn [resolve_account_settings as_max_open_orders].
  unfold push_worker_settings_update. rewrite Hg. cbn [no_gateway default from_option Datatypes.id]. rewrite Hge.
  rewrite run_bind, run_catch. unfold publish_system_settings_update. rewrite run_nats_up by done. cbv beta iota.
  cbn [as_max_open_orders run]. eexists _, _, _. split; [done|]. split; [by split|]. split; [done|]. split; [done|]. split; [done|].
  eexists. split; [|done]. done.
Qed.

Lemma run_receive_cap u w0 x g id text z w :
  driven (up_user u) w0 x w -> waits_for_cap u id w -> NoDup (map ac_id (accounts (db w))) ->
  ac_gateway x = Some g -> is_empty g = false -> strip text <> "-" -> py_int 10 (strip text) = Some z -> (0 <= z)%Z ->
  exists w', run (receive_max_orders u (as_active x) text) w = (Ok tt, w') /\ context_of u (bot w') = no_context /\
    if String.eqb (ac_account_id x) id then
      db w' = capped x z (db w) /\ exists e, out w' = out w0 ++ [e] /\ pushes_cap x g z e
    else db w' = db w /\ out w' = out w0.
Proof.
  intros [Hup Ho Hp] [_ Hid] Hnd Hg Hge Hdash Hz Hz0. unfold receive_max_orders. rewrite run_bind, run_get_data. cbv beta iota zeta.
  rewrite Hid. destruct (String.eqb_spec (ac_account_id x) id) as [E|E].
  - rewrite bool_decide_eq_true_2 by (cbn; congruence). rewrite (proj2 (String.eqb_neq _ _) Hdash), Hz. cbn [fmap option_fmap option_map].
    rewrite (proj2 (Z.ltb_ge _ _) Hz0). unfold client_set_max_open_orders. rewrite (proj2 (Z.leb_le _ _) Hz0).
    destruct (run_cap_request (up_user u) x g z w Hup Hp Hnd Hg Hge Hz0) as (r & w1 & e & Er & Hup1 & Hb1 & Hd1 & Ho1 & He).
    rewrite run_bind, run_call by (exact key || apply Hup). rewrite Er. cbn [fst snd answered json_or_none]. cbv beta iota.
    unfold clear_state. rewrite run_bind, run_with_bot. cbv beta iota. cbn [fst snd]. rewrite run_answer by exact (proj2 Hup1).
    eexists. split; [done|]. split; [unfold told, tell, context_of, set_context; cbn; by rewrite lookup_insert_eq|].
    split; [done|]. exists e. split; [cbn; by rewrite Ho1, Ho|done].
  - rewrite bool_decide_eq_false_2 by (cbn; congruence). unfold clear_state. rewrite run_bind, run_with_bot. cbv beta iota. cbn [fst snd].
    rewrite run_answer by exact (proj2 Hup). eexists. split; [done|].
    split; [unfold told, tell, context_of, set_context; cbn; by rewrite lookup_insert_eq|]. by split.
Qed.

(** The tap decides whose positions are closed, not the prompt.  Over working
    services [/flat] asks the user to confirm closing the positions of the account
    the prompt names.  Tapped at once, Confirm closes exactly these; but if the user
    has switched to another account since, the same Confirm under the same prompt
    closes the positions of that other account, and none of the account it names. *)
Theorem confirm_follows_switch u w a b ga gb :
  bot_up w -> up_is_bot u = false -> NoDup (map ac_id (accounts (db w))) ->
  pointed_account (str_int (up_user u)) (db w) = Some a -> ac_gateway a = Some ga ->
  b ∈ accounts (db w) -> holds (str_int (up_user u)) (db w) b = true -> ac_gateway b = Some gb ->
  let closes x g t := SentAdmin (compose_admin_subject (market_value (ac_market x)) g (ac_account_id x))
                        (command_signal ADMIN_FLAT x None None t) in
  let tap := then_comes u (Callback "flat:confirm") in
  let switch := then_comes u (Callback ("swacc:" +:+ uuid_str (ac_id b))) in
  exists w1,
    run (handle_updates [then_comes u (MsgCommand "flat" EmptyString)]) w = (Ok tt, w1) /\ out w1 = out w /\
    last (bt_said (bot w1)) =
      Some (AnswerMessage (up_chat u) (command_prompt "flat" (as_active a)) (Some (confirm_keyboard "flat")), ApiOk) /\
    (exists w2 t, run (handle_updates [tap]) w1 = (Ok tt, w2) /\ out w2 = out w ++ [closes a ga t]) /\
    (exists w2 t, run (handle_updates [switch; tap]) w1 = (Ok tt, w2) /\ out w2 = out w ++ [closes b gb t]).
Proof.
  intros Hup Hbot Hnd Hp Hga Hb Hh Hgb closes tap switch.
  destruct (run_driven (then_comes u (MsgCommand "flat" EmptyString)) w a w (cmd_prompt "flat" (then_comes u (MsgCommand "flat" EmptyString)))
    (fun v => driven (up_user u) w a v /\ db v = db w /\
      last (bt_said (bot v)) =
        Some (AnswerMessage (up_chat u) (command_prompt "flat" (as_active a)) (Some (confirm_keyboard "flat")), ApiOk)))
    as (w1 & E1 & Hd1 & Hdb1 & Hl1); [done|by split|apply route_prompt; set_solver| |].
  { intros v Hv Hdb _. destruct (run_prompt _ w a "flat" v Hv) as (v' & E & Hd & Hdb' & _ & Hl). exists v'.
    split; [done|]. split; [exact Hd|]. by rewrite Hdb'. }
  assert (forall x g v, driven (up_user u) w x v -> ac_gateway x = Some g ->
    exists w2, run (handle_updates [tap]) v = (Ok tt, w2) /\ exists t, out w2 = out w ++ [closes x g t]) as Htap.
  { intros x g v Hv Hg. apply (run_driven tap w x v (fun _ => cb_confirm tap "flat")); [done|exact Hv|apply (route_confirm u _ _ "flat"); set_solver|].
    intros v1 Hv1 _ _. destruct (run_flat_confirm tap w x g v1 Hv1 Hg) as (v2 & E & Ho). exists v2. split; [done|]. by exists (now v1). }
  exists w1. split; [done|]. split; [apply Hd1|]. split; [done|]. split.
  - destruct (Htap a ga w1 Hd1 Hga) as (w2 & E & t & Ho). by exists w2, t.
  - destruct (run_driven switch w a w1 (fun _ => cb_switch_account switch ("swacc:" +:+ uuid_str (ac_id b))) (driven (up_user u) w b))
      as (w2 & E2 & Hd2); [done|exact Hd1|apply route_switch| |].
    { intros v Hv Hdb _. destruct (run_switch switch w a b v Hv) as (v' & E & Hd & _); [by rewrite Hdb, Hdb1..|]. by exists v'. }
    destruct (Htap b gb w2 Hd2 Hgb) as (w3 & E3 & t & Ho). exists w3, t. split; [|done]. exact (run_then [_] _ _ _ _ E2 E3).
Qed.
(** A cap is not set behind the user's back.  Over working services, after
    [/maxorders] the number the user sends is stored as the cap of the account the
    prompt was for, keeping the account's other settings, and pushed to its worker.
    If the user has switched to an account with another id in between, nothing is
    stored or sent and the conversation ends.  But accounts are told apart by their
    id alone: after a switch to the account with the same id behind another gateway
    or market, the cap is stored on that account and pushed to that account's
    worker. *)
Theorem cap_goes_to_prompted_id u w a b ga gb text z :
  bot_up w -> up_is_bot u = false -> NoDup (map ac_id (accounts (db w))) ->
  pointed_account (str_int (up_user u)) (db w) = Some a -> ac_gateway a = Some ga -> is_empty ga = false ->
  b ∈ accounts (db w) -> holds (str_int (up_user u)) (db w) b = true -> ac_gateway b = Some gb -> is_empty gb = false ->
  strip text <> "-" -> py_int 10 (strip text) = Some z -> (0 <= z)%Z ->
  let answer := then_comes u (MsgText text) in
  let switch := then_comes u (Callback ("swacc:" +:+ uuid_str (ac_id b))) in
  exists w1,
    run (handle_updates [then_comes u (MsgCommand "maxorders" EmptyString)]) w = (Ok tt, w1) /\ db w1 = db w /\ out w1 = out w /\
    (exists w2 e, run (handle_updates [answer]) w1 = (Ok tt, w2) /\
       accounts (db w2) = accounts (capped a z (db w)) /\ out w2 = out w ++ [e] /\ pushes_cap a ga z e) /\
    (exists w2, run (handle_updates [switch; answer]) w1 = (Ok tt, w2) /\ context_of u (bot w2) = no_context /\
       if String.eqb (ac_account_id b) (ac_account_id a) then
         accounts (db w2) = accounts (capped b z (db w)) /\ exists e, out w2 = out w ++ [e] /\ pushes_cap b gb z e
       else accounts (db w2) = accounts (db w) /\ out w2 = out w).
Proof.
  intros Hup Hbot Hnd Hp Hga Hgae Hb Hh Hgb Hgbe Hdash Hz Hz0 answer switch.
  destruct (run_driven (then_comes u (MsgCommand "maxorders" EmptyString)) w a w (cmd_max_orders (then_comes u (MsgCommand "maxorders" EmptyString)))
    (fun v => driven (up_user u) w a v /\ db v = db w /\ waits_for_cap u (ac_account_id a) v))
    as (w1 & E1 & Hd1 & Hdb1 & Hc1); [done|by split|apply route_maxorders| |].
  { intros v Hv Hdb _. destruct (run_max_orders _ w a v Hv) as (v' & E & Hd & Hdb' & Hc). exists v'. rewrite <-Hdb, <-Hdb'. by split_and!. }
  assert (forall x g v, driven (up_user u) w x v -> waits_for_cap u (ac_account_id a) v -> accounts (db v) = accounts (db w) ->
    ac_gateway x = Some g -> is_empty g = false ->
    exists w2, run (handle_updates [answer]) v = (Ok tt, w2) /\ context_of u (bot w2) = no_context /\
      if String.eqb (ac_account_id x) (ac_account_id a) then
        accounts (db w2) = accounts (capped x z (db w)) /\ exists e, out w2 = out w ++ [e] /\ pushes_cap x g z e
      else accounts (db w2) = accounts (db w) /\ out w2 = out w) as Hanswer.
  { intros x g v Hv Hc Hac Hg Hge. eapply (run_driven answer w x v (fun account => receive_max_orders answer account text)); [done|exact Hv| |].
    { rewrite (proj1 Hc : fs_state (context_of answer (bot v)) = _). apply route_cap. }
    intros v1 Hv1 Hdb Hf. destruct (run_receive_cap answer w x g (ac_account_id a) text z v1 Hv1) as (v2 & E & Hctx & Hr); try done.
    { unfold waits_for_cap in *. by rewrite (context_same answer (bot v) (bot v1)). }
    { by rewrite Hdb, Hac. }
    exists v2. split; [done|]. split; [done|]. destruct (String.eqb _ _); destruct Hr as [-> Hr]; (split; [|exact Hr]).
    - cbn. by rewrite Hdb, Hac.
    - by rewrite Hdb. }
  exists w1. split; [done|]. split; [done|]. split; [apply Hd1|]. split.
  - destruct (Hanswer a ga w1 Hd1 Hc1) as (w2 & E & _ & Hr); [by rewrite Hdb1|done..|]. rewrite String.eqb_refl in Hr.
    destruct Hr as (Hac & e & He). by exists w2, e.
  - destruct (run_driven switch w a w1 (fun _ => cb_switch_account switch ("swacc:" +:+ uuid_str (ac_id b)))
      (fun v => driven (up_user u) w b v /\ waits_for_cap u (ac_account_id a) v /\ accounts (db v) = accounts (db w)))
      as (w2 & E2 & Hd2 & Hc2 & Ha2); [done|exact Hd1|apply route_switch| |].
    { intros v Hv Hdb Hf. destruct (run_switch switch w a b v Hv) as (v' & E & Hd & Hf' & Hs); [by rewrite Hdb, Hdb1..|].
      exists v'. split; [done|]. split; [done|]. split; [|by rewrite Hs, Hdb, Hdb1].
      unfold waits_for_cap in *. by rewrite (context_same u (bot w1) (bot v')) by congruence. }
    destruct (Hanswer b gb w2 Hd2 Hc2 Ha2 Hgb Hgbe) as (w3 & E3 & Hr). exists w3. split; [|done]. exact (run_then [_] _ _ _ _ E2 E3).
Qed.
End switching.
