(* ===== verification/BotCards.v ===== *)
(** * The trade card's buttons, broker to bot

    The card is posted by the broker ([helpers/trade_card.py]) and re-rendered by
    the bot ([keyboards/inline.py], [handlers/trade_card.py]): the two build the
    same buttons, and a tap closes the trade the card shows. *)

From S2P Require Import Prelude PyStr Uuid PyTime Json JsonText Enums Schemas Models ChatTargets BotState World Settings TimeZone.
From S2P Require Import StatusPolicies Samples SignalRepo SignalHelper SignalService SignalWorker.
From S2P Require Import BroadcastRepo BroadcastService Dispatcher TradeRepo AccountRepo AccountLinks Notifications AccountSettings.
From S2P Require Import TradeConsumer TradeCards TelegramApi AdminApi BotClient BotTable BotText BotCore BotUser BotAdmin BotApp.
From S2P Require Import TelegramFlow TelegramCases AdminCases BotRun BotCases BotInvite.
From stdpp Require Import gmap.
From Stdlib Require Import Ascii.

(** [InlineKeyboardMarkup] as the Bot API is sent it. *)
Definition keyboard_json (k : Keyboard) : json :=
  JObj [("inline_keyboard",
    JList (map (fun row => JList (map (fun b =>
      JObj [("text", JStr (bt_text b)); ("callback_data", JStr (bt_callback_data b))]) row)) k))].

Lemma hex_fixed_no_colon n z : ":"%char ∉ chars (hex_fixed n z).
Proof. apply hex_fixed_notin. set_solver. Qed.

Lemma uuid_no_colon u : ":"%char ∉ chars (uuid_str u).
Proof. apply uuid_str_chars. set_solver. Qed.

Lemma uuid_str_length u : String.length (uuid_str u) = 36.
Proof. unfold uuid_str. cbv zeta. by rewrite !length_string_app, !hex_fixed_length. Qed.

(** A card button's data names its trade. *)
Lemma trade_id_of_data prefix id :
  ":"%char ∉ chars prefix -> trade_id_of ("tc:" +:+ prefix +:+ ":" +:+ uuid_str id) = Some (uuid_str id).
Proof.
  intros Hp. unfold trade_id_of. change ("tc:" +:+ prefix +:+ ":" +:+ uuid_str id) with ("tc" +:+ String ":" (prefix +:+ String ":" (uuid_str id))).
  rewrite split_concat, split_concat, (split_id _ "tc"), (split_id _ prefix), (split_id _ (uuid_str id));
    [|apply uuid_no_colon|done|by apply (bool_decide_unpack _); vm_compute].
  cbn [app]. by rewrite code_not_empty.
Qed.

(** ** Programs that send nothing *)
Definition still (w w' : World) : Prop := out w' = out w.

#[local] Instance still_preorder : PreOrder still.
Proof. split; [by intros w|]. unfold still. intros w1 w2 w3. congruence. Qed.

Lemma still_frame : frame_ok still.
Proof. by intros w w' Ho _ _. Qed.

Lemma still_bot {A} (f : BotState -> res exn A * BotState) : always still (with_bot f).
Proof. apply always_act. intros w. unfold still. by destruct (f _). Qed.

(** Follows a program that sends nothing down to its steps. *)
Ltac still_steps :=
  repeat first
    [ apply always_ret | apply always_raise
    | apply always_query, still_frame | apply still_bot | apply always_uuid4, still_frame | apply always_clock, still_frame
    | apply always_bind; [|intros ?] | apply always_catch; [|intros ?] | apply always_attempt
    | case_match
    | progress cbv zeta beta
    | match goal with |- always _ ?p => let h := head p in unfold h end ].

Section cards.
Context `{CFG : Settings} `{SP : SettingsPydantic} `{CA : RowChoice Account} `{TC : TradeColumns}.
Context `{BS : BotSettings} `{UP : BotHttp} `{BE : BotEnv}.

(** The data of a card's button, and what the bot reads out of it. *)
Definition names_trade (data : string) : Prop := forall id, trade_id_of data = Some id -> exists x, id = uuid_str x.

Lemma show_card_still u data detailed footer alert :
  names_trade data -> always still (show_card u data detailed footer alert).
Proof.
  intros H. unfold show_card. destruct (trade_id_of data) as [id|] eqn:E; [|still_steps]. destruct (H id E) as [x ->].
  unfold render_card, client_get_trade. rewrite trade_request_canonical. still_steps.
Qed.

Lemma cb_exit_still u data : names_trade data -> always still (cb_exit u data).
Proof.
  intros H. unfold cb_exit. destruct (trade_id_of data) as [id|] eqn:E; [|still_steps]. destruct (H id E) as [x ->].
  unfold client_get_trade. rewrite trade_request_canonical. still_steps.
Qed.

Lemma tapped_names_trade prefix id : ":"%char ∉ chars prefix -> names_trade ("tc:" +:+ prefix +:+ ":" +:+ uuid_str id).
Proof. intros H x. rewrite trade_id_of_data by done. intros [= <-]. by exists id. Qed.

(** The routes of the card's buttons. *)
Lemma route_card u prefix id state account h :
  (prefix, h) ∈ [("d", cb_detail); ("s", cb_summary); ("x", cb_exit); ("xn", cb_exit_cancel); ("xy", cb_exit_confirm)] ->
  let tap := then_comes u (Callback ("tc:" +:+ prefix +:+ ":" +:+ id)) in
  route_update tap state account = Some (h tap ("tc:" +:+ prefix +:+ ":" +:+ id)).
Proof.
  intros Hp%list_elem_of_In tap. unfold route_update, admin_router. cbn [up_user up_event then_comes tap].
  destruct Hp as [[= <- <-]|[[= <- <-]|[[= <- <-]|[[= <- <-]|[[= <- <-]|[]]]]]]; by destruct (is_admin _).
Qed.
Lemma run_get_trade tid trade w :
  ensure_api_key (Some bot_BROKER_API_KEY) = Ret tt -> bot_up w ->
  own_trade (tr_id trade) (str_int tid) (db w) = Some trade ->
  run (client_get_trade tid (uuid_str (tr_id trade))) w = (Ok (Some (trade_response (db w) trade)), w).
Proof.
  intros Hkey Hup Ho. unfold client_get_trade. rewrite trade_request_canonical, run_call by (exact Hkey || apply Hup).
  unfold get_trade_response. rewrite run_bind, run_catch, run_query_up, set_db_same by apply Hup. by rewrite Ho.
Qed.

Lemma run_exit_trade tid trade m g w :
  db_up w -> own_trade (tr_id trade) (str_int tid) (db w) = Some trade -> is_terminal trade = false ->
  tr_market trade = Some m -> tr_gateway trade = Some g ->
  exists r, run (exit_trade tid (tr_id trade)) w =
    (Ok r, emit (SentAdmin (compose_admin_subject (market_value m) g (tr_account_id trade)) (exit_signal trade (now w))) w).
Proof.
  intros Hw Ho Ht Hm Hg. unfold exit_trade, get_own_trade, get_for_telegram_user.
  rewrite run_bind, run_bind, run_catch, run_query_up, set_db_same, Ho by done. cbn [run]. rewrite Ht. unfold clock.
  rewrite run_bind, run_act. cbv beta iota. unfold publish_admin_signal. set (sg := exit_signal trade (now w)).
  assert (admin_signal_valid sg = true) as -> by (unfold admin_signal_valid; cbn; by rewrite Hm, Hg).
  rewrite run_bind, run_nats_up by done. eexists. cbn [run]. unfold admin_subject. cbn. by rewrite Hm, Hg.
Qed.

(** The card the broker posts and the one the bot renders carry the same buttons. *)
Lemma same_buttons trade detailed :
  (match trade_card (uuid_str (tr_id trade)) detailed (is_closed trade) with Some k => Some (keyboard_json k) | None => None end) =
  trade_card_keyboard trade detailed.
Proof. rewrite is_closed_terminal. unfold trade_card, trade_card_keyboard. destruct (is_terminal trade); [done|]. by destruct detailed. Qed.

(** The data of the buttons, within Telegram's 64 bytes. *)
Definition fits (k : Keyboard) : bool := forallb (forallb (fun b => String.length (bt_callback_data b) <=? 64)) k.

Lemma card_fits id detailed closed k : trade_card (uuid_str id) detailed closed = Some k -> fits k = true.
Proof.
  unfold trade_card. destruct closed; [done|]. intros [= <-]. unfold fits. destruct detailed; cbn [forallb bt_callback_data inline_button String.length];
    by rewrite !uuid_str_length.
Qed.

Lemma exit_confirm_fits id : fits (trade_exit_confirm (uuid_str id)) = true.
Proof. unfold fits. cbn [forallb bt_callback_data inline_button trade_exit_confirm String.append CB_TRADE_EXIT_CONFIRM CB_TRADE_EXIT_CANCEL String.length]. by rewrite !uuid_str_length. Qed.

(** A tap on a card's button. *)
Definition tap_card (u : Update) (prefix : string) (id : uuid) : Update :=
  then_comes u (Callback ("tc:" +:+ prefix +:+ ":" +:+ uuid_str id)).

(** A tap, from where the middleware left. *)
Lemma run_tap u prefix id h w :
  ensure_api_key (Some bot_BROKER_API_KEY) = Ret tt -> bot_up w ->
  (prefix, h) ∈ [("d", cb_detail); ("s", cb_summary); ("x", cb_exit); ("xn", cb_exit_cancel); ("xy", cb_exit_confirm)] ->
  exists w1, bot_up w1 /\ looked_up w w1 /\
    run (handle_updates [tap_card u prefix id]) w =
      (Ok tt, (run (h (tap_card u prefix id) ("tc:" +:+ prefix +:+ ":" +:+ uuid_str id)) w1).2).
Proof.
  intros Hkey Hup Hp.
  destruct (run_update Hkey (tap_card u prefix id) w (h (tap_card u prefix id) ("tc:" +:+ prefix +:+ ":" +:+ uuid_str id)) Hup)
    as (w1 & E & Hup1 & _ & Hl); [intros; by apply route_card|].
  exists w1. split; [done|]. split; [done|]. unfold handle_updates. cbn [for_each]. rewrite run_bind, run_catch, E.
  by destruct (run (h _ _) w1) as [[[]|e] w2].
Qed.

Lemma own_looked_up id user w w1 : looked_up w w1 -> own_trade id user (db w1) = own_trade id user (db w).
Proof. intros (Ha & Hl & Ht & _). unfold own_trade, holds. by rewrite Ha, Hl, Ht. Qed.

(** Showing a tapped card sends nothing. *)
Ltac shows := by apply (always_run still), show_card_still, tapped_names_trade; apply (bool_decide_unpack _); vm_compute.

(** Closing what is over, or not one's own. *)
Lemma exit_confirm_still u id w :
  ensure_api_key (Some bot_BROKER_API_KEY) = Ret tt -> bot_up w ->
  match own_trade id (str_int (up_user u)) (db w) with Some t => is_terminal t = true | None => True end ->
  out (run (cb_exit_confirm u ("tc:" +:+ "xy" +:+ ":" +:+ uuid_str id)) w).2 = out w.
Proof.
  intros Hkey Hup Ho. unfold cb_exit_confirm. rewrite (trade_id_of_data "xy" id) by (by apply (bool_decide_unpack _); vm_compute).
  assert (exists e, run (exit_trade (up_user u) id) w = (Err e, w)) as (e & E).
  { unfold exit_trade, get_own_trade, get_for_telegram_user. rewrite run_bind, run_bind, run_catch, run_query_up, set_db_same by apply Hup.
    destruct (own_trade id _ (db w)) as [t|]; cbn [run]; [rewrite Ho|]; by eexists. }
  unfold client_exit_trade. rewrite trade_request_canonical, run_bind, run_call, E by (exact Hkey || apply Hup). cbn [fst snd].
  assert (forall r : option CommandResultResponse, out (run match r with
      | Some _ => show_card u ("tc:" +:+ "xy" +:+ ":" +:+ uuid_str id) false (Some EXIT_REQUESTED_FOOTER) None
      | None => show_card u ("tc:" +:+ "xy" +:+ ":" +:+ uuid_str id) false None (Some EXIT_FAILED) end w).2 = out w) as H; [|apply H].
  intros [r|]; shows.
Qed.

End cards.
