(* ===== verification/BotExamples.v ===== *)
(** * The bot on concrete input

    A broker with two accounts of one user, an administrator and a bot in front of
    it, on which the bot's theorems are applied. *)

From S2P Require Import Prelude PyStr Uuid PyTime Json JsonText Enums Schemas Models ChatTargets BotState World Settings TimeZone.
From S2P Require Import StatusPolicies Samples SignalRepo SignalHelper SignalService SignalWorker.
From S2P Require Import BroadcastRepo BroadcastService Dispatcher TradeRepo AccountRepo AccountLinks Notifications AccountSettings.
From S2P Require Import TradeConsumer TradeCards TelegramApi AdminApi BotClient BotTable BotText BotCore BotUser BotAdmin BotApp.
From S2P Require Import TelegramFlow BotRun BotSafety BotMenu TelegramCases AdminCases BotInvite BotCases BotCards.
From stdpp Require Import gmap.

Module bot_samples.
Import api_samples.
#[local] Existing Instances sample_settings sample_settings_pydantic.

#[local] Instance sample_columns : TradeColumns.
Proof. by refine {| createdAt _ _ := 0%Z; updatedAt _ _ := 0%Z; collate l := l |}. Defined.

#[local] Instance sample_bot_settings : BotSettings := {| bot_TELEGRAM_ADMIN_IDS := "99, 98"; bot_BROKER_API_KEY := "key" |}.

(** The data of a forged button, within Telegram's 64 bytes, and the path it makes of
    the exit route: with its dot segments resolved it is
    [/admin/settings/block-signal], with the query [/exit]. *)
Definition forged : string := "tc:xy:../../../../admin/settings/block-signal?".
Definition forged_path : string := "/v1/telegram/77/trades/../../../../admin/settings/block-signal?/exit".

(** That path reaches the toggle; no other path outside the form reaches a route. *)
Definition sample_elsewhere (path : string) : prog (option CommandResultResponse) :=
  if String.eqb path forged_path then
    let! _ := toggle_block_signal in Ret (Some {| cr_action := ""; cr_scope := ""; cr_settings := None |})
  else Raise (HTTPException 404 "Not Found").

Lemma sample_elsewhere_bot path w : bot (run (sample_elsewhere path) w).2 = bot w.
Proof.
  apply (always_run same_bot (sample_elsewhere path)). unfold sample_elsewhere. destruct (String.eqb _ _); bot_steps.
Qed.

#[local] Instance sample_http : BotHttp :=
  {| uuid_field := uuid_parse; uuid_field_str := uuid_parse_str;
     get_elsewhere _ := Raise (HTTPException 404 "Not Found"); post_elsewhere := sample_elsewhere;
     get_elsewhere_bot _ _ := eq_refl; post_elsewhere_bot := sample_elsewhere_bot |}.

#[local] Instance sample_bot_env : BotEnv :=
  {| create_start_link p := "https://t.me/bot?start=" +:+ p; json_error _ := "Expecting value" |}.

(** A second account of user 77, whose session points at the first. *)
Definition acct2 : Account :=
  {| ac_id := uid 45; ac_createdAt := 0%Z; ac_account_id := "5678"; ac_account_name := None;
     ac_account_balance := None; ac_market := Market.FOREX; ac_gateway := Some "MT5";
     ac_last_activity_at := None; ac_settings := [] |}.

Definition link77b : AccountBotLink :=
  {| al_id := uid 46; al_createdAt := 0%Z; al_account_id := uid 45; al_platform := Platform.TELEGRAM;
     al_platform_user_id := "77"; al_trade_cards_enabled := false |}.

Definition two_accounts : World :=
  set_db (set_sessions [new_session (uid 50) "77" (uid 41)] (set_accounts [acct; acct2] (set_links [link77; link77b] empty_db)))
    (sample_world [] [uid 60; uid 61; uid 62; uid 63; uid 64; uid 65]).

Definition from (user : Z) (e : Event) : Update :=
  {| up_user := user; up_chat := user; up_private := true; up_is_bot := false; up_event := e |}.

Lemma sample_key : ensure_api_key (Some bot_BROKER_API_KEY) = Ret tt.
Proof. reflexivity. Qed.

Lemma two_ids : NoDup (map ac_id (accounts (db two_accounts))).
Proof. by apply (bool_decide_unpack _); vm_compute. Qed.

(** A forged card button moves a broker setting.  A user who is no administrator and
    taps it has the bot, with the broker's key, toggle the block on all signals. *)
Example forged_button_blocks_signals :
  String.length forged <= 64 /\ is_admin 77 = false /\ plain_card (from 77 (Callback forged)) = false /\
  trade_exit_path 77 "../../../../admin/settings/block-signal?" = forged_path /\
  find_setting SIGNAL_BLOCKED (db two_accounts) = None /\
  find_setting SIGNAL_BLOCKED (db (run (handle_update (from 77 (Callback forged))) two_accounts).2) = Some "1".
Proof. split; [cbn; lia|]. by vm_compute. Qed.

(** User 77 taps a forged administrator's button. *)
Lemma user_acts_on_own_accounts_witness :
  is_admin 77 = false /\
  broker_settings (db (run (handle_update (from 77 (Callback "aset:block-signal"))) two_accounts).2) = [] /\
  out (run (handle_update (from 77 (MsgCommand "prevent" ""))) two_accounts).2 = [].
Proof.
  assert (is_admin 77 = false) as Ha by (by vm_compute). split; [exact Ha|].
  destruct (user_acts_on_own_accounts (from 77 (Callback "aset:block-signal")) two_accounts _ _ Ha eq_refl (surjective_pairing _)) as [[] _].
  split; [exact us_settings|by vm_compute].
Defined.

Lemma menus_follow_links_witness :
  menus_ok (bot two_accounts) /\ menus_ok (bot (run (handle_update (from 77 (MsgCommand "help" ""))) two_accounts).2) /\
  exists w1 account, run (menu_middleware (from 77 (MsgCommand "help" ""))) two_accounts = (Ok account, w1) /\
    shown 77 (bt_said (bot w1)) = Some USER_COMMANDS.
Proof.
  assert (menus_ok (bot two_accounts)) as Hok by (split; intros chat m; by vm_compute).
  destruct (menus_follow_links (from 77 (MsgCommand "help" "")) two_accounts) as (H & Hup & _).
  split; [done|]. split; [by apply H|].
  destruct (Hup (uid 60) [uid 61; uid 62; uid 63; uid 64; uid 65]) as (w1 & account & E & _ & Hs); [done|done|by left|done..|].
  exists w1, account. split; [exact E|]. etrans; [exact Hs|by vm_compute].
Defined.

Lemma invite_link_opens_account_witness :
  holds "88" (db (api_world [acct] [] [])) acct = false /\
  exists w', run (handle_update (from 88 (MsgCommand "start" (uuid_hex (uid 71))))) (api_world [acct] [] []) = (Ok tt, w') /\
    holds "88" (db w') acct = true.
Proof.
  split; [by vm_compute|].
  destruct (invite_link_opens_account (from 88 (MsgCommand "start" (uuid_hex (uid 71)))) (api_world [acct] [] []) (uid 71)
    (new_link_token (uid 70) (uid 71) 0%Z (uid 41)) acct (uid 60) (uid 61) (uid 62) (uid 63) [uid 64; uid 65]) as (_ & _ & H).
  destruct H as (w' & active & E & Hh & _); [done|done|done|apply api_fresh|constructor|apply NoDup_singleton|apply NoDup_singleton|left|done|done|left|done|done|].
  exists w'. split; [exact E|exact Hh].
Defined.

Lemma flat_closes_what_was_picked_witness :
  exists w1 w2 t evs,
    run (handle_updates [from 99 (MsgCommand "aflat" ""); from 99 (Callback "afls:a"); from 99 (Callback "aflm:FOREX");
                         from 99 (Callback "aflg:MT5")]) two_accounts = (Ok tt, w1) /\
    run (handle_updates [from 99 (Callback "aflat:confirm")]) w1 = (Ok tt, w2) /\
    out w2 = SentAdmin (topic_value TOPIC_ADMIN) (flat_signal (scope_request None (Some "FOREX") (Some "MT5")) t) :: evs.
Proof.
  destruct (flat_closes_what_was_picked sample_key (from 99 MsgOther) two_accounts None (Some "FOREX") (Some "MT5"))
    as (w1 & w2 & t & evs & E1 & _ & _ & E2 & Ho & _).
  - by vm_compute.
  - done.
  - done.
  - intros x [= <-]. left.
  - intros x [= <-]. left.
  - exists w1, w2, t, evs. split; [exact E1|]. split; [exact E2|]. exact Ho.
Defined.

Lemma stale_confirm_flats_everything_witness :
  exists w1 w2 t evs,
    run (handle_updates [from 99 (MsgCommand "aflat" "1234")]) two_accounts = (Ok tt, w1) /\
    run (handle_updates [from 99 (MsgCommand "aflat" ""); from 99 (Callback "aflat:confirm")]) w1 = (Ok tt, w2) /\
    out w2 = SentAdmin (topic_value TOPIC_ADMIN) (flat_signal (scope_request None None None) t) :: evs.
Proof.
  destruct (stale_confirm_flats_everything sample_key (from 99 MsgOther) two_accounts "1234" acct "MT5")
    as (w1 & r & E1 & _ & _ & _ & _ & _ & w2 & t & evs & E2 & _ & Ho); [by vm_compute|done|done|done|done|by vm_compute|].
  exists w1, w2, t, evs. split; [exact E1|]. split; [exact E2|]. exact Ho.
Defined.

Lemma confirm_follows_switch_witness :
  exists w1 w2 t,
    run (handle_updates [from 77 (MsgCommand "flat" "")]) two_accounts = (Ok tt, w1) /\
    run (handle_updates [from 77 (Callback ("swacc:" +:+ uuid_str (uid 45))); from 77 (Callback "flat:confirm")]) w1 = (Ok tt, w2) /\
    out w2 = [SentAdmin (compose_admin_subject "FOREX" "MT5" "5678") (command_signal ADMIN_FLAT acct2 None None t)].
Proof.
  destruct (confirm_follows_switch sample_key (from 77 MsgOther) two_accounts acct acct2 "MT5" "MT5")
    as (w1 & E1 & _ & _ & _ & w2 & t & E2 & Ho); [done|done|exact two_ids|by vm_compute|done|right; left|by vm_compute|done|].
  exists w1, w2, t. split; [exact E1|]. split; [exact E2|]. exact Ho.
Defined.

Lemma cap_goes_to_prompted_id_witness :
  exists w1 w2,
    run (handle_updates [from 77 (MsgCommand "maxorders" "")]) two_accounts = (Ok tt, w1) /\
    run (handle_updates [from 77 (Callback ("swacc:" +:+ uuid_str (uid 45))); from 77 (MsgText "5")]) w1 = (Ok tt, w2) /\
    accounts (db w2) = [acct; acct2] /\ out w2 = [].
Proof.
  destruct (cap_goes_to_prompted_id sample_key (from 77 MsgOther) two_accounts acct acct2 "MT5" "MT5" "5" 5)
    as (w1 & E1 & _ & _ & _ & w2 & E2 & _ & Hr);
    [done|done|exact two_ids|by vm_compute|done|done|right; left|by vm_compute|done|done|by vm_compute|by vm_compute|lia|].
  exists w1, w2. split; [exact E1|]. split; [exact E2|]. exact Hr.
Defined.


(** After a lost answer the chat of a user who linked again keeps the menu of one who
    did not. *)
Lemma lost_answer_leaves_wrong_menu_witness :
  let lost := set_bot {| bt_fsm := ∅; bt_applied := {[ 77%Z := map fst (menu_for true false) ]}; bt_said := [];
                         bt_net := []; bt_api := [ApiLost] |} two_accounts in
  let w1 := (run (sync 77 false) lost).2 in
  run (sync 77 true) w1 = (Ok tt, w1) /\ shown 77 (bt_said (bot w1)) = Some START_ONLY_COMMANDS.
Proof.
  intros lost w1. destruct (lost_answer_leaves_wrong_menu 77 true lost []) as [H1 H2]; [by vm_compute|done|].
  split; [exact H1|]. etrans; [exact H2|by vm_compute].
Defined.
End bot_samples.
