(* ===== verification/DemoSignal.v ===== *)
(** * Drills

    [DemoSignalConsumer] ([services/demo_signal_service.py]): an alert on the demo
    subject is recorded on its cycle and told to the operators, and commands no
    worker. *)

From S2P Require Import Prelude PyStr Uuid PyTime Json JsonText Enums Schemas Models World Settings.
From S2P Require Import StatusPolicies Samples SignalRepo SignalHelper SignalService SignalSafety.
From S2P Require Import BroadcastRepo BroadcastService Notifications.

Definition format_demo_signal_message (payload : WebhookPayload) : string :=
  "🧪 <b>Demo signal received</b>" +:+ newline +:+
  "Strategy: <code>" +:+ w_strategy payload +:+ "</code>" +:+ newline +:+
  "Symbol: <b>" +:+ w_symbol payload +:+ "</b> (" +:+ format_timeframe (w_timeframe payload) +:+ ")" +:+ newline +:+
  "Action: <b>" +:+ action_value (p_action (w_position payload)) +:+ "</b>" +:+ newline +:+
  "Cycle: <code>" +:+ w_signal_uxid payload +:+ "</code>" +:+ newline +:+
  "Not forwarded to any worker — the broadcast card beside it is a drill.".

Section demo.
Context `{PY : Pydantic} (broadcaster : option SignalBroadcaster) (notifier : option Notifier).

(** [_parse]; [None] is data that is not UTF-8. *)
Definition demo_parse (data : option string) : option WebhookPayload :=
  match data with
  | None => None
  | Some text =>
      match json_loads text with
      | Some (JObj envelope) =>
          match obj_get "payload" envelope with
          | JObj raw_payload => validate_webhook raw_payload
          | _ => None
          end
      | _ => None
      end
  end.

Definition demo_broadcast (payload : WebhookPayload) : prog unit :=
  match broadcaster with
  | None => Ret tt
  | Some b => catch (broadcast payload None) (fun _ => Ret tt)
  end.

Definition demo_notify (payload : WebhookPayload) : prog unit :=
  match notifier with
  | None => Ret tt
  | Some n => catch (send_message (format_demo_signal_message payload)) (fun _ => Ret tt)
  end.

Definition handle_demo_signal (data : option string) : prog unit :=
  match demo_parse data with
  | None => Ret tt
  | Some payload => do! demo_broadcast payload in demo_notify payload
  end.

(** ** Theorems *)
Definition answers (r : res exn unit) (w : World) : Prop := r = Ok tt.

Lemma swallowed (p : prog unit) w : always quiet p -> wp quiet quiet (catch p (fun _ => Ret tt)) answers w.
Proof.
  intros Hp. apply wp_catch. eapply wp_mono; [|by apply (always_wp quiet quiet p w)].
  intros [[]|e] w' _; done.
Qed.

Lemma demo_wp data w : wp quiet quiet (handle_demo_signal data) answers w.
Proof.
  unfold handle_demo_signal. destruct (demo_parse data) as [payload|]; [|done]. apply wp_bind.
  eapply wp_mono with (Q := answers).
  - intros r w' ->. unfold demo_notify. destruct notifier; [|done]. apply swallowed, send_message_quiet.
  - unfold demo_broadcast. destruct broadcaster; [|done]. apply swallowed, broadcast_quiet.
Qed.

(** A drill commands nobody.  Whatever arrives on the demo subject, whatever
    channel and cycle writer are wired in, among any other such steps and cut short
    anywhere: handling it sends notices and Telegram messages only — no trading
    message, no push and nothing else over NATS — stores no signal that a handshake
    could replay, changes no setting and nothing queued, and never raises into the
    subscription. *)
Theorem drill_commands_nobody data w evs w' o :
  texec quiet (handle_demo_signal data) w evs w' o ->
  Forall (fun e => side_channel e = true /\ sent_id e = None) evs /\
  signals (db w') = signals (db w) /\ broker_settings (db w') = broker_settings (db w) /\ deferred w' = deferred w /\
  (o = None \/ o = Some (Ok tt)).
Proof.
  intros He. assert (Ha : always quiet (handle_demo_signal data)).
  { unfold handle_demo_signal. destruct (demo_parse data) as [payload|]; [|done]. apply always_bind; [|intros []].
    - unfold demo_broadcast. destruct broadcaster; [|done]. apply always_catch; [apply broadcast_quiet|done].
    - unfold demo_notify. destruct notifier; [|done]. apply always_catch; [apply send_message_quiet|done]. }
  destruct (texec_always quiet _ w evs w' o Ha He) as (Hs & Hb & Hd & _).
  destruct (wp_texec quiet quiet (fun _ e => side_channel e = true /\ sent_id e = None)
    ltac:(by intros) ltac:(by intros)) with (p := handle_demo_signal data) (w := w) (evs := evs) (w' := w') (o := o) (Q := answers)
    as [Hev Ho]; [|exact He|apply demo_wp|].
  - intros v v' (_ & _ & _ & l & O & F). rewrite (new_events_app v v' l O). eapply Forall_impl; [exact F|].
    intros []; cbn; by intros.
  - split_and!; try done. destruct o as [r|]; [|by left]. right. by rewrite (Ho r eq_refl).
Qed.
End demo.

(** ** On concrete input *)
Module drill_samples.
#[local] Existing Instances sample_pydantic sample_settings.

Definition quoted (s : string) : string := String quote (s +:+ String quote EmptyString).

Definition sample_drill : option string :=
  Some ("{" +:+ quoted "payload" +:+ ": {" +:+ quoted "action" +:+ ": " +:+ quoted "LONG" +:+ "}}").

(** The channels [lifespan] wires in. *)
Definition sample_handle : prog unit :=
  handle_demo_signal (Some SignalBroadcastService) (Some QueuedNotifier) sample_drill.

Definition drill_world : World := sample_world [] [uid 1; uid 2; uid 3].

Lemma drill_commands_nobody_witness :
  signals (db (run sample_handle drill_world).2) = [] /\
  length (broadcast_messages (db (run sample_handle drill_world).2)) = 1 /\
  length (notices (run sample_handle drill_world).2) = 1.
Proof.
  split; [|by vm_compute].
  apply (drill_commands_nobody (Some SignalBroadcastService) (Some QueuedNotifier) sample_drill drill_world _ _ _
    (texec_run quiet sample_handle drill_world)).
Defined.
End drill_samples.
