(* ===== verification/ErrorLog.v ===== *)
(** * Forwarded errors

    [TelegramLogHandler] ([services/notification_service.py]): records of level
    ERROR and above are forwarded to a private chat — each text once per window,
    through a bounded queue, and never one of the send path itself. *)

From S2P Require Import Prelude PyStr Uuid PyTime Json JsonText Enums Schemas Models ChatTargets World Settings.
From S2P Require Import Samples SignalHelper Dispatcher Notifications.
From Stdlib Require Import Ascii.

(** [html.escape]. *)
Definition escape_char (c : ascii) : string :=
  if Ascii.eqb c "&" then "&amp;" else if Ascii.eqb c "<" then "&lt;" else if Ascii.eqb c ">" then "&gt;"
  else if Ascii.eqb c "034" then "&quot;" else if Ascii.eqb c "'" then "&#x27;" else String c EmptyString.

Fixpoint html_escape (s : string) : string :=
  match s with EmptyString => EmptyString | String c r => escape_char c +:+ html_escape r end.

(** The parts of a [logging.LogRecord] the handler reads. *)
Record LogRecord := {
  lr_name : string;
  lr_levelno : Z;
  lr_levelname : string;
  lr_message : string;
  lr_exc_text : string;    (** the traceback of [exc_info], as text; empty without one *)
  lr_stack_info : string   (** empty without one *)
}.

Definition ERROR_LEVEL : Z := 40.
Definition LOG_QUEUE_MAXSIZE : nat := 100.
Definition EXCLUDED_PREFIX : string := "broker.services.notification_service".

Fixpoint ends_line (s : string) : bool :=
  match s with
  | EmptyString => false
  | String c EmptyString => Ascii.eqb c "010"
  | String _ s => ends_line s
  end.

(** [s] with [more], if there is any, on lines of its own. *)
Definition on_new_line (s more : string) : string :=
  if is_empty more then s else if ends_line s then s +:+ more else s +:+ newline +:+ more.

(** The formatter's text: [Formatter.format] puts the traceback and the stack after
    the message. *)
Definition format_record (r : LogRecord) : string :=
  on_new_line (on_new_line ("[BROKER]" +:+ newline +:+ lr_levelname r +:+ " | " +:+ lr_name r +:+ newline +:+ lr_message r)
    (lr_exc_text r)) (lr_stack_info r).

(** [_RecursionFilter.filter]. *)
Definition forwardable (r : LogRecord) : bool := negb (startswith EXCLUDED_PREFIX (lr_name r)).

(** The handler: whether a running loop is bound, the texts forwarded lately with
    the instant of each (on the monotonic clock, in microseconds), the callbacks
    [call_soon_threadsafe] has scheduled, and the queue. *)
Record LogHandler := {
  lh_running : bool;
  lh_recent : list (string * Z);
  lh_scheduled : list string;
  lh_queue : list string
}.

Definition log_handler0 : LogHandler :=
  {| lh_running := true; lh_recent := []; lh_scheduled := []; lh_queue := [] |}.

Section handler.
Context `{CFG : Settings}.

(** The dedup window, in microseconds. *)
Definition log_window : Z := (tg_LOG_DEDUP_WINDOW set_telegram * 1000000)%Z.

(** The entries still inside the window. *)
Definition prune (now : Z) (recent : list (string * Z)) : list (string * Z) :=
  base.filter (fun e => (now - e.2 <? log_window)%Z = true) recent.

(** [_is_duplicate]. *)
Definition is_duplicate (now : Z) (message : string) (h : LogHandler) : bool * LogHandler :=
  let recent := prune now (lh_recent h) in
  let dup := match assoc message recent with Some _ => true | None => false end in
  (dup, {| lh_running := lh_running h;
           lh_recent := if dup then recent else assoc_set message now recent;
           lh_scheduled := lh_scheduled h; lh_queue := lh_queue h |}).

(** A record on its way through the logging module: the level, the filter, [emit]. *)
Definition log_emit (now : Z) (r : LogRecord) (h : LogHandler) : bool * LogHandler :=
  if (lr_levelno r <? ERROR_LEVEL)%Z || negb (forwardable r) || negb (lh_running h) then (false, h)
  else
    let message := format_record r in
    let '(dup, h) := is_duplicate now message h in
    if dup then (false, h)
    else (true, {| lh_running := lh_running h; lh_recent := lh_recent h;
                   lh_scheduled := lh_scheduled h ++ [message]; lh_queue := lh_queue h |}).

(** The next scheduled [_enqueue]. *)
Definition log_enqueue (h : LogHandler) : LogHandler :=
  match lh_scheduled h with
  | [] => h
  | message :: rest =>
      {| lh_running := lh_running h; lh_recent := lh_recent h; lh_scheduled := rest;
         lh_queue := if (LOG_QUEUE_MAXSIZE <=? length (lh_queue h))%nat then lh_queue h
                     else lh_queue h ++ [message] |}
  end.

(** [await self._queue.get()], when the queue has something. *)
Definition log_take (h : LogHandler) : option string * LogHandler :=
  match lh_queue h with
  | [] => (None, h)
  | message :: rest =>
      (Some message, {| lh_running := lh_running h; lh_recent := lh_recent h;
                        lh_scheduled := lh_scheduled h; lh_queue := rest |})
  end.

(** [TelegramLogNotification]: a channel of its own, falling back to the shared one,
    whose text is escaped before it is boxed. *)
Definition TelegramLogNotification : Channel :=
  {| ch_chat_id := or_else (tg_LOG_CHAT_ID set_telegram) (tg_BROKER_LOG_CHAT_IDS set_telegram);
     ch_bot_token := or_else (tg_LOG_BOT_TOKEN set_telegram) (tg_BOT_TOKEN set_telegram);
     ch_heeds_silence := false |}.

(** The rest of a turn of [_worker]. *)
Definition log_send (message : string) : prog unit :=
  catch (do! channel_send TelegramLogNotification (html_escape ("🚨 " +:+ message)) None in Ret tt) (fun _ => Ret tt).

(** ** Traces *)

(** The text the loop's next turn takes off the schedule and does not queue, with the
    length of the queue it did not fit in. *)
Definition lost_in (h h' : LogHandler) : list (string * nat) :=
  match lh_scheduled h with
  | m :: _ => if (length (lh_queue h') =? S (length (lh_queue h)))%nat then [] else [(m, length (lh_queue h))]
  | [] => []
  end.

(** What a handler may have been through by the instant [t]: records emitted by any
    thread as the clock goes on, callbacks run by the loop, turns of the worker.
    [emitted] are the records with their instants, [accepted] the texts taken, each with its
    instant, [handed] those the worker was given and [dropped] those lost on the way. *)
Inductive log_trace : Z -> LogHandler -> list (LogRecord * Z) -> list (string * Z) -> list string -> list (string * nat) -> Prop :=
| lt_start t : log_trace t log_handler0 [] [] [] []
| lt_emit t now r h h' ok emitted accepted handed dropped :
    log_trace t h emitted accepted handed dropped -> (t <= now)%Z -> log_emit now r h = (ok, h') ->
    log_trace now h' (emitted ++ [(r, now)]) (accepted ++ if ok then [(format_record r, now)] else []) handed dropped
| lt_enqueue t h emitted accepted handed dropped :
    log_trace t h emitted accepted handed dropped ->
    log_trace t (log_enqueue h) emitted accepted handed (dropped ++ lost_in h (log_enqueue h))
| lt_take t h m h' emitted accepted handed dropped :
    log_trace t h emitted accepted handed dropped -> log_take h = (m, h') ->
    log_trace t h' emitted accepted (handed ++ match m with Some m => [m] | None => [] end) dropped.

(** *** What should be taken

    Of the records in the order they were emitted: an error of a logger outside the send path is
    taken unless its text was taken less than a window ago. *)
Definition taken_lately (accepted : list (string * Z)) (message : string) (now : Z) : bool :=
  existsb (fun e => String.eqb e.1 message && (now - e.2 <? log_window)%Z) accepted.

Definition take_record (accepted : list (string * Z)) (e : LogRecord * Z) : list (string * Z) :=
  if (ERROR_LEVEL <=? lr_levelno e.1)%Z && forwardable e.1 && negb (taken_lately accepted (format_record e.1) e.2)
  then accepted ++ [(format_record e.1, e.2)] else accepted.

Definition to_take (emitted : list (LogRecord * Z)) : list (string * Z) := fold_left take_record emitted [].

(** ** Facts *)
Lemma assoc_prune now m recent :
  NoDup recent.*1 ->
  assoc m (prune now recent) =
  match assoc m recent with Some t => if (now - t <? log_window)%Z then Some t else None | None => None end.
Proof.
  induction recent as [|[k t] recent IH]; [done|]. intros [Hk Hnd]%NoDup_cons. unfold prune in *.
  rewrite filter_cons. cbn [fst snd assoc]. destruct (String.eqb_spec m k) as [->|Hne].
  - case_decide as Hw; cbn [assoc].
    + by rewrite String.eqb_refl, Hw.
    + destruct (_ <? _)%Z; [done|]. rewrite IH by done. enough (assoc k recent = None) as -> by done.
      clear -Hk. induction recent as [|[k' t'] recent IH]; [done|]. cbn in *. apply not_elem_of_cons in Hk as [Hne Hk].
      apply String.eqb_neq in Hne as ->. auto.
  - case_decide; cbn [assoc]; [|by apply IH]. apply String.eqb_neq in Hne as ->. by apply IH.
Qed.

Lemma prune_keys now recent : NoDup recent.*1 -> NoDup (prune now recent).*1.
Proof.
  intros H. unfold prune. induction recent as [|e recent IH]; [constructor|]. apply NoDup_cons in H as [He H].
  rewrite filter_cons. case_decide; [|auto]. constructor; [|auto]. intros Hin. apply He.
  apply list_elem_of_fmap in Hin as (x & -> & [_ Hx]%list_elem_of_filter). by apply list_elem_of_fmap_2.
Qed.

Lemma assoc_None_keys {V} k (l : list (string * V)) : assoc k l = None <-> k ∉ l.*1.
Proof.
  induction l as [|[k' v] l IH]; [split; [intros _; apply not_elem_of_nil|done]|]. cbn. rewrite not_elem_of_cons.
  destruct (String.eqb_spec k k'); [naive_solver|]. rewrite IH. naive_solver.
Qed.

(** The last taking of each text is remembered while the window is open. *)
Definition remembers (t : Z) (recent accepted : list (string * Z)) : Prop :=
  NoDup recent.*1 /\
  (forall m t1, assoc m recent = Some t1 -> (m, t1) ∈ accepted) /\
  (forall m t0, (m, t0) ∈ accepted -> (log_window <= t - t0)%Z \/ exists t1, assoc m recent = Some t1 /\ (t0 <= t1)%Z).

Lemma remembers_later t now recent accepted : remembers t recent accepted -> (t <= now)%Z -> remembers now recent accepted.
Proof.
  intros (Hnd & Hin & Hr) Ht. split_and!; [done|done|]. intros m t0 H0. destruct (Hr m t0 H0) as [?|?]; [left; lia|by right].
Qed.

Lemma remembers_prune t now recent accepted :
  remembers t recent accepted -> (t <= now)%Z -> remembers now (prune now recent) accepted.
Proof.
  intros (Hnd & Hin & Hr) Ht. split; [by apply prune_keys|]. split; intros m t0; rewrite assoc_prune by done.
  - destruct (assoc m recent) as [t1|] eqn:E; [|done]. case_match; [|done]. intros [= <-]. by apply Hin.
  - intros H0. destruct (Hr m t0 H0) as [?|(t1 & -> & Hle)]; [left; lia|].
    destruct (Z.ltb_spec (now - t1) log_window); [eauto|left; lia].
Qed.

(** What is remembered tells what was taken lately. *)
Lemma remembered_lately t now recent accepted m :
  remembers t recent accepted -> (t <= now)%Z ->
  taken_lately accepted m now = match assoc m (prune now recent) with Some _ => true | None => false end.
Proof.
  intros H Ht. destruct (remembers_prune t now recent accepted H Ht) as (_ & Hin & Hr). unfold taken_lately.
  destruct (assoc m (prune now recent)) as [t1|] eqn:E.
  - apply existsb_exists. exists (m, t1). split; [by apply list_elem_of_In, Hin|]. cbn. rewrite String.eqb_refl. cbn.
    destruct H as (Hnd & _ & _). rewrite assoc_prune in E by done. destruct (assoc m recent) as [t2|]; [|done].
    destruct (now - t2 <? log_window)%Z eqn:El; [|done]. by injection E as <-.
  - apply not_true_iff_false. intros Hx. apply existsb_exists in Hx as ([m' t0] & H0%list_elem_of_In & H1). cbn in H1.
    apply andb_prop in H1 as [E1%String.eqb_eq Hl%Z.ltb_lt]. subst m'. destruct (Hr m t0 H0) as [?|(t1 & E' & _)]; [lia|congruence].
Qed.

Lemma remembers_snoc now recent accepted m :
  remembers now recent accepted -> assoc m recent = None ->
  remembers now (assoc_set m now recent) (accepted ++ [(m, now)]).
Proof.
  intros (Hnd & Hin & Hr) Ea. pose proof Ea as Hfresh. apply assoc_None_keys in Hfresh. rewrite assoc_set_fresh by done.
  split; [|split].
  - rewrite fmap_app. apply NoDup_app. split; [done|]. split; [|apply NoDup_singleton].
    intros k Hk Hk'. by apply list_elem_of_singleton in Hk' as ->.
  - intros k t1. rewrite assoc_snoc. destruct (assoc k recent) eqn:E; [intros [= <-]; apply elem_of_app; left; by apply Hin|].
    destruct (String.eqb_spec k m) as [->|]; [|done]. intros [= <-]. apply elem_of_app. right. left.
  - intros k t0 [H0|H0]%elem_of_app.
    + destruct (Hr k t0 H0) as [?|(t1 & E & Hle)]; [by left|]. right. exists t1. by rewrite assoc_snoc, E.
    + apply list_elem_of_singleton in H0 as [= -> ->]. right. exists now. rewrite assoc_snoc, Ea, String.eqb_refl. done.
Qed.

(** A record on its way is taken exactly when it should be. *)
Lemma log_emit_takes t now r h h' ok accepted :
  lh_running h = true -> remembers t (lh_recent h) accepted -> (t <= now)%Z -> log_emit now r h = (ok, h') ->
  lh_running h' = true /\ remembers now (lh_recent h') (accepted ++ if ok then [(format_record r, now)] else []) /\
  accepted ++ (if ok then [(format_record r, now)] else []) = take_record accepted (r, now) /\
  lh_queue h' = lh_queue h /\ lh_scheduled h' = lh_scheduled h ++ (if ok then [format_record r] else []).
Proof.
  intros Hrun Hrem Ht. unfold log_emit, is_duplicate, take_record. cbn [fst snd]. rewrite Hrun, Z.leb_antisym.
  rewrite (remembered_lately t now (lh_recent h) accepted (format_record r) Hrem Ht). cbn [negb]. rewrite orb_false_r.
  destruct (lr_levelno r <? ERROR_LEVEL)%Z; cbn [orb negb andb].
  { intros [= <- <-]. rewrite !app_nil_r. split_and!; try done. by eapply remembers_later. }
  destruct (forwardable r); cbn [orb negb andb].
  2: { intros [= <- <-]. rewrite !app_nil_r. split_and!; try done. by eapply remembers_later. }
  pose proof (remembers_prune t now _ _ Hrem Ht) as Hp.
  destruct (assoc (format_record r) (prune now (lh_recent h))) as [t1|] eqn:Ea; intros [= <- <-]; cbn [negb].
  - rewrite !app_nil_r. by split_and!.
  - split_and!; try done. cbn [lh_recent]. by apply remembers_snoc.
Qed.

(** The takings of one text are a window apart. *)
Definition spaced (accepted : list (string * Z)) : Prop :=
  forall i j m ti tj, i < j -> accepted !! i = Some (m, ti) -> accepted !! j = Some (m, tj) -> (log_window <= tj - ti)%Z.

Lemma take_record_spaced accepted e : spaced accepted -> spaced (take_record accepted e).
Proof.
  intros Hsp. unfold take_record. destruct (_ && _) eqn:E; [|done]. apply andb_prop in E as [_ E%negb_true_iff].
  intros i j m ti tj Hij Hi Hj. destruct (decide (j < length accepted)%nat) as [Hl|Hl].
  { rewrite lookup_app_l in Hi, Hj by lia. exact (Hsp i j m ti tj Hij Hi Hj). }
  rewrite lookup_app_r in Hj by lia. apply list_lookup_singleton_Some in Hj as [Hj [= <- <-]].
  rewrite lookup_app_l in Hi by lia. apply list_elem_of_lookup_2, list_elem_of_In in Hi.
  apply Z.nlt_ge. intros Hlt. apply not_true_iff_false in E. apply E, existsb_exists. exists (format_record e.1, ti).
  split; [exact Hi|]. cbn. rewrite String.eqb_refl. by apply Z.ltb_lt.
Qed.

(** What holds of a handler and what went through it. *)
Definition log_inv (t : Z) (h : LogHandler) (emitted : list (LogRecord * Z)) (accepted : list (string * Z))
    (handed : list string) (dropped : list (string * nat)) : Prop :=
  lh_running h = true /\ remembers t (lh_recent h) accepted /\ accepted = to_take emitted /\ spaced accepted /\
  length (lh_queue h) <= LOG_QUEUE_MAXSIZE /\
  (handed ++ lh_queue h ++ lh_scheduled h) `sublist_of` accepted.*1 /\
  accepted.*1 ≡ₚ dropped.*1 ++ handed ++ lh_queue h ++ lh_scheduled h /\
  Forall (fun e => e.2 = LOG_QUEUE_MAXSIZE) dropped.

Lemma log_inv_enqueue t h emitted accepted handed dropped :
  log_inv t h emitted accepted handed dropped ->
  log_inv t (log_enqueue h) emitted accepted handed (dropped ++ lost_in h (log_enqueue h)).
Proof.
  intros (Hrun & Hrem & Ha & Hsp & Hq & Hs & Hp & Hd). unfold log_enqueue, lost_in. destruct (lh_scheduled h) as [|m rest] eqn:E.
  { rewrite app_nil_r. split_and!; try done; by rewrite E. }
  cbn [lh_running lh_recent lh_queue lh_scheduled]. destruct (Nat.leb_spec LOG_QUEUE_MAXSIZE (length (lh_queue h))) as [Hf|Hf].
  - rewrite (proj2 (Nat.eqb_neq _ _)) by lia. split_and!; try done.
    + etransitivity; [|exact Hs]. apply sublist_app; [done|]. apply sublist_app; [done|]. by apply sublist_cons.
    + rewrite Hp, fmap_app. cbn. rewrite <-app_assoc. f_equiv. cbn [app]. by rewrite !app_assoc, <-Permutation_middle.
    + apply Forall_app. split; [done|]. constructor; [cbn; lia|done].
  - rewrite length_app, Nat.add_1_r, Nat.eqb_refl, app_nil_r. split_and!; try done.
    + cbn [lh_queue]. rewrite length_app. cbn. lia.
    + cbn [lh_queue lh_scheduled]. by rewrite <-app_assoc.
    + cbn [lh_queue lh_scheduled]. by rewrite <-app_assoc.
Qed.

Lemma log_inv_trace t h emitted accepted handed dropped :
  log_trace t h emitted accepted handed dropped -> log_inv t h emitted accepted handed dropped.
Proof.
  induction 1 as [t|t now r h h' ok emitted accepted handed dropped _ IH Ht He|t h emitted accepted handed dropped _ IH
                 |t h m h' emitted accepted handed dropped _ IH Hm].
  - split; [done|]. split; [split; [constructor|split; [done|intros m t0 Hin; by apply not_elem_of_nil in Hin]]|].
    split; [done|]. split; [done|]. split; [cbn; lia|]. by split_and!.
  - destruct IH as (Hrun & Hrem & Ha & Hsp & Hq & Hs & Hp & Hd).
    destruct (log_emit_takes t now r h h' ok accepted Hrun Hrem Ht He) as (Hrun' & Hrem' & Hacc & Hq' & Hs').
    split; [done|]. split; [done|]. split; [unfold to_take in *; by rewrite fold_left_app, Hacc, <-Ha|].
    split; [rewrite Hacc; by apply take_record_spaced|]. rewrite Hq', Hs'. split; [done|].
    assert ((accepted ++ if ok then [(format_record r, now)] else []).*1 = accepted.*1 ++ (if ok then [format_record r] else []))
      as -> by (rewrite fmap_app; by destruct ok).
    split; [rewrite !app_assoc; apply sublist_app; [by rewrite <-app_assoc|done]|]. split; [|done]. by rewrite Hp, !app_assoc.
  - by apply log_inv_enqueue.
  - destruct IH as (Hrun & Hrem & Ha & Hsp & Hq & Hs & Hp & Hd). unfold log_take in Hm.
    destruct (lh_queue h) as [|x q] eqn:E; injection Hm as <- <-; [rewrite app_nil_r; split_and!; try done; by rewrite E|].
    split_and!; try done; cbn [lh_queue lh_scheduled]; [cbn in *; lia|by rewrite <-app_assoc..].
Qed.

(** C31. An error is told once, and errors of telling are not told.  Whatever records
    any thread emits, and whenever the loop and the worker get their turns: the texts
    taken are, in order, exactly those of the ERROR records of loggers outside the send
    path whose text was not taken within the dedup window before, so two takings of one text are a window
    apart and a failing send cannot feed itself; each is given to the
    worker once and in this order, or still scheduled or queued on its way there,
    or was dropped because the queue held its hundred texts, which it never
    exceeds. *)
Theorem errors_forwarded_once t h emitted accepted handed dropped :
  log_trace t h emitted accepted handed dropped ->
  accepted = to_take emitted /\
  (forall i j m ti tj, i < j -> accepted !! i = Some (m, ti) -> accepted !! j = Some (m, tj) -> (log_window <= tj - ti)%Z) /\
  (handed ++ lh_queue h ++ lh_scheduled h) `sublist_of` accepted.*1 /\
  accepted.*1 ≡ₚ dropped.*1 ++ handed ++ lh_queue h ++ lh_scheduled h /\
  Forall (fun e => e.2 = LOG_QUEUE_MAXSIZE) dropped /\
  length (lh_queue h) <= LOG_QUEUE_MAXSIZE.
Proof.
  intros H. by destruct (log_inv_trace _ _ _ _ _ _ H) as (_ & _ & ? & ? & ? & ? & ? & ?).
Qed.

(** A dropped error is muted.  When the queue is full, a text that was taken is
    dropped, and its repeats within the window are refused as told already. *)
Theorem dropped_error_is_muted now r h h1 :
  NoDup (lh_recent h).*1 -> lh_scheduled h = [] -> LOG_QUEUE_MAXSIZE <= length (lh_queue h) -> log_emit now r h = (true, h1) ->
  lh_queue (log_enqueue h1) = lh_queue h /\
  forall now' r', format_record r' = format_record r -> (now <= now' < now + log_window)%Z ->
    (log_emit now' r' (log_enqueue h1)).1 = false.
Proof.
  intros Hnd Hs Hfull. unfold log_emit, is_duplicate. remember (format_record r) as msg eqn:Emsg. destruct (_ || _); [done|].
  destruct (assoc _ (prune now _)) eqn:Ea; [done|]. intros [= <-]. unfold log_enqueue. cbn [lh_scheduled lh_queue lh_running lh_recent].
  rewrite Hs. cbn [app]. rewrite (proj2 (Nat.leb_le _ _)) by done. split; [done|]. intros now' r' Hr Hn.
  destruct (_ || _); [done|]. cbn [lh_recent]. rewrite Hr. apply assoc_None_keys in Ea as Hfresh.
  rewrite (assoc_set_fresh _ _ _ Hfresh), assoc_prune.
  - enough (assoc msg (prune now (lh_recent h) ++ [(msg, now)]) = Some now) as ->.
    { rewrite (proj2 (Z.ltb_lt _ _)) by lia. done. }
    by rewrite assoc_snoc, Ea, String.eqb_refl.
  - rewrite fmap_app. apply NoDup_app. split; [by apply prune_keys|]. split; [|apply NoDup_singleton].
    intros k Hk Hk'. apply list_elem_of_singleton in Hk' as ->. done.
Qed.
End handler.

(** ** On concrete input *)
Module log_samples.
#[local] Existing Instance sample_settings.

Definition sample_error : LogRecord :=
  {| lr_name := "broker.db"; lr_levelno := 40; lr_levelname := "ERROR"; lr_message := "<lost>"; lr_exc_text := "Traceback";
     lr_stack_info := "" |}.

Lemma errors_forwarded_once_witness :
  exists h accepted,
    log_trace 61000000 h [(sample_error, 0%Z); (sample_error, 5000000%Z); (sample_error, 61000000%Z)] accepted
      [format_record sample_error] [] /\
    accepted.*2 = [0%Z; 61000000%Z] /\ [format_record sample_error] `sublist_of` accepted.*1.
Proof.
  pose proof (lt_emit 0 0 sample_error _ _ _ _ _ _ _ (lt_start 0) ltac:(lia) eq_refl) as H1.
  pose proof (lt_take 0 _ _ _ _ _ _ _ (lt_enqueue 0 _ _ _ _ _ H1) eq_refl) as H2.
  pose proof (lt_emit 0 5000000 sample_error _ _ _ _ _ _ _ H2 ltac:(lia) eq_refl) as H3.
  pose proof (lt_emit 5000000 61000000 sample_error _ _ _ _ _ _ _ H3 ltac:(lia) eq_refl) as H4.
  eexists _, _. split; [exact H4|].
  destruct (errors_forwarded_once _ _ _ _ _ _ H4) as (E & _ & Hs & _). split; [by vm_compute|].
  etransitivity; [|exact Hs]. by apply sublist_inserts_r.
Defined.
End log_samples.
