(* ===== verification/Lifespan.v ===== *)
(** * Starting and stopping the broker

    The [lifespan] of [app.py]: every background service, started in order and
    registered on an [AsyncExitStack], and the unwinding of that stack; and
    [connect] and [close] of [nats.py].  A service's own [start] and [stop] are atomic
    here and may raise. *)

From S2P Require Import Prelude.

(** ** Services *)
Module Service.
Inductive service :=
| ErrorLogHandler
| Database
| NatsNotifier
| NatsConnection
| TradeCardService
| SignalsNotifier
| DeferredEnqueuer
| DemoNotifier
| BroadcastDispatcher
| TradeEventConsumer
| SystemEventConsumer
| DemoSignalConsumer
| SignalWorker
| SignalRetryJob.
End Service.
Export Service (service).

#[global] Instance service_eq_dec : EqDecision service.
Proof. solve_decision. Defined.

(** The order of [lifespan]; the error-log handler when it is enabled. *)
Definition producers : list service :=
  [Service.TradeEventConsumer; Service.SystemEventConsumer; Service.DemoSignalConsumer; Service.SignalWorker;
   Service.SignalRetryJob].

Definition startup_order (log_errors : bool) : list service :=
  (if log_errors then [Service.ErrorLogHandler] else []) ++
  [Service.Database; Service.NatsNotifier; Service.NatsConnection; Service.TradeCardService; Service.SignalsNotifier;
   Service.DeferredEnqueuer; Service.DemoNotifier; Service.BroadcastDispatcher] ++ producers.

(** What a service is built on, and what must outlive it to take what it leaves: the
    arguments of its constructor, and the dispatcher for the producers. *)
Definition relies_on (s : service) : list service :=
  match s with
  | Service.ErrorLogHandler | Service.Database | Service.NatsNotifier | Service.DemoNotifier => []
  | Service.NatsConnection => [Service.NatsNotifier]
  | Service.TradeCardService | Service.SignalsNotifier | Service.BroadcastDispatcher => [Service.Database]
  | Service.DeferredEnqueuer => [Service.NatsConnection]
  | Service.TradeEventConsumer =>
      [Service.Database; Service.NatsConnection; Service.TradeCardService; Service.BroadcastDispatcher]
  | Service.SystemEventConsumer => [Service.Database; Service.NatsConnection; Service.BroadcastDispatcher]
  | Service.DemoSignalConsumer =>
      [Service.Database; Service.NatsConnection; Service.DemoNotifier; Service.BroadcastDispatcher]
  | Service.SignalWorker | Service.SignalRetryJob =>
      [Service.Database; Service.NatsConnection; Service.SignalsNotifier; Service.DeferredEnqueuer; Service.BroadcastDispatcher]
  end.

(** ** The life of the process *)
Inductive life_event :=
| Up (s : service)
| StartFailed (s : service)
| NoticeStarted
| Serving
| NoticeStopped
| Down (s : service) (raised : bool).

(** What raises: a start, a stop, the notice at start-up, the time of serving (the
    process is cancelled), the notice at shutdown. *)
Record Faults := {
  start_fails : service -> bool;
  stop_fails : service -> bool;
  started_notice_fails : bool;
  serving_fails : bool;
  stopped_notice_fails : bool
}.

Section lifespan.
Variable f : Faults.

(** [_start] of each service: the stack of those to stop, the last one first, what
    happened, and whether one raised. *)
Fixpoint start_all (stack : list service) (order : list service) : list service * list life_event * bool :=
  match order with
  | [] => (stack, [], false)
  | s :: order =>
      if start_fails f s then (stack, [StartFailed s], true)
      else let '(stack, evs, raised) := start_all (s :: stack) order in (stack, Up s :: evs, raised)
  end.

(** [AsyncExitStack.__aexit__]: every callback runs, the last one first, whatever the
    others raised; an exception that is pending at the end is raised. *)
Fixpoint unwind (stack : list service) (pending : bool) : list life_event * bool :=
  match stack with
  | [] => ([], pending)
  | s :: stack =>
      let raised := stop_fails f s in
      let '(evs, pending) := unwind stack (pending || raised) in (Down s raised :: evs, pending)
  end.

(** The body of the stack's [async with]: its events, what is to be stopped, and
    whether it raised. *)
Definition body (log_errors : bool) : list service * list life_event * bool :=
  let '(stack, evs, raised) := start_all [] (startup_order log_errors) in
  if raised then (stack, evs, true)
  else if started_notice_fails f then (stack, evs ++ [NoticeStarted], true)
  else (stack, evs ++ [NoticeStarted; Serving; NoticeStopped], serving_fails f || stopped_notice_fails f).

Definition lifespan (log_errors : bool) : list life_event * bool :=
  let '(stack, evs, raised) := body log_errors in
  let '(evs', raised) := unwind stack raised in (evs ++ evs', raised).
End lifespan.

(** The services running after some events, the last one started first. *)
Definition after_event (running : list service) (e : life_event) : list service :=
  match e with
  | Up s => s :: running
  | Down s _ => base.filter (fun x => x <> s) running
  | _ => running
  end.

Definition running (evs : list life_event) : list service := fold_left after_event evs [].

Definition stopped (evs : list life_event) : list service :=
  omap (fun e => match e with Down s _ => Some s | _ => None end) evs.
Definition started (evs : list life_event) : list service :=
  omap (fun e => match e with Up s => Some s | _ => None end) evs.

(** ** What start-up leaves on the stack *)
Lemma start_all_spec f order stack :
  exists n, start_all f stack order =
    (reverse (take n order) ++ stack,
     map Up (take n order) ++ match drop n order with [] => [] | s :: _ => [StartFailed s] end,
     match drop n order with [] => false | _ => true end) /\
    Forall (fun s => start_fails f s = false) (take n order) /\
    match drop n order with [] => True | s :: _ => start_fails f s = true end.
Proof.
  revert stack. induction order as [|s order IH]; intros stack; [by exists 0|].
  cbn [start_all]. destruct (start_fails f s) eqn:E; [by exists 0|].
  destruct (IH (s :: stack)) as (n & H & Hf & Hn). exists (S n). rewrite H. cbn [take drop map]. rewrite reverse_cons, <-app_assoc.
  split; [done|]. split; [by constructor|done].
Qed.

Lemma unwind_spec f stack pending :
  unwind f stack pending = (map (fun s => Down s (stop_fails f s)) stack, pending || existsb (stop_fails f) stack).
Proof.
  revert pending. induction stack as [|s stack IH]; intros pending; cbn; [by rewrite orb_false_r|].
  rewrite IH. by rewrite orb_assoc.
Qed.

(** Every life of the process: some services start, perhaps all of them and it
    serves; then these stop, the last one first. *)
Lemma lifespan_spec f log_errors :
  exists n mid, (lifespan f log_errors).1 =
    map Up (take n (startup_order log_errors)) ++ mid ++
    map (fun s => Down s (stop_fails f s)) (reverse (take n (startup_order log_errors))) /\
    (mid = [NoticeStarted; Serving; NoticeStopped] /\ drop n (startup_order log_errors) = [] \/ mid = [NoticeStarted] \/
     exists s, mid = [StartFailed s] /\ start_fails f s = true) /\
    (forallb (fun s => negb (start_fails f s)) (startup_order log_errors) = true ->
     started_notice_fails f = false -> mid = [NoticeStarted; Serving; NoticeStopped]).
Proof.
  unfold lifespan, body. destruct (start_all_spec f (startup_order log_errors) []) as (n & -> & Hf & Hn). rewrite app_nil_r.
  destruct (drop n (startup_order log_errors)) as [|s rest] eqn:Ed.
  - rewrite app_nil_r. destruct (started_notice_fails f) eqn:Es; rewrite unwind_spec; cbn [fst].
    + exists n, [NoticeStarted]. rewrite <-app_assoc. split; [done|]. split; [by right; left|done].
    + exists n, [NoticeStarted; Serving; NoticeStopped]. rewrite <-app_assoc. split; [done|]. split; [by left|done].
  - rewrite unwind_spec. cbn [fst]. exists n, [StartFailed s]. rewrite <-app_assoc. split; [done|].
    split; [right; right; by exists s|]. intros Ha _. exfalso.
    assert (s ∈ startup_order log_errors) as Hin.
    { rewrite <-(take_drop n (startup_order log_errors)), Ed. apply elem_of_app. right. left. }
    apply forallb_forall with (x := s) in Ha; [by rewrite Hn in Ha|by apply list_elem_of_In].
Qed.

(** ** What runs when *)
Lemma running_app e1 e2 : running (e1 ++ e2) = fold_left after_event e2 (running e1).
Proof. unfold running. by rewrite fold_left_app. Qed.

Lemma running_ups l r : fold_left after_event (map Up l) r = reverse l ++ r.
Proof.
  revert r. induction l as [|s l IH]; intros r; [done|]. cbn [map fold_left after_event].
  by rewrite IH, reverse_cons, <-app_assoc.
Qed.

Lemma filter_others (s : service) (l : list service) : s ∉ l -> base.filter (fun x => x <> s) l = l.
Proof.
  induction l as [|x l IH]; [done|]. intros [Hx Hl]%not_elem_of_cons. rewrite filter_cons_True by auto. by rewrite IH.
Qed.

Lemma running_downs g l k : NoDup l -> fold_left after_event (map (fun s => Down s (g s)) (take k l)) l = drop k l.
Proof.
  intros H. revert k. induction H as [|s l Hs Hl IH]; intros [|k]; [done..|]. cbn [take map fold_left after_event drop].
  rewrite filter_cons_False by auto. rewrite filter_others by done. apply IH.
Qed.

Lemma order_unique log_errors : NoDup (startup_order log_errors).
Proof. by destruct log_errors; apply (bool_decide_unpack _); vm_compute. Qed.

(** What a service relies on comes before it. *)
Definition ordered (order : list service) : bool :=
  forallb (fun i => match order !! i with
                    | Some s => bool_decide (relies_on s ⊆ take i order)
                    | None => true
                    end) (seq 0 (length order)).

Lemma order_ordered log_errors : ordered (startup_order log_errors) = true.
Proof. by destruct log_errors; vm_compute. Qed.

Lemma prefix_closed log_errors n s x :
  s ∈ take n (startup_order log_errors) -> x ∈ relies_on s -> x ∈ take n (startup_order log_errors).
Proof.
  intros [i Hi]%list_elem_of_lookup Hx. apply lookup_take_Some in Hi as [Hi Hn].
  pose proof (order_ordered log_errors) as H. unfold ordered in H. rewrite forallb_forall in H.
  assert (In i (seq 0 (length (startup_order log_errors)))) as Hin
    by (apply in_seq; apply lookup_lt_Some in Hi; lia).
  specialize (H i Hin). rewrite Hi in H. apply bool_decide_eq_true in H. apply H in Hx.
  apply list_elem_of_lookup in Hx as [j Hj]. apply lookup_take_Some in Hj as [Hj Hij].
  apply list_elem_of_lookup. exists j. apply lookup_take_Some. split; [done|lia].
Qed.

(** Nothing between start-up and shutdown starts or stops a service. *)
Definition idle (e : life_event) : Prop := match e with Up _ | Down _ _ => False | _ => True end.

Lemma running_idle mid r k : Forall idle mid -> fold_left after_event (take k mid) r = r.
Proof. intros H. revert k. induction H as [|e mid He _ IH]; intros [|k]; [done..|]. destruct e; try done; apply IH. Qed.

(** At any time the services that run are the first so many of the order. *)
Lemma running_prefix l mid g k :
  NoDup l -> Forall idle mid ->
  exists n, running (take k (map Up l ++ mid ++ map (fun s => Down s (g s)) (reverse l))) = reverse (take n l).
Proof.
  intros Hl Hm.
  assert (forall h (l' : list service) m, take m (map h l') = map (h : service -> life_event) (take m l')) as Hmap
    by (intros h l' m; by rewrite firstn_map).
  rewrite !take_app, running_app, fold_left_app, !Hmap. unfold running.
  rewrite running_ups, app_nil_r, running_idle, length_map by done.
  destruct (decide (length l <= k)) as [Hk|Hk].
  - rewrite (take_ge l k) by done. set (j := _ - length mid). exists (length l - j).
    by rewrite running_downs, drop_reverse by (by rewrite reverse_Permutation).
  - exists k. by replace (k - length l) with 0 by lia.
Qed.

Lemma running_none l mid g :
  NoDup l -> Forall idle mid -> running (map Up l ++ mid ++ map (fun s => Down s (g s)) (reverse l)) = [].
Proof.
  intros Hl Hm. rewrite running_app, fold_left_app. unfold running. rewrite running_ups, app_nil_r.
  rewrite <-(take_ge mid (length mid)), running_idle by done.
  rewrite <-(take_ge (reverse l) (length l)) at 1 by (by rewrite length_reverse).
  rewrite running_downs by (by rewrite reverse_Permutation). by rewrite drop_ge by (by rewrite length_reverse).
Qed.

Lemma events_counted l mid g :
  started mid = [] -> stopped mid = [] ->
  started (map Up l ++ mid ++ map (fun s => Down s (g s)) (reverse l)) = l /\
  stopped (map Up l ++ mid ++ map (fun s => Down s (g s)) (reverse l)) = reverse l.
Proof.
  intros H1 H2. unfold started, stopped in *. rewrite !omap_app, H1, H2.
  assert (forall l', started (map Up l') = l' /\ stopped (map Up l') = []) as Hu.
  { unfold started, stopped. intros l'. induction l' as [|s l' [IH1 IH2]]; [done|]. cbn. by rewrite IH1, IH2. }
  assert (forall l', started (map (fun s => Down s (g s)) l') = [] /\ stopped (map (fun s => Down s (g s)) l') = l') as Hd.
  { unfold started, stopped. intros l'. induction l' as [|s l' [IH1 IH2]]; [done|]. cbn. by rewrite IH1, IH2. }
  unfold started, stopped in *. destruct (Hu l) as [-> ->], (Hd (reverse l)) as [-> ->]. by rewrite !app_nil_r.
Qed.

(** The services stop in the order they did not start in.  Whatever start, stop or
    notice raises, and whether the error-log handler is enabled or not: every
    service that started is stopped exactly once, the last one first, and nothing runs
    in the end; at any moment what a running service relies on — what it is built
    on, and for the producers the dispatcher that takes what they write — runs too;
    requests are served only while all of them run; and they are served if nothing
    raises during start-up. *)
Theorem lifespan_unwinds f log_errors :
  let evs := (lifespan f log_errors).1 in
  stopped evs = reverse (started evs) /\ NoDup (started evs) /\ running evs = [] /\
  (forall k s x, s ∈ running (take k evs) -> x ∈ relies_on s -> x ∈ running (take k evs)) /\
  (forall k, evs !! k = Some Serving -> running (take k evs) = reverse (startup_order log_errors)) /\
  (forallb (fun s => negb (start_fails f s)) (startup_order log_errors) = true -> started_notice_fails f = false ->
     Serving ∈ evs).
Proof.
  cbv zeta. destruct (lifespan_spec f log_errors) as (n & mid & -> & Hmid & Hok).
  set (l := take n (startup_order log_errors)) in *. set (g := stop_fails f).
  assert (NoDup l) as Hl.
  { pose proof (order_unique log_errors) as H. rewrite <-(take_drop n (startup_order log_errors)) in H.
    by apply NoDup_app in H as [? _]. }
  assert (Forall idle mid) as Hi by (destruct Hmid as [[-> _]|[->|(s & -> & _)]]; repeat constructor).
  assert (started mid = [] /\ stopped mid = []) as [Hs1 Hs2] by (destruct Hmid as [[-> _]|[->|(s & -> & _)]]; done).
  destruct (events_counted l mid g Hs1 Hs2) as [-> ->].
  split; [done|]. split; [done|]. split; [|split; [|split]].
  - by apply running_none.
  - intros k s x Hs Hx. destruct (running_prefix l mid g k Hl Hi) as [m Hm]. rewrite Hm in *.
    rewrite !elem_of_reverse in *. unfold l in *. rewrite take_take in *. exact (prefix_closed _ _ _ _ Hs Hx).
  - intros k Hk. destruct (decide (k < length (map Up l))) as [Hlt|Hge].
    { rewrite lookup_app_l in Hk by done. apply list_elem_of_lookup_2 in Hk.
      apply list_elem_of_In, in_map_iff in Hk as (? & [=] & _). }
    rewrite lookup_app_r in Hk by lia. rewrite length_map in Hge.
    rewrite length_map in Hk. destruct (mid !! (k - length l)) as [e|] eqn:Em.
    + rewrite lookup_app_l in Hk by (by apply lookup_lt_Some in Em). rewrite Em in Hk. injection Hk as ->.
      assert (l = startup_order log_errors) as El.
      { destruct Hmid as [[_ Hd]|[->|(s & -> & _)]];
          [|destruct (k - length l) as [|[|]]; done..].
        unfold l. by rewrite <-(app_nil_r (take _ _)), <-Hd, take_drop. }
      rewrite take_app_ge by (rewrite length_map; lia). rewrite length_map, take_app_le by (apply lookup_lt_Some in Em; lia).
      rewrite running_app, running_idle by done. unfold running. by rewrite running_ups, app_nil_r, El.
    + rewrite lookup_app_r in Hk by (by apply lookup_ge_None). apply list_elem_of_lookup_2 in Hk.
      apply list_elem_of_In, in_map_iff in Hk as (? & [=] & _).
  - intros Ha Hn. rewrite (Hok Ha Hn). rewrite !elem_of_app. right. left. set_solver.
Qed.

(** ** The NATS connection *)

(** JetStream's answer to a call: done, a configuration it refuses, another error. *)
Inductive js_answer := JsOk | JsBadRequest | JsError.

Inductive stream := SignalStream | TradeStream.
Inductive js_call := AddStream (s : stream) | UpdateStream (s : stream).

(** [NatsClient]: whether [_nc] is set and whether that connection is open, the
    connections open on the server, the calls made and the answers to come. *)
Record NatsState := {
  nc : option bool;
  sockets : nat;
  asked : list (js_call * js_answer);
  answers : list js_answer
}.

Definition ask (c : js_call) (st : NatsState) : js_answer * NatsState :=
  let '(a, l) := match answers st with [] => (JsOk, []) | a :: l => (a, l) end in
  (a, {| nc := nc st; sockets := sockets st; asked := asked st ++ [(c, a)]; answers := l |}).

(** [_ensure_stream]: [true] when it returns. *)
Definition ensure_stream (s : stream) (st : NatsState) : bool * NatsState :=
  let '(a, st) := ask (AddStream s) st in
  match a with
  | JsOk => (true, st)
  | JsError => (false, st)
  | JsBadRequest => let '(_, st) := ask (UpdateStream s) st in (true, st)
  end.

Definition close_socket (st : NatsState) (nc' : option bool) : NatsState :=
  {| nc := nc'; sockets := pred (sockets st); asked := asked st; answers := answers st |}.

(** [connect]: [dialled] is whether [nats.connect] succeeds. *)
Definition nats_connect (dialled : bool) (st : NatsState) : bool * NatsState :=
  if dialled then
    let st := {| nc := Some true; sockets := S (sockets st); asked := asked st; answers := answers st |} in
    let '(ok, st) := ensure_stream SignalStream st in
    if ok then
      let '(ok, st) := ensure_stream TradeStream st in
      if ok then (true, st) else (false, close_socket st None)
    else (false, close_socket st None)
  else (false, st).

(** [close]. *)
Definition nats_close (st : NatsState) : NatsState :=
  match nc st with Some true => close_socket st (Some false) | _ => st end.

(** What one stream was asked: it was accepted, or refused and updated. *)
Definition stream_asked (s : stream) (calls : list (js_call * js_answer)) : Prop :=
  calls = [(AddStream s, JsOk)] \/ exists b, calls = [(AddStream s, JsBadRequest); (UpdateStream s, b)].

Lemma ensure_stream_spec s st :
  let '(ok, st') := ensure_stream s st in
  nc st' = nc st /\ sockets st' = sockets st /\
  if ok then exists calls, asked st' = asked st ++ calls /\ stream_asked s calls else True.
Proof.
  unfold ensure_stream, ask. destruct (answers st) as [|[] [|b l]]; cbn; (split; [done|]); (split; [done|]); try done;
    (eexists; split; [by rewrite <-?app_assoc|]); (by left) || (right; by eexists).
Qed.

(** A connection is held exactly when [connect] returned, and then both streams were
    asked for, each updated only where it was refused. *)
Lemma connect_all_or_nothing dialled st :
  let '(ok, st') := nats_connect dialled st in
  if ok then
    nc st' = Some true /\ sockets st' = S (sockets st) /\ sockets (nats_close st') = sockets st /\
    exists c1 c2, asked st' = asked st ++ c1 ++ c2 /\ stream_asked SignalStream c1 /\ stream_asked TradeStream c2
  else sockets st' = sockets st /\ (dialled = true -> nc st' = None).
Proof.
  unfold nats_connect. destruct dialled; [|done]. set (st0 := Build_NatsState _ _ _ _).
  pose proof (ensure_stream_spec SignalStream st0) as H1. destruct (ensure_stream SignalStream st0) as [[] st1].
  - destruct H1 as (Hn1 & Hs1 & c1 & Ha1 & Hc1).
    pose proof (ensure_stream_spec TradeStream st1) as H2. destruct (ensure_stream TradeStream st1) as [[] st2].
    + destruct H2 as (Hn2 & Hs2 & c2 & Ha2 & Hc2). rewrite Hn1 in Hn2. rewrite Hs1 in Hs2. unfold nats_close. rewrite Hn2.
      split_and!; [done|done|cbn; by rewrite Hs2|]. exists c1, c2. by rewrite Ha2, Ha1, <-app_assoc.
    + destruct H2 as (_ & Hs2 & _). cbn. by rewrite Hs2, Hs1.
  - destruct H1 as (_ & Hs1 & _). cbn. by rewrite Hs1.
Qed.
