(* ===== verification/Status.v ===== *)
(** * The status page

    [status.py]: what [make status] asks of each link, how it tells the engine, the
    workers and other clients apart in the NATS server's list of connections, and the
    exit code. *)

From stdpp Require Import sorting.
From S2P Require Import Prelude PyStr Uuid PyTime Json JsonText Enums Schemas Models ChatTargets BotState World Settings TimeZone.
From S2P Require Import AccountSettings.
From Stdlib Require Import Ascii.

Module Verdict.
Inductive verdict := OK | WARN | FAIL.
End Verdict.
Export Verdict (verdict).

#[global] Instance verdict_eq_dec : EqDecision verdict.
Proof. solve_decision. Defined.

Record LinkReport := {
  lr_target : string;
  lr_verdict : verdict;
  lr_detail : string;
  lr_listing : list string
}.

(** [KnownAccount]: an account's row, its market as text. *)
Record KnownAccount := {
  ka_market : string;
  ka_gateway : option string;
  ka_account_id : string;
  ka_account_name : option string;
  ka_last_activity_at : option instant
}.

Record ConnectedWorker := {
  cw_market : string;
  cw_gateway : string;
  cw_account_id : string;
  cw_address : string;
  cw_strategies : list string
}.

(** An entry of the server's list: what the code reads of it. *)
Record Connection := {
  cn_name : option string;
  cn_lang : option string;
  cn_ip : option string;
  cn_subscriptions : list string
}.

Record NatsClients := {
  engines : list Connection;
  workers : list ConnectedWorker;
  unidentified : list Connection
}.

(** [worker_id] of both classes. *)
Definition known_worker_id (a : KnownAccount) : string :=
  let gateway := match ka_gateway a with Some g => if is_empty g then "?" else g | None => "?" end in
  ka_market a +:+ "-" +:+ gateway +:+ "-" +:+ ka_account_id a.

Definition connected_worker_id (w : ConnectedWorker) : string :=
  cw_market w +:+ "-" +:+ cw_gateway w +:+ "-" +:+ cw_account_id w.

Definition ENGINE_CLIENT_NAME : string := "qte-broker-sink".
Definition STATUS_CLIENT_NAME : string := "broker-status".
Definition BROKER_CLIENT_NAME : string := "algo-trading-broker".

(** ** Who is connected *)
Definition named (c : Connection) (n : string) : bool := match cn_name c with Some m => String.eqb m n | None => false end.

(** The broker's own connection, and this probe's. *)
Definition own_connection (c : Connection) : bool :=
  named c STATUS_CLIENT_NAME || named c BROKER_CLIENT_NAME ||
  bool_decide (topic_value TOPIC_TRADE ∈ cn_subscriptions c).

(** The market, gateway and account of a private subject. *)
Definition private_subject (subject : string) : option (string * string * string) :=
  match split "."%char subject with
  | [topic; market; gateway; account_id] =>
      if String.eqb topic (topic_value TOPIC_ADMIN) then Some (market, gateway, account_id) else None
  | _ => None
  end.

Definition private_subjects (c : Connection) : list (string * string * string) := omap private_subject (cn_subscriptions c).

Definition RESERVED_SUBJECT_ROOTS : list string :=
  ["_INBOX"; topic_value TOPIC_ADMIN; topic_value TOPIC_SYSTEM; topic_value TOPIC_TRADE].

Definition str_le (a b : string) : Prop := String.leb a b = true.
#[global] Instance str_le_dec : RelDecision str_le.
Proof. intros a b. unfold str_le. apply _. Defined.

(** [sorted]: Python orders texts by code points, as their encodings are by bytes. *)
Definition sorted (l : list string) : list string := merge_sort str_le l.

Definition strategies_of (c : Connection) : list string :=
  sorted (base.filter (fun s => negb (startswith "$" s) = true /\
                                hd EmptyString (split "."%char s) ∉ RESERVED_SUBJECT_ROOTS) (cn_subscriptions c)).

Definition shown_ip (c : Connection) : string := default "?" (cn_ip c).

Definition workers_of (c : Connection) : list ConnectedWorker :=
  map (fun '(market, gateway, account_id) =>
         {| cw_market := market; cw_gateway := gateway; cw_account_id := account_id; cw_address := shown_ip c;
            cw_strategies := strategies_of c |}) (private_subjects c).

(** One turn of the loop of [classify_connections]. *)
Definition classify (clients : NatsClients) (c : Connection) : NatsClients :=
  if own_connection c then clients
  else if named c ENGINE_CLIENT_NAME then
    {| engines := engines clients ++ [c]; workers := workers clients; unidentified := unidentified clients |}
  else
    match private_subjects c with
    | [] => {| engines := engines clients; workers := workers clients; unidentified := unidentified clients ++ [c] |}
    | _ => {| engines := engines clients; workers := workers clients ++ workers_of c; unidentified := unidentified clients |}
    end.

Definition no_clients : NatsClients := {| engines := []; workers := []; unidentified := [] |}.

Definition classify_connections (connections : list Connection) : NatsClients := fold_left classify connections no_clients.

(** ** Reports *)
Definition engine_report (clients : NatsClients) : LinkReport :=
  match engines clients with
  | [] =>
      {| lr_target := "Engine (QTE)"; lr_verdict := Verdict.WARN;
         lr_detail := "no NATS client named " +:+ ENGINE_CLIENT_NAME +:+ " — the engine's runner is down, " +:+
                      "cannot reach this server, or delivers over HTTP"; lr_listing := [] |}
  | es =>
      {| lr_target := "Engine (QTE)"; lr_verdict := Verdict.OK;
         lr_detail := "connected as " +:+ ENGINE_CLIENT_NAME +:+ " from " +:+ join ", " (map shown_ip es); lr_listing := [] |}
  end.

(** [_is_connected]. *)
Definition is_online (a : KnownAccount) (ws : list ConnectedWorker) : bool :=
  existsb (fun w => String.eqb (cw_account_id w) (ka_account_id a) &&
                    String.eqb (upper (cw_market w)) (upper (ka_market a)) &&
                    match ka_gateway a with
                    | None => true
                    | Some g => String.eqb (upper (cw_gateway w)) (upper g)
                    end) ws.

(** [_when]: timestamps come back in UTC. *)
Definition when (moment : option instant) : string :=
  match moment ≫= wall_clock with
  | Some t => str_int (dt_year t) +:+ "-" +:+ dec_fixed 2 (dt_month t) +:+ "-" +:+ dec_fixed 2 (dt_day t) +:+ " " +:+
              dec_fixed 2 (dt_hour t) +:+ ":" +:+ dec_fixed 2 (dt_minute t) +:+ " UTC"
  | None => "never"
  end.

Definition by_worker_id (a b : ConnectedWorker) : Prop := str_le (connected_worker_id a) (connected_worker_id b).
#[global] Instance by_worker_id_dec : RelDecision by_worker_id.
Proof. intros a b. unfold by_worker_id. apply _. Defined.

Definition online_line (w : ConnectedWorker) : string :=
  "online   " +:+ connected_worker_id w +:+ "  from " +:+ cw_address w +:+ "  strategies: " +:+
  match cw_strategies w with [] => "none" | l => join ", " l end.

Definition offline_line (a : KnownAccount) : string :=
  "offline  " +:+ known_worker_id a +:+
  match ka_account_name a with Some n => if is_empty n then EmptyString else "  (" +:+ n +:+ ")" | None => EmptyString end +:+
  "  last activity " +:+ when (ka_last_activity_at a).

Definition workers_report (clients : NatsClients) (accounts : option (list KnownAccount)) : LinkReport :=
  let ws := workers clients in
  let online := map online_line (merge_sort by_worker_id ws) in
  let count := str_int (Z.of_nat (length ws)) in
  let none := match ws with [] => true | _ => false end in
  match accounts with
  | None =>
      {| lr_target := "Workers"; lr_verdict := if none then Verdict.WARN else Verdict.OK;
         lr_detail := count +:+ " connected; accounts table not read"; lr_listing := online |}
  | Some accounts =>
      let missing := base.filter (fun a => is_online a ws = false) accounts in
      {| lr_target := "Workers";
         lr_verdict := if none then Verdict.WARN else match missing with [] => Verdict.OK | _ => Verdict.WARN end;
         lr_detail := count +:+ " connected, " +:+ str_int (Z.of_nat (length missing)) +:+ " known account(s) offline" +:+
                      (if none then " — a signal published now reaches nobody" else EmptyString);
         lr_listing := online ++ map offline_line missing |}
  end.

Definition or_unnamed (s : option string) : string :=
  match s with Some s => if is_empty s then "unnamed" else s | None => "unnamed" end.

Definition other_clients (clients : NatsClients) : list LinkReport :=
  match unidentified clients with
  | [] => []
  | l =>
      [{| lr_target := "Other clients"; lr_verdict := Verdict.OK;
          lr_detail := str_int (Z.of_nat (length l)) +:+ " NATS client(s) that are neither";
          lr_listing := map (fun c => or_unnamed (cn_name c) +:+ " (" +:+ default "?" (cn_lang c) +:+ ") from " +:+ shown_ip c) l |}]
  end.

(** ** Probes *)

(** An exception: its class and its text. *)
Record Failure := { fl_type : string; fl_message : string }.

Definition describe (failure : Failure) : string :=
  let message := strip (fl_message failure) in
  if is_empty message then fl_type failure else fl_type failure +:+ ": " +:+ message.

(** [stream_info] and [consumer_info]: what JetStream answers. *)
Inductive stream_answer := StreamHolds (messages : Z) | StreamMissing | StreamFailed (failure : Failure).
Inductive consumer_answer := ConsumerWaiting (num_waiting : Z) | ConsumerMissing | ConsumerFailed (failure : Failure).

(** What each question meets with: the accounts table, the API's status code, the
    dial, JetStream (the consumer at each sample) and [/connz]. *)
Record Links := {
  postgres : res Failure (list KnownAccount);
  api : res Failure Z;
  dial : option Failure;
  stream : stream_answer;
  consumer : nat -> consumer_answer;
  connz : res Failure (list Connection)
}.

(** The endpoints, as they are printed. *)
Class StatusSettings := {
  postgres_endpoint : string;
  api_shown : string;
  nats_endpoint : string;
  monitor_endpoint : string;
  signal_consumer : string
}.

Section probes.
Context `{SS : StatusSettings}.

Definition report (target : string) (v : verdict) (detail : string) : LinkReport :=
  {| lr_target := target; lr_verdict := v; lr_detail := detail; lr_listing := [] |}.

Definition probe_postgres (l : Links) : LinkReport * option (list KnownAccount) :=
  match postgres l with
  | Err failure => (report "PostgreSQL" Verdict.FAIL (postgres_endpoint +:+ " (" +:+ describe failure +:+ ")"), None)
  | Ok accounts =>
      (report "PostgreSQL" Verdict.OK (postgres_endpoint +:+ ", " +:+ str_int (Z.of_nat (length accounts)) +:+ " account(s)"),
       Some accounts)
  end.

Definition probe_api (l : Links) : LinkReport :=
  match api l with
  | Err failure => report "Broker API" Verdict.FAIL (api_shown +:+ " failed (" +:+ describe failure +:+ ")")
  | Ok code =>
      if (code =? 200)%Z then report "Broker API" Verdict.OK (api_shown +:+ " answered 200")
      else report "Broker API" Verdict.FAIL (api_shown +:+ " answered " +:+ str_int code)
  end.

Definition PULL_SAMPLE_COUNT : nat := 4.
Definition JETSTREAM_SIGNAL_STREAM : string := "SIGNALS".

(** The samples of [consumer_info], from the [i]th on. *)
Fixpoint sample_consumer (buffered : string) (answer : nat -> consumer_answer) (n i : nat) : LinkReport :=
  match n with
  | O => report "JetStream" Verdict.FAIL
           (buffered +:+ "; nothing is pulling from " +:+ signal_consumer +:+ " — SignalWorker is not " +:+
            "running, alerts are stored and not fanned out")
  | S n =>
      match answer i with
      | ConsumerWaiting num_waiting =>
          if (num_waiting =? 0)%Z then sample_consumer buffered answer n (S i)
          else report "JetStream" Verdict.OK (buffered +:+ "; " +:+ signal_consumer +:+ " is pulling")
      | ConsumerMissing =>
          report "JetStream" Verdict.FAIL (buffered +:+ "; consumer " +:+ signal_consumer +:+
                                           " does not exist — SignalWorker has never started")
      | ConsumerFailed failure => report "JetStream" Verdict.FAIL (buffered +:+ "; " +:+ describe failure)
      end
  end.

Definition probe_signal_stream (l : Links) : LinkReport :=
  match stream l with
  | StreamMissing =>
      report "JetStream" Verdict.FAIL ("no " +:+ JETSTREAM_SIGNAL_STREAM +:+
                                       " stream — the broker has not connected to this server yet")
  | StreamFailed failure => report "JetStream" Verdict.FAIL (describe failure)
  | StreamHolds messages =>
      sample_consumer (JETSTREAM_SIGNAL_STREAM +:+ " holds " +:+ str_int messages +:+ " undelivered signal(s)")
        (consumer l) PULL_SAMPLE_COUNT 0
  end.

Definition probe_clients (l : Links) (accounts : option (list KnownAccount)) : list LinkReport :=
  match connz l with
  | Err failure =>
      let unverified := "unverified — could not read " +:+ monitor_endpoint +:+ "/connz (" +:+ describe failure +:+ ")" in
      [report "Engine (QTE)" Verdict.WARN unverified; report "Workers" Verdict.WARN unverified]
  | Ok connections =>
      let clients := classify_connections connections in
      engine_report clients :: workers_report clients accounts :: other_clients clients
  end.

Definition probe_nats (l : Links) (accounts : option (list KnownAccount)) : LinkReport * LinkReport * list LinkReport :=
  match dial l with
  | Some failure =>
      let unreachable := "not checked: NATS is unreachable" in
      (report "NATS" Verdict.FAIL (nats_endpoint +:+ " unreachable (" +:+ describe failure +:+ ")"),
       report "JetStream" Verdict.FAIL unreachable,
       [report "Engine (QTE)" Verdict.WARN unreachable; report "Workers" Verdict.WARN unreachable])
  | None => (report "NATS" Verdict.OK nats_endpoint, probe_signal_stream l, probe_clients l accounts)
  end.

(** ** The whole picture *)
Definition collect_reports (l : Links) : list LinkReport :=
  let '(postgres_report, accounts) := probe_postgres l in
  let '(nats_report, stream_report, client_reports) := probe_nats l accounts in
  [postgres_report; nats_report; stream_report; probe_api l] ++ client_reports.

Definition MARKERS (v : verdict) : string :=
  match v with Verdict.OK => "[ OK ]" | Verdict.WARN => "[WARN]" | Verdict.FAIL => "[FAIL]" end.

Definition blanks (n : nat) : string := String.concat EmptyString (repeat " " n).

Definition render_reports (reports : list LinkReport) : string :=
  let width := max_list (map (fun r => String.length (lr_target r)) reports) in
  join newline (concat (map (fun r =>
    ("  " +:+ MARKERS (lr_verdict r) +:+ " " +:+ lr_target r +:+ blanks (width - String.length (lr_target r)) +:+ "  " +:+
     lr_detail r) :: map (fun e => "  " +:+ blanks (width + 9) +:+ e) (lr_listing r)) reports)).

Definition exit_code (reports : list LinkReport) : Z :=
  if existsb (fun r => bool_decide (lr_verdict r = Verdict.FAIL)) reports then 1 else 0.
End probes.

(** ** Private subjects *)
Definition no_dot (s : string) : Prop := "."%char ∉ chars s.

Lemma private_subject_spec s m g id :
  private_subject s = Some (m, g, id) <-> s = compose_admin_subject m g id /\ no_dot m /\ no_dot g /\ no_dot id.
Proof.
  unfold private_subject, compose_admin_subject. split.
  - intros H. pose proof (join_split "." s) as Hj. pose proof (split_no_sep "." s) as Hn.
    destruct (split "." s) as [|a [|b [|c [|d [|? ?]]]]]; try done.
    destruct (String.eqb_spec a (topic_value TOPIC_ADMIN)) as [->|]; [|done]. injection H as -> -> ->.
    split; [by rewrite <-Hj|]. unfold no_dot. split_and!; apply Hn; set_solver.
  - intros (-> & Hm & Hg & Hi).
    assert (split "." (topic_value TOPIC_ADMIN +:+ "." +:+ m +:+ "." +:+ g +:+ "." +:+ id) = [topic_value TOPIC_ADMIN; m; g; id]) as ->; [|done].
    apply (split_join "." [topic_value TOPIC_ADMIN; m; g; id]); [done|]. repeat constructor; try done. cbn. set_solver.
Qed.

(** A client that is neither the broker, this probe nor the engine. *)
Definition client (c : Connection) : Prop := own_connection c = false /\ named c ENGINE_CLIENT_NAME = false.

Definition listens (connections : list Connection) (subject : string) : Prop :=
  exists c, c ∈ connections /\ client c /\ subject ∈ cn_subscriptions c.

(** What [classify_connections] collects: each connection in one group only. *)
Definition group (c : Connection) : NatsClients :=
  classify no_clients c.

Lemma classify_group clients c :
  classify clients c =
    {| engines := engines clients ++ engines (group c); workers := workers clients ++ workers (group c);
       unidentified := unidentified clients ++ unidentified (group c) |}.
Proof.
  unfold group, classify. destruct clients as [e w u].
  destruct (own_connection c); [by rewrite !app_nil_r|]. destruct (named c ENGINE_CLIENT_NAME); [by rewrite !app_nil_r|].
  destruct (private_subjects c); cbn; by rewrite ?app_nil_r.
Qed.

Lemma classify_all connections :
  classify_connections connections =
    {| engines := concat (map (fun c => engines (group c)) connections);
       workers := concat (map (fun c => workers (group c)) connections);
       unidentified := concat (map (fun c => unidentified (group c)) connections) |}.
Proof.
  unfold classify_connections.
  assert (forall cl, fold_left classify connections cl =
    {| engines := engines cl ++ concat (map (fun c => engines (group c)) connections);
       workers := workers cl ++ concat (map (fun c => workers (group c)) connections);
       unidentified := unidentified cl ++ concat (map (fun c => unidentified (group c)) connections) |}) as H; [|by rewrite H].
  induction connections as [|c cs IH]; intros cl; cbn [fold_left map concat]; [destruct cl; by rewrite !app_nil_r|].
  rewrite IH, classify_group. cbn [engines workers unidentified]. by rewrite <-!app_assoc.
Qed.

Lemma worker_of_group c w :
  w ∈ workers (group c) <-> client c /\ w ∈ workers_of c.
Proof.
  unfold group, classify, client. destruct (own_connection c); cbn; [set_solver|].
  destruct (named c ENGINE_CLIENT_NAME); cbn; [set_solver|].
  unfold workers_of. destruct (private_subjects c); cbn; [set_solver|]. split; [by intros ?|by intros [_ ?]].
Qed.

Lemma worker_listens connections m g id :
  (exists w, w ∈ workers (classify_connections connections) /\ cw_market w = m /\ cw_gateway w = g /\ cw_account_id w = id) <->
  listens connections (compose_admin_subject m g id) /\ no_dot m /\ no_dot g /\ no_dot id.
Proof.
  rewrite classify_all. cbn [workers]. split.
  - intros (w & Hw & <- & <- & <-). rewrite list_elem_of_In in Hw. apply in_concat in Hw as (l & Hl & Hw).
    apply in_map_iff in Hl as (c & <- & Hc). apply list_elem_of_In in Hw, Hc. apply worker_of_group in Hw as [Hcl Hw].
    unfold workers_of in Hw. apply list_elem_of_In, in_map_iff in Hw as ([[m g] id] & <- & Hp). cbn.
    apply list_elem_of_In in Hp. unfold private_subjects in Hp. apply list_elem_of_omap in Hp as (s & Hs & Hp).
    apply private_subject_spec in Hp as (-> & ?). split; [|done]. by exists c.
  - intros ((c & Hc & Hcl & Hs) & Hd).
    exists {| cw_market := m; cw_gateway := g; cw_account_id := id; cw_address := shown_ip c; cw_strategies := strategies_of c |}.
    split; [|done]. apply list_elem_of_In, in_concat. exists (workers (group c)).
    split; [apply in_map_iff; exists c; split; [done|by apply list_elem_of_In]|].
    apply list_elem_of_In, worker_of_group. split; [done|]. unfold workers_of. apply list_elem_of_In, in_map_iff.
    exists (m, g, id). split; [done|]. apply list_elem_of_In. unfold private_subjects. apply list_elem_of_omap.
    exists (compose_admin_subject m g id). split; [done|]. by apply private_subject_spec.
Qed.

(** ** When all is well *)
Section truth.
Context `{SS : StatusSettings}.

(** The consumer has a pull request waiting at one of the samples, and none failed
    before. *)
Definition pulling (answer : nat -> consumer_answer) (first n : nat) : Prop :=
  exists i k, first <= i < first + n /\ answer i = ConsumerWaiting k /\ k <> 0%Z /\
    forall j, first <= j < i -> answer j = ConsumerWaiting 0.

Lemma sample_verdict buffered answer n i :
  lr_verdict (sample_consumer buffered answer n i) <> Verdict.FAIL <-> pulling answer i n.
Proof.
  revert i. induction n as [|n IH]; intros i; cbn [sample_consumer].
  - split; [done|]. intros (j & k & ? & _). lia.
  - destruct (answer i) as [k| |failure] eqn:E.
    + destruct (Z.eqb_spec k 0) as [->|Hk].
      * rewrite IH. split; intros (j & k & Hj & Hw & Hk & Hb).
        -- exists j, k. split; [lia|]. split; [done|]. split; [done|]. intros j' Hj'.
           destruct (decide (j' = i)) as [->|]; [done|]. apply Hb. lia.
        -- assert (j <> i) by (intros ->; congruence). exists j, k. split; [lia|]. split; [done|]. split; [done|].
           intros j' Hj'. apply Hb. lia.
      * split; [|done]. intros _. exists i, k. split; [lia|]. split; [done|]. split; [done|]. intros j Hj. lia.
    + split; [done|]. intros (j & k & Hj & Hw & Hk & Hb). destruct (decide (j = i)) as [->|]; [congruence|].
      rewrite Hb in E by lia. done.
    + split; [done|]. intros (j & k & Hj & Hw & Hk & Hb). destruct (decide (j = i)) as [->|]; [congruence|].
      rewrite Hb in E by lia. done.
Qed.

(** Every link of the broker's own is up. *)
Definition all_up (l : Links) : Prop :=
  (exists accounts, postgres l = Ok accounts) /\ dial l = None /\
  (exists messages, stream l = StreamHolds messages) /\ pulling (consumer l) 0 PULL_SAMPLE_COUNT /\ api l = Ok 200%Z.

Lemma exit_zero reports : exit_code reports = 0%Z <-> Forall (fun r => lr_verdict r <> Verdict.FAIL) reports.
Proof.
  unfold exit_code. rewrite Forall_forall. split.
  - intros H r Hr Hf. assert (existsb (fun r => bool_decide (lr_verdict r = Verdict.FAIL)) reports = true) as E; [|by rewrite E in H].
    apply existsb_exists. exists r. split; [by apply list_elem_of_In|by apply bool_decide_eq_true].
  - intros H. destruct (existsb _ reports) eqn:E; [|done]. apply existsb_exists in E as (r & Hr & Hf).
    apply bool_decide_eq_true in Hf. by destruct (H r); [apply list_elem_of_In|].
Qed.

Lemma clients_never_fail l accounts : Forall (fun r => lr_verdict r <> Verdict.FAIL) (probe_clients l accounts).
Proof.
  unfold probe_clients. destruct (connz l) as [cs|]; [|by repeat constructor].
  constructor; [unfold engine_report; by destruct (engines _)|]. constructor.
  - unfold workers_report. destruct accounts as [as_|]; cbn; [|by destruct (workers _)].
    destruct (workers _); [done|]. by destruct (base.filter _ as_).
  - unfold other_clients. destruct (unidentified _); by repeat constructor.
Qed.

Lemma stream_verdict l :
  lr_verdict (probe_signal_stream l) <> Verdict.FAIL <->
  (exists messages, stream l = StreamHolds messages) /\ pulling (consumer l) 0 PULL_SAMPLE_COUNT.
Proof.
  unfold probe_signal_stream. destruct (stream l) as [messages| |failure]; cbn [lr_verdict report].
  - rewrite sample_verdict. split; [by intros ?; split; [eexists|]|by intros [_ ?]].
  - split; [done|]. by intros [[? [=]] _].
  - split; [done|]. by intros [[? [=]] _].
Qed.

Lemma online_spec a connections :
  is_online a (workers (classify_connections connections)) = true <->
  no_dot (ka_account_id a) /\ exists m g,
    listens connections (compose_admin_subject m g (ka_account_id a)) /\ no_dot m /\ no_dot g /\
    upper m = upper (ka_market a) /\ match ka_gateway a with Some g' => upper g = upper g' | None => True end.
Proof.
  unfold is_online. rewrite existsb_exists. split.
  - intros (w & Hw & H). rewrite !andb_true_iff in H. destruct H as [[Hi Hm] Hg].
    apply String.eqb_eq in Hi, Hm. apply list_elem_of_In in Hw.
    assert (exists w', w' ∈ workers (classify_connections connections) /\ cw_market w' = cw_market w /\
              cw_gateway w' = cw_gateway w /\ cw_account_id w' = ka_account_id a) as Hx by (by exists w).
    apply worker_listens in Hx as (Hl & Hdm & Hdg & Hdi). split; [done|]. exists (cw_market w), (cw_gateway w).
    split_and!; try done. destruct (ka_gateway a); [by apply String.eqb_eq|done].
  - intros (Hdi & m & g & Hl & Hdm & Hdg & Hm & Hg).
    assert (exists w, w ∈ workers (classify_connections connections) /\ cw_market w = m /\ cw_gateway w = g /\
              cw_account_id w = ka_account_id a) as (w & Hw & <- & <- & Hi) by (by apply worker_listens).
    exists w. split; [by apply list_elem_of_In|]. rewrite Hi, String.eqb_refl, Hm, String.eqb_refl.
    destruct (ka_gateway a) as [g'|]; [|done]. cbn. by apply String.eqb_eq.
Qed.

(** [make status] tells how the links are.  It exits with zero exactly when
    Postgres answers, NATS is reached, the stream exists with a pull request waiting at
    one of the samples, and the API answers 200; neither the engine nor a worker being
    away fails it.  An account counts as online exactly when a client that is neither
    the broker, the probe nor the engine listens on the private subject of that
    account, up to the case of its market and gateway, so never when its id has
    a dot; and the Workers line is OK exactly when some worker is connected and every known
    account is online. *)
Theorem status_tells_links l :
  (exit_code (collect_reports l) = 0%Z <-> all_up l) /\
  (forall a connections,
     is_online a (workers (classify_connections connections)) = true <->
     no_dot (ka_account_id a) /\ exists m g,
       listens connections (compose_admin_subject m g (ka_account_id a)) /\ no_dot m /\ no_dot g /\
       upper m = upper (ka_market a) /\ match ka_gateway a with Some g' => upper g = upper g' | None => True end) /\
  (forall accounts connections, postgres l = Ok accounts -> dial l = None -> connz l = Ok connections ->
     let clients := classify_connections connections in
     exists r, collect_reports l !! 5 = Some r /\ lr_target r = "Workers" /\
       (lr_verdict r = Verdict.OK <-> workers clients <> [] /\ Forall (fun a => is_online a (workers clients) = true) accounts)).
Proof.
  split; [|split].
  - rewrite exit_zero. unfold collect_reports, all_up, probe_postgres, probe_nats.
    destruct (postgres l) as [accounts|failure].
    2: { split; [|by intros [[? [=]] _]]. intros H. destruct (dial l); by inversion_clear H. }
    destruct (dial l) as [failure|].
    { split; [|by intros (_ & [=] & _)]. intros H. inversion_clear H as [|? ? _ H']. by inversion_clear H'. }
    rewrite !Forall_app, !Forall_cons, stream_verdict. unfold probe_api.
    split.
    + intros ((_ & _ & [Hs Hp] & Ha & _) & _). split_and!; [by eexists|done|done|done|].
      revert Ha. destruct (api l) as [answered|]; [|done]. by destruct (Z.eqb_spec answered 200) as [->|].
    + intros (_ & _ & Hs & Hp & ->). split; [|apply clients_never_fail]. by split_and!.
  - intros a connections. apply online_spec.
  - intros accounts connections Hp Hd Hc clients. unfold collect_reports, probe_postgres, probe_nats, probe_clients.
    rewrite Hp, Hd, Hc. eexists. split; [reflexivity|]. split; [done|]. fold clients. unfold workers_report. cbn [lr_verdict].
    destruct (workers clients) as [|w ws] eqn:Ew; [split; [done|by intros [? _]]|]. rewrite Forall_forall.
    destruct (base.filter _ accounts) as [|a rest] eqn:Ef.
    + split; [|done]. intros _. split; [done|]. intros a Ha. destruct (is_online a (w :: ws)) eqn:E; [done|].
      assert (a ∈ base.filter (fun a => is_online a (w :: ws) = false) accounts) as Hin by (by apply list_elem_of_filter).
      rewrite Ef in Hin. by apply elem_of_nil in Hin.
    + split; [done|]. intros [_ H].
      assert (a ∈ base.filter (fun a => is_online a (w :: ws) = false) accounts) as Hin by (rewrite Ef; left).
      apply list_elem_of_filter in Hin as [Hf Ha]. by rewrite H in Hf.
Qed.
End truth.

(** A worker whose subscription is spelled in another case counts as online, although
    a directive for the account is published on another subject. *)
Example online_in_other_case :
  let worker := {| cn_name := None; cn_lang := Some "python3"; cn_ip := Some "10.0.0.7";
                   cn_subscriptions := [compose_admin_subject "FOREX" "mt5" "1234"; "GOLD_M5"] |} in
  let account := {| ka_market := "FOREX"; ka_gateway := Some "MT5"; ka_account_id := "1234"; ka_account_name := None;
                    ka_last_activity_at := None |} in
  is_online account (workers (classify_connections [worker])) = true /\
  compose_admin_subject "FOREX" "MT5" "1234" ∉ cn_subscriptions worker /\
  map online_line (workers (classify_connections [worker])) = ["online   FOREX-mt5-1234  from 10.0.0.7  strategies: GOLD_M5"].
Proof. split; [by vm_compute|]. split; [by apply (bool_decide_unpack _); vm_compute|by vm_compute]. Qed.
